(* ===== verification/_CoqProject ===== *)
-Q . S2P
Prelude.v
CString.v
Spinlock.v
Kalloc.v
Apic.v
ApicFacts.v
Mp.v
Proc.v
Sched.v
Demo.v
MlfqFacts.v
SchedFacts.v
ProcFacts.v
Sleep.v
Ring.v
Pipe.v
Block.v
Elf.v
Log.v
LogFacts.v
Vm.v
Steady.v
Segs.v
Startup.v
VmFacts.v
AddrSpace.v
SpaceOps.v
SpaceSpec.v
Syscall.v
Fork.v
Wait.v
Quiet.v
UserMem.v
Userland.v
Fs.v
FsFacts.v
Grow.v
InodeFacts.v
DirFacts.v
Path.v
Transact.v
File.v
Bio.v
BioFacts.v
Sysfile.v
SysfileFacts.v
Umalloc.v
Sh.v
ShFacts.v
ShGrammar.v
ShRun.v
Kbd.v
Console.v
ConsoleFacts.v
Ide.v
IdeFacts.v
Boot.v
Exec.v
ExecFacts.v
ExecSpec.v
Mkfs.v
MkfsFacts.v
MkfsSpec.v
Programs.v
ProgramsFacts.v
Usertests.v
UsertestsFacts.v
