(* ===== verification/Prelude.v ===== *)
(** * A verification of xv6 with a multi-level feedback queue scheduler

    The program is the xv6 kernel for 32-bit x86 (src/xv6-public) with the
    scheduler of proc.c replaced by a three-level feedback queue (MLFQ).  This
    library translates its C functions into Rocq definitions of the same names
    and proves what they do.

    ** The program and its model

    The kernel's parts call each other from the top down: traps and system calls
    (trap.c, syscall.c, sysproc.c, sysfile.c, exec.c) call the process table
    (proc.c) and open files (file.c, pipe.c, console.c); files call the file
    system (fs.c), which writes through the log (log.c) and the buffer cache
    (bio.c) to the disk (ide.c, or memide.c for a disk in memory); processes get
    memory from vm.c, which gets pages from kalloc.c; everything uses spin locks
    (spinlock.c) and sleeping locks (sleeplock.c).  Interrupts enter through
    trap.c into kbd.c, uart.c and ide.c.  The scheduler chooses from the queues
    and switches to a process; a process comes back through yield, sleep or exit.
    Above the kernel are the shell (sh.c), the allocator of user programs
    (umalloc.c) and small programs.  Before it, mkfs.c builds the disk image and
    bootmain.c loads the kernel; main.c then sets up the page table, the
    interrupt controllers (lapic.c, ioapic.c, picirq.c), the descriptor tables
    and the other processors that mp.c found.

    - Prelude.v (this file): the result type [res] of a call (normal return,
      panic, access out of bounds, endless wait, fuel used up), machine integers,
      arrays, record update, the hint databases.
    - CString.v: memory, string.c (Module Kstring) and ulib.c (Module Ulib) on a
      byte-addressed memory.
    - Spinlock.v: [struct cpu], [struct spinlock] and spinlock.c, with mycpu and
      cpuid of proc.c (Module Spinlock), and several CPUs racing for a lock one
      atomic step at a time (Module LockRace).
    - Kalloc.v: kalloc.c, the free list threaded through memory.
    - Apic.v, ApicFacts.v: lapic.c with the clock of the CMOS, ioapic.c and
      picirq.c, on a class for the device registers.
    - Mp.v: mp.c, the tables of the BIOS in memory, and its theorems.
    - Proc.v: the data of proc.h, pstat.h and the trap frame; the kernel state
      [kst]; the queue operations returnQueue, addQueue, deleteQueue, degrade,
      updatePstat, returnProc, boost (Module Mlfq); the rest of proc.c but the
      scheduler (Module Ptable), with switchuvm and switchkvm of vm.c.
    - Sched.v: scheduler() of proc.c, cut into tick, slice, finish, dispatch,
      pass, round (Module Sched).
    - Demo.v: a small concrete machine on which the theorems are instantiated.
    - MlfqFacts.v, SchedFacts.v, ProcFacts.v: theorems on Proc.v and Sched.v.
    - Sleep.v: sleep and wakeup with a lock held, sleeplock.c (Module Sleeplock),
      and the interleaving of a sleeper with a waker (Module SleepRace).
    - Ring.v: ring buffers with counters that wrap, shared by pipes and console.
    - Pipe.v: pipe.c but pipealloc.
    - Block.v: blocks, little-endian fields, and the block device [bdev] that
      log.c and fs.c work on: the contents of each block behind the cache, the
      buffers held and pinned, and the writes that reached the disk, in order.
    - Elf.v: the headers of elf.h.
    - Log.v, LogFacts.v: log.c and readsb of fs.c, and their theorems.
    - Vm.v, VmFacts.v: the page tables of vm.c.  AddrSpace.v, SpaceOps.v,
      SpaceSpec.v: an address space as the owner of its pages, and setupkvm,
      allocuvm, deallocuvm, copyuvm and freevm in these terms.  Fork.v: fork and
      growproc on top of them.  Wait.v: exit and wait.
    - Steady.v: the functions of vm.c and kalloc.c leave the CPU as they found it.
      Quiet.v: what a process sees of the kernel's state across a call that does
      not switch to another process.  UserMem.v: loaduvm.
    - Segs.v: descriptors, gates and the task state of mmu.h, seginit, tvinit,
      idtinit and the first page table, with the processor's rules for entering
      the kernel.  Startup.v: startothers, mpenter and mpmain of main.c.
    - Syscall.v: syscall.c, sysproc.c and trap of trap.c.
    - Userland.v: grep.c, wc.c and printf.c.
    - Fs.v, FsFacts.v: fs.c; Grow.v: files that get new blocks; InodeFacts.v:
      locking an inode; DirFacts.v: directories, also those that grow; Path.v:
      paths.  Transact.v: begin_op and end_op when the log has room.
    - File.v: file.c and pipealloc.
    - Bio.v: bio.c and iderw of memide.c; BioFacts.v: the cache implements the
      device of Block.v.
    - Sysfile.v, SysfileFacts.v: sysfile.c, on the memory of the calling process.
    - Umalloc.v: umalloc.c, and its theorems.
    - Sh.v: sh.c.  The parser works on a store of command objects that point to
      each other and into the line's buffer, as in C; a process is a tree of the
      system calls it makes, and a call that takes a string carries the memory of
      the process at that time.  ShFacts.v, ShGrammar.v, ShRun.v: its theorems.
    - Kbd.v: kbd.c and the tables of kbd.h.
    - Console.v, ConsoleFacts.v: console.c and uart.c: the screen, cprintf, line
      editing, read and write.
    - Ide.v, IdeFacts.v: ide.c, against a class for the controller.
    - Boot.v: bootmain.c on the same class.
    - Exec.v: exec.c and sys_exec; ExecFacts.v: the stack it builds; ExecSpec.v:
      the image that a program file describes, and exec as a whole.
    - Mkfs.v, MkfsFacts.v, MkfsSpec.v: mkfs.c, and the image it makes as fs.c
      reads it.
    - Programs.v: cat, echo, init, kill, ln, ls, mkdir, rm, zombie, forktest,
      stressfs, test1, test2, test3 and the main functions of grep and wc, as
      interaction trees of system calls; ProgramsFacts.v: their theorems, on a
      small kernel that answers the calls.
    - Usertests.v: usertests.c, where a test's accesses to memory and ports and
      its bad pointers are events as well; UsertestsFacts.v: theorems on the tests.

    A C structure is a record, a table of structures a list or a function of the
    index, a pointer to an entry its index.  State is passed explicitly, also the
    state of the CPU that locks change.  A loop that the code does not bound has
    a fuel argument; [OutOfFuel] is then a result of its own and the theorems say
    how much is enough: the loops over tables need their length, the loops of
    balloc, readi and writei get their bound from the sizes they work on, a slice
    of the scheduler needs more than the largest quantum, 8, a wait needs the
    number of rounds after which the others give way, the shell's parser needs
    four times the length of the line, a request to the disk one round for each
    request before it, and malloc four times the length of its free list.

    Other processes are functions: [run] is what a process does between two
    switches of the scheduler, [resume] what happens to the state and to the
    object waited for while a process sleeps.  Theorems quantify over them under
    hypotheses on what they leave intact ([run_ok], [resume_ok], [gives_up],
    [readers], [writers], [typists], [interrupts]).  In [interrupts] what the
    others do is itself a run of the driver's code.  What proc.c calls in vm.c,
    fs.c, log.c and file.c is the class [Services], which Fork.v instantiates with
    the page tables of Vm.v; the device table devsw is an argument of fs.c.  The
    IDE controller is the class [Drive], and [Ata] states what the driver relies
    on, with a drive that may report errors on any set of sectors ([reports]);
    the other devices are the class [Hw] with the laws [HwLaws], [Rtc] (the clock
    announces its updates: [announces], [rests]) and [Ipis], which records the
    commands that the local APIC sends; Startup.v reads the startup messages off
    that record.

    ** What is proved

    - Scheduling: queues refine lists (returnProc_spec, addQueue_spec,
      deleteQueue_spec); a dispatch runs the selected process for at most its
      quantum, charges it for the ticks and applies the feedback rule of the code
      (dispatch_spec, finish_refines); a pass dispatches a runnable process if
      there is one (pass_dispatches).  That rule is not the one of the project's
      description: a process of the lowest queue is boosted when it has run for 50
      ticks there, not when it has waited for 50, and the lowest queue is not
      rotated (q2_not_rotated).  Where the code fails: deleteQueue_absent,
      allocproc_drops, reap_keeps_queues, tick_trace_overflow.
    - Processes: allocproc and kill (allocproc_spec, allocproc_pid, kill_spec,
      kill_zero); fork copies the process and growproc resizes it, without losing
      a page (fork_spec, growproc_spec; growproc_to_zero, growproc_too_low); exit
      leaves a zombie for its parent (exit_spec, reparent_spec), which wait finds
      and whose memory it frees (wait_spec, wait_scan_spec).  exec replaces the
      memory of a process by the image of a program, or leaves it alone
      (exec_spec): the composition of paths, inodes, the log, page tables and
      the process table.
    - Locks: nesting of cli (cli_nesting), acquire and release
      (acquire_release, lock_misuse), mutual exclusion on any number of CPUs
      (spinlock_mutual_exclusion), no lost wakeups (no_lost_wakeup), sleep_spec,
      acquiresleep_spec.
    - Memory: the page allocator keeps its free list (kalloc_spec, kfree_spec,
      freerange_spec), mappages builds the mapping it is asked for
      (mappages_spec, mappages_remap), uva2ka_null; address spaces own their pages
      (setupkvm_spec, allocuvm_spec, deallocuvm_spec, copyuvm_spec, freevm_spec).
      The allocator of user programs keeps its blocks apart for requests below
      2 GB (malloc_spec, free_spec, malloc_free_disjoint), but does not check
      sizes (malloc_wraps).
    - Hardware set-up: the loader places the kernel (bootmain_spec), the tables of
      the BIOS give the processors (mpsearch_spec, mpinit_spec;
      mpinit_unknown_entry, mpinit_always_suitable), every processor is started
      (startothers_spec), interrupts are routed (ioapic_routing, lapicinit_spec)
      and enter the kernel only as meant (kernel_entry), the first page table
      (entrypgdir_spec), and the clock is read whole (cmostime_spec).
    - Pipes: bytes come out in the order they went in (pipewrite_spec,
      piperead_spec, pipealloc_spec).
    - Disk: commits are atomic under crashes (commit_atomic), log_write_spec,
      log_reservation_gap; block and inode allocation (balloc_spec, balloc_full,
      bfree_spec, iget_spec), inodes on disk (iupdate_spec), file contents
      (readi_spec, writei_spec, writei_readi) also of files that grow
      (writei_grows), paths (skipelem_spec, namex_spec),
      directories (dirlookup_spec, dirlink_dirlookup), the file table
      (filealloc_spec).  The
      cache refines the block device (bcache_refines, bget_recycles_lru,
      bget_exhausted).  The driver serves requests in order, and iderw returns
      with buffer and disk in agreement unless the drive reported an error for
      the block (iderw_spec; ide_error_ignored).  The
      image that mkfs makes holds the files, as the kernel reads it (mkfs_readi,
      mkfs_dirlookup; mkfs_root_hole).
    - System calls: arguments are checked against the process's memory
      (argptr_safe, fetchstr_spec, syscall_unknown, sys_sleep_waits); descriptors
      and reference counts agree, also when a call is undone (fdalloc_spec,
      sys_dup_spec, sys_pipe_spec, sys_pipe_undone, isdirempty_spec); exec lays out
      the stack of the program or stops at the guard page (build_stack_spec).
    - Console: scan codes to characters (kbdgetc_type, letter_stroke), the screen
      and its scrolling (cgaputc_spec), line editing (consoleintr_spec,
      kbdintr_safe), reading (consoleread_spec, console_roundtrip).
    - Shell: every line ends in a command or a message (sh_line_total), the parser
      understands its grammar (parsecmd_spec), a pipeline is wired up as it reads
      (sh_pipeline).
    - Programs and strings: grep_match_spec, grep_drops_partial_line, wc_spec,
      printint_spec, atoi_printint, memmove_spec, memset_spec, strncmp_zero,
      strncpy_spec, safestrcpy_spec; cat, echo and wc write what they should
      (cat_spec, echo_spec, wc_prog_spec), ls formats names (fmtname_spec), init
      runs one shell after the other for ever (init_supervises).
    - Tests: pipe1 accepts exactly the right bytes (pipe1_exact), exec refuses the
      arguments of bigargtest (bigargs_refused), writetest1 accepts files that are
      too short (writetest1_short), and the work of test1 and test2 has the result
      0 in either precision of the processor (work_result).

    Every theorem with hypotheses has an instance on a concrete state, named
    after it with the suffix [_witness], where the hypotheses hold.

    ** What is not modelled

    Assembly (bootasm.S, entry.S, entryother.S, swtch.S, trapasm.S, vectors.pl,
    initcode.S, usys.S) has no model: a switch or a trap is the point where the
    models hand control to their environment.  main() of main.c, which calls the
    initialisation functions one after the other, is not composed, because the
    parts have states of their own.  A process that sleeps sees the changes of
    others to the object it waits for, not to the rest of the state it was
    handed.  Messages to the console are kept as their format and values
    ([printk]); those of allocuvm and mpmain, and what a call printed before it
    panics, are not kept.  uartinit, which programs the chip, panic, which stops the machine,
    and kvmalloc, which calls setupkvm and switchkvm, have no model.  Modelled
    but without theorems of their own: itrunc and the iput of an unlinked file,
    cprintf, most of the calls of sysfile.c, grep's
    main loop, ls, ln, mkdir, rm, kill, and most of the test programs. *)

From stdpp Require Export base list numbers strings sets gmap.
From stdpp Require Import options.

#[global] Open Scope Z_scope.

(** * Results: what a call of kernel code can end in *)

(** [Ok] is a normal return.  [Panic] is a call of [panic] with its message.
    [OOB] is an access outside the bounds of an array, which C leaves
    undefined.  [Spin] is a wait that no one else can end (a spin lock that the
    sequential execution finds taken).  [OutOfFuel] is the bound of a model of a
    loop that has no static bound in the code. *)
Inductive res (A : Type) : Type :=
| Ok (a : A)
| Panic (msg : string)
| OOB (what : string)
| Spin
| OutOfFuel.
Arguments Ok {A} a.
Arguments Panic {A} msg.
Arguments OOB {A} what.
Arguments Spin {A}.
Arguments OutOfFuel {A}.

Definition res_bind {A B : Type} (m : res A) (k : A -> res B) : res B :=
  match m with
  | Ok a => k a
  | Panic s => Panic s
  | OOB s => OOB s
  | Spin => Spin
  | OutOfFuel => OutOfFuel
  end.

Declare Scope res_scope.
Delimit Scope res_scope with res.
Notation "'let?' x ':=' m 'in' k" := (res_bind m (fun x => k))
  (at level 10, x pattern, m at level 150, k at level 200) : res_scope.
#[global] Open Scope res_scope.

Definition is_ok {A : Type} (m : res A) : bool :=
  match m with Ok _ => true | _ => false end.

(** Inversion of a successful sequence. *)
Lemma res_bind_Ok {A B : Type} (m : res A) (k : A -> res B) (b : B) :
  res_bind m k = Ok b <-> exists a, m = Ok a /\ k a = Ok b.
Proof.
  destruct m; simpl; split; try (intros H; discriminate).
  1: by eauto.
  1: intros (? & [= ->] & ?); done.
  all: by intros (? & ? & ?).
Qed.

Lemma res_bind_assoc {A B C : Type} (m : res A) (f : A -> res B) (g : B -> res C) :
  res_bind (res_bind m f) g = res_bind m (fun a => res_bind (f a) g).
Proof. by destruct m. Qed.

(** [inv_res] opens every hypothesis of the form [let? x := m in k = Ok b]. *)
Ltac inv_res :=
  repeat match goal with
  | H : res_bind _ _ = Ok _ |- _ =>
      apply res_bind_Ok in H; destruct H as (? & ? & H)
  | H : Ok _ = Ok _ |- _ => injection H as H; simplify_eq
  end.

(** * Machine integers *)

(** The kernel is compiled for 32-bit x86: [uint] and pointers are numbers
    modulo 2^32, [int] is its two's complement reading. *)
Definition u8 (x : Z) : Z := x mod 2 ^ 8.
Definition u16 (x : Z) : Z := x mod 2 ^ 16.
Definition u32 (x : Z) : Z := x mod 2 ^ 32.
Definition s32 (x : Z) : Z := (x + 2 ^ 31) mod 2 ^ 32 - 2 ^ 31.

Lemma u32_range x : 0 <= u32 x < 2 ^ 32.
Proof. apply Z.mod_pos_bound; lia. Qed.

Lemma u32_small x : 0 <= x < 2 ^ 32 -> u32 x = x.
Proof. apply Z.mod_small. Qed.

Lemma u8_small x : 0 <= x < 2 ^ 8 -> u8 x = x.
Proof. apply Z.mod_small. Qed.

Lemma s32_small x : - 2 ^ 31 <= x < 2 ^ 31 -> s32 x = x.
Proof. intros H. unfold s32. rewrite Z.mod_small; lia. Qed.

Lemma s32_range x : - 2 ^ 31 <= s32 x < 2 ^ 31.
Proof. unfold s32. pose proof (Z.mod_pos_bound (x + 2 ^ 31) (2 ^ 32)). lia. Qed.

Lemma s32_add_l x y : s32 (s32 x + y) = s32 (x + y).
Proof.
  unfold s32. f_equal. replace (_ - 2 ^ 31 + y + 2 ^ 31) with ((x + 2 ^ 31) mod 2 ^ 32 + y) by lia.
  rewrite Zplus_mod_idemp_l. f_equal. lia.
Qed.

Lemma u32_add_l x y : u32 (u32 x + y) = u32 (x + y).
Proof. apply Zplus_mod_idemp_l. Qed.

Lemma u32_add_r x y : u32 (x + u32 y) = u32 (x + y).
Proof. apply Zplus_mod_idemp_r. Qed.

Lemma u32_sub_l x y : u32 (u32 x - y) = u32 (x - y).
Proof. apply Zminus_mod_idemp_l. Qed.

Lemma u32_sub_r x y : u32 (x - u32 y) = u32 (x - y).
Proof. apply Zminus_mod_idemp_r. Qed.

Lemma u32_idemp x : u32 (u32 x) = u32 x.
Proof. apply Zmod_mod. Qed.

Create HintDb xv6 discriminated.
#[export] Hint Resolve u32_range s32_range : xv6.
Create Rewrite HintDb u32.
#[export] Hint Rewrite u32_add_l u32_add_r u32_sub_l u32_sub_r u32_idemp : u32.

(** * Constants of memlayout.h, mmu.h, param.h and traps.h *)

Definition KERNBASE : Z := 0x80000000.
Definition PHYSTOP : Z := 0xE000000.
Definition PGSIZE : Z := 4096.
Definition KSTACKSIZE : Z := 4096.
Definition NPROC : nat := 64.
Definition NOFILE : nat := 16.
Definition NCPU : nat := 8.

Definition SEG_KCODE : Z := 1.
Definition SEG_KDATA : Z := 2.
Definition SEG_UCODE : Z := 3.
Definition SEG_UDATA : Z := 4.
Definition SEG_TSS : Z := 5.
Definition DPL_USER : Z := 3.

Definition T_SYSCALL : Z := 64.
Definition T_IRQ0 : Z := 32.
Definition IRQ_TIMER : Z := 0.
Definition IRQ_KBD : Z := 1.
Definition IRQ_COM1 : Z := 4.
Definition IRQ_IDE : Z := 14.
Definition IRQ_ERROR : Z := 19.
Definition IRQ_SPURIOUS : Z := 31.

(** * Record update *)

(** A record type declares its own expansion into constructor and fields;
    [setter f] is then the update of field [f]. *)
Class Eta (R : Type) := eta : R -> R.

Ltac setter f :=
  lazymatch type of f with
  | ?R -> ?T =>
      let g := constr:(fun (v : T) (r : R) =>
        ltac:(let e := constr:(_ : Eta R) in
              let e := eval hnf in e in
              let t := eval cbv beta in (e r) in
              let t := eval pattern (f r) in t in
              lazymatch t with ?h _ => let u := eval cbv beta in (h v) in exact u end)) in
      exact g
  end.

(** * Arrays *)

(** An array of the source is a list of its fixed length; an index is an
    [int], and an access outside the array is [OOB]. *)
Section Arrays.
Context {A : Type}.
Implicit Types (l : list A) (i : Z) (v : A).

Definition zget (what : string) (l : list A) (i : Z) : res A :=
  if 0 <=? i then
    match l !! Z.to_nat i with Some a => Ok a | None => OOB what end
  else OOB what.

Definition zset (what : string) (l : list A) (i : Z) (v : A) : res (list A) :=
  if (0 <=? i) && (i <? Z.of_nat (length l)) then Ok (<[Z.to_nat i := v]> l)
  else OOB what.

Lemma zget_Ok w l i a : zget w l i = Ok a <-> 0 <= i /\ l !! Z.to_nat i = Some a.
Proof.
  unfold zget. destruct (Z.leb_spec 0 i) as [?|?].
  - destruct (l !! Z.to_nat i); split; try intros [_ ?]; naive_solver.
  - split; [done | lia].
Qed.

Lemma zget_of_nat w l (i : nat) a : l !! i = Some a -> zget w l (Z.of_nat i) = Ok a.
Proof. intros H. apply zget_Ok. rewrite Nat2Z.id. split; [lia | done]. Qed.

Lemma zset_in w l i v :
  0 <= i < Z.of_nat (length l) -> zset w l i v = Ok (<[Z.to_nat i := v]> l).
Proof.
  intros H. unfold zset.
  by rewrite (proj2 (Z.leb_le _ _)), (proj2 (Z.ltb_lt _ _)) by lia.
Qed.

Lemma zset_out w l i v :
  (i < 0 \/ Z.of_nat (length l) <= i) -> zset w l i v = OOB w.
Proof.
  intros H. unfold zset. destruct (Z.leb_spec 0 i), (Z.ltb_spec i (Z.of_nat (length l)));
    simpl; try done; lia.
Qed.

Lemma zget_out w l i : (i < 0 \/ Z.of_nat (length l) <= i) -> zget w l i = OOB w.
Proof.
  intros H. unfold zget. destruct (Z.leb_spec 0 i); [|done].
  by rewrite (proj2 (lookup_ge_None l (Z.to_nat i))) by lia.
Qed.

Lemma zset_Ok w l i v l' :
  zset w l i v = Ok l' <->
  0 <= i < Z.of_nat (length l) /\ l' = <[Z.to_nat i := v]> l.
Proof.
  unfold zset. destruct (Z.leb_spec 0 i), (Z.ltb_spec i (Z.of_nat (length l)));
    simpl; (split; [try done; by intros [= <-] | intros [? ->]; try done; lia]).
Qed.
End Arrays.

(** * Sums over lists *)

Section Sums.
Context {A : Type}.
Implicit Types (f : A -> Z) (l : list A).

Fixpoint zsum f l : Z := match l with [] => 0 | a :: l' => f a + zsum f l' end.

Lemma zsum_insert f l (i : nat) a b :
  l !! i = Some a -> zsum f (<[i := b]> l) = zsum f l - f a + f b.
Proof.
  revert i. induction l as [|c l IH]; intros [|i] H; try done.
  - injection H as ->. cbn. lia.
  - specialize (IH i H). change (f c + zsum f (<[i := b]> l) = f c + zsum f l - f a + f b). lia.
Qed.

Lemma zsum_nonneg f l : (forall a, 0 <= f a) -> 0 <= zsum f l.
Proof. intros H. induction l as [|a l IH]; cbn; [lia|]. specialize (H a). lia. Qed.

Lemma zsum_ge f l (i : nat) a : (forall b, 0 <= f b) -> l !! i = Some a -> f a <= zsum f l.
Proof.
  intros H. revert i. induction l as [|c l IH]; intros [|i]; cbn; try done.
  - intros [= ->]. pose proof (zsum_nonneg f l H). lia.
  - intros Hi. specialize (IH i Hi). specialize (H c). lia.
Qed.
End Sums.

(** * Transition sequences *)

(** Zero or more steps of a relation, and the invariant principle. *)
Section Steps.
Context {S : Type} (step : S -> S -> Prop).

Inductive steps : S -> S -> Prop :=
| steps_refl s : steps s s
| steps_cons s t u : step s t -> steps t u -> steps s u.

Lemma steps_trans s t u : steps s t -> steps t u -> steps s u.
Proof. induction 1; eauto using steps. Qed.

Lemma steps_invariant (P : S -> Prop) s t :
  (forall x y, P x -> step x y -> P y) -> P s -> steps s t -> P t.
Proof. intros HP Hs. induction 1; eauto. Qed.
End Steps.
