(* ===== verification/CString.v ===== *)
(** Byte memory and the string routines: [string.c] (kernel) in Module
    [Kstring] and the string part of [ulib.c] (user library) in Module [Ulib].

    Memory is a function from addresses to bytes.  A routine receives the
    memory and pointers, and returns the memory it leaves and its value.
    Pointer arithmetic is not wrapped: C gives it a meaning only inside one
    object.  Loops on a count recurse on the count; loops on a terminating NUL
    take fuel, and the theorems give the fuel that is enough. *)

From S2P Require Import Prelude.

(** * Memory *)

Definition mem : Type := Z -> Z.

Definition store8 (m : mem) (a v : Z) : mem := fun x => if x =? a then u8 v else m x.

(** A 32-bit store, little endian. *)
Definition store32 (m : mem) (a v : Z) : mem :=
  store8 (store8 (store8 (store8 m a v) (a + 1) (Z.shiftr v 8)) (a + 2) (Z.shiftr v 16))
         (a + 3) (Z.shiftr v 24).

Definition load32 (m : mem) (a : Z) : Z :=
  m a + 2 ^ 8 * m (a + 1) + 2 ^ 16 * m (a + 2) + 2 ^ 24 * m (a + 3).

(** A range of bytes. *)
Fixpoint load_bytes (m : mem) (a : Z) (n : nat) : list Z :=
  match n with O => [] | S n' => m a :: load_bytes m (a + 1) n' end.
Fixpoint store_bytes (m : mem) (a : Z) (l : list Z) : mem :=
  match l with [] => m | b :: l' => store_bytes (store8 m a b) (a + 1) l' end.

(** Every cell of a memory holds a byte. *)
Definition bytes (m : mem) : Prop := forall a, 0 <= m a < 2 ^ 8.

Lemma store8_bytes m a v : bytes m -> bytes (store8 m a v).
Proof.
  intros H x. unfold store8. destruct (x =? a); [apply Z.mod_pos_bound; lia | apply H].
Qed.

Lemma store8_eq m a v : store8 m a v a = u8 v.
Proof. unfold store8. by rewrite Z.eqb_refl. Qed.

Lemma store8_ne m a v x : x <> a -> store8 m a v x = m x.
Proof. intros H. unfold store8. by rewrite (proj2 (Z.eqb_neq _ _)). Qed.

Lemma u8_byte (m : mem) a : bytes m -> u8 (m a) = m a.
Proof. intros H. apply u8_small, H. Qed.

#[export] Hint Resolve store8_bytes : xv6.

(** A string literal as bytes. *)
Definition bytes_of (x : string) : list Z :=
  map (fun a => Z.of_nat (Ascii.nat_of_ascii a)) (String.list_ascii_of_string x).

(** [cstr m p l]: the NUL-terminated string at [p] is [l]. *)
Fixpoint cstr (m : mem) (p : Z) (l : list Z) : Prop :=
  match l with
  | [] => m p = 0
  | c :: l' => m p = c /\ c <> 0 /\ cstr m (p + 1) l'
  end.

(** [bstr m p l]: the bytes from [p] on are [l]. *)
Fixpoint bstr (m : mem) (p : Z) (l : list Z) : Prop :=
  match l with
  | [] => True
  | c :: l' => m p = c /\ bstr m (p + 1) l'
  end.

Lemma cstr_agree m m' p l :
  (forall x, p <= x <= p + Z.of_nat (length l) -> m' x = m x) -> cstr m p l -> cstr m' p l.
Proof.
  revert p; induction l as [|c l IH]; intros p H; simpl.
  - rewrite H; [done | simpl; lia].
  - intros (<- & Hc & Hl). repeat split; [apply H; simpl; lia | done |].
    apply IH; [|done]. intros x Hx. apply H. simpl in *. lia.
Qed.

Lemma cstr_inj m p l1 l2 : cstr m p l1 -> cstr m p l2 -> l1 = l2.
Proof.
  revert p l2; induction l1 as [|c l1 IH]; intros p [|d l2]; simpl; [done| | |].
  - intros H0 (Hd & Hd0 & _). congruence.
  - intros (Hd & Hd0 & _) H0. congruence.
  - intros (<- & _ & H1) (-> & _ & H2). f_equal. eauto.
Qed.

Lemma cstr_end m p l : cstr m p l -> m (p + Z.of_nat (length l)) = 0.
Proof.
  revert p; induction l as [|c l IH]; intros p Hl; simpl in Hl.
  - by rewrite Z.add_0_r.
  - destruct Hl as (_ & _ & Hl). rewrite <- (IH (p + 1) Hl). f_equal. simpl. lia.
Qed.

Lemma bstr_app m a l l' : bstr m a (l ++ l') <-> bstr m a l /\ bstr m (a + Z.of_nat (length l)) l'.
Proof.
  revert a. induction l as [|b l IH]; intros a; cbn [app bstr length].
  - rewrite Z.add_0_r. tauto.
  - rewrite IH. replace (a + Z.of_nat (S (length l))) with (a + 1 + Z.of_nat (length l)) by lia. tauto.
Qed.


Lemma store_bytes_out m a l x : x < a \/ a + Z.of_nat (length l) <= x -> store_bytes m a l x = m x.
Proof.
  revert m a. induction l as [|b l IH]; intros m a H; [done|]. cbn [store_bytes length] in *.
  rewrite IH by lia. apply store8_ne. lia.
Qed.

Lemma store_bytes_bytes m a l : bytes m -> bytes (store_bytes m a l).
Proof. revert m a. induction l as [|b l IH]; intros m a H; [done|]. cbn. by apply IH, store8_bytes. Qed.

Lemma store_bytes_in l : forall m a x, Forall (fun b => 0 <= b < 2 ^ 8) l -> a <= x < a + Z.of_nat (length l) ->
  l !! Z.to_nat (x - a) = Some (store_bytes m a l x).
Proof.
  induction l as [|b l IH]; intros m a x Hl Hx; cbn [length store_bytes] in *; [lia|]. apply Forall_cons in Hl as [Hb Hl].
  destruct (decide (x = a)) as [->|Hne].
  - rewrite Z.sub_diag, store_bytes_out by lia. by rewrite store8_eq, u8_small.
  - replace (Z.to_nat (x - a)) with (S (Z.to_nat (x - (a + 1)))) by lia. apply IH; [done|lia].
Qed.

(** * string.c *)

Module Kstring.

(** [rep stosb] and [rep stosl] of x86.h. *)
Fixpoint stosb (m : mem) (addr data : Z) (cnt : nat) : mem :=
  match cnt with
  | O => m
  | S k => stosb (store8 m addr data) (addr + 1) data k
  end.

Fixpoint stosl (m : mem) (addr data : Z) (cnt : nat) : mem :=
  match cnt with
  | O => m
  | S k => stosl (store32 m addr data) (addr + 4) data k
  end.

Definition memset (m : mem) (dst c n : Z) : mem * Z :=
  if (Z.rem (s32 dst) 4 =? 0) && (n mod 4 =? 0) then
    let c := Z.land c 0xFF in
    let w := Z.lor (Z.lor (Z.lor (Z.shiftl c 24) (Z.shiftl c 16)) (Z.shiftl c 8)) c in
    (stosl m dst w (Z.to_nat (n / 4)), dst)
  else (stosb m dst c (Z.to_nat n), dst).

Fixpoint memcmp (m : mem) (s1 s2 : Z) (n : nat) : Z :=
  match n with
  | O => 0
  | S k => if m s1 =? m s2 then memcmp m (s1 + 1) (s2 + 1) k else m s1 - m s2
  end.

(** The two loops of [memmove]: downwards from the ends, upwards from the
    starts. *)
Fixpoint copy_down (m : mem) (d s : Z) (n : nat) : mem :=
  match n with
  | O => m
  | S k => copy_down (store8 m (d - 1) (m (s - 1))) (d - 1) (s - 1) k
  end.

Fixpoint copy_up (m : mem) (d s : Z) (n : nat) : mem :=
  match n with
  | O => m
  | S k => copy_up (store8 m d (m s)) (d + 1) (s + 1) k
  end.

Definition memmove (m : mem) (dst src n : Z) : mem * Z :=
  if (src <? dst) && (dst <? src + n) then (copy_down m (dst + n) (src + n) (Z.to_nat n), dst)
  else (copy_up m dst src (Z.to_nat n), dst).

Definition memcpy (m : mem) (dst src n : Z) : mem * Z := memmove m dst src n.

Fixpoint strncmp (m : mem) (p q : Z) (n : nat) : Z :=
  match n with
  | O => 0
  | S k =>
      if negb (m p =? 0) && (m p =? m q) then strncmp m (p + 1) (q + 1) k
      else m p - m q
  end.

(** First loop of [strncpy]: the memory, [s], and the count left for the
    padding loop. *)
Fixpoint strncpy_copy (m : mem) (s t : Z) (n : nat) : mem * Z * nat :=
  match n with
  | O => (m, s, O)
  | S k =>
      let c := m t in
      let m' := store8 m s c in
      if c =? 0 then (m', s + 1, k) else strncpy_copy m' (s + 1) (t + 1) k
  end.

Definition strncpy (m : mem) (s t n : Z) : mem * Z :=
  let '(m', s', k) := strncpy_copy m s t (Z.to_nat n) in
  (stosb m' s' 0 k, s).

(** The loop of [safestrcpy] runs on [--n > 0]. *)
Fixpoint safestrcpy_copy (m : mem) (s t : Z) (n : nat) : mem * Z :=
  match n with
  | O => (m, s)
  | S k =>
      let c := m t in
      let m' := store8 m s c in
      if c =? 0 then (m', s + 1) else safestrcpy_copy m' (s + 1) (t + 1) k
  end.

Definition safestrcpy (m : mem) (s t n : Z) : mem * Z :=
  if n <=? 0 then (m, s)
  else let '(m', s') := safestrcpy_copy m s t (Z.to_nat (n - 1)) in
       (store8 m' s' 0, s).

Fixpoint strlen_from (fuel : nat) (m : mem) (s n : Z) : res Z :=
  match fuel with
  | O => OutOfFuel
  | S k => if m (s + n) =? 0 then Ok n else strlen_from k m s (n + 1)
  end.

Definition strlen (fuel : nat) (m : mem) (s : Z) : res Z := strlen_from fuel m s 0.

End Kstring.

(** ** Lemmas on the loops *)

Section Loops.
Import Kstring.
Implicit Types (m : mem) (n : nat).

Lemma stosb_spec n m a c x :
  stosb m a c n x = if (a <=? x) && (x <? a + Z.of_nat n) then u8 c else m x.
Proof.
  revert m a; induction n as [|n IH]; intros m a; cbn [stosb].
  - destruct (Z.leb_spec a x), (Z.ltb_spec x (a + Z.of_nat 0)); simpl; try done; lia.
  - rewrite IH. unfold store8.
    destruct (Z.leb_spec (a + 1) x), (Z.ltb_spec x (a + 1 + Z.of_nat n)),
      (Z.leb_spec a x), (Z.ltb_spec x (a + Z.of_nat (S n))), (Z.eqb_spec x a);
      simpl; try done; lia.
Qed.

Lemma store32_spec m a v x :
  store32 m a v x =
  if (a <=? x) && (x <? a + 4) then u8 (Z.shiftr v (8 * (x - a))) else m x.
Proof.
  unfold store32, store8.
  destruct (Z.eqb_spec x (a + 3)) as [->|].
  { replace (a + 3 - a) with 3 by lia.
    rewrite (proj2 (Z.leb_le _ _)), (proj2 (Z.ltb_lt _ _)) by lia. done. }
  destruct (Z.eqb_spec x (a + 2)) as [->|].
  { replace (a + 2 - a) with 2 by lia.
    rewrite (proj2 (Z.leb_le _ _)), (proj2 (Z.ltb_lt _ _)) by lia. done. }
  destruct (Z.eqb_spec x (a + 1)) as [->|].
  { replace (a + 1 - a) with 1 by lia.
    rewrite (proj2 (Z.leb_le _ _)), (proj2 (Z.ltb_lt _ _)) by lia. done. }
  destruct (Z.eqb_spec x a) as [->|].
  { rewrite Z.sub_diag, Z.leb_refl, (proj2 (Z.ltb_lt _ _)) by lia. done. }
  destruct (Z.leb_spec a x), (Z.ltb_spec x (a + 4)); simpl; try done; lia.
Qed.

(** A word whose four bytes are all [c]. *)
Lemma stosl_spec n m a w c x :
  (forall i, 0 <= i < 4 -> u8 (Z.shiftr w (8 * i)) = c) ->
  stosl m a w n x = if (a <=? x) && (x <? a + 4 * Z.of_nat n) then c else m x.
Proof.
  intros Hw. revert m a; induction n as [|n IH]; intros m a; cbn [stosl].
  - destruct (Z.leb_spec a x), (Z.ltb_spec x (a + 4 * Z.of_nat 0)); simpl; try done; lia.
  - rewrite IH, store32_spec.
    destruct (Z.leb_spec (a + 4) x), (Z.ltb_spec x (a + 4 + 4 * Z.of_nat n)),
      (Z.leb_spec a x), (Z.ltb_spec x (a + 4 * Z.of_nat (S n))), (Z.ltb_spec x (a + 4));
      simpl; try done; try lia. apply Hw; lia.
Qed.

Lemma copy_up_spec n m d s x :
  bytes m -> (d <= s \/ s + Z.of_nat n <= d) ->
  copy_up m d s n x = if (d <=? x) && (x <? d + Z.of_nat n) then m (s + (x - d)) else m x.
Proof.
  revert m d s; induction n as [|n IH]; intros m d s Hm Hds; cbn [copy_up].
  { destruct (Z.leb_spec d x), (Z.ltb_spec x (d + Z.of_nat 0)); simpl; try done; lia. }
  rewrite IH by (auto with xv6; lia).
  unfold store8. rewrite u8_byte by done.
  destruct (Z.leb_spec (d + 1) x), (Z.ltb_spec x (d + 1 + Z.of_nat n)),
    (Z.leb_spec d x), (Z.ltb_spec x (d + Z.of_nat (S n))); simpl; try lia.
  1: { rewrite (proj2 (Z.eqb_neq _ _)) by lia. f_equal; lia. }
  all: destruct (Z.eqb_spec x d) as [->|]; try lia; try done.
  f_equal; lia.
Qed.

Lemma copy_down_spec n m d s x :
  bytes m -> s <= d ->
  copy_down m d s n x =
  if (d - Z.of_nat n <=? x) && (x <? d) then m (s + (x - d)) else m x.
Proof.
  revert m d s; induction n as [|n IH]; intros m d s Hm Hds; cbn [copy_down].
  { destruct (Z.leb_spec (d - Z.of_nat 0) x), (Z.ltb_spec x d); simpl; try done; lia. }
  rewrite IH by (auto with xv6; lia).
  unfold store8. rewrite u8_byte by done.
  destruct (Z.leb_spec (d - 1 - Z.of_nat n) x), (Z.ltb_spec x (d - 1)),
    (Z.leb_spec (d - Z.of_nat (S n)) x), (Z.ltb_spec x d); simpl; try lia.
  1: { rewrite (proj2 (Z.eqb_neq _ _)) by lia. f_equal; lia. }
  all: destruct (Z.eqb_spec x (d - 1)) as [->|]; try lia; try done.
  f_equal; lia.
Qed.

Lemma strncmp_agree n m p q l1 l2 :
  cstr m p l1 -> cstr m q l2 -> (strncmp m p q n = 0 <-> take n l1 = take n l2).
Proof.
  revert p q l1 l2; induction n as [|n IH]; intros p q l1 l2 H1 H2; cbn [strncmp]; [done|].
  destruct l1 as [|c l1], l2 as [|d l2]; simpl in H1, H2.
  - rewrite H1, H2. done.
  - destruct H2 as (-> & Hd & H2). rewrite H1; simpl. split; [lia | done].
  - destruct H1 as (-> & Hc & H1). rewrite H2, (proj2 (Z.eqb_neq c 0)) by done; simpl.
    split; [lia | done].
  - destruct H1 as (-> & Hc & H1), H2 as (-> & Hd & H2).
    rewrite (proj2 (Z.eqb_neq c 0)) by done; simpl.
    destruct (Z.eqb_spec c d) as [->|Hne]; simpl.
    + rewrite (IH _ _ l1 l2) by done. split; [by intros -> | by intros [= ->]].
    + split; [lia | congruence].
Qed.

Lemma strlen_from_spec l fuel m s (n : Z) :
  cstr m (s + n) l -> (length l < fuel)%nat ->
  strlen_from fuel m s n = Ok (n + Z.of_nat (length l)).
Proof.
  revert fuel n; induction l as [|c l IH]; intros [|fuel] n Hl Hf; simpl in Hl, Hf; try lia.
  - cbn [strlen_from]. rewrite Hl. simpl. f_equal; lia.
  - destruct Hl as (Hc & Hc0 & Hl). cbn [strlen_from].
    rewrite Hc, (proj2 (Z.eqb_neq c 0)) by done.
    rewrite IH; [f_equal; simpl; lia | by rewrite Z.add_assoc | lia].
Qed.

(** The copy loops write inside the [n] bytes from [s], and copy the string
    when source and destination do not overlap. *)
Lemma strncpy_copy_spec n m s t l :
  bytes m -> cstr m t l -> (t + Z.of_nat (length l) < s \/ s + Z.of_nat n <= t) ->
  let '(m', s', k) := strncpy_copy m s t n in
  bytes m' /\ s' + Z.of_nat k = s + Z.of_nat n /\
  s' = s + Z.of_nat (Nat.min n (S (length l))) /\
  (forall x, x < s \/ s' <= x -> m' x = m x) /\
  (forall x, s <= x < s' -> m' x = m (t + (x - s))).
Proof.
  revert m s t l; induction n as [|n IH]; intros m s t l Hm Hl Hdis; cbn [strncpy_copy].
  { split_and!; [done | simpl; lia | simpl; lia | done | intros; lia]. }
  destruct l as [|c l]; simpl in Hl.
  - rewrite Hl. simpl. split_and!; try lia; auto with xv6.
    + intros x Hx. apply store8_ne. lia.
    + intros x Hx. assert (x = s) as -> by lia. rewrite store8_eq, Z.sub_diag, Z.add_0_r.
      by rewrite Hl.
  - destruct Hl as (Hc & Hc0 & Hl). simpl length in *.
    rewrite Hc, (proj2 (Z.eqb_neq c 0)) by done.
    specialize (IH (store8 m s c) (s + 1) (t + 1) l).
    destruct (strncpy_copy (store8 m s c) (s + 1) (t + 1) n) as [[m' s'] k].
    destruct IH as (Hb & Hk & Hs' & Hout & Hin); [auto with xv6 | | lia |].
    { eapply cstr_agree, Hl. intros x Hx. apply store8_ne. lia. }
    split_and!; [done | lia | lia | |].
    + intros x Hx. rewrite Hout by lia. apply store8_ne. lia.
    + intros x Hx. destruct (Z.eqb_spec x s) as [->|].
      * rewrite Hout by lia. rewrite store8_eq, Z.sub_diag, Z.add_0_r, Hc, <- Hc.
        by apply u8_byte.
      * rewrite Hin by lia. rewrite store8_ne by lia. f_equal; lia.
Qed.

(** A region that repeats a string and ends in NUL is that string, cut. *)
Lemma cstr_take n m m' s t l :
  cstr m t l ->
  (forall i, 0 <= i < Z.of_nat (Nat.min n (length l)) -> m' (s + i) = m (t + i)) ->
  m' (s + Z.of_nat (Nat.min n (length l))) = 0 ->
  cstr m' s (take n l).
Proof.
  revert s t l; induction n as [|n IH]; intros s t l Hl Hin H0.
  { simpl in *. by rewrite Z.add_0_r in H0. }
  destruct l as [|c l]; simpl in Hl; cbn [take cstr].
  { by rewrite Z.add_0_r in H0. }
  destruct Hl as (Hc & Hc0 & Hl). split_and!; [|done|].
  - specialize (Hin 0). rewrite !Z.add_0_r in Hin. rewrite Hin by (simpl; lia). done.
  - apply (IH _ (t + 1)); [done | |].
    + intros i Hi. rewrite <- !Z.add_assoc. apply Hin. simpl in *. lia.
    + rewrite <- H0. f_equal. simpl. lia.
Qed.

Lemma safestrcpy_copy_strncpy n m s t :
  safestrcpy_copy m s t n = (strncpy_copy m s t n).1.
Proof.
  revert m s t; induction n as [|n IH]; intros m s t; cbn; [done|].
  destruct (m t =? 0); [done | apply IH].
Qed.
End Loops.

(** * ulib.c *)

Module Ulib.
Import Kstring.

(** [strcpy] copies up to and including the NUL. *)
Fixpoint u_strcpy (fuel : nat) (m : mem) (s t : Z) : res mem :=
  match fuel with
  | O => OutOfFuel
  | S k =>
      let c := m t in
      let m' := store8 m s c in
      if c =? 0 then Ok m' else u_strcpy k m' (s + 1) (t + 1)
  end.

Fixpoint u_strcmp (fuel : nat) (m : mem) (p q : Z) : res Z :=
  match fuel with
  | O => OutOfFuel
  | S k =>
      if negb (m p =? 0) && (m p =? m q) then u_strcmp k m (p + 1) (q + 1)
      else Ok (m p - m q)
  end.

(** [memset] of the user library always stores bytes. *)
Definition u_memset (m : mem) (dst c n : Z) : mem * Z := (stosb m dst c (Z.to_nat n), dst).

(** [Some a] is the address found, [None] the null pointer. *)
Fixpoint u_strchr (fuel : nat) (m : mem) (s c : Z) : res (option Z) :=
  match fuel with
  | O => OutOfFuel
  | S k =>
      if m s =? 0 then Ok None
      else if m s =? c then Ok (Some s) else u_strchr k m (s + 1) c
  end.

Fixpoint u_atoi_from (fuel : nat) (m : mem) (s n : Z) : res Z :=
  match fuel with
  | O => OutOfFuel
  | S k =>
      if (48 <=? m s) && (m s <=? 57) then u_atoi_from k m (s + 1) (s32 (n * 10 + m s - 48))
      else Ok n
  end.

Definition u_atoi (fuel : nat) (m : mem) (s : Z) : res Z := u_atoi_from fuel m s 0.

(** [memmove] of the user library copies upwards only. *)
Definition u_memmove (m : mem) (vdst vsrc n : Z) : mem * Z :=
  (copy_up m vdst vsrc (Z.to_nat n), vdst).

End Ulib.

(** * What the routines compute *)

Section Specs.
Import Kstring Ulib.
Implicit Types (m : mem).

(** The bytes [memmove] leaves. *)
Lemma memmove_copy m dst src n x :
  bytes m -> 0 <= n ->
  (memmove m dst src n).1 x =
  if (dst <=? x) && (x <? dst + n) then m (src + (x - dst)) else m x.
Proof.
  intros Hm Hn. unfold memmove.
  destruct (Z.ltb_spec src dst), (Z.ltb_spec dst (src + n)); cbn [fst andb].
  1: { rewrite copy_down_spec, Z2Nat.id by (done || lia).
       replace (dst + n - n) with dst by lia.
       destruct (_ && _); [f_equal; lia | done]. }
  all: rewrite copy_up_spec, Z2Nat.id by (done || lia); done.
Qed.

(** [memmove] gives the destination the bytes the source had before
    the call, and changes nothing else, also when the regions overlap. *)
Theorem memmove_spec m dst src n x :
  bytes m -> 0 <= n ->
  (memmove m dst src n).1 x =
  if (dst <=? x) && (x <? dst + n) then m (src + (x - dst)) else m x.
Proof. apply memmove_copy. Qed.

(** The word that the aligned path of [memset] stores repeats one byte. *)
Lemma memset_word c i :
  let b := Z.land c 0xFF in
  let w := Z.lor (Z.lor (Z.lor (Z.shiftl b 24) (Z.shiftl b 16)) (Z.shiftl b 8)) b in
  0 <= i < 4 -> u8 (Z.shiftr w (8 * i)) = u8 c.
Proof.
  intros b w Hi. unfold u8, w, b. change 0xFF with (Z.ones 8).
  rewrite <- !Z.land_ones by lia.
  apply Z.bits_inj'. intros k Hk.
  rewrite !Z.land_spec. destruct (Z.ltb_spec k 8); cycle 1.
  { rewrite Z.ones_spec_high by lia. by rewrite !andb_false_r. }
  rewrite Z.shiftr_spec, !Z.lor_spec, !Z.shiftl_spec, !Z.land_spec by lia.
  rewrite (Z.ones_spec_low 8 k), !andb_true_r by lia.
  assert (i = 0 \/ i = 1 \/ i = 2 \/ i = 3) as [->| [->| [->| ->] ] ] by lia.
  all: repeat match goal with
  | |- context [Z.testbit (Z.ones 8) ?e] =>
      first [ rewrite (Z.ones_spec_low 8 e) by lia
            | rewrite (Z.ones_spec_high 8 e) by lia
            | rewrite (Z.testbit_neg_r (Z.ones 8) e) by lia ]
  end.
  all: rewrite ?andb_false_r, ?andb_true_r, ?orb_false_r; cbn [orb].
  all: f_equal; lia.
Qed.

(** The bytes [memset] leaves. *)
Lemma memset_fill m dst c n x :
  0 <= n ->
  (memset m dst c n).1 x = if (dst <=? x) && (x <? dst + n) then u8 c else m x.
Proof.
  intros Hn. unfold memset.
  destruct (Z.rem (s32 dst) 4 =? 0), (Z.eqb_spec (n mod 4) 0); cbn [fst andb].
  1: { rewrite (stosl_spec _ _ _ _ (u8 c)) by (intros; by apply memset_word).
       rewrite Z2Nat.id by (apply Z.div_pos; lia).
       replace (4 * (n / 4)) with n by (pose proof (Z.div_mod n 4); lia). done. }
  all: rewrite stosb_spec, Z2Nat.id by done; done.
Qed.

(** [memset] fills exactly the [n] bytes from [dst] with the low byte of
    [c], on the word path and on the byte path alike. *)
Theorem memset_spec m dst c n x :
  0 <= n ->
  (memset m dst c n).1 x = if (dst <=? x) && (x <? dst + n) then u8 c else m x.
Proof. apply memset_fill. Qed.

(** [memcmp] is zero exactly on equal regions. *)
Theorem memcmp_zero m s1 s2 n :
  memcmp m s1 s2 n = 0 <->
  (forall i, 0 <= i < Z.of_nat n -> m (s1 + i) = m (s2 + i)).
Proof.
  revert s1 s2; induction n as [|n IH]; intros s1 s2; cbn [memcmp].
  { split; [intros; lia | done]. }
  destruct (Z.eqb_spec (m s1) (m s2)) as [He|He].
  - rewrite IH. split; intros H i Hi.
    + destruct (Z.eqb_spec i 0) as [->|]; [by rewrite !Z.add_0_r|].
      specialize (H (i - 1) ltac:(lia)).
      by replace (s1 + i) with (s1 + 1 + (i - 1)) by lia;
         replace (s2 + i) with (s2 + 1 + (i - 1)) by lia.
    + rewrite <- !Z.add_assoc. apply H. lia.
  - split; [lia|]. intros H. specialize (H 0 ltac:(lia)). rewrite !Z.add_0_r in H. lia.
Qed.

(** [strncmp] returns zero exactly when the two NUL-terminated strings
    agree on their first [n] characters. *)
Theorem strncmp_zero m p q n l1 l2 :
  cstr m p l1 -> cstr m q l2 -> (strncmp m p q n = 0 <-> take n l1 = take n l2).
Proof. apply strncmp_agree. Qed.

(** The bytes [strncpy] leaves. *)
Lemma strncpy_bytes m s t n l x :
  bytes m -> cstr m t l -> 0 <= n -> (t + Z.of_nat (length l) < s \/ s + n <= t) ->
  (strncpy m s t n).1 x =
  if (s <=? x) && (x <? s + n) then
    (if x - s <? Z.of_nat (length l) then m (t + (x - s)) else 0)
  else m x.
Proof.
  intros Hm Hl Hn Hdis. unfold strncpy.
  pose proof (strncpy_copy_spec (Z.to_nat n) m s t l Hm Hl) as H.
  destruct (strncpy_copy m s t (Z.to_nat n)) as [[m' s'] k].
  destruct H as (Hb & Hk & Hs' & Hout & Hin); [lia|]. cbn [fst].
  rewrite stosb_spec, Hk, Z2Nat.id by lia. change (u8 0) with 0.
  destruct (Z.leb_spec s' x), (Z.ltb_spec x (s + n)), (Z.leb_spec s x); cbn [andb]; try lia;
    try (apply Hout; lia).
  - destruct (Z.ltb_spec (x - s) (Z.of_nat (length l))); [lia|done].
  - rewrite Hin by lia. destruct (Z.ltb_spec (x - s) (Z.of_nat (length l))); [done|].
    assert (x - s = Z.of_nat (length l)) as -> by lia. by apply cstr_end.
Qed.

(** [strncpy] writes exactly [n] bytes: the string, then zeros. *)
Theorem strncpy_spec m s t n l x :
  bytes m -> cstr m t l -> 0 <= n -> (t + Z.of_nat (length l) < s \/ s + n <= t) ->
  (strncpy m s t n).1 x =
  if (s <=? x) && (x <? s + n) then
    (if x - s <? Z.of_nat (length l) then m (t + (x - s)) else 0)
  else m x.
Proof. apply strncpy_bytes. Qed.

(** The string [safestrcpy] leaves. *)
Lemma safestrcpy_cut m s t n l :
  bytes m -> cstr m t l -> 0 < n -> (t + Z.of_nat (length l) < s \/ s + n <= t) ->
  let m' := (safestrcpy m s t n).1 in
  cstr m' s (take (Z.to_nat (n - 1)) l) /\
  (forall x, x < s \/ s + n <= x -> m' x = m x).
Proof.
  intros Hm Hl Hn Hdis. unfold safestrcpy.
  rewrite (proj2 (Z.leb_gt _ _)), safestrcpy_copy_strncpy by lia.
  pose proof (strncpy_copy_spec (Z.to_nat (n - 1)) m s t l Hm Hl) as H.
  destruct (strncpy_copy m s t (Z.to_nat (n - 1))) as [[m' s'] k].
  destruct H as (Hb & Hk & Hs' & Hout & Hin); [lia|]. cbn [fst]. split.
  - apply (cstr_take _ m _ _ t); [done | |].
    + intros i Hi. rewrite store8_ne by lia. rewrite Hin by lia. f_equal; lia.
    + destruct (Nat.leb_spec (Z.to_nat (n - 1)) (length l)).
      * rewrite Hs'. replace (Nat.min (Z.to_nat (n - 1)) (S (length l)))
          with (Nat.min (Z.to_nat (n - 1)) (length l)) by lia. apply store8_eq.
      * rewrite store8_ne by lia. rewrite Hin by lia.
        rewrite Nat.min_r by lia. rewrite Z.add_simpl_l. by apply cstr_end.
  - intros x Hx. rewrite store8_ne by lia. apply Hout. lia.
Qed.

(** [safestrcpy] leaves at [s] the source string cut to [n - 1]
    characters, NUL-terminated, and writes nothing outside the [n] bytes. *)
Theorem safestrcpy_spec m s t n l :
  bytes m -> cstr m t l -> 0 < n -> (t + Z.of_nat (length l) < s \/ s + n <= t) ->
  let m' := (safestrcpy m s t n).1 in
  cstr m' s (take (Z.to_nat (n - 1)) l) /\
  (forall x, x < s \/ s + n <= x -> m' x = m x).
Proof. apply safestrcpy_cut. Qed.
End Specs.
