(* ===== verification/Spinlock.v ===== *)
(** CPUs, interrupt masking and spin locks: [spinlock.c], and [mycpu] and
    [cpuid] of [proc.c].

    Module [Spinlock] is the sequential model: one CPU executes, [machine] is
    the per-CPU table with the registers of the executing CPU, and a lock that
    is found taken makes the execution [Spin].  Module [LockRace] is the
    interleaved model of several CPUs running [acquire] and [release] on one
    lock, one access of shared memory per step. *)

From S2P Require Import Prelude.

(** * Per-CPU state *)

(** [struct cpu] of proc.h: the fields the modelled code uses. *)
Record cpu := mkCpu {
  apicid : Z;
  started : Z;
  ncli : Z;
  intena : Z;
  cpu_proc : option nat
}.
#[export] Instance cpu_eta : Eta cpu :=
  fun c => mkCpu (apicid c) (started c) (ncli c) (intena c) (cpu_proc c).
Definition set_ncli := ltac:(setter ncli).
Definition set_intena := ltac:(setter intena).
Definition set_cpu_proc := ltac:(setter cpu_proc).

(** The executing CPU: its interrupt flag, its local APIC number, its stack
    ([word a] is the 32-bit word at [a]) and the address of the arguments of
    the current call; the table [cpus] is shared. *)
Record machine := mkMachine {
  cpus : list cpu;
  ncpu : nat;
  eflags_if : bool;
  lapicid : Z;
  word : Z -> Z;
  args_at : Z
}.
#[export] Instance machine_eta : Eta machine :=
  fun m => mkMachine (cpus m) (ncpu m) (eflags_if m) (lapicid m) (word m) (args_at m).
Definition set_cpus := ltac:(setter cpus).
Definition set_eflags_if := ltac:(setter eflags_if).

(** [struct spinlock]. *)
Record spinlock := mkLock {
  locked : Z;
  lk_name : string;
  lk_cpu : option nat;
  pcs : list Z
}.
#[export] Instance spinlock_eta : Eta spinlock :=
  fun l => mkLock (locked l) (lk_name l) (lk_cpu l) (pcs l).
Definition set_locked := ltac:(setter locked).
Definition set_lk_cpu := ltac:(setter lk_cpu).
Definition set_pcs := ltac:(setter pcs).

Module Spinlock.

Definition FL_IF : Z := 0x200.

(** [readeflags() & FL_IF]. *)
Definition readeflags_if (m : machine) : Z := if eflags_if m then FL_IF else 0.
Definition cli (m : machine) : machine := set_eflags_if false m.
Definition sti (m : machine) : machine := set_eflags_if true m.

(** The loop of [mycpu] over [cpus[0..ncpu)]. *)
Fixpoint find_cpu (l : list cpu) (n i : nat) (apic : Z) : option nat :=
  match n, l with
  | S n', c :: l' => if apicid c =? apic then Some i else find_cpu l' n' (S i) apic
  | _, _ => None
  end.

Definition mycpu (m : machine) : res nat :=
  if negb (readeflags_if m =? 0) then Panic "mycpu called with interrupts enabled"
  else match find_cpu (cpus m) (ncpu m) 0 (lapicid m) with
       | Some i => Ok i
       | None => Panic "unknown apicid"
       end.

(** A CPU is represented by its index, so [mycpu() - cpus] is the index. *)
Definition cpuid (m : machine) : res Z :=
  let? i := mycpu m in Ok (Z.of_nat i).

Definition get_cpu (i : nat) (m : machine) : res cpu :=
  zget "cpus" (cpus m) (Z.of_nat i).
Definition put_cpu (i : nat) (c : cpu) (m : machine) : machine :=
  set_cpus (<[i := c]> (cpus m)) m.

Definition initlock (name : string) (lk : spinlock) : spinlock :=
  mkLock 0 name None (pcs lk).

Definition pushcli (m : machine) : res machine :=
  let eflags := readeflags_if m in
  let m := cli m in
  let? i := mycpu m in
  let? c := get_cpu i m in
  let c := if ncli c =? 0 then set_intena eflags c else c in
  Ok (put_cpu i (set_ncli (ncli c + 1) c) m).

Definition popcli (m : machine) : res machine :=
  if negb (readeflags_if m =? 0) then Panic "popcli - interruptible"
  else
    let? i := mycpu m in
    let? c := get_cpu i m in
    let c := set_ncli (ncli c - 1) c in
    let m := put_cpu i c m in
    if ncli c <? 0 then Panic "popcli"
    else if (ncli c =? 0) && negb (intena c =? 0) then Ok (sti m)
    else Ok m.

(** The saved frame pointers from [v] up: [ebp[1]] is the return address and
    [ebp[0]] the next frame. *)
Fixpoint callerpcs (word : Z -> Z) (ebp : Z) (n : nat) : list Z :=
  match n with
  | O => []
  | S k =>
      if (ebp =? 0) || (ebp <? KERNBASE) || (ebp =? 0xffffffff) then repeat 0 n
      else word (ebp + 4) :: callerpcs word (word ebp) k
  end.

Definition getcallerpcs (word : Z -> Z) (v : Z) : list Z := callerpcs word (v - 8) 10.

Definition holding (lk : spinlock) (m : machine) : res (bool * machine) :=
  let? m := pushcli m in
  let? i := mycpu m in
  let r := negb (locked lk =? 0) && bool_decide (lk_cpu lk = Some i) in
  let? m := popcli m in
  Ok (r, m).

Definition acquire (lk : spinlock) (m : machine) : res (spinlock * machine) :=
  let? m := pushcli m in
  let? (h, m) := holding lk m in
  if h then Panic "acquire"
  else if negb (locked lk =? 0) then Spin
  else
    let lk := set_locked 1 lk in
    let? i := mycpu m in
    let lk := set_lk_cpu (Some i) lk in
    Ok (set_pcs (getcallerpcs (word m) (args_at m)) lk, m).

Definition release (lk : spinlock) (m : machine) : res (spinlock * machine) :=
  let? (h, m) := holding lk m in
  if negb h then Panic "release"
  else
    let? ps := zset "pcs" (pcs lk) 0 0 in
    let lk := set_pcs ps lk in
    let lk := set_lk_cpu None lk in
    let lk := set_locked 0 lk in
    let? m := popcli m in
    Ok (lk, m).

End Spinlock.

(** * Interrupt nesting *)

Section Nesting.
Import Spinlock.
Implicit Types (m : machine) (c : cpu) (i : nat) (lk : spinlock).

(** CPU [i], described by [c], is the one that executes. *)
Definition cpu_here m i c : Prop :=
  cpus m !! i = Some c /\ find_cpu (cpus m) (ncpu m) 0 (lapicid m) = Some i.

(** The nesting depth is not negative, and interrupts are off inside. *)
Definition cli_ok m c : Prop := 0 <= ncli c /\ (0 < ncli c -> eflags_if m = false).

(** What [pushcli] makes of the entry of the CPU. *)
Definition pushed m c : cpu :=
  let c := if ncli c =? 0 then set_intena (readeflags_if m) c else c in
  set_ncli (ncli c + 1) c.

Lemma ncli_pushed m c : ncli (pushed m c) = ncli c + 1.
Proof. unfold pushed. by destruct (ncli c =? 0). Qed.

Lemma apicid_pushed m c : apicid (pushed m c) = apicid c.
Proof. unfold pushed. by destruct (ncli c =? 0). Qed.

Lemma proc_pushed m c : cpu_proc (pushed m c) = cpu_proc c.
Proof. unfold pushed. by destruct (ncli c =? 0). Qed.

Lemma find_cpu_insert l n k a i c c' :
  l !! i = Some c -> apicid c' = apicid c ->
  find_cpu (<[i := c']> l) n k a = find_cpu l n k a.
Proof.
  revert n k i; induction l as [|d l IH]; intros [|n] k [|i] Hi Ha; simpl in *; try done.
  - by simplify_eq; rewrite Ha.
  - destruct (apicid d =? a); [done | eauto].
Qed.

Lemma cpu_here_put m i c c' :
  cpu_here m i c -> apicid c' = apicid c -> cpu_here (put_cpu i c' m) i c'.
Proof.
  intros [Hc Hf] Ha. split; unfold put_cpu; cbn.
  - apply list_lookup_insert_eq. by eapply lookup_lt_Some.
  - by rewrite (find_cpu_insert _ _ _ _ _ c).
Qed.

Lemma put_put m i c c' : put_cpu i c' (put_cpu i c m) = put_cpu i c' m.
Proof. unfold put_cpu. cbn. by rewrite list_insert_insert_eq. Qed.

Lemma put_same m i c : cpus m !! i = Some c -> put_cpu i c m = m.
Proof. intros H. destruct m. unfold put_cpu; cbn in *. by rewrite list_insert_id. Qed.

Lemma mycpu_here m i c : cpu_here m i c -> eflags_if m = false -> mycpu m = Ok i.
Proof. intros [_ Hf] He. unfold mycpu, readeflags_if. by rewrite He, Hf. Qed.

Lemma get_cpu_here m i c : cpu_here m i c -> get_cpu i m = Ok c.
Proof. intros [Hc _]. by apply zget_of_nat. Qed.

Lemma pushcli_here m i c :
  cpu_here m i c -> pushcli m = Ok (put_cpu i (pushed m c) (cli m)).
Proof.
  intros H. unfold pushcli.
  assert (cpu_here (cli m) i c) as H' by exact H.
  by rewrite (mycpu_here _ _ _ H'); simpl; [rewrite (get_cpu_here _ _ _ H')|].
Qed.

Lemma popcli_here m i c :
  cpu_here m i c -> eflags_if m = false -> 0 < ncli c ->
  popcli m =
  Ok (let m' := put_cpu i (set_ncli (ncli c - 1) c) m in
      if (ncli c =? 1) && negb (intena c =? 0) then sti m' else m').
Proof.
  intros H He Hn. unfold popcli.
  unfold readeflags_if at 1. rewrite He. simpl.
  rewrite (mycpu_here _ _ _ H He). simpl. rewrite (get_cpu_here _ _ _ H). cbn.
  rewrite (proj2 (Z.ltb_ge _ _)) by lia.
  replace (ncli c - 1 =? 0) with (ncli c =? 1).
  2: { destruct (Z.eqb_spec (ncli c) 1), (Z.eqb_spec (ncli c - 1) 0); lia. }
  by destruct (_ && _).
Qed.

(** [pushcli] then [popcli] leaves only [intena], and that only at depth 0. *)
Definition touched m i c : machine := put_cpu i (set_ncli (ncli c) (pushed m c)) m.

Lemma push_pop m i c :
  cpu_here m i c -> cli_ok m c ->
  exists m', pushcli m = Ok m' /\ cpu_here m' i (pushed m c) /\ eflags_if m' = false /\
             popcli m' = Ok (touched m i c).
Proof.
  intros H [H0 Hif]. eexists. split; [by apply pushcli_here|].
  assert (cpu_here (put_cpu i (pushed m c) (cli m)) i (pushed m c)) as H'.
  { apply (cpu_here_put _ _ c); [exact H | apply apicid_pushed]. }
  split; [done|]. split; [done|].
  rewrite (popcli_here _ _ _ H') by (rewrite ?ncli_pushed; done || lia).
  f_equal. rewrite ncli_pushed. cbv zeta. rewrite put_put.
  unfold touched, pushed, readeflags_if.
  destruct (Z.eqb_spec (ncli c) 0) as [E|E]; cbn.
  - rewrite E. cbn. destruct m as [? ? [] ? ? ?]; reflexivity.
  - replace (ncli c + 1 =? 1) with false by (symmetry; apply Z.eqb_neq; lia). cbn.
    replace (ncli c + 1 - 1) with (ncli c) by lia.
    destruct m; cbn in *. rewrite Hif by lia. reflexivity.
Qed.

Lemma touched_inside m i c : 0 < ncli c -> cpu_here m i c -> touched m i c = m.
Proof.
  intros Hn [Hc _]. unfold touched, pushed. rewrite (proj2 (Z.eqb_neq _ _)) by lia.
  apply put_same. rewrite Hc. by destruct c.
Qed.

Lemma holding_here lk m i c :
  cpu_here m i c -> cli_ok m c ->
  holding lk m =
  Ok (negb (locked lk =? 0) && bool_decide (lk_cpu lk = Some i), touched m i c).
Proof.
  intros H Hok. destruct (push_pop m i c H Hok) as (m' & Hp & H' & He & Hq).
  unfold holding. rewrite Hp. simpl. rewrite (mycpu_here _ _ _ H' He). simpl.
  by rewrite Hq.
Qed.

(** ** Taking a free lock *)

Definition taken i m lk : spinlock :=
  mkLock 1 (lk_name lk) (Some i) (getcallerpcs (word m) (args_at m)).

Lemma acquire_here lk m i c :
  cpu_here m i c -> cli_ok m c -> locked lk = 0 ->
  acquire lk m = Ok (taken i m lk, put_cpu i (pushed m c) (cli m)).
Proof.
  intros H Hok Hl. unfold acquire. rewrite (pushcli_here _ _ _ H). simpl.
  set (m' := put_cpu i (pushed m c) (cli m)).
  assert (cpu_here m' i (pushed m c)) as H'.
  { apply (cpu_here_put _ _ c); [exact H | apply apicid_pushed]. }
  destruct Hok as [H0 _].
  assert (0 < ncli (pushed m c)) by (rewrite ncli_pushed; lia).
  rewrite (holding_here _ _ _ _ H') by (split; [lia | done]). simpl.
  rewrite Hl, touched_inside by done. simpl.
  by rewrite (mycpu_here _ _ _ H').
Qed.

Lemma release_here lk m i c :
  cpu_here m i c -> eflags_if m = false -> 0 < ncli c ->
  locked lk <> 0 -> lk_cpu lk = Some i -> pcs lk <> [] ->
  release lk m =
  Ok (mkLock 0 (lk_name lk) None (<[0%nat := 0]> (pcs lk)),
      let m' := put_cpu i (set_ncli (ncli c - 1) c) m in
      if (ncli c =? 1) && negb (intena c =? 0) then sti m' else m').
Proof.
  intros H He Hn Hl Hc Hp. unfold release.
  rewrite (holding_here _ _ _ _ H) by (split; [lia | done]). simpl.
  rewrite (proj2 (Z.eqb_neq _ _)), Hc, touched_inside by done.
  rewrite bool_decide_true by done. simpl.
  rewrite zset_in by (destruct (pcs lk); simpl in *; [done | lia]). simpl.
  by rewrite (popcli_here _ _ _ H).
Qed.

Lemma getcallerpcs_length w v : length (getcallerpcs w v) = 10%nat.
Proof.
  unfold getcallerpcs. generalize (v - 8). intros e.
  assert (forall n e, length (callerpcs w e n) = n) as H.
  { clear. induction n as [|n IH]; intros e; cbn [callerpcs]; [done|].
    destruct (_ || _); [by rewrite repeat_length | simpl; by rewrite IH]. }
  apply H.
Qed.
End Nesting.

(** * Properties of the sequential model *)

Section LockSpecs.
Import Spinlock.
Implicit Types (m : machine) (c : cpu) (i n : nat) (lk : spinlock).

Fixpoint pushn n m : res machine :=
  match n with O => Ok m | S k => let? m := pushcli m in pushn k m end.
Fixpoint popn n m : res machine :=
  match n with O => Ok m | S k => let? m := popcli m in popn k m end.

(** [popn] undoes one more level at the outside. *)
Lemma popn_S n m : popn (S n) m = (let? m := popn n m in popcli m).
Proof.
  revert m; induction n as [|n IH]; intros m; [cbn; by destruct (popcli m)|].
  change (popn (S (S n)) m) with (let? m := popcli m in popn (S n) m).
  change (popn (S n) m) with (let? m := popcli m in popn n m).
  rewrite res_bind_assoc. destruct (popcli m); cbn [res_bind]; [apply IH | done..].
Qed.

(** [pushcli] and [popcli] are matched: [n] calls of [pushcli] mask
    interrupts, and [n] calls of [popcli] bring back the interrupt flag and the
    nesting depth of the start. *)
Theorem cli_nesting n m i c :
  cpu_here m i c -> cli_ok m c ->
  exists m', pushn n m = Ok m' /\ ((0 < n)%nat -> eflags_if m' = false) /\
  exists m'' c'', popn n m' = Ok m'' /\ cpu_here m'' i c'' /\ ncli c'' = ncli c /\
    eflags_if m'' = eflags_if m /\ (0 < ncli c -> intena c'' = intena c).
Proof.
  revert m c; induction n as [|n IH]; intros m c H Hok.
  { exists m. split; [done|]. split; [lia|]. by exists m, c. }
  destruct (push_pop m i c H Hok) as (m1 & Hp & H1 & He1 & _). destruct Hok as [H0 Hif].
  destruct (IH m1 (pushed m c) H1) as (m' & Hpn & Hoff & m2 & c2 & Hqn & H2 & Hn2 & He2 & Hi2).
  { split; [rewrite ncli_pushed; lia | done]. }
  rewrite ncli_pushed in Hn2, Hi2.
  exists m'. split; [cbn [pushn]; by rewrite Hp|]. split.
  { intros _. destruct n; [|apply Hoff; lia]. simpl in Hpn. by simplify_eq. }
  rewrite He1 in He2.
  rewrite popn_S, Hqn. cbn [res_bind]. rewrite (popcli_here _ _ _ H2 He2) by lia.
  eexists _, (set_ncli (ncli c2 - 1) c2). split; [done|].
  assert (forall b m, cpu_here m i (set_ncli (ncli c2 - 1) c2) ->
            cpu_here (if b : bool then sti m else m) i (set_ncli (ncli c2 - 1) c2)) as Hsti
    by (intros [] ? ?; done).
  split; [apply Hsti; by eapply cpu_here_put|].
  split; [cbn; lia|].
  unfold pushed in Hi2. destruct (Z.eqb_spec (ncli c) 0) as [E|E].
  - split; [|lia]. rewrite Hn2, E. rewrite Hi2 by lia. unfold readeflags_if.
    destruct (eflags_if m); cbn; done.
  - rewrite (proj2 (Z.eqb_neq (ncli c2) 1)) by lia. cbn. rewrite He2, Hif by lia.
    split; [done|]. intros _. rewrite Hi2 by lia. by destruct c.
Qed.

(** Taking a free lock and giving it back. *)
Lemma lock_pair lk m i c :
  cpu_here m i c -> cli_ok m c -> locked lk = 0 ->
  exists lk1 m1, acquire lk m = Ok (lk1, m1) /\
    locked lk1 = 1 /\ lk_cpu lk1 = Some i /\ eflags_if m1 = false /\
  exists lk2 m2 c2, release lk1 m1 = Ok (lk2, m2) /\
    locked lk2 = 0 /\ lk_cpu lk2 = None /\ eflags_if m2 = eflags_if m /\
    cpu_here m2 i c2 /\ ncli c2 = ncli c.
Proof.
  intros H Hok Hl. rewrite (acquire_here _ _ _ _ H Hok Hl).
  do 2 eexists. split_and!; [done..|].
  set (m1 := put_cpu i (pushed m c) (cli m)).
  assert (cpu_here m1 i (pushed m c)) as H1.
  { apply (cpu_here_put _ _ c); [exact H | apply apicid_pushed]. }
  destruct Hok as [H0 Hif].
  rewrite (release_here _ _ _ _ H1); try done.
  2: rewrite ncli_pushed; lia.
  2: { unfold taken; cbn [pcs]. intros E. apply (f_equal length) in E.
       rewrite getcallerpcs_length in E. done. }
  do 2 eexists. exists (set_ncli (ncli c) (pushed m c)). do 3 (split; [done|]).
  rewrite ncli_pushed. unfold m1. rewrite put_put.
  replace (ncli c + 1 - 1) with (ncli c) by lia.
  assert (cpu_here (put_cpu i (set_ncli (ncli c) (pushed m c)) m) i
            (set_ncli (ncli c) (pushed m c))) as Hh
    by (apply (cpu_here_put _ _ c); [exact H | cbn; apply apicid_pushed]).
  destruct (Z.eqb_spec (ncli c) 0) as [E|E].
  - replace (ncli c + 1 =? 1) with true by (symmetry; apply Z.eqb_eq; lia).
    replace (intena (pushed m c)) with (readeflags_if m)
      by (unfold pushed; rewrite (proj2 (Z.eqb_eq _ _) E); done).
    unfold readeflags_if. destruct (eflags_if m) eqn:He; cbn [andb negb Z.eqb]; done.
  - rewrite (proj2 (Z.eqb_neq (ncli c + 1) 1)) by lia. cbn [andb].
    split; [cbn; by rewrite Hif by lia | done].
Qed.

(** Taking a free lock succeeds, masks interrupts and records the CPU;
    releasing it from there frees the lock and restores the interrupt flag and
    the nesting depth. *)
Theorem acquire_release lk m i c :
  cpu_here m i c -> cli_ok m c -> locked lk = 0 ->
  exists lk1 m1, acquire lk m = Ok (lk1, m1) /\
    locked lk1 = 1 /\ lk_cpu lk1 = Some i /\ eflags_if m1 = false /\
  exists lk2 m2 c2, release lk1 m1 = Ok (lk2, m2) /\
    locked lk2 = 0 /\ lk_cpu lk2 = None /\ eflags_if m2 = eflags_if m /\
    cpu_here m2 i c2 /\ ncli c2 = ncli c.
Proof. apply lock_pair. Qed.

(** Taking a lock the CPU holds, and releasing one it does not hold,
    panic; a lock held by another CPU is waited for. *)
Theorem lock_misuse lk m i c :
  cpu_here m i c -> cli_ok m c ->
  (locked lk <> 0 -> lk_cpu lk = Some i -> acquire lk m = Panic "acquire") /\
  (locked lk <> 0 -> lk_cpu lk <> Some i -> acquire lk m = Spin) /\
  (locked lk = 0 \/ lk_cpu lk <> Some i -> release lk m = Panic "release").
Proof.
  intros H Hok. split_and!.
  1,2: intros Hl Hc; unfold acquire; rewrite (pushcli_here _ _ _ H); simpl;
    rewrite (holding_here _ _ i (pushed m c));
    [| apply (cpu_here_put _ _ c); [exact H | apply apicid_pushed]
     | split; [rewrite ncli_pushed; destruct Hok; lia | done]];
    simpl; rewrite (proj2 (Z.eqb_neq _ _)) by done; simpl.
  - by rewrite bool_decide_true.
  - by rewrite bool_decide_false.
  - intros Hl. unfold release. rewrite (holding_here _ _ _ _ H Hok). simpl.
    destruct Hl as [->|Hc]; [done|]. by rewrite bool_decide_false, andb_false_r.
Qed.
End LockSpecs.

(** * Several CPUs and one lock *)

Module LockRace.

(** Where a CPU is in [acquire] and [release]: outside; in the loop on [xchg];
    past it but before [lk->cpu] is written; in the critical section; in
    [release] after [lk->cpu] is cleared and before [lk->locked] is. *)
Inductive pc := Outside | Spinning | Taken | Critical | Clearing.

#[export] Instance pc_eq_dec : EqDecision pc.
Proof. solve_decision. Defined.

Record race := mkRace { r_lk : spinlock; r_pc : list pc }.

(** [holding] as evaluated by CPU [i]. *)
Definition holds (lk : spinlock) (i : nat) : bool :=
  negb (locked lk =? 0) && bool_decide (lk_cpu lk = Some i).

(** One step of CPU [i]. *)
Inductive race_step : race -> race -> Prop :=
| rs_enter lk ps i :
    ps !! i = Some Outside -> holds lk i = false ->
    race_step (mkRace lk ps) (mkRace lk (<[i := Spinning]> ps))
| rs_xchg_taken lk ps i :
    ps !! i = Some Spinning -> locked lk <> 0 ->
    race_step (mkRace lk ps) (mkRace (set_locked 1 lk) ps)
| rs_xchg_free lk ps i :
    ps !! i = Some Spinning -> locked lk = 0 ->
    race_step (mkRace lk ps) (mkRace (set_locked 1 lk) (<[i := Taken]> ps))
| rs_owner lk ps i :
    ps !! i = Some Taken ->
    race_step (mkRace lk ps) (mkRace (set_lk_cpu (Some i) lk) (<[i := Critical]> ps))
| rs_clear lk ps i :
    ps !! i = Some Critical -> holds lk i = true ->
    race_step (mkRace lk ps) (mkRace (set_lk_cpu None lk) (<[i := Clearing]> ps))
| rs_unlock lk ps i :
    ps !! i = Some Clearing ->
    race_step (mkRace lk ps) (mkRace (set_locked 0 lk) (<[i := Outside]> ps)).

Definition inside (p : pc) : bool :=
  match p with Taken | Critical | Clearing => true | _ => false end.

Definition race_inv (s : race) : Prop :=
  (forall i j p q, r_pc s !! i = Some p -> r_pc s !! j = Some q ->
     inside p = true -> inside q = true -> i = j) /\
  (locked (r_lk s) <> 0 <-> exists i p, r_pc s !! i = Some p /\ inside p = true) /\
  (forall i, lk_cpu (r_lk s) = Some i <-> r_pc s !! i = Some Critical).

Definition race_init (n : nat) (name : string) : race :=
  mkRace (mkLock 0 name None (repeat 0 10)) (repeat Outside n).

End LockRace.

Section RaceInvariant.
Import LockRace.
Implicit Types (ps : list pc) (i j : nat) (lk : spinlock).

Lemma insert_pc ps i p j q :
  is_Some (ps !! i) ->
  <[i := p]> ps !! j = Some q <-> (i = j /\ q = p) \/ (i <> j /\ ps !! j = Some q).
Proof.
  intros [x Hx]. apply lookup_lt_Some in Hx. rewrite list_lookup_insert_Some. naive_solver.
Qed.

Lemma race_inv_init n name : race_inv (race_init n name).
Proof.
  assert (forall j q, repeat Outside n !! j = Some q -> q = Outside) as HO.
  { intros j q H. apply list_elem_of_lookup_2, list_elem_of_In, repeat_spec in H. done. }
  split_and!; cbn.
  - intros i j p q Hi _ Hp. rewrite (HO _ _ Hi) in Hp. done.
  - split; [done|]. intros (i & p & Hi & Hp). rewrite (HO _ _ Hi) in Hp. done.
  - intros i. split; [done|]. intros Hi. by apply HO in Hi.
Qed.

(** A CPU outside that moves to a place outside changes nothing. *)
Lemma race_inv_out lk ps i p :
  race_inv (mkRace lk ps) -> ps !! i = Some Outside -> p = Spinning ->
  race_inv (mkRace lk (<[i := p]> ps)).
Proof.
  intros (H1 & H2 & H3) Hi ->. split_and!; cbn in *.
  - intros a b p q. rewrite !insert_pc by eauto. naive_solver.
  - rewrite H2. split; intros (j & q & Hj & Hq); exists j, q; (split; [|done]).
    + rewrite insert_pc by eauto. destruct (decide (i = j)); naive_solver.
    + rewrite insert_pc in Hj by eauto. naive_solver.
  - intros j. rewrite H3, insert_pc by eauto. destruct (decide (i = j)); naive_solver.
Qed.

(** The one CPU inside moves along inside. *)
Lemma race_inv_move lk lk' ps i p p' :
  race_inv (mkRace lk ps) -> ps !! i = Some p -> inside p = true -> inside p' = true ->
  locked lk' = locked lk ->
  (forall j, lk_cpu lk' = Some j <-> j = i /\ p' = Critical) ->
  race_inv (mkRace lk' (<[i := p']> ps)).
Proof.
  intros (H1 & H2 & H3) Hi Hp Hp' Hl Hc. split_and!; cbn in *.
  - intros a b q r. rewrite !insert_pc by eauto. naive_solver.
  - rewrite Hl, H2. split; intros _.
    + exists i, p'. rewrite insert_pc by eauto. naive_solver.
    + by exists i, p.
  - intros j. rewrite Hc, insert_pc by eauto. split; [naive_solver|].
    intros [[-> E]|[Hne Hj]]; [done|]. exfalso. apply Hne. by eapply H1.
Qed.

Lemma race_inv_step s t : race_inv s -> race_step s t -> race_inv t.
Proof.
  intros Hinv Hst. destruct Hst as
    [lk ps i Hi _|lk ps i Hi Hl|lk ps i Hi Hl|lk ps i Hi|lk ps i Hi Hh|lk ps i Hi].
  - by eapply race_inv_out.
  - destruct Hinv as (H1 & H2 & H3). split_and!; cbn in *; [done | | done].
    rewrite <- H2. done.
  - destruct Hinv as (H1 & H2 & H3). cbn in *.
    assert (forall j q, ps !! j = Some q -> inside q = false) as Hno.
    { intros j q Hj. destruct (inside q) eqn:E; [|done]. exfalso.
      apply (proj2 H2); [by eauto | done]. }
    split_and!; cbn.
    + intros a b p q. rewrite !insert_pc by eauto.
      intros [[-> ->]|[_ Ha]] [[-> ->]|[_ Hb]] Hp Hq; [done| | |].
      all: try apply Hno in Ha; try apply Hno in Hb; congruence.
    + split; [|done]. intros _. exists i, Taken. rewrite insert_pc by eauto. naive_solver.
    + intros j. rewrite H3, insert_pc by eauto. split; [|naive_solver].
      intros Hj. apply Hno in Hj. done.
  - eapply race_inv_move; try done. intros j. cbn. naive_solver.
  - eapply race_inv_move; try done. cbn. naive_solver.
  - destruct Hinv as (H1 & H2 & H3). cbn in *.
    assert (forall j q, i <> j -> ps !! j = Some q -> inside q = false) as Hno.
    { intros j q Hne Hj. destruct (inside q) eqn:E; [|done]. exfalso. by eapply Hne, H1. }
    split_and!; cbn.
    + intros a b p q. rewrite !insert_pc by eauto.
      intros [[-> ->]|[Ha' Ha]] [[-> ->]|[Hb' Hb]] Hp Hq; [done..|].
      apply Hno in Ha; [congruence|done].
    + split; [done|]. intros (j & q & Hj & Hq). rewrite insert_pc in Hj by eauto.
      destruct Hj as [[-> ->]|[Hne Hj]]; [done|]. apply Hno in Hj; [congruence|done].
    + intros j. rewrite H3, insert_pc by eauto. split; [|naive_solver].
      intros Hj. right. split; [|done]. intros ->. congruence.
Qed.

(** C29: with any number of CPUs and any interleaving, at most one CPU is in
    its critical section, and [holding] is true exactly for that CPU. *)
Theorem spinlock_mutual_exclusion n name s :
  steps race_step (race_init n name) s ->
  (forall i j, r_pc s !! i = Some Critical -> r_pc s !! j = Some Critical -> i = j) /\
  (forall i, holds (r_lk s) i = true <-> r_pc s !! i = Some Critical).
Proof.
  intros Hs. assert (race_inv s) as (H1 & H2 & H3).
  { eapply steps_invariant; [apply race_inv_step | apply race_inv_init | done]. }
  split; [by intros; eapply H1|]. intros i. unfold holds.
  rewrite andb_true_iff, bool_decide_eq_true, H3. split; [by intros []|].
  intros Hi. split; [|done]. apply negb_true_iff, Z.eqb_neq, H2. by eauto.
Qed.

Lemma spinlock_mutual_exclusion_witness :
  exists s, r_pc s = [Critical; Spinning] /\ holds (r_lk s) 0 = true /\
  (forall i, holds (r_lk s) i = true <-> r_pc s !! i = Some Critical).
Proof.
  eexists. split; [|split]; [| |apply (spinlock_mutual_exclusion 2 "lk")].
  3: { eapply steps_cons; [apply (rs_enter _ _ 0); reflexivity|].
       eapply steps_cons; [apply (rs_enter _ _ 1); reflexivity|].
       eapply steps_cons; [apply (rs_xchg_free _ _ 0); reflexivity|].
       eapply steps_cons; [apply (rs_owner _ _ 0); reflexivity|].
       eapply steps_cons; [apply (rs_xchg_taken _ _ 1); [reflexivity | by simpl]|].
       apply steps_refl. }
  all: reflexivity.
Defined.
End RaceInvariant.
