(* ===== verification/Kalloc.v ===== *)
(** The physical page allocator: [kalloc.c].

    The free list is threaded through the free pages themselves, so the model
    keeps the byte memory: [phys] is the memory with [kmem].  The end of the
    kernel image, [end] of the linker script, is the parameter [kend]. *)

From S2P Require Import Prelude CString Spinlock.

(** * memlayout.h and mmu.h *)

Definition PGROUNDUP (sz : Z) : Z := Z.land (u32 (sz + PGSIZE - 1)) (Z.lnot (PGSIZE - 1)).
Definition PGROUNDDOWN (a : Z) : Z := Z.land a (Z.lnot (PGSIZE - 1)).
Definition V2P (a : Z) : Z := u32 (a - KERNBASE).
Definition P2V (a : Z) : Z := u32 (a + KERNBASE).

(** * State *)

Record kmem := mkKmem { kmem_lock : spinlock; use_lock : Z; freelist : Z }.
#[export] Instance kmem_eta : Eta kmem :=
  fun k => mkKmem (kmem_lock k) (use_lock k) (freelist k).
Definition set_kmem_lock := ltac:(setter kmem_lock).
Definition set_use_lock := ltac:(setter use_lock).
Definition set_freelist := ltac:(setter freelist).

Record phys := mkPhys { p_mem : mem; p_kmem : kmem }.

Module Kalloc.
Section Kalloc.
Context (kend : Z).

(** [if(kmem.use_lock) acquire(&kmem.lock)] and its counterpart. *)
Definition lock_kmem (k : kmem) (mc : machine) : res (kmem * machine) :=
  if use_lock k =? 0 then Ok (k, mc)
  else let? (l, mc) := Spinlock.acquire (kmem_lock k) mc in Ok (set_kmem_lock l k, mc).

Definition unlock_kmem (k : kmem) (mc : machine) : res (kmem * machine) :=
  if use_lock k =? 0 then Ok (k, mc)
  else let? (l, mc) := Spinlock.release (kmem_lock k) mc in Ok (set_kmem_lock l k, mc).

Definition kfree (v : Z) (p : phys) (mc : machine) : res (phys * machine) :=
  if negb (v mod PGSIZE =? 0) || (v <? kend) || (PHYSTOP <=? V2P v) then Panic "kfree"
  else
    let m := (Kstring.memset (p_mem p) v 1 PGSIZE).1 in
    let? (k, mc) := lock_kmem (p_kmem p) mc in
    let m := store32 m v (freelist k) in
    let k := set_freelist v k in
    let? (k, mc) := unlock_kmem k mc in
    Ok (mkPhys m k, mc).

(** Returns the page, 0 when there is none. *)
Definition kalloc (p : phys) (mc : machine) : res (Z * phys * machine) :=
  let? (k, mc) := lock_kmem (p_kmem p) mc in
  let r := freelist k in
  let k := if r =? 0 then k else set_freelist (load32 (p_mem p) r) k in
  let? (k, mc) := unlock_kmem k mc in
  Ok (r, mkPhys (p_mem p) k, mc).

(** The loop of [freerange]. *)
Fixpoint freerange_loop (fuel : nat) (p vend : Z) (ph : phys) (mc : machine)
  : res (phys * machine) :=
  match fuel with
  | O => OutOfFuel
  | S n =>
      if u32 (p + PGSIZE) <=? vend then
        let? (ph, mc) := kfree p ph mc in
        freerange_loop n (u32 (p + PGSIZE)) vend ph mc
      else Ok (ph, mc)
  end.

Definition freerange (fuel : nat) (vstart vend : Z) (ph : phys) (mc : machine)
  : res (phys * machine) :=
  freerange_loop fuel (PGROUNDUP vstart) vend ph mc.

Definition kinit1 (fuel : nat) (vstart vend : Z) (ph : phys) (mc : machine)
  : res (phys * machine) :=
  let k := p_kmem ph in
  let k := set_kmem_lock (Spinlock.initlock "kmem" (kmem_lock k)) k in
  let k := set_use_lock 0 k in
  freerange fuel vstart vend (mkPhys (p_mem ph) k) mc.

Definition kinit2 (fuel : nat) (vstart vend : Z) (ph : phys) (mc : machine)
  : res (phys * machine) :=
  let? (ph, mc) := freerange fuel vstart vend ph mc in
  Ok (mkPhys (p_mem ph) (set_use_lock 1 (p_kmem ph)), mc).

End Kalloc.
End Kalloc.

(** * The free list *)

Section FreeList.
Import Kalloc.
Context (kend : Z) (kend_high : KERNBASE <= kend).
Implicit Types (m : mem) (L : list Z) (mc : machine).

(** A page [kfree] accepts. *)
Definition page_ok (v : Z) : Prop :=
  0 <= v < 2 ^ 32 /\ v mod PGSIZE = 0 /\ kend <= v /\ V2P v < PHYSTOP.

(** The chain from [p] through the free pages is [L]. *)
Fixpoint chain m (p : Z) L : Prop :=
  match L with
  | [] => p = 0
  | a :: L' => p = a /\ chain m (load32 m a) L'
  end.

(** The executing CPU can take a lock. *)
Definition mach_ok mc : Prop := exists i c, cpu_here mc i c /\ cli_ok mc c.

(** The allocator's state represents the free list [L]. *)
Record kmem_inv (p : phys) L : Prop := {
  ki_bytes : bytes (p_mem p);
  ki_chain : chain (p_mem p) (freelist (p_kmem p)) L;
  ki_nodup : NoDup L;
  ki_pages : Forall page_ok L;
  ki_lock : locked (kmem_lock (p_kmem p)) = 0
}.

Lemma page_ok_range v : page_ok v -> KERNBASE <= v < KERNBASE + PHYSTOP.
Proof.
  intros (Hr & _ & Hk & Hp). unfold V2P, KERNBASE in *. rewrite u32_small in Hp by lia. lia.
Qed.

(** Distinct pages are a page apart. *)
Lemma pages_apart v w : page_ok v -> page_ok w -> v <> w -> v + PGSIZE <= w \/ w + PGSIZE <= v.
Proof.
  intros (_ & Hv & _) (_ & Hw & _) Hne. unfold PGSIZE in *.
  apply Z.mod_divide in Hv, Hw; try lia. destruct Hv as [a ->], Hw as [b ->]. nia.
Qed.

Lemma load32_agree m m' a :
  (forall x, a <= x < a + 4 -> m' x = m x) -> load32 m' a = load32 m a.
Proof. intros H. unfold load32. by rewrite !H by lia. Qed.

Lemma load32_store32 m a v : 0 <= v < 2 ^ 32 -> load32 (store32 m a v) a = v.
Proof.
  intros Hv. unfold load32.
  rewrite !store32_spec.
  rewrite !(proj2 (Z.leb_le a _)), !(proj2 (Z.ltb_lt _ (a + 4))) by lia. cbn [andb].
  replace (a - a) with 0 by lia. replace (a + 1 - a) with 1 by lia.
  replace (a + 2 - a) with 2 by lia. replace (a + 3 - a) with 3 by lia.
  change (8 * 0) with 0. change (8 * 1) with 8. change (8 * 2) with 16. change (8 * 3) with 24.
  rewrite Z.shiftr_0_r, !Z.shiftr_div_pow2 by lia. unfold u8.
  change (2 ^ 8) with 256. change (2 ^ 16) with (256 * 256).
  change (2 ^ 24) with (256 * (256 * 256)).
  rewrite <- !Z.div_div by lia.
  pose proof (Z.div_mod v 256 ltac:(lia)). pose proof (Z.div_mod (v / 256) 256 ltac:(lia)).
  pose proof (Z.div_mod (v / 256 / 256) 256 ltac:(lia)).
  rewrite (Z.mod_small (v / 256 / 256 / 256)); [lia|].
  change (2 ^ 32) with (256 * (256 * (256 * 256))) in Hv.
  split; [repeat apply Z.div_pos; lia|].
  repeat (apply Z.div_lt_upper_bound; [lia|]). lia.
Qed.

Lemma chain_agree m m' p L :
  (forall a x, a ∈ L -> a <= x < a + 4 -> m' x = m x) -> chain m p L -> chain m' p L.
Proof.
  revert p; induction L as [|a L IH]; intros p H; simpl; [done|].
  intros [-> Hc]. split; [done|].
  rewrite (load32_agree m) by (intros; eapply H; [left | done]).
  apply IH; [|done]. intros b x Hb. apply H. by right.
Qed.
End FreeList.

(** ** Taking and giving back the allocator's lock *)

Section KmemLock.
Import Kalloc.
Implicit Types (mc : machine) (k : kmem).

Lemma kmem_lock_pair k mc :
  locked (kmem_lock k) = 0 -> mach_ok mc ->
  exists k1 mc1, lock_kmem k mc = Ok (k1, mc1) /\ freelist k1 = freelist k /\
  forall fl, exists k2 mc2, unlock_kmem (set_freelist fl k1) mc1 = Ok (k2, mc2) /\
    freelist k2 = fl /\ use_lock k2 = use_lock k /\ locked (kmem_lock k2) = 0 /\
    mach_ok mc2 /\ eflags_if mc2 = eflags_if mc.
Proof.
  intros Hl (i & c & Hc & Hok). unfold lock_kmem, unlock_kmem.
  destruct (use_lock k =? 0) eqn:Hu.
  - exists k, mc. split_and!; [done..|]. intros fl. eexists _, mc. cbn. rewrite Hu.
    split; [done|]. split_and!; try done. by exists i, c.
  - destruct (lock_pair _ _ _ _ Hc Hok Hl)
      as (l1 & m1 & Ha & _ & _ & _ & l2 & m2 & c2 & Hr & Hl2 & _ & He & Hc2 & Hn).
    rewrite Ha. cbn. do 2 eexists. split_and!; [done..|]. intros fl. cbn. rewrite Hu, Hr. cbn.
    do 2 eexists. split_and!; try done. exists i, c2. split; [done|].
    destruct Hok as [H0 Hif]. split; [lia|]. rewrite Hn, He. done.
Qed.
End KmemLock.

(** * Properties *)

Section KallocSpecs.
Import Kalloc.
Context (kend : Z) (kend_high : KERNBASE <= kend).
Implicit Types (L : list Z) (mc : machine) (p : phys).

Lemma store32_bytes m a v : bytes m -> bytes (store32 m a v).
Proof. intros H. unfold store32. auto with xv6. Qed.

Lemma memset_bytes m d c n : 0 <= n -> bytes m -> bytes (Kstring.memset m d c n).1.
Proof.
  intros Hn H x. rewrite memset_fill by done.
  destruct (_ && _); [apply Z.mod_pos_bound; lia | apply H].
Qed.

(** Freeing a page puts it in front of the free list. *)
Lemma kfree_push v p L mc :
  kmem_inv kend p L -> mach_ok mc -> page_ok kend v -> v ∉ L ->
  exists p' mc', kfree kend v p mc = Ok (p', mc') /\ kmem_inv kend p' (v :: L) /\
    mach_ok mc' /\ eflags_if mc' = eflags_if mc /\
    use_lock (p_kmem p') = use_lock (p_kmem p) /\
    (forall x, x < v \/ v + PGSIZE <= x -> p_mem p' x = p_mem p x).
Proof.
  intros [Hb Hch Hnd Hpg Hlk] Hmc Hv Hnin. unfold kfree.
  pose proof (page_ok_range _ kend_high _ Hv) as Hvr.
  destruct Hv as (Hr & Hal & Hk & Hp) eqn:E; clear E.
  rewrite (proj2 (Z.eqb_eq _ _) Hal), (proj2 (Z.ltb_ge _ _) Hk), (proj2 (Z.leb_gt _ _) Hp).
  cbn [negb orb].
  destruct (kmem_lock_pair _ _ Hlk Hmc) as (k1 & mc1 & Ha & Hf & Hun).
  rewrite Ha. cbn [res_bind]. destruct (Hun v) as (k2 & mc2 & Hr2 & Hf2 & Hu2 & Hl2 & Hm2 & He2).
  rewrite Hr2. cbn [res_bind]. do 2 eexists. split; [done|].
  assert (forall x, x < v \/ v + PGSIZE <= x ->
    store32 (Kstring.memset (p_mem p) v 1 PGSIZE).1 v (freelist k1) x = p_mem p x) as Hout.
  { intros x Hx. unfold PGSIZE in *. rewrite store32_spec, memset_fill by lia.
    destruct (Z.leb_spec v x), (Z.ltb_spec x (v + 4)), (Z.ltb_spec x (v + 4096));
      cbn; try done; lia. }
  split_and!; try done. constructor; cbn [p_mem p_kmem].
  - apply store32_bytes, memset_bytes; [done | done].
  - cbn [chain]. split; [done|]. rewrite load32_store32.
    + rewrite Hf in Hout |- *. eapply chain_agree, Hch. intros a x Ha' Hx. apply Hout.
      rewrite Forall_forall in Hpg. pose proof (Hpg _ Ha').
      destruct (pages_apart kend v a); [done | done | by intros -> | |];
        unfold PGSIZE in *; lia.
    + rewrite Hf. destruct L as [|a L]; cbn in Hch; [by rewrite Hch|].
      destruct Hch as [-> _]. inversion_clear Hpg as [|? ? Hpa _].
      pose proof (page_ok_range _ kend_high _ Hpa). unfold KERNBASE, PHYSTOP in *. lia.
  - by constructor.
  - by constructor.
  - done.
Qed.

(** [kfree] of a page that is not free puts it on the free list, and
    changes no byte outside the page. *)
Theorem kfree_spec v p L mc :
  kmem_inv kend p L -> mach_ok mc -> page_ok kend v -> v ∉ L ->
  exists p' mc', kfree kend v p mc = Ok (p', mc') /\ kmem_inv kend p' (v :: L) /\
    mach_ok mc' /\ eflags_if mc' = eflags_if mc /\
    (forall x, x < v \/ v + PGSIZE <= x -> p_mem p' x = p_mem p x).
Proof.
  intros H1 H2 H3 H4. destruct (kfree_push v p L mc H1 H2 H3 H4) as (p' & mc' & ? & ? & ? & ? & ? & ?).
  by exists p', mc'.
Qed.

(** What [kalloc] does on a list: take the head, or return 0. *)
Lemma kalloc_pop p L mc :
  kmem_inv kend p L -> mach_ok mc ->
  exists r p' mc', kalloc p mc = Ok (r, p', mc') /\ mach_ok mc' /\
    eflags_if mc' = eflags_if mc /\ p_mem p' = p_mem p /\
    use_lock (p_kmem p') = use_lock (p_kmem p) /\
    match L with
    | [] => r = 0 /\ kmem_inv kend p' []
    | a :: L' => r = a /\ page_ok kend a /\ (a ∉ L') /\ kmem_inv kend p' L'
    end.
Proof.
  intros [Hb Hch Hnd Hpg Hlk] Hmc. unfold kalloc.
  destruct (kmem_lock_pair _ _ Hlk Hmc) as (k1 & mc1 & Ha & Hf & Hun).
  rewrite Ha. cbn [res_bind].
  set (fl := if freelist k1 =? 0 then freelist k1 else load32 (p_mem p) (freelist k1)).
  replace (if freelist k1 =? 0 then k1 else set_freelist (load32 (p_mem p) (freelist k1)) k1)
    with (set_freelist fl k1) by (unfold fl; destruct k1; cbn; by destruct (_ =? 0)).
  destruct (Hun fl) as (k2 & mc2 & Hr2 & Hf2 & Hu2 & Hl2 & Hm2 & He2).
  rewrite Hr2. cbn [res_bind]. do 3 eexists. split; [done|].
  split_and!; try done. unfold fl in *. rewrite Hf in *.
  destruct L as [|a L]; cbn in Hch.
  - split; [done|]. constructor; cbn; try done. rewrite Hf2, Hch. done.
  - destruct Hch as [Hfa Hch]. inversion_clear Hpg as [|? ? Hpa Hpg'].
    inversion_clear Hnd as [|? ? Hna Hnd'].
    pose proof (page_ok_range _ kend_high _ Hpa). unfold KERNBASE in *.
    split_and!; try done. constructor; cbn; try done.
    by rewrite Hf2, Hfa, (proj2 (Z.eqb_neq a 0)) by lia.
Qed.

(** [kalloc] hands out the head of the free list, a valid page that is no
    longer free, or 0 when no page is free; memory is not touched. *)
Theorem kalloc_spec p L mc :
  kmem_inv kend p L -> mach_ok mc ->
  exists r p' mc', kalloc p mc = Ok (r, p', mc') /\ mach_ok mc' /\
    eflags_if mc' = eflags_if mc /\ p_mem p' = p_mem p /\
    match L with
    | [] => r = 0 /\ kmem_inv kend p' []
    | a :: L' => r = a /\ page_ok kend a /\ (a ∉ L') /\ kmem_inv kend p' L'
    end.
Proof.
  intros H1 H2. destruct (kalloc_pop p L mc H1 H2) as (r & p' & mc' & ? & ? & ? & ? & ? & ?).
  by exists r, p', mc'.
Qed.

(** The [n] pages from [a] on, last first. *)
Fixpoint pages_down (a : Z) (n : nat) : list Z :=
  match n with O => [] | S k => pages_down (a + PGSIZE) k ++ [a] end.

Lemma elem_of_pages_down a n v :
  v ∈ pages_down a n -> a <= v < a + Z.of_nat n * PGSIZE.
Proof.
  revert a; induction n as [|n IH]; intros a; cbn [pages_down].
  { intros H. by apply not_elem_of_nil in H. }
  rewrite elem_of_app, list_elem_of_singleton. unfold PGSIZE in *.
  intros [H| ->]; [apply IH in H|]; lia.
Qed.

Lemma freerange_loop_pages n fuel a vend p L mc :
  kmem_inv kend p L -> mach_ok mc -> (n < fuel)%nat ->
  0 <= a -> a + Z.of_nat n * PGSIZE <= vend < a + Z.of_nat (S n) * PGSIZE ->
  a + Z.of_nat (S n) * PGSIZE < 2 ^ 32 ->
  (forall v, v ∈ pages_down a n -> page_ok kend v /\ (v ∉ L)) ->
  exists p' mc', freerange_loop kend fuel a vend p mc = Ok (p', mc') /\
    kmem_inv kend p' (pages_down a n ++ L) /\ mach_ok mc' /\
    use_lock (p_kmem p') = use_lock (p_kmem p).
Proof.
  revert fuel a p L mc; induction n as [|n IH]; intros [|fuel] a p L mc Hp Hmc Hf Ha Hv Ht Hok;
    try lia; cbn [freerange_loop]; unfold PGSIZE in *.
  - rewrite u32_small, (proj2 (Z.leb_gt _ _)) by lia. by exists p, mc.
  - rewrite u32_small, (proj2 (Z.leb_le _ _)) by lia.
    destruct (Hok a) as [Hpa Hna].
    { cbn [pages_down]. rewrite elem_of_app, list_elem_of_singleton. by right. }
    destruct (kfree_push a p L mc) as (p1 & mc1 & Hk & Hi1 & Hm1 & _ & Hu1 & _); try done.
    rewrite Hk. cbn [res_bind].
    destruct (IH fuel (a + 4096) p1 (a :: L) mc1) as (p2 & mc2 & He & Hi2 & Hm2 & Hu2);
      try done; try lia.
    { intros v Hin. destruct (Hok v) as [? ?].
      { cbn [pages_down]. apply elem_of_app. by left. }
      split; [done|]. apply elem_of_pages_down in Hin. unfold PGSIZE in Hin.
      rewrite elem_of_cons. intros [->|?]; [lia | done]. }
    rewrite He. do 2 eexists. split; [done|]. split; [|split; [done | congruence]].
    cbn [pages_down]. unfold PGSIZE. by rewrite <- app_assoc.
Qed.

(** [freerange] frees exactly the whole pages between the two addresses:
    with [n] of them and fuel above [n], it terminates and the free list grows
    by these pages, last one first. *)
Theorem freerange_spec n fuel vstart vend p L mc :
  let a := PGROUNDUP vstart in
  kmem_inv kend p L -> mach_ok mc -> (n < fuel)%nat ->
  a + Z.of_nat n * PGSIZE <= vend < a + Z.of_nat (S n) * PGSIZE ->
  a + Z.of_nat (S n) * PGSIZE < 2 ^ 32 ->
  (forall v, v ∈ pages_down a n -> page_ok kend v /\ (v ∉ L)) ->
  exists p' mc', freerange kend fuel vstart vend p mc = Ok (p', mc') /\
    kmem_inv kend p' (pages_down a n ++ L) /\ mach_ok mc'.
Proof.
  intros a Hp Hmc Hf Hv Ht Hok.
  destruct (freerange_loop_pages n fuel a vend p L mc) as (p' & mc' & ? & ? & ? & _); try done.
  - unfold a, PGROUNDUP. apply Z.land_nonneg. left. apply u32_range.
  - by exists p', mc'.
Qed.

(** [kfree] panics exactly on an address that is not a page of free
    memory: misaligned, below the kernel's end, or above physical memory. *)
Theorem kfree_rejects v p mc :
  0 <= v < 2 ^ 32 -> ~ page_ok kend v -> kfree kend v p mc = Panic "kfree".
Proof.
  intros Hr Hv. unfold kfree.
  destruct (Z.eqb_spec (v mod PGSIZE) 0); cbn [negb orb]; [|done].
  destruct (Z.ltb_spec v kend); cbn [orb]; [done|].
  destruct (Z.leb_spec PHYSTOP (V2P v)); [done|]. exfalso. apply Hv. done.
Qed.
End KallocSpecs.
