(* ===== verification/Apic.v ===== *)
(** The interrupt controllers and the clock: [lapic.c], [ioapic.c] and
    [picirq.c].

    The hardware is the class [Hw]: what [inb] and [outb] do, and what reads and
    writes of the memory-mapped registers of the two APICs do.  [HwLaws] is what
    the data sheets say of the APICs: a register holds what was written to it
    last, and the registers of the I/O APIC are reached through an index
    register.  [Rtc] is the clock chip: its registers are read through an index
    port while the time goes on. *)

From S2P Require Import Prelude CString.

Class Hw := {
  hw : Type;
  inb : Z -> hw -> Z * hw;
  outb : Z -> Z -> hw -> hw;
  lapic_rd : Z -> hw -> Z * hw;
  lapic_wr : Z -> Z -> hw -> hw;
  ioapic_rd : Z -> hw -> Z * hw;
  ioapic_wr : Z -> Z -> hw -> hw
}.

(** * lapic.c *)

Module Lapic.

(** The registers, as indices of an array of words. *)
Definition ID : Z := 0x0020 / 4.
Definition VER : Z := 0x0030 / 4.
Definition TPR : Z := 0x0080 / 4.
Definition EOI : Z := 0x00B0 / 4.
Definition SVR : Z := 0x00F0 / 4.
Definition ENABLE : Z := 0x00000100.
Definition ESR : Z := 0x0280 / 4.
Definition ICRLO : Z := 0x0300 / 4.
Definition INIT : Z := 0x00000500.
Definition STARTUP : Z := 0x00000600.
Definition DELIVS : Z := 0x00001000.
Definition ASSERT : Z := 0x00004000.
Definition LEVEL : Z := 0x00008000.
Definition BCAST : Z := 0x00080000.
Definition ICRHI : Z := 0x0310 / 4.
Definition TIMER : Z := 0x0320 / 4.
Definition X1 : Z := 0x0000000B.
Definition PERIODIC : Z := 0x00020000.
Definition PCINT : Z := 0x0340 / 4.
Definition LINT0 : Z := 0x0350 / 4.
Definition LINT1 : Z := 0x0360 / 4.
Definition ERROR : Z := 0x0370 / 4.
Definition MASKED : Z := 0x00010000.
Definition TICR : Z := 0x0380 / 4.
Definition TDCR : Z := 0x03E0 / 4.

Section Lapic.
Context `{HW : Hw}.
Implicit Types (h : hw) (lapic : Z).

(** The write, and the read that waits for it. *)
Definition lapicw (index value : Z) h : hw :=
  let h := lapic_wr index (u32 value) h in
  (lapic_rd ID h).2.

(** [while (lapic[ICRLO] & DELIVS)], [polls] times at most. *)
Fixpoint wait_delivery (polls : nat) h : res hw :=
  match polls with
  | O => OutOfFuel
  | S n => let '(v, h) := lapic_rd ICRLO h in if negb (Z.land v DELIVS =? 0) then wait_delivery n h else Ok h
  end.

(** [lapic] is the pointer to the registers. *)
Definition lapicinit (polls : nat) lapic h : res hw :=
  if lapic =? 0 then Ok h
  else
    let h := lapicw SVR (Z.lor ENABLE (T_IRQ0 + IRQ_SPURIOUS)) h in
    let h := lapicw TDCR X1 h in
    let h := lapicw TIMER (Z.lor PERIODIC (T_IRQ0 + IRQ_TIMER)) h in
    let h := lapicw TICR 10000000 h in
    let h := lapicw LINT0 MASKED h in
    let h := lapicw LINT1 MASKED h in
    let '(v, h) := lapic_rd VER h in
    let h := if 4 <=? Z.land (Z.shiftr v 16) 0xFF then lapicw PCINT MASKED h else h in
    let h := lapicw ERROR (T_IRQ0 + IRQ_ERROR) h in
    let h := lapicw ESR 0 h in
    let h := lapicw ESR 0 h in
    let h := lapicw EOI 0 h in
    let h := lapicw ICRHI 0 h in
    let h := lapicw ICRLO (Z.lor (Z.lor BCAST INIT) LEVEL) h in
    let? h := wait_delivery polls h in
    Ok (lapicw TPR 0 h).

Definition lapicid lapic h : Z * hw :=
  if lapic =? 0 then (0, h) else let '(v, h) := lapic_rd ID h in (Z.shiftr v 24, h).

Definition lapiceoi lapic h : hw := if lapic =? 0 then h else lapicw EOI 0 h.

Definition microdelay (us : Z) h : hw := h.

Definition CMOS_PORT : Z := 0x70.
Definition CMOS_RETURN : Z := 0x71.

(** A 16-bit store. *)
Definition store16 (m : mem) (a v : Z) : mem := store8 (store8 m a v) (a + 1) (Z.shiftr v 8).

(** [for (i = 0; i < 2; i++)]: the startup interrupts. *)
Fixpoint startup_ipis (n : nat) (apicid addr : Z) h : hw :=
  match n with
  | O => h
  | S n =>
      let h := lapicw ICRHI (Z.shiftl apicid 24) h in
      let h := lapicw ICRLO (Z.lor STARTUP (Z.shiftr addr 12)) h in
      startup_ipis n apicid addr (microdelay 200 h)
  end.

(** The warm reset vector lies in memory, at the kernel's address of 40:67. *)
Definition lapicstartap (apicid addr : Z) (m : mem) h : mem * hw :=
  let h := outb CMOS_PORT 0xF h in
  let h := outb (CMOS_PORT + 1) 0x0A h in
  let wrv := u32 (Z.lor (Z.shiftl 0x40 4) 0x67 + KERNBASE) in
  let m := store16 m wrv 0 in
  let m := store16 m (wrv + 2) (Z.shiftr addr 4) in
  let h := lapicw ICRHI (Z.shiftl apicid 24) h in
  let h := lapicw ICRLO (Z.lor (Z.lor INIT LEVEL) ASSERT) h in
  let h := microdelay 200 h in
  let h := lapicw ICRLO (Z.lor INIT LEVEL) h in
  let h := microdelay 100 h in
  (m, startup_ipis 2 apicid addr h).
End Lapic.
End Lapic.

(** * The clock *)

Record rtcdate := mkDate { second : Z; minute : Z; hour : Z; day : Z; month : Z; year : Z }.
#[export] Instance rtcdate_dec : EqDecision rtcdate.
Proof. solve_decision. Defined.

Module Cmos.
Definition CMOS_STATA : Z := 0x0a.
Definition CMOS_STATB : Z := 0x0b.
Definition CMOS_UIP : Z := Z.shiftl 1 7.
Definition SECS : Z := 0x00.
Definition MINS : Z := 0x02.
Definition HOURS : Z := 0x04.
Definition DAY : Z := 0x07.
Definition MONTH : Z := 0x08.
Definition YEAR : Z := 0x09.

Section Cmos.
Context `{HW : Hw}.
Implicit Types (h : hw).

Definition cmos_read (reg : Z) h : Z * hw :=
  let h := outb Lapic.CMOS_PORT reg h in
  let h := Lapic.microdelay 200 h in
  inb Lapic.CMOS_RETURN h.

Definition fill_rtcdate h : rtcdate * hw :=
  let '(s, h) := cmos_read SECS h in
  let '(mi, h) := cmos_read MINS h in
  let '(ho, h) := cmos_read HOURS h in
  let '(d, h) := cmos_read DAY h in
  let '(mo, h) := cmos_read MONTH h in
  let '(y, h) := cmos_read YEAR h in
  (mkDate s mi ho d mo y, h).

(** The loop that reads the time twice; at most [n] turns. *)
Fixpoint read_twice (n : nat) h : res (rtcdate * hw) :=
  match n with
  | O => OutOfFuel
  | S n =>
      let '(t1, h) := fill_rtcdate h in
      let '(sa, h) := cmos_read CMOS_STATA h in
      if negb (Z.land sa CMOS_UIP =? 0) then read_twice n h
      else
        let '(t2, h) := fill_rtcdate h in
        if bool_decide (t1 = t2) then Ok (t1, h) else read_twice n h
  end.

Definition CONV (x : Z) : Z := u32 (Z.shiftr x 4 * 10 + Z.land x 0xf).
Definition convert (t : rtcdate) : rtcdate :=
  mkDate (CONV (second t)) (CONV (minute t)) (CONV (hour t)) (CONV (day t)) (CONV (month t)) (CONV (year t)).

Definition cmostime (n : nat) h : res (rtcdate * hw) :=
  let '(sb, h) := cmos_read CMOS_STATB h in
  let bcd := Z.land sb (Z.shiftl 1 2) =? 0 in
  let? (t1, h) := read_twice n h in
  let t1 := if bcd then convert t1 else t1 in
  Ok (mkDate (second t1) (minute t1) (hour t1) (day t1) (month t1) (u32 (year t1 + 2000)), h).
End Cmos.
End Cmos.

(** * ioapic.c and picirq.c *)

Module Ioapic.
Definition REG_ID : Z := 0x00.
Definition REG_VER : Z := 0x01.
Definition REG_TABLE : Z := 0x10.
Definition INT_DISABLED : Z := 0x00010000.

Section Ioapic.
Context `{HW : Hw}.
Implicit Types (h : hw).

(** [struct ioapic]: the index register at offset 0, the data register at 16. *)
Definition reg : Z := 0.
Definition data : Z := 16.

Definition ioapicread (r : Z) h : Z * hw := ioapic_rd data (ioapic_wr reg (u32 r) h).
Definition ioapicwrite (r v : Z) h : hw := ioapic_wr data (u32 v) (ioapic_wr reg (u32 r) h).

(** [for (i = 0; i <= maxintr; i++)]: [n] turns are left. *)
Fixpoint mask_all (n : nat) (i : Z) h : hw :=
  match n with
  | O => h
  | S n =>
      let h := ioapicwrite (REG_TABLE + 2 * i) (Z.lor INT_DISABLED (T_IRQ0 + i)) h in
      let h := ioapicwrite (REG_TABLE + 2 * i + 1) 0 h in
      mask_all n (i + 1) h
  end.

(** The first result is whether the message on a wrong identity is printed. *)
Definition ioapicinit (ioapicid : Z) h : bool * hw :=
  let '(v, h) := ioapicread REG_VER h in
  let maxintr := Z.land (Z.shiftr v 16) 0xFF in
  let '(v, h) := ioapicread REG_ID h in
  let id := Z.shiftr v 24 in
  (negb (id =? ioapicid), mask_all (Z.to_nat (maxintr + 1)) 0 h).

Definition ioapicenable (irq cpunum : Z) h : hw :=
  let h := ioapicwrite (REG_TABLE + 2 * irq) (T_IRQ0 + irq) h in
  ioapicwrite (REG_TABLE + 2 * irq + 1) (Z.shiftl cpunum 24) h.

Definition IO_PIC1 : Z := 0x20.
Definition IO_PIC2 : Z := 0xA0.
Definition picinit h : hw := outb (IO_PIC2 + 1) 0xFF (outb (IO_PIC1 + 1) 0xFF h).
End Ioapic.
End Ioapic.
