(* ===== verification/ApicFacts.v ===== *)
(** Theorems on the interrupt controllers and the clock of Apic.v: how
    interrupts are routed after [ioapicinit] and [ioapicenable], what the local
    APIC is set to, and that [cmostime] returns a time the clock showed. *)

From S2P Require Import Prelude CString Apic.

(** What the registers of the APICs do. *)
Class HwLaws `{HW : Hw} := {
  lreg : hw -> Z -> Z;
  isel : hw -> Z;
  itab : hw -> Z -> Z;
  lreg_wr i v h j : lreg (lapic_wr i v h) j = if j =? i then v else lreg h j;
  lreg_rd i h j : lreg (lapic_rd i h).2 j = lreg h j;
  isel_reg v h : isel (ioapic_wr Ioapic.reg v h) = v;
  itab_reg v h r : itab (ioapic_wr Ioapic.reg v h) r = itab h r;
  itab_data v h r : itab (ioapic_wr Ioapic.data v h) r = if r =? isel h then v else itab h r;
  ioapic_rd_val h : (ioapic_rd Ioapic.data h).1 = itab h (isel h);
  itab_rd h r : itab (ioapic_rd Ioapic.data h).2 r = itab h r
}.

(** * The I/O APIC *)

Section Routing.
Import Ioapic.
Context `{HL : HwLaws}.
Implicit Types (h : hw) (L : list (Z * Z)).

(** Where interrupt [irq] goes: the vector and the APIC it is sent to, if it is
    not masked. *)
Definition routed h (irq : Z) : option (Z * Z) :=
  let lo := itab h (REG_TABLE + 2 * irq) in
  let hi := itab h (REG_TABLE + 2 * irq + 1) in
  if Z.testbit lo 16 then None else Some (Z.land lo 0xFF, Z.shiftr hi 24).

Lemma itab_write r v h r' : 0 <= r < 2 ^ 32 -> itab (ioapicwrite r v h) r' = if r' =? r then u32 v else itab h r'.
Proof. intros Hr. unfold ioapicwrite. rewrite itab_data, isel_reg, itab_reg, (u32_small r) by done. done. Qed.

Lemma ioapicread_ok r h : 0 <= r < 2 ^ 32 -> (ioapicread r h).1 = itab h r /\ forall r', itab (ioapicread r h).2 r' = itab h r'.
Proof.
  intros Hr. unfold ioapicread. rewrite ioapic_rd_val, itab_reg, isel_reg, u32_small by done. split; [done|]. intros r'. by rewrite itab_rd, itab_reg.
Qed.

Lemma routed_write_other r v h irq : 0 <= r < 2 ^ 32 -> r <> REG_TABLE + 2 * irq -> r <> REG_TABLE + 2 * irq + 1 ->
  routed (ioapicwrite r v h) irq = routed h irq.
Proof.
  intros Hr H1 H2. unfold routed. rewrite !itab_write by done. rewrite !(proj2 (Z.eqb_neq _ _)) by congruence. done.
Qed.

Lemma mask_one i h irq : 0 <= i < 2 ^ 8 ->
  routed (ioapicwrite (REG_TABLE + 2 * i + 1) 0 (ioapicwrite (REG_TABLE + 2 * i) (Z.lor INT_DISABLED (T_IRQ0 + i)) h)) irq =
  if irq =? i then None else routed h irq.
Proof.
  intros Hi. unfold REG_TABLE. destruct (Z.eqb_spec irq i) as [->|Hne].
  - unfold routed. rewrite !itab_write by (unfold REG_TABLE; lia). unfold REG_TABLE. rewrite (proj2 (Z.eqb_neq _ _)), Z.eqb_refl by lia.
    unfold u32, INT_DISABLED, T_IRQ0. rewrite Z.mod_pow2_bits_low by lia. by rewrite Z.lor_spec.
  - rewrite !routed_write_other; [done|unfold REG_TABLE; lia..].
Qed.

Lemma mask_all_ok n : forall i h irq, 0 <= i -> i + Z.of_nat n <= 2 ^ 8 ->
  routed (mask_all n i h) irq = if bool_decide (i <= irq < i + Z.of_nat n) then None else routed h irq.
Proof.
  induction n as [|n IH]; intros i h irq Hi Hn; cbn [mask_all]; [by rewrite bool_decide_false by lia|].
  rewrite IH, mask_one by lia. destruct (Z.eqb_spec irq i) as [->|Hne].
  - rewrite bool_decide_false, bool_decide_true by lia. done.
  - by destruct (bool_decide_reflect (i + 1 <= irq < i + 1 + Z.of_nat n)) as [H|H], (bool_decide_reflect (i <= irq < i + Z.of_nat (S n))) as [H'|H']; try done; lia.
Qed.

Lemma shift_dest c : 0 <= c < 2 ^ 8 -> Z.shiftr (u32 (Z.shiftl c 24)) 24 = c.
Proof.
  intros Hc. rewrite Z.shiftl_mul_pow2, Z.shiftr_div_pow2 by lia. rewrite u32_small by lia. apply Z.div_mul. lia.
Qed.

Lemma enable_one i c h irq : 0 <= i < 2 ^ 8 - T_IRQ0 -> 0 <= c < 2 ^ 8 ->
  routed (ioapicenable i c h) irq = if irq =? i then Some (T_IRQ0 + i, c) else routed h irq.
Proof.
  intros Hi Hc. unfold ioapicenable, T_IRQ0 in *. destruct (Z.eqb_spec irq i) as [->|Hne].
  - unfold routed. rewrite !itab_write by (unfold REG_TABLE; lia). unfold REG_TABLE. rewrite (proj2 (Z.eqb_neq (16 + 2 * i) _)), !Z.eqb_refl by lia.
    rewrite (u32_small (32 + i)) by lia. rewrite shift_dest by done. rewrite (Z.bits_above_log2 (32 + i) 16); [|lia|apply Z.log2_lt_pow2; lia].
    change 0xFF with (Z.ones 8). rewrite Z.land_ones by lia. rewrite Z.mod_small by lia. done.
  - rewrite !routed_write_other; [done|unfold REG_TABLE; lia..].
Qed.

(** The CPU that interrupt [irq] was given to last. *)
Fixpoint given L (irq : Z) : option Z :=
  match L with
  | [] => None
  | (i, c) :: L' => match given L' irq with Some c' => Some c' | None => if irq =? i then Some c else None end
  end.

Lemma enable_all L : forall h irq, Forall (fun e => 0 <= e.1 < 2 ^ 8 - T_IRQ0 /\ 0 <= e.2 < 2 ^ 8) L ->
  routed (foldl (fun h e => ioapicenable e.1 e.2 h) h L) irq =
  match given L irq with Some c => Some (T_IRQ0 + irq, c) | None => routed h irq end.
Proof.
  induction L as [|[i c] L IH]; intros h irq HL0; cbn [foldl given]; [done|]. apply Forall_cons in HL0 as [[Hi Hc] HL0].
  rewrite IH by done. destruct (given L irq) as [c'|]; [done|]. cbn [fst snd]. rewrite enable_one by done.
  by destruct (Z.eqb_spec irq i) as [->|].
Qed.

(** After [ioapicinit] and any calls of [ioapicenable], an interrupt
    line is delivered exactly if it was enabled: to the vector that [trap]
    expects for it, on the CPU that was named last. *)
Theorem ioapic_routing ioapicid L h :
  Forall (fun e => 0 <= e.1 < 2 ^ 8 - T_IRQ0 /\ 0 <= e.2 < 2 ^ 8) L ->
  let maxintr := Z.land (Z.shiftr (itab h REG_VER) 16) 0xFF in
  let h' := foldl (fun h e => ioapicenable e.1 e.2 h) (ioapicinit ioapicid h).2 L in
  forall irq, 0 <= irq <= maxintr -> routed h' irq = option_map (fun c => (T_IRQ0 + irq, c)) (given L irq).
Proof.
  intros HL0 maxintr h' irq Hirq. subst h'. rewrite enable_all by done. destruct (given L irq) as [c|]; [done|]. cbn [option_map].
  unfold ioapicinit. destruct (ioapicread_ok REG_VER h) as [E1 Ev]; [unfold REG_VER; lia|]. destruct (ioapicread REG_VER h) as [v h1]. cbn [fst snd] in *. subst v.
  destruct (ioapicread REG_ID h1) as [v2 h2]. cbn [snd]. fold maxintr.
  assert (0 <= maxintr < 2 ^ 8) as Hm by (unfold maxintr; change 0xFF with (Z.ones 8); rewrite Z.land_ones by lia; apply Z.mod_pos_bound; lia).
  rewrite mask_all_ok by lia. by rewrite bool_decide_true by lia.
Qed.
End Routing.

(** * The local APIC *)

Section Local.
Import Lapic.
Context `{HL : HwLaws}.
Implicit Types (h : hw).

Lemma lreg_w i v h j : lreg (lapicw i v h) j = if j =? i then u32 v else lreg h j.
Proof. unfold lapicw. by rewrite lreg_rd, lreg_wr. Qed.

(** Which of the writes a register holds. *)
Ltac at_reg :=
  repeat first
    [ rewrite lreg_w
    | match goal with |- context [if ?a =? ?b then _ else _] =>
        let c := eval vm_compute in (a =? b) in change (a =? b) with c; cbv iota
      end ].

(** The state after [k] reads of the command register. *)
Definition poll (k : nat) h : hw := Nat.iter k (fun h => (lapic_rd ICRLO h).2) h.

(** The interrupt command is delivered before the [n]th read. *)
Definition delivers (n : nat) h : Prop := exists k, (k < n)%nat /\ Z.land (lapic_rd ICRLO (poll k h)).1 DELIVS = 0.

Lemma wait_ok n : forall h, delivers n h -> exists h', wait_delivery n h = Ok h' /\ forall j, lreg h' j = lreg h j.
Proof.
  induction n as [|n IH]; intros h (k & Hk & Hd); [lia|]. cbn [wait_delivery]. destruct (lapic_rd ICRLO h) as [v h1] eqn:E.
  pose proof (lreg_rd ICRLO h) as Hj. rewrite E in Hj. cbn [snd] in Hj.
  destruct (Z.eqb_spec (Z.land v DELIVS) 0) as [_|Hn]; cbn [negb]; [by exists h1|]. destruct k as [|k].
  - cbn in Hd. by rewrite E in Hd.
  - destruct (IH h1) as (h' & Hw & Hr).
    + exists k. split; [lia|]. unfold poll in Hd. rewrite Nat.iter_succ_r, E in Hd. exact Hd.
    + exists h'. split; [done|]. intros j. by rewrite Hr.
Qed.

(** [lapicinit] returns once its interrupt command is delivered, and
    leaves the local APIC enabled, its timer interrupting periodically at the
    vector of the clock, the error interrupt at its own, the two local lines masked,
    and no priority level blocked. *)
Theorem lapicinit_spec polls lapic h :
  lapic <> 0 -> (forall h, delivers polls h) ->
  exists h', lapicinit polls lapic h = Ok h' /\
    lreg h' SVR = ENABLE + (T_IRQ0 + IRQ_SPURIOUS) /\ lreg h' TIMER = PERIODIC + (T_IRQ0 + IRQ_TIMER) /\
    lreg h' TDCR = X1 /\ lreg h' TICR = 10000000 /\ lreg h' LINT0 = MASKED /\ lreg h' LINT1 = MASKED /\
    lreg h' ERROR = T_IRQ0 + IRQ_ERROR /\ lreg h' TPR = 0 /\
    (lreg h' PCINT = MASKED \/ lreg h' PCINT = lreg h PCINT).
Proof.
  intros Hl Hd. unfold lapicinit. rewrite (proj2 (Z.eqb_neq _ _) Hl).
  set (h0 := lapicw LINT1 _ _). pose proof (lreg_rd VER h0) as Hv. destruct (lapic_rd VER h0) as [v h1]. cbn [snd] in Hv.
  set (h2 := if 4 <=? _ then _ else _).
  assert (forall j, lreg h2 j = if j =? PCINT then lreg h2 PCINT else lreg h0 j) as H2.
  { intros j. subst h2. destruct (4 <=? _); [|by destruct (Z.eqb_spec j PCINT) as [->|]]. rewrite !lreg_w. rewrite Z.eqb_refl. by destruct (j =? PCINT). }
  assert (lreg h2 PCINT = MASKED \/ lreg h2 PCINT = lreg h PCINT) as HP.
  { subst h2. destruct (4 <=? _); [left; by rewrite lreg_w|right]. rewrite Hv. subst h0. by rewrite !lreg_w. }
  clearbody h2. set (h3 := lapicw ICRLO _ _). destruct (wait_ok polls h3 (Hd h3)) as (h4 & -> & H4). cbn [res_bind].
  eexists. split; [reflexivity|]. split_and!; last (at_reg; rewrite H4; subst h3; at_reg; exact HP).
  all: at_reg; try reflexivity; rewrite H4; subst h3; at_reg; try reflexivity; rewrite H2; at_reg; subst h0; at_reg; reflexivity.
Qed.
End Local.

(** ** Interrupts to other processors *)

(** A write to the low command register sends the command to the APIC that the
    high one names; nothing else does. *)
Class Ipis `{HL : HwLaws} := {
  sent : hw -> list (Z * Z);
  sent_wr i v h : sent (lapic_wr i v h) = if i =? Lapic.ICRLO then sent h ++ [(Z.shiftr (lreg h Lapic.ICRHI) 24, v)] else sent h;
  sent_rd i h : sent (lapic_rd i h).2 = sent h;
  sent_outb p v h : sent (outb p v h) = sent h;
}.

Section Ipi.
Import Lapic.
Context `{IP : Ipis}.
Implicit Types (h : hw).

Lemma sent_w i v h : sent (lapicw i v h) = if i =? ICRLO then sent h ++ [(Z.shiftr (lreg h ICRHI) 24, u32 v)] else sent h.
Proof. unfold lapicw. by rewrite sent_rd, sent_wr. Qed.

(** The command [v] for the processor [apic]. *)
Lemma sent_command apic v h : 0 <= apic < 2 ^ 8 -> 0 <= v < 2 ^ 32 ->
  sent (lapicw ICRLO v (lapicw ICRHI (Z.shiftl apic 24) h)) = sent h ++ [(apic, v)].
Proof. intros Ha Hv. rewrite !sent_w, lreg_w, !Z.eqb_refl. change (ICRHI =? ICRLO) with false. cbv iota. by rewrite shift_dest, u32_small. Qed.

(** [lapicstartap] resets the processor and sends it the startup command for the
    page of [addr] twice, and no other command. *)
Lemma lapicstartap_sent apic addr m h : 0 <= apic < 2 ^ 8 -> 0 <= addr < 2 ^ 20 ->
  sent (lapicstartap apic addr m h).2 =
    sent h ++ [(apic, Z.lor (Z.lor INIT LEVEL) ASSERT); (apic, Z.lor INIT LEVEL);
               (apic, Z.lor STARTUP (Z.shiftr addr 12)); (apic, Z.lor STARTUP (Z.shiftr addr 12))].
Proof.
  intros Ha Haddr. unfold lapicstartap, microdelay. cbn [snd startup_ipis]. unfold microdelay.
  assert (0 <= Z.lor STARTUP (Z.shiftr addr 12) < 2 ^ 32) as Hv.
  { rewrite Z.shiftr_div_pow2 by lia. assert (0 <= addr / 2 ^ 12 < 2 ^ 8) as Hd by (Z.to_euclidean_division_equations; lia).
    split; [apply Z.lor_nonneg; unfold STARTUP; lia|]. apply Z.log2_lt_pow2; [|].
    - assert (Z.lor STARTUP (addr / 2 ^ 12) <> 0); [|pose proof (proj2 (Z.lor_nonneg STARTUP (addr / 2 ^ 12))); unfold STARTUP in *; lia].
      intros E. apply Z.lor_eq_0_iff in E as [E _]. discriminate E.
    - rewrite Z.log2_lor by (unfold STARTUP; lia). apply Z.max_lub_lt; [reflexivity|].
      destruct (decide (addr / 2 ^ 12 = 0)) as [->|]; [reflexivity|]. apply Z.log2_lt_pow2; lia. }
  rewrite !sent_command by done. rewrite sent_w, Z.eqb_refl, lreg_w. change (ICRHI =? ICRLO) with false. cbv iota.
  rewrite lreg_w, Z.eqb_refl, shift_dest, sent_command, !sent_outb by (done || (vm_compute; done)). by rewrite <- !app_assoc.
Qed.
End Ipi.

(** * The clock *)

(** The clock chip: [regs t r] is register [r] when [t] registers have been read. *)
Class Rtc `{HW : Hw} := {
  reads : hw -> nat;
  regs : nat -> Z -> Z;
  rtc_read r h : 0 <= r < 2 ^ 7 -> exists h', inb Lapic.CMOS_RETURN (outb Lapic.CMOS_PORT r h) = (regs (reads h) r, h') /\ reads h' = S (reads h)
}.

Section Clock.
Import Cmos.
Context `{RC : Rtc}.
Implicit Types (h : hw) (t c u : nat) (d : rtcdate).

(** What the clock shows at [t]. *)
Definition shows t : rtcdate := mkDate (regs t SECS) (regs t MINS) (regs t HOURS) (regs t DAY) (regs t MONTH) (regs t YEAR).

(** What [fill_rtcdate] gathers from [t] on, one register after the other. *)
Definition gathered t : rtcdate :=
  mkDate (second (shows t)) (minute (shows (1 + t))) (hour (shows (2 + t))) (day (shows (3 + t))) (month (shows (4 + t))) (year (shows (5 + t))).

Lemma cmos_read_ok r h : 0 <= r < 2 ^ 7 -> exists h', cmos_read r h = (regs (reads h) r, h') /\ reads h' = S (reads h).
Proof. intros Hr. unfold cmos_read, Lapic.microdelay. by apply rtc_read. Qed.

Lemma fill_ok h : exists h', fill_rtcdate h = (gathered (reads h), h') /\ reads h' = (6 + reads h)%nat.
Proof.
  unfold fill_rtcdate, gathered, shows. cbn [second minute hour day month year].
  destruct (cmos_read_ok SECS h) as (h1 & -> & E1); [unfold SECS; lia|]. destruct (cmos_read_ok MINS h1) as (h2 & -> & E2); [unfold MINS; lia|].
  destruct (cmos_read_ok HOURS h2) as (h3 & -> & E3); [unfold HOURS; lia|]. destruct (cmos_read_ok DAY h3) as (h4 & -> & E4); [unfold DAY; lia|].
  destruct (cmos_read_ok MONTH h4) as (h5 & -> & E5); [unfold MONTH; lia|]. destruct (cmos_read_ok YEAR h5) as (h6 & -> & E6); [unfold YEAR; lia|].
  exists h6. split; [|lia]. repeat f_equal; lia.
Qed.

Lemma gathered_same t d : (forall u, (t <= u <= 5 + t)%nat -> shows u = d) -> gathered t = d.
Proof. intros H. unfold gathered. rewrite !H by lia. by destruct d. Qed.

(** No update is announced at [t]. *)
Definition clear t : Prop := Z.land (regs t CMOS_STATA) CMOS_UIP = 0.

(** What the data sheet of the chip promises: the flag is set some time before an
    update begins, so that the registers do not change during the six reads after
    it was seen clear.  While it is set nothing is known about them. *)
Definition announces : Prop := forall t, clear t -> forall u, (t <= u <= t + 6)%nat -> shows u = shows t.

(** The clock rests from [t] to [t + n]. *)
Definition rests t n : Prop := forall u, (t <= u <= t + n)%nat -> clear u /\ shows u = shows t.

(** A turn of the loop: 7 reads if an update is announced, else 13, and the second
    reading is then a date that the clock shows. *)
Lemma turn_ok n h : announces ->
  (~ clear (6 + reads h) /\ exists h', reads h' = (7 + reads h)%nat /\ read_twice (S n) h = read_twice n h') \/
  (clear (6 + reads h) /\ exists h', reads h' = (13 + reads h)%nat /\
    read_twice (S n) h = if bool_decide (gathered (reads h) = shows (6 + reads h)) then Ok (shows (6 + reads h), h') else read_twice n h').
Proof.
  intros Ha. cbn [read_twice]. destruct (fill_ok h) as (h1 & -> & E1).
  destruct (cmos_read_ok CMOS_STATA h1) as (h2 & -> & E2); [unfold CMOS_STATA; lia|]. rewrite E1.
  destruct (Z.eqb_spec (Z.land (regs (6 + reads h) CMOS_STATA) CMOS_UIP) 0) as [Hc|Hc]; cbn [negb].
  - right. split; [done|]. destruct (fill_ok h2) as (h3 & -> & E3). exists h3. split; [lia|]. rewrite E2, E1.
    rewrite (gathered_same (S (6 + reads h)) (shows (6 + reads h))) by (intros u Hu; apply Ha; [done|lia]).
    by destruct (bool_decide_reflect (gathered (reads h) = shows (6 + reads h))) as [->|].
  - left. split; [done|]. exists h2. split; [lia|done].
Qed.

Lemma read_twice_ok t n : announces -> rests t 25 -> forall h, (t <= reads h + 7 * (n - 1))%nat -> (0 < n)%nat -> (reads h <= t + 12)%nat ->
  exists u h', (reads h <= u <= t + 25)%nat /\ clear u /\ read_twice n h = Ok (shows u, h').
Proof.
  intros Ha Hr. induction n as [|n IH]; intros h Ht Hn Hh; [lia|].
  destruct (turn_ok n h Ha) as [(Hc & h' & E & ->)|(Hc & h' & E & ->)].
  - assert (6 + reads h < t)%nat as Hlt.
    { destruct (Nat.lt_ge_cases (6 + reads h) t) as [H|H]; [done|]. destruct Hc. apply Hr. lia. }
    destruct (IH h') as (u & h2 & Hu & H); [lia..|]. exists u, h2. split; [lia|done].
  - destruct (bool_decide_reflect (gathered (reads h) = shows (6 + reads h))) as [_|Hne].
    { exists (6 + reads h)%nat, h'. split; [lia|done]. }
    assert (reads h < t)%nat as Hlt.
    { destruct (Nat.lt_ge_cases (reads h) t) as [H|H]; [done|]. destruct Hne.
      rewrite (gathered_same _ (shows t)); [symmetry|intros u Hu]; apply Hr; lia. }
    destruct (IH h') as (u & h2 & Hu & H); [lia..|]. exists u, h2. split; [lia|done].
Qed.

(** Binary coded decimals. *)
Definition bcd (v : Z) : Z := 16 * (v / 10) + v mod 10.

Lemma conv_bcd v : 0 <= v < 100 -> CONV (bcd v) = v.
Proof.
  intros Hv. unfold CONV, bcd. pose proof (Z.mod_pos_bound v 10 ltac:(lia)) as Hm. pose proof (Z.div_mod v 10 ltac:(lia)) as Hd.
  rewrite Z.shiftr_div_pow2 by lia. change 0xf with (Z.ones 4). rewrite Z.land_ones by lia. change (2 ^ 4) with 16.
  rewrite (Z.mul_comm 16), Z.div_add_l, (Z.div_small (v mod 10) 16), (Z.add_comm (v / 10 * 16)), Z.mod_add, (Z.mod_small (v mod 10) 16) by lia.
  rewrite u32_small; lia.
Qed.

Definition map_date (f : Z -> Z) d : rtcdate := mkDate (f (second d)) (f (minute d)) (f (hour d)) (f (day d)) (f (month d)) (f (year d)).
Definition all_fields (P : Z -> Prop) d : Prop := P (second d) /\ P (minute d) /\ P (hour d) /\ P (day d) /\ P (month d) /\ P (year d).

(** The registers hold the date [d], in the format that status register B had
    when it was read at [b]. *)
Definition holds_date b t d : Prop :=
  all_fields (fun v => 0 <= v < 100) d /\ shows t = map_date (if Z.land (regs b CMOS_STATB) 4 =? 0 then bcd else id) d.

(** C35: [cmostime] returns a date that the clock showed while it was read, at a
    moment when no update was announced: never a mixture of two dates, nor what the
    registers hold during an update, however often the clock changes.  It relies on
    the announcement ([announces]), and returns once the clock has rested for 26
    reads ([rests]): with [n] turns these may begin at the [7 * (n - 1)]th read.  In
    either format of the chip. *)
Theorem cmostime_spec n t h (date : nat -> rtcdate) :
  announces -> rests t 25 -> (S (reads h) <= t <= S (reads h) + 7 * (n - 1))%nat -> (0 < n)%nat ->
  (forall u, (S (reads h) <= u <= t + 25)%nat -> clear u -> holds_date (reads h) u (date u)) ->
  exists u r h', cmostime n h = Ok (r, h') /\ (S (reads h) <= u <= t + 25)%nat /\ clear u /\
    r = mkDate (second (date u)) (minute (date u)) (hour (date u)) (day (date u)) (month (date u)) (2000 + year (date u)).
Proof.
  intros Ha Hr Ht Hn Hd. unfold cmostime. destruct (cmos_read_ok CMOS_STATB h) as (h1 & -> & E1); [unfold CMOS_STATB; lia|].
  destruct (read_twice_ok t n Ha Hr h1) as (u & h2 & Hu & Hc & ->); [lia..|]. cbn [res_bind]. rewrite E1 in Hu.
  destruct (Hd u Hu Hc) as [(H1 & H2 & H3 & H4 & H5 & H6) Hsh]. exists u. do 2 eexists. split; [reflexivity|]. split; [done|]. split; [done|]. rewrite Hsh.
  change (Z.shiftl 1 2) with 4. destruct (_ =? 0); unfold convert, map_date, id; cbn [second minute hour day month year]; rewrite ?conv_bcd by done;
    f_equal; rewrite u32_small; lia.
Qed.
End Clock.

(** * A machine *)

(** Registers that hold what was written, with the commands sent by the local APIC;
    a clock that goes from 23:59:59 on the last day of 2024 to the next second, and
    announces the update for the first ten reads. *)
Record demo_chips := mkChips { ch_l : Z -> Z; ch_sel : Z; ch_tab : Z -> Z; ch_idx : Z; ch_reads : nat; ch_sent : list (Z * Z) }.

Definition demo_date (t : nat) : rtcdate := if (t <? 5)%nat then mkDate 59 59 23 31 12 24 else mkDate 0 0 0 1 1 25.
Definition demo_regs (t : nat) (r : Z) : Z :=
  let d := map_date bcd (demo_date t) in
  if r =? Cmos.SECS then second d else if r =? Cmos.MINS then minute d else if r =? Cmos.HOURS then hour d
  else if r =? Cmos.DAY then day d else if r =? Cmos.MONTH then month d else if r =? Cmos.YEAR then year d
  else if r =? Cmos.CMOS_STATA then (if (t <? 10)%nat then 0x80 else 0) else 0.

#[export] Instance demo_hw : Hw := {|
  hw := demo_chips;
  inb p h := if p =? 0x71 then (demo_regs (ch_reads h) (ch_idx h), mkChips (ch_l h) (ch_sel h) (ch_tab h) (ch_idx h) (S (ch_reads h)) (ch_sent h)) else (0, h);
  outb p v h := if p =? 0x70 then mkChips (ch_l h) (ch_sel h) (ch_tab h) v (ch_reads h) (ch_sent h) else h;
  lapic_rd i h := (Z.land (ch_l h i) 0xFFFFEFFF, h);
  lapic_wr i v h := mkChips (fun j => if j =? i then v else ch_l h j) (ch_sel h) (ch_tab h) (ch_idx h) (ch_reads h)
                      (if i =? Lapic.ICRLO then ch_sent h ++ [(Z.shiftr (ch_l h Lapic.ICRHI) 24, v)] else ch_sent h);
  ioapic_rd a h := (ch_tab h (ch_sel h), h);
  ioapic_wr a v h := if a =? 0 then mkChips (ch_l h) v (ch_tab h) (ch_idx h) (ch_reads h) (ch_sent h)
                     else mkChips (ch_l h) (ch_sel h) (fun r => if r =? ch_sel h then v else ch_tab h r) (ch_idx h) (ch_reads h) (ch_sent h)
|}.

#[export] Instance demo_laws : HwLaws.
Proof. by refine {| lreg := ch_l : hw -> _; isel := ch_sel : hw -> _; itab := ch_tab : hw -> _ |}. Defined.

#[export] Instance demo_ipis : Ipis.
Proof. refine {| sent := ch_sent : hw -> _ |}; try done. intros p v h. cbn. by destruct (p =? 0x70). Defined.

#[export] Instance demo_rtc : Rtc.
Proof. refine {| reads := ch_reads : hw -> _; regs := demo_regs |}. intros r h Hr. by eexists. Defined.

Definition demo_boot : demo_chips := mkChips (fun _ => 0) 0 (fun r => if r =? 1 then 0x170011 else 0) 0 0 [].

Lemma ioapic_routing_witness : routed (foldl (fun h e => Ioapic.ioapicenable e.1 e.2 h) (Ioapic.ioapicinit 0 (demo_boot : hw)).2 [(1, 0); (14, 1)]) 14 = Some (46, 1).
Proof.
  rewrite (@ioapic_routing demo_hw demo_laws 0 [(1, 0); (14, 1)] demo_boot).
  - reflexivity.
  - repeat constructor; vm_compute; discriminate.
  - vm_compute. split; discriminate.
Defined.

Lemma lapicinit_spec_witness : exists h', Lapic.lapicinit 1 0xFEE00000 (demo_boot : hw) = Ok h' /\ lreg h' Lapic.TIMER = Lapic.PERIODIC + 32.
Proof.
  destruct (@lapicinit_spec demo_hw demo_laws 1 0xFEE00000 demo_boot) as (h' & E & _ & Ht & _).
  - discriminate.
  - intros h. exists 0%nat. split; [lia|]. cbn. rewrite <- Z.land_assoc. apply Z.land_0_r.
  - by exists h'.
Defined.

Lemma demo_shows u : shows u = map_date bcd (demo_date u).
Proof. reflexivity. Qed.

Lemma demo_clear u : clear u <-> (10 <= u)%nat.
Proof.
  unfold clear. change (regs u Cmos.CMOS_STATA) with (if (u <? 10)%nat then 0x80 else 0).
  destruct (Nat.ltb_spec u 10); (split; [|done || lia]); [done|lia].
Qed.

Lemma demo_date_late u : (5 <= u)%nat -> demo_date u = mkDate 0 0 0 1 1 25.
Proof. intros H. unfold demo_date. by rewrite (proj2 (Nat.ltb_ge u 5)). Qed.

Lemma cmostime_spec_witness : exists u r h', Cmos.cmostime 3 (demo_boot : hw) = Ok (r, h') /\ (1 <= u <= 35)%nat /\ clear u /\
  r = mkDate (second (demo_date u)) (minute (demo_date u)) (hour (demo_date u)) (day (demo_date u)) (month (demo_date u)) (2000 + year (demo_date u)).
Proof.
  destruct (@cmostime_spec demo_hw demo_rtc 3 10 demo_boot demo_date) as (u & r & h' & H).
  - intros t Ht u Hu. apply demo_clear in Ht. rewrite !demo_shows, !demo_date_late by lia. done.
  - intros u Hu. rewrite demo_clear, !demo_shows, !demo_date_late by lia. split; [lia|done].
  - cbn. lia.
  - lia.
  - intros u _ _. split; [|reflexivity]. unfold demo_date. destruct (u <? 5)%nat; repeat split; discriminate.
  - exists u, r, h'. exact H.
Defined.
