(* ===== verification/Mp.v ===== *)
(** The multiprocessor tables: [mp.c], with the structures of [mp.h].

    [m] is the memory the BIOS left, at the kernel's addresses.  The structures
    are read at the offsets [mp.h] gives their fields.  [mpinit] fills the table
    [cpus] of Spinlock.v and sets [ioapicid] and [lapic].

    The theorems: [mpsearch] returns the first structure with the signature and
    the checksum of each place it looks at; [mpinit] learns the processors of the
    table in order; and an entry of unknown type makes it loop forever. *)

From S2P Require Import Prelude CString Spinlock Kalloc Apic ApicFacts.

(** The globals [cpus], [ncpu], [ioapicid] and [lapic]. *)
Record smp := mkSmp { sm_mach : machine; ioapicid : Z; lapic : Z }.
#[export] Instance smp_eta : Eta smp := fun x => mkSmp (sm_mach x) (ioapicid x) (lapic x).
Definition set_sm_mach := ltac:(setter sm_mach).
Definition set_ioapicid := ltac:(setter ioapicid).
Definition set_lapic := ltac:(setter lapic).
Definition set_ncpu := ltac:(setter ncpu).
Definition set_apicid := ltac:(setter apicid).

Definition sizeof_mp : Z := 16.
Definition sizeof_mpconf : Z := 44.
Definition sizeof_mpproc : Z := 20.
Definition sizeof_mpioapic : Z := 8.
Definition MPPROC : Z := 0x00.
Definition MPBUS : Z := 0x01.
Definition MPIOAPIC : Z := 0x02.
Definition MPIOINTR : Z := 0x03.
Definition MPLINTR : Z := 0x04.

Module Mp.
Implicit Types (m : mem) (st : smp).

(** The loop of [sum], an [int]. *)
Fixpoint sum_from m (addr : Z) (len : nat) (sum : Z) : Z :=
  match len with
  | O => sum
  | S n => sum_from m (addr + 1) n (s32 (sum + m addr))
  end.
Definition sum m (addr len : Z) : Z := u8 (sum_from m addr (Z.to_nat len) 0).

(** [memcmp(p, sig, 4) == 0] for a constant string. *)
Definition has_sig m (p : Z) (sig : list Z) : bool := bool_decide (load_bytes m p 4 = sig).

(** The fields of [struct mp] and [struct mpconf]. *)
Definition mp_physaddr m (mp : Z) : Z := load32 m (mp + 4).
Definition mp_imcrp m (mp : Z) : Z := m (mp + 12).
Definition conf_length m (conf : Z) : Z := m (conf + 4) + 256 * m (conf + 5).
Definition conf_version m (conf : Z) : Z := m (conf + 6).
Definition conf_lapicaddr m (conf : Z) : Z := load32 m (conf + 36).

(** [for (p = addr; p < e; p += sizeof(struct mp))]: [n] is above the number of
    turns left. *)
Fixpoint search_loop (n : nat) m (p e : Z) : option Z :=
  match n with
  | O => None
  | S n =>
      if p <? e then
        if has_sig m p [95; 77; 80; 95] && (sum m p sizeof_mp =? 0) then Some p
        else search_loop n m (p + sizeof_mp) e
      else None
  end.
Definition mpsearch1 m (a len : Z) : option Z :=
  let addr := P2V a in
  search_loop (S (Z.to_nat len)) m addr (addr + len).

Definition mpsearch m : option Z :=
  let bda := P2V 0x400 in
  let p := Z.shiftl (Z.lor (Z.shiftl (m (bda + 0x0F)) 8) (m (bda + 0x0E))) 4 in
  let found :=
    if negb (p =? 0) then mpsearch1 m p 1024
    else
      let p := Z.lor (Z.shiftl (m (bda + 0x14)) 8) (m (bda + 0x13)) * 1024 in
      mpsearch1 m (u32 (p - 1024)) 1024 in
  match found with
  | Some mp => Some mp
  | None => mpsearch1 m 0xF0000 0x10000
  end.

(** The table and the structure that points to it. *)
Definition mpconfig m : option (Z * Z) :=
  match mpsearch m with
  | None => None
  | Some mp =>
      if mp_physaddr m mp =? 0 then None
      else
        let conf := P2V (mp_physaddr m mp) in
        if negb (has_sig m conf [80; 67; 77; 80]) then None
        else if negb (conf_version m conf =? 1) && negb (conf_version m conf =? 4) then None
        else if negb (sum m conf (conf_length m conf) =? 0) then None
        else Some (conf, mp)
  end.

(** The loop of [mpinit] over the entries.  The [break] of the default case
    leaves the [switch], not the loop. *)
Fixpoint entry_loop (n : nat) m (p e ismp : Z) st : res (Z * smp) :=
  match n with
  | O => OutOfFuel
  | S n =>
      if p <? e then
        let t := m p in
        if t =? MPPROC then
          let? st :=
            (let k := sm_mach st in
             if (ncpu k <? NCPU)%nat then
               let? c := Spinlock.get_cpu (ncpu k) k in
               let k := Spinlock.put_cpu (ncpu k) (set_apicid (m (p + 1)) c) k in
               Ok (set_sm_mach (set_ncpu (S (ncpu k)) k) st)
             else Ok st) in
          entry_loop n m (p + sizeof_mpproc) e ismp st
        else if t =? MPIOAPIC then
          entry_loop n m (p + sizeof_mpioapic) e ismp (set_ioapicid (m (p + 1)) st)
        else if (t =? MPBUS) || (t =? MPIOINTR) || (t =? MPLINTR) then
          entry_loop n m (p + 8) e ismp st
        else entry_loop n m p e 0 st
      else Ok (ismp, st)
  end.

Definition mpinit `{HW : Hw} (fuel : nat) m st (h : hw) : res (smp * hw) :=
  match mpconfig m with
  | None => Panic "Expect to run on an SMP"
  | Some (conf, mp) =>
      let st := set_lapic (conf_lapicaddr m conf) st in
      let? (ismp, st) := entry_loop fuel m (conf + sizeof_mpconf) (conf + conf_length m conf) 1 st in
      if ismp =? 0 then Panic "Didn't find a suitable machine"
      else if negb (mp_imcrp m mp =? 0) then
        let h := outb 0x22 0x70 h in
        let '(v, h) := inb 0x23 h in
        Ok (st, outb 0x23 (Z.lor v 1) h)
      else Ok (st, h)
  end.
End Mp.

(** * Searching *)

Section Search.
Import Mp.
Implicit Types (m : mem) (p a len : Z).

(** A floating pointer structure: the signature, and bytes that add up to 0. *)
Definition is_mp m p : Prop := load_bytes m p 4 = [95; 77; 80; 95] /\ zsum id (load_bytes m p 16) mod 256 = 0.

Lemma sum_from_ok m n : forall addr acc, bytes m -> 0 <= acc -> acc + 256 * Z.of_nat n < 2 ^ 31 ->
  sum_from m addr n acc = acc + zsum id (load_bytes m addr n).
Proof.
  induction n as [|n IH]; intros addr acc Hm Ha Hn; cbn [sum_from load_bytes zsum]; [lia|].
  pose proof (Hm addr) as Hb. rewrite s32_small by lia. rewrite IH by (done || lia). unfold id. lia.
Qed.

(** [sum] is the sum of the bytes modulo 256. *)
Lemma sum_ok m addr len : bytes m -> 0 <= len < 2 ^ 16 -> sum m addr len = zsum id (load_bytes m addr (Z.to_nat len)) mod 256.
Proof. intros Hm Hl. unfold sum. by rewrite sum_from_ok by (done || lia). Qed.

Lemma is_mp_dec m p : bytes m -> has_sig m p [95; 77; 80; 95] && (sum m p sizeof_mp =? 0) = true <-> is_mp m p.
Proof.
  intros Hm. unfold has_sig, is_mp. rewrite sum_ok by (done || unfold sizeof_mp; lia). rewrite andb_true_iff, bool_decide_eq_true, Z.eqb_eq. done.
Qed.

(** [p] is the first structure of the places [base], [base + 16], ... below
    [base + len]. *)
Definition first_mp m base len p : Prop :=
  exists k, 0 <= k /\ p = base + 16 * k /\ p < base + len /\ is_mp m p /\ forall j, 0 <= j < k -> ~ is_mp m (base + 16 * j).
Definition no_mp m base len : Prop := forall k, 0 <= k -> 16 * k < len -> ~ is_mp m (base + 16 * k).

Lemma search_loop_ok m n : bytes m -> forall p e, e - p < 16 * Z.of_nat n ->
  match search_loop n m p e with Some q => first_mp m p (e - p) q | None => no_mp m p (e - p) end.
Proof.
  intros Hm. induction n as [|n IH]; intros p e Hn; [intros k Hk Hk'; lia|]. cbn [search_loop].
  destruct (Z.ltb_spec p e) as [Hlt|Hge]; [|intros k Hk Hk'; lia]. destruct (_ && _) eqn:E.
  - apply is_mp_dec in E; [|done]. exists 0. split; [lia|]. split; [lia|]. split; [lia|]. split; [done|]. lia.
  - assert (~ is_mp m p) as Hp by (rewrite <- is_mp_dec, E by done; done). specialize (IH (p + sizeof_mp) e). unfold sizeof_mp in *.
    assert (forall j, 0 <= j -> (1 <= j -> ~ is_mp m (p + 16 + 16 * (j - 1))) -> ~ is_mp m (p + 16 * j)) as Hst.
    { intros j Hj Hn'. destruct (decide (j = 0)) as [->|]; [by rewrite Z.add_0_r|]. replace (p + 16 * j) with (p + 16 + 16 * (j - 1)) by lia. apply Hn'. lia. }
    destruct (search_loop n m (p + 16) e) as [q|].
    + destruct IH as (k & Hk & -> & Hq & His & Hno); [lia|]. exists (k + 1). split; [lia|]. split; [lia|]. split; [lia|]. split; [done|].
      intros j Hj. apply Hst; [lia|]. intros Hj1. apply Hno. lia.
    + intros k Hk Hk'. apply Hst; [lia|]. intros Hk1. apply IH; lia.
Qed.

Lemma mpsearch1_ok m a len : bytes m -> 0 <= len ->
  match mpsearch1 m a len with Some p => first_mp m (P2V a) len p | None => no_mp m (P2V a) len end.
Proof.
  intros Hm Hl. unfold mpsearch1. pose proof (search_loop_ok m (S (Z.to_nat len)) Hm (P2V a) (P2V a + len)) as H.
  replace (P2V a + len - P2V a) with len in H by lia. apply H. lia.
Qed.

(** The first place [mpsearch] looks at: the extended BIOS data area if the BIOS
    gives its segment, otherwise the last kilobyte of base memory. *)
Definition mp_area m : Z :=
  let w i := m (P2V 0x400 + i) + 256 * m (P2V 0x400 + (i + 1)) in
  if w 0x0E =? 0 then u32 (w 0x13 * 1024 - 1024) else w 0x0E * 16.

Lemma lor_word a b : 0 <= a < 256 -> Z.lor (Z.shiftl b 8) a = a + 256 * b.
Proof.
  intros Ha. assert (Z.land (Z.shiftl b 8) a = 0) as E.
  { apply Z.bits_inj'. intros n Hn. rewrite Z.land_spec, Z.bits_0, Z.shiftl_spec by done. destruct (Z.lt_ge_cases n 8) as [H|H].
    - by rewrite Z.testbit_neg_r by lia.
    - destruct (decide (a = 0)) as [->|]; [by rewrite Z.bits_0, andb_false_r|]. rewrite (Z.bits_above_log2 a n), andb_false_r; [done|lia|].
      apply Z.log2_lt_pow2; [lia|]. apply Z.lt_le_trans with (2 ^ 8); [lia|]. apply Z.pow_le_mono_r; lia. }
  pose proof (Z.add_lor_land (Z.shiftl b 8) a) as H. rewrite E, Z.shiftl_mul_pow2 in H by lia. rewrite Z.shiftl_mul_pow2 by lia. lia.
Qed.

(** [mpsearch] returns the first structure with the right signature and
    checksum in the first area, then in the BIOS ROM, and nothing if there is
    none in either. *)
Theorem mpsearch_spec m : bytes m ->
  match mpsearch m with
  | Some p => first_mp m (P2V (mp_area m)) 1024 p \/ no_mp m (P2V (mp_area m)) 1024 /\ first_mp m (P2V 0xF0000) 0x10000 p
  | None => no_mp m (P2V (mp_area m)) 1024 /\ no_mp m (P2V 0xF0000) 0x10000
  end.
Proof.
  intros Hm. unfold mpsearch.
  assert ((if negb (Z.shiftl (Z.lor (Z.shiftl (m (P2V 1024 + 15)) 8) (m (P2V 1024 + 14))) 4 =? 0)
           then mpsearch1 m (Z.shiftl (Z.lor (Z.shiftl (m (P2V 1024 + 15)) 8) (m (P2V 1024 + 14))) 4) 1024
           else mpsearch1 m (u32 (Z.lor (Z.shiftl (m (P2V 1024 + 20)) 8) (m (P2V 1024 + 19)) * 1024 - 1024)) 1024) = mpsearch1 m (mp_area m) 1024) as ->.
  { rewrite !lor_word by apply Hm. rewrite (Z.shiftl_mul_pow2 _ 4) by lia. change (2 ^ 4) with 16. unfold mp_area. cbn [Z.add Pos.add].
    set (w := m (P2V 1024 + 14) + _). destruct (Z.eqb_spec w 0) as [->|Hw]; [done|]. by rewrite (proj2 (Z.eqb_neq _ _)) by lia. }
  pose proof (mpsearch1_ok m (mp_area m) 1024 Hm ltac:(lia)) as H1. pose proof (mpsearch1_ok m 0xF0000 0x10000 Hm ltac:(lia)) as H2.
  destruct (mpsearch1 m (mp_area m) 1024) as [p|]; [by left|]. destruct (mpsearch1 m 0xF0000 0x10000) as [p|]; [right|]; done.
Qed.
End Search.

(** * Entries *)

(** The entries of a table, with the bytes behind the fields that are read. *)
Inductive mpentry :=
| Processor (apic : Z) (rest : list Z)
| IoApic (apicno : Z) (rest : list Z)
| Ignored (type : Z) (rest : list Z).

Definition entry_bytes (en : mpentry) : list Z :=
  match en with
  | Processor a r => MPPROC :: a :: r
  | IoApic a r => MPIOAPIC :: a :: r
  | Ignored t r => t :: r
  end.

(** An entry has the length of its type. *)
Definition entry_ok (en : mpentry) : Prop :=
  match en with
  | Processor _ r => length r = 18%nat
  | IoApic _ r => length r = 6%nat
  | Ignored t r => (t = MPBUS \/ t = MPIOINTR \/ t = MPLINTR) /\ length r = 7%nat
  end.

(** The processors, and the last I/O APIC. *)
Definition apic_ids (l : list mpentry) : list Z := flat_map (fun en => match en with Processor a _ => [a] | _ => [] end) l.
Fixpoint last_ioapic (l : list mpentry) (d : Z) : Z :=
  match l with
  | [] => d
  | IoApic a _ :: l => last_ioapic l a
  | _ :: l => last_ioapic l d
  end.

Section Entries.
Import Mp.
Implicit Types (m : mem) (st : smp) (l : list mpentry) (k : machine).

(** [k'] is [k] with the processors [ids] entered as far as there is room. *)
Definition entered_cpus k (ids : list Z) k' : Prop :=
  ncpu k' = (ncpu k + length (take (NCPU - ncpu k) ids))%nat /\
  apicid <$> cpus k' = take (ncpu k) (apicid <$> cpus k) ++ take (NCPU - ncpu k) ids ++ drop (ncpu k + length ids) (apicid <$> cpus k) /\
  set_apicid 0 <$> cpus k' = set_apicid 0 <$> cpus k /\ eflags_if k' = eflags_if k /\ lapicid k' = lapicid k.

(** One processor. *)
Lemma enter_one k a : (ncpu k < NCPU)%nat -> length (cpus k) = NCPU ->
  exists c, Spinlock.get_cpu (ncpu k) k = Ok c /\
  forall ids k', (entered_cpus (set_ncpu (S (ncpu k)) (Spinlock.put_cpu (ncpu k) (set_apicid a c) k)) ids k' -> entered_cpus k (a :: ids) k').
Proof.
  intros Hn Hl. destruct (lookup_lt_is_Some_2 (cpus k) (ncpu k)) as [c Hc]; [lia|]. exists c. split.
  - unfold Spinlock.get_cpu. by apply zget_of_nat.
  - intros ids k'. unfold entered_cpus, Spinlock.put_cpu. cbn [ncpu cpus set_ncpu set_cpus eflags_if lapicid]. rewrite !list_fmap_insert. intros (E1 & E2 & E3 & E4 & E5).
    replace (NCPU - ncpu k)%nat with (S (NCPU - S (ncpu k))) by lia. cbn [take length]. split; [cbn [length]; lia|]. split; [|split; [|done]].
    + rewrite E2. cbn [apicid set_apicid]. replace (S (ncpu k) + length ids)%nat with (ncpu k + S (length ids))%nat by lia.
      rewrite (take_S_r _ _ a) by (rewrite list_lookup_insert_eq; [done|rewrite length_fmap; lia]). rewrite take_insert_ge by lia.
      rewrite drop_insert_lt by lia. by rewrite <- app_assoc.
    + rewrite E3. apply list_insert_id. rewrite list_lookup_fmap, Hc. by destruct c.
Qed.

Lemma entered_none k : (ncpu k <= length (cpus k))%nat -> entered_cpus k [] k.
Proof.
  intros Hn. unfold entered_cpus. rewrite take_nil. cbn [length app]. rewrite !Nat.add_0_r, take_drop. done.
Qed.

Lemma entered_full k a ids k' : ncpu k = NCPU -> length (cpus k) = NCPU -> entered_cpus k ids k' -> entered_cpus k (a :: ids) k'.
Proof.
  intros Hn Hl. unfold entered_cpus. rewrite Hn, Nat.sub_diag. cbn [take length app]. rewrite !(drop_ge (_ <$> _)) by (rewrite length_fmap; lia). done.
Qed.

(** The loop of [mpinit] over the entries [l], wherever the table ends. *)
Lemma entry_loop_ok m l : forall n p e ismp st, Forall entry_ok l -> bstr m p (flat_map entry_bytes l) ->
  p + Z.of_nat (length (flat_map entry_bytes l)) <= e -> (ncpu (sm_mach st) <= NCPU)%nat -> length (cpus (sm_mach st)) = NCPU ->
  exists st', entry_loop (length l + n) m p e ismp st = entry_loop n m (p + Z.of_nat (length (flat_map entry_bytes l))) e ismp st' /\
    entered_cpus (sm_mach st) (apic_ids l) (sm_mach st') /\ ioapicid st' = last_ioapic l (ioapicid st) /\ lapic st' = lapic st.
Proof.
  induction l as [|en l IH]; intros n p e ismp st Hok Hb Hn Hc Hl; cbn [Nat.add length flat_map].
  { rewrite Z.add_0_r. exists st. split; [done|]. split; [apply entered_none; lia|done]. }
  cbn [entry_loop]. apply Forall_cons in Hok as [He Hok]. cbn [flat_map] in Hb, Hn. apply bstr_app in Hb as [Hb Hb'].
  assert (m p = hd 0 (entry_bytes en) /\ (1 <= length (entry_bytes en))%nat) as [Et Hlen] by (destruct en; cbn in Hb |- *; intuition lia).
  rewrite length_app, Nat2Z.inj_add in *. rewrite (proj2 (Z.ltb_lt p _)) by lia. rewrite Et, Z.add_assoc in *.
  destruct en as [a r|a r|t r]; cbn [hd entry_bytes] in *.
  - replace (p + Z.of_nat (length (MPPROC :: a :: r))) with (p + sizeof_mpproc) in * by (cbn in He |- *; unfold sizeof_mpproc; lia).
    destruct Hb as (_ & -> & _). change (MPPROC =? MPPROC) with true. cbv iota. change (apic_ids (Processor a r :: l)) with (a :: apic_ids l). destruct (Nat.ltb_spec (ncpu (sm_mach st)) NCPU) as [Hlt|Hge].
    + destruct (enter_one (sm_mach st) a Hlt Hl) as (c & -> & Hent). cbn [res_bind]. set (st1 := set_sm_mach _ st).
      destruct (IH n (p + sizeof_mpproc) e ismp st1) as (st' & -> & Hcp & Hrest); [done|done|lia|cbn; lia|cbn; by rewrite length_insert|].
      exists st'. split; [done|]. split; [by apply Hent|done].
    + cbn [res_bind]. destruct (IH n (p + sizeof_mpproc) e ismp st) as (st' & -> & Hcp & Hrest); [done|done|lia|done|done|].
      exists st'. split; [done|]. split; [apply entered_full; [lia|done|done]|done].
  - replace (p + Z.of_nat (length (MPIOAPIC :: a :: r))) with (p + sizeof_mpioapic) in * by (cbn in He |- *; unfold sizeof_mpioapic; lia).
    destruct Hb as (_ & -> & _). change (MPIOAPIC =? MPPROC) with false. change (MPIOAPIC =? MPIOAPIC) with true. cbv iota.
    destruct (IH n (p + sizeof_mpioapic) e ismp (set_ioapicid a st)) as (st' & -> & Hrest); [done|done|lia|done|done|]. by exists st'.
  - destruct He as [Ht He]. replace (p + Z.of_nat (length (t :: r))) with (p + 8) in * by (cbn; lia).
    assert ((t =? MPPROC) = false /\ (t =? MPIOAPIC) = false /\ (t =? MPBUS) || (t =? MPIOINTR) || (t =? MPLINTR) = true) as (-> & -> & ->)
      by (destruct Ht as [->|[->| ->]]; done).
    destruct (IH n (p + 8) e ismp st) as (st' & -> & Hrest); [done|done|lia|done|done|]. by exists st'.
Qed.

(** More turns do not change a result. *)
Lemma entry_loop_more m n : forall (i : nat) p e ismp st, entry_loop n m p e ismp st <> OutOfFuel -> entry_loop (n + i) m p e ismp st = entry_loop n m p e ismp st.
Proof.
  induction n as [|n IH]; intros i p e ismp st H; [done|]. cbn [Nat.add entry_loop] in *.
  destruct (p <? e); [|done]. destruct (m p =? MPPROC).
  - destruct (if (ncpu (sm_mach st) <? NCPU)%nat then _ else _) as [st1| | | |]; cbn [res_bind] in *; try done. by apply IH.
  - destruct (m p =? MPIOAPIC); [by apply IH|]. destruct (_ || _); by apply IH.
Qed.

Lemma entry_loop_panics m n : forall p e ismp st s, entry_loop n m p e ismp st <> Panic s.
Proof.
  induction n as [|n IH]; intros p e ismp st s; [done|]. cbn [entry_loop]. destruct (p <? e); [|done]. destruct (m p =? MPPROC).
  - destruct (ncpu (sm_mach st) <? NCPU)%nat; [|apply IH]. unfold Spinlock.get_cpu, zget. destruct (0 <=? _); [|done]. destruct (_ !! _); [apply IH|done].
  - destruct (m p =? MPIOAPIC); [apply IH|]. destruct (_ || _); apply IH.
Qed.

Lemma entry_loop_stuck m n : forall p e ismp st, p < e -> ~ 0 <= m p <= 4 -> entry_loop n m p e ismp st = OutOfFuel.
Proof.
  induction n as [|n IH]; intros p e ismp st Hp Ht; [done|]. cbn [entry_loop]. rewrite (proj2 (Z.ltb_lt p e)) by done.
  unfold MPPROC, MPIOAPIC, MPBUS, MPIOINTR, MPLINTR. rewrite !(proj2 (Z.eqb_neq _ _)) by lia. cbn [orb]. by apply IH.
Qed.

(** [ismp] is still 1 whenever the loop ends. *)
Lemma entry_loop_ismp m n : forall p e ismp st r st', entry_loop n m p e ismp st = Ok (r, st') -> r = ismp.
Proof.
  induction n as [|n IH]; intros p e ismp st r st' H; [done|]. cbn [entry_loop] in H. destruct (Z.ltb_spec p e) as [Hp|Hp]; [|by injection H as -> _].
  destruct (m p =? MPPROC) eqn:E1.
  { destruct (if (ncpu (sm_mach st) <? NCPU)%nat then _ else _) as [st1| | | |]; cbn [res_bind] in H; try done. by eapply IH. }
  destruct (m p =? MPIOAPIC) eqn:E2; [by eapply IH|]. destruct (_ || _) eqn:E3; [by eapply IH|].
  rewrite entry_loop_stuck in H; [done|done|]. apply orb_false_iff in E3 as [[E3 E4]%orb_false_iff E5].
  unfold MPPROC, MPIOAPIC, MPBUS, MPIOINTR, MPLINTR in *. apply Z.eqb_neq in E1, E2, E3, E4, E5. lia.
Qed.
End Entries.

Section Init.
Import Mp.
Context `{HW : Hw}.
Implicit Types (m : mem) (st : smp) (l : list mpentry) (h : hw).

(** The table at [conf] starts with the entries [l]. *)
Definition starts_with m conf l : Prop := Forall entry_ok l /\ bstr m (conf + sizeof_mpconf) (flat_map entry_bytes l).
Definition entries_size l : Z := Z.of_nat (length (flat_map entry_bytes l)).

(** At boot, no processor is known and the table has [NCPU] places. *)
Definition no_cpus st : Prop := ncpu (sm_mach st) = 0%nat /\ length (cpus (sm_mach st)) = NCPU.

(** C32: [mpinit] enters the processors of the configuration table in its
    order, as many as the kernel has room for, and takes the addresses of the
    interrupt controllers from it. *)
Theorem mpinit_spec fuel m st h conf mp l :
  mpconfig m = Some (conf, mp) -> starts_with m conf l -> conf_length m conf = sizeof_mpconf + entries_size l ->
  no_cpus st -> (length l < fuel)%nat ->
  exists st' h', mpinit fuel m st h = Ok (st', h') /\
    ncpu (sm_mach st') = (NCPU `min` length (apic_ids l))%nat /\
    apicid <$> cpus (sm_mach st') = take NCPU (apic_ids l) ++ drop (length (apic_ids l)) (apicid <$> cpus (sm_mach st)) /\
    set_apicid 0 <$> cpus (sm_mach st') = set_apicid 0 <$> cpus (sm_mach st) /\
    ioapicid st' = last_ioapic l (ioapicid st) /\ lapic st' = conf_lapicaddr m conf /\
    (mp_imcrp m mp = 0 -> h' = h).
Proof.
  intros Hconf [Hok Hb] Hlen [Hn Hc] Hf. unfold mpinit. rewrite Hconf, Hlen. unfold entries_size. replace fuel with (length l + S (fuel - S (length l)))%nat by lia.
  set (st1 := set_lapic _ st).
  destruct (entry_loop_ok m l (S (fuel - S (length l))) (conf + sizeof_mpconf) (conf + (sizeof_mpconf + Z.of_nat (length (flat_map entry_bytes l)))) 1 st1) as (st' & -> & He & Hio & Hla);
    [done|done|lia|cbn; lia|done|].
  cbn [entry_loop]. rewrite (proj2 (Z.ltb_ge _ _)) by lia. cbn [res_bind]. change (1 =? 0) with false. cbv iota.
  destruct He as (E1 & E2 & E3 & _). cbn [sm_mach st1 set_lapic] in *. rewrite Hn in *. rewrite Nat.sub_0_r, length_take, take_0 in *. cbn [Nat.add app] in *.
  destruct (Z.eqb_spec (mp_imcrp m mp) 0) as [Hi|Hi]; cbn [negb]; [by exists st', h|].
  destruct (inb 0x23 (outb 0x22 0x70 h)) as [v h1]. by eexists st', _.
Qed.

(** An entry of unknown type makes [mpinit] run forever: the [break]
    of the default case leaves only the [switch], and the loop looks at the same
    entry again. *)
Theorem mpinit_unknown_entry m st h conf mp l :
  mpconfig m = Some (conf, mp) -> starts_with m conf l -> no_cpus st ->
  sizeof_mpconf + entries_size l < conf_length m conf -> ~ 0 <= m (conf + sizeof_mpconf + entries_size l) <= 4 ->
  forall fuel, mpinit fuel m st h = OutOfFuel.
Proof.
  intros Hconf [Hok Hb] [Hn Hc] Hlen Ht fuel. unfold mpinit. rewrite Hconf. set (st1 := set_lapic _ st). unfold entries_size in *.
  destruct (entry_loop_ok m l fuel (conf + sizeof_mpconf) (conf + conf_length m conf) 1 st1) as (st' & E & _); [done|done|lia|cbn; lia|done|].
  rewrite (entry_loop_stuck m fuel (conf + sizeof_mpconf + _)) in E; [|lia|exact Ht].
  destruct (entry_loop fuel m (conf + sizeof_mpconf) (conf + conf_length m conf) 1 st1) as [[r s]|s|s| |] eqn:E'; [..|done].
  all: pose proof (entry_loop_more m fuel (length l) (conf + sizeof_mpconf) (conf + conf_length m conf) 1 st1) as Hm; rewrite E', Nat.add_comm, E in Hm; by specialize (Hm ltac:(discriminate)).
Qed.

(** The message that the machine is not suitable is never given. *)
Theorem mpinit_always_suitable fuel m st h : mpinit fuel m st h <> Panic "Didn't find a suitable machine".
Proof.
  unfold mpinit. destruct (mpconfig m) as [[conf mp]|]; [|done]. set (st1 := set_lapic _ st).
  destruct (entry_loop fuel m (conf + sizeof_mpconf) (conf + conf_length m conf) 1 st1) as [[r st']|s|s| |] eqn:E; cbn [res_bind]; try done.
  - apply entry_loop_ismp in E as ->. change (1 =? 0) with false. cbv iota. destruct (negb _); [|done]. by destruct (inb _ _).
  - by apply entry_loop_panics in E.
Qed.
End Init.

(** * Witnesses *)

(** A table at physical address 0x1000 with two processors, an I/O APIC and
    an entry of type [t]; the structure that points to it is in the ROM. *)
Definition demo_entries : list mpentry := [Processor 0 (repeat 0 18); Processor 7 (repeat 0 18); IoApic 2 (repeat 0 6)].
Definition with_sum (l : list Z) (i : nat) : list Z := <[i := (- zsum id l) mod 256]> l.
Definition demo_table (t : Z) : list Z :=
  with_sum ([80; 67; 77; 80; 100; 0; 4; 0] ++ repeat 0 28 ++ [0; 0; 0xE0; 0xFE] ++ repeat 0 4 ++ flat_map entry_bytes demo_entries ++ t :: repeat 0 7) 7.
Definition demo_float : list Z := with_sum ([95; 77; 80; 95; 0; 16; 0; 0; 1; 4; 0; 0; 0; 0; 0; 0]) 10.
Definition demo_bios (t : Z) : mem := fun a =>
  default 0 (if P2V 0xF0020 <=? a then demo_float !! Z.to_nat (a - P2V 0xF0020)
             else if P2V 0x1000 <=? a then demo_table t !! Z.to_nat (a - P2V 0x1000) else None).
Definition demo_smp : smp := mkSmp (mkMachine (repeat (mkCpu 99 0 0 0 None) 8) 0 false 0 (fun _ => 0) 0) 0 0.

Lemma with_sum_bytes l i : Forall (fun b => 0 <= b < 2 ^ 8) l -> Forall (fun b => 0 <= b < 2 ^ 8) (with_sum l i).
Proof. intros H. apply Forall_insert; [done|]. apply Z.mod_pos_bound. lia. Qed.

Lemma demo_bios_bytes : bytes (demo_bios 1).
Proof.
  intros a. unfold demo_bios. assert (forall l (i : nat), Forall (fun b => 0 <= b < 2 ^ 8) l -> 0 <= default 0 (l !! i) < 2 ^ 8) as H.
  { intros l i Hl. destruct (l !! i) eqn:E; cbn; [|lia]. rewrite Forall_lookup in Hl. by eapply Hl. }
  destruct (_ <=? a); [|destruct (_ <=? a); [|cbn; lia]]; apply H, with_sum_bytes, (bool_decide_unpack _); vm_compute; exact I.
Qed.

Lemma mpsearch_spec_witness : Mp.mpsearch (demo_bios 1) = Some (P2V 0xF0020) /\
  (first_mp (demo_bios 1) (P2V (mp_area (demo_bios 1))) 1024 (P2V 0xF0020) \/
   no_mp (demo_bios 1) (P2V (mp_area (demo_bios 1))) 1024 /\ first_mp (demo_bios 1) (P2V 0xF0000) 0x10000 (P2V 0xF0020)).
Proof.
  pose proof (mpsearch_spec (demo_bios 1) demo_bios_bytes) as H.
  assert (Mp.mpsearch (demo_bios 1) = Some (P2V 0xF0020)) as E by (vm_compute; reflexivity). rewrite E in H. split; [exact E|exact H].
Defined.

Lemma demo_conf t : t = 1 \/ t = 9 -> Mp.mpconfig (demo_bios t) = Some (P2V 0x1000, P2V 0xF0020).
Proof. intros [->| ->]; vm_compute; reflexivity. Qed.

Lemma demo_starts t : starts_with (demo_bios t) (P2V 0x1000) demo_entries.
Proof. split; [repeat constructor|]. vm_compute. tauto. Qed.

Lemma mpinit_spec_witness : exists st' h', Mp.mpinit 5 (demo_bios 1) demo_smp demo_boot = Ok (st', h') /\
  ncpu (sm_mach st') = 2%nat /\ take 3 (apicid <$> cpus (sm_mach st')) = [0; 7; 99] /\ ioapicid st' = 2 /\ lapic st' = 0xFEE00000.
Proof.
  destruct (@mpinit_spec demo_hw 5 (demo_bios 1) demo_smp demo_boot (P2V 0x1000) (P2V 0xF0020) (demo_entries ++ [Ignored 1 (repeat 0 7)]))
    as (st' & h' & H1 & H2 & H3 & _ & H5 & H6 & _).
  - apply demo_conf. by left.
  - split; [repeat constructor; by left|]. vm_compute. tauto.
  - reflexivity.
  - split; reflexivity.
  - cbn. lia.
  - exists st', h'. split; [exact H1|]. split; [exact H2|]. rewrite H3. split; [reflexivity|]. split; [exact H5|]. rewrite H6. vm_compute. reflexivity.
Defined.

Lemma mpinit_unknown_entry_witness : forall fuel, Mp.mpinit fuel (demo_bios 9) demo_smp demo_boot = OutOfFuel.
Proof.
  apply (@mpinit_unknown_entry demo_hw (demo_bios 9) demo_smp demo_boot (P2V 0x1000) (P2V 0xF0020) demo_entries).
  - apply demo_conf. by right.
  - apply demo_starts.
  - split; reflexivity.
  - vm_compute. reflexivity.
  - vm_compute. intros [_ H]. apply H. reflexivity.
Defined.
