(* ===== verification/Proc.v ===== *)
(** Processes and the multi-level feedback queues: the data of [proc.h] and
    [pstat.h], and the operations of [proc.c] that are not the scheduler loop
    (that one is in Sched.v).

    The kernel state [kst] holds the process table with its lock, the three
    queues, the debugging traces, the tick counters, the executing CPU, the
    physical memory with its allocator, the trap frames and contexts by
    address, and the state of the file layer.  A [struct proc *] is the index
    of the entry ([None] is the null pointer), a [struct pqueue *] is one of
    [Q0], [Q1], [Q2].  What proc.c uses of vm.c, file.c, fs.c and log.c is the
    class [Services].  [swtch] gives the CPU away: what happens until it comes
    back is an argument of the functions that call it. *)

From S2P Require Import Prelude CString Spinlock Kalloc.

(** * Data *)

Inductive procstate := UNUSED | EMBRYO | SLEEPING | RUNNABLE | RUNNING | ZOMBIE.

#[export] Instance procstate_eq_dec : EqDecision procstate.
Proof. solve_decision. Defined.

(** [void *chan]: null, a process, or another kernel object by its address. *)
Inductive channel := ChNull | ChProc (i : nat) | ChAddr (a : Z).

#[export] Instance channel_eq_dec : EqDecision channel.
Proof. solve_decision. Defined.

(** [struct sched_stat_t]. *)
Record sched_stat_t := mkStat { start_tick : Z; duration : Z; st_priority : Z }.
#[export] Instance sched_stat_eta : Eta sched_stat_t :=
  fun x => mkStat (start_tick x) (duration x) (st_priority x).
Definition set_start_tick := ltac:(setter start_tick).
Definition set_duration := ltac:(setter duration).
Definition set_st_priority := ltac:(setter st_priority).

Definition NTICKS : Z := 500.
Definition NSCHEDSTATS : Z := 1500.

(** [struct proc].  [name] is the NUL-terminated string in the array. *)
Record proc := mkProc {
  sz : Z;
  pgdir : Z;
  kstack : Z;
  state : procstate;
  pid : Z;
  parent : option nat;
  tf : Z;
  p_context : Z;
  chan : channel;
  killed : Z;
  ofile : list Z;
  cwd : Z;
  name : list Z;
  priority : Z;
  ticks : list Z;
  times : list Z;
  p_queue : list Z;
  total_ticks : Z;
  wait_time : Z;
  stats : list sched_stat_t;
  num_stat_used : Z;
  Ticks : Z
}.
#[export] Instance proc_eta : Eta proc := fun p =>
  mkProc (sz p) (pgdir p) (kstack p) (state p) (pid p) (parent p) (tf p) (p_context p)
    (chan p) (killed p) (ofile p) (cwd p) (name p) (priority p) (ticks p) (times p)
    (p_queue p) (total_ticks p) (wait_time p) (stats p) (num_stat_used p) (Ticks p).
Definition set_sz := ltac:(setter sz).
Definition set_pgdir := ltac:(setter pgdir).
Definition set_kstack := ltac:(setter kstack).
Definition set_state := ltac:(setter state).
Definition set_pid := ltac:(setter pid).
Definition set_parent := ltac:(setter parent).
Definition set_tf := ltac:(setter tf).
Definition set_p_context := ltac:(setter p_context).
Definition set_chan := ltac:(setter chan).
Definition set_killed := ltac:(setter killed).
Definition set_ofile := ltac:(setter ofile).
Definition set_cwd := ltac:(setter cwd).
Definition set_name := ltac:(setter name).
Definition set_priority := ltac:(setter priority).
Definition set_ticks := ltac:(setter ticks).
Definition set_times := ltac:(setter times).
Definition set_p_queue := ltac:(setter p_queue).
Definition set_total_ticks := ltac:(setter total_ticks).
Definition set_wait_time := ltac:(setter wait_time).
Definition set_stats := ltac:(setter stats).
Definition set_num_stat_used := ltac:(setter num_stat_used).
Definition set_Ticks := ltac:(setter Ticks).

(** [struct pqueue]. *)
Record pqueue := mkQueue {
  queue : list (option nat);
  q_ticks : Z;
  q_end : Z;
  numOfProc : Z;
  q_priority : Z
}.
#[export] Instance pqueue_eta : Eta pqueue :=
  fun q => mkQueue (queue q) (q_ticks q) (q_end q) (numOfProc q) (q_priority q).
Definition set_queue := ltac:(setter queue).
Definition set_q_ticks := ltac:(setter q_ticks).
Definition set_q_end := ltac:(setter q_end).
Definition set_numOfProc := ltac:(setter numOfProc).
Definition set_q_priority := ltac:(setter q_priority).

(** [&q0], [&q1], [&q2]. *)
Inductive qid := Q0 | Q1 | Q2.

#[export] Instance qid_eq_dec : EqDecision qid.
Proof. solve_decision. Defined.

(** The debugging arrays [queueN], [nameN] and [stateN] of one level. *)
Record trace := mkTrace {
  t_queue : list Z;
  t_name : list (option nat);
  t_state : list string
}.
#[export] Instance trace_eta : Eta trace :=
  fun t => mkTrace (t_queue t) (t_name t) (t_state t).
Definition set_t_queue := ltac:(setter t_queue).
Definition set_t_name := ltac:(setter t_name).
Definition set_t_state := ltac:(setter t_state).

(** [struct trapframe]: the registers the modelled code names, and the rest. *)
Record trapframe := mkTf {
  tf_eax : Z; tf_trapno : Z; tf_eip : Z; tf_cs : Z; tf_ds : Z; tf_es : Z;
  tf_eflags : Z; tf_esp : Z; tf_ss : Z; tf_err : Z; tf_rest : list Z
}.
#[export] Instance trapframe_eta : Eta trapframe := fun t =>
  mkTf (tf_eax t) (tf_trapno t) (tf_eip t) (tf_cs t) (tf_ds t) (tf_es t)
    (tf_eflags t) (tf_esp t) (tf_ss t) (tf_err t) (tf_rest t).
Definition set_tf_eax := ltac:(setter tf_eax).
Definition set_tf_eip := ltac:(setter tf_eip).
Definition set_tf_esp := ltac:(setter tf_esp).

(** [struct context]. *)
Record ctx := mkCtx { c_edi : Z; c_esi : Z; c_ebx : Z; c_ebp : Z; c_eip : Z }.

(** What [cprintf] is given: the format and its arguments. *)
Inductive carg := AInt (z : Z) | AStr (s : list Z) | ALit (s : string).

(** * The services proc.c calls *)

(** [file] and [inode] pointers are addresses, 0 is null.  A call works on the
    state of its component: [Fs] for file.c, fs.c and log.c, [phys] for vm.c. *)
Class Services := {
  Fs : Type;
  filedup : Z -> Fs -> res Fs;
  fileclose : Z -> Fs -> res Fs;
  idup : Z -> Fs -> res Fs;
  iput : Z -> Fs -> res Fs;
  begin_op : Fs -> res Fs;
  end_op : Fs -> res Fs;
  namei : string -> Fs -> res (Z * Fs);
  iinit : Z -> Fs -> res Fs;
  initlog : Z -> Fs -> res Fs;
  setupkvm : phys -> machine -> res (Z * phys * machine);
  inituvm : Z -> Z -> Z -> phys -> machine -> res (phys * machine);
  allocuvm : Z -> Z -> Z -> phys -> machine -> res (Z * phys * machine);
  deallocuvm : Z -> Z -> Z -> phys -> machine -> res (Z * phys * machine);
  copyuvm : Z -> Z -> phys -> machine -> res (Z * phys * machine);
  freevm : Z -> phys -> machine -> res (phys * machine);
  (** addresses fixed by the linker *)
  kernel_end : Z;
  forkret_at : Z;
  trapret_at : Z;
  initcode_start : Z;
  initcode_size : Z
}.

(** An object protected by a spin lock of its own. *)
Class Guarded (X : Type) := {
  the_lock : X -> spinlock;
  put_lock : spinlock -> X -> X;
  the_put l x : the_lock (put_lock l x) = l
}.
#[export] Instance guarded_lock : Guarded spinlock :=
  {| the_lock l := l; put_lock l _ := l; the_put _ _ := eq_refl |}.

(** * Kernel state *)

Section State.
Context `{Services}.

Record kst := mkKst {
  mach : machine;
  pt_lock : spinlock;
  pt_proc : list proc;
  initproc : option nat;
  nextpid : Z;
  q0 : pqueue;
  q1 : pqueue;
  q2 : pqueue;
  TOTAL : Z;
  trace0 : trace;
  trace1 : trace;
  trace2 : trace;
  clock : Z;               (* ticks of trap.c *)
  ph : phys;
  frames : Z -> trapframe;
  contexts : Z -> ctx;
  kwords : Z -> Z;         (* words pushed on kernel stacks *)
  cr3 : Z;
  kpgdir : Z;
  fork_first : Z;          (* [first] of forkret *)
  fs : Fs;
  out : list (string * list carg)  (* cprintf calls, last first *)
}.
#[export] Instance kst_eta : Eta kst := fun s =>
  mkKst (mach s) (pt_lock s) (pt_proc s) (initproc s) (nextpid s) (q0 s) (q1 s) (q2 s)
    (TOTAL s) (trace0 s) (trace1 s) (trace2 s) (clock s) (ph s) (frames s) (contexts s)
    (kwords s) (cr3 s) (kpgdir s) (fork_first s) (fs s) (out s).
Definition set_mach := ltac:(setter mach).
Definition set_pt_lock := ltac:(setter pt_lock).
Definition set_pt_proc := ltac:(setter pt_proc).
Definition set_initproc := ltac:(setter initproc).
Definition set_nextpid := ltac:(setter nextpid).
Definition set_q0 := ltac:(setter q0).
Definition set_q1 := ltac:(setter q1).
Definition set_q2 := ltac:(setter q2).
Definition set_TOTAL := ltac:(setter TOTAL).
Definition set_trace0 := ltac:(setter trace0).
Definition set_trace1 := ltac:(setter trace1).
Definition set_trace2 := ltac:(setter trace2).
Definition set_clock := ltac:(setter clock).
Definition set_ph := ltac:(setter ph).
Definition set_frames := ltac:(setter frames).
Definition set_contexts := ltac:(setter contexts).
Definition set_kwords := ltac:(setter kwords).
Definition set_cr3 := ltac:(setter cr3).
Definition set_fork_first := ltac:(setter fork_first).
Definition set_fs := ltac:(setter fs).
Definition set_out := ltac:(setter out).

(** Update of one address. *)
Definition upd {A : Type} (f : Z -> A) (a : Z) (v : A) : Z -> A :=
  fun x => if x =? a then v else f x.

(** Entry [i] of the table; a null pointer is not dereferenced. *)
Definition getp (i : nat) (s : kst) : res proc := zget "ptable" (pt_proc s) (Z.of_nat i).
Definition putp (i : nat) (p : proc) (s : kst) : kst :=
  set_pt_proc (<[i := p]> (pt_proc s)) s.
Definition modp (i : nat) (f : proc -> proc) (s : kst) : res kst :=
  let? p := getp i s in Ok (putp i (f p) s).
Definition deref (e : option nat) (s : kst) : res proc :=
  match e with Some i => getp i s | None => OOB "null pointer" end.

Definition getq (k : qid) (s : kst) : pqueue :=
  match k with Q0 => q0 s | Q1 => q1 s | Q2 => q2 s end.
Definition putq (k : qid) (q : pqueue) (s : kst) : kst :=
  match k with Q0 => set_q0 q s | Q1 => set_q1 q s | Q2 => set_q2 q s end.

(** [cprintf]: the format as it is spelled in the source, escapes included, and
    the arguments. *)
Definition printk (f : string) (args : list carg) (s : kst) : kst :=
  set_out ((f, args) :: out s) s.

(** Locking the process table. *)
Definition acquire_pt (s : kst) : res kst :=
  let? (l, m) := Spinlock.acquire (pt_lock s) (mach s) in
  Ok (set_pt_lock l (set_mach m s)).
Definition release_pt (s : kst) : res kst :=
  let? (l, m) := Spinlock.release (pt_lock s) (mach s) in
  Ok (set_pt_lock l (set_mach m s)).

End State.

(** * The queues *)

Module Mlfq.
Section Mlfq.
Context `{SV : Services}.
Implicit Types (s : kst) (q : pqueue) (k : qid).

(** The loop [for (i = 0; i < q.end; i++) if (q.queue[i]->state == RUNNABLE)]:
    the first index of a runnable process. *)
Fixpoint scan_runnable (n : nat) (i : Z) (q : pqueue) (s : kst) : res (option Z) :=
  match n with
  | O => Ok None
  | S n' =>
      if i <? q_end q then
        let? e := zget "pqueue.queue" (queue q) i in
        let? p := deref e s in
        if bool_decide (state p = RUNNABLE) then Ok (Some i)
        else scan_runnable n' (i + 1) q s
      else Ok None
  end.

Definition first_runnable (q : pqueue) (s : kst) : res (option Z) :=
  scan_runnable (Z.to_nat (q_end q)) 0 q s.

(** [if (q.numOfProc) for ... return &q]. *)
Definition ready (q : pqueue) (s : kst) : res bool :=
  if negb (numOfProc q =? 0) then
    let? r := first_runnable q s in
    Ok (match r with Some _ => true | None => false end)
  else Ok false.

Definition returnQueue (s : kst) : res qid :=
  let? b0 := ready (q0 s) s in
  if b0 then Ok Q0
  else
    let? b1 := ready (q1 s) s in
    if b1 then Ok Q1
    else
      let? b2 := ready (q2 s) s in
      if b2 then Ok Q2 else Ok Q0.

Definition addQueue (pq : qid) (p : nat) (s : kst) : res kst :=
  let q := getq pq s in
  let? a := zset "pqueue.queue" (queue q) (q_end q) (Some p) in
  let q := set_queue a q in
  let q := set_q_end (q_end q + 1) q in
  let q := set_numOfProc (numOfProc q + 1) q in
  let s := putq pq q s in
  let? s := modp p (set_Ticks 0) s in
  modp p (set_priority (q_priority q)) s.

(** First loop of [deleteQueue]: the index of [p], or [end]. *)
Fixpoint find_proc (n : nat) (i : Z) (q : pqueue) (p : nat) : res Z :=
  match n with
  | O => Ok i
  | S n' =>
      if i <? q_end q then
        let? e := zget "pqueue.queue" (queue q) i in
        if bool_decide (e = Some p) then Ok i else find_proc n' (i + 1) q p
      else Ok i
  end.

(** Second loop: [for (j = i; j < firstFreeIndex; j++) queue[j] = queue[j+1]]. *)
Fixpoint shift_down (n : nat) (j last : Z) (a : list (option nat)) : res (list (option nat)) :=
  match n with
  | O => Ok a
  | S n' =>
      if j <? last then
        let? e := zget "pqueue.queue" a (j + 1) in
        let? a := zset "pqueue.queue" a j e in
        shift_down n' (j + 1) last a
      else Ok a
  end.

Definition deleteQueue (pq : qid) (p : nat) (s : kst) : res kst :=
  let q := getq pq s in
  let? i := find_proc (Z.to_nat (q_end q)) 0 q p in
  let firstFreeIndex := q_end q in
  let? a := shift_down (Z.to_nat (firstFreeIndex - i)) i firstFreeIndex (queue q) in
  let q := set_queue a q in
  let q := set_q_end (q_end q - 1) q in
  let q := set_numOfProc (numOfProc q - 1) q in
  Ok (putq pq q s).

Definition degrade (pq : qid) (p : nat) (s : kst) : res kst :=
  if q_priority (getq pq s) =? 0 then
    let? s := deleteQueue Q0 p s in addQueue Q1 p s
  else if q_priority (getq pq s) =? 1 then
    let? s := deleteQueue Q1 p s in addQueue Q2 p s
  else Ok s.

(** The body of the loop of [updatePstat] on one entry. *)
Definition pstat_entry (total : Z) (p : proc) : res proc :=
  if bool_decide (state p = RUNNABLE) then
    let? ql := zset "proc.queue" (p_queue p) total (priority p) in
    let p := set_p_queue ql p in
    let p := set_total_ticks (s32 (total_ticks p + 1)) p in
    if priority p =? 2 then Ok (set_wait_time (s32 (wait_time p + 1)) p) else Ok p
  else Ok p.

Fixpoint pstat_entries (total : Z) (l : list proc) : res (list proc) :=
  match l with
  | [] => Ok []
  | p :: l' =>
      let? p := pstat_entry total p in
      let? l' := pstat_entries total l' in
      Ok (p :: l')
  end.

Definition updatePstat (s : kst) : res kst :=
  let? l := pstat_entries (TOTAL s) (pt_proc s) in Ok (set_pt_proc l s).

Definition returnProc (s : kst) : res (option nat * kst) :=
  let? pq := returnQueue s in
  let q := getq pq s in
  if numOfProc q =? 0 then Ok (None, s)
  else
    let? r := first_runnable q s in
    match r with
    | None => Ok (None, s)
    | Some i =>
        let? p := zget "pqueue.queue" (queue q) i in
        if i =? 0 then Ok (p, s)
        else
          let? temp := zget "pqueue.queue" (queue q) 0 in
          let? a := zset "pqueue.queue" (queue q) i temp in
          let? a := zset "pqueue.queue" a 0 p in
          Ok (p, putq pq (set_queue a q) s)
    end.

(** [p->stats[p->num_stat_used].f = v]. *)
Definition upd_stat (p : nat) (f : sched_stat_t -> sched_stat_t) (s : kst) : res kst :=
  let? pr := getp p s in
  let? st := zget "proc.stats" (stats pr) (num_stat_used pr) in
  let? l := zset "proc.stats" (stats pr) (num_stat_used pr) (f st) in
  Ok (putp p (set_stats l pr) s).

Definition boost (p : nat) (s : kst) : res kst :=
  let? s := deleteQueue Q2 p s in
  let? s := addQueue Q0 p s in
  let? s := modp p (set_priority 0) s in
  upd_stat p (set_st_priority 0) s.

End Mlfq.
End Mlfq.

(** * The process table *)

Module Ptable.
Import Mlfq.
Section Ptable.
Context `{SV : Services}.
Implicit Types (s : kst).

(** Sizes of [struct trapframe] and [struct context]. *)
Definition sizeof_tf : Z := 76.
Definition sizeof_context : Z := 20.
Definition zero_ctx : ctx := mkCtx 0 0 0 0 0.
Definition zero_tf : trapframe := mkTf 0 0 0 0 0 0 0 0 0 0 (repeat 0 9).

Definition pinit (s : kst) : kst := set_pt_lock (Spinlock.initlock "ptable" (pt_lock s)) s.

Definition myproc (s : kst) : res (option nat * kst) :=
  let? m := Spinlock.pushcli (mach s) in
  let? i := Spinlock.mycpu m in
  let? c := Spinlock.get_cpu i m in
  let p := cpu_proc c in
  let? m := Spinlock.popcli m in
  Ok (p, set_mach m s).

(** [myproc()] of a caller that dereferences it. *)
Definition curproc (s : kst) : res (nat * kst) :=
  let? (p, s) := myproc s in
  match p with Some i => Ok (i, s) | None => OOB "null pointer" end.

(** [for (p = ptable.proc; ...) if (p->state == UNUSED) goto found]. *)
Fixpoint find_unused (l : list proc) (i : nat) : option nat :=
  match l with
  | [] => None
  | p :: l' => if bool_decide (state p = UNUSED) then Some i else find_unused l' (S i)
  end.

Definition allocproc (s : kst) : res (option nat * kst) :=
  let? s := acquire_pt s in
  match find_unused (pt_proc s) 0 with
  | None => let? s := release_pt s in Ok (None, s)
  | Some p =>
      let? pr := getp p s in
      let? s :=
        (if 0 <? pid pr then
           let? s := deleteQueue Q0 p s in
           let? s := deleteQueue Q0 p s in
           deleteQueue Q0 p s
         else Ok s) in
      let? s := modp p (set_state EMBRYO) s in
      let? s := modp p (set_pid (nextpid s)) s in
      let s := set_nextpid (s32 (nextpid s + 1)) s in
      let? s := modp p (set_priority 0) s in
      let? s := addQueue Q0 p s in
      let? s := modp p (set_num_stat_used 0) s in
      let? s := release_pt s in
      let? (mem, h, m) := Kalloc.kalloc (ph s) (mach s) in
      let s := set_mach m (set_ph h s) in
      let? s := modp p (set_kstack mem) s in
      if mem =? 0 then
        let? s := modp p (set_state UNUSED) s in
        Ok (None, s)
      else
        let sp := mem + KSTACKSIZE in
        let sp := sp - sizeof_tf in
        let? s := modp p (set_tf sp) s in
        let sp := sp - 4 in
        let s := set_kwords (upd (kwords s) sp trapret_at) s in
        let sp := sp - sizeof_context in
        let? s := modp p (set_p_context sp) s in
        let s := set_contexts (upd (contexts s) sp (mkCtx 0 0 0 0 forkret_at)) s in
        Ok (Some p, s)
  end.

(** The name as [safestrcpy] cuts it. *)
Definition name_cut (x : list Z) : list Z := take 15 x.

Definition userinit (s : kst) : res kst :=
  let s := set_TOTAL 0 s in
  let s := set_q0 (mkQueue (queue (q0 s)) 1 0 0 0) s in
  let s := set_q1 (mkQueue (queue (q1 s)) 2 0 0 1) s in
  let s := set_q2 (mkQueue (queue (q2 s)) 8 0 0 2) s in
  let? (p, s) := allocproc s in
  let s := set_initproc p s in
  match p with
  | None => OOB "null pointer"
  | Some p =>
      let? (pg, h, m) := setupkvm (ph s) (mach s) in
      let s := set_mach m (set_ph h s) in
      let? s := modp p (set_pgdir pg) s in
      if pg =? 0 then Panic "userinit: out of memory?"
      else
        let? (h, m) := inituvm pg initcode_start initcode_size (ph s) (mach s) in
        let s := set_mach m (set_ph h s) in
        let? s := modp p (set_sz PGSIZE) s in
        let? pr := getp p s in
        let cs := Z.lor (Z.shiftl SEG_UCODE 3) DPL_USER in
        let ds := Z.lor (Z.shiftl SEG_UDATA 3) DPL_USER in
        let f := mkTf 0 0 0 cs ds ds Spinlock.FL_IF PGSIZE ds 0 (repeat 0 9) in
        let s := set_frames (upd (frames s) (tf pr) f) s in
        let? s := modp p (set_name (name_cut (bytes_of "initcode"))) s in
        let? (ip, f) := namei "/" (fs s) in
        let s := set_fs f s in
        let? s := modp p (set_cwd ip) s in
        let? s := acquire_pt s in
        let? s := modp p (set_state RUNNABLE) s in
        release_pt s
  end.

(** [switchuvm] of vm.c: its checks, the interrupt bracket and [lcr3]. *)
Definition switchuvm (p : nat) (s : kst) : res kst :=
  let? pr := getp p s in
  if kstack pr =? 0 then Panic "switchuvm: no kstack"
  else if pgdir pr =? 0 then Panic "switchuvm: no pgdir"
  else
    let? m := Spinlock.pushcli (mach s) in
    let? i := Spinlock.mycpu m in
    let s := set_cr3 (V2P (pgdir pr)) s in
    let? m := Spinlock.popcli m in
    Ok (set_mach m s).

Definition switchkvm (s : kst) : kst := set_cr3 (V2P (kpgdir s)) s.

Definition growproc (n : Z) (s : kst) : res (Z * kst) :=
  let? (c, s) := curproc s in
  let? cp := getp c s in
  let? (r, s) :=
    (if 0 <? n then
       let? (nsz, h, m) := allocuvm (pgdir cp) (sz cp) (u32 (sz cp + n)) (ph s) (mach s) in
       Ok (if nsz =? 0 then None else Some nsz, set_mach m (set_ph h s))
     else if n <? 0 then
       let? (nsz, h, m) := deallocuvm (pgdir cp) (sz cp) (u32 (sz cp + n)) (ph s) (mach s) in
       Ok (if nsz =? 0 then None else Some nsz, set_mach m (set_ph h s))
     else Ok (Some (sz cp), s)) in
  match r with
  | None => Ok (-1, s)
  | Some nsz =>
      let? s := modp c (set_sz nsz) s in
      let? s := switchuvm c s in
      Ok (0, s)
  end.

(** [for (i = 0; i < NOFILE; i++) if (curproc->ofile[i]) np->ofile[i] = filedup(...)]. *)
Fixpoint dup_files (n : nat) (i : Z) (c np : nat) (s : kst) : res kst :=
  match n with
  | O => Ok s
  | S n' =>
      let? cp := getp c s in
      let? f := zget "proc.ofile" (ofile cp) i in
      let? s :=
        (if f =? 0 then Ok s
         else
           let? x := filedup f (fs s) in
           let s := set_fs x s in
           let? pr := getp np s in
           let? l := zset "proc.ofile" (ofile pr) i f in
           Ok (putp np (set_ofile l pr) s)) in
      dup_files n' (i + 1) c np s
  end.

Definition fork (s : kst) : res (Z * kst) :=
  let? (c, s) := curproc s in
  let? (r, s) := allocproc s in
  match r with
  | None => Ok (-1, s)
  | Some np =>
      let? cp := getp c s in
      let? (pg, h, m) := copyuvm (pgdir cp) (sz cp) (ph s) (mach s) in
      let s := set_mach m (set_ph h s) in
      let? s := modp np (set_pgdir pg) s in
      if pg =? 0 then
        let? pr := getp np s in
        let? (h, m) := Kalloc.kfree kernel_end (kstack pr) (ph s) (mach s) in
        let s := set_mach m (set_ph h s) in
        let? s := modp np (set_kstack 0) s in
        let? s := modp np (set_state UNUSED) s in
        Ok (-1, s)
      else
        let? s := modp np (set_sz (sz cp)) s in
        let? s := modp np (set_parent (Some c)) s in
        let? pr := getp np s in
        let s := set_frames (upd (frames s) (tf pr) (frames s (tf cp))) s in
        let s := set_frames (upd (frames s) (tf pr) (set_tf_eax 0 (frames s (tf pr)))) s in
        let? s := dup_files NOFILE 0 c np s in
        let? x := idup (cwd cp) (fs s) in
        let s := set_fs x s in
        let? s := modp np (set_cwd (cwd cp)) s in
        let? s := modp np (set_name (name_cut (name cp))) s in
        let? pr := getp np s in
        let id := pid pr in
        let? s := acquire_pt s in
        let? s := modp np (set_state RUNNABLE) s in
        let? s := release_pt s in
        Ok (id, s)
  end.

(** The loop of [wakeup1] on one entry. *)
Definition wake (c : channel) (p : proc) : proc :=
  if bool_decide (state p = SLEEPING) && bool_decide (chan p = c)
  then set_state RUNNABLE p else p.

Definition wakeup1 (c : channel) (s : kst) : kst := set_pt_proc (map (wake c) (pt_proc s)) s.

Definition wakeup (c : channel) (s : kst) : res kst :=
  let? s := acquire_pt s in
  release_pt (wakeup1 c s).

Fixpoint find_pid (l : list proc) (i : nat) (x : Z) : option nat :=
  match l with
  | [] => None
  | p :: l' => if pid p =? x then Some i else find_pid l' (S i) x
  end.

Definition kill (x : Z) (s : kst) : res (Z * kst) :=
  let? s := acquire_pt s in
  match find_pid (pt_proc s) 0 x with
  | Some p =>
      let? s := modp p (set_killed 1) s in
      let? pr := getp p s in
      let? s := (if bool_decide (state pr = SLEEPING) then modp p (set_state RUNNABLE) s
                 else Ok s) in
      let? s := release_pt s in
      Ok (0, s)
  | None => let? s := release_pt s in Ok (-1, s)
  end.

(** ** Giving up the CPU *)

(** What the rest of the system does between [swtch] in [sched] and the return
    to this process.  [X] is the object whose lock [sleep] was called with: the
    others may change it while this process sleeps. *)
Context {X : Type} `{GX : Guarded X} (resume : kst -> X -> kst * X).

Definition sched (s : kst) (x : X) : res (kst * X) :=
  let? (p, s) := curproc s in
  let? (h, m) := Spinlock.holding (pt_lock s) (mach s) in
  let s := set_mach m s in
  if negb h then Panic "sched ptable.lock"
  else
    let? i := Spinlock.mycpu (mach s) in
    let? c := Spinlock.get_cpu i (mach s) in
    if negb (ncli c =? 1) then Panic "sched locks"
    else
      let? pr := getp p s in
      if bool_decide (state pr = RUNNING) then Panic "sched running"
      else if negb (Spinlock.readeflags_if (mach s) =? 0) then Panic "sched interruptible"
      else
        let saved := intena c in
        let (s, x) := resume s x in
        let? i := Spinlock.mycpu (mach s) in
        let? c := Spinlock.get_cpu i (mach s) in
        Ok (set_mach (Spinlock.put_cpu i (set_intena saved c) (mach s)) s, x).

Definition yield (s : kst) (x : X) : res (kst * X) :=
  let? s := acquire_pt s in
  let? (p, s) := curproc s in
  let? s := modp p (set_state RUNNABLE) s in
  let? (s, x) := sched s x in
  let? s := release_pt s in
  Ok (s, x).

Definition ROOTDEV : Z := 1.

Definition forkret (s : kst) : res kst :=
  let? s := release_pt s in
  if negb (fork_first s =? 0) then
    let s := set_fork_first 0 s in
    let? f := iinit ROOTDEV (fs s) in
    let? f := initlog ROOTDEV f in
    Ok (set_fs f s)
  else Ok s.

(** [struct spinlock *lk] of [sleep]: null, [&ptable.lock], or another lock. *)
Inductive lockref := LkNull | LkPtable | LkOther.

Definition sleep (ch : channel) (r : lockref) (s : kst) (x : X) : res (kst * X) :=
  let? (p, s) := myproc s in
  match p, r with
  | None, _ => Panic "sleep"
  | _, LkNull => Panic "sleep without lk"
  | Some p, _ =>
      let? (s, x) :=
        (match r with
         | LkOther =>
             let? s := acquire_pt s in
             let? (lk, m) := Spinlock.release (the_lock x) (mach s) in
             Ok (set_mach m s, put_lock lk x)
         | _ => Ok (s, x)
         end) in
      let? s := modp p (set_chan ch) s in
      let? s := modp p (set_state SLEEPING) s in
      let? (s, x) := sched s x in
      let? s := modp p (set_chan ChNull) s in
      match r with
      | LkOther =>
          let? s := release_pt s in
          let? (lk, m) := Spinlock.acquire (the_lock x) (mach s) in
          Ok (set_mach m s, put_lock lk x)
      | _ => Ok (s, x)
      end
  end.

(** ** Exit and wait *)

Fixpoint close_files (n : nat) (i : Z) (c : nat) (s : kst) : res kst :=
  match n with
  | O => Ok s
  | S n' =>
      let? cp := getp c s in
      let? f := zget "proc.ofile" (ofile cp) i in
      let? s :=
        (if f =? 0 then Ok s
         else
           let? x := fileclose f (fs s) in
           let s := set_fs x s in
           let? l := zset "proc.ofile" (ofile cp) i 0 in
           Ok (putp c (set_ofile l cp) s)) in
      close_files n' (i + 1) c s
  end.

(** [wakeup1(curproc->parent)]: a process pointer as a channel. *)
Definition ch_of (p : option nat) : channel :=
  match p with Some i => ChProc i | None => ChNull end.

(** The loop that passes the children of [c] to init. *)
Fixpoint reparent (n : nat) (i : nat) (c : nat) (s : kst) : res kst :=
  match n with
  | O => Ok s
  | S n' =>
      let? pr := getp i s in
      let? s :=
        (if bool_decide (parent pr = Some c) then
           let? s := modp i (set_parent (initproc s)) s in
           if bool_decide (state pr = ZOMBIE) then Ok (wakeup1 (ch_of (initproc s)) s)
           else Ok s
         else Ok s) in
      reparent n' (S i) c s
  end.

(** [exit] up to its call of [sched]. *)
Definition exit_to_sched (s : kst) : res kst :=
  let? (c, s) := curproc s in
  if bool_decide (Some c = initproc s) then Panic "init exiting"
  else
    let? s := close_files NOFILE 0 c s in
    let? cp := getp c s in
    let? f := begin_op (fs s) in
    let? f := iput (cwd cp) f in
    let? f := end_op f in
    let s := set_fs f s in
    let? s := modp c (set_cwd 0) s in
    let? s := acquire_pt s in
    let? cp := getp c s in
    let s := wakeup1 (ch_of (parent cp)) s in
    let? s := reparent NPROC 0 c s in
    modp c (set_state ZOMBIE) s.

Definition exit (s : kst) (x : X) : res unit :=
  let? s := exit_to_sched s in
  let? (s, x) := sched s x in
  Panic "zombie exit".

(** One scan of [wait]: the loop over the table. *)
Inductive scan := Reaped (id : Z) (s : kst) | NoZombie (havekids : bool).

Fixpoint wait_scan (n i : nat) (c : nat) (havekids : bool) (s : kst) : res scan :=
  match n with
  | O => Ok (NoZombie havekids)
  | S n' =>
      let? pr := getp i s in
      if negb (bool_decide (parent pr = Some c)) then wait_scan n' (S i) c havekids s
      else if bool_decide (state pr = ZOMBIE) then
        let id := pid pr in
        let? (h, m) := Kalloc.kfree kernel_end (kstack pr) (ph s) (mach s) in
        let? (h, m) := freevm (pgdir pr) h m in
        let s := set_mach m (set_ph h s) in
        let pr := set_kstack 0 pr in
        let pr := set_pid 0 pr in
        let pr := set_parent None pr in
        let pr := set_name [] pr in
        let pr := set_killed 0 pr in
        let pr := set_state UNUSED pr in
        Ok (Reaped id (putp i pr s))
      else wait_scan n' (S i) c true s
  end.

(** [wait] with at most [fuel] rounds of [sleep]. *)
Fixpoint wait_loop (fuel : nat) (c : nat) (s : kst) (x : X) : res (Z * kst) :=
  match fuel with
  | O => OutOfFuel
  | S n =>
      let? r := wait_scan NPROC 0 c false s in
      match r with
      | Reaped id s => let? s := release_pt s in Ok (id, s)
      | NoZombie havekids =>
          let? cp := getp c s in
          if negb havekids || negb (killed cp =? 0) then
            let? s := release_pt s in Ok (-1, s)
          else
            let? (s, x) := sleep (ChProc c) LkPtable s x in
            wait_loop n c s x
      end
  end.

Definition wait (fuel : nat) (s : kst) (x : X) : res (Z * kst) :=
  let? (c, s) := curproc s in
  let? s := acquire_pt s in
  wait_loop fuel c s x.

(** ** Listings *)

Definition state_name (st : procstate) : string :=
  match st with
  | UNUSED => "unused" | EMBRYO => "embryo" | SLEEPING => "sleep "
  | RUNNABLE => "runble" | RUNNING => "run   " | ZOMBIE => "zombie"
  end.

(** [for (i = 0; i < 10 && pc[i] != 0; i++) cprintf(" %p", pc[i])]. *)
Fixpoint print_pcs (l : list Z) (s : kst) : kst :=
  match l with
  | x :: l' => if x =? 0 then s else print_pcs l' (printk " %p" [AInt x] s)
  | [] => s
  end.

Fixpoint procdump_entries (l : list proc) (s : kst) : kst :=
  match l with
  | [] => s
  | p :: l' =>
      if bool_decide (state p = UNUSED) then procdump_entries l' s
      else
        let s := printk "%d %s %s" [AInt (pid p); ALit (state_name (state p)); AStr (name p)] s in
        let s := (if bool_decide (state p = SLEEPING) then
                    print_pcs (Spinlock.getcallerpcs (word (mach s))
                                 (c_ebp (contexts s (p_context p)) + 8)) s
                  else s) in
        procdump_entries l' (printk "\n" [] s)
  end.

Definition procdump (s : kst) : kst := procdump_entries (pt_proc s) s.

(** [cprintf("start = ...", ...)] for the record at index [j]. *)
Definition print_stat (p : proc) (j : Z) (s : kst) : res kst :=
  let? st := zget "proc.stats" (stats p) j in
  Ok (printk "start = %d, duration = %d, priority = %d\n"
        [AInt (start_tick st); AInt (duration st); AInt (st_priority st)] s).

(** [n] times the record at index [num_stat_used]. *)
Fixpoint print_last_stat (n : nat) (p : proc) (s : kst) : res kst :=
  match n with
  | O => Ok s
  | S n' => let? s := print_stat p (num_stat_used p) s in print_last_stat n' p s
  end.

Definition print_pstat_info (i : nat) (s : kst) : res kst :=
  let? p := getp i s in
  let? t0 := zget "proc.times" (times p) 0 in
  let? t1 := zget "proc.times" (times p) 1 in
  let? t2 := zget "proc.times" (times p) 2 in
  let s := printk "************************\n" [] s in
  let s := printk "PID: %d, " [AInt (pid p)] s in
  let s := printk "Name: %s\n" [AStr (name p)] s in
  let s := printk "   scheduled in q0: %d times\n" [AInt t0] s in
  let s := printk "   scheduled in q1: %d times\n" [AInt t1] s in
  let s := printk "   scheduled in q2: %d times\n" [AInt t2] s in
  let? s := print_last_stat (Z.to_nat (num_stat_used p)) p s in
  Ok (printk "************************\n" [] s).

(** The records from index [j] on, [n] of them. *)
Fixpoint print_stats (n : nat) (j : Z) (p : proc) (s : kst) : res kst :=
  match n with
  | O => Ok s
  | S n' => let? s := print_stat p j s in print_stats n' (j + 1) p s
  end.

Definition getpinfo (x : Z) (s : kst) : res (Z * kst) :=
  let? s := acquire_pt s in
  match find_pid (pt_proc s) 0 x with
  | Some i =>
      let? p := getp i s in
      let s := printk "*****************\nname = %s, pid = %d\ntimes: {%d, %d, %d}\nticks: {%d, %d, %d}\n*******************\n"
                 (AStr (name p) :: AInt (pid p) :: map AInt (times p ++ ticks p)) s in
      let? s := print_stats (Z.to_nat (num_stat_used p)) 0 p s in
      let? s := release_pt s in
      Ok (0, s)
  | None => let? s := release_pt s in Ok (0, s)
  end.

End Ptable.
End Ptable.
