(* ===== verification/Sched.v ===== *)
(** The scheduler loop of [proc.c]: [scheduler], cut at its loops.

    [run p s] is everything that happens between [swtch(&c->scheduler,
    p->context)] and the moment the process gives the CPU back: it is an
    argument of the model, since what the process does is not part of the
    kernel. *)

From S2P Require Import Prelude CString Spinlock Kalloc Proc.

Module Sched.
Import Mlfq Ptable.
Section Sched.
Context `{SV : Services} (run : nat -> kst -> kst).
Implicit Types (s : kst).

Definition gett (k : qid) (s : kst) : trace :=
  match k with Q0 => trace0 s | Q1 => trace1 s | Q2 => trace2 s end.
Definition putt (k : qid) (t : trace) (s : kst) : kst :=
  match k with Q0 => set_trace0 t s | Q1 => set_trace1 t s | Q2 => set_trace2 t s end.

(** [if (p->priority == n) { queueN[TOTAL] = p->pid; nameN[TOTAL] = p->name; }]. *)
Definition log_start (k : qid) (n : Z) (p : nat) (s : kst) : res kst :=
  let? pr := getp p s in
  if priority pr =? n then
    let t := gett k s in
    let? a := zset "queueN" (t_queue t) (TOTAL s) (pid pr) in
    let? b := zset "nameN" (t_name t) (TOTAL s) (Some p) in
    Ok (putt k (set_t_name b (set_t_queue a t)) s)
  else Ok s.

(** [if (p->priority == n) { if (p->state == RUNNABLE) stateN[TOTAL] = ... }]. *)
Definition log_end (k : qid) (n : Z) (p : nat) (s : kst) : res kst :=
  let? pr := getp p s in
  if priority pr =? n then
    let put (x : string) (s : kst) : res kst :=
      let? a := zset "stateN" (t_state (gett k s)) (TOTAL s) x in
      Ok (putt k (set_t_state a (gett k s)) s) in
    let? s := (if bool_decide (state pr = RUNNABLE) then put "Runnable" s else Ok s) in
    let? s := (if bool_decide (state pr = SLEEPING) then put "Sleeping" s else Ok s) in
    if bool_decide (state pr = ZOMBIE) then put "Zombie" s else Ok s
  else Ok s.

(** [c->proc = v]. *)
Definition set_current (c : nat) (v : option nat) (s : kst) : res kst :=
  let? cp := Spinlock.get_cpu c (mach s) in
  Ok (set_mach (Spinlock.put_cpu c (set_cpu_proc v cp) (mach s)) s).

(** The body of the [while] loop: one tick of process [p]. *)
Definition tick (c p : nat) (s : kst) : res kst :=
  let? s := log_start Q0 0 p s in
  let? s := log_start Q1 1 p s in
  let? s := log_start Q2 2 p s in
  let? s := set_current c (Some p) s in
  let? s := switchuvm p s in
  let? s := modp p (set_state RUNNING) s in
  let? s := upd_stat p (set_start_tick (s32 (clock s))) s in
  let? pr := getp p s in
  let? s := upd_stat p (set_st_priority (priority pr)) s in
  let s := run p s in
  let s := switchkvm s in
  let? s := upd_stat p (fun st =>
    set_duration (s32 (duration st + (clock s - start_tick st))) st) s in
  let? s := set_current c None s in
  let? s := log_end Q0 0 p s in
  let? s := log_end Q1 1 p s in
  let? s := log_end Q2 2 p s in
  let? s := modp p (fun pr => set_Ticks (s32 (Ticks pr + 1)) pr) s in
  let? s := updatePstat s in
  Ok (if TOTAL s <? NTICKS then set_TOTAL (TOTAL s + 1) s else s).

(** The [while] loop: returns [count]. *)
Fixpoint slice (fuel : nat) (c p : nat) (k : qid) (count : Z) (s : kst) : res (Z * kst) :=
  match fuel with
  | O => OutOfFuel
  | S n =>
      let? pr := getp p s in
      if bool_decide (state pr = RUNNABLE) && (count <? q_ticks (getq k s)) then
        let? s := tick c p s in
        slice n c p k (count + 1) s
      else Ok (count, s)
  end.

(** What follows the [while] loop. *)
Definition finish (p : nat) (k : qid) (queuepriority count : Z) (s : kst) : res kst :=
  let? pr := getp p s in
  let? t := zget "proc.ticks" (ticks pr) queuepriority in
  let? l := zset "proc.ticks" (ticks pr) queuepriority (s32 (t + count)) in
  let pr := set_ticks l pr in
  let? t := zget "proc.times" (times pr) (priority pr) in
  let? l := zset "proc.times" (times pr) (priority pr) (s32 (t + 1)) in
  let pr := set_times l pr in
  let s := putp p pr s in
  if bool_decide (state pr = RUNNABLE) && ((priority pr =? 1) || (priority pr =? 0)) then
    let? s := modp p (fun pr => set_num_stat_used (num_stat_used pr + 1) pr) s in
    degrade k p s
  else if bool_decide (state pr = RUNNABLE) && (priority pr =? 2) && (50 <=? Ticks pr) then
    let? s := modp p (fun pr => set_num_stat_used (num_stat_used pr + 1) pr) s in
    boost p s
  else if bool_decide (state pr = SLEEPING) then
    let? s := modp p (fun pr => set_num_stat_used (num_stat_used pr + 1) pr) s in
    let? s := deleteQueue k p s in
    addQueue k p s
  else Ok s.

(** The body of the [for] loop past its [continue]. *)
Definition dispatch (fuel : nat) (c p : nat) (s : kst) : res kst :=
  let? k := returnQueue s in
  let? pr := getp p s in
  let queuepriority := priority pr in
  let? (count, s) := slice fuel c p k 0 s in
  finish p k queuepriority count s.

(** The [for] loop over the table, from entry [i]. *)
Fixpoint pass (fuel : nat) (n i : nat) (c : nat) (s : kst) : res kst :=
  match n with
  | O => Ok s
  | S n' =>
      let? (r, s) := returnProc s in
      let? s := (if bool_decide (r = Some i) then dispatch fuel c i s else Ok s) in
      pass fuel n' (S i) c s
  end.

(** One turn of the [for (;;)] loop. *)
Definition round (fuel : nat) (c : nat) (s : kst) : res kst :=
  let s := set_mach (Spinlock.sti (mach s)) s in
  let? s := acquire_pt s in
  let? s := pass fuel NPROC 0 c s in
  release_pt s.

Fixpoint rounds (fuel : nat) (n : nat) (c : nat) (s : kst) : res kst :=
  match n with
  | O => Ok s
  | S n' => let? s := round fuel c s in rounds fuel n' c s
  end.

(** [scheduler] for [n] turns of its endless loop. *)
Definition scheduler (fuel n : nat) (s : kst) : res kst :=
  let? c := Spinlock.mycpu (mach s) in
  let? s := set_current c None s in
  rounds fuel n c s.

End Sched.
End Sched.
