(* ===== verification/Demo.v ===== *)
(** A small machine on which the theorems are exercised: one CPU, a free list
    of two pages, stand-ins for the services of vm.c, file.c, fs.c and log.c,
    and a process table with a few processes. *)

From S2P Require Import Prelude CString Spinlock Kalloc Proc.

(** Services that succeed and do nothing: the file layer is a counter of
    calls, page tables are numbers. *)
#[export] Instance demo_services : Services := {|
  Fs := nat;
  filedup _ n := Ok (S n);
  fileclose _ n := Ok (S n);
  idup _ n := Ok (S n);
  iput _ n := Ok (S n);
  begin_op n := Ok (S n);
  end_op n := Ok (S n);
  namei _ n := Ok (1, S n);
  iinit _ n := Ok n;
  initlog _ n := Ok n;
  setupkvm h m := Ok (4096, h, m);
  inituvm _ _ _ h m := Ok (h, m);
  allocuvm _ _ n h m := Ok (n, h, m);
  deallocuvm _ _ n h m := Ok (n, h, m);
  copyuvm _ _ h m := Ok (4096, h, m);
  freevm _ h m := Ok (h, m);
  kernel_end := 0x80108000;
  forkret_at := 0x80103000;
  trapret_at := 0x80105000;
  initcode_start := 0x80100000;
  initcode_size := 44
|}.

Lemma demo_kend : KERNBASE <= kernel_end.
Proof. done. Qed.

(** One CPU, at nesting depth [n]. *)
Definition demo_cpu (n : Z) (p : option nat) : cpu := mkCpu 0 1 n 0 p.
Definition demo_machine (n : Z) (p : option nat) : machine :=
  mkMachine [demo_cpu n p] 1 false 0 (fun _ => 0) 0.
Definition demo_lock : spinlock := mkLock 0 "lock" None (repeat 0 10).

(** Two free pages, the first one linked to the second. *)
Definition demo_page1 : Z := 0x80200000.
Definition demo_page2 : Z := 0x80201000.
Definition demo_phys : phys :=
  mkPhys (store32 (store32 (fun _ => 0) demo_page1 demo_page2) demo_page2 0)
         (mkKmem demo_lock 1 demo_page1).

Definition demo_proc (st : procstate) (id : Z) (prio : Z) : proc :=
  mkProc 4096 4096 (match st with UNUSED => 0 | _ => 4096 end) st id None 0 0 ChNull 0
    (repeat 0 16) 0 [] prio (repeat 0 3) (repeat 0 3) (repeat 0 500) 0 0
    (repeat (mkStat 0 0 0) 1500) 0 0.

Definition demo_trace : trace := mkTrace (repeat 0 500) (repeat None 500) (repeat EmptyString 500).

(** The array with [l] at its front. *)
Definition demo_queue (l : list nat) (ticks prio : Z) : pqueue :=
  mkQueue ((Some <$> l) ++ repeat None (NPROC - length l)) ticks
    (Z.of_nat (length l)) (Z.of_nat (length l)) prio.

Definition demo_kst (m : machine) (l : list proc) (l0 l1 l2 : list nat) : kst :=
  mkKst m demo_lock (l ++ repeat (demo_proc UNUSED 0 0) (NPROC - length l)) (Some 0%nat) 10
    (demo_queue l0 1 0) (demo_queue l1 2 1) (demo_queue l2 8 2) 0
    demo_trace demo_trace demo_trace 0 demo_phys
    (fun _ => mkTf 0 0 0 0 0 0 0 0 0 0 []) (fun _ => mkCtx 0 0 0 0 0) (fun _ => 0)
    0 4096 1 (0%nat : Fs) [].

Definition demo_ls (l0 l1 l2 : list nat) (k : qid) : list nat :=
  match k with Q0 => l0 | Q1 => l1 | Q2 => l2 end.

Lemma demo_cpu_here n p : cpu_here (demo_machine n p) 0 (demo_cpu n p).
Proof. done. Qed.

Lemma demo_cli_ok n p : 0 <= n -> cli_ok (demo_machine n p) (demo_cpu n p).
Proof. done. Qed.

Lemma demo_mach_ok n p : 0 <= n -> mach_ok (demo_machine n p).
Proof. intros H. exists 0%nat, (demo_cpu n p). done. Qed.

Lemma demo_kmem_inv : kmem_inv kernel_end demo_phys [demo_page1; demo_page2].
Proof.
  constructor.
  - intros x. unfold demo_phys, p_mem. apply store32_bytes, store32_bytes. done.
  - vm_compute. done.
  - by apply (bool_decide_unpack _), I.
  - repeat constructor; vm_compute; done.
  - done.
Qed.

(** Two sleeping processes at levels 0 and 1, and a runnable one behind the
    second. *)
Definition demo_procs : list proc :=
  [demo_proc SLEEPING 1 0; demo_proc SLEEPING 2 1; demo_proc RUNNABLE 3 1].
Definition demo : kst := demo_kst (demo_machine 1 None) demo_procs [0%nat] [1%nat; 2%nat] [].
Definition demo_queues : qid -> list nat := demo_ls [0%nat] [1%nat; 2%nat] [].

(** * The theorems on strings, locks and pages at the example *)

Section Examples.
Import Kstring Spinlock Kalloc.

(** The string "abc" at 100. *)
Definition demo_mem : mem := fun x =>
  if x =? 100 then 97 else if x =? 101 then 98 else if x =? 102 then 99 else 0.

Lemma demo_mem_bytes : bytes demo_mem.
Proof. intros x. unfold demo_mem. repeat destruct (_ =? _); lia. Qed.

Lemma demo_mem_cstr : cstr demo_mem 100 [97; 98; 99].
Proof. vm_compute. split_and!; try done. Qed.

(** Overlapping copies in both directions. *)
Lemma memmove_spec_witness :
  (memmove demo_mem 101 100 3).1 103 = 99 /\ (memmove demo_mem 99 100 3).1 99 = 97.
Proof.
  split; rewrite memmove_spec; try apply demo_mem_bytes; try lia; done.
Defined.

Lemma memset_spec_witness : (memset demo_mem 100 0x141 8).1 103 = 0x41.
Proof. rewrite memset_spec; [done | lia]. Defined.

Lemma safestrcpy_spec_witness : cstr (safestrcpy demo_mem 200 100 3).1 200 [97; 98].
Proof.
  apply (safestrcpy_spec demo_mem 200 100 3 [97; 98; 99]).
  - apply demo_mem_bytes.
  - apply demo_mem_cstr.
  - lia.
  - left. cbn. lia.
Defined.

Lemma cli_nesting_witness : exists m', pushn 3 (demo_machine 0 None) = Ok m' /\ eflags_if m' = false.
Proof.
  destruct (cli_nesting 3 (demo_machine 0 None) 0 (demo_cpu 0 None)) as (m' & H1 & H2 & _).
  - apply demo_cpu_here.
  - by apply demo_cli_ok.
  - exists m'. split; [exact H1 | apply H2; lia].
Defined.

Lemma acquire_release_witness : exists lk m, acquire demo_lock (demo_machine 0 None) = Ok (lk, m) /\
  locked lk = 1.
Proof.
  destruct (acquire_release demo_lock (demo_machine 0 None) 0 (demo_cpu 0 None))
    as (lk & m & H1 & H2 & _).
  - apply demo_cpu_here.
  - by apply demo_cli_ok.
  - done.
  - exists lk, m. split; [exact H1 | exact H2].
Defined.

Lemma lock_misuse_witness : release demo_lock (demo_machine 0 None) = Panic "release".
Proof.
  apply (lock_misuse demo_lock (demo_machine 0 None) 0 (demo_cpu 0 None)).
  - apply demo_cpu_here.
  - by apply demo_cli_ok.
  - left. done.
Defined.

Lemma kfree_spec_witness : exists p' mc',
  kfree kernel_end 0x80202000 demo_phys (demo_machine 0 None) = Ok (p', mc') /\
  kmem_inv kernel_end p' [0x80202000; demo_page1; demo_page2].
Proof.
  destruct (kfree_spec kernel_end demo_kend 0x80202000 demo_phys [demo_page1; demo_page2]
    (demo_machine 0 None)) as (p' & mc' & H1 & H2 & _).
  - apply demo_kmem_inv.
  - by apply demo_mach_ok.
  - vm_compute. done.
  - by apply (bool_decide_unpack _), I.
  - exists p', mc'. split; [exact H1 | exact H2].
Defined.

Lemma kalloc_spec_witness : exists r p' mc',
  kalloc demo_phys (demo_machine 0 None) = Ok (r, p', mc') /\ r = demo_page1.
Proof.
  destruct (kalloc_spec kernel_end demo_kend demo_phys [demo_page1; demo_page2]
    (demo_machine 0 None)) as (r & p' & mc' & H1 & _ & _ & _ & H2 & _).
  - apply demo_kmem_inv.
  - by apply demo_mach_ok.
  - exists r, p', mc'. split; [exact H1 | exact H2].
Defined.

Lemma freerange_spec_witness : exists p' mc',
  freerange kernel_end 3 0x80300001 0x80303000 demo_phys (demo_machine 0 None) = Ok (p', mc') /\
  kmem_inv kernel_end p' [0x80302000; 0x80301000; demo_page1; demo_page2].
Proof.
  destruct (freerange_spec kernel_end demo_kend 2 3 0x80300001 0x80303000 demo_phys
    [demo_page1; demo_page2] (demo_machine 0 None)) as (p' & mc' & H1 & H2 & _).
  - apply demo_kmem_inv.
  - by apply demo_mach_ok.
  - lia.
  - vm_compute. done.
  - vm_compute. done.
  - intros v Hv. vm_compute in Hv. repeat (apply elem_of_cons in Hv as [->|Hv]);
      try (by apply not_elem_of_nil in Hv);
      (split; [vm_compute; done | by apply (bool_decide_unpack _), I]).
  - exists p', mc'. split; [exact H1 | exact H2].
Defined.
End Examples.
