(* ===== verification/MlfqFacts.v ===== *)
(** The queues as lists: what [addQueue], [deleteQueue], [returnQueue],
    [returnProc], [degrade] and [boost] do to the sequences of processes that
    the three arrays represent. *)

From S2P Require Import Prelude CString Spinlock Kalloc Proc Demo.

(** * Frame lemmas of the kernel state *)

Section Frame.
Context `{SV : Services}.
Implicit Types (s : kst) (k : qid) (q : pqueue) (p : nat).

Lemma getq_putq k q s : getq k (putq k q s) = q.
Proof. by destruct k. Qed.

Lemma getq_putq_ne k k' q s : k <> k' -> getq k' (putq k q s) = getq k' s.
Proof. by destruct k, k'. Qed.

Lemma getq_putp k p pr s : getq k (putp p pr s) = getq k s.
Proof. by destruct k. Qed.

Lemma pt_proc_putq k q s : pt_proc (putq k q s) = pt_proc s.
Proof. by destruct k. Qed.

Lemma pt_proc_putp p pr s : pt_proc (putp p pr s) = <[p := pr]> (pt_proc s).
Proof. done. Qed.

Lemma putp_putp p pr pr' s : putp p pr' (putp p pr s) = putp p pr' s.
Proof. unfold putp; cbn. by rewrite list_insert_insert_eq. Qed.

Lemma putp_putq p pr k q s : putp p pr (putq k q s) = putq k q (putp p pr s).
Proof. by destruct k. Qed.

Lemma putq_putq k q q' s : putq k q' (putq k q s) = putq k q' s.
Proof. by destruct k. Qed.

Lemma putq_same k s : putq k (getq k s) s = s.
Proof. by destruct k, s. Qed.

Lemma getp_Ok p s pr : getp p s = Ok pr <-> pt_proc s !! p = Some pr.
Proof. unfold getp. rewrite zget_Ok, Nat2Z.id. split; [naive_solver | split; [lia | done]]. Qed.

Lemma getp_lookup p s pr : pt_proc s !! p = Some pr -> getp p s = Ok pr.
Proof. apply getp_Ok. Qed.

Lemma modp_lookup p f s pr :
  pt_proc s !! p = Some pr -> modp p f s = Ok (putp p (f pr) s).
Proof. intros H. unfold modp. by rewrite (getp_lookup _ _ _ H). Qed.

Lemma lookup_putp p pr s :
  (p < length (pt_proc s))%nat -> pt_proc (putp p pr s) !! p = Some pr.
Proof. intros H. cbn. by apply list_lookup_insert_eq. Qed.

Lemma lookup_putp_ne p p' pr s : p <> p' -> pt_proc (putp p pr s) !! p' = pt_proc s !! p'.
Proof. intros H. cbn. by apply list_lookup_insert_ne. Qed.

Lemma length_putp p pr s : length (pt_proc (putp p pr s)) = length (pt_proc s).
Proof. cbn. apply length_insert. Qed.

(** The level and the time slice of each queue. *)
Definition lvl k : Z := match k with Q0 => 0 | Q1 => 1 | Q2 => 2 end.
Definition quantum k : Z := match k with Q0 => 1 | Q1 => 2 | Q2 => 8 end.

(** The queue [q] represents the sequence [l]. *)
Record q_rep (q : pqueue) (l : list nat) : Prop := {
  qr_len : length (queue q) = NPROC;
  qr_end : q_end q = Z.of_nat (length l);
  qr_num : numOfProc q = Z.of_nat (length l);
  qr_take : take (length l) (queue q) = Some <$> l
}.

(** The process [i] exists and is runnable. *)
Definition runnable s (i : nat) : bool :=
  match pt_proc s !! i with Some p => bool_decide (state p = RUNNABLE) | None => false end.

(** The three queues represent [ls], with their levels and time slices. *)
Record mlfq s (ls : qid -> list nat) : Prop := {
  ml_rep k : q_rep (getq k s) (ls k);
  ml_prio k : q_priority (getq k s) = lvl k;
  ml_ticks k : q_ticks (getq k s) = quantum k;
  ml_valid k : Forall (fun i => i < length (pt_proc s))%nat (ls k)
}.

Definition upd_ls (k : qid) (l : list nat) (ls : qid -> list nat) : qid -> list nat :=
  fun k' => if decide (k' = k) then l else ls k'.

Lemma upd_ls_eq k l ls : upd_ls k l ls k = l.
Proof. unfold upd_ls. by rewrite decide_True. Qed.

Lemma upd_ls_ne k l ls k' : k' <> k -> upd_ls k l ls k' = ls k'.
Proof. intros H. unfold upd_ls. by rewrite decide_False. Qed.

(** ** Shape of the array *)

Lemma q_rep_lookup q l (i : nat) x : q_rep q l -> l !! i = Some x -> queue q !! i = Some (Some x).
Proof.
  intros [_ _ _ Ht] Hi. assert (i < length l)%nat by by eapply lookup_lt_Some.
  rewrite <- (lookup_take_lt (queue q) (length l)) by done.
  by rewrite Ht, list_lookup_fmap, Hi.
Qed.

Lemma q_rep_split q l : q_rep q l -> queue q = (Some <$> l) ++ drop (length l) (queue q).
Proof. intros [_ _ _ Ht]. rewrite <- Ht. symmetry. apply take_drop. Qed.

Lemma q_rep_length q l : q_rep q l -> (length l <= NPROC)%nat.
Proof.
  intros [Hl _ _ Ht]. apply (f_equal length) in Ht. rewrite length_take, length_fmap in Ht. lia.
Qed.

Lemma mlfq_put k q l s ls :
  mlfq s ls -> q_rep q l -> q_priority q = lvl k -> q_ticks q = quantum k ->
  Forall (fun i => i < length (pt_proc s))%nat l ->
  mlfq (putq k q s) (upd_ls k l ls).
Proof.
  intros [Hr Hp Ht Hv] Hq Hqp Hqt Hl. constructor; intros k'.
  all: destruct (decide (k' = k)) as [->|Hne];
    [rewrite ?upd_ls_eq, ?getq_putq | rewrite ?upd_ls_ne, ?getq_putq_ne by done];
    rewrite ?pt_proc_putq; auto.
Qed.

Lemma mlfq_putp p pr s ls : mlfq s ls -> mlfq (putp p pr s) ls.
Proof.
  intros [Hr Hp Ht Hv]. constructor; intros k'; rewrite ?getq_putp, ?length_putp; auto.
Qed.

(** The invariant depends only on the queues and the size of the table. *)
Lemma mlfq_ext s s' ls :
  (forall k, getq k s' = getq k s) -> length (pt_proc s') = length (pt_proc s) ->
  mlfq s ls -> mlfq s' ls.
Proof.
  intros Hq Hl [Hr Hp Ht Hv]. constructor; intros k; rewrite ?Hq, ?Hl; auto.
Qed.
End Frame.

Create Rewrite HintDb kst.
#[export] Hint Rewrite @getq_putq @getq_putp @pt_proc_putq @pt_proc_putp @putp_putp @putq_putq
  @length_putp @upd_ls_eq : kst.

(** * addQueue and deleteQueue *)

(** The sequence without the first occurrence of [p]. *)
Fixpoint del (p : nat) (l : list nat) : list nat :=
  match l with
  | [] => []
  | x :: l' => if decide (x = p) then l' else x :: del p l'
  end.

(** The index of [p], the length when it is absent. *)
Fixpoint idx (p : nat) (l : list nat) : nat :=
  match l with
  | [] => 0%nat
  | x :: l' => if decide (x = p) then 0%nat else S (idx p l')
  end.

Lemma idx_absent p l : p ∉ l -> idx p l = length l.
Proof.
  induction l as [|x l IH]; cbn; [done|]. rewrite not_elem_of_cons. intros [Hne Hl].
  rewrite decide_False by done. by rewrite IH.
Qed.

Lemma idx_split p l : p ∈ l -> l = take (idx p l) l ++ p :: drop (S (idx p l)) l /\
  del p l = take (idx p l) l ++ drop (S (idx p l)) l.
Proof.
  induction l as [|x l IH]; cbn [idx del]; [by intros H%not_elem_of_nil|].
  destruct (decide (x = p)) as [->|Hne]; [cbn; by rewrite ?drop_0|].
  intros [?|H]%elem_of_cons; [congruence|]. destruct (IH H) as [H1 H2].
  cbn [take drop app]. by rewrite <- H1, H2.
Qed.

Lemma idx_le p l : (idx p l <= length l)%nat.
Proof. induction l as [|x l IH]; cbn; [lia|]. destruct (decide _); lia. Qed.

Lemma del_elem p l x : x ∈ del p l -> x ∈ l.
Proof.
  induction l as [|y l IH]; cbn; [done|]. destruct (decide (y = p)); set_solver.
Qed.

Lemma del_other p l x : x <> p -> x ∈ l -> x ∈ del p l.
Proof.
  intros Hne. induction l as [|y l IH]; cbn; [done|]. destruct (decide (y = p)); set_solver.
Qed.

Lemma del_Permutation p l : p ∈ l -> l ≡ₚ p :: del p l.
Proof.
  induction l as [|y l IH]; cbn; [by intros H%not_elem_of_nil|].
  destruct (decide (y = p)) as [->|Hne]; [done|]. intros [?|H]%elem_of_cons; [congruence|].
  rewrite (IH H) at 1. apply Permutation_swap.
Qed.

Lemma del_length p l : p ∈ l -> length l = S (length (del p l)).
Proof. intros H. by rewrite (del_Permutation p l H) at 1. Qed.

(** What [deleteQueue] makes of the sequence: it drops [p], and when [p] is
    not there it drops the last entry instead. *)
Definition dropped (p : nat) (l : list nat) : list nat :=
  if decide (p ∈ l) then del p l else take (length l - 1) l.

Section QueueOps.
Import Mlfq.
Context `{SV : Services}.
Implicit Types (s : kst) (k : qid) (q : pqueue) (p : nat) (l : list nat).

Lemma tail_length {A} (B : list A) : length (tail B) = (length B - 1)%nat.
Proof. destruct B; cbn; lia. Qed.

Lemma find_proc_rep q l p l1 l2 :
  q_rep q l -> l = l1 ++ l2 ->
  find_proc (length l2) (Z.of_nat (length l1)) q p = Ok (Z.of_nat (length l1 + idx p l2)).
Proof.
  intros Hq. revert l1; induction l2 as [|x l2 IH]; intros l1 ->; cbn [find_proc length idx].
  { by rewrite Nat.add_0_r. }
  rewrite (qr_end _ _ Hq), length_app. cbn [length].
  rewrite (proj2 (Z.ltb_lt _ _)) by lia.
  erewrite zget_of_nat; [|eapply q_rep_lookup; [done|]; by apply list_lookup_middle].
  cbn [res_bind]. destruct (decide (x = p)) as [->|Hne].
  - rewrite bool_decide_true by done. by rewrite Nat.add_0_r.
  - rewrite bool_decide_false by congruence.
    replace (Z.of_nat (length l1) + 1) with (Z.of_nat (length (l1 ++ [x])))
      by (rewrite length_app; cbn; lia).
    rewrite (IH (l1 ++ [x])) by (by rewrite <- app_assoc).
    rewrite length_app. cbn. do 2 f_equal. lia.
Qed.

Lemma shift_down_spec n (A B : list (option nat)) :
  (n < length B)%nat ->
  shift_down n (Z.of_nat (length A)) (Z.of_nat (length A) + Z.of_nat n) (A ++ B) =
  Ok (A ++ take n (tail B) ++ drop n B).
Proof.
  revert A B; induction n as [|n IH]; intros A B Hn; [done|].
  destruct B as [|b [|x B]]; cbn [length] in Hn; try lia. cbn [shift_down].
  rewrite (proj2 (Z.ltb_lt _ _)) by lia.
  replace (Z.of_nat (length A) + 1) with (Z.of_nat (length (A ++ [b])))
    by (rewrite length_app; cbn; lia).
  rewrite (zget_of_nat _ _ _ x).
  2: { replace (A ++ b :: x :: B) with ((A ++ [b]) ++ x :: B) by by rewrite <- app_assoc.
       by apply list_lookup_middle. }
  cbn [res_bind]. rewrite zset_in by (rewrite length_app; cbn; lia).
  rewrite Nat2Z.id, insert_app_r_alt, Nat.sub_diag by lia. cbn [res_bind insert list_insert].
  rewrite !length_app. cbn [length].
  specialize (IH (A ++ [x]) (x :: B)). rewrite length_app in IH. cbn [length] in IH.
  replace (A ++ x :: x :: B) with ((A ++ [x]) ++ x :: B) by by rewrite <- app_assoc.
  replace (Z.of_nat (length A) + Z.of_nat (S n))
    with (Z.of_nat (length A + 1) + Z.of_nat n) by lia.
  rewrite IH by lia. cbn [tail drop]. by rewrite <- app_assoc.
Qed.

(** [deleteQueue] on a queue that is neither empty nor full. *)
Lemma deleteQueue_rep k p s l :
  q_rep (getq k s) l -> (0 < length l < NPROC)%nat ->
  exists q', deleteQueue k p s = Ok (putq k q' s) /\ q_rep q' (dropped p l) /\
    q_ticks q' = q_ticks (getq k s) /\ q_priority q' = q_priority (getq k s).
Proof.
  intros Hq Hlen. unfold deleteQueue. set (q := getq k s) in *.
  rewrite (qr_end _ _ Hq), Nat2Z.id.
  pose proof (find_proc_rep q l p [] l Hq eq_refl) as Hf.
  cbn [length Nat.add] in Hf. change (Z.of_nat 0) with 0 in Hf. rewrite Hf. cbn [res_bind].
  pose proof (idx_le p l) as Hi. set (i := idx p l) in *.
  set (C := drop (length l) (queue q)).
  assert (length C = NPROC - length l)%nat as HC
    by (unfold C; by rewrite length_drop, (qr_len _ _ Hq)).
  assert (queue q = (Some <$> take i l) ++ ((Some <$> drop i l) ++ C)) as Hqq.
  { rewrite (q_rep_split _ _ Hq) at 1. by rewrite app_assoc, <- fmap_app, take_drop. }
  replace (Z.to_nat (Z.of_nat (length l) - Z.of_nat i)) with (length l - i)%nat by lia.
  pose proof (shift_down_spec (length l - i) (Some <$> take i l) ((Some <$> drop i l) ++ C)) as Hs.
  rewrite <- Hqq, length_fmap, length_take, length_app, length_fmap, length_drop in Hs.
  replace (Nat.min i (length l)) with i in Hs by lia.
  replace (Z.of_nat i + Z.of_nat (length l - i)) with (Z.of_nat (length l)) in Hs by lia.
  rewrite Hs by lia. cbn [res_bind]. eexists. split; [done|]. split; [|done].
  assert (length (dropped p l) = (length l - 1)%nat) as Hdl.
  { unfold dropped. destruct (decide (p ∈ l)) as [Hin|Hin].
    - rewrite (del_length p l Hin). lia.
    - rewrite length_take. lia. }
  constructor; cbn [queue q_end numOfProc set_queue set_q_end set_numOfProc].
  - rewrite !length_app, length_fmap, !length_take, tail_length, length_drop, !length_app,
      length_fmap, length_drop. pose proof (qr_len _ _ Hq). lia.
  - rewrite (qr_end _ _ Hq), Hdl. lia.
  - rewrite (qr_num _ _ Hq), Hdl. lia.
  - rewrite Hdl. unfold dropped. destruct (decide (p ∈ l)) as [Hin|Hin].
    + destruct (idx_split p l Hin) as [Hl1 Hl2]. fold i in Hl1, Hl2.
      assert (drop i l = p :: drop (S i) l) as Hdr.
      { rewrite Hl1 at 1. rewrite drop_app_ge by (rewrite length_take; lia).
        rewrite length_take. replace (i - Nat.min i (length l))%nat with 0%nat by lia. done. }
      assert (i < length l)%nat.
      { apply (f_equal length) in Hdr. rewrite !length_drop in Hdr. cbn in Hdr.
        rewrite length_drop in Hdr. lia. }
      rewrite Hdr, Hl2. cbn [fmap list_fmap tail app]. rewrite fmap_app.
      rewrite take_app_ge by (rewrite length_fmap, length_take; lia). f_equal.
      rewrite length_fmap, length_take.
      replace (length l - 1 - Nat.min i (length l))%nat with (length l - S i)%nat by lia.
      rewrite take_app_le by (rewrite length_take, length_app, length_fmap, length_drop; lia).
      rewrite take_take. rewrite take_app_le by (rewrite length_fmap, length_drop; lia).
      rewrite take_ge by (rewrite length_fmap, length_drop; lia). done.
    + assert (i = length l) as Hil by by apply idx_absent.
      rewrite Hil, Nat.sub_diag. cbn [take app drop]. rewrite firstn_all, drop_all. cbn [fmap list_fmap app].
      rewrite take_app_le by (rewrite length_fmap; lia). by rewrite fmap_take.
Qed.

(** The shift past the end of the array. *)
Lemma shift_down_out n (A B : list (option nat)) :
  (0 < n)%nat -> length B = n ->
  shift_down n (Z.of_nat (length A)) (Z.of_nat (length A) + Z.of_nat n) (A ++ B) = OOB "pqueue.queue".
Proof.
  revert A B; induction n as [|n IH]; intros A B Hn HB; [lia|].
  destruct B as [|b B]; cbn [length] in HB; [lia|]. cbn [shift_down].
  rewrite (proj2 (Z.ltb_lt _ _)) by lia. destruct B as [|x B].
  { rewrite zget_out; [done|]. right. rewrite length_app. cbn. lia. }
  replace (Z.of_nat (length A) + 1) with (Z.of_nat (length (A ++ [b])))
    by (rewrite length_app; cbn; lia).
  rewrite (zget_of_nat _ _ _ x).
  2: { replace (A ++ b :: x :: B) with ((A ++ [b]) ++ x :: B) by by rewrite <- app_assoc.
       by apply list_lookup_middle. }
  cbn [res_bind]. rewrite zset_in by (rewrite length_app; cbn; lia).
  rewrite Nat2Z.id, insert_app_r_alt, Nat.sub_diag by lia. cbn [res_bind insert list_insert].
  rewrite length_app. cbn [length] in *.
  specialize (IH (A ++ [x]) (x :: B)). rewrite length_app in IH. cbn [length] in IH.
  replace (A ++ x :: x :: B) with ((A ++ [x]) ++ x :: B) by by rewrite <- app_assoc.
  replace (Z.of_nat (length A) + Z.of_nat (S n))
    with (Z.of_nat (length A + 1) + Z.of_nat n) by lia.
  apply IH; lia.
Qed.

(** [deleteQueue] on a full queue. *)
Lemma deleteQueue_full k p s l :
  q_rep (getq k s) l -> length l = NPROC -> p ∈ l -> deleteQueue k p s = OOB "pqueue.queue".
Proof.
  intros Hq Hlen Hp. unfold deleteQueue. set (q := getq k s) in *.
  rewrite (qr_end _ _ Hq), Nat2Z.id.
  pose proof (find_proc_rep q l p [] l Hq eq_refl) as Hf.
  cbn [length Nat.add] in Hf. change (Z.of_nat 0) with 0 in Hf. rewrite Hf. cbn [res_bind].
  assert (idx p l < length l)%nat as Hi.
  { destruct (idx_split p l Hp) as [Hs _]. pose proof (idx_le p l) as Hle. apply (f_equal length) in Hs.
    rewrite length_app, length_take in Hs. cbn [length] in Hs. lia. }
  pose proof (shift_down_out (length l - idx p l) (take (idx p l) (queue q)) (drop (idx p l) (queue q))) as Hs.
  rewrite take_drop, length_take, length_drop, (qr_len _ _ Hq) in Hs.
  replace (Nat.min (idx p l) NPROC) with (idx p l) in Hs by lia.
  replace (Z.of_nat (idx p l) + Z.of_nat (length l - idx p l)) with (Z.of_nat (length l)) in Hs by lia.
  replace (Z.to_nat (Z.of_nat (length l) - Z.of_nat (idx p l))) with (length l - idx p l)%nat by lia.
  rewrite Hs by lia. done.
Qed.

(** [addQueue] on a queue with room. *)
Lemma addQueue_rep k p s l pr :
  q_rep (getq k s) l -> (length l < NPROC)%nat -> pt_proc s !! p = Some pr ->
  exists q', addQueue k p s =
    Ok (putp p (set_priority (q_priority (getq k s)) (set_Ticks 0 pr)) (putq k q' s)) /\
    q_rep q' (l ++ [p]) /\
    q_ticks q' = q_ticks (getq k s) /\ q_priority q' = q_priority (getq k s) /\
    queue q' = <[length l := Some p]> (queue (getq k s)).
Proof.
  intros Hq Hlen Hp. unfold addQueue. set (q := getq k s) in *.
  rewrite zset_in by (rewrite (qr_end _ _ Hq), (qr_len _ _ Hq); lia). cbn [res_bind].
  rewrite (modp_lookup _ _ _ pr) by (by rewrite pt_proc_putq). cbn [res_bind].
  erewrite (modp_lookup _ _ (putp p _ _)).
  2: { apply lookup_putp. rewrite pt_proc_putq. by eapply lookup_lt_Some. }
  rewrite putp_putp. eexists. split; [done|]. rewrite (qr_end _ _ Hq), Nat2Z.id. split; [|done].
  constructor; cbn [queue q_end numOfProc set_queue set_q_end set_numOfProc].
  - by rewrite length_insert, (qr_len _ _ Hq).
  - rewrite (qr_end _ _ Hq), length_app. cbn. lia.
  - rewrite (qr_num _ _ Hq), length_app. cbn. lia.
  - rewrite length_app. cbn [length]. rewrite Nat.add_1_r.
    rewrite (take_S_r _ _ (Some p)).
    + rewrite take_insert_ge by lia. by rewrite (qr_take _ _ Hq), fmap_app.
    + apply list_lookup_insert_eq. rewrite (qr_len _ _ Hq). lia.
Qed.

(** [addQueue] on a full queue writes past the array. *)
Lemma addQueue_full k p s l :
  q_rep (getq k s) l -> length l = NPROC -> addQueue k p s = OOB "pqueue.queue".
Proof.
  intros Hq Hl. unfold addQueue. rewrite zset_out; [done|].
  right. rewrite (qr_end _ _ Hq), (qr_len _ _ Hq), Hl. lia.
Qed.
End QueueOps.

(** * Choosing a process *)

(** The index of the first element that satisfies [f]. *)
Fixpoint first_idx (f : nat -> bool) (l : list nat) : option nat :=
  match l with
  | [] => None
  | x :: l' => if f x then Some 0%nat else S <$> first_idx f l'
  end.

Lemma first_idx_Some f l i :
  first_idx f l = Some i <->
  exists x, l !! i = Some x /\ f x = true /\
    (forall j y, (j < i)%nat -> l !! j = Some y -> f y = false).
Proof.
  revert i; induction l as [|x l IH]; intros i; cbn; [naive_solver|].
  destruct (f x) eqn:Hx.
  - split.
    + intros [= <-]. exists x. split_and!; [done | done | lia].
    + intros (y & Hy & Hf & Hlt). destruct i as [|i]; [done|].
      specialize (Hlt 0%nat x ltac:(lia) eq_refl). congruence.
  - destruct i as [|i].
    + split; [by destruct (first_idx f l) | intros (y & [= <-] & Hf & _); congruence].
    + rewrite fmap_Some. split.
      * intros (i' & Hi' & [= <-]). apply IH in Hi' as (y & Hy & Hf & Hlt).
        exists y. split_and!; [done | done |].
        intros [|j] z Hj Hz; [cbn in Hz; by simplify_eq | apply (Hlt j z); [lia | done]].
      * intros (y & Hy & Hf & Hlt). exists i. split; [|done]. apply IH. exists y.
        split_and!; [done | done |]. intros j z Hj Hz. apply (Hlt (S j) z); [lia | done].
Qed.

Lemma first_idx_None f l : first_idx f l = None <-> (forall x, x ∈ l -> f x = false).
Proof.
  induction l as [|x l IH]; cbn; [split; [by intros _ x H%not_elem_of_nil | done]|].
  destruct (f x) eqn:Hx.
  - split; [done|]. intros H. rewrite (H x) in Hx; [done | by left].
  - rewrite fmap_None, IH. split; intros H y; [rewrite elem_of_cons; naive_solver|].
    intros Hy. apply H. by right.
Qed.

(** Exchange of the elements at 0 and [i]. *)
Definition swap0 {A : Type} (i : nat) (l : list A) : list A :=
  match l !! 0%nat, l !! i with
  | Some a, Some b => <[0%nat := b]> (<[i := a]> l)
  | _, _ => l
  end.

Lemma swap0_Permutation {A : Type} i (l : list A) : swap0 i l ≡ₚ l.
Proof.
  unfold swap0. destruct l as [|a l]; [done|]. cbn [lookup list_lookup].
  destruct i as [|i]; [done|]. cbn [lookup list_lookup].
  destruct (l !! i) as [b|] eqn:Hi; [|done]. change (b :: <[i := a]> l ≡ₚ a :: l).
  rewrite <- (take_drop_middle l i b Hi) at 2.
  rewrite insert_take_drop by (by eapply lookup_lt_Some).
  rewrite <- !Permutation_middle. apply Permutation_swap.
Qed.

Lemma swap0_0 {A : Type} (l : list A) : swap0 0 l = l.
Proof. by destruct l. Qed.

Lemma swap0_head {A : Type} i (l : list A) p : l !! i = Some p -> exists rest, swap0 i l = p :: rest.
Proof.
  intros Hi. unfold swap0. destruct l as [|a l]; [done|]. cbn [lookup list_lookup] in *.
  rewrite Hi. destruct i; cbn; eauto.
Qed.

Section Choice.
Import Mlfq.
Context `{SV : Services}.
Implicit Types (s : kst) (k : qid) (q : pqueue) (p : nat) (l : list nat).

Lemma scan_runnable_rep q l s l1 l2 :
  q_rep q l -> Forall (fun i => i < length (pt_proc s))%nat l -> l = l1 ++ l2 ->
  scan_runnable (length l2) (Z.of_nat (length l1)) q s =
  Ok ((fun i => Z.of_nat (length l1 + i)) <$> first_idx (runnable s) l2).
Proof.
  intros Hq Hv. revert l1; induction l2 as [|x l2 IH]; intros l1 ->; cbn [scan_runnable length first_idx];
    [done|].
  rewrite (qr_end _ _ Hq), length_app. cbn [length].
  rewrite (proj2 (Z.ltb_lt _ _)) by lia.
  erewrite zget_of_nat; [|eapply q_rep_lookup; [done|]; by apply list_lookup_middle].
  cbn [res_bind deref].
  assert (x < length (pt_proc s))%nat as Hx.
  { rewrite Forall_app, Forall_cons in Hv. naive_solver. }
  destruct (lookup_lt_is_Some_2 _ _ Hx) as [pr Hpr].
  rewrite (getp_lookup _ _ _ Hpr). cbn [res_bind]. unfold runnable at 1. rewrite Hpr.
  destruct (bool_decide (state pr = RUNNABLE)); [cbn; by rewrite Nat.add_0_r|].
  replace (Z.of_nat (length l1) + 1) with (Z.of_nat (length (l1 ++ [x])))
    by (rewrite length_app; cbn; lia).
  rewrite (IH (l1 ++ [x])) by (by rewrite <- app_assoc).
  destruct (first_idx (runnable s) l2) as [i|]; cbn; [|done].
  rewrite length_app. cbn. do 3 f_equal. lia.
Qed.

Lemma first_runnable_rep q l s :
  q_rep q l -> Forall (fun i => i < length (pt_proc s))%nat l ->
  first_runnable q s = Ok (Z.of_nat <$> first_idx (runnable s) l).
Proof.
  intros Hq Hv. unfold first_runnable. rewrite (qr_end _ _ Hq), Nat2Z.id.
  apply (scan_runnable_rep q l s [] l); done.
Qed.

Lemma ready_rep q l s :
  q_rep q l -> Forall (fun i => i < length (pt_proc s))%nat l ->
  ready q s = Ok (match first_idx (runnable s) l with Some _ => true | None => false end).
Proof.
  intros Hq Hv. unfold ready. rewrite (qr_num _ _ Hq).
  destruct l as [|x l]; [done|].
  rewrite (proj2 (Z.eqb_neq _ _)) by (cbn; lia). cbn [negb].
  rewrite (first_runnable_rep _ _ _ Hq Hv). cbn [res_bind].
  by destruct (first_idx (runnable s) (x :: l)).
Qed.

(** The level and the index of the process to run. *)
Definition pick s (ls : qid -> list nat) : option (qid * nat) :=
  match first_idx (runnable s) (ls Q0) with
  | Some i => Some (Q0, i)
  | None =>
      match first_idx (runnable s) (ls Q1) with
      | Some i => Some (Q1, i)
      | None => pair Q2 <$> first_idx (runnable s) (ls Q2)
      end
  end.

Lemma returnQueue_rep s ls :
  mlfq s ls ->
  returnQueue s = Ok (match pick s ls with Some (k, _) => k | None => Q0 end).
Proof.
  intros [Hr _ _ Hv]. unfold returnQueue, pick.
  rewrite (ready_rep (q0 s) (ls Q0)) by (apply (Hr Q0) || apply (Hv Q0)). cbn [res_bind].
  destruct (first_idx (runnable s) (ls Q0)); [done|].
  rewrite (ready_rep (q1 s) (ls Q1)) by (apply (Hr Q1) || apply (Hv Q1)). cbn [res_bind].
  destruct (first_idx (runnable s) (ls Q1)); [done|].
  rewrite (ready_rep (q2 s) (ls Q2)) by (apply (Hr Q2) || apply (Hv Q2)). cbn [res_bind].
  by destruct (first_idx (runnable s) (ls Q2)).
Qed.

Lemma pick_Some s ls k i :
  pick s ls = Some (k, i) ->
  first_idx (runnable s) (ls k) = Some i /\
  (forall k' p, lvl k' < lvl k -> p ∈ ls k' -> runnable s p = false).
Proof.
  unfold pick. intros H.
  destruct (first_idx (runnable s) (ls Q0)) eqn:H0; simplify_eq.
  { split; [done|]. intros [] p Hl; cbn in Hl; lia. }
  rewrite first_idx_None in H0.
  destruct (first_idx (runnable s) (ls Q1)) eqn:H1; simplify_eq.
  { split; [done|]. intros [] p Hl; cbn in Hl; try lia. apply H0. }
  rewrite first_idx_None in H1. apply fmap_Some in H as (j & H2 & [= -> ->]).
  split; [done|]. intros [] p Hl; cbn in Hl; try lia; auto.
Qed.

Lemma pick_None s ls :
  pick s ls = None <-> (forall k p, p ∈ ls k -> runnable s p = false).
Proof.
  unfold pick. split.
  - destruct (first_idx (runnable s) (ls Q0)) eqn:H0; [done|].
    destruct (first_idx (runnable s) (ls Q1)) eqn:H1; [done|].
    rewrite fmap_None. intros H2. rewrite first_idx_None in H0, H1, H2. intros []; auto.
  - intros H. by rewrite !(proj2 (first_idx_None _ _) (H _)).
Qed.

(** [returnProc] on represented queues. *)
(** The queue with the entries at 0 and [i] exchanged. *)
Definition swapped (i : nat) (q : pqueue) : pqueue := set_queue (swap0 i (queue q)) q.

Lemma set_queue_same q : set_queue (queue q) q = q.
Proof. by destruct q. Qed.

Lemma swapped_rep i q l : (i < length l)%nat -> q_rep q l -> q_rep (swapped i q) (swap0 i l).
Proof.
  intros Hi Hq. destruct (lookup_lt_is_Some_2 l i Hi) as [p Hp].
  destruct (lookup_lt_is_Some_2 l 0%nat ltac:(lia)) as [a Ha]. pose proof (q_rep_length _ _ Hq).
  assert (length (swap0 i l) = length l) as Hsl by (by rewrite (swap0_Permutation i l)).
  constructor; cbn [queue q_end numOfProc swapped set_queue]; rewrite ?Hsl.
  - rewrite (swap0_Permutation i (queue q)). apply Hq.
  - apply Hq.
  - apply Hq.
  - unfold swap0. rewrite (q_rep_lookup _ _ _ _ Hq Ha), (q_rep_lookup _ _ _ _ Hq Hp), Ha, Hp, !take_insert_lt by lia.
    by rewrite (qr_take _ _ Hq), !list_fmap_insert.
Qed.

Lemma returnProc_swapped s ls :
  mlfq s ls ->
  match pick s ls with
  | Some (k, i) => exists p, ls k !! i = Some p /\ returnProc s = Ok (Some p, putq k (swapped i (getq k s)) s)
  | None => returnProc s = Ok (None, s)
  end.
Proof.
  intros Hm. pose proof Hm as [Hr _ _ Hv]. unfold returnProc.
  rewrite (returnQueue_rep _ _ Hm). cbn [res_bind].
  destruct (pick s ls) as [[k i]|] eqn:Hpk.
  - apply pick_Some in Hpk as [Hfi _]. pose proof (proj1 (first_idx_Some _ _ _) Hfi) as (p & Hp & _).
    assert (i < length (ls k))%nat as Hi by by eapply lookup_lt_Some.
    rewrite (qr_num _ _ (Hr k)), (proj2 (Z.eqb_neq _ _)) by lia.
    rewrite (first_runnable_rep _ _ _ (Hr k) (Hv k)), Hfi. cbn [res_bind fmap option_fmap option_map].
    rewrite (zget_of_nat _ _ _ (Some p)) by (by eapply q_rep_lookup). cbn [res_bind].
    destruct (Z.eqb_spec (Z.of_nat i) 0) as [Hi0|Hi0].
    + assert (i = 0%nat) as -> by lia. exists p. split; [done|].
      unfold swapped. by rewrite swap0_0, set_queue_same, putq_same.
    + destruct (lookup_lt_is_Some_2 (ls k) 0%nat ltac:(lia)) as [a Ha].
      pose proof (q_rep_length _ _ (Hr k)).
      rewrite (zget_of_nat _ _ 0%nat (Some a)) by (by eapply q_rep_lookup). cbn [res_bind].
      rewrite zset_in by (rewrite (qr_len _ _ (Hr k)); lia). cbn [res_bind].
      rewrite zset_in by (rewrite length_insert, (qr_len _ _ (Hr k)); unfold NPROC; lia).
      cbn [res_bind]. rewrite Nat2Z.id. exists p. split; [done|]. unfold swapped, swap0.
      by rewrite (q_rep_lookup _ _ _ _ (Hr k) Ha), (q_rep_lookup _ _ _ _ (Hr k) Hp).
  - pose proof (proj1 (pick_None _ _) Hpk) as Hn.
    rewrite (first_runnable_rep _ _ _ (Hr Q0) (Hv Q0)).
    rewrite (proj2 (first_idx_None _ _) (Hn Q0)). cbn [res_bind].
    by destruct (numOfProc (getq Q0 s) =? 0).
Qed.

Lemma returnProc_rep s ls :
  mlfq s ls ->
  match pick s ls with
  | Some (k, i) => exists p q', ls k !! i = Some p /\ returnProc s = Ok (Some p, putq k q' s) /\
      q_rep q' (swap0 i (ls k)) /\ q_ticks q' = q_ticks (getq k s) /\
      q_priority q' = q_priority (getq k s) /\ (i = 0%nat -> q' = getq k s)
  | None => returnProc s = Ok (None, s)
  end.
Proof.
  intros Hm. pose proof (returnProc_swapped s ls Hm) as H. destruct (pick s ls) as [[k i]|]; [|done].
  destruct H as (p & Hp & E). exists p, (swapped i (getq k s)). split; [done|]. split; [done|].
  split; [apply swapped_rep; [by eapply lookup_lt_Some|apply Hm]|]. split; [done|]. split; [done|].
  intros ->. unfold swapped. by rewrite swap0_0, set_queue_same.
Qed.

Lemma runnable_putq k q s p : runnable (putq k q s) p = runnable s p.
Proof. unfold runnable. by rewrite pt_proc_putq. Qed.

(** C21: [returnProc] looks at the highest level that has a runnable process,
    returns the first runnable process of its queue and exchanges it with the one
    at the front: the entries 0 and [i] of the array are swapped and the rest of
    the state is as before.  It returns null exactly when no queued process is
    runnable, and then changes nothing. *)
Theorem returnProc_spec s ls :
  mlfq s ls ->
  exists r s' ls', returnProc s = Ok (r, s') /\ mlfq s' ls' /\
    match r with
    | None => s' = s /\ ls' = ls /\ forall k p, p ∈ ls k -> runnable s p = false
    | Some p => runnable s p = true /\ exists k i rest,
        ls k !! i = Some p /\
        s' = putq k (set_queue (swap0 i (queue (getq k s))) (getq k s)) s /\
        ls' = upd_ls k (swap0 i (ls k)) ls /\ ls' k = p :: rest /\
        (forall j p', (j < i)%nat -> ls k !! j = Some p' -> runnable s p' = false) /\
        (forall k' p', lvl k' < lvl k -> p' ∈ ls k' -> runnable s p' = false)
    end.
Proof.
  intros Hm. pose proof (returnProc_swapped s ls Hm) as H.
  destruct (pick s ls) as [[k i]|] eqn:Hpk.
  - destruct H as (p & Hp & Hr).
    exists (Some p), (putq k (swapped i (getq k s)) s), (upd_ls k (swap0 i (ls k)) ls). split; [done|].
    pose proof Hm as [Hrep Hprio Hticks Hval].
    split; [apply mlfq_put; try done; [apply swapped_rep; [by eapply lookup_lt_Some|done] |apply Hprio | apply Hticks |]|].
    { by rewrite swap0_Permutation. }
    apply pick_Some in Hpk as [Hfi Hhigh]. apply first_idx_Some in Hfi as (x & Hx & Hrun & Hlt).
    rewrite Hp in Hx. injection Hx as <-. split; [done|].
    destruct (swap0_head _ _ _ Hp) as [rest Hrest].
    exists k, i, rest. split; [done|]. split; [done|]. split; [done|]. rewrite upd_ls_eq. done.
  - exists None, s, ls. split; [done|]. split; [done|]. split; [done|]. split; [done|]. by apply pick_None.
Qed.
End Choice.

(** * Moving a process between queues *)

(** Leave queue [a], join queue [b] at its end. *)
Definition move (p : nat) (a b : qid) (ls : qid -> list nat) : qid -> list nat :=
  let ls1 := upd_ls a (del p (ls a)) ls in upd_ls b (ls1 b ++ [p]) ls1.

(** All queue entries, and the room for one more. *)
Definition entries (ls : qid -> list nat) : list nat := ls Q0 ++ ls Q1 ++ ls Q2.
Definition roomy (ls : qid -> list nat) : Prop := (length (entries ls) < NPROC)%nat.

Lemma roomy_queue ls k : roomy ls -> (length (ls k) < NPROC)%nat.
Proof. unfold roomy, entries. rewrite !length_app. destruct k; lia. Qed.

Lemma elem_of_entries ls p : p ∈ entries ls <-> exists k, p ∈ ls k.
Proof.
  unfold entries. rewrite !elem_of_app. split.
  - intros [?|[?|?]]; eauto.
  - intros [[] ?]; auto.
Qed.

Lemma entries_upd k l ls : entries (upd_ls k l ls) ++ ls k ≡ₚ entries ls ++ l.
Proof.
  unfold entries. destruct k; rewrite upd_ls_eq, !upd_ls_ne by done.
  - rewrite <- !app_assoc. rewrite (Permutation_app_comm l), (Permutation_app_comm (ls Q0)).
    rewrite <- !app_assoc. do 2 apply Permutation_app_head. apply Permutation_app_comm.
  - rewrite <- !app_assoc. apply Permutation_app_head.
    rewrite (Permutation_app_comm l), (Permutation_app_comm (ls Q1)), <- !app_assoc.
    apply Permutation_app_head, Permutation_app_comm.
  - rewrite <- !app_assoc. do 2 apply Permutation_app_head. apply Permutation_app_comm.
Qed.

Lemma move_Permutation p a b ls : p ∈ ls a -> entries (move p a b ls) ≡ₚ entries ls.
Proof.
  intros Hp. unfold move. set (ls1 := upd_ls a (del p (ls a)) ls).
  pose proof (entries_upd b (ls1 b ++ [p]) ls1) as H1.
  pose proof (entries_upd a (del p (ls a)) ls) as H2. fold ls1 in H2.
  rewrite (del_Permutation _ _ Hp) in H2 at 1.
  apply (Permutation_app_inv_r (ls1 b)). rewrite H1.
  rewrite (Permutation_app_comm (ls1 b)), app_assoc. apply Permutation_app_tail.
  apply (Permutation_app_inv_r (del p (ls a))). rewrite <- H2, <- app_assoc. done.
Qed.

Section Moves.
Import Mlfq.
Context `{SV : Services}.
Implicit Types (s : kst) (k : qid) (q : pqueue) (p : nat).

(** [deleteQueue(a, p); addQueue(b, p)] for a process of queue [a]. *)
Lemma move_rep p a b s ls pr :
  mlfq s ls -> roomy ls -> p ∈ ls a -> pt_proc s !! p = Some pr ->
  exists qa qb,
    (let? s := deleteQueue a p s in addQueue b p s) =
      Ok (putp p (set_priority (lvl b) (set_Ticks 0 pr)) (putq b qb (putq a qa s))) /\
    mlfq (putp p (set_priority (lvl b) (set_Ticks 0 pr)) (putq b qb (putq a qa s)))
         (move p a b ls).
Proof.
  intros Hm Hroom Hin Hp. pose proof Hm as [Hrep Hprio Hticks Hval].
  pose proof (roomy_queue ls a Hroom) as Hra.
  destruct (deleteQueue_rep a p s (ls a) (Hrep a)) as (qa & Hd & Hqa & Hta & Hpa).
  { split; [|done]. destruct (ls a); [by apply not_elem_of_nil in Hin | cbn; lia]. }
  rewrite Hd. cbn [res_bind]. unfold dropped in Hqa. rewrite decide_True in Hqa by done.
  assert (mlfq (putq a qa s) (upd_ls a (del p (ls a)) ls)) as Hm1.
  { apply mlfq_put; try done; [by rewrite Hpa | by rewrite Hta |].
    apply Forall_forall. intros x Hx%del_elem. specialize (Hval a).
    rewrite Forall_forall in Hval. auto. }
  set (ls1 := upd_ls a (del p (ls a)) ls) in *.
  assert (length (ls1 b) < NPROC)%nat as Hrb.
  { unfold ls1. destruct (decide (b = a)) as [->|Hne].
    - rewrite upd_ls_eq. pose proof (del_length _ _ Hin). lia.
    - rewrite upd_ls_ne by done. by apply roomy_queue. }
  destruct (addQueue_rep b p (putq a qa s) (ls1 b) pr) as (qb & Ha & Hqb & Htb & Hpb & _).
  { apply Hm1. } { done. } { by rewrite pt_proc_putq. }
  exists qa, qb. rewrite Ha. rewrite (ml_prio _ _ Hm1 b).
  split; [done|]. apply mlfq_putp. unfold move. fold ls1. apply mlfq_put; try done.
  - by rewrite Hpb, (ml_prio _ _ Hm1 b).
  - by rewrite Htb, (ml_ticks _ _ Hm1 b).
  - apply Forall_app. split; [apply (ml_valid _ _ Hm1 b)|].
    constructor; [|done]. rewrite pt_proc_putq. by eapply lookup_lt_Some.
Qed.

(** ** The queue operations as list operations *)

(** C22: [addQueue] to a queue with room appends the process to the sequence the
    queue represents, resets its [Ticks] and gives it the queue's priority; apart
    from the entry at the end of the array, [end], [numOfProc] and these two fields
    of the process the state is as before.  A queue with [NPROC] entries is written
    past its end. *)
Theorem addQueue_spec k p s l pr :
  q_rep (getq k s) l -> pt_proc s !! p = Some pr ->
  if (length l <? NPROC)%nat then
    exists q', addQueue k p s =
        Ok (putp p (set_priority (q_priority (getq k s)) (set_Ticks 0 pr)) (putq k q' s)) /\
      q_rep q' (l ++ [p]) /\ queue q' = <[length l := Some p]> (queue (getq k s)) /\
      q_ticks q' = q_ticks (getq k s) /\ q_priority q' = q_priority (getq k s)
  else addQueue k p s = OOB "pqueue.queue".
Proof.
  intros Hq Hp. pose proof (q_rep_length _ _ Hq). destruct (Nat.ltb_spec (length l) NPROC) as [Hl|Hl].
  - destruct (addQueue_rep k p s l pr Hq Hl Hp) as (q' & Ha & Hq' & Ht & Hpr & Hqq). by exists q'.
  - apply (addQueue_full k p s l Hq). lia.
Qed.

(** C23: [deleteQueue] of a process that is in the queue, at whatever position,
    removes its first occurrence and keeps the order of the others; apart from the
    array, [end] and [numOfProc] of the queue the state is as before.  On a queue
    with [NPROC] entries it reads past the end of the array. *)
Theorem deleteQueue_spec k p s l :
  q_rep (getq k s) l -> p ∈ l ->
  if (length l <? NPROC)%nat then
    exists q', deleteQueue k p s = Ok (putq k q' s) /\ q_rep q' (del p l) /\ l ≡ₚ p :: del p l /\
      q_ticks q' = q_ticks (getq k s) /\ q_priority q' = q_priority (getq k s)
  else deleteQueue k p s = OOB "pqueue.queue".
Proof.
  intros Hq Hp. pose proof (q_rep_length _ _ Hq). destruct (Nat.ltb_spec (length l) NPROC) as [Hl|Hl].
  - destruct (deleteQueue_rep k p s l Hq) as (q' & Hd & Hq' & Ht & Hpr).
    { split; [|done]. destruct l; [by apply not_elem_of_nil in Hp | cbn; lia]. }
    unfold dropped in Hq'. rewrite decide_True in Hq' by done.
    exists q'. split; [done|]. split; [done|]. split; [by apply del_Permutation|done].
  - apply (deleteQueue_full k p s l Hq); [lia|done].
Qed.

(** [deleteQueue] does not check that the process is in the queue: when it
    is not, the last process of the queue is dropped in its place, and on an
    empty queue [end] becomes -1, so that the next [addQueue] writes before the
    array. *)
Theorem deleteQueue_absent k p s l :
  q_rep (getq k s) l -> (length l < NPROC)%nat -> p ∉ l ->
  exists s', deleteQueue k p s = Ok s' /\
    match l with
    | [] => q_end (getq k s') = -1 /\ forall p', addQueue k p' s' = OOB "pqueue.queue"
    | _ => q_rep (getq k s') (take (length l - 1) l)
    end.
Proof.
  intros Hq Hl Hp. destruct l as [|x l].
  - unfold deleteQueue. rewrite (qr_end _ _ Hq). cbn. eexists. split; [done|].
    rewrite getq_putq. cbn. rewrite (qr_end _ _ Hq). split; [done|].
    intros p'. unfold addQueue. rewrite getq_putq. done.
  - destruct (deleteQueue_rep k p s (x :: l) Hq) as (q' & Hd & Hq' & _); [cbn in *; lia|].
    unfold dropped in Hq'. rewrite decide_False in Hq' by done.
    eexists. split; [done|]. by rewrite getq_putq.
Qed.
End Moves.

(** * The example machine *)

Lemma demo_q_rep l t p : (length l <= NPROC)%nat -> q_rep (demo_queue l t p) l.
Proof.
  intros H. constructor; cbn [demo_queue queue q_end numOfProc]; try done.
  - rewrite length_app, length_fmap, repeat_length. lia.
  - by rewrite take_app_length' by (by rewrite length_fmap).
Qed.

Lemma demo_mlfq m l l0 l1 l2 :
  (length l <= NPROC)%nat ->
  Forall (fun i => i < NPROC)%nat l0 -> Forall (fun i => i < NPROC)%nat l1 ->
  Forall (fun i => i < NPROC)%nat l2 ->
  (length l0 <= NPROC)%nat -> (length l1 <= NPROC)%nat -> (length l2 <= NPROC)%nat ->
  mlfq (demo_kst m l l0 l1 l2) (demo_ls l0 l1 l2).
Proof.
  intros Hl H0 H1 H2 L0 L1 L2.
  assert (length (pt_proc (demo_kst m l l0 l1 l2)) = NPROC) as Hlen.
  { cbn [pt_proc demo_kst]. rewrite length_app, repeat_length. lia. }
  constructor; intros []; try done; rewrite ?Hlen; try done; by apply demo_q_rep.
Qed.

Lemma demo_mlfq_ok : mlfq demo demo_queues.
Proof. apply demo_mlfq; cbn; try lia; repeat constructor; unfold NPROC; lia. Qed.

(** In the example the third process is chosen: it is at level 1, behind a
    sleeping one. *)
Lemma returnProc_spec_witness : exists r s' ls', Mlfq.returnProc demo = Ok (r, s') /\ mlfq s' ls' /\
  r = Some 2%nat.
Proof.
  destruct (returnProc_spec demo demo_queues demo_mlfq_ok) as (r & s' & ls' & H1 & H2 & H3).
  exists r, s', ls'. split; [done|]. split; [done|].
  destruct r as [p|].
  - destruct H3 as (Hr & k & i & rest & Hp & _). destruct k; cbn in Hp.
    + destruct i as [|[|i]]; cbn in Hp; simplify_eq; vm_compute in Hr; done.
    + destruct i as [|[|[|i]]]; cbn in Hp; simplify_eq; try done; vm_compute in Hr; done.
    + done.
  - destruct H3 as (_ & _ & H). specialize (H Q1 2%nat). vm_compute in H. exfalso.
    discriminate H. by right; left.
Defined.

Lemma addQueue_spec_witness : exists s', Mlfq.addQueue Q0 1 demo = Ok s' /\
  q_rep (getq Q0 s') [0; 1]%nat.
Proof.
  destruct (addQueue_spec Q0 1 demo [0%nat] (demo_proc SLEEPING 2 1)) as (q' & H1 & H2 & _).
  - apply (ml_rep _ _ demo_mlfq_ok Q0).
  - done.
  - eexists. split; [exact H1|]. by rewrite getq_putp, getq_putq.
Defined.

Lemma deleteQueue_spec_witness : exists s', Mlfq.deleteQueue Q1 1 demo = Ok s' /\
  q_rep (getq Q1 s') [2%nat].
Proof.
  destruct (deleteQueue_spec Q1 1 demo [1; 2]%nat) as (q' & H1 & H2 & _).
  - apply (ml_rep _ _ demo_mlfq_ok Q1).
  - by left.
  - eexists. split; [exact H1|]. by rewrite getq_putq.
Defined.

(** Process 0 is not in queue 1, and process 2 loses its place. *)
Lemma deleteQueue_absent_witness : exists s', Mlfq.deleteQueue Q1 0 demo = Ok s' /\
  q_rep (getq Q1 s') [1%nat].
Proof.
  destruct (deleteQueue_absent Q1 0 demo [1; 2]%nat) as (s' & H1 & H2).
  - apply (ml_rep _ _ demo_mlfq_ok Q1).
  - cbn. unfold NPROC. lia.
  - rewrite !not_elem_of_cons. split_and!; [done | done | apply not_elem_of_nil].
  - by exists s'.
Defined.
