(* ===== verification/SchedFacts.v ===== *)
(** Properties of the scheduler: the feedback rules after a time slice as a
    refinement of an abstract rule on the queues, the time slice and its
    bounds, and the invariant of the queues. *)

From S2P Require Import Prelude CString Spinlock Kalloc Proc Sched Demo MlfqFacts.

(** * The feedback rule *)

(** The abstract rule: what happens to process [p] of queue [k], which came
    back from its time slice in state [st] with [tk] ticks used since it joined
    the queue. *)
Definition feedback (st : procstate) (tk : Z) (k : qid) (p : nat) (ls : qid -> list nat)
  : qid -> list nat :=
  match st, k with
  | RUNNABLE, Q0 => move p Q0 Q1 ls
  | RUNNABLE, Q1 => move p Q1 Q2 ls
  | RUNNABLE, Q2 => if 50 <=? tk then move p Q2 Q0 ls else ls
  | SLEEPING, _ => move p k k ls
  | _, _ => ls
  end.

(** The level the process is at afterwards. *)
Definition next_level (st : procstate) (tk : Z) (k : qid) : qid :=
  match st, k with
  | RUNNABLE, Q0 => Q1
  | RUNNABLE, Q1 => Q2
  | RUNNABLE, Q2 => if 50 <=? tk then Q0 else Q2
  | _, _ => k
  end.

(** Whether it leaves its place in the queues. *)
Definition requeued (st : procstate) (tk : Z) (k : qid) : bool :=
  match st, k with
  | RUNNABLE, Q2 => 50 <=? tk
  | RUNNABLE, _ | SLEEPING, _ => true
  | _, _ => false
  end.

(** A process that joins a queue starts a new record of statistics and its
    [Ticks] count from 0 again; another one keeps both. *)
Definition recorded (moved : bool) (pr pr' : proc) : Prop :=
  num_stat_used pr' = (if moved then num_stat_used pr + 1 else num_stat_used pr) /\
  Ticks pr' = (if moved then 0 else Ticks pr).

Section Feedback.
Import Mlfq Ptable Sched.
Context `{SV : Services}.
Implicit Types (s : kst) (k : qid) (p : nat) (pr : proc).

(** The arrays of a process have their declared sizes, its priority is a
    level, and what can run has a kernel stack and a page table. *)
Record proc_wf pr : Prop := {
  pw_ticks : length (ticks pr) = 3%nat;
  pw_times : length (times pr) = 3%nat;
  pw_queue : length (p_queue pr) = 500%nat;
  pw_stats : length (stats pr) = 1500%nat;
  pw_prio : 0 <= priority pr <= 2;
  pw_run : state pr = RUNNABLE \/ state pr = RUNNING -> kstack pr <> 0 /\ pgdir pr <> 0
}.

Lemma zget_in {A : Type} w (l : list A) i :
  0 <= i < Z.of_nat (length l) -> exists a, zget w l i = Ok a.
Proof.
  intros H. destruct (lookup_lt_is_Some_2 l (Z.to_nat i)) as [a Ha]; [lia|].
  exists a. apply zget_Ok. split; [lia | done].
Qed.

(** [upd_stat] inside the array. *)
Lemma upd_stat_Ok p f s pr :
  pt_proc s !! p = Some pr -> 0 <= num_stat_used pr < Z.of_nat (length (stats pr)) ->
  exists l, upd_stat p f s = Ok (putp p (set_stats l pr) s) /\ length l = length (stats pr).
Proof.
  intros Hp Hn. unfold upd_stat. rewrite (getp_lookup _ _ _ Hp). cbn [res_bind].
  destruct (zget_in "proc.stats" _ _ Hn) as [st Hst]. rewrite Hst. cbn [res_bind].
  rewrite zset_in by done. cbn [res_bind]. eexists. split; [done|]. apply length_insert.
Qed.

(** [finish] changes the entry of [p] and the queues, nothing else. *)
Definition only_p p s s' : Prop :=
  length (pt_proc s') = length (pt_proc s) /\
  (forall p', p' <> p -> pt_proc s' !! p' = pt_proc s !! p') /\
  mach s' = mach s /\ pt_lock s' = pt_lock s /\ TOTAL s' = TOTAL s /\
  trace0 s' = trace0 s /\ trace1 s' = trace1 s /\ trace2 s' = trace2 s.

Lemma only_p_put p pr s s' : only_p p s s' -> only_p p s (putp p pr s').
Proof.
  intros (H1 & H2 & H3). split_and!; cbn; try apply H3.
  - by rewrite length_insert.
  - intros p' Hne. rewrite list_lookup_insert_ne by done. auto.
Qed.

Lemma only_p_putq p k q s s' : only_p p s s' -> only_p p s (putq k q s').
Proof. destruct k; done. Qed.

Lemma only_p_refl p s : only_p p s s.
Proof. done. Qed.

(** The counters of the entry of [p] after a slice of [count] ticks at level
    [qp]: the level is charged for the ticks, and the process has been scheduled
    at its level once more. *)
Definition charged (qp count : Z) pr pr' : Prop :=
  (exists t, ticks pr !! Z.to_nat qp = Some t /\ ticks pr' = <[Z.to_nat qp := s32 (t + count)]> (ticks pr)) /\
  (exists t, times pr !! Z.to_nat (priority pr) = Some t /\
    times pr' = <[Z.to_nat (priority pr) := s32 (t + 1)]> (times pr)).

Lemma finish_head p k qp count s pr :
  pt_proc s !! p = Some pr -> proc_wf pr -> 0 <= qp <= 2 ->
  exists l l', length l = 3%nat /\ length l' = 3%nat /\ charged qp count pr (set_times l' (set_ticks l pr)) /\
  finish p k qp count s =
    (let pr := set_times l' (set_ticks l pr) in
     let s := putp p pr s in
     if bool_decide (state pr = RUNNABLE) && ((priority pr =? 1) || (priority pr =? 0)) then
       let? s := modp p (fun pr => set_num_stat_used (num_stat_used pr + 1) pr) s in
       degrade k p s
     else if bool_decide (state pr = RUNNABLE) && (priority pr =? 2) && (50 <=? Ticks pr) then
       let? s := modp p (fun pr => set_num_stat_used (num_stat_used pr + 1) pr) s in
       boost p s
     else if bool_decide (state pr = SLEEPING) then
       let? s := modp p (fun pr => set_num_stat_used (num_stat_used pr + 1) pr) s in
       let? s := deleteQueue k p s in
       addQueue k p s
     else Ok s).
Proof.
  intros Hp [Ht1 Ht2 _ _ Hpr _] Hqp. unfold finish. rewrite (getp_lookup _ _ _ Hp). cbn [res_bind].
  destruct (zget_in "proc.ticks" (ticks pr) qp) as [t Ht]; [lia|]. rewrite Ht. cbn [res_bind].
  rewrite zset_in by lia. cbn [res_bind times set_ticks priority].
  destruct (zget_in "proc.times" (times pr) (priority pr)) as [t' Ht']; [lia|].
  rewrite Ht'. cbn [res_bind]. rewrite zset_in by lia. cbn [res_bind].
  apply zget_Ok in Ht as [_ Ht], Ht' as [_ Ht']. exists (<[Z.to_nat qp := s32 (t + count)]> (ticks pr)), (<[Z.to_nat (priority pr) := s32 (t' + 1)]> (times pr)).
  split; [by rewrite length_insert|].
  split; [by rewrite length_insert|]. split; [|reflexivity]. split; [by exists t|by exists t'].
Qed.

(** [modp] of an entry just written. *)
Lemma modp_putp p f pr s :
  (p < length (pt_proc s))%nat -> modp p f (putp p pr s) = Ok (putp p (f pr) s).
Proof.
  intros Hp. rewrite (modp_lookup _ _ _ pr) by (by apply lookup_putp). by rewrite putp_putp.
Qed.

(** A process that leaves queue [a] and joins queue [b]. *)
Lemma requeue_ok p a b s ls pr :
  mlfq s ls -> roomy ls -> p ∈ ls a -> (p < length (pt_proc s))%nat ->
  exists s', (let? s := deleteQueue a p (putp p pr s) in addQueue b p s) = Ok s' /\ only_p p s s' /\
    mlfq s' (move p a b ls) /\ pt_proc s' !! p = Some (set_priority (lvl b) (set_Ticks 0 pr)).
Proof.
  intros Hm Hroom Ha Hlt. destruct (move_rep p a b (putp p pr s) ls pr) as (qa & qb & He & Hm').
  { by apply mlfq_putp. } { done. } { done. } { by apply lookup_putp. }
  rewrite He. eexists. split; [done|]. split.
  { apply only_p_put. do 2 apply only_p_putq. by apply only_p_put. }
  split; [done|]. apply lookup_putp. rewrite !pt_proc_putq. by rewrite length_putp.
Qed.

Lemma boost_ok p s ls pr :
  mlfq s ls -> roomy ls -> p ∈ ls Q2 -> (p < length (pt_proc s))%nat ->
  0 <= num_stat_used pr < Z.of_nat (length (stats pr)) ->
  exists s' l, boost p (putp p pr s) = Ok s' /\ only_p p s s' /\ mlfq s' (move p Q2 Q0 ls) /\
    pt_proc s' !! p = Some (set_stats l (set_priority 0 (set_Ticks 0 pr))) /\ length l = length (stats pr).
Proof.
  intros Hm Hroom Hin Hlt Hst. destruct (requeue_ok p Q2 Q0 s ls pr Hm Hroom Hin Hlt) as (s' & He & Ho & Hm' & Hp').
  unfold boost. apply res_bind_Ok in He as (s1 & -> & He2). cbn [res_bind]. rewrite He2. cbn [res_bind].
  rewrite (modp_lookup _ _ _ _ Hp'). cbn [res_bind].
  set (pr3 := set_priority 0 (set_priority (lvl Q0) (set_Ticks 0 pr))).
  assert (p < length (pt_proc s'))%nat as Hlt' by by eapply lookup_lt_Some.
  destruct (upd_stat_Ok p (set_st_priority 0) (putp p pr3 s') pr3) as (l3 & Hu & Hl3); [by apply lookup_putp|done|].
  rewrite Hu. eexists _, l3. split; [done|]. rewrite putp_putp.
  split; [by apply only_p_put|]. split; [by apply mlfq_putp|]. split; [by apply lookup_putp|done].
Qed.

(** The refinement: [finish] implements the feedback rule. *)
Lemma finish_feedback p k qp count s ls pr :
  mlfq s ls -> roomy ls -> p ∈ ls k -> pt_proc s !! p = Some pr -> proc_wf pr ->
  priority pr = lvl k -> 0 <= qp <= 2 -> 0 <= num_stat_used pr < 1499 ->
  exists s' pr', finish p k qp count s = Ok s' /\ only_p p s s' /\
    mlfq s' (feedback (state pr) (Ticks pr) k p ls) /\
    pt_proc s' !! p = Some pr' /\ proc_wf pr' /\ state pr' = state pr /\
    priority pr' = lvl (next_level (state pr) (Ticks pr) k) /\ charged qp count pr pr' /\
    recorded (requeued (state pr) (Ticks pr) k) pr pr'.
Proof.
  intros Hm Hroom Hin Hp Hwf Hprio Hqp Hstat.
  destruct (finish_head p k qp count s pr Hp Hwf Hqp) as (l & l' & Hl & Hl' & Hch & ->).
  destruct Hwf as [Ht1 Ht2 Hq Hst Hpr Hrun].
  assert (p < length (pt_proc s))%nat as Hlt by by eapply lookup_lt_Some.
  set (pr1 := set_times l' (set_ticks l pr)). cbv zeta.
  change (state pr1) with (state pr). change (priority pr1) with (priority pr).
  change (Ticks pr1) with (Ticks pr). rewrite Hprio, !modp_putp by done. cbn [res_bind].
  set (pr2 := set_num_stat_used (num_stat_used pr1 + 1) pr1).
  assert (forall b, proc_wf (set_priority (lvl b) (set_Ticks 0 pr2))) as Hwf2.
  { intros b. constructor; try done. cbn. destruct b; cbn; lia. }
  assert (exists s' pr', Ok (putp p pr1 s) = Ok s' /\ only_p p s s' /\ mlfq s' ls /\
      pt_proc s' !! p = Some pr' /\ proc_wf pr' /\ state pr' = state pr /\
      priority pr' = lvl k /\ charged qp count pr pr' /\ recorded false pr pr') as Hstay.
  { exists (putp p pr1 s), pr1. split; [done|]. split; [by apply only_p_put|].
    split; [by apply mlfq_putp|]. split; [by apply lookup_putp|]. by split; [constructor|]. }
  destruct (state pr) eqn:Est; cbn [feedback next_level requeued bool_decide andb decide];
    rewrite ?bool_decide_true, ?bool_decide_false by done; cbn [andb]; try exact Hstay.
  - (* SLEEPING *)
    destruct (requeue_ok p k k s ls pr2 Hm Hroom Hin Hlt) as (s' & -> & Ho & Hm' & Hp').
    exists s', (set_priority (lvl k) (set_Ticks 0 pr2)). split_and!; try done; try apply Ho; try apply Hwf2; apply Hch.
  - (* RUNNABLE *)
    destruct k; cbn [lvl Z.eqb orb].
    + destruct (requeue_ok p Q0 Q1 s ls pr2 Hm Hroom Hin Hlt) as (s' & He & Ho & Hm' & Hp').
      unfold degrade. rewrite getq_putp, (ml_prio _ _ Hm Q0). cbn [lvl Z.eqb]. rewrite He.
      exists s', (set_priority (lvl Q1) (set_Ticks 0 pr2)). split_and!; try done; try apply Ho; try apply Hwf2; apply Hch.
    + destruct (requeue_ok p Q1 Q2 s ls pr2 Hm Hroom Hin Hlt) as (s' & He & Ho & Hm' & Hp').
      unfold degrade. rewrite getq_putp, (ml_prio _ _ Hm Q1). cbn [lvl Z.eqb]. rewrite He.
      exists s', (set_priority (lvl Q2) (set_Ticks 0 pr2)). split_and!; try done; try apply Ho; try apply Hwf2; apply Hch.
    + cbn [andb]. destruct (50 <=? Ticks pr) eqn:Et; [|exact Hstay].
      destruct (boost_ok p s ls pr2 Hm Hroom Hin Hlt) as (s' & l3 & -> & Ho & Hm' & Hp' & Hl3).
      { change (num_stat_used pr2) with (num_stat_used pr + 1). change (stats pr2) with (stats pr). rewrite Hst. lia. }
      eexists s', _. split; [done|]. split; [done|]. split; [done|]. split; [exact Hp'|]. split; [|by split_and!; try apply Hch].
      constructor; try done; [|intros _; apply Hrun; by left]. change (length l3 = 1500%nat). by rewrite Hl3.
Qed.
End Feedback.

(** * One tick *)

Section Tick.
Import Mlfq Ptable Sched.
Context `{SV : Services}.
Implicit Types (s : kst) (k : qid) (p c : nat) (pr : proc).

Definition trace_wf (t : trace) : Prop :=
  length (t_queue t) = 500%nat /\ length (t_name t) = 500%nat /\ length (t_state t) = 500%nat.

(** CPU [c] executes, inside exactly one [pushcli]. *)
Definition on_cpu c s : Prop :=
  eflags_if (mach s) = false /\ exists cp, cpu_here (mach s) c cp /\ ncli cp = 1.

(** The invariant of the scheduler between two of its steps: the queues [ls]
    hold each process at most once, the process knows its level, and there is
    room for the transient entry [deleteQueue] reads. *)
Record sched_inv c s (ls : qid -> list nat) : Prop := {
  si_procs : Forall proc_wf (pt_proc s);
  si_traces k : trace_wf (gett k s);
  si_cpu : on_cpu c s;
  si_mlfq : mlfq s ls;
  si_roomy : roomy ls;
  si_nodup : NoDup (entries ls);
  si_prio k p pr : p ∈ ls k -> pt_proc s !! p = Some pr -> priority pr = lvl k
}.

(** What a step that leaves the queues alone keeps. *)
Definition proc_sim pr pr' : Prop :=
  (proc_wf pr -> proc_wf pr') /\ priority pr' = priority pr /\
  num_stat_used pr' = num_stat_used pr /\ ticks pr' = ticks pr /\ times pr' = times pr.

Record keeps c s s' : Prop := {
  kp_queues k : getq k s' = getq k s;
  kp_total : TOTAL s' = TOTAL s;
  kp_traces : (forall k, trace_wf (gett k s)) -> forall k, trace_wf (gett k s');
  kp_cpu : on_cpu c s -> on_cpu c s';
  kp_procs : Forall2 proc_sim (pt_proc s) (pt_proc s')
}.

#[local] Instance proc_sim_preorder : PreOrder proc_sim.
Proof.
  split; [done|]. intros a b d (H1 & H2 & H3 & H4 & H5) (G1 & G2 & G3 & G4 & G5).
  split; [auto | split_and!; congruence].
Qed.

#[export] Instance keeps_preorder c : PreOrder (keeps c).
Proof.
  split.
  - intros s. constructor; auto. reflexivity.
  - intros s1 s2 s3 [A1 A2 A3 A4 A5] [B1 B2 B3 B4 B5]. constructor.
    + intros k. by rewrite B1.
    + by rewrite B2.
    + auto.
    + auto.
    + by transitivity (pt_proc s2).
Qed.

Lemma sched_inv_keeps c s s' ls : sched_inv c s ls -> keeps c s s' -> sched_inv c s' ls.
Proof.
  intros [H1 H2 H3 H4 H5 H6 H7] [A1 A2 A3 A4 A5]. constructor; auto.
  - clear -H1 A5. induction A5 as [|a b l l' [Ha _] _ IH]; inversion H1; subst; auto.
  - apply (mlfq_ext s); [done | by symmetry; eapply Forall2_length | done].
  - intros k p pr Hp Hl. destruct (Forall2_lookup_r _ _ _ _ _ A5 Hl) as (a & Ha & (_ & -> & _)).
    by eapply H7.
Qed.

(** A change of one process, or of nothing the relation looks at. *)
Lemma keeps_putp c p pr pr' s :
  pt_proc s !! p = Some pr -> proc_sim pr pr' -> keeps c s (putp p pr' s).
Proof.
  intros Hp Hs. constructor; try done.
  cbn. rewrite <- (list_insert_id (pt_proc s) p pr) at 1 by done.
  apply Forall2_insert; [reflexivity | done].
Qed.

Lemma keeps_modp c p f s pr :
  pt_proc s !! p = Some pr -> proc_sim pr (f pr) ->
  exists s', modp p f s = Ok s' /\ keeps c s s' /\ pt_proc s' !! p = Some (f pr).
Proof.
  intros Hp Hs. rewrite (modp_lookup _ _ _ _ Hp). eexists. split; [done|].
  split; [by eapply keeps_putp|]. apply lookup_putp. by eapply lookup_lt_Some.
Qed.

(** A stage of the loop body: it returns, keeps what it should, and leaves the
    entry of [p] as [Q] says. *)
Definition stage c p s (m : res kst) (Q : proc -> Prop) : Prop :=
  exists s' pr', m = Ok s' /\ keeps c s s' /\ pt_proc s' !! p = Some pr' /\ Q pr'.

Lemma stage_bind c p s m f (Q Q' : proc -> Prop) :
  stage c p s m Q ->
  (forall s' pr', keeps c s s' -> pt_proc s' !! p = Some pr' -> Q pr' -> stage c p s' (f s') Q') ->
  stage c p s (let? s := m in f s) Q'.
Proof.
  intros (s1 & pr1 & -> & Hk & Hp & HQ) Hf.
  destruct (Hf s1 pr1 Hk Hp HQ) as (s2 & pr2 & H2 & Hk2 & Hp2 & HQ2).
  exists s2, pr2. split_and!; try done. by transitivity s1.
Qed.

Lemma stage_ret c p s s' pr' Q :
  keeps c s s' -> pt_proc s' !! p = Some pr' -> Q pr' -> stage c p s (Ok s') Q.
Proof. intros. by exists s', pr'. Qed.

Lemma stage_modp c p f s pr (Q : proc -> Prop) :
  pt_proc s !! p = Some pr -> proc_sim pr (f pr) -> Q (f pr) -> stage c p s (modp p f s) Q.
Proof. intros Hp Hs HQ. destruct (keeps_modp c p f s pr Hp Hs) as (s' & ? & ? & ?). by exists s', (f pr). Qed.

Lemma stage_upd_stat c p f s pr :
  pt_proc s !! p = Some pr -> proc_wf pr -> 0 <= num_stat_used pr < 1500 ->
  stage c p s (upd_stat p f s) (fun pr' => exists l, pr' = set_stats l pr /\ length l = 1500%nat).
Proof.
  intros Hp Hwf Hn.
  destruct (upd_stat_Ok p f s pr Hp) as (l & -> & Hl); [rewrite pw_stats by done; lia|].
  assert (length l = 1500%nat) as Hl' by (by rewrite Hl, pw_stats).
  eapply stage_ret.
  - eapply keeps_putp; [done|]. split; [|done]. intros [? ? ? ? ? ?]. by constructor.
  - apply lookup_putp. by eapply lookup_lt_Some.
  - by exists l.
Qed.

Lemma keeps_putt c k t s : trace_wf t -> keeps c s (putt k t s).
Proof.
  intros Ht. constructor.
  - intros k'. by destruct k, k'.
  - by destruct k.
  - intros H k'. destruct k, k'; cbn; try done; [apply (H Q1) | apply (H Q2) | apply (H Q0)
      | apply (H Q2) | apply (H Q0) | apply (H Q1)].
  - by destruct k.
  - destruct k; reflexivity.
Qed.

Lemma pt_proc_putt k t s : pt_proc (putt k t s) = pt_proc s.
Proof. by destruct k. Qed.

Lemma stage_log_start c k n p s pr :
  (forall k, trace_wf (gett k s)) -> 0 <= TOTAL s < 500 -> pt_proc s !! p = Some pr ->
  stage c p s (log_start k n p s) (eq pr).
Proof.
  intros Ht Htot Hp. unfold log_start. rewrite (getp_lookup _ _ _ Hp). cbn [res_bind].
  destruct (priority pr =? n); [|by eapply stage_ret].
  destruct (Ht k) as (H1 & H2 & H3). rewrite zset_in by lia. cbn [res_bind].
  rewrite zset_in by lia. cbn [res_bind]. eapply stage_ret; [apply keeps_putt | by rewrite pt_proc_putt | done].
  by split_and!; cbn; rewrite ?length_insert.
Qed.

Lemma stage_log_end c k n p s pr :
  (forall k, trace_wf (gett k s)) -> 0 <= TOTAL s < 500 -> pt_proc s !! p = Some pr ->
  stage c p s (log_end k n p s) (eq pr).
Proof.
  intros Ht Htot Hp. unfold log_end. rewrite (getp_lookup _ _ _ Hp). cbn [res_bind].
  destruct (priority pr =? n); [|by eapply stage_ret].
  assert (forall x s', keeps c s s' -> pt_proc s' !! p = Some pr -> stage c p s' (
    let? a := zset "stateN" (t_state (gett k s')) (TOTAL s') x in
    Ok (putt k (set_t_state a (gett k s')) s')) (eq pr)) as Hput.
  { intros x s' Hk Hp'. destruct (kp_traces _ _ _ Hk Ht k) as (H1 & H2 & H3).
    rewrite (kp_total _ _ _ Hk), zset_in by lia. cbn [res_bind].
    eapply stage_ret; [apply keeps_putt | by rewrite pt_proc_putt | done].
    by split_and!; cbn; rewrite ?length_insert. }
  apply (stage_bind _ _ _ _ _ (eq pr)); [|intros s1 pr1 Hk1 Hp1 <-;
    apply (stage_bind _ _ _ _ _ (eq pr)); [|intros s2 pr2 Hk2 Hp2 <-]].
  - case_bool_decide; [by apply Hput | by eapply stage_ret].
  - case_bool_decide; [by apply Hput | by eapply stage_ret].
  - case_bool_decide; [apply Hput; [by transitivity s1 | done] | by eapply stage_ret].
Qed.

Lemma keeps_mach c s m : on_cpu c (set_mach m s) -> keeps c s (set_mach m s).
Proof. intros H. constructor; try done; reflexivity. Qed.

Lemma stage_set_current c p v s pr :
  on_cpu c s -> pt_proc s !! p = Some pr -> stage c p s (set_current c v s) (eq pr).
Proof.
  intros (Hif & cp & Hc & Hn) Hp. unfold set_current. rewrite (get_cpu_here _ _ _ Hc). cbn [res_bind].
  eapply stage_ret; [apply keeps_mach | done | done].
  split; [done|]. exists (set_cpu_proc v cp). split; [by apply (cpu_here_put _ _ cp) | done].
Qed.

Lemma stage_switchuvm c p s pr :
  on_cpu c s -> pt_proc s !! p = Some pr -> kstack pr <> 0 -> pgdir pr <> 0 ->
  stage c p s (switchuvm p s) (eq pr).
Proof.
  intros (Hif & cp & Hc & Hn) Hp Hks Hpg. unfold switchuvm.
  rewrite (getp_lookup _ _ _ Hp). cbn [res_bind]. rewrite !(proj2 (Z.eqb_neq _ _)) by done.
  destruct (push_pop (mach s) c cp Hc) as (m & Hpush & Hc' & He & Hpop); [split; [lia | by intros]|].
  rewrite Hpush. cbn [res_bind]. rewrite (mycpu_here _ _ _ Hc' He). cbn [res_bind].
  rewrite Hpop, touched_inside by (done || lia). cbn [res_bind].
  eapply stage_ret; [|done|done]. constructor; try done; reflexivity.
Qed.

Lemma stage_switchkvm c p s pr :
  pt_proc s !! p = Some pr -> stage c p s (Ok (switchkvm s)) (eq pr).
Proof.
  intros Hp. eapply stage_ret; [|done|done]. constructor; try done; reflexivity.
Qed.

(** [updatePstat] on tables of the right shape. *)
Definition pstat_sim pr pr' : Prop :=
  proc_sim pr pr' /\ state pr' = state pr /\ Ticks pr' = Ticks pr.

Lemma pstat_entries_Ok total l :
  0 <= total < 500 -> Forall proc_wf l ->
  exists l', pstat_entries total l = Ok l' /\ Forall2 pstat_sim l l'.
Proof.
  intros Ht. induction 1 as [|pr l Hwf _ (l' & Hl & IH)]; [by exists []|].
  assert (exists pr', pstat_entry total pr = Ok pr' /\ pstat_sim pr pr') as (pr' & Hpr & Hs).
  { unfold pstat_entry. case_bool_decide; [|by exists pr].
    rewrite zset_in by (rewrite pw_queue by done; lia). cbn [res_bind].
    assert (forall x, length (<[x:=priority pr]> (p_queue pr)) = 500%nat) as Hlen
      by (intros; by rewrite length_insert, pw_queue).
    destruct Hwf. destruct (_ =? 2); eexists; (split; [done|]);
      (split; [split; [|done]; intros _; by constructor; cbn|done]). }
  exists (pr' :: l'). cbn. rewrite Hpr. cbn. rewrite Hl. cbn. auto.
Qed.

(** The state a stage of the loop body starts in. *)
Definition at_p c p s ls pr : Prop :=
  sched_inv c s ls /\ 0 <= TOTAL s < 500 /\ pt_proc s !! p = Some pr /\
  0 <= num_stat_used pr < 1500.

Lemma at_p_keeps c p s s' ls pr pr' :
  at_p c p s ls pr -> keeps c s s' -> pt_proc s' !! p = Some pr' -> at_p c p s' ls pr'.
Proof.
  intros (Hi & Ht & Hp & Hn) Hk Hp'. split; [by eapply sched_inv_keeps|].
  split; [by rewrite (kp_total _ _ _ Hk)|]. split; [done|].
  destruct (Forall2_lookup_l _ _ _ _ _ (kp_procs _ _ _ Hk) Hp) as (x & Hx & _ & _ & Hnum & _).
  rewrite Hp' in Hx. injection Hx as <-. by rewrite Hnum.
Qed.

Lemma at_p_wf c p s ls pr : at_p c p s ls pr -> proc_wf pr.
Proof.
  intros (Hi & _ & Hp & _). pose proof (si_procs _ _ _ Hi) as H. rewrite Forall_lookup in H. eauto.
Qed.

Lemma stage_next c p ls s m f pr (Q Q' : proc -> Prop) :
  at_p c p s ls pr -> stage c p s m Q ->
  (forall s' pr', at_p c p s' ls pr' -> Q pr' -> stage c p s' (f s') Q') ->
  stage c p s (let? s := m in f s) Q'.
Proof.
  intros Ha Hm Hf. eapply stage_bind; [done|]. intros s' pr' Hk Hp HQ.
  apply (Hf _ pr'); [by eapply at_p_keeps | done].
Qed.

Lemma stage_weaken c p s m (Q Q' : proc -> Prop) :
  stage c p s m Q -> (forall pr, Q pr -> Q' pr) -> stage c p s m Q'.
Proof. intros (s' & pr' & H1 & H2 & H3 & H4) H. exists s', pr'. auto. Qed.

Lemma stage_updatePstat c p s ls pr :
  at_p c p s ls pr ->
  stage c p s (updatePstat s) (fun pr' => state pr' = state pr /\ Ticks pr' = Ticks pr).
Proof.
  intros (Hi & Ht & Hp & _). unfold updatePstat.
  destruct (pstat_entries_Ok _ _ Ht (si_procs _ _ _ Hi)) as (l & -> & Hl). cbn [res_bind].
  destruct (Forall2_lookup_l _ _ _ _ _ Hl Hp) as (pr' & Hp' & _ & Hs & Hts).
  eapply stage_ret; [|done|done]. constructor; try done.
  eapply Forall2_impl; [done|]. by intros ? ? [].
Qed.

(** ** The loop body *)

Context (run : nat -> kst -> kst).

(** [tick] up to and after [swtch]. *)
Definition tick_before c p s : res kst :=
  let? s := log_start Q0 0 p s in
  let? s := log_start Q1 1 p s in
  let? s := log_start Q2 2 p s in
  let? s := set_current c (Some p) s in
  let? s := switchuvm p s in
  let? s := modp p (set_state RUNNING) s in
  let? s := upd_stat p (set_start_tick (s32 (clock s))) s in
  let? pr := getp p s in
  upd_stat p (set_st_priority (priority pr)) s.

Definition tick_after c p s : res kst :=
  let? s := Ok (switchkvm s) in
  let? s := upd_stat p (fun st =>
    set_duration (s32 (duration st + (clock s - start_tick st))) st) s in
  let? s := set_current c None s in
  let? s := log_end Q0 0 p s in
  let? s := log_end Q1 1 p s in
  let? s := log_end Q2 2 p s in
  let? s := modp p (fun pr => set_Ticks (s32 (Ticks pr + 1)) pr) s in
  updatePstat s.

Lemma tick_split c p s :
  tick run c p s =
    (let? s := tick_before c p s in
     let? s := tick_after c p (run p s) in
     Ok (if TOTAL s <? NTICKS then set_TOTAL (TOTAL s + 1) s else s)).
Proof.
  unfold tick, tick_before, tick_after. rewrite !res_bind_assoc.
  repeat (match goal with |- (let? x := ?m in _) = _ =>
    destruct m; cbn [res_bind]; [|done..]; rewrite ?res_bind_assoc end); done.
Qed.

Lemma tick_before_ok c p s ls pr :
  at_p c p s ls pr -> state pr = RUNNABLE ->
  stage c p s (tick_before c p s) (fun pr' => state pr' = RUNNING /\ Ticks pr' = Ticks pr).
Proof.
  intros Ha Hst. unfold tick_before.
  do 3 (eapply stage_next; [done | apply stage_log_start; apply Ha |];
        clear dependent s; intros s x Ha <-).
  eapply stage_next; [done | apply stage_set_current; [apply (si_cpu _ _ _ (proj1 Ha)) | apply Ha] |].
  clear dependent s; intros s x Ha <-.
  destruct (pw_run _ (at_p_wf _ _ _ _ _ Ha) (or_introl Hst)) as [Hks Hpg].
  eapply stage_next; [done | apply stage_switchuvm; [apply (si_cpu _ _ _ (proj1 Ha)) | apply Ha | done..] |].
  clear dependent s; intros s x Ha <-.
  eapply stage_next; [done | eapply (stage_modp _ _ _ _ _ (eq _)); [apply Ha | | reflexivity] |].
  { split; [|done]. intros []. by constructor. }
  clear dependent s; intros s x Ha Hx.
  eapply stage_next; [done | eapply stage_upd_stat; [apply Ha | by eapply at_p_wf | apply Ha] |].
  clear dependent s; intros s x2 Ha (l & -> & _).
  rewrite (getp_lookup p s (set_stats l x)) by apply Ha. cbn [res_bind].
  eapply stage_weaken; [eapply stage_upd_stat; [apply Ha | by eapply at_p_wf | apply Ha]|].
  intros ? (l' & -> & _). by subst x.
Qed.

Lemma tick_after_ok c p s ls pr :
  at_p c p s ls pr ->
  stage c p s (tick_after c p s)
    (fun pr' => state pr' = state pr /\ Ticks pr' = s32 (Ticks pr + 1)).
Proof.
  intros Ha. unfold tick_after.
  eapply stage_next; [done | apply stage_switchkvm; apply Ha |].
  clear dependent s; intros s x Ha <-.
  eapply stage_next; [done | eapply stage_upd_stat; [apply Ha | by eapply at_p_wf | apply Ha] |].
  clear dependent s; intros s x2 Ha (l & -> & _).
  eapply stage_next; [done | apply stage_set_current; [apply (si_cpu _ _ _ (proj1 Ha)) | apply Ha] |].
  clear dependent s; intros s x Ha <-.
  do 3 (eapply stage_next; [done | apply stage_log_end; apply Ha |];
        clear dependent s; intros s x Ha <-).
  eapply stage_next; [done | eapply (stage_modp _ _ _ _ _ (eq _)); [apply Ha | | reflexivity] |].
  { split; [|done]. intros []. by constructor. }
  clear dependent s; intros s x Ha <-.
  eapply stage_weaken; [by eapply stage_updatePstat|]. by intros x [-> ->].
Qed.

(** What the scheduler needs of the process it switches to: it comes back
    with the invariant of the scheduler, in the queue it was taken from, and
    the counters only the scheduler writes are as they were. *)
Definition run_ok c p k : Prop :=
  forall s ls pr, sched_inv c s ls -> p ∈ ls k -> pt_proc s !! p = Some pr -> state pr = RUNNING ->
  exists ls' pr', sched_inv c (run p s) ls' /\ p ∈ ls' k /\ TOTAL (run p s) = TOTAL s /\
    pt_proc (run p s) !! p = Some pr' /\
    num_stat_used pr' = num_stat_used pr /\ Ticks pr' = Ticks pr /\
    ticks pr' = ticks pr /\ times pr' = times pr.

Lemma sched_inv_TOTAL c s ls n : sched_inv c s ls -> sched_inv c (set_TOTAL n s) ls.
Proof.
  intros [H1 H2 H3 H4 H5 H6 H7]. constructor; try done. eapply mlfq_ext; [| |done]; done.
Qed.

(** The member of a queue during a slice. *)
Definition in_slice c p k s ls pr : Prop :=
  sched_inv c s ls /\ p ∈ ls k /\ pt_proc s !! p = Some pr.

Lemma tick_ok c p k s ls pr :
  run_ok c p k -> in_slice c p k s ls pr -> state pr = RUNNABLE ->
  0 <= TOTAL s < 500 -> 0 <= num_stat_used pr < 1500 ->
  exists s' ls' pr', tick run c p s = Ok s' /\ in_slice c p k s' ls' pr' /\
    TOTAL s' = TOTAL s + 1 /\ num_stat_used pr' = num_stat_used pr /\
    Ticks pr' = s32 (Ticks pr + 1) /\ ticks pr' = ticks pr /\ times pr' = times pr.
Proof.
  intros Hrun (Hi & Hin & Hp) Hst Ht Hn. rewrite tick_split.
  assert (at_p c p s ls pr) as Ha by done.
  destruct (tick_before_ok _ _ _ _ _ Ha Hst) as (s1 & pr1 & -> & Hk1 & Hp1 & Hst1 & Htk1).
  cbn [res_bind]. pose proof (at_p_keeps _ _ _ _ _ _ _ Ha Hk1 Hp1) as (Hi1 & Ht1 & _ & Hn1).
  destruct (Forall2_lookup_l _ _ _ _ _ (kp_procs _ _ _ Hk1) Hp) as (x & Hx & _ & _ & Hnum & Hti1 & Hts1).
  rewrite Hp1 in Hx. injection Hx as <-.
  destruct (Hrun s1 ls pr1 Hi1 Hin Hp1 Hst1) as (ls2 & pr2 & Hi2 & Hin2 & Ht2 & Hp2 & Hn2 & Htk2 & Hti2 & Hts2).
  assert (at_p c p (run p s1) ls2 pr2) as Ha2 by (split_and!; [done | lia.. | done | lia | lia]).
  destruct (tick_after_ok _ _ _ _ _ Ha2) as (s3 & pr3 & -> & Hk3 & Hp3 & Hst3 & Htk3).
  cbn [res_bind]. destruct (Forall2_lookup_l _ _ _ _ _ (kp_procs _ _ _ Hk3) Hp2) as (x & Hx & _ & _ & Hnum3 & Hti3 & Hts3).
  rewrite Hp3 in Hx. injection Hx as <-.
  pose proof (kp_total _ _ _ Hk1). pose proof (kp_total _ _ _ Hk3).
  unfold NTICKS. rewrite (proj2 (Z.ltb_lt _ _)) by lia.
  exists (set_TOTAL (TOTAL s3 + 1) s3), ls2, pr3. split; [done|]. split_and!; try done.
  - split; [|done]. apply sched_inv_TOTAL. by eapply sched_inv_keeps.
  - cbn. lia.
  - by rewrite Hnum3, Hn2.
  - by rewrite Htk3, Htk2, Htk1.
  - congruence.
  - congruence.
Qed.

(** The time slice: it ends, after at most the quantum of its queue. *)
Lemma slice_ok c p k fuel count s ls pr :
  run_ok c p k -> in_slice c p k s ls pr ->
  0 <= count <= quantum k -> (Z.to_nat (quantum k - count) < fuel)%nat ->
  0 <= TOTAL s -> TOTAL s + (quantum k - count) <= 500 -> 0 <= num_stat_used pr < 1500 ->
  exists n s' ls' pr', slice run fuel c p k count s = Ok (n, s') /\ in_slice c p k s' ls' pr' /\
    count <= n <= quantum k /\ (state pr = RUNNABLE -> count < quantum k -> count < n) /\
    (state pr' <> RUNNABLE \/ n = quantum k) /\
    TOTAL s' = TOTAL s + (n - count) /\ num_stat_used pr' = num_stat_used pr /\
    (n = count -> s' = s) /\ (count < n -> Ticks pr' = s32 (Ticks pr + (n - count))) /\
    ticks pr' = ticks pr /\ times pr' = times pr.
Proof.
  intros Hrun. revert count s ls pr. induction fuel as [|fuel IH]; intros count s ls pr Hs Hc Hf Ht Htot Hn; [lia|].
  cbn [slice]. pose proof Hs as (Hi & Hin & Hp).
  rewrite (getp_lookup _ _ _ Hp). cbn [res_bind].
  rewrite (ml_ticks _ _ (si_mlfq _ _ _ Hi) k).
  case_bool_decide as Hst; cbn [andb].
  2: { exists count, s, ls, pr. split_and!; try done; try apply Hs; try lia. by left. }
  destruct (Z.ltb_spec count (quantum k)) as [Hlt|Hge].
  2: { exists count, s, ls, pr. split_and!; try done; try apply Hs; try lia. }
  destruct (tick_ok c p k s ls pr Hrun Hs Hst) as (s1 & ls1 & pr1 & -> & Hs1 & Ht1 & Hn1 & Htk1 & Hti1 & Hts1); [lia..|].
  cbn [res_bind].
  destruct (IH (count + 1) s1 ls1 pr1 Hs1) as (n & s2 & ls2 & pr2 & He & Hs2 & Hc2 & _ & Hend & Ht2 & Hn2 & Hsame & Htk2 & Hti2 & Hts2); [lia..|].
  exists n, s2, ls2, pr2. split_and!; try done; try apply Hs2; try lia; try congruence.
  intros _. destruct (decide (n = count + 1)) as [->|].
  - rewrite (Hsame eq_refl) in Hs2. destruct Hs1 as (_ & _ & H1), Hs2 as (_ & _ & H2). rewrite H1 in H2. injection H2 as <-.
    rewrite Htk1. f_equal. lia.
  - rewrite Htk2, Htk1, s32_add_l by lia. f_equal. lia.
Qed.
End Tick.

(** * A dispatch *)

Section Dispatch.
Import Mlfq Ptable Sched.
Context `{SV : Services} (run : nat -> kst -> kst).
Implicit Types (s : kst) (k : qid) (p c : nat) (pr : proc).

Lemma feedback_Permutation st tk k p ls :
  p ∈ ls k -> entries (feedback st tk k p ls) ≡ₚ entries ls.
Proof.
  intros Hp. destruct st, k; cbn; try done; try (by apply move_Permutation).
  destruct (_ <=? _); [by apply move_Permutation | done].
Qed.

Lemma NoDup_queue ls k : NoDup (entries ls) -> NoDup (ls k).
Proof. unfold entries. rewrite !NoDup_app. destruct k; tauto. Qed.

Lemma queue_unique ls k k' p : NoDup (entries ls) -> p ∈ ls k -> p ∈ ls k' -> k = k'.
Proof.
  unfold entries. rewrite !NoDup_app. setoid_rewrite elem_of_app.
  intros (_ & H0 & _ & H1 & _) Hk Hk'.
  destruct k, k'; naive_solver.
Qed.

Lemma del_NoDup p l : NoDup l -> p ∉ del p l.
Proof.
  intros Hnd Hin. pose proof (del_elem _ _ _ Hin) as Hp.
  rewrite (del_Permutation p l Hp) in Hnd. by inversion Hnd.
Qed.

(** Where a process is after a move. *)
Lemma move_elem p a b ls k p' :
  NoDup (entries ls) -> p ∈ ls a -> p' ∈ move p a b ls k ->
  (p' = p /\ k = b) \/ (p' <> p /\ p' ∈ ls k).
Proof.
  intros Hnd Ha. unfold move. set (ls1 := upd_ls a (del p (ls a)) ls).
  assert (forall k', p' ∈ ls1 k' -> p' <> p /\ p' ∈ ls k') as H1.
  { intros k'. unfold ls1. destruct (decide (k' = a)) as [->|Hne].
    - rewrite upd_ls_eq. intros Hin. split; [|by eapply del_elem].
      intros ->. by eapply del_NoDup, Hin; apply NoDup_queue.
    - rewrite upd_ls_ne by done. intros Hin. split; [|done]. intros ->.
      apply Hne. by eapply queue_unique. }
  destruct (decide (k = b)) as [->|Hne].
  - rewrite upd_ls_eq, elem_of_app, list_elem_of_singleton. intros [H| ->]; auto.
  - rewrite upd_ls_ne by done. auto.
Qed.

Lemma feedback_elem st tk k p ls k' p' :
  NoDup (entries ls) -> p ∈ ls k -> p' ∈ feedback st tk k p ls k' ->
  (p' = p /\ k' = next_level st tk k) \/ (p' <> p /\ p' ∈ ls k').
Proof.
  intros Hnd Hk Hin.
  assert (p' ∈ ls k' -> (p' = p /\ k' = k) \/ (p' <> p /\ p' ∈ ls k')) as Hsame.
  { intros Hp'. destruct (decide (p' = p)) as [->|]; [|auto]. left. split; [done|].
    by eapply queue_unique. }
  destruct st; cbn in Hin |- *; auto; destruct k; cbn in Hin |- *;
    try (by eapply move_elem in Hin); destruct (_ <=? _); auto; by eapply move_elem in Hin.
Qed.

Lemma finish_ok c p k qp count s ls pr :
  in_slice c p k s ls pr -> 0 <= qp <= 2 -> 0 <= num_stat_used pr < 1499 ->
  exists s' pr', finish p k qp count s = Ok s' /\ TOTAL s' = TOTAL s /\
    sched_inv c s' (feedback (state pr) (Ticks pr) k p ls) /\ pt_proc s' !! p = Some pr' /\
    charged qp count pr pr' /\ recorded (requeued (state pr) (Ticks pr) k) pr pr'.
Proof.
  intros (Hi & Hin & Hp) Hqp Hn. pose proof Hi as [H1 H2 H3 H4 H5 H6 H7].
  assert (proc_wf pr) as Hwf by (rewrite Forall_lookup in H1; eauto).
  destruct (finish_feedback p k qp count s ls pr H4 H5 Hin Hp Hwf (H7 k p pr Hin Hp) Hqp Hn)
    as (s' & pr' & He & (Hlen & Hoth & Hmach & Hlk & Htot & Ht0 & Ht1 & Ht2) & Hm & Hp' & Hwf' & _ & Hprio & Hch & Hrec).
  exists s', pr'. split; [done|]. split; [done|]. split; [|done]. constructor; try done.
  - apply Forall_lookup. intros p' x Hx. destruct (decide (p' = p)) as [->|Hne]; [by simplify_eq|].
    rewrite Hoth in Hx by done. rewrite Forall_lookup in H1. eauto.
  - intros k'. specialize (H2 k'). destruct k'; cbn in *; congruence.
  - unfold on_cpu. by rewrite Hmach.
  - unfold roomy. by rewrite feedback_Permutation.
  - by rewrite feedback_Permutation.
  - intros k' p' x Hx Hl. eapply feedback_elem in Hx as [[-> ->]|[Hne Hx]]; [|by rewrite Hoth in Hl; eauto|done..].
    by simplify_eq.
Qed.



(** [returnProc] brings its choice to the front, so a second call finds it
    there and changes nothing. *)
Lemma returnProc_again s ls i s1 :
  mlfq s ls -> returnProc s = Ok (Some i, s1) ->
  returnProc s1 = Ok (Some i, s1) /\ pt_proc s1 = pt_proc s /\ (i < length (pt_proc s))%nat.
Proof.
  intros Hm He. pose proof (returnProc_rep s ls Hm) as H.
  destruct (pick s ls) as [[k j]|] eqn:Hpk; [|by rewrite He in H; simplify_eq].
  destruct H as (p & q' & Hp & Hr & Hq & Ht & Hpr & _).
  rewrite Hr in He. injection He as -> <-. rewrite pt_proc_putq.
  apply pick_Some in Hpk as [Hfi Hhigh].
  apply first_idx_Some in Hfi as (x & Hx & Hxr & _). rewrite Hp in Hx. injection Hx as <-.
  assert (mlfq (putq k q' s) (upd_ls k (swap0 j (ls k)) ls)) as Hm1.
  { apply mlfq_put; try done; [by rewrite Hpr, (ml_prio _ _ Hm) | by rewrite Ht, (ml_ticks _ _ Hm)|].
    rewrite swap0_Permutation. apply Hm. }
  split_and!; [|done|].
  2: { pose proof (ml_valid _ _ Hm k) as Hv. rewrite Forall_lookup in Hv. eauto. }
  pose proof (returnProc_rep _ _ Hm1) as H. destruct (swap0_head j (ls k) i Hp) as [rest Hrest].
  assert (pick (putq k q' s) (upd_ls k (swap0 j (ls k)) ls) = Some (k, 0%nat)) as Hpk1.
  { assert (forall k', lvl k' < lvl k -> first_idx (runnable (putq k q' s))
        (upd_ls k (swap0 j (ls k)) ls k') = None) as Hlow.
    { intros k' Hlt. rewrite upd_ls_ne by (intros ->; lia). apply first_idx_None.
      intros y Hy. rewrite runnable_putq. eauto. }
    assert (first_idx (runnable (putq k q' s)) (upd_ls k (swap0 j (ls k)) ls k) = Some 0%nat) as Hk.
    { rewrite upd_ls_eq, Hrest. cbn. by rewrite runnable_putq, Hxr. }
    unfold pick. destruct k; rewrite ?Hlow, ?Hk by (cbn; lia); done. }
  rewrite Hpk1 in H. destruct H as (p2 & q2' & Hp2 & Hr2 & _ & _ & _ & Hsame).
  rewrite upd_ls_eq, Hrest in Hp2. injection Hp2 as <-.
  by rewrite Hr2, (Hsame eq_refl), putq_same.
Qed.

(** The lowest queue is not served in turn: as long as a process at its front
    has run for fewer than 50 ticks there and stays runnable, and the queues above
    have nothing to run, it is the one that is chosen again, however long the
    processes behind it have waited. *)
Lemma q2_not_rotated p qp count s ls l pr :
  mlfq s ls -> roomy ls -> ls Q2 = p :: l -> pt_proc s !! p = Some pr -> proc_wf pr ->
  priority pr = 2 -> state pr = RUNNABLE -> Ticks pr < 50 -> 0 <= qp <= 2 -> 0 <= num_stat_used pr < 1499 ->
  (forall k' p', k' <> Q2 -> p' ∈ ls k' -> p' <> p /\ runnable s p' = false) ->
  exists s', finish p Q2 qp count s = Ok s' /\ mlfq s' ls /\ returnProc s' = Ok (Some p, s').
Proof.
  intros Hm Hroom Hl Hp Hwf Hprio Hst Htk Hqp Hn Hhigh.
  destruct (finish_feedback p Q2 qp count s ls pr Hm Hroom) as (s' & pr' & E & Ho & Hm' & Hp' & _ & Hst' & _); try done.
  { rewrite Hl. left. }
  rewrite Hst in Hm', Hst'. cbn [feedback] in Hm'. rewrite (proj2 (Z.leb_gt _ _)) in Hm' by done.
  exists s'. split; [done|]. split; [done|]. pose proof (returnProc_rep s' ls Hm') as H.
  assert (pick s' ls = Some (Q2, 0%nat)) as Hpk.
  { assert (forall k', k' <> Q2 -> first_idx (runnable s') (ls k') = None) as Hup.
    { intros k' Hk. apply first_idx_None. intros y Hy. destruct (Hhigh k' y Hk Hy) as [Hne Hr].
      unfold runnable in *. by rewrite (proj1 (proj2 Ho) y Hne). }
    unfold pick. rewrite !Hup, Hl by done. cbn [first_idx]. unfold runnable. by rewrite Hp', bool_decide_true. }
  rewrite Hpk in H. destruct H as (p2 & q2' & Hp2 & Hr2 & _ & _ & _ & Hsame).
  rewrite Hl in Hp2. injection Hp2 as <-. by rewrite Hr2, (Hsame eq_refl), putq_same.
Qed.

(** The table entries before the chosen process are skipped. *)
Lemma pass_skip fuel c s1 i n m :
  returnProc s1 = Ok (Some i, s1) -> (m <= i < m + n)%nat ->
  pass run fuel n m c s1 =
    (let? s2 := dispatch run fuel c i s1 in pass run fuel (n - (i - m) - 1) (S i) c s2).
Proof.
  intros Hr. revert m; induction n as [|n IH]; intros m Hm; [lia|].
  cbn [pass]. rewrite Hr. cbn [res_bind].
  case_bool_decide as Hi.
  - injection Hi as <-. rewrite Nat.sub_diag. cbn [Nat.sub]. by rewrite Nat.sub_0_r.
  - cbn [res_bind]. rewrite IH by (assert (i <> m) by congruence; lia).
    by replace (n - (i - S m) - 1)%nat with (S n - (i - m) - 1)%nat by (assert (i <> m) by congruence; lia).
Qed.

Lemma pass_first fuel c s s1 i n :
  returnProc s = Ok (Some i, s1) -> returnProc s1 = Ok (Some i, s1) -> (i < n)%nat ->
  pass run fuel n 0 c s =
    (let? s2 := dispatch run fuel c i s1 in pass run fuel (n - i - 1) (S i) c s2).
Proof.
  intros Hr Hr1 Hi. pose proof (pass_skip fuel c s1 i n 0 Hr1 ltac:(lia)) as Hs.
  rewrite Nat.sub_0_r in Hs. rewrite <- Hs.
  destruct n; [lia|]. cbn [pass]. by rewrite Hr, Hr1.
Qed.

(** C5: a pass over the process table never leaves a runnable process
    waiting: when some queued process is runnable, the pass dispatches the one
    [returnProc] chooses, with the entries before it skipped and the table
    unchanged up to there. *)
Theorem pass_dispatches fuel c s ls k p :
  mlfq s ls -> length (pt_proc s) = NPROC -> p ∈ ls k -> runnable s p = true ->
  exists i s1, returnProc s = Ok (Some i, s1) /\ runnable s i = true /\
    pt_proc s1 = pt_proc s /\ (i < NPROC)%nat /\
    pass run fuel NPROC 0 c s =
      res_bind (dispatch run fuel c i s1) (fun s2 => pass run fuel (NPROC - i - 1) (S i) c s2).
Proof.
  intros Hm Hlen Hin Hrun. pose proof (returnProc_rep s ls Hm) as H.
  destruct (pick s ls) as [[k0 j]|] eqn:Hpk.
  2: { rewrite pick_None in Hpk. by rewrite (Hpk k p Hin) in Hrun. }
  destruct H as (i & q' & Hi & Hr & _). exists i, (putq k0 q' s).
  apply pick_Some in Hpk as [Hfi _]. apply first_idx_Some in Hfi as (x & Hx & Hxr & _).
  rewrite Hi in Hx. injection Hx as <-.
  destruct (returnProc_again _ _ _ _ Hm Hr) as (Hr1 & Hpt & Hlt). rewrite Hlen in Hlt.
  split_and!; try done. by apply pass_first.
Qed.

(** C40: the counter [TOTAL] stops at [NTICKS], which is one past the end of the
    traces: the next tick of any process writes out of their bounds. *)
Theorem tick_trace_overflow c p s pr :
  (forall k, trace_wf (gett k s)) -> pt_proc s !! p = Some pr -> 0 <= priority pr <= 2 ->
  TOTAL s = NTICKS -> tick run c p s = OOB "queueN".
Proof.
  intros Ht Hp Hpr Htot. unfold tick, log_start.
  rewrite (getp_lookup _ _ _ Hp). cbn [res_bind].
  assert (forall k (v : Z), zset "queueN" (t_queue (gett k s)) (TOTAL s) v = OOB "queueN") as Hz.
  { intros k v. destruct (Ht k) as (H1 & _). apply zset_out. rewrite Htot, H1. unfold NTICKS. lia. }
  destruct (Z.eqb_spec (priority pr) 0); [by rewrite Hz|]. cbn [res_bind].
  rewrite (getp_lookup _ _ _ Hp). cbn [res_bind].
  destruct (Z.eqb_spec (priority pr) 1); [by rewrite Hz|]. cbn [res_bind].
  rewrite (getp_lookup _ _ _ Hp). cbn [res_bind].
  destruct (Z.eqb_spec (priority pr) 2); [by rewrite Hz | lia].
Qed.
End Dispatch.

(** * The example machine *)

Lemma demo_proc_wf st id k : proc_wf (demo_proc st id (lvl k)).
Proof.
  constructor; cbn [demo_proc ticks times p_queue stats priority state kstack pgdir];
    rewrite ?repeat_length; try done; [by destruct k | by destruct st; intros [|]].
Qed.

Lemma demo_procs_wf : Forall proc_wf (pt_proc demo).
Proof.
  cbn [demo demo_kst pt_proc]. apply Forall_app. split.
  - apply Forall_cons. split; [apply (demo_proc_wf _ _ Q0)|].
    apply Forall_cons. split; [apply (demo_proc_wf _ _ Q1)|].
    apply Forall_cons. split; [apply (demo_proc_wf _ _ Q1) | done].
  - apply Forall_forall. intros x Hx. apply list_elem_of_In, repeat_spec in Hx as ->.
    apply (demo_proc_wf _ _ Q0).
Qed.

Lemma demo_sched_inv : sched_inv 0 demo demo_queues.
Proof.
  constructor.
  - apply demo_procs_wf.
  - intros []; split_and!; apply repeat_length.
  - split; [done|]. by exists (demo_cpu 1 None).
  - apply demo_mlfq_ok.
  - unfold roomy, NPROC. cbn. lia.
  - by apply (bool_decide_unpack _), I.
  - intros k p pr Hin. destruct k; cbn in Hin; repeat (apply elem_of_cons in Hin as [->|Hin]);
      try (by apply not_elem_of_nil in Hin); cbn; intros [= <-]; done.
Qed.

(** A process that runs until the timer and yields. *)
Definition demo_run (p : nat) (s : kst) : kst :=
  match modp p (set_state RUNNABLE) s with Ok s => s | _ => s end.

Lemma demo_run_ok c p k : run_ok demo_run c p k.
Proof.
  intros s ls pr Hi Hin Hp Hst. unfold demo_run.
  destruct (keeps_modp c p (set_state RUNNABLE) s pr Hp) as (s' & -> & Hk & Hp').
  { split; [|done]. intros []. constructor; try done. intros _. apply pw_run0. by right. }
  exists ls, (set_state RUNNABLE pr). split; [by eapply sched_inv_keeps|].
  split; [done|]. by rewrite (kp_total _ _ _ Hk).
Qed.



Lemma pass_dispatches_witness : exists i s1, Mlfq.returnProc demo = Ok (Some i, s1) /\
  Sched.pass demo_run 9 NPROC 0 0 demo =
    (let? s2 := Sched.dispatch demo_run 9 0 i s1 in Sched.pass demo_run 9 (NPROC - i - 1) (S i) 0 s2).
Proof.
  destruct (pass_dispatches demo_run 9 0 demo demo_queues Q1 2) as (i & s1 & H1 & _ & _ & _ & H2).
  - apply demo_mlfq_ok.
  - vm_compute. done.
  - right; left.
  - vm_compute. done.
  - exists i, s1. split; [exact H1 | exact H2].
Defined.

Lemma tick_trace_overflow_witness :
  Sched.tick demo_run 0 2 (set_TOTAL NTICKS demo) = OOB "queueN".
Proof.
  apply (tick_trace_overflow demo_run 0 2 (set_TOTAL NTICKS demo) (demo_proc RUNNABLE 3 1)).
  - intros []; split_and!; apply repeat_length.
  - done.
  - cbn; lia.
  - done.
Defined.
