(* ===== verification/ProcFacts.v ===== *)
(** Properties of the process table: [allocproc] and the queues, process
    identifiers, [kill], [wakeup], [exit] and [wait]. *)

From S2P Require Import Prelude CString Spinlock Kalloc Proc Demo MlfqFacts.

(** * The lock of the table *)

Section Lock.
Context `{SV : Services}.
Implicit Types (s : kst).

(** The table is unlocked and the CPU can take its lock. *)
Definition pt_ok s : Prop := locked (pt_lock s) = 0 /\ mach_ok (mach s).

Lemma pt_lock_pair s :
  pt_ok s ->
  exists l1 m1, acquire_pt s = Ok (set_pt_lock l1 (set_mach m1 s)) /\
  forall s', pt_lock s' = l1 -> mach s' = m1 ->
  exists l2 m2, release_pt s' = Ok (set_pt_lock l2 (set_mach m2 s')) /\
    locked l2 = 0 /\ mach_ok m2 /\ eflags_if m2 = eflags_if (mach s).
Proof.
  intros [Hl (i & c & Hc & Hok)]. unfold acquire_pt.
  destruct (lock_pair _ _ _ _ Hc Hok Hl)
    as (l1 & m1 & -> & _ & _ & _ & l2 & m2 & c2 & Hr & Hl2 & _ & He & Hc2 & Hn).
  exists l1, m1. split; [done|]. intros s' <- <-. unfold release_pt. rewrite Hr.
  exists l2, m2. split_and!; try done. exists i, c2. split; [done|].
  destruct Hok as [H0 Hif]. split; [lia|]. rewrite Hn, He. done.
Qed.
End Lock.

(** * allocproc *)

Section Alloc.
Import Mlfq Ptable.
Context `{SV : Services} (kend_high : KERNBASE <= kernel_end).
Implicit Types (s : kst) (p : nat) (pr : proc) (l : list nat).

(** What the code does to the queue of the slot it takes. *)
Definition cleanup p pr s : res kst :=
  if 0 <? pid pr then
    let? s := deleteQueue Q0 p s in
    let? s := deleteQueue Q0 p s in
    deleteQueue Q0 p s
  else Ok s.

(** The entry under construction, and with its kernel stack at [mem]. *)
Definition embryo (id : Z) pr : proc :=
  set_num_stat_used 0 (set_priority 0 (set_Ticks 0 (set_priority 0 (set_pid id (set_state EMBRYO pr))))).
Definition with_stack (mem : Z) pr : proc :=
  set_p_context (mem + KSTACKSIZE - sizeof_tf - 4 - sizeof_context)
    (set_tf (mem + KSTACKSIZE - sizeof_tf) (set_kstack mem pr)).

Lemma find_unused_Some (l : list proc) i p :
  find_unused l i = Some p ->
  exists pr, l !! (p - i)%nat = Some pr /\ (i <= p)%nat /\ state pr = UNUSED /\
    forall j x, (j < p - i)%nat -> l !! j = Some x -> state x <> UNUSED.
Proof.
  revert i; induction l as [|x l IH]; intros i; cbn; [done|].
  case_bool_decide as Hx.
  - intros [= <-]. rewrite Nat.sub_diag. exists x. split_and!; [done | lia | done | lia].
  - intros H. apply IH in H as (pr & Hp & Hi & Hu & Hlt). exists pr.
    replace (p - i)%nat with (S (p - S i)) by lia.
    split_and!; [done | lia | done |]. intros [|j] y Hj Hy; cbn in Hy; [by simplify_eq|].
    eapply Hlt, Hy. lia.
Qed.

(** [allocproc] in three parts: the cleanup, the slot, the kernel stack. *)
Definition slot p s : res kst :=
  let? s := modp p (set_state EMBRYO) s in
  let? s := modp p (set_pid (nextpid s)) s in
  let s := set_nextpid (s32 (nextpid s + 1)) s in
  let? s := modp p (set_priority 0) s in
  let? s := addQueue Q0 p s in
  modp p (set_num_stat_used 0) s.

Definition stack p s : res (option nat * kst) :=
  let? (mem, h, m) := Kalloc.kalloc (ph s) (mach s) in
  let s := set_mach m (set_ph h s) in
  let? s := modp p (set_kstack mem) s in
  if mem =? 0 then
    let? s := modp p (set_state UNUSED) s in
    Ok (None, s)
  else
    let sp := mem + KSTACKSIZE in
    let sp := sp - sizeof_tf in
    let? s := modp p (set_tf sp) s in
    let sp := sp - 4 in
    let s := set_kwords (upd (kwords s) sp trapret_at) s in
    let sp := sp - sizeof_context in
    let? s := modp p (set_p_context sp) s in
    let s := set_contexts (upd (contexts s) sp (mkCtx 0 0 0 0 forkret_at)) s in
    Ok (Some p, s).

Lemma allocproc_split s :
  allocproc s =
    (let? s := acquire_pt s in
     match find_unused (pt_proc s) 0 with
     | None => let? s := release_pt s in Ok (None, s)
     | Some p =>
         let? pr := getp p s in
         let? s := cleanup p pr s in
         let? s := slot p s in
         let? s := release_pt s in
         stack p s
     end).
Proof.
  unfold allocproc. destruct (acquire_pt s) as [s0| | | |]; cbn [res_bind]; try done.
  destruct (find_unused (pt_proc s0) 0); [|done].
  destruct (getp n s0); cbn [res_bind]; try done. unfold slot, cleanup.
  repeat match goal with |- (let? x := ?m in _) = _ =>
    destruct m; cbn [res_bind]; [|done..]; rewrite ?res_bind_assoc end; done.
Qed.

Lemma slot_rep s p pr l :
  pt_proc s !! p = Some pr -> q_rep (q0 s) l -> (length l < NPROC)%nat -> q_priority (q0 s) = 0 ->
  exists q', slot p s =
    Ok (putp p (embryo (nextpid s) pr) (set_nextpid (s32 (nextpid s + 1)) (putq Q0 q' s))) /\
    q_rep q' (l ++ [p]) /\ q_priority q' = 0 /\ q_ticks q' = q_ticks (q0 s).
Proof.
  intros Hp Hq Hl Hprio. unfold slot.
  assert (p < length (pt_proc s))%nat as Hlt by by eapply lookup_lt_Some.
  rewrite (modp_lookup _ _ _ pr) by done. cbn [res_bind].
  rewrite (modp_lookup _ _ _ (set_state EMBRYO pr)) by by apply lookup_putp. cbn [res_bind].
  set (s2 := putp p _ (putp p _ _)). set (s3 := set_nextpid _ s2).
  assert (pt_proc s3 !! p = Some (set_pid (nextpid s) (set_state EMBRYO pr))) as Hp3.
  { apply lookup_putp. by rewrite length_putp. }
  rewrite (modp_lookup _ _ _ _ Hp3). cbn [res_bind].
  assert (p < length (pt_proc s3))%nat as Hlt3 by by eapply lookup_lt_Some.
  destruct (addQueue_rep Q0 p (putp p (set_priority 0 (set_pid (nextpid s) (set_state EMBRYO pr))) s3)
    l (set_priority 0 (set_pid (nextpid s) (set_state EMBRYO pr)))) as (q' & -> & Hq' & Ht' & Hp' & _).
  { exact Hq. } { done. } { by apply lookup_putp. }
  cbn [res_bind].
  match goal with |- context [modp p _ (putp p ?x ?t)] =>
    rewrite (modp_lookup _ _ _ x) by (apply lookup_putp; rewrite pt_proc_putq, length_putp; done) end.
  exists q'. split; [|split_and!; [done | by rewrite Hp' | by rewrite Ht']].
  f_equal. unfold s3, s2, putp. cbn. rewrite !list_insert_insert_eq. by rewrite Hprio.
Qed.

Lemma stack_rep s p pr mem L :
  pt_proc s !! p = Some pr -> kmem_inv kernel_end (ph s) (mem :: L) -> mach_ok (mach s) ->
  exists s', stack p s = Ok (Some p, s') /\ pt_proc s' = <[p := with_stack mem pr]> (pt_proc s) /\
    kmem_inv kernel_end (ph s') L /\ mach_ok (mach s') /\ eflags_if (mach s') = eflags_if (mach s) /\
    pt_lock s' = pt_lock s /\ nextpid s' = nextpid s /\ (forall k, getq k s' = getq k s) /\
    contexts s' (p_context (with_stack mem pr)) = mkCtx 0 0 0 0 forkret_at /\
    kwords s' (p_context (with_stack mem pr) + sizeof_context) = trapret_at /\
    p_mem (ph s') = p_mem (ph s) /\ frames s' = frames s /\ fs s' = fs s.
Proof.
  intros Hp Hk Hm. assert (p < length (pt_proc s))%nat as Hlt by by eapply lookup_lt_Some.
  destruct (kalloc_pop kernel_end kend_high (ph s) (mem :: L) (mach s) Hk Hm)
    as (r & h & m & He & Hm' & Hif & Hmem & _ & -> & Hpg & _ & Hk').
  pose proof (page_ok_range kernel_end kend_high mem Hpg) as Hr. unfold KERNBASE in Hr.
  unfold stack. rewrite He. cbn [res_bind].
  rewrite (modp_lookup _ _ _ pr) by done. cbn [res_bind].
  rewrite (proj2 (Z.eqb_neq mem 0)) by lia. unfold KSTACKSIZE, sizeof_tf, sizeof_context.
  rewrite (modp_lookup _ _ _ (set_kstack mem pr)) by (by apply lookup_putp). cbn [res_bind].
  erewrite modp_lookup by (apply lookup_putp; by rewrite length_putp). cbn [res_bind].
  eexists. split; [done|]. split_and!; try done; cbn.
  - by rewrite !list_insert_insert_eq.
  - unfold upd. by rewrite Z.eqb_refl.
  - unfold upd. replace (_ =? _) with true; [done|]. symmetry. apply Z.eqb_eq.
    unfold KSTACKSIZE, sizeof_tf, sizeof_context. lia.
Qed.

(** The three parts together, for a cleanup that leaves [l] in queue 0. *)
Lemma allocproc_rep s p pr l mem L :
  pt_ok s -> find_unused (pt_proc s) 0 = Some p -> pt_proc s !! p = Some pr ->
  (forall k1 m1, let s1 := set_pt_lock k1 (set_mach m1 s) in
    exists q, cleanup p pr s1 = Ok (putq Q0 q s1) /\ q_rep q l /\ q_priority q = 0) ->
  (length l < NPROC)%nat -> kmem_inv kernel_end (ph s) (mem :: L) ->
  exists s', allocproc s = Ok (Some p, s') /\ pt_ok s' /\
    pt_proc s' = <[p := with_stack mem (embryo (nextpid s) pr)]> (pt_proc s) /\
    nextpid s' = s32 (nextpid s + 1) /\
    q_rep (q0 s') (l ++ [p]) /\ q1 s' = q1 s /\ q2 s' = q2 s /\
    kmem_inv kernel_end (ph s') L /\
    contexts s' (p_context (with_stack mem pr)) = mkCtx 0 0 0 0 forkret_at /\
    kwords s' (p_context (with_stack mem pr) + sizeof_context) = trapret_at /\
    p_mem (ph s') = p_mem (ph s) /\ frames s' = frames s /\ fs s' = fs s.
Proof.
  intros Hok Hfind Hp Hclean Hl Hk. rewrite allocproc_split.
  destruct (pt_lock_pair s Hok) as (l1 & m1 & -> & Hrel). cbn [res_bind].
  change (pt_proc (set_pt_lock l1 (set_mach m1 s))) with (pt_proc s). rewrite Hfind.
  rewrite (getp_lookup p _ pr) by done. cbn [res_bind].
  destruct (Hclean l1 m1) as (q & -> & Hq & Hprio). cbn [res_bind].
  destruct (slot_rep (putq Q0 q (set_pt_lock l1 (set_mach m1 s))) p pr l) as (q' & -> & Hq' & Hp' & Ht');
    [done..|]. cbn [res_bind].
  match goal with |- context [release_pt ?t] =>
    destruct (Hrel t) as (l2 & m2 & Hr & Hl2 & Hm2 & _); [done | done|]; rewrite Hr end.
  cbn [res_bind].
  match goal with |- context [stack p ?t] =>
    destruct (stack_rep t p (embryo (nextpid s) pr) mem L)
      as (s' & -> & Hpt & Hk' & Hm' & _ & Hlk & Hn & Hqs & Hctx & Hkw & Hmf) end.
  { apply lookup_putp. by eapply lookup_lt_Some. } { done. } { done. }
  exists s'. split; [done|]. split; [split; [by rewrite Hlk | done]|].
  split; [rewrite Hpt; cbn; by rewrite list_insert_insert_eq|]. split; [by rewrite Hn|].
  pose proof (Hqs Q0) as H0. pose proof (Hqs Q1) as H1. pose proof (Hqs Q2) as H2.
  cbn in H0, H1, H2. by rewrite H0, H1, H2.
Qed.

(** [allocproc] on a table with an unused slot that was never used or was
    reaped: it takes the first one, gives it the next pid and puts it at the
    end of queue 0 at level 0; its kernel stack is a page from the allocator,
    set up so that the first switch to it starts [forkret], which returns to
    [trapret]; no other entry and no other queue changes. *)
Theorem allocproc_spec s p pr l mem L :
  pt_ok s -> find_unused (pt_proc s) 0 = Some p -> pt_proc s !! p = Some pr -> pid pr <= 0 ->
  q_rep (q0 s) l -> (length l < NPROC)%nat -> q_priority (q0 s) = 0 ->
  kmem_inv kernel_end (ph s) (mem :: L) ->
  exists s', allocproc s = Ok (Some p, s') /\ pt_ok s' /\
    pt_proc s' = <[p := with_stack mem (embryo (nextpid s) pr)]> (pt_proc s) /\
    nextpid s' = s32 (nextpid s + 1) /\
    q_rep (q0 s') (l ++ [p]) /\ q1 s' = q1 s /\ q2 s' = q2 s /\
    kmem_inv kernel_end (ph s') L /\
    contexts s' (p_context (with_stack mem pr)) = mkCtx 0 0 0 0 forkret_at /\
    kwords s' (p_context (with_stack mem pr) + sizeof_context) = trapret_at.
Proof.
  intros Hok Hf Hp Hpid Hq Hl Hprio Hk.
  destruct (allocproc_rep s p pr l mem L) as (s' & He & H1 & H2 & H3 & H4 & H5 & H6 & H7 & H8 & H9 & _); try done; [|by exists s'].
  intros k1 m1 s1. exists (q0 s). unfold cleanup. rewrite (proj2 (Z.ltb_ge _ _)) by done.
  done.
Qed.

(** Three deletions of a process that is in the queue once. *)
Lemma cleanup_rep s p pr l :
  0 < pid pr -> q_rep (q0 s) l -> (3 <= length l < NPROC)%nat -> NoDup l -> p ∈ l ->
  exists q, cleanup p pr s = Ok (putq Q0 q s) /\
    q_rep q (take (length l - 3) (del p l)) /\ q_priority q = q_priority (q0 s).
Proof.
  intros Hpid Hq Hl Hnd Hp. unfold cleanup. rewrite (proj2 (Z.ltb_lt _ _)) by done.
  destruct (deleteQueue_rep Q0 p s l Hq) as (qa & -> & Hqa & _ & Hpa); [lia|]. cbn [res_bind].
  unfold dropped in Hqa. rewrite decide_True in Hqa by done.
  pose proof (del_length p l Hp) as Hdl.
  assert (p ∉ del p l) as Hnin.
  { rewrite (del_Permutation p l Hp) in Hnd. by inversion Hnd. }
  destruct (deleteQueue_rep Q0 p (putq Q0 qa s) (del p l) Hqa) as (qb & -> & Hqb & _ & Hpb); [lia|].
  cbn [res_bind]. unfold dropped in Hqb. rewrite decide_False in Hqb by done.
  set (l2 := take (length (del p l) - 1) (del p l)) in *.
  assert (length l2 = (length l - 2)%nat) as Hl2 by (unfold l2; rewrite length_take; lia).
  assert (p ∉ l2) as Hnin2.
  { intros H. apply Hnin. by eapply subseteq_take. }
  rewrite putq_putq.
  destruct (deleteQueue_rep Q0 p (putq Q0 qb s) l2 Hqb) as (qc & -> & Hqc & _ & Hpc); [lia|].
  exists qc. rewrite putq_putq. split; [done|]. unfold dropped in Hqc.
  rewrite decide_False in Hqc by done. rewrite getq_putq in Hpb, Hpc.
  split; [|by rewrite Hpc, Hpb, Hpa].
  replace (take (length l - 3) (del p l)) with (take (length l2 - 1) l2); [done|].
  unfold l2. rewrite take_take. f_equal. rewrite length_take. lia.
Qed.

(** C39: [allocproc] on a slot that is free again after a failed allocation or
    a failed [fork], whose pid was not cleared and which is still in queue 0:
    the three calls of [deleteQueue] remove it and the last two other
    processes of the queue, which are then in no queue. *)
Theorem allocproc_drops s p pr l mem L :
  pt_ok s -> find_unused (pt_proc s) 0 = Some p -> pt_proc s !! p = Some pr -> 0 < pid pr ->
  q_rep (q0 s) l -> (3 <= length l < NPROC)%nat -> NoDup l -> p ∈ l -> q_priority (q0 s) = 0 ->
  kmem_inv kernel_end (ph s) (mem :: L) ->
  exists s', allocproc s = Ok (Some p, s') /\ q1 s' = q1 s /\ q2 s' = q2 s /\
    q_rep (q0 s') (take (length l - 3) (del p l) ++ [p]).
Proof.
  intros Hok Hf Hp Hpid Hq Hl Hnd Hin Hprio Hk.
  destruct (allocproc_rep s p pr (take (length l - 3) (del p l)) mem L)
    as (s' & He & _ & _ & _ & Hq0 & Hq1 & Hq2 & _); try done.
  - intros k1 m1 s1. destruct (cleanup_rep s1 p pr l) as (q & ? & ? & Hpq); try done.
    exists q. split_and!; [done | done | by rewrite Hpq].
  - rewrite length_take. lia.
  - by exists s'.
Qed.
End Alloc.

(** * Process identifiers *)

Section Pids.
Import Mlfq Ptable.
Context `{SV : Services}.
Implicit Types (s : kst) (p : nat) (pr : proc).

(** Pids in use are below [nextpid] and no two processes share one; 0 marks a
    slot without a process. *)
Record pids_ok s : Prop := {
  pi_next : 0 < nextpid s;
  pi_below i pr : pt_proc s !! i = Some pr -> pid pr < nextpid s;
  pi_unique i j pr pr' : pt_proc s !! i = Some pr -> pt_proc s !! j = Some pr' ->
    pid pr = pid pr' -> 0 < pid pr -> i = j
}.

Lemma pids_ok_insert s s' p pr' :
  pids_ok s -> nextpid s + 1 < 2 ^ 31 -> pid pr' = nextpid s ->
  pt_proc s' = <[p := pr']> (pt_proc s) -> nextpid s' = s32 (nextpid s + 1) -> pids_ok s'.
Proof.
  intros [H1 H2 H3] Hlt Hpid Hpt Hn. rewrite s32_small in Hn by lia.
  assert (forall i x, pt_proc s' !! i = Some x -> (i = p /\ x = pr') \/ (i <> p /\ pt_proc s !! i = Some x)) as Hl.
  { intros i x. rewrite Hpt. destruct (decide (i = p)) as [->|Hne].
    - intros H. left. apply list_lookup_insert_Some in H. naive_solver.
    - rewrite list_lookup_insert_ne by done. auto. }
  constructor; rewrite ?Hn; [lia| |].
  - intros i x Hx. apply Hl in Hx as [[-> ->]|[_ Hx]]; [lia | apply H2 in Hx; lia].
  - intros i j x y Hx Hy He Hp. apply Hl in Hx as [[-> ->]|[Hi Hx]], Hy as [[-> ->]|[Hj Hy]]; eauto.
    + apply H2 in Hy. lia.
    + apply H2 in Hx. lia.
Qed.

Lemma find_pid_Some (l : list proc) i x p :
  find_pid l i x = Some p ->
  (i <= p)%nat /\ (exists pr, l !! (p - i)%nat = Some pr /\ pid pr = x) /\
  forall j pr, (j < p - i)%nat -> l !! j = Some pr -> pid pr <> x.
Proof.
  revert i; induction l as [|a l IH]; intros i; cbn; [done|].
  destruct (Z.eqb_spec (pid a) x) as [E|E].
  - intros [= <-]. rewrite Nat.sub_diag. split; [lia|]. split; [by exists a|]. lia.
  - intros H. apply IH in H as (Hi & (pr & Hp & Hx) & Hlt).
    replace (p - i)%nat with (S (p - S i)) by lia. split; [lia|]. split; [by exists pr|].
    intros [|j] y Hj Hy; cbn in Hy; [by simplify_eq | eapply Hlt, Hy; lia].
Qed.

Lemma find_pid_None (l : list proc) i x :
  find_pid l i x = None <-> forall j pr, l !! j = Some pr -> pid pr <> x.
Proof.
  revert i; induction l as [|a l IH]; intros i; cbn; [done|].
  destruct (Z.eqb_spec (pid a) x) as [E|E].
  - split; [done|]. intros H. by destruct (H 0%nat a).
  - rewrite IH. split; intros H.
    + intros [|j] pr Hj; cbn in Hj; [by simplify_eq | eauto].
    + intros j pr Hj. by apply (H (S j)).
Qed.

(** With unique pids, the search finds the process that has the pid. *)
Lemma find_pid_unique s p pr :
  pids_ok s -> pt_proc s !! p = Some pr -> 0 < pid pr -> find_pid (pt_proc s) 0 (pid pr) = Some p.
Proof.
  intros Hok Hp Hpos. destruct (find_pid (pt_proc s) 0 (pid pr)) as [q|] eqn:E.
  - apply find_pid_Some in E as (_ & (x & Hx & He) & _). rewrite Nat.sub_0_r in Hx.
    f_equal. by eapply (pi_unique s Hok q p x pr); [| | |lia].
  - by destruct (proj1 (find_pid_None _ _ _) E p pr Hp).
Qed.

(** What [kill] does to its target. *)
Definition hit pr : proc :=
  let pr := set_killed 1 pr in
  if bool_decide (state pr = SLEEPING) then set_state RUNNABLE pr else pr.

Lemma kill_found s x p pr :
  pt_ok s -> find_pid (pt_proc s) 0 x = Some p -> pt_proc s !! p = Some pr ->
  exists s', kill x s = Ok (0, s') /\ pt_ok s' /\ pt_proc s' = <[p := hit pr]> (pt_proc s) /\
    (forall k, getq k s' = getq k s) /\ nextpid s' = nextpid s /\ ph s' = ph s.
Proof.
  intros Hok Hf Hp. assert (p < length (pt_proc s))%nat as Hlt by by eapply lookup_lt_Some.
  destruct (pt_lock_pair s Hok) as (l1 & m1 & Ha & Hrel). unfold kill. rewrite Ha. cbn [res_bind].
  change (pt_proc (set_pt_lock l1 (set_mach m1 s))) with (pt_proc s). rewrite Hf.
  rewrite (modp_lookup _ _ _ pr) by done. cbn [res_bind].
  rewrite (getp_lookup p _ (set_killed 1 pr)) by by apply lookup_putp. cbn [res_bind].
  set (s1 := putp p _ _). assert (exists s2, (if bool_decide (state (set_killed 1 pr) = SLEEPING)
    then modp p (set_state RUNNABLE) s1 else Ok s1) = Ok s2 /\ s2 = putp p (hit pr) s1) as (s2 & -> & ->).
  { unfold hit. case_bool_decide.
    - rewrite (modp_lookup _ _ _ (set_killed 1 pr)) by by apply lookup_putp. eauto.
    - eexists. split; [done|]. unfold s1. by rewrite putp_putp. }
  cbn [res_bind]. destruct (Hrel (putp p (hit pr) s1)) as (l2 & m2 & -> & Hl2 & Hm2 & _); [done..|].
  eexists. split; [done|]. split_and!; try done. cbn. by rewrite list_insert_insert_eq.
Qed.

(** [kill] of a pid marks exactly the process that has it, wakes it when it
    sleeps and returns 0; a pid no process has gives -1 and changes nothing. *)
Theorem kill_spec s x :
  pt_ok s -> pids_ok s -> 0 < x ->
  exists r s', kill x s = Ok (r, s') /\ pt_ok s' /\
  ((exists p pr, pt_proc s !! p = Some pr /\ pid pr = x /\ r = 0 /\
      pt_proc s' = <[p := hit pr]> (pt_proc s)) \/
   (r = -1 /\ pt_proc s' = pt_proc s /\ forall p pr, pt_proc s !! p = Some pr -> pid pr <> x)).
Proof.
  intros Hok Hpid Hx. destruct (find_pid (pt_proc s) 0 x) as [p|] eqn:Hf.
  - pose proof Hf as Hf'. apply find_pid_Some in Hf' as (_ & (pr & Hp & He) & _).
    rewrite Nat.sub_0_r in Hp. destruct (kill_found s x p pr Hok Hf Hp) as (s' & ? & ? & ? & _).
    exists 0, s'. split_and!; try done. left. by exists p, pr.
  - pose proof (proj1 (find_pid_None _ _ _) Hf) as Hn.
    destruct (pt_lock_pair s Hok) as (l1 & m1 & Ha & Hrel). unfold kill. rewrite Ha. cbn [res_bind].
    change (pt_proc (set_pt_lock l1 (set_mach m1 s))) with (pt_proc s). rewrite Hf.
    destruct (Hrel (set_pt_lock l1 (set_mach m1 s))) as (l2 & m2 & -> & Hl2 & Hm2 & _); [done..|].
    exists (-1). eexists. split; [done|]. split; [done|]. right. done.
Qed.

(** The pid [allocproc] hands out is not in use, and the table keeps
    unique pids: [kill] and [getpinfo] with it find the new process. *)
Theorem allocproc_pid (kend_high : KERNBASE <= kernel_end) s p pr l mem L :
  pids_ok s -> nextpid s + 1 < 2 ^ 31 ->
  pt_ok s -> find_unused (pt_proc s) 0 = Some p -> pt_proc s !! p = Some pr -> pid pr <= 0 ->
  q_rep (q0 s) l -> (length l < NPROC)%nat -> q_priority (q0 s) = 0 ->
  kmem_inv kernel_end (ph s) (mem :: L) ->
  find_pid (pt_proc s) 0 (nextpid s) = None /\
  exists s', allocproc s = Ok (Some p, s') /\ pids_ok s' /\
    find_pid (pt_proc s') 0 (nextpid s) = Some p.
Proof.
  intros Hids Hn Hok Hf Hp Hpid Hq Hl Hprio Hk. split.
  { apply find_pid_None. intros j x Hx. apply (pi_below _ Hids) in Hx. lia. }
  destruct (allocproc_rep kend_high s p pr l mem L) as (s' & He & _ & Hpt & Hnp & _); try done.
  { intros k1 m1 s1. exists (q0 s). unfold cleanup. by rewrite (proj2 (Z.ltb_ge _ _)). }
  exists s'. split; [done|].
  assert (pids_ok s') as Hids' by (eapply pids_ok_insert; [exact Hids | done | | exact Hpt | exact Hnp]; done).
  split; [done|]. pose proof (pi_next _ Hids).
  apply (find_pid_unique s' p (with_stack mem (embryo (nextpid s) pr))); [done| |cbn; lia].
  rewrite Hpt. apply list_lookup_insert_eq. by eapply lookup_lt_Some.
Qed.

(** Pid 0 is not refused by [kill]: it marks the first slot whose pid is
    0, a free one, and [allocproc] does not clear the mark, so the process
    that gets the slot starts out killed. *)
Theorem kill_zero (kend_high : KERNBASE <= kernel_end) s p pr l mem L :
  pt_ok s -> find_unused (pt_proc s) 0 = Some p -> find_pid (pt_proc s) 0 0 = Some p ->
  pt_proc s !! p = Some pr -> q_rep (q0 s) l -> (length l < NPROC)%nat -> q_priority (q0 s) = 0 ->
  kmem_inv kernel_end (ph s) (mem :: L) ->
  exists s1 s2 pr2, kill 0 s = Ok (0, s1) /\ allocproc s1 = Ok (Some p, s2) /\
    pt_proc s2 !! p = Some pr2 /\ state pr2 = EMBRYO /\ killed pr2 = 1.
Proof.
  intros Hok Hf Hf0 Hp Hq Hl Hprio Hk.
  destruct (kill_found s 0 p pr Hok Hf0 Hp) as (s1 & He & Hok1 & Hpt & Hqs & Hn & Hph).
  apply find_unused_Some in Hf as (x & Hx & _ & Hu & Hlt). rewrite Nat.sub_0_r in *.
  rewrite Hp in Hx. injection Hx as <-.
  apply find_pid_Some in Hf0 as (_ & (x & Hx & Hpid) & _). rewrite Nat.sub_0_r, Hp in Hx.
  injection Hx as <-.
  assert (hit pr = set_killed 1 pr) as Hhit.
  { unfold hit. rewrite bool_decide_false; [done|]. change (state (set_killed 1 pr)) with (state pr).
    by rewrite Hu. }
  rewrite Hhit in Hpt. assert (p < length (pt_proc s))%nat as Hp' by by eapply lookup_lt_Some.
  assert (pt_proc s1 !! p = Some (set_killed 1 pr)) as Hp1 by (rewrite Hpt; by apply list_lookup_insert_eq).
  assert (find_unused (pt_proc s1) 0 = Some p) as Hf1.
  { clear -Hpt Hlt Hp Hu Hp'. rewrite Hpt. clear Hpt.
    assert (forall (l : list proc) p i, l !! p = Some pr ->
      (forall j x, (j < p)%nat -> l !! j = Some x -> state x <> UNUSED) ->
      find_unused (<[p := set_killed 1 pr]> l) i = Some (i + p)%nat) as H.
    { clear -Hu. induction l as [|a l IH]; intros [|p] i Hp Hlt; try done.
      - cbn in Hp. simplify_eq. cbn. change (state (set_killed 1 pr)) with (state pr).
        rewrite bool_decide_true by done. f_equal. lia.
      - cbn in Hp |- *. rewrite bool_decide_false by (apply (Hlt 0%nat); [lia | done]).
        rewrite IH; [by rewrite Nat.add_succ_r | done |]. intros j x Hj Hx. apply (Hlt (S j)); [lia | done]. }
    by rewrite (H _ p 0%nat Hp Hlt). }
  pose proof (Hqs Q0) as H0. cbn in H0.
  destruct (allocproc_rep kend_high s1 p (set_killed 1 pr) l mem L) as (s2 & He2 & _ & Hpt2 & _); try done.
  { intros k1 m1 t. exists (q0 s1). unfold cleanup. change (pid (set_killed 1 pr)) with (pid pr).
    rewrite (proj2 (Z.ltb_ge _ _)) by lia. split_and!; [done | by rewrite H0 | by rewrite H0]. }
  { by rewrite Hph. }
  exists s1, s2, (with_stack mem (embryo (nextpid s1) (set_killed 1 pr))).
  split; [done|]. split; [done|]. split; [|done].
  rewrite Hpt2. apply list_lookup_insert_eq. by eapply lookup_lt_Some.
Qed.
End Pids.

(** * exit and wait *)

Section Family.
Import Mlfq Ptable.
Context `{SV : Services}.
Implicit Types (s : kst) (p c : nat) (pr : proc).

Definition child c pr : bool := bool_decide (parent pr = Some c).
Definition zombie_child c pr : bool := child c pr && bool_decide (state pr = ZOMBIE).

(** The entry of a reaped process. *)
Definition cleared pr : proc :=
  set_state UNUSED (set_killed 0 (set_name [] (set_parent None (set_pid 0 (set_kstack 0 pr))))).

(** Reaping process [z]: its stack and its page table are freed. *)
Definition reap (z : nat) pr s : res scan :=
  let? (h, m) := Kalloc.kfree kernel_end (kstack pr) (ph s) (mach s) in
  let? (h, m) := freevm (pgdir pr) h m in
  Ok (Reaped (pid pr) (putp z (cleared pr) (set_mach m (set_ph h s)))).

Lemma wait_scan_from s c l2 l1 b :
  pt_proc s = l1 ++ l2 ->
  wait_scan (length l2) (length l1) c b s =
  match list_find (fun pr => zombie_child c pr = true) l2 with
  | Some (j, pr) => reap (length l1 + j) pr s
  | None => Ok (NoZombie (b || existsb (child c) l2))
  end.
Proof.
  revert l1 b; induction l2 as [|x l2 IH]; intros l1 b Heq; cbn [length wait_scan list_find existsb].
  { by rewrite orb_false_r. }
  rewrite (getp_lookup _ _ x) by (rewrite Heq; by apply list_lookup_middle). cbn [res_bind].
  specialize (IH (l1 ++ [x])). rewrite length_app, Nat.add_1_r in IH.
  change (bool_decide (parent x = Some c)) with (child c x).
  assert (zombie_child c x = child c x && bool_decide (state x = ZOMBIE)) as Hzc by done.
  destruct (child c x) eqn:Hc; cbn [negb andb] in *.
  - destruct (bool_decide (state x = ZOMBIE)) eqn:Hz.
    + rewrite decide_True by done. by rewrite Nat.add_0_r.
    + rewrite decide_False by (by rewrite Hzc). rewrite IH by (by rewrite <- app_assoc).
      destruct (list_find _ l2) as [[j pr]|]; cbn.
      * by rewrite Nat.add_succ_r.
      * by rewrite orb_true_r.
  - rewrite decide_False by (by rewrite Hzc). rewrite IH by (by rewrite <- app_assoc).
    destruct (list_find _ l2) as [[j pr]|]; cbn; [|done]. by rewrite Nat.add_succ_r.
Qed.

(** One scan of [wait] reaps the first zombie child in table order,
    returning its pid, freeing its stack and page table and clearing its slot;
    without a zombie child it reports whether there is a child at all. *)
Theorem wait_scan_spec s c :
  length (pt_proc s) = NPROC ->
  (forall z pr, pt_proc s !! z = Some pr -> zombie_child c pr = true ->
     (forall j x, (j < z)%nat -> pt_proc s !! j = Some x -> zombie_child c x = false) ->
     wait_scan NPROC 0 c false s = reap z pr s) /\
  ((forall z pr, pt_proc s !! z = Some pr -> zombie_child c pr = false) ->
     wait_scan NPROC 0 c false s = Ok (NoZombie (existsb (child c) (pt_proc s)))).
Proof.
  intros Hlen. pose proof (wait_scan_from s c (pt_proc s) [] false eq_refl) as H.
  rewrite Hlen in H. cbn [length Nat.add orb] in H. split.
  - intros z pr Hz Hzc Hfirst. rewrite H.
    destruct (list_find (fun pr => zombie_child c pr = true) (pt_proc s)) as [[j x]|] eqn:Hf.
    + apply list_find_Some in Hf as (Hj & Hx & Hlt).
      destruct (Nat.lt_trichotomy j z) as [Hl|[->|Hl]].
      * by rewrite (Hfirst j x Hl Hj) in Hx.
      * rewrite Hz in Hj. by injection Hj as <-.
      * by destruct (Hlt z pr Hz Hl).
    + apply list_find_None in Hf. rewrite Forall_lookup in Hf. by destruct (Hf z pr Hz).
  - intros Hnone. rewrite H.
    destruct (list_find (fun pr => zombie_child c pr = true) (pt_proc s)) as [[j x]|] eqn:Hf; [|done].
    apply list_find_Some in Hf as (Hj & Hx & _). by rewrite (Hnone j x Hj) in Hx.
Qed.

(** Reaping a process does not take it out of the queues: the freed slot
    keeps its queue entry, and has pid 0, so that [allocproc] adds a second
    entry for it. *)
Theorem reap_keeps_queues z pr s id s' :
  pt_proc s !! z = Some pr -> reap z pr s = Ok (Reaped id s') ->
  (forall k, getq k s' = getq k s) /\ pt_proc s' !! z = Some (cleared pr).
Proof.
  intros Hz H. unfold reap in H.
  apply res_bind_Ok in H as ([h m] & _ & H). apply res_bind_Ok in H as ([h' m'] & _ & H).
  injection H as <- <-. split; [done|]. apply lookup_putp. by eapply lookup_lt_Some.
Qed.

(** ** Orphans *)

(** The entry of a process once its parent [c] is gone. *)
Definition adopted (ip : option nat) c pr : proc :=
  if child c pr then set_parent ip pr else pr.

Definition wake_if (w : bool) (ch : channel) pr : proc := if w then wake ch pr else pr.

Lemma wake_idem ch pr : wake ch (wake ch pr) = wake ch pr.
Proof.
  unfold wake at 2 3. destruct (bool_decide (state pr = SLEEPING) && bool_decide (chan pr = ch)) eqn:E;
    unfold wake; [done | by rewrite E].
Qed.

Lemma wake_adopted ch ip c pr : wake ch (adopted ip c pr) = adopted ip c (wake ch pr).
Proof.
  unfold adopted. assert (child c (wake ch pr) = child c pr) as -> by (unfold wake; by destruct (_ && _)).
  destruct (child c pr); [|done]. unfold wake.
  change (state (set_parent ip pr)) with (state pr). change (chan (set_parent ip pr)) with (chan pr).
  by destruct (_ && _).
Qed.

Lemma zombie_wake ch c pr : zombie_child c (wake ch pr) = zombie_child c pr.
Proof.
  unfold wake. destruct (_ && _) eqn:E; [|done]. apply andb_true_iff in E as [E _].
  apply bool_decide_eq_true in E. unfold zombie_child, child. cbn. rewrite E. done.
Qed.

Lemma reparent_from c n s l2 l1 :
  pt_proc s = l1 ++ l2 -> n = length l2 ->
  reparent n (length l1) c s =
    Ok (set_pt_proc (map (wake_if (existsb (zombie_child c) l2) (ch_of (initproc s)))
         (l1 ++ map (adopted (initproc s) c) l2)) s).
Proof.
  revert s l2 l1. induction n as [|n IH]; intros s l2 l1 Heq Hn; destruct l2 as [|x l2]; try done.
  { cbn. rewrite app_nil_r in Heq |- *. unfold wake_if. rewrite map_id, <- Heq. by destruct s. }
  injection Hn as Hn. cbn [reparent].
  assert (pt_proc s !! length l1 = Some x) as Hx by (rewrite Heq; by apply list_lookup_middle).
  rewrite (getp_lookup _ _ _ Hx). cbn [res_bind existsb map].
  change (bool_decide (parent x = Some c)) with (child c x).
  assert (zombie_child c x = child c x && bool_decide (state x = ZOMBIE)) as Hzc by done.
  set (x' := adopted (initproc s) c x).
  assert (forall t, pt_proc t = l1 ++ x' :: l2 -> initproc t = initproc s ->
    reparent n (S (length l1)) c t = Ok (set_pt_proc (map (wake_if (existsb (zombie_child c) l2)
      (ch_of (initproc s))) (l1 ++ x' :: map (adopted (initproc s) c) l2)) t)) as Hstep.
  { intros t Ht Hip. specialize (IH t l2 (l1 ++ [x'])). rewrite <- app_assoc, Hip in IH.
    specialize (IH Ht Hn). rewrite length_app, Nat.add_1_r in IH. by rewrite IH, <- app_assoc. }
  rewrite Hzc. unfold x', adopted in Hstep |- *. destruct (child c x) eqn:Hc; cbn [andb orb].
  2: { cbn [res_bind]. by rewrite Hstep. }
  rewrite (modp_lookup _ _ _ x) by done. cbn [res_bind].
  assert (pt_proc (putp (length l1) (set_parent (initproc s) x) s) =
    l1 ++ set_parent (initproc s) x :: l2) as Hp1.
  { cbn. rewrite Heq. rewrite insert_app_r_alt by done. by rewrite Nat.sub_diag. }
  destruct (bool_decide (state x = ZOMBIE)) eqn:Hz; cbn [orb res_bind]; [|by rewrite Hstep].
  set (y := set_parent (initproc s) x) in *. set (w := wake (ch_of (initproc s))) in *.
  change (initproc (putp (length l1) y s)) with (initproc s).
  specialize (IH (wakeup1 (ch_of (initproc s)) (putp (length l1) y s)) (map w l2) (map w l1 ++ [w y])).
  rewrite length_app, !length_map, Nat.add_1_r in IH.
  rewrite IH; [|cbn; rewrite Heq, insert_app_r_alt, Nat.sub_diag by done; cbn;
    by rewrite !map_app, <- app_assoc | done].
  match goal with |- Ok (set_pt_proc ?L _) = _ =>
    change (Ok (set_pt_proc L s) = Ok (set_pt_proc (map w (l1 ++ y :: map (adopted (initproc s) c) l2)) s)) end.
  do 2 f_equal. cbn [initproc wakeup1 set_pt_proc putp].
  replace (map (adopted (initproc s) c) (map w l2)) with (map w (map (adopted (initproc s) c) l2))
    by (rewrite !map_map; apply map_ext; intros a; apply wake_adopted).
  change (map w l1 ++ [w y]) with (map w l1 ++ map w [y]).
  rewrite <- !map_app, <- app_assoc, map_map. cbn [app]. apply map_ext. intros a.
  unfold wake_if. destruct (existsb _ _); [apply wake_idem | done].
Qed.

(** When a process exits, each of its children becomes a child of init,
    and init is woken when one of them is a zombie already; nothing else in
    the table changes. *)
Theorem reparent_spec c s :
  length (pt_proc s) = NPROC ->
  reparent NPROC 0 c s =
    Ok (set_pt_proc (map (fun pr => wake_if (existsb (zombie_child c) (pt_proc s))
          (ch_of (initproc s)) (adopted (initproc s) c pr)) (pt_proc s)) s).
Proof.
  intros Hlen. pose proof (reparent_from c NPROC s (pt_proc s) [] eq_refl (eq_sym Hlen)) as H.
  cbn [length app] in H. by rewrite H, map_map.
Qed.
End Family.

(** * The example machine *)

(** The example outside of the scheduler. *)
Definition demo_idle : kst := demo_kst (demo_machine 0 None) demo_procs [0%nat] [1%nat; 2%nat] [].

Lemma demo_pt_ok l l0 l1 l2 : pt_ok (demo_kst (demo_machine 0 None) l l0 l1 l2).
Proof. split; [done|]. by apply demo_mach_ok. Qed.

Lemma demo_q0_rep m l l0 l1 l2 : (length l0 <= NPROC)%nat -> q_rep (q0 (demo_kst m l l0 l1 l2)) l0.
Proof. apply demo_q_rep. Qed.

Lemma demo_pids_ok : pids_ok demo_idle.
Proof.
  assert (forall i pr, pt_proc demo_idle !! i = Some pr ->
    (i < 3)%nat /\ pid pr = Z.of_nat i + 1 \/ pid pr = 0) as H.
  { intros i pr. cbn [demo_idle demo_kst pt_proc]. intros [Hi|[_ Hi]]%lookup_app_Some.
    - left. destruct i as [|[|[|i]]]; cbn in Hi; simplify_eq; split; done || lia.
    - right. apply list_elem_of_lookup_2, list_elem_of_In, repeat_spec in Hi as ->. done. }
  constructor.
  - done.
  - intros i pr Hi. change (nextpid demo_idle) with 10. apply H in Hi as [[? ?]|?]; lia.
  - intros i j pr pr' Hi Hj He Hp. apply H in Hi as [[? ?]|?], Hj as [[? ?]|?]; lia.
Qed.

Lemma allocproc_spec_witness : exists s', Ptable.allocproc demo_idle = Ok (Some 3%nat, s') /\
  q_rep (q0 s') [0; 3]%nat.
Proof.
  destruct (allocproc_spec demo_kend demo_idle 3 (demo_proc UNUSED 0 0) [0%nat]
    demo_page1 [demo_page2]) as (s' & H1 & _ & _ & _ & H2 & _).
  - apply demo_pt_ok.
  - vm_compute. done.
  - done.
  - done.
  - apply demo_q0_rep. unfold NPROC. cbn; lia.
  - unfold NPROC. cbn; lia.
  - done.
  - apply demo_kmem_inv.
  - exists s'. split; [exact H1 | exact H2].
Defined.

Lemma allocproc_pid_witness : exists s', Ptable.allocproc demo_idle = Ok (Some 3%nat, s') /\
  Ptable.find_pid (pt_proc s') 0 10 = Some 3%nat.
Proof.
  destruct (allocproc_pid demo_kend demo_idle 3 (demo_proc UNUSED 0 0) [0%nat]
    demo_page1 [demo_page2]) as (_ & s' & H1 & _ & H2).
  - apply demo_pids_ok.
  - done.
  - apply demo_pt_ok.
  - vm_compute. done.
  - done.
  - done.
  - apply demo_q0_rep. unfold NPROC. cbn; lia.
  - unfold NPROC. cbn; lia.
  - done.
  - apply demo_kmem_inv.
  - exists s'. split; [exact H1 | exact H2].
Defined.

(** Slot 1 is free again with its old pid; processes 2 and 3 drop out. *)
Definition demo_failed : kst :=
  demo_kst (demo_machine 0 None)
    [demo_proc RUNNABLE 1 0; demo_proc UNUSED 2 0; demo_proc RUNNABLE 3 0; demo_proc RUNNABLE 4 0]
    [0; 1; 2; 3]%nat [] [].

Lemma allocproc_drops_witness : exists s', Ptable.allocproc demo_failed = Ok (Some 1%nat, s') /\
  q_rep (q0 s') [0; 1]%nat.
Proof.
  destruct (allocproc_drops demo_kend demo_failed 1 (demo_proc UNUSED 2 0) [0; 1; 2; 3]%nat
    demo_page1 [demo_page2]) as (s' & H1 & _ & _ & H2).
  - apply demo_pt_ok.
  - vm_compute. done.
  - done.
  - done.
  - apply demo_q0_rep. unfold NPROC. cbn; lia.
  - unfold NPROC. cbn; lia.
  - by apply (bool_decide_unpack _), I.
  - right; left.
  - done.
  - apply demo_kmem_inv.
  - exists s'. split; [exact H1 | exact H2].
Defined.

Lemma kill_spec_witness : exists r s', Ptable.kill 2 demo_idle = Ok (r, s') /\ pt_ok s'.
Proof.
  destruct (kill_spec demo_idle 2) as (r & s' & H1 & H2 & _).
  - apply demo_pt_ok.
  - apply demo_pids_ok.
  - lia.
  - exists r, s'. split; [exact H1 | exact H2].
Defined.

Lemma kill_zero_witness : exists s1 s2 pr2, Ptable.kill 0 demo_idle = Ok (0, s1) /\
  Ptable.allocproc s1 = Ok (Some 3%nat, s2) /\ pt_proc s2 !! 3%nat = Some pr2 /\ killed pr2 = 1.
Proof.
  destruct (kill_zero demo_kend demo_idle 3 (demo_proc UNUSED 0 0) [0%nat]
    demo_page1 [demo_page2]) as (s1 & s2 & pr2 & H1 & H2 & H3 & _ & H4).
  - apply demo_pt_ok.
  - vm_compute. done.
  - vm_compute. done.
  - done.
  - apply demo_q0_rep. unfold NPROC. cbn; lia.
  - unfold NPROC. cbn; lia.
  - done.
  - apply demo_kmem_inv.
  - exists s1, s2, pr2. split; [exact H1|]. split; [exact H2|]. split; [exact H3 | exact H4].
Defined.

(** A parent with a running and a zombie child, whose stack is a page that is
    not free. *)
Definition demo_zombie : proc :=
  set_kstack 0x80202000 (set_parent (Some 0%nat) (demo_proc ZOMBIE 3 0)).
Definition demo_family : kst :=
  demo_kst (demo_machine 1 None)
    [demo_proc RUNNING 1 0; set_parent (Some 0%nat) (demo_proc RUNNABLE 2 0); demo_zombie]
    [0; 1; 2]%nat [] [].

Lemma wait_scan_spec_witness :
  Ptable.wait_scan NPROC 0 0 false demo_family = reap 2 demo_zombie demo_family.
Proof.
  apply (wait_scan_spec demo_family 0).
  - vm_compute. done.
  - done.
  - done.
  - intros [|[|[|j]]] x Hj Hx; try lia; cbn in Hx; injection Hx as <-; done.
Defined.

Lemma reap_keeps_queues_witness : exists id s', reap 2 demo_zombie demo_family = Ok (Ptable.Reaped id s') /\
  getq Q0 s' = getq Q0 demo_family.
Proof.
  destruct (kfree_push kernel_end demo_kend 0x80202000 demo_phys [demo_page1; demo_page2]
    (demo_machine 1 None)) as (h & m & Hk & _).
  - apply demo_kmem_inv.
  - by apply demo_mach_ok.
  - vm_compute. done.
  - by apply (bool_decide_unpack _), I.
  - assert (reap 2 demo_zombie demo_family =
      Ok (Ptable.Reaped 3 (putp 2 (cleared demo_zombie) (set_mach m (set_ph h demo_family))))) as E.
    { unfold reap. change (kstack demo_zombie) with 0x80202000.
      change (ph demo_family) with demo_phys. change (mach demo_family) with (demo_machine 1 None).
      rewrite Hk. reflexivity. }
    do 2 eexists. split; [exact E|].
    apply (proj1 (reap_keeps_queues 2 demo_zombie demo_family _ _ eq_refl E)).
Defined.

Lemma reparent_spec_witness : exists s', Ptable.reparent NPROC 0 0 demo_family = Ok s'.
Proof. eexists. apply (reparent_spec 0 demo_family). vm_compute. done. Defined.
