(* ===== verification/Sleep.v ===== *)
(** Sleeping and waking: [sleep] of [proc.c] does its work without tripping
    any of the checks of [sched] and the locks, the sleeping locks of
    [sleeplock.c], and the interleaving of [sleep] with [wakeup]: no wakeup is
    lost. *)

From S2P Require Import Prelude CString Spinlock Kalloc Proc Demo MlfqFacts ProcFacts.

(** * sleep *)

Section Sleep.
Import Spinlock Ptable.
Context `{SV : Services} {X : Type} `{GX : Guarded X}.
Implicit Types (s : kst) (c p : nat) (x : X).

(** CPU [c] runs process [p], inside exactly one lock. *)
Definition inside_one c p s : Prop :=
  eflags_if (mach s) = false /\
  exists cp, cpu_here (mach s) c cp /\ ncli cp = 1 /\ cpu_proc cp = Some p.

Definition held c (lk : spinlock) : Prop :=
  locked lk <> 0 /\ lk_cpu lk = Some c /\ pcs lk <> [].

(** What the rest of the system promises to a process that called [sched]: it
    comes back, on some CPU, with the table locked and the sleep's lock free. *)
Definition resume_ok p (resume : kst -> X -> kst * X) : Prop :=
  forall c s x, inside_one c p s -> held c (pt_lock s) -> locked (the_lock x) = 0 ->
  (p < length (pt_proc s))%nat ->
  exists c' s' x', resume s x = (s', x') /\ inside_one c' p s' /\ held c' (pt_lock s') /\
    locked (the_lock x') = 0 /\ (p < length (pt_proc s'))%nat.

Lemma set_mach_id s : set_mach (mach s) s = s.
Proof. by destruct s. Qed.

Lemma taken_held c m lk : held c (taken c m lk).
Proof.
  split_and!; try done. unfold taken; cbn [pcs]. intros E. apply (f_equal length) in E.
  by rewrite getcallerpcs_length in E.
Qed.

Lemma myproc_inside c p s : inside_one c p s -> myproc s = Ok (Some p, s).
Proof.
  intros (He & cp & Hc & Hn & Hp). unfold myproc.
  destruct (push_pop (mach s) c cp Hc) as (m & -> & Hc' & He' & Hpop); [split; [lia | done]|].
  cbn [res_bind]. rewrite (mycpu_here _ _ _ Hc' He'). cbn [res_bind].
  rewrite (get_cpu_here _ _ _ Hc'). cbn [res_bind]. rewrite Hpop. cbn [res_bind].
  by rewrite touched_inside, proc_pushed, Hp, set_mach_id by (done || lia).
Qed.

(** Nothing but the process table, its lock and the CPUs differs. *)
Definition same_rest s s' : Prop :=
  s' = set_pt_proc (pt_proc s') (set_pt_lock (pt_lock s') (set_mach (mach s') s)).

#[export] Instance same_rest_preorder : PreOrder same_rest.
Proof.
  split.
  - intros s. by destruct s.
  - intros s1 s2 s3 H1 H2. unfold same_rest in *. rewrite H2, H1. done.
Qed.

Lemma rest_acquire s s' : acquire_pt s = Ok s' -> same_rest s s'.
Proof. unfold acquire_pt. destruct (acquire _ _) as [[l m]| | | |]; try done. by intros [= <-]. Qed.

Lemma rest_release s s' : release_pt s = Ok s' -> same_rest s s'.
Proof. unfold release_pt. destruct (release _ _) as [[l m]| | | |]; try done. by intros [= <-]. Qed.

Lemma rest_wakeup ch s s' : wakeup ch s = Ok s' -> same_rest s s'.
Proof.
  unfold wakeup. destruct (acquire_pt s) as [s1| | | |] eqn:E; try done. cbn [res_bind]. intros H.
  transitivity s1; [by apply rest_acquire|]. transitivity (wakeup1 ch s1); [done|by apply rest_release].
Qed.

(** The bracket of [sleep]: the table's lock is taken before the caller's lock
    is given up. *)
Lemma swap_locks c p s lk :
  inside_one c p s -> held c lk -> locked (pt_lock s) = 0 ->
  exists s1 lk' m', acquire_pt s = Ok s1 /\ release lk (mach s1) = Ok (lk', m') /\
    locked lk' = 0 /\ inside_one c p (set_mach m' s1) /\ held c (pt_lock s1) /\
    pt_proc s1 = pt_proc s.
Proof.
  intros (He & cp & Hc & Hn & Hp) (Hl & Hlc & Hpcs) Hpt. unfold acquire_pt.
  rewrite (acquire_here _ _ _ _ Hc) by (done || (split; [lia | done])). cbn [res_bind].
  set (m1 := put_cpu c (pushed (mach s) cp) (cli (mach s))).
  assert (cpu_here m1 c (pushed (mach s) cp)) as Hc1
    by (apply (cpu_here_put _ _ cp); [exact Hc | apply apicid_pushed]).
  assert (ncli (pushed (mach s) cp) = 2) as Hn1 by (rewrite ncli_pushed; lia).
  eexists _, _, _. split; [done|]. cbn [mach set_pt_lock set_mach].
  rewrite (release_here lk m1 c _ Hc1) by (done || lia). split; [done|].
  rewrite Hn1. cbn [andb Z.eqb Pos.eqb]. split; [done|]. split; [|split; [apply taken_held | done]].
  split; [done|]. exists (set_ncli 1 (pushed (mach s) cp)). split_and!; [|done|].
  - by apply (cpu_here_put _ _ (pushed (mach s) cp)).
  - change (cpu_proc (pushed (mach s) cp) = Some p). by rewrite proc_pushed.
Qed.

(** The checks of [sched] pass, and the others get the CPU. *)
Lemma sched_resumes resume c p s x pr :
  resume_ok p resume -> inside_one c p s -> held c (pt_lock s) -> locked (the_lock x) = 0 ->
  pt_proc s !! p = Some pr -> state pr <> RUNNING ->
  exists c' s1 x1 m', resume s x = (s1, x1) /\ sched resume s x = Ok (set_mach m' s1, x1) /\
    inside_one c' p (set_mach m' s1) /\ held c' (pt_lock s1) /\ locked (the_lock x1) = 0 /\ (p < length (pt_proc s1))%nat.
Proof.
  intros Hres Hin Hheld Hx Hp Hst. pose proof Hin as (He & cp & Hc & Hn & Hcp).
  destruct Hheld as (Hl & Hlc & Hpcs) eqn:E; clear E.
  destruct (Hres c s x Hin (conj Hl (conj Hlc Hpcs)) Hx) as
    (c' & s1 & x1 & Hr & Hin1 & Hheld1 & Hx1 & Hlen1); [by eapply lookup_lt_Some|].
  pose proof Hin1 as (He1 & cp1 & Hc1 & Hn1 & Hcp1).
  exists c', s1, x1, (put_cpu c' (set_intena (intena cp) cp1) (mach s1)).
  split; [done|]. split.
  - unfold sched, curproc. rewrite (myproc_inside c p s Hin). cbn [res_bind].
    rewrite (holding_here _ _ _ _ Hc) by (split; [lia | done]). cbn [res_bind].
    rewrite (proj2 (Z.eqb_neq _ _)), Hlc, bool_decide_true by done. cbn [negb andb].
    rewrite touched_inside, set_mach_id by (done || lia).
    rewrite (mycpu_here _ _ _ Hc He). cbn [res_bind]. rewrite (get_cpu_here _ _ _ Hc). cbn [res_bind].
    rewrite Hn. cbn [negb Z.eqb Pos.eqb]. rewrite (getp_lookup _ _ _ Hp). cbn [res_bind].
    rewrite bool_decide_false by done. unfold readeflags_if. rewrite He. cbn [negb Z.eqb].
    rewrite Hr. rewrite (mycpu_here _ _ _ Hc1 He1). cbn [res_bind].
    by rewrite (get_cpu_here _ _ _ Hc1).
  - split; [|done]. split; [done|]. exists (set_intena (intena cp) cp1).
    split_and!; try done. by apply (cpu_here_put _ _ cp1).
Qed.

(** Back from [sched]: the table's lock is given up, the caller's taken again. *)
Lemma unswap_locks c p s lk :
  inside_one c p s -> held c (pt_lock s) -> locked lk = 0 ->
  exists s1 lk' m', release_pt s = Ok s1 /\ acquire lk (mach s1) = Ok (lk', m') /\
    held c lk' /\ inside_one c p (set_mach m' s1) /\ locked (pt_lock s1) = 0 /\
    pt_proc s1 = pt_proc s.
Proof.
  intros (He & cp & Hc & Hn & Hp) (Hl & Hlc & Hpcs) Hlk. unfold release_pt.
  rewrite (release_here _ _ _ _ Hc He) by (done || lia). cbn [res_bind]. rewrite Hn. cbn [Z.eqb Pos.eqb andb].
  set (cp1 := set_ncli (1 - 1) cp).
  set (m1 := if negb (intena cp =? 0) then sti (put_cpu c cp1 (mach s)) else put_cpu c cp1 (mach s)).
  assert (cpu_here m1 c cp1) as Hc1.
  { unfold m1. destruct (negb _); by apply (cpu_here_put _ _ cp). }
  eexists _, _, _. split; [done|]. cbn [mach set_pt_lock set_mach].
  change (set_ncli (1 - 1) cp) with cp1. fold m1.
  rewrite (acquire_here lk m1 c cp1 Hc1) by (done || (split; done)). split; [done|].
  split; [apply taken_held|]. split; [|done]. split; [done|].
  exists (pushed m1 cp1). split_and!.
  - apply (cpu_here_put _ _ cp1); [exact Hc1 | apply apicid_pushed].
  - by rewrite ncli_pushed.
  - by rewrite proc_pushed.
Qed.

(** A process that holds one lock sleeps on it and comes back holding it. *)
Lemma sleep_inside_rest resume ch c p s x :
  resume_ok p resume -> inside_one c p s -> held c (the_lock x) -> locked (pt_lock s) = 0 ->
  (p < length (pt_proc s))%nat ->
  exists c' s0 lk0 s1 x1 s' lk' pr0, same_rest s s0 /\ same_rest s1 s' /\
    pt_proc s0 !! p = Some pr0 /\ state pr0 = SLEEPING /\ chan pr0 = ch /\ locked lk0 = 0 /\
    held c (pt_lock s0) /\
    resume s0 (put_lock lk0 x) = (s1, x1) /\
    sleep resume ch LkOther s x = Ok (s', put_lock lk' x1) /\
    inside_one c' p s' /\ held c' lk' /\ locked (pt_lock s') = 0 /\
    exists pr1, pt_proc s1 !! p = Some pr1 /\ pt_proc s' = <[p := set_chan ChNull pr1]> (pt_proc s1).
Proof.
  intros Hres Hin Hheld Hpt Hlen. unfold sleep. rewrite (myproc_inside c p s Hin). cbn [res_bind].
  destruct (swap_locks c p s (the_lock x) Hin Hheld Hpt)
    as (s1 & lk0 & m1 & Eac & Hrel & Hlk0 & Hin1 & Hheld1 & Hpt1).
  rewrite Eac. cbn [res_bind]. rewrite Hrel. cbn [res_bind].
  set (sa := set_mach m1 s1) in *. assert (pt_proc sa = pt_proc s) as Hpa by done.
  destruct (lookup_lt_is_Some_2 (pt_proc sa) p) as [pr Hpr]; [by rewrite Hpa|].
  rewrite (modp_lookup _ _ _ _ Hpr). cbn [res_bind].
  rewrite (modp_lookup _ _ _ (set_chan ch pr)) by (apply lookup_putp; by rewrite Hpa). cbn [res_bind].
  rewrite putp_putp. set (pr0 := set_state SLEEPING (set_chan ch pr)). set (s0 := putp p pr0 sa).
  assert (pt_proc s0 !! p = Some pr0) as Hp0 by (apply lookup_putp; by rewrite Hpa).
  destruct (sched_resumes resume c p s0 (put_lock lk0 x) pr0 Hres Hin1 Hheld1)
    as (c' & s2 & x2 & m3 & Hr & Hs & Hin3 & Hheld3 & Hx2 & Hlen3); [by rewrite the_put | done | done|].
  set (s3 := set_mach m3 s2) in *. assert (pt_proc s3 = pt_proc s2) as Hp3 by done.
  rewrite Hs. cbn [res_bind].
  destruct (lookup_lt_is_Some_2 (pt_proc s3) p Hlen3) as [pr3 Hpr3].
  rewrite (modp_lookup _ _ _ _ Hpr3). cbn [res_bind]. set (s4 := putp p (set_chan ChNull pr3) s3).
  destruct (unswap_locks c' p s4 (the_lock x2) Hin3 Hheld3 Hx2)
    as (s5 & lk' & m' & Erel & Hacq & Hheld5 & Hin5 & Hpt5 & Hp5).
  rewrite Erel. cbn [res_bind]. rewrite Hacq. cbn [res_bind].
  exists c', s0, lk0, s2, x2, (set_mach m' s5), lk', pr0.
  split; [transitivity s1; [by apply rest_acquire|done]|].
  split; [transitivity s4; [done|]; transitivity s5; [by apply rest_release|done]|]. split_and!; try done; try apply Hheld1; try apply Hheld5.
  exists pr3. rewrite <- Hp3. split; [done|].
  change (pt_proc (set_mach m' s5)) with (pt_proc s5). by rewrite Hp5.
Qed.

Lemma sleep_inside resume ch c p s x :
  resume_ok p resume -> inside_one c p s -> held c (the_lock x) -> locked (pt_lock s) = 0 ->
  (p < length (pt_proc s))%nat ->
  exists c' s0 lk0 s1 x1 s' lk' pr0,
    pt_proc s0 !! p = Some pr0 /\ state pr0 = SLEEPING /\ chan pr0 = ch /\ locked lk0 = 0 /\
    held c (pt_lock s0) /\
    resume s0 (put_lock lk0 x) = (s1, x1) /\
    sleep resume ch LkOther s x = Ok (s', put_lock lk' x1) /\
    inside_one c' p s' /\ held c' lk' /\ locked (pt_lock s') = 0 /\
    exists pr1, pt_proc s1 !! p = Some pr1 /\ pt_proc s' = <[p := set_chan ChNull pr1]> (pt_proc s1).
Proof.
  intros H1 H2 H3 H4 H5. destruct (sleep_inside_rest resume ch c p s x H1 H2 H3 H4 H5)
    as (c' & s0 & lk0 & s1 & x1 & s' & lk' & pr0 & _ & _ & H). by exists c', s0, lk0, s1, x1, s', lk', pr0.
Qed.

(** A process that holds the table's lock sleeps on it and comes back holding
    it. *)
Lemma sleep_table resume ch c p s x pr :
  resume_ok p resume -> inside_one c p s -> held c (pt_lock s) -> locked (the_lock x) = 0 -> pt_proc s !! p = Some pr ->
  exists c' s1 x1 pr1 m', resume (putp p (set_state SLEEPING (set_chan ch pr)) s) x = (s1, x1) /\ pt_proc s1 !! p = Some pr1 /\
    sleep resume ch LkPtable s x = Ok (putp p (set_chan ChNull pr1) (set_mach m' s1), x1) /\
    inside_one c' p (set_mach m' s1) /\ held c' (pt_lock s1) /\ locked (the_lock x1) = 0.
Proof.
  intros Hres Hin Hheld Hx Hp. unfold sleep. rewrite (myproc_inside c p s Hin). cbn [res_bind]. rewrite (modp_lookup _ _ _ _ Hp). cbn [res_bind].
  assert (p < length (pt_proc s))%nat as Hl by by eapply lookup_lt_Some.
  rewrite (modp_lookup _ _ _ (set_chan ch pr)) by by apply lookup_putp. cbn [res_bind]. rewrite putp_putp. set (pr0 := set_state SLEEPING (set_chan ch pr)).
  destruct (sched_resumes resume c p (putp p pr0 s) x pr0 Hres Hin Hheld Hx) as (c' & s1 & x1 & m' & Hr & -> & Hin' & Hheld' & Hx1 & Hlen); [by apply lookup_putp|done|].
  cbn [res_bind]. destruct (lookup_lt_is_Some_2 (pt_proc s1) p Hlen) as [pr1 Hpr1]. rewrite (modp_lookup _ _ (set_mach m' s1) pr1 Hpr1). cbn [res_bind].
  by exists c', s1, x1, pr1, m'.
Qed.
End Sleep.

(** * Sleeping locks *)

Record sleeplock := mkSleeplock { sl_locked : Z; sl_lk : spinlock; sl_name : string; sl_pid : Z }.
#[export] Instance sleeplock_eta : Eta sleeplock :=
  fun x => mkSleeplock (sl_locked x) (sl_lk x) (sl_name x) (sl_pid x).
Definition set_sl_locked := ltac:(setter sl_locked).
Definition set_sl_lk := ltac:(setter sl_lk).
Definition set_sl_pid := ltac:(setter sl_pid).

(** An object with a sleeping lock of its own. *)
Class Sleepable (X : Type) := {
  the_sl : X -> sleeplock;
  put_sl : sleeplock -> X -> X;
  sl_put k x : the_sl (put_sl k x) = k
}.
#[export] Instance sleepable_sleeplock : Sleepable sleeplock :=
  {| the_sl x := x; put_sl k _ := k; sl_put _ _ := eq_refl |}.

Section Sleepable.
Context {X : Type} {SX : Sleepable X}.

Definition put_sl_lk (l : spinlock) (x : X) : X := put_sl (set_sl_lk l (the_sl x)) x.
Definition put_sl_locked (v : Z) (x : X) : X := put_sl (set_sl_locked v (the_sl x)) x.
Definition put_sl_pid (v : Z) (x : X) : X := put_sl (set_sl_pid v (the_sl x)) x.

Lemma the_put_sl l x : sl_lk (the_sl (put_sl_lk l x)) = l.
Proof. unfold put_sl_lk. by rewrite sl_put. Qed.
End Sleepable.

(** Its spin lock is the one inside the sleeping lock. *)
#[export] Instance guarded_sleepable {X : Type} {SX : Sleepable X} : Guarded X | 100 :=
  {| the_lock x := sl_lk (the_sl x); put_lock := put_sl_lk; the_put := the_put_sl |}.

Module Sleeplock.
Import Ptable.
Section Sleeplock.
Context `{SV : Services} {X : Type} {SX : Sleepable X} (resume : kst -> X -> kst * X).
(** The address of the lock, its channel. *)
Context (a : Z).
Implicit Types (s : kst) (x : X).

Definition initsleeplock (name : string) (k : sleeplock) : sleeplock :=
  mkSleeplock 0 (Spinlock.initlock "sleep lock" (sl_lk k)) name 0.

(** [acquire(&lk->lk)] and [release(&lk->lk)]. *)
Definition lock s x : res (kst * X) :=
  let? (l, m) := Spinlock.acquire (sl_lk (the_sl x)) (mach s) in Ok (set_mach m s, put_sl_lk l x).
Definition unlock s x : res (kst * X) :=
  let? (l, m) := Spinlock.release (sl_lk (the_sl x)) (mach s) in Ok (set_mach m s, put_sl_lk l x).

(** [while (lk->locked) sleep(lk, &lk->lk)], at most [fuel] rounds. *)
Fixpoint wait_free (fuel : nat) s x : res (kst * X) :=
  match fuel with
  | O => OutOfFuel
  | S n =>
      if negb (sl_locked (the_sl x) =? 0) then
        let? (s, x) := sleep resume (ChAddr a) LkOther s x in wait_free n s x
      else Ok (s, x)
  end.

Definition acquiresleep (fuel : nat) s x : res (kst * X) :=
  let? (s, x) := lock s x in
  let? (s, x) := wait_free fuel s x in
  let x := put_sl_locked 1 x in
  let? (p, s) := curproc s in
  let? pr := getp p s in
  let x := put_sl_pid (pid pr) x in
  unlock s x.

Definition releasesleep s x : res (kst * X) :=
  let? (s, x) := lock s x in
  let x := put_sl_locked 0 x in
  let x := put_sl_pid 0 x in
  let? s := wakeup (ChAddr a) s in
  unlock s x.

Definition holdingsleep s x : res (bool * kst * X) :=
  let? (s, x) := lock s x in
  let? (p, s) := curproc s in
  let? pr := getp p s in
  let r := negb (sl_locked (the_sl x) =? 0) && (sl_pid (the_sl x) =? pid pr) in
  let? (s, x) := unlock s x in
  Ok (r, s, x).

End Sleeplock.
End Sleeplock.

(** * sleep and wakeup, interleaved *)

(** One process waits for a condition under a lock,
      acquire(lk); while (!cond) sleep(chan, lk); release(lk);
    and another one makes it true,
      acquire(lk); cond = 1; wakeup(chan); release(lk);
    with one access of the shared state per step.  The table's lock is held
    from [sleep] through [swtch] to the scheduler, which releases it, and the
    scheduler that resumes the process takes it again. *)
Module SleepRace.

Inductive who := Sleeper | Waker.

Inductive spc :=
| SWantLk       (* acquire(lk) *)
| STest         (* while (!cond) *)
| SWantPt       (* sleep: acquire(&ptable.lock) *)
| SDropLk       (* sleep: release(lk) *)
| SMark         (* sleep: p->chan = chan; p->state = SLEEPING *)
| SSwitch       (* sched; the scheduler releases ptable.lock *)
| SAsleep       (* off the CPU *)
| SBack         (* resumed with ptable.lock held; release(&ptable.lock) *)
| SUnlock       (* the condition was found true; release(lk) *)
| SDone.

Inductive wpc :=
| WWantLk       (* acquire(lk) *)
| WSet          (* cond = 1 *)
| WWantPt       (* wakeup: acquire(&ptable.lock) *)
| WScan         (* wakeup1 *)
| WDropPt       (* wakeup: release(&ptable.lock) *)
| WDropLk       (* release(lk) *)
| WDone.

Record st := mkSt {
  lk : option who;
  pt : option who;
  cond : bool;
  asleep : bool;     (* p->state == SLEEPING && p->chan == chan *)
  spos : spc;
  wpos : wpc
}.

Inductive step : st -> st -> Prop :=
| s_lk p c z w : step (mkSt None p c z SWantLk w) (mkSt (Some Sleeper) p c z STest w)
| s_true l p z w : step (mkSt l p true z STest w) (mkSt l p true z SUnlock w)
| s_false l p z w : step (mkSt l p false z STest w) (mkSt l p false z SWantPt w)
| s_pt l c z w : step (mkSt l None c z SWantPt w) (mkSt l (Some Sleeper) c z SDropLk w)
| s_drop l p c z w : step (mkSt l p c z SDropLk w) (mkSt None p c z SMark w)
| s_mark l p c z w : step (mkSt l p c z SMark w) (mkSt l p c true SSwitch w)
| s_switch l p c z w : step (mkSt l p c z SSwitch w) (mkSt l None c z SAsleep w)
| s_resume l c w : step (mkSt l None c false SAsleep w) (mkSt l (Some Sleeper) c false SBack w)
| s_back l p c z w : step (mkSt l p c z SBack w) (mkSt l None c z SWantLk w)
| s_unlock l p c z w : step (mkSt l p c z SUnlock w) (mkSt None p c z SDone w)
| w_lk p c z s : step (mkSt None p c z s WWantLk) (mkSt (Some Waker) p c z s WSet)
| w_set l p c z s : step (mkSt l p c z s WSet) (mkSt l p true z s WWantPt)
| w_pt l c z s : step (mkSt l None c z s WWantPt) (mkSt l (Some Waker) c z s WScan)
| w_scan l p c z s : step (mkSt l p c z s WScan) (mkSt l p c false s WDropPt)
| w_drop l p c z s : step (mkSt l p c z s WDropPt) (mkSt l None c z s WDropLk)
| w_unlock l p c z s : step (mkSt l p c z s WDropLk) (mkSt None p c z s WDone).

Definition init : st := mkSt None None false false SWantLk WWantLk.

(** Who holds which lock, by program counter. *)
Definition s_has_lk (x : spc) : bool :=
  match x with STest | SWantPt | SDropLk | SUnlock => true | _ => false end.
Definition s_has_pt (x : spc) : bool :=
  match x with SDropLk | SMark | SSwitch | SBack => true | _ => false end.
Definition w_has_lk (x : wpc) : bool :=
  match x with WWantLk | WDone => false | _ => true end.
Definition w_has_pt (x : wpc) : bool :=
  match x with WScan | WDropPt => true | _ => false end.
(** The waker has set the condition; it has passed over the table. *)
Definition w_set_done (x : wpc) : bool :=
  match x with WWantLk | WSet => false | _ => true end.
Definition w_scan_done (x : wpc) : bool :=
  match x with WDropPt | WDropLk | WDone => true | _ => false end.

#[export] Instance who_eq_dec : EqDecision who.
Proof. solve_decision. Defined.

(** The invariant: the locks are where the program counters say; the condition
    is set when the waker has set it; a sleeper that found it false keeps the
    waker from the table until it is marked, and an unmarked or woken one is
    not asleep. *)
Definition race_ok (x : st) : bool :=
  eqb (s_has_lk (spos x)) (bool_decide (lk x = Some Sleeper)) &&
  eqb (w_has_lk (wpos x)) (bool_decide (lk x = Some Waker)) &&
  eqb (s_has_pt (spos x)) (bool_decide (pt x = Some Sleeper)) &&
  eqb (w_has_pt (wpos x)) (bool_decide (pt x = Some Waker)) &&
  eqb (cond x) (w_set_done (wpos x)) &&
  match spos x with
  | SWantPt | SDropLk => negb (w_set_done (wpos x)) && negb (asleep x)
  | SMark => negb (w_scan_done (wpos x)) && negb (asleep x)
  | SSwitch => negb (w_scan_done (wpos x)) && asleep x
  | SAsleep => eqb (asleep x) (negb (w_scan_done (wpos x)))
  | _ => negb (asleep x)
  end.

End SleepRace.

Section NoLostWakeup.
Import SleepRace.

Lemma race_ok_init : race_ok init = true.
Proof. done. Qed.

Lemma race_ok_step x y : race_ok x = true -> step x y -> race_ok y = true.
Proof.
  intros H Hs; revert H. destruct Hs;
    repeat match goal with
    | v : option who |- _ => destruct v as [[]|]
    | v : bool |- _ => destruct v
    | v : wpc |- _ => destruct v
    | v : spc |- _ => destruct v
    end; cbn; done.
Qed.

Lemma race_ok_reachable x : rtc step init x -> race_ok x = true.
Proof.
  intros H. assert (forall a b, rtc step a b -> race_ok a = true -> race_ok b = true) as Hi.
  { induction 1; eauto using race_ok_step. }
  eapply Hi; [done | apply race_ok_init].
Qed.

(** C28: no wakeup is lost: in every interleaving of a process that sleeps on a
    condition and one that makes it true and wakes it, once the waker has gone
    over the table the sleeper is not asleep, and when the waker is done the
    sleeper is done or can take a step. *)
Theorem no_lost_wakeup x :
  rtc step init x ->
  (w_scan_done (wpos x) = true -> asleep x = false) /\
  (wpos x = WDone -> spos x = SDone \/ exists y, step x y /\ wpos y = WDone).
Proof.
  intros Hr. apply race_ok_reachable in Hr. destruct x as [l p c z s w]; cbn in *. split.
  - intros Hw. destruct z; [|done]. destruct s, w; try done; unfold race_ok in Hr; cbn in Hr;
      by rewrite ?andb_false_r in Hr.
  - intros ->. cbn in Hr.
    destruct s, l as [[]|], p as [[]|], c, z; cbn in Hr; try discriminate Hr;
      first [by left | right; eexists; split; [constructor | done]].
Qed.
End NoLostWakeup.

(** * Properties of sleep and of sleeping locks *)

Section LockedObject.
Import Spinlock Ptable.
Context `{SV : Services}.
Implicit Types (s : kst) (c p : nat).

(** CPU [c] runs process [p] with no lock held. *)
Definition outside c p s : Prop :=
  exists cp, cpu_here (mach s) c cp /\ ncli cp = 0 /\ cpu_proc cp = Some p.

Lemma lock_outside c p s lk :
  outside c p s -> locked lk = 0 ->
  exists lk' m', acquire lk (mach s) = Ok (lk', m') /\ held c lk' /\ inside_one c p (set_mach m' s).
Proof.
  intros (cp & Hc & Hn & Hp) Hlk.
  rewrite (acquire_here lk _ _ _ Hc) by (done || (split; [lia | lia])).
  do 2 eexists. split; [done|]. split; [apply taken_held|]. split; [done|].
  exists (pushed (mach s) cp). split_and!.
  - apply (cpu_here_put _ _ cp); [exact Hc | apply apicid_pushed].
  - rewrite ncli_pushed. lia.
  - by rewrite proc_pushed.
Qed.

Lemma unlock_inside c p s lk :
  inside_one c p s -> held c lk ->
  exists lk' m', release lk (mach s) = Ok (lk', m') /\ locked lk' = 0 /\ outside c p (set_mach m' s).
Proof.
  intros (He & cp & Hc & Hn & Hp) (Hl & Hlc & Hpcs).
  rewrite (release_here lk _ _ _ Hc He) by (done || lia). do 2 eexists. split; [done|].
  split; [done|]. exists (set_ncli (ncli cp - 1) cp). split_and!; [|cbn; lia | done].
  assert (cpu_here (put_cpu c (set_ncli (ncli cp - 1) cp) (mach s)) c (set_ncli (ncli cp - 1) cp)) as H
    by by apply (cpu_here_put _ _ cp).
  cbn [mach set_mach]. by destruct (_ && _).
Qed.

(** [myproc] when no lock is held. *)
Lemma curproc_outside c p s :
  outside c p s -> exists m, curproc s = Ok (p, set_mach m s) /\ outside c p (set_mach m s).
Proof.
  intros (cp & Hc & Hn & Hp). unfold curproc, myproc.
  assert (cli_ok (mach s) cp) as Hok by (split; lia).
  destruct (push_pop (mach s) c cp Hc Hok) as (m & -> & Hc' & He' & Hpop).
  cbn [res_bind]. rewrite (mycpu_here _ _ _ Hc' He'). cbn [res_bind].
  rewrite (get_cpu_here _ _ _ Hc'). cbn [res_bind]. rewrite Hpop. cbn [res_bind].
  rewrite proc_pushed, Hp. eexists. split; [done|].
  exists (set_ncli (ncli cp) (pushed (mach s) cp)).
  split; [apply (cpu_here_put _ _ cp); [exact Hc | cbn; apply apicid_pushed]|].
  split; [done|]. change (cpu_proc (pushed (mach s) cp) = Some p). by rewrite proc_pushed.
Qed.

(** [wakeup] inside another lock. *)
Lemma wakeup_inside ch c p s :
  inside_one c p s -> locked (pt_lock s) = 0 ->
  exists s', wakeup ch s = Ok s' /\ inside_one c p s' /\ locked (pt_lock s') = 0 /\
    pt_proc s' = map (wake ch) (pt_proc s).
Proof.
  intros (He & cp & Hc & Hn & Hp) Hpt. unfold wakeup, acquire_pt.
  rewrite (acquire_here _ _ _ _ Hc) by (done || (split; [lia | done])). cbn [res_bind].
  set (cp1 := pushed (mach s) cp). set (m1 := put_cpu c cp1 (cli (mach s))).
  assert (cpu_here m1 c cp1) as Hc1 by (apply (cpu_here_put _ _ cp); [exact Hc | apply apicid_pushed]).
  assert (ncli cp1 = 2) as Hn1 by (unfold cp1; rewrite ncli_pushed; lia).
  destruct (taken_held c (mach s) (pt_lock s)) as (Hl & Hlc & Hpcs).
  unfold release_pt. cbn [mach pt_lock wakeup1 set_pt_proc set_pt_lock set_mach].
  rewrite (release_here _ m1 c cp1 Hc1) by (done || lia). cbn [res_bind].
  rewrite Hn1. cbn [andb Z.eqb Pos.eqb]. eexists. split; [done|]. split; [|done]. split; [done|].
  exists (set_ncli 1 cp1). split_and!; [by apply (cpu_here_put _ _ cp1) | done |].
  change (cpu_proc cp1 = Some p). unfold cp1. by rewrite proc_pushed.
Qed.

(** [sleep] called with one lock held: the process is marked asleep on the
    channel under the table's lock, before the caller's lock is free; none of
    the checks of [sched] fails; when the process comes back it holds the
    caller's lock again and no other. *)
Theorem sleep_spec {X : Type} `{GX : Guarded X} (resume : kst -> X -> kst * X) ch c p s x :
  resume_ok p resume -> inside_one c p s -> held c (the_lock x) -> locked (pt_lock s) = 0 ->
  (p < length (pt_proc s))%nat ->
  exists c' s0 lk0 s1 x1 s' lk' pr0,
    pt_proc s0 !! p = Some pr0 /\ state pr0 = SLEEPING /\ chan pr0 = ch /\ locked lk0 = 0 /\
    held c (pt_lock s0) /\
    resume s0 (put_lock lk0 x) = (s1, x1) /\
    sleep resume ch LkOther s x = Ok (s', put_lock lk' x1) /\
    inside_one c' p s' /\ held c' lk' /\ locked (pt_lock s') = 0 /\
    exists pr1, pt_proc s1 !! p = Some pr1 /\ pt_proc s' = <[p := set_chan ChNull pr1]> (pt_proc s1).
Proof. apply sleep_inside. Qed.
End LockedObject.

Section SleeplockSpec.
Import Ptable Sleeplock.
Context `{SV : Services} {X : Type} {SX : Sleepable X} (resume : kst -> X -> kst * X) (a : Z).
Implicit Types (s : kst) (c p : nat) (x : X).

(** The others give the lock up: each time the process sleeps, the lock is
    free when it comes back or the rank went down. *)
Definition gives_up (rank : X -> nat) : Prop :=
  (forall x l, rank (put_lock l x) = rank x) /\
  forall s x s' x', resume s x = (s', x') -> sl_locked (the_sl x') = 0 \/ (rank x' < rank x)%nat.

Lemma wait_free_ok rank c p fuel s x :
  resume_ok p resume -> gives_up rank -> inside_one c p s -> held c (sl_lk (the_sl x)) ->
  locked (pt_lock s) = 0 -> (p < length (pt_proc s))%nat -> (rank x + 1 < fuel)%nat ->
  exists c' s' x', wait_free resume a fuel s x = Ok (s', x') /\ sl_locked (the_sl x') = 0 /\
    inside_one c' p s' /\ held c' (sl_lk (the_sl x')) /\ locked (pt_lock s') = 0 /\ (p < length (pt_proc s'))%nat.
Proof.
  intros Hres [Hr Hg]. revert c s x.
  assert (forall n c s x, inside_one c p s -> held c (sl_lk (the_sl x)) -> locked (pt_lock s) = 0 ->
    (p < length (pt_proc s))%nat -> (if decide (sl_locked (the_sl x) = 0) then (0 < n)%nat else (rank x + 1 < n)%nat) ->
    exists c' s' x', wait_free resume a n s x = Ok (s', x') /\ sl_locked (the_sl x') = 0 /\
      inside_one c' p s' /\ held c' (sl_lk (the_sl x')) /\ locked (pt_lock s') = 0 /\
      (p < length (pt_proc s'))%nat) as H.
  { induction n as [|n IH]; intros c s x Hin Hheld Hpt Hlen Hf; [destruct (decide _); lia|].
    cbn [wait_free]. destruct (Z.eqb_spec (sl_locked (the_sl x)) 0) as [E|E]; cbn [negb].
    { exists c, s, x. split_and!; try done; try apply Hin; apply Hheld. }
    destruct (sleep_inside resume (ChAddr a) c p s x Hres Hin Hheld Hpt Hlen)
      as (c' & s0 & lk0 & s1 & x1 & s' & lk' & pr0 & _ & _ & _ & _ & _ & Hrs & -> & Hin' & Hheld' & Hpt' & pr1 & Hp1 & Hps).
    cbn [res_bind]. rewrite decide_False in Hf by done.
    assert (p < length (pt_proc s'))%nat as Hlen' by (rewrite Hps, length_insert; by eapply lookup_lt_Some).
    apply (IH c'); try done; [by cbn; rewrite the_put_sl|]. apply Hg in Hrs. rewrite !Hr in *.
    assert (sl_locked (the_sl (put_lock lk' x1)) = sl_locked (the_sl x1)) as ->
      by (cbn; unfold put_sl_lk; by rewrite sl_put).
    destruct (decide (sl_locked (the_sl x1) = 0)); [lia|]. destruct Hrs; [done | lia]. }
  intros c s x Hin Hheld Hpt Hlen Hf. apply (H _ c); try done. destruct (decide _); lia.
Qed.

(** [acquiresleep] returns once the others give the lock up: it is then
    held by the calling process, the spin lock inside is free again and no
    spin lock is held. *)
Theorem acquiresleep_spec rank c p fuel s x :
  resume_ok p resume -> gives_up rank -> outside c p s -> locked (sl_lk (the_sl x)) = 0 ->
  locked (pt_lock s) = 0 -> (p < length (pt_proc s))%nat -> (rank x + 1 < fuel)%nat ->
  exists c' s' x' pr, acquiresleep resume a fuel s x = Ok (s', x') /\
    sl_locked (the_sl x') = 1 /\ pt_proc s' !! p = Some pr /\ sl_pid (the_sl x') = pid pr /\
    locked (sl_lk (the_sl x')) = 0 /\ outside c' p s'.
Proof.
  intros Hres Hg Hout Hlk Hpt Hlen Hf. unfold acquiresleep, lock.
  destruct (lock_outside c p s (sl_lk (the_sl x)) Hout Hlk) as (lk1 & m1 & -> & Hheld & Hin).
  cbn [res_bind]. pose proof Hg as [Hr _].
  destruct (wait_free_ok rank c p fuel (set_mach m1 s) (put_lock lk1 x) Hres Hg Hin)
    as (c' & s2 & x2 & E & _ & Hin2 & Hheld2 & Hpt2 & Hlen2);
    [by cbn; rewrite the_put_sl | done | done | by rewrite Hr |].
  cbn [put_lock guarded_sleepable] in E. rewrite E.
  cbn [res_bind]. unfold curproc. rewrite (myproc_inside c' p s2 Hin2). cbn [res_bind].
  destruct (lookup_lt_is_Some_2 (pt_proc s2) p Hlen2) as [pr Hpr].
  rewrite (getp_lookup _ _ _ Hpr). cbn [res_bind]. unfold unlock.
  unfold put_sl_pid, put_sl_locked. rewrite !sl_put. cbn [sl_lk set_sl_pid set_sl_locked].
  destruct (unlock_inside c' p s2 (sl_lk (the_sl x2)) Hin2 Hheld2) as (lk3 & m3 & -> & Hlk3 & Hout3).
  cbn [res_bind]. exists c'. do 2 eexists. exists pr. unfold put_sl_lk. rewrite !sl_put. done.
Qed.
(** ** Without waiting *)

(** The operations change nothing but the lock: [R] is any relation that holds
    across a change of the lock. *)
Section Alone.
Context (R : X -> X -> Prop) `{PR : !PreOrder R} (R_put : forall k y, R y (put_sl k y)).

Lemma R_put3 k1 k2 k3 x : R x (put_sl k3 (put_sl k2 (put_sl k1 x))).
Proof. etrans; [apply R_put|]. etrans; [apply R_put|]. apply R_put. Qed.

Lemma acquiresleep_free c p fuel s x pr :
  outside c p s -> locked (sl_lk (the_sl x)) = 0 -> sl_locked (the_sl x) = 0 ->
  pt_proc s !! p = Some pr -> (0 < fuel)%nat ->
  exists m x', acquiresleep resume a fuel s x = Ok (set_mach m s, x') /\ R x x' /\
    sl_locked (the_sl x') = 1 /\ sl_pid (the_sl x') = pid pr /\
    locked (sl_lk (the_sl x')) = 0 /\ outside c p (set_mach m s).
Proof.
  intros Hout Hlk Hfree Hpr Hf. unfold acquiresleep, lock.
  destruct (lock_outside c p s (sl_lk (the_sl x)) Hout Hlk) as (lk1 & m1 & -> & Hheld & Hin).
  cbn [res_bind]. destruct fuel as [|fuel]; [lia|]. cbn [wait_free].
  unfold put_sl_lk at 1. rewrite sl_put. cbn [sl_locked set_sl_lk]. rewrite Hfree. cbn [negb Z.eqb res_bind].
  unfold curproc. rewrite (myproc_inside c p _ Hin). cbn [res_bind].
  rewrite (getp_lookup _ _ pr) by done. cbn [res_bind].
  unfold put_sl_pid, put_sl_locked, put_sl_lk, unlock. rewrite !sl_put. cbn [sl_lk set_sl_pid set_sl_locked set_sl_lk].
  destruct (unlock_inside c p (set_mach m1 s) lk1 Hin Hheld) as (lk3 & m3 & -> & Hlk3 & Hout3).
  cbn [res_bind]. do 2 eexists. split; [done|]. unfold put_sl_lk. rewrite !sl_put.
  split; [etrans; [apply R_put3|apply R_put]|]. done.
Qed.

Lemma holdingsleep_mine c p s x pr :
  outside c p s -> locked (sl_lk (the_sl x)) = 0 -> sl_locked (the_sl x) <> 0 ->
  pt_proc s !! p = Some pr -> sl_pid (the_sl x) = pid pr ->
  exists m x', holdingsleep s x = Ok (true, set_mach m s, x') /\ R x x' /\
    sl_locked (the_sl x') = sl_locked (the_sl x) /\ sl_pid (the_sl x') = pid pr /\
    locked (sl_lk (the_sl x')) = 0 /\ outside c p (set_mach m s).
Proof.
  intros Hout Hlk Hl Hpr Hpid. unfold holdingsleep, lock.
  destruct (lock_outside c p s (sl_lk (the_sl x)) Hout Hlk) as (lk1 & m1 & -> & Hheld & Hin).
  cbn [res_bind]. unfold curproc. rewrite (myproc_inside c p _ Hin). cbn [res_bind].
  rewrite (getp_lookup _ _ pr) by done. cbn [res_bind].
  unfold put_sl_lk, unlock. rewrite !sl_put. cbn [sl_lk sl_locked sl_pid set_sl_lk].
  rewrite (proj2 (Z.eqb_neq _ _) Hl), Hpid, Z.eqb_refl. cbn [negb andb].
  destruct (unlock_inside c p (set_mach m1 s) lk1 Hin Hheld) as (lk3 & m3 & -> & Hlk3 & Hout3).
  cbn [res_bind]. do 2 eexists. split; [done|]. unfold put_sl_lk. rewrite !sl_put.
  split; [etrans; apply R_put|]. done.
Qed.

Lemma releasesleep_ok c p s x :
  outside c p s -> locked (sl_lk (the_sl x)) = 0 -> locked (pt_lock s) = 0 ->
  exists s' x', releasesleep a s x = Ok (s', x') /\ R x x' /\ sl_locked (the_sl x') = 0 /\
    locked (sl_lk (the_sl x')) = 0 /\ outside c p s' /\ locked (pt_lock s') = 0 /\
    pt_proc s' = map (wake (ChAddr a)) (pt_proc s).
Proof.
  intros Hout Hlk Hpt. unfold releasesleep, lock.
  destruct (lock_outside c p s (sl_lk (the_sl x)) Hout Hlk) as (lk1 & m1 & -> & Hheld & Hin).
  cbn [res_bind]. destruct (wakeup_inside (ChAddr a) c p (set_mach m1 s) Hin Hpt)
    as (s2 & -> & Hin2 & Hpt2 & Hp2). cbn [res_bind].
  unfold put_sl_pid, put_sl_locked, put_sl_lk, unlock. rewrite !sl_put. cbn [sl_lk set_sl_pid set_sl_locked set_sl_lk].
  destruct (unlock_inside c p s2 lk1 Hin2 Hheld) as (lk3 & m3 & -> & Hlk3 & Hout3).
  cbn [res_bind]. do 2 eexists. split; [done|]. unfold put_sl_lk. rewrite !sl_put.
  split; [etrans; [apply R_put3|apply R_put]|]. done.
Qed.
End Alone.

End SleeplockSpec.

(** * The example machine *)

(** Nobody else runs: the process is woken at once. *)
Definition demo_resume {X : Type} (s : kst) (x : X) : kst * X := (s, x).
Definition demo_giver (s : kst) (x : sleeplock) : kst * sleeplock := (s, set_sl_locked 0 x).

Lemma demo_resume_ok {X : Type} `{GX : Guarded X} p : resume_ok p (@demo_resume X).
Proof. intros c s x H1 H2 H3 H4. by exists c, s, x. Qed.

Lemma demo_giver_ok p : resume_ok p demo_giver.
Proof. intros c s x H1 H2 H3 H4. by exists c, s, (set_sl_locked 0 x). Qed.

Definition demo_held : spinlock := mkLock 1 "lock" (Some 0%nat) (repeat 0 10).
Definition demo_in (n : Z) : kst := demo_kst (demo_machine n (Some 0%nat)) demo_procs [0%nat] [1%nat; 2%nat] [].

Lemma sleep_spec_witness : exists s' lk',
  Ptable.sleep demo_resume (ChAddr 100) Ptable.LkOther (demo_in 1) demo_held = Ok (s', lk') /\ held 0 lk'.
Proof.
  destruct (sleep_spec demo_resume (ChAddr 100) 0 0 (demo_in 1) demo_held)
    as (c' & s0 & lk0 & s1 & x1 & s' & lk' & pr0 & _ & _ & _ & _ & _ & Hr & Hs & Hin & Hh & _).
  - apply demo_resume_ok.
  - split; [done|]. by exists (demo_cpu 1 (Some 0%nat)).
  - done.
  - done.
  - cbn. lia.
  - exists s', lk'. split; [exact Hs|]. destruct Hin as (_ & cp & [Hc _] & _).
    destruct Hh as (H1 & H2 & H3). split; [exact H1|]. split; [|exact H3].
    injection Hr as <- <-.
    assert (match Ptable.sleep demo_resume (ChAddr 100) Ptable.LkOther (demo_in 1) demo_held with
      | Ok (_, lk) => lk_cpu lk = Some 0%nat | _ => True end) as H by (vm_compute; done).
    rewrite Hs in H. exact H.
Defined.

(** The lock is taken by another process, which gives it up. *)
Lemma acquiresleep_spec_witness : exists s' x',
  Sleeplock.acquiresleep demo_giver 100 2 (demo_in 0) (mkSleeplock 1 demo_lock "inode" 7) = Ok (s', x') /\
  sl_locked x' = 1.
Proof.
  destruct (acquiresleep_spec demo_giver 100 (fun _ => 0%nat) 0 0 2 (demo_in 0)
    (mkSleeplock 1 demo_lock "inode" 7)) as (c' & s' & x' & pr & H1 & H2 & _).
  - apply demo_giver_ok.
  - split; [done|]. intros s x s' x' [= <- <-]. by left.
  - by exists (demo_cpu 0 (Some 0%nat)).
  - done.
  - done.
  - cbn. lia.
  - lia.
  - exists s', x'. split; [exact H1 | exact H2].
Defined.

(** The sleeper goes to sleep first and is woken. *)
Lemma no_lost_wakeup_witness : exists x, rtc SleepRace.step SleepRace.init x /\
  SleepRace.wpos x = SleepRace.WDone /\ SleepRace.asleep x = false.
Proof.
  set (x := SleepRace.mkSt None None true false SleepRace.SWantLk SleepRace.WDone).
  assert (rtc SleepRace.step SleepRace.init x) as H.
  { unfold SleepRace.init. do 14 (eapply rtc_l; [constructor|]). apply rtc_refl. }
  exists x. split; [exact H|]. split; [done|]. apply (no_lost_wakeup x H). done.
Defined.
