(* ===== verification/Ring.v ===== *)
(** Ring buffers indexed by free-running 32-bit counters, as in [pipe.c] and the
    input buffer of [console.c]: a queue in an array whose size divides 2^32. *)

From S2P Require Import Prelude.

Section Ring.
Context (N : Z) (HN : 0 < N) (Hdiv : (N | 2 ^ 32)).
Implicit Types (d l : list Z) (r w b : Z).

Lemma u32_mod_ring z : u32 z mod N = z mod N.
Proof.
  destruct Hdiv as [k Hk]. unfold u32. rewrite Hk. rewrite (Z.mul_comm k N).
  assert (0 < k) by nia. rewrite Z.rem_mul_r by lia. rewrite Z.mul_comm, Z_mod_plus_full. apply Zmod_mod.
Qed.

(** The array [d] holds [l], from index [r] on. *)
Record ring_at d r l : Prop := {
  rg_size : Z.of_nat (length d) = N;
  rg_fit : Z.of_nat (length l) <= N;
  rg_data i b : l !! i = Some b -> d !! Z.to_nat ((r + Z.of_nat i) mod N) = Some b
}.

Lemma ring_push d r l w b :
  ring_at d r l -> Z.of_nat (length l) < N -> w mod N = (r + Z.of_nat (length l)) mod N ->
  0 <= w mod N < Z.of_nat (length d) /\ ring_at (<[Z.to_nat (w mod N) := b]> d) r (l ++ [b]).
Proof.
  intros [H1 H2 H3] Hl Hw. pose proof (Z.mod_pos_bound w N HN) as Hm. split; [lia|]. split.
  - by rewrite length_insert.
  - rewrite length_app. cbn. lia.
  - intros i c Hi. rewrite Hw. apply lookup_app_Some in Hi as [Hi|[Hge Hi]].
    + assert (i < length l)%nat as Hil by by eapply lookup_lt_Some.
      rewrite list_lookup_insert_ne; [by apply H3|]. intros E.
      apply Z2Nat.inj in E; try (apply Z.mod_pos_bound; lia).
      apply (f_equal (fun z => (z - (r + Z.of_nat i)) mod N)) in E.
      rewrite !Zminus_mod_idemp_l, Z.sub_diag in E.
      replace (r + Z.of_nat (length l) - (r + Z.of_nat i)) with (Z.of_nat (length l) - Z.of_nat i) in E by lia.
      rewrite Z.mod_small in E by lia. rewrite Z.mod_0_l in E; lia.
    + destruct (i - length l)%nat eqn:E; [|done]. cbn in Hi. injection Hi as <-.
      replace i with (length l) by lia. apply list_lookup_insert_eq.
      pose proof (Z.mod_pos_bound (r + Z.of_nat (length l)) N HN). lia.
Qed.

Lemma ring_pop d r b l : ring_at d r (b :: l) ->
  d !! Z.to_nat (r mod N) = Some b /\ ring_at d (u32 (r + 1)) l.
Proof.
  intros [H1 H2 H3]. cbn [length] in H2. split.
  - specialize (H3 0%nat b eq_refl). by rewrite Z.add_0_r in H3.
  - split; [done|lia|]. intros i c Hi. specialize (H3 (S i) c Hi).
    rewrite <- Zplus_mod_idemp_l, u32_mod_ring, Zplus_mod_idemp_l.
    by replace (r + 1 + Z.of_nat i) with (r + Z.of_nat (S i)) by lia.
Qed.

Lemma ring_prefix d r l1 l2 : ring_at d r (l1 ++ l2) -> ring_at d r l1.
Proof.
  intros [H1 H2 H3]. rewrite length_app in H2. split; [done|lia|]. intros i b Hi. apply H3. by apply lookup_app_l_Some.
Qed.

Lemma ring_lookup d r l i b w : ring_at d r l -> l !! i = Some b -> w mod N = (r + Z.of_nat i) mod N ->
  0 <= w mod N /\ d !! Z.to_nat (w mod N) = Some b.
Proof. intros [_ _ H3] Hi ->. split; [apply Z.mod_pos_bound; lia|]. by apply H3. Qed.
End Ring.

(** Counters less than 2^32 apart are equal only at distance 0. *)
Lemma u32_inj r i j : 0 <= i < 2 ^ 32 -> 0 <= j < 2 ^ 32 -> u32 (r + i) = u32 (r + j) -> i = j.
Proof.
  intros Hi Hj E. unfold u32 in E. apply (f_equal (fun z => (z - r) mod 2 ^ 32)) in E.
  rewrite !Zminus_mod_idemp_l in E. replace (r + i - r) with i in E by lia. replace (r + j - r) with j in E by lia.
  by rewrite !Z.mod_small in E.
Qed.

Lemma u32_eqb r i j : 0 <= i < 2 ^ 32 -> 0 <= j < 2 ^ 32 -> (u32 (r + i) =? u32 (r + j)) = (i =? j).
Proof.
  intros Hi Hj. destruct (Z.eqb_spec i j) as [->|E]; [apply Z.eqb_refl|]. apply Z.eqb_neq. intros H. by apply u32_inj in H.
Qed.
