(* ===== verification/Pipe.v ===== *)
(** Pipes: [pipe.c].

    [pipe] is the structure with its lock; the data is a ring of [PIPESIZE]
    bytes indexed by two free-running 32-bit counters.  A pipe refines a queue
    of bytes.  [pipealloc] and [pipeclose]'s caller are in File.v. *)

From S2P Require Import Prelude CString Spinlock Kalloc Proc Demo MlfqFacts ProcFacts Sleep Ring.

Definition PIPESIZE : Z := 512.

Record pipe := mkPipe {
  pi_lock : spinlock;
  data : list Z;
  nread : Z;
  nwrite : Z;
  readopen : Z;
  writeopen : Z
}.
#[export] Instance pipe_eta : Eta pipe := fun x =>
  mkPipe (pi_lock x) (data x) (nread x) (nwrite x) (readopen x) (writeopen x).
Definition set_pi_lock := ltac:(setter pi_lock).
Definition set_data := ltac:(setter data).
Definition set_nread := ltac:(setter nread).
Definition set_nwrite := ltac:(setter nwrite).
Definition set_readopen := ltac:(setter readopen).
Definition set_writeopen := ltac:(setter writeopen).

#[export] Instance guarded_pipe : Guarded pipe :=
  {| the_lock := pi_lock; put_lock := set_pi_lock; the_put _ _ := eq_refl |}.

Module Pipe.
Import Ptable.
Section Pipe.
Context `{SV : Services} (resume : kst -> pipe -> kst * pipe).
(** The address of the structure: [&p->nread] and [&p->nwrite] are channels. *)
Context (a : Z).
Implicit Types (s : kst) (x : pipe).

Definition ch_nread : channel := ChAddr (a + 564).
Definition ch_nwrite : channel := ChAddr (a + 568).

Definition lock s x : res (kst * pipe) :=
  let? (l, m) := Spinlock.acquire (pi_lock x) (mach s) in Ok (set_mach m s, set_pi_lock l x).
Definition unlock s x : res (kst * pipe) :=
  let? (l, m) := Spinlock.release (pi_lock x) (mach s) in Ok (set_mach m s, set_pi_lock l x).

(** Closes one end; [None] when the pipe was freed. *)
Definition pipeclose (writable : bool) s x : res (kst * option pipe) :=
  let? (s, x) := lock s x in
  let? (s, x) :=
    (if writable then
       let x := set_writeopen 0 x in
       let? s := wakeup ch_nread s in Ok (s, x)
     else
       let x := set_readopen 0 x in
       let? s := wakeup ch_nwrite s in Ok (s, x)) in
  if (readopen x =? 0) && (writeopen x =? 0) then
    let? (s, x) := unlock s x in
    let? (h, m) := Kalloc.kfree kernel_end a (ph s) (mach s) in
    Ok (set_mach m (set_ph h s), None)
  else
    let? (s, x) := unlock s x in
    Ok (s, Some x).

(** [myproc()->killed]. *)
Definition self_killed s : res (bool * kst) :=
  let? (p, s) := curproc s in
  let? pr := getp p s in
  Ok (negb (killed pr =? 0), s).

(** The inner loop of [pipewrite]; [false] when the write is given up. *)
Fixpoint wait_room (fuel : nat) s x : res (bool * kst * pipe) :=
  match fuel with
  | O => OutOfFuel
  | S n =>
      if nwrite x =? u32 (nread x + PIPESIZE) then
        let? (stop, s) := (if readopen x =? 0 then Ok (true, s) else self_killed s) in
        if stop then Ok (false, s, x)
        else
          let? s := wakeup ch_nread s in
          let? (s, x) := sleep resume ch_nwrite LkOther s x in
          wait_room n s x
      else Ok (true, s, x)
  end.

(** The outer loop over the bytes left to write. *)
Fixpoint write_bytes (fuel : nat) (src : list Z) s x : res (bool * kst * pipe) :=
  match src with
  | [] => Ok (true, s, x)
  | b :: src' =>
      let? (go, s, x) := wait_room fuel s x in
      if go then
        let? d := zset "pipe.data" (data x) (nwrite x mod PIPESIZE) b in
        let x := set_nwrite (u32 (nwrite x + 1)) (set_data d x) in
        write_bytes fuel src' s x
      else Ok (false, s, x)
  end.

(** [pipewrite] of the [n] bytes at [addr], which are [src]. *)
Definition pipewrite (fuel : nat) (src : list Z) s x : res (Z * kst * pipe) :=
  let? (s, x) := lock s x in
  let? (done, s, x) := write_bytes fuel src s x in
  if done then
    let? s := wakeup ch_nread s in
    let? (s, x) := unlock s x in
    Ok (Z.of_nat (length src), s, x)
  else
    let? (s, x) := unlock s x in
    Ok (-1, s, x).

(** The first loop of [piperead]. *)
Fixpoint wait_data (fuel : nat) s x : res (bool * kst * pipe) :=
  match fuel with
  | O => OutOfFuel
  | S n =>
      if (nread x =? nwrite x) && negb (writeopen x =? 0) then
        let? (stop, s) := self_killed s in
        if stop then Ok (false, s, x)
        else
          let? (s, x) := sleep resume ch_nread LkOther s x in
          wait_data n s x
      else Ok (true, s, x)
  end.

(** The copy loop: the bytes that go to [addr[0..]]. *)
Fixpoint read_bytes (n : nat) x : res (list Z * pipe) :=
  match n with
  | O => Ok ([], x)
  | S n' =>
      if nread x =? nwrite x then Ok ([], x)
      else
        let? b := zget "pipe.data" (data x) (nread x mod PIPESIZE) in
        let x := set_nread (u32 (nread x + 1)) x in
        let? (l, x) := read_bytes n' x in
        Ok (b :: l, x)
  end.

(** Returns the result and the bytes stored at [addr]. *)
Definition piperead (fuel : nat) (n : nat) s x : res (Z * list Z * kst * pipe) :=
  let? (s, x) := lock s x in
  let? (go, s, x) := wait_data fuel s x in
  if go then
    let? (l, x) := read_bytes n x in
    let? s := wakeup ch_nwrite s in
    let? (s, x) := unlock s x in
    Ok (Z.of_nat (length l), l, s, x)
  else
    let? (s, x) := unlock s x in
    Ok (-1, [], s, x).

End Pipe.
End Pipe.

(** * The ring *)

Section Ring.
Import Pipe.
Implicit Types (x : pipe) (l : list Z).

(** The pipe [x] holds the bytes [l], oldest first. *)
Record pipe_rep x l : Prop := {
  pr_ring : ring_at PIPESIZE (data x) (nread x) l;
  pr_rd : 0 <= nread x < 2 ^ 32;
  pr_wr : nwrite x = u32 (nread x + Z.of_nat (length l))
}.

Lemma PIPESIZE_pos : 0 < PIPESIZE.
Proof. done. Qed.

Lemma PIPESIZE_div : (PIPESIZE | 2 ^ 32).
Proof. by exists (2 ^ 23). Qed.

Lemma pr_fit x l : pipe_rep x l -> (length l <= 512)%nat.
Proof. intros H. pose proof (rg_fit _ _ _ _ (pr_ring _ _ H)) as Hf. unfold PIPESIZE in Hf. lia. Qed.

Lemma pipe_empty x l : pipe_rep x l -> (nread x =? nwrite x) = bool_decide (l = []).
Proof.
  intros H. pose proof (pr_fit _ _ H) as Hf. destruct H as [_ H2 H3]. rewrite H3.
  rewrite <- (u32_small (nread x) H2) at 1. rewrite <- (Z.add_0_r (nread x)) at 1. rewrite u32_eqb by lia.
  destruct l; [done|]. by rewrite bool_decide_false.
Qed.

Lemma pipe_full x l :
  pipe_rep x l -> (nwrite x =? u32 (nread x + PIPESIZE)) = bool_decide (length l = 512%nat).
Proof.
  intros H. pose proof (pr_fit _ _ H) as Hf. destruct H as [_ H2 H3]. rewrite H3.
  rewrite u32_eqb by (unfold PIPESIZE; lia). unfold PIPESIZE. case_bool_decide; [apply Z.eqb_eq; lia|apply Z.eqb_neq; lia].
Qed.

(** Storing a byte appends it. *)
Lemma pipe_push x l b :
  pipe_rep x l -> (length l < 512)%nat ->
  exists d, zset "pipe.data" (data x) (nwrite x mod PIPESIZE) b = Ok d /\
    pipe_rep (set_nwrite (u32 (nwrite x + 1)) (set_data d x)) (l ++ [b]).
Proof.
  intros [H1 H2 H3] Hl.
  destruct (ring_push PIPESIZE PIPESIZE_pos (data x) (nread x) l (nwrite x) b H1) as [Hm Hr]; [unfold PIPESIZE; lia|..].
  { by rewrite H3, u32_mod_ring by apply PIPESIZE_pos || apply PIPESIZE_div. }
  rewrite zset_in by done. eexists. split; [done|].
  constructor; cbn [data nread nwrite set_nwrite set_data]; [done|done|].
  rewrite length_app, H3. cbn [length]. rewrite u32_add_l. f_equal. lia.
Qed.

(** Loading a byte removes the oldest. *)
Lemma pipe_pop x l b :
  pipe_rep x (b :: l) ->
  zget "pipe.data" (data x) (nread x mod PIPESIZE) = Ok b /\
  pipe_rep (set_nread (u32 (nread x + 1)) x) l.
Proof.
  intros [H1 H2 H3]. destruct (ring_pop PIPESIZE PIPESIZE_pos PIPESIZE_div _ _ _ _ H1) as [Hb Hr]. split.
  - apply zget_Ok. split; [apply Z.mod_pos_bound; unfold PIPESIZE; lia|done].
  - constructor; cbn [data nread nwrite set_nread]; [done|apply u32_range|].
    rewrite H3, u32_add_l. cbn [length]. f_equal. lia.
Qed.

Lemma read_bytes_rep n x l :
  pipe_rep x l -> exists x', read_bytes n x = Ok (take n l, x') /\ pipe_rep x' (drop n l) /\
    pi_lock x' = pi_lock x /\ readopen x' = readopen x /\ writeopen x' = writeopen x.
Proof.
  revert x l; induction n as [|n IH]; intros x l Hx; cbn [read_bytes]; [by exists x|].
  rewrite (pipe_empty x l Hx). destruct l as [|b l].
  - rewrite bool_decide_true by done. by exists x.
  - rewrite bool_decide_false by done. destruct (pipe_pop x l b Hx) as [-> Hx']. cbn [res_bind].
    destruct (IH _ l Hx') as (x' & -> & Hr & ? & ? & ?). cbn [res_bind]. by exists x'.
Qed.
End Ring.

(** * Reading and writing *)

Section PipeSpec.
Import Ptable Pipe.
Context `{SV : Services} (resume : kst -> pipe -> kst * pipe) (a : Z).
Implicit Types (s : kst) (x : pipe) (l src : list Z) (c p : nat).

(** Process [p] runs inside the lock of the pipe and was not killed. *)
Definition in_pipe c p s x : Prop :=
  inside_one c p s /\ held c (pi_lock x) /\ locked (pt_lock s) = 0 /\
  exists pr, pt_proc s !! p = Some pr /\ killed pr = 0.

(** The bytes the readers have got so far, somewhere in the state of the system
    outside of what the kernel touches when a process sleeps or is woken. *)
Context (taken : kst -> list Z).
Definition apart_from_kernel : Prop := forall s s', same_rest s s' -> taken s' = taken s.

(** What the others do to the pipe while the writer sleeps: they read from its
    front, something at least when it is full, and leave it open. *)
Definition readers p : Prop :=
  forall s x s' x' l, resume s x = (s', x') -> pipe_rep x l -> readopen x <> 0 ->
  exists k, pipe_rep x' (drop k l) /\ taken s' = taken s ++ take k l /\ (length l = 512%nat -> (0 < k)%nat) /\ readopen x' <> 0 /\
    forall pr, pt_proc s' !! p = Some pr -> killed pr = 0.

(** ... and while the reader sleeps: they write at its end, or close it. *)
Definition writers p : Prop :=
  forall s x s' x' l, resume s x = (s', x') -> pipe_rep x l ->
  exists l', pipe_rep x' (l ++ l') /\ (l ++ l' <> [] \/ writeopen x' = 0) /\
    forall pr, pt_proc s' !! p = Some pr -> killed pr = 0.

Lemma pipe_rep_lock x l k : pipe_rep (set_pi_lock k x) l <-> pipe_rep x l.
Proof. split; intros [H1 H2 H3]; by constructor. Qed.

Lemma self_killed_no c p s x : in_pipe c p s x -> self_killed s = Ok (false, s).
Proof.
  intros (Hin & _ & _ & pr & Hp & Hk). unfold self_killed, curproc.
  rewrite (myproc_inside c p s Hin). cbn [res_bind]. rewrite (getp_lookup _ _ _ Hp). cbn [res_bind].
  by rewrite Hk.
Qed.

(** Waking others inside the lock. *)
Lemma wakeup_pipe ch c p s x :
  in_pipe c p s x -> exists s', wakeup ch s = Ok s' /\ in_pipe c p s' x.
Proof.
  intros (Hin & Hheld & Hpt & pr & Hp & Hk).
  destruct (wakeup_inside ch c p s Hin Hpt) as (s' & -> & Hin' & Hpt' & Hps).
  exists s'. split; [done|]. split_and!; try done; try apply Hheld.
  exists (wake ch pr). split.
  { rewrite Hps. pose proof (list_lookup_fmap (wake ch) (pt_proc s) p) as H. by rewrite Hp in H. }
  unfold wake. by destruct (_ && _).
Qed.

(** Sleeping inside the lock. *)
Lemma sleep_pipe ch c p s x :
  resume_ok p resume -> in_pipe c p s x ->
  exists c' s1 x1 lk0 s0 s' lk', same_rest s s0 /\ same_rest s1 s' /\ resume s0 (set_pi_lock lk0 x) = (s1, x1) /\
    sleep resume ch LkOther s x = Ok (s', set_pi_lock lk' x1) /\
    ((forall pr, pt_proc s1 !! p = Some pr -> killed pr = 0) ->
     in_pipe c' p s' (set_pi_lock lk' x1)).
Proof.
  intros Hres (Hin & Hheld & Hpt & pr & Hp & Hk).
  destruct (sleep_inside_rest resume ch c p s x Hres Hin Hheld Hpt) as
    (c' & s0 & lk0 & s1 & x1 & s' & lk' & pr0 & Hr0 & Hr1 & _ & _ & _ & _ & _ & Hr & Hs & Hin' & Hheld' & Hpt' & pr1 & Hp1 & Hps).
  { by eapply lookup_lt_Some. }
  exists c', s1, x1, lk0, s0, s', lk'. split; [done|]. split; [done|]. split; [done|]. split; [done|]. intros Hk1.
  split_and!; try done; try apply Hheld'. exists (set_chan ChNull pr1). split; [|exact (Hk1 pr1 Hp1)].
  rewrite Hps. apply list_lookup_insert_eq. by eapply lookup_lt_Some.
Qed.

Lemma wait_room_ok c p fuel s x l :
  resume_ok p resume -> apart_from_kernel -> readers p -> in_pipe c p s x -> pipe_rep x l -> readopen x <> 0 ->
  (2 <= fuel)%nat ->
  exists c' s' x' k, wait_room resume a fuel s x = Ok (true, s', x') /\ in_pipe c' p s' x' /\
    pipe_rep x' (drop k l) /\ taken s' = taken s ++ take k l /\ (length (drop k l) < 512)%nat /\ readopen x' <> 0.
Proof.
  intros Hres Hap Hrd Hin Hx Hopen Hf. destruct fuel as [|[|fuel]]; try lia.
  cbn [wait_room]. rewrite (pipe_full x l Hx). case_bool_decide as Hl.
  2: { exists c, s, x, 0%nat. rewrite drop_0. cbn [take]. rewrite app_nil_r. split_and!; try done; try apply Hin.
       pose proof (pr_fit _ _ Hx). lia. }
  rewrite (proj2 (Z.eqb_neq _ _)) by done. rewrite (self_killed_no c p s x Hin). cbn [res_bind].
  destruct (wakeup_pipe (ch_nread a) c p s x Hin) as (s1 & Ewake & Hin1). rewrite Ewake. cbn [res_bind].
  destruct (sleep_pipe (ch_nwrite a) c p s1 x Hres Hin1)
    as (c' & s2 & x2 & lk0 & s0 & s3 & lk' & R0 & R1 & Hr & -> & Hin3). cbn [res_bind].
  destruct (Hrd s0 (set_pi_lock lk0 x) s2 x2 l Hr) as (k & Hx2 & Htk & Hk & Hop & Hkill);
    [by apply pipe_rep_lock | done|]. specialize (Hk Hl).
  cbn [nwrite nread set_pi_lock]. rewrite (pipe_full x2 _ Hx2).
  assert (length (drop k l) < 512)%nat as Hlt by (rewrite length_drop; lia).
  rewrite bool_decide_false by lia.
  exists c', s3, (set_pi_lock lk' x2), k. split_and!; try done; [by apply Hin3 | by apply pipe_rep_lock|].
  rewrite (Hap _ _ R1), Htk, (Hap _ _ R0), (Hap s s1); [done|]. by eapply rest_wakeup.
Qed.

Lemma write_bytes_ok fuel c p src s x l :
  resume_ok p resume -> apart_from_kernel -> readers p -> in_pipe c p s x -> pipe_rep x l -> readopen x <> 0 ->
  (2 <= fuel)%nat ->
  exists c' s' x' gone l', write_bytes resume a fuel src s x = Ok (true, s', x') /\
    in_pipe c' p s' x' /\ pipe_rep x' l' /\ taken s' = taken s ++ gone /\ l ++ src = gone ++ l'.
Proof.
  intros Hres Hap Hrd Hin Hx Hopen Hf. revert c s x l Hin Hx Hopen.
  induction src as [|b src IH]; intros c s x l Hin Hx Hopen; cbn [write_bytes].
  { exists c, s, x, [], l. by rewrite !app_nil_r. }
  destruct (wait_room_ok c p fuel s x l Hres Hap Hrd Hin Hx Hopen Hf)
    as (c1 & s1 & x1 & k & -> & Hin1 & Hx1 & Ht1 & Hlt & Hopen1). cbn [res_bind].
  destruct (pipe_push x1 _ b Hx1 Hlt) as (d & -> & Hx2). cbn [res_bind].
  destruct (IH c1 s1 (set_nwrite (u32 (nwrite x1 + 1)) (set_data d x1)) _ Hin1 Hx2) as (c' & s' & x' & gone & l' & -> & Hin' & Hx' & Ht' & Heq); [done|].
  exists c', s', x', (take k l ++ gone), l'. split_and!; try done; [by rewrite Ht', Ht1, app_assoc|].
  rewrite <- app_assoc, <- Heq. rewrite <- app_assoc. cbn [app]. by rewrite app_assoc, take_drop.
Qed.

Lemma unlock_pipe c p s x :
  in_pipe c p s x -> exists s' k, unlock s x = Ok (s', set_pi_lock k x) /\ outside c p s' /\ locked k = 0.
Proof.
  intros (Hin & Hheld & _). unfold unlock.
  destruct (unlock_inside c p s (pi_lock x) Hin Hheld) as (k & m & -> & Hk & Hout).
  by exists (set_mach m s), k.
Qed.

Lemma rest_lock s x s' x' : lock s x = Ok (s', x') -> same_rest s s'.
Proof. unfold lock. destruct (Spinlock.acquire _ _) as [[l m]| | | |]; try done. by intros [= <- _]. Qed.

Lemma rest_unlock s x s' x' : unlock s x = Ok (s', x') -> same_rest s s'.
Proof. unfold unlock. destruct (Spinlock.release _ _) as [[l m]| | | |]; try done. by intros [= <- _]. Qed.

Lemma lock_pipe c p s x pr :
  outside c p s -> locked (pi_lock x) = 0 -> locked (pt_lock s) = 0 ->
  pt_proc s !! p = Some pr -> killed pr = 0 ->
  exists s' k, lock s x = Ok (s', set_pi_lock k x) /\ in_pipe c p s' (set_pi_lock k x).
Proof.
  intros Hout Hx Hpt Hp Hk. unfold lock.
  destruct (lock_outside c p s (pi_lock x) Hout Hx) as (k & m & -> & Hheld & Hin).
  exists (set_mach m s), k. split; [done|]. split_and!; try done; try apply Hheld. by exists pr.
Qed.

(** C30: [pipewrite] with readers that keep reading returns the number of bytes,
    and what was in the pipe followed by what was written is what the readers
    got meanwhile followed by what is in the pipe: no byte is lost, duplicated or
    reordered, however often the writer slept and the counters wrapped. *)
Theorem pipewrite_spec fuel c p src s x l pr :
  resume_ok p resume -> apart_from_kernel -> readers p -> outside c p s -> locked (pi_lock x) = 0 ->
  locked (pt_lock s) = 0 -> pt_proc s !! p = Some pr -> killed pr = 0 ->
  pipe_rep x l -> readopen x <> 0 -> (2 <= fuel)%nat ->
  exists c' s' x' gone l', pipewrite resume a fuel src s x = Ok (Z.of_nat (length src), s', x') /\
    pipe_rep x' l' /\ taken s' = taken s ++ gone /\ l ++ src = gone ++ l' /\ locked (pi_lock x') = 0 /\ outside c' p s'.
Proof.
  intros Hres Hap Hrd Hout Hlk Hpt Hp Hk Hx Hopen Hf. unfold pipewrite.
  destruct (lock_pipe c p s x pr Hout Hlk Hpt Hp Hk) as (s1 & k & E1 & Hin). rewrite E1. cbn [res_bind].
  destruct (write_bytes_ok fuel c p src s1 (set_pi_lock k x) l Hres Hap Hrd Hin)
    as (c' & s2 & x2 & gone & l' & -> & Hin2 & Hx2 & Ht & Heq); [by apply pipe_rep_lock | done | done|].
  cbn [res_bind]. destruct (wakeup_pipe (ch_nread a) c' p s2 x2 Hin2) as (s3 & E3 & Hin3). rewrite E3.
  cbn [res_bind]. destruct (unlock_pipe c' p s3 x2 Hin3) as (s4 & k4 & E4 & Hout4 & Hk4). rewrite E4.
  cbn [res_bind]. exists c', s4, (set_pi_lock k4 x2), gone, l'. split_and!; try done; [by apply pipe_rep_lock|].
  rewrite (Hap s3 s4), (Hap s2 s3), Ht, (Hap s s1); [done|by eapply rest_lock|by eapply rest_wakeup|by eapply rest_unlock].
Qed.

Lemma wait_data_ok c p fuel s x l :
  resume_ok p resume -> writers p -> in_pipe c p s x -> pipe_rep x l -> (2 <= fuel)%nat ->
  exists c' s' x' l', wait_data resume a fuel s x = Ok (true, s', x') /\ in_pipe c' p s' x' /\
    pipe_rep x' (l ++ l') /\ (l ++ l' <> [] \/ writeopen x' = 0) /\ (l <> [] -> l' = []).
Proof.
  intros Hres Hwr Hin Hx Hf. destruct fuel as [|[|fuel]]; try lia.
  cbn [wait_data]. rewrite (pipe_empty x l Hx).
  destruct (bool_decide (l = []) && negb (writeopen x =? 0)) eqn:E.
  2: { exists c, s, x, []. rewrite app_nil_r. split_and!; try done; try apply Hin.
       apply andb_false_iff in E as [E|E]; [left; by apply bool_decide_eq_false in E | right].
       destruct (Z.eqb_spec (writeopen x) 0); done. }
  apply andb_true_iff in E as [E _]. apply bool_decide_eq_true in E as ->.
  rewrite (self_killed_no c p s x Hin). cbn [res_bind].
  destruct (sleep_pipe (ch_nread a) c p s x Hres Hin)
    as (c' & s2 & x2 & lk0 & s0 & s3 & lk' & _ & _ & Hr & -> & Hin3). cbn [res_bind].
  destruct (Hwr s0 (set_pi_lock lk0 x) s2 x2 [] Hr) as (l' & Hx2 & Hne & Hkill);
    [by apply pipe_rep_lock|]. cbn [app] in Hx2, Hne.
  cbn [nwrite nread writeopen set_pi_lock]. rewrite (pipe_empty x2 _ Hx2).
  assert (bool_decide (l' = []) && negb (writeopen x2 =? 0) = false) as ->.
  { destruct Hne as [Hne|Hne]; [by rewrite bool_decide_false | rewrite Hne; by rewrite andb_false_r]. }
  exists c', s3, (set_pi_lock lk' x2), l'. split_and!; try done; [by apply Hin3 | by apply pipe_rep_lock].
Qed.

(** C31: [piperead] waits for data or for the last writer to close the pipe; it
    returns the oldest bytes, at most as many as asked for, in order, and
    leaves the rest; 0 means that the pipe is empty and closed. *)
Theorem piperead_spec fuel c p n s x l pr :
  resume_ok p resume -> writers p -> outside c p s -> locked (pi_lock x) = 0 ->
  locked (pt_lock s) = 0 -> pt_proc s !! p = Some pr -> killed pr = 0 ->
  pipe_rep x l -> (2 <= fuel)%nat -> (0 < n)%nat ->
  exists c' s' x' l' got, piperead resume a fuel n s x = Ok (Z.of_nat (length got), got, s', x') /\
    got = take n (l ++ l') /\ pipe_rep x' (drop n (l ++ l')) /\ (l <> [] -> l' = []) /\
    (got = [] -> writeopen x' = 0 /\ l ++ l' = []) /\ locked (pi_lock x') = 0 /\ outside c' p s'.
Proof.
  intros Hres Hwr Hout Hlk Hpt Hp Hk Hx Hf Hn. unfold piperead.
  destruct (lock_pipe c p s x pr Hout Hlk Hpt Hp Hk) as (s1 & k & -> & Hin). cbn [res_bind].
  destruct (wait_data_ok c p fuel s1 (set_pi_lock k x) l Hres Hwr Hin)
    as (c' & s2 & x2 & l' & -> & Hin2 & Hx2 & Hne & Hl'); [by apply pipe_rep_lock | done|].
  cbn [res_bind]. destruct (read_bytes_rep n x2 _ Hx2) as (x3 & -> & Hx3 & Hlk3 & _ & Hwo).
  cbn [res_bind]. assert (in_pipe c' p s2 x3) as Hin3.
  { unfold in_pipe. by rewrite Hlk3. }
  destruct (wakeup_pipe (ch_nwrite a) c' p s2 x3 Hin3) as (s4 & -> & Hin4). cbn [res_bind].
  destruct (unlock_pipe c' p s4 x3 Hin4) as (s5 & k5 & -> & Hout5 & Hk5). cbn [res_bind].
  exists c', s5, (set_pi_lock k5 x3), l', (take n (l ++ l')). split_and!; try done.
  - by apply pipe_rep_lock.
  - intros Hgot. destruct (l ++ l') as [|b t] eqn:E; [|destruct n; [lia | done]].
    split; [|done]. destruct Hne as [|Hne]; [done|]. change (writeopen x3 = 0). by rewrite Hwo.
Qed.
End PipeSpec.

(** * The example machine *)

(** A pipe whose counters are about to wrap, holding one byte. *)
Definition demo_pipe : pipe :=
  mkPipe demo_lock (<[511%nat := 7]> (repeat 0 512)) (2 ^ 32 - 1) 0 1 1.

Lemma demo_pipe_rep : pipe_rep demo_pipe [7].
Proof.
  constructor; try done. constructor; try done. intros [|i] b H; [|done]. cbn in H. injection H as <-. done.
Qed.

(** The other end takes [n] bytes if they are there, and prints them. *)
Definition demo_reader (n : nat) (s : kst) (x : pipe) : kst * pipe :=
  match Pipe.read_bytes n x with
  | Ok (l, x') => (printk "%d" (map AInt l) (set_pt_proc (map (set_killed 0) (pt_proc s)) s), x')
  | _ => (s, x)
  end.
Definition printed (s : kst) : list Z :=
  concat (map (fun o => omap (fun a => match a with AInt z => Some z | _ => None end) o.2) (reverse (out s))).

Lemma printed_apart : apart_from_kernel printed.
Proof. intros s s' ->. done. Qed.

Lemma demo_reader_ok n p : resume_ok p (demo_reader n).
Proof.
  intros c s x H1 H2 H3 H4. unfold demo_reader. destruct (Pipe.read_bytes n x) as [[l x']| | | |] eqn:E.
  2-5: by exists c, s, x.
  eexists c, _, _. split; [done|]. split; [done|]. split; [done|]. split; [|cbn; by rewrite length_map].
  assert (pi_lock x' = pi_lock x) as El; [|cbn; by rewrite El].
  revert x l x' H3 E. induction n as [|n IH]; intros x l x' H3; cbn [Pipe.read_bytes]; [by intros [= _ <-]|].
  destruct (_ =? _); [by intros [= _ <-]|]. destruct (zget _ _ _) as [b| | | |]; try done. cbn [res_bind].
  destruct (Pipe.read_bytes n _) as [[l1 x1]| | | |] eqn:E1; try done. cbn [res_bind]. intros [= _ <-].
  by rewrite (IH (set_nread (u32 (nread x + 1)) x) l1 x1 H3 E1).
Qed.

Lemma set_killed_map p (l : list proc) pr : map (set_killed 0) l !! p = Some pr -> killed pr = 0.
Proof.
  intros H. pose proof (list_lookup_fmap (set_killed 0) l p) as E.
  change (map (set_killed 0) l !! p = set_killed 0 <$> l !! p) in E. rewrite H in E.
  destruct (l !! p); cbn in E; by simplify_eq.
Qed.

Lemma demo_readers n p : (0 < n)%nat -> readers (demo_reader n) printed p.
Proof.
  intros Hn s x s' x' l E Hx Ho. unfold demo_reader in E. destruct (read_bytes_rep n x l Hx) as (x1 & Er & Hx1 & _ & Ho1 & _).
  rewrite Er in E. injection E as <- <-. exists n. split; [done|]. split; [|split; [lia|]; split; [by rewrite Ho1|]].
  - unfold printed. cbn [out printk set_out set_pt_proc]. rewrite reverse_cons, map_app, concat_app. f_equal. cbn [map concat snd].
    rewrite app_nil_r. generalize (take n l). intros t. induction t as [|z t IH]; [done|]. exact (f_equal (cons z) IH).
  - intros pr. apply set_killed_map.
Qed.

Lemma pipewrite_spec_witness : exists s' x',
  Pipe.pipewrite (demo_reader 512) 0x80203000 2 [1; 2; 3] (demo_in 0) demo_pipe = Ok (3, s', x').
Proof.
  destruct (pipewrite_spec (demo_reader 512) 0x80203000 printed 2 0 0 [1; 2; 3] (demo_in 0) demo_pipe [7]
    (demo_proc SLEEPING 1 0)) as (c' & s' & x' & gone & l' & H & _).
  - apply demo_reader_ok.
  - apply printed_apart.
  - apply demo_readers. lia.
  - by exists (demo_cpu 0 (Some 0%nat)).
  - done.
  - done.
  - done.
  - done.
  - apply demo_pipe_rep.
  - done.
  - lia.
  - exists s', x'. exact H.
Defined.

(** The other end closes the pipe. *)
Definition demo_closer (s : kst) (x : pipe) : kst * pipe :=
  (set_pt_proc (map (set_killed 0) (pt_proc s)) s, set_writeopen 0 x).

Lemma piperead_spec_witness : exists s' x',
  Pipe.piperead demo_closer 0x80203000 2 5 (demo_in 0) demo_pipe = Ok (1, [7], s', x').
Proof.
  destruct (piperead_spec demo_closer 0x80203000 2 0 0 5 (demo_in 0) demo_pipe [7]
    (demo_proc SLEEPING 1 0)) as (c' & s' & x' & l' & got & H1 & H2 & _ & H3 & _).
  - intros c s x H1 H2 H3 H4. eexists c, _, _. split; [done|]. split_and!; try done; try apply H2.
    cbn. by rewrite length_map.
  - intros s x s' x' l [= <- <-] [H1 H2 H3]. exists []. rewrite app_nil_r. split_and!.
    + by constructor.
    + by right.
    + intros pr. apply set_killed_map.
  - by exists (demo_cpu 0 (Some 0%nat)).
  - done.
  - done.
  - done.
  - done.
  - apply demo_pipe_rep.
  - lia.
  - lia.
  - rewrite (H3 ltac:(done)) in H2. cbn in H2. subst got. exists s', x'. exact H1.
Defined.
