(* ===== verification/Block.v ===== *)
(** Disk blocks and the block device as log.c and fs.c see it.

    A block is its 512 bytes.  The fields of the structures stored in blocks
    are little-endian.  [bdev] is the disk behind the buffer cache: [bread]
    gives the current contents of a block and locks its buffer, [bwrite] puts
    the buffer on the disk, [brelse] unlocks it; the cache itself is in Bio.v.
    The writes that reached the disk are
    recorded in order, so that a crash is a prefix of them. *)

From S2P Require Import Prelude.

Definition BSIZE : Z := 512.
Abbreviation block := (list Z).

(** * Bytes of a block *)

Definition get_bytes (w : string) (l : block) (off : Z) (n : nat) : res (list Z) :=
  if (0 <=? off) && (off + Z.of_nat n <=? Z.of_nat (length l))
  then Ok (take n (drop (Z.to_nat off) l)) else OOB w.

Definition put_bytes (w : string) (l : block) (off : Z) (bs : list Z) : res block :=
  if (0 <=? off) && (off + Z.of_nat (length bs) <=? Z.of_nat (length l))
  then Ok (take (Z.to_nat off) l ++ bs ++ drop (Z.to_nat off + length bs) l) else OOB w.

(** Little-endian numbers of [n] bytes. *)
Fixpoint enc (n : nat) (v : Z) : list Z :=
  match n with O => [] | S k => v mod 256 :: enc k (v / 256) end.
Fixpoint dec (l : list Z) : Z :=
  match l with [] => 0 | b :: l' => b + 256 * dec l' end.

Definition get32 (w : string) (l : block) (off : Z) : res Z :=
  let? bs := get_bytes w l off 4 in Ok (dec bs).
Definition put32 (w : string) (l : block) (off v : Z) : res block := put_bytes w l off (enc 4 v).
Definition get16 (w : string) (l : block) (off : Z) : res Z :=
  let? bs := get_bytes w l off 2 in Ok (dec bs).
Definition put16 (w : string) (l : block) (off v : Z) : res block := put_bytes w l off (enc 2 v).

Lemma enc_length n v : length (enc n v) = n.
Proof. revert v; induction n; intros v; cbn; auto. Qed.

Lemma dec_enc n v : dec (enc n v) = v mod 256 ^ Z.of_nat n.
Proof.
  revert v; induction n as [|n IH]; intros v; cbn [enc dec]; [by rewrite Z.mod_1_r|].
  rewrite IH, Nat2Z.inj_succ, Z.pow_succ_r by lia.
  rewrite (Z.rem_mul_r v 256) by lia. done.
Qed.

Lemma dec_enc_small n v : 0 <= v < 256 ^ Z.of_nat n -> dec (enc n v) = v.
Proof. intros H. rewrite dec_enc. by apply Z.mod_small. Qed.

Lemma put_bytes_in w l off bs :
  0 <= off -> off + Z.of_nat (length bs) <= Z.of_nat (length l) ->
  put_bytes w l off bs = Ok (take (Z.to_nat off) l ++ bs ++ drop (Z.to_nat off + length bs) l).
Proof.
  intros H1 H2. unfold put_bytes.
  by rewrite (proj2 (Z.leb_le _ _) H1), (proj2 (Z.leb_le _ _) H2).
Qed.

Lemma put_bytes_inv w l off bs l' :
  put_bytes w l off bs = Ok l' ->
  0 <= off /\ off + Z.of_nat (length bs) <= Z.of_nat (length l) /\
  l' = take (Z.to_nat off) l ++ bs ++ drop (Z.to_nat off + length bs) l.
Proof.
  unfold put_bytes. destruct (_ && _) eqn:E; [|done]. intros [= <-].
  apply andb_true_iff in E as [E1 E2]. by apply Z.leb_le in E1, E2.
Qed.

Lemma put_bytes_length w l off bs l' : put_bytes w l off bs = Ok l' -> length l' = length l.
Proof.
  intros (H1 & H2 & ->)%put_bytes_inv. rewrite !length_app, length_take, length_drop. lia.
Qed.

Lemma get_bytes_in w l off n :
  0 <= off -> off + Z.of_nat n <= Z.of_nat (length l) ->
  get_bytes w l off n = Ok (take n (drop (Z.to_nat off) l)).
Proof.
  intros H1 H2. unfold get_bytes.
  by rewrite (proj2 (Z.leb_le _ _) H1), (proj2 (Z.leb_le _ _) H2).
Qed.

(** Reading back what was put, and what was not touched. *)
Lemma get_put_same w w' l off bs l' :
  put_bytes w l off bs = Ok l' -> get_bytes w' l' off (length bs) = Ok bs.
Proof.
  intros H. pose proof (put_bytes_length _ _ _ _ _ H) as Hl.
  apply put_bytes_inv in H as (H1 & H2 & ->).
  rewrite get_bytes_in by (try rewrite Hl; lia).
  rewrite drop_app_length' by (rewrite length_take; lia). by rewrite take_app_length.
Qed.

Lemma get_put_other w w' l off bs l' o n :
  put_bytes w l off bs = Ok l' -> o + Z.of_nat n <= off \/ off + Z.of_nat (length bs) <= o ->
  get_bytes w' l' o n = get_bytes w' l o n.
Proof.
  intros H Hdis. pose proof (put_bytes_length _ _ _ _ _ H) as Hl.
  apply put_bytes_inv in H as (E1 & E2 & ->).
  unfold get_bytes at 1 2. rewrite Hl.
  destruct ((0 <=? o) && (o + Z.of_nat n <=? Z.of_nat (length l))) eqn:E; [|done].
  apply andb_true_iff in E as [E3 E4]. apply Z.leb_le in E3, E4.
  f_equal. apply list_eq. intros i.
  destruct (decide (i < n)%nat) as [Hi|Hi]; [|by rewrite !lookup_take_ge by lia].
  rewrite !lookup_take_lt, !lookup_drop by lia.
  destruct Hdis as [Hdis|Hdis].
  - rewrite lookup_app_l by (rewrite length_take; lia). by rewrite lookup_take_lt by lia.
  - rewrite lookup_app_r by (rewrite length_take; lia).
    rewrite lookup_app_r by (rewrite length_take; lia).
    rewrite lookup_drop, length_take. f_equal. lia.
Qed.

Lemma get32_put32_same w w' l off v l' :
  put32 w l off v = Ok l' -> get32 w' l' off = Ok (u32 v).
Proof.
  intros H. unfold get32. apply (get_put_same _ w') in H. rewrite enc_length in H. rewrite H.
  cbn [res_bind]. by rewrite dec_enc.
Qed.

Lemma get32_put32_other w w' l off v l' o :
  put32 w l off v = Ok l' -> o + 4 <= off \/ off + 4 <= o -> get32 w' l' o = get32 w' l o.
Proof.
  intros H Hdis. unfold get32. rewrite (get_put_other _ w' _ _ _ _ o 4 H); [done|].
  rewrite enc_length. lia.
Qed.

Lemma put32_in w l off v :
  0 <= off -> off + 4 <= Z.of_nat (length l) ->
  exists l', put32 w l off v = Ok l' /\ length l' = length l.
Proof.
  intros H1 H2. unfold put32. rewrite put_bytes_in by (rewrite ?enc_length; lia).
  eexists. split; [done|]. rewrite !length_app, length_take, length_drop, enc_length. lia.
Qed.

(** * The block device *)

Record bdev := mkBdev {
  disk : Z -> block;
  cached : Z -> option block;
  held : list Z;
  pinned : list Z;
  writes : list (Z * block);
  nblk : Z
}.
#[export] Instance bdev_eta : Eta bdev := fun d =>
  mkBdev (disk d) (cached d) (held d) (pinned d) (writes d) (nblk d).
Definition set_disk := ltac:(setter disk).
Definition set_cached := ltac:(setter cached).
Definition set_held := ltac:(setter held).
Definition set_pinned := ltac:(setter pinned).
Definition set_writes := ltac:(setter writes).

Definition fupd {A : Type} (f : Z -> A) (a : Z) (v : A) : Z -> A :=
  fun x => if x =? a then v else f x.

Lemma fupd_eq {A : Type} (f : Z -> A) a v : fupd f a v a = v.
Proof. unfold fupd. by rewrite Z.eqb_refl. Qed.
Lemma fupd_ne {A : Type} (f : Z -> A) a v x : x <> a -> fupd f a v x = f x.
Proof. intros H. unfold fupd. by rewrite (proj2 (Z.eqb_neq _ _)). Qed.

Module Dev.

(** What the next reader of block [b] gets. *)
Definition contents (d : bdev) (b : Z) : block :=
  match cached d b with Some v => v | None => disk d b end.

(** [bread]: a buffer that is in use by this process would be waited for
    forever; blocks beyond the disk and other devices panic in [iderw]. *)
Definition bread (dev b : Z) (d : bdev) : res (block * bdev) :=
  if bool_decide (b ∈ held d) then Spin
  else if negb (dev =? 1) then Panic "iderw: request not for disk 1"
  else if nblk d <=? b then Panic "iderw: block out of range"
  else Ok (contents d b, set_held (b :: held d) (set_cached (fupd (cached d) b (Some (contents d b))) d)).

(** The caller changes the data of the buffer it holds. *)
Definition bset (b : Z) (v : block) (d : bdev) : bdev :=
  set_cached (fupd (cached d) b (Some v)) d.

Definition del_z (b : Z) (l : list Z) : list Z := filter (fun x => x <> b) l.

(** [bwrite]. *)
Definition bwrite (b : Z) (d : bdev) : res bdev :=
  if bool_decide (b ∈ held d) then
    Ok (set_pinned (del_z b (pinned d))
       (set_writes (writes d ++ [(b, contents d b)])
       (set_disk (fupd (disk d) b (contents d b)) d)))
  else Panic "bwrite".

(** [b->flags |= B_DIRTY] of log.c. *)
Definition pin (b : Z) (d : bdev) : bdev := set_pinned (b :: pinned d) d.

Definition brelse (b : Z) (d : bdev) : res bdev :=
  if bool_decide (b ∈ held d) then Ok (set_held (del_z b (held d)) d) else Panic "brelse".

(** The machine starts: nothing is cached. *)
Definition boot (dk : Z -> block) (n : Z) : bdev := mkBdev dk (fun _ => None) [] [] [] n.

End Dev.
