(* ===== verification/Elf.v ===== *)
(** The ELF headers of [elf.h], as [exec] of exec.c and [bootmain] of bootmain.c
    read them. *)

From S2P Require Import Prelude Block.

Definition ELF_MAGIC : Z := 0x464C457F.
Definition ELF_PROG_LOAD : Z := 1.

Record elfhdr := mkElf {
  e_magic : Z;
  e_elf : list Z;
  e_type : Z;
  e_machine : Z;
  e_version : Z;
  e_entry : Z;
  e_phoff : Z;
  e_shoff : Z;
  e_flags : Z;
  e_ehsize : Z;
  e_phentsize : Z;
  e_phnum : Z;
  e_shentsize : Z;
  e_shnum : Z;
  e_shstrndx : Z
}.

Record proghdr := mkProghdr {
  ph_type : Z;
  ph_off : Z;
  ph_vaddr : Z;
  ph_paddr : Z;
  ph_filesz : Z;
  ph_memsz : Z;
  ph_flags : Z;
  ph_align : Z
}.

Definition sizeof_elf : Z := 52.
Definition sizeof_ph : Z := 32.

(** The structures as [readi] fills them. *)
Definition get_elf (bs : list Z) : res elfhdr :=
  let w := get32 "elf" bs in
  let h := get16 "elf" bs in
  let? magic := w 0 in
  let? ident := get_bytes "elf" bs 4 12 in
  let? type := h 16 in
  let? machine := h 18 in
  let? version := w 20 in
  let? entry := w 24 in
  let? phoff := w 28 in
  let? shoff := w 32 in
  let? flags := w 36 in
  let? ehsize := h 40 in
  let? phentsize := h 42 in
  let? phnum := h 44 in
  let? shentsize := h 46 in
  let? shnum := h 48 in
  let? shstrndx := h 50 in
  Ok (mkElf magic ident type machine version entry phoff shoff flags ehsize phentsize phnum shentsize shnum shstrndx).

Definition get_proghdr (bs : list Z) : res proghdr :=
  let w := get32 "ph" bs in
  let? type := w 0 in
  let? off := w 4 in
  let? vaddr := w 8 in
  let? paddr := w 12 in
  let? filesz := w 16 in
  let? memsz := w 20 in
  let? flags := w 24 in
  let? align := w 28 in
  Ok (mkProghdr type off vaddr paddr filesz memsz flags align).
