(* ===== verification/Log.v ===== *)
(** The write-ahead log: [log.c], and [readsb] of [fs.c].

    The state is [lst]: the structure [log] with the block device behind it.
    A crash keeps a prefix of the disk writes; the theorems say that recovery
    then finds the whole transaction or nothing of it. *)

From S2P Require Import Prelude CString Spinlock Kalloc Proc Demo MlfqFacts ProcFacts Sleep Block.

Definition MAXOPBLOCKS : Z := 10.
Definition LOGSIZE : Z := MAXOPBLOCKS * 3.

(** * Data *)

Record superblock := mkSb {
  sb_size : Z; sb_nblocks : Z; sb_ninodes : Z; sb_nlog : Z;
  sb_logstart : Z; sb_inodestart : Z; sb_bmapstart : Z
}.

(** [struct log] with its [struct logheader]. *)
Record log := mkLog {
  lg_lock : spinlock;
  lg_start : Z;
  lg_size : Z;
  outstanding : Z;
  committing : Z;
  lg_dev : Z;
  lh_n : Z;
  lh_block : list Z
}.
#[export] Instance log_eta : Eta log := fun x =>
  mkLog (lg_lock x) (lg_start x) (lg_size x) (outstanding x) (committing x) (lg_dev x)
    (lh_n x) (lh_block x).
Definition set_lg_lock := ltac:(setter lg_lock).
Definition set_lg_start := ltac:(setter lg_start).
Definition set_lg_size := ltac:(setter lg_size).
Definition set_outstanding := ltac:(setter outstanding).
Definition set_committing := ltac:(setter committing).
Definition set_lg_dev := ltac:(setter lg_dev).
Definition set_lh_n := ltac:(setter lh_n).
Definition set_lh_block := ltac:(setter lh_block).

Record lst := mkLst { lg : log; bd : bdev }.
#[export] Instance lst_eta : Eta lst := fun x => mkLst (lg x) (bd x).
Definition set_lg := ltac:(setter lg).
Definition set_bd := ltac:(setter bd).

#[export] Instance guarded_log : Guarded lst :=
  {| the_lock x := lg_lock (lg x); put_lock k x := set_lg (set_lg_lock k (lg x)) x;
     the_put _ _ := eq_refl |}.

Module Log.
Import Dev.

(** [readsb] of fs.c. *)
Definition readsb (dev : Z) (d : bdev) : res (superblock * bdev) :=
  let? (bp, d) := bread dev 1 d in
  let? a := get32 "buf.data" bp 0 in
  let? b := get32 "buf.data" bp 4 in
  let? c := get32 "buf.data" bp 8 in
  let? e := get32 "buf.data" bp 12 in
  let? f := get32 "buf.data" bp 16 in
  let? g := get32 "buf.data" bp 20 in
  let? h := get32 "buf.data" bp 24 in
  let? d := brelse 1 d in
  Ok (mkSb a b c e f g h, d).

(** The loop of [install_trans] from [tail] on. *)
Fixpoint install_loop (n : nat) (tail : Z) (x : lst) : res lst :=
  match n with
  | O => Ok x
  | S n' =>
      let l := lg x in
      let? (lbuf, d) := bread (lg_dev l) (lg_start l + tail + 1) (bd x) in
      let? b := zget "log.lh.block" (lh_block l) tail in
      let? (_, d) := bread (lg_dev l) b d in
      let d := bset b lbuf d in
      let? d := bwrite b d in
      let? d := brelse (lg_start l + tail + 1) d in
      let? d := brelse b d in
      install_loop n' (tail + 1) (set_bd d x)
  end.

Definition install_trans (x : lst) : res lst := install_loop (Z.to_nat (lh_n (lg x))) 0 x.

(** [for (i = 0; i < log.lh.n; i++) log.lh.block[i] = lh->block[i]]. *)
Fixpoint read_head_loop (n : nat) (i : Z) (buf : block) (l : log) : res log :=
  match n with
  | O => Ok l
  | S n' =>
      let? v := get32 "buf.data" buf (4 + 4 * i) in
      let? bl := zset "log.lh.block" (lh_block l) i (s32 v) in
      read_head_loop n' (i + 1) buf (set_lh_block bl l)
  end.

Definition read_head (x : lst) : res lst :=
  let? (buf, d) := bread (lg_dev (lg x)) (lg_start (lg x)) (bd x) in
  let? n := get32 "buf.data" buf 0 in
  let l := set_lh_n (s32 n) (lg x) in
  let? l := read_head_loop (Z.to_nat (lh_n l)) 0 buf l in
  let? d := brelse (lg_start (lg x)) d in
  Ok (mkLst l d).

Fixpoint write_head_loop (n : nat) (i : Z) (bl : list Z) (buf : block) : res block :=
  match n with
  | O => Ok buf
  | S n' =>
      let? b := zget "log.lh.block" bl i in
      let? buf := put32 "buf.data" buf (4 + 4 * i) b in
      write_head_loop n' (i + 1) bl buf
  end.

Definition write_head (x : lst) : res lst :=
  let l := lg x in
  let? (buf, d) := bread (lg_dev l) (lg_start l) (bd x) in
  let? buf := put32 "buf.data" buf 0 (lh_n l) in
  let? buf := write_head_loop (Z.to_nat (lh_n l)) 0 (lh_block l) buf in
  let d := bset (lg_start l) buf d in
  let? d := bwrite (lg_start l) d in
  let? d := brelse (lg_start l) d in
  Ok (set_bd d x).

Definition recover_from_log (x : lst) : res lst :=
  let? x := read_head x in
  let? x := install_trans x in
  let x := set_lg (set_lh_n 0 (lg x)) x in
  write_head x.

Definition sizeof_logheader : Z := 4 + 4 * LOGSIZE.

Definition initlog (dev : Z) (x : lst) : res lst :=
  if BSIZE <=? sizeof_logheader then Panic "initlog: too big logheader"
  else
    let l := set_lg_lock (Spinlock.initlock "log" (lg_lock (lg x))) (lg x) in
    let? (sb, d) := readsb dev (bd x) in
    let l := set_lg_start (s32 (sb_logstart sb)) l in
    let l := set_lg_size (s32 (sb_nlog sb)) l in
    let l := set_lg_dev dev l in
    recover_from_log (mkLst l d).

(** The loop of [write_log] from [tail] on. *)
Fixpoint write_log_loop (n : nat) (tail : Z) (x : lst) : res lst :=
  match n with
  | O => Ok x
  | S n' =>
      let l := lg x in
      let? (_, d) := bread (lg_dev l) (lg_start l + tail + 1) (bd x) in
      let? b := zget "log.lh.block" (lh_block l) tail in
      let? (from, d) := bread (lg_dev l) b d in
      let d := bset (lg_start l + tail + 1) from d in
      let? d := bwrite (lg_start l + tail + 1) d in
      let? d := brelse b d in
      let? d := brelse (lg_start l + tail + 1) d in
      write_log_loop n' (tail + 1) (set_bd d x)
  end.

Definition write_log (x : lst) : res lst := write_log_loop (Z.to_nat (lh_n (lg x))) 0 x.

Definition commit (x : lst) : res lst :=
  if 0 <? lh_n (lg x) then
    let? x := write_log x in
    let? x := write_head x in
    let? x := install_trans x in
    let x := set_lg (set_lh_n 0 (lg x)) x in
    write_head x
  else Ok x.

(** ** Transactions *)

Section Ops.
Import Ptable.
Context `{SV : Services} (resume : kst -> lst -> kst * lst).
(** The address of [log], its channel. *)
Context (a : Z).

Definition lock (s : kst) (x : lst) : res (kst * lst) :=
  let? (k, m) := Spinlock.acquire (lg_lock (lg x)) (mach s) in
  Ok (set_mach m s, set_lg (set_lg_lock k (lg x)) x).
Definition unlock (s : kst) (x : lst) : res (kst * lst) :=
  let? (k, m) := Spinlock.release (lg_lock (lg x)) (mach s) in
  Ok (set_mach m s, set_lg (set_lg_lock k (lg x)) x).

(** The loop of [begin_op], at most [fuel] rounds. *)
Fixpoint begin_loop (fuel : nat) (s : kst) (x : lst) : res (kst * lst) :=
  match fuel with
  | O => OutOfFuel
  | S n =>
      if negb (committing (lg x) =? 0) then
        let? (s, x) := sleep resume (ChAddr a) LkOther s x in begin_loop n s x
      else if LOGSIZE <? lh_n (lg x) + (outstanding (lg x) + 1) * MAXOPBLOCKS then
        let? (s, x) := sleep resume (ChAddr a) LkOther s x in begin_loop n s x
      else
        let x := set_lg (set_outstanding (outstanding (lg x) + 1) (lg x)) x in
        unlock s x
  end.

Definition begin_op (fuel : nat) (s : kst) (x : lst) : res (kst * lst) :=
  let? (s, x) := lock s x in begin_loop fuel s x.

Definition end_op (s : kst) (x : lst) : res (kst * lst) :=
  let? (s, x) := lock s x in
  let x := set_lg (set_outstanding (outstanding (lg x) - 1) (lg x)) x in
  if negb (committing (lg x) =? 0) then Panic "log.committing"
  else
    let? (do_commit, s, x) :=
      (if outstanding (lg x) =? 0 then Ok (true, s, set_lg (set_committing 1 (lg x)) x)
       else let? s := wakeup (ChAddr a) s in Ok (false, s, x)) in
    let? (s, x) := unlock s x in
    if do_commit : bool then
      let? x := commit x in
      let? (s, x) := lock s x in
      let x := set_lg (set_committing 0 (lg x)) x in
      let? s := wakeup (ChAddr a) s in
      unlock s x
    else Ok (s, x).

(** The search loop of [log_write]. *)
Fixpoint find_block (n : nat) (i : Z) (bl : list Z) (b : Z) : res Z :=
  match n with
  | O => Ok i
  | S n' =>
      let? v := zget "log.lh.block" bl i in
      if v =? b then Ok i else find_block n' (i + 1) bl b
  end.

(** [log_write] of the buffer of block [b]. *)
Definition log_write (b : Z) (s : kst) (x : lst) : res (kst * lst) :=
  if (LOGSIZE <=? lh_n (lg x)) || (lg_size (lg x) - 1 <=? lh_n (lg x))
  then Panic "too big a transaction"
  else if outstanding (lg x) <? 1 then Panic "log_write outside of trans"
  else
    let? (s, x) := lock s x in
    let l := lg x in
    let? i := find_block (Z.to_nat (lh_n l)) 0 (lh_block l) b in
    let? bl := zset "log.lh.block" (lh_block l) i b in
    let l := set_lh_block bl l in
    let l := (if i =? lh_n l then set_lh_n (lh_n l + 1) l else l) in
    let x := mkLst l (pin b (bd x)) in
    unlock s x.

End Ops.
End Log.
