(* ===== verification/LogFacts.v ===== *)
(** Properties of the log: a commit puts the whole transaction on the disk,
    and whatever prefix of its writes a crash leaves, recovery finds the whole
    transaction or nothing of it; recovery itself may crash. *)

From S2P Require Import Prelude CString Spinlock Kalloc Proc Demo MlfqFacts ProcFacts Sleep Block Log.

(** * Disk writes *)

Definition apply_writes (ws : list (Z * block)) (dk : Z -> block) : Z -> block :=
  fold_left (fun f w => fupd f w.1 w.2) ws dk.

Lemma apply_writes_app ws ws' dk : apply_writes (ws ++ ws') dk = apply_writes ws' (apply_writes ws dk).
Proof. unfold apply_writes. by rewrite fold_left_app. Qed.

Lemma apply_writes_notin ws dk b : b ∉ ws.*1 -> apply_writes ws dk b = dk b.
Proof.
  revert dk; induction ws as [|[a v] ws IH]; intros dk; [done|]. cbn [fmap list_fmap fst].
  rewrite not_elem_of_cons. intros [Hne Hnin]. unfold apply_writes in *. cbn. rewrite IH by done.
  by rewrite fupd_ne.
Qed.

(** The transaction: blocks [bs] get the contents [vs]. *)
Fixpoint find_write (ps : list Z) (vs : list block) (b : Z) : option block :=
  match ps, vs with
  | p :: ps', v :: vs' => if b =? p then Some v else find_write ps' vs' b
  | _, _ => None
  end.

Definition installed (ps : list Z) (vs : list block) (dk : Z -> block) (b : Z) : block :=
  match find_write ps vs b with Some v => v | None => dk b end.

Lemma find_write_None ps vs b : length ps = length vs -> find_write ps vs b = None <-> b ∉ ps.
Proof.
  revert vs; induction ps as [|p ps IH]; intros [|v vs] Hl; try done; cbn.
  { split; [intros _; apply not_elem_of_nil | done]. }
  injection Hl as Hl. rewrite not_elem_of_cons. destruct (Z.eqb_spec b p) as [->|Hne].
  - split; [done | by intros []].
  - rewrite IH by done. tauto.
Qed.

Lemma find_write_Some ps vs i p v :
  NoDup ps -> ps !! i = Some p -> vs !! i = Some v -> find_write ps vs p = Some v.
Proof.
  revert vs i; induction ps as [|q ps IH]; intros [|w vs] [|i] Hnd Hp Hv; try done.
  - cbn in *. simplify_eq. by rewrite Z.eqb_refl.
  - cbn in Hp, Hv |- *. inversion Hnd; subst. rewrite (proj2 (Z.eqb_neq _ _)); [by eapply IH|].
    intros ->. by apply list_elem_of_lookup_2 in Hp.
Qed.

Lemma apply_zip ps vs dk b :
  NoDup ps -> length ps = length vs -> apply_writes (zip ps vs) dk b = installed ps vs dk b.
Proof.
  unfold installed. revert vs dk; induction ps as [|p ps IH]; intros [|v vs] dk Hnd Hl; try done.
  inversion Hnd as [|? ? Hp Hnd']; subst. injection Hl as Hl.
  change (apply_writes (zip ps vs) (fupd dk p v) b = match find_write (p :: ps) (v :: vs) b with
    Some v => v | None => dk b end).
  rewrite IH by done. cbn [find_write]. destruct (Z.eqb_spec b p) as [->|Hne].
  - rewrite (proj2 (find_write_None ps vs p Hl) Hp). apply fupd_eq.
  - destruct (find_write ps vs b); [done|]. by apply fupd_ne.
Qed.

(** * The steps on the block device *)

Section Steps.
Import Dev Log.
Implicit Types (d : bdev) (x : lst) (bs : list Z) (vs : list block).

Lemma del_z_id (b : Z) l : b ∉ l -> del_z b l = l.
Proof.
  induction l as [|c l IH]; [done|]. rewrite not_elem_of_cons. intros [Hne Hl].
  unfold del_z in *. rewrite filter_cons_True by congruence. by rewrite IH.
Qed.

Lemma del_z_head (b : Z) l : b ∉ l -> del_z b (b :: l) = l.
Proof.
  intros H. unfold del_z. rewrite filter_cons_False by (by intros []). by apply del_z_id.
Qed.

(** [d'] is [d] with the buffers [l] held. *)
Record holding d (l : list Z) d' : Prop := {
  hd_disk : disk d' = disk d;
  hd_writes : writes d' = writes d;
  hd_held : held d' = l ++ held d;
  hd_nblk : nblk d' = nblk d;
  hd_pinned : pinned d' = pinned d;
  hd_contents b : contents d' b = contents d b
}.

Lemma bread_ok d0 l d b :
  holding d0 l d -> b ∉ held d -> b < nblk d ->
  exists d', bread 1 b d = Ok (contents d0 b, d') /\ holding d0 (b :: l) d'.
Proof.
  intros [H1 H2 H3 H4 H5 H6] Hb Hn. unfold bread. rewrite bool_decide_false by done.
  cbn [negb Z.eqb Pos.eqb]. rewrite (proj2 (Z.leb_gt _ _)) by lia. rewrite H6.
  eexists. split; [done|]. constructor; try done; cbn.
  - by rewrite H3.
  - intros c. unfold contents. cbn. unfold fupd. destruct (Z.eqb_spec c b) as [->|Hne]; [done|]. apply H6.
Qed.

(** What copying a block does: [to] gets [v] in the cache and on the disk. *)
Record copied d (to : Z) (v : block) d' : Prop := {
  cp_disk : disk d' = fupd (disk d) to v;
  cp_writes : writes d' = writes d ++ [(to, v)];
  cp_held : held d' = held d;
  cp_nblk : nblk d' = nblk d;
  cp_contents b : contents d' b = fupd (contents d) to v b
}.

Lemma brelse_ok d b : b ∈ held d -> brelse b d = Ok (set_held (del_z b (held d)) d).
Proof. intros H. unfold brelse. by rewrite bool_decide_true. Qed.

(** Writing [v] to the held buffer [to] and on to the disk. *)
Lemma bset_bwrite d0 l d to v :
  holding d0 l d -> to ∈ l ->
  exists d', bwrite to (bset to v d) = Ok d' /\
    disk d' = fupd (disk d0) to v /\ writes d' = writes d0 ++ [(to, v)] /\
    held d' = l ++ held d0 /\ nblk d' = nblk d0 /\
    (forall b, contents d' b = fupd (contents d0) to v b).
Proof.
  intros [H1 H2 H3 H4 H5 H6] Hin. unfold bwrite. cbn [held bset set_cached].
  rewrite bool_decide_true by (rewrite H3; apply elem_of_app; by left).
  assert (contents (bset to v d) to = v) as Hv by (unfold contents; cbn; by rewrite fupd_eq).
  eexists. split; [done|]. cbn. rewrite Hv, H1, H2. split_and!; try done.
  intros b. unfold contents at 1. cbn. unfold fupd.
  destruct (Z.eqb_spec b to) as [->|Hne]; [done|]. rewrite <- H1. apply H6.
Qed.

(** Copying [from] to [to] with both buffers read in either order. *)
Lemma copied_intro d0 d to v d' l :
  disk d = fupd (disk d0) to v -> writes d = writes d0 ++ [(to, v)] -> nblk d = nblk d0 ->
  (forall b, contents d b = fupd (contents d0) to v b) -> d' = set_held l d -> l = held d0 ->
  copied d0 to v d'.
Proof. intros H1 H2 H3 H4 -> ->. constructor; try done. Qed.

Lemma copy_blocks d a b to :
  a ∉ held d -> b ∉ held d -> a <> b -> a < nblk d -> b < nblk d -> to = a \/ to = b ->
  let v := contents d (if to =? a then b else a) in
  exists d1 d2 d3, bread 1 a d = Ok (contents d a, d1) /\ bread 1 b d1 = Ok (contents d b, d2) /\
    bwrite to (bset to v d2) = Ok d3 /\
    (exists d4, brelse b d3 = Ok d4 /\ exists d5, brelse a d4 = Ok d5 /\ copied d to v d5) /\
    (exists d4, brelse a d3 = Ok d4 /\ exists d5, brelse b d4 = Ok d5 /\ copied d to v d5).
Proof.
  intros Ha Hb Hne Hna Hnb Hto v.
  assert (holding d [] d) as H0 by done.
  destruct (bread_ok d [] d a H0 Ha Hna) as (d1 & E1 & Hd1).
  destruct (bread_ok d [a] d1 b Hd1) as (d2 & E2 & Hd2).
  { rewrite (hd_held _ _ _ Hd1). cbn. rewrite not_elem_of_cons. auto. }
  { by rewrite (hd_nblk _ _ _ Hd1). }
  destruct (bset_bwrite d [b; a] d2 to v Hd2) as (d3 & E3 & Hk & Hw & Hh & Hn & Hc).
  { destruct Hto as [->| ->]; [right; left | left]. }
  exists d1, d2, d3. split; [done|]. split; [done|]. split; [done|].
  cbn [app] in Hh. split.
  - exists (set_held (a :: held d) d3). rewrite brelse_ok by (rewrite Hh; left).
    rewrite Hh, del_z_head by (rewrite not_elem_of_cons; auto). split; [done|].
    eexists. rewrite brelse_ok by (cbn; left). cbn [held set_held].
    rewrite del_z_head by done. split; [done|]. by eapply copied_intro.
  - exists (set_held (b :: held d) d3). rewrite brelse_ok by (rewrite Hh; right; left).
    assert (del_z a (b :: a :: held d) = b :: held d) as Hdel.
    { unfold del_z. rewrite filter_cons_True by congruence. f_equal. by apply del_z_head. }
    rewrite Hh, Hdel. split; [done|].
    eexists. rewrite brelse_ok by (cbn; left). cbn [held set_held].
    rewrite del_z_head by done. split; [done|]. by eapply copied_intro.
Qed.

(** [d'] is [d] after the disk writes [ws], each through its buffer. *)
Record wrote d (ws : list (Z * block)) d' : Prop := {
  wr_disk : disk d' = apply_writes ws (disk d);
  wr_writes : writes d' = writes d ++ ws;
  wr_held : held d' = held d;
  wr_nblk : nblk d' = nblk d;
  wr_contents b : contents d' b = apply_writes ws (contents d) b
}.

Lemma wrote_nil d : wrote d [] d.
Proof. constructor; try done. by rewrite app_nil_r. Qed.

Lemma apply_writes_ext ws f g b : (forall c, f c = g c) -> apply_writes ws f b = apply_writes ws g b.
Proof.
  revert f g; induction ws as [|w ws IH]; intros f g H; [apply H|].
  unfold apply_writes. cbn. apply IH. intros c. unfold fupd. by destruct (_ =? _).
Qed.

Lemma wrote_app d1 ws d2 ws' d3 : wrote d1 ws d2 -> wrote d2 ws' d3 -> wrote d1 (ws ++ ws') d3.
Proof.
  intros [A1 A2 A3 A4 A5] [B1 B2 B3 B4 B5]. constructor.
  - by rewrite apply_writes_app, <- A1.
  - by rewrite B2, A2, app_assoc.
  - congruence.
  - congruence.
  - intros b. rewrite B5, apply_writes_app. by apply apply_writes_ext.
Qed.

Lemma copied_wrote d to v d' : copied d to v d' -> wrote d [(to, v)] d'.
Proof. intros [H1 H2 H3 H4 H5]. by constructor. Qed.

(** The log blocks [k], ..., [k + n - 1]. *)
Definition slots (start : Z) (k n : nat) : list Z := (fun i => start + Z.of_nat i + 1) <$> seq k n.

Lemma elem_of_slots start k n b :
  b ∈ slots start k n <-> start + Z.of_nat k + 1 <= b <= start + Z.of_nat (k + n).
Proof.
  unfold slots. rewrite list_elem_of_fmap. split.
  - intros (i & -> & Hi%elem_of_seq). lia.
  - intros H. exists (Z.to_nat (b - start - 1)). rewrite elem_of_seq. split; lia.
Qed.

Lemma slots_NoDup start k n : NoDup (slots start k n).
Proof. apply NoDup_fmap_2; [intros a b H; lia | apply NoDup_seq]. Qed.

Lemma slots_length start k n : length (slots start k n) = n.
Proof. unfold slots. by rewrite length_fmap, length_seq. Qed.

(** A block outside of what a transaction of [n] blocks uses of the log: the
    header and [n] blocks behind it. *)
Definition data_block (n : nat) (l : log) (b : Z) : Prop := b < lg_start l \/ lg_start l + Z.of_nat n < b.

(** The transaction in memory: blocks [bs]. *)
Record tx_ok x bs : Prop := {
  tx_dev : lg_dev (lg x) = 1;
  tx_n : lh_n (lg x) = Z.of_nat (length bs);
  tx_block i b : bs !! i = Some b -> lh_block (lg x) !! i = Some b;
  tx_cap : length (lh_block (lg x)) = 30%nat;
  tx_fit : (length bs <= 30)%nat;
  tx_nodup : NoDup bs;
  tx_data : Forall (fun b => data_block (length bs) (lg x) b /\ 0 <= b < 2 ^ 31 /\ b < nblk (bd x)) bs;
  tx_log : lg_start (lg x) + LOGSIZE < nblk (bd x);
  tx_held : held (bd x) = []
}.

Lemma tx_set_bd x bs d : tx_ok x bs -> nblk d = nblk (bd x) -> held d = [] -> tx_ok (set_bd d x) bs.
Proof. intros [] Hn Hh. constructor; try done; cbn; by rewrite Hn. Qed.

Lemma tx_elem x bs b : tx_ok x bs -> b ∈ bs -> data_block (length bs) (lg x) b /\ 0 <= b < 2 ^ 31 /\ b < nblk (bd x).
Proof. intros H Hb. pose proof (tx_data _ _ H) as Hf. rewrite Forall_forall in Hf. auto. Qed.

Lemma write_log_loop_ok x bs b1 b2 :
  tx_ok x bs -> bs = b1 ++ b2 ->
  exists d', write_log_loop (length b2) (Z.of_nat (length b1)) x = Ok (set_bd d' x) /\
    wrote (bd x) (zip (slots (lg_start (lg x)) (length b1) (length b2)) (contents (bd x) <$> b2)) d'.
Proof.
  revert x b1; induction b2 as [|b b2 IH]; intros x b1 Hx Hbs.
  { exists (bd x). split; [by destruct x | apply wrote_nil]. }
  pose proof (tx_fit _ _ Hx) as Hfit. pose proof (f_equal length Hbs) as HL. rewrite length_app in HL. cbn [length] in HL.
  assert (b ∈ bs) as Hin by (rewrite Hbs; apply elem_of_app; right; left).
  destruct (tx_elem x bs b Hx Hin) as (Hdata & _ & Hnb). pose proof (tx_log _ _ Hx) as Hlog.
  unfold LOGSIZE, MAXOPBLOCKS, data_block in *. set (to := lg_start (lg x) + Z.of_nat (length b1) + 1).
  destruct (copy_blocks (bd x) to b to) as (d1 & d2 & d3 & E1 & E2 & E3 & (d4 & E4 & d5 & E5 & Hc) & _);
    rewrite ?(tx_held _ _ Hx); try apply not_elem_of_nil; unfold to; unfold LOGSIZE, MAXOPBLOCKS in *; try lia.
  rewrite Z.eqb_refl in E3, Hc. fold to in E1, E3, E5, Hc.
  cbn [length write_log_loop]. rewrite (tx_dev _ _ Hx). fold to. rewrite E1. cbn [res_bind].
  rewrite (zget_of_nat _ _ _ b).
  2: { apply (tx_block _ _ Hx). rewrite Hbs. by apply list_lookup_middle. }
  cbn [res_bind]. rewrite E2. cbn [res_bind]. rewrite E3. cbn [res_bind].
  rewrite E4. cbn [res_bind]. rewrite E5. cbn [res_bind].
  destruct (IH (set_bd d5 x) (b1 ++ [b])) as (d' & Hl & Hw).
  { apply tx_set_bd; [done | by rewrite (cp_nblk _ _ _ _ Hc) | by rewrite (cp_held _ _ _ _ Hc), (tx_held _ _ Hx)]. }
  { by rewrite <- app_assoc. }
  rewrite length_app, Nat.add_1_r in Hl, Hw. rewrite Nat2Z.inj_succ in Hl.
  replace (Z.of_nat (length b1) + 1) with (Z.succ (Z.of_nat (length b1))) by lia.
  exists d'. split; [exact Hl|].
  change (zip (slots (lg_start (lg x)) (length b1) (S (length b2))) (contents (bd x) <$> b :: b2))
    with ([(to, contents (bd x) b)] ++
          zip (slots (lg_start (lg x)) (S (length b1)) (length b2)) (contents (bd x) <$> b2)).
  eapply wrote_app; [by apply copied_wrote|].
  replace (contents (bd x) <$> b2) with (contents d5 <$> b2); [exact Hw|].
  apply list_fmap_ext. intros i c Hc2. rewrite (cp_contents _ _ _ _ Hc). apply fupd_ne.
  intros ->. destruct (tx_elem x bs to Hx) as (Hd & _).
  { rewrite Hbs. apply elem_of_app. right; right. by eapply list_elem_of_lookup_2. }
  unfold data_block, to, LOGSIZE, MAXOPBLOCKS in Hd. lia.
Qed.

Lemma install_loop_ok x bs b1 b2 :
  tx_ok x bs -> bs = b1 ++ b2 ->
  exists d', install_loop (length b2) (Z.of_nat (length b1)) x = Ok (set_bd d' x) /\
    wrote (bd x) (zip b2 (contents (bd x) <$> slots (lg_start (lg x)) (length b1) (length b2))) d'.
Proof.
  revert x b1; induction b2 as [|b b2 IH]; intros x b1 Hx Hbs.
  { exists (bd x). split; [by destruct x | apply wrote_nil]. }
  pose proof (tx_fit _ _ Hx) as Hfit. pose proof (f_equal length Hbs) as HL. rewrite length_app in HL. cbn [length] in HL.
  assert (b ∈ bs) as Hin by (rewrite Hbs; apply elem_of_app; right; left).
  destruct (tx_elem x bs b Hx Hin) as (Hdata & _ & Hnb). pose proof (tx_log _ _ Hx) as Hlog.
  unfold LOGSIZE, MAXOPBLOCKS, data_block in *. set (from := lg_start (lg x) + Z.of_nat (length b1) + 1).
  destruct (copy_blocks (bd x) from b b) as (d1 & d2 & d3 & E1 & E2 & E3 & _ & (d4 & E4 & d5 & E5 & Hc));
    rewrite ?(tx_held _ _ Hx); try apply not_elem_of_nil; unfold from; unfold LOGSIZE, MAXOPBLOCKS in *; try lia.
  fold from in E1, E3, E4, Hc. rewrite (proj2 (Z.eqb_neq b from)) in E3, Hc by (unfold from; lia).
  cbn [length install_loop]. rewrite (tx_dev _ _ Hx). fold from. rewrite E1. cbn [res_bind].
  rewrite (zget_of_nat _ _ _ b).
  2: { apply (tx_block _ _ Hx). rewrite Hbs. by apply list_lookup_middle. }
  cbn [res_bind]. rewrite E2. cbn [res_bind]. rewrite E3. cbn [res_bind].
  rewrite E4. cbn [res_bind]. rewrite E5. cbn [res_bind].
  destruct (IH (set_bd d5 x) (b1 ++ [b])) as (d' & Hl & Hw).
  { apply tx_set_bd; [done | by rewrite (cp_nblk _ _ _ _ Hc) | by rewrite (cp_held _ _ _ _ Hc), (tx_held _ _ Hx)]. }
  { by rewrite <- app_assoc. }
  rewrite length_app, Nat.add_1_r in Hl, Hw. rewrite Nat2Z.inj_succ in Hl.
  replace (Z.of_nat (length b1) + 1) with (Z.succ (Z.of_nat (length b1))) by lia.
  exists d'. split; [exact Hl|].
  change (zip (b :: b2) (contents (bd x) <$> slots (lg_start (lg x)) (length b1) (S (length b2))))
    with ([(b, contents (bd x) from)] ++
          zip b2 (contents (bd x) <$> slots (lg_start (lg x)) (S (length b1)) (length b2))).
  eapply wrote_app; [by apply copied_wrote|].
  replace (contents (bd x) <$> slots (lg_start (lg x)) (S (length b1)) (length b2))
    with (contents d5 <$> slots (lg_start (lg x)) (S (length b1)) (length b2)); [exact Hw|].
  apply list_fmap_ext. intros i c Hc2. rewrite (cp_contents _ _ _ _ Hc). apply fupd_ne.
  intros ->. apply list_elem_of_lookup_2, elem_of_slots in Hc2. lia.
Qed.

(** ** The header block *)

(** The block [h] is a log header that names the blocks [bs]. *)
Record is_header (h : block) bs : Prop := {
  ih_len : length h = 512%nat;
  ih_n w : get32 w h 0 = Ok (Z.of_nat (length bs));
  ih_block w i b : bs !! i = Some b -> get32 w h (4 + 4 * Z.of_nat i) = Ok b
}.

Lemma write_head_loop_ok bl b1 b2 buf :
  (forall i b, (b1 ++ b2) !! i = Some b -> bl !! i = Some b) -> (length (b1 ++ b2) <= 30)%nat ->
  Forall (fun b => 0 <= b < 2 ^ 31) b2 -> length buf = 512%nat ->
  (forall w i b, b1 !! i = Some b -> get32 w buf (4 + 4 * Z.of_nat i) = Ok b) ->
  exists buf', write_head_loop (length b2) (Z.of_nat (length b1)) bl buf = Ok buf' /\
    length buf' = 512%nat /\ (forall w, get32 w buf' 0 = get32 w buf 0) /\
    (forall w i b, (b1 ++ b2) !! i = Some b -> get32 w buf' (4 + 4 * Z.of_nat i) = Ok b).
Proof.
  revert b1 buf; induction b2 as [|b b2 IH]; intros b1 buf Hbl Hlen Hr Hbuf Hdone; cbn [length write_head_loop].
  { exists buf. rewrite app_nil_r. done. }
  rewrite (zget_of_nat _ _ _ b) by (apply Hbl; by apply list_lookup_middle). cbn [res_bind].
  rewrite length_app in Hlen. cbn [length] in Hlen.
  destruct (put32_in "buf.data" buf (4 + 4 * Z.of_nat (length b1)) b) as (buf1 & Hp & Hl1); [lia | lia|].
  rewrite Hp. cbn [res_bind]. apply Forall_cons in Hr as [Hb Hr].
  destruct (IH (b1 ++ [b]) buf1) as (buf' & He & Hl' & H0 & Hall).
  - by rewrite <- app_assoc.
  - rewrite !length_app. cbn. lia.
  - done.
  - lia.
  - intros w i c Hi. apply lookup_app_Some in Hi as [Hi|[Hge Hi]].
    + assert (i < length b1)%nat by by eapply lookup_lt_Some.
      rewrite (get32_put32_other _ w _ _ _ _ _ Hp) by lia. auto.
    + destruct (i - length b1)%nat eqn:E; [|done]. cbn in Hi. injection Hi as <-.
      replace i with (length b1) by lia. rewrite (get32_put32_same _ w _ _ _ _ Hp).
      by rewrite u32_small by lia.
  - rewrite length_app, Nat.add_1_r, Nat2Z.inj_succ in He.
    replace (Z.of_nat (length b1) + 1) with (Z.succ (Z.of_nat (length b1))) by lia.
    exists buf'. split; [done|]. split; [done|]. split.
    + intros w. rewrite H0. apply (get32_put32_other _ w _ _ _ _ _ Hp). lia.
    + intros w i c Hi. apply Hall. by rewrite <- app_assoc.
Qed.

(** Rewriting one block through its buffer. *)
Lemma rewrite_block d b v :
  held d = [] -> b < nblk d ->
  exists d1, bread 1 b d = Ok (contents d b, d1) /\
  exists d2 d3, bwrite b (bset b v d1) = Ok d2 /\ brelse b d2 = Ok d3 /\ wrote d [(b, v)] d3.
Proof.
  intros Hh Hb. assert (holding d [] d) as H0 by done.
  destruct (bread_ok d [] d b H0) as (d1 & E1 & Hd1); [rewrite Hh; apply not_elem_of_nil | done|].
  exists d1. split; [done|].
  destruct (bset_bwrite d [b] d1 b v Hd1) as (d2 & E2 & Hk & Hw & Hhd & Hn & Hc); [left|].
  exists d2, (set_held [] d2). split; [done|]. rewrite brelse_ok by (rewrite Hhd; left).
  rewrite Hhd, Hh. cbn [app]. rewrite del_z_head by apply not_elem_of_nil. split; [done|].
  by constructor.
Qed.

Lemma write_head_ok x bs :
  tx_ok x bs -> length (contents (bd x) (lg_start (lg x))) = 512%nat ->
  exists h d', write_head x = Ok (set_bd d' x) /\ wrote (bd x) [(lg_start (lg x), h)] d' /\ is_header h bs.
Proof.
  intros Hx Hlen. unfold write_head. pose proof (tx_log _ _ Hx). unfold LOGSIZE, MAXOPBLOCKS in *.
  destruct (put32_in "buf.data" (contents (bd x) (lg_start (lg x))) 0 (lh_n (lg x))) as (buf1 & Hp & Hl1); [lia | lia|].
  destruct (write_head_loop_ok (lh_block (lg x)) [] bs buf1) as (buf2 & He & Hl2 & H0 & Hall).
  { apply (tx_block _ _ Hx). } { apply (tx_fit _ _ Hx). }
  { eapply Forall_impl; [apply (tx_data _ _ Hx)|]. cbn. tauto. } { lia. } { done. }
  destruct (rewrite_block (bd x) (lg_start (lg x)) buf2) as (d1 & E1 & d2 & d3 & E2 & E3 & Hw);
    [apply (tx_held _ _ Hx) | lia|].
  rewrite (tx_dev _ _ Hx), E1. cbn [res_bind]. rewrite Hp. cbn [res_bind].
  rewrite (tx_n _ _ Hx), Nat2Z.id. change (Z.of_nat (@length Z [])) with 0 in He. rewrite He. cbn [res_bind].
  rewrite E2. cbn [res_bind]. rewrite E3. cbn [res_bind].
  exists buf2, d3. split; [done|]. split; [done|]. constructor; [done | | done].
  intros w. rewrite H0, (get32_put32_same _ w _ _ _ _ Hp), (tx_n _ _ Hx).
  pose proof (tx_fit _ _ Hx). by rewrite u32_small by lia.
Qed.

Lemma read_head_loop_ok h b1 b2 l :
  (forall w i b, (b1 ++ b2) !! i = Some b -> get32 w h (4 + 4 * Z.of_nat i) = Ok b) ->
  Forall (fun b => 0 <= b < 2 ^ 31) b2 ->
  (forall i b, b1 !! i = Some b -> lh_block l !! i = Some b) ->
  length (lh_block l) = 30%nat -> (length (b1 ++ b2) <= 30)%nat ->
  exists bl, read_head_loop (length b2) (Z.of_nat (length b1)) h l = Ok (set_lh_block bl l) /\
    length bl = 30%nat /\ (forall i b, (b1 ++ b2) !! i = Some b -> bl !! i = Some b).
Proof.
  revert b1 l; induction b2 as [|b b2 IH]; intros b1 l Hh Hr Hdone Hcap Hlen; cbn [length read_head_loop].
  { exists (lh_block l). rewrite app_nil_r. split; [by destruct l | done]. }
  rewrite (Hh "buf.data" (length b1) b) by (by apply list_lookup_middle). cbn [res_bind].
  rewrite length_app in Hlen. cbn [length] in Hlen. apply Forall_cons in Hr as [Hb Hr].
  rewrite zset_in by lia. cbn [res_bind]. rewrite Nat2Z.id, s32_small by lia.
  destruct (IH (b1 ++ [b]) (set_lh_block (<[length b1 := b]> (lh_block l)) l)) as (bl & He & Hl & Hall).
  - by rewrite <- app_assoc.
  - done.
  - intros i c Hi. cbn [lh_block set_lh_block]. apply lookup_app_Some in Hi as [Hi|[Hge Hi]].
    + rewrite list_lookup_insert_ne; [auto|]. apply lookup_lt_Some in Hi. lia.
    + destruct (i - length b1)%nat eqn:E; [|done]. cbn in Hi. injection Hi as <-.
      replace i with (length b1) by lia. apply list_lookup_insert_eq. lia.
  - cbn. by rewrite length_insert.
  - rewrite !length_app. cbn. lia.
  - rewrite length_app, Nat.add_1_r, Nat2Z.inj_succ in He.
    replace (Z.of_nat (length b1) + 1) with (Z.succ (Z.of_nat (length b1))) by lia.
    exists bl. split; [exact He|]. split; [done|]. intros i c Hi. apply Hall. by rewrite <- app_assoc.
Qed.

(** A booted machine finds the transaction its header names. *)
Lemma read_head_ok x bs :
  lg_dev (lg x) = 1 -> length (lh_block (lg x)) = 30%nat -> (length bs <= 30)%nat -> NoDup bs ->
  Forall (fun b => data_block (length bs) (lg x) b /\ 0 <= b < 2 ^ 31 /\ b < nblk (bd x)) bs ->
  lg_start (lg x) + LOGSIZE < nblk (bd x) -> held (bd x) = [] ->
  is_header (contents (bd x) (lg_start (lg x))) bs ->
  exists x', read_head x = Ok x' /\ tx_ok x' bs /\ wrote (bd x) [] (bd x') /\
    lg_start (lg x') = lg_start (lg x).
Proof.
  intros Hdev Hcap Hfit Hnd Hdata Hlog Hheld [Hl Hn Hb]. unfold read_head. rewrite Hdev.
  pose proof Hlog as Hlog'. unfold LOGSIZE, MAXOPBLOCKS in Hlog'.
  assert (holding (bd x) [] (bd x)) as H0 by done.
  destruct (bread_ok _ _ _ (lg_start (lg x)) H0) as (d1 & -> & Hd1);
    [rewrite Hheld; apply not_elem_of_nil | lia|].
  cbn [res_bind]. rewrite Hn. cbn [res_bind]. rewrite s32_small by lia.
  destruct (read_head_loop_ok (contents (bd x) (lg_start (lg x))) [] bs
    (set_lh_n (Z.of_nat (length bs)) (lg x))) as (bl & He & Hlb & Hall); try done.
  { eapply Forall_impl; [apply Hdata|]. cbn. tauto. }
  cbn [lh_n set_lh_n]. rewrite Nat2Z.id. change (Z.of_nat (@length Z [])) with 0 in He. rewrite He. cbn [res_bind].
  pose proof Hd1 as [A1 A2 A3 A4 A5 A6]. rewrite Hheld in A3. cbn [app] in A3.
  rewrite brelse_ok by (rewrite A3; left). rewrite A3, del_z_head by apply not_elem_of_nil.
  cbn [res_bind]. eexists. split; [done|]. split.
  - constructor; try done; cbn; rewrite A4; done.
  - split; [|done]. constructor; try done; cbn.
    + by rewrite app_nil_r.
Qed.
End Steps.

(** * Commit and recovery *)

Section Commit.
Import Dev Log.
Implicit Types (d : bdev) (x : lst) (bs : list Z) (vs : list block) (dk : Z -> block).

Lemma fmap_apply_zip ps vs f : NoDup ps -> length ps = length vs -> apply_writes (zip ps vs) f <$> ps = vs.
Proof.
  intros Hnd Hl. apply list_eq. intros i. rewrite list_lookup_fmap.
  destruct (ps !! i) as [p|] eqn:Hp; cbn.
  - destruct (lookup_lt_is_Some_2 vs i) as [v Hv]; [apply lookup_lt_Some in Hp; lia|].
    rewrite apply_zip by done. unfold installed. by rewrite (find_write_Some ps vs i p v), Hv.
  - symmetry. apply lookup_ge_None. apply lookup_ge_None in Hp. lia.
Qed.

Lemma fst_zip' {A B : Type} (l : list A) (k : list B) : length l = length k -> (zip l k).*1 = l.
Proof. intros H. apply fst_zip. lia. Qed.

Lemma tx_clear x bs : tx_ok x bs -> tx_ok (set_lg (set_lh_n 0 (lg x)) x) [].
Proof. intros []. constructor; try done; cbn; [lia | apply NoDup_nil_2]. Qed.

Lemma start_not_slot start n : start ∉ slots start 0 n.
Proof. rewrite elem_of_slots. lia. Qed.

Lemma start_not_data x bs : tx_ok x bs -> lg_start (lg x) ∉ bs.
Proof.
  intros Hx Hin. destruct (tx_elem x bs _ Hx Hin) as ([H|H] & _); [lia|].
  unfold LOGSIZE, MAXOPBLOCKS in H. lia.
Qed.

(** [install_trans] and the clearing of the header. *)
Lemma install_clear x bs :
  tx_ok x bs -> length (contents (bd x) (lg_start (lg x))) = 512%nat ->
  exists x' h0, (let? x := install_trans x in write_head (set_lg (set_lh_n 0 (lg x)) x)) = Ok x' /\
    is_header h0 [] /\
    wrote (bd x) (zip bs (contents (bd x) <$> slots (lg_start (lg x)) 0 (length bs)) ++
                  [(lg_start (lg x), h0)]) (bd x').
Proof.
  intros Hx Hlen. unfold install_trans. rewrite (tx_n _ _ Hx), Nat2Z.id.
  destruct (install_loop_ok x bs [] bs Hx eq_refl) as (d1 & He & Hw).
  change (Z.of_nat (@length Z [])) with 0 in He. rewrite He. cbn [res_bind].
  assert (tx_ok (set_bd d1 x) bs) as Hx1.
  { apply tx_set_bd; [done | apply (wr_nblk _ _ _ Hw) | by rewrite (wr_held _ _ _ Hw), (tx_held _ _ Hx)]. }
  destruct (write_head_ok _ [] (tx_clear _ _ Hx1)) as (h0 & d2 & He2 & Hw2 & Hh).
  { cbn. rewrite (wr_contents _ _ _ Hw), apply_writes_notin; [done|].
    rewrite fst_zip' by (by rewrite length_fmap, slots_length). by apply (start_not_data x). }
  cbn [lg set_bd] in He2 |- *. rewrite He2. eexists _, h0. split; [done|]. split; [done|].
  by eapply wrote_app.
Qed.

Lemma recover_ok x bs :
  lg_dev (lg x) = 1 -> length (lh_block (lg x)) = 30%nat -> (length bs <= 30)%nat -> NoDup bs ->
  Forall (fun b => data_block (length bs) (lg x) b /\ 0 <= b < 2 ^ 31 /\ b < nblk (bd x)) bs ->
  lg_start (lg x) + LOGSIZE < nblk (bd x) -> held (bd x) = [] ->
  is_header (contents (bd x) (lg_start (lg x))) bs ->
  exists x' h0, recover_from_log x = Ok x' /\ is_header h0 [] /\
    wrote (bd x) (zip bs (contents (bd x) <$> slots (lg_start (lg x)) 0 (length bs)) ++
                  [(lg_start (lg x), h0)]) (bd x').
Proof.
  intros H1 H2 H3 H4 H5 H6 H7 H8. unfold recover_from_log.
  destruct (read_head_ok x bs H1 H2 H3 H4 H5 H6 H7 H8) as (x1 & -> & Hx1 & Hw1 & Hs).
  cbn [res_bind].
  assert (forall b, contents (bd x1) b = contents (bd x) b) as Hc by (intros b; apply (wr_contents _ _ _ Hw1)).
  destruct (install_clear x1 bs Hx1) as (x' & h0 & He & Hh & Hw).
  { rewrite Hc, Hs. apply (ih_len _ _ H8). }
  exists x', h0. split; [done|]. split; [done|]. rewrite Hs in Hw.
  rewrite (list_fmap_ext (contents (bd x)) (contents (bd x1))) by (intros; by rewrite Hc).
  by apply (wrote_app _ [] _ _ _ Hw1).
Qed.

Lemma commit_ok x bs :
  tx_ok x bs -> bs <> [] -> length (contents (bd x) (lg_start (lg x))) = 512%nat ->
  let start := lg_start (lg x) in
  let vs := contents (bd x) <$> bs in
  exists x' h1 h0, commit x = Ok x' /\ is_header h1 bs /\ is_header h0 [] /\
    wrote (bd x) (zip (slots start 0 (length bs)) vs ++ [(start, h1)] ++ zip bs vs ++ [(start, h0)]) (bd x').
Proof.
  intros Hx Hne Hlen start vs. unfold commit, write_log. rewrite (tx_n _ _ Hx).
  rewrite (proj2 (Z.ltb_lt _ _)) by (destruct bs; [done | cbn; lia]). rewrite Nat2Z.id.
  destruct (write_log_loop_ok x bs [] bs Hx eq_refl) as (d1 & He & Hw).
  change (Z.of_nat (@length Z [])) with 0 in He. rewrite He. cbn [res_bind]. fold start vs in Hw.
  assert (length (slots start 0 (length bs)) = length vs) as Hlv by (unfold vs; by rewrite length_fmap, slots_length).
  assert (tx_ok (set_bd d1 x) bs) as Hx1.
  { apply tx_set_bd; [done | apply (wr_nblk _ _ _ Hw) | by rewrite (wr_held _ _ _ Hw), (tx_held _ _ Hx)]. }
  destruct (write_head_ok _ bs Hx1) as (h1 & d2 & He2 & Hw2 & Hh1).
  { cbn. rewrite (wr_contents _ _ _ Hw), apply_writes_notin; [done|].
    rewrite fst_zip' by done. apply start_not_slot. }
  rewrite He2. cbn [res_bind set_bd lg]. cbn [bd set_bd lg] in Hw2. fold start in Hw2.
  pose proof (wrote_app _ _ _ _ _ Hw Hw2) as Hw12.
  assert (tx_ok (set_bd d2 (set_bd d1 x)) bs) as Hx2.
  { apply tx_set_bd; [done | apply (wr_nblk _ _ _ Hw2) | rewrite (wr_held _ _ _ Hw2); exact (tx_held _ _ Hx1)]. }
  destruct (install_clear _ bs Hx2) as (x' & h0 & He3 & Hh0 & Hw3).
  { cbn [bd set_bd lg]. fold start. rewrite (wr_contents _ _ _ Hw2). unfold apply_writes. cbn.
    rewrite fupd_eq. apply (ih_len _ _ Hh1). }
  exists x', h1, h0. split; [exact He3|]. split; [done|]. split; [done|].
  cbn [bd set_bd lg] in Hw3. fold start in Hw3.
  replace (contents d2 <$> slots start 0 (length bs)) with vs in Hw3.
  - rewrite (app_assoc _ [(start, h1)]). by eapply wrote_app.
  - rewrite <- (fmap_apply_zip (slots start 0 (length bs)) vs (contents (bd x))) at 1
      by (apply slots_NoDup || done).
    apply list_fmap_ext. intros i b Hi. rewrite (wr_contents _ _ _ Hw12), apply_writes_app.
    unfold apply_writes at 2. cbn. rewrite fupd_ne; [done|]. intros ->.
    by eapply start_not_slot, list_elem_of_lookup_2.
Qed.
End Commit.

(** * Crashes *)

Section Crash.
Import Dev Log.
Implicit Types (dk : Z -> block) (bs : list Z) (vs : list block).

(** The machine after a reboot: [l] is the log structure as [initlog] set it
    up, nothing is cached. *)
Definition booted (l : log) (n : Z) dk : lst := mkLst l (boot dk n).

(** A recovery that crashes after [k] of its writes. *)
Definition crash_step (l : log) (n : Z) dk dk' : Prop :=
  exists y k, recover_from_log (booted l n dk) = Ok y /\ dk' = apply_writes (take k (writes (bd y))) dk.

Context (l : log) (n : Z) (bs : list Z).
Record boot_ok : Prop := {
  bo_dev : lg_dev l = 1;
  bo_cap : length (lh_block l) = 30%nat;
  bo_fit : (length bs <= 30)%nat;
  bo_nodup : NoDup bs;
  bo_data : Forall (fun b => data_block (length bs) l b /\ 0 <= b < 2 ^ 31 /\ b < n) bs;
  bo_log : lg_start l + LOGSIZE < n
}.
Context (Hok : boot_ok).

Lemma recover_booted dk bs' :
  bs' = [] \/ bs' = bs -> is_header (dk (lg_start l)) bs' ->
  exists y h0, recover_from_log (booted l n dk) = Ok y /\ is_header h0 [] /\
    writes (bd y) = zip bs' (dk <$> slots (lg_start l) 0 (length bs')) ++ [(lg_start l, h0)] /\
    disk (bd y) = apply_writes (writes (bd y)) dk.
Proof.
  intros Hbs Hh. destruct Hok as [H1 H2 H3 H4 H5 H6].
  destruct (recover_ok (booted l n dk) bs') as (y & h0 & He & Hh0 & Hw); try done.
  - destruct Hbs as [->| ->]; cbn; lia.
  - destruct Hbs as [->| ->]; [apply NoDup_nil_2 | done].
  - destruct Hbs as [->| ->]; [constructor | done].
  - exists y, h0. split; [done|]. split; [done|].
    pose proof (wr_writes _ _ _ Hw) as Hws. pose proof (wr_disk _ _ _ Hw) as Hdk. cbn in Hws, Hdk.
    rewrite Hdk, Hws. done.
Qed.

(** The disk as it was before the transaction. *)
Definition before dk0 dk : Prop :=
  is_header (dk (lg_start l)) [] /\ forall b, data_block (length bs) l b -> dk b = dk0 b.

(** The disk with the transaction: installed, or in the log. *)
Definition after vs dk0 dk : Prop :=
  (is_header (dk (lg_start l)) [] /\ forall b, data_block (length bs) l b -> dk b = installed bs vs dk0 b) \/
  (is_header (dk (lg_start l)) bs /\ dk <$> slots (lg_start l) 0 (length bs) = vs /\
   forall b, data_block (length bs) l b -> b ∉ bs -> dk b = dk0 b).

Lemma data_not_start b : data_block (length bs) l b -> b <> lg_start l.
Proof. unfold data_block, LOGSIZE, MAXOPBLOCKS. lia. Qed.

Lemma data_not_slot b : data_block (length bs) l b -> b ∉ slots (lg_start l) 0 (length bs).
Proof.
  pose proof (bo_fit Hok). unfold data_block, LOGSIZE, MAXOPBLOCKS. rewrite elem_of_slots. lia.
Qed.

Lemma bs_data b : b ∈ bs -> data_block (length bs) l b.
Proof. pose proof (bo_data Hok) as H. rewrite Forall_forall in H. intros Hb. by apply H. Qed.

(** Recovery from the old state, whole or in part. *)
Lemma before_recover dk0 dk :
  before dk0 dk -> exists y, recover_from_log (booted l n dk) = Ok y /\
    disk (bd y) = apply_writes (writes (bd y)) dk /\
    forall k, before dk0 (apply_writes (take k (writes (bd y))) dk).
Proof.
  intros [Hh Hd]. destruct (recover_booted dk []) as (y & h0 & He & Hh0 & Hw & Hdk); [by left | done|].
  exists y. split; [done|]. split; [done|]. rewrite Hw. cbn [length slots seq fmap list_fmap zip_with app].
  intros [|k]; [done|]. cbn [take]. rewrite take_nil. unfold apply_writes. cbn. split.
  - by rewrite fupd_eq.
  - intros b Hb. rewrite fupd_ne by (by apply data_not_start). auto.
Qed.

Lemma take_zip {A B : Type} k (xs : list A) (ys : list B) : take k (zip xs ys) = zip (take k xs) (take k ys).
Proof. revert xs ys; induction k as [|k IH]; intros [|x xs] [|y ys]; cbn; try done. by rewrite IH. Qed.

(** A part of the writes to the home locations changes only blocks of [bs]. *)
Lemma partial_install vs dk j b :
  length vs = length bs -> b ∉ bs -> apply_writes (take j (zip bs vs)) dk b = dk b.
Proof.
  intros Hl Hb. apply apply_writes_notin. rewrite take_zip, fst_zip by (rewrite !length_take; lia).
  intros H. apply Hb. by eapply subseteq_take.
Qed.

Lemma installed_home vs dk dk0 b :
  length vs = length bs -> (b ∉ bs -> dk b = dk0 b) -> installed bs vs dk b = installed bs vs dk0 b.
Proof.
  intros Hl H. unfold installed. destruct (find_write bs vs b) eqn:E; [done|].
  apply find_write_None in E; [auto | done].
Qed.

(** Recovery with the transaction in the log or installed. *)
Lemma after_recover vs dk0 dk :
  length vs = length bs -> after vs dk0 dk ->
  exists y, recover_from_log (booted l n dk) = Ok y /\
    disk (bd y) = apply_writes (writes (bd y)) dk /\
    (forall k, after vs dk0 (apply_writes (take k (writes (bd y))) dk)) /\
    (forall b, data_block (length bs) l b -> disk (bd y) b = installed bs vs dk0 b).
Proof.
  intros Hlv [[Hh Hd]|(Hh & Hs & Hd)].
  - destruct (before_recover (installed bs vs dk0) dk) as (y & He & Hdk & Hall); [done|].
    exists y. split; [done|]. split; [done|]. split.
    + intros k. left. apply Hall.
    + intros b Hb. specialize (Hall (length (writes (bd y)))). rewrite firstn_all in Hall.
      rewrite Hdk. by apply Hall.
  - destruct (recover_booted dk bs) as (y & h0 & He & Hh0 & Hw & Hdk); [by right | done|].
    rewrite Hs in Hw.
    assert (lg_start l ∉ bs) as Hst by (intros H%bs_data%data_not_start; congruence).
    assert (forall b, data_block (length bs) l b -> apply_writes (writes (bd y)) dk b = installed bs vs dk0 b) as Hfull.
    { intros b Hb. rewrite Hw, apply_writes_app. unfold apply_writes at 1. cbn.
      rewrite fupd_ne by (by apply data_not_start).
      rewrite apply_zip by (apply (bo_nodup Hok) || done). apply installed_home; auto. }
    exists y. split; [done|]. split; [done|]. split; [|intros b Hb; rewrite Hdk; auto].
    intros k. destruct (decide (length (writes (bd y)) <= k)%nat) as [Hk|Hk].
    + rewrite take_ge by done. left. split; [|done].
      rewrite Hw, apply_writes_app. unfold apply_writes at 1. cbn. by rewrite fupd_eq.
    + right. rewrite Hw in Hk |- *. rewrite length_app in Hk. cbn in Hk.
      rewrite take_app_le by lia. split_and!.
      * by rewrite partial_install.
      * etransitivity; [|exact Hs]. apply list_fmap_ext. intros i b Hi. apply partial_install; [done|].
        intros Hb%bs_data%data_not_slot. by eapply Hb, list_elem_of_lookup_2.
      * intros b Hb Hnb. rewrite partial_install by done. auto.
Qed.
End Crash.

(** * The theorems *)

Section LogSpecs.
Import Dev Log.
Implicit Types (x : lst) (bs : list Z).

Lemma commit_cases x bs l k :
  tx_ok x bs -> bs <> [] -> is_header (disk (bd x) (lg_start (lg x))) [] ->
  length (contents (bd x) (lg_start (lg x))) = 512%nat ->
  boot_ok l (nblk (bd x)) bs -> lg_start l = lg_start (lg x) ->
  exists x' ws, commit x = Ok x' /\ writes (bd x') = writes (bd x) ++ ws /\
    (forall b, data_block (length bs) l b -> disk (bd x') b = installed bs (contents (bd x) <$> bs) (disk (bd x)) b) /\
    (before l bs (disk (bd x)) (apply_writes (take k ws) (disk (bd x))) \/
     after l bs (contents (bd x) <$> bs) (disk (bd x)) (apply_writes (take k ws) (disk (bd x)))).
Proof.
  intros Hx Hne Hidle Hlen Hok Hst. set (vs := contents (bd x) <$> bs). set (dk := disk (bd x)).
  destruct (commit_ok x bs Hx Hne Hlen) as (x' & h1 & h0 & He & Hh1 & Hh0 & Hw).
  fold vs in Hw. rewrite <- Hst in Hw, Hidle. fold dk in Hidle.
  set (A := zip (slots (lg_start l) 0 (length bs)) vs) in *. set (B := zip bs vs) in *.
  assert (length vs = length bs) as Hlv by (unfold vs; apply length_fmap).
  assert (A.*1 = slots (lg_start l) 0 (length bs)) as HA by (apply fst_zip'; by rewrite slots_length).
  assert (forall b, data_block (length bs) l b -> apply_writes A dk b = dk b) as HAd.
  { intros b Hb. apply apply_writes_notin. rewrite HA. by eapply data_not_slot. }
  assert (forall f, apply_writes [(lg_start l, h1)] f = fupd f (lg_start l) h1) as H1 by done.
  assert (forall f, apply_writes [(lg_start l, h0)] f = fupd f (lg_start l) h0) as H0 by done.
  assert (lg_start l ∉ bs) as Hsb by (rewrite Hst; by apply start_not_data).
  assert (forall b, data_block (length bs) l b ->
    apply_writes (A ++ [(lg_start l, h1)] ++ B ++ [(lg_start l, h0)]) dk b = installed bs vs dk b) as Hfull.
  { intros b Hb. pose proof (data_not_start l bs b Hb). rewrite !apply_writes_app, H0, fupd_ne by done.
    unfold B. rewrite apply_zip by (apply (bo_nodup _ _ _ Hok) || done). apply installed_home; [done|].
    intros _. rewrite H1, fupd_ne by done. auto. }
  exists x', (A ++ [(lg_start l, h1)] ++ B ++ [(lg_start l, h0)]).
  split; [done|]. split; [apply (wr_writes _ _ _ Hw)|].
  split; [intros b Hb; rewrite (wr_disk _ _ _ Hw); auto|].
  destruct (decide (k <= length A)%nat) as [HkA|HkA].
  - left. rewrite take_app_le by lia.
    assert (forall b, b ∉ slots (lg_start l) 0 (length bs) -> apply_writes (take k A) dk b = dk b) as HkA'.
    { intros b Hb. apply apply_writes_notin. rewrite fmap_take, HA. intros H. apply Hb.
      by eapply subseteq_take. }
    split; [rewrite HkA'; [done | apply start_not_slot]|].
    intros b Hb. apply HkA'. by eapply data_not_slot.
  - right. rewrite take_app_ge by lia. destruct (k - length A)%nat as [|k'] eqn:Ek; [lia|].
    cbn [app take].
    change ((lg_start l, h1) :: take k' (B ++ [(lg_start l, h0)])) with
      ([(lg_start l, h1)] ++ take k' (B ++ [(lg_start l, h0)])).
    destruct (decide (length B < k')%nat) as [HkB|HkB].
    + rewrite (take_ge (B ++ _)) by (rewrite length_app; cbn; lia). left. split; [|done].
      rewrite !apply_writes_app, H0. by rewrite fupd_eq.
    + right. rewrite take_app_le by lia. rewrite !apply_writes_app, H1.
      split_and!.
      * unfold B. rewrite partial_install by done. by rewrite fupd_eq.
      * etransitivity; [|apply (fmap_apply_zip (slots (lg_start l) 0 (length bs)) vs dk);
          [apply slots_NoDup | by rewrite slots_length]].
        apply list_fmap_ext. intros i b Hi. apply list_elem_of_lookup_2 in Hi.
        unfold B. rewrite partial_install; [|done|].
        -- rewrite fupd_ne; [done|]. intros ->. by eapply start_not_slot.
        -- intros Hb. eapply data_not_slot; [done | by eapply bs_data | done].
      * intros b Hb Hnb. unfold B. rewrite partial_install by done.
        rewrite fupd_ne by (by eapply data_not_start). auto.
Qed.

(** C3: a commit is atomic with respect to crashes.  The machine may stop after
    any number of the disk writes of [commit], and again after any number of
    the writes of each recovery; when a recovery completes, all blocks but the
    header and the blocks of the log that the transaction uses are as before the
    transaction, or all are as after it.  When [commit] itself completes they are
    as after it. *)
Theorem commit_atomic x bs l k dk :
  tx_ok x bs -> bs <> [] -> is_header (disk (bd x) (lg_start (lg x))) [] ->
  length (contents (bd x) (lg_start (lg x))) = 512%nat ->
  boot_ok l (nblk (bd x)) bs -> lg_start l = lg_start (lg x) ->
  exists x' ws, commit x = Ok x' /\ writes (bd x') = writes (bd x) ++ ws /\
    (forall b, data_block (length bs) l b -> disk (bd x') b = installed bs (contents (bd x) <$> bs) (disk (bd x)) b) /\
    (rtc (crash_step l (nblk (bd x))) (apply_writes (take k ws) (disk (bd x))) dk ->
     exists y, recover_from_log (booted l (nblk (bd x)) dk) = Ok y /\
       ((forall b, data_block (length bs) l b -> disk (bd y) b = disk (bd x) b) \/
        (forall b, data_block (length bs) l b ->
           disk (bd y) b = installed bs (contents (bd x) <$> bs) (disk (bd x)) b))).
Proof.
  intros Hx Hne Hidle Hlen Hok Hst.
  destruct (commit_cases x bs l k Hx Hne Hidle Hlen Hok Hst) as (x' & ws & He & Hw & Hd & Hcase).
  exists x', ws. split; [done|]. split; [done|]. split; [done|]. intros Hr.
  set (vs := contents (bd x) <$> bs) in *. set (dk0 := disk (bd x)) in *.
  assert (length vs = length bs) as Hlv by (unfold vs; apply length_fmap).
  assert (before l bs dk0 dk \/ after l bs vs dk0 dk) as [H|H].
  { revert Hcase. induction Hr as [d|d d1 d2 (y & j & Hy & ->) _ IH]; [done|]. intros [H|H]; apply IH.
    - left. destruct (before_recover l (nblk (bd x)) bs Hok dk0 d H) as (y' & Hy' & _ & Hall).
      rewrite Hy in Hy'. injection Hy' as <-. apply Hall.
    - right. destruct (after_recover l (nblk (bd x)) bs Hok vs dk0 d Hlv H) as (y' & Hy' & _ & Hall & _).
      rewrite Hy in Hy'. injection Hy' as <-. apply Hall. }
  - destruct (before_recover l (nblk (bd x)) bs Hok dk0 dk H) as (y & Hy & Hdk & Hall).
    exists y. split; [done|]. left. intros b Hb. specialize (Hall (length (writes (bd y)))).
    rewrite firstn_all, <- Hdk in Hall. by apply Hall.
  - destruct (after_recover l (nblk (bd x)) bs Hok vs dk0 dk Hlv H) as (y & Hy & _ & _ & Hall).
    exists y. split; [done|]. by right.
Qed.
End LogSpecs.

(** ** Recording a block *)

Section LogWrite.
Import Dev Log.
Context `{SV : Services}.
Implicit Types (x : lst) (bs : list Z) (s : kst).

(** The header in memory names [bs]. *)
Record log_rep (l : log) bs : Prop := {
  lr_n : lh_n l = Z.of_nat (length bs);
  lr_block i b : bs !! i = Some b -> lh_block l !! i = Some b;
  lr_cap : length (lh_block l) = 30%nat
}.

Lemma find_block_ok bl b1 b2 b :
  (forall i c, (b1 ++ b2) !! i = Some c -> bl !! i = Some c) -> b ∉ b1 ->
  exists i, find_block (length b2) (Z.of_nat (length b1)) bl b = Ok (Z.of_nat i) /\
    (if decide (b ∈ b2) then (b1 ++ b2) !! i = Some b else i = length (b1 ++ b2)).
Proof.
  revert b1; induction b2 as [|c b2 IH]; intros b1 Hbl Hb; cbn [length find_block].
  { exists (length b1). rewrite decide_False by apply not_elem_of_nil. by rewrite app_nil_r. }
  rewrite (zget_of_nat _ _ _ c) by (apply Hbl; by apply list_lookup_middle). cbn [res_bind].
  destruct (Z.eqb_spec c b) as [->|Hne].
  - exists (length b1). split; [done|]. rewrite decide_True by left. by apply list_lookup_middle.
  - destruct (IH (b1 ++ [c])) as (i & He & Hi).
    { by rewrite <- app_assoc. }
    { rewrite not_elem_of_app, not_elem_of_cons. split_and!; [done | congruence | apply not_elem_of_nil]. }
    rewrite length_app, Nat.add_1_r, Nat2Z.inj_succ in He. exists i. split; [exact He|].
    rewrite <- app_assoc in Hi. cbn [app] in Hi.
    destruct (decide (b ∈ b2)) as [Hin|Hin].
    + rewrite decide_True; [done | by right].
    + rewrite decide_False; [done|]. rewrite not_elem_of_cons. split; [congruence | done].
Qed.

(** The fields of the log that a transaction leaves alone. *)
Definition same_log (l l' : log) : Prop :=
  lg_start l' = lg_start l /\ lg_size l' = lg_size l /\ outstanding l' = outstanding l /\
  committing l' = committing l /\ lg_dev l' = lg_dev l.

Lemma log_write_ok c p b s x bs :
  outside c p s -> locked (lg_lock (lg x)) = 0 -> log_rep (lg x) bs -> NoDup bs ->
  (length bs < 30)%nat -> Z.of_nat (length bs) < lg_size (lg x) - 1 -> 1 <= outstanding (lg x) ->
  let bs' := if decide (b ∈ bs) then bs else bs ++ [b] in
  exists m' l', log_write b s x = Ok (set_mach m' s, mkLst l' (pin b (bd x))) /\
    same_log (lg x) l' /\ log_rep l' bs' /\ NoDup bs' /\ b ∈ bs' /\
    locked (lg_lock l') = 0 /\ outside c p (set_mach m' s).
Proof.
  intros Hout Hlk [Hn Hb Hcap] Hnd Hlen Hsz Hop bs'. unfold log_write.
  unfold LOGSIZE, MAXOPBLOCKS. rewrite Hn.
  rewrite !(proj2 (Z.leb_gt _ _)), (proj2 (Z.ltb_ge _ _)) by lia. cbn [orb]. unfold lock.
  destruct (lock_outside c p s (lg_lock (lg x)) Hout Hlk) as (k1 & m1 & -> & Hheld & Hin).
  cbn [res_bind lg set_lg lh_n set_lg_lock lh_block]. rewrite Hn, Nat2Z.id.
  destruct (find_block_ok (lh_block (lg x)) [] bs b Hb ltac:(apply not_elem_of_nil)) as (i & He & Hi).
  change (Z.of_nat (@length Z [])) with 0 in He. rewrite He. cbn [res_bind app] in *.
  assert (i <= length bs)%nat as Hile.
  { destruct (decide (b ∈ bs)); [apply lookup_lt_Some in Hi; lia | lia]. }
  rewrite zset_in by lia. cbn [res_bind]. rewrite Nat2Z.id. unfold unlock.
  assert (forall l0, lg_lock l0 = k1 -> exists k2 m2,
    Spinlock.release (lg_lock l0) m1 = Ok (k2, m2) /\ locked k2 = 0 /\ outside c p (set_mach m2 s)) as Hrel.
  { intros l0 ->. destruct (unlock_inside c p (set_mach m1 s) k1 Hin Hheld) as (k2 & m2 & H1 & H2 & H3).
    by exists k2, m2. }
  assert (b ∈ bs' /\ NoDup bs') as [Hbs' Hnd'].
  { unfold bs'. destruct (decide (b ∈ bs)); [done|]. split; [apply elem_of_app; right; left|].
    apply NoDup_app. split_and!; [done | | apply NoDup_singleton].
    intros y Hy [->|Hy']%elem_of_cons; [done | by apply not_elem_of_nil in Hy']. }
  match goal with |- context [mkLst ?e (pin _ _)] => set (l1 := e) end.
  assert (lg_lock l1 = k1 /\ same_log (lg x) l1 /\ log_rep l1 bs') as (Hlk1 & Hsame & Hrep).
  { unfold l1, bs'. cbn [lh_n set_lh_block set_lg_lock]. rewrite Hn.
    destruct (decide (b ∈ bs)) as [Hbin|Hbin].
    - pose proof (lookup_lt_Some _ _ _ Hi). rewrite (proj2 (Z.eqb_neq _ _)) by lia.
      split; [done|]. split; [done|]. constructor; cbn; [done | | by rewrite length_insert].
      intros j y Hj. destruct (decide (j = i)) as [->|Hne].
      + rewrite list_lookup_insert_eq by lia. congruence.
      + rewrite list_lookup_insert_ne by done. auto.
    - subst i. rewrite Z.eqb_refl. split; [done|]. split; [done|].
      constructor; cbn; [rewrite length_app; cbn; lia | | by rewrite length_insert].
      intros j y Hj. apply lookup_app_Some in Hj as [Hj|[Hge Hj]].
      + rewrite list_lookup_insert_ne by (apply lookup_lt_Some in Hj; lia). auto.
      + destruct (j - length bs)%nat eqn:E; [|done]. cbn in Hj. injection Hj as <-.
        replace j with (length bs) by lia. apply list_lookup_insert_eq. lia. }
  clearbody l1. destruct (Hrel l1 Hlk1) as (k2 & m2 & Hr & Hk2 & Hout2).
  cbn [lg mach set_mach]. rewrite Hr. cbn [res_bind]. do 2 eexists. split; [done|].
  split; [done|]. split; [destruct Hrep; by constructor|]. done.
Qed.

(** [log_write] inside a transaction records the block once: a block that
    is in the transaction already is absorbed, another one is added at the end;
    the buffer is pinned in the cache until the commit. *)
Theorem log_write_spec c p b s x bs :
  outside c p s -> locked (lg_lock (lg x)) = 0 -> log_rep (lg x) bs -> NoDup bs ->
  (length bs < 30)%nat -> Z.of_nat (length bs) < lg_size (lg x) - 1 -> 1 <= outstanding (lg x) ->
  let bs' := if decide (b ∈ bs) then bs else bs ++ [b] in
  exists s' x', log_write b s x = Ok (s', x') /\ log_rep (lg x') bs' /\ NoDup bs' /\
    b ∈ bs' /\ b ∈ pinned (bd x') /\ contents (bd x') = contents (bd x) /\
    locked (lg_lock (lg x')) = 0 /\ outside c p s'.
Proof.
  intros Hout Hlk Hrep Hnd Hlen Hsz Hop bs'.
  destruct (log_write_ok c p b s x bs Hout Hlk Hrep Hnd Hlen Hsz Hop)
    as (m' & l' & -> & _ & Hrep' & Hnd' & Hb & Hlk' & Hout').
  do 2 eexists. split; [done|]. split_and!; try done. left.
Qed.

(** [begin_op] reserves log space by [LOGSIZE] blocks, [log_write] accepts
    one less on the disks mkfs makes, whose log has [LOGSIZE] blocks with the
    header: with 29 blocks recorded the next one panics, inside a reservation
    of 30. *)
Theorem log_reservation_gap s x b :
  lg_size (lg x) = LOGSIZE -> lh_n (lg x) = LOGSIZE - 1 ->
  log_write b s x = Panic "too big a transaction".
Proof.
  intros Hs Hn. unfold log_write. rewrite Hs, Hn. done.
Qed.
End LogWrite.

(** * An example *)

Section LogExamples.
Import Dev Log.

Definition demo_blk (v : Z) : block := repeat v 512.
Definition demo_log (n : Z) (bl : list Z) : log := mkLog demo_lock 2 30 1 0 1 n bl.

(** A disk of zeros with an empty log at block 2, and block 40 changed in the
    cache. *)
Definition demo_lst : lst :=
  mkLst (demo_log 1 (40 :: repeat 0 29))
    (mkBdev (fun _ => demo_blk 0) (fun b => if b =? 40 then Some (demo_blk 7) else None) [] [40] [] 1000).

Lemma demo_header : is_header (demo_blk 0) [].
Proof. constructor; try done. Qed.

Lemma demo_tx_ok : tx_ok demo_lst [40].
Proof.
  constructor; try done.
  - intros [|i] b H; [|done]. by injection H as <-.
  - cbn. lia.
  - by apply (bool_decide_unpack _), I.
  - constructor; [|constructor]. unfold data_block, LOGSIZE, MAXOPBLOCKS. cbn. lia.
Qed.

Lemma demo_boot_ok : boot_ok (demo_log 0 (repeat 0 30)) 1000 [40].
Proof.
  constructor; try done.
  - cbn. lia.
  - by apply (bool_decide_unpack _), I.
  - constructor; [|constructor]. unfold data_block, LOGSIZE, MAXOPBLOCKS. cbn. lia.
Qed.

(** The crash comes after the header is written: the transaction is there. *)
Lemma commit_atomic_witness : exists x', commit demo_lst = Ok x' /\ disk (bd x') 40 = demo_blk 7.
Proof.
  destruct (commit_atomic demo_lst [40] (demo_log 0 (repeat 0 30)) 2 (fun _ => []))
    as (x' & ws & H1 & _ & H2 & _).
  - apply demo_tx_ok.
  - done.
  - apply demo_header.
  - done.
  - apply demo_boot_ok.
  - done.
  - exists x'. split; [exact H1|]. rewrite (H2 40); [done|]. unfold data_block, LOGSIZE, MAXOPBLOCKS. cbn. lia.
Defined.

Lemma log_write_spec_witness : exists s' x', log_write 41 (demo_in 0) demo_lst = Ok (s', x') /\
  log_rep (lg x') [40; 41].
Proof.
  destruct (log_write_spec 0 0 41 (demo_in 0) demo_lst [40]) as (s' & x' & H1 & H2 & _).
  - by exists (demo_cpu 0 (Some 0%nat)).
  - done.
  - constructor; try done. apply (tx_block _ _ demo_tx_ok).
  - apply (tx_nodup _ _ demo_tx_ok).
  - cbn. lia.
  - cbn. lia.
  - cbn. lia.
  - exists s', x'. split; [exact H1 | exact H2].
Defined.

Lemma log_reservation_gap_witness :
  log_write 41 (demo_in 0) (mkLst (demo_log 29 (repeat 0 30)) (bd demo_lst)) = Panic "too big a transaction".
Proof. apply log_reservation_gap; done. Defined.
End LogExamples.
