(* ===== verification/Vm.v ===== *)
(** Page tables: [vm.c], with the address macros of [mmu.h].

    Page directories and page tables are words of the physical memory [phys]
    of Kalloc.v, at the addresses where the kernel maps them; 0 is the null
    pointer.  [kend] and [kdata] are the linker's symbols [end] and [data];
    [readi] of fs.c is an argument of [loaduvm].  Messages to the console are
    not part of the result. *)

From S2P Require Import Prelude CString Spinlock Kalloc.

(** * mmu.h and memlayout.h *)

Definition PTE_P : Z := 0x001.
Definition PTE_W : Z := 0x002.
Definition PTE_U : Z := 0x004.
Definition PDX (va : Z) : Z := Z.land (Z.shiftr va 22) 0x3FF.
Definition PTX (va : Z) : Z := Z.land (Z.shiftr va 12) 0x3FF.
Definition PGADDR (d t o : Z) : Z := u32 (Z.lor (Z.lor (Z.shiftl d 22) (Z.shiftl t 12)) o).
Definition PTE_ADDR (pte : Z) : Z := Z.land pte (Z.lnot 0xFFF).
Definition PTE_FLAGS (pte : Z) : Z := Z.land pte 0xFFF.
Definition NPDENTRIES : nat := 1024.
Definition EXTMEM : Z := 0x100000.
Definition DEVSPACE : Z := 0xFE000000.
Definition KERNLINK : Z := KERNBASE + EXTMEM.

(** [e & PTE_P]. *)
Definition present (e : Z) : bool := negb (Z.land e PTE_P =? 0).

Module Vm.
Section Vm.
Import Kstring Kalloc.
Context (kend kdata : Z).
Implicit Types (h : phys) (m : machine).

(** The address of the PTE, 0 when there is none. *)
Definition walkpgdir (pgdir va : Z) (alloc : bool) h m : res (Z * phys * machine) :=
  let pde := pgdir + 4 * PDX va in
  let e := load32 (p_mem h) pde in
  if present e then Ok (P2V (PTE_ADDR e) + 4 * PTX va, h, m)
  else if negb alloc then Ok (0, h, m)
  else
    let? (pgtab, h, m) := kalloc h m in
    if pgtab =? 0 then Ok (0, h, m)
    else
      let w := (memset (p_mem h) pgtab 0 PGSIZE).1 in
      let w := store32 w pde (Z.lor (Z.lor (Z.lor (V2P pgtab) PTE_P) PTE_W) PTE_U) in
      Ok (pgtab + 4 * PTX va, mkPhys w (p_kmem h), m).

(** The loop of [mappages]: [n] is above the number of pages left. *)
Fixpoint map_loop (n : nat) (pgdir a last pa perm : Z) h m : res (Z * phys * machine) :=
  match n with
  | O => OutOfFuel
  | S n' =>
      let? (pte, h, m) := walkpgdir pgdir a true h m in
      if pte =? 0 then Ok (-1, h, m)
      else if present (load32 (p_mem h) pte) then Panic "remap"
      else
        let h := mkPhys (store32 (p_mem h) pte (Z.lor (Z.lor pa perm) PTE_P)) (p_kmem h) in
        if a =? last then Ok (0, h, m)
        else map_loop n' pgdir (u32 (a + PGSIZE)) last (u32 (pa + PGSIZE)) perm h m
  end.

(** The number of turns is the distance of the two ends, modulo 2^32. *)
Definition mappages (pgdir va size pa perm : Z) h m : res (Z * phys * machine) :=
  let a := PGROUNDDOWN va in
  let last := PGROUNDDOWN (u32 (va + size - 1)) in
  map_loop (S (Z.to_nat (u32 (last - a) / PGSIZE))) pgdir a last pa perm h m.

(** The loop of [deallocuvm]: each turn passes a page at least. *)
Fixpoint dealloc_loop (n : nat) (pgdir a oldsz : Z) h m : res (phys * machine) :=
  match n with
  | O => OutOfFuel
  | S n' =>
      if a <? oldsz then
        let? (pte, h, m) := walkpgdir pgdir a false h m in
        if pte =? 0 then
          let a := u32 (PGADDR (PDX a + 1) 0 0 - PGSIZE) in
          dealloc_loop n' pgdir (u32 (a + PGSIZE)) oldsz h m
        else
          let e := load32 (p_mem h) pte in
          if present e then
            let pa := PTE_ADDR e in
            if pa =? 0 then Panic "kfree"
            else
              let? (h, m) := kfree kend (P2V pa) h m in
              let h := mkPhys (store32 (p_mem h) pte 0) (p_kmem h) in
              dealloc_loop n' pgdir (u32 (a + PGSIZE)) oldsz h m
          else dealloc_loop n' pgdir (u32 (a + PGSIZE)) oldsz h m
      else Ok (h, m)
  end.

Definition deallocuvm (pgdir oldsz newsz : Z) h m : res (Z * phys * machine) :=
  if oldsz <=? newsz then Ok (oldsz, h, m)
  else
    let? (h, m) := dealloc_loop (S (Z.to_nat (oldsz / PGSIZE)) + 1) pgdir (PGROUNDUP newsz) oldsz h m in
    Ok (newsz, h, m).

(** The loop of [freevm] over the directory. *)
Fixpoint free_tables (n : nat) (i pgdir : Z) h m : res (phys * machine) :=
  match n with
  | O => Ok (h, m)
  | S n' =>
      let e := load32 (p_mem h) (pgdir + 4 * i) in
      let? (h, m) := (if present e then kfree kend (P2V (PTE_ADDR e)) h m else Ok (h, m)) in
      free_tables n' (i + 1) pgdir h m
  end.

Definition freevm (pgdir : Z) h m : res (phys * machine) :=
  if pgdir =? 0 then Panic "freevm: no pgdir"
  else
    let? (_, h, m) := deallocuvm pgdir KERNBASE 0 h m in
    let? (h, m) := free_tables NPDENTRIES 0 pgdir h m in
    kfree kend pgdir h m.

(** [struct kmap] and the table [kmap]. *)
Record kmap_entry := mkKmap { virt : Z; phys_start : Z; phys_end : Z; km_perm : Z }.
Definition kmap : list kmap_entry :=
  [ mkKmap KERNBASE 0 EXTMEM PTE_W;
    mkKmap KERNLINK (V2P KERNLINK) (V2P kdata) 0;
    mkKmap kdata (V2P kdata) PHYSTOP PTE_W;
    mkKmap DEVSPACE DEVSPACE 0 PTE_W ].

(** The loop of [setupkvm]: [false] when memory ran out. *)
Fixpoint map_kernel (l : list kmap_entry) (pgdir : Z) h m : res (bool * phys * machine) :=
  match l with
  | [] => Ok (true, h, m)
  | k :: l' =>
      let? (r, h, m) := mappages pgdir (virt k) (u32 (phys_end k - phys_start k)) (phys_start k) (km_perm k) h m in
      if r <? 0 then Ok (false, h, m) else map_kernel l' pgdir h m
  end.

Definition setupkvm h m : res (Z * phys * machine) :=
  let? (pgdir, h, m) := kalloc h m in
  if pgdir =? 0 then Ok (0, h, m)
  else
    let h := mkPhys (memset (p_mem h) pgdir 0 PGSIZE).1 (p_kmem h) in
    if DEVSPACE <? P2V PHYSTOP then Panic "PHYSTOP too high"
    else
      let? (ok, h, m) := map_kernel kmap pgdir h m in
      if ok : bool then Ok (pgdir, h, m)
      else let? (h, m) := freevm pgdir h m in Ok (0, h, m).

(** [init] is the address of the program. *)
Definition inituvm (pgdir init sz : Z) h m : res (phys * machine) :=
  if PGSIZE <=? sz then Panic "inituvm: more than a page"
  else
    let? (mem, h, m) := kalloc h m in
    let h := mkPhys (memset (p_mem h) mem 0 PGSIZE).1 (p_kmem h) in
    let? (_, h, m) := mappages pgdir 0 PGSIZE (V2P mem) (Z.lor PTE_W PTE_U) h m in
    Ok (mkPhys (memmove (p_mem h) mem init sz).1 (p_kmem h), m).

(** The loop of [allocuvm] from [a] on. *)
Fixpoint alloc_loop (n : nat) (pgdir a oldsz newsz : Z) h m : res (Z * phys * machine) :=
  match n with
  | O => OutOfFuel
  | S n' =>
      if a <? newsz then
        let? (mem, h, m) := kalloc h m in
        if mem =? 0 then
          let? (_, h, m) := deallocuvm pgdir newsz oldsz h m in
          Ok (0, h, m)
        else
          let h := mkPhys (memset (p_mem h) mem 0 PGSIZE).1 (p_kmem h) in
          let? (r, h, m) := mappages pgdir a PGSIZE (V2P mem) (Z.lor PTE_W PTE_U) h m in
          if r <? 0 then
            let? (_, h, m) := deallocuvm pgdir newsz oldsz h m in
            let? (h, m) := kfree kend mem h m in
            Ok (0, h, m)
          else alloc_loop n' pgdir (u32 (a + PGSIZE)) oldsz newsz h m
      else Ok (newsz, h, m)
  end.

Definition allocuvm (pgdir oldsz newsz : Z) h m : res (Z * phys * machine) :=
  if KERNBASE <=? newsz then Ok (0, h, m)
  else if newsz <? oldsz then Ok (oldsz, h, m)
  else alloc_loop (S (Z.to_nat (newsz / PGSIZE)) + 1) pgdir (PGROUNDUP oldsz) oldsz newsz h m.

Definition clearpteu (pgdir uva : Z) h m : res (phys * machine) :=
  let? (pte, h, m) := walkpgdir pgdir uva false h m in
  if pte =? 0 then Panic "clearpteu"
  else Ok (mkPhys (store32 (p_mem h) pte (Z.land (load32 (p_mem h) pte) (Z.lnot PTE_U))) (p_kmem h), m).

(** The loop of [copyuvm]: [false] when memory ran out. *)
Fixpoint copy_loop (n : nat) (pgdir d i sz : Z) h m : res (bool * phys * machine) :=
  match n with
  | O => OutOfFuel
  | S n' =>
      if i <? sz then
        let? (pte, h, m) := walkpgdir pgdir i false h m in
        if pte =? 0 then Panic "copyuvm: pte should exist"
        else
          let e := load32 (p_mem h) pte in
          if negb (present e) then Panic "copyuvm: page not present"
          else
            let pa := PTE_ADDR e in
            let flags := PTE_FLAGS e in
            let? (mem, h, m) := kalloc h m in
            if mem =? 0 then Ok (false, h, m)
            else
              let h := mkPhys (memmove (p_mem h) mem (P2V pa) PGSIZE).1 (p_kmem h) in
              let? (r, h, m) := mappages d i PGSIZE (V2P mem) flags h m in
              if r <? 0 then
                let? (h, m) := kfree kend mem h m in Ok (false, h, m)
              else copy_loop n' pgdir d (u32 (i + PGSIZE)) sz h m
      else Ok (true, h, m)
  end.

Definition copyuvm (pgdir sz : Z) h m : res (Z * phys * machine) :=
  let? (d, h, m) := setupkvm h m in
  if d =? 0 then Ok (0, h, m)
  else
    let? (ok, h, m) := copy_loop (S (Z.to_nat (sz / PGSIZE)) + 1) pgdir d 0 sz h m in
    if ok : bool then Ok (d, h, m)
    else let? (h, m) := freevm d h m in Ok (0, h, m).

(** The address is not checked for null before the PTE is read. *)
Definition uva2ka (pgdir uva : Z) h m : res (Z * phys * machine) :=
  let? (pte, h, m) := walkpgdir pgdir uva false h m in
  if pte =? 0 then OOB "null pointer"
  else
    let e := load32 (p_mem h) pte in
    if negb (present e) then Ok (0, h, m)
    else if Z.land e PTE_U =? 0 then Ok (0, h, m)
    else Ok (P2V (PTE_ADDR e), h, m).

(** [buf] is what the buffer holds; it is not in the pages written. *)
Fixpoint copyout (fuel : nat) (pgdir va : Z) (buf : list Z) h m : res (Z * phys * machine) :=
  match fuel with
  | O => OutOfFuel
  | S n' =>
      let len := Z.of_nat (length buf) in
      if 0 <? len then
        let va0 := PGROUNDDOWN va in
        let? (pa0, h, m) := uva2ka pgdir va0 h m in
        if pa0 =? 0 then Ok (-1, h, m)
        else
          let n := u32 (PGSIZE - (va - va0)) in
          let n := if len <? n then len else n in
          let h := mkPhys (store_bytes (p_mem h) (u32 (pa0 + (va - va0))) (take (Z.to_nat n) buf)) (p_kmem h) in
          copyout n' pgdir (u32 (va0 + PGSIZE)) (drop (Z.to_nat n) buf) h m
      else Ok (0, h, m)
  end.

(** [loaduvm], with [readi ip off n] of fs.c: what it returns and the bytes it
    read.  [Y] is the state of the file system. *)
Context {Ip Y : Type} (readi : Ip -> Z -> Z -> phys -> machine -> Y -> res (Z * list Z * phys * machine * Y)).

Fixpoint load_loop (n : nat) (pgdir addr : Z) (ip : Ip) (offset i sz : Z) h m (y : Y) : res (Z * phys * machine * Y) :=
  match n with
  | O => OutOfFuel
  | S n' =>
      if i <? sz then
        let? (pte, h, m) := walkpgdir pgdir (u32 (addr + i)) false h m in
        if pte =? 0 then Panic "loaduvm: address should exist"
        else
          let pa := PTE_ADDR (load32 (p_mem h) pte) in
          let k := (if u32 (sz - i) <? PGSIZE then u32 (sz - i) else PGSIZE) in
          let? (r, bs, h, m, y) := readi ip (u32 (offset + i)) k h m y in
          let h := mkPhys (store_bytes (p_mem h) (P2V pa) bs) (p_kmem h) in
          if negb (r =? k) then Ok (-1, h, m, y)
          else load_loop n' pgdir addr ip offset (u32 (i + PGSIZE)) sz h m y
      else Ok (0, h, m, y)
  end.

Definition loaduvm (pgdir addr : Z) (ip : Ip) (offset sz : Z) h m (y : Y) : res (Z * phys * machine * Y) :=
  if negb (addr mod PGSIZE =? 0) then Panic "loaduvm: addr must be page aligned"
  else load_loop (S (Z.to_nat (sz / PGSIZE)) + 1) pgdir addr ip offset 0 sz h m y.

End Vm.
End Vm.
