(* ===== verification/Steady.v ===== *)
(** The allocator and the functions on address spaces take and give back the
    allocator's lock: whatever they do to the memory, they leave the CPU with
    the process it runs, the locks it is inside of and its interrupt flag. *)

From S2P Require Import Prelude CString Spinlock Kalloc Vm.

Section Steady.
Import Spinlock Kalloc Vm.
Implicit Types (m : machine) (h : phys) (k : kmem).

Definition steady m m' : Prop := forall i c, cpu_here m i c -> cli_ok m c ->
  exists c', cpu_here m' i c' /\ ncli c' = ncli c /\ cpu_proc c' = cpu_proc c /\ eflags_if m' = eflags_if m.

#[export] Instance steady_preorder : PreOrder steady.
Proof.
  split.
  - intros m i c H Hok. by exists c.
  - intros m1 m2 m3 H12 H23 i c H Hok. destruct (H12 i c H Hok) as (c2 & H2 & Hn & Hp & He).
    destruct (H23 i c2 H2) as (c3 & H3 & Hn3 & Hp3 & He3); [unfold cli_ok in *; by rewrite Hn, He|].
    exists c3. split_and!; congruence.
Qed.

Lemma steady_touched m i c : cpu_here m i c -> exists c', cpu_here (touched m i c) i c' /\ ncli c' = ncli c /\ cpu_proc c' = cpu_proc c /\ eflags_if (touched m i c) = eflags_if m.
Proof.
  intros H. exists (set_ncli (ncli c) (pushed m c)). split; [apply (cpu_here_put _ _ c); [done|apply apicid_pushed]|]. split; [done|]. split; [|done].
  change (cpu_proc (pushed m c) = cpu_proc c). apply proc_pushed.
Qed.

(** A lock that is taken was free. *)
Lemma acquire_free lk m i c r : cpu_here m i c -> cli_ok m c -> acquire lk m = Ok r -> locked lk = 0.
Proof.
  intros H Hok E. unfold acquire in E. rewrite (pushcli_here _ _ _ H) in E. cbn [res_bind] in E.
  assert (cpu_here (put_cpu i (pushed m c) (cli m)) i (pushed m c)) as H' by (apply (cpu_here_put _ _ c); [exact H|apply apicid_pushed]).
  rewrite (holding_here _ _ _ _ H') in E by (split; [rewrite ncli_pushed; destruct Hok; lia|done]). cbn [res_bind] in E.
  destruct (_ && _); [done|]. by destruct (Z.eqb_spec (locked lk) 0).
Qed.

(** A lock taken and given back. *)
Lemma lock_pair_steady lk lk1 m m1 r m2 : acquire lk m = Ok (lk1, m1) -> release lk1 m1 = Ok (r, m2) -> steady m m2.
Proof.
  intros E1 E2 i c H Hok. pose proof (acquire_free _ _ _ _ _ H Hok E1) as Hl. rewrite (acquire_here _ _ _ _ H Hok Hl) in E1. injection E1 as <- <-.
  destruct (push_pop m i c H Hok) as (m' & Hp & H' & He & Hq). rewrite (pushcli_here _ _ _ H) in Hp. injection Hp as <-.
  assert (0 < ncli (pushed m c)) as Hn by (rewrite ncli_pushed; destruct Hok; lia).
  rewrite (popcli_here _ _ _ H' He Hn) in Hq. rewrite (release_here _ _ _ _ H' He Hn) in E2; try done.
  - apply (f_equal (fun r => match r with Ok a => a | _ => m end)) in Hq. cbv beta iota in Hq. rewrite Hq in E2. injection E2 as _ <-. by apply steady_touched.
  - unfold taken. cbn [pcs]. intros E. apply (f_equal length) in E. by rewrite getcallerpcs_length in E.
Qed.

Lemma kmem_pair_steady k k1 k1' k2 m m1 m2 : lock_kmem k m = Ok (k1, m1) -> kmem_lock k1' = kmem_lock k1 -> use_lock k1' = use_lock k1 ->
  unlock_kmem k1' m1 = Ok (k2, m2) -> steady m m2.
Proof.
  unfold lock_kmem, unlock_kmem. intros E1 Hl Hu E2. rewrite Hl, Hu in E2. destruct (use_lock k =? 0) eqn:E.
  - injection E1 as <- <-. rewrite E in E2. injection E2 as _ <-. reflexivity.
  - apply res_bind_Ok in E1 as ([l m'] & E1 & [= <- <-]). cbn [use_lock set_kmem_lock kmem_lock] in E2. rewrite E in E2.
    apply res_bind_Ok in E2 as ([l' m''] & E2 & [= _ <-]). by eapply lock_pair_steady.
Qed.

End Steady.

Create HintDb steady.

(** Opens a run hypothesis branch by branch. *)
Ltac open_run :=
  repeat match goal with
  | H : res_bind _ _ = Ok _ |- _ => apply res_bind_Ok in H as (? & ? & H)
  | x : (_ * _)%type |- _ => destruct x
  | H : (if ?b then _ else _) = Ok _ |- _ => destruct b
  | H : Ok _ = Ok _ |- _ => injection H; clear H; intros; subst
  | H : _ = Ok _ |- _ => discriminate H
  end.

(** The machine of each step is steady with that of the one before. *)
Ltac chain_steady := first [reflexivity | solve [eauto 2 with steady] | etransitivity; [solve [eauto 2 with steady]|chain_steady]].
Ltac run_steady := cbv zeta in *; open_run; chain_steady.

Section Memory.
Import Spinlock Kalloc Vm.
Context (kend kdata : Z).
Implicit Types (m : machine) (h : phys) (k : kmem).

Lemma kfree_steady v h m h' m' : kfree kend v h m = Ok (h', m') -> steady m m'.
Proof.
  unfold kfree. destruct (_ || _); [done|]. intros E. apply res_bind_Ok in E as ([k1 m1] & E1 & E). apply res_bind_Ok in E as ([k2 m2] & E2 & [= _ <-]).
  eapply kmem_pair_steady; [exact E1| | |exact E2]; done.
Qed.

Lemma kalloc_steady h m r h' m' : kalloc h m = Ok (r, h', m') -> steady m m'.
Proof.
  unfold kalloc. intros E. apply res_bind_Ok in E as ([k1 m1] & E1 & E). apply res_bind_Ok in E as ([k2 m2] & E2 & [= _ _ <-]).
  eapply kmem_pair_steady; [done| | |done]; by destruct (_ =? 0).
Qed.
Hint Resolve kfree_steady kalloc_steady : steady.

Lemma walkpgdir_steady d va alloc h m r h' m' : walkpgdir d va alloc h m = Ok (r, h', m') -> steady m m'.
Proof. unfold walkpgdir. intros H. run_steady. Qed.
Hint Resolve walkpgdir_steady : steady.

Lemma dealloc_loop_steady n : forall d a o h m h' m', dealloc_loop kend n d a o h m = Ok (h', m') -> steady m m'.
Proof. induction n as [|n IH]; intros d a o h m h' m' H; cbn [dealloc_loop] in H; [done|]. run_steady. Qed.
Hint Resolve dealloc_loop_steady : steady.

Lemma deallocuvm_steady d o z h m r h' m' : deallocuvm kend d o z h m = Ok (r, h', m') -> steady m m'.
Proof. unfold deallocuvm. intros H. run_steady. Qed.
Hint Resolve deallocuvm_steady : steady.

Lemma free_tables_steady n : forall i d h m h' m', free_tables kend n i d h m = Ok (h', m') -> steady m m'.
Proof. induction n as [|n IH]; intros i d h m h' m' H; cbn [free_tables] in H; run_steady. Qed.
Hint Resolve free_tables_steady : steady.

Lemma freevm_steady d h m h' m' : freevm kend d h m = Ok (h', m') -> steady m m'.
Proof. unfold freevm. intros H. run_steady. Qed.
Hint Resolve freevm_steady : steady.

Lemma map_loop_steady n : forall d a last pa perm h m r h' m', map_loop n d a last pa perm h m = Ok (r, h', m') -> steady m m'.
Proof. induction n as [|n IH]; intros d a last pa perm h m r h' m' H; cbn [map_loop] in H; [done|]. run_steady. Qed.
Hint Resolve map_loop_steady : steady.

Lemma mappages_steady d va z pa perm h m r h' m' : mappages d va z pa perm h m = Ok (r, h', m') -> steady m m'.
Proof. unfold mappages. intros H. run_steady. Qed.
Hint Resolve mappages_steady : steady.

Lemma map_kernel_steady l : forall d h m r h' m', map_kernel l d h m = Ok (r, h', m') -> steady m m'.
Proof. induction l as [|e l IH]; intros d h m r h' m' H; cbn [map_kernel] in H; run_steady. Qed.
Hint Resolve map_kernel_steady : steady.

Lemma setupkvm_steady h m r h' m' : setupkvm kend kdata h m = Ok (r, h', m') -> steady m m'.
Proof. unfold setupkvm. intros H. run_steady. Qed.

Lemma alloc_loop_steady n : forall d a o z h m r h' m', alloc_loop kend n d a o z h m = Ok (r, h', m') -> steady m m'.
Proof. induction n as [|n IH]; intros d a o z h m r h' m' H; cbn [alloc_loop] in H; [done|]. run_steady. Qed.
Hint Resolve alloc_loop_steady : steady.

Lemma allocuvm_steady d o z h m r h' m' : allocuvm kend d o z h m = Ok (r, h', m') -> steady m m'.
Proof. unfold allocuvm. intros H. run_steady. Qed.

Lemma clearpteu_steady d va h m h' m' : clearpteu d va h m = Ok (h', m') -> steady m m'.
Proof. unfold clearpteu. intros H. run_steady. Qed.

Lemma uva2ka_steady d va h m r h' m' : uva2ka d va h m = Ok (r, h', m') -> steady m m'.
Proof. unfold uva2ka. intros H. run_steady. Qed.
Hint Resolve uva2ka_steady : steady.

Lemma copyout_steady n : forall d va buf h m r h' m', copyout n d va buf h m = Ok (r, h', m') -> steady m m'.
Proof. induction n as [|n IH]; intros d va buf h m r h' m' H; cbn [copyout] in H; [done|]. run_steady. Qed.
End Memory.
#[export] Hint Resolve kfree_steady kalloc_steady freevm_steady setupkvm_steady allocuvm_steady deallocuvm_steady clearpteu_steady copyout_steady : steady.
