(* ===== verification/Segs.v ===== *)
(** Segments, gates and the boot page table: the descriptors of [mmu.h],
    [seginit] and the descriptor part of [switchuvm] of vm.c, [tvinit] and
    [idtinit] of trap.c, and [entrypgdir] of main.c.

    A bit field keeps the low bits of what is stored in it.  [vectors] are the
    entry points that vectors.pl generates.  [enter] is how the processor takes
    an interrupt: it is what the manual says of gates, descriptors and the task
    state, and the theorems say what the tables make of it. *)

From S2P Require Import Prelude Spinlock Kalloc Vm.

(** * mmu.h *)

Definition NSEGS : nat := 6.
Definition STA_X : Z := 0x8.
Definition STA_W : Z := 0x2.
Definition STA_R : Z := 0x2.
Definition STS_T32A : Z := 0x9.
Definition STS_IG32 : Z := 0xE.
Definition STS_TG32 : Z := 0xF.
Definition PTE_PS : Z := 0x080.

(** A field of [w] bits. *)
Definition field (w v : Z) : Z := v mod 2 ^ w.

Record segdesc := mkSeg {
  lim_15_0 : Z; base_15_0 : Z; base_23_16 : Z; sd_type : Z; sd_s : Z; sd_dpl : Z; sd_p : Z;
  lim_19_16 : Z; sd_avl : Z; sd_rsv1 : Z; sd_db : Z; sd_g : Z; base_31_24 : Z
}.
#[export] Instance segdesc_eta : Eta segdesc := fun d =>
  mkSeg (lim_15_0 d) (base_15_0 d) (base_23_16 d) (sd_type d) (sd_s d) (sd_dpl d) (sd_p d) (lim_19_16 d) (sd_avl d) (sd_rsv1 d) (sd_db d) (sd_g d) (base_31_24 d).
Definition set_sd_s := ltac:(setter sd_s).

Definition SEG (type base lim dpl : Z) : segdesc :=
  mkSeg (field 16 (Z.land (Z.shiftr lim 12) 0xffff)) (field 16 (Z.land (u32 base) 0xffff))
    (field 8 (Z.land (Z.shiftr (u32 base) 16) 0xff)) (field 4 type) (field 1 1) (field 2 dpl) (field 1 1)
    (field 4 (Z.shiftr (u32 lim) 28)) (field 1 0) (field 1 0) (field 1 1) (field 1 1) (field 8 (Z.shiftr (u32 base) 24)).

Definition SEG16 (type base lim dpl : Z) : segdesc :=
  mkSeg (field 16 (Z.land lim 0xffff)) (field 16 (Z.land (u32 base) 0xffff))
    (field 8 (Z.land (Z.shiftr (u32 base) 16) 0xff)) (field 4 type) (field 1 1) (field 2 dpl) (field 1 1)
    (field 4 (Z.shiftr (u32 lim) 16)) (field 1 0) (field 1 0) (field 1 1) (field 1 0) (field 8 (Z.shiftr (u32 base) 24)).

Record taskstate := mkTs {
  ts_link : Z; ts_esp0 : Z; ts_ss0 : Z; ts_padding1 : Z; ts_esp1 : Z; ts_ss1 : Z; ts_padding2 : Z;
  ts_esp2 : Z; ts_ss2 : Z; ts_padding3 : Z; ts_cr3 : Z; ts_eip : Z; ts_eflags : Z; ts_eax : Z;
  ts_ecx : Z; ts_edx : Z; ts_ebx : Z; ts_esp : Z; ts_ebp : Z; ts_esi : Z; ts_edi : Z;
  ts_es : Z; ts_padding4 : Z; ts_cs : Z; ts_padding5 : Z; ts_ss : Z; ts_padding6 : Z; ts_ds : Z;
  ts_padding7 : Z; ts_fs : Z; ts_padding8 : Z; ts_gs : Z; ts_padding9 : Z; ts_ldt : Z; ts_padding10 : Z;
  ts_t : Z; ts_iomb : Z
}.
#[export] Instance taskstate_eta : Eta taskstate := fun x =>
  mkTs (ts_link x) (ts_esp0 x) (ts_ss0 x) (ts_padding1 x) (ts_esp1 x) (ts_ss1 x) (ts_padding2 x) (ts_esp2 x) (ts_ss2 x) (ts_padding3 x) (ts_cr3 x) (ts_eip x) (ts_eflags x) (ts_eax x) (ts_ecx x) (ts_edx x) (ts_ebx x) (ts_esp x) (ts_ebp x) (ts_esi x) (ts_edi x) (ts_es x) (ts_padding4 x) (ts_cs x) (ts_padding5 x) (ts_ss x) (ts_padding6 x) (ts_ds x) (ts_padding7 x) (ts_fs x) (ts_padding8 x) (ts_gs x) (ts_padding9 x) (ts_ldt x) (ts_padding10 x) (ts_t x) (ts_iomb x).
Definition set_ts_esp0 := ltac:(setter ts_esp0).
Definition set_ts_ss0 := ltac:(setter ts_ss0).
Definition set_ts_iomb := ltac:(setter ts_iomb).
Definition sizeof_ts : Z := 104.

Record gatedesc := mkGate {
  off_15_0 : Z; gd_cs : Z; gd_args : Z; gd_rsv1 : Z; gd_type : Z; gd_s : Z; gd_dpl : Z; gd_p : Z; off_31_16 : Z
}.

Definition SETGATE (istrap : bool) (sel off d : Z) : gatedesc :=
  mkGate (field 16 (Z.land (u32 off) 0xffff)) (field 16 sel) (field 5 0) (field 3 0)
    (field 4 (if istrap then STS_TG32 else STS_IG32)) (field 1 0) (field 2 d) (field 1 1) (field 16 (Z.shiftr (u32 off) 16)).

(** The segments of a CPU: its [gdt] and [ts], and the registers loaded from
    them; 0 is a register that was not loaded. *)
Record segs := mkSegs { gdt : list segdesc; ts : taskstate; gdtr : Z; tr : Z; idtr : Z }.
#[export] Instance segs_eta : Eta segs := fun x => mkSegs (gdt x) (ts x) (gdtr x) (tr x) (idtr x).
Definition set_gdt := ltac:(setter gdt).
Definition set_ts := ltac:(setter ts).
Definition set_gdtr := ltac:(setter gdtr).
Definition set_tr := ltac:(setter tr).
Definition set_idtr := ltac:(setter idtr).

Module Segs.
Section Segs.
(** Where the table [gdt] and the task state of the CPU lie, and the table [idt]. *)
Context (gdt_at ts_at idt_at : Z) (vectors : Z -> Z).
Implicit Types (x : segs) (idt : list gatedesc).

(** [c->gdt[i] = d]. *)
Definition put_seg (i : Z) (d : segdesc) x : res segs :=
  let? l := zset "gdt" (gdt x) i d in Ok (set_gdt l x).

(** On the CPU that runs it. *)
Definition seginit x : res segs :=
  let? x := put_seg SEG_KCODE (SEG (Z.lor STA_X STA_R) 0 0xffffffff 0) x in
  let? x := put_seg SEG_KDATA (SEG STA_W 0 0xffffffff 0) x in
  let? x := put_seg SEG_UCODE (SEG (Z.lor STA_X STA_R) 0 0xffffffff DPL_USER) x in
  let? x := put_seg SEG_UDATA (SEG STA_W 0 0xffffffff DPL_USER) x in
  Ok (set_gdtr gdt_at x).

(** The part of [switchuvm] between [pushcli] and [lcr3]. *)
Definition load_tss (kstack : Z) x : res segs :=
  let? x := put_seg SEG_TSS (SEG16 STS_T32A ts_at (sizeof_ts - 1) 0) x in
  let? d := zget "gdt" (gdt x) SEG_TSS in
  let? x := put_seg SEG_TSS (set_sd_s 0 d) x in
  let x := set_ts (set_ts_ss0 (u16 (Z.shiftl SEG_KDATA 3)) (ts x)) x in
  let x := set_ts (set_ts_esp0 (u32 (kstack + KSTACKSIZE)) (ts x)) x in
  let x := set_ts (set_ts_iomb 0xFFFF (ts x)) x in
  Ok (set_tr (Z.shiftl SEG_TSS 3) x).

(** [for (i = 0; i < 256; i++) SETGATE(...)]: [n] turns are left. *)
Fixpoint set_gates (n : nat) (i : Z) idt : res (list gatedesc) :=
  match n with
  | O => Ok idt
  | S n =>
      let? idt := zset "idt" idt i (SETGATE false (Z.shiftl SEG_KCODE 3) (vectors i) 0) in
      set_gates n (i + 1) idt
  end.

Definition tvinit idt (tickslock : spinlock) : res (list gatedesc * spinlock) :=
  let? idt := set_gates 256 0 idt in
  let? idt := zset "idt" idt T_SYSCALL (SETGATE true (Z.shiftl SEG_KCODE 3) (vectors T_SYSCALL) DPL_USER) in
  Ok (idt, Spinlock.initlock "time" tickslock).

Definition idtinit x : segs := set_idtr idt_at x.
End Segs.

(** [entrypgdir] of main.c. *)
Definition entrypgdir : list Z :=
  <[Z.to_nat (Z.shiftr KERNBASE 22) := Z.lor (Z.lor (Z.lor 0 PTE_P) PTE_W) PTE_PS]>
    (<[0%nat := Z.lor (Z.lor (Z.lor 0 PTE_P) PTE_W) PTE_PS]> (repeat 0 NPDENTRIES)).
End Segs.

(** * The processor *)

(** What a descriptor describes. *)
Definition seg_base (d : segdesc) : Z := base_15_0 d + 2 ^ 16 * base_23_16 d + 2 ^ 24 * base_31_24 d.
Definition seg_limit (d : segdesc) : Z :=
  let l := lim_15_0 d + 2 ^ 16 * lim_19_16 d in if sd_g d =? 1 then 2 ^ 12 * l + 4095 else l.
Definition gate_target (g : gatedesc) : Z := off_15_0 g + 2 ^ 16 * off_31_16 g.

(** Where the processor goes when it takes interrupt [n] at privilege [cpl]: the
    address, the new privilege level, the stack if the level changes, and whether
    interrupts are turned off.  [soft] is an [int] instruction, which may use
    only gates whose level is no lower; a refused one is a protection fault. *)
Record entered := mkEntered { en_eip : Z; en_cpl : Z; en_esp : option Z; en_if_off : bool }.
Definition enter (x : segs) (idt : list gatedesc) (soft : bool) (cpl n : Z) : option entered :=
  match idt !! Z.to_nat n with
  | None => None
  | Some g =>
      if (gd_p g =? 0) || (soft && (gd_dpl g <? cpl)) then None
      else
        match gdt x !! Z.to_nat (Z.shiftr (gd_cs g) 3) with
        | None => None
        | Some d =>
            Some (mkEntered (seg_base d + gate_target g) (sd_dpl d)
                    (if sd_dpl d <? cpl then Some (ts_esp0 (ts x)) else None) (gd_type g =? STS_IG32))
        end
  end.

(** May code at level [cpl] use I/O ports, when [iopl] is 0? *)
Definition may_io (x : segs) (cpl port : Z) : bool :=
  match gdt x !! Z.to_nat (Z.shiftr (tr x) 3) with
  | Some d => (cpl =? 0) || (ts_iomb (ts x) + port / 8 <=? seg_limit d)
  | None => cpl =? 0
  end.

(** The page table walk with 4 MB pages: a directory entry with [PTE_PS] maps
    them directly. *)
Definition big_page (pgdir : list Z) (va : Z) : option Z :=
  match pgdir !! Z.to_nat (PDX va) with
  | Some e => if present e && negb (Z.land e PTE_PS =? 0) then Some (Z.land e 0xFFC00000 + va mod 2 ^ 22) else None
  | None => None
  end.

(** * The tables *)

Section Facts.
Import Segs.
Implicit Types (x : segs) (idt : list gatedesc).

Lemma low_bits w v : 0 <= w -> field w (Z.land v (Z.ones w)) = v mod 2 ^ w.
Proof. intros Hw. unfold field. by rewrite Z.land_ones, Z.mod_mod by lia. Qed.

(** A descriptor gives back the base and the limit it was made from. *)
Lemma SEG_base t b l d : 0 <= b < 2 ^ 32 -> seg_base (SEG t b l d) = b.
Proof.
  intros Hb. unfold seg_base, SEG. cbn [base_15_0 base_23_16 base_31_24]. rewrite u32_small by done.
  change 0xffff with (Z.ones 16). change 0xff with (Z.ones 8). rewrite !low_bits by lia. unfold field. rewrite !Z.shiftr_div_pow2 by lia.
  Z.to_euclidean_division_equations. lia.
Qed.

Lemma SEG_limit t b l d : 0 <= l < 2 ^ 32 -> seg_limit (SEG t b l d) = 4096 * (l / 4096) + 4095.
Proof.
  intros Hl. unfold seg_limit, SEG. cbn [lim_15_0 lim_19_16 sd_g]. rewrite u32_small by done. change (field 1 1 =? 1) with true. cbv iota.
  change 0xffff with (Z.ones 16). rewrite !low_bits by lia. unfold field. rewrite !Z.shiftr_div_pow2 by lia. Z.to_euclidean_division_equations. lia.
Qed.

Lemma SEG16_limit t b l d : 0 <= l < 2 ^ 20 -> seg_limit (SEG16 t b l d) = l.
Proof.
  intros Hl. unfold seg_limit, SEG16. cbn [lim_15_0 lim_19_16 sd_g]. rewrite u32_small by lia. change (field 1 0 =? 1) with false. cbv iota.
  change 0xffff with (Z.ones 16). rewrite !low_bits by lia. unfold field. rewrite !Z.shiftr_div_pow2 by lia. Z.to_euclidean_division_equations. lia.
Qed.

Lemma SETGATE_target t sel off d : 0 <= off < 2 ^ 32 -> gate_target (SETGATE t sel off d) = off.
Proof.
  intros Ho. unfold gate_target, SETGATE. cbn [off_15_0 off_31_16]. rewrite u32_small by done. change 0xffff with (Z.ones 16). rewrite low_bits by lia.
  unfold field. rewrite !Z.shiftr_div_pow2 by lia. Z.to_euclidean_division_equations. lia.
Qed.

Section Tables.
Context (gdt_at ts_at : Z) (vectors : Z -> Z).

Lemma set_gates_ok n : forall i idt, 0 <= i -> i + Z.of_nat n <= Z.of_nat (length idt) ->
  exists idt', set_gates vectors n i idt = Ok idt' /\ length idt' = length idt /\
    forall k, 0 <= k -> idt' !! Z.to_nat k = if bool_decide (i <= k < i + Z.of_nat n) then Some (SETGATE false (Z.shiftl SEG_KCODE 3) (vectors k) 0) else idt !! Z.to_nat k.
Proof.
  induction n as [|n IH]; intros i idt Hi Hn; cbn [set_gates].
  { exists idt. split; [done|]. split; [done|]. intros k Hk. by rewrite bool_decide_false by lia. }
  rewrite zset_in by lia. cbn [res_bind]. destruct (IH (i + 1) (<[Z.to_nat i := SETGATE false (Z.shiftl SEG_KCODE 3) (vectors i) 0]> idt)) as (idt' & -> & El & Ek);
    [lia|rewrite length_insert; lia|]. exists idt'. rewrite length_insert in El. split; [done|]. split; [done|]. intros k Hk. rewrite Ek by done.
  destruct (decide (k = i)) as [->|Hne].
  - rewrite bool_decide_false, bool_decide_true, list_lookup_insert_eq by lia. done.
  - rewrite list_lookup_insert_ne by lia. by destruct (bool_decide_reflect (i + 1 <= k < i + 1 + Z.of_nat n)), (bool_decide_reflect (i <= k < i + Z.of_nat (S n))); try done; lia.
Qed.

Lemma tvinit_ok idt lk : length idt = 256%nat -> exists idt' lk', tvinit vectors idt lk = Ok (idt', lk') /\
  forall n, 0 <= n < 256 -> idt' !! Z.to_nat n = Some (if n =? T_SYSCALL then SETGATE true (Z.shiftl SEG_KCODE 3) (vectors n) DPL_USER else SETGATE false (Z.shiftl SEG_KCODE 3) (vectors n) 0).
Proof.
  intros Hl. unfold tvinit. destruct (set_gates_ok 256 0 idt) as (idt1 & -> & El & Ek); [lia..|]. cbn [res_bind]. rewrite zset_in by (unfold T_SYSCALL; lia). cbn [res_bind].
  do 2 eexists. split; [done|]. intros n Hn. destruct (Z.eqb_spec n T_SYSCALL) as [->|Hne].
  - apply list_lookup_insert_eq. unfold T_SYSCALL. lia.
  - rewrite list_lookup_insert_ne by (unfold T_SYSCALL in *; lia). rewrite Ek by lia. by rewrite bool_decide_true by lia.
Qed.

Lemma segments_ok kstack x : length (gdt x) = NSEGS -> exists x1 x2, seginit gdt_at x = Ok x1 /\ load_tss ts_at kstack x1 = Ok x2 /\
  (forall i, i <> SEG_TSS -> 0 < i < 6 -> gdt x2 !! Z.to_nat i = gdt x1 !! Z.to_nat i) /\
  gdt x1 !! 1%nat = Some (SEG (Z.lor STA_X STA_R) 0 0xffffffff 0) /\ gdt x1 !! 2%nat = Some (SEG STA_W 0 0xffffffff 0) /\
  gdt x1 !! 3%nat = Some (SEG (Z.lor STA_X STA_R) 0 0xffffffff DPL_USER) /\ gdt x1 !! 4%nat = Some (SEG STA_W 0 0xffffffff DPL_USER) /\
  gdt x2 !! 5%nat = Some (set_sd_s 0 (SEG16 STS_T32A ts_at (sizeof_ts - 1) 0)) /\
  ts_esp0 (ts x2) = u32 (kstack + KSTACKSIZE) /\ ts_iomb (ts x2) = 0xFFFF /\ tr x2 = 40.
Proof.
  intros Hl. destruct x as [g t a b c]. cbn [gdt] in Hl. do 7 (destruct g as [|? g]; try discriminate Hl).
  do 2 eexists. split; [reflexivity|]. split; [reflexivity|]. split; [|done]. intros i Hi Hr.
  assert (i = 1 \/ i = 2 \/ i = 3 \/ i = 4) as [->|[->|[->| ->]]] by (unfold SEG_TSS in Hi; lia); done.
Qed.

(** C17: with the tables of [tvinit], [seginit] and [switchuvm], a user
    program enters the kernel by itself only through the system call gate, and
    with interrupts on; every other interrupt enters with interrupts off; each
    goes to its own entry point, at the kernel's privilege, and from user mode on
    the kernel stack of the process.  User code cannot use I/O ports. *)
Theorem kernel_entry kstack x idt lk :
  length (gdt x) = NSEGS -> length idt = 256%nat -> 0 <= kstack -> kstack + KSTACKSIZE < 2 ^ 32 -> (forall n, 0 <= vectors n < 2 ^ 32) ->
  exists x1 x2 idt' lk', seginit gdt_at x = Ok x1 /\ load_tss ts_at kstack x1 = Ok x2 /\ tvinit vectors idt lk = Ok (idt', lk') /\
    (forall n, 0 <= n < 256 ->
      enter x2 idt' true 3 n = (if n =? T_SYSCALL then Some (mkEntered (vectors n) 0 (Some (kstack + KSTACKSIZE)) false) else None) /\
      enter x2 idt' false 3 n = Some (mkEntered (vectors n) 0 (Some (kstack + KSTACKSIZE)) (negb (n =? T_SYSCALL))) /\
      enter x2 idt' false 0 n = Some (mkEntered (vectors n) 0 None (negb (n =? T_SYSCALL)))) /\
    (forall port, 0 <= port < 2 ^ 16 -> may_io x2 3 port = false).
Proof.
  intros Hg Hi Hk0 Hk Hv. destruct (segments_ok kstack x Hg) as (x1 & x2 & E1 & E2 & H12 & H1 & _ & _ & _ & H5 & Ht & Hio & Htr).
  destruct (tvinit_ok idt lk Hi) as (idt' & lk' & E3 & Hn). exists x1, x2, idt', lk'. split; [done|]. split; [done|]. split; [done|].
  assert (gdt x2 !! 1%nat = Some (SEG (Z.lor STA_X STA_R) 0 0xffffffff 0)) as Hc by (rewrite <- H1; apply (H12 1); unfold SEG_TSS; lia). split.
  - intros n Hr. unfold enter. rewrite (Hn n Hr), Ht, (u32_small (kstack + KSTACKSIZE)) by (unfold KSTACKSIZE in *; lia).
    destruct (Z.eqb_spec n T_SYSCALL) as [->|Hne]; cbn [gd_p gd_dpl gd_cs gd_type SETGATE];
      change (Z.to_nat (Z.shiftr (field 16 (Z.shiftl SEG_KCODE 3)) 3)) with 1%nat; rewrite Hc, SEG_base, SETGATE_target by (done || lia); done.
  - intros port Hp. unfold may_io. rewrite Htr, Hio. change (Z.to_nat (Z.shiftr 40 3)) with 5%nat. rewrite H5.
    change (seg_limit (set_sd_s 0 (SEG16 STS_T32A ts_at (sizeof_ts - 1) 0))) with (seg_limit (SEG16 STS_T32A ts_at (sizeof_ts - 1) 0)).
    rewrite SEG16_limit by (unfold sizeof_ts; lia). cbn [Z.eqb orb]. apply Z.leb_gt. assert (0 <= port / 8) by (apply Z.div_pos; lia). unfold sizeof_ts. lia.
Qed.
End Tables.

Lemma entrypgdir_at (i : nat) : entrypgdir !! i = if bool_decide (i = 512 \/ i = 0)%nat then Some 0x83 else if bool_decide (i < 1024)%nat then Some 0 else None.
Proof.
  unfold entrypgdir. assert (Z.to_nat (Z.shiftr KERNBASE 22) = 512%nat) as -> by reflexivity.
  assert (Z.lor (Z.lor (Z.lor 0 PTE_P) PTE_W) PTE_PS = 0x83) as -> by reflexivity. generalize (repeat_length 0 NPDENTRIES). assert (forall e, In e (repeat 0 NPDENTRIES) -> e = 0) as H by apply repeat_spec.
  revert H. generalize (repeat 0 NPDENTRIES). unfold NPDENTRIES. intros l H Hl.
  destruct (decide (i = 512%nat)) as [->|H1]; [by rewrite list_lookup_insert_eq by (rewrite length_insert; lia)|]. rewrite list_lookup_insert_ne by lia.
  destruct (decide (i = 0%nat)) as [->|H2]; [by rewrite list_lookup_insert_eq by lia|]. rewrite list_lookup_insert_ne by lia. rewrite bool_decide_false by lia.
  destruct (bool_decide_reflect (i < 1024)%nat) as [Hlt|Hge]; [|apply lookup_ge_None_2; lia].
  destruct (lookup_lt_is_Some_2 l i) as [e He]; [lia|]. rewrite He. f_equal. apply H, list_elem_of_In. by eapply list_elem_of_lookup_2.
Qed.

(** The page table that the kernel starts with maps the first 4 MB of
    memory at 0 and at [KERNBASE], and nothing else. *)
Theorem entrypgdir_spec va : 0 <= va < 2 ^ 32 ->
  big_page entrypgdir va = if va <? 2 ^ 22 then Some va else if (KERNBASE <=? va) && (va <? KERNBASE + 2 ^ 22) then Some (V2P va) else None.
Proof.
  intros Hv. assert (PDX va = va / 2 ^ 22) as Ep.
  { unfold PDX. change 0x3FF with (Z.ones 10). rewrite Z.land_ones, Z.shiftr_div_pow2 by lia. apply Z.mod_small. split; [apply Z.div_pos; lia|apply Z.div_lt_upper_bound; lia]. }
  unfold big_page. rewrite Ep, entrypgdir_at. pose proof (Z.div_mod va (2 ^ 22) ltac:(lia)) as Hd. pose proof (Z.mod_pos_bound va (2 ^ 22) ltac:(lia)) as Hm. unfold KERNBASE, V2P, KERNBASE.
  assert (present 0x83 && negb (Z.land 0x83 PTE_PS =? 0) = true /\ Z.land 0x83 0xFFC00000 = 0) as [Hb1 Hb2] by done. assert (present 0 = false) as Hb3 by done.
  destruct (bool_decide_reflect (Z.to_nat (va / 2 ^ 22) = 512 \/ Z.to_nat (va / 2 ^ 22) = 0)%nat) as [[E|E]|Hne].
  - rewrite Hb1, Hb2. rewrite (proj2 (Z.ltb_ge va _)), (proj2 (Z.leb_le _ va)), (proj2 (Z.ltb_lt va _)), u32_small by lia. cbn [andb]. f_equal. lia.
  - rewrite Hb1, Hb2, (proj2 (Z.ltb_lt va _)) by lia. f_equal. lia.
  - rewrite (proj2 (Z.ltb_ge va _)) by lia. assert ((0x80000000 <=? va) && (va <? 0x80000000 + 2 ^ 22) = false) as ->.
    { destruct (Z.leb_spec 0x80000000 va), (Z.ltb_spec va (0x80000000 + 2 ^ 22)); cbn [andb]; try done. lia. }
    destruct (bool_decide _); [|done]. by rewrite Hb3.
Qed.
End Facts.

(** * Witnesses *)

Definition demo_segs : segs := mkSegs (repeat (mkSeg 0 0 0 0 0 0 0 0 0 0 0 0 0) 6) (mkTs 0 0 0 0 0 0 0 0 0 0 0 0 0 0 0 0 0 0 0 0 0 0 0 0 0 0 0 0 0 0 0 0 0 0 0 0 0) 0 0 0.
Definition demo_idt : list gatedesc := repeat (mkGate 0 0 0 0 0 0 0 0 0) 256.

Lemma kernel_entry_witness : exists x1 x2 idt' lk', Segs.seginit 0x1000 demo_segs = Ok x1 /\ Segs.load_tss 0x2000 0x8000 x1 = Ok x2 /\
  Segs.tvinit (fun n => 0x80100000 + n mod 256) demo_idt (mkLock 0 "time" None []) = Ok (idt', lk') /\
  enter x2 idt' true 3 14 = None /\ enter x2 idt' true 3 64 = Some (mkEntered 0x80100040 0 (Some 0x9000) false).
Proof.
  destruct (kernel_entry 0x1000 0x2000 (fun n => 0x80100000 + n mod 256) 0x8000 demo_segs demo_idt (mkLock 0 "time" None [])) as (x1 & x2 & idt' & lk' & H1 & H2 & H3 & H4 & _).
  - reflexivity.
  - reflexivity.
  - lia.
  - reflexivity.
  - intros n. pose proof (Z.mod_pos_bound n 256). lia.
  - exists x1, x2, idt', lk'. split; [exact H1|]. split; [exact H2|]. split; [exact H3|]. split; [apply (H4 14); lia|apply (H4 64); lia].
Defined.

Lemma entrypgdir_spec_witness : big_page Segs.entrypgdir 0x80000123 = Some 0x123.
Proof. rewrite (entrypgdir_spec 0x80000123); [reflexivity|lia]. Defined.
