(* ===== verification/Startup.v ===== *)
(** Starting the other processors: [startothers], [mpenter] and [mpmain] of
    main.c.

    [entryother] is the code of entryother.S; [mpenter_at] and [entrypgdir_at] are
    the addresses of [mpenter] and [entrypgdir].  What the local APIC sends is the
    record [sent] of ApicFacts.v.  A startup command reaches a
    processor as a message: the address where it starts, and the words it finds
    below that address at the time of the command.  [others] is what the other
    processors do, given the messages, between two looks at [c->started]. *)

From S2P Require Import Prelude CString Spinlock Kalloc Apic ApicFacts Mp Vm Segs.

Definition set_started := ltac:(setter started).

(** A startup interrupt: the APIC it is sent to, the address of the code, and what
    the code finds below it: its stack, where to go and its page table. *)
Record message := mkMsg { to_apic : Z; msg_code : Z; msg_stack : Z; msg_entry : Z; msg_pgdir : Z }.

(** The messages that the commands [l] of the local APIC amount to, with the memory
    [mm]: those whose delivery mode is startup; the vector is the number of the page
    with the code. *)
Definition delivered (mm : mem) (l : list (Z * Z)) : list message :=
  omap (fun '(dest, v) =>
    if Z.land v 0x700 =? Lapic.STARTUP then
      let a := Z.shiftl (Z.land v 0xff) 12 in
      Some (mkMsg dest a (load32 mm (P2V a - 4)) (load32 mm (P2V a - 8)) (load32 mm (P2V a - 12)))
    else None) l.

Module Startup.
Section Startup.
Context `{IP : Ipis} (entryother : list Z) (mpenter_at entrypgdir_at : Z) (others : list message -> machine -> machine) (polls : nat).
Implicit Types (h : phys) (m : machine) (w : hw) (l : list message).

Definition code : Z := P2V 0x7000.

(** [while (c->started == 0)], [n] looks at most. *)
Fixpoint wait_started (n : nat) (c : nat) l m : res machine :=
  match n with
  | O => OutOfFuel
  | S n =>
      let? cp := Spinlock.get_cpu c m in
      if started cp =? 0 then wait_started n c l (others l m) else Ok m
  end.

(** [for (c = cpus; c < cpus+ncpu; c++)]: [n] processors are left. *)
Fixpoint start_loop (n : nat) (c : nat) l h m w : res (list message * phys * machine * hw) :=
  match n with
  | O => Ok (l, h, m, w)
  | S n =>
      let? i := Spinlock.mycpu m in
      if (c =? i)%nat then start_loop n (S c) l h m w
      else
        let? (stack, h, m) := Kalloc.kalloc h m in
        let mm := store32 (p_mem h) (code - 4) (u32 (stack + KSTACKSIZE)) in
        let mm := store32 mm (code - 8) mpenter_at in
        let mm := store32 mm (code - 12) (V2P entrypgdir_at) in
        let? cp := Spinlock.get_cpu c m in
        let '(mm, w') := Lapic.lapicstartap (apicid cp) (V2P code) mm w in
        let h := mkPhys mm (p_kmem h) in
        let l := l ++ delivered mm (drop (length (sent w)) (sent w')) in
        let? m := wait_started polls c l m in
        start_loop n (S c) l h m w'
  end.

Definition startothers h m w : res (list message * phys * machine * hw) :=
  let h := mkPhys (store_bytes (p_mem h) code entryother) (p_kmem h) in
  start_loop (ncpu m) 0 [] h m w.
End Startup.

(** What a processor sets up before it enters the scheduler, on its segments
    [x], the machine [m] and its local APIC: [mpenter] ([cr3] is the result of
    [switchkvm]) and the part of [mpmain] before [scheduler]. *)
Definition mpmain (idt_at : Z) (x : segs) m : res (segs * machine) :=
  let x := Segs.idtinit idt_at x in
  let? i := Spinlock.mycpu m in
  let? c := Spinlock.get_cpu i m in
  Ok (x, Spinlock.put_cpu i (set_started 1 c) m).

Definition mpenter `{HW : Hw} (polls : nat) (gdt_at idt_at lapic kpgdir : Z) (x : segs) m (w : hw) : res (Z * segs * machine * hw) :=
  let cr3 := V2P kpgdir in
  let? x := Segs.seginit gdt_at x in
  let? w := Lapic.lapicinit polls lapic w in
  let? (x, m) := mpmain idt_at x m in
  Ok (cr3, x, m, w).
End Startup.

(** * Every processor is started once *)

(** [m'] is [m] but for the flags [started], none of which is reset. *)
Record moved_on (m m' : machine) : Prop := {
  mo_cpus : set_started 0 <$> cpus m' = set_started 0 <$> cpus m;
  mo_ncpu : ncpu m' = ncpu m;
  mo_if : eflags_if m' = eflags_if m;
  mo_lapic : lapicid m' = lapicid m;
  mo_started c cp : cpus m !! c = Some cp -> started cp <> 0 -> exists cp', cpus m' !! c = Some cp' /\ started cp' <> 0
}.

#[export] Instance moved_on_preorder : PreOrder moved_on.
Proof.
  split.
  - intros m. split; try done. eauto.
  - intros m1 m2 m3 [A1 A2 A3 A4 A5] [B1 B2 B3 B4 B5]. split; try congruence.
    intros c cp Hc Hs. destruct (A5 c cp Hc Hs) as (cp' & Hc' & Hs'). by apply (B5 c cp').
Qed.

Section Facts.
Import Startup.
Context `{IP : Ipis} (entryother : list Z) (mpenter_at entrypgdir_at : Z) (others : list message -> machine -> machine) (polls : nat) (kend : Z).
Implicit Types (h : phys) (m : machine) (w : hw) (l : list message) (L : list Z).

Definition apic_of m (c : nat) : Z := default 0 (apicid <$> cpus m !! c).

Lemma moved_cpu m m' c cp : moved_on m m' -> cpus m !! c = Some cp -> exists cp', cpus m' !! c = Some cp' /\ apicid cp' = apicid cp.
Proof.
  intros [Hc _ _ _ _] Hcp. assert ((set_started 0 <$> cpus m') !! c = Some (set_started 0 cp)) as E by (rewrite Hc, list_lookup_fmap, Hcp; done).
  rewrite list_lookup_fmap in E. destruct (cpus m' !! c) as [cp'|]; [|done]. exists cp'. split; [done|]. by injection E.
Qed.

Lemma moved_apic m m' c : moved_on m m' -> apic_of m' c = apic_of m c.
Proof.
  intros H. unfold apic_of. destruct (cpus m !! c) as [cp|] eqn:E; [destruct (moved_cpu m m' c cp H E) as (cp' & -> & E'); cbn; congruence|].
  destruct H as [Hc _ _ _ _]. assert ((set_started 0 <$> cpus m') !! c = None) as E2 by (by rewrite Hc, list_lookup_fmap, E).
  rewrite list_lookup_fmap in E2. by destruct (cpus m' !! c).
Qed.

Lemma find_cpu_ids n a : forall (l1 l2 : list cpu) i, apicid <$> l1 = apicid <$> l2 -> Spinlock.find_cpu l1 n i a = Spinlock.find_cpu l2 n i a.
Proof.
  induction n as [|n IH]; intros [|c1 l1] [|c2 l2] i H; try done. cbn in H |- *. injection H as -> H. by rewrite (IH l1 l2 (S i) H).
Qed.

Lemma moved_mycpu m m' : moved_on m m' -> Spinlock.mycpu m' = Spinlock.mycpu m.
Proof.
  intros [Hc Hn Hi Hl _]. unfold Spinlock.mycpu, Spinlock.readeflags_if. rewrite Hn, Hi, Hl. rewrite (find_cpu_ids _ _ (cpus m') (cpus m)); [done|].
  apply (f_equal (fmap apicid)) in Hc. rewrite <- !list_fmap_compose in Hc. exact Hc.
Qed.

(** The others leave the rest of the machine alone, and a processor that was
    sent a message starts before [polls] looks. *)
Definition others_ok : Prop := forall l m, moved_on m (others l m).
Definition answers : Prop := forall l m c cp, cpus m !! c = Some cp -> (exists g, g ∈ l /\ to_apic g = apicid cp) ->
  exists k cp', (k < polls)%nat /\ cpus (Nat.iter k (others l) m) !! c = Some cp' /\ started cp' <> 0.

Lemma wait_start_ok n : others_ok -> forall c l m cp, cpus m !! c = Some cp ->
  (exists k cp', (k < n)%nat /\ cpus (Nat.iter k (others l) m) !! c = Some cp' /\ started cp' <> 0) ->
  exists m' cp', wait_started others n c l m = Ok m' /\ moved_on m m' /\ cpus m' !! c = Some cp' /\ started cp' <> 0.
Proof.
  intros Ho. induction n as [|n IH]; intros c l m cp Hc (k & cp' & Hk & Hc' & Hs'); [lia|]. cbn [wait_started].
  unfold Spinlock.get_cpu. rewrite (zget_of_nat _ _ _ _ Hc). cbn [res_bind]. destruct (Z.eqb_spec (started cp) 0) as [E|E]; [|by exists m, cp].
  destruct k as [|k]; [cbn in Hc'; congruence|]. destruct (moved_cpu m (others l m) c cp (Ho l m) Hc) as (cp1 & Hc1 & _).
  destruct (IH c l (others l m) cp1 Hc1) as (m' & cp2 & -> & Hm & H2); [exists k, cp'; rewrite Nat.iter_succ_r in Hc'; split; [lia|exact (conj Hc' Hs')]|].
  exists m', cp2. split; [done|]. split; [transitivity (others l m); [apply Ho|exact Hm]|done].
Qed.

(** Before [kinit2] the allocator takes no lock. *)
Lemma kalloc_early h m a L : kmem_inv kend h (a :: L) -> use_lock (p_kmem h) = 0 -> KERNBASE <= kend ->
  exists k, Kalloc.kalloc h m = Ok (a, mkPhys (p_mem h) k, m) /\ use_lock k = 0 /\ kmem_inv kend (mkPhys (p_mem h) k) L /\ page_ok kend a.
Proof.
  intros [Hb Hch Hnd Hpg Hlk] Hu Hk. destruct Hch as [Ef Hch]. apply Forall_cons in Hpg as [Ha Hpg]. pose proof (page_ok_range kend Hk a Ha) as Hr.
  unfold Kalloc.kalloc, Kalloc.lock_kmem, Kalloc.unlock_kmem. rewrite Hu. cbn [Z.eqb res_bind]. rewrite Ef, (proj2 (Z.eqb_neq a 0)) by (unfold KERNBASE in Hr; lia).
  eexists. cbn [use_lock set_freelist]. rewrite Hu. cbn [Z.eqb res_bind]. split; [reflexivity|]. split; [exact Hu|]. split; [|done].
  apply NoDup_cons in Hnd as [_ Hnd]. by split.
Qed.

(** Stores below [kend] keep the free list. *)
Lemma inv_low h L mm : kmem_inv kend h L -> bytes mm -> (forall x, kend <= x -> mm x = p_mem h x) -> kmem_inv kend (mkPhys mm (p_kmem h)) L.
Proof.
  intros [Hb Hch Hnd Hpg Hlk] Hmm Hx. split; try done. cbn [p_mem p_kmem]. apply (chain_agree (p_mem h)); [|done].
  intros a x Ha Hr. apply Hx. rewrite Forall_forall in Hpg. destruct (Hpg a Ha) as (_ & _ & ? & _). lia.
Qed.

Lemma store32_above mm a v x : a + 4 <= x -> store32 mm a v x = mm x.
Proof. intros H. unfold store32. rewrite !store8_ne by lia. done. Qed.

Lemma store32_below mm a v x : x < a -> store32 mm a v x = mm x.
Proof. intros H. unfold store32. rewrite !store8_ne by lia. done. Qed.

(** The startup protocol writes only to the warm reset vector. *)
Lemma startap_mem apic addr mm w : bytes mm -> exists mm' w', Lapic.lapicstartap apic addr mm w = (mm', w') /\ bytes mm' /\ forall x, P2V 0x46b <= x -> mm' x = mm x.
Proof.
  intros Hb. unfold Lapic.lapicstartap, Lapic.store16. do 2 eexists. split; [reflexivity|]. split; [by repeat apply store8_bytes|].
  intros x Hx. change (P2V 0x46b) with 0x8000046b in Hx. change (u32 (Z.lor (Z.shiftl 64 4) 103 + KERNBASE)) with 0x80000467. rewrite !store8_ne by lia. done.
Qed.

(** What the [c]th processor is told, on the stack [st]. *)
Definition tell m (c : nat) (st : Z) : message := mkMsg (apic_of m c) 0x7000 (st + KSTACKSIZE) mpenter_at (V2P entrypgdir_at).
(** It is told twice. *)
Definition told m (T : list nat) L : list message := concat (zip_with (fun c st => [tell m c st; tell m c st]) T L).

Lemma told_moved m m1 T : moved_on m m1 -> forall L, told m1 T L = told m T L.
Proof.
  intros H. unfold told. induction T as [|c T IH]; intros [|a L]; try done. cbn [zip_with concat]. rewrite IH. unfold tell.
  by rewrite (moved_apic m m1 c H).
Qed.

(** The processors have the numbers of APICs. *)
Definition numbered m : Prop := Forall (fun cp => 0 <= apicid cp < 2 ^ 8) (cpus m).

Lemma numbered_moved m m' : moved_on m m' -> numbered m -> numbered m'.
Proof.
  intros H Hn. apply Forall_lookup. intros c cp' Hc. pose proof (mo_cpus _ _ H) as E.
  assert ((set_started 0 <$> cpus m) !! c = Some (set_started 0 cp')) as E1 by (rewrite <- E, list_lookup_fmap, Hc; done).
  rewrite list_lookup_fmap in E1. destruct (cpus m !! c) as [cp|] eqn:E2; [|done]. apply (f_equal (fmap apicid)) in E1. injection E1 as E1. rewrite <- E1.
  unfold numbered in Hn. rewrite Forall_lookup in Hn. by apply (Hn c).
Qed.

(** The commands of [lapicstartap] are two messages. *)
Lemma delivered_startap apic mm mm0 w : 0 <= apic < 2 ^ 8 ->
  let g := mkMsg apic 0x7000 (load32 mm (code - 4)) (load32 mm (code - 8)) (load32 mm (code - 12)) in
  delivered mm (drop (length (sent w)) (sent (Lapic.lapicstartap apic (V2P code) mm0 w).2)) = [g; g].
Proof.
  intros Ha g. change (V2P code) with 0x7000. rewrite lapicstartap_sent by (done || (vm_compute; done)). rewrite drop_app_length. reflexivity.
Qed.

(** The others among the [n] processors from [c] on. *)
Definition targets (me c n : nat) : list nat := filter (fun i => i <> me) (seq c n).

Lemma targets_length me n : forall c, length (targets me c n) = (n - if bool_decide (c <= me < c + n)%nat then 1 else 0)%nat.
Proof.
  induction n as [|n IH]; intros c; [done|]. specialize (IH (S c)). unfold targets in *. cbn [seq]. destruct (decide (c = me)) as [->|Hne].
  - rewrite filter_cons_False by naive_solver. rewrite IH, bool_decide_false, bool_decide_true by lia. lia.
  - rewrite filter_cons_True by done. cbn [length]. rewrite IH.
    destruct (bool_decide_reflect (S c <= me < S c + n)%nat), (bool_decide_reflect (c <= me < c + S n)%nat); lia.
Qed.

Definition all_started m (T : list nat) : Prop := Forall (fun c => exists cp, cpus m !! c = Some cp /\ started cp <> 0) T.

Lemma all_started_mono m m' T : moved_on m m' -> all_started m T -> all_started m' T.
Proof. intros Hm H. apply (Forall_impl _ _ _ H). intros c (cp & Hc & Hs). by apply (mo_started m m' Hm c cp). Qed.

Lemma told_words st mm w apic : bytes mm -> 0 <= st -> st + KSTACKSIZE < 2 ^ 32 -> 0 <= mpenter_at < 2 ^ 32 ->
  exists mm' w', Lapic.lapicstartap apic (V2P code) (store32 (store32 (store32 mm (code - 4) (u32 (st + KSTACKSIZE))) (code - 8) mpenter_at) (code - 12) (V2P entrypgdir_at)) w = (mm', w') /\
    bytes mm' /\ load32 mm' (code - 4) = st + KSTACKSIZE /\ load32 mm' (code - 8) = mpenter_at /\ load32 mm' (code - 12) = V2P entrypgdir_at /\
    forall x, P2V 0x7000 <= x -> mm' x = mm x.
Proof.
  intros Hb Hst Hst' Hent. set (m0 := store32 (store32 (store32 _ _ _) _ _) _ _). assert (bytes m0) as Hb0 by (by repeat apply store32_bytes).
  destruct (startap_mem apic (V2P code) m0 w Hb0) as (mm' & w' & -> & Hb' & Hx). exists mm', w'. split; [done|]. split; [done|].
  unfold code in *. change (P2V 0x7000) with 0x80007000 in *. change (P2V 0x46b) with 0x8000046b in Hx. unfold KSTACKSIZE in *.
  rewrite !(load32_agree m0 mm') by (intros x Hx'; apply Hx; lia). subst m0. split; [|split; [|split]].
  - rewrite (load32_agree (store32 mm (0x80007000 - 4) (u32 (st + 4096)))), load32_store32, u32_small; [done|lia|apply u32_range|].
    intros x Hr. rewrite !store32_above by lia. done.
  - rewrite (load32_agree (store32 (store32 mm (0x80007000 - 4) (u32 (st + 4096))) (0x80007000 - 8) mpenter_at)), load32_store32; [done|lia|].
    intros x Hr. by rewrite store32_above by lia.
  - apply load32_store32. apply u32_range.
  - intros x Hr. rewrite Hx by lia. by rewrite !store32_above by lia.
Qed.

Hypothesis kend_above : P2V 0x7000 <= kend.
Hypothesis mpenter_range : 0 <= mpenter_at < 2 ^ 32.

Lemma start_loop_ok me n : others_ok -> answers -> forall c l h m w L, Spinlock.mycpu m = Ok me -> (c + n <= length (cpus m))%nat -> numbered m ->
  kmem_inv kend h L -> use_lock (p_kmem h) = 0 -> (length (targets me c n) <= length L)%nat ->
  exists h' m' w', start_loop mpenter_at entrypgdir_at others polls n c l h m w = Ok (l ++ told m (targets me c n) L, h', m', w') /\
    moved_on m m' /\ all_started m' (targets me c n) /\ kmem_inv kend h' (drop (length (targets me c n)) L) /\
    forall x, P2V 0x7000 <= x -> p_mem h' x = p_mem h x.
Proof.
  intros Ho Ha. induction n as [|n IH]; intros c l h m w L Hme Hn Hnum Hinv Hu Hlen0; cbn [start_loop].
  { exists h, m, w. cbn. rewrite app_nil_r. split; [done|]. split; [done|]. split; [constructor|]. by split. }
  rewrite Hme. cbn [res_bind]. unfold targets in *. cbn [seq] in *. destruct (Nat.eqb_spec c me) as [->|Hne].
  { rewrite filter_cons_False in * by naive_solver. apply IH; (done || lia). }
  rewrite filter_cons_True in * by done. destruct L as [|a L]; [cbn in Hlen0; lia|].
  assert (KERNBASE <= kend) as Hkb by (change (P2V 0x7000) with 0x80007000 in kend_above; unfold KERNBASE; lia).
  destruct (kalloc_early h m a L Hinv Hu Hkb) as (k & -> & Hu' & Hinv' & Hpa). cbn [res_bind p_mem].
  destruct (lookup_lt_is_Some_2 (cpus m) c) as [cp Hcp]; [lia|]. unfold Spinlock.get_cpu. rewrite (zget_of_nat _ _ _ _ Hcp). cbn [res_bind].
  pose proof (page_ok_range kend Hkb a Hpa) as Har. unfold KERNBASE, PHYSTOP in Har.
  destruct (told_words a (p_mem h) w (apicid cp)) as (mm & w1 & Es & Hb & E1 & E2 & E3 & Hx); [apply (ki_bytes _ _ _ Hinv)|lia|unfold KSTACKSIZE; lia|done|].
  assert (0 <= apicid cp < 2 ^ 8) as Hap by (unfold numbered in Hnum; rewrite Forall_lookup in Hnum; by apply (Hnum c)).
  pose proof (delivered_startap (apicid cp) mm (store32 (store32 (store32 (p_mem h) (code - 4) (u32 (a + KSTACKSIZE))) (code - 8) mpenter_at) (code - 12) (V2P entrypgdir_at)) w Hap) as Eg.
  rewrite Es in Eg |- *. cbn [snd] in Eg. rewrite Eg, E1, E2, E3. cbn [p_kmem]. set (g := mkMsg _ _ _ _ _).
  destruct (wait_start_ok polls Ho c (l ++ [g; g]) m cp Hcp) as (m1 & cp1 & -> & Hm1 & Hc1 & Hs1).
  { apply (Ha _ _ _ cp); [done|]. exists g. split; [|done]. apply elem_of_app. right. left. }
  assert (length (cpus m1) = length (cpus m)) as Hlen by (pose proof (f_equal length (mo_cpus _ _ Hm1)) as E; by rewrite !length_fmap in E).
  assert (kmem_inv kend (mkPhys mm k) L) as Hinv1 by (apply (inv_low (mkPhys (p_mem h) k) L mm Hinv' Hb); intros x Hr; apply Hx; lia).
  cbn [res_bind]. destruct (IH (S c) (l ++ [g; g]) (mkPhys mm k) m1 w1 L) as (h' & m' & w' & -> & Hm' & Hst & Hinv2 & Hx2);
    [by rewrite (moved_mycpu m m1)|lia|by apply (numbered_moved m)|done|done|cbn in Hlen0; lia|].
  exists h', m', w'. split; [|split; [by transitivity m1|split; [|split]]].
  - rewrite (told_moved m m1) by done. unfold told at 2. cbn [zip_with concat]. rewrite <- app_assoc. cbn [app].
    assert (tell m c a = g) as -> by (unfold tell, g, apic_of; by rewrite Hcp). done.
  - apply Forall_cons. split; [|done]. by apply (mo_started m1 m' Hm' c cp1).
  - done.
  - intros x Hr. rewrite Hx2 by done. cbn [p_mem]. by apply Hx.
Qed.

(** C33: [startothers] copies the entry code to 0x7000 and makes the local APIC send
    the startup command for 0x7000 to every processor but the one that runs it,
    twice to each, in the order of the table and to no other APIC.  When it is sent
    the words below the code are the top of a stack page of its own from the free
    list, the address of [mpenter] and that of the boot page table.  It returns when
    all of them have started, if a processor that got the command does start. *)
Theorem startothers_spec h m w me L :
  others_ok -> answers -> Spinlock.mycpu m = Ok me -> (ncpu m <= length (cpus m))%nat -> (me < ncpu m)%nat -> numbered m ->
  kmem_inv kend h L -> use_lock (p_kmem h) = 0 -> (ncpu m <= S (length L))%nat ->
  code + Z.of_nat (length entryother) <= kend -> Forall (fun b => 0 <= b < 256) entryother ->
  exists h' m' w', startothers entryother mpenter_at entrypgdir_at others polls h m w =
      Ok (told m (targets me 0 (ncpu m)) L, h', m', w') /\
    moved_on m m' /\ (forall c, (c < ncpu m)%nat -> c <> me -> exists cp, cpus m' !! c = Some cp /\ started cp <> 0) /\
    kmem_inv kend h' (drop (ncpu m - 1) L) /\
    forall i b, entryother !! i = Some b -> p_mem h' (code + Z.of_nat i) = b.
Proof.
  intros Ho Ha Hme Hc Hlt Hnum Hinv Hu Hlen0 Hsz Hby. unfold startothers. set (h1 := mkPhys _ _).
  assert (kmem_inv kend h1 L) as Hinv1.
  { apply inv_low; [done|apply store_bytes_bytes, (ki_bytes _ _ _ Hinv)|]. intros x Hx. apply store_bytes_out. lia. }
  assert (length (targets me 0 (ncpu m)) = (ncpu m - 1)%nat) as Et.
  { rewrite targets_length, bool_decide_true by lia. lia. }
  destruct (start_loop_ok me (ncpu m) Ho Ha 0%nat [] h1 m w L Hme) as (h' & m' & w' & E & Hm & Hst & Hi & Hx); [lia|done|done|done|lia|].
  exists h', m', w'. split; [exact E|]. split; [done|]. rewrite Et in Hi. split; [|split; [done|]].
  - intros c Hcl Hne. unfold all_started in Hst. rewrite Forall_forall in Hst.
    apply Hst. apply list_elem_of_filter. split; [done|]. apply elem_of_seq. lia.
  - intros i b Hb. rewrite Hx by (unfold code; lia). cbn [p_mem h1]. pose proof (lookup_lt_Some _ _ _ Hb) as Hl.
    pose proof (store_bytes_in entryother (p_mem h) code (code + Z.of_nat i) Hby ltac:(lia)) as Es.
    replace (Z.to_nat (code + Z.of_nat i - code)) with i in Es by lia. congruence.
Qed.
End Facts.

(** * Witness *)

(** Processors that start as soon as they are told. *)
Definition prompt_cpus (l : list message) (m : machine) : machine :=
  set_cpus ((fun c => if existsb (fun g => to_apic g =? apicid c) l then set_started 1 c else c) <$> cpus m) m.

Lemma prompt_ok : others_ok prompt_cpus.
Proof.
  intros l m. split; try done; unfold prompt_cpus; cbn [cpus set_cpus].
  - rewrite <- list_fmap_compose. apply list_fmap_ext. intros i c _. cbn. by destruct (existsb _ l).
  - intros c cp Hc Hs. rewrite list_lookup_fmap, Hc. cbn. eexists. split; [done|]. by destruct (existsb _ l).
Qed.

Lemma prompt_answers : answers prompt_cpus 2.
Proof.
  intros l m c cp Hc (g & Hg & Eg). exists 1%nat. cbn [Nat.iter nat_rect]. unfold prompt_cpus. cbn [cpus set_cpus]. rewrite list_lookup_fmap, Hc. cbn.
  eexists. split; [lia|]. split; [done|]. assert (existsb (fun g => to_apic g =? apicid cp) l = true) as ->; [|done].
  apply existsb_exists. exists g. split; [by apply list_elem_of_In|]. by apply Z.eqb_eq.
Qed.

Definition demo_two : machine := mkMachine [mkCpu 0 1 0 0 None; mkCpu 7 0 0 0 None] 2 false 0 (fun _ => 0) 0.
Definition demo_early : phys := mkPhys (fun _ => 0) (mkKmem (mkLock 0 "kmem" None []) 0 0x80200000).

Lemma demo_early_inv : kmem_inv 0x80100000 demo_early [0x80200000].
Proof.
  split; [intros a; cbn; lia|vm_compute; split; reflexivity|apply NoDup_singleton|constructor; [|constructor]|reflexivity].
  unfold page_ok. vm_compute. split_and!; (reflexivity || discriminate).
Qed.

Lemma startothers_spec_witness : exists h' m' w',
  Startup.startothers [1; 2; 3] 0x80103000 0x80109000 prompt_cpus 2 demo_early demo_two demo_boot =
    Ok ([mkMsg 7 0x7000 0x80201000 0x80103000 0x109000; mkMsg 7 0x7000 0x80201000 0x80103000 0x109000], h', m', w').
Proof.
  destruct (@startothers_spec demo_hw demo_laws demo_ipis [1; 2; 3] 0x80103000 0x80109000 prompt_cpus 2 0x80100000) with (h := demo_early) (m := demo_two) (w := demo_boot) (me := 0%nat) (L := [0x80200000])
    as (h' & m' & w' & H & _).
  - vm_compute. discriminate.
  - lia.
  - apply prompt_ok.
  - apply prompt_answers.
  - reflexivity.
  - cbn. lia.
  - cbn. lia.
  - repeat constructor; discriminate.
  - apply demo_early_inv.
  - reflexivity.
  - cbn. lia.
  - vm_compute. discriminate.
  - repeat constructor; discriminate.
  - exists h', m', w'. exact H.
Defined.
