(* ===== verification/VmFacts.v ===== *)
(** Properties of the page tables: [walkpgdir] and [mappages] on a directory
    whose tables are pages of their own, disjoint from each other and from the
    free list. *)

From S2P Require Import Prelude CString Spinlock Kalloc Proc Demo Vm.

(** * Address arithmetic *)

Lemma PDX_div va : PDX va = va / 2 ^ 22 mod 1024.
Proof. unfold PDX. rewrite Z.shiftr_div_pow2 by lia. change 0x3FF with (Z.ones 10). by rewrite Z.land_ones. Qed.

Lemma PTX_div va : PTX va = va / 2 ^ 12 mod 1024.
Proof. unfold PTX. rewrite Z.shiftr_div_pow2 by lia. change 0x3FF with (Z.ones 10). by rewrite Z.land_ones. Qed.

Lemma PDX_range va : 0 <= PDX va < 1024.
Proof. rewrite PDX_div. by apply Z.mod_pos_bound. Qed.

Lemma PTX_range va : 0 <= PTX va < 1024.
Proof. rewrite PTX_div. by apply Z.mod_pos_bound. Qed.

(** The two indices determine a page. *)
Lemma page_index va va' :
  0 <= va < 2 ^ 32 -> 0 <= va' < 2 ^ 32 -> PDX va = PDX va' -> PTX va = PTX va' ->
  va / PGSIZE = va' / PGSIZE.
Proof.
  rewrite !PDX_div, !PTX_div. unfold PGSIZE. intros H H' Hd Ht.
  assert (forall v, 0 <= v < 2 ^ 32 -> v / 4096 = (v / 2 ^ 22 mod 1024) * 1024 + v / 2 ^ 12 mod 1024) as E.
  { intros v Hv. rewrite (Z.mod_small (v / 2 ^ 22)).
    - change (2 ^ 22) with (2 ^ 12 * 1024). rewrite <- Z.div_div by lia. change 4096 with (2 ^ 12).
      pose proof (Z.div_mod (v / 2 ^ 12) 1024 ltac:(lia)). lia.
    - split; [apply Z.div_pos; lia | apply Z.div_lt_upper_bound; lia]. }
  rewrite (E va), (E va') by done. by rewrite Hd, Ht.
Qed.

Lemma PTE_ADDR_sub e : PTE_ADDR e = e - e mod PGSIZE.
Proof.
  unfold PTE_ADDR, PGSIZE. change 0xFFF with (Z.ones 12). rewrite <- Z.ldiff_land.
  rewrite Z.ldiff_ones_r by lia. rewrite Z.shiftl_mul_pow2, Z.shiftr_div_pow2 by lia.
  change (2 ^ 12) with 4096. pose proof (Z.div_mod e 4096 ltac:(lia)). lia.
Qed.

Lemma lor_range a b : 0 <= a < 2 ^ 32 -> 0 <= b < 2 ^ 32 -> 0 <= Z.lor a b < 2 ^ 32.
Proof.
  intros Ha Hb. split; [apply Z.lor_nonneg; lia|].
  destruct (Z.eq_dec (Z.lor a b) 0) as [->|Hne]; [lia|].
  apply Z.log2_lt_pow2; [pose proof (proj2 (Z.lor_nonneg a b)); lia|].
  rewrite Z.log2_lor by lia. apply Z.max_lub_lt.
  - destruct (Z.eq_dec a 0) as [->|]; [cbn; lia | apply Z.log2_lt_pow2; lia].
  - destruct (Z.eq_dec b 0) as [->|]; [cbn; lia | apply Z.log2_lt_pow2; lia].
Qed.

(** Flags put on a page address. *)
Lemma lor_aligned a f : a mod PGSIZE = 0 -> 0 <= f < PGSIZE -> Z.lor a f = a + f.
Proof.
  intros Ha Hf. unfold PGSIZE in *. symmetry.
  rewrite <- Z.lxor_lor, <- Z.add_nocarry_lxor; [done| |].
  all: apply Z.bits_inj'; intros i Hi; rewrite Z.land_spec, Z.bits_0;
    destruct (Z.ltb_spec i 12) as [Hl|Hl].
  all: try (replace (Z.testbit a i) with false; [done|];
    rewrite <- (Z.mod_pow2_bits_low a 12 i) by done; change (2 ^ 12) with 4096; by rewrite Ha, Z.bits_0).
  all: replace (Z.testbit f i) with false; [by rewrite andb_false_r|]; symmetry;
    destruct (Z.eq_dec f 0) as [->|]; [apply Z.bits_0 | apply Z.bits_above_log2; [lia|]];
    assert (Z.log2 f < 12) by (apply Z.log2_lt_pow2; lia); lia.
Qed.

Lemma present_lor e : present (Z.lor e PTE_P) = true.
Proof.
  unfold present, PTE_P. apply negb_true_iff, Z.eqb_neq. intros H.
  apply (f_equal (fun z => Z.testbit z 0)) in H.
  rewrite Z.land_spec, Z.lor_spec, Z.bits_0 in H. cbn in H. by rewrite orb_true_r in H.
Qed.

Lemma present_low a f : a mod PGSIZE = 0 -> 0 <= f < PGSIZE -> present (a + f) = present f.
Proof.
  intros Ha Hf. unfold present, PTE_P. change 1 with (Z.ones 1). rewrite !Z.land_ones by lia.
  change (2 ^ 1) with 2. unfold PGSIZE in *.
  replace ((a + f) mod 2) with (f mod 2); [done|].
  apply Z.mod_divide in Ha as [q ->]; [|lia].
  replace (q * 4096 + f) with (f + q * 2048 * 2) by lia. by rewrite Z_mod_plus_full.
Qed.

(** * Representation *)

Section Rep.
Import Kalloc Vm.
Context (kend : Z) (kend_high : KERNBASE <= kend).
Implicit Types (h : phys) (m : machine) (L : list Z) (T : Z -> option Z).

(** [T i] is the page table at index [i] of the directory. *)
Record pt_rep h (pgdir : Z) T L : Prop := {
  pt_kmem : kmem_inv kend h L;
  pt_dir : page_ok kend pgdir;
  pt_dir_used : pgdir ∉ L;
  pt_entry i : 0 <= i < 1024 ->
    let e := load32 (p_mem h) (pgdir + 4 * i) in
    match T i with
    | Some t => present e = true /\ P2V (PTE_ADDR e) = t
    | None => present e = false
    end;
  pt_table i t : T i = Some t -> page_ok kend t /\ (t ∉ L) /\ t <> pgdir;
  pt_inj i j t : T i = Some t -> T j = Some t -> i = j
}.

(** The entry for [va], 0 when its table does not exist. *)
Definition pte_of h T va : Z :=
  match T (PDX va) with
  | Some t => load32 (p_mem h) (t + 4 * PTX va)
  | None => 0
  end.

Lemma page_ok_P2V t : page_ok kend t -> P2V (V2P t) = t.
Proof.
  intros Ht. pose proof (page_ok_range _ kend_high _ Ht). destruct Ht as (Hr & _).
  unfold P2V, V2P, KERNBASE, PHYSTOP in *. rewrite u32_add_l. rewrite u32_small; lia.
Qed.

Lemma page_ok_V2P t : page_ok kend t -> V2P t mod PGSIZE = 0 /\ 0 <= V2P t < PHYSTOP.
Proof.
  intros Ht. pose proof (page_ok_range _ kend_high _ Ht). destruct Ht as (Hr & Hal & _ & Hp).
  split; [|split; [apply u32_range | done]].
  unfold V2P, KERNBASE, PGSIZE in *. rewrite u32_small by lia.
  apply Z.mod_divide in Hal as [q ->]; [|lia]. apply Z.mod_divide; [lia|]. exists (q - 524288). lia.
Qed.

(** Words of different pages do not overlap. *)
Lemma load_other mm t u i j v :
  page_ok kend t -> page_ok kend u -> t <> u -> 0 <= i < 1024 -> 0 <= j < 1024 ->
  load32 (store32 mm (t + 4 * i) v) (u + 4 * j) = load32 mm (u + 4 * j).
Proof.
  intros Ht Hu Hne Hi Hj. apply load32_agree. intros x Hx. rewrite store32_spec.
  destruct (pages_apart kend t u Ht Hu Hne) as [H|H]; unfold PGSIZE in H;
    destruct (Z.leb_spec (t + 4 * i) x), (Z.ltb_spec x (t + 4 * i + 4)); cbn; try done; lia.
Qed.

Lemma load_same_page mm t i j v :
  i <> j -> load32 (store32 mm (t + 4 * i) v) (t + 4 * j) = load32 mm (t + 4 * j).
Proof.
  intros Hne. apply load32_agree. intros x Hx. rewrite store32_spec.
  destruct (Z.leb_spec (t + 4 * i) x), (Z.ltb_spec x (t + 4 * i + 4)); cbn; try done; lia.
Qed.

(** A word of a page in use does not touch the free list. *)
Lemma kmem_inv_store h L t i v :
  kmem_inv kend h L -> page_ok kend t -> t ∉ L -> 0 <= i < 1024 ->
  kmem_inv kend (mkPhys (store32 (p_mem h) (t + 4 * i) v) (p_kmem h)) L.
Proof.
  intros [H1 H2 H3 H4 H5] Ht Hnin Hi. constructor; cbn; try done; [by apply store32_bytes|].
  eapply chain_agree, H2. intros a x Ha Hx. rewrite store32_spec.
  rewrite Forall_forall in H4.
  destruct (pages_apart kend t a Ht (H4 a Ha)) as [H|H]; [by intros ->| |]; unfold PGSIZE in H;
    destruct (Z.leb_spec (t + 4 * i) x), (Z.ltb_spec x (t + 4 * i + 4)); cbn; try done; lia.
Qed.

(** Writing an entry of a table. *)
Lemma set_pte h pgdir T L t va v :
  pt_rep h pgdir T L -> T (PDX va) = Some t -> 0 <= v < 2 ^ 32 ->
  let h' := mkPhys (store32 (p_mem h) (t + 4 * PTX va) v) (p_kmem h) in
  pt_rep h' pgdir T L /\ pte_of h' T va = v /\
  forall va', PDX va' <> PDX va \/ PTX va' <> PTX va -> pte_of h' T va' = pte_of h T va'.
Proof.
  intros Hrep Ht Hv h'. pose proof Hrep as [R1 R2 R3 R4 R5 R6].
  destruct (R5 _ _ Ht) as (Htok & Htl & Htd). pose proof (PTX_range va) as Hx.
  split; [|split].
  - constructor; try done; [by apply kmem_inv_store|]. intros i Hi. cbn [p_mem h'].
    rewrite load_other by done. by apply R4.
  - unfold pte_of. rewrite Ht. cbn [p_mem h']. by apply load32_store32.
  - intros va' Hne. unfold pte_of. destruct (T (PDX va')) as [t'|] eqn:Ht'; [|done].
    cbn [p_mem h']. pose proof (PTX_range va'). destruct (decide (t' = t)) as [->|Htt].
    + assert (PDX va' = PDX va) by by eapply R6. apply load_same_page. intros E. destruct Hne; congruence.
    + destruct (R5 _ _ Ht') as (? & ?). by apply load_other.
Qed.

(** The new table that [walkpgdir] makes. *)
Definition add_table (i t : Z) T : Z -> option Z := fun j => if j =? i then Some t else T j.

Lemma zero_page_load mm t j :
  0 <= j < 1024 -> load32 (Kstring.memset mm t 0 PGSIZE).1 (t + 4 * j) = 0.
Proof.
  intros Hj. unfold load32, PGSIZE. rewrite !memset_fill by lia.
  repeat match goal with |- context [(?a <=? ?b) && (?c <? ?d)] =>
    rewrite (proj2 (Z.leb_le a b)), (proj2 (Z.ltb_lt c d)) by lia; cbn [andb] end. done.
Qed.

Lemma zero_page_other mm t u j :
  page_ok kend t -> page_ok kend u -> t <> u -> 0 <= j < 1024 ->
  load32 (Kstring.memset mm t 0 PGSIZE).1 (u + 4 * j) = load32 mm (u + 4 * j).
Proof.
  intros Ht Hu Hne Hj. apply load32_agree. intros x Hx. unfold PGSIZE. rewrite memset_fill by lia.
  destruct (pages_apart kend t u Ht Hu Hne) as [H|H]; unfold PGSIZE in H;
    destruct (Z.leb_spec t x), (Z.ltb_spec x (t + 4096)); cbn; try done; lia.
Qed.

Lemma kmem_inv_zero h L t :
  kmem_inv kend h L -> page_ok kend t -> t ∉ L ->
  kmem_inv kend (mkPhys (Kstring.memset (p_mem h) t 0 PGSIZE).1 (p_kmem h)) L.
Proof.
  intros [H1 H2 H3 H4 H5] Ht Hnin. constructor; cbn [p_mem p_kmem]; try done.
  - by apply memset_bytes.
  - eapply chain_agree, H2. intros a x Ha Hx. unfold PGSIZE. rewrite memset_fill by lia.
    rewrite Forall_forall in H4.
    destruct (pages_apart kend t a Ht (H4 a Ha)) as [H|H]; [by intros ->| |]; unfold PGSIZE in H;
      destruct (Z.leb_spec t x), (Z.ltb_spec x (t + 4096)); cbn; try done; lia.
Qed.

Lemma dir_entry t : page_ok kend t ->
  let e := Z.lor (Z.lor (Z.lor (V2P t) PTE_P) PTE_W) PTE_U in
  present e = true /\ P2V (PTE_ADDR e) = t /\ 0 <= e < 2 ^ 32.
Proof.
  intros Ht e. destruct (page_ok_V2P t Ht) as [Hal Hr]. unfold PHYSTOP in Hr.
  assert (e = V2P t + 7) as He.
  { unfold e. rewrite <- !Z.lor_assoc. change (Z.lor PTE_P (Z.lor PTE_W PTE_U)) with 7.
    apply lor_aligned; [done | unfold PGSIZE; lia]. }
  rewrite He. split_and!; try lia.
  - rewrite present_low by (done || (unfold PGSIZE; lia)). done.
  - rewrite PTE_ADDR_sub. replace ((V2P t + 7) mod PGSIZE) with 7.
    + replace (V2P t + 7 - 7) with (V2P t) by lia. by apply page_ok_P2V.
    + unfold PGSIZE in *. rewrite <- Zplus_mod_idemp_l, Hal. done.
Qed.

Lemma pte_of_ext h h' T va : p_mem h' = p_mem h -> pte_of h' T va = pte_of h T va.
Proof. intros E. unfold pte_of. by rewrite E. Qed.

Lemma pt_rep_kmem h h' pgdir T L L' :
  pt_rep h pgdir T L -> kmem_inv kend h' L' -> p_mem h' = p_mem h -> (forall a, a ∈ L' -> a ∈ L) ->
  pt_rep h' pgdir T L'.
Proof.
  intros [R1 R2 R3 R4 R5 R6] Hk Hm Hsub. constructor; try done.
  - intros Hin. by apply R3, Hsub.
  - intros i Hi. rewrite Hm. by apply R4.
  - intros i t Ht. destruct (R5 i t Ht) as (? & Hn & ?). split_and!; try done.
    intros Hin. by apply Hn, Hsub.
Qed.

(** [walkpgdir] with [alloc] finds or makes the table of [va]. *)
Lemma walk_alloc h m pgdir T L va :
  pt_rep h pgdir T L -> mach_ok m ->
  exists pte h' m', walkpgdir pgdir va true h m = Ok (pte, h', m') /\ mach_ok m' /\
  ((exists t T' L', T' (PDX va) = Some t /\ pte = t + 4 * PTX va /\ pt_rep h' pgdir T' L' /\
      forall va', pte_of h' T' va' = pte_of h T va') \/
   (pte = 0 /\ pt_rep h' pgdir T [] /\ forall va', pte_of h' T va' = pte_of h T va')).
Proof.
  intros Hrep Hm. pose proof Hrep as [R1 R2 R3 R4 R5 R6]. pose proof (PDX_range va) as Hd.
  unfold walkpgdir. specialize (R4 _ Hd) as Hent. cbn zeta in Hent.
  destruct (T (PDX va)) as [t|] eqn:Ht.
  { destruct Hent as [-> ->]. do 3 eexists. split; [done|]. split; [done|]. left. by exists t, T, L. }
  rewrite Hent. cbn [negb].
  destruct (kalloc_pop kend kend_high h L m R1 Hm) as (a & h1 & m1 & -> & Hm1 & _ & Hmem & _ & Hcase).
  cbn [res_bind]. destruct L as [|b L].
  { destruct Hcase as [-> Hk]. cbn [Z.eqb]. do 3 eexists. split; [done|]. split; [done|]. right.
    split; [done|]. split; [by eapply pt_rep_kmem|]. intros va'. by apply pte_of_ext. }
  destruct Hcase as (-> & Hb & Hnb & Hk).
  pose proof (page_ok_range kend kend_high b Hb) as Hbr. unfold KERNBASE in Hbr.
  rewrite (proj2 (Z.eqb_neq b 0)) by lia. destruct (dir_entry b Hb) as (He1 & He2 & He3).
  set (e := Z.lor (Z.lor (Z.lor (V2P b) PTE_P) PTE_W) PTE_U) in *.
  assert (pgdir <> b) as Hpb by (intros ->; apply R3; left).
  assert (forall i t, T i = Some t -> t <> b) as Htb.
  { intros i t Hi ->. destruct (R5 _ _ Hi) as (_ & Hn & _). apply Hn. left. }
  do 3 eexists. split; [done|]. split; [done|]. left. exists b, (add_table (PDX va) b T), L.
  assert (add_table (PDX va) b T (PDX va) = Some b) as Hadd by (unfold add_table; by rewrite Z.eqb_refl).
  split; [done|]. split; [done|]. split.
  - constructor; try done.
    + apply (kmem_inv_store (mkPhys (Kstring.memset (p_mem h1) b 0 PGSIZE).1 (p_kmem h1))); try done.
      * by apply kmem_inv_zero.
      * intros Hin. apply R3. by right.
    + intros Hin. apply R3. by right.
    + intros i Hi. cbn [p_mem]. unfold add_table. destruct (Z.eqb_spec i (PDX va)) as [->|Hne].
      * by rewrite load32_store32.
      * rewrite load_same_page, zero_page_other, Hmem by congruence. by apply R4.
    + intros i t Hi. unfold add_table in Hi. destruct (Z.eqb_spec i (PDX va)) as [->|Hne].
      * injection Hi as <-. done.
      * destruct (R5 _ _ Hi) as (? & Hn & ?). split_and!; try done. intros Hin. apply Hn. by right.
    + intros i j t Hi Hj. unfold add_table in Hi, Hj.
      destruct (Z.eqb_spec i (PDX va)), (Z.eqb_spec j (PDX va)); try congruence; try (by eapply R6).
      * injection Hi as <-. by destruct (Htb j b).
      * injection Hj as <-. by destruct (Htb i b).
  - intros va'. unfold pte_of, add_table. cbn [p_mem]. pose proof (PTX_range va') as Hx.
    destruct (Z.eqb_spec (PDX va') (PDX va)) as [E|E].
    + rewrite load_other by done. rewrite E, Ht. by apply zero_page_load.
    + destruct (T (PDX va')) as [t'|] eqn:Ht'; [|done]. destruct (R5 _ _ Ht') as (Hok' & _ & Hne').
      rewrite load_other, zero_page_other, Hmem; try done; by intros ->; destruct (Htb _ _ Ht').
Qed.

(** The entry [mappages] writes. *)
Definition pte_val (pa perm : Z) : Z := Z.lor (Z.lor pa perm) PTE_P.

Lemma div_step a i : a mod PGSIZE = 0 -> (a + PGSIZE * i) / PGSIZE = a / PGSIZE + i.
Proof. intros _. unfold PGSIZE. rewrite Z.mul_comm, Z_div_plus by lia. done. Qed.

Lemma map_loop_rep n fuel pgdir a pa perm h m T L :
  pt_rep h pgdir T L -> mach_ok m -> (n <= fuel)%nat -> (0 < n)%nat ->
  0 <= a -> a mod PGSIZE = 0 -> a + PGSIZE * Z.of_nat n <= 2 ^ 32 ->
  0 <= pa -> pa + PGSIZE * Z.of_nat n <= 2 ^ 32 -> 0 <= perm < PGSIZE ->
  (forall i, (i < n)%nat -> present (pte_of h T (a + PGSIZE * Z.of_nat i)) = false) ->
  exists r h' m' T' L' j, map_loop fuel pgdir a (a + PGSIZE * (Z.of_nat n - 1)) pa perm h m = Ok (r, h', m') /\
    mach_ok m' /\ pt_rep h' pgdir T' L' /\ ((r = 0 /\ j = n) \/ (r = -1 /\ (j < n)%nat /\ L' = [])) /\
    (forall i, (i < j)%nat -> pte_of h' T' (a + PGSIZE * Z.of_nat i) = pte_val (pa + PGSIZE * Z.of_nat i) perm) /\
    (forall va, 0 <= va < 2 ^ 32 -> va / PGSIZE < a / PGSIZE \/ a / PGSIZE + Z.of_nat j <= va / PGSIZE ->
       pte_of h' T' va = pte_of h T va).
Proof.
  revert fuel a pa h m T L. induction n as [|n IH]; intros [|fuel] a pa h m T L Hrep Hm Hf Hn Ha Hal Hend Hpa Hpe Hperm Hnew;
    try lia.
  cbn [map_loop]. destruct (walk_alloc h m pgdir T L a Hrep Hm) as (pte & h1 & m1 & -> & Hm1 & Hcase).
  cbn [res_bind]. destruct Hcase as [(t & T1 & L1 & Ht & -> & Hrep1 & Hsame)|(-> & Hrep1 & Hsame)].
  2: { cbn [Z.eqb]. exists (-1), h1, m1, T, [], 0%nat. split_and!; try done; [right; split_and!; done || lia | lia]. }
  destruct (pt_table _ _ _ _ Hrep1 _ _ Ht) as (Htok & _). pose proof (page_ok_range kend kend_high t Htok) as Htr.
  unfold KERNBASE in Htr. pose proof (PTX_range a) as Hx.
  rewrite (proj2 (Z.eqb_neq _ 0)) by lia.
  assert (load32 (p_mem h1) (t + 4 * PTX a) = pte_of h1 T1 a) as Hld by (unfold pte_of; by rewrite Ht).
  rewrite Hld, Hsame. specialize (Hnew 0%nat Hn) as Hnew0. cbn [Z.of_nat] in Hnew0.
  rewrite Z.mul_0_r, Z.add_0_r in Hnew0. rewrite Hnew0.
  change (Z.lor (Z.lor pa perm) PTE_P) with (pte_val pa perm).
  assert (0 <= pte_val pa perm < 2 ^ 32) as Hval.
  { unfold PGSIZE in *. repeat apply lor_range; unfold PTE_P; lia. }
  destruct (set_pte h1 pgdir T1 L1 t a (pte_val pa perm) Hrep1 Ht Hval) as (Hrep2 & Hpte & Hother).
  set (h2 := mkPhys (store32 (p_mem h1) (t + 4 * PTX a) (pte_val pa perm)) (p_kmem h1)) in *.
  assert (forall va, 0 <= va < 2 ^ 32 -> va / PGSIZE <> a / PGSIZE -> pte_of h2 T1 va = pte_of h T va) as Hoth.
  { intros va Hva Hne. rewrite Hother, Hsame; [done|].
    destruct (decide (PDX va = PDX a)); [|by left]. destruct (decide (PTX va = PTX a)); [|by right].
    destruct Hne. unfold PGSIZE in *. apply page_index; done || lia. }
  destruct n as [|n].
  { replace (a + PGSIZE * (Z.of_nat 1 - 1)) with a by lia. rewrite Z.eqb_refl.
    exists 0, h2, m1, T1, L1, 1%nat. split_and!; try done; [by left| |].
    - intros i Hi. assert (i = 0%nat) as -> by lia. cbn [Z.of_nat]. by rewrite Z.mul_0_r, !Z.add_0_r.
    - intros va Hva Hd. apply Hoth; [done | lia]. }
  rewrite (proj2 (Z.eqb_neq a _)) by (unfold PGSIZE; lia).
  rewrite !u32_small by (unfold PGSIZE in *; lia).
  replace (a + PGSIZE * (Z.of_nat (S (S n)) - 1)) with (a + PGSIZE + PGSIZE * (Z.of_nat (S n) - 1)) by lia.
  assert ((a + PGSIZE) / PGSIZE = a / PGSIZE + 1) as Hnext.
  { rewrite <- (Z.mul_1_r PGSIZE) at 1. by apply div_step. }
  assert ((a + PGSIZE) mod PGSIZE = 0) as Hal'.
  { rewrite <- (Z.mul_1_l PGSIZE) at 1. by rewrite Z_mod_plus_full. }
  destruct (IH fuel (a + PGSIZE) (pa + PGSIZE) h2 m1 T1 L1 Hrep2 Hm1) as
    (r & h' & m' & T' & L' & j & He & Hm' & Hrep' & Hr & Hin & Hout); try done; try (unfold PGSIZE in *; lia).
  { intros i Hi. specialize (Hnew (S i) ltac:(lia)).
    replace (a + PGSIZE + PGSIZE * Z.of_nat i) with (a + PGSIZE * Z.of_nat (S i)) by lia.
    rewrite Hoth; [done | unfold PGSIZE in *; lia |]. rewrite div_step by done. lia. }
  rewrite He. exists r, h', m', T', L', (S j). split; [done|]. split; [done|]. split; [done|].
  split; [destruct Hr as [[-> ->]|(-> & ? & ->)]; [by left | right; split_and!; done || lia]|].
  split.
  - intros [|i] Hi.
    + cbn [Z.of_nat]. rewrite Z.mul_0_r, !Z.add_0_r, Hout; [done | unfold PGSIZE in *; lia | left; lia].
    + specialize (Hin i ltac:(lia)).
      replace (a + PGSIZE * Z.of_nat (S i)) with (a + PGSIZE + PGSIZE * Z.of_nat i) by lia.
      by replace (pa + PGSIZE * Z.of_nat (S i)) with (pa + PGSIZE + PGSIZE * Z.of_nat i) by lia.
  - intros va Hva Hd. rewrite Hout by (done || lia). apply Hoth; [done | lia].
Qed.

Lemma PGROUNDDOWN_sub a : PGROUNDDOWN a = a - a mod PGSIZE.
Proof. apply PTE_ADDR_sub. Qed.

(** [mappages] maps every page the range touches: it makes the page tables
    it needs from free pages, and on return 0 the entry of each page of the
    range holds the next physical page with the permissions, present; entries
    of other pages are as before.  When memory runs out it returns -1 with a
    prefix of the range mapped.  The tables stay disjoint from each other and
    from the free list. *)
Theorem mappages_spec pgdir va size pa perm h m T L :
  let a := PGROUNDDOWN va in
  let n := Z.to_nat ((va + size - 1) / PGSIZE - va / PGSIZE + 1) in
  pt_rep h pgdir T L -> mach_ok m -> 0 <= va -> 0 < size -> va + size <= 2 ^ 32 ->
  0 <= pa -> pa + PGSIZE * Z.of_nat n <= 2 ^ 32 -> 0 <= perm < PGSIZE ->
  (forall i, (i < n)%nat -> present (pte_of h T (a + PGSIZE * Z.of_nat i)) = false) ->
  exists r h' m' T' L' j, mappages pgdir va size pa perm h m = Ok (r, h', m') /\
    mach_ok m' /\ pt_rep h' pgdir T' L' /\ ((r = 0 /\ j = n) \/ (r = -1 /\ (j < n)%nat /\ L' = [])) /\
    (forall i, (i < j)%nat ->
       pte_of h' T' (a + PGSIZE * Z.of_nat i) = pte_val (pa + PGSIZE * Z.of_nat i) perm /\
       present (pte_of h' T' (a + PGSIZE * Z.of_nat i)) = true) /\
    (forall va', 0 <= va' < 2 ^ 32 -> va' / PGSIZE < a / PGSIZE \/ a / PGSIZE + Z.of_nat j <= va' / PGSIZE ->
       pte_of h' T' va' = pte_of h T va').
Proof.
  intros a n Hrep Hm Hva Hsz Hend Hpa Hpe Hperm Hnew.
  assert (a = PGSIZE * (va / PGSIZE)) as Haq.
  { unfold a. rewrite PGROUNDDOWN_sub. pose proof (Z.div_mod va PGSIZE ltac:(unfold PGSIZE; lia)). lia. }
  set (q := va / PGSIZE) in *. set (q' := (va + size - 1) / PGSIZE) in *.
  assert (0 <= q <= q') as Hq.
  { unfold q, q', PGSIZE. split; [apply Z.div_pos; lia | apply Z.div_le_mono; lia]. }
  assert (PGSIZE * q' <= va + size - 1 < PGSIZE * q' + PGSIZE) as Hq'.
  { unfold q', PGSIZE. pose proof (Z.div_mod (va + size - 1) 4096 ltac:(lia)).
    pose proof (Z.mod_pos_bound (va + size - 1) 4096 ltac:(lia)). lia. }
  assert (Z.of_nat n = q' - q + 1) as Hn by (unfold n; lia).
  unfold PGSIZE in Hq'.
  destruct (map_loop_rep n (S (Z.to_nat (u32 (PGSIZE * q' - a) / PGSIZE))) pgdir a pa perm h m T L)
    as (r & h' & m' & T' & L' & j & He & Hm' & Hrep' & Hr & Hin & Hout); try done.
  - rewrite Haq. unfold PGSIZE in *. rewrite u32_small by lia.
    replace (4096 * q' - 4096 * q) with ((q' - q) * 4096) by lia. rewrite Z.div_mul by lia. lia.
  - lia.
  - unfold PGSIZE in *. lia.
  - rewrite Haq, Z.mul_comm. apply Z_mod_mult.
  - unfold PGSIZE in *. lia.
  - exists r, h', m', T', L', j. split.
    + assert (PGROUNDDOWN (u32 (va + size - 1)) = PGSIZE * q') as Hlast.
      { rewrite PGROUNDDOWN_sub, u32_small by lia.
        pose proof (Z.div_mod (va + size - 1) PGSIZE ltac:(unfold PGSIZE; lia)). fold q' in H. lia. }
      unfold mappages. fold a. rewrite Hlast, <- He. f_equal. rewrite Haq. lia.
    + split_and!; try done. intros i Hi. rewrite Hin by done. split; [done | apply present_lor].
Qed.

(** A page that is mapped already is not mapped again: [mappages] panics. *)
Theorem mappages_remap pgdir va size pa perm h m T L :
  pt_rep h pgdir T L -> present (pte_of h T (PGROUNDDOWN va)) = true ->
  mappages pgdir va size pa perm h m = Panic "remap".
Proof.
  intros Hrep Hp. unfold mappages. cbn [map_loop]. set (a := PGROUNDDOWN va) in *.
  unfold pte_of in Hp. destruct (T (PDX a)) as [t|] eqn:Ht; [|done].
  pose proof (pt_entry _ _ _ _ Hrep _ (PDX_range a)) as He. cbn zeta in He. rewrite Ht in He.
  destruct He as [He1 He2]. unfold walkpgdir. rewrite He1, He2. cbn [res_bind].
  destruct (pt_table _ _ _ _ Hrep _ _ Ht) as (Htok & _). pose proof (page_ok_range kend kend_high t Htok) as Htr.
  unfold KERNBASE in Htr. pose proof (PTX_range a) as Hx.
  rewrite (proj2 (Z.eqb_neq _ 0)) by lia. by rewrite Hp.
Qed.

(** [uva2ka] does not test the address [walkpgdir] returns: for an address
    without a page table it reads through a null pointer. *)
Theorem uva2ka_null pgdir uva h m T L :
  pt_rep h pgdir T L -> T (PDX uva) = None -> uva2ka pgdir uva h m = OOB "null pointer".
Proof.
  intros Hrep Ht. pose proof (pt_entry _ _ _ _ Hrep _ (PDX_range uva)) as He. cbn zeta in He.
  rewrite Ht in He. unfold uva2ka, walkpgdir. by rewrite He.
Qed.
End Rep.

(** * The example machine *)

Definition demo_pgdir : Z := 0x80202000.

Lemma demo_pt_rep : pt_rep kernel_end demo_phys demo_pgdir (fun _ => None) [demo_page1; demo_page2].
Proof.
  constructor; try done.
  - apply demo_kmem_inv.
  - by apply (bool_decide_unpack _), I.
  - intros i Hi e. unfold e, demo_phys, demo_pgdir. cbn [p_mem].
    rewrite (load32_agree (fun _ => 0)); [done|].
    intros x Hx; rewrite ?store32_spec; unfold demo_page1, demo_page2;
      repeat match goal with |- context [(?a <=? x) && _] => destruct (Z.leb_spec a x); cbn [andb] end;
      repeat match goal with |- context [x <? ?a] => destruct (Z.ltb_spec x a) end; done || lia.
Qed.

Lemma mappages_spec_witness : exists r h' m',
  Vm.mappages demo_pgdir 5000 100 0x300000 6 demo_phys (demo_machine 0 None) = Ok (r, h', m').
Proof.
  destruct (mappages_spec kernel_end demo_kend demo_pgdir 5000 100 0x300000 6 demo_phys (demo_machine 0 None)
    (fun _ => None) [demo_page1; demo_page2]) as (r & h' & m' & T' & L' & j & H & _).
  - apply demo_pt_rep.
  - by apply demo_mach_ok.
  - lia.
  - lia.
  - lia.
  - lia.
  - vm_compute. done.
  - unfold PGSIZE. lia.
  - done.
  - exists r, h', m'. exact H.
Defined.

Lemma uva2ka_null_witness : Vm.uva2ka demo_pgdir 0x400000 demo_phys (demo_machine 0 None) = OOB "null pointer".
Proof.
  apply (uva2ka_null kernel_end demo_pgdir 0x400000 demo_phys (demo_machine 0 None) (fun _ => None)
    [demo_page1; demo_page2]).
  - apply demo_pt_rep.
  - done.
Defined.
