(* ===== verification/AddrSpace.v ===== *)
(** Address spaces: what [allocuvm], [deallocuvm], [freevm], [setupkvm] and
    [copyuvm] of [vm.c] do to the pages of a process.

    An address space is its directory, its page tables and its user pages; it
    owns these pages, and they are distinct from each other, from the free list
    and from a frame [F] of pages that belong to others.  The theorems say which
    pages move between the free list and the address space, that none is lost,
    and that no byte of the frame changes. *)

From stdpp Require Import gmap.
From S2P Require Import Prelude CString Spinlock Kalloc Proc Demo Vm VmFacts.

(** Page numbers below the kernel: [KERNBASE / PGSIZE]. *)
Definition UPN : Z := 0x80000.

Record aspace := mkAs { a_dir : Z; a_tabs : gmap Z Z; a_ups : gmap Z Z }.

Definition vals (f : gmap Z Z) : list Z := (map_to_list f).*2.
(** The pages the address space owns. *)
Definition pages (A : aspace) : list Z := a_dir A :: vals (a_tabs A) ++ vals (a_ups A).

Definition add_tab (i t : Z) (A : aspace) : aspace := mkAs (a_dir A) (<[i := t]> (a_tabs A)) (a_ups A).
Definition add_page (n p : Z) (A : aspace) : aspace := mkAs (a_dir A) (a_tabs A) (<[n := p]> (a_ups A)).
Definition del_page (n : Z) (A : aspace) : aspace := mkAs (a_dir A) (a_tabs A) (delete n (a_ups A)).

(** * Lists of pages *)

Lemma vals_insert f n p : f !! n = None -> vals (<[n := p]> f) ≡ₚ p :: vals f.
Proof. intros H. unfold vals. by rewrite map_to_list_insert. Qed.

Lemma vals_delete f n p : f !! n = Some p -> vals f ≡ₚ p :: vals (delete n f).
Proof. intros H. unfold vals. by rewrite <- (map_to_list_delete f n p H). Qed.

Lemma vals_in f n p : f !! n = Some p -> p ∈ vals f.
Proof. intros H. rewrite (vals_delete f n p H). apply list_elem_of_here. Qed.

Lemma pages_tab A i t : a_tabs A !! i = None -> pages (add_tab i t A) ≡ₚ t :: pages A.
Proof. intros H. unfold pages. cbn. rewrite vals_insert by done. cbn. apply Permutation_swap. Qed.

Lemma pages_add A n p : a_ups A !! n = None -> pages (add_page n p A) ≡ₚ p :: pages A.
Proof.
  intros H. unfold pages. cbn. rewrite vals_insert by done. rewrite <- Permutation_middle. apply Permutation_swap.
Qed.

Lemma pages_del A n p : a_ups A !! n = Some p -> pages A ≡ₚ p :: pages (del_page n A).
Proof.
  intros H. unfold pages. cbn. rewrite (vals_delete _ _ _ H). rewrite <- Permutation_middle. apply Permutation_swap.
Qed.

Lemma dir_in A : a_dir A ∈ pages A.
Proof. apply list_elem_of_here. Qed.
Lemma tab_in A i t : a_tabs A !! i = Some t -> t ∈ pages A.
Proof. intros H. apply list_elem_of_further, elem_of_app. left. by eapply vals_in. Qed.
Lemma page_in A n p : a_ups A !! n = Some p -> p ∈ pages A.
Proof. intros H. apply list_elem_of_further, elem_of_app. right. by eapply vals_in. Qed.

(** * Representation *)

(** The bytes of the pages [D] are the same in both memories. *)
Definition same_on (D : list Z) (mm mm' : mem) : Prop :=
  forall p x, p ∈ D -> p <= x < p + PGSIZE -> mm' x = mm x.

#[global] Instance same_on_preorder D : PreOrder (same_on D).
Proof. split; [done|]. intros a b c H1 H2 p x Hp Hx. rewrite (H2 p x Hp Hx). by apply (H1 p). Qed.

Lemma same_on_sub D D' mm mm' : D' ⊆ D -> same_on D mm mm' -> same_on D' mm mm'.
Proof. intros Hs H p x Hp. apply H. by apply Hs. Qed.

(** The entry of page number [n], 0 when its table does not exist. *)
Definition pte (mm : mem) (A : aspace) (n : Z) : Z :=
  match a_tabs A !! (n / 1024) with
  | Some t => load32 mm (t + 4 * (n mod 1024))
  | None => 0
  end.

Record as_rep (mm : mem) (A : aspace) : Prop := {
  ar_dir i : 0 <= i < 1024 ->
    let e := load32 mm (a_dir A + 4 * i) in
    match a_tabs A !! i with
    | Some t => present e = true /\ P2V (PTE_ADDR e) = t
    | None => present e = false
    end;
  ar_tabs i t : a_tabs A !! i = Some t -> 0 <= i < 1024;
  ar_user n : 0 <= n < UPN ->
    match a_ups A !! n with
    | Some p => present (pte mm A n) = true /\ P2V (PTE_ADDR (pte mm A n)) = p
    | None => present (pte mm A n) = false
    end;
  ar_ups n p : a_ups A !! n = Some p -> 0 <= n < UPN
}.

(** The kernel's image ends above the base of its addresses. *)
Class kend_above (kend : Z) : Prop := kend_high : KERNBASE < kend.

Section Spaces.
Import Kalloc Vm.
Context {kend : Z} {Hkend : kend_above kend}.
Implicit Types (h : phys) (m : machine) (L F : list Z) (A : aspace) (n : Z).

(** The allocator's free list [L], an address space and a frame, all apart. *)
Record owns h L A F : Prop := {
  ow_kmem : kmem_inv kend h L;
  ow_rep : as_rep (p_mem h) A;
  ow_apart : NoDup (L ++ pages A ++ F);
  ow_ok : Forall (page_ok kend) (pages A ++ F)
}.

Lemma kend_le : KERNBASE <= kend.
Proof. pose proof kend_high. lia. Qed.

(** ** Consequences of being apart *)

Lemma apart_free L D p : NoDup (L ++ D) -> p ∈ D -> p ∉ L.
Proof. intros (_ & H & _)%NoDup_app Hp Hl. by apply (H p). Qed.

Lemma owns_page h L A F p : owns h L A F -> p ∈ pages A ++ F -> page_ok kend p /\ (p ∉ L).
Proof.
  intros H Hp. split; [|by apply (apart_free L (pages A ++ F)); [apply (ow_apart _ _ _ _ H)|]].
  pose proof (ow_ok _ _ _ _ H) as Hok. rewrite Forall_forall in Hok. by apply Hok.
Qed.

(** A page of the space that is not one of the data pages. *)
Lemma word_apart t u j x : page_ok kend t -> page_ok kend u -> t <> u -> 0 <= j < 1024 ->
  u <= x < u + PGSIZE -> ~ (t + 4 * j <= x < t + 4 * j + 4).
Proof. intros Ht Hu Hne Hj Hx. destruct (pages_apart kend t u Ht Hu Hne); unfold PGSIZE in *; lia. Qed.

Lemma store32_other mm a v x : ~ (a <= x < a + 4) -> store32 mm a v x = mm x.
Proof. intros H. rewrite store32_spec. destruct (Z.leb_spec a x), (Z.ltb_spec x (a + 4)); cbn; try done; lia. Qed.

Lemma pte_agree mm mm' A n : as_rep mm A -> (forall i t, a_tabs A !! i = Some t -> same_on [t] mm mm') -> pte mm' A n = pte mm A n.
Proof.
  intros H Hs. unfold pte. destruct (a_tabs A !! (n / 1024)) as [t|] eqn:E; [|done]. apply load32_agree.
  intros x Hx. pose proof (Z.mod_pos_bound n 1024 ltac:(lia)). apply (Hs _ _ E t); [by apply list_elem_of_singleton|unfold PGSIZE; lia].
Qed.

(** Only the directory and the tables matter. *)
Lemma rep_agree mm mm' A : as_rep mm A -> same_on (a_dir A :: vals (a_tabs A)) mm mm' -> as_rep mm' A.
Proof.
  intros H Hs. assert (forall n, pte mm' A n = pte mm A n) as Hp.
  { intros n. apply pte_agree; [done|]. intros i t Hi. eapply same_on_sub, Hs. intros p ->%list_elem_of_singleton.
    apply list_elem_of_further. by eapply vals_in. }
  split; [|apply H| |apply H].
  - intros i Hi. cbn zeta. rewrite (load32_agree mm); [by apply (ar_dir _ _ H)|]. intros x Hx.
    apply (Hs (a_dir A)); [apply list_elem_of_here|unfold PGSIZE; lia].
  - intros n Hn. rewrite !Hp. by apply (ar_user _ _ H).
Qed.

(** ** Walking the directory *)

Lemma va_index va : 0 <= va < 2 ^ 32 -> PDX va = va / PGSIZE / 1024 /\ PTX va = (va / PGSIZE) mod 1024.
Proof.
  intros H. rewrite PDX_div, PTX_div. unfold PGSIZE. change (2 ^ 12) with 4096. split; [|done].
  change (2 ^ 22) with (4096 * 1024). rewrite <- Z.div_div by lia. apply Z.mod_small.
  rewrite Z.div_div by lia. split; [apply Z.div_pos; lia|]. apply Z.div_lt_upper_bound; lia.
Qed.

(** The address of the entry of [va] in its table. *)
Definition slot (t va : Z) : Z := t + 4 * ((va / PGSIZE) mod 1024).

Lemma walk_find h m A va t alloc : as_rep (p_mem h) A -> 0 <= va < 2 ^ 32 -> a_tabs A !! (va / PGSIZE / 1024) = Some t ->
  walkpgdir (a_dir A) va alloc h m = Ok (slot t va, h, m).
Proof.
  intros H Hva Ht. destruct (va_index va Hva) as [E1 E2]. unfold walkpgdir. rewrite E1, E2.
  pose proof (ar_dir _ _ H _ (ar_tabs _ _ H _ _ Ht)) as He. cbn zeta in He. rewrite Ht in He. by destruct He as [-> ->].
Qed.

Lemma walk_none h m A va : as_rep (p_mem h) A -> 0 <= va < 2 ^ 32 -> a_tabs A !! (va / PGSIZE / 1024) = None ->
  walkpgdir (a_dir A) va false h m = Ok (0, h, m).
Proof.
  intros H Hva Ht. destruct (va_index va Hva) as [E1 _]. unfold walkpgdir. pose proof (PDX_range va) as Hr. rewrite E1 in Hr |- *.
  pose proof (ar_dir _ _ H _ Hr) as He. cbn zeta in He. rewrite Ht in He. by rewrite He.
Qed.

Lemma slot_pos h L A F i t va : owns h L A F -> a_tabs A !! i = Some t -> slot t va <> 0.
Proof.
  intros H Ht. destruct (owns_page _ _ _ _ t H) as [Hok _]; [apply elem_of_app; left; by eapply tab_in|].
  pose proof (page_ok_range kend kend_le t Hok) as Hr. unfold KERNBASE in Hr. unfold slot.
  pose proof (Z.mod_pos_bound (va / PGSIZE) 1024 ltac:(lia)). lia.
Qed.

Lemma load_slot mm A va t : a_tabs A !! (va / PGSIZE / 1024) = Some t -> load32 mm (slot t va) = pte mm A (va / PGSIZE).
Proof. intros H. unfold pte. by rewrite H. Qed.

(** ** A new page table *)

Lemma page_zero_other mm t u x : page_ok kend t -> page_ok kend u -> t <> u -> u <= x < u + PGSIZE ->
  (Kstring.memset mm t 0 PGSIZE).1 x = mm x.
Proof.
  intros Ht Hu Hne Hx. unfold PGSIZE in *. rewrite memset_fill by lia.
  destruct (pages_apart kend t u Ht Hu Hne) as [H|H]; unfold PGSIZE in H;
    destruct (Z.leb_spec t x), (Z.ltb_spec x (t + 4096)); cbn; try done; lia.
Qed.

(** The memory after a zeroed table [b] is entered in the directory. *)
Definition with_table mm A i b : mem :=
  store32 (Kstring.memset mm b 0 PGSIZE).1 (a_dir A + 4 * i) (Z.lor (Z.lor (Z.lor (V2P b) PTE_P) PTE_W) PTE_U).

Lemma with_table_other mm A i b u x : page_ok kend b -> page_ok kend (a_dir A) -> page_ok kend u -> b <> u -> a_dir A <> u ->
  0 <= i < 1024 -> u <= x < u + PGSIZE -> with_table mm A i b x = mm x.
Proof.
  intros Hb Hd Hu Hne Hne' Hi Hx. unfold with_table. rewrite store32_other by (by eapply word_apart). by apply (page_zero_other mm b u).
Qed.

Lemma with_table_rep mm A i b : as_rep mm A -> 0 <= i < 1024 -> a_tabs A !! i = None ->
  NoDup (b :: pages A) -> Forall (page_ok kend) (b :: pages A) ->
  as_rep (with_table mm A i b) (add_tab i b A) /\ forall n, pte (with_table mm A i b) (add_tab i b A) n = pte mm A n.
Proof.
  intros H Hi Hn Hnd Hok. rewrite Forall_forall in Hok.
  assert (page_ok kend b) as Hb by (apply Hok, list_elem_of_here).
  assert (page_ok kend (a_dir A)) as Hd by (apply Hok, list_elem_of_further, dir_in).
  apply NoDup_cons in Hnd as [Hnb Hnd]. assert (b <> a_dir A) as Hbd by (intros ->; apply Hnb, dir_in).
  assert (forall n, pte (with_table mm A i b) (add_tab i b A) n = pte mm A n) as Hp.
  { intros n. unfold pte. cbn [a_tabs add_tab]. pose proof (Z.mod_pos_bound n 1024 ltac:(lia)) as Hm.
    destruct (decide (n / 1024 = i)) as [E|E].
    - rewrite E, lookup_insert_eq, Hn. unfold with_table. rewrite (load32_agree (Kstring.memset mm b 0 PGSIZE).1); [by apply zero_page_load|].
      intros x Hx. apply store32_other. apply (word_apart (a_dir A) b i x); try done. unfold PGSIZE. lia.
    - rewrite lookup_insert_ne by done. destruct (a_tabs A !! (n / 1024)) as [u|] eqn:Eu; [|done].
      pose proof (tab_in _ _ _ Eu) as Hin. apply load32_agree. intros x Hx.
      apply (with_table_other mm A i b u); try done; [by apply Hok, list_elem_of_further|by intros ->| |unfold PGSIZE; lia].
      unfold pages in Hnd. apply NoDup_cons in Hnd as [Hnd _]. intros <-. apply Hnd, elem_of_app. left. by eapply vals_in. }
  split; [|done]. split.
  - intros j Hj. cbn zeta. cbn [a_dir a_tabs add_tab]. unfold with_table. destruct (decide (j = i)) as [->|Hji].
    + rewrite lookup_insert_eq. destruct (dir_entry kend kend_le b Hb) as (E1 & E2 & E3). by rewrite load32_store32.
    + rewrite lookup_insert_ne, load_same_page by done. rewrite (zero_page_other kend) by done. by apply (ar_dir _ _ H).
  - intros j u. cbn. rewrite lookup_insert_Some. intros [[<- _]|[_ Hu]]; [done|]. by apply (ar_tabs _ _ H _ _ Hu).
  - intros n Hu. rewrite !Hp. by apply (ar_user _ _ H).
  - apply (ar_ups _ _ H).
Qed.

Lemma owns_move_tab L A F i b : NoDup ((b :: L) ++ pages A ++ F) -> a_tabs A !! i = None ->
  NoDup (L ++ pages (add_tab i b A) ++ F) /\ L ++ pages (add_tab i b A) ≡ₚ (b :: L) ++ pages A.
Proof.
  intros H Hi. pose proof (pages_tab A i b Hi) as Hp. split.
  - rewrite Hp. cbn [app]. by rewrite <- Permutation_middle.
  - rewrite Hp. by rewrite <- Permutation_middle.
Qed.

(** [walkpgdir] with [alloc]: finds the table, or takes a page for it. *)
Lemma walk_true h m L A F va : owns h L A F -> mach_ok m -> 0 <= va < 2 ^ 32 ->
  exists pa h' m' L' A', walkpgdir (a_dir A) va true h m = Ok (pa, h', m') /\ mach_ok m' /\ owns h' L' A' F /\
    L' ++ pages A' ≡ₚ L ++ pages A /\ a_dir A' = a_dir A /\ a_ups A' = a_ups A /\
    same_on (vals (a_ups A) ++ F) (p_mem h) (p_mem h') /\ (forall n, pte (p_mem h') A' n = pte (p_mem h) A n) /\
    ((exists t, a_tabs A' !! (va / PGSIZE / 1024) = Some t /\ pa = slot t va) \/ (pa = 0 /\ L' = [])).
Proof.
  intros H Hm Hva. destruct (a_tabs A !! (va / PGSIZE / 1024)) as [t|] eqn:Et.
  { rewrite (walk_find h m A va t true (ow_rep _ _ _ _ H) Hva Et). exists (slot t va), h, m, L, A.
    split_and!; try done. left. by exists t. }
  destruct (va_index va Hva) as [E1 E2]. pose proof (PDX_range va) as Hr. unfold walkpgdir. rewrite E1, E2 in *.
  pose proof (ar_dir _ _ (ow_rep _ _ _ _ H) _ Hr) as He. cbn zeta in He. rewrite Et in He. rewrite He. cbn [negb].
  destruct (kalloc_pop kend kend_le h L m (ow_kmem _ _ _ _ H) Hm) as (a & h1 & m1 & -> & Hm1 & _ & Hmem & _ & Hcase). cbn [res_bind].
  destruct H as [K1 K2 K3 K4]. destruct L as [|b L].
  { destruct Hcase as [-> Hk]. cbn [Z.eqb]. exists 0, h1, m1, [], A. rewrite Hmem.
    split_and!; try done; [|by right]. split; try done. by rewrite Hmem. }
  destruct Hcase as (-> & Hb & Hnb & Hk). pose proof (page_ok_range kend kend_le b Hb) as Hbr. unfold KERNBASE in Hbr.
  rewrite (proj2 (Z.eqb_neq b 0)) by lia. set (i := va / PGSIZE / 1024) in *. rewrite Hmem. fold (with_table (p_mem h) A i b).
  destruct (owns_move_tab L A F i b K3 Et) as [Hnd Hperm].
  assert (NoDup (b :: pages A)) as Hndb.
  { cbn [app] in K3. apply NoDup_cons in K3 as [Kb (_ & _ & (Kp & _)%NoDup_app)%NoDup_app]. apply NoDup_cons. set_solver. }
  assert (Forall (page_ok kend) (b :: pages A)) as Hokb by (apply Forall_cons; split; [done|]; by apply Forall_app in K4 as [? _]).
  destruct (with_table_rep (p_mem h) A i b K2 Hr Et Hndb Hokb) as [Hrep Hpte].
  eexists _, (mkPhys (with_table (p_mem h) A i b) (p_kmem h1)), m1, L, (add_tab i b A). split; [done|]. split; [done|].
  assert (page_ok kend (a_dir A) /\ (a_dir A ∉ L)) as [Hdok Hdl].
  { split; [rewrite Forall_forall in K4; apply K4, elem_of_app; left; apply dir_in|].
    intros Hin. cbn in K3. apply NoDup_cons in K3 as [_ K3]. apply (apart_free L (pages A ++ F) (a_dir A)); try done.
    apply elem_of_app; left; apply dir_in. }
  split; [split|].
  - apply (kmem_inv_store kend (mkPhys (Kstring.memset (p_mem h) b 0 PGSIZE).1 (p_kmem h1))); try done.
    rewrite <- Hmem. by apply kmem_inv_zero.
  - done.
  - done.
  - rewrite (pages_tab A i b Et). cbn. by apply Forall_cons.
  - split; [done|]. split; [done|]. split; [done|]. split; [|split; [done|]].
    + intros u x Hu Hx. cbn [p_mem]. cbn [app] in K3. apply NoDup_cons in K3 as [Kb (_ & _ & K3)%NoDup_app].
      unfold pages in K3. cbn [app] in K3. apply NoDup_cons in K3 as [Kd K3].
      apply (with_table_other (p_mem h) A i b u); try done.
      * rewrite Forall_forall in K4. apply K4. unfold pages. clear -Hu. set_solver.
      * intros ->. apply Kb. unfold pages. clear -Hu. set_solver.
      * intros <-. apply Kd. set_solver.
    + left. exists b. cbn. rewrite lookup_insert_eq. done.
Qed.

(** ** Writing an entry *)

Lemma set_entry mm A n t v : as_rep mm A -> a_tabs A !! (n / 1024) = Some t -> 0 <= v < 2 ^ 32 ->
  NoDup (pages A) -> Forall (page_ok kend) (pages A) ->
  let mm' := store32 mm (t + 4 * (n mod 1024)) v in
  pte mm' A n = v /\ (forall n', n' <> n -> pte mm' A n' = pte mm A n') /\
  (forall i, 0 <= i < 1024 -> load32 mm' (a_dir A + 4 * i) = load32 mm (a_dir A + 4 * i)) /\
  forall D, (forall p, p ∈ D -> page_ok kend p /\ p <> t) -> same_on D mm mm'.
Proof.
  intros H Ht Hv Hnd Hok mm'. rewrite Forall_forall in Hok. pose proof (tab_in _ _ _ Ht) as Htin. pose proof (Hok t Htin) as Htok.
  pose proof (Z.mod_pos_bound n 1024 ltac:(lia)) as Hm.
  assert (a_dir A <> t) as Hdt.
  { unfold pages in Hnd. apply NoDup_cons in Hnd as [Hnd _]. intros E. apply Hnd. rewrite E. apply elem_of_app. left. by eapply vals_in. }
  split; [|split; [|split]].
  - unfold pte. rewrite Ht. by apply load32_store32.
  - intros n' Hne. unfold pte. destruct (a_tabs A !! (n' / 1024)) as [u|] eqn:Eu; [|done].
    pose proof (Z.mod_pos_bound n' 1024 ltac:(lia)) as Hm'. destruct (decide (n' / 1024 = n / 1024)) as [E|E].
    + rewrite E, Ht in Eu. injection Eu as <-. apply load_same_page. intros E'. apply Hne.
      rewrite (Z.div_mod n' 1024), (Z.div_mod n 1024) by lia. congruence.
    + apply (load_other kend); try done; [by apply Hok; eapply tab_in|]. intros ->.
      assert (NoDup (vals (a_tabs A))) as Hv' by (unfold pages in Hnd; apply NoDup_cons in Hnd as [_ Hnd]; by apply NoDup_app in Hnd as (? & _)).
      rewrite (vals_delete _ _ _ Ht) in Hv'. apply NoDup_cons in Hv' as [Hv' _]. apply Hv'.
      apply (vals_in _ (n' / 1024)). by rewrite lookup_delete_ne.
  - intros i Hi. apply (load_other kend); try done. apply Hok, dir_in.
  - intros D HD p x Hp Hx. destruct (HD p Hp) as [Hpo Hpt]. apply store32_other. apply (word_apart t p _ x); done.
Qed.

(** The user pages after the entry of [n] became [v]. *)
Definition entry_page (n v : Z) (p : option Z) : Prop :=
  match p with
  | Some p => present v = true /\ P2V (PTE_ADDR v) = p
  | None => present v = false
  end.

Lemma rep_set mm A n t v U : as_rep mm A -> a_tabs A !! (n / 1024) = Some t -> 0 <= v < 2 ^ 32 ->
  NoDup (pages A) -> Forall (page_ok kend) (pages A) ->
  (forall n', n' <> n -> U !! n' = a_ups A !! n') -> (0 <= n < UPN -> entry_page n v (U !! n)) -> (UPN <= n -> U !! n = None) -> 0 <= n ->
  as_rep (store32 mm (t + 4 * (n mod 1024)) v) (mkAs (a_dir A) (a_tabs A) U).
Proof.
  intros H Ht Hv Hnd Hok HU Hn Hk Hpos. destruct (set_entry mm A n t v H Ht Hv Hnd Hok) as (E1 & E2 & E3 & _).
  split; cbn [a_dir a_tabs a_ups].
  - intros i Hi. cbn zeta. rewrite E3 by done. by apply (ar_dir _ _ H).
  - apply (ar_tabs _ _ H).
  - intros n' Hn'. change (pte ?x (mkAs _ _ U)) with (pte x A). destruct (decide (n' = n)) as [->|Hne].
    + rewrite E1. by apply Hn.
    + rewrite E2, HU by done. by apply (ar_user _ _ H).
  - intros n' p Hp. destruct (decide (n' = n)) as [->|Hne]; [|rewrite HU in Hp by done; by apply (ar_ups _ _ H _ _ Hp)].
    destruct (decide (n < UPN)); [done|]. rewrite Hk in Hp by lia. done.
Qed.

Lemma owns_parts h L A F : owns h L A F -> NoDup (pages A) /\ Forall (page_ok kend) (pages A).
Proof. intros [_ _ H1 H2]. apply NoDup_app in H1 as (_ & _ & (? & _)%NoDup_app). by apply Forall_app in H2 as [? _]. Qed.

Lemma tab_apart h L A F i t p : owns h L A F -> a_tabs A !! i = Some t -> p ∈ vals (a_ups A) ++ F -> page_ok kend p /\ p <> t.
Proof.
  intros H Ht Hp. destruct H as [_ _ H1 H2]. rewrite Forall_forall in H2. split; [apply H2; unfold pages; set_solver|].
  apply NoDup_app in H1 as (_ & _ & H1). unfold pages in H1. cbn [app] in H1. apply NoDup_cons in H1 as [_ H1].
  rewrite <- app_assoc in H1. apply NoDup_app in H1 as (_ & H1 & _). intros ->. apply (H1 t); [by eapply vals_in|done].
Qed.

Lemma pte_val_range pa perm : 0 <= pa < 2 ^ 32 -> 0 <= perm < PGSIZE -> 0 <= pte_val pa perm < 2 ^ 32.
Proof. intros H1 H2. unfold PGSIZE in *. repeat apply lor_range; unfold PTE_P; lia. Qed.

Lemma kmem_store h L A F i t n v : owns h L A F -> a_tabs A !! i = Some t ->
  kmem_inv kend (mkPhys (store32 (p_mem h) (t + 4 * (n mod 1024)) v) (p_kmem h)) L.
Proof.
  intros H Ht. destruct (owns_page _ _ _ _ t H) as [Hok Hl]; [apply elem_of_app; left; by eapply tab_in|].
  apply kmem_inv_store; try done; [apply (ow_kmem _ _ _ _ H)|]. apply Z.mod_pos_bound. lia.
Qed.

(** An entry of the kernel's part is written. *)
Lemma enter_kernel h L A F n t v : owns h L A F -> a_tabs A !! (n / 1024) = Some t -> 0 <= v < 2 ^ 32 -> UPN <= n ->
  let h' := mkPhys (store32 (p_mem h) (t + 4 * (n mod 1024)) v) (p_kmem h) in
  owns h' L A F /\ pte (p_mem h') A n = v /\ (forall n', n' <> n -> pte (p_mem h') A n' = pte (p_mem h) A n') /\
  same_on (vals (a_ups A) ++ F) (p_mem h) (p_mem h').
Proof.
  intros H Ht Hv Hn h'. destruct (owns_parts _ _ _ _ H) as [Hnd Hok]. pose proof (ow_rep _ _ _ _ H) as Hrep.
  destruct (set_entry (p_mem h) A n t v Hrep Ht Hv Hnd Hok) as (E1 & E2 & _ & E4).
  split; [|split; [done|split; [done|]]].
  - split; [by eapply kmem_store| |apply H|apply H]. destruct A as [d tb up]. apply (rep_set (p_mem h) (mkAs d tb up)); try done.
    + unfold UPN in *. lia.
    + intros _. destruct (up !! n) as [p|] eqn:E; [|done]. pose proof (ar_ups _ _ Hrep n p E). lia.
    + unfold UPN in *. lia.
  - apply E4. intros p Hp. by eapply tab_apart.
Qed.

(** An entry of the user's part gets the page [p] of the frame. *)
Lemma enter_user h L A F n t v p : owns h L A (p :: F) -> a_tabs A !! (n / 1024) = Some t -> 0 <= v < 2 ^ 32 -> 0 <= n < UPN ->
  present (pte (p_mem h) A n) = false -> present v = true -> P2V (PTE_ADDR v) = p ->
  let h' := mkPhys (store32 (p_mem h) (t + 4 * (n mod 1024)) v) (p_kmem h) in
  let A' := add_page n p A in
  owns h' L A' F /\ L ++ pages A' ≡ₚ p :: L ++ pages A /\ pte (p_mem h') A' n = v /\
  (forall n', n' <> n -> pte (p_mem h') A' n' = pte (p_mem h) A n') /\
  same_on (vals (a_ups A) ++ p :: F) (p_mem h) (p_mem h').
Proof.
  intros H Ht Hv Hn Hnp Hpv Hp h' A'. destruct (owns_parts _ _ _ _ H) as [Hnd Hok]. pose proof (ow_rep _ _ _ _ H) as Hrep.
  destruct (set_entry (p_mem h) A n t v Hrep Ht Hv Hnd Hok) as (E1 & E2 & _ & E4).
  assert (a_ups A !! n = None) as Hnone.
  { pose proof (ar_user _ _ Hrep n Hn) as Hu. destruct (a_ups A !! n) as [q|]; [|done]. destruct Hu as [Hu _]. congruence. }
  pose proof (pages_add A n p Hnone) as Hpg.
  split; [|split; [|split; [done|split; [done|]]]].
  - split; [by eapply kmem_store| | |].
    + apply (rep_set (p_mem h) A); try done; [| |lia|lia].
      * intros n' Hne. by rewrite lookup_insert_ne.
      * intros _. by rewrite lookup_insert_eq.
    + pose proof (ow_apart _ _ _ _ H) as Hap. unfold A'. rewrite Hpg. cbn [app]. by rewrite Permutation_middle.
    + pose proof (ow_ok _ _ _ _ H) as Ho. unfold A'. rewrite Hpg. cbn [app]. by rewrite Permutation_middle.
  - unfold A'. rewrite Hpg. by rewrite Permutation_middle.
  - apply E4. intros q Hq. by eapply tab_apart.
Qed.

(** The entry of a user page is cleared: the page goes to the frame. *)
Lemma clear_user h L A F n t p : owns h L A F -> a_tabs A !! (n / 1024) = Some t -> a_ups A !! n = Some p ->
  let h' := mkPhys (store32 (p_mem h) (t + 4 * (n mod 1024)) 0) (p_kmem h) in
  let A' := del_page n A in
  owns h' L A' (p :: F) /\ (forall n', n' <> n -> pte (p_mem h') A' n' = pte (p_mem h) A n') /\
  same_on (vals (a_ups A) ++ F) (p_mem h) (p_mem h').
Proof.
  intros H Ht Hp h' A'. destruct (owns_parts _ _ _ _ H) as [Hnd Hok]. pose proof (ow_rep _ _ _ _ H) as Hrep.
  pose proof (ar_ups _ _ Hrep n p Hp) as Hn. assert (0 <= 0 < 2 ^ 32) as Hz by lia.
  destruct (set_entry (p_mem h) A n t 0 Hrep Ht Hz Hnd Hok) as (E1 & E2 & _ & E4). pose proof (pages_del A n p Hp) as Hpg.
  split; [|split; [done|]].
  - split; [by eapply kmem_store| | |].
    + apply (rep_set (p_mem h) A); try done; [| |lia|lia].
      * intros n' Hne. by rewrite lookup_delete_ne.
      * intros _. by rewrite lookup_delete_eq.
    + pose proof (ow_apart _ _ _ _ H) as Hap. rewrite Hpg in Hap. cbn [app] in Hap. unfold A'. by rewrite <- Permutation_middle.
    + pose proof (ow_ok _ _ _ _ H) as Ho. rewrite Hpg in Ho. cbn [app] in Ho. unfold A'. by rewrite <- Permutation_middle.
  - apply E4. intros q Hq. by eapply tab_apart.
Qed.

(** ** Pages between the free list and the frame *)

Lemma same_outside (D : list Z) mm mm' p : (forall q, q ∈ D -> page_ok kend q /\ q <> p) -> page_ok kend p ->
  (forall x, x < p \/ p + PGSIZE <= x -> mm' x = mm x) -> same_on D mm mm'.
Proof.
  intros HD Hp Hx q x Hq Hin. destruct (HD q Hq) as [Hqo Hne]. apply Hx. destruct (pages_apart kend q p Hqo Hp Hne); lia.
Qed.

Lemma kalloc_frame h m L A F : owns h L A F -> mach_ok m ->
  exists p h' m', kalloc h m = Ok (p, h', m') /\ mach_ok m' /\ p_mem h' = p_mem h /\
    match L with
    | [] => p = 0 /\ owns h' [] A F
    | q :: L' => p = q /\ p <> 0 /\ owns h' L' A (p :: F)
    end.
Proof.
  intros H Hm. destruct (kalloc_pop kend kend_le h L m (ow_kmem _ _ _ _ H) Hm) as (p & h' & m' & -> & Hm' & _ & Hmem & _ & Hc).
  exists p, h', m'. split_and!; try done. destruct H as [K1 K2 K3 K4]. destruct L as [|q L].
  - destruct Hc as [-> Hk]. split; [done|]. split; try done. by rewrite Hmem.
  - destruct Hc as (-> & Hq & Hnq & Hk). split; [done|]. pose proof (page_ok_range kend kend_le q Hq) as Hr.
    split; [unfold KERNBASE in Hr; lia|]. split; [done|by rewrite Hmem| |].
    + cbn [app] in K3. rewrite !app_assoc in K3 |- *. rewrite <- Permutation_middle. done.
    + rewrite <- Permutation_middle. by apply Forall_cons.
Qed.

(** What the space and the frame need not notice. *)
Lemma owns_agree h h' L L' A F : owns h L A F -> kmem_inv kend h' L' -> NoDup (L' ++ pages A ++ F) ->
  same_on (pages A) (p_mem h) (p_mem h') -> owns h' L' A F.
Proof.
  intros [K1 K2 K3 K4] Hk Hn Hs. split; try done. apply (rep_agree (p_mem h)); [done|]. eapply same_on_sub, Hs.
  unfold pages. set_solver.
Qed.

Lemma frame_apart h L A F p q : owns h L A (p :: F) -> q ∈ pages A ++ F -> page_ok kend q /\ q <> p.
Proof.
  intros H Hq. destruct (owns_page _ _ _ _ q H) as [Hok _]; [set_solver|]. split; [done|]. intros ->.
  pose proof (ow_apart _ _ _ _ H) as Hn. apply NoDup_app in Hn as (_ & _ & Hn). rewrite <- Permutation_middle in Hn.
  apply NoDup_cons in Hn as [Hn _]. done.
Qed.

Lemma kfree_frame h m L A F p : owns h L A (p :: F) -> mach_ok m ->
  exists h' m', kfree kend p h m = Ok (h', m') /\ mach_ok m' /\ owns h' (p :: L) A F /\
    same_on (pages A ++ F) (p_mem h) (p_mem h').
Proof.
  intros H Hm. destruct (owns_page _ _ _ _ p H) as [Hok Hl]; [set_solver|].
  destruct (kfree_push kend kend_le p h L m (ow_kmem _ _ _ _ H) Hm Hok Hl) as (h' & m' & -> & Hk & Hm' & _ & _ & Hx).
  exists h', m'. split; [done|]. split; [done|].
  assert (same_on (pages A ++ F) (p_mem h) (p_mem h')) as Hs.
  { apply (same_outside _ _ _ p); try done. intros q Hq. by apply (frame_apart h L A F p). }
  split; [|done]. destruct H as [K1 K2 K3 K4]. split; [done| | |].
  - apply (rep_agree (p_mem h)); [done|]. eapply same_on_sub, Hs. unfold pages. set_solver.
  - rewrite !app_assoc in K3. rewrite <- Permutation_middle in K3. rewrite <- app_assoc in K3. done.
  - rewrite <- Permutation_middle in K4. by apply Forall_cons in K4 as [_ ?].
Qed.

(** Writing in a page of the frame. *)
Lemma frame_write h L A F p mm : owns h L A (p :: F) -> bytes mm -> (forall x, x < p \/ p + PGSIZE <= x -> mm x = p_mem h x) ->
  owns (mkPhys mm (p_kmem h)) L A (p :: F) /\ same_on (pages A ++ F) (p_mem h) mm.
Proof.
  intros H Hb Hx. destruct (owns_page _ _ _ _ p H) as [Hok Hl]; [set_solver|].
  assert (same_on (pages A ++ F) (p_mem h) mm) as Hs.
  { apply (same_outside _ _ _ p); try done. intros q Hq. by apply (frame_apart h L A F p). }
  split; [|done]. apply (owns_agree h _ L); [done| |apply H|eapply same_on_sub, Hs; set_solver].
  destruct (ow_kmem _ _ _ _ H) as [C1 C2 C3 C4 C5]. split; try done. cbn. apply (chain_agree (p_mem h)); [|done].
  intros a x Ha Hxa. apply Hx. rewrite Forall_forall in C4. destruct (pages_apart kend a p (C4 a Ha) Hok); [by intros ->| |]; unfold PGSIZE in *; lia.
Qed.

(** [kfree] of a user page and clearing its entry. *)
Lemma drop_page h m L A F n t p : owns h L A F -> mach_ok m -> a_tabs A !! (n / 1024) = Some t -> a_ups A !! n = Some p ->
  exists h1 m1, kfree kend p h m = Ok (h1, m1) /\ mach_ok m1 /\
    let h2 := mkPhys (store32 (p_mem h1) (t + 4 * (n mod 1024)) 0) (p_kmem h1) in
    owns h2 (p :: L) (del_page n A) F /\ (forall n', n' <> n -> pte (p_mem h2) (del_page n A) n' = pte (p_mem h) A n') /\
    same_on (vals (delete n (a_ups A)) ++ F) (p_mem h) (p_mem h2).
Proof.
  intros H Hm Ht Hp. pose proof (page_in _ _ _ Hp) as Hin. destruct (owns_page _ _ _ _ p H) as [Hok Hl]; [set_solver|].
  destruct (kfree_push kend kend_le p h L m (ow_kmem _ _ _ _ H) Hm Hok Hl) as (h1 & m1 & -> & Hk & Hm1 & _ & _ & Hx).
  exists h1, m1. split; [done|]. split; [done|]. intros h2.
  pose proof (ow_apart _ _ _ _ H) as Hap. pose proof (ow_ok _ _ _ _ H) as Ho. rewrite Forall_forall in Ho.
  pose proof (pages_del A n p Hp) as Hpg.
  assert (NoDup (p :: pages (del_page n A) ++ F)) as Hnd.
  { apply NoDup_app in Hap as (_ & _ & Hap). by rewrite Hpg in Hap. }
  pose proof Hnd as Hnd'. apply NoDup_cons in Hnd' as [Hnp _].
  assert (same_on (pages (del_page n A) ++ F) (p_mem h) (p_mem h1)) as Hs.
  { apply (same_outside _ _ _ p); try done. intros q Hq. split; [|by intros ->]. apply Ho. rewrite Hpg. clear -Hq. set_solver. }
  assert (as_rep (p_mem h1) A) as Hr1.
  { apply (rep_agree (p_mem h)); [apply H|]. eapply same_on_sub, Hs. unfold pages, del_page. cbn. clear. set_solver. }
  destruct (owns_parts _ _ _ _ H) as [Hndp Hokp]. assert (0 <= 0 < 2 ^ 32) as Hz by lia.
  destruct (set_entry (p_mem h1) A n t 0 Hr1 Ht Hz Hndp Hokp) as (E1 & E2 & _ & E4).
  assert (forall n', pte (p_mem h1) A n' = pte (p_mem h) A n') as Hpte.
  { intros n'. apply pte_agree; [apply H|]. intros i u Hu. eapply same_on_sub, Hs. intros q ->%list_elem_of_singleton.
    unfold pages, del_page. cbn. apply vals_in in Hu. clear -Hu. set_solver. }
  pose proof (ar_ups _ _ (ow_rep _ _ _ _ H) n p Hp) as Hn. pose proof (tab_in _ _ _ Ht) as Htin.
  assert (t <> p) as Htp by (destruct (tab_apart _ _ _ _ _ _ p H Ht); [apply vals_in in Hp; clear -Hp; set_solver|congruence]).
  destruct (owns_page _ _ _ _ t H) as [Htok Htl]; [clear -Htin; set_solver|].
  split; [split|split].
  - apply kmem_inv_store; try done; [set_solver|]. apply Z.mod_pos_bound. lia.
  - apply (rep_set (p_mem h1) A); try done; [| |lia|lia].
    + intros n' Hne. by rewrite lookup_delete_ne.
    + intros _. by rewrite lookup_delete_eq.
  - rewrite Hpg in Hap. cbn [app] in Hap |- *. by rewrite <- Permutation_middle in Hap.
  - apply Forall_forall. intros q Hq. apply Ho. rewrite Hpg. clear -Hq. set_solver.
  - intros n' Hne. change (pte ?x (del_page n A)) with (pte x A). by rewrite E2, Hpte.
  - etrans; [eapply same_on_sub, Hs; unfold pages, del_page; cbn; clear; set_solver|]. apply E4. intros q Hq.
    apply (tab_apart _ _ _ _ _ _ q H Ht). rewrite (vals_delete _ _ _ Hp). clear -Hq. set_solver.
Qed.

(** ** deallocuvm *)

Lemma next_table a : 0 <= a < 2 ^ 31 ->
  u32 (u32 (PGADDR (PDX a + 1) 0 0 - PGSIZE) + PGSIZE) = PGSIZE * (1024 * (a / PGSIZE / 1024 + 1)).
Proof.
  intros Ha. destruct (va_index a) as [E _]; [lia|]. unfold PGADDR. rewrite E, Z.shiftl_0_l, !Z.lor_0_r, Z.shiftl_mul_pow2 by lia.
  assert (0 <= a / PGSIZE / 1024 < 512) as Hq.
  { unfold PGSIZE. rewrite Z.div_div by lia. split; [apply Z.div_pos; lia|apply Z.div_lt_upper_bound; lia]. }
  unfold PGSIZE in *. rewrite u32_add_l, (u32_small ((_ + 1) * _)) by lia. rewrite u32_small by lia. lia.
Qed.

(** The space without the user pages [P]; they are free. *)
Record emptied (P : Z -> bool) h L A F h' L' A' : Prop := {
  em_owns : owns h' L' A' F;
  em_perm : L' ++ pages A' ≡ₚ L ++ pages A;
  em_dir : a_dir A' = a_dir A;
  em_tabs : a_tabs A' = a_tabs A;
  em_ups n : a_ups A' !! n = if P n then None else a_ups A !! n;
  em_pte n : P n = false -> pte (p_mem h') A' n = pte (p_mem h) A n;
  em_same : same_on (vals (a_ups A') ++ F) (p_mem h) (p_mem h')
}.

Lemma vals_sub (f g : gmap Z Z) : f ⊆ g -> vals f ⊆ vals g.
Proof.
  intros H p Hp. unfold vals in Hp. apply list_elem_of_fmap in Hp as ([n q] & -> & Hp). apply elem_of_map_to_list in Hp.
  eapply vals_in. by eapply lookup_weaken.
Qed.

(** Nothing to free among the pages [P]. *)
Lemma emptied_nop P h L A F : owns h L A F -> (forall n, P n = true -> a_ups A !! n = None) -> emptied P h L A F h L A.
Proof. intros H Hn. split; try done. intros n. destruct (P n) eqn:E; [by apply Hn|done]. Qed.

Lemma emptied_trans P Q R h L A F h1 L1 A1 h2 L2 A2 : (forall n, R n = P n || Q n) ->
  emptied P h L A F h1 L1 A1 -> emptied Q h1 L1 A1 F h2 L2 A2 -> emptied R h L A F h2 L2 A2.
Proof.
  intros HR [A1' A2' A3 A4 A5 A6 A7] [B1 B2 B3 B4 B5 B6 B7]. split; try congruence.
  - by etrans.
  - intros n. rewrite B5, A5, HR. by destruct (P n), (Q n).
  - intros n Hn. rewrite HR in Hn. apply orb_false_iff in Hn as [Hp Hq]. by rewrite B6, A6.
  - etrans; [|exact B7]. eapply same_on_sub, A7. assert (vals (a_ups A2) ⊆ vals (a_ups A1)) as Hs; [|set_solver].
    apply vals_sub. apply map_subseteq_spec. intros n p. rewrite B5. by destruct (Q n).
Qed.

(** The pages from [a] to [a'], of those below the address [b]. *)
Definition span (b lo hi n : Z) : bool := (lo <=? n) && (n <? hi) && (n * PGSIZE <? b).

(** Where the directory has no table, the loop goes to the next table. *)
Lemma skip_table F b a h L A : owns h L A F -> 0 <= a < 2 ^ 31 -> a mod PGSIZE = 0 -> a_tabs A !! (a / PGSIZE / 1024) = None ->
  let a' := u32 (u32 (PGADDR (PDX a + 1) 0 0 - PGSIZE) + PGSIZE) in
  a + PGSIZE <= a' <= 2 ^ 31 /\ a' mod PGSIZE = 0 /\ emptied (span b (a / PGSIZE) (a' / PGSIZE)) h L A F h L A.
Proof.
  intros H Ha Hal Et. assert (PGSIZE * (a / PGSIZE) = a) as Hdiv by (pose proof (Z.div_mod a PGSIZE ltac:(unfold PGSIZE; lia)); lia).
  rewrite next_table by lia. set (n := a / PGSIZE) in *. assert (0 <= n < UPN) as Hn by (unfold UPN, PGSIZE in *; lia). cbn zeta.
  set (a' := PGSIZE * (1024 * (n / 1024 + 1))).
  pose proof (Z.div_mod n 1024 ltac:(lia)) as Hdm. pose proof (Z.mod_pos_bound n 1024 ltac:(lia)) as Hmb.
  assert (n / 1024 < 512) as Hq by (unfold UPN in Hn; apply Z.div_lt_upper_bound; lia).
  split; [unfold a', PGSIZE in *; lia|]. split; [unfold a'; rewrite Z.mul_comm; apply Z_mod_mult|].
  apply emptied_nop; [done|]. intros k Hk. unfold span in Hk. apply andb_true_iff in Hk as [Hk _].
  replace (a' / PGSIZE) with (1024 * (n / 1024 + 1)) in Hk by (unfold a', PGSIZE; rewrite (Z.mul_comm 4096), Z.div_mul by lia; lia).
  rewrite andb_true_iff, Z.leb_le, Z.ltb_lt in Hk. assert (k / 1024 = n / 1024) as Ek.
  { symmetry. apply (Z.div_unique_pos k 1024 (n / 1024) (k - 1024 * (n / 1024))); lia. }
  pose proof (ar_user _ _ (ow_rep _ _ _ _ H) k ltac:(unfold UPN; lia)) as Huk. unfold pte in Huk. rewrite Ek, Et in Huk.
  destruct (a_ups A !! k); [|done]. by destruct Huk.
Qed.

(** A turn of the loop of [deallocuvm]. *)
Lemma dealloc_turn F b a h m L A : owns h L A F -> mach_ok m -> 0 <= a -> a mod PGSIZE = 0 -> a < b -> b <= 2 ^ 31 ->
  exists a' h1 m1 L1 A1, (forall fuel, dealloc_loop kend (S fuel) (a_dir A) a b h m = dealloc_loop kend fuel (a_dir A) a' b h1 m1) /\
    a + PGSIZE <= a' <= 2 ^ 31 /\ a' mod PGSIZE = 0 /\ mach_ok m1 /\ emptied (span b (a / PGSIZE) (a' / PGSIZE)) h L A F h1 L1 A1.
Proof.
  intros H Hm Ha Hal Hlt Hb. cbn [dealloc_loop]. rewrite (proj2 (Z.ltb_lt _ _) Hlt).
  assert (PGSIZE * (a / PGSIZE) = a) as Hdiv by (pose proof (Z.div_mod a PGSIZE ltac:(unfold PGSIZE; lia)); lia).
  set (n := a / PGSIZE) in *. assert (0 <= n < UPN) as Hn by (unfold UPN, PGSIZE in *; lia).
  pose proof (ow_rep _ _ _ _ H) as Hrep. pose proof (ar_user _ _ Hrep n Hn) as Hu.
  destruct (a_tabs A !! (n / 1024)) as [t|] eqn:Et.
  2: { rewrite (walk_none h m A a Hrep) by (done || lia). destruct (skip_table F b a h L A H) as (S1 & S2 & S3); [lia|done|done|].
       exists (u32 (u32 (PGADDR (PDX a + 1) 0 0 - PGSIZE) + PGSIZE)), h, m, L, A. split; [done|]. done. }
  assert ((a + PGSIZE) / PGSIZE = n + 1) as Hnext by (unfold n, PGSIZE; rewrite <- (Z.mul_1_l 4096) at 1; rewrite Z.div_add by lia; lia).
  assert ((a + PGSIZE) mod PGSIZE = 0) as Hal1 by (rewrite <- (Z.mul_1_l PGSIZE) at 1; by rewrite Z_mod_plus_full).
  assert (a + PGSIZE <= 2 ^ 31) as Ha1 by (unfold PGSIZE in *; lia).
  assert (forall k, span b n (n + 1) k = (k =? n)) as Hspan.
  { intros k. unfold span. destruct (Z.eqb_spec k n) as [->|Hne].
    - rewrite (proj2 (Z.leb_le _ _)), !(proj2 (Z.ltb_lt _ _)) by lia. done.
    - destruct (Z.leb_spec n k), (Z.ltb_spec k (n + 1)); cbn; try done; lia. }
  rewrite (walk_find h m A a t false Hrep) by (done || lia). cbn [res_bind].
  rewrite (proj2 (Z.eqb_neq _ 0)) by (by eapply slot_pos). rewrite (load_slot _ A) by done. fold n.
  rewrite u32_small by (unfold PGSIZE in *; lia). destruct (a_ups A !! n) as [p|] eqn:Ep.
  2: { rewrite Hu. exists (a + PGSIZE), h, m, L, A. rewrite Hnext. split_and!; try done; try lia. apply emptied_nop; [done|].
       intros k. rewrite Hspan, Z.eqb_eq. by intros ->. }
  destruct Hu as [Hu1 Hu2]. rewrite Hu1, Hu2. destruct (owns_page _ _ _ _ p H) as [Hok Hl]; [apply elem_of_app; left; by eapply page_in|].
  assert (PTE_ADDR (pte (p_mem h) A n) <> 0) as Hnz.
  { intros E. rewrite E in Hu2. pose proof kend_high. destruct Hok as (_ & _ & Hk & _). unfold P2V, KERNBASE in *. rewrite <- Hu2, u32_small in Hk by lia. lia. }
  rewrite (proj2 (Z.eqb_neq _ 0) Hnz). destruct (drop_page h m L A F n t p H Hm Et Ep) as (h1 & m1 & -> & Hm1 & Ho & Hpt & Hs).
  cbn [res_bind]. unfold slot. fold n. set (h2 := mkPhys _ _) in *. exists (a + PGSIZE), h2, m1, (p :: L), (del_page n A).
  rewrite Hnext. split_and!; try done; try lia. split; try done.
  - cbn [app]. rewrite (pages_del A n p Ep). by rewrite <- Permutation_middle.
  - intros k. rewrite Hspan. cbn. destruct (Z.eqb_spec k n) as [->|Hne]; [apply lookup_delete_eq|by rewrite lookup_delete_ne].
  - intros k. rewrite Hspan, Z.eqb_neq. apply Hpt.
Qed.

Lemma dealloc_loop_ok F b : forall fuel a h m L A, owns h L A F -> mach_ok m -> 0 <= a -> a mod PGSIZE = 0 -> b <= 2 ^ 31 ->
  (0 < fuel)%nat -> b - a <= PGSIZE * (Z.of_nat fuel - 1) ->
  exists h' m' L' A', dealloc_loop kend fuel (a_dir A) a b h m = Ok (h', m') /\ mach_ok m' /\
    emptied (fun n => (a / PGSIZE <=? n) && (n * PGSIZE <? b)) h L A F h' L' A'.
Proof.
  induction fuel as [|fuel IH]; intros a h m L A H Hm Ha Hal Hb Hf0 Hf; [lia|].
  assert (PGSIZE * (a / PGSIZE) = a) as Hdiv by (pose proof (Z.div_mod a PGSIZE ltac:(unfold PGSIZE; lia)); lia).
  destruct (Z.lt_ge_cases a b) as [Hlt|Hge].
  - destruct (dealloc_turn F b a h m L A H Hm Ha Hal Hlt Hb) as (a1 & h1 & m1 & L1 & A1 & E & Ha1 & Hal1 & Hm1 & He).
    rewrite E, <- (em_dir _ _ _ _ _ _ _ _ He).
    destruct (IH a1 h1 m1 L1 A1 (em_owns _ _ _ _ _ _ _ _ He) Hm1) as (h' & m' & L' & A' & -> & Hm' & He'); try done; try (unfold PGSIZE in *; lia).
    exists h', m', L', A'. split; [done|]. split; [done|]. eapply emptied_trans, He'; [|exact He].
    intros n. unfold span. assert (a / PGSIZE <= a1 / PGSIZE) by (apply Z.div_le_mono; unfold PGSIZE in *; lia).
    destruct (Z.leb_spec (a / PGSIZE) n), (Z.leb_spec (a1 / PGSIZE) n), (Z.ltb_spec n (a1 / PGSIZE)), (n * PGSIZE <? b); cbn; try done; lia.
  - cbn [dealloc_loop]. rewrite (proj2 (Z.ltb_ge _ _) Hge). exists h, m, L, A. split; [done|]. split; [done|].
    apply emptied_nop; [done|]. intros n. rewrite andb_true_iff, Z.leb_le, Z.ltb_lt. unfold PGSIZE in *. lia.
Qed.

Lemma PGROUNDUP_val sz : 0 <= sz <= 2 ^ 31 -> PGROUNDUP sz = PGSIZE * ((sz + PGSIZE - 1) / PGSIZE).
Proof.
  intros H. unfold PGROUNDUP. change (Z.land ?x (Z.lnot (PGSIZE - 1))) with (PGROUNDDOWN x).
  rewrite u32_small by (unfold PGSIZE; lia). rewrite PGROUNDDOWN_sub.
  pose proof (Z.div_mod (sz + PGSIZE - 1) PGSIZE ltac:(unfold PGSIZE; lia)). lia.
Qed.

(** The number of pages that [sz] bytes take. *)
Definition npages (sz : Z) : Z := (sz + PGSIZE - 1) / PGSIZE.

Lemma roundup_pages sz : 0 <= sz <= 2 ^ 31 -> PGROUNDUP sz = PGSIZE * npages sz /\ PGROUNDUP sz / PGSIZE = npages sz /\
  PGROUNDUP sz mod PGSIZE = 0 /\ 0 <= npages sz <= UPN /\ sz <= PGROUNDUP sz < sz + PGSIZE.
Proof.
  intros H. rewrite PGROUNDUP_val by done. fold (npages sz).
  pose proof (Z.div_mod (sz + PGSIZE - 1) PGSIZE ltac:(unfold PGSIZE; lia)) as E. fold (npages sz) in E.
  pose proof (Z.mod_pos_bound (sz + PGSIZE - 1) PGSIZE ltac:(unfold PGSIZE; lia)).
  split; [done|]. split; [rewrite Z.mul_comm; apply Z.div_mul; unfold PGSIZE; lia|].
  split; [rewrite Z.mul_comm; apply Z_mod_mult|]. unfold UPN, PGSIZE in *. lia.
Qed.

Lemma below_size n sz : (n * PGSIZE <? sz) = (n <? npages sz).
Proof.
  unfold npages. pose proof (Z.div_mod (sz + PGSIZE - 1) PGSIZE ltac:(unfold PGSIZE; lia)).
  pose proof (Z.mod_pos_bound (sz + PGSIZE - 1) PGSIZE ltac:(unfold PGSIZE; lia)). unfold PGSIZE in *.
  destruct (Z.ltb_spec (n * 4096) sz), (Z.ltb_spec n ((sz + 4096 - 1) / 4096)); try done; lia.
Qed.

Lemma deallocuvm_ok F h m L A oldsz newsz : owns h L A F -> mach_ok m -> 0 <= newsz -> oldsz <= 2 ^ 31 -> newsz < oldsz ->
  exists h' m' L' A', deallocuvm kend (a_dir A) oldsz newsz h m = Ok (newsz, h', m') /\ mach_ok m' /\
    emptied (fun n => (npages newsz <=? n) && (n <? npages oldsz)) h L A F h' L' A'.
Proof.
  intros H Hm Hn Ho Hlt. unfold deallocuvm. rewrite (proj2 (Z.leb_gt _ _) Hlt).
  destruct (roundup_pages newsz ltac:(lia)) as (E1 & E2 & E3 & E4 & E5).
  pose proof (Z.div_mod oldsz PGSIZE ltac:(unfold PGSIZE; lia)) as Ed. pose proof (Z.mod_pos_bound oldsz PGSIZE ltac:(unfold PGSIZE; lia)).
  assert (0 <= oldsz / PGSIZE) by (apply Z.div_pos; unfold PGSIZE; lia).
  destruct (dealloc_loop_ok F oldsz (S (Z.to_nat (oldsz / PGSIZE)) + 1) (PGROUNDUP newsz) h m L A H Hm) as
    (h' & m' & L' & A' & -> & Hm' & He); try done; try (unfold PGSIZE in *; lia).
  exists h', m', L', A'. split; [done|]. split; [done|]. eapply (emptied_trans _ (fun _ => false)); [|exact He|].
  - intros n. cbn. by rewrite E2, below_size, orb_false_r.
  - apply emptied_nop; [apply He|done].
Qed.

(** ** freevm *)

Lemma free_tables_ok F d : forall k i h m L (tabs : gmap Z Z), 0 <= i -> i + Z.of_nat k = 1024 ->
  (forall j t, tabs !! j = Some t -> i <= j) ->
  (forall j, i <= j < 1024 -> let e := load32 (p_mem h) (d + 4 * j) in
     match tabs !! j with Some t => present e = true /\ P2V (PTE_ADDR e) = t | None => present e = false end) ->
  kmem_inv kend h L -> mach_ok m -> NoDup (L ++ d :: vals tabs ++ F) -> Forall (page_ok kend) (d :: vals tabs ++ F) ->
  (forall j t, tabs !! j = Some t -> j < 1024) ->
  exists h' m' L', free_tables kend k i d h m = Ok (h', m') /\ mach_ok m' /\ kmem_inv kend h' L' /\
    L' ≡ₚ vals tabs ++ L /\ same_on (d :: F) (p_mem h) (p_mem h').
Proof.
  induction k as [|k IH]; intros i h m L tabs Hi Hk Hlo Hent Hkm Hm Hnd Hok Hhi; cbn [free_tables].
  { exists h, m, L. split_and!; try done. assert (tabs = ∅) as ->; [|done]. apply map_empty. intros j.
    destruct (tabs !! j) as [t|] eqn:E; [|done]. pose proof (Hlo _ _ E). pose proof (Hhi _ _ E). lia. }
  pose proof (Hent i ltac:(lia)) as He. cbn zeta in He. destruct (tabs !! i) as [t|] eqn:Et.
  - destruct He as [-> ->]. pose proof (vals_delete _ _ _ Et) as Hv. rewrite Hv in Hnd, Hok. cbn [app] in Hnd, Hok.
    rewrite Permutation_swap in Hnd, Hok. apply Forall_cons in Hok as [Htok Hok].
    rewrite <- Permutation_middle in Hnd. apply NoDup_cons in Hnd as [Htn Hnd].
    destruct (kfree_push kend kend_le t h L m Hkm Hm Htok) as (h1 & m1 & -> & Hk1 & Hm1 & _ & _ & Hx); [set_solver|]. cbn [res_bind].
    assert (same_on (d :: F) (p_mem h) (p_mem h1)) as Hs.
    { apply (same_outside _ _ _ t); try done. rewrite Forall_forall in Hok. intros q Hq. split; [apply Hok; clear -Hq; set_solver|].
      intros ->. apply Htn. clear -Hq. set_solver. }
    destruct (IH (i + 1) h1 m1 (t :: L) (delete i tabs)) as (h' & m' & L' & -> & Hm' & Hk' & Hp & Hs'); try done; try lia.
    + intros j u. rewrite lookup_delete_Some. intros [Hne Hj]. pose proof (Hlo _ _ Hj). lia.
    + intros j Hj. cbn zeta. rewrite lookup_delete_ne by lia. rewrite (load32_agree (p_mem h)); [by apply Hent; lia|].
      intros x Hxj. apply (Hs d); [apply list_elem_of_here|unfold PGSIZE; lia].
    + cbn [app]. by apply NoDup_cons.
    + intros j u. rewrite lookup_delete_Some. intros [_ Hj]. by eapply Hhi.
    + exists h', m', L'. split_and!; try done; [|by etrans]. rewrite Hp, Hv. cbn [app]. by rewrite <- Permutation_middle.
  - rewrite He. cbn [res_bind]. apply IH; try done; try lia.
    + intros j u Hj. pose proof (Hlo _ _ Hj). destruct (decide (j = i)) as [->|]; [congruence|lia].
    + intros j Hj. apply Hent. lia.
Qed.

Lemma freevm_ok F h m L A : owns h L A F -> mach_ok m ->
  exists h' m' L', freevm kend (a_dir A) h m = Ok (h', m') /\ mach_ok m' /\ kmem_inv kend h' L' /\
    L' ≡ₚ L ++ pages A /\ same_on F (p_mem h) (p_mem h').
Proof.
  intros H Hm. unfold freevm. destruct (owns_page _ _ _ _ (a_dir A) H) as [Hd _]; [apply elem_of_app; left; apply dir_in|].
  pose proof (page_ok_range kend kend_le _ Hd) as Hdr. unfold KERNBASE in Hdr. rewrite (proj2 (Z.eqb_neq _ 0)) by lia.
  destruct (deallocuvm_ok F h m L A KERNBASE 0 H Hm) as (h1 & m1 & L1 & A1 & -> & Hm1 & He); [lia|unfold KERNBASE; lia|unfold KERNBASE; lia|].
  cbn [res_bind]. destruct He as [O1 P1 D1 T1 U1 _ S1]. rewrite <- D1 in *.
  assert (a_ups A1 = ∅) as E1.
  { apply map_empty. intros n. rewrite U1. destruct (a_ups A !! n) as [p|] eqn:E; [|by destruct (_ && _)].
    pose proof (ar_ups _ _ (ow_rep _ _ _ _ H) n p E) as Hn.
    rewrite (proj2 (Z.leb_le _ _)), (proj2 (Z.ltb_lt _ _)); [done|unfold UPN in Hn; change (npages KERNBASE) with 0x80000; lia|].
    change (npages 0) with 0. lia. }
  assert (pages A1 ≡ₚ a_dir A1 :: vals (a_tabs A1)) as Hpg by (unfold pages; rewrite E1; by rewrite app_nil_r).
  pose proof (ow_apart _ _ _ _ O1) as Hap. pose proof (ow_ok _ _ _ _ O1) as Hok. rewrite Hpg in Hap, Hok.
  destruct (free_tables_ok F (a_dir A1) NPDENTRIES 0 h1 m1 L1 (a_tabs A1)) as (h2 & m2 & L2 & -> & Hm2 & Hk2 & HL2 & S2); try done.
  - intros j t Hj. by apply (ar_tabs _ _ (ow_rep _ _ _ _ O1) _ _ Hj).
  - intros j Hj. apply (ar_dir _ _ (ow_rep _ _ _ _ O1)). lia.
  - apply (ow_kmem _ _ _ _ O1).
  - intros j t Hj. by apply (ar_tabs _ _ (ow_rep _ _ _ _ O1) _ _ Hj).
  - cbn [res_bind]. assert (L2 ++ a_dir A1 :: F ≡ₚ L1 ++ (a_dir A1 :: vals (a_tabs A1)) ++ F) as Hall.
    { rewrite HL2. rewrite <- !app_assoc. rewrite !(Permutation_app_comm (vals (a_tabs A1))). cbn [app]. rewrite <- !app_assoc.
      apply Permutation_app_head. cbn [app]. apply perm_skip. by rewrite Permutation_app_comm. }
    rewrite <- Hall in Hap.
    destruct (kfree_push kend kend_le (a_dir A1) h2 L2 m2 Hk2 Hm2 Hd) as (h3 & m3 & -> & Hk3 & Hm3 & _ & _ & Hx).
    { apply (apart_free L2 (a_dir A1 :: F)); [done|apply list_elem_of_here]. }
    exists h3, m3, (a_dir A1 :: L2). split; [done|]. split; [done|]. split; [done|]. split.
    + rewrite <- P1, Hpg, HL2. rewrite <- Permutation_middle. apply perm_skip. by rewrite Permutation_app_comm.
    + etrans; [eapply same_on_sub, S1; clear; set_solver|]. etrans; [eapply same_on_sub, S2; clear; set_solver|].
      apply (same_outside _ _ _ (a_dir A1)); try done. intros q Hq. apply Forall_app in Hok as [_ Hok]. rewrite Forall_forall in Hok.
      split; [by apply Hok|]. intros ->. apply NoDup_app in Hap as (_ & _ & Hap). apply NoDup_cons in Hap as [Hap _]. done.
Qed.

End Spaces.
#[global] Arguments owns : clear implicits.
#[global] Arguments emptied : clear implicits.
