(* ===== verification/SpaceOps.v ===== *)
(** What [mappages], [allocuvm], [setupkvm] and [copyuvm] of [vm.c] do to an
    address space, its pages and the free list: the second half of the theory
    that starts in [AddrSpace]. *)

From stdpp Require Import gmap.
From S2P Require Import Prelude CString Spinlock Kalloc Proc Demo Vm VmFacts AddrSpace.

Section SpaceOps.
Import Kalloc Vm.
Context {kend : Z} {Hkend : kend_above kend}.
Implicit Types (h : phys) (m : machine) (L F : list Z) (A : aspace) (n : Z).
#[local] Abbreviation owns := (owns kend).
#[local] Abbreviation emptied := (emptied kend).

(** ** mappages *)

Lemma mappages_pages d n k pa perm h m : 0 <= n -> (0 < k)%nat -> n + Z.of_nat k <= 2 ^ 20 ->
  mappages d (PGSIZE * n) (PGSIZE * Z.of_nat k) pa perm h m = map_loop k d (PGSIZE * n) (PGSIZE * (n + Z.of_nat k - 1)) pa perm h m.
Proof.
  intros Hn Hk Hb. unfold mappages, PGSIZE. set (z := Z.of_nat k) in *. assert (1 <= z) by (unfold z; lia).
  assert (forall q r, 0 <= r < 4096 -> PGROUNDDOWN (4096 * q + r) = 4096 * q) as Hr.
  { intros q r Hr. rewrite PGROUNDDOWN_sub. unfold PGSIZE. rewrite (Z.mul_comm 4096), Z.add_comm, Z_mod_plus_full, Z.mod_small by done. lia. }
  assert (PGROUNDDOWN (4096 * n) = 4096 * n) as -> by (rewrite <- (Z.add_0_r (4096 * n)) at 1; apply Hr; lia).
  rewrite (u32_small (4096 * n + _ - 1)) by lia. replace (4096 * n + 4096 * z - 1) with (4096 * (n + z - 1) + 4095) by lia.
  rewrite (Hr _ 4095) by lia. replace (4096 * (n + z - 1) - 4096 * n) with ((z - 1) * 4096) by lia.
  rewrite u32_small by lia. rewrite Z.div_mul by lia.
  f_equal; unfold z in *; lia.
Qed.

(** The state after a walk and a write, for the kernel's part. *)
Lemma map_loop_kernel F k : forall fuel n pa perm h m L A, owns h L A F -> mach_ok m -> (0 < k <= fuel)%nat -> UPN <= n ->
  n + Z.of_nat k <= 2 ^ 20 -> 0 <= pa -> pa + PGSIZE * Z.of_nat k <= 2 ^ 32 -> 0 <= perm < PGSIZE ->
  (forall j, n <= j < n + Z.of_nat k -> present (pte (p_mem h) A j) = false) ->
  exists r h' m' L' A', map_loop fuel (a_dir A) (PGSIZE * n) (PGSIZE * (n + Z.of_nat k - 1)) pa perm h m = Ok (r, h', m') /\
    mach_ok m' /\ owns h' L' A' F /\ L' ++ pages A' ≡ₚ L ++ pages A /\ a_dir A' = a_dir A /\ a_ups A' = a_ups A /\
    (r = 0 \/ r = -1 /\ L' = []) /\ same_on (vals (a_ups A) ++ F) (p_mem h) (p_mem h') /\
    (forall j, j < n \/ n + Z.of_nat k <= j -> pte (p_mem h') A' j = pte (p_mem h) A j) /\
    (r = 0 -> forall j, 0 <= j < Z.of_nat k -> pte (p_mem h') A' (n + j) = pte_val (pa + PGSIZE * j) perm).
Proof.
  induction k as [|k IH]; intros [|fuel] n pa perm h m L A H Hm Hf Hn Hb Hpa Hpe Hperm Hnew; try lia. cbn [map_loop].
  assert (0 <= PGSIZE * n < 2 ^ 32) as Hva by (unfold PGSIZE, UPN in *; lia).
  assert (PGSIZE * n / PGSIZE = n) as Hdv by (rewrite Z.mul_comm; apply Z.div_mul; unfold PGSIZE; lia).
  destruct (walk_true h m L A F (PGSIZE * n) H Hm Hva) as (a & h1 & m1 & L1 & A1 & -> & Hm1 & O1 & P1 & D1 & U1 & S1 & E1 & Hc).
  cbn [res_bind]. destruct Hc as [(t & Ht & ->)|[-> ->]].
  2: { cbn [Z.eqb]. exists (-1), h1, m1, [], A1. split_and!; try done. by right. }
  rewrite (proj2 (Z.eqb_neq _ 0)) by (by eapply slot_pos). rewrite (load_slot _ A1), E1, Hdv, Hnew by (done || lia).
  unfold slot. rewrite Hdv in Ht |- *. fold (pte_val pa perm).
  assert (0 <= pte_val pa perm < 2 ^ 32) as Hv by (apply pte_val_range; unfold PGSIZE in *; lia).
  destruct (enter_kernel h1 L1 A1 F n t (pte_val pa perm) O1 Ht Hv Hn) as (O2 & Ev & Eo & S2). set (h2 := mkPhys _ _) in *.
  rewrite U1 in S2. assert (same_on (vals (a_ups A) ++ F) (p_mem h) (p_mem h2)) as S12 by (by etrans).
  destruct k as [|k].
  { replace (PGSIZE * (n + Z.of_nat 1 - 1)) with (PGSIZE * n) by lia. rewrite Z.eqb_refl. exists 0, h2, m1, L1, A1.
    split_and!; try done; [by left| |]; [intros j Hj; rewrite Eo by lia; apply E1|].
    intros _ j Hj. replace j with 0 by lia. by rewrite Z.add_0_r, Z.mul_0_r, Z.add_0_r. }
  rewrite (proj2 (Z.eqb_neq _ _)) by (unfold PGSIZE; lia). rewrite !u32_small by (unfold PGSIZE, UPN in *; lia).
  replace (PGSIZE * n + PGSIZE) with (PGSIZE * (n + 1)) by lia.
  replace (n + Z.of_nat (S (S k)) - 1) with (n + 1 + Z.of_nat (S k) - 1) by lia. rewrite <- D1.
  destruct (IH fuel (n + 1) (pa + PGSIZE) perm h2 m1 L1 A1 O2 Hm1) as (r & h' & m' & L' & A' & -> & Hm' & O' & P' & D' & U' & Hr & S' & E' & V');
    try done; try lia; try (unfold PGSIZE in *; lia).
  { intros j Hj. rewrite Eo by lia. rewrite E1. apply Hnew. lia. }
  exists r, h', m', L', A'. split_and!; try done; try congruence.
  - by etrans.
  - etrans; [exact S12|]. by rewrite U1 in S'.
  - intros j Hj. rewrite E', Eo by lia. apply E1.
  - intros Hr0 j Hj. destruct (Z.eq_dec j 0) as [->|]; [by rewrite Z.add_0_r, Z.mul_0_r, Z.add_0_r, E' by lia|].
    replace (n + j) with (n + 1 + (j - 1)) by lia. rewrite V' by (done || lia). f_equal. lia.
Qed.

Lemma pte_val_aligned pa perm : pa mod PGSIZE = 0 -> 0 <= perm < PGSIZE -> pte_val pa perm = pa + Z.lor perm PTE_P /\ 0 <= Z.lor perm PTE_P < PGSIZE.
Proof.
  intros Hpa Hp. assert (0 <= Z.lor perm PTE_P < PGSIZE) as Hb.
  { unfold PGSIZE, PTE_P in *. split; [apply Z.lor_nonneg; lia|]. destruct (Z.eq_dec (Z.lor perm 1) 0) as [->|]; [lia|].
    assert (0 <= Z.lor perm 1) by (apply Z.lor_nonneg; lia). change 4096 with (2 ^ 12). apply Z.log2_lt_pow2; [lia|].
    rewrite Z.log2_lor by lia. apply Z.max_lub_lt; [|done]. destruct (Z.eq_dec perm 0) as [->|]; [done|]. apply Z.log2_lt_pow2; lia. }
  split; [|done]. unfold pte_val. rewrite <- Z.lor_assoc. by apply lor_aligned.
Qed.

Lemma pte_val_addr pa perm : pa mod PGSIZE = 0 -> 0 <= perm < PGSIZE -> PTE_ADDR (pte_val pa perm) = pa.
Proof.
  intros Hpa Hp. destruct (pte_val_aligned pa perm Hpa Hp) as [-> Hb]. rewrite PTE_ADDR_sub.
  rewrite <- Zplus_mod_idemp_l, Hpa, Z.add_0_l, Z.mod_small by done. lia.
Qed.

(** A page of the frame is mapped at user page [n], or memory ran out. *)
Lemma map_user F h m L A n p perm : owns h L A (p :: F) -> mach_ok m -> 0 <= n < UPN -> 0 <= perm < PGSIZE -> a_ups A !! n = None ->
  exists r h' m' L' A', mappages (a_dir A) (PGSIZE * n) PGSIZE (V2P p) perm h m = Ok (r, h', m') /\ mach_ok m' /\
    a_dir A' = a_dir A /\ same_on (vals (a_ups A) ++ p :: F) (p_mem h) (p_mem h') /\
    (forall n', n' <> n -> pte (p_mem h') A' n' = pte (p_mem h) A n') /\
    (r = 0 /\ owns h' L' A' F /\ L' ++ pages A' ≡ₚ p :: L ++ pages A /\ a_ups A' = <[n := p]> (a_ups A) /\
       pte (p_mem h') A' n = pte_val (V2P p) perm \/
     r = -1 /\ L' = [] /\ owns h' L' A' (p :: F) /\ L' ++ pages A' ≡ₚ L ++ pages A /\ a_ups A' = a_ups A).
Proof.
  intros H Hm Hn Hperm Hup. pose proof (mappages_pages (a_dir A) n 1 (V2P p) perm h m) as Em.
  change (PGSIZE * Z.of_nat 1) with PGSIZE in Em. rewrite Em by (unfold UPN in *; lia). clear Em.
  replace (n + Z.of_nat 1 - 1) with n by lia. cbn [map_loop].
  assert (0 <= PGSIZE * n < 2 ^ 32) as Hva by (unfold PGSIZE, UPN in *; lia).
  assert (PGSIZE * n / PGSIZE = n) as Hdv by (rewrite Z.mul_comm; apply Z.div_mul; unfold PGSIZE; lia).
  destruct (walk_true h m L A (p :: F) (PGSIZE * n) H Hm Hva) as (a & h1 & m1 & L1 & A1 & -> & Hm1 & O1 & P1 & D1 & U1 & S1 & E1 & Hc).
  cbn [res_bind]. destruct Hc as [(t & Ht & ->)|[-> ->]].
  2: { cbn [Z.eqb]. exists (-1), h1, m1, [], A1. split_and!; try done. by right. }
  pose proof (ar_user _ _ (ow_rep _ _ _ _ H) n Hn) as Hnp. rewrite Hup in Hnp.
  rewrite (proj2 (Z.eqb_neq _ 0)) by (by eapply slot_pos). rewrite (load_slot _ A1), E1, Hdv, Hnp by (done || lia).
  unfold slot. rewrite Hdv in Ht |- *. fold (pte_val (V2P p) perm). rewrite Z.eqb_refl.
  destruct (owns_page _ _ _ _ p H) as [Hpok _]; [apply elem_of_app; right; apply list_elem_of_here|].
  destruct (page_ok_V2P kend kend_le p Hpok) as [Hal Hpr].
  assert (0 <= pte_val (V2P p) perm < 2 ^ 32) as Hv by (apply pte_val_range; unfold PHYSTOP, PGSIZE in *; lia).
  destruct (enter_user h1 L1 A1 F n t (pte_val (V2P p) perm) p O1 Ht Hv Hn) as (O2 & P2 & Ev & Eo & S2); [by rewrite E1|apply present_lor| |].
  { rewrite pte_val_addr by done. by apply (page_ok_P2V kend kend_le). }
  set (h2 := mkPhys _ _) in *. exists 0, h2, m1, L1, (add_page n p A1). split; [done|]. split; [done|]. split; [done|].
  split; [etrans; [done|]; by rewrite U1 in S2|]. split; [intros n' Hne; rewrite Eo by done; apply E1|]. left.
  split; [done|]. split; [done|]. split; [by rewrite P2, P1|]. split; [cbn; by rewrite U1|done].
Qed.

(** ** How many pages *)

Lemma range_size (f : gmap Z Z) lo hi : lo <= hi -> (forall k v, f !! k = Some v -> lo <= k < hi) -> Z.of_nat (length (vals f)) <= hi - lo.
Proof.
  intros Hle Hk. unfold vals. rewrite length_fmap. rewrite <- (length_fmap fst). assert (NoDup (map_to_list f).*1) as Hnd by apply NoDup_fst_map_to_list.
  replace (hi - lo) with (Z.of_nat (length (seqZ lo (hi - lo)))) by (rewrite length_seqZ; lia). apply inj_le, submseteq_length, NoDup_submseteq; [done|].
  intros k Hin. apply list_elem_of_fmap in Hin as ([k' v] & -> & Hin). apply elem_of_map_to_list in Hin. apply elem_of_seqZ. specialize (Hk _ _ Hin). cbn. lia.
Qed.

Lemma tabs_size mm A : as_rep mm A -> Z.of_nat (length (vals (a_tabs A))) <= 1024.
Proof. intros H. pose proof (range_size (a_tabs A) 0 1024 ltac:(lia) (ar_tabs _ _ H)). lia. Qed.

Lemma pages_length A : length (pages A) = S (length (vals (a_tabs A)) + length (vals (a_ups A))).
Proof. unfold pages. cbn. by rewrite length_app. Qed.

(** ** allocuvm *)

Lemma ups_pages A F : vals (a_ups A) ++ F ⊆ pages A ++ F.
Proof. unfold pages. set_solver. Qed.
Lemma ups_cons (l : list Z) q F : l ++ F ⊆ l ++ q :: F.
Proof. set_solver. Qed.
Lemma mid_in (l : list Z) q F : q ∈ l ++ q :: F.
Proof. set_solver. Qed.

Definition zeroed (mm : mem) (p : Z) : Prop := forall x, p <= x < p + PGSIZE -> mm x = 0.

(** Every page number with [P] has a new page, zero and writable by the user;
    nothing else changes. *)
Record filled (P : Z -> bool) h L A F h' L' A' : Prop := {
  fi_owns : owns h' L' A' F;
  fi_perm : L' ++ pages A' ≡ₚ L ++ pages A;
  fi_dir : a_dir A' = a_dir A;
  fi_new n : P n = true -> exists p, a_ups A' !! n = Some p /\ zeroed (p_mem h') p /\ pte (p_mem h') A' n = pte_val (V2P p) (Z.lor PTE_W PTE_U);
  fi_old n : P n = false -> a_ups A' !! n = a_ups A !! n /\ pte (p_mem h') A' n = pte (p_mem h) A n;
  fi_same : same_on (vals (a_ups A) ++ F) (p_mem h) (p_mem h')
}.

(** No page number with [P] has a page, nothing else changes. *)
Record cut (P : Z -> bool) h L A F h' L' A' : Prop := {
  cu_owns : owns h' L' A' F;
  cu_perm : L' ++ pages A' ≡ₚ L ++ pages A;
  cu_dir : a_dir A' = a_dir A;
  cu_ups n : a_ups A' !! n = if P n then None else a_ups A !! n;
  cu_pte n : P n = false -> pte (p_mem h') A' n = pte (p_mem h) A n;
  cu_same : same_on (vals (a_ups A') ++ F) (p_mem h) (p_mem h')
}.

Lemma emptied_cut P h L A F h' L' A' : emptied P h L A F h' L' A' -> cut P h L A F h' L' A'.
Proof. intros []. by split. Qed.

(** A page taken from the free list and zeroed. *)
Lemma zero_frame h m q L A F : owns h (q :: L) A F -> mach_ok m ->
  exists h1 m1, kalloc h m = Ok (q, h1, m1) /\ mach_ok m1 /\ q <> 0 /\
    let h2 := mkPhys (Kstring.memset (p_mem h1) q 0 PGSIZE).1 (p_kmem h1) in
    owns h2 L A (q :: F) /\ zeroed (p_mem h2) q /\ same_on (pages A ++ F) (p_mem h) (p_mem h2).
Proof.
  intros H Hm. destruct (kalloc_frame h m _ A F H Hm) as (p & h1 & m1 & E & Hm1 & Hmem & -> & Hq & Ho). exists h1, m1.
  split; [done|]. split; [done|]. split; [done|]. intros h2.
  assert (forall x, p_mem h2 x = if (q <=? x) && (x <? q + 4096) then 0 else p_mem h1 x) as Hfill.
  { intros x. unfold h2. cbn. unfold PGSIZE. rewrite memset_fill by lia. done. }
  destruct (frame_write h1 L A F q (p_mem h2) Ho) as [Ho2 Hs].
  - intros x. rewrite Hfill. destruct (_ && _); [lia|]. apply (ki_bytes _ _ _ (ow_kmem _ _ _ _ Ho)).
  - intros x Hx. rewrite Hfill. unfold PGSIZE in Hx. destruct (Z.leb_spec q x), (Z.ltb_spec x (q + 4096)); try done. lia.
  - rewrite Hmem in Hs. split; [done|]. split; [|done]. intros x Hx. rewrite Hfill. unfold PGSIZE in Hx.
    by rewrite (proj2 (Z.leb_le _ _)), (proj2 (Z.ltb_lt _ _)) by lia.
Qed.

(** The first page of a range, then the rest. *)
Lemma filled_step F n hi h L A h1 L1 A1 q h' L' A' : n < hi ->
  owns h1 L1 A1 F -> L1 ++ pages A1 ≡ₚ L ++ pages A -> a_dir A1 = a_dir A -> a_ups A !! n = None -> a_ups A1 = <[n := q]> (a_ups A) ->
  zeroed (p_mem h1) q -> pte (p_mem h1) A1 n = pte_val (V2P q) (Z.lor PTE_W PTE_U) ->
  (forall k, k <> n -> pte (p_mem h1) A1 k = pte (p_mem h) A k) -> same_on (vals (a_ups A) ++ F) (p_mem h) (p_mem h1) ->
  filled (fun k => (n + 1 <=? k) && (k <? hi)) h1 L1 A1 F h' L' A' -> filled (fun k => (n <=? k) && (k <? hi)) h L A F h' L' A'.
Proof.
  intros Hn O1 P1 D1 Hnone U1 Z1 E1 E2 S1 [O' P' D' N' Old' S']. rewrite U1 in S'.
  assert (vals (<[n := q]> (a_ups A)) ≡ₚ q :: vals (a_ups A)) as Hv by (by apply vals_insert).
  split; try done; [by rewrite P'|by rewrite D'| | |].
  - intros k. destruct (Z.eq_dec k n) as [->|Hne].
    + intros _. destruct (Old' n) as [Hu He]; [apply andb_false_iff; left; apply Z.leb_gt; lia|]. rewrite U1, lookup_insert_eq in Hu.
      exists q. split; [done|]. split; [|by rewrite He]. intros x Hx. rewrite (S' q); [by apply Z1| |done]. rewrite Hv. set_solver.
    + intros Hk. apply N'. rewrite <- Hk. f_equal. destruct (Z.leb_spec (n + 1) k), (Z.leb_spec n k); try done; lia.
  - intros k Hk. assert (k <> n) as Hne.
    { intros ->. rewrite (proj2 (Z.leb_le _ _)), (proj2 (Z.ltb_lt _ _)) in Hk by lia. done. }
    destruct (Old' k) as [Hu He]; [|rewrite Hu, He, U1, lookup_insert_ne by done; split; [done|by apply E2]].
    rewrite <- Hk. f_equal. destruct (Z.leb_spec (n + 1) k), (Z.leb_spec n k); try done; lia.
  - etrans; [exact S1|]. eapply same_on_sub, S'. rewrite Hv. set_solver.
Qed.

(** Pages that were added and taken away again. *)
Lemma cut_step P F n h L A h1 L1 A1 q h' L' A' : P n = true -> a_ups A !! n = None -> a_ups A1 = <[n := q]> (a_ups A) \/ a_ups A1 = a_ups A ->
  L1 ++ pages A1 ≡ₚ L ++ pages A -> a_dir A1 = a_dir A ->
  (forall k, k <> n -> pte (p_mem h1) A1 k = pte (p_mem h) A k) -> same_on (vals (a_ups A) ++ F) (p_mem h) (p_mem h1) ->
  cut P h1 L1 A1 F h' L' A' -> cut P h L A F h' L' A'.
Proof.
  intros Hn Hnone U1 P1 D1 E1 S1 [O' P' D' U' E' S']. assert (forall k, a_ups A' !! k = if P k then None else a_ups A !! k) as Hu.
  { intros k. rewrite U'. destruct (P k) eqn:Hk; [done|]. destruct U1 as [->| ->]; [|done]. rewrite lookup_insert_ne; [done|]. intros ->. congruence. }
  split; try done; [by rewrite P'|by rewrite D'| |].
  - intros k Hk. rewrite E' by done. apply E1. intros ->. congruence.
  - etrans; [|exact S']. eapply same_on_sub, S1. assert (vals (a_ups A') ⊆ vals (a_ups A)) as Hsub; [|clear -Hsub; set_solver].
    apply vals_sub, map_subseteq_spec. intros k p. rewrite Hu. by destruct (P k).
Qed.

(** [allocuvm] gives back what it took: no page for the table. *)
Lemma alloc_undo F P h q L A h1 m1 L1 A1 oldsz newsz : owns h1 L1 A1 (q :: F) -> mach_ok m1 -> 0 <= oldsz < newsz -> newsz <= 2 ^ 31 ->
  L1 ++ pages A1 ≡ₚ L ++ pages A -> a_dir A1 = a_dir A -> a_ups A1 = a_ups A ->
  (forall k, P k = false -> pte (p_mem h1) A1 k = pte (p_mem h) A k) -> same_on (vals (a_ups A) ++ F) (p_mem h) (p_mem h1) ->
  (forall k, P k = (npages oldsz <=? k) && (k <? npages newsz)) ->
  exists h' m' L' A', (let? (_, h, m) := deallocuvm kend (a_dir A) newsz oldsz h1 m1 in let? (h, m) := kfree kend q h m in Ok (0, h, m)) = Ok (0, h', m') /\
    mach_ok m' /\ cut P h (q :: L) A F h' L' A'.
Proof.
  intros O1 Hm1 Hsz Hb P1 D1 U1 E1 S1 HP. rewrite <- D1.
  destruct (deallocuvm_ok (q :: F) h1 m1 L1 A1 newsz oldsz O1 Hm1) as (h2 & m2 & L2 & A2 & -> & Hm2 & [O2 P2 D2 T2 U2 E2 S2]); [lia..|].
  cbn [res_bind]. destruct (kfree_frame h2 m2 L2 A2 F q O2 Hm2) as (h3 & m3 & -> & Hm3 & O3 & S3). cbn [res_bind].
  exists h3, m3, (q :: L2), A2. split; [done|]. split; [done|]. split; try done.
  - cbn [app]. by rewrite P2, P1.
  - congruence.
  - intros k. by rewrite U2, U1, HP.
  - intros k Hk. rewrite <- E1 by done. rewrite <- E2 by (by rewrite <- HP). apply pte_agree; [apply O2|]. intros i u Hu.
    eapply same_on_sub, S3. intros p ->%list_elem_of_singleton. apply elem_of_app. left. by eapply tab_in.
  - assert (vals (a_ups A2) ⊆ vals (a_ups A)) as Hsub.
    { rewrite <- U1. apply vals_sub, map_subseteq_spec. intros k p. rewrite U2. by destruct (_ && _). }
    etrans; [eapply same_on_sub, S1; clear -Hsub; set_solver|]. etrans; [eapply same_on_sub, S2; apply ups_cons|].
    eapply same_on_sub, S3. apply ups_pages.
Qed.

Lemma alloc_loop_ok F oldsz newsz : 0 <= oldsz -> newsz < 2 ^ 31 -> forall fuel n h m L A, owns h L A F -> mach_ok m ->
  npages oldsz <= n -> (0 < fuel)%nat -> npages newsz - n <= Z.of_nat fuel - 1 ->
  (forall k, n <= k < npages newsz -> a_ups A !! k = None) ->
  exists r h' m' L' A', alloc_loop kend fuel (a_dir A) (PGSIZE * n) oldsz newsz h m = Ok (r, h', m') /\ mach_ok m' /\
    (r = newsz /\ filled (fun k => (n <=? k) && (k <? npages newsz)) h L A F h' L' A' \/
     r = 0 /\ Z.of_nat (length L + length (vals (a_tabs A))) <= 1025 + (npages newsz - n) /\
       cut (fun k => (npages oldsz <=? k) && (k <? npages newsz)) h L A F h' L' A').
Proof.
  intros Ho Hnw. induction fuel as [|fuel IH]; intros n h m L A H Hm Hn Hf0 Hf Hnone; [lia|]. cbn [alloc_loop].
  rewrite (Z.mul_comm PGSIZE n), below_size. set (P := fun k => (npages oldsz <=? k) && (k <? npages newsz)). destruct (Z.ltb_spec n (npages newsz)) as [Hlt|Hge].
  2: { exists newsz, h, m, L, A. split; [done|]. split; [done|]. left. split; [done|]. split; try done.
       intros k. rewrite andb_true_iff, Z.leb_le, Z.ltb_lt. lia. }
  assert (0 <= npages oldsz) as Hno by (apply Z.div_pos; unfold PGSIZE; lia).
  assert (0 <= oldsz < newsz) as Hsz.
  { split; [done|]. destruct (Z.lt_ge_cases oldsz newsz) as [|Hge]; [done|]. exfalso.
    assert (npages newsz <= npages oldsz) by (apply Z.div_le_mono; unfold PGSIZE; lia). lia. }
  assert (0 <= n < UPN) as Hnu by (destruct (roundup_pages newsz) as (_ & _ & _ & Hu & _); lia).
  assert (P n = true) as HPn by (unfold P; by rewrite (proj2 (Z.leb_le _ _)), (proj2 (Z.ltb_lt _ _)) by lia).
  destruct L as [|q L].
  { destruct (kalloc_frame h m _ A F H Hm) as (p & h1 & m1 & -> & Hm1 & Hmem & -> & H1). cbn [res_bind Z.eqb].
    destruct (deallocuvm_ok F h1 m1 [] A newsz oldsz H1 Hm1) as (h2 & m2 & L2 & A2 & -> & Hm2 & [O2 P2 D2 T2 U2 E2 S2]); [lia..|].
    exists 0, h2, m2, L2, A2. split; [done|]. split; [done|]. right. split; [done|].
    pose proof (tabs_size _ _ (ow_rep _ _ _ _ H)). split; [cbn; lia|]. rewrite Hmem in *. by split. }
  destruct (zero_frame h m q L A F H Hm) as (h1 & m1 & -> & Hm1 & Hq & O1 & Z1 & S1). cbn [res_bind].
  rewrite (proj2 (Z.eqb_neq _ _) Hq), (Z.mul_comm n). set (h2 := mkPhys _ _) in *.
  destruct (map_user F h2 m1 L A n q (Z.lor PTE_W PTE_U) O1 Hm1 Hnu) as (r & h3 & m3 & L3 & A3 & -> & Hm3 & D3 & S3 & E3 & Hc); [done|apply Hnone; lia|].
  cbn [res_bind]. assert (same_on (vals (a_ups A) ++ F) (p_mem h) (p_mem h3)) as S13.
  { etrans; [eapply same_on_sub, S1; apply ups_pages|eapply same_on_sub, S3; apply ups_cons]. }
  assert (forall k, pte (p_mem h2) A k = pte (p_mem h) A k) as E2.
  { intros k. apply pte_agree; [apply H|]. intros i u Hu. eapply same_on_sub, S1. intros p ->%list_elem_of_singleton.
    apply elem_of_app. left. by eapply tab_in. }
  assert (forall k, k <> n -> pte (p_mem h3) A3 k = pte (p_mem h) A k) as E23 by (intros k Hk; rewrite E3 by done; apply E2).
  destruct Hc as [(-> & O3 & P3 & U3 & En)|(-> & HL3 & O3 & P3 & U3)].
  2: { cbn [Z.ltb]. destruct (alloc_undo F P h q L A h3 m3 L3 A3 oldsz newsz O3 Hm3 Hsz) as (h' & m' & L' & A' & -> & Hm' & Hcut); try done; try lia.
       { intros k Hk. apply E23. intros ->. congruence. }
       exists 0, h', m', L', A'. split; [done|]. split; [done|]. right. split; [done|]. split; [|done].
       pose proof (tabs_size _ _ (ow_rep _ _ _ _ O3)). apply Permutation_length in P3. subst L3. rewrite !length_app, !pages_length, U3 in P3. cbn in *. lia. }
  cbn [Z.ltb]. rewrite u32_small by (unfold PGSIZE, UPN in *; lia). replace (PGSIZE * n + PGSIZE) with (PGSIZE * (n + 1)) by lia. rewrite <- D3.
  destruct (IH (n + 1) h3 m3 L3 A3 O3 Hm3) as (r & h' & m' & L' & A' & -> & Hm' & Hr); [lia..| |].
  { intros k Hk. rewrite U3, lookup_insert_ne by lia. apply Hnone. lia. }
  exists r, h', m', L', A'. split; [done|]. split; [done|]. destruct Hr as [[-> Hr]|(-> & Hsh & Hr)]; [left|right]; (split; [done|]).
  - eapply (filled_step F n _ h (q :: L) A h3 L3 A3 q); try done; [apply Hnone; lia|]. intros x Hx. rewrite (S3 q); [by apply Z1|apply mid_in|done].
  - split; [|eapply (cut_step _ F n h (q :: L) A h3 L3 A3 q); try done; [apply Hnone; lia|by left]].
    apply Permutation_length in P3. cbn in P3. rewrite !length_app, !pages_length, U3 in P3.
    assert (vals (<[n := q]> (a_ups A)) ≡ₚ q :: vals (a_ups A)) as Hv by (apply vals_insert, Hnone; lia). rewrite Hv in P3. cbn in *. lia.
Qed.

Lemma allocuvm_ok F h m L A oldsz newsz : owns h L A F -> mach_ok m -> 0 <= oldsz <= newsz -> newsz < KERNBASE ->
  (forall k, npages oldsz <= k < npages newsz -> a_ups A !! k = None) ->
  exists r h' m' L' A', allocuvm kend (a_dir A) oldsz newsz h m = Ok (r, h', m') /\ mach_ok m' /\
    (r = newsz /\ filled (fun k => (npages oldsz <=? k) && (k <? npages newsz)) h L A F h' L' A' \/
     r = 0 /\ Z.of_nat (length L) <= 1025 + (npages newsz - npages oldsz) /\ a_ups A' = a_ups A /\ cut (fun k => (npages oldsz <=? k) && (k <? npages newsz)) h L A F h' L' A').
Proof.
  intros H Hm Ho Hk Hnone. unfold allocuvm. unfold KERNBASE in Hk |- *. rewrite (proj2 (Z.leb_gt _ _)), (proj2 (Z.ltb_ge _ _)) by lia.
  destruct (roundup_pages oldsz ltac:(lia)) as (-> & _ & _ & E4 & E5).
  assert (npages newsz <= newsz / PGSIZE + 1) as Hle.
  { unfold npages. replace (newsz + PGSIZE - 1) with (newsz - 1 + 1 * PGSIZE) by lia. rewrite Z.div_add by (unfold PGSIZE; lia).
    assert ((newsz - 1) / PGSIZE <= newsz / PGSIZE) by (apply Z.div_le_mono; unfold PGSIZE; lia). lia. }
  assert (0 <= newsz / PGSIZE) by (apply Z.div_pos; unfold PGSIZE; lia).
  destruct (alloc_loop_ok F oldsz newsz ltac:(lia) ltac:(lia) (S (Z.to_nat (newsz / PGSIZE)) + 1) (npages oldsz) h m L A H Hm)
    as (r & h' & m' & L' & A' & -> & Hm' & Hr); [lia..|done|].
  exists r, h', m', L', A'. split; [done|]. split; [done|]. destruct Hr as [Hr|(-> & Hsh & Hr)]; [by left|right]. split; [done|]. split; [lia|]. split; [|done].
  apply map_eq. intros k. rewrite (cu_ups _ _ _ _ _ _ _ _ Hr). destruct (_ && _) eqn:Hk'; [|done].
  rewrite andb_true_iff, Z.leb_le, Z.ltb_lt in Hk'. by rewrite Hnone.
Qed.

(** ** setupkvm *)

(** The entries of the table from page [lo] on, in order and apart. *)
Fixpoint ranges (lo : Z) (l : list kmap_entry) : Prop :=
  match l with
  | [] => True
  | e :: l' => exists n k, virt e = PGSIZE * n /\ u32 (phys_end e - phys_start e) = PGSIZE * k /\ lo <= n /\ 0 < k /\
      n + k <= 2 ^ 20 /\ 0 <= phys_start e /\ phys_start e + PGSIZE * k <= 2 ^ 32 /\ 0 <= km_perm e < PGSIZE /\ ranges (n + k) l'
  end.

Lemma ranges_low l e : forall lo, ranges lo l -> e ∈ l -> lo <= virt e / PGSIZE.
Proof.
  induction l as [|f l IH]; intros lo Hr He; [by apply not_elem_of_nil in He|].
  destruct Hr as (n & k & Ev & _ & Hn & Hk & _ & _ & _ & _ & Hr). apply elem_of_cons in He as [->|He].
  - rewrite Ev, Z.mul_comm, Z.div_mul by (unfold PGSIZE; lia). done.
  - specialize (IH (n + k) Hr He). lia.
Qed.

(** The address space maps what the entry says. *)
Definition entered mm A (e : kmap_entry) : Prop :=
  forall i, 0 <= i -> PGSIZE * i < u32 (phys_end e - phys_start e) ->
    pte mm A (virt e / PGSIZE + i) = pte_val (phys_start e + PGSIZE * i) (km_perm e).

Lemma map_kernel_ok F l : forall lo h m L A, owns h L A F -> mach_ok m -> UPN <= lo -> ranges lo l ->
  (forall j, lo <= j -> present (pte (p_mem h) A j) = false) ->
  exists (b : bool) h' m' L' A', map_kernel l (a_dir A) h m = Ok (b, h', m') /\ mach_ok m' /\ owns h' L' A' F /\
    L' ++ pages A' ≡ₚ L ++ pages A /\ a_dir A' = a_dir A /\ a_ups A' = a_ups A /\ same_on (vals (a_ups A) ++ F) (p_mem h) (p_mem h') /\
    (forall j, j < lo -> pte (p_mem h') A' j = pte (p_mem h) A j) /\ (b = true -> Forall (entered (p_mem h') A') l) /\
    (b = false -> L' = []).
Proof.
  induction l as [|e l IH]; intros lo h m L A H Hm Hlo Hr Hnew; cbn [map_kernel ranges] in *.
  { exists true, h, m, L, A. by split_and!. }
  destruct Hr as (n & z & Ev & Es & Hn & Hk & Hb & Hp & Hpe & Hperm & Hr).
  destruct (Z_of_nat_complete z ltac:(lia)) as [k ->]. rewrite Ev, Es, mappages_pages by (unfold UPN in *; lia).
  destruct (map_loop_kernel F k k n (phys_start e) (km_perm e) h m L A H Hm) as (r & h1 & m1 & L1 & A1 & -> & Hm1 & O1 & P1 & D1 & U1 & Hr1 & S1 & E1 & V1);
    try done; try lia; [intros j Hj; apply Hnew; lia|]. cbn [res_bind].
  destruct Hr1 as [->|[-> ->]]; cbn [Z.ltb]; [|by exists false, h1, m1, [], A1; split_and!; try done; intros j Hj; apply E1; lia].
  rewrite <- D1. destruct (IH (n + Z.of_nat k) h1 m1 L1 A1 O1 Hm1) as (b & h' & m' & L' & A' & -> & Hm' & O' & P' & D' & U' & S' & E' & V' & N');
    [lia|done|intros j Hj; rewrite E1 by lia; apply Hnew; lia|].
  exists b, h', m', L', A'. split_and!; try done; try congruence.
  - by etrans.
  - etrans; [exact S1|]. by rewrite U1 in S'.
  - intros j Hj. rewrite E' by lia. apply E1. lia.
  - intros Hbt. constructor; [|by apply V']. intros i Hi Hi'. rewrite Es in Hi'. assert (i < Z.of_nat k) by (unfold PGSIZE in Hi'; lia).
    rewrite Ev, (Z.mul_comm PGSIZE n), Z.div_mul by (unfold PGSIZE; lia). rewrite E' by lia. apply V1; [done|lia].
Qed.

(** The free list and a frame, no address space. *)
Record holds h L F : Prop := {
  ho_kmem : kmem_inv kend h L;
  ho_apart : NoDup (L ++ F);
  ho_ok : Forall (page_ok kend) F
}.

Lemma owns_holds h L A F : owns h L A F -> holds h L (pages A ++ F).
Proof. intros [K1 K2 K3 K4]. by split. Qed.

Lemma owns_frame h L A F : owns h L A F -> holds h L F.
Proof.
  intros [K1 K2 K3 K4]. split; [done| |by apply Forall_app in K4 as [_ ?]].
  rewrite app_assoc, (Permutation_app_comm L), <- app_assoc in K3. by apply NoDup_app in K3 as (_ & _ & ?).
Qed.

(** A page of the frame is forgotten. *)
Lemma owns_less h L A p F : owns h L A (p :: F) -> owns h L A F.
Proof.
  intros [K1 K2 K3 K4]. split; try done.
  - rewrite !app_assoc, <- Permutation_middle, <- app_assoc in K3. by apply NoDup_cons in K3 as [_ ?].
  - rewrite <- Permutation_middle in K4. by apply Forall_cons in K4 as [_ ?].
Qed.

Lemma empty_space mm q : zeroed mm q -> as_rep mm (mkAs q ∅ ∅).
Proof.
  intros Hz. split; cbn [a_dir a_tabs a_ups].
  - intros i Hi. cbn zeta. rewrite lookup_empty, (load32_agree (fun _ => 0)); [done|]. intros x Hx. apply Hz. unfold PGSIZE. lia.
  - intros i u Hi. by rewrite lookup_empty in Hi.
  - intros n Hn. by rewrite lookup_empty.
  - intros i u Hi. by rewrite lookup_empty in Hi.
Qed.

Context (kdata : Z) (kdata_mod : kdata mod PGSIZE = 0) (kdata_range : KERNLINK < kdata < P2V PHYSTOP).

Lemma kmap_ranges : ranges UPN (kmap kdata).
Proof.
  set (d := kdata / PGSIZE). assert (kdata = PGSIZE * d) as Hd.
  { unfold d. pose proof (Z.div_mod kdata PGSIZE ltac:(unfold PGSIZE; lia)). lia. }
  change (P2V PHYSTOP) with 0x8E000000 in kdata_range. unfold KERNLINK, KERNBASE, EXTMEM in kdata_range. unfold PGSIZE in Hd.
  assert (V2P kdata = PGSIZE * (d - 0x80000)) as Hv by (unfold V2P, KERNBASE, PGSIZE; rewrite u32_small by lia; lia).
  cbn [kmap ranges virt phys_start phys_end km_perm].
  exists 0x80000, 0x100. split_and!; try done; try lia. exists 0x80100, (d - 0x80100).
  rewrite Hv. unfold PHYSTOP, PGSIZE, UPN in *. split_and!; try done; try lia.
  { change (V2P KERNLINK) with 0x100000. rewrite u32_small by lia. lia. }
  { change (V2P KERNLINK) with 0x100000. lia. }
  exists d, (0x8E000 - d). split_and!; try done; try lia.
  { rewrite u32_small by lia. lia. }
  exists 0xFE000, 0x2000. split_and!; try done; lia.
Qed.

(** [freevm], as a change of what is held. *)
Lemma freevm_holds F h m L A : owns h L A F -> mach_ok m ->
  exists h' m' L', freevm kend (a_dir A) h m = Ok (h', m') /\ mach_ok m' /\ holds h' L' F /\ L' ≡ₚ L ++ pages A /\ same_on F (p_mem h) (p_mem h').
Proof.
  intros H Hm. destruct (freevm_ok F h m L A H Hm) as (h' & m' & L' & -> & Hm' & Hk & Hp & Hs). exists h', m', L'. split_and!; try done.
  pose proof (ow_apart _ _ _ _ H) as Hap. pose proof (ow_ok _ _ _ _ H) as Hok. split; [done| |].
  - rewrite Hp. by rewrite <- app_assoc.
  - by apply Forall_app in Hok as [_ Hok].
Qed.

Lemma new_directory h m L F : holds h L F -> mach_ok m ->
  match L with
  | [] => exists h1 m1, kalloc h m = Ok (0, h1, m1) /\ mach_ok m1 /\ p_mem h1 = p_mem h /\ holds h1 [] F
  | q :: L' => exists h1 m1, kalloc h m = Ok (q, h1, m1) /\ mach_ok m1 /\ q <> 0 /\
      let h2 := mkPhys (Kstring.memset (p_mem h1) q 0 PGSIZE).1 (p_kmem h1) in
      owns h2 L' (mkAs q ∅ ∅) F /\ same_on F (p_mem h) (p_mem h2)
  end.
Proof.
  intros [K1 K2 K3] Hm. destruct (kalloc_pop kend kend_le h L m K1 Hm) as (p & h1 & m1 & E & Hm1 & _ & Hmem & _ & Hc).
  destruct L as [|q L].
  { destruct Hc as [-> Hk]. exists h1, m1. split_and!; try done. }
  destruct Hc as (-> & Hq & Hnq & Hk). exists h1, m1. split; [done|]. split; [done|].
  pose proof (page_ok_range kend kend_le q Hq) as Hqr. split; [unfold KERNBASE in Hqr; lia|]. intros h2.
  assert (forall x, p_mem h2 x = if (q <=? x) && (x <? q + PGSIZE) then 0 else p_mem h1 x) as Hfill.
  { intros x. unfold h2. cbn. rewrite memset_fill by (unfold PGSIZE; lia). done. }
  assert (forall x, x < q \/ q + PGSIZE <= x -> p_mem h2 x = p_mem h1 x) as Hout.
  { intros x Hx. rewrite Hfill. destruct (Z.leb_spec q x), (Z.ltb_spec x (q + PGSIZE)); try done. lia. }
  assert (forall u, u ∈ L ++ F -> page_ok kend u /\ u <> q) as Hother.
  { cbn [app] in K2. apply NoDup_cons in K2 as [K2 _]. intros u Hu. split; [|by intros ->]. rewrite Forall_forall in K3.
    apply elem_of_app in Hu as [Hu|Hu]; [|by apply K3]. pose proof (ki_pages _ _ _ Hk) as Hpk. rewrite Forall_forall in Hpk. by apply Hpk. }
  split; [|rewrite <- Hmem; apply (same_outside (kend:=kend) _ _ _ q); try done; intros u Hu; apply Hother, elem_of_app; by right].
  split; [| |cbn; rewrite <- Permutation_middle; done|by constructor].
  - destruct Hk as [C1 C2 C3 C4 C5]. split; try done.
    + apply memset_bytes; [unfold PGSIZE; lia|done].
    + apply (chain_agree (p_mem h1)); [|done]. intros u x Hu Hx. apply Hout. destruct (Hother u) as [Hou Hne]; [apply elem_of_app; by left|].
      destruct (pages_apart kend u q Hou Hq Hne); unfold PGSIZE in *; lia.
  - apply empty_space. intros x Hx. rewrite Hfill. by rewrite (proj2 (Z.leb_le _ _)), (proj2 (Z.ltb_lt _ _)) by lia.
Qed.

Lemma setupkvm_ok F h m L : holds h L F -> mach_ok m ->
  exists r h' m' L', setupkvm kend kdata h m = Ok (r, h', m') /\ mach_ok m' /\ same_on F (p_mem h) (p_mem h') /\
    (r = 0 /\ holds h' L' F /\ L' ≡ₚ L /\ Z.of_nat (length L) <= 1025 \/
     exists A, r = a_dir A /\ r <> 0 /\ owns h' L' A F /\ L' ++ pages A ≡ₚ L /\ a_ups A = ∅ /\ Forall (entered (p_mem h') A) (kmap kdata)).
Proof.
  intros H Hm. unfold setupkvm. pose proof (new_directory h m L F H Hm) as Hd. destruct L as [|q L].
  { destruct Hd as (h1 & m1 & -> & Hm1 & Hmem & H1). cbn [res_bind Z.eqb]. exists 0, h1, m1, []. rewrite Hmem. split_and!; try done. by left. }
  destruct Hd as (h1 & m1 & -> & Hm1 & Hq & O1 & S1). cbn [res_bind]. rewrite (proj2 (Z.eqb_neq _ _) Hq). change (DEVSPACE <? P2V PHYSTOP) with false. cbn iota.
  set (h2 := mkPhys _ _) in *. set (A := mkAs q ∅ ∅) in *. change q with (a_dir A).
  destruct (map_kernel_ok F (kmap kdata) UPN h2 m1 L A O1 Hm1) as (b & h3 & m3 & L3 & A3 & -> & Hm3 & O3 & P3 & D3 & U3 & S3 & _ & V3);
    [done|apply kmap_ranges|intros j _; unfold pte; cbn [A a_tabs]; by rewrite lookup_empty|]. cbn [res_bind].
  assert (same_on F (p_mem h) (p_mem h3)) as S13 by (etrans; [exact S1|]; eapply same_on_sub, S3; set_solver).
  assert (L3 ++ pages A3 ≡ₚ q :: L) as Hperm.
  { rewrite P3. change (pages A) with [q]. rewrite <- Permutation_middle. by rewrite app_nil_r. }
  destruct b.
  - exists (a_dir A), h3, m3, L3. split_and!; try done. right. exists A3. split_and!; try done. by apply V3.
  - rewrite <- D3. destruct (freevm_holds F h3 m3 L3 A3 O3 Hm3) as (h' & m' & L' & -> & Hm' & H' & P' & S'). cbn [res_bind].
    exists 0, h', m', L'. split_and!; try done; [by etrans|]. left. split_and!; try done; [etrans; [exact P'|by rewrite D3]|].
    apply Permutation_length in Hperm. rewrite (proj2 V3), app_nil_l, pages_length, U3 in Hperm by done. change (vals (a_ups A)) with (@nil Z) in Hperm.
    pose proof (tabs_size _ _ (ow_rep _ _ _ _ O3)). cbn in Hperm |- *. lia.
Qed.

(** ** copyuvm *)

Lemma flags_range e : 0 <= PTE_FLAGS e < PGSIZE.
Proof. unfold PTE_FLAGS, PGSIZE. change 0xFFF with (Z.ones 12). rewrite Z.land_ones by lia. apply Z.mod_pos_bound. lia. Qed.

Lemma flags_kept pa e : pa mod PGSIZE = 0 -> present e = true -> PTE_FLAGS (pte_val pa (PTE_FLAGS e)) = PTE_FLAGS e.
Proof.
  intros Hpa Hpr. unfold pte_val, PTE_FLAGS, present, PTE_P in *. apply Z.bits_inj'. intros i Hi.
  rewrite !Z.land_spec, !Z.lor_spec, !Z.land_spec. change 0xFFF with (Z.ones 12). destruct (Z.ltb_spec i 12) as [Hlt|Hge].
  - rewrite Z.ones_spec_low, !andb_true_r by lia. replace (Z.testbit pa i) with false.
    + cbn [orb]. destruct (Z.eq_dec i 0) as [->|]; [|replace (Z.testbit 1 i) with false; [by rewrite orb_false_r|symmetry; apply Z.bits_above_log2; cbn; lia]].
      change 1 with (Z.ones 1) in Hpr at 1. rewrite Z.land_ones in Hpr by lia. rewrite Z.bit0_odd. change (2 ^ 1) with 2 in Hpr.
      rewrite Zmod_odd in Hpr. by destruct (Z.odd e).
    + rewrite <- (Z.mod_pow2_bits_low pa 12 i) by done. change (2 ^ 12) with PGSIZE. by rewrite Hpa, Z.bits_0.
  - rewrite Z.ones_spec_high, !andb_false_r by lia. done.
Qed.

(** Page [n] of [A] in [mm'] is a copy of that of [B] in [mm]. *)
Definition copied mm B mm' A n : Prop := exists p q, a_ups B !! n = Some p /\ a_ups A !! n = Some q /\
  (forall i, 0 <= i < PGSIZE -> mm' (q + i) = mm (p + i)) /\ PTE_FLAGS (pte mm' A n) = PTE_FLAGS (pte mm B n).

(** A page taken from the free list and filled from a page of the frame. *)
Lemma copy_frame h m q L A F p : owns h (q :: L) A F -> mach_ok m -> p ∈ F ->
  exists h1 m1, kalloc h m = Ok (q, h1, m1) /\ mach_ok m1 /\ q <> 0 /\
    let h2 := mkPhys (Kstring.memmove (p_mem h1) q p PGSIZE).1 (p_kmem h1) in
    owns h2 L A (q :: F) /\ (forall i, 0 <= i < PGSIZE -> p_mem h2 (q + i) = p_mem h (p + i)) /\ same_on (pages A ++ F) (p_mem h) (p_mem h2).
Proof.
  intros H Hm Hp. destruct (kalloc_frame h m _ A F H Hm) as (p' & h1 & m1 & E & Hm1 & Hmem & -> & Hq & Ho). exists h1, m1.
  split; [done|]. split; [done|]. split; [done|]. intros h2. pose proof (ki_bytes _ _ _ (ow_kmem _ _ _ _ Ho)) as Hby.
  assert (forall x, p_mem h2 x = if (q <=? x) && (x <? q + PGSIZE) then p_mem h1 (p + (x - q)) else p_mem h1 x) as Hcp.
  { intros x. unfold h2. cbn. by rewrite memmove_copy by (done || (unfold PGSIZE; lia)). }
  destruct (frame_write h1 L A F q (p_mem h2) Ho) as [Ho2 Hs].
  - intros x. rewrite Hcp. destruct (_ && _); apply Hby.
  - intros x Hx. rewrite Hcp. destruct (Z.leb_spec q x), (Z.ltb_spec x (q + PGSIZE)); try done. lia.
  - rewrite Hmem in Hs. split; [done|]. split; [|done]. intros i Hi. rewrite Hcp, Hmem.
    rewrite (proj2 (Z.leb_le _ _)), (proj2 (Z.ltb_lt _ _)) by lia. cbn. f_equal. lia.
Qed.

Lemma user_table mm A n p : as_rep mm A -> a_ups A !! n = Some p ->
  exists u, a_tabs A !! (n / 1024) = Some u /\ present (pte mm A n) = true /\ P2V (PTE_ADDR (pte mm A n)) = p.
Proof.
  intros H Hp. pose proof (ar_user _ _ H n (ar_ups _ _ H n p Hp)) as Hu. rewrite Hp in Hu. destruct Hu as [H1 H2].
  destruct (a_tabs A !! (n / 1024)) as [u|] eqn:E; [by exists u|]. unfold pte in H1. by rewrite E in H1.
Qed.

(** The entry of a user page found by [walkpgdir]. *)
Lemma walk_user h m B n p : as_rep (p_mem h) B -> a_ups B !! n = Some p -> Forall (page_ok kend) (pages B) ->
  exists a, walkpgdir (a_dir B) (PGSIZE * n) false h m = Ok (a, h, m) /\ a <> 0 /\ load32 (p_mem h) a = pte (p_mem h) B n /\
    present (pte (p_mem h) B n) = true /\ P2V (PTE_ADDR (pte (p_mem h) B n)) = p.
Proof.
  intros H Hp Hok. destruct (user_table _ _ _ _ H Hp) as (u & Hu & H1 & H2). pose proof (ar_ups _ _ H n p Hp) as Hn.
  assert (PGSIZE * n / PGSIZE = n) as Hdv by (rewrite Z.mul_comm; apply Z.div_mul; unfold PGSIZE; lia).
  exists (slot u (PGSIZE * n)). split; [apply (walk_find h m B); [done|unfold PGSIZE, UPN in *; lia|by rewrite Hdv]|].
  split; [|split; [rewrite (load_slot _ B), Hdv; [done|by rewrite Hdv]|done]].
  rewrite Forall_forall in Hok. pose proof (page_ok_range kend kend_le u (Hok u (tab_in _ _ _ Hu))) as Hr. unfold slot, KERNBASE in *.
  pose proof (Z.mod_pos_bound (PGSIZE * n / PGSIZE) 1024 ltac:(lia)). lia.
Qed.

Lemma tables_pages B G : a_dir B :: vals (a_tabs B) ⊆ pages B ++ G.
Proof. unfold pages. set_solver. Qed.

(** What the copy of the pages [n] to [hi] leaves. *)
Record copy_done (ok : bool) n hi B h L A F h' L' A' : Prop := {
  cd_owns : owns h' L' A' F;
  cd_perm : L' ++ pages A' ≡ₚ L ++ pages A;
  cd_dir : a_dir A' = a_dir A;
  cd_old k : k < n \/ hi <= k -> a_ups A' !! k = a_ups A !! k /\ pte (p_mem h') A' k = pte (p_mem h) A k;
  cd_same : same_on (vals (a_ups A) ++ F) (p_mem h) (p_mem h');
  cd_copy : ok = true -> forall k, n <= k < hi -> copied (p_mem h') B (p_mem h') A' k;
  cd_short : ok = false -> (length L' <= 1)%nat
}.

(** The first page of a range is copied, then the rest. *)
Lemma copy_step b n hi B F h L A h1 L1 A1 q p h' L' A' : n < hi -> as_rep (p_mem h) B -> a_dir B :: vals (a_tabs B) ⊆ F ->
  L1 ++ pages A1 ≡ₚ L ++ pages A -> a_dir A1 = a_dir A -> a_ups A1 = <[n := q]> (a_ups A) -> a_ups A !! n = None ->
  a_ups B !! n = Some p -> p ∈ F -> (forall i, 0 <= i < PGSIZE -> p_mem h1 (q + i) = p_mem h (p + i)) ->
  PTE_FLAGS (pte (p_mem h1) A1 n) = PTE_FLAGS (pte (p_mem h) B n) ->
  (forall k, k <> n -> pte (p_mem h1) A1 k = pte (p_mem h) A k) -> same_on (vals (a_ups A) ++ F) (p_mem h) (p_mem h1) ->
  copy_done b (n + 1) hi B h1 L1 A1 F h' L' A' -> copy_done b n hi B h L A F h' L' A'.
Proof.
  intros Hn HB HBF P1 D1 U1 Hnone Hp HpF C1 Fl E1 S1 [O' P' D' Old' S' C' Sh']. rewrite U1 in S'.
  assert (vals (<[n := q]> (a_ups A)) ≡ₚ q :: vals (a_ups A)) as Hv by (by apply vals_insert).
  assert (same_on (vals (a_ups A) ++ F) (p_mem h) (p_mem h')) as S2.
  { etrans; [exact S1|]. eapply same_on_sub, S'. rewrite Hv. clear. set_solver. }
  split; try done; [by rewrite P'|by rewrite D'| |].
  - intros k Hk. destruct (Old' k) as [Hu He]; [lia|]. rewrite Hu, He, U1, lookup_insert_ne by lia. split; [done|]. apply E1. lia.
  - intros Hb k Hk. destruct (Z.eq_dec k n) as [->|]; [|apply C'; [done|lia]]. destruct (Old' n) as [Hu He]; [lia|].
    exists p, q. split; [done|]. split; [by rewrite Hu, U1, lookup_insert_eq|]. split.
    + intros i Hi. rewrite (S' q (q + i)); [|rewrite Hv; clear; set_solver|lia]. rewrite C1 by done. symmetry. apply (S2 p); [|lia].
      apply elem_of_app. by right.
    + rewrite He, Fl. f_equal. symmetry. apply pte_agree; [done|]. intros i u Hu'. eapply same_on_sub, S2.
      intros x ->%list_elem_of_singleton. apply elem_of_app. right. apply HBF, list_elem_of_further. by eapply vals_in.
Qed.

(** No memory for the table of a page: the page goes back. *)
Lemma copy_fail n hi B F h q L A h3 m3 L3 A3 : n < hi -> L3 = [] -> owns h3 L3 A3 (q :: F) -> mach_ok m3 -> L3 ++ pages A3 ≡ₚ L ++ pages A ->
  a_dir A3 = a_dir A -> a_ups A3 = a_ups A -> (forall k, k <> n -> pte (p_mem h3) A3 k = pte (p_mem h) A k) ->
  same_on (vals (a_ups A) ++ F) (p_mem h) (p_mem h3) ->
  exists h' m', kfree kend q h3 m3 = Ok (h', m') /\ mach_ok m' /\ copy_done false n hi B h (q :: L) A F h' (q :: L3) A3.
Proof.
  intros Hn -> O3 Hm3 P3 D3 U3 E23 S13. destruct (kfree_frame h3 m3 [] A3 _ q O3 Hm3) as (h4 & m4 & -> & Hm4 & O4 & S4).
  exists h4, m4. split; [done|]. split; [done|]. split; try done.
  - cbn [app]. by rewrite P3.
  - intros k Hk. split; [by rewrite U3|]. rewrite <- E23 by lia. apply pte_agree; [apply O3|]. intros i u Hu.
    eapply same_on_sub, S4. intros x ->%list_elem_of_singleton. apply elem_of_app. left. by eapply tab_in.
  - etrans; [exact S13|]. eapply same_on_sub, S4. rewrite <- U3. apply ups_pages.
Qed.

Lemma copy_loop_ok B G sz : sz <= 2 ^ 31 -> (forall k, 0 <= k < npages sz -> is_Some (a_ups B !! k)) ->
  forall fuel n h m L A, owns h L A (pages B ++ G) -> as_rep (p_mem h) B -> mach_ok m -> 0 <= n ->
  (0 < fuel)%nat -> npages sz - n <= Z.of_nat fuel - 1 -> (forall k, n <= k -> a_ups A !! k = None) ->
  exists b h' m' L' A', copy_loop kend fuel (a_dir B) (a_dir A) (PGSIZE * n) sz h m = Ok (b, h', m') /\ mach_ok m' /\
    copy_done b n (npages sz) B h L A (pages B ++ G) h' L' A'.
Proof.
  intros Hsz Hall. induction fuel as [|fuel IH]; intros n h m L A H HB Hm Hn Hf0 Hf Hnone; [lia|]. cbn [copy_loop].
  rewrite (Z.mul_comm PGSIZE n), below_size, (Z.mul_comm n). destruct (Z.ltb_spec n (npages sz)) as [Hlt|Hge].
  2: { exists true, h, m, L, A. split; [done|]. split; [done|]. split; try done. intros _ k Hk. lia. }
  destruct (Hall n ltac:(lia)) as [p Hp]. pose proof (ar_ups _ _ HB n p Hp) as Hnu. pose proof (ow_ok _ _ _ _ H) as Hok.
  destruct (walk_user h m B n p HB Hp) as (a & -> & Ha & Hl & Hpr & Hpa).
  { apply Forall_app in Hok as [_ Hok]. by apply Forall_app in Hok as [Hok _]. }
  cbn [res_bind]. rewrite (proj2 (Z.eqb_neq _ _) Ha), Hl, Hpr, Hpa. cbn [negb]. set (e := pte (p_mem h) B n) in *.
  destruct L as [|q L].
  { destruct (kalloc_frame h m _ A _ H Hm) as (p' & h1 & m1 & -> & Hm1 & Hmem & -> & H1). cbn [res_bind Z.eqb].
    exists false, h1, m1, [], A. split; [done|]. split; [done|]. split; try done; try (by rewrite Hmem); cbn; lia. }
  assert (p ∈ pages B ++ G) as Hin by (apply elem_of_app; left; by eapply page_in).
  destruct (copy_frame h m q L A (pages B ++ G) p H Hm Hin) as (h1 & m1 & -> & Hm1 & Hq & O1 & C1 & S1). cbn [res_bind].
  rewrite (proj2 (Z.eqb_neq _ _) Hq). set (h2 := mkPhys _ _) in *.
  destruct (map_user (pages B ++ G) h2 m1 L A n q (PTE_FLAGS e) O1 Hm1 Hnu) as (r & h3 & m3 & L3 & A3 & -> & Hm3 & D3 & S3 & E3 & Hc);
    [apply flags_range|apply Hnone; lia|]. cbn [res_bind].
  assert (same_on (vals (a_ups A) ++ pages B ++ G) (p_mem h) (p_mem h3)) as S13.
  { etrans; [eapply same_on_sub, S1; apply ups_pages|eapply same_on_sub, S3; apply ups_cons]. }
  assert (forall k, k <> n -> pte (p_mem h3) A3 k = pte (p_mem h) A k) as E23.
  { intros k Hk. rewrite E3 by done. apply pte_agree; [apply H|]. intros i u Hu. eapply same_on_sub, S1. intros x ->%list_elem_of_singleton.
    apply elem_of_app. left. by eapply tab_in. }
  destruct Hc as [(-> & O3 & P3 & U3 & En)|(-> & HL3 & O3 & P3 & U3)]; cbn [Z.ltb].
  2: { destruct (copy_fail n (npages sz) B (pages B ++ G) h q L A h3 m3 L3 A3) as (h' & m' & -> & Hm' & Hd); try done.
       exists false, h', m', (q :: L3), A3. by split_and!. }
  rewrite u32_small by (unfold PGSIZE, UPN in *; lia). replace (PGSIZE * n + PGSIZE) with (PGSIZE * (n + 1)) by lia. rewrite <- D3.
  destruct (IH (n + 1) h3 m3 L3 A3 O3) as (b & h' & m' & L' & A' & -> & Hm' & Hd); try done; try lia.
  { apply (rep_agree (p_mem h)); [done|]. eapply same_on_sub, S13. intros x Hx. apply elem_of_app. right. by apply tables_pages. }
  { intros k Hk. rewrite U3, lookup_insert_ne by lia. apply Hnone. lia. }
  exists b, h', m', L', A'. split; [done|]. split; [done|].
  apply (copy_step b n (npages sz) B _ h (q :: L) A h3 L3 A3 q p); try done; [apply tables_pages|apply Hnone; lia| |].
  - intros i Hi. rewrite (S3 q); [by apply C1|apply mid_in|lia].
  - rewrite En. apply flags_kept; [|done]. apply (page_ok_V2P kend kend_le). pose proof (ow_ok _ _ _ _ O1) as Hok1. rewrite Forall_forall in Hok1.
    apply Hok1, mid_in.
Qed.

Lemma copyuvm_ok G h m L B sz : owns h L B G -> mach_ok m -> 0 <= sz <= 2 ^ 31 -> (forall k, 0 <= k < npages sz -> is_Some (a_ups B !! k)) ->
  exists r h' m' L', copyuvm kend kdata (a_dir B) sz h m = Ok (r, h', m') /\ mach_ok m' /\ owns h' L' B G /\
    same_on (pages B ++ G) (p_mem h) (p_mem h') /\
    (r = 0 /\ L' ≡ₚ L /\ Z.of_nat (length L) <= 1026 + npages sz \/
     exists A, r = a_dir A /\ r <> 0 /\ owns h' L' A (pages B ++ G) /\ L' ++ pages A ≡ₚ L /\ Forall (entered (p_mem h') A) (kmap kdata) /\
       forall k, if (0 <=? k) && (k <? npages sz) then copied (p_mem h') B (p_mem h') A k else a_ups A !! k = None).
Proof.
  intros H Hm Hsz Hall. pose proof (owns_holds _ _ _ _ H) as Hh. unfold copyuvm.
  destruct (setupkvm_ok _ h m L Hh Hm) as (d & h1 & m1 & L1 & -> & Hm1 & S1 & Hc). cbn [res_bind].
  assert (forall h' L', holds h' L' (pages B ++ G) -> same_on (pages B ++ G) (p_mem h) (p_mem h') -> owns h' L' B G) as Hown.
  { intros h' L' [K1 K2 K3] Hs. split; try done. apply (rep_agree (p_mem h)); [apply H|]. eapply same_on_sub, Hs. apply tables_pages. }
  destruct Hc as [(-> & H1 & P1 & Hsh)|(A & -> & Hd & O1 & P1 & U1 & V1)].
  { cbn [Z.eqb]. exists 0, h1, m1, L1. split_and!; try done; [by apply Hown|]. left. split_and!; try done. destruct (roundup_pages sz) as (_ & _ & _ & Hnp & _); lia. }
  rewrite (proj2 (Z.eqb_neq _ _) Hd). assert (as_rep (p_mem h1) B) as HB1.
  { apply (rep_agree (p_mem h)); [apply H|]. eapply same_on_sub, S1. apply tables_pages. }
  assert (npages sz <= sz / PGSIZE + 1 /\ 0 <= npages sz <= UPN) as [Hle Hnp].
  { split; [|apply (roundup_pages sz); lia]. unfold npages. replace (sz + PGSIZE - 1) with (sz - 1 + 1 * PGSIZE) by lia. rewrite Z.div_add by (unfold PGSIZE; lia).
    assert ((sz - 1) / PGSIZE <= sz / PGSIZE) by (apply Z.div_le_mono; unfold PGSIZE; lia). lia. }
  assert (0 <= sz / PGSIZE) by (apply Z.div_pos; unfold PGSIZE; lia).
  destruct (copy_loop_ok B G sz ltac:(lia) Hall (S (Z.to_nat (sz / PGSIZE)) + 1) 0 h1 m1 L1 A O1 HB1 Hm1) as (b & h2 & m2 & L2 & A2 & E & Hm2 & Hcd);
    [lia|lia|lia|intros k _; rewrite U1; apply lookup_empty|].
  rewrite Z.mul_0_r in E. rewrite E. cbn [res_bind]. clear E. destruct Hcd as [O2 P2 D2 Old2 S2 C2 Sh2]. rewrite U1 in S2.
  assert (same_on (pages B ++ G) (p_mem h) (p_mem h2)) as S12 by (etrans; [exact S1|exact S2]).
  destruct b.
  - exists (a_dir A), h2, m2, L2. split; [done|]. split; [done|]. split; [apply Hown; [|done]; by eapply owns_frame|].
    split; [done|]. right. exists A2. split; [done|]. split; [done|]. split; [done|]. split; [by rewrite P2|]. split.
    + rewrite Forall_forall in V1 |- *. intros e He i Hi Hi'. rewrite <- (V1 e He) by done. apply Old2. right.
      pose proof (ranges_low _ e UPN kmap_ranges He). lia.
    + intros k. destruct ((0 <=? k) && (k <? npages sz)) eqn:Ek.
      * rewrite andb_true_iff, Z.leb_le, Z.ltb_lt in Ek. by apply C2.
      * destruct (Old2 k) as [-> _]; [|by rewrite U1]. rewrite andb_false_iff, Z.leb_gt, Z.ltb_ge in Ek. done.
  - rewrite <- D2. destruct (freevm_holds _ h2 m2 L2 A2 O2 Hm2) as (h' & m' & L' & -> & Hm' & H' & P' & S'). cbn [res_bind].
    assert (same_on (pages B ++ G) (p_mem h) (p_mem h')) as S3 by (by etrans).
    exists 0, h', m', L'. split_and!; try done; [by apply Hown|]. left. split; [done|].
    assert (L' ≡ₚ L) as Hp by (by rewrite P', P2). split; [done|]. pose proof (tabs_size _ _ (ow_rep _ _ _ _ O2)).
    assert (Z.of_nat (length (vals (a_ups A2))) <= npages sz - 0).
    { apply range_size; [lia|]. intros k v Hk. destruct (Z.lt_ge_cases k 0), (Z.lt_ge_cases k (npages sz)); try lia;
        destruct (Old2 k) as [Hu _]; try lia; by rewrite Hu, U1 in Hk. }
    apply Permutation_length in P'. rewrite Hp, length_app, pages_length in P'. specialize (Sh2 eq_refl). lia.
Qed.
End SpaceOps.
#[global] Arguments holds : clear implicits.
