(* ===== verification/SpaceSpec.v ===== *)
(** What the operations of [vm.c] on address spaces promise, with the example
    of a kernel that boots with free memory, sets up a space, grows it, copies
    it and frees it. *)

From stdpp Require Import gmap.
From S2P Require Import Prelude CString Spinlock Kalloc Proc Demo Vm VmFacts AddrSpace SpaceOps.

(** The byte a user program reads at an address. *)
Definition user_byte (mm : mem) (A : aspace) (va : Z) : option Z :=
  p ← a_ups A !! (va / PGSIZE); Some (mm (p + va mod PGSIZE)).

(** The flags of the entry of a user address. *)
Definition user_flags (mm : mem) (A : aspace) (va : Z) : Z := Vm.PTE_FLAGS (pte mm A (va / PGSIZE)).

Lemma copied_byte mm B mm' A n va : copied mm B mm' A n -> va / PGSIZE = n ->
  is_Some (user_byte mm B va) /\ user_byte mm' A va = user_byte mm B va /\ user_flags mm' A va = user_flags mm B va.
Proof.
  intros (p & q & Hp & Hq & Hc & Hf) <-. unfold user_byte, user_flags. rewrite Hp, Hq. cbn. split; [by eexists|]. split; [|done].
  f_equal. apply Hc. apply Z.mod_pos_bound. unfold PGSIZE. lia.
Qed.

Lemma npages_index va sz : 0 <= va -> va / PGSIZE < npages sz <-> va < PGSIZE * npages sz.
Proof.
  intros H. pose proof (Z.div_mod va PGSIZE ltac:(unfold PGSIZE; lia)). pose proof (Z.mod_pos_bound va PGSIZE ltac:(unfold PGSIZE; lia)).
  unfold PGSIZE in *. lia.
Qed.

Lemma user_byte_same mm mm' A F va : same_on (pages A ++ F) mm mm' -> user_byte mm' A va = user_byte mm A va.
Proof.
  intros Hs. unfold user_byte. destruct (a_ups A !! _) as [p|] eqn:E; [|done]. cbn. f_equal.
  apply (Hs p); [apply elem_of_app; left; by eapply page_in|]. pose proof (Z.mod_pos_bound va PGSIZE ltac:(unfold PGSIZE; lia)). lia.
Qed.

Lemma user_byte_eq mm mm' A A' F va : a_ups A' !! (va / PGSIZE) = a_ups A !! (va / PGSIZE) -> same_on (vals (a_ups A) ++ F) mm mm' ->
  user_byte mm' A' va = user_byte mm A va.
Proof.
  intros Hu Hs. unfold user_byte. rewrite Hu. destruct (a_ups A !! _) as [p|] eqn:E; [|done]. cbn. f_equal.
  apply (Hs p); [apply elem_of_app; left; by eapply vals_in|]. pose proof (Z.mod_pos_bound va PGSIZE ltac:(unfold PGSIZE; lia)). lia.
Qed.

(** An address between two page boundaries. *)
Lemma index_range va lo hi : (lo <=? va / PGSIZE) && (va / PGSIZE <? hi) = (PGSIZE * lo <=? va) && (va <? PGSIZE * hi).
Proof.
  pose proof (Z.div_mod va PGSIZE ltac:(unfold PGSIZE; lia)). pose proof (Z.mod_pos_bound va PGSIZE ltac:(unfold PGSIZE; lia)). unfold PGSIZE in *.
  f_equal; [destruct (Z.leb_spec lo (va / 4096)), (Z.leb_spec (4096 * lo) va)|destruct (Z.ltb_spec (va / 4096) hi), (Z.ltb_spec va (4096 * hi))]; try done; lia.
Qed.

Lemma user_perm pa : pa mod PGSIZE = 0 -> Vm.PTE_FLAGS (pte_val pa (Z.lor Vm.PTE_W Vm.PTE_U)) = 7.
Proof.
  intros Hpa. destruct (pte_val_aligned pa (Z.lor Vm.PTE_W Vm.PTE_U) Hpa) as [-> _]; [done|]. unfold Vm.PTE_FLAGS. change 0xFFF with (Z.ones 12).
  rewrite Z.land_ones by lia. change (2 ^ 12) with PGSIZE. rewrite <- Zplus_mod_idemp_l, Hpa. done.
Qed.

(** A space whose pages are copies reads what the original reads. *)
Lemma copy_reads mm mm' A B F sz va : as_rep mm B -> same_on (pages B ++ F) mm mm' -> 0 <= va ->
  (forall k, if (0 <=? k) && (k <? npages sz) then copied mm' B mm' A k else a_ups A !! k = None) ->
  if va <? PGSIZE * npages sz then user_byte mm' A va = user_byte mm B va /\ user_flags mm' A va = user_flags mm B va
  else user_byte mm' A va = None.
Proof.
  intros HB S' Hva CA. specialize (CA (va / PGSIZE)). assert (0 <= va / PGSIZE) as Hn by (apply Z.div_pos; unfold PGSIZE; lia).
  rewrite (proj2 (Z.leb_le _ _) Hn) in CA. cbn [andb] in CA. pose proof (npages_index va sz Hva) as Hi.
  destruct (Z.ltb_spec (va / PGSIZE) (npages sz)), (Z.ltb_spec va (PGSIZE * npages sz)); try lia.
  - destruct (copied_byte _ _ _ _ _ va CA eq_refl) as (_ & -> & ->). split; [by eapply user_byte_same|].
    unfold user_flags. f_equal. apply pte_agree; [done|]. intros i u Hu. eapply same_on_sub, S'. intros x ->%list_elem_of_singleton.
    apply elem_of_app. left. by eapply tab_in.
  - unfold user_byte. by rewrite CA.
Qed.

Section Spec.
Import Kalloc Vm.
Context (kend : Z) (Hkend : kend_above kend).
Implicit Types (h : phys) (m : machine) (L F : list Z) (A B : aspace).

(** What [allocuvm] does to the entries too. *)
Lemma allocuvm_holds F h m L A oldsz newsz : owns kend h L A F -> mach_ok m -> 0 <= oldsz <= newsz -> newsz < KERNBASE ->
  (forall n, npages oldsz <= n < npages newsz -> a_ups A !! n = None) ->
  exists r h' m' L' A', allocuvm kend (a_dir A) oldsz newsz h m = Ok (r, h', m') /\ mach_ok m' /\ owns kend h' L' A' F /\
    a_dir A' = a_dir A /\ L' ++ pages A' ≡ₚ L ++ pages A /\ same_on F (p_mem h) (p_mem h') /\
    (r = newsz \/ r = 0 /\ Z.of_nat (length L) <= 1025 + (npages newsz - npages oldsz)) /\
    (forall va, 0 <= va ->
      if (r =? newsz) && (PGSIZE * npages oldsz <=? va) && (va <? PGSIZE * npages newsz)
      then user_byte (p_mem h') A' va = Some 0 /\ user_flags (p_mem h') A' va = 7
      else user_byte (p_mem h') A' va = user_byte (p_mem h) A va) /\
    (r = newsz -> forall n, (npages oldsz <=? n) && (n <? npages newsz) = false -> pte (p_mem h') A' n = pte (p_mem h) A n).
Proof.
  intros H Hm Ho Hk Hnone. destruct (allocuvm_ok F h m L A oldsz newsz H Hm Ho Hk Hnone) as (r & h' & m' & L' & A' & -> & Hm' & Hr).
  exists r, h', m', L', A'. split; [done|]. split; [done|].
  destruct Hr as [[-> [O' P' D' N' Old' S']]|(-> & Hsh & Hu & [O' P' D' _ Old' S'])].
  - do 3 (split; [done|]). split; [eapply same_on_sub, S'; set_solver|]. split; [by left|]. split; [|intros _ n Hn; by apply Old']. intros va Hva. rewrite Z.eqb_refl. cbn [andb].
    rewrite <- index_range. destruct (_ && _) eqn:E; [|destruct (Old' _ E) as [Hu _]; by eapply user_byte_eq].
    destruct (N' _ E) as (p & Hp & Hz & He). unfold user_byte, user_flags. rewrite Hp, He. cbn. split.
    + f_equal. apply Hz. pose proof (Z.mod_pos_bound va PGSIZE ltac:(unfold PGSIZE; lia)). lia.
    + apply user_perm. apply (page_ok_V2P kend kend_le). pose proof (ow_ok _ _ _ _ O') as Hok. rewrite Forall_forall in Hok.
      apply Hok, elem_of_app. left. by eapply page_in.
  - rewrite Hu in S'. do 3 (split; [done|]). split; [eapply same_on_sub, S'; set_solver|]. split; [by right|]. split; [|intros _ n Hn; by apply Old']. intros va Hva.
    destruct (Z.eqb_spec 0 newsz) as [<-|]; [|eapply user_byte_eq; [by rewrite Hu|done]].
    rewrite (proj2 (Z.ltb_ge va _)), andb_false_r by (change (npages 0) with 0; lia). eapply user_byte_eq; [by rewrite Hu|done].
Qed.

(** [allocuvm] from [oldsz] to [newsz] bytes below the kernel:
    every user address from the end of the last old page up to the end of
    the last new one reads zero in a page the user may write, every other user
    address reads what it read before.  When memory runs out it returns 0 and
    every user address reads what it read before; that happens only when at
    most 1025 pages beyond the new ones are free.  No page is lost and nothing
    of others changes. *)
Theorem allocuvm_spec F h m L A oldsz newsz : owns kend h L A F -> mach_ok m -> 0 <= oldsz <= newsz -> newsz < KERNBASE ->
  (forall n, npages oldsz <= n < npages newsz -> a_ups A !! n = None) ->
  exists r h' m' L' A', allocuvm kend (a_dir A) oldsz newsz h m = Ok (r, h', m') /\ mach_ok m' /\ owns kend h' L' A' F /\
    a_dir A' = a_dir A /\ L' ++ pages A' ≡ₚ L ++ pages A /\ same_on F (p_mem h) (p_mem h') /\
    (r = newsz \/ r = 0 /\ Z.of_nat (length L) <= 1025 + (npages newsz - npages oldsz)) /\
    forall va, 0 <= va ->
      if (r =? newsz) && (PGSIZE * npages oldsz <=? va) && (va <? PGSIZE * npages newsz)
      then user_byte (p_mem h') A' va = Some 0 /\ user_flags (p_mem h') A' va = 7
      else user_byte (p_mem h') A' va = user_byte (p_mem h) A va.
Proof.
  intros H Hm Ho Hk Hnone. destruct (allocuvm_holds F h m L A oldsz newsz H Hm Ho Hk Hnone) as (r & h' & m' & L' & A' & E & H1 & H2 & H3 & H4 & H5 & H6 & H7 & _).
  by exists r, h', m', L', A'.
Qed.

(** [deallocuvm] from [oldsz] down to [newsz] bytes: the user
    addresses from the end of the last page kept to the end of the last old
    page are not mapped any more and their pages are free; every other user
    address reads what it read before, and nothing of others changes. *)
Theorem deallocuvm_spec F h m L A oldsz newsz : owns kend h L A F -> mach_ok m -> 0 <= newsz < oldsz -> oldsz <= KERNBASE ->
  exists h' m' L' A', deallocuvm kend (a_dir A) oldsz newsz h m = Ok (newsz, h', m') /\ mach_ok m' /\ owns kend h' L' A' F /\
    a_dir A' = a_dir A /\ a_tabs A' = a_tabs A /\ L' ++ pages A' ≡ₚ L ++ pages A /\ same_on F (p_mem h) (p_mem h') /\
    forall va, 0 <= va ->
      user_byte (p_mem h') A' va = if (PGSIZE * npages newsz <=? va) && (va <? PGSIZE * npages oldsz) then None else user_byte (p_mem h) A va.
Proof.
  intros H Hm Hn Ho. destruct (deallocuvm_ok F h m L A oldsz newsz H Hm) as (h' & m' & L' & A' & -> & Hm' & [O' P' D' T' U' E' S']); try lia; [exact Ho|].
  exists h', m', L', A'. split_and!; try done.
  - eapply same_on_sub, S'. set_solver.
  - intros va Hva. rewrite <- index_range. destruct (_ && _) eqn:E.
    + unfold user_byte. by rewrite U', E.
    + unfold user_byte. rewrite U', E. destruct (a_ups A !! _) as [p|] eqn:Ep; [|done]. cbn. f_equal.
      apply (S' p); [|pose proof (Z.mod_pos_bound va PGSIZE ltac:(unfold PGSIZE; lia)); lia].
      apply elem_of_app. left. eapply vals_in. by rewrite U', E.
Qed.

(** [freevm] gives every page of the address space back to the
    free list, the page tables and the directory too, and changes nothing of
    others. *)
Theorem freevm_spec F h m L A : owns kend h L A F -> mach_ok m ->
  exists h' m' L', freevm kend (a_dir A) h m = Ok (h', m') /\ mach_ok m' /\ kmem_inv kend h' L' /\
    L' ≡ₚ L ++ pages A /\ same_on F (p_mem h) (p_mem h').
Proof. apply freevm_ok. Qed.

(** [data], where the kernel's data starts, is set by the linker. *)
Context (kdata : Z) (kdata_mod : kdata mod PGSIZE = 0) (kdata_range : KERNLINK < kdata < P2V PHYSTOP).

(** C16: [copyuvm] of a process of [sz] bytes makes a
    child whose kernel part is mapped as the table [kmap] says and which reads
    at every user address of the process the byte and the flags the parent
    reads there, in pages of its own; above it has no page.  The parent and
    every other page are unchanged, and the pages of the child come from the
    free list.  It fails only when fewer than 1027 pages beyond the user
    pages are free, and then every page is free again. *)
Theorem copyuvm_spec F h m L B sz : owns kend h L B F -> mach_ok m -> 0 <= sz <= KERNBASE ->
  (forall va, 0 <= va < sz -> is_Some (a_ups B !! (va / PGSIZE))) ->
  exists r h' m' L', copyuvm kend kdata (a_dir B) sz h m = Ok (r, h', m') /\ mach_ok m' /\ owns kend h' L' B F /\
    same_on (pages B ++ F) (p_mem h) (p_mem h') /\
    (r = 0 /\ L' ≡ₚ L /\ Z.of_nat (length L) <= 1026 + npages sz \/
     exists A, r = a_dir A /\ owns kend h' L' A (pages B ++ F) /\ L' ++ pages A ≡ₚ L /\ Forall (entered (p_mem h') A) (kmap kdata) /\
       forall va, 0 <= va ->
         if va <? PGSIZE * npages sz then user_byte (p_mem h') A va = user_byte (p_mem h) B va /\ user_flags (p_mem h') A va = user_flags (p_mem h) B va
         else user_byte (p_mem h') A va = None).
Proof.
  intros H Hm Hsz Hall. destruct (copyuvm_ok kdata kdata_mod kdata_range F h m L B sz H Hm) as (r & h' & m' & L' & -> & Hm' & O' & S' & Hc).
  - exact Hsz.
  - intros k Hk. rewrite <- (Z.div_mul k PGSIZE) by (unfold PGSIZE; lia). apply Hall. pose proof (below_size k sz) as Hb.
    rewrite (proj2 (Z.ltb_lt k _)), Z.ltb_lt in Hb by lia. unfold PGSIZE in *. lia.
  - exists r, h', m', L'. split_and!; try done. destruct Hc as [Hc|(A & -> & Hd & OA & PA & VA & CA)]; [by left|right]. exists A. split_and!; try done.
    intros va Hva. apply (copy_reads (p_mem h) (p_mem h') A B F); try done. apply H.
Qed.

(** [setupkvm] makes an address space with no user page whose
    entries are those of the table [kmap], for every page of every one of its
    four ranges.  It fails only when at most 1025 pages are free, and then
    every page is free again. *)
Theorem setupkvm_spec F h m L : holds kend h L F -> mach_ok m ->
  exists r h' m' L', setupkvm kend kdata h m = Ok (r, h', m') /\ mach_ok m' /\ same_on F (p_mem h) (p_mem h') /\
    (r = 0 /\ kmem_inv kend h' L' /\ L' ≡ₚ L /\ Z.of_nat (length L) <= 1025 \/
     exists A, r = a_dir A /\ owns kend h' L' A F /\ L' ++ pages A ≡ₚ L /\ a_ups A = ∅ /\
       forall e i, e ∈ kmap kdata -> 0 <= i -> PGSIZE * i < u32 (phys_end e - phys_start e) ->
         pte (p_mem h') A (virt e / PGSIZE + i) = pte_val (phys_start e + PGSIZE * i) (km_perm e)).
Proof.
  intros H Hm. destruct (setupkvm_ok kdata kdata_mod kdata_range F h m L H Hm) as (r & h' & m' & L' & -> & Hm' & S' & Hc).
  exists r, h', m', L'. split_and!; try done. destruct Hc as [(-> & [K _ _] & P & Hl)|(A & -> & Hd & O & P & U & V)]; [by left|right].
  exists A. split_and!; try done. intros e i He Hi Hi'. rewrite Forall_forall in V. by apply V.
Qed.
End Spec.

(** * The example *)

#[local] Instance demo_above : kend_above kernel_end.
Proof. done. Qed.

Lemma pages_down_length a n : length (pages_down a n) = n.
Proof. revert a. induction n as [|n IH]; intros a; cbn [pages_down]; [done|]. rewrite length_app, IH. cbn. lia. Qed.

Lemma pages_down_mod a n v : a mod PGSIZE = 0 -> v ∈ pages_down a n -> v mod PGSIZE = 0.
Proof.
  revert a. induction n as [|n IH]; intros a Ha; cbn [pages_down]; [by intros ?%not_elem_of_nil|].
  rewrite elem_of_app, list_elem_of_singleton. intros [Hv| ->]; [|done]. apply (IH (a + PGSIZE)); [|done].
  rewrite <- (Z.mul_1_l PGSIZE) at 1. by rewrite Z_mod_plus_full.
Qed.

(** A machine with [k + 2] free pages. *)
Lemma demo_pool_of k : 0 <= k <= 20000 -> exists h m L, holds kernel_end h L [] /\ mach_ok m /\ Z.of_nat (length L) = k + 2.
Proof.
  intros Hk. destruct (Z_of_nat_complete k ltac:(lia)) as [n Hn]. symmetry in Hn.
  destruct (freerange_loop_pages kernel_end demo_kend n (S n) 0x80300000 (0x80300000 + Z.of_nat n * PGSIZE) demo_phys [demo_page1; demo_page2] (demo_machine 0 None))
    as (h & m & _ & Hkm & Hm & _); try lia; try (rewrite ?Nat2Z.inj_succ, Hn; unfold PGSIZE; lia).
  - apply demo_kmem_inv.
  - by apply demo_mach_ok.
  - intros v Hv. pose proof (pages_down_mod 0x80300000 n v eq_refl Hv) as Hmd. apply elem_of_pages_down in Hv. rewrite Hn in Hv. unfold PGSIZE in Hv.
    split; [|rewrite !elem_of_cons, elem_of_nil; unfold demo_page1, demo_page2; lia].
    unfold page_ok, V2P, KERNBASE, PHYSTOP. change kernel_end with 0x80108000. rewrite u32_small by lia. split_and!; try done; lia.
  - exists h, m, (pages_down 0x80300000 n ++ [demo_page1; demo_page2]). split; [|split; [done|]].
    + split; [done| |done]. rewrite app_nil_r. apply Hkm.
    + rewrite length_app, pages_down_length. cbn. lia.
Qed.

Lemma demo_pool : exists h m L, holds kernel_end h L [] /\ mach_ok m /\ Z.of_nat (length L) = 2302.
Proof. apply (demo_pool_of 2300). lia. Qed.

Definition demo_kdata : Z := 0x80106000.
Lemma demo_kdata_range : Vm.KERNLINK < demo_kdata < P2V PHYSTOP.
Proof. done. Qed.

(** The kernel's part is set up. *)
Lemma demo_space : exists h m L A, owns kernel_end h L A [] /\ mach_ok m /\ a_ups A = ∅ /\
  Z.of_nat (length (L ++ pages A)) = 2302.
Proof.
  destruct demo_pool as (h & m & L & H & Hm & Hl).
  destruct (setupkvm_ok demo_kdata eq_refl demo_kdata_range [] h m L H Hm) as (r & h' & m' & L' & _ & Hm' & _ & [(_ & _ & _ & Hs)|(A & _ & _ & O & P & U & _)]); [lia|].
  exists h', m', L', A. split_and!; try done. by rewrite P.
Qed.

Lemma demo_free h L A k : owns kernel_end h L A [] -> Z.of_nat (length (L ++ pages A)) = 2302 -> (forall n p, a_ups A !! n = Some p -> 0 <= n < k) ->
  0 <= k -> 1277 <= Z.of_nat (length L) + k.
Proof.
  intros O Hl Hu Hk. rewrite length_app, pages_length in Hl. pose proof (tabs_size _ _ (ow_rep _ _ _ _ O)).
  pose proof (range_size (a_ups A) 0 k Hk Hu). lia.
Qed.

(** A process of two pages. *)
Lemma demo_user : exists h m L A, owns kernel_end h L A [] /\ mach_ok m /\
  (forall n, is_Some (a_ups A !! n) <-> 0 <= n < 2) /\ 1275 <= Z.of_nat (length L).
Proof.
  destruct demo_space as (h & m & L & A & O & Hm & U & Hl).
  assert (1277 <= Z.of_nat (length L) + 0) as Hfree.
  { apply (demo_free h L A 0 O Hl); [|lia]. intros n p Hp. by rewrite U in Hp. }
  destruct (allocuvm_ok [] h m L A 0 5000 O Hm) as (r & h' & m' & L' & A' & _ & Hm' & Hc); try lia; [done|intros n _; by rewrite U|].
  change (npages 0) with 0 in Hc. change (npages 5000) with 2 in Hc. destruct Hc as [[_ [O' P' D' N' Old' _]]|(_ & Hs & _)]; [|lia].
  assert (forall n p, a_ups A' !! n = Some p -> 0 <= n < 2) as Hin.
  { intros n p Hn. destruct (Z.leb_spec 0 n), (Z.ltb_spec n 2); try lia; (destruct (Old' n) as [Ho _]; [|by rewrite Ho, U in Hn]);
      apply andb_false_iff; rewrite Z.leb_gt, Z.ltb_ge; lia. }
  exists h', m', L', A'. split_and!; try done.
  - intros n. split; [intros [p Hp]; by eapply Hin|]. intros Hn. destruct (N' n) as (p & -> & _); [|by eexists].
    by rewrite (proj2 (Z.leb_le _ _)), (proj2 (Z.ltb_lt _ _)) by lia.
  - assert (1277 <= Z.of_nat (length L') + 2); [|lia]. apply (demo_free h' L' A' 2 O'); [by rewrite P'|done|lia].
Qed.

Lemma copyuvm_spec_witness : exists h m B r h' m', Vm.copyuvm kernel_end demo_kdata (a_dir B) 5000 h m = Ok (r, h', m') /\
  exists A, r = a_dir A /\ user_byte (p_mem h') A 4999 = user_byte (p_mem h) B 4999.
Proof.
  destruct demo_user as (h & m & L & B & O & Hm & Hu & Hl).
  destruct (copyuvm_spec kernel_end demo_above demo_kdata eq_refl demo_kdata_range [] h m L B 5000 O Hm) as (r & h' & m' & L' & E & _ & _ & _ & Hc).
  - unfold KERNBASE. lia.
  - intros va Hva. apply Hu. unfold PGSIZE. split; [apply Z.div_pos; lia|apply Z.div_lt_upper_bound; lia].
  - exists h, m, B, r, h', m'. split; [exact E|]. destruct Hc as [(_ & _ & Hs)|(A & -> & _ & _ & _ & HA)].
    + change (npages 5000) with 2 in Hs. lia.
    + exists A. split; [done|]. apply (HA 4999). lia.
Defined.

Lemma allocuvm_spec_witness : exists h m A r h' m' A', Vm.allocuvm kernel_end (a_dir A) 0 5000 h m = Ok (r, h', m') /\
  r = 5000 /\ user_byte (p_mem h') A' 4999 = Some 0.
Proof.
  destruct demo_space as (h & m & L & A & O & Hm & U & Hl).
  assert (1277 <= Z.of_nat (length L) + 0) as Hfree.
  { apply (demo_free h L A 0 O Hl); [|lia]. intros n p Hp. by rewrite U in Hp. }
  destruct (allocuvm_spec kernel_end demo_above [] h m L A 0 5000 O Hm) as (r & h' & m' & L' & A' & E & _ & _ & _ & _ & _ & Hr & Hb).
  - lia.
  - unfold KERNBASE. lia.
  - intros n _. by rewrite U.
  - change (npages 0) with 0 in *. change (npages 5000) with 2 in *. exists h, m, A, r, h', m', A'. split; [exact E|].
    destruct Hr as [->|[_ Hs]]; [|lia]. split; [done|]. apply (Hb 4999). lia.
Defined.

Lemma deallocuvm_spec_witness : exists h m A h' m' A', Vm.deallocuvm kernel_end (a_dir A) 5000 10 h m = Ok (10, h', m') /\
  user_byte (p_mem h') A' 4999 = None.
Proof.
  destruct demo_user as (h & m & L & A & O & Hm & Hu & Hl).
  destruct (deallocuvm_spec kernel_end demo_above [] h m L A 5000 10 O Hm) as (h' & m' & L' & A' & E & _ & _ & _ & _ & _ & _ & Hb).
  - lia.
  - unfold KERNBASE. lia.
  - exists h, m, A, h', m', A'. split; [exact E|]. apply (Hb 4999). lia.
Defined.

Lemma freevm_spec_witness : exists h m L A h' m' L', Vm.freevm kernel_end (a_dir A) h m = Ok (h', m') /\
  kmem_inv kernel_end h' L' /\ L' ≡ₚ L ++ pages A.
Proof.
  destruct demo_user as (h & m & L & A & O & Hm & Hu & Hl).
  destruct (freevm_spec kernel_end demo_above [] h m L A O Hm) as (h' & m' & L' & E & _ & K & P & _).
  exists h, m, L, A, h', m', L'. split; [exact E|]. split; [exact K|exact P].
Defined.

Lemma setupkvm_spec_witness : exists h m r h' m' A, Vm.setupkvm kernel_end demo_kdata h m = Ok (r, h', m') /\
  pte (p_mem h') A (0x80105) = pte_val 0x105000 0.
Proof.
  destruct demo_pool as (h & m & L & H & Hm & Hl).
  destruct (setupkvm_spec kernel_end demo_above demo_kdata eq_refl demo_kdata_range [] h m L H Hm) as (r & h' & m' & L' & E & _ & _ & Hc).
  destruct Hc as [(_ & _ & _ & Hs)|(A & _ & _ & _ & _ & HA)]; [lia|]. exists h, m, r, h', m', A. split; [exact E|].
  apply (HA (Vm.mkKmap Vm.KERNLINK (V2P Vm.KERNLINK) (V2P demo_kdata) 0) 5); [|lia|done]. apply list_elem_of_further, list_elem_of_here.
Defined.
