(* ===== verification/Syscall.v ===== *)
(** System calls and traps: [syscall.c], [sysproc.c] and [trap.c].

    [um] is the memory of the current process as its page table shows it: the
    kernel reads user addresses directly.  A read outside of [0, sz) is
    reported as out of bounds.  [tickslock] is threaded next to the kernel
    state, as the lock [sys_sleep] sleeps on; the counter [ticks] is [clock].
    The system calls of sysfile.c and the interrupt handlers of the devices
    are arguments. *)

From S2P Require Import Prelude CString Spinlock Kalloc Proc Demo MlfqFacts ProcFacts Sleep.

(** * User memory *)

(** The byte and the int at address [a] of a process of size [sz]. *)
Definition uread8 (um : mem) (sz a : Z) : res Z :=
  if (0 <=? a) && (a <? sz) then Ok (um a) else OOB "user memory".
Definition uread32 (um : mem) (sz a : Z) : res Z :=
  if (0 <=? a) && (a + 4 <=? sz) then Ok (load32 um a) else OOB "user memory".

Module Syscall.
Import Ptable.
Section Args.
Context `{SV : Services} (um : mem).
Implicit Types (s : kst).

(** Returns the result and what is stored at [ip], which is nothing on error. *)
Definition fetchint (addr : Z) s : res (Z * option Z * kst) :=
  let? (c, s) := curproc s in
  let? pr := getp c s in
  if (sz pr <=? addr) || (sz pr <? u32 (addr + 4)) then Ok (-1, None, s)
  else let? v := uread32 um (sz pr) addr in Ok (0, Some (s32 v), s).

(** The loop of [fetchstr]: [n] bytes are left up to the end. *)
Fixpoint scan_nul (n : nat) (size start a : Z) : res Z :=
  match n with
  | O => Ok (-1)
  | S n' =>
      let? c := uread8 um size a in
      if c =? 0 then Ok (a - start) else scan_nul n' size start (a + 1)
  end.

Definition fetchstr (addr : Z) s : res (Z * option Z * kst) :=
  let? (c, s) := curproc s in
  let? pr := getp c s in
  if sz pr <=? addr then Ok (-1, None, s)
  else
    let? r := scan_nul (Z.to_nat (sz pr - addr)) (sz pr) addr addr in
    Ok (r, Some addr, s).

Definition argint (n : Z) s : res (Z * option Z * kst) :=
  let? (c, s) := curproc s in
  let? pr := getp c s in
  fetchint (u32 (tf_esp (frames s (tf pr)) + 4 + 4 * n)) s.

Definition argptr (n size : Z) s : res (Z * option Z * kst) :=
  let? (c, s) := curproc s in
  let? (r, i, s) := argint n s in
  match i with
  | Some i =>
      if r <? 0 then Ok (-1, None, s)
      else
        let? pr := getp c s in
        if (size <? 0) || (sz pr <=? u32 i) || (sz pr <? u32 (u32 i + size)) then Ok (-1, None, s)
        else Ok (0, Some (u32 i), s)
  | None => Ok (-1, None, s)
  end.

Definition argstr (n : Z) s : res (Z * option Z * kst) :=
  let? (r, addr, s) := argint n s in
  match addr with
  | Some addr => if r <? 0 then Ok (-1, None, s) else fetchstr (u32 addr) s
  | None => Ok (-1, None, s)
  end.

(** ** sysproc.c *)

Context (resume : kst -> spinlock -> kst * spinlock).
Implicit Types (tl : spinlock).

Definition ch_ticks : channel := ChAddr 0x80115000.

Definition lock_ticks s tl : res (kst * spinlock) :=
  let? (k, m) := Spinlock.acquire tl (mach s) in Ok (set_mach m s, k).
Definition unlock_ticks s tl : res (kst * spinlock) :=
  let? (k, m) := Spinlock.release tl (mach s) in Ok (set_mach m s, k).

Definition sys_fork s : res (Z * kst) := fork s.
Definition sys_wait (fuel : nat) s tl : res (Z * kst) := wait resume fuel s tl.

Definition sys_kill s : res (Z * kst) :=
  let? (r, x, s) := argint 0 s in
  match x with
  | Some x => if r <? 0 then Ok (-1, s) else kill x s
  | None => Ok (-1, s)
  end.

Definition sys_getpid s : res (Z * kst) :=
  let? (c, s) := curproc s in
  let? pr := getp c s in
  Ok (pid pr, s).

Definition sys_sbrk s : res (Z * kst) :=
  let? (r, x, s) := argint 0 s in
  match x with
  | Some n =>
      if r <? 0 then Ok (-1, s)
      else
        let? (c, s) := curproc s in
        let? pr := getp c s in
        let addr := s32 (sz pr) in
        let? (r, s) := growproc n s in
        if r <? 0 then Ok (-1, s) else Ok (addr, s)
  | None => Ok (-1, s)
  end.

(** The loop of [sys_sleep]: [n] is converted to unsigned by the comparison. *)
Fixpoint sleep_loop (fuel : nat) (ticks0 n : Z) s tl : res (Z * kst * spinlock) :=
  match fuel with
  | O => OutOfFuel
  | S f =>
      if u32 (clock s - ticks0) <? u32 n then
        let? (c, s) := curproc s in
        let? pr := getp c s in
        if negb (killed pr =? 0) then
          let? (s, tl) := unlock_ticks s tl in Ok (-1, s, tl)
        else
          let? (s, tl) := sleep resume ch_ticks LkOther s tl in
          sleep_loop f ticks0 n s tl
      else
        let? (s, tl) := unlock_ticks s tl in Ok (0, s, tl)
  end.

Definition sys_sleep (fuel : nat) s tl : res (Z * kst * spinlock) :=
  let? (r, x, s) := argint 0 s in
  match x with
  | Some n =>
      if r <? 0 then Ok (-1, s, tl)
      else
        let? (s, tl) := lock_ticks s tl in
        sleep_loop fuel (clock s) n s tl
  | None => Ok (-1, s, tl)
  end.

Definition sys_uptime s tl : res (Z * kst * spinlock) :=
  let? (s, tl) := lock_ticks s tl in
  let xticks := clock s in
  let? (s, tl) := unlock_ticks s tl in
  Ok (s32 xticks, s, tl).

Definition sys_getpinfo s : res (Z * kst) :=
  let? (r, x, s) := argint 0 s in
  match x with
  | Some x => if r <? 0 then Ok (-1, s) else getpinfo x s
  | None => Ok (-1, s)
  end.

(** ** The dispatcher *)

(** What a system call ends in: a value for the caller, or the process is
    gone. *)
Inductive outcome := Return (r : Z) (s : kst) (tl : spinlock) | Gone (s : kst).

(** [exit()] of the current process. *)
Definition leave s : res outcome := let? s := exit_to_sched s in Ok (Gone s).

Definition ret (m : res (Z * kst)) tl : res outcome :=
  let? (r, s) := m in Ok (Return r s tl).

(** The calls of sysfile.c, by number. *)
Context (sysfile : Z -> kst -> res (Z * kst)).

(** The table [syscalls], which has 23 entries. *)
Definition syscalls (num : Z) : option (nat -> kst -> spinlock -> res outcome) :=
  if num =? 1 then Some (fun _ s tl => ret (sys_fork s) tl)
  else if num =? 2 then Some (fun _ s _ => leave s)
  else if num =? 3 then Some (fun fuel s tl => ret (sys_wait fuel s tl) tl)
  else if num =? 6 then Some (fun _ s tl => ret (sys_kill s) tl)
  else if num =? 11 then Some (fun _ s tl => ret (sys_getpid s) tl)
  else if num =? 12 then Some (fun _ s tl => ret (sys_sbrk s) tl)
  else if num =? 13 then
    Some (fun fuel s tl => let? (r, s, tl) := sys_sleep fuel s tl in Ok (Return r s tl))
  else if num =? 14 then
    Some (fun _ s tl => let? (r, s, tl) := sys_uptime s tl in Ok (Return r s tl))
  else if num =? 22 then Some (fun _ s tl => ret (sys_getpinfo s) tl)
  else if bool_decide (num ∈ [4; 5; 7; 8; 9; 10; 15; 16; 17; 18; 19; 20; 21]) then
    Some (fun _ s tl => ret (sysfile num s) tl)
  else None.

(** [curproc->tf->eax = r]. *)
Definition set_eax (c : nat) (r : Z) s : res kst :=
  let? pr := getp c s in
  Ok (set_frames (upd (frames s) (tf pr) (set_tf_eax (u32 r) (frames s (tf pr)))) s).

(** [None] when the process is gone. *)
Definition syscall (fuel : nat) s tl : res (option (kst * spinlock) * kst) :=
  let? (c, s) := curproc s in
  let? pr := getp c s in
  let num := s32 (tf_eax (frames s (tf pr))) in
  match (if (0 <? num) && (num <? 23) then syscalls num else None) with
  | Some f =>
      let? o := f fuel s tl in
      match o with
      | Return r s tl => let? s := set_eax c r s in Ok (Some (s, tl), s)
      | Gone s => Ok (None, s)
      end
  | None =>
      let s := printk "%d %s: unknown sys call %d\n" [AInt (pid pr); AStr (name pr); AInt num] s in
      let? s := set_eax c (-1) s in
      Ok (Some (s, tl), s)
  end.

(** ** Traps *)

(** The interrupt handlers of the devices, and the instruction pointer they do
    not need. *)
Context (ideintr kbdintr uartintr : kst -> kst).

(** The register cr2, the address of the last page fault. *)
Context (rcr2 : Z).

(** [myproc() && myproc()->killed]. *)
Definition killed_now s : res (bool * kst) :=
  let? (p, s) := myproc s in
  match p with
  | Some c => let? pr := getp c s in Ok (negb (killed pr =? 0), s)
  | None => Ok (false, s)
  end.

(** The case of the timer. *)
Definition timer_tick s tl : res (kst * spinlock) :=
  let? i := Spinlock.cpuid (mach s) in
  if i =? 0 then
    let? (s, tl) := lock_ticks s tl in
    let s := set_clock (u32 (clock s + 1)) s in
    let? s := wakeup ch_ticks s in
    unlock_ticks s tl
  else Ok (s, tl).

(** The default case: the kernel panics, a user process is killed. *)
Definition bad_trap (f : trapframe) s : res kst :=
  let? (p, s) := myproc s in
  match p with
  | None => Panic "trap"
  | Some c =>
      if Z.land (tf_cs f) 3 =? 0 then Panic "trap"
      else
        let? pr := getp c s in
        let? i := Spinlock.cpuid (mach s) in
        let s := printk "pid %d %s: trap %d err %d on cpu %d eip 0x%x addr 0x%x--kill proc\n"
                   [AInt (pid pr); AStr (name pr); AInt (tf_trapno f); AInt (tf_err f); AInt i;
                    AInt (tf_eip f); AInt rcr2] s in
        modp c (set_killed 1) s
  end.

Definition dispatch_trap (f : trapframe) s tl : res (kst * spinlock) :=
  let n := tf_trapno f in
  if n =? T_IRQ0 + IRQ_TIMER then timer_tick s tl
  else if n =? T_IRQ0 + IRQ_IDE then Ok (ideintr s, tl)
  else if n =? T_IRQ0 + IRQ_IDE + 1 then Ok (s, tl)
  else if n =? T_IRQ0 + IRQ_KBD then Ok (kbdintr s, tl)
  else if n =? T_IRQ0 + IRQ_COM1 then Ok (uartintr s, tl)
  else if (n =? T_IRQ0 + 7) || (n =? T_IRQ0 + IRQ_SPURIOUS) then
    let? i := Spinlock.cpuid (mach s) in
    Ok (printk "cpu%d: spurious interrupt at %x:%x\n" [AInt i; AInt (tf_cs f); AInt (tf_eip f)] s, tl)
  else let? s := bad_trap f s in Ok (s, tl).

(** [if (myproc() && myproc()->killed && (tf->cs&3) == DPL_USER) exit()]. *)
Definition exit_if_killed (f : trapframe) s : res (bool * kst) :=
  let? (k, s) := killed_now s in
  if k && (Z.land (tf_cs f) 3 =? DPL_USER) then
    let? s := exit_to_sched s in Ok (true, s)
  else Ok (false, s).

(** [trap] with the frame at [tfa]; [None] when the process is gone. *)
Definition trap (fuel : nat) (tfa : Z) s tl : res (option (kst * spinlock) * kst) :=
  let f := frames s tfa in
  if tf_trapno f =? T_SYSCALL then
    let? (c, s) := curproc s in
    let? pr := getp c s in
    if negb (killed pr =? 0) then let? s := exit_to_sched s in Ok (None, s)
    else
      let? s := modp c (set_tf tfa) s in
      let? (r, s) := syscall fuel s tl in
      match r with
      | None => Ok (None, s)
      | Some (s, tl) =>
          let? (c, s) := curproc s in
          let? pr := getp c s in
          if negb (killed pr =? 0) then let? s := exit_to_sched s in Ok (None, s)
          else Ok (Some (s, tl), s)
      end
  else
    let? (s, tl) := dispatch_trap f s tl in
    let? (gone, s) := exit_if_killed f s in
    if gone then Ok (None, s)
    else
      let? (p, s) := myproc s in
      let? (s, tl) :=
        (match p with
         | Some c =>
             let? pr := getp c s in
             if bool_decide (state pr = RUNNING) && (tf_trapno f =? T_IRQ0 + IRQ_TIMER)
             then yield resume s tl else Ok (s, tl)
         | None => Ok (s, tl)
         end) in
      let? (gone, s) := exit_if_killed f s in
      if gone then Ok (None, s) else Ok (Some (s, tl), s).

End Args.
End Syscall.

(** * Properties *)

Section ArgSpecs.
Import Spinlock Ptable Syscall.
Context `{SV : Services} (um : mem).
Implicit Types (s : kst) (c p : nat) (pr : proc).

(** CPU [c] runs process [p], at any nesting depth. *)
Definition runs c p s : Prop :=
  exists cp, cpu_here (mach s) c cp /\ cli_ok (mach s) cp /\ cpu_proc cp = Some p.

Lemma curproc_runs c p s :
  runs c p s -> exists m, curproc s = Ok (p, set_mach m s) /\ runs c p (set_mach m s).
Proof.
  intros (cp & Hc & Hok & Hp). unfold curproc, myproc.
  destruct (push_pop (mach s) c cp Hc Hok) as (m & -> & Hc' & He' & Hpop).
  cbn [res_bind]. rewrite (mycpu_here _ _ _ Hc' He'). cbn [res_bind].
  rewrite (get_cpu_here _ _ _ Hc'). cbn [res_bind]. rewrite Hpop. cbn [res_bind].
  rewrite proc_pushed, Hp. eexists. split; [done|].
  exists (set_ncli (ncli cp) (pushed (mach s) cp)). destruct Hok as [H0 Hif].
  split; [apply (cpu_here_put _ _ cp); [exact Hc | cbn; apply apicid_pushed]|].
  split; [by split|]. change (cpu_proc (pushed (mach s) cp) = Some p). by rewrite proc_pushed.
Qed.

Lemma fetchint_ok c p s pr addr :
  runs c p s -> pt_proc s !! p = Some pr -> 0 <= sz pr <= KERNBASE -> 0 <= addr < 2 ^ 32 ->
  exists m, runs c p (set_mach m s) /\
    fetchint um addr s =
      Ok (if addr + 4 <=? sz pr then (0, Some (s32 (load32 um addr)), set_mach m s)
          else (-1, None, set_mach m s)).
Proof.
  intros Hr Hp Hsz Ha. unfold fetchint. destruct (curproc_runs c p s Hr) as (m & -> & Hr').
  cbn [res_bind]. rewrite (getp_lookup p _ pr) by done. cbn [res_bind].
  exists m. split; [done|]. unfold KERNBASE in Hsz.
  destruct (Z.leb_spec (addr + 4) (sz pr)) as [Hin|Hout].
  - rewrite u32_small by lia. rewrite (proj2 (Z.leb_gt _ _)), (proj2 (Z.ltb_ge _ _)) by lia. cbn [orb].
    unfold uread32. rewrite (proj2 (Z.leb_le 0 _)), (proj2 (Z.leb_le (addr + 4) _)) by lia. done.
  - destruct (Z.leb_spec (sz pr) addr); cbn [orb]; [done|].
    rewrite u32_small by lia. by rewrite (proj2 (Z.ltb_lt _ _)) by lia.
Qed.

Lemma argint_ok c p s pr n :
  runs c p s -> pt_proc s !! p = Some pr -> 0 <= sz pr <= KERNBASE ->
  exists m r i, runs c p (set_mach m s) /\ argint um n s = Ok (r, i, set_mach m s) /\
    ((r = 0 /\ exists v, i = Some v /\ - 2 ^ 31 <= v < 2 ^ 31) \/ (r = -1 /\ i = None)).
Proof.
  intros Hr Hp Hsz. unfold argint. destruct (curproc_runs c p s Hr) as (m & -> & Hr').
  cbn [res_bind]. rewrite (getp_lookup p _ pr) by done. cbn [res_bind].
  destruct (fetchint_ok c p (set_mach m s) pr
    (u32 (tf_esp (frames (set_mach m s) (tf pr)) + 4 + 4 * n)) Hr' Hp Hsz) as (m' & Hr2 & ->).
  { apply u32_range. }
  destruct (_ <=? _).
  - exists m', 0, (Some (s32 (load32 um (u32 (tf_esp (frames (set_mach m s) (tf pr)) + 4 + 4 * n))))).
    split_and!; try done. left. split; [done|]. eexists. split; [done | apply s32_range].
  - by exists m', (-1), None; split_and!; try done; right.
Qed.

(** A pointer [argptr] accepts lies with all of its [size] bytes inside the
    memory of the process, and the arguments themselves are only read there:
    no system call argument makes the kernel read outside of it. *)
Theorem argptr_safe c p s pr n size :
  runs c p s -> pt_proc s !! p = Some pr -> 0 <= sz pr <= KERNBASE -> - 2 ^ 31 <= size < 2 ^ 31 ->
  exists r i s', argptr um n size s = Ok (r, i, s') /\ pt_proc s' = pt_proc s /\
    ((r = 0 /\ exists a, i = Some a /\ 0 <= a /\ 0 <= size /\ a < sz pr /\ a + size <= sz pr) \/
     (r = -1 /\ i = None)).
Proof.
  intros Hr Hp Hsz Hsize. unfold argptr. destruct (curproc_runs c p s Hr) as (m & -> & Hr').
  cbn [res_bind]. destruct (argint_ok c p (set_mach m s) pr n Hr' Hp Hsz)
    as (m' & r & i & Hr2 & -> & Hcase). cbn [res_bind].
  destruct Hcase as [(-> & v & -> & Hv)|[-> ->]].
  2: { do 3 eexists. split; [done|]. split; [done|]. by right. }
  cbn [Z.ltb Z.compare]. rewrite (getp_lookup p _ pr) by done. cbn [res_bind].
  pose proof (u32_range v) as Hu. unfold KERNBASE in Hsz.
  destruct (Z.ltb_spec size 0); cbn [orb]; [do 3 eexists; split; [done|]; split; [done|]; by right|].
  destruct (Z.leb_spec (sz pr) (u32 v)); cbn [orb]; [do 3 eexists; split; [done|]; split; [done|]; by right|].
  rewrite (u32_small (u32 v + size)) by lia.
  destruct (Z.ltb_spec (sz pr) (u32 v + size)); [do 3 eexists; split; [done|]; split; [done|]; by right|].
  do 3 eexists. split; [done|]. split; [done|]. left. split; [done|]. exists (u32 v). split_and!; done || lia.
Qed.

Lemma scan_nul_ok n size start a :
  0 <= a -> a + Z.of_nat n <= size -> start <= a ->
  (forall x, start <= x < a -> um x <> 0) ->
  exists r, scan_nul um n size start a = Ok r /\
    ((r = -1 /\ forall x, start <= x < a + Z.of_nat n -> um x <> 0) \/
     (0 <= r /\ start + r < a + Z.of_nat n /\ um (start + r) = 0 /\
      forall x, start <= x < start + r -> um x <> 0)).
Proof.
  revert a; induction n as [|n IH]; intros a Ha Hend Hs Hnz; cbn [scan_nul].
  { exists (-1). split; [done|]. left. split; [done|]. intros x Hx. apply Hnz. lia. }
  unfold uread8. rewrite (proj2 (Z.leb_le 0 a)), (proj2 (Z.ltb_lt a size)) by lia. cbn [andb res_bind].
  destruct (Z.eqb_spec (um a) 0) as [E|E].
  - exists (a - start). split; [done|]. right. replace (start + (a - start)) with a by lia.
    split_and!; try done; lia.
  - destruct (IH (a + 1)) as (r & -> & Hcase); [lia | lia | lia | |].
    { intros x Hx. destruct (Z.eq_dec x a) as [->|]; [done|]. apply Hnz. lia. }
    exists r. split; [done|]. replace (a + Z.of_nat (S n)) with (a + 1 + Z.of_nat n) by lia. done.
Qed.

(** [fetchstr] accepts exactly the addresses at which a NUL-terminated
    string ends inside the memory of the process, and returns its length; it
    reads no byte outside. *)
Theorem fetchstr_spec c p s pr addr :
  runs c p s -> pt_proc s !! p = Some pr -> 0 <= addr ->
  exists r i s', fetchstr um addr s = Ok (r, i, s') /\ pt_proc s' = pt_proc s /\
    ((0 <= r /\ i = Some addr /\ addr + r < sz pr /\ um (addr + r) = 0 /\
      forall x, addr <= x < addr + r -> um x <> 0) \/
     (r = -1 /\ forall x, addr <= x < sz pr -> um x <> 0)).
Proof.
  intros Hr Hp Ha. unfold fetchstr. destruct (curproc_runs c p s Hr) as (m & -> & Hr').
  cbn [res_bind]. rewrite (getp_lookup p _ pr) by done. cbn [res_bind].
  destruct (Z.leb_spec (sz pr) addr) as [Hout|Hin].
  { do 3 eexists. split; [done|]. split; [done|]. right. split; [done|]. intros x Hx. lia. }
  destruct (scan_nul_ok (Z.to_nat (sz pr - addr)) (sz pr) addr addr Ha) as (r & -> & Hcase); [lia | lia | lia|].
  cbn [res_bind]. do 3 eexists. split; [done|]. split; [done|].
  rewrite Z2Nat.id in Hcase by lia. replace (addr + (sz pr - addr)) with (sz pr) in Hcase by lia.
  destruct Hcase as [[-> H]|(H1 & H2 & H3 & H4)]; [by right | by left].
Qed.

(** A system call number that names no call prints a message and returns -1
    to the process; nothing else changes. *)
Theorem syscall_unknown resume sysfile c p fuel s pr tl :
  runs c p s -> pt_proc s !! p = Some pr ->
  s32 (tf_eax (frames s (tf pr))) <= 0 \/ 22 < s32 (tf_eax (frames s (tf pr))) ->
  exists s', syscall um resume sysfile fuel s tl = Ok (Some (s', tl), s') /\
    pt_proc s' = pt_proc s /\ tf_eax (frames s' (tf pr)) = 2 ^ 32 - 1 /\
    forall a, a <> tf pr -> frames s' a = frames s a.
Proof.
  intros Hr Hp Hnum. unfold syscall. destruct (curproc_runs c p s Hr) as (m & -> & Hr').
  cbn [res_bind]. rewrite (getp_lookup p _ pr) by done. cbn [res_bind frames set_mach].
  set (num := s32 _) in *.
  assert ((0 <? num) && (num <? 23) = false) as ->.
  { apply andb_false_iff. destruct Hnum; [left; by apply Z.ltb_ge | right; apply Z.ltb_ge; lia]. }
  unfold set_eax. rewrite (getp_lookup p _ pr) by done. cbn [res_bind].
  eexists. split; [done|]. split; [done|]. cbn. unfold upd. split.
  - by rewrite Z.eqb_refl.
  - intros a Hne. by rewrite (proj2 (Z.eqb_neq _ _)).
Qed.

(** [sys_sleep] returns 0 only after the ticks it was asked for: the clock
    has moved on by [n] modulo 2^32 as an unsigned number.  The comparison is
    unsigned, so that for a negative argument this means 2^31 ticks and more. *)
Theorem sys_sleep_waits resume fuel ticks0 n s tl s' tl' :
  sleep_loop resume fuel ticks0 n s tl = Ok (0, s', tl') ->
  u32 n <= u32 (clock s' - ticks0) /\ (- 2 ^ 31 <= n < 0 -> 2 ^ 31 <= u32 (clock s' - ticks0)).
Proof.
  intros H. assert (u32 n <= u32 (clock s' - ticks0)) as Hge.
  { revert s tl H. induction fuel as [|fuel IH]; intros s tl; cbn [sleep_loop]; [done|].
    destruct (Z.ltb_spec (u32 (clock s - ticks0)) (u32 n)) as [Hlt|Hge].
    - intros H. apply res_bind_Ok in H as ([c s1] & _ & H). apply res_bind_Ok in H as (pr & _ & H).
      destruct (negb _); apply res_bind_Ok in H as ([s2 t2] & _ & H); [done | eauto].
    - intros H. apply res_bind_Ok in H as ([s2 t2] & Hu & H). injection H as <- <-.
      unfold unlock_ticks in Hu. apply res_bind_Ok in Hu as ([k m] & _ & Hu). by injection Hu as <- <-. }
  split; [done|]. intros Hn. unfold u32 in Hge |- *. rewrite <- (Z_mod_plus_full n 1) in Hge.
  rewrite (Z.mod_small (n + 1 * 2 ^ 32)) in Hge by lia. lia.
Qed.
End ArgSpecs.

(** * The example machine *)

Section Examples.
Import Syscall.

Lemma demo_runs : runs 0 0 (demo_in 0).
Proof. by exists (demo_cpu 0 (Some 0%nat)). Qed.

Lemma argptr_safe_witness : exists r i s', argptr demo_mem 0 4 (demo_in 0) = Ok (r, i, s') /\
  pt_proc s' = pt_proc (demo_in 0).
Proof.
  destruct (argptr_safe demo_mem 0 0 (demo_in 0) (demo_proc SLEEPING 1 0) 0 4) as (r & i & s' & H1 & H2 & _).
  - apply demo_runs.
  - done.
  - cbn. unfold KERNBASE. lia.
  - lia.
  - exists r, i, s'. split; [exact H1 | exact H2].
Defined.

(** The string at 100 is three bytes long. *)
Lemma fetchstr_spec_witness : exists r i s', fetchstr demo_mem 100 (demo_in 0) = Ok (r, i, s') /\ r = 3.
Proof.
  destruct (fetchstr_spec demo_mem 0 0 (demo_in 0) (demo_proc SLEEPING 1 0) 100) as (r & i & s' & H1 & _ & H2).
  - apply demo_runs.
  - done.
  - lia.
  - exists r, i, s'. split; [exact H1|].
    assert (match fetchstr demo_mem 100 (demo_in 0) with Ok (r, _, _) => r = 3 | _ => False end) as H
      by (vm_compute; done).
    rewrite H1 in H. exact H.
Defined.

Lemma syscall_unknown_witness : exists s',
  syscall demo_mem demo_resume (fun _ s => Ok (0, s)) 1 (demo_in 0) demo_lock = Ok (Some (s', demo_lock), s').
Proof.
  destruct (syscall_unknown demo_mem demo_resume (fun _ s => Ok (0, s)) 0 0 1 (demo_in 0)
    (demo_proc SLEEPING 1 0) demo_lock) as (s' & H & _).
  - apply demo_runs.
  - done.
  - left. vm_compute. done.
  - exists s'. exact H.
Defined.
End Examples.
