(* ===== verification/Fork.v ===== *)
(** [fork] and [growproc] of [proc.c] with the address spaces of [vm.c]: the
    services of the process table are those of [Vm], and the theorems of the
    address spaces, the allocator and the process table are put together. *)

From stdpp Require Import gmap.
From S2P Require Import Prelude CString Spinlock Kalloc Proc Demo MlfqFacts ProcFacts Vm VmFacts AddrSpace SpaceOps SpaceSpec Syscall.

(** The services on address spaces are the functions of [vm.c]. *)
Class VmServices `{SV : Services} (kdata : Z) : Prop := {
  vs_copyuvm d z h m : copyuvm d z h m = Vm.copyuvm kernel_end kdata d z h m;
  vs_allocuvm d o n h m : allocuvm d o n h m = Vm.allocuvm kernel_end d o n h m;
  vs_deallocuvm d o n h m : deallocuvm d o n h m = Vm.deallocuvm kernel_end d o n h m;
  vs_freevm d h m : freevm d h m = Vm.freevm kernel_end d h m;
  vs_setupkvm h m : setupkvm h m = Vm.setupkvm kernel_end kdata h m;
  vs_inituvm d i z h m : inituvm d i z h m = Vm.inituvm d i z h m
}.

(** * Duplicating the files *)

Section Files.
Import Ptable.
Context `{SV : Services}.
Implicit Types (s : kst) (c np : nat) (cp ch : proc).

Lemma put_child_same np ch s : pt_proc s !! np = Some ch -> set_fs (fs s) (putp np ch s) = s.
Proof. intros H. unfold putp. rewrite list_insert_id by done. by destruct s. Qed.

(** The files of the parent are given to the child from descriptor [i] on. *)
Lemma dup_files_ok (P : Fs -> Prop) c np cp : c <> np -> length (ofile cp) = NOFILE ->
  (forall f x, f ∈ ofile cp -> f <> 0 -> P x -> exists x', filedup f x = Ok x' /\ P x') ->
  forall n (i : nat) s ch, pt_proc s !! c = Some cp -> pt_proc s !! np = Some ch -> length (ofile ch) = NOFILE -> (n + i = NOFILE)%nat -> P (fs s) ->
  (forall j, (i <= j < NOFILE)%nat -> ofile ch !! j = Some 0) ->
  exists x l, dup_files n (Z.of_nat i) c np s = Ok (set_fs x (putp np (set_ofile l ch) s)) /\ P x /\
    l = take i (ofile ch) ++ drop i (ofile cp).
Proof.
  intros Hne Hlen Hdup. induction n as [|n IH]; intros i s ch Hc Hn Hlch Hi HP Hz; cbn [dup_files].
  - exists (fs s), (ofile ch). replace (set_ofile (ofile ch) ch) with ch by (by destruct ch). rewrite put_child_same by done. split_and!; try done.
    rewrite take_ge, drop_ge, app_nil_r by lia. done.
  - assert (i < NOFILE)%nat as Hlt by lia. destruct (lookup_lt_is_Some_2 (ofile cp) i ltac:(lia)) as [f Hf].
    rewrite (getp_lookup c s cp Hc). cbn [res_bind]. rewrite (zget_of_nat _ _ _ _ Hf). cbn [res_bind].
    replace (Z.of_nat i + 1) with (Z.of_nat (S i)) by lia. destruct (Z.eqb_spec f 0) as [->|Hf0]; cbn [res_bind].
    + destruct (IH (S i) s ch) as (x & l & -> & HPx & ->); try done; try lia; [intros j Hj; apply Hz; lia|].
      exists x, (take (S i) (ofile ch) ++ drop (S i) (ofile cp)). split_and!; try done.
      rewrite (take_S_r _ _ 0) by (apply Hz; lia). rewrite (drop_S (ofile cp) 0 i) by done. by rewrite <- app_assoc.
    + destruct (Hdup f (fs s)) as (x1 & -> & HP1); [by eapply list_elem_of_lookup_2|done|done|]. cbn [res_bind].
      rewrite (getp_lookup np _ ch) by done. cbn [res_bind]. rewrite zset_in by lia. cbn [res_bind]. rewrite Nat2Z.id.
      assert (np < length (pt_proc s))%nat as Hnl by by eapply lookup_lt_Some.
      set (ch1 := set_ofile (<[i := f]> (ofile ch)) ch). set (s1 := putp np ch1 (set_fs x1 s)).
      destruct (IH (S i) s1 ch1) as (x & l & -> & HPx & ->); try done; try lia.
      * unfold s1. by rewrite lookup_putp_ne.
      * by apply lookup_putp.
      * cbn. by rewrite length_insert.
      * intros j Hj. cbn. rewrite list_lookup_insert_ne by lia. apply Hz. lia.
      * exists x, (take (S i) (<[i := f]> (ofile ch)) ++ drop (S i) (ofile cp)). split; [|split; [done|]].
        -- f_equal. unfold s1, putp. cbn. by rewrite list_insert_insert_eq.
        -- rewrite (take_S_r _ _ f) by (apply list_lookup_insert_eq; lia). rewrite take_insert_ge by lia.
           rewrite (drop_S (ofile cp) f i) by done. by rewrite <- app_assoc.
Qed.
End Files.

(** * fork *)

Section Fork.
Import Kalloc Ptable.
Context `{SV : Services} (Hkend : kend_above kernel_end).
Context (kdata : Z) (kdata_mod : kdata mod PGSIZE = 0) (kdata_range : Vm.KERNLINK < kdata < P2V PHYSTOP) `{!VmServices kdata}.
Context (P : Fs -> Prop).
Implicit Types (s : kst) (c np : nat) (cp pr : proc) (L F : list Z) (A B : aspace).

(** Process [c] can call [fork]: slot [np] is free, [mem] is the first free
    page and [L] the others, [B] is the address space of the caller, [l] is
    queue 0.  [P] is what the file system needs to count one more reference to
    the files and the directory of the process. *)
Record forkable i c cp np pr l mem L B F s : Prop := {
  fk_runs : runs i c s;
  fk_pt : locked (pt_lock s) = 0;
  fk_cp : pt_proc s !! c = Some cp;
  fk_used : state cp <> UNUSED;
  fk_free : find_unused (pt_proc s) 0 = Some np;
  fk_pr : pt_proc s !! np = Some pr;
  fk_pid : pid pr <= 0;
  fk_q : q_rep (q0 s) l;
  fk_ql : (length l < NPROC)%nat;
  fk_qp : q_priority (q0 s) = 0;
  fk_mem : owns kernel_end (ph s) (mem :: L) B F;
  fk_dir : a_dir B = pgdir cp;
  fk_sz : 0 <= sz cp <= KERNBASE;
  fk_pages n : 0 <= n < npages (sz cp) -> is_Some (a_ups B !! n);
  fk_fds : length (ofile cp) = NOFILE;
  fk_nofds : ofile pr = replicate NOFILE 0;
  fk_fs : P (fs s);
  fk_dup f x : f ∈ ofile cp -> f <> 0 -> P x -> exists x', filedup f x = Ok x' /\ P x';
  fk_idup x : P x -> exists x', idup (cwd cp) x = Ok x' /\ P x'
}.

(** The child's entry. *)
Definition offspring c cp (id mem d : Z) pr : proc :=
  set_state RUNNABLE (set_name (name_cut (name cp)) (set_cwd (cwd cp) (set_ofile (ofile cp)
    (set_parent (Some c) (set_sz (sz cp) (set_pgdir d (with_stack mem (embryo id pr)))))))).

Lemma runs_mach_ok i c s : runs i c s -> mach_ok (mach s).
Proof. intros (cp & H1 & H2 & _). by exists i, cp. Qed.

(** The slot is taken: what [allocproc] leaves, with the kernel stack owned. *)
Lemma fork_alloc i c cp np pr l mem L B F s : forkable i c cp np pr l mem L B F s -> c <> np /\
  exists s', allocproc s = Ok (Some np, s') /\ pt_ok s' /\
    pt_proc s' = <[np := with_stack mem (embryo (nextpid s) pr)]> (pt_proc s) /\ nextpid s' = s32 (nextpid s + 1) /\
    q_rep (q0 s') (l ++ [np]) /\ q1 s' = q1 s /\ q2 s' = q2 s /\ frames s' = frames s /\ fs s' = fs s /\
    p_mem (ph s') = p_mem (ph s) /\ owns kernel_end (ph s') L B (mem :: F).
Proof.
  intros [H1 H2 H3 H4 H5 H6 H7 H8 H9 H10 H11 H12 H13 H14 H15 H16 H17 H18 H19]. split.
  { intros ->. apply find_unused_Some in H5 as (pr' & Hp & _ & Hu & _). rewrite Nat.sub_0_r in Hp. congruence. }
  destruct (allocproc_rep (kend_le (kend:=kernel_end)) s np pr l mem L) as (s' & E & K1 & K2 & K3 & K4 & K5 & K6 & K7 & _ & _ & K8 & K9 & K10); try done.
  { split; [done|]. by eapply runs_mach_ok. }
  { intros k1 m1 s1. exists (q0 s). unfold cleanup. by rewrite (proj2 (Z.ltb_ge _ _)). }
  { apply H11. }
  exists s'. split_and!; try done. destruct H11 as [J1 J2 J3 J4]. split; [done|by rewrite K8| |].
  - cbn [app] in J3. rewrite !app_assoc in J3 |- *. by rewrite <- Permutation_middle.
  - rewrite <- Permutation_middle. apply Forall_cons. split; [|done]. pose proof (ki_pages _ _ _ J1) as Hp. by apply Forall_cons in Hp as [? _].
Qed.

(** The second half of [fork], once the child has its address space. *)
Definition fork_rest c np cp s : res (Z * kst) :=
  let? s := modp np (set_sz (sz cp)) s in
  let? s := modp np (set_parent (Some c)) s in
  let? pr := getp np s in
  let s := set_frames (upd (frames s) (tf pr) (frames s (tf cp))) s in
  let s := set_frames (upd (frames s) (tf pr) (set_tf_eax 0 (frames s (tf pr)))) s in
  let? s := dup_files NOFILE 0 c np s in
  let? x := idup (cwd cp) (fs s) in
  let s := set_fs x s in
  let? s := modp np (set_cwd (cwd cp)) s in
  let? s := modp np (set_name (name_cut (name cp))) s in
  let? pr := getp np s in
  let id := pid pr in
  let? s := acquire_pt s in
  let? s := modp np (set_state RUNNABLE) s in
  let? s := release_pt s in
  Ok (id, s).

Lemma fork_rest_ok c np cp ch s : c <> np -> pt_ok s -> pt_proc s !! c = Some cp -> pt_proc s !! np = Some ch ->
  length (ofile cp) = NOFILE -> ofile ch = replicate NOFILE 0 -> P (fs s) ->
  (forall f x, f ∈ ofile cp -> f <> 0 -> P x -> exists x', filedup f x = Ok x' /\ P x') ->
  (forall x, P x -> exists x', idup (cwd cp) x = Ok x' /\ P x') ->
  exists s', fork_rest c np cp s = Ok (pid ch, s') /\ pt_ok s' /\ P (fs s') /\ ph s' = ph s /\
    (q0 s', q1 s', q2 s') = (q0 s, q1 s, q2 s) /\ nextpid s' = nextpid s /\
    frames s' (tf ch) = set_tf_eax 0 (frames s (tf cp)) /\ (forall a, a <> tf ch -> frames s' a = frames s a) /\
    pt_proc s' = <[np := set_state RUNNABLE (set_name (name_cut (name cp)) (set_cwd (cwd cp) (set_ofile (ofile cp)
      (set_parent (Some c) (set_sz (sz cp) ch)))))]> (pt_proc s).
Proof.
  intros Hne Hok Hc Hn Hl Hz HP Hdup Hidup. assert (np < length (pt_proc s))%nat as Hnl by by eapply lookup_lt_Some.
  unfold fork_rest. rewrite (modp_lookup np _ s ch Hn). cbn [res_bind].
  rewrite (modp_lookup np _ _ (set_sz (sz cp) ch)) by (by apply lookup_putp). cbn [res_bind].
  set (ch2 := set_parent (Some c) (set_sz (sz cp) ch)). set (s2 := putp np ch2 _).
  rewrite (getp_lookup np s2 ch2) by (apply lookup_putp; by rewrite length_putp). cbn [res_bind].
  set (s3 := set_frames _ (set_frames _ s2)).
  destruct (dup_files_ok P c np cp Hne Hl Hdup NOFILE 0 s3 ch2) as (x & l & E & HPx & ->); try done.
  { unfold s3, s2. cbn. by rewrite !list_lookup_insert_ne by done. }
  { apply lookup_putp. by rewrite length_putp. }
  { cbn. rewrite Hz. by rewrite length_replicate. }
  { intros j Hj. cbn. rewrite Hz. apply lookup_replicate_2. lia. }
  change (Z.of_nat 0) with 0 in E. rewrite E. cbn [res_bind]. clear E. rewrite drop_0. cbn [take app].
  destruct (Hidup x HPx) as (x' & E & HPx'). change (fs (set_fs x ?a)) with x. rewrite E. cbn [res_bind]. clear E.
  set (ch4 := set_ofile (ofile cp) ch2). set (s4 := set_fs x' _).
  assert (pt_proc s4 = <[np := ch4]> (pt_proc s)) as E4 by (cbn; by rewrite !list_insert_insert_eq).
  rewrite (modp_lookup np _ s4 ch4) by (rewrite E4; by apply list_lookup_insert_eq). cbn [res_bind].
  rewrite (modp_lookup np _ _ (set_cwd (cwd cp) ch4)) by (apply lookup_putp; rewrite E4; by rewrite length_insert). cbn [res_bind].
  set (ch5 := set_name _ (set_cwd _ ch4)). set (s5 := putp np ch5 _).
  assert (pt_proc s5 = <[np := ch5]> (pt_proc s)) as E5 by (unfold s5, putp; cbn; by rewrite !list_insert_insert_eq).
  assert (pt_proc s5 !! np = Some ch5) as L5 by (rewrite E5; by apply list_lookup_insert_eq).
  rewrite (getp_lookup np s5 ch5 L5). cbn [res_bind].
  assert (pt_ok s5) as Hok5 by done. destruct (pt_lock_pair s5 Hok5) as (l1 & m1 & -> & Hrel). cbn [res_bind].
  rewrite (modp_lookup np _ _ ch5) by exact L5. cbn [res_bind]. match goal with |- context [release_pt ?u] => destruct (Hrel u) as (l2 & m2 & -> & Hl2 & Hm2 & _); [done|done|] end.
  cbn [res_bind]. eexists. split; [done|]. split_and!; try done.
  - unfold s5, s4, s3. cbn. unfold upd. by rewrite !Z.eqb_refl.
  - intros a Ha. unfold s5, s4, s3. cbn. unfold upd. change (tf ch2) with (tf ch). by rewrite !(proj2 (Z.eqb_neq _ _) Ha).
  - cbn. by rewrite !list_insert_insert_eq.
Qed.

(** What [fork] does when there is no memory for the child. *)
Lemma fork_undo np ch mem L B F s : pt_ok s -> pt_proc s !! np = Some ch -> kstack ch = mem -> owns kernel_end (ph s) L B (mem :: F) ->
  exists s', (let? pr := getp np s in
      let? (h, m) := kfree kernel_end (kstack pr) (ph s) (mach s) in
      let s := set_mach m (set_ph h s) in
      let? s := modp np (set_kstack 0) s in
      let? s := modp np (set_state UNUSED) s in
      Ok (-1, s)) = Ok (-1, s') /\ pt_ok s' /\ fs s' = fs s /\ nextpid s' = nextpid s /\ (q0 s', q1 s', q2 s') = (q0 s, q1 s, q2 s) /\
    frames s' = frames s /\ pt_proc s' = <[np := set_state UNUSED (set_kstack 0 ch)]> (pt_proc s) /\
    owns kernel_end (ph s') (mem :: L) B F /\ same_on (pages B ++ F) (p_mem (ph s)) (p_mem (ph s')).
Proof.
  intros Hok Hn Hk O. rewrite (getp_lookup np s ch Hn). cbn [res_bind]. rewrite Hk. assert (np < length (pt_proc s))%nat as Hnl by by eapply lookup_lt_Some.
  destruct (kfree_frame (ph s) (mach s) L B F mem O (proj2 Hok)) as (h & m & -> & Hm & O' & S'). cbn [res_bind].
  rewrite (modp_lookup np _ _ ch) by done. cbn [res_bind].
  rewrite (modp_lookup np _ _ (set_kstack 0 ch)) by (by apply lookup_putp). cbn [res_bind]. eexists. split; [done|]. split_and!; try done.
  - split; [apply Hok|done].
  - cbn. by rewrite list_insert_insert_eq.
Qed.

End Fork.

(** * growproc *)

Section Grow.
Import Kalloc Ptable.
Context `{SV : Services} (Hkend : kend_above kernel_end) (kdata : Z) `{!VmServices kdata}.
Implicit Types (s : kst) (c : nat) (cp : proc) (L F : list Z) (A : aspace).

(** Process [c] runs and [A] is its address space: the pages up to its size. *)
Record grows i c cp L A F s : Prop := {
  gr_runs : runs i c s;
  gr_cp : pt_proc s !! c = Some cp;
  gr_mem : owns kernel_end (ph s) L A F;
  gr_dir : a_dir A = pgdir cp;
  gr_sz : 0 <= sz cp < KERNBASE;
  gr_pages n : is_Some (a_ups A !! n) <-> 0 <= n < npages (sz cp);
  gr_stack : kstack cp <> 0
}.

Lemma switchuvm_ok p pr s : mach_ok (mach s) -> pt_proc s !! p = Some pr -> kstack pr <> 0 -> pgdir pr <> 0 ->
  exists m, switchuvm p s = Ok (set_mach m (set_cr3 (V2P (pgdir pr)) s)) /\ mach_ok m.
Proof.
  intros (i & cp & Hc & Hok) Hp Hk Hd. unfold switchuvm. rewrite (getp_lookup p s pr Hp). cbn [res_bind].
  rewrite (proj2 (Z.eqb_neq _ _) Hk), (proj2 (Z.eqb_neq _ _) Hd).
  destruct (Spinlock.push_pop (mach s) i cp Hc Hok) as (m & -> & Hc' & He' & Hpop). cbn [res_bind].
  rewrite (Spinlock.mycpu_here _ _ _ Hc' He'). cbn [res_bind]. rewrite Hpop. cbn [res_bind]. eexists. split; [done|].
  exists i, (set_ncli (ncli cp) (Spinlock.pushed (mach s) cp)). destruct Hok as [H0 Hif].
  split; [apply (Spinlock.cpu_here_put _ _ cp); [exact Hc | cbn; apply Spinlock.apicid_pushed]|]. by split.
Qed.

(** The end of [growproc]. *)
Lemma grow_done c cp z s : mach_ok (mach s) -> pt_proc s !! c = Some cp -> kstack cp <> 0 -> pgdir cp <> 0 ->
  exists s', (let? s := modp c (set_sz z) s in let? s := switchuvm c s in Ok (0, s)) = Ok (0, s') /\ mach_ok (mach s') /\ ph s' = ph s /\
    cr3 s' = V2P (pgdir cp) /\ pt_proc s' = <[c := set_sz z cp]> (pt_proc s).
Proof.
  intros Hm Hp Hk Hd. rewrite (modp_lookup c _ s cp Hp). cbn [res_bind].
  destruct (switchuvm_ok c (set_sz z cp) (putp c (set_sz z cp) s)) as (m & -> & Hm'); try done.
  - apply lookup_putp. by eapply lookup_lt_Some.
  - cbn [res_bind]. eexists. split; [done|]. by split_and!.
Qed.

Lemma grows_mach i c cp L A F s m : grows i c cp L A F s -> runs i c (set_mach m s) -> grows i c cp L A F (set_mach m s).
Proof. intros [] H. by split. Qed.

Lemma grows_pgdir i c cp L A F s : grows i c cp L A F s -> pgdir cp <> 0.
Proof.
  intros H. rewrite <- (gr_dir _ _ _ _ _ _ _ H). destruct (owns_page _ _ _ _ (a_dir A) (gr_mem _ _ _ _ _ _ _ H)) as [Hok _].
  - apply elem_of_app. left. apply dir_in.
  - pose proof (page_ok_range kernel_end kend_le _ Hok). unfold KERNBASE in *. lia.
Qed.

Lemma user_byte_None mm A va : 0 <= va -> user_byte mm A va = None <-> ~ is_Some (a_ups A !! (va / PGSIZE)).
Proof. intros H. unfold user_byte. rewrite <- eq_None_not_Some. by destruct (a_ups A !! _). Qed.

(** Beyond the process there is no page. *)
Lemma grows_top i c cp L A F s va : grows i c cp L A F s -> PGSIZE * npages (sz cp) <= va -> user_byte (p_mem (ph s)) A va = None.
Proof.
  intros H Hva. assert (0 <= npages (sz cp)) as H0 by (apply Z.div_pos; pose proof (gr_sz _ _ _ _ _ _ _ H); unfold PGSIZE; lia).
  assert (0 <= va) by (unfold PGSIZE in *; lia). apply user_byte_None; [done|]. rewrite (gr_pages _ _ _ _ _ _ _ H), npages_index by done. lia.
Qed.

Lemma npages_mono a b : a <= b -> npages a <= npages b.
Proof. intros H. apply Z.div_le_mono; unfold PGSIZE; lia. Qed.

(** What [growproc] to [z] bytes leaves of the memory. *)
Definition resized (h : phys) L A F (h' : phys) L' A' : Prop :=
  owns kernel_end h' L' A' F /\ a_dir A' = a_dir A /\ L' ++ pages A' ≡ₚ L ++ pages A /\ same_on F (p_mem h) (p_mem h').

(** The process after a change of its size to [z]. *)
Definition grown c cp z A s A' s' : Prop :=
  pt_proc s' = <[c := set_sz z cp]> (pt_proc s) /\ cr3 s' = V2P (pgdir cp) /\
  forall va, 0 <= va -> user_byte (p_mem (ph s')) A' va =
    if va <? PGSIZE * npages z then (if va <? PGSIZE * npages (sz cp) then user_byte (p_mem (ph s)) A va else Some 0) else None.

(** The bytes after [allocuvm] and after [deallocuvm]. *)
Lemma grow_up_bytes mm mm' A A' o z va : o <= z -> (forall va, PGSIZE * npages o <= va -> user_byte mm A va = None) ->
  (if (z =? z) && (PGSIZE * npages o <=? va) && (va <? PGSIZE * npages z)
   then user_byte mm' A' va = Some 0 /\ user_flags mm' A' va = 7 else user_byte mm' A' va = user_byte mm A va) ->
  user_byte mm' A' va = if va <? PGSIZE * npages z then (if va <? PGSIZE * npages o then user_byte mm A va else Some 0) else None.
Proof.
  intros Hoz Htop Hb. rewrite Z.eqb_refl in Hb. cbn [andb] in Hb. pose proof (npages_mono o z Hoz) as Hmono.
  destruct (Z.leb_spec (PGSIZE * npages o) va), (Z.ltb_spec va (PGSIZE * npages z)), (Z.ltb_spec va (PGSIZE * npages o));
    cbn [andb] in Hb; try lia; try done; try (by destruct Hb).
  - rewrite Hb. by apply Htop.
  - unfold PGSIZE in *. lia.
Qed.

Lemma grow_down_bytes mm mm' A A' o z va : z <= o -> (forall va, PGSIZE * npages o <= va -> user_byte mm A va = None) ->
  user_byte mm' A' va = (if (PGSIZE * npages z <=? va) && (va <? PGSIZE * npages o) then None else user_byte mm A va) ->
  user_byte mm' A' va = if va <? PGSIZE * npages z then (if va <? PGSIZE * npages o then user_byte mm A va else Some 0) else None.
Proof.
  intros Hoz Htop ->. pose proof (npages_mono z o Hoz) as Hmono.
  destruct (Z.leb_spec (PGSIZE * npages z) va), (Z.ltb_spec va (PGSIZE * npages z)), (Z.ltb_spec va (PGSIZE * npages o));
    cbn [andb]; try lia; try done; [by apply Htop|unfold PGSIZE in *; lia].
Qed.

(** C24: [growproc] by [n] bytes to a size between one byte and the
    kernel: it sets the size, the user addresses of the pages kept read what
    they read before, those of new pages read zero and those above are not
    mapped; the processor uses the directory of the process.  When memory runs
    out it returns -1 and nothing the process sees has changed.  No page is
    lost and nothing of others changes. *)
Theorem growproc_spec i c cp L A F s n : grows i c cp L A F s -> -2 ^ 31 <= n < 2 ^ 31 -> 0 < sz cp + n < KERNBASE ->
  exists r s' L' A', growproc n s = Ok (r, s') /\ mach_ok (mach s') /\ resized (ph s) L A F (ph s') L' A' /\
    (r = 0 /\ grown c cp (sz cp + n) A s A' s' \/
     r = -1 /\ pt_proc s' = pt_proc s /\ Z.of_nat (length L) <= 1025 + (npages (sz cp + n) - npages (sz cp)) /\
       (forall va, 0 <= va -> user_byte (p_mem (ph s')) A' va = user_byte (p_mem (ph s)) A va)).
Proof.
  intros H Hn Hnew. unfold growproc. destruct (curproc_runs i c s (gr_runs _ _ _ _ _ _ _ H)) as (m & -> & Hr). cbn [res_bind].
  pose proof (grows_pgdir _ _ _ _ _ _ _ H) as Hd. pose proof (fun va => grows_top _ _ _ _ _ _ _ va H) as Htop.
  destruct H as [_ Hcp Hmem Hdir Hsz Hpg Hst]. rewrite (getp_lookup c (set_mach m s) cp Hcp). cbn [res_bind]. rewrite u32_small by (unfold KERNBASE in *; lia).
  assert (mach_ok m) as Hm0 by (by apply (runs_mach_ok i c (set_mach m s))). change (ph (set_mach m s)) with (ph s). change (mach (set_mach m s)) with m.
  destruct (Z.ltb_spec 0 n) as [Hpos|Hle]; [|destruct (Z.ltb_spec n 0) as [Hneg|Hz]].
  - rewrite vs_allocuvm, <- Hdir.
    destruct (allocuvm_spec kernel_end Hkend F (ph s) m L A (sz cp) (sz cp + n) Hmem Hm0) as (r & h & m' & L' & A' & -> & Hm' & O' & D' & P' & S' & Hrr & Hb); try lia.
    { intros k Hk. apply eq_None_not_Some. rewrite Hpg. lia. }
    cbn [res_bind]. destruct Hrr as [->|[-> Hsh]].
    + rewrite (proj2 (Z.eqb_neq _ 0)) by lia.
      destruct (grow_done c cp (sz cp + n) (set_mach m' (set_ph h (set_mach m s)))) as (s' & E & Hm2 & Hph & Hcr & Hpt); try done.
      exists 0, s', L', A'. split; [exact E|]. split; [done|]. unfold grown. rewrite Hph. split; [done|]. left. split_and!; try done.
      intros va Hva. apply grow_up_bytes; [lia|done|by apply Hb].
    + eexists (-1), _, L', A'. split; [done|]. split; [done|]. split; [done|]. right. split_and!; try done.
      intros va Hva. specialize (Hb va Hva). by rewrite (proj2 (Z.eqb_neq 0 _)) in Hb by lia.
  - rewrite vs_deallocuvm, <- Hdir.
    destruct (deallocuvm_spec kernel_end Hkend F (ph s) m L A (sz cp) (sz cp + n) Hmem Hm0) as (h & m' & L' & A' & -> & Hm' & O' & D' & T' & P' & S' & Hb); try lia.
    cbn [res_bind]. rewrite (proj2 (Z.eqb_neq _ 0)) by lia.
    destruct (grow_done c cp (sz cp + n) (set_mach m' (set_ph h (set_mach m s)))) as (s' & E & Hm2 & Hph & Hcr & Hpt); try done.
    exists 0, s', L', A'. split; [exact E|]. split; [done|]. unfold grown. rewrite Hph. split.
    + done.
    + left. split_and!; try done. intros va Hva. apply grow_down_bytes; [lia|done|by apply Hb].
  - cbn [res_bind]. destruct (grow_done c cp (sz cp) (set_mach m s)) as (s' & E & Hm2 & Hph & Hcr & Hpt); try done.
    exists 0, s', L, A. split; [exact E|]. split; [done|]. unfold grown. rewrite Hph. split; [done|]. left. replace (sz cp + n) with (sz cp) by lia. split_and!; try done.
    intros va Hva. destruct (Z.ltb_spec va (PGSIZE * npages (sz cp))); [done|]. by apply Htop.
Qed.

(** A shrink to nothing: [deallocuvm] returns the new size 0,
    which [growproc] takes for a failure.  It returns -1 and leaves the size
    as it was, although every user page has been freed. *)
Theorem growproc_to_zero i c cp L A F s : grows i c cp L A F s -> 0 < sz cp ->
  exists s' L' A', growproc (- sz cp) s = Ok (-1, s') /\ pt_proc s' = pt_proc s /\ owns kernel_end (ph s') L' A' F /\
    forall va, 0 <= va -> user_byte (p_mem (ph s')) A' va = None.
Proof.
  intros H Hpos. unfold growproc. destruct (curproc_runs i c s (gr_runs _ _ _ _ _ _ _ H)) as (m & -> & Hr). cbn [res_bind].
  pose proof (fun va => grows_top _ _ _ _ _ _ _ va H) as Htop. destruct H as [_ Hcp Hmem Hdir Hsz Hpg Hst].
  rewrite (getp_lookup c (set_mach m s) cp Hcp). cbn [res_bind]. replace (sz cp + - sz cp) with 0 by lia.
  rewrite (proj2 (Z.ltb_ge _ _)), (proj2 (Z.ltb_lt _ _)) by lia. rewrite vs_deallocuvm, <- Hdir.
  destruct (deallocuvm_spec kernel_end Hkend F (ph s) m L A (sz cp) 0 Hmem) as (h & m' & L' & A' & E & Hm' & O' & D' & T' & P' & S' & Hb); try lia.
  { by apply (runs_mach_ok i c (set_mach m s)). }
  cbn [ph mach set_mach] in *. eexists _, L', A'. split; [change (u32 0) with 0; setoid_rewrite E; done|]. split; [done|]. split; [done|].
  intros va Hva. cbn. rewrite Hb by done. change (npages 0) with 0. rewrite Z.mul_0_r, (proj2 (Z.leb_le _ _) Hva). cbn [andb].
  destruct (Z.ltb_spec va (PGSIZE * npages (sz cp))); [done|]. by apply Htop.
Qed.

(** A shrink by more than the process has: the new size wraps
    around to a large one, which [deallocuvm] refuses by returning the old
    size, and [growproc] reports success without a change. *)
Theorem growproc_too_low i c cp L A F s n : grows i c cp L A F s -> 0 < sz cp -> -2 ^ 31 <= n -> sz cp + n < 0 ->
  exists s', growproc n s = Ok (0, s') /\ pt_proc s' = pt_proc s /\ ph s' = ph s.
Proof.
  intros H Hpos Hn Hlow. unfold growproc. destruct (curproc_runs i c s (gr_runs _ _ _ _ _ _ _ H)) as (m & -> & Hr). cbn [res_bind].
  pose proof (grows_pgdir _ _ _ _ _ _ _ H) as Hd. destruct H as [_ Hcp Hmem Hdir Hsz Hpg Hst].
  rewrite (getp_lookup c (set_mach m s) cp Hcp). cbn [res_bind]. rewrite (proj2 (Z.ltb_ge _ _)), (proj2 (Z.ltb_lt _ _)) by lia.
  rewrite vs_deallocuvm. unfold Vm.deallocuvm.
  assert (u32 (sz cp + n) = sz cp + n + 2 ^ 32) as -> by (unfold u32, KERNBASE in *; symmetry; apply (Z.mod_unique_pos _ _ (-1)); lia).
  rewrite (proj2 (Z.leb_le _ _)) by lia. cbn [res_bind]. rewrite (proj2 (Z.eqb_neq _ 0)) by lia.
  destruct (grow_done c cp (sz cp) (set_mach m (set_ph (ph s) (set_mach m s)))) as (s' & E & _ & Hph & _ & Hpt); try done.
  { by apply (runs_mach_ok i c (set_mach m s)). }
  exists s'. split; [exact E|]. split; [|by rewrite Hph]. rewrite Hpt. replace (set_sz (sz cp) cp) with cp by (by destruct cp). by apply list_insert_id.
Qed.
End Grow.

(** * The example *)

(** The services with the address spaces of [vm.c]. *)
Definition vm_demo : Services := {|
  Fs := nat;
  filedup _ n := Ok (S n);
  fileclose _ n := Ok (S n);
  idup _ n := Ok (S n);
  iput _ n := Ok (S n);
  begin_op n := Ok (S n);
  end_op n := Ok (S n);
  namei _ n := Ok (1, S n);
  iinit _ n := Ok n;
  initlog _ n := Ok n;
  setupkvm := Vm.setupkvm 0x80108000 demo_kdata;
  inituvm := Vm.inituvm;
  allocuvm := Vm.allocuvm 0x80108000;
  deallocuvm := Vm.deallocuvm 0x80108000;
  copyuvm := Vm.copyuvm 0x80108000 demo_kdata;
  freevm := Vm.freevm 0x80108000;
  kernel_end := 0x80108000;
  forkret_at := 0x80103000;
  trapret_at := 0x80105000;
  initcode_start := 0x80100000;
  initcode_size := 44
|}.

Lemma vm_demo_ok : @VmServices vm_demo demo_kdata.
Proof. by split. Qed.

Section Examples.
Import Ptable.
#[local] Existing Instance vm_demo | 0.
#[local] Existing Instance vm_demo_ok | 0.

(** A process of [z] bytes with the directory [d] on a machine with memory [h]. *)
Definition vm_proc (d z : Z) : proc := set_sz z (set_pgdir d (demo_proc RUNNING 1 0)).
Definition vm_kst (d z : Z) (h : phys) : @kst vm_demo :=
  @mkKst vm_demo (demo_machine 0 (Some 0%nat)) demo_lock (vm_proc d z :: repeat (demo_proc UNUSED 0 0) 63) (Some 0%nat) 10
    (demo_queue [0%nat] 1 0) (demo_queue [] 2 1) (demo_queue [] 8 2) 0 demo_trace demo_trace demo_trace 0 h
    (fun _ => mkTf 0 0 0 0 0 0 0 0 0 0 []) (fun _ => mkCtx 0 0 0 0 0) (fun _ => 0) 0 4096 1 0%nat [].

Lemma vm_runs d z h : @runs vm_demo 0 0 (vm_kst d z h).
Proof. exists (demo_cpu 0 (Some 0%nat)). split; [apply demo_cpu_here|]. split; [by apply demo_cli_ok|done]. Qed.


Lemma vm_grows h L A : owns kernel_end h L A [] -> (forall n, is_Some (a_ups A !! n) <-> 0 <= n < 2) ->
  @grows vm_demo 0 0 (vm_proc (a_dir A) 5000) L A [] (vm_kst (a_dir A) 5000 h).
Proof. intros O Hu. split; try done. apply vm_runs. Qed.

Lemma growproc_spec_witness : exists d h r s', @growproc vm_demo 4000 (vm_kst d 5000 h) = Ok (r, s') /\ r = 0.
Proof.
  destruct demo_user as (h & m & L & A & O & Hm & Hu & Hl).
  destruct (@growproc_spec vm_demo demo_above demo_kdata vm_demo_ok 0%nat 0%nat (vm_proc (a_dir A) 5000) L A [] (vm_kst (a_dir A) 5000 h) 4000)
    as (r & s' & L' & A' & E & _ & _ & Hc).
  - by apply vm_grows.
  - lia.
  - done.
  - exists (a_dir A), h, r, s'. split; [exact E|]. destruct Hc as [[-> _]|(_ & _ & Hs & _)]; [done|]. exfalso.
    change (Z.of_nat (length L) <= 1025 + 1) in Hs. lia.
Defined.

Lemma growproc_to_zero_witness : exists d h s', @growproc vm_demo (-5000) (vm_kst d 5000 h) = Ok (-1, s') /\
  pt_proc s' = pt_proc (vm_kst d 5000 h).
Proof.
  destruct demo_user as (h & m & L & A & O & Hm & Hu & Hl).
  destruct (@growproc_to_zero vm_demo demo_above demo_kdata vm_demo_ok 0%nat 0%nat (vm_proc (a_dir A) 5000) L A [] (vm_kst (a_dir A) 5000 h))
    as (s' & L' & A' & E & Hp & _).
  - by apply vm_grows.
  - done.
  - exists (a_dir A), h, s'. split; [exact E|exact Hp].
Defined.

Lemma growproc_too_low_witness : exists d h s', @growproc vm_demo (-6000) (vm_kst d 5000 h) = Ok (0, s') /\
  pt_proc s' = pt_proc (vm_kst d 5000 h).
Proof.
  destruct demo_user as (h & m & L & A & O & Hm & Hu & Hl).
  destruct (@growproc_too_low vm_demo demo_above demo_kdata vm_demo_ok 0%nat 0%nat (vm_proc (a_dir A) 5000) L A [] (vm_kst (a_dir A) 5000 h) (-6000))
    as (s' & E & Hp & _).
  - by apply vm_grows.
  - done.
  - lia.
  - done.
  - exists (a_dir A), h, s'. split; [exact E|exact Hp].
Defined.
End Examples.
