(* ===== verification/Wait.v ===== *)
(** [exit] and [wait] of [proc.c]: a process that exits becomes a zombie that
    its parent finds, and [wait] reaps it and gives its stack and its address
    space back to the allocator, however often it has to sleep before. *)

From stdpp Require Import gmap.
From S2P Require Import Prelude CString Spinlock Kalloc Proc Demo MlfqFacts ProcFacts Sleep Vm Steady VmFacts AddrSpace SpaceOps SpaceSpec Syscall Fork.

Section Cpu.
Import Spinlock Ptable.
Context `{SV : Services}.
Implicit Types (s : kst) (c p : nat).

Lemma inside_steady c p s s' : inside_one c p s -> steady (mach s) (mach s') -> inside_one c p s'.
Proof.
  intros (He & cp & Hc & Hn & Hp) Hs. destruct (Hs c cp Hc) as (cp' & Hc' & Hn' & Hp' & He'); [split; [lia|done]|].
  split; [congruence|]. exists cp'. split; [done|]. split; congruence.
Qed.

Lemma inside_mach_ok c p s : inside_one c p s -> mach_ok (mach s).
Proof. intros (He & cp & Hc & Hn & Hp). exists c, cp. split; [done|]. split; [lia|done]. Qed.

Lemma acquire_pt_outside c p s : outside c p s -> locked (pt_lock s) = 0 ->
  exists lk m, acquire_pt s = Ok (set_pt_lock lk (set_mach m s)) /\ held c lk /\ inside_one c p (set_mach m s).
Proof. intros H Hl. destruct (lock_outside c p s (pt_lock s) H Hl) as (lk & m & E & Hh & Hi). exists lk, m. unfold acquire_pt. by rewrite E. Qed.

Lemma release_pt_inside c p s : inside_one c p s -> held c (pt_lock s) ->
  exists lk m, release_pt s = Ok (set_pt_lock lk (set_mach m s)) /\ locked lk = 0 /\ outside c p (set_mach m s).
Proof. intros H Hl. destruct (unlock_inside c p s (pt_lock s) H Hl) as (lk & m & E & Hh & Hi). exists lk, m. unfold release_pt. by rewrite E. Qed.
End Cpu.

(** * wait *)

Section Wait.
Import Kalloc Ptable.
Context `{SV : Services} (Hkend : kend_above kernel_end) (kdata : Z) `{!VmServices kdata}.
Implicit Types (s : kst) (c p z : nat) (pr : proc) (L F : list Z) (A : aspace).

(** The memory of a process: its kernel stack and the address space [A]; [L] is
    the free list and [F] the pages of others. *)
Definition belongs s pr L A F : Prop := owns kernel_end (ph s) L A (kstack pr :: F) /\ a_dir A = pgdir pr.

(** Its zombie children have their memory. *)
Record reapable p s : Prop := {
  rp_len : length (pt_proc s) = NPROC;
  rp_mem z pr : pt_proc s !! z = Some pr -> zombie_child p pr = true -> exists L A F, belongs s pr L A F
}.

(** The memory of [pr] is free again. *)
Definition given_back s pr (h : phys) : Prop := forall L A F, belongs s pr L A F ->
  exists L', kmem_inv kernel_end h L' /\ L' ≡ₚ kstack pr :: L ++ pages A /\ same_on F (p_mem (ph s)) (p_mem h).

Lemma reap_run p c s z pr L A F : inside_one c p s -> belongs s pr L A F ->
  exists h m L', reap z pr s = Ok (Reaped (pid pr) (putp z (cleared pr) (set_mach m (set_ph h s)))) /\ steady (mach s) m /\
    kmem_inv kernel_end h L' /\ L' ≡ₚ kstack pr :: L ++ pages A /\ same_on F (p_mem (ph s)) (p_mem h).
Proof.
  intros Hin [O Hd]. unfold reap. destruct (kfree_frame (ph s) (mach s) L A F (kstack pr) O (inside_mach_ok _ _ _ Hin)) as (h1 & m1 & E1 & Hm1 & O1 & S1).
  rewrite E1. cbn [res_bind]. rewrite vs_freevm, <- Hd. destruct (freevm_ok F h1 m1 (kstack pr :: L) A O1 Hm1) as (h2 & m2 & L2 & E2 & Hm2 & K2 & P2 & S2).
  rewrite E2. cbn [res_bind]. exists h2, m2, L2. split; [done|]. split; [|split_and!; try done].
  - etrans; [by eapply kfree_steady|by eapply freevm_steady].
  - etrans; [|exact S2]. eapply same_on_sub, S1. set_solver.
Qed.

Lemma reap_ok p c s z pr : inside_one c p s -> (exists L A F, belongs s pr L A F) ->
  exists h m, reap z pr s = Ok (Reaped (pid pr) (putp z (cleared pr) (set_mach m (set_ph h s)))) /\ steady (mach s) m /\ given_back s pr h.
Proof.
  intros Hin (L & A & F & Hb). destruct (reap_run p c s z pr L A F Hin Hb) as (h & m & _ & E & Hs & _). exists h, m. split; [done|]. split; [done|].
  intros L1 A1 F1 Hb1. destruct (reap_run p c s z pr L1 A1 F1 Hin Hb1) as (h1 & m1 & L' & E1 & _ & K). rewrite E in E1. apply (f_equal (fun r => match r with Ok (Reaped _ s) => ph s | _ => h end)) in E1. cbn in E1. subst h1. by exists L'.
Qed.

Context {X : Type} `{GX : Guarded X} (resume : kst -> X -> kst * X).
Implicit Types (x : X).

(** [wait] need not sleep: a child is a zombie, there is no child, or the
    process was killed. *)
Definition settled p s : bool :=
  existsb (zombie_child p) (pt_proc s) || negb (existsb (child p) (pt_proc s)) ||
  match pt_proc s !! p with Some pr => negb (killed pr =? 0) | None => false end.

(** The others, while the process sleeps, keep the memory of its zombie
    children, and come closer to a state in which it need not sleep. *)
Definition children_end p (rank : X -> nat) : Prop := forall s x s' x', resume s x = (s', x') -> reapable p s ->
  reapable p s' /\ (settled p s' = true \/ (rank x' < rank x)%nat).

(** [s0] is the state at the last scan: the one [wait] was called in, or the
    one it was woken up in. *)
Definition last_scan p s s0 : Prop :=
  pt_proc s0 = pt_proc s /\ ph s0 = ph s \/
  exists sa xa sb xb pra prb, pt_proc sa !! p = Some pra /\ state pra = SLEEPING /\ chan pra = ChProc p /\ resume sa xa = (sb, xb) /\
    pt_proc sb !! p = Some prb /\ pt_proc s0 = <[p := set_chan ChNull prb]> (pt_proc sb) /\ ph s0 = ph sb.

(** What [wait] returns [r] for in [s0], and leaves in [s']. *)
Definition reaped p s0 r s' : Prop :=
  (exists z pr, pt_proc s0 !! z = Some pr /\ zombie_child p pr = true /\
     (forall j pr', (j < z)%nat -> pt_proc s0 !! j = Some pr' -> zombie_child p pr' = false) /\
     r = pid pr /\ pt_proc s' = <[z := cleared pr]> (pt_proc s0) /\ given_back s0 pr (ph s')) \/
  (r = -1 /\ existsb (zombie_child p) (pt_proc s0) = false /\ pt_proc s' = pt_proc s0 /\ ph s' = ph s0 /\
     (existsb (child p) (pt_proc s0) = false \/ exists pr, pt_proc s0 !! p = Some pr /\ killed pr <> 0)).

(** The entry of a process is changed in fields that do not matter here. *)
Lemma reapable_put p q pr pr' s : pt_proc s !! q = Some pr -> kstack pr' = kstack pr -> pgdir pr' = pgdir pr ->
  (zombie_child p pr' = true -> zombie_child p pr = true) -> reapable p s -> reapable p (putp q pr' s).
Proof.
  intros Hq Hk Hd Hz [H1 H2]. split; [by rewrite length_putp|]. intros z pz Hp Hzc. destruct (decide (z = q)) as [->|Hne].
  - rewrite lookup_putp in Hp by by eapply lookup_lt_Some. injection Hp as <-. destruct (H2 q pr Hq (Hz Hzc)) as (L & A & F & O & E).
    exists L, A, F. unfold belongs. rewrite Hk, Hd. by split.
  - rewrite lookup_putp_ne in Hp by done. by destruct (H2 z pz Hp Hzc) as (L & A & F & Hb); exists L, A, F.
Qed.

Lemma no_zombie p l : existsb (zombie_child p) l = false -> forall z pr, l !! z = Some pr -> zombie_child p pr = false.
Proof.
  intros H z pr Hz. apply not_true_is_false. intros Ht. assert (existsb (zombie_child p) l = true) as Hx; [|congruence].
  apply existsb_exists. exists pr. split; [by apply list_elem_of_In; eapply list_elem_of_lookup_2|done].
Qed.

(** One scan and what follows when [wait] need not sleep. *)
Lemma wait_settled fuel c p s x : inside_one c p s -> held c (pt_lock s) -> reapable p s -> settled p s = true -> (0 < fuel)%nat -> (p < NPROC)%nat ->
  exists r s', wait_loop resume fuel p s x = Ok (r, s') /\ outside c p s' /\ locked (pt_lock s') = 0 /\ reaped p s r s'.
Proof.
  intros Hin Hh Hr Hs Hf Hp. destruct fuel as [|fuel]; [lia|]. cbn [wait_loop]. destruct (wait_scan_spec s p (rp_len _ _ Hr)) as [H1 H2].
  destruct (existsb (zombie_child p) (pt_proc s)) eqn:Ez.
  - clear H2. assert (exists z pr, pt_proc s !! z = Some pr /\ zombie_child p pr = true /\
      forall j pr', (j < z)%nat -> pt_proc s !! j = Some pr' -> zombie_child p pr' = false) as (z & pr & Hz & Hzc & Hfirst).
    { clear -Ez. induction (pt_proc s) as [|a l IH]; [done|]. cbn [existsb] in Ez. destruct (zombie_child p a) eqn:Ea.
      - exists 0%nat, a. split_and!; try done. intros j ? Hj. lia.
      - destruct (IH Ez) as (z & pr & H1 & H2 & H3). exists (S z), pr. split_and!; try done. intros [|j] pr' Hj Hl; [by injection Hl as <-|]. apply (H3 j); [lia|done]. }
    rewrite (H1 z pr Hz Hzc Hfirst). destruct (reap_ok p c s z pr Hin (rp_mem _ _ Hr z pr Hz Hzc)) as (h & m & -> & Hst & Hg). cbn [res_bind].
    set (s1 := putp z (cleared pr) _). assert (inside_one c p s1) as Hin1 by (by eapply inside_steady).
    destruct (release_pt_inside c p s1 Hin1 Hh) as (lk & m2 & -> & Hl & Ho). cbn [res_bind]. do 2 eexists. split; [done|]. split; [done|]. split; [done|].
    left. exists z, pr. by split_and!.
  - rewrite H2 by by apply no_zombie. cbn [res_bind]. destruct (lookup_lt_is_Some_2 (pt_proc s) p) as [cp Hcp]; [by rewrite (rp_len _ _ Hr)|].
    rewrite (getp_lookup p s cp Hcp). cbn [res_bind]. unfold settled in Hs. rewrite Ez, Hcp in Hs. cbn [orb] in Hs. rewrite Hs.
    destruct (release_pt_inside c p s Hin Hh) as (lk & m2 & -> & Hl & Ho). cbn [res_bind]. do 2 eexists. split; [done|]. split; [done|]. split; [done|].
    right. split_and!; try done. apply orb_true_iff in Hs as [Hs|Hs]; [left; by apply negb_true_iff|right; exists cp]. split; [done|]. by apply negb_true_iff, Z.eqb_neq in Hs.
Qed.

(** A scan without result: [wait] goes to sleep and scans again. *)
Lemma wait_sleeps rank n c p s x : resume_ok p resume -> children_end p rank -> inside_one c p s -> held c (pt_lock s) -> locked (the_lock x) = 0 ->
  reapable p s -> settled p s = false -> (p < NPROC)%nat ->
  exists c' s1 x1, wait_loop resume (S n) p s x = wait_loop resume n p s1 x1 /\ inside_one c' p s1 /\ held c' (pt_lock s1) /\ locked (the_lock x1) = 0 /\
    reapable p s1 /\ (settled p s1 = true \/ (rank x1 < rank x)%nat) /\
    exists sa xa sb xb pra prb, pt_proc sa !! p = Some pra /\ state pra = SLEEPING /\ chan pra = ChProc p /\ resume sa xa = (sb, xb) /\
      pt_proc sb !! p = Some prb /\ pt_proc s1 = <[p := set_chan ChNull prb]> (pt_proc sb) /\ ph s1 = ph sb.
Proof.
  intros Hres Hce Hin Hh Hx Hr Hs Hp. cbn [wait_loop]. unfold settled in Hs. apply orb_false_iff in Hs as [Hs Hk]. apply orb_false_iff in Hs as [Hz Hc].
  destruct (wait_scan_spec s p (rp_len _ _ Hr)) as [_ H2]. rewrite H2 by by apply no_zombie. cbn [res_bind].
  destruct (lookup_lt_is_Some_2 (pt_proc s) p) as [cp Hcp]; [by rewrite (rp_len _ _ Hr)|]. rewrite Hcp in Hk. rewrite (getp_lookup p s cp Hcp). cbn [res_bind]. rewrite Hc, Hk. cbn [orb].
  destruct (sleep_table resume (ChProc p) c p s x cp Hres Hin Hh Hx Hcp) as (c' & s1 & x1 & pr1 & m' & Er & Hp1 & -> & Hin1 & Hh1 & Hx1). cbn [res_bind].
  set (cp1 := set_state SLEEPING (set_chan (ChProc p) cp)) in *.
  destruct (Hce _ _ _ _ Er) as [Hr1 Hrank].
  { apply (reapable_put p p cp cp1); try done. unfold zombie_child, child. cbn. by rewrite andb_false_r. }
  exists c', (putp p (set_chan ChNull pr1) (set_mach m' s1)), x1. assert (p < length (pt_proc s1))%nat as Hl1 by by eapply lookup_lt_Some. split_and!; try done.
  - apply (reapable_put p p pr1 (set_chan ChNull pr1) (set_mach m' s1)); try done. by destruct Hr1.
  - destruct Hrank as [Hset|Hlt]; [left|by right]. rewrite <- Hset. unfold settled. rewrite lookup_putp by done. rewrite Hp1. cbn [putp pt_proc set_pt_proc set_mach killed set_chan].
    rewrite <- (list_insert_id (pt_proc s1) p pr1 Hp1) at 3 4. rewrite !insert_take_drop by done. by rewrite !existsb_app.
  - exists (putp p cp1 s), x, s1, x1, cp1, pr1. split_and!; try done. apply lookup_putp. by eapply lookup_lt_Some.
Qed.

Lemma wait_loop_ok rank p : resume_ok p resume -> children_end p rank -> (p < NPROC)%nat -> forall n c s x,
  inside_one c p s -> held c (pt_lock s) -> locked (the_lock x) = 0 -> reapable p s ->
  (if settled p s then 0 < n else rank x + 1 < n)%nat ->
  exists c' r s0 s', wait_loop resume n p s x = Ok (r, s') /\ outside c' p s' /\ locked (pt_lock s') = 0 /\ last_scan p s s0 /\ reaped p s0 r s' /\
    (settled p s = true -> s0 = s).
Proof.
  intros Hres Hce Hp. induction n as [|n IH]; intros c s x Hin Hh Hx Hr Hf; [destruct (settled p s); lia|]. destruct (settled p s) eqn:Hs.
  - destruct (wait_settled (S n) c p s x Hin Hh Hr Hs Hf Hp) as (r & s' & E & Ho & Hl & Hrp). exists c, r, s, s'. split_and!; try done. by left.
  - destruct (wait_sleeps rank n c p s x Hres Hce Hin Hh Hx Hr Hs Hp) as (c1 & s1 & x1 & -> & Hin1 & Hh1 & Hx1 & Hr1 & Hrank & Hsl).
    destruct (IH c1 s1 x1 Hin1 Hh1 Hx1 Hr1) as (c' & r & s0 & s' & E & Ho & Hl & Hls & Hrp & _).
    { destruct (settled p s1) eqn:Hs1; [lia|]. destruct Hrank; [done|lia]. }
    exists c', r, s0, s'. split_and!; try done. right. destruct Hls as [[E1 E2]|Hls]; [|exact Hls]. by rewrite E1, E2.
Qed.

(** C10: [wait] returns the pid of a zombie child: the first one in the table
    when [wait] was called, or after it was woken up.  The child's slot is free,
    and its kernel stack and every page of its address space are on the free list
    again.  It returns -1 when there is no child, or when the process was killed
    and has no zombie.  It sleeps only when none of this holds, on its own
    channel, and ends with the table unlocked. *)
Theorem wait_spec rank fuel c p s x :
  resume_ok p resume -> children_end p rank -> outside c p s -> locked (pt_lock s) = 0 -> locked (the_lock x) = 0 -> (p < NPROC)%nat ->
  reapable p s -> (rank x + 1 < fuel)%nat ->
  exists c' r s0 s', wait resume fuel s x = Ok (r, s') /\ outside c' p s' /\ locked (pt_lock s') = 0 /\ last_scan p s s0 /\ reaped p s0 r s' /\
    (settled p s = true -> pt_proc s0 = pt_proc s /\ ph s0 = ph s).
Proof.
  intros Hres Hce Ho Hpt Hx Hp Hr Hf. unfold wait. destruct (curproc_outside c p s Ho) as (m & -> & Ho1). cbn [res_bind].
  destruct (acquire_pt_outside c p (set_mach m s) Ho1 Hpt) as (lk & m2 & -> & Hh & Hin). cbn [res_bind]. set (s1 := set_pt_lock lk _).
  destruct (wait_loop_ok rank p Hres Hce Hp fuel c s1 x Hin Hh Hx) as (c' & r & s0 & s' & E & Ho' & Hl & Hls & Hrp & Hset).
  { by destruct Hr. } { change (settled p s1) with (settled p s). destruct (settled p s); lia. }
  exists c', r, s0, s'. split_and!; try done. intros H. by rewrite (Hset H).
Qed.
End Wait.

(** * exit *)

Section Exit.
Import Spinlock Ptable.
Context `{SV : Services}.
Implicit Types (s : kst) (c p : nat) (cp pr : proc).

(** The files closed one after the other. *)
Fixpoint close_all (l : list Z) (f : Fs) : res Fs :=
  match l with
  | [] => Ok f
  | a :: l => let? f := (if a =? 0 then Ok f else fileclose a f) in close_all l f
  end.

Lemma close_files_ok p n : forall (i : nat) s cp f, pt_proc s !! p = Some cp -> length (ofile cp) = NOFILE -> (n + i = NOFILE)%nat ->
  close_all (drop i (ofile cp)) (fs s) = Ok f ->
  close_files n (Z.of_nat i) p s = Ok (set_fs f (putp p (set_ofile (take i (ofile cp) ++ replicate n 0) cp) s)).
Proof.
  induction n as [|n IH]; intros i s cp f Hp Hl Hn Hf; cbn [close_files].
  - cbn in Hn. subst i. rewrite drop_ge in Hf by lia. injection Hf as <-. cbn [replicate]. rewrite app_nil_r, take_ge by lia.
    replace (set_ofile (ofile cp) cp) with cp by by destruct cp. f_equal. unfold putp. rewrite list_insert_id by done. by destruct s.
  - rewrite (getp_lookup p s cp Hp). cbn [res_bind]. destruct (lookup_lt_is_Some_2 (ofile cp) i) as [a Ha]; [lia|].
    rewrite (zget_of_nat _ _ _ _ Ha). cbn [res_bind]. rewrite (drop_S _ a i Ha) in Hf. cbn [close_all] in Hf.
    assert (p < length (pt_proc s))%nat as Hpl by by eapply lookup_lt_Some. destruct (Z.eqb_spec a 0) as [Ea|Ha0]; cbn [res_bind] in Hf |- *; [subst a|].
    + replace (Z.of_nat i + 1) with (Z.of_nat (S i)) by lia. rewrite (IH (S i) s cp f Hp Hl) by (done || lia). do 4 f_equal.
      rewrite (take_S_r _ _ 0 Ha), <- app_assoc. done.
    + apply res_bind_Ok in Hf as (f1 & -> & Hf). cbn [res_bind]. rewrite zset_in by lia. cbn [res_bind]. rewrite Nat2Z.id.
      replace (Z.of_nat i + 1) with (Z.of_nat (S i)) by lia. set (cp1 := set_ofile (<[i := 0]> (ofile cp)) cp).
      rewrite (IH (S i) (putp p cp1 (set_fs f1 s)) cp1 f); [|by apply lookup_putp|cbn; by rewrite length_insert|lia|].
      * unfold putp. cbn. rewrite list_insert_insert_eq, (take_S_r _ _ 0) by (apply list_lookup_insert_eq; lia).
        rewrite take_insert_ge, <- app_assoc by lia. done.
      * cbn. by rewrite drop_insert_lt by lia.
Qed.

(** The entry of the process that exits, and those of the others: its parent is
    woken up if it sleeps in [wait], its children go to init, and init is woken
    up when one of them is a zombie already. *)
Definition gone cp : proc := set_state ZOMBIE (set_cwd 0 (set_ofile (replicate NOFILE 0) cp)).
Definition survivor s p cp pr : proc :=
  wake_if (existsb (zombie_child p) (pt_proc s)) (ch_of (initproc s)) (adopted (initproc s) p (wake (ch_of (parent cp)) pr)).

Lemma existsb_insert {A : Type} (f : A -> bool) l i a b : l !! i = Some a -> f b = f a -> existsb f (<[i := b]> l) = existsb f l.
Proof.
  intros Hi Hf. rewrite <- (list_insert_id l i a Hi) at 2. rewrite !insert_take_drop by by eapply lookup_lt_Some. rewrite !existsb_app. cbn [existsb]. by rewrite Hf.
Qed.

Lemma existsb_wake p ch l : existsb (zombie_child p) (map (wake ch) l) = existsb (zombie_child p) l.
Proof. induction l as [|a l IH]; [done|]. cbn [map existsb]. by rewrite zombie_wake, IH. Qed.

(** C18: [exit] closes every file of the process and gives up its directory, in a
    transaction of its own.  It goes to the scheduler as a zombie, with the
    table locked, that its parent finds; the parent has been woken up, the
    children have been given to init, and no memory has been freed yet. *)
Theorem exit_spec c p s cp f1 f2 : outside c p s -> locked (pt_lock s) = 0 -> length (pt_proc s) = NPROC -> pt_proc s !! p = Some cp ->
  initproc s <> Some p -> state cp = RUNNING -> parent cp <> Some p -> length (ofile cp) = NOFILE ->
  close_all (ofile cp) (fs s) = Ok f1 -> (let? f := begin_op f1 in let? f := iput (cwd cp) f in end_op f) = Ok f2 ->
  exists s', exit_to_sched s = Ok s' /\ inside_one c p s' /\ held c (pt_lock s') /\ fs s' = f2 /\ ph s' = ph s /\
    pt_proc s' !! p = Some (gone cp) /\ (forall j pr, j <> p -> pt_proc s !! j = Some pr -> pt_proc s' !! j = Some (survivor s p cp pr)).
Proof.
  intros Ho Hpt Hlen Hp Hi Hst Hpar Hl Hf1 Hf2. unfold exit_to_sched. destruct (curproc_outside c p s Ho) as (m & -> & Ho1). cbn [res_bind].
  rewrite bool_decide_false by (intros E; apply Hi; symmetry; exact E). assert (p < length (pt_proc s))%nat as Hpl by by eapply lookup_lt_Some.
  pose proof (close_files_ok p NOFILE 0 (set_mach m s) cp f1 Hp Hl eq_refl Hf1) as E. change (Z.of_nat 0) with 0 in E. rewrite E. clear E. cbn [take app res_bind].
  set (cp1 := set_ofile (replicate NOFILE 0) cp). set (s1 := set_fs f1 _). rewrite (getp_lookup p s1 cp1) by by apply lookup_putp. cbn [res_bind].
  change (fs s1) with f1. change (cwd cp1) with (cwd cp). apply res_bind_Ok in Hf2 as (g1 & -> & Hf2). cbn [res_bind].
  apply res_bind_Ok in Hf2 as (g2 & -> & Hf2). cbn [res_bind]. rewrite Hf2. cbn [res_bind].
  rewrite (modp_lookup p _ _ cp1) by by apply lookup_putp. cbn [res_bind]. set (cp2 := set_cwd 0 cp1). set (s2 := putp p cp2 _).
  destruct (acquire_pt_outside c p s2 Ho1 Hpt) as (lk & m2 & -> & Hh & Hin). cbn [res_bind]. set (s3 := set_pt_lock lk _).
  assert (pt_proc s3 = <[p := cp2]> (pt_proc s)) as E3 by (cbn; by rewrite !list_insert_insert_eq).
  rewrite (getp_lookup p s3 cp2) by (rewrite E3; by apply list_lookup_insert_eq). cbn [res_bind]. change (parent cp2) with (parent cp).
  set (w := wake (ch_of (parent cp))). assert (length (pt_proc (wakeup1 (ch_of (parent cp)) s3)) = NPROC) as Hl4 by (cbn; by rewrite length_map, !length_insert).
  rewrite (reparent_spec p _ Hl4). cbn [res_bind]. set (s5 := set_pt_proc _ _).
  assert (existsb (zombie_child p) (pt_proc (wakeup1 (ch_of (parent cp)) s3)) = existsb (zombie_child p) (pt_proc s)) as Ez.
  { change (pt_proc (wakeup1 _ s3)) with (map w (pt_proc s3)). rewrite E3. unfold w. rewrite existsb_wake.
    by apply (existsb_insert _ _ _ cp). }
  assert (forall j pr, pt_proc s3 !! j = Some pr -> pt_proc s5 !! j = Some (survivor s p cp pr)) as H5.
  { intros j pr Hj. change (pt_proc s5 !! j = Some (survivor s p cp pr)). unfold s5. cbn [pt_proc set_pt_proc]. rewrite Ez.
    change (pt_proc (wakeup1 (ch_of (parent cp)) s3)) with (map w (pt_proc s3)). rewrite map_map. change (map ?g ?l) with (g <$> l). by rewrite list_lookup_fmap, Hj. }
  assert (survivor s p cp cp2 = cp2) as Es.
  { assert (forall ch, wake ch cp2 = cp2) as Hw by (intros ch; unfold wake; by rewrite (bool_decide_false (state cp2 = SLEEPING)) by (change (state cp <> SLEEPING); by rewrite Hst)).
    unfold survivor, adopted, child. rewrite Hw, bool_decide_false by exact Hpar. unfold wake_if. destruct (existsb _ (pt_proc s)); [apply Hw|done]. }
  assert (pt_proc s5 !! p = Some cp2) as H5p by (rewrite <- Es; apply H5; rewrite E3; by apply list_lookup_insert_eq).
  rewrite (modp_lookup p _ s5 cp2 H5p). eexists. split; [done|]. split_and!; try done; [apply Hh..|apply lookup_putp; by eapply lookup_lt_Some|].
  intros j pr Hj Hpr. rewrite lookup_putp_ne by done. apply H5. rewrite E3. by rewrite list_lookup_insert_ne.
Qed.
End Exit.

(** * The examples *)

Section Examples.
Import Ptable.
#[local] Existing Instance vm_demo | 0.
#[local] Existing Instance vm_demo_ok | 0.
#[local] Existing Instance demo_above.

(** A zombie child of process 0 with the stack [k] and the directory [d]. *)
Definition zombie_of (k d : Z) : proc := set_kstack k (set_parent (Some 0%nat) (set_pgdir d (demo_proc ZOMBIE 7 0))).
Definition family (h : phys) (k d : Z) : kst :=
  set_pt_proc (<[1%nat := zombie_of k d]> (<[0%nat := set_parent None (vm_proc 0 0)]> (repeat (set_parent None (demo_proc UNUSED 0 0)) 64))) (vm_kst 0 0 h).

(** While process 0 sleeps, it is killed. *)
Definition kills (s : kst) (x : spinlock) : kst * spinlock :=
  match pt_proc s !! 0%nat with Some pr => (putp 0 (set_killed 1 pr) s, x) | None => (s, x) end.

Lemma kills_ok : resume_ok 0 kills.
Proof.
  intros c s x Hin Hh Hx Hp. destruct (lookup_lt_is_Some_2 _ _ Hp) as [pr Hpr]. exists c, (putp 0 (set_killed 1 pr) s), x. unfold kills. rewrite Hpr.
  split; [done|]. split; [exact Hin|]. split; [exact Hh|]. split; [done|]. by rewrite length_putp.
Qed.

Lemma kills_ends : children_end kills 0 (fun _ => 0%nat).
Proof.
  intros s x s' x' E H. destruct (lookup_lt_is_Some_2 (pt_proc s) 0) as [pr Hpr]; [rewrite (rp_len _ _ H); unfold NPROC; lia|].
  unfold kills in E. rewrite Hpr in E. injection E as <- <-. split.
  - by apply (reapable_put 0 0 pr (set_killed 1 pr)).
  - left. unfold settled. rewrite lookup_putp by by eapply lookup_lt_Some. cbn [killed set_killed Z.eqb negb]. apply orb_true_r.
Qed.

Lemma wait_spec_witness : exists h k d s', wait kills 2 (family h k d) demo_lock = Ok (7, s') /\
  exists pr, pt_proc s' !! 1%nat = Some pr /\ state pr = UNUSED.
Proof.
  destruct demo_user as (h0 & m0 & L0 & A & O0 & Hm0 & _ & Hl). destruct (kalloc_frame h0 m0 L0 A [] O0 Hm0) as (k & h & m & _ & _ & _ & O).
  destruct L0 as [|q L]; [cbn in Hl; lia|]. destruct O as (-> & _ & O). exists h, q, (a_dir A).
  assert (reapable 0 (family h q (a_dir A))) as Hr.
  { split; [reflexivity|]. intros z pr Hz Hzc. exists L, A, []. cbn [family pt_proc set_pt_proc] in Hz. destruct (decide (z = 1%nat)) as [->|Hne].
    - rewrite list_lookup_insert_eq in Hz by (rewrite length_insert, repeat_length; lia). injection Hz as <-. split; [exact O|reflexivity].
    - exfalso. rewrite list_lookup_insert_ne in Hz by done. destruct (decide (z = 0%nat)) as [->|Hne0].
      + rewrite list_lookup_insert_eq in Hz by (rewrite repeat_length; lia). injection Hz as <-. discriminate Hzc.
      + rewrite list_lookup_insert_ne in Hz by done. apply list_elem_of_lookup_2, list_elem_of_In, repeat_spec in Hz as ->. discriminate Hzc. }
  destruct (@wait_spec vm_demo demo_above demo_kdata vm_demo_ok spinlock _ kills (fun _ => 0%nat) 2 0 0 (family h q (a_dir A)) demo_lock)
    as (c' & r & s0 & s' & E & _ & _ & _ & Hrp & Hset).
  - apply kills_ok.
  - apply kills_ends.
  - exists (demo_cpu 0 (Some 0%nat)). split; [apply demo_cpu_here|]. split; reflexivity.
  - reflexivity.
  - reflexivity.
  - unfold NPROC. lia.
  - exact Hr.
  - lia.
  - exists s'. destruct (Hset eq_refl) as [E1 E2]. destruct Hrp as [(z & pr & Hz & Hzc & Hfirst & -> & Hp & _)|(_ & Hz & _)].
    + rewrite E1 in *. assert (z = 1%nat) as ->.
      { destruct (decide (z = 1%nat)) as [|Hne]; [done|]. destruct z as [|[|z]]; [|done|].
        - injection Hz as <-. discriminate Hzc.
        - by discriminate (Hfirst 1%nat (zombie_of q (a_dir A)) ltac:(lia) eq_refl). }
      injection Hz as <-. split; [exact E|]. exists (cleared (zombie_of q (a_dir A))). rewrite Hp. split; reflexivity.
    + rewrite E1 in Hz. discriminate Hz.
Defined.

(** Process 0 runs, with a file open; its parent, process 1, waits for it. *)
Definition runner : proc := set_ofile (5 :: repeat 0 15) (set_parent (Some 1%nat) (vm_proc 0 0)).
Definition waited_for : kst :=
  set_pt_proc (<[1%nat := set_chan (ChProc 1) (demo_proc SLEEPING 3 0)]> (<[0%nat := runner]> (repeat (demo_proc UNUSED 0 0) 64)))
    (set_initproc (Some 2%nat) (vm_kst 0 0 (mkPhys (fun _ => 0) (mkKmem demo_lock 0 0)))).

Lemma exit_spec_witness : exists s' pr pr1, exit_to_sched waited_for = Ok s' /\
  pt_proc s' !! 0%nat = Some pr /\ zombie_child 1 pr = true /\ pt_proc s' !! 1%nat = Some pr1 /\ state pr1 = RUNNABLE.
Proof.
  destruct (exit_spec 0 0 waited_for runner 1%nat 4%nat) as (s' & E & _ & _ & _ & _ & Hp & Ho).
  - exists (demo_cpu 0 (Some 0%nat)). split; [apply demo_cpu_here|]. split; reflexivity.
  - reflexivity.
  - reflexivity.
  - reflexivity.
  - discriminate.
  - reflexivity.
  - discriminate.
  - reflexivity.
  - reflexivity.
  - reflexivity.
  - do 3 eexists. split; [exact E|]. split; [exact Hp|]. split; [reflexivity|]. split; [apply (Ho 1%nat (set_chan (ChProc 1) (demo_proc SLEEPING 3 0))); [discriminate|reflexivity]|reflexivity].
Defined.
End Examples.
