(* ===== verification/Quiet.v ===== *)
(** What a process sees of the kernel's state across a call that does not switch
    to another process: the memory and the locks may change, sleeping processes
    may be woken up, and nothing else. *)

From S2P Require Import Prelude CString Spinlock Kalloc Proc Demo MlfqFacts ProcFacts Sleep Vm Steady.

Section Quiet.
Import Spinlock Ptable.
Context `{SV : Services}.
Implicit Types (s : kst) (c p : nat) (pr : proc).

(** Process [p] runs, holds no spin lock, and the process table is unlocked. *)
Record up p s : Prop := {
  up_cpu : exists c, outside c p s;
  up_pt : locked (pt_lock s) = 0;
  up_self : exists pr, pt_proc s !! p = Some pr /\ state pr = RUNNING
}.

(** [pr'] is [pr], or [pr] woken up. *)
Definition roused pr pr' : Prop := pr' = pr \/ state pr = SLEEPING /\ pr' = set_state RUNNABLE pr.

#[export] Instance roused_preorder : PreOrder roused.
Proof. split; [by left|]. intros pr1 pr2 pr3 [->|[H ->]]; [done|]. intros [->|[H' ->]]; [by right|]. done. Qed.

Record ran p s s' : Prop := {
  rn_rest : s' = set_pt_lock (pt_lock s') (set_pt_proc (pt_proc s') (set_mach (mach s') (set_ph (ph s') s)));
  rn_up : up p s';
  rn_procs : Forall2 roused (pt_proc s) (pt_proc s')
}.

Lemma ran_refl p s : up p s -> ran p s s.
Proof. intros H. split; [by destruct s|done|reflexivity]. Qed.

Lemma ran_trans p s1 s2 s3 : ran p s1 s2 -> ran p s2 s3 -> ran p s1 s3.
Proof.
  intros [E1 U1 P1] [E2 U2 P2]. split; [|done|].
  - rewrite E2 at 1. rewrite E1. done.
  - by etrans.
Qed.

(** The entry of the process itself does not change. *)
Lemma ran_self p s s' pr : ran p s s' -> pt_proc s !! p = Some pr -> state pr = RUNNING -> pt_proc s' !! p = Some pr.
Proof.
  intros H Hp Hst. destruct (Forall2_lookup_l _ _ _ _ _ (rn_procs _ _ _ H) Hp) as (pr' & Hp' & [->|[Hs _]]); [done|congruence].
Qed.

Lemma ran_fields p s s' : ran p s s' -> frames s' = frames s /\ fs s' = fs s /\ initproc s' = initproc s /\ nextpid s' = nextpid s /\ cr3 s' = cr3 s /\
  (q0 s', q1 s', q2 s') = (q0 s, q1 s, q2 s).
Proof. intros [E _ _]. rewrite E. done. Qed.

Lemma outside_steady c p s s' : outside c p s -> steady (mach s) (mach s') -> outside c p s'.
Proof.
  intros (cp & Hc & Hn & Hp) Hs. destruct (Hs c cp Hc) as (cp' & Hc' & Hn' & Hp' & _); [split; lia|]. exists cp'. split; [done|]. split; congruence.
Qed.

Lemma up_mach_ok p s : up p s -> mach_ok (mach s).
Proof. intros [(c & cp & Hc & Hn & Hp) _ _]. exists c, cp. split; [done|]. split; lia. Qed.

(** Memory and allocator. *)
Lemma ran_memory p s h m : up p s -> steady (mach s) m -> ran p s (set_mach m (set_ph h s)).
Proof.
  intros [(c & Ho) Hl Hs] Hst. split; [done| |reflexivity]. split; [|done|done]. exists c. by eapply outside_steady.
Qed.

Lemma ran_mach p c s m : up p s -> outside c p (set_mach m s) -> ran p s (set_mach m s).
Proof. intros [_ Hl Hs] Ho. split; [by destruct s| |reflexivity]. split; [by exists c|done|done]. Qed.

Lemma roused_wake ch l : Forall2 roused l (map (wake ch) l).
Proof.
  induction l as [|a l IH]; constructor; [|done]. unfold wake. destruct (bool_decide_reflect (state a = SLEEPING)) as [H|H]; cbn [andb]; [|by left].
  destruct (bool_decide _); [by right|by left].
Qed.

(** ** Calls that leave the memory alone *)

Record called p s s' : Prop := { cd_ran : ran p s s'; cd_ph : ph s' = ph s }.

Lemma called_refl p s : up p s -> called p s s.
Proof. intros H. split; [by apply ran_refl|done]. Qed.

Lemma called_trans p s1 s2 s3 : called p s1 s2 -> called p s2 s3 -> called p s1 s3.
Proof. intros [R1 E1] [R2 E2]. split; [by eapply ran_trans|congruence]. Qed.

Lemma called_up p s s' : called p s s' -> up p s'.
Proof. intros [R _]. apply R. Qed.

Lemma called_mach p c s m : up p s -> outside c p (set_mach m s) -> called p s (set_mach m s).
Proof. intros U Ho. split; [by eapply ran_mach|done]. Qed.

(** Only the locks and the process table differ. *)
Definition beyond s s' : Prop := s' = set_pt_lock (pt_lock s') (set_pt_proc (pt_proc s') (set_mach (mach s') s)).

#[export] Instance beyond_preorder : PreOrder beyond.
Proof.
  split; [intros s; by destruct s|]. intros s1 s2 s3 H1 H2. unfold beyond in *. rewrite H2 at 1. rewrite H1. done.
Qed.

Lemma beyond_mach s m : beyond s (set_mach m s).
Proof. done. Qed.

Lemma wakeup_beyond ch s s' : wakeup ch s = Ok s' -> beyond s s'.
Proof.
  unfold wakeup, acquire_pt, release_pt. intros H. apply res_bind_Ok in H as (s1 & E1 & H). apply res_bind_Ok in E1 as ([k1 m1] & _ & [= <-]).
  apply res_bind_Ok in H as ([k2 m2] & _ & [= <-]). done.
Qed.

(** A call that wakes up the sleepers on [ch]. *)
Lemma called_wake p c s s' ch : up p s -> beyond s s' -> outside c p s' -> locked (pt_lock s') = 0 -> pt_proc s' = map (wake ch) (pt_proc s) -> called p s s'.
Proof.
  intros [_ _ (pr & Hp & Hst)] Hb Ho Hl Hpr. unfold beyond in Hb. assert (ph s' = ph s) as E by by rewrite Hb. split; [|done]. split.
  - rewrite E. etrans; [exact Hb|]. by destruct s.
  - split; [by exists c|done|]. exists pr. split; [|done]. rewrite Hpr, list_lookup_fmap, Hp. cbn. unfold wake. by rewrite Hst, bool_decide_false.
  - rewrite Hpr. apply roused_wake.
Qed.

Lemma releasesleep_beyond {X : Type} {SX : Sleepable X} a s (x : X) s' x' : Sleeplock.releasesleep a s x = Ok (s', x') -> beyond s s'.
Proof.
  unfold Sleeplock.releasesleep, Sleeplock.lock, Sleeplock.unlock. intros H. apply res_bind_Ok in H as ([s1 x1] & E1 & H). apply res_bind_Ok in E1 as ([k1 m1] & _ & [= <- <-]).
  apply res_bind_Ok in H as (s2 & E2 & H). apply res_bind_Ok in H as ([k3 m3] & _ & [= <- <-]). apply wakeup_beyond in E2. etrans; [|apply beyond_mach]. etrans; [|exact E2]. done.
Qed.
End Quiet.
