(* ===== verification/UserMem.v ===== *)
(** Writing to the memory of a process through its page table: [copyout] and
    [loaduvm] of [vm.c] on an address space. *)

From stdpp Require Import gmap.
From S2P Require Import Prelude CString Spinlock Kalloc Vm VmFacts AddrSpace SpaceOps SpaceSpec.

Section UserMem.
Import Kalloc Vm.
Context {kend : Z} {Hkend : kend_above kend}.
Implicit Types (h : phys) (m : machine) (L F : list Z) (A : aspace) (n q va : Z) (mm : mem).

(** A data page of the space is none of the other pages. *)
Lemma user_apart h L A F n q : owns kend h L A F -> a_ups A !! n = Some q ->
  page_ok kend q /\ (q ∉ L) /\ (forall p, p ∈ a_dir A :: vals (a_tabs A) ++ vals (delete n (a_ups A)) ++ F -> page_ok kend p /\ p <> q).
Proof.
  intros H Hq. destruct (owns_page _ _ _ _ q H) as [Hok Hl]; [apply elem_of_app; left; by eapply page_in|]. split; [done|]. split; [done|].
  pose proof (ow_apart _ _ _ _ H) as Hn. pose proof (ow_ok _ _ _ _ H) as Ho. rewrite Forall_forall in Ho.
  assert (pages A ++ F ≡ₚ q :: a_dir A :: vals (a_tabs A) ++ vals (delete n (a_ups A)) ++ F) as Hp.
  { rewrite (pages_del A n q Hq). unfold pages, del_page. cbn. by rewrite <- !app_assoc. }
  rewrite Hp in Hn. apply NoDup_app in Hn as (_ & _ & Hn). apply NoDup_cons in Hn as [Hn _]. intros p Hp'. split; [|intros ->; by apply Hn].
  apply Ho. rewrite Hp. by apply list_elem_of_further.
Qed.

(** Memory that changes only inside a data page. *)
Lemma user_write h L A F n q mm : owns kend h L A F -> a_ups A !! n = Some q -> bytes mm -> (forall x, x < q \/ q + PGSIZE <= x -> mm x = p_mem h x) ->
  owns kend (mkPhys mm (p_kmem h)) L A F /\ (forall k, pte mm A k = pte (p_mem h) A k) /\ same_on F (p_mem h) mm /\
  (forall va, va / PGSIZE <> n -> user_byte mm A va = user_byte (p_mem h) A va) /\
  (forall va, va / PGSIZE = n -> user_byte mm A va = Some (mm (q + va mod PGSIZE))).
Proof.
  intros H Hq Hb Hx. destruct (user_apart _ _ _ _ _ _ H Hq) as (Hok & Hl & Ha).
  pose proof (same_outside _ (p_mem h) mm q Ha Hok Hx) as Hs. destruct H as [K1 K2 K3 K4].
  assert (as_rep mm A) as Hrep by (apply (rep_agree (p_mem h)); [done|]; eapply same_on_sub, Hs; set_solver).
  split_and!.
  - split; try done. destruct K1 as [J1 J2 J3 J4 J5]. split; try done. cbn. apply (chain_agree (p_mem h)); [|done]. intros a y Ha' Hy. apply Hx.
    rewrite Forall_forall in J4. destruct (pages_apart kend a q (J4 a Ha') Hok); [by intros ->|unfold PGSIZE in *; lia..].
  - intros k. apply pte_agree; [done|]. intros i t Hi. eapply same_on_sub, Hs. intros p ->%list_elem_of_singleton.
    apply list_elem_of_further, elem_of_app. left. by eapply vals_in.
  - eapply same_on_sub, Hs. set_solver.
  - intros va Hva. unfold user_byte. destruct (a_ups A !! (va / PGSIZE)) as [p|] eqn:E; [|done]. cbn. f_equal. apply (Hs p).
    + apply list_elem_of_further, elem_of_app. right. apply elem_of_app. left. apply (vals_in _ (va / PGSIZE)). by rewrite lookup_delete_ne.
    + pose proof (Z.mod_pos_bound va PGSIZE ltac:(unfold PGSIZE; lia)). lia.
  - intros va <-. unfold user_byte. by rewrite Hq.
Qed.
End UserMem.

(** * loaduvm *)

(** What a read of [n] bytes at [off] returns for a file with the contents
    [data]. *)
Definition file_read (data : list Z) (off n : Z) : Z * list Z :=
  let len := Z.of_nat (length data) in
  if off <=? len then (Z.min n (len - off), take (Z.to_nat (Z.min n (len - off))) (drop (Z.to_nat off) data)) else (-1, []).

Section Load.
Import Kalloc Vm.
Context {kend : Z} {Hkend : kend_above kend}.
Context {Ip Y : Type} (readi : Ip -> Z -> Z -> phys -> machine -> Y -> res (Z * list Z * phys * machine * Y)).
Context (ip : Ip) (data : list Z) (I : Y -> Prop).
Implicit Types (h : phys) (m : machine) (L F : list Z) (A : aspace) (n q va off : Z) (mm : mem).

(** [readi] reads the file; [I] is what it needs of the state. *)
Record reads : Prop := {
  rd_bytes : Forall (fun b => 0 <= b < 256) data;
  rd_len : Z.of_nat (length data) < 2 ^ 31;
  rd_read off n h m y : I y -> 0 <= off < 2 ^ 32 -> 0 <= n < 2 ^ 31 ->
    exists y', readi ip off n h m y = Ok ((file_read data off n).1, (file_read data off n).2, h, m, y') /\ I y'
}.

Lemma file_read_len off n : 0 <= off -> 0 <= n -> Z.of_nat (length (file_read data off n).2) = Z.max 0 (file_read data off n).1 /\ (file_read data off n).1 <= n.
Proof.
  intros H0 Hn. unfold file_read. destruct (Z.leb_spec off (Z.of_nat (length data))); cbn [fst snd length]; [|lia]. rewrite length_take, length_drop. lia.
Qed.

Lemma file_read_full off n : 0 <= off -> 0 < n -> (file_read data off n).1 = n <-> off + n <= Z.of_nat (length data).
Proof. intros H0 Hn. unfold file_read. destruct (Z.leb_spec off (Z.of_nat (length data))); cbn [fst]; lia. Qed.

Lemma file_read_byte off n k : 0 <= off -> 0 <= k < n -> off + n <= Z.of_nat (length data) -> (file_read data off n).2 !! Z.to_nat k = data !! Z.to_nat (off + k).
Proof.
  intros H0 Hk Hl. unfold file_read. rewrite (proj2 (Z.leb_le _ _)) by lia. cbn [snd]. rewrite lookup_take_lt by lia. rewrite lookup_drop. f_equal. lia.
Qed.

Hypothesis Hrd : reads.

Lemma file_read_bytes off n : Forall (fun b => 0 <= b < 2 ^ 8) (file_read data off n).2.
Proof. unfold file_read. destruct (_ <=? _); [|constructor]. apply Forall_take, Forall_drop, rd_bytes, Hrd. Qed.

(** The space after a part of the file was read into the pages from [lo] to
    [hi]. *)
Record loaded_part lo hi h L A F h' : Prop := {
  lp_owns : owns kend h' L A F;
  lp_pte k : pte (p_mem h') A k = pte (p_mem h) A k;
  lp_same : same_on F (p_mem h) (p_mem h');
  lp_out va : va < lo \/ hi <= va -> user_byte (p_mem h') A va = user_byte (p_mem h) A va
}.

(** One page is filled from the file. *)
Lemma load_page h L A F j q off n : owns kend h L A F -> a_ups A !! j = Some q -> 0 <= off -> 0 < n <= PGSIZE ->
  let bs := (file_read data off n).2 in
  let h' := mkPhys (store_bytes (p_mem h) q bs) (p_kmem h) in
  loaded_part (PGSIZE * j) (PGSIZE * j + n) h L A F h' /\
  (off + n <= Z.of_nat (length data) -> forall va, PGSIZE * j <= va < PGSIZE * j + n -> user_byte (p_mem h') A va = data !! Z.to_nat (off + (va - PGSIZE * j))).
Proof.
  intros O Hq Ho Hn bs h'. destruct (file_read_len off n Ho ltac:(lia)) as [El Hle]. fold bs in El.
  assert (Z.of_nat (length bs) <= n) as Hlen by lia.
  destruct (user_write h L A F j q (store_bytes (p_mem h) q bs) O Hq) as (O' & Hp & Hs & Hother & Hin).
  { apply store_bytes_bytes, (ki_bytes _ _ _ (ow_kmem _ _ _ _ O)). } { intros x Hx. apply store_bytes_out. lia. }
  assert (forall va, PGSIZE * j <= va < PGSIZE * j + PGSIZE -> va / PGSIZE = j /\ va mod PGSIZE = va - PGSIZE * j) as Hdm.
  { intros va Hva. unfold PGSIZE in *. split; [symmetry; apply (Z.div_unique _ _ _ (va - 4096 * j)); lia|symmetry; apply (Z.mod_unique _ _ j); lia]. }
  split; [split; try done|].
  - intros va Hva. destruct (Z.eq_dec (va / PGSIZE) j) as [E|E]; [|by apply Hother]. rewrite Hin by done. unfold user_byte. rewrite E, Hq. cbn. f_equal.
    apply store_bytes_out. pose proof (Z.div_mod va PGSIZE ltac:(unfold PGSIZE; lia)). rewrite E in H. pose proof (Z.mod_pos_bound va PGSIZE ltac:(unfold PGSIZE; lia)). lia.
  - intros Hf va Hva. destruct (Hdm va ltac:(lia)) as [Ed Em]. rewrite Hin by done. rewrite Em. rewrite <- (file_read_byte off n) by lia. fold bs.
    assert ((file_read data off n).1 = n) as Er by (apply file_read_full; lia).
    replace (va - PGSIZE * j) with (q + (va - PGSIZE * j) - q) at 2 by lia. symmetry. apply store_bytes_in; [apply file_read_bytes|lia].
Qed.

Lemma loaded_trans lo mid hi lo' h1 h2 h3 L A F : lo <= lo' -> mid <= hi -> loaded_part lo mid h1 L A F h2 -> loaded_part lo' hi h2 L A F h3 -> loaded_part lo hi h1 L A F h3.
Proof.
  intros Hlo Hhi [O2 P2 S2 U2] [O3 P3 S3 U3]. split; [done| | |].
  - intros k. by rewrite P3, P2.
  - by etrans.
  - intros va Hva. rewrite U3, U2 by lia. done.
Qed.

Lemma loaded_refl lo hi h L A F : owns kend h L A F -> loaded_part lo hi h L A F h.
Proof. by split. Qed.

Lemma npages_bound sz : 0 <= sz -> PGSIZE * (npages sz - 1) < sz <= PGSIZE * npages sz \/ sz = 0 /\ npages sz = 0.
Proof. intros H. unfold npages, PGSIZE. destruct (Z.eq_dec sz 0) as [->|]; [by right|left]. pose proof (Z.div_mod (sz + 4096 - 1) 4096 ltac:(lia)). pose proof (Z.mod_pos_bound (sz + 4096 - 1) 4096 ltac:(lia)). lia. Qed.

Context (m : machine) (A : aspace) (L F : list Z) (a off sz : Z).
Hypothesis Ha : 0 <= a.
Hypothesis Hsz : 0 <= sz.
Hypothesis Hend : PGSIZE * a + sz < KERNBASE.
Hypothesis Hoff : 0 <= off < 2 ^ 32.
Hypothesis Hup : forall k, 0 <= k < npages sz -> is_Some (a_ups A !! (a + k)).

(** The file holds the whole range. *)
Definition there : bool := (sz =? 0) || (off + sz <=? Z.of_nat (length data)).

Lemma load_loop_ok : forall fuel j h y, owns kend h L A F -> I y -> 0 <= j -> (0 < fuel)%nat -> npages sz - j <= Z.of_nat fuel - 1 ->
  (PGSIZE * j < sz -> j = 0 \/ off + PGSIZE * j <= Z.of_nat (length data)) -> (sz <= PGSIZE * j -> there = true) ->
  exists r h' y', load_loop readi fuel (a_dir A) (PGSIZE * a) ip off (PGSIZE * j) sz h m y = Ok (r, h', m, y') /\ I y' /\
    loaded_part (PGSIZE * (a + j)) (PGSIZE * a + sz) h L A F h' /\ r = (if there then 0 else -1) /\
    (there = true -> forall va, PGSIZE * (a + j) <= va < PGSIZE * a + sz -> user_byte (p_mem h') A va = data !! Z.to_nat (off + (va - PGSIZE * a))).
Proof.
  pose proof (rd_len Hrd) as Hlen. unfold KERNBASE in Hend. pose proof (npages_bound sz Hsz) as Hnp.
  induction fuel as [|fuel IH]; intros j h y O Hy Hj Hf Hfl Hprog Hdone; [lia|]. cbn [load_loop].
  destruct (Z.ltb_spec (PGSIZE * j) sz) as [Hlt|Hge].
  2: { exists 0, h, y. rewrite (Hdone Hge). split; [done|]. split; [done|]. split; [by apply loaded_refl|]. split; [done|]. intros _ va Hva. unfold PGSIZE in *. lia. }
  assert (j < npages sz) as Hjn by (unfold PGSIZE in *; lia). destruct (Hup j ltac:(lia)) as [q Hq].
  rewrite (u32_small (PGSIZE * a + PGSIZE * j)) by (unfold PGSIZE in *; lia). replace (PGSIZE * a + PGSIZE * j) with (PGSIZE * (a + j)) by lia.
  destruct (walk_user h m A (a + j) q (ow_rep _ _ _ _ O) Hq) as (e & -> & He & Hl & _ & Hpq); [pose proof (ow_ok _ _ _ _ O) as Hok; by apply Forall_app in Hok as [? _]|].
  cbn [res_bind]. rewrite (proj2 (Z.eqb_neq _ _) He), Hl, Hpq. set (k := if u32 (sz - PGSIZE * j) <? PGSIZE then _ else _).
  assert (k = Z.min (sz - PGSIZE * j) PGSIZE) as Hk. { unfold k. rewrite u32_small by (unfold PGSIZE in *; lia). destruct (Z.ltb_spec (sz - PGSIZE * j) PGSIZE); lia. }
  clearbody k. assert (0 < k <= PGSIZE) as Hkr by (unfold PGSIZE in *; lia). assert (0 <= off + PGSIZE * j < 2 ^ 32) as Hor by (unfold PGSIZE in *; destruct (Hprog Hlt); lia).
  rewrite (u32_small (off + _)) by done. destruct (rd_read Hrd (off + PGSIZE * j) k h m y Hy Hor) as (y1 & -> & Hy1); [unfold PGSIZE in *; lia|]. cbn [res_bind].
  destruct (load_page h L A F (a + j) q (off + PGSIZE * j) k O Hq ltac:(lia) Hkr) as [Hp Hb]. set (h1 := mkPhys _ _) in *.
  pose proof (file_read_full (off + PGSIZE * j) k ltac:(lia) ltac:(lia)) as Hfull. destruct (Z.eqb_spec (file_read data (off + PGSIZE * j) k).1 k) as [Er|Er]; cbn [negb].
  - apply Hfull in Er. replace (u32 (PGSIZE * j + PGSIZE)) with (PGSIZE * (j + 1)) by (rewrite u32_small by (unfold PGSIZE in *; lia); lia).
    destruct (IH (j + 1) h1 y1 (lp_owns _ _ _ _ _ _ _ Hp) Hy1) as (r & h' & y' & -> & Hy' & Hp' & -> & Hb'); [lia|lia|lia|unfold PGSIZE in *; lia|..].
    { intros Hge. unfold there. apply orb_true_iff. right. apply Z.leb_le. unfold PGSIZE in *. lia. }
    do 3 eexists. split; [done|]. split; [done|]. split; [|split; [done|]].
    + eapply loaded_trans; [| |exact Hp|exact Hp']; unfold PGSIZE in *; lia.
    + intros Ht va Hva. destruct (Z.ltb_spec va (PGSIZE * (a + j) + k)) as [Hin|Hout].
      * rewrite (lp_out _ _ _ _ _ _ _ Hp') by (left; unfold PGSIZE in *; lia). rewrite (Hb Er va) by lia. f_equal. unfold PGSIZE in *. lia.
      * apply Hb'; [done|]. unfold PGSIZE in *. lia.
  - assert (there = false) as Ht. { unfold there. apply orb_false_iff. split; [apply Z.eqb_neq; unfold PGSIZE in *; lia|]. apply Z.leb_gt. unfold PGSIZE in *. lia. }
    exists (-1), h1, y1. rewrite Ht. split_and!; try done. eapply loaded_trans; [| |exact Hp|apply (loaded_refl (PGSIZE * (a + j))); apply Hp]; unfold PGSIZE in *; lia.
Qed.

(** [loaduvm] of [sz] bytes at [off] to page number [a]: when the file has them
    they are where they belong, and nothing else of the memory changes. *)
Lemma loaduvm_ok h y : owns kend h L A F -> I y ->
  exists h' y', loaduvm readi (a_dir A) (PGSIZE * a) ip off sz h m y = Ok (if there then 0 else -1, h', m, y') /\ I y' /\
    loaded_part (PGSIZE * a) (PGSIZE * a + sz) h L A F h' /\
    (there = true -> forall va, PGSIZE * a <= va < PGSIZE * a + sz -> user_byte (p_mem h') A va = data !! Z.to_nat (off + (va - PGSIZE * a))).
Proof.
  intros O Hy. unfold loaduvm. assert ((PGSIZE * a) mod PGSIZE = 0) as -> by (rewrite Z.mul_comm; apply Z_mod_mult). cbn [Z.eqb negb].
  destruct (load_loop_ok (S (Z.to_nat (sz / PGSIZE)) + 1) 0 h y O Hy) as (r & h' & y' & E & Hy' & Hp & -> & Hb); try lia.
  - assert (0 <= sz / PGSIZE) by (apply Z.div_pos; unfold PGSIZE; lia). destruct (npages_bound sz Hsz) as [Hn|[_ Hn]]; [|lia].
    pose proof (Z.div_mod sz PGSIZE ltac:(unfold PGSIZE; lia)). pose proof (Z.mod_pos_bound sz PGSIZE ltac:(unfold PGSIZE; lia)). unfold PGSIZE in *. lia.
  - intros Hz. unfold there. rewrite Z.mul_0_r in Hz. rewrite (proj2 (Z.eqb_eq sz 0)) by lia. done.
  - rewrite Z.mul_0_r in E. rewrite Z.add_0_r in Hp, Hb. by exists h', y'.
Qed.
End Load.
