(* ===== verification/Userland.v ===== *)
(** User programs: the matcher and the line loop of [grep.c], the counters of
    [wc.c] and the number printing of [printf.c].

    Strings are lists of bytes without their NUL.  What [read] delivers is a
    list of chunks: each call returns bytes of the next chunk, as many as fit. *)

From S2P Require Import Prelude CString.

(** Characters. *)
Definition NL : Z := 10.
Definition CARET : Z := 94.
Definition DOLLAR : Z := 36.
Definition STAR : Z := 42.
Definition DOT : Z := 46.

(** * grep.c *)

Module Grep.

(** [matchstar(c, re, text)], with [f] the match of [re] at a text. *)
Fixpoint matchstar (c : Z) (f : list Z -> bool) (text : list Z) : bool :=
  if f text then true
  else match text with
       | [] => false
       | x :: text' => if (x =? c) || (c =? DOT) then matchstar c f text' else false
       end.

Fixpoint matchhere (re : list Z) (text : list Z) : bool :=
  match re with
  | [] => true
  | c :: re1 =>
      let plain :=
        match text with
        | [] => false
        | x :: text' => if (c =? DOT) || (c =? x) then matchhere re1 text' else false
        end in
      match re1 with
      | d :: re2 => if d =? STAR then matchstar c (matchhere re2) text else plain
      | [] => if c =? DOLLAR then bool_decide (text = []) else plain
      end
  end.

(** The loop of [match] over the suffixes of the text. *)
Fixpoint match_any (re : list Z) (text : list Z) : bool :=
  if matchhere re text then true
  else match text with [] => false | _ :: text' => match_any re text' end.

Definition match_re (re : list Z) (text : list Z) : bool :=
  match re with
  | c :: re' => if c =? CARET then matchhere re' text else match_any re text
  | [] => match_any re text
  end.

(** ** The line loop *)

Definition BUFSIZE : nat := 1024.

(** The string at the front of a buffer. *)
Fixpoint cstring (l : list Z) : list Z :=
  match l with [] => [] | c :: l' => if c =? 0 then [] else c :: cstring l' end.

(** [strchr(p, '\n')], as an offset. *)
Fixpoint strchr_nl (l : list Z) : option nat :=
  match l with
  | [] => None
  | c :: l' => if c =? 0 then None else if c =? NL then Some O else S <$> strchr_nl l'
  end.

(** The inner loop: the complete lines from offset [p] on. *)
Fixpoint lines (fuel : nat) (pattern buf : list Z) (p : nat) (out : list (list Z))
  : res (list Z * nat * list (list Z)) :=
  match fuel with
  | O => OutOfFuel
  | S n =>
      match strchr_nl (drop p buf) with
      | None => Ok (buf, p, out)
      | Some k =>
          let q := (p + k)%nat in
          let? buf := zset "buf" buf (Z.of_nat q) 0 in
          if match_re pattern (cstring (drop p buf)) then
            let? buf := zset "buf" buf (Z.of_nat q) NL in
            lines n pattern buf (S q) (out ++ [take (S q - p) (drop p buf)])
          else lines n pattern buf (S q) out
      end
  end.

(** [read] of at most [k] bytes. *)
Definition read_some (k : nat) (input : list (list Z)) : list Z * list (list Z) :=
  match input with
  | [] => ([], [])
  | c :: cs =>
      match k, drop k c with
      | O, _ => ([], input)
      | _, [] => (take k c, cs)
      | _, rest => (take k c, rest :: cs)
      end
  end.

(** Store a list of bytes from index [i] on. *)
Fixpoint store_at (buf : list Z) (i : nat) (l : list Z) : res (list Z) :=
  match l with
  | [] => Ok buf
  | c :: l' => let? buf := zset "buf" buf (Z.of_nat i) c in store_at buf (S i) l'
  end.

(** The outer loop: returns what was written to standard output. *)
Fixpoint grep_loop (fuel : nat) (pattern buf : list Z) (m : nat) (input out : list (list Z))
  : res (list (list Z)) :=
  match fuel with
  | O => OutOfFuel
  | S f =>
      let (c, input) := read_some (BUFSIZE - m - 1) input in
      match c with
      | [] => Ok out
      | _ =>
          let? buf := store_at buf m c in
          let m := (m + length c)%nat in
          let? buf := zset "buf" buf (Z.of_nat m) 0 in
          let? (buf, p, out) := lines (S m) pattern buf 0 out in
          let m := (if (p =? 0)%nat then O else m) in
          if (0 <? m)%nat then
            let m := (m - p)%nat in
            let? buf := store_at buf 0 (take m (drop p buf)) in
            grep_loop f pattern buf m input out
          else grep_loop f pattern buf m input out
      end
  end.

Definition grep (fuel : nat) (pattern : list Z) (input : list (list Z)) : res (list (list Z)) :=
  grep_loop fuel pattern (repeat 0 BUFSIZE) 0 input [].

End Grep.

(** * wc.c *)

Module Wc.

Definition spaces : list Z := [32; 13; 9; 10; 11].

Record counts := mkCounts { c_l : Z; c_w : Z; c_c : Z; inword : bool }.

(** The body of the [for] loop. *)
Definition count1 (s : counts) (b : Z) : counts :=
  let c := c_c s + 1 in
  let l := if b =? NL then c_l s + 1 else c_l s in
  if bool_decide (b ∈ spaces) then mkCounts l (c_w s) c false
  else if negb (inword s) then mkCounts l (c_w s + 1) c true
  else mkCounts l (c_w s) c (inword s).

(** The [while] loop over what [read] delivers; it ends at a read of 0. *)
Fixpoint wc_loop (s : counts) (reads : list (list Z)) : counts :=
  match reads with
  | [] => s
  | [] :: _ => s
  | r :: reads' => wc_loop (fold_left count1 r s) reads'
  end.

(** The three numbers [wc] prints. *)
Definition wc (reads : list (list Z)) : Z * Z * Z :=
  let s := wc_loop (mkCounts 0 0 0 false) reads in (c_l s, c_w s, c_c s).

End Wc.

(** * printf.c *)

Module Printf.

Definition digits : list Z :=
  [48; 49; 50; 51; 52; 53; 54; 55; 56; 57; 65; 66; 67; 68; 69; 70].

(** [do buf[i++] = digits[x % base]; while ((x /= base) != 0)]. *)
Fixpoint put_digits (fuel : nat) (x base : Z) (buf : list Z) : res (list Z) :=
  match fuel with
  | O => OutOfFuel
  | S n =>
      let? d := zget "digits" digits (x mod base) in
      let buf := buf ++ [d] in
      let x := x / base in
      if negb (x =? 0) then put_digits n x base buf else Ok buf
  end.

(** The bytes [printint] writes; [buf] has 16 entries. *)
Definition printint (xx base : Z) (sgn : bool) : res (list Z) :=
  let neg := sgn && (xx <? 0) in
  let x := if neg then u32 (- xx) else u32 xx in
  let? buf := put_digits 33 x base [] in
  let buf := if neg then buf ++ [45] else buf in
  if (16 <? length buf)%nat then OOB "buf" else Ok (rev buf).

(** An argument of [printf]: a number, or a string ([None] is null). *)
Inductive arg := Num (z : Z) | Str (s : option (list Z)).

(** [*ap] as a number. *)
Definition num (a : arg) : res Z := match a with Num z => Ok z | Str _ => OOB "argument" end.

Definition next (ap : list arg) : res (arg * list arg) :=
  match ap with a :: ap' => Ok (a, ap') | [] => OOB "argument" end.

(** The loop over the format: [state] is whether a '%' was seen.  Returns the
    bytes written. *)
Fixpoint format (state : bool) (fmt : list Z) (ap : list arg) : res (list Z) :=
  match fmt with
  | [] => Ok []
  | c :: fmt' =>
      if negb state then
        if c =? 37 then format true fmt' ap
        else let? r := format false fmt' ap in Ok (c :: r)
      else if c =? 100 then
        let? (a, ap) := next ap in
        let? z := num a in
        let? o := printint (s32 z) 10 true in
        let? r := format false fmt' ap in Ok (o ++ r)
      else if (c =? 120) || (c =? 112) then
        let? (a, ap) := next ap in
        let? z := num a in
        let? o := printint (s32 z) 16 false in
        let? r := format false fmt' ap in Ok (o ++ r)
      else if c =? 115 then
        let? (a, ap) := next ap in
        match a with
        | Str (Some l) => let? r := format false fmt' ap in Ok (l ++ r)
        | Str None => let? r := format false fmt' ap in Ok ([40; 110; 117; 108; 108; 41] ++ r)
        | Num _ => OOB "argument"
        end
      else if c =? 99 then
        let? (a, ap) := next ap in
        let? z := num a in
        let? r := format false fmt' ap in Ok (u8 z :: r)
      else if c =? 37 then let? r := format false fmt' ap in Ok (37 :: r)
      else let? r := format false fmt' ap in Ok (37 :: c :: r)
  end.

Definition printf (fmt : list Z) (ap : list arg) : res (list Z) := format false fmt ap.

End Printf.

(** * What grep's patterns mean *)

Section GrepFacts.
Import Grep.

(** A pattern is a sequence of atoms. *)
Inductive atom := One (c : Z) | Many (c : Z) | End_of_text.

Fixpoint parse (re : list Z) : list atom :=
  match re with
  | [] => []
  | c :: re1 =>
      match re1 with
      | d :: re2 => if d =? STAR then Many c :: parse re2 else One c :: parse re1
      | [] => if c =? DOLLAR then [End_of_text] else [One c]
      end
  end.

Definition char_ok (c x : Z) : Prop := c = DOT \/ c = x.

(** The atoms match a prefix of the text. *)
Inductive hits : list atom -> list Z -> Prop :=
| hits_nil t : hits [] t
| hits_one c x p t : char_ok c x -> hits p t -> hits (One c :: p) (x :: t)
| hits_many c p pre t : Forall (char_ok c) pre -> hits p t -> hits (Many c :: p) (pre ++ t)
| hits_end : hits [End_of_text] [].

Lemma hits_many_inv c p text :
  hits (Many c :: p) text <-> exists pre t, text = pre ++ t /\ Forall (char_ok c) pre /\ hits p t.
Proof.
  split; [|intros (pre & t & -> & ? & ?); by constructor].
  intros H. inversion H; subst. eauto.
Qed.

Lemma matchstar_spec c f p text :
  (forall t, f t = true <-> hits p t) ->
  matchstar c f text = true <-> hits (Many c :: p) text.
Proof.
  intros Hf. induction text as [|x text IH]; simpl; rewrite hits_many_inv; destruct (f _) eqn:E.
  - split; [intros _|done]. exists [], []. by rewrite <- Hf.
  - split; [done|]. intros (pre & t & Et & _ & Ht). destruct pre; [|done].
    simpl in Et; subst t. apply Hf in Ht. congruence.
  - split; [intros _|done]. exists [], (x :: text). by rewrite <- Hf.
  - transitivity (char_ok c x /\ matchstar c f text = true).
    + unfold char_ok. destruct (Z.eqb_spec x c) as [->|], (Z.eqb_spec c DOT) as [->|]; simpl; intuition congruence.
    + rewrite IH, hits_many_inv. split.
      * intros (Hx & pre & t & -> & HF & Ht). exists (x :: pre), t. auto using Forall_cons_2.
      * intros (pre & t & Et & HF & Ht). destruct pre as [|y pre]; simpl in Et.
        -- subst t. apply Hf in Ht. congruence.
        -- injection Et as -> ->. inversion HF; subst. eauto 6.
Qed.

(** Matching one ordinary character. *)
Lemma match_one c re text (p : list atom) :
  (forall t, matchhere re t = true <-> hits p t) ->
  match text with
  | [] => false
  | x :: text' => if (c =? DOT) || (c =? x) then matchhere re text' else false
  end = true <-> hits (One c :: p) text.
Proof.
  intros IH. destruct text as [|x text].
  - split; [done|]. intros H. inversion H.
  - transitivity (char_ok c x /\ hits p text).
    + rewrite <- IH. unfold char_ok.
      destruct (Z.eqb_spec c DOT), (Z.eqb_spec c x); simpl; intuition congruence.
    + split; [intros [? ?]; by constructor|intros H; by inversion H].
Qed.

Lemma matchhere_spec re : forall text, matchhere re text = true <-> hits (parse re) text.
Proof.
  induction re as [re IH] using (induction_ltof1 _ (@length Z)). unfold ltof in IH.
  destruct re as [|c [|d re2]]; intros text.
  - split; [constructor|done].
  - simpl. destruct (Z.eqb_spec c DOLLAR) as [->|Hc].
    + rewrite bool_decide_eq_true. split; [intros ->; constructor|intros H; by inversion H].
    + apply (match_one c [] text []). intros t. split; [constructor|done].
  - change (parse (c :: d :: re2)) with
      (if d =? STAR then Many c :: parse re2 else One c :: parse (d :: re2)).
    change (matchhere (c :: d :: re2) text) with
      (if d =? STAR then matchstar c (matchhere re2) text else
       match text with
       | [] => false
       | x :: text' => if (c =? DOT) || (c =? x) then matchhere (d :: re2) text' else false
       end).
    destruct (d =? STAR).
    + apply matchstar_spec, IH. simpl. lia.
    + apply match_one, IH. simpl. lia.
Qed.

Lemma match_any_spec re text :
  match_any re text = true <-> exists pre post, text = pre ++ post /\ hits (parse re) post.
Proof.
  induction text as [|x text IH]; simpl; destruct (matchhere _ _) eqn:E.
  - split; [intros _|done]. exists [], []. split; [done|by apply matchhere_spec].
  - split; [done|]. intros (pre & post & Et & H). destruct pre; [|done].
    simpl in Et; subst post. apply matchhere_spec in H. congruence.
  - split; [intros _|done]. exists [], (x :: text). split; [done|by apply matchhere_spec].
  - rewrite IH. split.
    + intros (pre & post & -> & H). by exists (x :: pre), post.
    + intros (pre & post & Et & H). destruct pre as [|y pre]; simpl in Et.
      * subst post. apply matchhere_spec in H. congruence.
      * injection Et as -> ->. by exists pre, post.
Qed.

(** The matcher of [grep] decides the pattern language: a pattern is read as
    a sequence of atoms (a character, '.', any of these starred, a final '$'),
    and [match] answers 1 exactly if the atoms match at the start of the text,
    when the pattern begins with '^', or at some position of it. *)
Theorem grep_match_spec (re text : list Z) :
  match_re re text = true <->
  match re with
  | c :: re' => if c =? CARET then hits (parse re') text
                else exists pre post, text = pre ++ post /\ hits (parse re) post
  | [] => exists pre post, text = pre ++ post /\ hits (parse re) post
  end.
Proof.
  destruct re as [|c re]; [apply match_any_spec|].
  unfold match_re. destruct (c =? CARET); [apply matchhere_spec|apply match_any_spec].
Qed.

(** [grep] can lose a line: a read that ends before the first newline of the
    buffer is discarded ([if(p == buf) m = 0]).  The same input is searched
    right when it arrives in one piece. *)
Theorem grep_drops_partial_line :
  grep 10 [97; 98] [[97]; [98; 10]] = Ok [] /\
  grep 10 [97; 98] [[97; 98; 10]] = Ok [[97; 98; 10]].
Proof. split; vm_compute; reflexivity. Qed.

End GrepFacts.

(** * What wc counts *)

Section WcFacts.
Import Wc.

Definition is_space (b : Z) : bool := bool_decide (b ∈ spaces).

(** Position [i] starts a word: no space, and after a space or at the start. *)
Definition word_start (l : list Z) (i : nat) : bool :=
  match l !! i with
  | Some b =>
      negb (is_space b) &&
      match i with O => true | S j => match l !! j with Some a => is_space a | None => false end end
  | None => false
  end.

Definition count (f : nat -> bool) (n : nat) : Z := Z.of_nat (length (filter (fun i => f i = true) (seq 0 n))).

Lemma count_S f n : count f (S n) = count f n + (if f n then 1 else 0).
Proof.
  unfold count. rewrite seq_S, filter_app, length_app, filter_cons, Nat2Z.inj_add. simpl.
  f_equal. destruct (f n) eqn:E; [rewrite decide_True by done|rewrite decide_False by congruence]; done.
Qed.

Lemma count_ext f g n : (forall i, (i < n)%nat -> f i = g i) -> count f n = count g n.
Proof.
  induction n as [|n IH]; intros H; [done|]. rewrite !count_S, IH; [|intros; apply H; lia].
  by rewrite (H n) by lia.
Qed.

(** The state after the bytes [l]. *)
Definition counted (l : list Z) : counts :=
  mkCounts (count (fun i => bool_decide (l !! i = Some NL)) (length l))
           (count (word_start l) (length l)) (Z.of_nat (length l))
           (match last l with Some b => negb (is_space b) | None => false end).

Lemma word_start_app l b i : (i < length l)%nat -> word_start (l ++ [b]) i = word_start l i.
Proof.
  intros Hi. unfold word_start. rewrite lookup_app_l by done.
  destruct i; [done|]. by rewrite lookup_app_l by lia.
Qed.

Lemma word_start_last l b :
  word_start (l ++ [b]) (length l) =
  negb (is_space b) && match last l with Some a => is_space a | None => true end.
Proof.
  unfold word_start. rewrite lookup_app_r, Nat.sub_diag by lia. cbn [lookup list_lookup].
  f_equal. rewrite last_lookup. destruct l as [|x l']; [done|].
  cbn [length pred]. rewrite lookup_app_l by (simpl; lia).
  destruct (lookup_lt_is_Some_2 (x :: l') (length l')) as [a Ha]; [simpl; lia|]. by rewrite Ha.
Qed.

Lemma count1_counted l b : count1 (counted l) b = counted (l ++ [b]).
Proof.
  unfold counted. rewrite length_app. cbn [length]. rewrite Nat.add_1_r, !count_S, word_start_last.
  rewrite (count_ext (word_start (l ++ [b])) (word_start l)) by (intros; by apply word_start_app).
  rewrite (count_ext (fun i => bool_decide ((l ++ [b]) !! i = Some NL))
             (fun i => bool_decide (l !! i = Some NL))).
  2: { intros i Hi. by rewrite lookup_app_l. }
  rewrite lookup_app_r, Nat.sub_diag, last_snoc by lia. cbn [lookup list_lookup].
  unfold count1. fold (is_space b). cbn [c_l c_w c_c inword].
  replace (bool_decide (Some b = Some NL)) with (b =? NL).
  2: { destruct (Z.eqb_spec b NL) as [->|Hn];
       [by rewrite bool_decide_true|by rewrite bool_decide_false by congruence]. }
  destruct (is_space b); cbn [negb andb].
  - f_equal; [by destruct (b =? NL); lia|lia|lia].
  - destruct (last l) as [a|]; [destruct (is_space a)|]; cbn [negb];
      f_equal; try lia; by destruct (b =? NL); lia.
Qed.

Lemma fold_counted r : forall l, fold_left count1 r (counted l) = counted (l ++ r).
Proof.
  induction r as [|b r IH]; intros l; cbn [fold_left]; [by rewrite app_nil_r|].
  by rewrite count1_counted, IH, <- app_assoc.
Qed.

Lemma wc_loop_counted reads : Forall (fun r => r <> []) reads ->
  forall l, wc_loop (counted l) reads = counted (l ++ concat reads).
Proof.
  induction 1 as [|r reads Hr _ IH]; intros l; cbn [wc_loop concat]; [by rewrite app_nil_r|].
  destruct r as [|b r]; [done|]. by rewrite fold_counted, IH, <- app_assoc.
Qed.

(** [wc] prints the number of newlines, of words and of bytes of the file,
    however [read] cuts it into pieces; a word starts at a byte that is no space
    and that follows a space or the start of the file. *)
Theorem wc_spec (reads : list (list Z)) :
  Forall (fun r => r <> []) reads ->
  let l := concat reads in
  wc reads = (count (fun i => bool_decide (l !! i = Some NL)) (length l),
              count (word_start l) (length l), Z.of_nat (length l)).
Proof.
  intros H. unfold wc. change (mkCounts 0 0 0 false) with (counted []).
  by rewrite wc_loop_counted.
Qed.

Lemma wc_spec_witness : wc [[97; 98; 32]; [99; 10]] = (1, 2, 5).
Proof. rewrite wc_spec by (by repeat constructor). vm_compute. reflexivity. Defined.

End WcFacts.

(** * What printint prints *)

Section PrintFacts.
Import Printf Ulib.

(** The number a list of digits denotes, least significant first. *)
Definition denote (base : Z) (ds : list Z) : Z := foldr (fun d acc => d + base * acc) 0 ds.

Definition digit (d : Z) : Z := if d <? 10 then 48 + d else 55 + d.

Lemma zget_digits d : 0 <= d < 16 -> zget "digits" digits d = Ok (digit d).
Proof.
  intros H. assert (d ∈ seqZ 0 16) as Hd by (apply elem_of_seqZ; lia).
  clear H. revert d Hd. apply Forall_forall. vm_compute. by repeat constructor.
Qed.

(** No leading zero: a single digit, or a last digit that is not 0. *)
Definition canonical (ds : list Z) : Prop :=
  exists init d, ds = init ++ [d] /\ (init = [] \/ d <> 0).

Lemma put_digits_spec base k : 2 <= base <= 16 -> forall fuel x buf,
  0 <= x < base ^ Z.of_nat (S k) -> (k < fuel)%nat ->
  exists ds, put_digits fuel x base buf = Ok (buf ++ map digit ds) /\
    denote base ds = x /\ Forall (fun d => 0 <= d < base) ds /\
    (length ds <= S k)%nat /\ canonical ds.
Proof.
  intros Hb. induction k as [|k IH]; intros fuel x buf Hx Hf;
    (destruct fuel as [|fuel]; [lia|]); cbn [put_digits];
    pose proof (Z.mod_pos_bound x base) as Hm;
    pose proof (Z.div_mod x base) as Hdm;
    rewrite zget_digits by lia; cbn [res_bind].
  - rewrite Z.div_small by lia. cbn [negb Z.eqb]. exists [x].
    rewrite Z.mod_small by lia. simpl. repeat split; [lia|by repeat constructor; lia|lia|].
    exists [], x. auto.
  - rewrite Nat2Z.inj_succ, Z.pow_succ_r in Hx by lia.
    destruct (Z.eqb_spec (x / base) 0) as [E|E]; cbn [negb].
    + exists [x mod base]. rewrite E in Hdm. simpl.
      repeat split; [lia|by repeat constructor; lia|lia|]. exists [], (x mod base). auto.
    + destruct (IH fuel (x / base) (buf ++ [digit (x mod base)])) as (ds & -> & Hd & HF & Hl & Hc).
      * split; [apply Z.div_pos; lia|apply Z.div_lt_upper_bound; lia].
      * lia.
      * exists (x mod base :: ds). simpl. rewrite Hd, <- app_assoc. repeat split.
        -- lia.
        -- constructor; [lia|done].
        -- lia.
        -- destruct Hc as (init & d & -> & Hc). exists (x mod base :: init), d. split; [done|right].
           destruct Hc as [->|Hc]; [|done]. simpl in Hd. intros ->. lia.
Qed.

(** The bytes of a number in a base, as it is written. *)
Definition numeral (ds : list Z) : list Z := rev (map digit ds).

Lemma numeral_length ds : length (numeral ds) = length ds.
Proof. unfold numeral. by rewrite length_rev, length_map. Qed.

(** For every 32-bit argument, [printint] in base 10 or 16 stays inside its
    16-byte buffer and writes the value: an optional '-', then the digits of
    the magnitude without leading zeros; the least [int] is printed right. *)
Theorem printint_spec (xx base : Z) (sgn : bool) :
  base = 10 \/ base = 16 -> - 2 ^ 31 <= xx < 2 ^ 31 ->
  exists ds, printint xx base sgn =
      Ok ((if sgn && (xx <? 0) then [45] else []) ++ numeral ds) /\
    denote base ds = (if sgn then Z.abs xx else u32 xx) /\
    Forall (fun d => 0 <= d < base) ds /\ canonical ds /\ (length ds <= 10)%nat.
Proof.
  intros Hb Hx. unfold printint. set (neg := sgn && (xx <? 0)).
  assert ((if neg then u32 (- xx) else u32 xx) = if sgn then Z.abs xx else u32 xx) as Ex.
  { subst neg. destruct sgn; [|done]. cbn [andb].
    destruct (Z.ltb_spec xx 0); rewrite u32_small by lia; lia. }
  cbv zeta. rewrite Ex. set (x := if sgn then Z.abs xx else u32 xx).
  assert (0 <= x < 2 ^ 32) as Hx'.
  { subst x. destruct sgn; [lia|apply u32_range]. }
  destruct (put_digits_spec base 9 ltac:(lia) 33 x []) as (ds & -> & Hd & HF & Hl & Hc).
  { destruct Hb as [-> | ->]; simpl; lia. }
  { lia. }
  exists ds. cbn [res_bind app]. split_and!; try done.
  rewrite (proj2 (Nat.ltb_ge _ _)).
  - f_equal. unfold numeral. destruct neg; [by rewrite rev_app_distr|done].
  - destruct neg; rewrite ?length_app, length_map; simpl; lia.
Qed.

Lemma printint_spec_witness :
  exists ds, printint (- 2 ^ 31) 10 true = Ok ([45] ++ numeral ds) /\ denote 10 ds = 2 ^ 31.
Proof.
  destruct (printint_spec (- 2 ^ 31) 10 true (or_introl eq_refl)) as (ds & E & Hd & _).
  - split; [discriminate|reflexivity].
  - exists ds. split; [exact E|exact Hd].
Defined.

Lemma denote_app base ds d :
  denote base (ds ++ [d]) = denote base ds + base ^ Z.of_nat (length ds) * d.
Proof.
  induction ds as [|e ds IH]; cbn -[Z.of_nat Z.pow Z.mul Z.add]; [simpl; lia|]. unfold denote in *. rewrite IH.
  rewrite Nat2Z.inj_succ, Z.pow_succ_r by lia. lia.
Qed.

Lemma denote_nonneg ds : Forall (fun d => 0 <= d < 10) ds -> 0 <= denote 10 ds.
Proof. induction 1; simpl; lia. Qed.

(** [atoi] reads the digits it is given, from the most significant on. *)
Lemma atoi_digits m ds : forall fuel s n,
  Forall (fun d => 0 <= d < 10) ds -> 0 <= n ->
  n * 10 ^ Z.of_nat (length ds) + denote 10 ds < 2 ^ 31 ->
  (forall i c, numeral ds !! i = Some c -> m (s + Z.of_nat i) = c) ->
  ~ 48 <= m (s + Z.of_nat (length ds)) <= 57 -> (length ds < fuel)%nat ->
  u_atoi_from fuel m s n = Ok (n * 10 ^ Z.of_nat (length ds) + denote 10 ds).
Proof.
  induction ds as [|d ds IH] using rev_ind; intros fuel s n HF Hn Hlt Hm Hend Hf;
    (destruct fuel as [|fuel]; [lia|]); cbn [u_atoi_from].
  - simpl in *. rewrite Z.add_0_r in Hend.
    destruct (Z.leb_spec 48 (m s)), (Z.leb_spec (m s) 57); simpl; f_equal; lia.
  - apply Forall_app in HF as [HF Hd]. rewrite Forall_singleton in Hd.
    pose proof (denote_nonneg ds HF) as Hnn.
    rewrite denote_app, length_app in *. cbn [length] in *. rewrite Nat.add_1_r in *.
    rewrite Nat2Z.inj_succ, Z.pow_succ_r in * by lia.
    set (P := 10 ^ Z.of_nat (length ds)) in *.
    assert (1 <= P) by (subst P; pose proof (Z.pow_pos_nonneg 10 (Z.of_nat (length ds))); lia).
    assert (numeral (ds ++ [d]) = digit d :: numeral ds) as En.
    { unfold numeral. by rewrite map_app, rev_app_distr. }
    assert (m s = 48 + d) as Hms.
    { specialize (Hm 0%nat (digit d)). rewrite En, Z.add_0_r in Hm. rewrite Hm by done.
      unfold digit. by rewrite (proj2 (Z.ltb_lt d 10)) by lia. }
    rewrite Hms, (proj2 (Z.leb_le 48 _)), (proj2 (Z.leb_le _ 57)) by lia. cbn [andb].
    rewrite s32_small by nia.
    rewrite (IH fuel (s + 1) (n * 10 + (48 + d) - 48)).
    + fold P. f_equal. lia.
    + done.
    + lia.
    + fold P. nia.
    + intros i c Hi. specialize (Hm (S i) c). rewrite En in Hm.
      rewrite <- Hm by done. f_equal. lia.
    + by replace (s + 1 + Z.of_nat (length ds)) with (s + Z.succ (Z.of_nat (length ds))) by lia.
    + lia.
Qed.

(** What [printint] writes for a number that is not negative, [atoi] reads
    back as that number, wherever the bytes are stored, if no digit follows. *)
Theorem atoi_printint (xx : Z) (l : list Z) (m : mem) (s : Z) (fuel : nat) :
  0 <= xx < 2 ^ 31 -> printint xx 10 true = Ok l ->
  (forall i c, l !! i = Some c -> m (s + Z.of_nat i) = c) ->
  ~ 48 <= m (s + Z.of_nat (length l)) <= 57 -> (length l < fuel)%nat ->
  u_atoi fuel m s = Ok xx.
Proof.
  intros Hx Hl Hm Hend Hf.
  assert (exists ds, l = numeral ds /\ denote 10 ds = xx /\ Forall (fun d => 0 <= d < 10) ds)
    as (ds & -> & Hd & HF).
  { unfold printint in Hl. rewrite (proj2 (Z.ltb_ge xx 0)) in Hl by lia. cbn [andb] in Hl.
    rewrite u32_small in Hl by lia.
    destruct (put_digits_spec 10 9 ltac:(lia) 33 xx []) as (ds & E & Hd & HF & Hlen & _);
      [simpl; lia|lia|].
    rewrite E in Hl. cbn [res_bind app] in Hl. exists ds.
    destruct (_ <? _)%nat; [done|]. injection Hl as <-. done. }
  rewrite numeral_length in *. unfold u_atoi.
  rewrite (atoi_digits m ds); [f_equal; lia|done|lia|lia|done|done|done].
Qed.

Lemma atoi_printint_witness :
  u_atoi 5 (fun a => match a with 7 => 52 | 8 => 50 | _ => 0 end) 7 = Ok 42.
Proof.
  apply (atoi_printint 42 [52; 50]).
  - split; [discriminate|reflexivity].
  - vm_compute. reflexivity.
  - intros [|[|i]] c H; [injection H as <-; reflexivity..|discriminate].
  - vm_compute. intros [H _]. by apply H.
  - simpl. lia.
Defined.

End PrintFacts.
