(* ===== verification/Fs.v ===== *)
(** The file system: [fs.c] (block allocator, inodes, file contents,
    directories and path names).

    The state [fsx] is the log with the disk behind it, the super block and the
    inode cache; an inode pointer is an index into [icache.inode].  A sleeping
    process lets the others change all of it ([resume]).  The device table
    [devsw] is an argument, as it is filled in at run time. *)

From S2P Require Import Prelude CString Spinlock Kalloc Proc Demo MlfqFacts ProcFacts Sleep Block Log.

Definition s16 (x : Z) : Z := (x + 2 ^ 15) mod 2 ^ 16 - 2 ^ 15.

Definition NDIRECT : Z := 12.
Definition NINDIRECT : Z := BSIZE / 4.
Definition MAXFILE : Z := NDIRECT + NINDIRECT.
Definition sizeof_dinode : Z := 64.
Definition IPB : Z := BSIZE / sizeof_dinode.
Definition BPB : Z := BSIZE * 8.
Definition DIRSIZ : nat := 14.
Definition sizeof_dirent : Z := 16.
Definition NINODE : nat := 50.
Definition NDEV : Z := 10.
Definition ROOTINO : Z := 1.
Definition T_DIR : Z := 1.
Definition T_FILE : Z := 2.
Definition T_DEV : Z := 3.

Definition IBLOCK (i : Z) (sb : superblock) : Z := u32 (i / IPB + sb_inodestart sb).
Definition BBLOCK (b : Z) (sb : superblock) : Z := u32 (b / BPB + sb_bmapstart sb).

(** * Data *)

(** The fields of [struct dinode], as [struct inode] copies them. *)
Record dinode := mkDinode {
  d_type : Z; d_major : Z; d_minor : Z; d_nlink : Z; d_size : Z; d_addrs : list Z
}.

Record inode := mkInode {
  i_dev : Z; i_inum : Z; i_ref : Z; i_lock : sleeplock; i_valid : Z; i_d : dinode
}.
#[export] Instance dinode_eta : Eta dinode := fun d =>
  mkDinode (d_type d) (d_major d) (d_minor d) (d_nlink d) (d_size d) (d_addrs d).
Definition set_d_type := ltac:(setter d_type).
Definition set_d_major := ltac:(setter d_major).
Definition set_d_minor := ltac:(setter d_minor).
Definition set_d_nlink := ltac:(setter d_nlink).
Definition set_d_size := ltac:(setter d_size).
Definition set_d_addrs := ltac:(setter d_addrs).
#[export] Instance inode_eta : Eta inode := fun i =>
  mkInode (i_dev i) (i_inum i) (i_ref i) (i_lock i) (i_valid i) (i_d i).
Definition set_i_dev := ltac:(setter i_dev).
Definition set_i_inum := ltac:(setter i_inum).
Definition set_i_ref := ltac:(setter i_ref).
Definition set_i_lock := ltac:(setter i_lock).
Definition set_i_valid := ltac:(setter i_valid).
Definition set_i_d := ltac:(setter i_d).

Record fsx := mkFs {
  f_log : lst; f_sb : superblock; ic_lock : spinlock; ic : Z -> inode
}.
#[export] Instance fsx_eta : Eta fsx := fun x => mkFs (f_log x) (f_sb x) (ic_lock x) (ic x).
Definition set_f_log := ltac:(setter f_log).
Definition set_f_sb := ltac:(setter f_sb).
Definition set_ic_lock := ltac:(setter ic_lock).
Definition set_ic := ltac:(setter ic).

(** Change inode [i] of the cache. *)
Definition upd_i (i : Z) (f : inode -> inode) (x : fsx) : fsx :=
  set_ic (fupd (ic x) i (f (ic x i))) x.
Definition upd_d (i : Z) (f : dinode -> dinode) (x : fsx) : fsx :=
  upd_i i (fun ip => set_i_d (f (i_d ip)) ip) x.

Lemma inode_sl_put i k x :
  i_lock (ic (upd_i i (set_i_lock k) x) i) = k.
Proof. unfold upd_i. cbn. by rewrite fupd_eq. Qed.

(** The sleeping lock of inode [i]. *)
Definition inode_sl (i : Z) : Sleepable fsx :=
  {| the_sl x := i_lock (ic x i); put_sl k x := upd_i i (set_i_lock k) x; sl_put := inode_sl_put i |}.

(** * Strings in fixed buffers *)

(** [strncmp(p, q, n)] of string.c on buffers. *)
Fixpoint strncmp_buf (n : nat) (p q : list Z) : res Z :=
  match n with
  | O => Ok 0
  | S n' =>
      let? a := zget "name" p 0 in
      let? b := zget "name" q 0 in
      if negb (a =? 0) && (a =? b) then strncmp_buf n' (drop 1 p) (drop 1 q) else Ok (a - b)
  end.

(** [strncpy(s, t, n)] of string.c: the [n] bytes it stores. *)
Fixpoint strncpy_buf (n : nat) (t : list Z) : res (list Z) :=
  match n with
  | O => Ok []
  | S n' =>
      let? c := zget "name" t 0 in
      if c =? 0 then Ok (repeat 0 n)
      else let? r := strncpy_buf n' (drop 1 t) in Ok (c :: r)
  end.

Module Fs.
Section Fs.
Context `{SV : Services}.
Implicit Types (s : kst) (x : fsx).

(** Buffers and the log, of the file system's state. *)
Definition bread (dev b : Z) x : res (block * fsx) :=
  let? (v, d) := Dev.bread dev b (bd (f_log x)) in
  Ok (v, set_f_log (set_bd d (f_log x)) x).
Definition bset (b : Z) (v : block) x : fsx :=
  set_f_log (set_bd (Dev.bset b v (bd (f_log x))) (f_log x)) x.
Definition brelse (b : Z) x : res fsx :=
  let? d := Dev.brelse b (bd (f_log x)) in Ok (set_f_log (set_bd d (f_log x)) x).
Definition log_write (b : Z) s x : res (kst * fsx) :=
  let? (s, l) := Log.log_write b s (f_log x) in Ok (s, set_f_log l x).

(** ** Blocks *)

Definition readsb (dev : Z) x : res fsx :=
  let? (sb, d) := Log.readsb dev (bd (f_log x)) in
  Ok (set_f_sb sb (set_f_log (set_bd d (f_log x)) x)).

Definition bzero (dev bno : Z) s x : res (kst * fsx) :=
  let? (_, x) := bread dev bno x in
  let x := bset bno (repeat 0 (Z.to_nat BSIZE)) x in
  let? (s, x) := log_write bno s x in
  let? x := brelse bno x in
  Ok (s, x).

(** The inner loop of [balloc] from bit [bi] on: the first clear bit. *)
Fixpoint find_free (n : nat) (bi b size : Z) (data : block) : res (option Z) :=
  match n with
  | O => Ok None
  | S n' =>
      if b + bi <? size then
        let m := Z.shiftl 1 (bi mod 8) in
        let? v := zget "bp->data" data (bi / 8) in
        if Z.land v m =? 0 then Ok (Some bi) else find_free n' (bi + 1) b size data
      else Ok None
  end.

(** The outer loop of [balloc]. *)
Fixpoint balloc_loop (fuel : nat) (b dev : Z) s x : res (Z * kst * fsx) :=
  match fuel with
  | O => OutOfFuel
  | S n =>
      if b <? sb_size (f_sb x) then
        let bb := BBLOCK b (f_sb x) in
        let? (data, x) := bread dev bb x in
        let? r := find_free (Z.to_nat BPB) 0 b (sb_size (f_sb x)) data in
        match r with
        | Some bi =>
            let m := Z.shiftl 1 (bi mod 8) in
            let? v := zget "bp->data" data (bi / 8) in
            let? data := zset "bp->data" data (bi / 8) (Z.lor v m) in
            let x := bset bb data x in
            let? (s, x) := log_write bb s x in
            let? x := brelse bb x in
            let? (s, x) := bzero dev (b + bi) s x in
            Ok (b + bi, s, x)
        | None =>
            let? x := brelse bb x in
            balloc_loop n (b + BPB) dev s x
        end
      else Panic "balloc: out of blocks"
  end.

Definition balloc (dev : Z) s x : res (Z * kst * fsx) :=
  balloc_loop (S (S (Z.to_nat (sb_size (f_sb x) / BPB)))) 0 dev s x.

Definition bfree (dev b : Z) s x : res (kst * fsx) :=
  let? x := readsb dev x in
  let bb := BBLOCK b (f_sb x) in
  let? (data, x) := bread dev bb x in
  let bi := b mod BPB in
  let m := Z.shiftl 1 (bi mod 8) in
  let? v := zget "bp->data" data (bi / 8) in
  if Z.land v m =? 0 then Panic "freeing free block"
  else
    let? data := zset "bp->data" data (bi / 8) (Z.land v (255 - m)) in
    let x := bset bb data x in
    let? (s, x) := log_write bb s x in
    let? x := brelse bb x in
    Ok (s, x).

(** ** Inodes *)

(** Where [dinode] number [inum] lies in its block. *)
Definition dip_off (inum : Z) : Z := (inum mod IPB) * sizeof_dinode.

Fixpoint get_addrs (n : nat) (off : Z) (data : block) : res (list Z) :=
  match n with
  | O => Ok []
  | S n' =>
      let? a := get32 "dip->addrs" data off in
      let? r := get_addrs n' (off + 4) data in
      Ok (a :: r)
  end.

Fixpoint put_addrs (l : list Z) (off : Z) (data : block) : res block :=
  match l with
  | [] => Ok data
  | a :: l' =>
      let? data := put32 "dip->addrs" data off a in
      put_addrs l' (off + 4) data
  end.

(** The assignments [ip->f = dip->f] of [ilock]. *)
Definition get_dinode (data : block) (off : Z) : res dinode :=
  let? t := get16 "dip" data off in
  let? ma := get16 "dip" data (off + 2) in
  let? mi := get16 "dip" data (off + 4) in
  let? nl := get16 "dip" data (off + 6) in
  let? sz := get32 "dip" data (off + 8) in
  let? ad := get_addrs 13 (off + 12) data in
  Ok (mkDinode (s16 t) (s16 ma) (s16 mi) (s16 nl) sz ad).

(** The assignments [dip->f = ip->f] of [iupdate]. *)
Definition put_dinode (d : dinode) (data : block) (off : Z) : res block :=
  let? data := put16 "dip" data off (d_type d) in
  let? data := put16 "dip" data (off + 2) (d_major d) in
  let? data := put16 "dip" data (off + 4) (d_minor d) in
  let? data := put16 "dip" data (off + 6) (d_nlink d) in
  let? data := put32 "dip" data (off + 8) (d_size d) in
  put_addrs (d_addrs d) (off + 12) data.

Definition lock_icache s x : res (kst * fsx) :=
  let? (k, m) := Spinlock.acquire (ic_lock x) (mach s) in Ok (set_mach m s, set_ic_lock k x).
Definition unlock_icache s x : res (kst * fsx) :=
  let? (k, m) := Spinlock.release (ic_lock x) (mach s) in Ok (set_mach m s, set_ic_lock k x).

(** The loop of [iinit]. *)
Fixpoint init_inodes (n : nat) (i : Z) (f : Z -> inode) : Z -> inode :=
  match n with
  | O => f
  | S n' =>
      init_inodes n' (i + 1)
        (fupd f i (set_i_lock (Sleeplock.initsleeplock "inode" (i_lock (f i))) (f i)))
  end.

Definition iinit (dev : Z) s x : res (kst * fsx) :=
  let x := set_ic_lock (Spinlock.initlock "icache" (ic_lock x)) x in
  let x := set_ic (init_inodes NINODE 0 (ic x)) x in
  let? x := readsb dev x in
  let b := f_sb x in
  Ok (printk "sb: size %d nblocks %d ninodes %d nlog %d logstart %d inodestart %d bmap start %d\n"
        [AInt (sb_size b); AInt (sb_nblocks b); AInt (sb_ninodes b); AInt (sb_nlog b); AInt (sb_logstart b);
         AInt (sb_inodestart b); AInt (sb_bmapstart b)] s, x).

(** The loop of [iget]: the entry of the inode, or the first free one. *)
Inductive found := Hit (i : Z) | Miss (empty : option Z).

Fixpoint iget_scan (n : nat) (i dev inum : Z) (empty : option Z) (f : Z -> inode) : found :=
  match n with
  | O => Miss empty
  | S n' =>
      let ip := f i in
      if (0 <? i_ref ip) && (i_dev ip =? dev) && (i_inum ip =? inum) then Hit i
      else
        let empty := match empty with
                     | None => if i_ref ip =? 0 then Some i else None
                     | Some e => Some e
                     end in
        iget_scan n' (i + 1) dev inum empty f
  end.

Definition iget (dev inum : Z) s x : res (Z * kst * fsx) :=
  let? (s, x) := lock_icache s x in
  match iget_scan NINODE 0 dev inum None (ic x) with
  | Hit i =>
      let x := upd_i i (fun ip => set_i_ref (i_ref ip + 1) ip) x in
      let? (s, x) := unlock_icache s x in
      Ok (i, s, x)
  | Miss None => Panic "iget: no inodes"
  | Miss (Some i) =>
      let x := upd_i i (set_i_dev dev) x in
      let x := upd_i i (set_i_inum inum) x in
      let x := upd_i i (set_i_ref 1) x in
      let x := upd_i i (set_i_valid 0) x in
      let? (s, x) := unlock_icache s x in
      Ok (i, s, x)
  end.

Definition idup (i : Z) s x : res (Z * kst * fsx) :=
  let? (s, x) := lock_icache s x in
  let x := upd_i i (fun ip => set_i_ref (i_ref ip + 1) ip) x in
  let? (s, x) := unlock_icache s x in
  Ok (i, s, x).

(** The loop of [ialloc]. *)
Fixpoint ialloc_loop (n : nat) (inum dev type : Z) s x : res (Z * kst * fsx) :=
  match n with
  | O => OutOfFuel
  | S n' =>
      if inum <? sb_ninodes (f_sb x) then
        let b := IBLOCK inum (f_sb x) in
        let? (data, x) := bread dev b x in
        let? t := get16 "dip" data (dip_off inum) in
        if s16 t =? 0 then
          let? data := put_bytes "dip" data (dip_off inum) (repeat 0 (Z.to_nat sizeof_dinode)) in
          let? data := put16 "dip" data (dip_off inum) type in
          let x := bset b data x in
          let? (s, x) := log_write b s x in
          let? x := brelse b x in
          iget dev inum s x
        else
          let? x := brelse b x in
          ialloc_loop n' (inum + 1) dev type s x
      else Panic "ialloc: no inodes"
  end.

Definition ialloc (dev type : Z) s x : res (Z * kst * fsx) :=
  ialloc_loop (S (Z.to_nat (sb_ninodes (f_sb x)))) 1 dev type s x.

Definition iupdate (i : Z) s x : res (kst * fsx) :=
  let ip := ic x i in
  let b := IBLOCK (i_inum ip) (f_sb x) in
  let? (data, x) := bread (i_dev ip) b x in
  let? data := put_dinode (i_d ip) data (dip_off (i_inum ip)) in
  let x := bset b data x in
  let? (s, x) := log_write b s x in
  let? x := brelse b x in
  Ok (s, x).

(** ** Inode locks *)

(** What the others do while this process sleeps, the bound on the rounds of a
    wait, and the address of each inode's lock. *)
Section Locks.
Context (resume : kst -> fsx -> kst * fsx) (rounds : nat) (lock_at : Z -> Z).

Definition acquiresleep (i : Z) s x : res (kst * fsx) :=
  Sleeplock.acquiresleep (SX := inode_sl i) resume (lock_at i) rounds s x.
Definition releasesleep (i : Z) s x : res (kst * fsx) :=
  Sleeplock.releasesleep (SX := inode_sl i) (lock_at i) s x.
Definition holdingsleep (i : Z) s x : res (bool * kst * fsx) :=
  Sleeplock.holdingsleep (SX := inode_sl i) s x.

Definition ilock (ip : option Z) s x : res (kst * fsx) :=
  match ip with
  | None => Panic "ilock"
  | Some i =>
      if i_ref (ic x i) <? 1 then Panic "ilock"
      else
        let? (s, x) := acquiresleep i s x in
        if i_valid (ic x i) =? 0 then
          let b := IBLOCK (i_inum (ic x i)) (f_sb x) in
          let? (data, x) := bread (i_dev (ic x i)) b x in
          let? d := get_dinode data (dip_off (i_inum (ic x i))) in
          let x := upd_i i (set_i_d d) x in
          let? x := brelse b x in
          let x := upd_i i (set_i_valid 1) x in
          if d_type (i_d (ic x i)) =? 0 then Panic "ilock: no type" else Ok (s, x)
        else Ok (s, x)
  end.

Definition iunlock (ip : option Z) s x : res (kst * fsx) :=
  match ip with
  | None => Panic "iunlock"
  | Some i =>
      let? (h, s, x) := holdingsleep i s x in
      if negb h || (i_ref (ic x i) <? 1) then Panic "iunlock"
      else releasesleep i s x
  end.

(** ** Freeing the contents *)

(** The first loop of [itrunc]. *)
Fixpoint trunc_direct (n : nat) (k i : Z) s x : res (kst * fsx) :=
  match n with
  | O => Ok (s, x)
  | S n' =>
      let ip := ic x i in
      let? a := zget "ip->addrs" (d_addrs (i_d ip)) k in
      let? (s, x) :=
        (if negb (a =? 0) then
           let? (s, x) := bfree (i_dev ip) a s x in
           let? ad := zset "ip->addrs" (d_addrs (i_d (ic x i))) k 0 in
           Ok (s, upd_d i (set_d_addrs ad) x)
         else Ok (s, x)) in
      trunc_direct n' (k + 1) i s x
  end.

(** The loop over the indirect block. *)
Fixpoint trunc_indirect (n : nat) (j dev : Z) (data : block) s x : res (kst * fsx) :=
  match n with
  | O => Ok (s, x)
  | S n' =>
      let? a := get32 "bp->data" data (4 * j) in
      let? (s, x) := (if negb (a =? 0) then bfree dev a s x else Ok (s, x)) in
      trunc_indirect n' (j + 1) dev data s x
  end.

Definition itrunc (i : Z) s x : res (kst * fsx) :=
  let? (s, x) := trunc_direct (Z.to_nat NDIRECT) 0 i s x in
  let ip := ic x i in
  let? a := zget "ip->addrs" (d_addrs (i_d ip)) NDIRECT in
  let? (s, x) :=
    (if negb (a =? 0) then
       let? (data, x) := bread (i_dev ip) a x in
       let? (s, x) := trunc_indirect (Z.to_nat NINDIRECT) 0 (i_dev ip) data s x in
       let? x := brelse a x in
       let? (s, x) := bfree (i_dev ip) a s x in
       let? ad := zset "ip->addrs" (d_addrs (i_d (ic x i))) NDIRECT 0 in
       Ok (s, upd_d i (set_d_addrs ad) x)
     else Ok (s, x)) in
  let x := upd_d i (set_d_size 0) x in
  iupdate i s x.

Definition iput (i : Z) s x : res (kst * fsx) :=
  let? (s, x) := acquiresleep i s x in
  let? (s, x) :=
    (if negb (i_valid (ic x i) =? 0) && (d_nlink (i_d (ic x i)) =? 0) then
       let? (s, x) := lock_icache s x in
       let r := i_ref (ic x i) in
       let? (s, x) := unlock_icache s x in
       if r =? 1 then
         let? (s, x) := itrunc i s x in
         let x := upd_d i (set_d_type 0) x in
         let? (s, x) := iupdate i s x in
         Ok (s, upd_i i (set_i_valid 0) x)
       else Ok (s, x)
     else Ok (s, x)) in
  let? (s, x) := releasesleep i s x in
  let? (s, x) := lock_icache s x in
  let x := upd_i i (fun ip => set_i_ref (i_ref ip - 1) ip) x in
  unlock_icache s x.

Definition iunlockput (i : Z) s x : res (kst * fsx) :=
  let? (s, x) := iunlock (Some i) s x in iput i s x.

End Locks.

(** ** Contents *)

Definition bmap (i bn : Z) s x : res (Z * kst * fsx) :=
  let ip := ic x i in
  if bn <? NDIRECT then
    let? addr := zget "ip->addrs" (d_addrs (i_d ip)) bn in
    if addr =? 0 then
      let? (addr, s, x) := balloc (i_dev ip) s x in
      let? ad := zset "ip->addrs" (d_addrs (i_d (ic x i))) bn addr in
      Ok (addr, s, upd_d i (set_d_addrs ad) x)
    else Ok (addr, s, x)
  else
    let bn := bn - NDIRECT in
    if bn <? NINDIRECT then
      let? addr := zget "ip->addrs" (d_addrs (i_d ip)) NDIRECT in
      let? (addr, s, x) :=
        (if addr =? 0 then
           let? (addr, s, x) := balloc (i_dev ip) s x in
           let? ad := zset "ip->addrs" (d_addrs (i_d (ic x i))) NDIRECT addr in
           Ok (addr, s, upd_d i (set_d_addrs ad) x)
         else Ok (addr, s, x)) in
      let? (data, x) := bread (i_dev ip) addr x in
      let? a := get32 "bp->data" data (4 * bn) in
      let? (a, s, x) :=
        (if a =? 0 then
           let? (a, s, x) := balloc (i_dev ip) s x in
           let? data := put32 "bp->data" data (4 * bn) a in
           let? (s, x) := log_write addr s (bset addr data x) in
           Ok (a, s, x)
         else Ok (a, s, x)) in
      let? x := brelse addr x in
      Ok (a, s, x)
    else Panic "bmap: out of range".

(** [struct stat]. *)
Record stat := mkStat { st_type : Z; st_dev : Z; st_ino : Z; st_nlink : Z; st_size : Z }.

Definition stati (i : Z) x : stat :=
  let ip := ic x i in
  mkStat (d_type (i_d ip)) (i_dev ip) (i_inum ip) (d_nlink (i_d ip)) (d_size (i_d ip)).

(** The loop of [readi]: the bytes copied to [dst]. *)
Fixpoint read_loop (fuel : nat) (i off tot n : Z) (out : list Z) s x
  : res (list Z * kst * fsx) :=
  match fuel with
  | O => OutOfFuel
  | S f =>
      if tot <? n then
        let? (b, s, x) := bmap i (off / BSIZE) s x in
        let? (data, x) := bread (i_dev (ic x i)) b x in
        let m := Z.min (n - tot) (BSIZE - off mod BSIZE) in
        let? bs := get_bytes "bp->data" data (off mod BSIZE) (Z.to_nat m) in
        let? x := brelse b x in
        read_loop f i (off + m) (tot + m) n (out ++ bs) s x
      else Ok (out, s, x)
  end.

(** The loop of [writei], from the bytes [src]; the offset it ends at. *)
Fixpoint write_loop (fuel : nat) (i off tot n : Z) (src : list Z) s x
  : res (Z * kst * fsx) :=
  match fuel with
  | O => OutOfFuel
  | S f =>
      if tot <? n then
        let? (b, s, x) := bmap i (off / BSIZE) s x in
        let? (data, x) := bread (i_dev (ic x i)) b x in
        let m := Z.min (n - tot) (BSIZE - off mod BSIZE) in
        let? bs := get_bytes "src" src tot (Z.to_nat m) in
        let? data := put_bytes "bp->data" data (off mod BSIZE) bs in
        let x := bset b data x in
        let? (s, x) := log_write b s x in
        let? x := brelse b x in
        write_loop f i (off + m) (tot + m) n src s x
      else Ok (off, s, x)
  end.

(** The device table: the two functions of each entry, or null. *)
Section Content.
Context (dev_read : Z -> option (Z -> Z -> kst -> fsx -> res (Z * list Z * kst * fsx))).
Context (dev_write : Z -> option (Z -> list Z -> Z -> kst -> fsx -> res (Z * kst * fsx))).

Definition readi (i off n : Z) s x : res (Z * list Z * kst * fsx) :=
  let ip := i_d (ic x i) in
  if d_type ip =? T_DEV then
    if (d_major ip <? 0) || (NDEV <=? d_major ip) then Ok (-1, [], s, x)
    else match dev_read (d_major ip) with
         | None => Ok (-1, [], s, x)
         | Some f => f i n s x
         end
  else if (d_size ip <? off) || (u32 (off + n) <? off) then Ok (-1, [], s, x)
  else
    let n := if d_size ip <? u32 (off + n) then d_size ip - off else n in
    let? (out, s, x) := read_loop (S (Z.to_nat n)) i off 0 n [] s x in
    Ok (s32 n, out, s, x).

Definition writei (i : Z) (src : list Z) (off n : Z) s x : res (Z * kst * fsx) :=
  let ip := i_d (ic x i) in
  if d_type ip =? T_DEV then
    if (d_major ip <? 0) || (NDEV <=? d_major ip) then Ok (-1, s, x)
    else match dev_write (d_major ip) with
         | None => Ok (-1, s, x)
         | Some f => f i src n s x
         end
  else if (d_size ip <? off) || (u32 (off + n) <? off) then Ok (-1, s, x)
  else if MAXFILE * BSIZE <? u32 (off + n) then Ok (-1, s, x)
  else
    let? (off, s, x) := write_loop (S (Z.to_nat n)) i off 0 n src s x in
    let? (s, x) :=
      (if (0 <? n) && (d_size (i_d (ic x i)) <? off)
       then iupdate i s (upd_d i (set_d_size off) x)
       else Ok (s, x)) in
    Ok (s32 n, s, x).

(** ** Directories *)

Definition namecmp (a b : list Z) : res Z := strncmp_buf DIRSIZ a b.

(** The loop of [dirlookup] from [off] on: the entry's offset and number. *)
Fixpoint dirlookup_loop (n : nat) (off dp : Z) (name : list Z) s x
  : res (option (Z * Z) * kst * fsx) :=
  match n with
  | O => OutOfFuel
  | S n' =>
      if off <? d_size (i_d (ic x dp)) then
        let? (r, de, s, x) := readi dp off sizeof_dirent s x in
        if negb (r =? sizeof_dirent) then Panic "dirlookup read"
        else
          let? inum := get16 "de" de 0 in
          if inum =? 0 then dirlookup_loop n' (off + sizeof_dirent) dp name s x
          else
            let? c := namecmp name (drop 2 de) in
            if c =? 0 then Ok (Some (off, inum), s, x)
            else dirlookup_loop n' (off + sizeof_dirent) dp name s x
      else Ok (None, s, x)
  end.

Definition dir_fuel (dp : Z) x : nat := S (Z.to_nat (d_size (i_d (ic x dp)) / sizeof_dirent + 1)).

(** [dirlookup]: the inode and the offset that [*poff] gets. *)
Definition dirlookup (dp : Z) (name : list Z) s x : res (option (Z * Z) * kst * fsx) :=
  if negb (d_type (i_d (ic x dp)) =? T_DIR) then Panic "dirlookup not DIR"
  else
    let? (r, s, x) := dirlookup_loop (dir_fuel dp x) 0 dp name s x in
    match r with
    | None => Ok (None, s, x)
    | Some (off, inum) =>
        let? (ip, s, x) := iget (i_dev (ic x dp)) inum s x in
        Ok (Some (ip, off), s, x)
    end.

(** The second loop of [dirlink]: the first free entry or the end. *)
Fixpoint find_empty (n : nat) (off dp : Z) s x : res (Z * kst * fsx) :=
  match n with
  | O => OutOfFuel
  | S n' =>
      if off <? d_size (i_d (ic x dp)) then
        let? (r, de, s, x) := readi dp off sizeof_dirent s x in
        if negb (r =? sizeof_dirent) then Panic "dirlink read"
        else
          let? inum := get16 "de" de 0 in
          if inum =? 0 then Ok (off, s, x) else find_empty n' (off + sizeof_dirent) dp s x
      else Ok (off, s, x)
  end.

Section Names.
Context (resume : kst -> fsx -> kst * fsx) (rounds : nat) (lock_at : Z -> Z).

Definition dirlink (dp : Z) (name : list Z) (inum : Z) s x : res (Z * kst * fsx) :=
  let? (r, s, x) := dirlookup dp name s x in
  match r with
  | Some (ip, _) =>
      let? (s, x) := iput resume rounds lock_at ip s x in
      Ok (-1, s, x)
  | None =>
      let? (off, s, x) := find_empty (dir_fuel dp x) 0 dp s x in
      let? nm := strncpy_buf DIRSIZ name in
      let de := enc 2 inum ++ nm in
      let? (r, s, x) := writei dp de off sizeof_dirent s x in
      if negb (r =? sizeof_dirent) then Panic "dirlink" else Ok (0, s, x)
  end.

(** ** Paths *)

Definition SLASH : Z := 47.

(** The loops of [skipelem] that step over '/'. *)
Fixpoint skip_slashes (path : list Z) : list Z :=
  match path with
  | c :: p => if c =? SLASH then skip_slashes p else path
  | [] => []
  end.

(** The loop of [skipelem] up to the next '/' or the end: the element and the rest. *)
Fixpoint span_elem (path : list Z) : list Z * list Z :=
  match path with
  | c :: p => if c =? SLASH then ([], path) else let (e, r) := span_elem p in (c :: e, r)
  | [] => ([], [])
  end.

(** [skipelem(path, name)]: the rest of the path and the new [name]. *)
Definition skipelem (path name : list Z) : option (list Z * list Z) :=
  match skip_slashes path with
  | [] => None
  | path =>
      let (e, r) := span_elem path in
      let len := length e in
      let name := if (DIRSIZ <=? len)%nat then take DIRSIZ e ++ drop DIRSIZ name
                  else e ++ [0] ++ drop (S len) name in
      Some (skip_slashes r, name)
  end.

(** The loop of [namex]: [None] is the null pointer. *)
Fixpoint namex_loop (n : nat) (parent : bool) (ip : Z) (path name : list Z) s x
  : res (option Z * list Z * kst * fsx) :=
  match n with
  | O => OutOfFuel
  | S n' =>
      match skipelem path name with
      | Some (path, name) =>
          let? (s, x) := ilock resume rounds lock_at (Some ip) s x in
          if negb (d_type (i_d (ic x ip)) =? T_DIR) then
            let? (s, x) := iunlockput resume rounds lock_at ip s x in
            Ok (None, name, s, x)
          else if parent && bool_decide (path = []) then
            let? (s, x) := iunlock lock_at (Some ip) s x in
            Ok (Some ip, name, s, x)
          else
            let? (r, s, x) := dirlookup ip name s x in
            let? (s, x) := iunlockput resume rounds lock_at ip s x in
            match r with
            | None => Ok (None, name, s, x)
            | Some (next, _) => namex_loop n' parent next path name s x
            end
      | None =>
          if parent then
            let? (s, x) := iput resume rounds lock_at ip s x in
            Ok (None, name, s, x)
          else Ok (Some ip, name, s, x)
      end
  end.

Definition namex (path : list Z) (parent : bool) (name : list Z) s x
  : res (option Z * list Z * kst * fsx) :=
  let? (ip, s, x) :=
    (match path with
     | c :: _ =>
         if c =? SLASH then iget Ptable.ROOTDEV ROOTINO s x
         else let? (p, s) := Ptable.curproc s in let? pr := getp p s in idup (cwd pr) s x
     | [] => let? (p, s) := Ptable.curproc s in let? pr := getp p s in idup (cwd pr) s x
     end) in
  namex_loop (S (length path)) parent ip path name s x.

Definition namei (path : list Z) s x : res (option Z * kst * fsx) :=
  let? (r, _, s, x) := namex path false (repeat 0 DIRSIZ) s x in Ok (r, s, x).

Definition nameiparent (path name : list Z) s x : res (option Z * list Z * kst * fsx) :=
  namex path true name s x.

End Names.
End Content.
End Fs.
End Fs.
