(* ===== verification/FsFacts.v ===== *)
(** What the file system's routines do: path names, directory names, the inode
    cache, the inode's copy on the disk, the block bitmap, and the contents of
    files through [bmap], [readi] and [writei]. *)

From S2P Require Import Prelude CString Spinlock Kalloc Proc Demo MlfqFacts ProcFacts Sleep Block Log LogFacts Fs.

(** * Path names *)

Section Paths.
Import Fs.
Implicit Types (path e : list Z).

(** The elements of a path: the pieces between slashes that are not empty. *)
Definition emit (cur : list Z) (r : list (list Z)) : list (list Z) :=
  match cur with [] => r | _ => cur :: r end.
Fixpoint elems_from (cur path : list Z) : list (list Z) :=
  match path with
  | [] => emit cur []
  | c :: p => if c =? SLASH then emit cur (elems_from [] p) else elems_from (cur ++ [c]) p
  end.
Definition elems (path : list Z) : list (list Z) := elems_from [] path.

(** The string in a fixed buffer: up to the first NUL, or all of it. *)
Fixpoint buf_str (l : list Z) : list Z :=
  match l with [] => [] | c :: l' => if c =? 0 then [] else c :: buf_str l' end.

Lemma elems_skip_slashes path : elems (skip_slashes path) = elems path.
Proof.
  induction path as [|c p IH]; [done|]. simpl.
  destruct (c =? SLASH) eqn:E; [|done]. rewrite IH. unfold elems. simpl. by rewrite E.
Qed.

Lemma skip_slashes_head path c p : skip_slashes path = c :: p -> c <> SLASH.
Proof.
  induction path as [|d q IH]; [done|]. simpl. destruct (Z.eqb_spec d SLASH); [done|].
  by intros [= -> ->].
Qed.

Lemma skip_slashes_sub path : exists pre, path = pre ++ skip_slashes path.
Proof.
  induction path as [|c p [pre IH]]; [by exists []|]. simpl.
  destruct (c =? SLASH); [|by exists []]. exists (c :: pre). simpl. by rewrite <- IH.
Qed.

Lemma span_elem_spec path e r cur :
  span_elem path = (e, r) ->
  path = e ++ r /\ elems_from cur path = emit (cur ++ e) (elems r).
Proof.
  revert e r cur. induction path as [|c p IH]; intros e r cur; simpl.
  - intros [= <- <-]. split; [done|]. by rewrite app_nil_r.
  - destruct (c =? SLASH) eqn:E.
    + intros [= <- <-]. rewrite app_nil_r. split; [done|]. unfold elems. simpl. by rewrite E.
    + destruct (span_elem p) as [e' r'] eqn:Es. intros [= <- <-].
      destruct (IH e' r' (cur ++ [c]) eq_refl) as [-> ->]. split; [done|].
      by rewrite <- app_assoc.
Qed.

Lemma buf_str_all l rest : Forall (fun c => c <> 0) l -> buf_str (l ++ 0 :: rest) = l.
Proof.
  induction 1 as [|c l Hc _ IH]; simpl; [done|]. by rewrite (proj2 (Z.eqb_neq _ _) Hc), IH.
Qed.

Lemma buf_str_full l : Forall (fun c => c <> 0) l -> buf_str l = l.
Proof.
  induction 1 as [|c l Hc _ IH]; simpl; [done|]. by rewrite (proj2 (Z.eqb_neq _ _) Hc), IH.
Qed.

Lemma skipelem_ok path name :
  Forall (fun c => c <> 0) path -> length name = DIRSIZ ->
  match skipelem path name with
  | None => elems path = []
  | Some (rest, name') =>
      exists e, elems path = e :: elems rest /\ e <> [] /\ length name' = DIRSIZ /\
        buf_str name' = take DIRSIZ e /\ (length rest < length path)%nat /\
        Forall (fun c => c <> 0) rest
  end.
Proof.
  intros H0 Hn. unfold skipelem. rewrite <- elems_skip_slashes.
  destruct (skip_slashes_sub path) as [pre Hpre].
  destruct (skip_slashes path) as [|c p] eqn:E; [done|].
  pose proof (skip_slashes_head _ _ _ E) as Hc.
  destruct (span_elem (c :: p)) as [e r] eqn:Es.
  destruct (span_elem_spec _ _ _ [] Es) as [Hp He].
  assert (e <> []) as Hne.
  { simpl in Es. rewrite (proj2 (Z.eqb_neq _ _) Hc) in Es. destruct (span_elem p).
    by injection Es as <- <-. }
  destruct (skip_slashes_sub r) as [pre' Hr].
  assert (Forall (fun c => c <> 0) (pre ++ e ++ r)) as HF by by rewrite <- Hp, <- Hpre.
  rewrite !Forall_app in HF. destruct HF as (_ & HFe & HFr).
  exists e. unfold elems at 1. rewrite He, elems_skip_slashes. cbn [app].
  split_and!; [by destruct e|done|..].
  - destruct (_ <=? _)%nat eqn:El.
    + apply Nat.leb_le in El. rewrite length_app, length_take, length_drop. lia.
    + apply Nat.leb_gt in El. rewrite length_app. cbn [length]. rewrite length_drop. lia.
  - destruct (_ <=? _)%nat eqn:El.
    + rewrite drop_ge, app_nil_r by lia. apply buf_str_full. by apply Forall_take.
    + apply Nat.leb_gt in El. rewrite take_ge by lia. simpl. by apply buf_str_all.
  - apply (f_equal length) in Hr. rewrite length_app in Hr. rewrite Hpre, Hp, !length_app.
    destruct e; [done|]. simpl. lia.
  - rewrite Hr in HFr. by apply Forall_app in HFr as [_ ?].
Qed.

(** [skipelem] takes the next element off a path: it fails exactly on a path
    without elements; otherwise the elements of what it returns are the rest,
    and [name] holds the element, cut to 14 bytes; the path gets shorter, so the
    loop of [namex] ends. *)
Theorem skipelem_spec path name :
  Forall (fun c => c <> 0) path -> length name = DIRSIZ ->
  match skipelem path name with
  | None => elems path = []
  | Some (rest, name') =>
      exists e, elems path = e :: elems rest /\ e <> [] /\ length name' = DIRSIZ /\
        buf_str name' = take DIRSIZ e /\ (length rest < length path)%nat /\
        Forall (fun c => c <> 0) rest
  end.
Proof. apply skipelem_ok. Qed.

(** "//a/bb": the element "a", and "bb" is left. *)
Lemma skipelem_spec_witness : exists name',
  skipelem [47; 47; 97; 47; 98; 98] (repeat 0 14) = Some ([98; 98], name') /\ buf_str name' = [97].
Proof.
  pose proof (skipelem_spec [47; 47; 97; 47; 98; 98] (repeat 0 14)
    ltac:(repeat constructor; discriminate) eq_refl) as H.
  destruct (skipelem _ _) as [[rest name']|] eqn:E; [|discriminate H].
  injection E as E1 E2. subst rest. destruct H as (e & He & _ & _ & Hb & _).
  exists name'. split; [done|]. rewrite Hb. by injection He as <-.
Defined.

End Paths.

(** * The inode cache *)

Section Icache.
Import Fs.
Context `{SV : Services}.
Implicit Types (s : kst) (x : fsx) (c p : nat).

Definition slot_of (i : Z) : Prop := 0 <= i < Z.of_nat NINODE.

(** Entry [i] is in use for inode [inum] of [dev]. *)
Definition caches x (i dev inum : Z) : Prop :=
  0 < i_ref (ic x i) /\ i_dev (ic x i) = dev /\ i_inum (ic x i) = inum.

(** Reference counts are not negative, and no inode has two entries. *)
Record icache_ok x : Prop := {
  ic_refs i : slot_of i -> 0 <= i_ref (ic x i);
  ic_unique i j dev inum : slot_of i -> slot_of j ->
    caches x i dev inum -> caches x j dev inum -> i = j
}.

Lemma iget_scan_spec n i dev inum empty f :
  match iget_scan n i dev inum empty f with
  | Hit k => i <= k < i + Z.of_nat n /\ 0 < i_ref (f k) /\ i_dev (f k) = dev /\ i_inum (f k) = inum
  | Miss e =>
      (forall k, i <= k < i + Z.of_nat n ->
        ~ (0 < i_ref (f k) /\ i_dev (f k) = dev /\ i_inum (f k) = inum)) /\
      match e with
      | Some k => Some k = empty \/ (i <= k < i + Z.of_nat n /\ i_ref (f k) = 0)
      | None => empty = None /\ forall k, i <= k < i + Z.of_nat n -> i_ref (f k) <> 0
      end
  end.
Proof.
  revert i empty. induction n as [|n IH]; intros i empty; cbn [iget_scan].
  - split; [lia|]. destruct empty; [by left|]. split; [done|lia].
  - destruct (_ && _) eqn:E.
    { apply andb_true_iff in E as [E E3]. apply andb_true_iff in E as [E1 E2].
      rewrite Z.ltb_lt in E1. rewrite Z.eqb_eq in E2, E3. split_and!; try done; lia. }
    assert (~ (0 < i_ref (f i) /\ i_dev (f i) = dev /\ i_inum (f i) = inum)) as Hi.
    { intros (H1 & H2 & H3). rewrite (proj2 (Z.ltb_lt _ _) H1), H2, H3, !Z.eqb_refl in E. done. }
    specialize (IH (i + 1) (match empty with
      | None => if i_ref (f i) =? 0 then Some i else None | Some e => Some e end)).
    destruct (iget_scan _ _ _ _ _ _) as [k|e]; [split; [lia|apply IH]|].
    destruct IH as [IH1 IH2]. split.
    { intros k Hk. destruct (decide (k = i)) as [->|]; [done|]. apply IH1. lia. }
    destruct e as [k|].
    + destruct IH2 as [IH2|[H1 H2]]; [|right; split; [lia|done]].
      destruct empty; [by left|]. destruct (Z.eqb_spec (i_ref (f i)) 0) as [E0|]; [|done].
      injection IH2 as ->. right. split; [lia|done].
    + destruct IH2 as [IH2 IH3]. destruct empty; [done|].
      destruct (Z.eqb_spec (i_ref (f i)) 0); [done|]. split; [done|].
      intros k Hk. destruct (decide (k = i)) as [->|]; [done|]. apply IH3. lia.
Qed.

Lemma lock_icache_ok c p s x :
  outside c p s -> locked (ic_lock x) = 0 ->
  exists k m, lock_icache s x = Ok (set_mach m s, set_ic_lock k x) /\ Sleep.held c k /\
    inside_one c p (set_mach m s).
Proof.
  intros Hout Hl. unfold lock_icache.
  destruct (lock_outside c p s (ic_lock x) Hout Hl) as (k & m & -> & Hh & Hin).
  exists k, m. done.
Qed.

Lemma unlock_icache_ok c p s x :
  inside_one c p s -> Sleep.held c (ic_lock x) ->
  exists k m, unlock_icache s x = Ok (set_mach m s, set_ic_lock k x) /\ locked k = 0 /\
    outside c p (set_mach m s).
Proof.
  intros Hin Hh. unfold unlock_icache.
  destruct (unlock_inside c p s (ic_lock x) Hin Hh) as (k & m & -> & Hl & Hout).
  exists k, m. done.
Qed.

(** One more reference to entry [i], for inode [inum]: the cache stays well
    formed if the entry was the inode's, or was free and nobody had it. *)
Lemma icache_ok_ref x x' i dev inum :
  icache_ok x -> slot_of i -> (forall j, j <> i -> ic x' j = ic x j) ->
  i_ref (ic x' i) = i_ref (ic x i) + 1 -> i_dev (ic x' i) = dev -> i_inum (ic x' i) = inum ->
  (forall j, slot_of j -> caches x j dev inum -> j = i) -> icache_ok x'.
Proof.
  intros [Hr Hu] Hi Hj Href Hd Hn Hone.
  assert (forall j d n, slot_of j -> caches x' j d n -> j <> i -> caches x j d n) as Hother.
  { intros j d n _ Hc Hne. unfold caches in *. by rewrite Hj in Hc. }
  constructor.
  - intros j Hs. destruct (decide (j = i)) as [->|]; [|rewrite Hj by done; auto].
    specialize (Hr i Hi). lia.
  - intros j k d n Hsj Hsk H1 H2.
    destruct (decide (j = i)) as [->|Ej], (decide (k = i)) as [->|Ek]; [done|..].
    + destruct H1 as (_ & <- & <-). rewrite Hd, Hn in H2. symmetry. by apply Hone; [|eapply Hother].
    + destruct H2 as (_ & <- & <-). rewrite Hd, Hn in H1. by apply Hone; [|eapply Hother].
    + by apply (Hu j k d n); [..|eapply Hother|eapply Hother].
Qed.

Lemma iget_ok c p dev inum s x :
  icache_ok x -> outside c p s -> locked (ic_lock x) = 0 ->
  (iget dev inum s x = Panic "iget: no inodes" /\
   forall i, slot_of i -> 0 < i_ref (ic x i) /\ ~ caches x i dev inum) \/
  exists i s' x', iget dev inum s x = Ok (i, s', x') /\ slot_of i /\
    caches x' i dev inum /\ icache_ok x' /\ i_ref (ic x' i) = i_ref (ic x i) + 1 /\
    (caches x i dev inum -> i_valid (ic x' i) = i_valid (ic x i) /\ i_d (ic x' i) = i_d (ic x i)) /\
    (~ caches x i dev inum -> i_ref (ic x i) = 0 /\ i_valid (ic x' i) = 0) /\
    (forall j, j <> i -> ic x' j = ic x j) /\
    f_log x' = f_log x /\ locked (ic_lock x') = 0 /\ outside c p s'.
Proof.
  intros Hic Hout Hl. unfold iget.
  destruct (lock_icache_ok c p s x Hout Hl) as (k1 & m1 & -> & Hh & Hin). cbn [res_bind].
  pose proof (iget_scan_spec NINODE 0 dev inum None (ic x)) as Hscan.
  cbn [ic set_ic_lock]. destruct (iget_scan _ _ _ _ _ _) as [i|[i|]].
  - right. destruct Hscan as (Hs & Hr & Hd & Hn).
    destruct (unlock_icache_ok c p (set_mach m1 s)
      (upd_i i (fun ip => set_i_ref (i_ref ip + 1) ip) (set_ic_lock k1 x)) Hin Hh)
      as (k2 & m2 & -> & Hk2 & Hout2). cbn [res_bind].
    exists i. do 2 eexists. split; [done|].
    assert (forall j, j <> i -> fupd (ic x) i (set_i_ref (i_ref (ic x i) + 1) (ic x i)) j = ic x j)
      as Hj by (intros; by apply fupd_ne).
    split; [done|]. unfold caches. cbn. rewrite fupd_eq. cbn.
    split_and!; try done; [lia| |tauto].
    apply (icache_ok_ref x _ i dev inum); try done; cbn; rewrite ?fupd_eq; try done.
    intros j Hsj Hcj. by apply (ic_unique x Hic j i dev inum).
  - right. destruct Hscan as [Hno [Hs|[Hs H0]]]; [done|].
    set (x2 := upd_i i (set_i_valid 0) (upd_i i (set_i_ref 1) (upd_i i (set_i_inum inum)
      (upd_i i (set_i_dev dev) (set_ic_lock k1 x))))).
    destruct (unlock_icache_ok c p (set_mach m1 s) x2 Hin Hh) as (k2 & m2 & -> & Hk2 & Hout2).
    cbn [res_bind]. exists i. do 2 eexists. split; [done|].
    assert (forall j, j <> i -> ic x2 j = ic x j) as Hj.
    { intros j Hne. unfold x2, upd_i. cbn. by rewrite !fupd_ne. }
    split; [done|]. unfold caches. cbn [ic set_ic_lock f_log]. 
    assert (ic x2 i = mkInode dev inum 1 (i_lock (ic x i)) 0 (i_d (ic x i))) as Hi
      by (unfold x2, upd_i; cbn; by rewrite !fupd_eq).
    rewrite Hi. cbn [i_ref i_dev i_inum i_valid i_d]. split_and!; try done.
    + apply (icache_ok_ref x _ i dev inum); try done; cbn [ic set_ic_lock]; rewrite ?Hi; cbn; try done; [lia|].
      intros j Hsj Hcj. by destruct (Hno j Hsj).
    + lia.
    + intros [? _]. lia.
  - left. split; [done|]. destruct Hscan as [Hno [_ Hr]]. intros i Hi. split; [|by apply Hno].
    pose proof (ic_refs x Hic i Hi). specialize (Hr i Hi). lia.
Qed.

(** [iget] returns the inode's only cache entry with one more reference.  An
    entry that was there keeps its data; a new one is marked not valid; no other
    entry changes; it panics exactly if the inode is not cached and every entry
    is in use. *)
Theorem iget_spec c p dev inum s x :
  icache_ok x -> outside c p s -> locked (ic_lock x) = 0 ->
  (iget dev inum s x = Panic "iget: no inodes" /\
   forall i, slot_of i -> 0 < i_ref (ic x i) /\ ~ caches x i dev inum) \/
  exists i s' x', iget dev inum s x = Ok (i, s', x') /\ slot_of i /\
    caches x' i dev inum /\ icache_ok x' /\ i_ref (ic x' i) = i_ref (ic x i) + 1 /\
    (caches x i dev inum -> i_valid (ic x' i) = i_valid (ic x i) /\ i_d (ic x' i) = i_d (ic x i)) /\
    (~ caches x i dev inum -> i_ref (ic x i) = 0 /\ i_valid (ic x' i) = 0) /\
    (forall j, j <> i -> ic x' j = ic x j) /\
    f_log x' = f_log x /\ locked (ic_lock x') = 0 /\ outside c p s'.
Proof. apply iget_ok. Qed.

End Icache.

(** * Blocks through the cache and the log *)

Section Blocks.
Import Fs.
Context `{SV : Services}.
Implicit Types (s : kst) (x : fsx) (c p k : nat) (b : Z) (v : block).

(** The current contents of block [b]. *)
Definition cont x b : block := Dev.contents (bd (f_log x)) b.
Definition holds x : list Z := held (bd (f_log x)).
Definition nblocks x : Z := nblk (bd (f_log x)).

(** A block that can be read without waiting. *)
Definition buf_ok x dev b : Prop := dev = 1 /\ b < nblocks x /\ b ∉ holds x.

(** What no buffer operation changes. *)
Record frame x x' : Prop := {
  fr_sb : f_sb x' = f_sb x;
  fr_ic : ic x' = ic x;
  fr_iclk : ic_lock x' = ic_lock x;
  fr_nblk : nblocks x' = nblocks x;
  fr_held : holds x' = holds x
}.

#[export] Instance frame_preorder : PreOrder frame.
Proof.
  split; [by constructor|]. intros x y z [] []. constructor; congruence.
Qed.

Lemma frame_buf x x' dev b : frame x x' -> buf_ok x dev b -> buf_ok x' dev b.
Proof. intros [_ _ _ Hn Hh]. unfold buf_ok. by rewrite Hn, Hh. Qed.

(** Nothing changes but what is in the cache. *)
Record same x x' : Prop := {
  sm_frame : frame x x';
  sm_lg : lg (f_log x') = lg (f_log x);
  sm_cont b : cont x' b = cont x b
}.

#[export] Instance same_preorder : PreOrder same.
Proof.
  split; [by constructor|]. intros x y z [] []. constructor; [by etrans|congruence|congruence].
Qed.

(** Block [b] becomes [v]. *)
Record changed b v x x' : Prop := {
  ch_frame : frame x x';
  ch_new : cont x' b = v;
  ch_old b' : b' <> b -> cont x' b' = cont x b'
}.

(** A process inside a transaction that has room for [k] more blocks. *)
Definition in_tx c p s x k : Prop :=
  exists bs, outside c p s /\ locked (lg_lock (lg (f_log x))) = 0 /\ log_rep (lg (f_log x)) bs /\
    NoDup bs /\ (length bs + k <= 30)%nat /\
    Z.of_nat (length bs + k) <= lg_size (lg (f_log x)) - 1 /\ 1 <= outstanding (lg (f_log x)).

Lemma in_tx_same c p s x x' k : same x x' -> in_tx c p s x k -> in_tx c p s x' k.
Proof. intros [_ Hl _] (bs & H). exists bs. by rewrite Hl. Qed.

Lemma in_tx_le c p s x k k' : (k' <= k)%nat -> in_tx c p s x k -> in_tx c p s x k'.
Proof. intros Hk (bs & ? & ? & ? & ? & ? & ? & ?). exists bs. split_and!; try done; lia. Qed.

Definition relsed x : fsx :=
  let d := bd (f_log x) in
  set_f_log (set_bd (set_held (drop 1 (held d)) d) (f_log x)) x.

Lemma del_z_fresh b l : b ∉ l -> Dev.del_z b (b :: l) = l.
Proof.
  intros Hb. unfold Dev.del_z. rewrite filter_cons, decide_False by (intros H; by apply H).
  clear -Hb. induction l as [|a l IH]; [done|].
  apply not_elem_of_cons in Hb as [Hne Hb]. rewrite filter_cons, decide_True by done. by rewrite IH.
Qed.

(** [bread], then [brelse]. *)
Lemma fs_bread_ok x dev b :
  buf_ok x dev b -> exists x1, bread dev b x = Ok (cont x b, x1) /\
    holds x1 = b :: holds x /\ brelse b x1 = Ok (relsed x1) /\ same x (relsed x1).
Proof.
  intros (-> & Hb & Hh). unfold bread, Dev.bread.
  rewrite bool_decide_false by done. cbn [negb Z.eqb].
  rewrite (proj2 (Z.leb_gt _ _)) by done. cbn [res_bind]. eexists. split; [done|]. split; [done|].
  unfold brelse, Dev.brelse. cbn [bd f_log set_f_log set_bd held set_held].
  rewrite bool_decide_true by left. rewrite del_z_fresh by done. split; [done|].
  constructor; [by constructor|done|]. intros b'. unfold cont, Dev.contents. cbn.
  unfold fupd. destruct (Z.eqb_spec b' b) as [->|]; [|done]. done.
Qed.

(** [bread], a change of the buffer, [log_write] and [brelse]. *)
Lemma modify_ok c p s x dev b k :
  buf_ok x dev b -> in_tx c p s x (S k) ->
  exists x1, bread dev b x = Ok (cont x b, x1) /\ frame x (relsed x1) /\
    ic x1 = ic x /\ f_sb x1 = f_sb x /\
    forall v, exists m2 x2 x3, log_write b s (bset b v x1) = Ok (set_mach m2 s, x2) /\
      brelse b x2 = Ok x3 /\ changed b v x x3 /\ in_tx c p (set_mach m2 s) x3 k.
Proof.
  intros (-> & Hb & Hh) (bs & Hout & Hlk & Hrep & Hnd & Hlen & Hsz & Hop).
  unfold bread, Dev.bread. rewrite bool_decide_false by done. cbn [negb Z.eqb].
  rewrite (proj2 (Z.leb_gt _ _)) by done. cbn [res_bind]. eexists. split; [done|].
  split; [done|]. split; [done|]. split; [done|]. intros v. unfold log_write.
  set (x1 := bset b v _).
  destruct (log_write_ok c p b s (f_log x1) bs Hout Hlk Hrep Hnd) as
    (m' & l' & -> & (Hs1 & Hs2 & Hs3 & _) & Hrep' & Hnd' & _ & Hlk' & Hout'); [lia|cbn; lia|done|].
  cbn [res_bind]. do 3 eexists. split; [done|].
  unfold brelse, Dev.brelse. cbn [bd f_log set_f_log set_bd held set_held].
  rewrite bool_decide_true by left. cbn [res_bind]. split; [done|]. split.
  - constructor.
    + constructor; try done. unfold holds. cbn -[Dev.del_z]. by apply del_z_fresh.
    + unfold cont, Dev.contents. cbn. by rewrite fupd_eq.
    + intros b' Hne. unfold cont, Dev.contents. cbn. by rewrite !fupd_ne.
  - eexists. split; [exact Hout'|]. split; [exact Hlk'|]. split; [exact Hrep'|]. split; [exact Hnd'|].
    cbn [lg f_log set_f_log set_bd]. rewrite Hs2, Hs3.
    destruct (decide _); rewrite ?length_app; cbn; split_and!; try done; lia.
Qed.

End Blocks.

(** * The inode on the disk *)

Section Dinode.
Import Fs.
Implicit Types (d : dinode) (v : block) (off : Z).

(** A region of a block that an update leaves alone. *)
Definition keeps_out (lo hi : Z) v v' : Prop :=
  length v' = length v /\
  forall w o n, o + Z.of_nat n <= lo \/ hi <= o -> get_bytes w v' o n = get_bytes w v o n.

Lemma keeps_out_trans lo hi v1 v2 v3 :
  keeps_out lo hi v1 v2 -> keeps_out lo hi v2 v3 -> keeps_out lo hi v1 v3.
Proof.
  intros [H1 H2] [H3 H4]. split; [congruence|]. intros w o n Ho. by rewrite H4, H2.
Qed.

Lemma keeps_out_weaken lo' hi' lo hi v v' :
  lo' <= lo -> hi <= hi' -> keeps_out lo hi v v' -> keeps_out lo' hi' v v'.
Proof. intros ? ? [Hl H]. split; [done|]. intros w o n Ho. apply H. lia. Qed.

Lemma put_bytes_keeps w v off bs v' lo hi :
  put_bytes w v off bs = Ok v' -> lo <= off -> off + Z.of_nat (length bs) <= hi ->
  keeps_out lo hi v v'.
Proof.
  intros H Hlo Hhi. split; [by eapply put_bytes_length|].
  intros w' o n Ho. eapply get_put_other; [exact H|lia].
Qed.

Lemma get_put_addrs l : forall off v v',
  put_addrs l off v = Ok v' ->
  keeps_out off (off + 4 * Z.of_nat (length l)) v v' /\ get_addrs (length l) off v' = Ok (map u32 l).
Proof.
  induction l as [|a l IH]; intros off v v'; cbn [put_addrs].
  - intros [= <-]. done.
  - intros H. apply res_bind_Ok in H as (v1 & H1 & H2).
    destruct (IH _ _ _ H2) as [[Hl Hk] Hg]. cbn [length get_addrs map].
    assert (keeps_out off (off + 4 * Z.of_nat (S (length l))) v v1) as K1
      by (eapply put_bytes_keeps; [exact H1|lia|rewrite enc_length; lia]).
    split.
    + eapply keeps_out_trans; [exact K1|]. split; [done|]. intros w o n Ho. apply Hk. lia.
    + unfold get32 at 1. rewrite Hk by lia. fold (get32 "dip->addrs" v1 off).
      rewrite (get32_put32_same _ _ _ _ _ _ H1). cbn [res_bind]. by rewrite Hg.
Qed.

Lemma get16_put16 w w' v off z v' : put16 w v off z = Ok v' -> get16 w' v' off = Ok (z mod 2 ^ 16).
Proof.
  intros H. unfold get16. pose proof (get_put_same _ w' _ _ _ _ H) as H'. rewrite enc_length in H'.
  rewrite H'. cbn [res_bind]. by rewrite dec_enc.
Qed.

Lemma s16_mod z : s16 (z mod 2 ^ 16) = s16 z.
Proof. unfold s16. by rewrite Zplus_mod_idemp_l. Qed.

Lemma s16_small z : - 2 ^ 15 <= z < 2 ^ 15 -> s16 z = z.
Proof. intros H. unfold s16. rewrite Z.mod_small; lia. Qed.

(** The fields fit the structure on the disk. *)
Record dinode_ok d : Prop := {
  dk_type : - 2 ^ 15 <= d_type d < 2 ^ 15;
  dk_major : - 2 ^ 15 <= d_major d < 2 ^ 15;
  dk_minor : - 2 ^ 15 <= d_minor d < 2 ^ 15;
  dk_nlink : - 2 ^ 15 <= d_nlink d < 2 ^ 15;
  dk_size : 0 <= d_size d < 2 ^ 32;
  dk_addrs : Forall (fun a => 0 <= a < 2 ^ 32) (d_addrs d);
  dk_len : length (d_addrs d) = 13%nat
}.

Lemma map_u32 l : Forall (fun a => 0 <= a < 2 ^ 32) l -> map u32 l = l.
Proof. induction 1 as [|a l Ha _ IH]; cbn; [done|]. by rewrite u32_small, IH. Qed.

(** Reading the inode back. *)
Lemma get_put_dinode d v off v' :
  dinode_ok d -> put_dinode d v off = Ok v' ->
  get_dinode v' off = Ok d /\ keeps_out off (off + sizeof_dinode) v v'.
Proof.
  intros [H1 H2 H3 H4 H5 H6 H7] H. unfold put_dinode in H.
  apply res_bind_Ok in H as (v1 & E1 & H). apply res_bind_Ok in H as (v2 & E2 & H).
  apply res_bind_Ok in H as (v3 & E3 & H). apply res_bind_Ok in H as (v4 & E4 & H).
  apply res_bind_Ok in H as (v5 & E5 & E6).
  destruct (get_put_addrs _ _ _ _ E6) as [K6 G6]. rewrite H7 in *.
  pose proof (put_bytes_keeps _ _ _ _ _ _ _ E1 (Z.le_refl _) (Z.le_refl _)) as K1.
  pose proof (put_bytes_keeps _ _ _ _ _ _ _ E2 (Z.le_refl _) (Z.le_refl _)) as K2.
  pose proof (put_bytes_keeps _ _ _ _ _ _ _ E3 (Z.le_refl _) (Z.le_refl _)) as K3.
  pose proof (put_bytes_keeps _ _ _ _ _ _ _ E4 (Z.le_refl _) (Z.le_refl _)) as K4.
  pose proof (put_bytes_keeps _ _ _ _ _ _ _ E5 (Z.le_refl _) (Z.le_refl _)) as K5.
  rewrite enc_length in *. split.
  - unfold get_dinode, get16, get32.
    rewrite !(proj2 K6), !(proj2 K5), !(proj2 K4), !(proj2 K3), !(proj2 K2) by lia.
    fold (get16 "dip" v1 off) (get16 "dip" v2 (off + 2)) (get16 "dip" v3 (off + 4))
      (get16 "dip" v4 (off + 6)) (get32 "dip" v5 (off + 8)).
    rewrite (get16_put16 _ _ _ _ _ _ E1), (get16_put16 _ _ _ _ _ _ E2), (get16_put16 _ _ _ _ _ _ E3),
      (get16_put16 _ _ _ _ _ _ E4), (get32_put32_same _ _ _ _ _ _ E5), G6. cbn [res_bind].
    rewrite !s16_mod, !s16_small, map_u32, u32_small by done. by destruct d.
  - unfold sizeof_dinode. eapply keeps_out_trans; [eapply (keeps_out_weaken off (off + 64)), K1; lia|].
    eapply keeps_out_trans; [eapply (keeps_out_weaken off (off + 64)), K2; lia|].
    eapply keeps_out_trans; [eapply (keeps_out_weaken off (off + 64)), K3; lia|].
    eapply keeps_out_trans; [eapply (keeps_out_weaken off (off + 64)), K4; lia|].
    eapply keeps_out_trans; [eapply (keeps_out_weaken off (off + 64)), K5; lia|].
    eapply keeps_out_weaken, K6; lia.
Qed.

Lemma put_addrs_in l : forall off v,
  0 <= off -> off + 4 * Z.of_nat (length l) <= Z.of_nat (length v) ->
  exists v', put_addrs l off v = Ok v'.
Proof.
  induction l as [|a l IH]; intros off v H1 H2; cbn [put_addrs]; [eauto|]. cbn [length] in H2.
  destruct (put32_in "dip->addrs" v off a) as (v1 & -> & Hl); [lia|lia|]. cbn [res_bind].
  apply IH; lia.
Qed.

Lemma put16_in w v off z :
  0 <= off -> off + 2 <= Z.of_nat (length v) ->
  exists v', put16 w v off z = Ok v' /\ length v' = length v.
Proof.
  intros H1 H2. unfold put16. rewrite put_bytes_in by (rewrite ?enc_length; lia).
  eexists. split; [done|]. rewrite !length_app, length_take, length_drop, enc_length. lia.
Qed.

Lemma put_dinode_in d v off :
  dinode_ok d -> 0 <= off -> off + sizeof_dinode <= Z.of_nat (length v) ->
  exists v', put_dinode d v off = Ok v'.
Proof.
  intros Hd H1 H2. unfold sizeof_dinode in H2. unfold put_dinode.
  destruct (put16_in "dip" v off (d_type d)) as (v1 & -> & L1); [lia..|]. cbn [res_bind].
  destruct (put16_in "dip" v1 (off + 2) (d_major d)) as (v2 & -> & L2); [lia..|]. cbn [res_bind].
  destruct (put16_in "dip" v2 (off + 4) (d_minor d)) as (v3 & -> & L3); [lia..|]. cbn [res_bind].
  destruct (put16_in "dip" v3 (off + 6) (d_nlink d)) as (v4 & -> & L4); [lia..|]. cbn [res_bind].
  destruct (put32_in "dip" v4 (off + 8) (d_size d)) as (v5 & -> & L5); [lia..|]. cbn [res_bind].
  apply put_addrs_in; rewrite ?(dk_len d Hd); lia.
Qed.

Lemma get_addrs_keeps lo hi v v' n : keeps_out lo hi v v' -> forall off,
  off + 4 * Z.of_nat n <= lo \/ hi <= off -> get_addrs n off v' = get_addrs n off v.
Proof.
  intros [_ K]. induction n as [|n IH]; intros off Ho; cbn [get_addrs]; [done|].
  unfold get32 at 1. rewrite K, IH by lia. done.
Qed.

Lemma get_dinode_keeps lo hi v v' off :
  keeps_out lo hi v v' -> off + sizeof_dinode <= lo \/ hi <= off ->
  get_dinode v' off = get_dinode v off.
Proof.
  unfold sizeof_dinode. intros K Ho. unfold get_dinode.
  rewrite (get_addrs_keeps _ _ _ _ 13 K) by lia. unfold get16, get32. rewrite !(proj2 K) by lia. done.
Qed.

Lemma dip_off_range inum : 0 <= dip_off inum /\ dip_off inum + sizeof_dinode <= BSIZE.
Proof.
  unfold dip_off, sizeof_dinode, IPB, BSIZE, sizeof_dinode.
  pose proof (Z.mod_pos_bound inum 8). change (512 / 64) with 8. lia.
Qed.

Lemma dip_off_disjoint i j : i mod IPB <> j mod IPB ->
  dip_off i + sizeof_dinode <= dip_off j \/ dip_off j + sizeof_dinode <= dip_off i.
Proof. unfold dip_off, sizeof_dinode. lia. Qed.

Section Iupdate.
Context `{SV : Services}.
Implicit Types (s : kst) (x : fsx) (c p k : nat).

Lemma iupdate_ok c p i s x k :
  let ip := ic x i in
  let b := IBLOCK (i_inum ip) (f_sb x) in
  in_tx c p s x (S k) -> buf_ok x (i_dev ip) b -> Z.of_nat (length (cont x b)) = BSIZE ->
  dinode_ok (i_d ip) ->
  exists m' x' v, iupdate i s x = Ok (set_mach m' s, x') /\ in_tx c p (set_mach m' s) x' k /\
    changed b v x x' /\ get_dinode v (dip_off (i_inum ip)) = Ok (i_d ip) /\
    keeps_out (dip_off (i_inum ip)) (dip_off (i_inum ip) + sizeof_dinode) (cont x b) v.
Proof.
  intros ip b Htx Hbuf Hlen Hd. unfold iupdate. fold ip. fold b.
  destruct (modify_ok c p s x (i_dev ip) b k Hbuf Htx) as (x1 & -> & _ & _ & _ & Hm). cbn [res_bind].
  pose proof (dip_off_range (i_inum ip)) as [Ho1 Ho2].
  destruct (put_dinode_in (i_d ip) (cont x b) (dip_off (i_inum ip)) Hd) as (v & Ev); [lia|lia|].
  rewrite Ev. cbn [res_bind].
  destruct (Hm v) as (m2 & x2 & x3 & -> & E3 & Hch & Htx'). cbn [res_bind]. rewrite E3. cbn [res_bind].
  destruct (get_put_dinode _ _ _ _ Hd Ev) as [Hg Hk].
  exists m2, x3, v. done.
Qed.

(** [iupdate] puts the inode on the disk: what [ilock] reads back from the
    inode's place in its block is the inode that was written; the other inodes
    of the block and all other blocks are unchanged. *)
Theorem iupdate_spec c p i s x k :
  let ip := ic x i in
  let b := IBLOCK (i_inum ip) (f_sb x) in
  in_tx c p s x (S k) -> buf_ok x (i_dev ip) b -> Z.of_nat (length (cont x b)) = BSIZE ->
  dinode_ok (i_d ip) ->
  exists s' x', iupdate i s x = Ok (s', x') /\ in_tx c p s' x' k /\ frame x x' /\
    get_dinode (cont x' b) (dip_off (i_inum ip)) = Ok (i_d ip) /\
    (forall inum, inum mod IPB <> i_inum ip mod IPB ->
      get_dinode (cont x' b) (dip_off inum) = get_dinode (cont x b) (dip_off inum)) /\
    (forall b', b' <> b -> cont x' b' = cont x b').
Proof.
  intros ip b Htx Hbuf Hlen Hd.
  destruct (iupdate_ok c p i s x k Htx Hbuf Hlen Hd) as (m' & x' & v & -> & Htx' & [Hf Hn Ho] & Hg & Hk).
  fold ip b in Hg, Hk, Hn, Ho. do 2 eexists. split; [done|]. rewrite Hn.
  split; [exact Htx'|]. split; [exact Hf|]. split; [exact Hg|]. split; [|exact Ho].
  intros inum Hne. apply (get_dinode_keeps _ _ _ _ _ Hk). by apply dip_off_disjoint.
Qed.

End Iupdate.

End Dinode.

(** * File contents *)

Section Contents.
Import Fs.
Context `{SV : Services}.
Implicit Types (s : kst) (x : fsx) (c p : nat) (i k off pos : Z).

Definition addrs_of x i : list Z := d_addrs (i_d (ic x i)).
Definition indirect x i : Z := default 0 (addrs_of x i !! 12%nat).

(** The disk block of block [k] of the file. *)
Definition addr_of x i k : Z :=
  if k <? NDIRECT then default 0 (addrs_of x i !! Z.to_nat k)
  else dec (take 4 (drop (Z.to_nat (4 * (k - NDIRECT))) (cont x (indirect x i)))).

(** Byte [pos] of the file. *)
Definition fbyte x i pos : Z :=
  default 0 (cont x (addr_of x i (pos / BSIZE)) !! Z.to_nat (pos mod BSIZE)).

(** A block that is there and can be read without waiting. *)
Definition live x b : Prop :=
  b <> 0 /\ b < nblocks x /\ (b ∉ holds x) /\ Z.of_nat (length (cont x b)) = BSIZE.

(** Block [k] of the file is allocated. *)
Record mapped x i k : Prop := {
  mp_k : 0 <= k < MAXFILE;
  mp_dev : i_dev (ic x i) = 1;
  mp_len : length (addrs_of x i) = 13%nat;
  mp_live : live x (addr_of x i k);
  mp_ind : NDIRECT <= k -> live x (indirect x i)
}.

Lemma addr_of_same x x' i k : same x x' -> addr_of x' i k = addr_of x i k.
Proof.
  intros [[_ Hic _ _ _] _ Hc]. unfold addr_of, indirect, addrs_of. by rewrite Hic, Hc.
Qed.

Lemma live_same x x' b : same x x' -> live x b -> live x' b.
Proof. intros [[_ _ _ Hn Hh] _ Hc]. unfold live. by rewrite Hn, Hh, Hc. Qed.

Lemma mapped_same x x' i k : same x x' -> mapped x i k -> mapped x' i k.
Proof.
  intros Hs [? ? ? ? Hi]. pose proof Hs as [[_ Hic _ _ _] _ _].
  constructor; rewrite ?(addr_of_same _ _ _ _ Hs); unfold indirect, addrs_of in *; rewrite ?Hic; try done.
  - by eapply live_same.
  - intros Hk. eapply live_same; [done|]. by apply Hi.
Qed.

Lemma fbyte_same x x' i pos : same x x' -> fbyte x' i pos = fbyte x i pos.
Proof. intros Hs. unfold fbyte. by rewrite (addr_of_same _ _ _ _ Hs), (sm_cont _ _ Hs). Qed.

Lemma zget_default w (l : list Z) j :
  0 <= j < Z.of_nat (length l) -> zget w l j = Ok (default 0 (l !! Z.to_nat j)).
Proof.
  intros Hj. unfold zget. rewrite (proj2 (Z.leb_le 0 j)) by lia.
  destruct (lookup_lt_is_Some_2 l (Z.to_nat j)) as [a ->]; [lia|done].
Qed.

(** On an allocated block, [bmap] finds the address and allocates nothing. *)
Lemma bmap_mapped s x i k :
  mapped x i k -> exists x', bmap i k s x = Ok (addr_of x i k, s, x') /\ same x x'.
Proof.
  intros [Hk Hdev Hlen Hl Hi]. unfold bmap, addr_of in *. fold (addrs_of x i).
  destruct (Z.ltb_spec k NDIRECT) as [Hd|Hd].
  - rewrite zget_default by (unfold NDIRECT in *; lia). cbn [res_bind].
    rewrite (proj2 (Z.eqb_neq _ _)) by apply Hl. by exists x.
  - unfold MAXFILE in Hk. rewrite (proj2 (Z.ltb_lt _ NINDIRECT)) by lia.
    rewrite (zget_default _ _ NDIRECT) by (rewrite Hlen; unfold NDIRECT; lia). cbn [res_bind].
    change (default 0 (addrs_of x i !! Z.to_nat NDIRECT)) with (indirect x i).
    destruct (Hi Hd) as (H0 & Hn & Hh & Hb). rewrite (proj2 (Z.eqb_neq _ _) H0). cbn [res_bind].
    destruct (fs_bread_ok x (i_dev (ic x i)) (indirect x i)) as (x1 & -> & _ & Hr & Hs); [done|].
    cbn [res_bind]. unfold get32.
    rewrite get_bytes_in by (unfold BSIZE, NINDIRECT, BSIZE in *; change (512 / 4) with 128 in *; lia).
    cbn [res_bind]. rewrite (proj2 (Z.eqb_neq _ _)) by apply Hl. cbn [res_bind]. rewrite Hr.
    by exists (relsed x1).
Qed.

(** The bytes of a block that one round of the loops copies. *)
Lemma chunk_bytes x i off m :
  0 <= off -> off mod BSIZE + Z.of_nat m <= BSIZE -> mapped x i (off / BSIZE) ->
  take m (drop (Z.to_nat (off mod BSIZE)) (cont x (addr_of x i (off / BSIZE)))) =
  map (fbyte x i) (seqZ off (Z.of_nat m)).
Proof.
  intros Hoff Hm Hmap. destruct (mp_live _ _ _ Hmap) as (_ & _ & _ & Hlen).
  pose proof (Z.mod_pos_bound off BSIZE ltac:(done)) as Hmod.
  apply list_eq. intros j. destruct (decide (j < m)%nat) as [Hj|Hj].
  2: { rewrite lookup_ge_None_2, lookup_ge_None_2; [done|rewrite length_map, length_seqZ; lia|].
       rewrite length_take. lia. }
  rewrite lookup_take_lt, lookup_drop by done.
  rewrite list_lookup_fmap, lookup_seqZ_lt by lia. cbn [fmap option_fmap option_map]. unfold fbyte.
  assert ((off + Z.of_nat j) / BSIZE = off / BSIZE) as ->.
  { symmetry. apply (Z.div_unique _ _ _ (off mod BSIZE + Z.of_nat j)); [lia|].
    pose proof (Z.div_mod off BSIZE ltac:(done)). lia. }
  assert ((off + Z.of_nat j) mod BSIZE = off mod BSIZE + Z.of_nat j) as ->.
  { symmetry. apply (Z.mod_unique _ _ (off / BSIZE)); [lia|].
    pose proof (Z.div_mod off BSIZE ltac:(done)). lia. }
  replace (Z.to_nat (off mod BSIZE + Z.of_nat j)) with (Z.to_nat (off mod BSIZE) + j)%nat by lia.
  destruct (lookup_lt_is_Some_2 (cont x (addr_of x i (off / BSIZE))) (Z.to_nat (off mod BSIZE) + j))
    as [a ->]; [lia|done].
Qed.

Lemma read_loop_ok i n fuel : forall off tot out s x,
  0 <= off -> 0 <= tot <= n -> (Z.to_nat (n - tot) < fuel)%nat ->
  (forall pos, off <= pos < off + (n - tot) -> mapped x i (pos / BSIZE)) ->
  exists x', read_loop fuel i off tot n out s x =
      Ok (out ++ map (fbyte x i) (seqZ off (n - tot)), s, x') /\ same x x'.
Proof.
  induction fuel as [|f IH]; intros off tot out s x Hoff Htot Hf Hmap; [lia|]. cbn [read_loop].
  destruct (Z.ltb_spec tot n) as [Hlt|Hge].
  2: { replace (n - tot) with 0 by lia. cbn. rewrite app_nil_r. by exists x. }
  assert (mapped x i (off / BSIZE)) as Hm by (apply Hmap; lia).
  destruct (bmap_mapped s x i _ Hm) as (x1 & -> & Hs1). cbn [res_bind].
  pose proof (mapped_same _ _ _ _ Hs1 Hm) as Hm1.
  destruct (fs_bread_ok x1 (i_dev (ic x1 i)) (addr_of x i (off / BSIZE))) as (x2 & -> & _ & Hr & Hs2).
  { rewrite <- (addr_of_same _ _ _ _ Hs1). destruct Hm1 as [_ -> _ (_ & ? & ? & _) _]. done. }
  cbn [res_bind]. set (m := Z.min (n - tot) (BSIZE - off mod BSIZE)).
  pose proof (Z.mod_pos_bound off BSIZE ltac:(done)) as Hmod.
  assert (0 < m <= n - tot /\ off mod BSIZE + m <= BSIZE) as [Hm2 Hm3] by (unfold m; lia).
  rewrite (sm_cont _ _ Hs1).
  destruct (mp_live _ _ _ Hm) as (_ & _ & _ & Hlen).
  rewrite get_bytes_in by lia. cbn [res_bind]. rewrite Hr. cbn [res_bind].
  rewrite chunk_bytes by (done || lia). rewrite Z2Nat.id by lia.
  assert (same x (relsed x2)) as Hs by by etrans.
  destruct (IH (off + m) (tot + m) (out ++ map (fbyte x i) (seqZ off m)) s (relsed x2))
    as (x3 & -> & Hs3); [lia|lia|lia|..].
  { intros pos Hpos. apply (mapped_same x); [done|]. apply Hmap. lia. }
  exists x3. split; [|by etrans]. do 3 f_equal.
  replace (n - tot) with (m + (n - (tot + m))) by lia. rewrite seqZ_app, map_app by lia.
  rewrite <- app_assoc. do 2 f_equal. apply map_ext. intros pos. by apply fbyte_same.
Qed.

Lemma readi_ok dr i off n s x :
  d_type (i_d (ic x i)) <> T_DEV -> 0 <= off < 2 ^ 32 -> 0 <= n < 2 ^ 31 ->
  0 <= d_size (i_d (ic x i)) < 2 ^ 31 ->
  (forall pos, 0 <= pos < d_size (i_d (ic x i)) -> mapped x i (pos / BSIZE)) ->
  let sz := d_size (i_d (ic x i)) in
  let m := Z.min n (sz - off) in
  if decide (off <= sz) then
    exists x', readi dr i off n s x = Ok (m, map (fbyte x i) (seqZ off m), s, x') /\ same x x'
  else readi dr i off n s x = Ok (-1, [], s, x).
Proof.
  intros Ht Hoff Hn Hsz Hmap sz m. unfold readi. fold sz. fold sz in Hmap, Hsz.
  rewrite (proj2 (Z.eqb_neq _ _) Ht). case_decide as Hle.
  2: { by rewrite (proj2 (Z.ltb_lt sz off)) by lia. }
  rewrite (proj2 (Z.ltb_ge sz off)), u32_small, (proj2 (Z.ltb_ge (off + n) off)) by lia. cbn [orb].
  assert ((if sz <? off + n then sz - off else n) = m) as ->.
  { unfold m. destruct (Z.ltb_spec sz (off + n)); lia. }
  destruct (read_loop_ok i m (S (Z.to_nat m)) off 0 [] s x) as (x' & -> & Hs); [lia|unfold m; lia|lia|..].
  { intros pos Hpos. apply Hmap. unfold m in Hpos. lia. }
  cbn [res_bind]. rewrite Z.sub_0_r, s32_small by (unfold m; lia). cbn [app]. by exists x'.
Qed.

(** [readi] of a regular file returns the bytes of the file from [off] on, as
    many as asked for and as the file has, and changes no block; an offset
    behind the end, or a range that wraps around, is refused. *)
Theorem readi_spec dr i off n s x :
  d_type (i_d (ic x i)) <> T_DEV -> 0 <= off < 2 ^ 32 -> 0 <= n < 2 ^ 31 ->
  0 <= d_size (i_d (ic x i)) < 2 ^ 31 ->
  (forall pos, 0 <= pos < d_size (i_d (ic x i)) -> mapped x i (pos / BSIZE)) ->
  let sz := d_size (i_d (ic x i)) in
  let m := Z.min n (sz - off) in
  if decide (off <= sz) then
    exists x', readi dr i off n s x = Ok (m, map (fbyte x i) (seqZ off m), s, x') /\ same x x'
  else readi dr i off n s x = Ok (-1, [], s, x).
Proof. apply readi_ok. Qed.

(** ** Writing in place *)

(** The first [N] blocks of the file are allocated, to different disk blocks,
    none of them the indirect block. *)
Record file_ok x i (N : Z) : Prop := {
  fo_map k : 0 <= k < N -> mapped x i k;
  fo_inj k k' : 0 <= k < N -> 0 <= k' < N -> addr_of x i k = addr_of x i k' -> k = k';
  fo_ind k : 0 <= k < N -> addr_of x i k <> indirect x i
}.

Lemma file_ok_same x x' i N : same x x' -> file_ok x i N -> file_ok x' i N.
Proof.
  intros Hs [H1 H2 H3]. pose proof Hs as [[_ Hic _ _ _] _ _]. constructor.
  - intros k Hk. eapply mapped_same; eauto.
  - intros k k'. rewrite !(addr_of_same _ _ _ _ Hs). auto.
  - intros k. rewrite (addr_of_same _ _ _ _ Hs). unfold indirect, addrs_of. rewrite Hic. apply H3.
Qed.

(** A change of a data block moves nothing. *)
Lemma addr_of_changed b v x x' i k :
  changed b v x x' -> b <> indirect x i -> addr_of x' i k = addr_of x i k.
Proof.
  intros [[_ Hic _ _ _] _ Ho] Hb. unfold addr_of, indirect, addrs_of in *.
  by rewrite Hic, Ho.
Qed.

Lemma live_changed b v x x' b' :
  changed b v x x' -> length v = length (cont x b) -> live x b' -> live x' b'.
Proof.
  intros [[_ _ _ Hn Hh] Hv Ho] Hl. unfold live. rewrite Hn, Hh. intros (? & ? & ? & Hb).
  split_and!; try done. destruct (decide (b' = b)) as [->|Hne]; [by rewrite Hv, Hl|by rewrite Ho].
Qed.

Lemma file_ok_changed b v x x' i N :
  changed b v x x' -> length v = length (cont x b) -> b <> indirect x i ->
  file_ok x i N -> file_ok x' i N.
Proof.
  intros Hc Hl Hb [H1 H2 H3]. pose proof Hc as [[_ Hic _ _ _] _ _].
  assert (indirect x' i = indirect x i) as Hi by (unfold indirect, addrs_of; by rewrite Hic).
  constructor.
  - intros k Hk. destruct (H1 k Hk) as [? ? ? ? Hind].
    constructor; rewrite ?(addr_of_changed b v x x'), ?Hi; unfold addrs_of in *; rewrite ?Hic; try done.
    + by eapply live_changed.
    + intros Hd. eapply live_changed; [done..|]. by apply Hind.
  - intros k k'. rewrite !(addr_of_changed b v x x') by done. auto.
  - intros k. rewrite (addr_of_changed b v x x'), Hi by done. auto.
Qed.

(** The bytes after a block of the file was overwritten from [o] on. *)
Lemma fbyte_changed x x' i N off bs v w pos :
  file_ok x i N -> 0 <= off -> off / BSIZE < N -> 0 <= pos < N * BSIZE ->
  off mod BSIZE + Z.of_nat (length bs) <= BSIZE ->
  put_bytes w (cont x (addr_of x i (off / BSIZE))) (off mod BSIZE) bs = Ok v ->
  changed (addr_of x i (off / BSIZE)) v x x' ->
  fbyte x' i pos =
    if decide (off <= pos < off + Z.of_nat (length bs))
    then default 0 (bs !! Z.to_nat (pos - off)) else fbyte x i pos.
Proof.
  intros Hf Ho HoN Hp Hbs Hv Hc. pose proof (Z.mod_pos_bound off BSIZE ltac:(done)) as Hmod.
  pose proof (Z.mod_pos_bound pos BSIZE ltac:(done)) as Hpmod.
  pose proof (Z.div_mod off BSIZE ltac:(done)) as Hdo.
  pose proof (Z.div_mod pos BSIZE ltac:(done)) as Hdp.
  assert (0 <= off / BSIZE) by (apply Z.div_pos; lia).
  assert (0 <= pos / BSIZE < N) as HpN.
  { split; [apply Z.div_pos; lia|apply Z.div_lt_upper_bound; lia]. }
  unfold fbyte. rewrite (addr_of_changed _ _ _ _ _ _ Hc) by (apply (fo_ind _ _ _ Hf); lia).
  destruct (decide (pos / BSIZE = off / BSIZE)) as [E|E].
  - rewrite E, (ch_new _ _ _ _ Hc). apply put_bytes_inv in Hv as (_ & Hlen & ->).
    assert (pos - off = pos mod BSIZE - off mod BSIZE) as Ed by (rewrite E in Hdp; lia).
    case_decide as Hin.
    + rewrite lookup_app_r by (rewrite length_take; lia). rewrite length_take.
      rewrite lookup_app_l by lia. do 2 f_equal. lia.
    + destruct (decide (pos mod BSIZE < off mod BSIZE)) as [Hlt|Hge].
      * rewrite lookup_app_l by (rewrite length_take; lia). by rewrite lookup_take_lt by lia.
      * rewrite lookup_app_r by (rewrite length_take; lia). rewrite length_take.
        rewrite lookup_app_r by lia. rewrite lookup_drop. do 2 f_equal. lia.
  - rewrite (ch_old _ _ _ _ Hc).
    2: { intros Ea. apply E. by apply (fo_inj _ _ _ Hf) in Ea; [|lia..]. }
    rewrite decide_False; [done|]. intros Hin. apply E.
    symmetry. apply (Z.div_unique _ _ _ (pos - BSIZE * (off / BSIZE))); lia.
Qed.

(** How many blocks a write of [r] bytes at [off] touches. *)
Definition blocks_touched off (r : Z) : nat :=
  if r <=? 0 then 0%nat else Z.to_nat ((off + r - 1) / BSIZE - off / BSIZE + 1).

Lemma blocks_touched_step off r :
  0 <= off -> 0 < r -> let m := Z.min r (BSIZE - off mod BSIZE) in
  blocks_touched off r = S (blocks_touched (off + m) (r - m)).
Proof.
  intros Ho Hr m. pose proof (Z.mod_pos_bound off BSIZE ltac:(done)) as Hmod.
  pose proof (Z.div_mod off BSIZE ltac:(done)) as Hdo. unfold blocks_touched.
  rewrite (proj2 (Z.leb_gt r 0)) by lia. destruct (Z.leb_spec (r - m) 0) as [Hle|Hgt].
  - assert ((off + r - 1) / BSIZE = off / BSIZE) as ->; [|lia].
    symmetry. apply (Z.div_unique _ _ _ (off mod BSIZE + r - 1)); unfold m in *; lia.
  - assert (m = BSIZE - off mod BSIZE) as Em by (unfold m in *; lia).
    assert ((off + m) / BSIZE = off / BSIZE + 1) as ->.
    { symmetry. apply (Z.div_unique _ _ _ 0); [unfold BSIZE; lia|lia]. }
    replace (off + m + (r - m) - 1) with (off + r - 1) by lia.
    assert (off / BSIZE + 1 <= (off + r - 1) / BSIZE); [|lia].
    apply Z.div_le_lower_bound; [done|lia].
Qed.

(** The result of writing [src] from byte [tot] on at [off]. *)
Record written x x' i N off (r tot : Z) (src : list Z) : Prop := {
  wr_frame : frame x x';
  wr_file : file_ok x' i N;
  wr_addr k : addr_of x' i k = addr_of x i k;
  wr_byte pos : 0 <= pos < N * BSIZE ->
    fbyte x' i pos = if decide (off <= pos < off + r)
                     then default 0 (src !! Z.to_nat (tot + (pos - off))) else fbyte x i pos;
  wr_other b : (forall k, 0 <= k < N -> b <> addr_of x i k) -> cont x' b = cont x b
}.

(** One round of the loop of [writei]. *)
Lemma write_round c p i N off tot m src s x q :
  0 <= off -> 0 <= tot -> 0 < m -> off mod BSIZE + m <= BSIZE ->
  tot + m <= Z.of_nat (length src) -> file_ok x i N -> off + m <= N * BSIZE ->
  in_tx c p s x (S q) ->
  exists x1 x2 v bs m' x3 x4, bmap i (off / BSIZE) s x = Ok (addr_of x i (off / BSIZE), s, x1) /\
    bread (i_dev (ic x1 i)) (addr_of x i (off / BSIZE)) x1 =
      Ok (cont x (addr_of x i (off / BSIZE)), x2) /\
    get_bytes "src" src tot (Z.to_nat m) = Ok bs /\
    put_bytes "bp->data" (cont x (addr_of x i (off / BSIZE))) (off mod BSIZE) bs = Ok v /\
    log_write (addr_of x i (off / BSIZE)) s (bset (addr_of x i (off / BSIZE)) v x2) =
      Ok (set_mach m' s, x3) /\
    brelse (addr_of x i (off / BSIZE)) x3 = Ok x4 /\ in_tx c p (set_mach m' s) x4 q /\
    written x x4 i N off m tot src.
Proof.
  intros Ho Ht Hm Hmod Hsrc Hf HN Htx.
  pose proof (Z.mod_pos_bound off BSIZE ltac:(done)) as Hmb.
  assert (0 <= off / BSIZE < N) as HoN.
  { split; [apply Z.div_pos; lia|apply Z.div_lt_upper_bound; [done|lia]]. }
  set (b := addr_of x i (off / BSIZE)).
  pose proof (fo_map _ _ _ Hf _ HoN) as Hmp. destruct (mp_live _ _ _ Hmp) as (_ & _ & _ & Hlen).
  fold b in Hlen. destruct (bmap_mapped s x i _ Hmp) as (x1 & -> & Hs1).
  pose proof (in_tx_same _ _ _ _ _ _ Hs1 Htx) as Htx1.
  destruct (modify_ok c p s x1 (i_dev (ic x1 i)) b q) as (x2 & Hbr & _ & _ & _ & Hmod'); [|done|].
  { pose proof (mapped_same _ _ _ _ Hs1 Hmp) as [_ -> _ Hl _].
    rewrite (addr_of_same _ _ _ _ Hs1) in Hl. destruct Hl as (_ & ? & ? & _). done. }
  rewrite (sm_cont _ _ Hs1) in Hbr.
  set (bs := take (Z.to_nat m) (drop (Z.to_nat tot) src)).
  assert (length bs = Z.to_nat m) as Hbs by (unfold bs; rewrite length_take, length_drop; lia).
  destruct (put_bytes "bp->data" (cont x b) (off mod BSIZE) bs) as [v| | | |] eqn:Ev;
    try (rewrite put_bytes_in in Ev by lia; done).
  destruct (Hmod' v) as (m' & x3 & x4 & Hw & Hr & [Hfr Hn Hold] & Htx').
  assert (changed b v x x4) as Hc.
  { constructor; [|done|intros b' Hne; by rewrite Hold, (sm_cont _ _ Hs1)].
    etrans; [apply (sm_frame _ _ Hs1)|done]. }
  exists x1, x2, v, bs, m', x3, x4. split_and!; try done.
  { unfold bs. apply get_bytes_in; lia. }
  constructor.
  - apply Hc.
  - eapply file_ok_changed; [done| |by apply (fo_ind _ _ _ Hf)|done]. by eapply put_bytes_length.
  - intros k. eapply addr_of_changed; [done|by apply (fo_ind _ _ _ Hf)].
  - intros pos Hpos. rewrite (fbyte_changed x x4 i N off bs v _ pos Hf Ho ltac:(lia) Hpos ltac:(lia) Ev Hc).
    rewrite Hbs, Z2Nat.id by lia. case_decide as Hin; [|done]. unfold bs.
    rewrite lookup_take_lt, lookup_drop by lia. do 2 f_equal. lia.
  - intros b' Hb'. apply (ch_old _ _ _ _ Hc). by apply Hb'.
Qed.

Lemma written_trans x1 x2 x3 i N off m r tot src :
  0 <= m -> 0 <= r -> 0 <= tot ->
  written x1 x2 i N off m tot src -> written x2 x3 i N (off + m) r (tot + m) src ->
  written x1 x3 i N off (m + r) tot src.
Proof.
  intros Hm Hr Ht [F1 O1 A1 B1 C1] [F2 O2 A2 B2 C2].
  constructor; [by etrans|done|intros k; by rewrite A2, A1|..].
  - intros pos Hpos. rewrite B2, B1 by done. repeat case_decide; try lia; try done. do 2 f_equal. lia.
  - intros b Hb. rewrite C2, C1; [done|done|]. intros k Hk. rewrite A1. by apply Hb.
Qed.

Lemma write_loop_ok c p i N n src q fuel : forall off tot s x,
  0 <= off -> 0 <= tot <= n -> (Z.to_nat (n - tot) < fuel)%nat -> n <= Z.of_nat (length src) ->
  file_ok x i N -> off + (n - tot) <= N * BSIZE ->
  in_tx c p s x (blocks_touched off (n - tot) + q) ->
  exists s' x', write_loop fuel i off tot n src s x = Ok (off + (n - tot), s', x') /\
    in_tx c p s' x' q /\ written x x' i N off (n - tot) tot src.
Proof.
  induction fuel as [|f IH]; intros off tot s x Ho Ht Hf Hsrc Hfile HN Htx; [lia|]. cbn [write_loop].
  destruct (Z.ltb_spec tot n) as [Hlt|Hge].
  2: { replace (n - tot) with 0 in * by lia. exists s, x. split; [by rewrite Z.add_0_r|].
       split; [done|]. constructor; try done. intros pos Hpos. by rewrite decide_False by lia. }
  set (m := Z.min (n - tot) (BSIZE - off mod BSIZE)).
  pose proof (Z.mod_pos_bound off BSIZE ltac:(done)) as Hmod.
  assert (0 < m <= n - tot /\ off mod BSIZE + m <= BSIZE) as [Hm1 Hm2] by (unfold m; lia).
  rewrite (blocks_touched_step off (n - tot)) in Htx by lia. fold m in Htx. cbn [Nat.add] in Htx.
  destruct (write_round c p i N off tot m src s x (blocks_touched (off + m) (n - tot - m) + q))
    as (x1 & x2 & v & bs & m' & x3 & x4 & -> & E1 & E2 & E3 & E4 & E5 & Htx' & Hw);
    try done; try lia.
  cbn [res_bind]. rewrite E1. cbn [res_bind]. fold m. rewrite E2. cbn [res_bind]. rewrite E3.
  cbn [res_bind]. rewrite E4. cbn [res_bind]. rewrite E5. cbn [res_bind].
  destruct (IH (off + m) (tot + m) (set_mach m' s) x4) as (s' & x' & -> & Htx2 & Hw2); try lia.
  { apply Hw. }
  { by replace (n - (tot + m)) with (n - tot - m) by lia. }
  exists s', x'. split; [do 3 f_equal; lia|]. split; [done|].
  replace (n - tot) with (m + (n - (tot + m))) by lia.
  eapply written_trans; [lia|lia|lia|exact Hw|exact Hw2].
Qed.

Lemma writei_in_place c p dw i N src off n s x q :
  d_type (i_d (ic x i)) <> T_DEV -> 0 <= off -> 0 <= n < 2 ^ 31 ->
  n <= Z.of_nat (length src) -> off + n <= d_size (i_d (ic x i)) ->
  d_size (i_d (ic x i)) <= N * BSIZE -> N <= MAXFILE -> file_ok x i N ->
  in_tx c p s x (blocks_touched off n + q) ->
  exists s' x', writei dw i src off n s x = Ok (n, s', x') /\ in_tx c p s' x' q /\
    written x x' i N off n 0 src.
Proof.
  intros Ht Ho Hn Hsrc Hsz HN HM Hf Htx. unfold writei.
  assert (MAXFILE * BSIZE < 2 ^ 31) by done. assert (N * BSIZE <= MAXFILE * BSIZE) by (unfold BSIZE; lia).
  rewrite (proj2 (Z.eqb_neq _ _) Ht), (proj2 (Z.ltb_ge _ off)), u32_small by lia.
  rewrite (proj2 (Z.ltb_ge (off + n) off)), (proj2 (Z.ltb_ge (MAXFILE * BSIZE) _)) by lia. cbn [orb].
  destruct (write_loop_ok c p i N n src q (S (Z.to_nat n)) off 0 s x)
    as (s' & x' & -> & Htx' & Hw); try done; try lia.
  { by rewrite Z.sub_0_r. }
  rewrite Z.sub_0_r in *. cbn [res_bind].
  rewrite (fr_ic _ _ (wr_frame _ _ _ _ _ _ _ _ Hw)), (proj2 (Z.ltb_ge _ (off + n))) by lia.
  rewrite andb_false_r. cbn [res_bind]. rewrite s32_small by lia. by exists s', x'.
Qed.

(** [writei] inside a file whose blocks are allocated stores exactly the
    bytes it is given: byte [off + j] becomes [src[j]], all other bytes of the
    file, its size and all blocks that are not the file's stay. *)
Theorem writei_spec c p dw i N src off n s x q :
  d_type (i_d (ic x i)) <> T_DEV -> 0 <= off -> 0 <= n < 2 ^ 31 ->
  n <= Z.of_nat (length src) -> off + n <= d_size (i_d (ic x i)) ->
  d_size (i_d (ic x i)) <= N * BSIZE -> N <= MAXFILE -> file_ok x i N ->
  in_tx c p s x (blocks_touched off n + q) ->
  exists s' x', writei dw i src off n s x = Ok (n, s', x') /\ in_tx c p s' x' q /\ frame x x' /\
    (forall pos, 0 <= pos < N * BSIZE ->
      fbyte x' i pos = if decide (off <= pos < off + n)
                       then default 0 (src !! Z.to_nat (pos - off)) else fbyte x i pos) /\
    (forall b, (forall k, 0 <= k < N -> b <> addr_of x i k) -> cont x' b = cont x b).
Proof.
  intros. destruct (writei_in_place c p dw i N src off n s x q) as (s' & x' & -> & Htx & [F O A B C]);
    try done.
  exists s', x'. split; [done|]. split; [done|]. split; [done|]. split; [|done].
  intros pos Hpos. rewrite B by done. done.
Qed.

(** A file read back gives what was written: [readi] of a range after
    [writei] of the same range returns the bytes written. *)
Theorem writei_readi c p dw dr i N src off n s x q :
  d_type (i_d (ic x i)) <> T_DEV -> 0 <= off -> 0 <= n < 2 ^ 31 ->
  n = Z.of_nat (length src) -> off + n <= d_size (i_d (ic x i)) ->
  d_size (i_d (ic x i)) <= N * BSIZE -> N <= MAXFILE -> file_ok x i N ->
  in_tx c p s x (blocks_touched off n + q) ->
  exists s' x' x'', writei dw i src off n s x = Ok (n, s', x') /\
    readi dr i off n s' x' = Ok (n, src, s', x'').
Proof.
  intros Ht Ho Hn Hsrc Hsz HN HM Hf Htx.
  destruct (writei_in_place c p dw i N src off n s x q) as (s' & x' & -> & _ & [F O A B C]);
    try done; try lia.
  assert (MAXFILE * BSIZE < 2 ^ 31) by done. assert (N * BSIZE <= MAXFILE * BSIZE) by (unfold BSIZE; lia).
  exists s', x'. unfold readi. rewrite (fr_ic _ _ F).
  rewrite (proj2 (Z.eqb_neq _ _) Ht), (proj2 (Z.ltb_ge _ off)), u32_small by lia.
  rewrite (proj2 (Z.ltb_ge (off + n) off)), (proj2 (Z.ltb_ge _ (off + n))) by lia. cbn [orb].
  destruct (read_loop_ok i n (S (Z.to_nat n)) off 0 [] s' x') as (x'' & -> & _); [lia|lia|lia|..].
  { intros pos Hpos. apply (fo_map _ _ _ O). split; [apply Z.div_pos; [lia|done]|].
    apply Z.div_lt_upper_bound; [done|lia]. }
  exists x''. split; [done|]. cbn [res_bind app]. rewrite s32_small, Z.sub_0_r by lia. do 4 f_equal.
  apply list_eq. intros j. rewrite list_lookup_fmap.
  destruct (decide (j < length src)%nat) as [Hj|Hj].
  - rewrite lookup_seqZ_lt by lia. cbn. rewrite B, decide_True by lia.
    replace (Z.to_nat _) with j by lia. by destruct (lookup_lt_is_Some_2 src j Hj) as [a ->].
  - rewrite lookup_seqZ_ge, lookup_ge_None_2 by lia. done.
Qed.

End Contents.

(** * The block bitmap *)

Section Bitmap.
Import Fs.
Context `{SV : Services}.
Implicit Types (s : kst) (x : fsx) (c p k : nat) (b bi size dev : Z) (data : block).

Definition bit_of data bi : bool := Z.testbit (default 0 (data !! Z.to_nat (bi / 8))) (bi mod 8).

(** Block [b] is marked as in use. *)
Definition used x b : bool := bit_of (cont x (BBLOCK b (f_sb x))) (b mod BPB).

Lemma mask_bit v n : 0 <= n -> (Z.land v (Z.shiftl 1 n) =? 0) = negb (Z.testbit v n).
Proof.
  intros Hn. destruct (Z.testbit v n) eqn:E; cbn [negb].
  - apply Z.eqb_neq. intros H. apply (f_equal (fun z => Z.testbit z n)) in H.
    rewrite Z.land_spec, E, Z.shiftl_spec, Z.sub_diag, Z.bits_0 in H by done. done.
  - apply Z.eqb_eq, Z.bits_inj'. intros j Hj.
    rewrite Z.land_spec, Z.shiftl_spec, Z.bits_0 by done.
    destruct (decide (j = n)) as [->|Hne]; [by rewrite E|].
    destruct (decide (j < n)); [by rewrite (Z.testbit_neg_r 1), andb_false_r by lia|].
    replace (Z.testbit 1 (j - n)) with false; [apply andb_false_r|].
    symmetry. apply Z.bits_above_log2; cbn; lia.
Qed.

Lemma testbit_set v n j : 0 <= n -> 0 <= j ->
  Z.testbit (Z.lor v (Z.shiftl 1 n)) j = if decide (j = n) then true else Z.testbit v j.
Proof.
  intros Hn Hj. rewrite Z.lor_spec, Z.shiftl_spec by done. case_decide as E.
  - subst j. by rewrite Z.sub_diag, orb_true_r.
  - replace (Z.testbit 1 (j - n)) with false; [apply orb_false_r|].
    destruct (decide (j < n)); [by rewrite Z.testbit_neg_r by lia|].
    symmetry. apply Z.bits_above_log2; cbn; lia.
Qed.

Lemma bi_byte bi data : 0 <= bi < BPB -> Z.of_nat (length data) = BSIZE ->
  0 <= bi / 8 < Z.of_nat (length data).
Proof.
  intros H ->. split; [apply Z.div_pos; lia|]. apply Z.div_lt_upper_bound; [lia|].
  unfold BPB in H. lia.
Qed.

(** The inner loop of [balloc] finds the first clear bit. *)
Lemma find_free_none n bi b size data :
  Z.of_nat (length data) = BSIZE -> 0 <= bi -> bi + Z.of_nat n <= BPB ->
  (forall j, bi <= j < bi + Z.of_nat n -> b + j < size -> bit_of data j = true) ->
  find_free n bi b size data = Ok None.
Proof.
  intros Hl. revert bi. induction n as [|n IH]; intros bi H0 Hn Hall; cbn [find_free]; [done|].
  destruct (Z.ltb_spec (b + bi) size) as [Hlt|]; [|done].
  pose proof (bi_byte bi data ltac:(lia) Hl). rewrite zget_default by done. cbn [res_bind].
  pose proof (Z.mod_pos_bound bi 8). rewrite mask_bit by lia. fold (bit_of data bi).
  rewrite Hall by lia. cbn [negb]. apply IH; [lia|lia|]. intros j Hj. apply Hall. lia.
Qed.

Lemma find_free_some n bi b size data (k : Z) :
  Z.of_nat (length data) = BSIZE -> 0 <= bi -> bi + Z.of_nat n <= BPB ->
  bi <= k < bi + Z.of_nat n -> b + k < size -> bit_of data k = false ->
  (forall j, bi <= j < k -> bit_of data j = true) ->
  find_free n bi b size data = Ok (Some k).
Proof.
  intros Hl. revert bi. induction n as [|n IH]; intros bi H0 Hn Hk Hsz Hbit Hall; cbn [find_free]; [lia|].
  rewrite (proj2 (Z.ltb_lt (b + bi) size)) by lia.
  pose proof (bi_byte bi data ltac:(lia) Hl). rewrite zget_default by done. cbn [res_bind].
  pose proof (Z.mod_pos_bound bi 8). rewrite mask_bit by lia. fold (bit_of data bi).
  destruct (decide (bi = k)) as [->|Hne]; [by rewrite Hbit|].
  rewrite Hall by lia. cbn [negb]. apply IH; try done; try lia. intros j Hj. apply Hall. lia.
Qed.

(** The bitmap covers the disk, and no free block is part of it. *)
Record bitmap_ok x dev : Prop := {
  bm_start : 0 <= sb_bmapstart (f_sb x) /\
             sb_size (f_sb x) / BPB + sb_bmapstart (f_sb x) < 2 ^ 32;
  bm_buf b : 0 <= b < sb_size (f_sb x) -> buf_ok x dev (BBLOCK b (f_sb x));
  bm_len b : 0 <= b < sb_size (f_sb x) -> Z.of_nat (length (cont x (BBLOCK b (f_sb x)))) = BSIZE;
  bm_free b : 0 <= b < sb_size (f_sb x) -> used x b = false ->
    buf_ok x dev b /\ forall b', 0 <= b' < sb_size (f_sb x) -> b <> BBLOCK b' (f_sb x)
}.

Lemma BBLOCK_eq x dev b :
  bitmap_ok x dev -> 0 <= b < sb_size (f_sb x) ->
  BBLOCK b (f_sb x) = b / BPB + sb_bmapstart (f_sb x).
Proof.
  intros [[H1 H2] _ _ _] Hb. apply u32_small.
  assert (0 <= b / BPB) by (apply Z.div_pos; [lia|done]).
  assert (b / BPB <= sb_size (f_sb x) / BPB) by (apply Z.div_le_mono; [done|lia]). lia.
Qed.

Lemma bitmap_ok_same x x' dev : same x x' -> bitmap_ok x dev -> bitmap_ok x' dev.
Proof.
  intros [Hf _ Hc] [H1 H2 H3 H4]. pose proof Hf as [Hsb _ _ _ _].
  constructor; unfold used in *; rewrite ?Hsb; try done.
  - intros b Hb. eapply frame_buf; [done|auto].
  - intros b Hb. rewrite Hc. auto.
  - intros b Hb. rewrite Hc. intros Hu. destruct (H4 b Hb Hu) as [H5 H6].
    split; [by eapply frame_buf|done].
Qed.

Lemma used_same x x' b : same x x' -> used x' b = used x b.
Proof. intros [[Hsb _ _ _ _] _ Hc]. unfold used. by rewrite Hsb, Hc. Qed.

(** Bit [j] of the bitmap block that starts at block [b0]. *)
Lemma used_bit x dev b0 j :
  bitmap_ok x dev -> b0 mod BPB = 0 -> 0 <= b0 -> 0 <= j < BPB -> b0 + j < sb_size (f_sb x) ->
  BBLOCK (b0 + j) (f_sb x) = BBLOCK b0 (f_sb x) /\
  bit_of (cont x (BBLOCK b0 (f_sb x))) j = used x (b0 + j).
Proof.
  intros Hbm Hb0 H0 Hj Hsz. pose proof (Z.div_mod b0 BPB ltac:(done)) as Hd.
  assert ((b0 + j) / BPB = b0 / BPB) as Hdiv.
  { symmetry. apply (Z.div_unique _ _ _ j); lia. }
  assert ((b0 + j) mod BPB = j) as Hm.
  { symmetry. apply (Z.mod_unique _ _ (b0 / BPB)); lia. }
  assert (BBLOCK (b0 + j) (f_sb x) = BBLOCK b0 (f_sb x)) as E by (unfold BBLOCK; by rewrite Hdiv).
  split; [done|]. unfold used. by rewrite E, Hm.
Qed.

(** Changing bit [bi] of a bitmap block through its byte. *)
Lemma set_byte_bit data bi w (f : Z -> Z) (val : bool) :
  0 <= bi < BPB -> Z.of_nat (length data) = BSIZE ->
  (forall v n j, 0 <= n < 8 -> 0 <= j < 8 -> n = bi mod 8 ->
    Z.testbit (f v) j = if decide (j = n) then val else Z.testbit v j) ->
  exists data', zset w data (bi / 8) (f (default 0 (data !! Z.to_nat (bi / 8)))) = Ok data' /\
    length data' = length data /\
    forall j, 0 <= j < BPB -> bit_of data' j = if decide (j = bi) then val else bit_of data j.
Proof.
  intros Hbi Hl Hf. pose proof (bi_byte bi data Hbi Hl) as Hby.
  rewrite zset_in by lia. eexists. split; [done|]. split; [by rewrite length_insert|].
  intros j Hj. unfold bit_of. pose proof (bi_byte j data Hj Hl) as Hbj.
  pose proof (Z.mod_pos_bound bi 8). pose proof (Z.mod_pos_bound j 8).
  pose proof (Z.div_mod bi 8). pose proof (Z.div_mod j 8).
  destruct (decide (j / 8 = bi / 8)) as [E|E].
  - rewrite E, list_lookup_insert_eq by lia. cbn [from_option id].
    rewrite (Hf _ (bi mod 8) (j mod 8)) by (done || lia).
    destruct (decide (j = bi)) as [->|Hne]; [by rewrite decide_True|rewrite decide_False by lia; done].
  - rewrite list_lookup_insert_ne by lia. rewrite decide_False by (intros ->; done). done.
Qed.

(** The bits of the bitmap after block [b]'s bit was set or cleared. *)
Lemma used_changed x x' dev b v (val : bool) :
  bitmap_ok x dev -> 0 <= b < sb_size (f_sb x) -> changed (BBLOCK b (f_sb x)) v x x' ->
  (forall j, 0 <= j < BPB -> bit_of v j =
    if decide (j = b mod BPB) then val else bit_of (cont x (BBLOCK b (f_sb x))) j) ->
  forall b', 0 <= b' < sb_size (f_sb x) ->
  used x' b' = if decide (b' = b) then val else used x b'.
Proof.
  intros Hbm Hb [[Hsb _ _ _ _] Hn Ho] Hv b' Hb'. unfold used. rewrite Hsb.
  pose proof (Z.mod_pos_bound b' BPB ltac:(done)). pose proof (Z.mod_pos_bound b BPB ltac:(done)).
  pose proof (Z.div_mod b BPB ltac:(done)). pose proof (Z.div_mod b' BPB ltac:(done)).
  destruct (decide (BBLOCK b' (f_sb x) = BBLOCK b (f_sb x))) as [E|E].
  - rewrite E, Hn, Hv by done. rewrite !(BBLOCK_eq x dev) in E by done.
    assert (b' / BPB = b / BPB) as Ed by lia.
    destruct (decide (b' = b)) as [->|Hne]; [by rewrite decide_True|].
    rewrite decide_False; [done|]. intros Em. apply Hne. rewrite Em, Ed in *. lia.
  - rewrite Ho by done. rewrite decide_False; [done|]. by intros ->.
Qed.

Lemma bzero_ok c p dev b s x k :
  buf_ok x dev b -> in_tx c p s x (S k) ->
  exists s' x', bzero dev b s x = Ok (s', x') /\ in_tx c p s' x' k /\
    changed b (repeat 0 (Z.to_nat BSIZE)) x x'.
Proof.
  intros Hb Htx. unfold bzero.
  destruct (modify_ok c p s x dev b k Hb Htx) as (x1 & -> & _ & _ & _ & Hm). cbn [res_bind].
  destruct (Hm (repeat 0 (Z.to_nat BSIZE))) as (m2 & x2 & x3 & -> & E & Hch & Htx').
  cbn [res_bind]. rewrite E. cbn [res_bind]. by exists (set_mach m2 s), x3.
Qed.

(** The state after block [b] was allocated. *)
Record allocated b x x' : Prop := {
  al_frame : frame x x';
  al_used b' : 0 <= b' < sb_size (f_sb x) -> used x' b' = if decide (b' = b) then true else used x b';
  al_zero : cont x' b = repeat 0 (Z.to_nat BSIZE);
  al_other b' : b' <> b -> b' <> BBLOCK b (f_sb x) -> cont x' b' = cont x b';
  al_len : b <> BBLOCK b (f_sb x) -> length (cont x' (BBLOCK b (f_sb x))) = length (cont x (BBLOCK b (f_sb x)))
}.

Lemma allocated_same b x x1 x2 : same x x1 -> allocated b x1 x2 -> allocated b x x2.
Proof.
  intros Hs [F U Z O L]. pose proof Hs as [[Hsb Hic Hil Hn Hh] _ Hc]. constructor.
  - etrans; [apply Hs|done].
  - intros b' Hb'. rewrite U by (by rewrite Hsb). by rewrite (used_same _ _ _ Hs).
  - done.
  - intros b' H1 H2. rewrite O by (by rewrite ?Hsb). apply Hc.
  - rewrite Hsb, Hc in L. exact L.
Qed.

(** Taking the free bit [j] of the bitmap block of [b0]: the branch of the loop
    that returns. *)
Lemma balloc_take c p dev b0 j s x k fuel :
  bitmap_ok x dev -> in_tx c p s x (S (S k)) -> 0 <= b0 -> b0 mod BPB = 0 ->
  0 <= j < BPB -> b0 + j < sb_size (f_sb x) -> used x (b0 + j) = false ->
  (forall i, 0 <= i < j -> used x (b0 + i) = true) ->
  exists s' x', balloc_loop (S fuel) b0 dev s x = Ok (b0 + j, s', x') /\ in_tx c p s' x' k /\
    allocated (b0 + j) x x'.
Proof.
  intros Hbm Htx H0 Hb0 Hj Hsz Hfree Hall. cbn [balloc_loop].
  rewrite (proj2 (Z.ltb_lt b0 _)) by lia. set (bb := BBLOCK b0 (f_sb x)).
  destruct (modify_ok c p s x dev bb (S k)) as (x1 & -> & _ & _ & Hsb & Hm); [|done|].
  { apply (bm_buf _ _ Hbm). lia. }
  cbn [res_bind]. rewrite Hsb.
  assert (Z.of_nat (length (cont x bb)) = BSIZE) as Hl by (apply (bm_len _ _ Hbm); lia).
  destruct (used_bit x dev b0 j Hbm Hb0 H0 Hj Hsz) as [Ebb Ebit]. fold bb in Ebb, Ebit.
  rewrite (find_free_some _ 0 b0 _ _ j); try done; try lia.
  2: { by rewrite Ebit. }
  2: { intros i Hi. destruct (used_bit x dev b0 i Hbm Hb0 H0 ltac:(lia) ltac:(lia)) as [_ E].
       fold bb in E. rewrite E. apply Hall. lia. }
  cbn [res_bind]. pose proof (bi_byte j (cont x bb) Hj Hl). rewrite zget_default by done. cbn [res_bind].
  pose proof (Z.mod_pos_bound j 8 ltac:(lia)).
  destruct (set_byte_bit (cont x bb) j "bp->data" (fun v => Z.lor v (Z.shiftl 1 (j mod 8))) true Hj Hl)
    as (v & -> & Hvl & Hv).
  { intros v n i Hn Hi ->. apply testbit_set; lia. }
  cbn [res_bind]. destruct (Hm v) as (m2 & x2 & x3 & -> & E3 & Hch & Htx3). cbn [res_bind].
  rewrite E3. cbn [res_bind]. destruct (bm_free _ _ Hbm (b0 + j) ltac:(lia) Hfree) as [Hbuf Hnot].
  destruct (bzero_ok c p dev (b0 + j) (set_mach m2 s) x3 k) as (s' & x' & -> & Htx' & Hz).
  { eapply frame_buf; [apply Hch|done]. }
  { done. }
  cbn [res_bind]. exists s', x'. split; [done|]. split; [done|].
  assert ((b0 + j) mod BPB = j) as Emod.
  { pose proof (Z.div_mod b0 BPB ltac:(done)). symmetry. apply (Z.mod_unique _ _ (b0 / BPB)); lia. }
  constructor.
  - etrans; [apply Hch|apply Hz].
  - intros b' Hb'. rewrite <- (used_changed x x3 dev (b0 + j) v true Hbm); try done; try lia.
    + unfold used. rewrite (fr_sb _ _ (ch_frame _ _ _ _ Hz)), (fr_sb _ _ (ch_frame _ _ _ _ Hch)).
      rewrite (ch_old _ _ _ _ Hz); [done|]. intros E. by apply (Hnot b').
    + by rewrite Ebb.
    + rewrite Emod, Ebb. done.
  - apply Hz.
  - intros b' Hb1 Hb2. rewrite (ch_old _ _ _ _ Hz), (ch_old _ _ _ _ Hch) by (by rewrite <- ?Ebb). done.
  - rewrite Ebb. intros Hne. by rewrite (ch_old _ _ _ _ Hz), (ch_new _ _ _ _ Hch) by done.
Qed.

(** A bitmap block without a free bit is skipped. *)
Lemma balloc_skip dev b0 s x fuel :
  bitmap_ok x dev -> 0 <= b0 < sb_size (f_sb x) -> b0 mod BPB = 0 ->
  (forall j, 0 <= j < BPB -> b0 + j < sb_size (f_sb x) -> used x (b0 + j) = true) ->
  exists x', balloc_loop (S fuel) b0 dev s x = balloc_loop fuel (b0 + BPB) dev s x' /\ same x x'.
Proof.
  intros Hbm H0 Hb0 Hall. cbn [balloc_loop]. rewrite (proj2 (Z.ltb_lt b0 _)) by lia.
  set (bb := BBLOCK b0 (f_sb x)).
  destruct (fs_bread_ok x dev bb) as (x1 & -> & _ & Hr & Hs); [apply (bm_buf _ _ Hbm); lia|].
  cbn [res_bind].
  assert (f_sb x1 = f_sb x) as Hsb by apply (fr_sb _ _ (sm_frame _ _ Hs)).
  rewrite Hsb. rewrite find_free_none; try done; try lia.
  - cbn [res_bind]. rewrite Hr. cbn [res_bind]. by exists (relsed x1).
  - apply (bm_len _ _ Hbm). lia.
  - intros j Hj Hsz. destruct (used_bit x dev b0 j Hbm Hb0 ltac:(lia) Hj Hsz) as [_ E].
    fold bb in E. rewrite E. apply Hall; [|done]. unfold BPB, BSIZE in *. lia.
Qed.

Lemma balloc_loop_ok c p dev b k fuel : forall b0 s x,
  bitmap_ok x dev -> in_tx c p s x (S (S k)) -> 0 <= b0 <= b -> b0 mod BPB = 0 ->
  b < sb_size (f_sb x) -> used x b = false -> (forall b', b0 <= b' < b -> used x b' = true) ->
  b / BPB < b0 / BPB + Z.of_nat fuel ->
  exists s' x', balloc_loop fuel b0 dev s x = Ok (b, s', x') /\ in_tx c p s' x' k /\ allocated b x x'.
Proof.
  induction fuel as [|fuel IH]; intros b0 s x Hbm Htx H0 Hb0 Hsz Hfree Hall Hf.
  { assert (b0 / BPB <= b / BPB) by (apply Z.div_le_mono; [done|lia]). lia. }
  destruct (decide (b < b0 + BPB)) as [Hlt|Hge].
  - destruct (balloc_take c p dev b0 (b - b0) s x k fuel) as (s' & x' & E & H); try done; try lia.
    + by replace (b0 + (b - b0)) with b by lia.
    + intros i Hi. apply Hall. lia.
    + exists s', x'. by replace (b0 + (b - b0)) with b in * by lia.
  - assert (0 < BPB) by done.
    destruct (balloc_skip dev b0 s x fuel) as (x1 & -> & Hs); try done; try lia.
    { intros j Hj _. apply Hall. lia. }
    pose proof (fr_sb _ _ (sm_frame _ _ Hs)) as Hsb.
    destruct (IH (b0 + BPB) s x1) as (s' & x' & -> & Htx' & Hal).
    + by eapply bitmap_ok_same.
    + by eapply in_tx_same.
    + lia.
    + replace (b0 + BPB) with (b0 + 1 * BPB) by lia. by rewrite Z.mod_add.
    + by rewrite Hsb.
    + by rewrite (used_same _ _ _ Hs).
    + intros b' Hb'. rewrite (used_same _ _ _ Hs). apply Hall. lia.
    + replace (b0 + BPB) with (b0 + 1 * BPB) by lia. rewrite Z.div_add by done. lia.
    + exists s', x'. split; [done|]. split; [done|]. by eapply allocated_same.
Qed.

(** [balloc] returns the first free block of the disk, marks it in use and
    zeroes it; every other bit of the bitmap and every other block stays. *)
Theorem balloc_spec c p dev b s x k :
  bitmap_ok x dev -> in_tx c p s x (S (S k)) -> 0 <= b < sb_size (f_sb x) ->
  used x b = false -> (forall b', 0 <= b' < b -> used x b' = true) ->
  exists s' x', balloc dev s x = Ok (b, s', x') /\ in_tx c p s' x' k /\ frame x x' /\
    (forall b', 0 <= b' < sb_size (f_sb x) ->
      used x' b' = if decide (b' = b) then true else used x b') /\
    cont x' b = repeat 0 (Z.to_nat BSIZE) /\
    (forall b', b' <> b -> b' <> BBLOCK b (f_sb x) -> cont x' b' = cont x b').
Proof.
  intros Hbm Htx Hb Hfree Hall. unfold balloc.
  assert (b / BPB <= sb_size (f_sb x) / BPB) by (apply Z.div_le_mono; [done|lia]).
  assert (0 <= b / BPB) by (apply Z.div_pos; [lia|done]).
  destruct (balloc_loop_ok c p dev b k (S (S (Z.to_nat (sb_size (f_sb x) / BPB)))) 0 s x)
    as (s' & x' & -> & Htx' & [F U Z O _]); try done; try lia.
  { change (0 / BPB) with 0. lia. }
  exists s', x'. split; [done|]. split; [done|]. split; [done|]. split; [done|]. done.
Qed.

Lemma balloc_loop_full dev fuel : forall b0 s x,
  bitmap_ok x dev -> 0 <= b0 -> b0 mod BPB = 0 ->
  (forall b, b0 <= b < sb_size (f_sb x) -> used x b = true) ->
  sb_size (f_sb x) - b0 <= Z.of_nat fuel * BPB ->
  balloc_loop (S fuel) b0 dev s x = Panic "balloc: out of blocks".
Proof.
  induction fuel as [|fuel IH]; intros b0 s x Hbm H0 Hb0 Hall Hf.
  { cbn [balloc_loop]. by rewrite (proj2 (Z.ltb_ge b0 _)) by lia. }
  destruct (decide (b0 < sb_size (f_sb x))) as [Hlt|Hge].
  2: { cbn [balloc_loop]. by rewrite (proj2 (Z.ltb_ge b0 _)) by lia. }
  destruct (balloc_skip dev b0 s x (S fuel)) as (x1 & -> & Hs); try done; try lia.
  { intros j Hj Hsz. apply Hall. lia. }
  pose proof (fr_sb _ _ (sm_frame _ _ Hs)) as Hsb. assert (0 < BPB) by done. apply IH.
  - by eapply bitmap_ok_same.
  - lia.
  - replace (b0 + BPB) with (b0 + 1 * BPB) by lia. by rewrite Z.mod_add.
  - intros b. rewrite Hsb, (used_same _ _ _ Hs). intros Hb. apply Hall. lia.
  - rewrite Hsb. lia.
Qed.

(** With no free block left, [balloc] panics. *)
Theorem balloc_full dev s x :
  bitmap_ok x dev -> 0 <= sb_size (f_sb x) ->
  (forall b, 0 <= b < sb_size (f_sb x) -> used x b = true) ->
  balloc dev s x = Panic "balloc: out of blocks".
Proof.
  intros Hbm Hsz Hall. unfold balloc. apply balloc_loop_full; try done.
  pose proof (Z.div_mod (sb_size (f_sb x)) BPB ltac:(done)).
  pose proof (Z.mod_pos_bound (sb_size (f_sb x)) BPB ltac:(done)).
  assert (0 <= sb_size (f_sb x) / BPB) by (apply Z.div_pos; [lia|done]).
  rewrite Nat2Z.inj_succ, Z2Nat.id by lia. lia.
Qed.

(** Block 1 holds the super block the kernel uses. *)
Record sb_stored x : Prop := {
  ss_size : get32 "buf.data" (cont x 1) 0 = Ok (sb_size (f_sb x));
  ss_nblocks : get32 "buf.data" (cont x 1) 4 = Ok (sb_nblocks (f_sb x));
  ss_ninodes : get32 "buf.data" (cont x 1) 8 = Ok (sb_ninodes (f_sb x));
  ss_nlog : get32 "buf.data" (cont x 1) 12 = Ok (sb_nlog (f_sb x));
  ss_logstart : get32 "buf.data" (cont x 1) 16 = Ok (sb_logstart (f_sb x));
  ss_inodestart : get32 "buf.data" (cont x 1) 20 = Ok (sb_inodestart (f_sb x));
  ss_bmapstart : get32 "buf.data" (cont x 1) 24 = Ok (sb_bmapstart (f_sb x))
}.

Lemma readsb_ok x dev : buf_ok x dev 1 -> sb_stored x ->
  exists x', readsb dev x = Ok x' /\ same x x'.
Proof.
  intros Hb [H1 H2 H3 H4 H5 H6 H7]. destruct (fs_bread_ok x dev 1 Hb) as (x1 & E & _ & Er & Hs).
  unfold bread in E. unfold readsb, Log.readsb.
  destruct (Dev.bread dev 1 (bd (f_log x))) as [[v d]| | | |]; try done. cbn [res_bind] in *.
  injection E as Ev <-. rewrite Ev, H1, H2, H3, H4, H5, H6, H7. cbn [res_bind].
  unfold brelse in Er. cbn [bd f_log set_f_log set_bd] in Er.
  destruct (Dev.brelse 1 d) as [d'| | | |] eqn:Ed; try done. cbn [res_bind] in *.
  injection Er as Er. eexists. split; [done|].
  assert (set_bd d' (f_log x) = f_log (relsed (set_f_log (set_bd d (f_log x)) x))) as El.
  { by rewrite Er. }
  destruct Hs as [[Fs Fi Fl Fn Fh] Sl Sc].
  constructor; [constructor|..]; unfold nblocks, holds, cont in *; cbn [f_sb f_log ic ic_lock set_f_sb set_f_log].
  all: rewrite ?El; try done. by destruct (f_sb x).
Qed.

Lemma testbit_clear v n j : 0 <= n < 8 -> 0 <= j < 8 ->
  Z.testbit (Z.land v (255 - Z.shiftl 1 n)) j = if decide (j = n) then false else Z.testbit v j.
Proof.
  intros Hn Hj. rewrite Z.land_spec.
  assert (Z.testbit (255 - Z.shiftl 1 n) j = if decide (j = n) then false else true) as ->.
  { assert (n = 0 \/ n = 1 \/ n = 2 \/ n = 3 \/ n = 4 \/ n = 5 \/ n = 6 \/ n = 7) as Hn' by lia.
    assert (j = 0 \/ j = 1 \/ j = 2 \/ j = 3 \/ j = 4 \/ j = 5 \/ j = 6 \/ j = 7) as Hj' by lia.
    destruct_or! Hn'; destruct_or! Hj'; subst; reflexivity. }
  case_decide; [apply andb_false_r|apply andb_true_r].
Qed.

Lemma bfree_ok c p dev b s x k :
  bitmap_ok x dev -> buf_ok x dev 1 -> sb_stored x -> in_tx c p s x (S k) ->
  0 <= b < sb_size (f_sb x) ->
  if used x b then
    exists s' x' v, bfree dev b s x = Ok (s', x') /\ in_tx c p s' x' k /\
      changed (BBLOCK b (f_sb x)) v x x' /\
      forall b', 0 <= b' < sb_size (f_sb x) -> used x' b' = if decide (b' = b) then false else used x b'
  else bfree dev b s x = Panic "freeing free block".
Proof.
  intros Hbm H1 Hss Htx Hb. unfold bfree.
  destruct (readsb_ok x dev H1 Hss) as (x0 & -> & Hs). cbn [res_bind].
  pose proof (sm_frame _ _ Hs) as Hf. rewrite (fr_sb _ _ Hf). set (bb := BBLOCK b (f_sb x)).
  destruct (modify_ok c p s x0 dev bb k) as (x1 & -> & _ & _ & _ & Hm).
  { eapply frame_buf; [done|]. by apply (bm_buf _ _ Hbm). }
  { by eapply in_tx_same. }
  cbn [res_bind]. rewrite (sm_cont _ _ Hs).
  pose proof (bm_len _ _ Hbm b Hb) as Hl. fold bb in Hl.
  pose proof (Z.mod_pos_bound b BPB ltac:(done)) as Hbi. set (bi := b mod BPB) in *.
  pose proof (bi_byte bi (cont x bb) Hbi Hl). rewrite zget_default by done. cbn [res_bind].
  pose proof (Z.mod_pos_bound bi 8 ltac:(lia)). rewrite mask_bit by lia.
  fold (bit_of (cont x bb) bi). change (bit_of (cont x bb) bi) with (used x b).
  destruct (used x b); cbn [negb]; [|done].
  destruct (set_byte_bit (cont x bb) bi "bp->data" (fun v => Z.land v (255 - Z.shiftl 1 (bi mod 8))) false Hbi Hl)
    as (v & -> & Hvl & Hv).
  { intros v n i Hn Hi ->. apply testbit_clear; lia. }
  cbn [res_bind]. destruct (Hm v) as (m2 & x2 & x3 & -> & E3 & [F N O] & Htx3). cbn [res_bind].
  rewrite E3. cbn [res_bind]. exists (set_mach m2 s), x3, v. split; [done|]. split; [done|].
  assert (changed bb v x x3) as Hc.
  { constructor; [by etrans|done|]. intros b' Hb'. rewrite O by done. apply (sm_cont _ _ Hs). }
  split; [done|]. intros b' Hb'. by apply (used_changed x x3 dev b v false Hbm Hb Hc Hv).
Qed.

(** [bfree] clears the bit of a block in use, and nothing else on the disk;
    freeing a free block panics. *)
Theorem bfree_spec c p dev b s x k :
  bitmap_ok x dev -> buf_ok x dev 1 -> sb_stored x -> in_tx c p s x (S k) ->
  0 <= b < sb_size (f_sb x) ->
  if used x b then
    exists s' x', bfree dev b s x = Ok (s', x') /\ in_tx c p s' x' k /\ frame x x' /\
      (forall b', 0 <= b' < sb_size (f_sb x) ->
        used x' b' = if decide (b' = b) then false else used x b') /\
      (forall b', b' <> BBLOCK b (f_sb x) -> cont x' b' = cont x b')
  else bfree dev b s x = Panic "freeing free block".
Proof.
  intros Hbm H1 Hss Htx Hb. pose proof (bfree_ok c p dev b s x k Hbm H1 Hss Htx Hb) as H.
  destruct (used x b); [|exact H]. destruct H as (s' & x' & v & -> & Htx' & [F N O] & Hu).
  exists s', x'. done.
Qed.

End Bitmap.

(** * An example *)

(** A disk of 70 blocks as mkfs lays it out, blocks 0 to 60 in use; inode 5, in
    the first entry of the cache, is a file of 600 bytes in blocks 59 and 60. *)
Section FsExamples.
Import Fs.

Definition demo_sb : superblock := mkSb 70 11 200 30 2 32 58.
Definition demo_fsblk (b : Z) : block :=
  if b =? 1 then flat_map (enc 4) [70; 11; 200; 30; 2; 32; 58] ++ repeat 0 484
  else if b =? 58 then repeat 255 7 ++ [31] ++ repeat 0 504
  else demo_blk b.
Definition demo_dinode : dinode := mkDinode T_FILE 0 0 1 600 ([59; 60] ++ repeat 0 11).
Definition demo_inode : inode :=
  mkInode 1 5 1 (mkSleeplock 0 demo_lock "inode" 0) 1 demo_dinode.
Definition demo_free : inode :=
  mkInode 0 0 0 (mkSleeplock 0 demo_lock "inode" 0) 0 (mkDinode 0 0 0 0 0 (repeat 0 13)).
Definition demo_fs : fsx :=
  mkFs (mkLst (demo_log 0 (repeat 0 30)) (Dev.boot demo_fsblk 1000)) demo_sb demo_lock
    (fun i => if i =? 0 then demo_inode else demo_free).

Lemma demo_dinode_ok : dinode_ok demo_dinode.
Proof.
  constructor; try (cbn [d_type d_major d_minor d_nlink d_size demo_dinode]; unfold T_FILE; lia); [|reflexivity].
  apply (bool_decide_unpack _). by vm_compute.
Qed.

Lemma demo_out : outside 0 0 (demo_in 0).
Proof. by exists (demo_cpu 0 (Some 0%nat)). Qed.

Lemma demo_in_tx k : (k <= 29)%nat -> in_tx 0 0 (demo_in 0) demo_fs k.
Proof.
  intros Hk. exists []. split; [apply demo_out|]. split; [done|]. split; [by constructor|].
  split; [apply NoDup_nil_2|]. split; [cbn; lia|]. split; [|cbn; lia].
  change (lg_size (lg (f_log demo_fs))) with 30. cbn [length Nat.add]. lia.
Qed.

Lemma demo_icache_ok : icache_ok demo_fs.
Proof.
  assert (forall i, i <> 0 -> i_ref (ic demo_fs i) = 0) as H.
  { intros i Hi. cbn. by rewrite (proj2 (Z.eqb_neq _ _)). }
  constructor.
  - intros i _. destruct (decide (i = 0)) as [->|]; [cbn; lia|rewrite H; done].
  - intros i j dev inum _ _ [H1 _] [H2 _].
    destruct (decide (i = 0)) as [->|]; [|rewrite H in H1; done].
    destruct (decide (j = 0)) as [->|]; [done|rewrite H in H2; done].
Qed.

Lemma demo_blk_length b : length (demo_fsblk b) = 512%nat.
Proof. unfold demo_fsblk, demo_blk. destruct (b =? 1); [done|]. destruct (b =? 58); [done|]. apply repeat_length. Qed.

Lemma demo_buf_ok b : b < 1000 -> buf_ok demo_fs 1 b.
Proof. intros Hb. split; [done|]. split; [done|]. apply not_elem_of_nil. Qed.

Lemma demo_BBLOCK b : 0 <= b < 70 -> BBLOCK b demo_sb = 58.
Proof. intros Hb. unfold BBLOCK. rewrite Z.div_small by (unfold BPB, BSIZE; lia). done. Qed.

Lemma demo_used b : 0 <= b < 70 -> used demo_fs b = (b <? 61).
Proof.
  intros Hb. assert (In b (seqZ 0 70)) as Hin by (apply list_elem_of_In, elem_of_seqZ; lia).
  assert (forallb (fun b => eqb (used demo_fs b) (b <? 61)) (seqZ 0 70) = true) as H by (vm_compute; reflexivity).
  rewrite forallb_forall in H. by apply eqb_prop, H.
Qed.

Lemma demo_bitmap_ok : bitmap_ok demo_fs 1.
Proof.
  constructor; change (f_sb demo_fs) with demo_sb; change (sb_size demo_sb) with 70.
  - by vm_compute.
  - intros b Hb. rewrite demo_BBLOCK by done. by apply demo_buf_ok.
  - intros b Hb. rewrite demo_BBLOCK by done. done.
  - intros b Hb Hu. rewrite demo_used in Hu by done. apply Z.ltb_ge in Hu.
    split; [apply demo_buf_ok; lia|]. intros b' Hb'. rewrite demo_BBLOCK by done. lia.
Qed.

Lemma demo_live b : 0 < b < 1000 -> live demo_fs b.
Proof.
  intros Hb. split; [lia|]. split; [apply Hb|]. split; [apply not_elem_of_nil|].
  unfold cont, Dev.contents. cbn -[demo_fsblk]. by rewrite demo_blk_length.
Qed.

Lemma demo_file_ok : file_ok demo_fs 0 2.
Proof.
  assert (forall k, 0 <= k < 2 -> addr_of demo_fs 0 k = 59 + k) as Ha.
  { intros k Hk. assert (k = 0 \/ k = 1) as [-> | ->] by lia; done. }
  constructor.
  - intros k Hk. constructor; try done.
    + unfold MAXFILE, NDIRECT, NINDIRECT, BSIZE. change (512 / 4) with 128. lia.
    + rewrite Ha by done. apply demo_live. lia.
    + unfold NDIRECT. lia.
  - intros k k' Hk Hk'. rewrite !Ha by done. lia.
  - intros k Hk. rewrite Ha by done. change (indirect demo_fs 0) with 0. lia.
Qed.

Lemma iget_spec_witness : exists i s' x',
  iget 1 5 (demo_in 0) demo_fs = Ok (i, s', x') /\ i_ref (ic x' i) = i_ref (ic demo_fs i) + 1.
Proof.
  destruct (iget_spec 0 0 1 5 (demo_in 0) demo_fs demo_icache_ok demo_out eq_refl)
    as [[_ H]|(i & s' & x' & H1 & _ & _ & _ & H2 & _)].
  - destruct (H 1) as [H1 _]; [vm_compute; split; [discriminate|reflexivity]|discriminate H1].
  - by exists i, s', x'.
Defined.

Lemma iupdate_spec_witness : exists s' x', iupdate 0 (demo_in 0) demo_fs = Ok (s', x') /\
  get_dinode (cont x' 32) (dip_off 5) = Ok demo_dinode.
Proof.
  destruct (iupdate_spec 0 0 0 (demo_in 0) demo_fs 0) as (s' & x' & H1 & _ & _ & H2 & _).
  - apply demo_in_tx. lia.
  - apply demo_buf_ok. reflexivity.
  - reflexivity.
  - apply demo_dinode_ok.
  - exists s', x'. split; [exact H1|exact H2].
Defined.

Lemma readi_spec_witness : exists x',
  readi (fun _ => None) 0 510 4 (demo_in 0) demo_fs = Ok (4, [59; 59; 60; 60], demo_in 0, x').
Proof.
  pose proof (readi_spec (fun _ => None) 0 510 4 (demo_in 0) demo_fs) as H.
  destruct H as (x' & H & _).
  - discriminate.
  - lia.
  - lia.
  - change (d_size (i_d (ic demo_fs 0))) with 600. lia.
  - intros pos Hpos. apply (fo_map _ _ _ demo_file_ok).
    change (d_size (i_d (ic demo_fs 0))) with 600 in Hpos.
    split; [apply Z.div_pos; [lia|done]|apply Z.div_lt_upper_bound; [done|unfold BSIZE; lia]].
  - exists x'. exact H.
Defined.

Lemma writei_spec_witness : exists s' x',
  writei (fun _ => None) 0 [1; 2; 3] 511 3 (demo_in 0) demo_fs = Ok (3, s', x') /\
  fbyte x' 0 512 = 2.
Proof.
  destruct (writei_spec 0 0 (fun _ => None) 0 2 [1; 2; 3] 511 3 (demo_in 0) demo_fs 0)
    as (s' & x' & H1 & _ & _ & H2 & _).
  - discriminate.
  - lia.
  - lia.
  - reflexivity.
  - vm_compute. discriminate.
  - vm_compute. discriminate.
  - vm_compute. discriminate.
  - apply demo_file_ok.
  - apply demo_in_tx. vm_compute. lia.
  - exists s', x'. split; [exact H1|]. rewrite (H2 512) by (unfold BSIZE; lia). reflexivity.
Defined.

Lemma writei_readi_witness : exists s' x' x'',
  writei (fun _ => None) 0 [1; 2; 3] 511 3 (demo_in 0) demo_fs = Ok (3, s', x') /\
  readi (fun _ => None) 0 511 3 s' x' = Ok (3, [1; 2; 3], s', x'').
Proof.
  apply (writei_readi 0 0 (fun _ => None) (fun _ => None) 0 2 [1; 2; 3] 511 3 (demo_in 0) demo_fs 0).
  - discriminate.
  - lia.
  - lia.
  - reflexivity.
  - vm_compute. discriminate.
  - vm_compute. discriminate.
  - vm_compute. discriminate.
  - apply demo_file_ok.
  - apply demo_in_tx. vm_compute. lia.
Defined.

Lemma balloc_spec_witness : exists s' x', balloc 1 (demo_in 0) demo_fs = Ok (61, s', x') /\
  used x' 61 = true.
Proof.
  destruct (balloc_spec 0 0 1 61 (demo_in 0) demo_fs 0) as (s' & x' & H1 & _ & _ & H2 & _).
  - apply demo_bitmap_ok.
  - apply demo_in_tx. lia.
  - change (sb_size (f_sb demo_fs)) with 70. lia.
  - reflexivity.
  - intros b Hb. rewrite demo_used by lia. apply Z.ltb_lt. lia.
  - exists s', x'. split; [exact H1|]. rewrite (H2 61) by (change (sb_size (f_sb demo_fs)) with 70; lia).
    reflexivity.
Defined.

Lemma bfree_spec_witness : exists s' x', bfree 1 60 (demo_in 0) demo_fs = Ok (s', x') /\
  used x' 60 = false.
Proof.
  pose proof (bfree_spec 0 0 1 60 (demo_in 0) demo_fs 0) as H.
  destruct H as (s' & x' & H1 & _ & _ & H2 & _).
  - apply demo_bitmap_ok.
  - by apply demo_buf_ok.
  - constructor; reflexivity.
  - apply demo_in_tx. lia.
  - change (sb_size (f_sb demo_fs)) with 70. lia.
  - exists s', x'. split; [exact H1|]. rewrite (H2 60) by (change (sb_size (f_sb demo_fs)) with 70; lia).
    reflexivity.
Defined.

(** The same disk, cut to the blocks in use. *)
Lemma balloc_full_witness :
  balloc 1 (demo_in 0) (set_f_sb (mkSb 60 1 200 30 2 32 58) demo_fs) = Panic "balloc: out of blocks".
Proof.
  set (x := set_f_sb (mkSb 60 1 200 30 2 32 58) demo_fs).
  assert (forall b, 0 <= b < 60 -> BBLOCK b (f_sb x) = 58) as Hb by (intros; apply demo_BBLOCK; lia).
  assert (forall b, 0 <= b < 60 -> used x b = true) as Hu.
  { intros b Hlt. transitivity (used demo_fs b); [done|]. rewrite demo_used by lia. apply Z.ltb_lt. lia. }
  apply balloc_full.
  - constructor; change (sb_size (f_sb x)) with 60.
    + by vm_compute.
    + intros b Hlt. rewrite Hb by done. by apply demo_buf_ok.
    + intros b Hlt. rewrite Hb by done. reflexivity.
    + intros b Hlt Hf. rewrite Hu in Hf by done. discriminate.
  - discriminate.
  - exact Hu.
Defined.

End FsExamples.
