(* ===== verification/Grow.v ===== *)
(** Files that grow: [bmap] allocates the blocks a file does not have yet, so
    [writei] can write at any offset up to the end of the file and beyond it.
    The blocks of a file are the ones in its [addrs] and in its indirect block;
    bytes of blocks that are not there read as zero. *)

From S2P Require Import Prelude Spinlock Kalloc Proc Demo MlfqFacts ProcFacts Sleep Block Log LogFacts Fs FsFacts.

Lemma filter_same {A : Type} (P Q : A -> Prop) {DP : forall a, Decision (P a)} {DQ : forall a, Decision (Q a)} (l : list A) :
  (forall a, a ∈ l -> P a <-> Q a) -> filter P l = filter Q l.
Proof.
  induction l as [|a l IH]; intros H; [done|]. rewrite !filter_cons, IH by (intros a' Ha'; apply H; by right).
  pose proof (H a ltac:(left)). destruct (decide (P a)), (decide (Q a)); naive_solver.
Qed.

(** One element less passes the test. *)
Lemma filter_less {A : Type} (P Q : A -> Prop) {DP : forall a, Decision (P a)} {DQ : forall a, Decision (Q a)} (l : list A) (a : A) :
  NoDup l -> a ∈ l -> P a -> (forall a', a' ∈ l -> Q a' <-> P a' /\ a' <> a) -> length (filter P l) = S (length (filter Q l)).
Proof.
  induction 1 as [|a' l Ha' Hnd IH]; intros Hin HP HQ; [by apply not_elem_of_nil in Hin|].
  assert (a = a' -> filter P l = filter Q l) as Heq.
  { intros ->. apply filter_same. intros c Hc. rewrite (HQ c) by by right. split; [|by intros []].
    intros Hp. split; [done|]. by intros ->. }
  rewrite !filter_cons. apply elem_of_cons in Hin as [->|Hin].
  - rewrite decide_True, decide_False, Heq; [done|done| |done]. rewrite (HQ a') by left. by intros [].
  - assert (a' <> a) by (by intros ->). pose proof (HQ a' ltac:(left)) as Hq. specialize (IH Hin HP (fun c Hc => HQ c ltac:(by right))).
    destruct (decide (P a')), (decide (Q a')); naive_solver.
Qed.

Lemma default_zeros (n j : nat) : default 0 (repeat 0 n !! j) = 0.
Proof. revert j. induction n as [|n IH]; intros [|j]; cbn; [done|done|done|apply IH]. Qed.

Section Grow.
Import Fs.
Context `{SV : Services}.
Implicit Types (s : kst) (x : fsx) (c p : nat) (i k off pos b : Z).

(** The disk block of block [k] of the file, or 0. *)
Definition blk x i k : Z :=
  if k <? NDIRECT then default 0 (addrs_of x i !! Z.to_nat k)
  else if indirect x i =? 0 then 0 else addr_of x i k.

(** All the places for a block: those of the data, and the one of the indirect
    block behind them. *)
Definition slot x i k : Z := if k =? MAXFILE then indirect x i else blk x i k.
Definition slot_ok k : Prop := 0 <= k <= MAXFILE.

(** Byte [pos] of the file. *)
Definition data x i pos : Z :=
  let b := blk x i (pos / BSIZE) in if b =? 0 then 0 else default 0 (cont x b !! Z.to_nat (pos mod BSIZE)).

(** The blocks the bitmap speaks of, and those it is made of. *)
Definition on_disk x b : Prop := 0 <= b < sb_size (f_sb x).
Definition in_bitmap x b : Prop := exists b', on_disk x b' /\ b = BBLOCK b' (f_sb x).

Lemma bitmap_sb x x' b : f_sb x' = f_sb x -> in_bitmap x' b -> in_bitmap x b.
Proof. intros E (b' & Hb' & ->). exists b'. unfold on_disk in *. by rewrite E in *. Qed.

Record disk_ok x : Prop := {
  dk_bitmap : bitmap_ok x 1;
  dk_zero : used x 0 = true;
  dk_disk : sb_size (f_sb x) < 2 ^ 32
}.

(** A block in use that is not part of the bitmap. *)
Record owned x b : Prop := {
  ow_disk : on_disk x b;
  ow_used : used x b = true;
  ow_live : live x b;
  ow_data : ~ in_bitmap x b
}.

(** Every block of the file is its own, and in one place. *)
Record whole x i : Prop := {
  wh_dev : i_dev (ic x i) = 1;
  wh_len : length (addrs_of x i) = 13%nat;
  wh_own k : slot_ok k -> slot x i k <> 0 -> owned x (slot x i k);
  wh_inj k k' : slot_ok k -> slot_ok k' -> slot x i k = slot x i k' -> slot x i k <> 0 -> k = k'
}.

(** How many blocks are free. *)
Definition nfree x : nat := length (filter (fun b => used x b = false) (seqZ 0 (sb_size (f_sb x)))).

(** What a write to file [i] leaves as it was. *)
Record grew i x x' : Prop := {
  gr_sb : f_sb x' = f_sb x;
  gr_iclk : ic_lock x' = ic_lock x;
  gr_nblk : nblocks x' = nblocks x;
  gr_held : holds x' = holds x;
  gr_ic j : j <> i -> ic x' j = ic x j;
  gr_ip : ic x' i = set_i_d (set_d_addrs (addrs_of x' i) (i_d (ic x i))) (ic x i);
  gr_slot k : slot_ok k -> slot x i k <> 0 -> slot x' i k = slot x i k;
  gr_new k : slot_ok k -> slot x i k = 0 -> slot x' i k <> 0 -> on_disk x (slot x' i k) /\ used x (slot x' i k) = false;
  gr_used b : on_disk x b -> used x b = true -> used x' b = true;
  gr_other b : on_disk x b -> used x b = true -> ~ in_bitmap x b -> (forall k, slot_ok k -> b <> slot x i k) -> cont x' b = cont x b
}.

Lemma grew_refl i x : grew i x x.
Proof.
  constructor; try done. unfold addrs_of. by destruct (ic x i) as [? ? ? ? ? []].
Qed.

Lemma grew_trans i x1 x2 x3 : grew i x1 x2 -> grew i x2 x3 -> grew i x1 x3.
Proof.
  intros [A1 A2 A3 A4 A5 A6 A7 A8 A9 A10] [B1 B2 B3 B4 B5 B6 B7 B8 B9 B10].
  assert (forall b, on_disk x1 b <-> on_disk x2 b) as Hd by (intros b; unfold on_disk; by rewrite A1).
  constructor; try congruence.
  - intros j Hj. by rewrite B5, A5.
  - rewrite B6, A6. done.
  - intros k Hk Hn. rewrite B7, A7; try done. by rewrite A7.
  - intros k Hk E Hn. destruct (decide (slot x2 i k = 0)) as [E2|E2].
    + destruct (B8 k Hk E2 Hn) as [H1 H2]. split; [by apply Hd|]. apply Hd in H1.
      destruct (used x1 (slot x3 i k)) eqn:Eu; [|done]. apply A9 in Eu; [congruence|done].
    + rewrite B7 by done. by apply A8.
  - intros b Hb Hu. apply B9; [by apply Hd|]. by apply A9.
  - intros b Hb Hu Hm Hs. rewrite B10; [by apply A10|by apply Hd|by apply A9| |].
    + intros H. by apply Hm, (bitmap_sb x1 x2).
    + intros k Hk ->. destruct (decide (slot x1 i k = 0)) as [E|E].
      * destruct (decide (slot x2 i k = 0)) as [E2|E2]; [|destruct (A8 k Hk E E2); congruence].
        rewrite E2 in *. apply (Hs k Hk). by rewrite E.
      * apply (Hs k Hk). by apply A7.
Qed.

(** ** A block for a place that has none *)

(** The free block [b] becomes the block of place [k]. *)
Record adopted i b k x x' : Prop := {
  ad_sb : f_sb x' = f_sb x;
  ad_iclk : ic_lock x' = ic_lock x;
  ad_nblk : nblocks x' = nblocks x;
  ad_held : holds x' = holds x;
  ad_ic j : j <> i -> ic x' j = ic x j;
  ad_ip : ic x' i = set_i_d (set_d_addrs (addrs_of x' i) (i_d (ic x i))) (ic x i);
  ad_addrs : length (addrs_of x' i) = 13%nat;
  ad_fresh : on_disk x b /\ used x b = false;
  ad_used b' : on_disk x b' -> used x' b' = if decide (b' = b) then true else used x b';
  ad_zero : cont x' b = repeat 0 (Z.to_nat BSIZE);
  ad_bitmap b' : on_disk x b' -> Z.of_nat (length (cont x' (BBLOCK b' (f_sb x)))) = BSIZE;
  ad_other b' : b' <> b -> ~ in_bitmap x b' -> b' <> indirect x i -> cont x' b' = cont x b';
  ad_ind : indirect x i <> 0 -> Z.of_nat (length (cont x' (indirect x i))) = BSIZE;
  ad_slot k' : slot_ok k' -> slot x' i k' = if decide (k' = k) then b else slot x i k'
}.

Lemma free_not_zero x b : disk_ok x -> on_disk x b -> used x b = false -> 0 < b.
Proof. intros [_ Hz _] [Hb _] Hu. destruct (decide (b = 0)) as [->|]; [congruence|lia]. Qed.

Section Adopted.
Context (i b k : Z) (x x' : fsx).
Hypothesis Had : adopted i b k x x'.
Hypothesis Hdk : disk_ok x.
Hypothesis Hwh : whole x i.
Hypothesis Hk : slot_ok k.
Hypothesis Hempty : slot x i k = 0.

Lemma adopted_disk : disk_ok x'.
Proof using Had Hdk.
  destruct Had as [Hsb _ Hn Hh _ _ _ [Hb Hu] Hused _ Hbm _ _ _]. destruct Hdk as [[B1 B2 B3 B4] Hz Hs].
  assert (forall b', on_disk x b' -> used x' b' = false -> used x b' = false) as Hf.
  { intros b' Hb' E. rewrite Hused in E by done. by case_decide. }
  constructor; [|rewrite Hused by (unfold on_disk in *; lia); by case_decide|by rewrite Hsb].
  constructor; rewrite ?Hsb; try done; unfold buf_ok in *; rewrite ?Hn, ?Hh.
  - exact B2.
  - intros b' Hb' E. apply B4; [done|]. by apply Hf.
Qed.

Lemma adopted_owned b' : owned x b' -> owned x' b'.
Proof using Had.
  destruct Had as [Hsb _ Hn Hh _ _ _ [Hb Hu] Hused _ _ Hot Hind _]. intros [O1 O2 (L1 & L2 & L3 & L4) O4].
  constructor; unfold live in *; rewrite ?Hn, ?Hh; try done.
  - unfold on_disk in *. by rewrite Hsb.
  - rewrite Hused by done. by case_decide.
  - split_and!; try done. destruct (decide (b' = indirect x i)) as [->|Hne]; [by apply Hind|]. rewrite Hot; try done. intros ->. congruence.
  - intros H. apply O4. by apply (bitmap_sb x x').
Qed.

Lemma adopted_new : owned x' b.
Proof using Had Hdk.
  pose proof (free_not_zero x b Hdk) as H0. destruct Had as [Hsb _ Hn Hh _ _ _ [Hb Hu] Hused Hz _ _ _ _].
  destruct (bm_free _ _ (dk_bitmap _ Hdk) b Hb Hu) as [(_ & Hlt & Hnh) Hbm].
  constructor; unfold live; rewrite ?Hn, ?Hh, ?Hz; try done.
  - unfold on_disk in *. by rewrite Hsb.
  - rewrite Hused by done. by case_decide.
  - split_and!; try done. specialize (H0 Hb Hu). lia.
  - intros H. destruct (bitmap_sb x x' b Hsb H) as (b' & Hb' & E). by apply (Hbm b').
Qed.

Lemma adopted_fresh k' : slot_ok k' -> slot x i k' <> b.
Proof using Had Hdk Hwh.
  intros Hk' E. destruct (ad_fresh _ _ _ _ _ Had) as [Hb Hu]. pose proof (free_not_zero x b Hdk Hb Hu).
  pose proof (ow_used _ _ (wh_own _ _ Hwh k' Hk' ltac:(lia))). congruence.
Qed.

Lemma adopted_whole : whole x' i.
Proof using Had Hdk Hwh.
  pose proof Had as [_ _ _ _ _ Hip Hlen _ _ _ _ _ _ Hsl]. pose proof Hwh as [W1 W2 W3 W4].
  constructor; [by rewrite Hip|done|..].
  - intros k' Hk'. rewrite Hsl by done. case_decide; [intros _; apply adopted_new|]. intros Hne. by apply adopted_owned, W3.
  - intros k1 k2 Hk1 Hk2. rewrite !Hsl by done. repeat case_decide; subst; try done.
    + intros E. exfalso. by apply (adopted_fresh k2).
    + intros E. exfalso. by apply (adopted_fresh k1).
    + by apply W4.
Qed.

Lemma adopted_grew : grew i x x'.
Proof using Had Hdk Hwh Hempty.
  pose proof Had as [A1 A2 A3 A4 A5 A6 A7 [A8 A8'] A9 A10 A11 A12 A13 A14]. constructor; try done.
  - intros k' Hk' Hne. rewrite A14 by done. case_decide; [congruence|done].
  - intros k' Hk' E Hne. rewrite A14 in * by done. case_decide; [done|congruence].
  - intros b' Hb' Hu. rewrite A9 by done. by case_decide.
  - intros b' Hb' Hu Hm Hs. apply A12; [intros ->; congruence|done|]. specialize (Hs MAXFILE). unfold slot in Hs.
    rewrite Z.eqb_refl in Hs. apply Hs. unfold slot_ok. by vm_compute.
Qed.

Lemma blk_slot y j k' : 0 <= k' < MAXFILE -> blk y j k' = slot y j k'.
Proof. intros H. unfold slot. by rewrite (proj2 (Z.eqb_neq _ _)) by lia. Qed.

Lemma slot_ind y j : slot y j MAXFILE = indirect y j.
Proof. unfold slot. by rewrite Z.eqb_refl. Qed.

(** No byte of the file changes. *)
Lemma adopted_data pos : 0 <= pos < MAXFILE * BSIZE -> data x' i pos = data x i pos.
Proof using Had Hdk Hwh Hempty.
  intros Hp. assert (0 <= pos / BSIZE < MAXFILE) as Hq.
  { split; [apply Z.div_pos; [lia|done]|apply Z.div_lt_upper_bound; [done|lia]]. }
  pose proof Had as [_ _ _ _ _ _ _ [Hb Hu] _ Hz _ Hot _ Hsl]. pose proof (free_not_zero x b Hdk Hb Hu) as H0.
  assert (slot_ok (pos / BSIZE)) as Hso by (unfold slot_ok; lia).
  unfold data. rewrite !blk_slot, Hsl by done. case_decide as E.
  - rewrite E, Hempty, Hz. cbn [Z.eqb]. rewrite (proj2 (Z.eqb_neq b 0)) by lia. apply default_zeros.
  - destruct (Z.eqb_spec (slot x i (pos / BSIZE)) 0) as [|Hne]; [done|]. rewrite Hot; [done|by apply adopted_fresh|by apply wh_own|].
    rewrite <- slot_ind. intros E'. apply (wh_inj _ _ Hwh) in E'; [lia|done|unfold slot_ok; by vm_compute|done].
Qed.

Lemma adopted_nfree : nfree x = S (nfree x').
Proof using Had.
  pose proof Had as [Hsb _ _ _ _ _ _ [Hb Hu] Hused _ _ _ _ _]. unfold nfree. rewrite Hsb.
  apply (filter_less _ _ _ b); [apply NoDup_seqZ|apply elem_of_seqZ; unfold on_disk in Hb; lia|done|].
  intros b' Hb'. apply elem_of_seqZ in Hb'. rewrite Hused by (unfold on_disk; lia). case_decide; naive_solver.
Qed.
End Adopted.

(** ** Buffers that stay open *)

(** [x1] is [x] with the buffer of block [b] held. *)
Record opened b x x1 : Prop := {
  op_sb : f_sb x1 = f_sb x;
  op_ic : ic x1 = ic x;
  op_iclk : ic_lock x1 = ic_lock x;
  op_nblk : nblocks x1 = nblocks x;
  op_held : holds x1 = b :: holds x;
  op_lg : lg (f_log x1) = lg (f_log x);
  op_cont b' : cont x1 b' = cont x b'
}.

Lemma bread_opened x b : buf_ok x 1 b -> exists x1, bread 1 b x = Ok (cont x b, x1) /\ opened b x x1.
Proof.
  intros (_ & Hb & Hh). unfold bread, Dev.bread. rewrite bool_decide_false by done. cbn [negb Z.eqb].
  rewrite (proj2 (Z.leb_gt _ _)) by done. cbn [res_bind]. eexists. split; [done|]. constructor; try done.
  intros b'. unfold cont, Dev.contents. cbn. unfold fupd. by destruct (Z.eqb_spec b' b) as [->|].
Qed.

(** A held buffer is changed, logged and released. *)
Lemma close_logged c p s x b H q v : holds x = b :: H -> b ∉ H -> in_tx c p s x (S q) ->
  exists s' x2 x3, log_write b s (bset b v x) = Ok (s', x2) /\ brelse b x2 = Ok x3 /\ in_tx c p s' x3 q /\
    f_sb x3 = f_sb x /\ ic x3 = ic x /\ ic_lock x3 = ic_lock x /\ nblocks x3 = nblocks x /\ holds x3 = H /\
    cont x3 b = v /\ forall b', b' <> b -> cont x3 b' = cont x b'.
Proof.
  intros Eh Hb (bs & Hout & Hlk & Hrep & Hnd & Hlen & Hsz & Hop). unfold holds in Eh. unfold log_write. set (x1 := bset b v x).
  destruct (log_write_ok c p b s (f_log x1) bs Hout Hlk Hrep Hnd) as
    (m' & l' & -> & (Hs1 & Hs2 & Hs3 & _) & Hrep' & Hnd' & _ & Hlk' & Hout'); [lia|cbn; lia|done|].
  cbn [res_bind]. do 3 eexists. split; [done|].
  unfold brelse, Dev.brelse. cbn [bd f_log set_f_log set_bd held set_held Dev.bset x1 bset Dev.pin pinned set_pinned set_cached].
  change (held _) with (held (bd (f_log x))) at 1. rewrite Eh, bool_decide_true by left. cbn [res_bind]. split; [done|]. split.
  - eexists. split; [exact Hout'|]. split; [exact Hlk'|]. split; [exact Hrep'|]. split; [exact Hnd'|].
    cbn [lg f_log set_f_log set_bd]. rewrite Hs2, Hs3.
    destruct (decide _); rewrite ?length_app; cbn; split_and!; try done; lia.
  - split_and!; try done.
    + unfold holds. cbn -[Dev.del_z]. by apply del_z_fresh.
    + unfold cont, Dev.contents. cbn. by rewrite fupd_eq.
    + intros b' Hne. unfold cont, Dev.contents. cbn. by rewrite !fupd_ne.
Qed.

(** ** The next free block *)

Lemma first_such (f : Z -> bool) (n : nat) : (exists b, 0 <= b < Z.of_nat n /\ f b = false) ->
  exists b, 0 <= b < Z.of_nat n /\ f b = false /\ forall b', 0 <= b' < b -> f b' = true.
Proof.
  induction n as [|n IH]; intros (b & Hb & Hf); [lia|].
  destruct (decide (Exists (fun b' => f b' = false) (seqZ 0 (Z.of_nat n)))) as [He|He].
  - apply Exists_exists in He as (b' & Hb' & Hf'). apply elem_of_seqZ in Hb'.
    destruct IH as (b1 & H1 & H2 & H3); [exists b'; split; [lia|done]|]. exists b1. split; [lia|done].
  - assert (forall b', 0 <= b' < Z.of_nat n -> f b' = true) as Hall.
    { intros b' Hb'. destruct (f b') eqn:E; [done|]. exfalso. apply He, Exists_exists. exists b'. split; [|done]. apply elem_of_seqZ. lia. }
    exists b. split; [done|]. split; [done|]. intros b' Hb'. apply Hall.
    destruct (decide (b < Z.of_nat n)); [rewrite Hall in Hf by lia; done|lia].
Qed.

Lemma balloc_any c p s x q : bitmap_ok x 1 -> (1 <= nfree x)%nat -> in_tx c p s x (S (S q)) ->
  exists b s' x', balloc 1 s x = Ok (b, s', x') /\ in_tx c p s' x' q /\ on_disk x b /\ used x b = false /\ allocated b x x'.
Proof.
  intros Hbm Hn Htx. unfold nfree in Hn. destruct (filter _ _) as [|b l] eqn:E in Hn; [cbn in Hn; lia|].
  assert (b ∈ filter (fun b => used x b = false) (seqZ 0 (sb_size (f_sb x)))) as Hb by (rewrite E; left).
  apply list_elem_of_filter in Hb as [Hu Hb]. apply elem_of_seqZ in Hb.
  destruct (first_such (used x) (Z.to_nat (sb_size (f_sb x)))) as (b1 & H1 & H2 & H3); [exists b; split; [lia|done]|].
  assert (on_disk x b1) as Hd by (unfold on_disk; lia). exists b1. unfold balloc.
  assert (b1 / BPB <= sb_size (f_sb x) / BPB) by (apply Z.div_le_mono; [done|lia]).
  assert (0 <= b1 / BPB) by (apply Z.div_pos; [lia|done]).
  destruct (balloc_loop_ok c p 1 b1 q (S (S (Z.to_nat (sb_size (f_sb x) / BPB)))) 0 s x) as (s' & x' & -> & Htx' & Hal); try done; try lia.
  { change (0 / BPB) with 0. lia. }
  exists s', x'. done.
Qed.

(** ** An address in the inode *)

(** Entry [j] of [addrs] as a place. *)
Definition place_of (j : Z) : Z := if j =? NDIRECT then MAXFILE else j.

Lemma maxfile : MAXFILE = 140.
Proof. reflexivity. Qed.

Lemma dec_zeros (n m : nat) : dec (take 4 (drop m (repeat 0 n))) = 0.
Proof.
  assert (Forall (fun b => b = 0) (take 4 (drop m (repeat 0 n)))) as H by (apply Forall_take, Forall_drop, Forall_forall; intros b; by intros ->%list_elem_of_In%repeat_spec).
  induction H as [|b l -> _ IH]; cbn [dec]; lia.
Qed.

(** The bitmap after an allocation. *)
Lemma allocated_bitmap b x x' : bitmap_ok x 1 -> on_disk x b -> used x b = false -> allocated b x x' ->
  forall b', on_disk x b' -> Z.of_nat (length (cont x' (BBLOCK b' (f_sb x)))) = BSIZE.
Proof.
  intros Hbm Hb Hu Hal b' Hb'. destruct (bm_free _ _ Hbm b Hb Hu) as [_ Hne].
  destruct (decide (BBLOCK b' (f_sb x) = BBLOCK b (f_sb x))) as [E|E].
  - rewrite E, (al_len _ _ _ Hal) by by apply Hne. by apply (bm_len _ _ Hbm).
  - rewrite (al_other _ _ _ Hal); [by apply (bm_len _ _ Hbm)| |done]. intros E'. symmetry in E'. by apply (Hne b').
Qed.

Lemma addrs_upd x i ad : addrs_of (upd_d i (set_d_addrs ad) x) i = ad.
Proof. unfold addrs_of, upd_d, upd_i. cbn. by rewrite fupd_eq. Qed.

(** The places of the file when entry [j] is filled. *)
Lemma addr_slots x x' i j b : disk_ok x -> whole x i -> 0 <= j <= NDIRECT -> default 0 (addrs_of x i !! Z.to_nat j) = 0 ->
  on_disk x b -> used x b = false -> addrs_of x' i = <[Z.to_nat j := b]> (addrs_of x i) ->
  cont x' b = repeat 0 (Z.to_nat BSIZE) -> (forall b', owned x b' -> cont x' b' = cont x b') ->
  forall k, slot_ok k -> slot x' i k = if decide (k = place_of j) then b else slot x i k.
Proof.
  intros Hdk Hwh Hj Hz Hb Hu Ha Hcz Hco k Hk. pose proof (free_not_zero x b Hdk Hb Hu) as H0. pose proof (wh_len _ _ Hwh) as Hlen.
  unfold slot_ok in Hk. rewrite maxfile in Hk. unfold NDIRECT in Hj.
  assert (indirect x' i = if decide (j = 12) then b else indirect x i) as Ei.
  { unfold indirect. rewrite Ha. case_decide as E; [subst j|].
    - by rewrite list_lookup_insert_eq by (rewrite Hlen; lia).
    - by rewrite list_lookup_insert_ne by lia. }
  unfold slot, place_of. rewrite maxfile. unfold NDIRECT. destruct (Z.eqb_spec k 140) as [->|Hne].
  { rewrite Ei. destruct (Z.eqb_spec j 12) as [->|]; [by rewrite decide_True, decide_True|]. by rewrite !decide_False by lia. }
  unfold blk. unfold NDIRECT. destruct (Z.ltb_spec k 12) as [Hd|Hd].
  - rewrite Ha. destruct (Z.eqb_spec j 12) as [->|].
    + rewrite decide_False by lia. by rewrite list_lookup_insert_ne by lia.
    + destruct (decide (k = j)) as [->|E]; [by rewrite list_lookup_insert_eq by lia|]. by rewrite list_lookup_insert_ne by lia.
  - rewrite Ei. destruct (Z.eqb_spec j 12) as [->|Hj12].
    + rewrite decide_True, decide_False by lia. change (default 0 _) with (indirect x i) in Hz. rewrite Hz. cbn [Z.eqb].
      rewrite (proj2 (Z.eqb_neq b 0)) by lia. unfold addr_of, NDIRECT. rewrite (proj2 (Z.ltb_ge k 12)), Ei, decide_True, Hcz by lia. apply dec_zeros.
    + rewrite !decide_False by lia. destruct (Z.eqb_spec (indirect x i) 0) as [|Hi]; [done|]. unfold addr_of, NDIRECT.
      rewrite (proj2 (Z.ltb_ge k 12)), Ei, decide_False by lia. rewrite Hco; [done|].
      pose proof (wh_own _ _ Hwh MAXFILE) as Ho. rewrite slot_ind in Ho. apply Ho; [|done]. unfold slot_ok. rewrite maxfile. lia.
Qed.

Lemma owned_kept b b' x x' : allocated b x x' -> on_disk x b -> used x b = false -> owned x b' -> cont x' b' = cont x b'.
Proof.
  intros Hal Hb Hu [O1 O2 O3 O4]. apply (al_other _ _ _ Hal); [intros ->; congruence|]. intros ->. apply O4. by exists b.
Qed.

Lemma adopt_addr c p i j s x q : disk_ok x -> whole x i -> 0 <= j <= NDIRECT -> default 0 (addrs_of x i !! Z.to_nat j) = 0 ->
  (1 <= nfree x)%nat -> in_tx c p s x (S (S q)) ->
  exists b s' x1, balloc (i_dev (ic x i)) s x = Ok (b, s', x1) /\ ic x1 i = ic x i /\
    let x2 := upd_d i (set_d_addrs (<[Z.to_nat j := b]> (addrs_of x i))) x1 in in_tx c p s' x2 q /\ adopted i b (place_of j) x x2.
Proof.
  intros Hdk Hwh Hj Hz Hn Htx. rewrite (wh_dev _ _ Hwh). pose proof (dk_bitmap _ Hdk) as Hbm.
  destruct (balloc_any c p s x q Hbm Hn Htx) as (b & s' & x1 & -> & Htx' & Hb & Hu & Hal). exists b, s', x1. split; [done|].
  pose proof (al_frame _ _ _ Hal) as [Fsb Fic Ficl Fn Fh]. split; [by rewrite Fic|]. intros x2.
  assert (addrs_of x2 i = <[Z.to_nat j := b]> (addrs_of x i)) as Ea by apply addrs_upd.
  split; [exact Htx'|]. constructor; try done.
  - intros k Hne. unfold x2, upd_d, upd_i. cbn. by rewrite fupd_ne, Fic.
  - rewrite Ea. unfold x2, upd_d, upd_i. cbn. by rewrite fupd_eq, Fic.
  - rewrite Ea, length_insert. apply Hwh.
  - intros b' Hb'. by apply (al_used _ _ _ Hal).
  - apply Hal.
  - intros b' Hb'. by apply (allocated_bitmap b x x1).
  - intros b' H1 H2 _. apply (al_other _ _ _ Hal); [done|]. intros ->. apply H2. by exists b.
  - intros Hi. change (cont x2) with (cont x1). pose proof (wh_own _ _ Hwh MAXFILE) as Ho. rewrite slot_ind in Ho.
    specialize (Ho ltac:(unfold slot_ok; rewrite maxfile; lia) Hi). rewrite (owned_kept b _ x x1) by done. apply Ho.
  - apply addr_slots; try done; [apply Hal|]. intros b' Ho. by apply (owned_kept b _ x x1).
Qed.

(** ** An address in the indirect block *)

(** The end of [bmap]: entry [bn] of the indirect block [addr]. *)
Definition fetch (dev addr bn : Z) s x : res (Z * kst * fsx) :=
  let? (data, x) := bread dev addr x in
  let? a := get32 "bp->data" data (4 * bn) in
  let? (a, s, x) :=
    (if a =? 0 then
       let? (a, s, x) := balloc dev s x in
       let? data := put32 "bp->data" data (4 * bn) a in
       let? (s, x) := log_write addr s (bset addr data x) in
       Ok (a, s, x)
     else Ok (a, s, x)) in
  let? x := brelse addr x in
  Ok (a, s, x).

Lemma opened_bitmap b x x1 : bitmap_ok x 1 -> owned x b -> opened b x x1 -> bitmap_ok x1 1.
Proof.
  intros [B1 B2 B3 B4] [O1 O2 O3 O4] [Hsb _ _ Hn Hh _ Hc].
  constructor; unfold used, buf_ok in *; rewrite ?Hsb, ?Hn, ?Hh; try done.
  - intros b' Hb'. destruct (B2 b' Hb') as (? & ? & ?). split_and!; try done. apply not_elem_of_cons. split; [|done].
    intros E. apply O4. by exists b'.
  - intros b' Hb'. rewrite Hc. by apply B3.
  - intros b' Hb'. rewrite Hc. intros Hu. destruct (B4 b' Hb' Hu) as [(? & ? & ?) ?]. split_and!; try done.
    apply not_elem_of_cons. split; [|done]. intros ->. congruence.
Qed.

Lemma nfree_ext x x' : f_sb x' = f_sb x -> (forall b, on_disk x b -> used x' b = used x b) -> nfree x' = nfree x.
Proof.
  intros Hsb H. unfold nfree. rewrite Hsb. f_equal. apply filter_same. intros b Hb. apply elem_of_seqZ in Hb. rewrite H by (unfold on_disk; lia). done.
Qed.

Lemma get32_dec w l o : 0 <= o -> o + 4 <= Z.of_nat (length l) -> get32 w l o = Ok (dec (take 4 (drop (Z.to_nat o) l))).
Proof. intros H1 H2. unfold get32. by rewrite get_bytes_in by lia. Qed.

(** The entries of an indirect block after one was stored. *)
Lemma entries_put w v bn b v' : Z.of_nat (length v) = BSIZE -> 0 <= bn < NINDIRECT -> 0 <= b < 2 ^ 32 -> put32 w v (4 * bn) b = Ok v' ->
  forall n, 0 <= n < NINDIRECT -> dec (take 4 (drop (Z.to_nat (4 * n)) v')) = if decide (n = bn) then b else dec (take 4 (drop (Z.to_nat (4 * n)) v)).
Proof.
  intros Hl Hbn Hb E n Hn. change NINDIRECT with 128 in *. unfold BSIZE in Hl. pose proof (put_bytes_length _ _ _ _ _ E) as Hl'.
  assert (get32 w v' (4 * n) = Ok (dec (take 4 (drop (Z.to_nat (4 * n)) v')))) as E1 by (apply get32_dec; lia).
  case_decide as Hd.
  - subst n. rewrite (get32_put32_same w w _ _ _ _ E), u32_small in E1 by done. congruence.
  - rewrite (get32_put32_other w w _ _ _ _ _ E), get32_dec in E1 by lia. congruence.
Qed.

Lemma entry_slots x x' i k b v : whole x i -> NDIRECT <= k < MAXFILE -> indirect x i <> 0 -> 0 <= b < 2 ^ 32 -> ic x' = ic x ->
  put32 "bp->data" (cont x (indirect x i)) (4 * (k - NDIRECT)) b = Ok v -> cont x' (indirect x i) = v ->
  forall k', slot_ok k' -> slot x' i k' = if decide (k' = k) then b else slot x i k'.
Proof.
  intros Hwh Hk Hi Hb Hic Ev Hv k' Hk'. unfold slot_ok, slot in *. assert (indirect x' i = indirect x i) as Ei by (unfold indirect, addrs_of; by rewrite Hic).
  destruct (Z.eqb_spec k' MAXFILE) as [->|Hne]; [by rewrite decide_False by lia|]. unfold blk. rewrite Ei, (proj2 (Z.eqb_neq _ _) Hi).
  destruct (Z.ltb_spec k' NDIRECT) as [Hd|Hd]; [rewrite decide_False by lia; unfold addrs_of; by rewrite Hic|].
  unfold addr_of. rewrite Ei, Hv, (proj2 (Z.ltb_ge k' _)) by lia. pose proof (wh_own _ _ Hwh MAXFILE) as Ho. rewrite slot_ind in Ho.
  specialize (Ho ltac:(unfold slot_ok; lia) Hi). destruct (ow_live _ _ Ho) as (_ & _ & _ & Hlen). unfold MAXFILE in *.
  rewrite (entries_put _ _ (k - NDIRECT) b v Hlen ltac:(lia) Hb Ev) by lia. repeat case_decide; try done; lia.
Qed.

Lemma adopt_entry c p i k s x q : disk_ok x -> whole x i -> NDIRECT <= k < MAXFILE -> indirect x i <> 0 -> blk x i k = 0 ->
  (1 <= nfree x)%nat -> in_tx c p s x (S (S (S q))) ->
  exists b s' x', fetch 1 (indirect x i) (k - NDIRECT) s x = Ok (b, s', x') /\ in_tx c p s' x' q /\ adopted i b k x x' /\ ic x' = ic x.
Proof.
  intros Hdk Hwh Hk Hi Hblk Hn Htx. set (a := indirect x i) in *. pose proof (dk_bitmap _ Hdk) as Hbm.
  assert (owned x a) as Ho.
  { pose proof (wh_own _ _ Hwh MAXFILE) as Ho. rewrite slot_ind in Ho. apply Ho; [unfold slot_ok; rewrite maxfile; lia|done]. }
  pose proof (ow_live _ _ Ho) as (_ & La & Ha & Hlen). unfold fetch. destruct (bread_opened x a) as (x1 & -> & Hop); [done|]. cbn [res_bind].
  unfold blk in Hblk. fold a in Hblk. rewrite (proj2 (Z.ltb_ge _ _)), (proj2 (Z.eqb_neq _ _) Hi) in Hblk by lia. unfold addr_of in Hblk. fold a in Hblk.
  rewrite (proj2 (Z.ltb_ge _ _)) in Hblk by lia.
  assert (0 <= 4 * (k - NDIRECT) /\ 4 * (k - NDIRECT) + 4 <= BSIZE) as [Hr1 Hr2] by (unfold NDIRECT, BSIZE in *; rewrite maxfile in Hk; lia).
  rewrite get32_dec, Hblk by lia. cbn [res_bind Z.eqb].
  pose proof Hop as [Psb Pic Picl Pn Ph Plg Pc].
  assert (forall b, used x1 b = used x b) as Pu by (intros b; unfold used; by rewrite Psb, Pc).
  pose proof (opened_bitmap a x x1 Hbm Ho Hop) as Hbm1.
  destruct (balloc_any c p s x1 (S q)) as (b & s1 & x2 & -> & Htx2 & Hb & Hu & Hal); [done|by rewrite (nfree_ext x)|by unfold in_tx in *; rewrite Plg|].
  unfold on_disk in Hb. rewrite Psb in Hb. rewrite Pu in Hu. fold (on_disk x b) in Hb. cbn [res_bind].
  assert (a <> b) as Hab by (intros ->; pose proof (ow_used _ _ Ho); congruence).
  assert (forall b', on_disk x b' -> a <> BBLOCK b' (f_sb x)) as Hnb by (intros b' Hb' E; apply (ow_data _ _ Ho); by exists b').
  pose proof (al_frame _ _ _ Hal) as [Fsb Fic Ficl Fn Fh].
  destruct (put32 "bp->data" (cont x a) (4 * (k - NDIRECT)) b) as [v| | | |] eqn:Ev;
    try (unfold put32 in Ev; rewrite put_bytes_in in Ev by (rewrite ?enc_length; lia); done).
  cbn [res_bind]. destruct (close_logged c p s1 x2 a (holds x) q v) as (s' & x3 & x4 & -> & E4 & Htx4 & G1 & G2 & G3 & G4 & G5 & G6 & G7);
    [by rewrite Fh, Ph|done|done|].
  cbn [res_bind]. rewrite E4. cbn [res_bind]. exists b, s', x4. split; [done|]. split; [done|].
  assert (ic x4 = ic x) as Hic by (by rewrite G2, Fic). split; [|done]. pose proof (dk_disk _ Hdk) as Hsz.
  constructor; try congruence.
  - unfold addrs_of. rewrite Hic. by destruct (ic x i) as [? ? ? ? ? []].
  - unfold addrs_of. rewrite Hic. apply Hwh.
  - done.
  - intros b' Hb'. rewrite <- (Pu b'), <- (al_used _ _ _ Hal) by (by rewrite Psb). unfold used. rewrite G1, G7; [done|].
    rewrite Fsb, Psb. intros E. by apply (Hnb b').
  - rewrite G7 by done. apply Hal.
  - intros b' Hb'. rewrite G7 by (intros E; by apply (Hnb b')). pose proof (allocated_bitmap b x1 x2 Hbm1) as Hab'. unfold on_disk in *. rewrite Psb, Pu in Hab'. by apply Hab'.
  - intros b' H1 H2 H3. rewrite G7 by done. rewrite (al_other _ _ _ Hal), Pc; [done|done|]. rewrite Psb. intros ->. apply H2. by exists b.
  - intros _. fold a. rewrite G6. unfold put32 in Ev. by rewrite (put_bytes_length _ _ _ _ _ Ev).
  - apply (entry_slots x x4 i k b v); try done. unfold on_disk in Hb. lia.
Qed.

(** ** bmap *)

(** An indirect block may be needed. *)
Definition no_ind x i : nat := if indirect x i =? 0 then 1%nat else 0%nat.

(** From [x] to [x'] the file may get blocks, but no byte of it changes. *)
Record extends i x x' : Prop := {
  ex_disk : disk_ok x';
  ex_whole : whole x' i;
  ex_grew : grew i x x';
  ex_data pos : 0 <= pos < MAXFILE * BSIZE -> data x' i pos = data x i pos
}.

Lemma extends_trans i x1 x2 x3 : extends i x1 x2 -> extends i x2 x3 -> extends i x1 x3.
Proof.
  intros [_ _ A3 A4] [B1 B2 B3 B4]. constructor; try done; [by eapply grew_trans|]. intros pos Hp. by rewrite B4, A4.
Qed.

Lemma adopted_extends i b k x x' : adopted i b k x x' -> disk_ok x -> whole x i -> slot x i k = 0 -> extends i x x'.
Proof.
  intros Had Hdk Hwh He. constructor.
  - by eapply adopted_disk.
  - by eapply adopted_whole.
  - by eapply adopted_grew.
  - by eapply adopted_data.
Qed.

Lemma slot_same i x x' k : same x x' -> slot x' i k = slot x i k.
Proof.
  intros Hs. unfold slot, blk. pose proof (addr_of_same x x' i k Hs) as Ea. pose proof Hs as [[_ Hic _ _ _] _ _].
  unfold indirect, addrs_of in *. by rewrite Hic, Ea.
Qed.

Lemma same_extends i x x' : same x x' -> disk_ok x -> whole x i -> extends i x x'.
Proof.
  intros Hs [D1 D2 D3] [W1 W2 W3 W4]. pose proof Hs as [[Hsb Hic Hil Hn Hh] _ Hc]. constructor.
  - constructor; [by eapply bitmap_ok_same|by rewrite (used_same x)|by rewrite Hsb].
  - constructor; [by rewrite Hic|unfold addrs_of in *; by rewrite Hic|..].
    + intros k Hk. rewrite (slot_same i x) by done. intros Hne. destruct (W3 k Hk Hne) as [O1 O2 O3 O4].
      constructor; [unfold on_disk in *; by rewrite Hsb|by rewrite (used_same x)|by eapply live_same|]. intros H. by apply O4, (bitmap_sb x x').
    + intros k k' Hk Hk'. rewrite (slot_same i x x' k Hs), (slot_same i x x' k' Hs). by apply W4.
  - constructor; try done.
    + intros j _. by rewrite Hic.
    + unfold addrs_of. rewrite Hic. by destruct (ic x i) as [? ? ? ? ? []].
    + intros k Hk _. by apply slot_same.
    + intros k Hk E Hne. rewrite (slot_same i x) in Hne by done. congruence.
    + intros b _ Hu. by rewrite (used_same x).
  - intros pos Hp. unfold data. assert (blk x' i (pos / BSIZE) = blk x i (pos / BSIZE)) as ->; [|by rewrite Hc].
    pose proof (slot_same i x x' (pos / BSIZE) Hs) as E. assert (0 <= pos / BSIZE < MAXFILE).
    { split; [apply Z.div_pos; [lia|done]|apply Z.div_lt_upper_bound; [done|lia]]. }
    by rewrite !blk_slot.
Qed.

(** A block the file has is mapped in the sense of [readi]. *)
Lemma whole_mapped x i k : whole x i -> 0 <= k < MAXFILE -> blk x i k <> 0 -> mapped x i k /\ addr_of x i k = blk x i k.
Proof.
  intros Hwh Hk Hne. assert (addr_of x i k = blk x i k) as Ea.
  { unfold blk in *. destruct (Z.ltb_spec k NDIRECT) as [H|H]; [unfold addr_of; by rewrite (proj2 (Z.ltb_lt _ _))|]. by destruct (indirect x i =? 0). }
  split; [|done]. constructor; [done|apply Hwh|apply Hwh|..].
  - rewrite Ea, blk_slot in * by done. apply (wh_own _ _ Hwh k); [unfold slot_ok; lia|done].
  - intros Hd. unfold blk in Hne. rewrite (proj2 (Z.ltb_ge _ _)) in Hne by done. destruct (Z.eqb_spec (indirect x i) 0) as [|Hi]; [done|].
    pose proof (wh_own _ _ Hwh MAXFILE) as Ho. rewrite slot_ind in Ho. apply Ho; [unfold slot_ok; lia|done].
Qed.

(** What [bmap] of block [k] does. *)
Record bmapped i k x x' : Prop := {
  bm_extends : extends i x x';
  bm_there : blk x' i k <> 0;
  bm_count : (nfree x + no_ind x' i <= nfree x' + 1 + no_ind x i)%nat;
  bm_kept : blk x i k <> 0 -> ic x' = ic x
}.

Lemma ind_slot y j : no_ind y j = if slot y j MAXFILE =? 0 then 1%nat else 0%nat.
Proof. unfold no_ind. by rewrite slot_ind. Qed.

Lemma bmap_direct c p i k s x q : disk_ok x -> whole x i -> 0 <= k < NDIRECT -> blk x i k = 0 -> (1 <= nfree x)%nat -> in_tx c p s x (2 + q) ->
  exists s' x', bmap i k s x = Ok (blk x' i k, s', x') /\ in_tx c p s' x' q /\ bmapped i k x x' /\ no_ind x' i = no_ind x i.
Proof.
  intros Hdk Hwh Hk He Hn Htx. unfold blk in He. rewrite (proj2 (Z.ltb_lt _ _)) in He by lia. pose proof (wh_len _ _ Hwh) as Hl.
  destruct (adopt_addr c p i k s x q Hdk Hwh ltac:(lia) He Hn Htx) as (b & s' & x1 & Eb & Ei & Htx' & Had).
  set (x2 := upd_d _ _ _) in *. assert (place_of k = k) as Ep by (unfold place_of; by rewrite (proj2 (Z.eqb_neq _ _)) by lia). rewrite Ep in Had.
  assert (slot_ok k) as Hk' by (unfold slot_ok, NDIRECT in *; rewrite maxfile; lia).
  assert (0 <= k < MAXFILE) as Hk2 by (unfold NDIRECT in *; rewrite maxfile; lia).
  pose proof (ad_slot _ _ _ _ _ Had k Hk') as Esl. rewrite decide_True, <- blk_slot in Esl by done.
  assert (blk x i k = 0) as He' by (unfold blk; by rewrite (proj2 (Z.ltb_lt _ _)) by lia).
  exists s', x2. unfold bmap. rewrite (proj2 (Z.ltb_lt _ _)) by lia. unfold NDIRECT in Hk.
  rewrite zget_default by (unfold addrs_of in Hl; lia). fold (addrs_of x i). rewrite He. cbn [res_bind Z.eqb]. rewrite Eb. cbn [res_bind]. rewrite Ei. fold (addrs_of x i).
  rewrite zset_in by lia. cbn [res_bind]. fold x2. rewrite Esl. split; [done|]. split; [done|].
  assert (no_ind x2 i = no_ind x i) as En.
  { rewrite !ind_slot, (ad_slot _ _ _ _ _ Had), decide_False; [done|lia|unfold slot_ok; lia]. }
  split; [|done]. constructor.
  - eapply adopted_extends; try done. by rewrite <- blk_slot.
  - rewrite Esl. destruct (ad_fresh _ _ _ _ _ Had) as [H1 H2]. pose proof (free_not_zero x b Hdk H1 H2). lia.
  - rewrite (adopted_nfree _ _ _ _ _ Had), En. lia.
  - done.
Qed.

(** The entry of the indirect block, when there is one. *)
Lemma bmap_entry c p i k s x q : disk_ok x -> whole x i -> NDIRECT <= k < MAXFILE -> indirect x i <> 0 -> blk x i k = 0 -> (1 <= nfree x)%nat ->
  in_tx c p s x (3 + q) ->
  exists s' x', fetch 1 (indirect x i) (k - NDIRECT) s x = Ok (blk x' i k, s', x') /\ in_tx c p s' x' q /\ bmapped i k x x' /\ no_ind x' i = no_ind x i.
Proof.
  intros Hdk Hwh Hk Hi He Hn Htx. destruct (adopt_entry c p i k s x q Hdk Hwh Hk Hi He Hn Htx) as (b & s' & x' & E & Htx' & Had & Hic).
  assert (slot_ok k) as Hk' by (unfold slot_ok, NDIRECT in *; lia).
  pose proof (ad_slot _ _ _ _ _ Had k Hk') as Esl. rewrite decide_True, <- blk_slot in Esl by (done || unfold NDIRECT in *; lia).
  exists s', x'. rewrite Esl. split; [done|]. split; [done|].
  assert (no_ind x' i = no_ind x i) as En by (unfold no_ind, indirect, addrs_of; by rewrite Hic).
  split; [|done]. constructor.
  - eapply adopted_extends; try done. rewrite <- blk_slot; [done|unfold NDIRECT in *; lia].
  - rewrite Esl. destruct (ad_fresh _ _ _ _ _ Had) as [H1 H2]. pose proof (free_not_zero x b Hdk H1 H2). lia.
  - rewrite (adopted_nfree _ _ _ _ _ Had), En. lia.
  - done.
Qed.

Lemma bmapped_trans i k x1 x2 x3 : extends i x1 x2 -> (nfree x1 + no_ind x2 i <= nfree x2 + no_ind x1 i)%nat -> blk x1 i k = 0 ->
  bmapped i k x2 x3 -> bmapped i k x1 x3.
Proof. intros He Hn Hb [B1 B2 B3 B4]. constructor; [by eapply extends_trans|done|lia|done]. Qed.

(** [bmap] gives block [k] of the file, and allocates it if there is none. *)
Lemma bmap_grows c p i k s x q : disk_ok x -> whole x i -> 0 <= k < MAXFILE -> (S (no_ind x i) <= nfree x)%nat ->
  in_tx c p s x (3 + (2 * no_ind x i + q)) ->
  exists s' x', bmap i k s x = Ok (blk x' i k, s', x') /\ in_tx c p s' x' (2 * no_ind x' i + q) /\ bmapped i k x x'.
Proof.
  intros Hdk Hwh Hk Hn Htx. destruct (decide (blk x i k = 0)) as [He|Hne].
  2: { destruct (whole_mapped x i k Hwh Hk Hne) as [Hm Ea]. destruct (bmap_mapped s x i k Hm) as (x' & -> & Hs). pose proof (same_extends i x x' Hs Hdk Hwh) as Hx.
       pose proof (slot_same i x x' k Hs) as Esl. rewrite <- !blk_slot in Esl by done. pose proof Hs as [[_ Hic _ _ _] _ _].
       assert (no_ind x' i = no_ind x i) as En by (unfold no_ind, indirect, addrs_of; by rewrite Hic).
       exists s, x'. rewrite Esl, Ea, En. split; [done|]. split; [eapply in_tx_same; [done|]; eapply in_tx_le; [|done]; lia|].
       constructor; [done|by rewrite Esl| |done]. rewrite En, (nfree_ext x x'); [lia|by destruct Hs as [[]]|]. intros b _. by apply used_same. }
  destruct (decide (k < NDIRECT)) as [Hd|Hd].
  { destruct (bmap_direct c p i k s x (2 * no_ind x i + q)) as (s' & x' & E & Htx' & Hb & En); try done; try lia; [eapply in_tx_le; [|done]; lia|].
    exists s', x'. by rewrite En. }
  unfold bmap. rewrite (proj2 (Z.ltb_ge k NDIRECT)) by lia. pose proof (wh_len _ _ Hwh) as Hl. unfold addrs_of in Hl.
  assert (k - NDIRECT < NINDIRECT) as Hlt by (unfold MAXFILE in Hk; lia). rewrite (proj2 (Z.ltb_lt _ _) Hlt).
  rewrite (zget_default _ _ NDIRECT) by (unfold NDIRECT; lia). fold (addrs_of x i). change (default 0 (addrs_of x i !! Z.to_nat NDIRECT)) with (indirect x i).
  cbn [res_bind]. rewrite (wh_dev _ _ Hwh). unfold no_ind in Hn, Htx. destruct (Z.eqb_spec (indirect x i) 0) as [Hi|Hi].
  - destruct (adopt_addr c p i NDIRECT s x (3 + q) Hdk Hwh ltac:(unfold NDIRECT; lia) Hi ltac:(lia)) as (b & s1 & x1 & Eb & Ei & Htx1 & Had); [eapply in_tx_le; [|done]; lia|].
    rewrite (wh_dev _ _ Hwh) in Eb. rewrite Eb. cbn [res_bind]. rewrite Ei. fold (addrs_of x i). rewrite zset_in by (unfold addrs_of, NDIRECT; lia). cbn [res_bind].
    set (x2 := upd_d _ _ _) in *. change (place_of NDIRECT) with MAXFILE in Had.
    assert (extends i x x2) as Hx by (eapply adopted_extends; [done..|by rewrite slot_ind]).
    destruct (ad_fresh _ _ _ _ _ Had) as [H1 H2]. pose proof (free_not_zero x b Hdk H1 H2) as H0.
    assert (indirect x2 i = b) as Eb2 by (rewrite <- slot_ind, (ad_slot _ _ _ _ _ Had), decide_True; [done|done|unfold slot_ok; lia]).
    assert (blk x2 i k = 0) as Ek by (rewrite blk_slot, (ad_slot _ _ _ _ _ Had), decide_False, <- blk_slot; [done|done|lia|unfold slot_ok; lia|done]).
    pose proof (adopted_nfree _ _ _ _ _ Had) as Hf. destruct Hx as [X1 X2 X3 X4] eqn:EX.
    destruct (bmap_entry c p i k s1 x2 q) as (s' & x' & E & Htx' & Hb & En); try done; try lia. rewrite Eb2 in E. unfold fetch in E.
    exists s', x'. split; [exact E|]. assert (no_ind x2 i = 0%nat) as E0 by (unfold no_ind; rewrite Eb2; by rewrite (proj2 (Z.eqb_neq _ _)) by lia).
    rewrite En, E0. split; [done|]. apply (bmapped_trans i k x x2); try done. rewrite E0. unfold no_ind. rewrite Hi. cbn. lia.
  - cbn [res_bind]. destruct (bmap_entry c p i k s x q) as (s' & x' & E & Htx' & Hb & En); try done; try lia. unfold fetch in E.
    exists s', x'. split; [exact E|]. rewrite En. unfold no_ind. rewrite (proj2 (Z.eqb_neq _ _) Hi). done.
Qed.

(** ** writei *)

(** A block in use, but not the indirect block, is overwritten. *)
Section Overwrite.
Context (i b : Z) (v : block) (x x' : fsx).
Hypothesis Hown : owned x b.
Hypothesis Hni : b <> indirect x i.
Hypothesis Hch : changed b v x x'.

Lemma over_slot k : slot x' i k = slot x i k.
Proof using Hni Hch.
  pose proof (addr_of_changed _ _ _ _ i k Hch Hni) as Ea. destruct Hch as [[_ Hic _ _ _] _ _]. unfold slot, blk.
  unfold indirect, addrs_of in *. by rewrite Hic, Ea.
Qed.

Lemma over_used b' : on_disk x b' -> used x' b' = used x b'.
Proof using Hown Hch.
  intros Hd. destruct Hown as [_ _ _ Ho]. destruct Hch as [[Hsb _ _ _ _] _ Hold]. unfold used. rewrite Hsb, Hold; [done|].
  intros E. apply Ho. by exists b'.
Qed.

Lemma over_disk : disk_ok x -> disk_ok x'.
Proof using Hown Hch.
  pose proof over_used as Hu. destruct Hown as [Hd _ _ Ho]. destruct Hch as [[Hsb Hic Hil Hn Hh] _ Hold]. intros [[B1 B2 B3 B4] D2 D3].
  constructor; [|rewrite Hu; [done|]|by rewrite Hsb].
  - constructor; unfold buf_ok in *; rewrite ?Hsb, ?Hn, ?Hh; try done.
    + intros b' Hb'. rewrite Hold; [by apply B3|]. intros E. apply Ho. by exists b'.
    + intros b' Hb'. rewrite Hu by done. by apply B4.
  - unfold on_disk in *. lia.
Qed.

Hypothesis Hv : Z.of_nat (length v) = BSIZE.

Lemma over_owned b' : owned x b' -> owned x' b'.
Proof using Hown Hch Hv.
  pose proof over_used as Hu. destruct (ow_live _ _ Hown) as (_ & _ & _ & Hlen). intros [O1 O2 O3 O4]. constructor.
  - unfold on_disk in *. by rewrite (fr_sb _ _ (ch_frame _ _ _ _ Hch)).
  - by rewrite Hu.
  - eapply live_changed; [done|lia|done].
  - intros H. apply O4, (bitmap_sb x x'); [apply Hch|done].
Qed.

Lemma over_whole : whole x i -> whole x' i.
Proof using Hown Hni Hch Hv.
  pose proof over_slot as Hs. pose proof over_owned as Ho. destruct Hch as [[_ Hic _ _ _] _ _]. intros [W1 W2 W3 W4].
  constructor; [by rewrite Hic|unfold addrs_of in *; by rewrite Hic|..].
  - intros k Hk. rewrite Hs. intros Hne. by apply Ho, W3.
  - intros k1 k2 H1 H2. rewrite !Hs. by apply W4.
Qed.

Lemma over_nfree : nfree x' = nfree x.
Proof using Hown Hch. apply nfree_ext; [apply Hch|apply over_used]. Qed.

(** The bytes of the file. *)
Lemma over_data pos : 0 <= pos < MAXFILE * BSIZE ->
  data x' i pos = if decide (blk x i (pos / BSIZE) = b) then default 0 (v !! Z.to_nat (pos mod BSIZE)) else data x i pos.
Proof using Hown Hni Hch.
  intros Hp. assert (0 <= pos / BSIZE < MAXFILE) as Hq.
  { split; [apply Z.div_pos; [lia|done]|apply Z.div_lt_upper_bound; [done|lia]]. }
  unfold data. pose proof (over_slot (pos / BSIZE)) as Es. rewrite <- !blk_slot in Es by done. rewrite Es. case_decide as E.
  - rewrite E, (ch_new _ _ _ _ Hch). destruct (ow_live _ _ Hown) as (H0 & _). by rewrite (proj2 (Z.eqb_neq _ _) H0).
  - by rewrite (ch_old _ _ _ _ Hch).
Qed.

Lemma over_grew k : slot_ok k -> slot x i k = b -> grew i x x'.
Proof using Hown Hni Hch.
  intros Hk Eb. pose proof over_slot as Hs. pose proof over_used as Hu. destruct Hch as [[Hsb Hic Hil Hn Hh] Hnew Hold]. constructor; try done.
  - intros j _. by rewrite Hic.
  - unfold addrs_of. rewrite Hic. by destruct (ic x i) as [? ? ? ? ? []].
  - intros k' Hk' E Hne. by rewrite Hs in Hne.
  - intros b' Hd Hub. by rewrite Hu.
  - intros b' Hd Hub Hm Hns. apply Hold. rewrite <- Eb. by apply Hns.
Qed.
End Overwrite.

(** The data blocks of a file are such blocks. *)
Lemma blk_owned x i k : whole x i -> 0 <= k < MAXFILE -> blk x i k <> 0 -> owned x (blk x i k) /\ blk x i k <> indirect x i.
Proof.
  intros Hwh Hk Hne. rewrite blk_slot in * by done. split; [apply (wh_own _ _ Hwh); [unfold slot_ok; lia|done]|].
  rewrite <- slot_ind. intros E. apply (wh_inj _ _ Hwh) in E; [lia|unfold slot_ok; lia|unfold slot_ok; lia|done].
Qed.

(** The file after [r] bytes of [src], from byte [tot] on, were stored at [off]. *)
Record stored i off (r tot : Z) (src : list Z) x x' : Prop := {
  st_disk : disk_ok x';
  st_whole : whole x' i;
  st_grew : grew i x x';
  st_data pos : 0 <= pos < MAXFILE * BSIZE ->
    data x' i pos = if decide (off <= pos < off + r) then default 0 (src !! Z.to_nat (tot + (pos - off))) else data x i pos;
  st_there k : 0 < r -> off / BSIZE <= k -> k * BSIZE < off + r -> blk x' i k <> 0;
  st_kept : (forall k, 0 <= k -> k * BSIZE < off + r -> blk x i k <> 0) -> ic x' = ic x
}.

(** A byte of a block after some of its bytes were replaced. *)
Lemma put_bytes_byte w l o bs l' j : put_bytes w l o bs = Ok l' -> 0 <= j ->
  default 0 (l' !! Z.to_nat j) =
    if decide (o <= j < o + Z.of_nat (length bs)) then default 0 (bs !! Z.to_nat (j - o)) else default 0 (l !! Z.to_nat j).
Proof.
  intros (Ho & Hl & ->)%put_bytes_inv Hj. case_decide as Hin.
  - rewrite lookup_app_r by (rewrite length_take; lia). rewrite length_take, lookup_app_l by lia. do 2 f_equal. lia.
  - destruct (decide (j < o)) as [Hlt|Hge].
    + rewrite lookup_app_l by (rewrite length_take; lia). by rewrite lookup_take_lt by lia.
    + rewrite lookup_app_r by (rewrite length_take; lia). rewrite length_take, lookup_app_r, lookup_drop by lia. do 2 f_equal. lia.
Qed.

Lemma round_data i off m tot src bs w v x1 x4 :
  0 <= off -> 0 <= tot -> 0 < m -> off mod BSIZE + m <= BSIZE -> tot + m <= Z.of_nat (length src) -> 0 <= off / BSIZE < MAXFILE ->
  whole x1 i -> blk x1 i (off / BSIZE) <> 0 -> changed (blk x1 i (off / BSIZE)) v x1 x4 ->
  bs = take (Z.to_nat m) (drop (Z.to_nat tot) src) -> put_bytes w (cont x1 (blk x1 i (off / BSIZE))) (off mod BSIZE) bs = Ok v ->
  forall pos, 0 <= pos < MAXFILE * BSIZE ->
  data x4 i pos = if decide (off <= pos < off + m) then default 0 (src !! Z.to_nat (tot + (pos - off))) else data x1 i pos.
Proof.
  intros Ho Ht Hm Hmod Hsrc Hq Hwh Hne Hch Ebs Ev pos Hp. destruct (blk_owned x1 i _ Hwh Hq Hne) as [Hown Hni].
  rewrite (over_data i (blk x1 i (off / BSIZE)) v x1 x4) by done.
  assert (length bs = Z.to_nat m) as Hbs by (subst bs; rewrite length_take, length_drop; lia).
  pose proof (Z.mod_pos_bound off BSIZE ltac:(done)) as M1. pose proof (Z.mod_pos_bound pos BSIZE ltac:(done)) as M2.
  pose proof (Z.div_mod off BSIZE ltac:(done)) as D1. pose proof (Z.div_mod pos BSIZE ltac:(done)) as D2.
  destruct (decide (pos / BSIZE = off / BSIZE)) as [E|E].
  - rewrite E, decide_True by done. rewrite (put_bytes_byte _ _ _ _ _ _ Ev) by lia. rewrite Hbs, Z2Nat.id by lia.
    assert (pos - off = pos mod BSIZE - off mod BSIZE) as Ed by (rewrite E in D2; lia). repeat case_decide; try lia.
    + subst bs. rewrite lookup_take_lt, lookup_drop by lia. do 2 f_equal. lia.
    + unfold data. rewrite E. by rewrite (proj2 (Z.eqb_neq _ _) Hne).
  - rewrite decide_False, decide_False; [done| |].
    + intros Hin. apply E. symmetry. apply (Z.div_unique _ _ _ (pos - BSIZE * (off / BSIZE))); lia.
    + assert (0 <= pos / BSIZE < MAXFILE) by (split; [apply Z.div_pos; [lia|done]|apply Z.div_lt_upper_bound; [done|lia]]).
      rewrite !blk_slot in * by done. intros E'. symmetry in E'. apply (wh_inj _ _ Hwh) in E'; [by subst|unfold slot_ok; lia|unfold slot_ok; lia|done].
Qed.

Lemma round_grows c p i off tot m src s x q :
  disk_ok x -> whole x i -> 0 <= off -> 0 <= tot -> 0 < m -> off mod BSIZE + m <= BSIZE -> tot + m <= Z.of_nat (length src) ->
  off + m <= MAXFILE * BSIZE -> (S (no_ind x i) <= nfree x)%nat -> in_tx c p s x (4 + (2 * no_ind x i + q)) ->
  exists b s1 x1 x2 bs v s' x3 x4, bmap i (off / BSIZE) s x = Ok (b, s1, x1) /\ bread (i_dev (ic x1 i)) b x1 = Ok (cont x1 b, x2) /\
    get_bytes "src" src tot (Z.to_nat m) = Ok bs /\ put_bytes "bp->data" (cont x1 b) (off mod BSIZE) bs = Ok v /\
    log_write b s1 (bset b v x2) = Ok (s', x3) /\ brelse b x3 = Ok x4 /\ in_tx c p s' x4 (2 * no_ind x4 i + q) /\
    stored i off m tot src x x4 /\ (nfree x + no_ind x4 i <= nfree x4 + 1 + no_ind x i)%nat.
Proof.
  intros Hdk Hwh Ho Ht Hm Hmod Hsrc Hmax Hn Htx. pose proof (Z.mod_pos_bound off BSIZE ltac:(done)) as M1. pose proof (Z.div_mod off BSIZE ltac:(done)) as D1.
  assert (0 <= off / BSIZE < MAXFILE) as Hq.
  { split; [apply Z.div_pos; [lia|done]|apply Z.div_lt_upper_bound; [done|lia]]. }
  destruct (bmap_grows c p i (off / BSIZE) s x (S q) Hdk Hwh Hq Hn) as (s1 & x1 & Eb & Htx1 & [[X1 X2 X3 X4] Hth Hcnt Hkept]).
  { replace (3 + (2 * no_ind x i + S q))%nat with (4 + (2 * no_ind x i + q))%nat by lia. done. }
  rewrite Nat.add_succ_r in Htx1. set (b := blk x1 i (off / BSIZE)) in *.
  destruct (blk_owned x1 i _ X2 Hq Hth) as [Hown Hni]. fold b in Hown, Hni. destruct (ow_live _ _ Hown) as (L1 & L2 & L3 & L4).
  destruct (modify_ok c p s1 x1 (i_dev (ic x1 i)) b _ (conj (wh_dev _ _ X2) (conj L2 L3)) Htx1) as (x2 & Er & _ & _ & _ & Hmod').
  set (bs := take (Z.to_nat m) (drop (Z.to_nat tot) src)).
  assert (length bs = Z.to_nat m) as Hbs by (unfold bs; rewrite length_take, length_drop; lia).
  destruct (put_bytes "bp->data" (cont x1 b) (off mod BSIZE) bs) as [v| | | |] eqn:Ev; try (rewrite put_bytes_in in Ev by lia; done).
  pose proof (put_bytes_length _ _ _ _ _ Ev) as Hvl.
  destruct (Hmod' v) as (m' & x3 & x4 & Ew & Ec & Hch & Htx').
  assert (no_ind x4 i = no_ind x1 i) as En by (rewrite !ind_slot; by rewrite (over_slot i b v x1 x4)).
  exists b, s1, x1, x2, bs, v, (set_mach m' s1), x3, x4. rewrite Eb, Er, Ev, Ew, Ec, En.
  split; [done|]. split; [done|]. split; [unfold bs; apply get_bytes_in; lia|]. split; [done|]. split; [done|]. split; [done|]. split; [done|]. split.
  - constructor.
    + apply (over_disk b v x1 x4); done.
    + apply (over_whole i b v x1 x4); try done. lia.
    + eapply grew_trans; [done|]. apply (over_grew i b v x1 x4 Hown Hni Hch (off / BSIZE)); [unfold slot_ok; lia|]. by rewrite <- blk_slot.
    + intros pos Hp. rewrite (round_data i off m tot src bs _ v x1 x4) by done. by rewrite X4.
    + intros k _ Hk1 Hk2. assert (k = off / BSIZE) as -> by (unfold BSIZE in *; lia).
      rewrite blk_slot, (over_slot i b v x1 x4), <- blk_slot by done. done.
    + intros Hall. rewrite (fr_ic _ _ (ch_frame _ _ _ _ Hch)). apply Hkept, Hall; lia.
  - rewrite (over_nfree b v x1 x4) by done. lia.
Qed.

Lemma stored_trans i off m r tot src x1 x2 x3 : 0 <= off -> 0 < m -> 0 <= r -> 0 <= tot -> off + (m + r) <= MAXFILE * BSIZE ->
  stored i off m tot src x1 x2 -> stored i (off + m) r (tot + m) src x2 x3 -> stored i off (m + r) tot src x1 x3.
Proof.
  intros Ho Hm Hr Ht Hmax [A1 A2 A3 A4 A5 A6] [B1 B2 B3 B4 B5 B6].
  assert (forall k, 0 <= k -> k * BSIZE < off + (m + r) -> 0 <= k < MAXFILE /\ slot_ok k) as Hk by (unfold slot_ok, BSIZE in *; lia).
  assert (forall k y y', 0 <= k < MAXFILE -> grew i y y' -> blk y i k <> 0 -> blk y' i k <> 0) as Hkeep.
  { intros k y y' Hk' Hg. rewrite !blk_slot by done. intros Hne. rewrite (gr_slot _ _ _ Hg); [done|unfold slot_ok; lia|done]. }
  constructor; try done; [by eapply grew_trans|..].
  - intros pos Hpos. rewrite B4, A4 by done. repeat case_decide; try lia; try done. do 2 f_equal. lia.
  - intros k _ Hk1 Hk2. assert (0 <= off / BSIZE) by (apply Z.div_pos; [lia|done]). destruct (Hk k ltac:(lia) ltac:(lia)) as [Hk3 _].
    destruct (decide (k * BSIZE < off + m)) as [Hlt|Hge]; [apply (Hkeep k x2 x3); [done|done|by apply A5]|].
    apply B5; [lia| |lia]. apply Z.lt_succ_r. apply Z.div_lt_upper_bound; [done|]. unfold BSIZE in *. lia.
  - intros Hall. rewrite B6; [apply A6; intros k Hk1 Hk2; apply Hall; lia|]. intros k Hk1 Hk2.
    destruct (Hk k ltac:(lia) ltac:(lia)) as [Hk3 _]. apply (Hkeep k x1 x2); [done|done|]. apply Hall; lia.
Qed.

Lemma stored_nothing i off tot src x : disk_ok x -> whole x i -> stored i off 0 tot src x x.
Proof.
  intros Hdk Hwh. constructor; try done.
  - apply grew_refl.
  - intros pos _. by rewrite decide_False by lia.
Qed.

Lemma loop_grows c p i n src q fuel : forall off tot s x,
  disk_ok x -> whole x i -> 0 <= off -> 0 <= tot <= n -> (Z.to_nat (n - tot) < fuel)%nat -> n <= Z.of_nat (length src) ->
  off + (n - tot) <= MAXFILE * BSIZE -> (blocks_touched off (n - tot) + no_ind x i <= nfree x)%nat ->
  in_tx c p s x (4 * blocks_touched off (n - tot) + (2 * no_ind x i + q)) ->
  exists s' x', write_loop fuel i off tot n src s x = Ok (off + (n - tot), s', x') /\ in_tx c p s' x' q /\ stored i off (n - tot) tot src x x'.
Proof.
  induction fuel as [|f IH]; intros off tot s x Hdk Hwh Ho Ht Hf Hsrc Hmax Hn Htx; [lia|]. cbn [write_loop].
  destruct (Z.ltb_spec tot n) as [Hlt|Hge].
  2: { replace (n - tot) with 0 in * by lia. exists s, x. split; [by rewrite Z.add_0_r|]. split; [|by apply stored_nothing].
       eapply in_tx_le; [|done]. lia. }
  set (m := Z.min (n - tot) (BSIZE - off mod BSIZE)). pose proof (Z.mod_pos_bound off BSIZE ltac:(done)) as Hmod.
  assert (0 < m <= n - tot /\ off mod BSIZE + m <= BSIZE) as [Hm1 Hm2] by (unfold m; lia).
  rewrite (blocks_touched_step off (n - tot)) in Htx, Hn by lia. fold m in Htx, Hn. set (t := blocks_touched (off + m) (n - tot - m)) in *.
  destruct (round_grows c p i off tot m src s x (4 * t + q)) as
    (b & s1 & x1 & x2 & bs & v & s2 & x3 & x4 & -> & E1 & E2 & E3 & E4 & E5 & Htx' & Hst & Hcnt); try done; try lia.
  { eapply in_tx_le; [|done]. lia. }
  cbn [res_bind]. rewrite E1. cbn [res_bind]. fold m. rewrite E2. cbn [res_bind]. rewrite E3. cbn [res_bind]. rewrite E4. cbn [res_bind]. rewrite E5. cbn [res_bind].
  destruct (IH (off + m) (tot + m) s2 x4) as (s' & x' & -> & Htx2 & Hst2); try apply Hst; try lia.
  { replace (n - (tot + m)) with (n - tot - m) by lia. fold t. lia. }
  { replace (n - (tot + m)) with (n - tot - m) by lia. fold t. eapply in_tx_le; [|done]. lia. }
  exists s', x'. split; [do 3 f_equal; lia|]. split; [done|]. replace (n - tot) with (m + (n - (tot + m))) by lia.
  eapply stored_trans; [..|exact Hst|exact Hst2]; lia.
Qed.

(** ** Files *)

(** The block of the inode on the disk. *)
Definition iblock x i : Z := IBLOCK (i_inum (ic x i)) (f_sb x).

(** A file, in the cache and on the disk. *)
Record regular x i : Prop := {
  fl_disk : disk_ok x;
  fl_whole : whole x i;
  fl_type : d_type (i_d (ic x i)) <> T_DEV;
  fl_inode : dinode_ok (i_d (ic x i));
  fl_size : d_size (i_d (ic x i)) <= MAXFILE * BSIZE;
  fl_blocks k : 0 <= k -> k * BSIZE < d_size (i_d (ic x i)) -> blk x i k <> 0;
  fl_iblock : owned x (iblock x i);
  fl_apart k : slot_ok k -> iblock x i <> slot x i k;
  fl_stored : get_dinode (cont x (iblock x i)) (dip_off (i_inum (ic x i))) = Ok (i_d (ic x i))
}.

(** What else is on the disk. *)
Record elsewhere i x x' : Prop := {
  el_sb : f_sb x' = f_sb x;
  el_iclk : ic_lock x' = ic_lock x;
  el_ic j : j <> i -> ic x' j = ic x j;
  el_inode inum : inum mod IPB <> i_inum (ic x i) mod IPB ->
    get_dinode (cont x' (iblock x i)) (dip_off inum) = get_dinode (cont x (iblock x i)) (dip_off inum);
  el_block b : on_disk x b -> used x b = true -> ~ in_bitmap x b -> b <> iblock x i -> (forall k, slot_ok k -> b <> slot x i k) -> cont x' b = cont x b
}.

(** The inode's block is not touched by what happens to the file's blocks. *)
Lemma grew_iblock i x x1 : regular x i -> grew i x x1 ->
  iblock x1 i = iblock x i /\ owned x1 (iblock x i) /\ (forall k, slot_ok k -> iblock x i <> slot x1 i k) /\ cont x1 (iblock x i) = cont x (iblock x i).
Proof.
  intros Hr Hg. pose proof (fl_iblock _ _ Hr) as [O1 O2 (L1 & L2 & L3 & L4) O4]. pose proof (fl_apart _ _ Hr) as Ha.
  assert (cont x1 (iblock x i) = cont x (iblock x i)) as Hc by by apply (gr_other _ _ _ Hg). split_and!; [|constructor| |done].
  - unfold iblock. by rewrite (gr_ip _ _ _ Hg), (gr_sb _ _ _ Hg).
  - unfold on_disk in *. by rewrite (gr_sb _ _ _ Hg).
  - by apply (gr_used _ _ _ Hg).
  - unfold live. by rewrite Hc, (gr_nblk _ _ _ Hg), (gr_held _ _ _ Hg).
  - intros H. apply O4, (bitmap_sb x x1); [apply Hg|done].
  - intros k Hk E. destruct (decide (slot x i k = 0)) as [Es|Es].
    + destruct (gr_new _ _ _ Hg k Hk Es) as [_ Hu]; [by rewrite <- E|]. rewrite <- E in Hu. congruence.
    + apply (Ha k Hk). by rewrite <- (gr_slot _ _ _ Hg).
Qed.

(** The addresses of a file fit the disk's structure. *)
Lemma whole_addrs x i : disk_ok x -> whole x i -> Forall (fun a => 0 <= a < 2 ^ 32) (addrs_of x i).
Proof.
  intros Hdk Hwh. apply Forall_lookup. intros j a Ha. pose proof (lookup_lt_Some _ _ _ Ha) as Hj. rewrite (wh_len _ _ Hwh) in Hj.
  assert (exists k, slot_ok k /\ slot x i k = a) as (k & Hk & <-).
  { destruct (decide (j = 12%nat)) as [->|Hne].
    - exists MAXFILE. split; [unfold slot_ok; rewrite maxfile; lia|]. rewrite slot_ind. unfold indirect. by rewrite Ha.
    - exists (Z.of_nat j). split; [unfold slot_ok; rewrite maxfile; lia|]. rewrite <- blk_slot by (rewrite maxfile; lia). unfold blk.
      rewrite (proj2 (Z.ltb_lt _ _)) by (unfold NDIRECT; lia). by rewrite Nat2Z.id, Ha. }
  destruct (decide (slot x i k = 0)) as [->|Hne]; [lia|]. pose proof (ow_disk _ _ (wh_own _ _ Hwh k Hk Hne)) as H. pose proof (dk_disk _ Hdk). unfold on_disk in H. lia.
Qed.

(** [ip->size = z]. *)
Section Resize.
Context (i z : Z) (x : fsx).
Let y := upd_d i (set_d_size z) x.

Lemma resize_ip : ic y i = set_i_d (set_d_size z (i_d (ic x i))) (ic x i).
Proof. unfold y, upd_d, upd_i. cbn. by rewrite fupd_eq. Qed.

Lemma resize_addrs : addrs_of y i = addrs_of x i.
Proof. unfold addrs_of. by rewrite resize_ip. Qed.

Lemma resize_slot k : slot y i k = slot x i k.
Proof. unfold slot, blk, addr_of, indirect. rewrite resize_addrs. done. Qed.

Lemma resize_whole : whole x i -> whole y i.
Proof.
  intros [W1 W2 W3 W4]. constructor; [by rewrite resize_ip|by rewrite resize_addrs|..].
  - intros k Hk. rewrite resize_slot. intros Hne. destruct (W3 k Hk Hne). by constructor.
  - intros k k' Hk Hk'. rewrite !resize_slot. by apply W4.
Qed.

Lemma resize_disk : disk_ok x -> disk_ok y.
Proof. intros [[B1 B2 B3 B4] D2 D3]. constructor; [by constructor|done|done]. Qed.

Lemma resize_owned b : owned x b -> owned y b.
Proof. intros []. by constructor. Qed.

Lemma resize_iblock : iblock y i = iblock x i.
Proof. unfold iblock. by rewrite resize_ip. Qed.
End Resize.

(** The file after [writei] of [n] bytes at [off]. *)
Record wrote i off (n : Z) (src : list Z) x x' : Prop := {
  wt_regular : regular x' i;
  wt_ip : ic x' i = set_i_d (set_d_size (Z.max (d_size (i_d (ic x i))) (off + n)) (set_d_addrs (addrs_of x' i) (i_d (ic x i)))) (ic x i);
  wt_data pos : 0 <= pos < MAXFILE * BSIZE ->
    data x' i pos = if decide (off <= pos < off + n) then default 0 (src !! Z.to_nat (pos - off)) else data x i pos;
  wt_else : elsewhere i x x'
}.

(** Blocks the file has, it keeps. *)
Lemma grew_blk i k x x' : grew i x x' -> 0 <= k < MAXFILE -> blk x i k <> 0 -> blk x' i k <> 0.
Proof. intros Hg Hk. rewrite !blk_slot by done. intros Hne. rewrite (gr_slot _ _ _ Hg); [done|unfold slot_ok; lia|done]. Qed.

(** Writing inside the file. *)
Lemma kept_wrote i off n src x x1 : regular x i -> 0 <= off -> off + n <= d_size (i_d (ic x i)) -> stored i off n 0 src x x1 -> wrote i off n src x x1.
Proof.
  intros Hr Ho Hn [S1 S2 S3 S4 S5 S6]. assert (ic x1 = ic x) as Hic by (apply S6; intros k H1 H2; apply (fl_blocks _ _ Hr); lia).
  destruct (grew_iblock i x x1 Hr S3) as (G1 & G2 & G3 & G4). pose proof (fl_size _ _ Hr) as Hsz. constructor.
  - constructor; rewrite ?Hic, ?G1, ?G4; try done; try apply Hr.
    intros k H1 H2. apply (grew_blk i k x x1); [done|unfold BSIZE in *; lia|]. by apply (fl_blocks _ _ Hr).
  - rewrite Z.max_l by lia. unfold addrs_of. rewrite Hic. by destruct (ic x i) as [? ? ? ? ? []].
  - intros pos Hp. rewrite S4 by done. by rewrite Z.add_0_l.
  - constructor; [apply S3|apply S3|apply S3|by rewrite G4|]. intros b H1 H2 H3 _ H5. by apply (gr_other _ _ _ S3).
Qed.

(** Writing beyond its end: the new size goes to the disk. *)
Section Beyond.
Context (i off n : Z) (src : list Z) (x x1 : fsx).
Hypothesis Hr : regular x i.
Hypothesis Ho : 0 <= off <= d_size (i_d (ic x i)).
Hypothesis Hn : d_size (i_d (ic x i)) < off + n.
Hypothesis Hmax : off + n <= MAXFILE * BSIZE.
Hypothesis Hst : stored i off n 0 src x x1.
Let y := upd_d i (set_d_size (off + n)) x1.
Let ib := iblock x i.

Lemma beyond_ip : ic y i = set_i_d (set_d_size (off + n) (set_d_addrs (addrs_of x1 i) (i_d (ic x i)))) (ic x i).
Proof using Hst. unfold y. rewrite resize_ip, (gr_ip _ _ _ (st_grew _ _ _ _ _ _ _ Hst)). done. Qed.

Lemma beyond_inode : dinode_ok (i_d (ic y i)).
Proof using Hr Ho Hn Hmax Hst.
  destruct Hst as [S1 S2 _ _ _ _]. pose proof (whole_addrs x1 i S1 S2) as Ha. pose proof (wh_len _ _ S2) as Hl.
  assert (MAXFILE * BSIZE < 2 ^ 32) as Hlim by done. rewrite beyond_ip. destruct (fl_inode _ _ Hr). constructor; try done. cbn. lia.
Qed.

(** The inode's block gets the new contents [v]. *)
Context (v : block) (x' : fsx).
Hypothesis Hch : changed ib v y x'.
Hypothesis Hg : get_dinode v (dip_off (i_inum (ic x i))) = Ok (i_d (ic y i)).
Hypothesis Hk : keeps_out (dip_off (i_inum (ic x i))) (dip_off (i_inum (ic x i)) + sizeof_dinode) (cont y ib) v.

Lemma beyond_iblock : owned y ib /\ ib <> indirect y i /\ Z.of_nat (length v) = BSIZE /\ iblock x' i = ib /\ (forall k, slot x' i k = slot x1 i k) /\
  (forall k, slot_ok k -> ib <> slot x1 i k) /\ cont x1 ib = cont x ib.
Proof using Hr Hst Hch Hk.
  destruct (grew_iblock i x x1 Hr (st_grew _ _ _ _ _ _ _ Hst)) as (G1 & G2 & G3 & G4). fold ib in G1, G2, G3, G4.
  pose proof (resize_owned i (off + n) x1 ib G2) as Hoy. fold y in Hoy. destruct (ow_live _ _ Hoy) as (_ & _ & _ & L4).
  assert (ib <> indirect y i) as Hni by (rewrite <- slot_ind; unfold y; rewrite resize_slot; apply G3; unfold slot_ok; rewrite maxfile; lia).
  split; [done|]. split; [done|]. split; [by rewrite (proj1 Hk)|]. split; [|split; [|done]].
  - unfold iblock. rewrite (fr_ic _ _ (ch_frame _ _ _ _ Hch)), (fr_sb _ _ (ch_frame _ _ _ _ Hch)). rewrite <- G1. unfold y. apply resize_iblock.
  - intros k. rewrite (over_slot i ib v y x') by done. unfold y. apply resize_slot.
Qed.

Lemma beyond_regular : regular x' i.
Proof using Hr Ho Hn Hmax Hst Hch Hg Hk.
  destruct beyond_iblock as (Hoy & Hni & Hvl & Eib & Hs & G3 & G4). pose proof (fr_ic _ _ (ch_frame _ _ _ _ Hch)) as Hic. pose proof beyond_ip as Hy.
  destruct Hst as [S1 S2 S3 S4 S5 S6]. constructor; rewrite ?Eib.
  - apply (over_disk ib v y x'); [done|done|by apply resize_disk].
  - apply (over_whole i ib v y x'); try done. by apply resize_whole.
  - rewrite Hic, Hy. apply Hr.
  - rewrite Hic. apply beyond_inode.
  - rewrite Hic, Hy. cbn. lia.
  - rewrite Hic, Hy. cbn. intros k H1 H2. assert (0 <= k < MAXFILE) as Hk' by (unfold BSIZE in *; lia). rewrite blk_slot, Hs, <- blk_slot by done.
    destruct (decide (k * BSIZE < d_size (i_d (ic x i)))) as [Hlt|Hge]; [apply (grew_blk i k x x1); [done|done|by apply (fl_blocks _ _ Hr)]|].
    apply S5; [lia| |lia]. apply Z.lt_succ_r, Z.div_lt_upper_bound; [done|]. unfold BSIZE in *. lia.
  - by apply (over_owned ib v y x').
  - intros k Hk'. rewrite Hs. by apply G3.
  - assert (i_inum (ic y i) = i_inum (ic x i)) as Ei by by rewrite Hy. by rewrite (ch_new _ _ _ _ Hch), Hic, Ei.
Qed.

Lemma beyond_wrote : wrote i off n src x x'.
Proof using Hr Ho Hn Hmax Hst Hch Hg Hk.
  destruct beyond_iblock as (Hoy & Hni & Hvl & Eib & Hs & G3 & G4). pose proof (fr_ic _ _ (ch_frame _ _ _ _ Hch)) as Hic. pose proof beyond_ip as Hy.
  pose proof beyond_regular as Hreg. destruct Hst as [S1 S2 S3 S4 S5 S6]. constructor; [done|..].
  - rewrite Z.max_r by lia. unfold addrs_of. rewrite Hic, Hy. done.
  - intros pos Hp. assert (0 <= pos / BSIZE < MAXFILE) as Hq.
    { split; [apply Z.div_pos; [lia|done]|apply Z.div_lt_upper_bound; [done|lia]]. }
    assert (blk y i (pos / BSIZE) = blk x1 i (pos / BSIZE)) as Eb by (rewrite !blk_slot by done; apply resize_slot).
    rewrite (over_data i ib v y x'), decide_False by (done || (rewrite Eb, blk_slot by done; intros Es; apply (G3 (pos / BSIZE)); [unfold slot_ok; lia|done])).
    assert (data y i pos = data x1 i pos) as -> by (unfold data; by rewrite Eb). rewrite S4 by done. by rewrite Z.add_0_l.
  - constructor; [rewrite (fr_sb _ _ (ch_frame _ _ _ _ Hch)); apply S3|rewrite (fr_iclk _ _ (ch_frame _ _ _ _ Hch)); apply S3|..].
    + intros j Hj. rewrite Hic. unfold y, upd_d, upd_i. cbn. rewrite fupd_ne by done. by apply (gr_ic _ _ _ S3).
    + intros inum Hne. fold ib. rewrite (ch_new _ _ _ _ Hch), <- G4. apply (get_dinode_keeps _ _ _ _ _ Hk). by apply dip_off_disjoint.
    + intros b H1 H2 H3 H4 H5. rewrite (ch_old _ _ _ _ Hch) by done. by apply (gr_other _ _ _ S3).
Qed.
End Beyond.

Lemma grown_wrote c p i off n src s x x1 q :
  regular x i -> 0 <= off <= d_size (i_d (ic x i)) -> d_size (i_d (ic x i)) < off + n -> off + n <= MAXFILE * BSIZE ->
  stored i off n 0 src x x1 -> in_tx c p s x1 (S q) ->
  exists s' x', iupdate i s (upd_d i (set_d_size (off + n)) x1) = Ok (s', x') /\ in_tx c p s' x' q /\ wrote i off n src x x'.
Proof.
  intros Hr Ho Hn Hmax Hst Htx. pose proof (beyond_ip i off n src x x1 Hst) as Hy. set (y := upd_d _ _ x1) in *.
  destruct (grew_iblock i x x1 Hr (st_grew _ _ _ _ _ _ _ Hst)) as (G1 & G2 & _ & _). pose proof (resize_owned i (off + n) x1 _ G2) as Hoy. fold y in Hoy.
  destruct (ow_live _ _ Hoy) as (L1 & L2 & L3 & L4).
  assert (IBLOCK (i_inum (ic y i)) (f_sb y) = iblock x i) as Eib by (rewrite <- G1; apply resize_iblock).
  assert (i_inum (ic y i) = i_inum (ic x i)) as Einum by by rewrite Hy.
  destruct (iupdate_ok c p i s y q) as (m' & x' & v & E & Htx' & Hch & Hg & Hk); rewrite ?Eib, ?Einum in *; [done| |done|by eapply beyond_inode|].
  { split; [|done]. rewrite Hy. apply (fl_whole _ _ Hr). }
  exists (set_mach m' s), x'. split; [done|]. split; [done|]. by eapply beyond_wrote.
Qed.

(** Bytes of blocks that are there are those of FsFacts.v. *)
Lemma data_fbyte x i pos : whole x i -> 0 <= pos < MAXFILE * BSIZE -> blk x i (pos / BSIZE) <> 0 -> fbyte x i pos = data x i pos.
Proof.
  intros Hwh Hp Hne. assert (0 <= pos / BSIZE < MAXFILE) as Hq.
  { split; [apply Z.div_pos; [lia|done]|apply Z.div_lt_upper_bound; [done|lia]]. }
  destruct (whole_mapped x i _ Hwh Hq Hne) as [_ Ea]. unfold fbyte, data. by rewrite Ea, (proj2 (Z.eqb_neq _ _) Hne).
Qed.

Lemma regular_same x x' i : same x x' -> regular x i -> regular x' i.
Proof.
  intros Hs [R1 R2 R3 R4 R5 R6 R7 R8 R9]. destruct (same_extends i x x' Hs R1 R2) as [E1 E2 _ _]. pose proof Hs as [[Hsb Hic _ _ _] _ Hc].
  assert (iblock x' i = iblock x i) as Ei by (unfold iblock; by rewrite Hic, Hsb).
  constructor; rewrite ?Ei, ?Hic, ?Hc; try done.
  - intros k H1 H2. specialize (R6 k H1 H2). assert (0 <= k < MAXFILE) by (unfold BSIZE in *; lia). rewrite blk_slot in * by done. by rewrite (slot_same i x).
  - destruct R7 as [O1 O2 O3 O4]. constructor; [unfold on_disk in *; by rewrite Hsb|by rewrite (used_same x)|by eapply live_same|]. intros H. by apply O4, (bitmap_sb x x').
  - intros k Hk. rewrite (slot_same i x) by done. by apply R8.
Qed.

Lemma regular_mapped x i pos : regular x i -> 0 <= pos < d_size (i_d (ic x i)) -> mapped x i (pos / BSIZE) /\ fbyte x i pos = data x i pos.
Proof.
  intros Hr Hp. pose proof (fl_size _ _ Hr) as Hsz. assert (blk x i (pos / BSIZE) <> 0) as Hb.
  { apply (fl_blocks _ _ Hr); [apply Z.div_pos; [lia|done]|]. pose proof (Z.mul_div_le pos BSIZE ltac:(done)). lia. }
  split; [|apply data_fbyte; [apply Hr|lia|done]]. apply whole_mapped; [apply Hr| |done].
  split; [apply Z.div_pos; [lia|done]|apply Z.div_lt_upper_bound; [done|lia]].
Qed.

Lemma regular_fbyte x i pos : regular x i -> 0 <= pos < d_size (i_d (ic x i)) -> fbyte x i pos = data x i pos.
Proof. apply regular_mapped. Qed.

Lemma writei_wrote c p dw i src off n s x q :
  regular x i -> 0 <= off <= d_size (i_d (ic x i)) -> n = Z.of_nat (length src) -> off + n <= MAXFILE * BSIZE ->
  (blocks_touched off n + no_ind x i <= nfree x)%nat -> in_tx c p s x (4 * blocks_touched off n + (2 * no_ind x i + S q)) ->
  exists s' x', writei dw i src off n s x = Ok (n, s', x') /\ in_tx c p s' x' q /\ wrote i off n src x x'.
Proof.
  intros Hr Ho Hn Hmax Hfree Htx. assert (MAXFILE * BSIZE < 2 ^ 31) as Hlim by done. unfold writei. rewrite (proj2 (Z.eqb_neq _ _) (fl_type _ _ Hr)), (proj2 (Z.ltb_ge _ off)), u32_small by lia.
  rewrite (proj2 (Z.ltb_ge (off + n) off)), (proj2 (Z.ltb_ge (MAXFILE * BSIZE) _)) by lia. cbn [orb].
  destruct (loop_grows c p i n src (S q) (S (Z.to_nat n)) off 0 s x) as (s1 & x1 & -> & Htx1 & Hst); rewrite ?Z.sub_0_r; try done; try lia; try apply Hr.
  rewrite Z.sub_0_r in *. cbn [res_bind]. rewrite (gr_ip _ _ _ (st_grew _ _ _ _ _ _ _ Hst)). cbn [i_d d_size set_i_d set_d_addrs].
  destruct ((0 <? n) && (d_size (i_d (ic x i)) <? off + n)) eqn:E.
  - apply andb_true_iff in E as [_ E]. apply Z.ltb_lt in E. destruct (grown_wrote c p i off n src s1 x x1 q) as (s' & x' & -> & Htx2 & Hw); try done.
    exists s', x'. cbn [res_bind]. by rewrite s32_small by lia.
  - exists s1, x1. cbn [res_bind]. rewrite s32_small by lia. split; [done|]. split; [eapply in_tx_le; [|done]; lia|]. apply kept_wrote; try done; [lia|].
    apply andb_false_iff in E as [E|E]; apply Z.ltb_ge in E; lia.
Qed.

(** C8: [writei] at any offset up to the end of a file stores exactly the bytes it
    is given.  The file gets the blocks it needs, which were free; its size is
    the larger of the old one and the end of the write, in the cache and on the
    disk; its other bytes, the other inodes and all blocks in use by others
    stay; and [readi] returns the bytes written. *)
Theorem writei_grows c p dw dr i src off n s x q :
  regular x i -> 0 <= off <= d_size (i_d (ic x i)) -> n = Z.of_nat (length src) -> off + n <= MAXFILE * BSIZE ->
  (blocks_touched off n + no_ind x i <= nfree x)%nat -> in_tx c p s x (4 * blocks_touched off n + (2 * no_ind x i + S q)) ->
  exists s' x' x'', writei dw i src off n s x = Ok (n, s', x') /\ in_tx c p s' x' q /\ wrote i off n src x x' /\
    readi dr i off n s' x' = Ok (n, src, s', x'') /\ same x' x''.
Proof.
  intros Hr Ho Hn Hmax Hfree Htx. assert (MAXFILE * BSIZE < 2 ^ 31) as Hlim by done.
  destruct (writei_wrote c p dw i src off n s x q Hr Ho Hn Hmax Hfree Htx) as (s' & x' & Ew & Htx' & Hw).
  exists s', x'. pose proof (wt_ip _ _ _ _ _ _ Hw) as Hip. pose proof (wt_regular _ _ _ _ _ _ Hw) as Hr'.
  assert (d_size (i_d (ic x' i)) = Z.max (d_size (i_d (ic x i))) (off + n)) as Esz by (by rewrite Hip). pose proof (fl_size _ _ Hr') as Hsz'.
  assert (forall pos, 0 <= pos < d_size (i_d (ic x' i)) -> blk x' i (pos / BSIZE) <> 0) as Hblk.
  { intros pos Hpos. apply (fl_blocks _ _ Hr'); [apply Z.div_pos; [lia|done]|]. pose proof (Z.mul_div_le pos BSIZE ltac:(done)). lia. }
  pose proof (readi_ok dr i off n s' x' (fl_type _ _ Hr') ltac:(lia) ltac:(lia) ltac:(lia)) as Hread. rewrite decide_True in Hread by lia.
  destruct Hread as (x'' & Er & Hs); [intros pos Hpos; apply whole_mapped; [apply Hr'| |by apply Hblk]; split; [apply Z.div_pos; [lia|done]|apply Z.div_lt_upper_bound; [done|lia]]|].
  exists x''. split; [done|]. split; [done|]. split; [done|]. split; [|done]. rewrite Er. replace (Z.min n _) with n by lia. do 4 f_equal.
  apply list_eq. intros j. rewrite list_lookup_fmap. destruct (decide (j < length src)%nat) as [Hj|Hj].
  - rewrite lookup_seqZ_lt by lia. cbn. rewrite data_fbyte, (wt_data _ _ _ _ _ _ Hw), decide_True by (lia || (apply Hblk; lia) || apply (fl_whole _ _ Hr')).
    replace (Z.to_nat _) with j by lia. by destruct (lookup_lt_is_Some_2 src j Hj) as [a ->].
  - rewrite lookup_seqZ_ge, lookup_ge_None_2 by lia. done.
Qed.
End Grow.

(** The disk of FsFacts.v with the file's inode in its place. *)
Section GrowExample.
Import Fs.

(** The same blocks as a directory of 37 entries, all in use. *)
Definition demo_ddir : dinode := mkDinode T_DIR 0 0 1 592 ([59; 60] ++ repeat 0 11).

Definition demo_blk_of (d : dinode) (b : Z) : block :=
  if b =? 32 then match put_dinode d (repeat 0 512) (dip_off 5) with Ok v => v | _ => [] end else demo_fsblk b.
Definition demo_fs_of (d : dinode) : fsx :=
  mkFs (mkLst (demo_log 0 (repeat 0 30)) (Dev.boot (demo_blk_of d) 1000)) demo_sb demo_lock (fun i => if i =? 0 then set_i_d d demo_inode else demo_free).
Definition demo_growfs : fsx := demo_fs_of demo_dinode.

Section Either.
Context (d : dinode).
Hypothesis Hdd : d = demo_dinode \/ d = demo_ddir.

Lemma demo_of_length b : length (demo_blk_of d b) = 512%nat.
Proof using Hdd. unfold demo_blk_of. destruct (b =? 32); [by destruct Hdd as [-> | ->]; vm_compute|apply demo_blk_length]. Qed.

Lemma demo_of_inode : dinode_ok d.
Proof using Hdd. destruct Hdd as [-> | ->]; [apply demo_dinode_ok|]. destruct demo_dinode_ok. constructor; try done; cbn; lia. Qed.

Lemma demo_of_used b : 0 <= b < 70 -> used (demo_fs_of d) b = (b <? 61).
Proof using Hdd.
  intros Hb. assert (In b (seqZ 0 70)) as Hin by (apply list_elem_of_In, elem_of_seqZ; lia).
  assert (forallb (fun b => eqb (used (demo_fs_of d) b) (b <? 61)) (seqZ 0 70) = true) as H by (destruct Hdd as [-> | ->]; vm_compute; reflexivity).
  rewrite forallb_forall in H. by apply eqb_prop, H.
Qed.

Lemma demo_of_disk : disk_ok (demo_fs_of d).
Proof using Hdd.
  constructor; [|by rewrite demo_of_used by lia|by vm_compute].
  constructor; change (f_sb (demo_fs_of d)) with demo_sb; change (sb_size demo_sb) with 70.
  - by vm_compute.
  - intros b Hb. rewrite demo_BBLOCK by done. split; [done|]. split; [done|]. apply not_elem_of_nil.
  - intros b Hb. rewrite demo_BBLOCK by done. done.
  - intros b Hb Hu. rewrite demo_of_used in Hu by done. apply Z.ltb_ge in Hu. split.
    + split; [done|]. split; [cbn; lia|apply not_elem_of_nil].
    + intros b' Hb'. rewrite demo_BBLOCK by done. lia.
Qed.

Lemma demo_of_owned b : 0 < b < 61 -> b <> 58 -> owned (demo_fs_of d) b.
Proof using Hdd.
  intros Hb Hne. assert (on_disk (demo_fs_of d) b) as Hd by (unfold on_disk; change (sb_size (f_sb (demo_fs_of d))) with 70; lia). constructor; [done|..].
  - rewrite demo_of_used by lia. apply Z.ltb_lt. lia.
  - split; [lia|]. split; [cbn; lia|]. split; [apply not_elem_of_nil|]. unfold cont, Dev.contents. cbn -[demo_blk_of]. by rewrite demo_of_length.
  - intros (b' & Hb' & ->). apply Hne. by apply demo_BBLOCK.
Qed.

Lemma demo_of_slot k : slot_ok k -> slot (demo_fs_of d) 0 k = if k =? 0 then 59 else if k =? 1 then 60 else 0.
Proof using Hdd.
  intros Hk. unfold slot_ok in Hk. rewrite maxfile in Hk. assert (In k (seqZ 0 141)) as Hin by (apply list_elem_of_In, elem_of_seqZ; lia).
  assert (forallb (fun k => slot (demo_fs_of d) 0 k =? if k =? 0 then 59 else if k =? 1 then 60 else 0) (seqZ 0 141) = true) as H by (destruct Hdd as [-> | ->]; vm_compute; reflexivity).
  rewrite forallb_forall in H. by apply Z.eqb_eq, H.
Qed.

Lemma demo_of_regular : regular (demo_fs_of d) 0.
Proof using Hdd.
  assert (iblock (demo_fs_of d) 0 = 32) as Ei by done.
  assert (d_type d <> T_DEV /\ d_size d <= 600 /\ length (d_addrs d) = 13%nat) as (E1 & E2 & E3) by (by destruct Hdd as [-> | ->]).
  constructor; rewrite ?Ei; [apply demo_of_disk| |exact E1|apply demo_of_inode|change (d_size d <= 71680); lia| |apply demo_of_owned; lia| |by destruct Hdd as [-> | ->]; vm_compute].
  - constructor; [done|exact E3|..].
    + intros k Hk. rewrite demo_of_slot by done. intros Hne. destruct (k =? 0); [apply demo_of_owned; lia|]. destruct (k =? 1); [apply demo_of_owned; lia|done].
    + intros k k' Hk Hk'. rewrite !demo_of_slot by done. destruct (Z.eqb_spec k 0), (Z.eqb_spec k' 0), (Z.eqb_spec k 1), (Z.eqb_spec k' 1); lia.
  - intros k Hk Hs. change (d_size _) with (d_size d) in Hs. unfold BSIZE in Hs. rewrite blk_slot, demo_of_slot by (unfold slot_ok; rewrite ?maxfile; lia).
    assert (k = 0 \/ k = 1) as [-> | ->] by lia; done.
  - intros k Hk. rewrite demo_of_slot by done. destruct (k =? 0); [lia|]. destruct (k =? 1); lia.
Qed.

Lemma demo_of_tx k : (k <= 29)%nat -> in_tx 0 0 (demo_in 0) (demo_fs_of d) k.
Proof. intros Hk. destruct (demo_in_tx k Hk) as (bs & H). by exists bs. Qed.
End Either.

Lemma demo_grow_regular : regular demo_growfs 0.
Proof. apply demo_of_regular. by left. Qed.

Lemma demo_grow_tx k : (k <= 29)%nat -> in_tx 0 0 (demo_in 0) demo_growfs k.
Proof. apply demo_of_tx. Qed.

Lemma writei_grows_witness : exists s' x' x'',
  writei (fun _ => None) 0 (repeat 7 1000) 600 1000 (demo_in 0) demo_growfs = Ok (1000, s', x') /\ d_size (i_d (ic x' 0)) = 1600 /\
  readi (fun _ => None) 0 600 1000 s' x' = Ok (1000, repeat 7 1000, s', x'').
Proof.
  destruct (writei_grows 0 0 (fun _ => None) (fun _ => None) 0 (repeat 7 1000) 600 1000 (demo_in 0) demo_growfs 0 demo_grow_regular)
    as (s' & x' & x'' & E & _ & Hw & Er & _).
  - change (d_size _) with 600. lia.
  - by rewrite repeat_length.
  - by vm_compute.
  - apply Nat.leb_le. vm_compute. reflexivity.
  - apply demo_grow_tx. apply Nat.leb_le. vm_compute. reflexivity.
  - exists s', x', x''. split; [done|]. split; [|done]. rewrite (wt_ip _ _ _ _ _ _ Hw). reflexivity.
Defined.
End GrowExample.
