(* ===== verification/InodeFacts.v ===== *)
(** Locking and unlocking an inode of the cache, for the callers of [ilock] and
    [iunlock]: nothing but the lock of that inode changes. *)

From S2P Require Import Prelude CString Spinlock Kalloc Proc Demo MlfqFacts ProcFacts Sleep Block Log Fs.

(** [y'] is [y] but for the lock of inode [i]. *)
Record lock_only (i : Z) (y y' : fsx) : Prop := {
  lo_log : f_log y' = f_log y;
  lo_sb : f_sb y' = f_sb y;
  lo_ic : ic_lock y' = ic_lock y;
  lo_other j : j <> i -> ic y' j = ic y j;
  lo_this k : set_i_lock k (ic y' i) = set_i_lock k (ic y i)
}.

#[export] Instance lock_only_pre i : PreOrder (lock_only i).
Proof.
  split.
  - intros y. by split.
  - intros y1 y2 y3 [A1 A2 A3 A4 A5] [B1 B2 B3 B4 B5]. split; [congruence..| |].
    + intros j Hj. by rewrite B4, A4.
    + intros k. by rewrite B5, A5.
Qed.

Lemma lock_only_put i k y : lock_only i y (upd_i i (set_i_lock k) y).
Proof.
  split; try done.
  - intros j Hj. unfold upd_i. cbn. by rewrite fupd_ne.
  - intros k'. unfold upd_i. cbn. by rewrite fupd_eq.
Qed.

Lemma lock_only_fields i y y' : lock_only i y y' ->
  i_ref (ic y' i) = i_ref (ic y i) /\ i_valid (ic y' i) = i_valid (ic y i) /\ i_d (ic y' i) = i_d (ic y i).
Proof. intros H. pose proof (lo_this _ _ _ H (i_lock (ic y i))) as E. by injection E. Qed.

Section InodeLocks.
Import Ptable.
Context `{SV : Services} (resume : kst -> fsx -> kst * fsx) (rounds : nat) (lock_at : Z -> Z).
Implicit Types (s : kst) (y : fsx) (c p : nat).

(** The process [pr] has inode [i] locked. *)
Definition inode_mine (pr : proc) i y : Prop :=
  1 <= i_ref (ic y i) /\ locked (sl_lk (i_lock (ic y i))) = 0 /\ sl_locked (i_lock (ic y i)) <> 0 /\
  sl_pid (i_lock (ic y i)) = pid pr.

(** No one has it locked, and it was read from the disk. *)
Definition inode_free i y : Prop :=
  1 <= i_ref (ic y i) /\ locked (sl_lk (i_lock (ic y i))) = 0 /\ sl_locked (i_lock (ic y i)) = 0.

Lemma iunlock_ok c p s y i pr :
  outside c p s -> locked (pt_lock s) = 0 -> pt_proc s !! p = Some pr -> inode_mine pr i y ->
  exists s' y', Fs.iunlock lock_at (Some i) s y = Ok (s', y') /\ lock_only i y y' /\ inode_free i y' /\
    outside c p s' /\ locked (pt_lock s') = 0 /\ pt_proc s' = map (wake (ChAddr (lock_at i))) (pt_proc s).
Proof.
  intros Hout Hpt Hp (Hr & Hlk & Hl & Hpid). unfold Fs.iunlock, Fs.holdingsleep, Fs.releasesleep.
  destruct (holdingsleep_mine (SX := inode_sl i) (lock_only i) (lock_only_put i) c p s y pr Hout Hlk Hl Hp Hpid)
    as (m & y1 & -> & R1 & _ & _ & Hlk1 & Hout1). cbn [res_bind negb orb].
  destruct (lock_only_fields _ _ _ R1) as (E1 & _). rewrite (proj2 (Z.ltb_ge _ _)) by lia.
  destruct (releasesleep_ok (SX := inode_sl i) (lock_at i) (lock_only i) (lock_only_put i) c p (set_mach m s) y1 Hout1 Hlk1 Hpt)
    as (s2 & y2 & -> & R2 & Hl2 & Hlk2 & Hout2 & Hpt2 & Hp2).
  exists s2, y2. split; [done|]. split; [by etrans|]. split; [|done].
  destruct (lock_only_fields _ _ _ R2) as (E2 & _). split; [lia|done].
Qed.

Lemma ilock_ok c p s y i pr :
  outside c p s -> pt_proc s !! p = Some pr -> inode_free i y -> i_valid (ic y i) <> 0 -> (0 < rounds)%nat ->
  exists m y', Fs.ilock resume rounds lock_at (Some i) s y = Ok (set_mach m s, y') /\ lock_only i y y' /\
    inode_mine pr i y' /\ outside c p (set_mach m s).
Proof.
  intros Hout Hp (Hr & Hlk & Hl) Hv Hf. unfold Fs.ilock, Fs.acquiresleep. rewrite (proj2 (Z.ltb_ge _ _)) by lia.
  destruct (acquiresleep_free (SX := inode_sl i) resume (lock_at i) (lock_only i) (lock_only_put i) c p rounds s y pr Hout Hlk Hl Hp Hf)
    as (m & y1 & -> & R1 & Hl1 & Hpid1 & Hlk1 & Hout1). cbn [res_bind].
  destruct (lock_only_fields _ _ _ R1) as (E1 & E2 & _). rewrite (proj2 (Z.eqb_neq _ _)) by congruence.
  exists m, y1. split; [done|]. split; [done|]. split; [|done]. split; [lia|]. split; [done|]. split; [|done].
  cbn in Hl1. lia.
Qed.
End InodeLocks.
