(* ===== verification/DirFacts.v ===== *)
(** Directories of [fs.c]: [dirlookup], [dirlink] and [namecmp] against a
    directory seen as its list of entries.  [dirlink] fills a free entry or makes
    the directory longer, with Grow.v. *)

From S2P Require Import Prelude CString Spinlock Kalloc Proc Demo MlfqFacts ProcFacts Sleep Block Log LogFacts Fs FsFacts Grow.

(** * Names in fixed buffers *)

Section Names.
Implicit Types (a b : list Z).

Lemma zget_head w (c : Z) l : zget w (c :: l) 0 = Ok c.
Proof. done. Qed.

Lemma strncmp_buf_ok n a b :
  length a = n -> length b = n -> exists r, strncmp_buf n a b = Ok r /\ (r = 0 <-> buf_str a = buf_str b).
Proof.
  revert a b. induction n as [|n IH]; intros a b Ha Hb; [by destruct a, b; exists 0|].
  destruct a as [|x a], b as [|y b]; try done. injection Ha as Ha. injection Hb as Hb.
  cbn [strncmp_buf buf_str]. rewrite !zget_head. cbn [res_bind]. change (drop 1 (x :: a)) with a. change (drop 1 (y :: b)) with b.
  destruct (Z.eqb_spec x 0) as [->|Hx]; cbn [negb andb].
  - exists (0 - y). split; [done|]. destruct (Z.eqb_spec y 0) as [->|Hy]; [done|]. split; [lia|done].
  - destruct (Z.eqb_spec x y) as [->|Hxy].
    + destruct (IH a b Ha Hb) as (r & -> & Hr). exists r. split; [done|]. rewrite Hr.
      rewrite (proj2 (Z.eqb_neq _ _) Hx). split; [by intros ->|by intros [= ->]].
    + exists (x - y). split; [done|]. destruct (Z.eqb_spec y 0) as [->|Hy]; (split; [lia|congruence]).
Qed.

Lemma strncpy_buf_ok n a :
  length a = n -> exists r, strncpy_buf n a = Ok r /\ length r = n /\ buf_str r = buf_str a.
Proof.
  revert a. induction n as [|n IH]; intros a Ha; [by destruct a; exists []|].
  destruct a as [|x a]; [done|]. injection Ha as Ha.
  cbn [strncpy_buf buf_str]. rewrite zget_head. cbn [res_bind]. change (drop 1 (x :: a)) with a.
  destruct (Z.eqb_spec x 0) as [->|Hx].
  - eexists. split; [done|]. split; [cbn; by rewrite repeat_length|done].
  - destruct (IH a Ha) as (r & -> & Hl & Hs). eexists. split; [done|]. cbn [length buf_str].
    by rewrite Hl, Hs, (proj2 (Z.eqb_neq _ _) Hx).
Qed.

End Names.

(** * The entries of a directory *)

Section Dirs.
Import Fs.
Context `{SV : Services}.
Implicit Types (s : kst) (x : fsx) (c p : nat) (dp k : Z) (name : list Z).

(** Entry [k]: its bytes, its inode number and its name. *)
Definition dent x dp k : list Z := map (fbyte x dp) (seqZ (sizeof_dirent * k) sizeof_dirent).
Definition dent_inum x dp k : Z := dec (take 2 (dent x dp k)).
Definition dent_name x dp k : list Z := buf_str (drop 2 (dent x dp k)).

(** A directory of [n] entries, all of its blocks allocated. *)
Record dir_ok x dp (n : Z) : Prop := {
  dk_type : d_type (i_d (ic x dp)) = T_DIR;
  dk_size : d_size (i_d (ic x dp)) = sizeof_dirent * n;
  dk_range : 0 <= n /\ sizeof_dirent * n < 2 ^ 31;
  dk_map pos : 0 <= pos < sizeof_dirent * n -> mapped x dp (pos / BSIZE)
}.

(** The first entry in use with the name [nm], from entry [k] on. *)
Fixpoint dir_find (n : nat) k (nm : list Z) x dp : option (Z * Z) :=
  match n with
  | O => None
  | S n' =>
      if negb (dent_inum x dp k =? 0) && bool_decide (nm = dent_name x dp k)
      then Some (k, dent_inum x dp k) else dir_find n' (k + 1) nm x dp
  end.

(** The first entry that is not in use, or the end. *)
Fixpoint dir_free (n : nat) k x dp : Z :=
  match n with
  | O => k
  | S n' => if dent_inum x dp k =? 0 then k else dir_free n' (k + 1) x dp
  end.

Lemma dent_same x x' dp k : same x x' -> dent x' dp k = dent x dp k.
Proof. intros Hs. unfold dent. apply map_ext. intros pos. by apply fbyte_same. Qed.

Lemma dir_ok_same x x' dp n : same x x' -> dir_ok x dp n -> dir_ok x' dp n.
Proof.
  intros Hs [H1 H2 H3 H4]. pose proof Hs as [[_ Hic _ _ _] _ _]. split; rewrite ?Hic; try done.
  intros pos Hpos. by apply (mapped_same x), H4.
Qed.

Lemma dir_find_same x x' dp nm n : same x x' -> forall k, dir_find n k nm x' dp = dir_find n k nm x dp.
Proof.
  intros Hs. induction n as [|n IH]; intros k; cbn [dir_find]; [done|].
  unfold dent_inum, dent_name. by rewrite (dent_same _ _ _ _ Hs), IH.
Qed.

Lemma dir_free_same x x' dp n : same x x' -> forall k, dir_free n k x' dp = dir_free n k x dp.
Proof.
  intros Hs. induction n as [|n IH]; intros k; cbn [dir_free]; [done|].
  unfold dent_inum. by rewrite (dent_same _ _ _ _ Hs), IH.
Qed.

Lemma dent_length x dp k : length (dent x dp k) = 16%nat.
Proof. unfold dent. by rewrite length_map, length_seqZ. Qed.

(** [readi] of one entry. *)
Lemma read_dent dr x dp n k s :
  dir_ok x dp n -> 0 <= k < n ->
  exists x', readi dr dp (sizeof_dirent * k) sizeof_dirent s x = Ok (sizeof_dirent, dent x dp k, s, x') /\
    same x x' /\ get16 "de" (dent x dp k) 0 = Ok (dent_inum x dp k).
Proof.
  intros [H1 H2 H3 H4] Hk. unfold sizeof_dirent in *.
  pose proof (readi_ok dr dp (16 * k) 16 s x) as H. rewrite H1, H2 in H. cbv zeta in H.
  rewrite decide_True in H by lia. destruct H as (x' & E & Hs); [done|lia|lia|lia|done|].
  replace (Z.min 16 (16 * n - 16 * k)) with 16 in E by lia.
  exists x'. split; [exact E|]. split; [done|]. unfold get16.
  rewrite get_bytes_in by (try rewrite dent_length; lia). done.
Qed.

Lemma dirlookup_loop_ok dr dp name n fuel : length name = DIRSIZ -> forall k s x,
  dir_ok x dp n -> 0 <= k <= n -> (Z.to_nat (n - k) < fuel)%nat ->
  exists x', dirlookup_loop dr fuel (sizeof_dirent * k) dp name s x =
      Ok (option_map (fun e => (sizeof_dirent * e.1, e.2)) (dir_find (Z.to_nat (n - k)) k (buf_str name) x dp), s, x') /\
    same x x'.
Proof.
  intros Hl. induction fuel as [|f IH]; intros k s x Hd Hk Hf; [lia|]. cbn [dirlookup_loop].
  rewrite (dk_size _ _ _ Hd). destruct (Z.ltb_spec (sizeof_dirent * k) (sizeof_dirent * n)) as [Hlt|Hge].
  2: { replace (Z.to_nat (n - k)) with 0%nat by (unfold sizeof_dirent in Hge; lia). by exists x. }
  assert (k < n) as Hkn by (unfold sizeof_dirent in Hlt; lia).
  destruct (read_dent dr x dp n k s Hd) as (x1 & -> & Hs1 & Hg); [lia|]. cbn [res_bind].
  rewrite Z.eqb_refl. cbn [negb]. rewrite Hg. cbn [res_bind].
  replace (sizeof_dirent * k + sizeof_dirent) with (sizeof_dirent * (k + 1)) by (unfold sizeof_dirent; lia).
  destruct (IH (k + 1) s x1) as (x2 & Er & Hs2); [by apply (dir_ok_same x)|lia|lia|].
  rewrite (dir_find_same _ _ _ _ _ Hs1) in Er.
  replace (Z.to_nat (n - k)) with (S (Z.to_nat (n - (k + 1)))) by lia. cbn [dir_find].
  destruct (Z.eqb_spec (dent_inum x dp k) 0) as [E0|E0]; cbn [negb andb].
  { exists x2. split; [exact Er|by etrans]. }
  unfold namecmp. destruct (strncmp_buf_ok DIRSIZ name (drop 2 (dent x dp k)) Hl) as (r & -> & Hr).
  { by rewrite length_drop, dent_length. }
  cbn [res_bind]. change (buf_str (drop 2 (dent x dp k))) with (dent_name x dp k) in Hr.
  destruct (Z.eqb_spec r 0) as [Er0|Er0].
  - rewrite bool_decide_true by by apply Hr. by exists x1.
  - rewrite bool_decide_false by (rewrite <- Hr; done). exists x2. split; [exact Er|by etrans].
Qed.

Lemma find_empty_ok dr dp n fuel : forall k s x,
  dir_ok x dp n -> 0 <= k <= n -> (Z.to_nat (n - k) < fuel)%nat ->
  exists x', find_empty dr fuel (sizeof_dirent * k) dp s x =
      Ok (sizeof_dirent * dir_free (Z.to_nat (n - k)) k x dp, s, x') /\ same x x'.
Proof.
  induction fuel as [|f IH]; intros k s x Hd Hk Hf; [lia|]. cbn [find_empty].
  rewrite (dk_size _ _ _ Hd). destruct (Z.ltb_spec (sizeof_dirent * k) (sizeof_dirent * n)) as [Hlt|Hge].
  2: { replace (Z.to_nat (n - k)) with 0%nat by (unfold sizeof_dirent in Hge; lia). by exists x. }
  assert (k < n) as Hkn by (unfold sizeof_dirent in Hlt; lia).
  destruct (read_dent dr x dp n k s Hd) as (x1 & -> & Hs1 & Hg); [lia|]. cbn [res_bind].
  rewrite Z.eqb_refl. cbn [negb]. rewrite Hg. cbn [res_bind].
  replace (sizeof_dirent * k + sizeof_dirent) with (sizeof_dirent * (k + 1)) by (unfold sizeof_dirent; lia).
  replace (Z.to_nat (n - k)) with (S (Z.to_nat (n - (k + 1)))) by lia. cbn [dir_free].
  destruct (Z.eqb_spec (dent_inum x dp k) 0) as [E0|E0].
  { by exists x1. }
  destruct (IH (k + 1) s x1) as (x2 & Er & Hs2); [by apply (dir_ok_same x)|lia|lia|].
  rewrite (dir_free_same _ _ _ _ Hs1) in Er. exists x2. split; [exact Er|by etrans].
Qed.

Lemma dir_fuel_enough x dp n : dir_ok x dp n -> (Z.to_nat (n - 0) < dir_fuel dp x)%nat.
Proof.
  intros [_ H2 H3 _]. unfold dir_fuel. rewrite H2, Z.mul_comm, Z.div_mul by done. lia.
Qed.

(** Does entry [k] hold the name [nm]? *)
Definition dent_is x dp k (nm : list Z) : Prop := dent_inum x dp k <> 0 /\ dent_name x dp k = nm.

Lemma dir_find_spec nm x dp n : forall k,
  match dir_find n k nm x dp with
  | Some (j, i) => k <= j < k + Z.of_nat n /\ i = dent_inum x dp j /\ dent_is x dp j nm /\
      forall j', k <= j' < j -> ~ dent_is x dp j' nm
  | None => forall j, k <= j < k + Z.of_nat n -> ~ dent_is x dp j nm
  end.
Proof.
  induction n as [|n IH]; intros k; cbn [dir_find]; [lia|].
  destruct (negb _ && _) eqn:E.
  - apply andb_true_iff in E as [E1%negb_true_iff%Z.eqb_neq E2%bool_decide_eq_true].
    split_and!; [lia|lia|done|by split|lia].
  - assert (~ dent_is x dp k nm) as Hk.
    { intros [E1 E2]. apply Z.eqb_neq in E1. by rewrite E1, E2, bool_decide_true in E. }
    specialize (IH (k + 1)). destruct (dir_find n (k + 1) nm x dp) as [[j i]|].
    + destruct IH as (H1 & H2 & H3 & H4). split_and!; [lia|lia|done|done|].
      intros j' Hj'. destruct (decide (j' = k)) as [->|]; [done|]. apply H4. lia.
    + intros j Hj. destruct (decide (j = k)) as [->|]; [done|]. apply IH. lia.
Qed.

Lemma dir_find_at nm x dp n : forall k j,
  k <= j < k + Z.of_nat n -> dent_is x dp j nm -> (forall j', k <= j' < j -> ~ dent_is x dp j' nm) ->
  dir_find n k nm x dp = Some (j, dent_inum x dp j).
Proof.
  intros k j Hj Hd Hn. pose proof (dir_find_spec nm x dp n k) as H.
  destruct (dir_find n k nm x dp) as [[j2 i]|]; [|by destruct (H j Hj)].
  destruct H as (H1 & -> & H3 & H4). assert (j2 = j) as ->; [|done].
  destruct (Z.lt_trichotomy j2 j) as [Hl|[He|Hl]]; [|done|]; exfalso.
  - by apply (Hn j2); [lia|].
  - by apply (H4 j); [lia|].
Qed.

Lemma dir_free_spec x dp n : forall k,
  k <= dir_free n k x dp <= k + Z.of_nat n /\
  (dir_free n k x dp < k + Z.of_nat n -> dent_inum x dp (dir_free n k x dp) = 0).
Proof.
  induction n as [|n IH]; intros k; cbn [dir_free]; [lia|].
  destruct (Z.eqb_spec (dent_inum x dp k) 0); [split; [lia|done]|].
  destruct (IH (k + 1)) as [H1 H2]. split; [lia|]. intros H. apply H2. lia.
Qed.

(** [dirlookup], up to its call of [iget]. *)
Lemma dirlookup_ok dr dp name n s x :
  dir_ok x dp n -> length name = DIRSIZ ->
  exists x', same x x' /\
    dirlookup dr dp name s x =
      match dir_find (Z.to_nat n) 0 (buf_str name) x dp with
      | None => Ok (None, s, x')
      | Some (k, inum) =>
          let? (ip, s, x) := iget (i_dev (ic x dp)) inum s x' in
          Ok (Some (ip, sizeof_dirent * k), s, x)
      end.
Proof.
  intros Hd Hl. unfold dirlookup. rewrite (dk_type _ _ _ Hd), Z.eqb_refl. cbn [negb].
  destruct (dirlookup_loop_ok dr dp name n (dir_fuel dp x) Hl 0 s x Hd) as (x' & E & Hs).
  { pose proof (dk_range _ _ _ Hd). lia. }
  { by apply dir_fuel_enough. }
  rewrite Z.mul_0_r, Z.sub_0_r in E. rewrite E. cbn [res_bind]. exists x'. split; [done|].
  rewrite (fr_ic _ _ (sm_frame _ _ Hs)).
  by destruct (dir_find _ _ _ _ _) as [[k i]|].
Qed.

(** The inode cache has an entry for another inode. *)
Definition has_free x : Prop := exists i, slot_of i /\ i_ref (ic x i) = 0.

(** What [dirlookup] returns. *)
Lemma dirlookup_result c p dr dp name n s x :
  dir_ok x dp n -> length name = DIRSIZ ->
  icache_ok x -> outside c p s -> locked (ic_lock x) = 0 -> has_free x ->
  exists r s' x', dirlookup dr dp name s x = Ok (r, s', x') /\ (forall b, cont x' b = cont x b) /\
    match r with
    | Some (ip, off) => exists k, 0 <= k < n /\ off = sizeof_dirent * k /\ dent_is x dp k (buf_str name) /\
        (forall j, 0 <= j < k -> ~ dent_is x dp j (buf_str name)) /\
        caches x' ip (i_dev (ic x dp)) (dent_inum x dp k) /\ i_ref (ic x' ip) = i_ref (ic x ip) + 1
    | None => forall j, 0 <= j < n -> ~ dent_is x dp j (buf_str name)
    end.
Proof.
  intros Hd Hl Hic Hout Hlk (i0 & Hi0 & Hr0). destruct (dirlookup_ok dr dp name n s x Hd Hl) as (x1 & Hs & ->).
  pose proof (dir_find_spec (buf_str name) x dp (Z.to_nat n) 0) as Hf. pose proof (dk_range _ _ _ Hd) as [Hn _].
  rewrite Z2Nat.id in Hf by done. pose proof Hs as [[_ Eic Elk _ _] _ Ec].
  destruct (dir_find _ _ _ _ _) as [[k inum]|].
  2: { exists None, s, x1. split; [done|]. split; [done|]. intros j Hj. apply Hf. lia. }
  destruct Hf as (Hk & -> & Hd1 & Hd2).
  assert (icache_ok x1) as Hic1 by (destruct Hic as [A B]; split; unfold caches; rewrite Eic; done).
  destruct (iget_ok c p (i_dev (ic x dp)) (dent_inum x dp k) s x1 Hic1 Hout) as
    [[_ Hall]|(ip & s2 & x2 & -> & _ & Hc & _ & Href & _ & _ & _ & Hlog & _)]; [by rewrite Elk|..].
  { destruct (Hall i0 Hi0) as [H _]. rewrite Eic in H. lia. }
  cbn [res_bind]. do 3 eexists. split; [done|]. split.
  { intros b. unfold cont. rewrite Hlog. apply Ec. }
  exists k. split; [lia|]. split; [done|]. split; [done|]. split; [done|]. split; [done|].
  by rewrite Href, Eic.
Qed.

(** [dirlookup] finds a name exactly if the directory has it: it returns the
    inode of the first entry in use with that name, in the cache with one more
    reference, and the entry's offset; otherwise null.  It changes no block. *)
Theorem dirlookup_spec c p dr dp name n s x :
  dir_ok x dp n -> length name = DIRSIZ ->
  icache_ok x -> outside c p s -> locked (ic_lock x) = 0 -> has_free x ->
  exists r s' x', dirlookup dr dp name s x = Ok (r, s', x') /\ (forall b, cont x' b = cont x b) /\
    match r with
    | Some (ip, off) => exists k, 0 <= k < n /\ off = sizeof_dirent * k /\ dent_is x dp k (buf_str name) /\
        (forall j, 0 <= j < k -> ~ dent_is x dp j (buf_str name)) /\
        caches x' ip (i_dev (ic x dp)) (dent_inum x dp k) /\ i_ref (ic x' ip) = i_ref (ic x ip) + 1
    | None => forall j, 0 <= j < n -> ~ dent_is x dp j (buf_str name)
    end.
Proof. apply dirlookup_result. Qed.

Lemma dir_free_below x dp n j : 0 <= j < n -> dent_inum x dp j = 0 -> dir_free (Z.to_nat n) 0 x dp < n.
Proof.
  intros Hj Hz. assert (forall m k, k <= j < k + Z.of_nat m -> dir_free m k x dp <= j) as H.
  { induction m as [|m IH]; intros k Hk; cbn [dir_free]; [lia|].
    destruct (Z.eqb_spec (dent_inum x dp k) 0); [lia|]. apply IH. destruct (decide (j = k)) as [->|]; [done|lia]. }
  specialize (H (Z.to_nat n) 0). lia.
Qed.

(** An entry lies in one block. *)
Lemma dent_one_block k : 0 <= k -> blocks_touched (sizeof_dirent * k) sizeof_dirent = 1%nat.
Proof.
  intros Hk. unfold blocks_touched, sizeof_dirent. cbn [Z.leb Z.compare].
  pose proof (Z.div_mod k 32 ltac:(lia)) as E. pose proof (Z.mod_pos_bound k 32 ltac:(lia)) as Hm.
  assert (16 * k / BSIZE = k / 32) as ->.
  { symmetry. apply (Z.div_unique _ _ _ (16 * (k mod 32))); unfold BSIZE; lia. }
  assert ((16 * k + 16 - 1) / BSIZE = k / 32) as ->.
  { symmetry. apply (Z.div_unique _ _ _ (16 * (k mod 32) + 15)); unfold BSIZE; lia. }
  lia.
Qed.

Lemma dent_written x x' dp N k de j :
  written x x' dp N (sizeof_dirent * k) sizeof_dirent 0 de -> length de = 16%nat ->
  0 <= j -> sizeof_dirent * j + sizeof_dirent <= N * BSIZE ->
  dent x' dp j = if decide (j = k) then de else dent x dp j.
Proof.
  intros Hw Hl Hj HN. unfold sizeof_dirent in *.
  apply list_eq. intros a. unfold dent, sizeof_dirent. rewrite list_lookup_fmap.
  destruct (decide (a < 16)%nat) as [Ha|Ha].
  2: { rewrite lookup_seqZ_ge by lia. cbn. case_decide; [by rewrite lookup_ge_None_2 by lia|].
       rewrite list_lookup_fmap. by rewrite lookup_seqZ_ge by lia. }
  rewrite lookup_seqZ_lt by lia. cbn [fmap option_fmap option_map].
  rewrite (wr_byte _ _ _ _ _ _ _ _ Hw) by lia. destruct (decide (j = k)) as [->|Hne].
  - rewrite decide_True by lia. replace (Z.to_nat _) with a by lia.
    by destruct (lookup_lt_is_Some_2 de a) as [v ->]; [lia|].
  - rewrite decide_False by lia. rewrite list_lookup_fmap, lookup_seqZ_lt by lia. done.
Qed.

Lemma dir_ok_written x x' dp N n off r de :
  written x x' dp N off r 0 de -> sizeof_dirent * n <= N * BSIZE -> dir_ok x dp n -> dir_ok x' dp n.
Proof.
  intros [[_ Hic _ _ _] Hf _ _ _] HN [H1 H2 H3 H4]. split; rewrite ?Hic; try done.
  intros pos Hpos. apply (fo_map _ _ _ Hf). split; [apply Z.div_pos; [lia|done]|].
  apply Z.div_lt_upper_bound; [done|lia].
Qed.

Section Link.
Context (dr : Z -> option (Z -> Z -> kst -> fsx -> res (Z * list Z * kst * fsx))).
Context (dw : Z -> option (Z -> list Z -> Z -> kst -> fsx -> res (Z * kst * fsx))).
Context (resume : kst -> fsx -> kst * fsx) (rounds : nat) (lock_at : Z -> Z).

(** [dirlink] of a new name, up to its [writei]. *)
Lemma dirlink_new dp name inum n s x :
  dir_ok x dp n -> length name = DIRSIZ -> dir_find (Z.to_nat n) 0 (buf_str name) x dp = None ->
  exists x2 nm, same x x2 /\ length nm = DIRSIZ /\ buf_str nm = buf_str name /\
    dirlink dr dw resume rounds lock_at dp name inum s x =
      let? (r, s, x) := writei dw dp (enc 2 inum ++ nm) (sizeof_dirent * dir_free (Z.to_nat n) 0 x dp) sizeof_dirent s x2 in
      if negb (r =? sizeof_dirent) then Panic "dirlink" else Ok (0, s, x).
Proof.
  intros Hd Hl Hno. unfold dirlink. pose proof (dk_range _ _ _ Hd) as [Hn Hr].
  destruct (dirlookup_ok dr dp name n s x Hd Hl) as (x1 & Hs1 & ->). rewrite Hno. cbn [res_bind].
  pose proof (dir_ok_same _ _ _ _ Hs1 Hd) as Hd1.
  destruct (find_empty_ok dr dp n (dir_fuel dp x1) 0 s x1 Hd1) as (x2 & E2 & Hs2); [lia|by apply dir_fuel_enough|].
  rewrite Z.mul_0_r, Z.sub_0_r, (dir_free_same _ _ _ _ Hs1) in E2. rewrite E2. cbn [res_bind].
  destruct (strncpy_buf_ok DIRSIZ name Hl) as (nm & -> & Hnl & Hns). cbn [res_bind].
  exists x2, nm. split; [by etrans|]. done.
Qed.

(** The directory with [de] as its entry [k]. *)
Record linked dp k (n : Z) (de : list Z) x x' : Prop := {
  lk_dir : dir_ok x' dp n;
  lk_iclk : ic_lock x' = ic_lock x;
  lk_inode j : i_ref (ic x' j) = i_ref (ic x j) /\ i_dev (ic x' j) = i_dev (ic x j) /\ i_inum (ic x' j) = i_inum (ic x j);
  lk_dent j : 0 <= j < n -> dent x' dp j = if decide (j = k) then de else dent x dp j
}.

(** The directory has an entry that is free, in one of its blocks. *)
Record has_room c p s x dp n : Prop := {
  hr_entry : exists j, 0 <= j < n /\ dent_inum x dp j = 0;
  hr_file : exists N, file_ok x dp N /\ N <= MAXFILE /\ sizeof_dirent * n <= N * BSIZE;
  hr_tx : in_tx c p s x 1
}.

(** The directory can get one entry more: its size has not reached the limit,
    and the disk has a block for the entry, and one for the block of addresses if
    that is not there yet. *)
Record can_grow c p s x dp n : Prop := {
  cg_regular : regular x dp;
  cg_max : sizeof_dirent * (n + 1) <= MAXFILE * BSIZE;
  cg_free : (1 + no_ind x dp <= nfree x)%nat;
  cg_tx : in_tx c p s x (5 + 2 * no_ind x dp)
}.

Lemma write_in_place c p dp n k de s x x2 :
  dir_ok x dp n -> has_room c p s x dp n -> 0 <= k < n -> length de = 16%nat -> same x x2 ->
  exists s' x', writei dw dp de (sizeof_dirent * k) sizeof_dirent s x2 = Ok (sizeof_dirent, s', x') /\ in_tx c p s' x' 0 /\ linked dp k n de x x'.
Proof.
  intros Hd [_ (N & Hf & HM & HN) Htx] Hk Hde Hs. pose proof (dk_range _ _ _ Hd) as [Hn Hr]. pose proof (dir_ok_same _ _ _ _ Hs Hd) as Hd2.
  destruct (writei_in_place c p dw dp N de (sizeof_dirent * k) sizeof_dirent s x2 0) as (s' & x' & -> & Htx' & Hw);
    [by rewrite (dk_type _ _ _ Hd2)|unfold sizeof_dirent; lia..|by rewrite Hde|rewrite (dk_size _ _ _ Hd2); unfold sizeof_dirent; lia
    |by rewrite (dk_size _ _ _ Hd2)|done|by apply (file_ok_same x)|rewrite dent_one_block by lia; by apply (in_tx_same _ _ _ x)|].
  exists s', x'. split; [done|]. split; [done|].
  assert (frame x x') as [_ Fic Flk _ _] by (etrans; [apply (sm_frame _ _ Hs)|apply (wr_frame _ _ _ _ _ _ _ _ Hw)]).
  constructor; [by eapply dir_ok_written|done|by rewrite Fic|].
  intros j Hj. rewrite (dent_written x2 x' dp N k _ j Hw Hde), (dent_same _ _ _ _ Hs); [done|lia|]. unfold sizeof_dirent in *. lia.
Qed.

Lemma dent_wrote x x' dp k de j :
  wrote dp (sizeof_dirent * k) sizeof_dirent de x x' -> regular x dp -> length de = 16%nat ->
  0 <= j -> sizeof_dirent * (j + 1) <= d_size (i_d (ic x' dp)) -> (j <> k -> sizeof_dirent * (j + 1) <= d_size (i_d (ic x dp))) ->
  dent x' dp j = if decide (j = k) then de else dent x dp j.
Proof.
  intros Hw Hr Hl Hj Hsz Hold. pose proof (wt_regular _ _ _ _ _ _ Hw) as Hr'. pose proof (fl_size _ _ Hr') as Hmax. unfold sizeof_dirent in *.
  apply list_eq. intros a. unfold dent, sizeof_dirent. rewrite list_lookup_fmap.
  destruct (decide (a < 16)%nat) as [Ha|Ha].
  2: { rewrite lookup_seqZ_ge by lia. cbn. case_decide; [by rewrite lookup_ge_None_2 by lia|].
       rewrite list_lookup_fmap. by rewrite lookup_seqZ_ge by lia. }
  rewrite lookup_seqZ_lt by lia. cbn [fmap option_fmap option_map].
  rewrite (regular_fbyte x' dp), (wt_data _ _ _ _ _ _ Hw) by (done || lia). destruct (decide (j = k)) as [->|Hne].
  - rewrite decide_True by lia. replace (Z.to_nat _) with a by lia. by destruct (lookup_lt_is_Some_2 de a) as [v ->]; [lia|].
  - specialize (Hold Hne). rewrite decide_False by lia. rewrite list_lookup_fmap, lookup_seqZ_lt by lia. cbn.
    by rewrite (regular_fbyte x dp) by (done || lia).
Qed.

Lemma write_growing c p dp n k de s x x2 :
  dir_ok x dp n -> can_grow c p s x dp n -> 0 <= k <= n -> length de = 16%nat -> same x x2 ->
  exists s' x', writei dw dp de (sizeof_dirent * k) sizeof_dirent s x2 = Ok (sizeof_dirent, s', x') /\ in_tx c p s' x' 0 /\ linked dp k (Z.max n (k + 1)) de x x'.
Proof.
  intros Hd [Hr HM Hfree Htx] Hk Hde Hs. pose proof (dk_range _ _ _ Hd) as [Hn _]. pose proof (dk_size _ _ _ Hd) as Hsz. pose proof (regular_same _ _ _ Hs Hr) as Hr2.
  pose proof Hs as [[Hsb Hic Hlk _ _] _ _]. assert (no_ind x2 dp = no_ind x dp) as Eni by (unfold no_ind, indirect, addrs_of; by rewrite Hic).
  assert (MAXFILE * BSIZE < 2 ^ 31) as Hlim by done.
  destruct (writei_wrote c p dw dp de (sizeof_dirent * k) sizeof_dirent s x2 0 Hr2) as (s' & x' & -> & Htx' & Hw); rewrite ?dent_one_block, ?Eni, ?Hic, ?Hde by lia;
    [unfold sizeof_dirent in *; lia|done|unfold sizeof_dirent in *; lia| | |].
  { rewrite (nfree_ext x); [lia|done|]. intros b _. by apply used_same. }
  { apply (in_tx_same _ _ _ x); [done|]. eapply in_tx_le; [|exact Htx]. lia. }
  exists s', x'. split; [done|]. split; [done|]. pose proof (wt_ip _ _ _ _ _ _ Hw) as Hip. rewrite Hic in Hip. destruct (wt_else _ _ _ _ _ _ Hw) as [_ Hlk' Hoth _ _].
  assert (d_size (i_d (ic x' dp)) = sizeof_dirent * Z.max n (k + 1)) as Hsz' by (rewrite Hip; cbn; rewrite Hsz; unfold sizeof_dirent; lia).
  pose proof (wt_regular _ _ _ _ _ _ Hw) as Hr'. constructor.
  - constructor; [rewrite Hip; apply Hd|done| |].
    + pose proof (fl_size _ _ Hr'). unfold sizeof_dirent in *. lia.
    + intros pos Hpos. apply regular_mapped; [done|lia].
  - by rewrite Hlk'.
  - intros j. destruct (decide (j = dp)) as [->|Hne]; [by rewrite Hip|by rewrite Hoth, Hic].
  - intros j Hj. rewrite (dent_wrote x2 x' dp k de j Hw Hr2 Hde), (dent_same _ _ _ _ Hs); rewrite ?Hsz', ?Hic, ?Hsz; unfold sizeof_dirent; lia || done.
Qed.

(** [dirlink] of a new name: the entry goes into the first one that is free, or
    after the last. *)
Lemma dirlink_ok c p dp name inum n s x :
  dir_ok x dp n -> length name = DIRSIZ -> dir_find (Z.to_nat n) 0 (buf_str name) x dp = None ->
  has_room c p s x dp n \/ can_grow c p s x dp n ->
  let k := dir_free (Z.to_nat n) 0 x dp in
  exists s' x' nm, dirlink dr dw resume rounds lock_at dp name inum s x = Ok (0, s', x') /\ in_tx c p s' x' 0 /\
    length nm = DIRSIZ /\ buf_str nm = buf_str name /\ linked dp k (Z.max n (k + 1)) (enc 2 inum ++ nm) x x'.
Proof.
  intros Hd Hl Hno Hroom k. pose proof (dk_range _ _ _ Hd) as [Hn _]. destruct (dirlink_new dp name inum n s x Hd Hl Hno) as (x2 & nm & Hs & Hnl & Hns & ->). fold k.
  destruct (dir_free_spec x dp (Z.to_nat n) 0) as [Hk0 _]. fold k in Hk0. rewrite Z2Nat.id in Hk0 by done.
  assert (length (enc 2 inum ++ nm) = 16%nat) as Hde by (rewrite length_app, enc_length, Hnl; done).
  assert (exists s' x', writei dw dp (enc 2 inum ++ nm) (sizeof_dirent * k) sizeof_dirent s x2 = Ok (sizeof_dirent, s', x') /\ in_tx c p s' x' 0 /\
    linked dp k (Z.max n (k + 1)) (enc 2 inum ++ nm) x x') as (s' & x' & -> & Htx & Hlk).
  { destruct Hroom as [Hroom|Hgrow]; [|by apply write_growing]. destruct (hr_entry _ _ _ _ _ _ Hroom) as (j & Hj & Hz).
    assert (k < n) as Hk by by eapply dir_free_below. rewrite Z.max_l by lia. apply write_in_place; [done|done|lia|done|done]. }
  exists s', x', nm. cbn [res_bind]. by rewrite Z.eqb_refl.
Qed.

(** The name of the new entry is found, and no other entry has it. *)
Lemma linked_find dp k n n' inum name nm x x' :
  linked dp k n' (enc 2 inum ++ nm) x x' -> length nm = DIRSIZ -> buf_str nm = buf_str name -> 0 < inum < 2 ^ 16 ->
  0 <= k < n' -> k <= n -> (forall j, 0 <= j < n -> ~ dent_is x dp j (buf_str name)) ->
  dir_find (Z.to_nat n') 0 (buf_str name) x' dp = Some (k, inum).
Proof.
  intros Hlk Hnl Hns Hi Hk Hkn Hno. assert (dent x' dp k = enc 2 inum ++ nm) as Ek by (rewrite (lk_dent _ _ _ _ _ _ Hlk), decide_True; done || lia).
  assert (dent_inum x' dp k = inum) as Ei.
  { unfold dent_inum. rewrite Ek, take_app_length' by by rewrite enc_length. rewrite dec_enc_small; [done|]. change (256 ^ Z.of_nat 2) with (2 ^ 16). lia. }
  transitivity (Some (k, dent_inum x' dp k)); [|by rewrite Ei]. apply dir_find_at.
  - rewrite Z2Nat.id by lia. lia.
  - split; [rewrite Ei; lia|]. unfold dent_name. rewrite Ek, drop_app_length' by by rewrite enc_length. done.
  - intros j Hj [H1 H2]. unfold dent_inum in H1. unfold dent_name in H2.
    rewrite (lk_dent _ _ _ _ _ _ Hlk), decide_False in H1, H2 by lia. apply (Hno j); [lia|]. by split.
Qed.

(** C19: a name linked is found.  [dirlink] of a name the directory does not have
    stores it in the first free entry or, if there is none, after the last
    entry, which makes the directory one entry longer; it keeps every entry in
    use, and [dirlookup] of the name then returns that entry's offset and the inode
    that was linked.  The directory must have a free entry, or be able to grow:
    it is not at the largest size and the disk has the blocks for it. *)
Theorem dirlink_dirlookup c p dp name inum n s x :
  dir_ok x dp n -> has_room c p s x dp n \/ can_grow c p s x dp n ->
  length name = DIRSIZ -> (forall j, 0 <= j < n -> ~ dent_is x dp j (buf_str name)) -> 0 < inum < 2 ^ 16 ->
  icache_ok x -> locked (ic_lock x) = 0 -> has_free x ->
  let k := dir_free (Z.to_nat n) 0 x dp in
  exists s' x' ip s'' x'',
    dirlink dr dw resume rounds lock_at dp name inum s x = Ok (0, s', x') /\
    dirlookup dr dp name s' x' = Ok (Some (ip, sizeof_dirent * k), s'', x'') /\
    caches x'' ip (i_dev (ic x dp)) inum /\ dir_ok x' dp (Z.max n (k + 1)) /\
    forall j, 0 <= j < n -> dent_inum x dp j <> 0 -> dent x' dp j = dent x dp j.
Proof.
  intros Hd Hroom Hl Hno Hi Hic Hlk (i0 & Hi0 & Hr0) k. pose proof (dk_range _ _ _ Hd) as [Hn _].
  destruct (dir_free_spec x dp (Z.to_nat n) 0) as [Hk0 Hkz]. fold k in Hk0, Hkz. rewrite Z2Nat.id in Hk0, Hkz by done.
  assert (dir_find (Z.to_nat n) 0 (buf_str name) x dp = None) as Hnone.
  { pose proof (dir_find_spec (buf_str name) x dp (Z.to_nat n) 0) as H. rewrite Z2Nat.id in H by done.
    destruct (dir_find _ _ _ _ _) as [[j i]|]; [|done]. destruct H as (H1 & _ & H3 & _). by destruct (Hno j). }
  destruct (dirlink_ok c p dp name inum n s x Hd Hl Hnone Hroom) as (s' & x' & nm & E & Htx' & Hnl & Hns & Hln). fold k in Hln.
  pose proof (lk_dir _ _ _ _ _ _ Hln) as Hd'. pose proof (lk_inode _ _ _ _ _ _ Hln) as Hin.
  exists s', x'. destruct (dirlookup_ok dr dp name _ s' x' Hd' Hl) as (x1 & Hs & ->).
  rewrite (linked_find dp k n _ inum name nm x x') by (done || lia). pose proof Hs as [[_ Eic Elk _ _] _ Ec].
  assert (icache_ok x1) as Hic1.
  { destruct Hic as [A B]. split; unfold caches in *; rewrite Eic.
    - intros i. rewrite (proj1 (Hin i)). apply A.
    - intros i j. destruct (Hin i) as (-> & -> & ->), (Hin j) as (-> & -> & ->). apply B. }
  destruct (iget_ok c p (i_dev (ic x' dp)) inum s' x1 Hic1) as
    [[_ Hall]|(ip & s2 & x2 & -> & _ & Hc & _)]; [by destruct Htx' as (? & ? & _)|by rewrite Elk, (lk_iclk _ _ _ _ _ _ Hln)|..].
  { destruct (Hall i0 Hi0) as [H _]. rewrite Eic, (proj1 (Hin i0)) in H. lia. }
  exists ip, s2, x2. split; [done|]. split; [done|]. split; [by rewrite <- (proj1 (proj2 (Hin dp)))|]. split; [done|].
  intros j Hj Hu. rewrite (lk_dent _ _ _ _ _ _ Hln) by lia. rewrite decide_False; [done|]. intros ->. apply Hu, Hkz. lia.
Qed.

End Link.

End Dirs.

(** * An example *)

Section DirExamples.
Import Fs.

(** Inode 5 as a directory of three entries: ".", a free one, and "ab". *)
Definition demo_dirblk : block :=
  enc 2 5 ++ [46] ++ repeat 0 13 ++ enc 2 0 ++ repeat 0 14 ++ enc 2 7 ++ [97; 98] ++ repeat 0 12 ++ repeat 0 464.
Definition demo_dir_inode : inode :=
  mkInode 1 5 1 (mkSleeplock 0 demo_lock "inode" 0) 1 (mkDinode T_DIR 0 0 1 48 ([59] ++ repeat 0 12)).
Definition demo_dirfs : fsx :=
  mkFs (mkLst (demo_log 0 (repeat 0 30))
          (Dev.boot (fun b => if b =? 59 then demo_dirblk else demo_fsblk b) 1000)) demo_sb demo_lock
    (fun i => if i =? 0 then demo_dir_inode else demo_free).

Lemma demo_dir_live : live demo_dirfs 59.
Proof. split; [done|]. split; [done|]. split; [apply not_elem_of_nil|]. vm_compute. done. Qed.

Lemma demo_dir_file : file_ok demo_dirfs 0 1.
Proof.
  assert (forall k, 0 <= k < 1 -> k = 0) as Hz by (intros; lia). split.
  - intros k ->%Hz. split; try done. apply demo_dir_live.
  - intros k k' ->%Hz ->%Hz. done.
  - intros k ->%Hz. done.
Qed.

Lemma demo_dir_ok : dir_ok demo_dirfs 0 3.
Proof.
  split; [done|done|unfold sizeof_dirent; lia|]. intros pos Hpos. unfold sizeof_dirent in Hpos.
  rewrite Z.div_small by (unfold BSIZE; lia). apply (fo_map _ _ _ demo_dir_file). lia.
Qed.

Lemma one_cached x : 0 <= i_ref (ic x 0) -> (forall i, i <> 0 -> i_ref (ic x i) = 0) -> icache_ok x.
Proof.
  intros H0 H. constructor.
  - intros i _. destruct (decide (i = 0)) as [->|]; [done|rewrite H; done].
  - intros i j dev inum _ _ [H1 _] [H2 _].
    destruct (decide (i = 0)) as [->|]; [|rewrite H in H1; done].
    destruct (decide (j = 0)) as [->|]; [done|rewrite H in H2; done].
Qed.

Lemma demo_dir_icache : icache_ok demo_dirfs.
Proof. apply one_cached; [cbn; lia|]. intros i Hi. cbn. by rewrite (proj2 (Z.eqb_neq _ _)). Qed.

Lemma demo_dir_free : has_free demo_dirfs.
Proof. exists 1. done. Qed.

Lemma demo_dir_tx k : (k <= 29)%nat -> in_tx 0 0 (demo_in 0) demo_dirfs k.
Proof. intros Hk. exact (demo_in_tx k Hk). Qed.

(** The name buffer with "ab". *)
Definition demo_name (l : list Z) : list Z := l ++ repeat 0 (14 - length l).

Lemma dirlookup_spec_witness : exists r s' x',
  dirlookup (fun _ => None) 0 (demo_name [97; 98]) (demo_in 0) demo_dirfs = Ok (r, s', x') /\
  option_map snd r = Some 32.
Proof.
  destruct (dirlookup_spec 0 0 (fun _ => None) 0 (demo_name [97; 98]) 3 (demo_in 0) demo_dirfs)
    as (r & s' & x' & H1 & _ & H2).
  - apply demo_dir_ok.
  - reflexivity.
  - apply demo_dir_icache.
  - apply demo_out.
  - reflexivity.
  - apply demo_dir_free.
  - exists r, s', x'. split; [exact H1|].
    assert (match dirlookup (fun _ => None) 0 (demo_name [97; 98]) (demo_in 0) demo_dirfs with
            | Ok (r, _, _) => option_map snd r | _ => None end = Some 32) as H by (vm_compute; reflexivity).
    rewrite H1 in H. exact H.
Defined.

(** The directory of three entries has room, the one of 37 can grow. *)
Lemma demo_has_room : has_room 0 0 (demo_in 0) demo_dirfs 0 3.
Proof.
  constructor; [exists 1; split; [lia|reflexivity]| |apply demo_dir_tx; lia].
  exists 1. split; [apply demo_dir_file|]. split; by vm_compute.
Qed.

Lemma demo_grow_dir : dir_ok (demo_fs_of demo_ddir) 0 37.
Proof.
  split; [done|done|unfold sizeof_dirent; lia|]. intros pos Hpos.
  apply regular_mapped; [apply demo_of_regular; by right|exact Hpos].
Qed.

Lemma demo_can_grow : can_grow 0 0 (demo_in 0) (demo_fs_of demo_ddir) 0 37.
Proof.
  constructor; [apply demo_of_regular; by right|by vm_compute|apply Nat.leb_le; vm_compute; reflexivity|].
  apply demo_of_tx, Nat.leb_le. vm_compute. reflexivity.
Qed.

Lemma demo_no_x j : 0 <= j < 37 -> ~ dent_is (demo_fs_of demo_ddir) 0 j (buf_str (demo_name [120])).
Proof.
  intros Hj [_ Hn]. assert (In j (seqZ 0 37)) as Hin by (apply list_elem_of_In, elem_of_seqZ; lia).
  assert (forallb (fun j => negb (bool_decide (dent_name (demo_fs_of demo_ddir) 0 j = [120]))) (seqZ 0 37) = true) as H by (vm_compute; reflexivity).
  rewrite forallb_forall in H. specialize (H j Hin). by rewrite bool_decide_true in H.
Qed.

(** The directory has no free entry and grows. *)
Lemma dirlink_dirlookup_witness : exists s' x' ip s'' x'',
  dirlink (fun _ => None) (fun _ => None) demo_resume 1 (fun i => i) 0 (demo_name [120]) 9 (demo_in 0) (demo_fs_of demo_ddir) =
    Ok (0, s', x') /\
  dirlookup (fun _ => None) 0 (demo_name [120]) s' x' = Ok (Some (ip, 592), s'', x'') /\ caches x'' ip 1 9 /\ dir_ok x' 0 38.
Proof.
  assert (dir_free (Z.to_nat 37) 0 (demo_fs_of demo_ddir) 0 = 37) as Ek by (vm_compute; reflexivity).
  pose proof (dirlink_dirlookup (fun _ => None) (fun _ => None) demo_resume 1 (fun i => i) 0 0 0 (demo_name [120]) 9 37
    (demo_in 0) (demo_fs_of demo_ddir) demo_grow_dir (or_intror demo_can_grow) eq_refl demo_no_x) as H. cbv zeta in H. rewrite Ek in H.
  destruct H as (s' & x' & ip & s'' & x'' & H1 & H2 & H3 & H4 & _).
  - lia.
  - apply one_cached; [cbn; lia|]. intros i Hi. cbn. by rewrite (proj2 (Z.eqb_neq _ _)).
  - reflexivity.
  - exists 1. split; [done|reflexivity].
  - exists s', x', ip, s'', x''. split; [exact H1|]. split; [exact H2|]. split; [exact H3|exact H4].
Defined.

End DirExamples.
