(* ===== verification/Path.v ===== *)
(** [namex] of [fs.c]: a path is resolved element by element through the
    directories of the disk.  The inodes on the way are locked, read from the
    disk when they are not cached, searched and put back; in the end only the
    inode found has one more reference. *)

From S2P Require Import Prelude CString Spinlock Kalloc Proc Demo MlfqFacts ProcFacts Sleep Vm Steady Quiet Block Log LogFacts Fs FsFacts InodeFacts DirFacts.

Section Calm.
Import Fs Ptable.
Context `{SV : Services}.
Implicit Types (s : kst) (x : fsx) (c p : nat) (i j inum : Z) (pr : proc) (d : dinode).

(** The inode [inum] as it is on the disk, or in its buffer. *)
Definition dinode_at x inum : res dinode := get_dinode (cont x (IBLOCK inum (f_sb x))) (dip_off inum).

(** Nothing on the disk changes. *)
Record keeps x x' : Prop := {
  kp_cont b : cont x' b = cont x b;
  kp_sb : f_sb x' = f_sb x;
  kp_nblk : nblocks x' = nblocks x;
  kp_lg : lg (f_log x') = lg (f_log x)
}.

#[export] Instance keeps_preorder : PreOrder keeps.
Proof. split; [by constructor|]. intros x y z [] []. constructor; congruence. Qed.

Lemma same_keeps x x' : same x x' -> keeps x x'.
Proof. intros [[H1 H2 H3 H4 H5] H6 H7]. by split. Qed.

(** Nothing on the disk changes, but maybe the state of the log. *)
Record unwritten x x' : Prop := {
  uw_cont b : cont x' b = cont x b;
  uw_sb : f_sb x' = f_sb x;
  uw_nblk : nblocks x' = nblocks x
}.

#[export] Instance unwritten_preorder : PreOrder unwritten.
Proof. split; [by constructor|]. intros x y z [] []. constructor; congruence. Qed.

Lemma keeps_unwritten x x' : keeps x x' -> unwritten x x'.
Proof. intros [H1 H2 H3 _]. by split. Qed.

Lemma unwritten_at x x' inum : unwritten x x' -> dinode_at x' inum = dinode_at x inum.
Proof. intros [Hc Hs _]. unfold dinode_at. by rewrite Hs, Hc. Qed.

Lemma keeps_at x x' inum : keeps x x' -> dinode_at x' inum = dinode_at x inum.
Proof. intros K. by apply unwritten_at, keeps_unwritten. Qed.

(** No lock is taken but that of inode [h], no buffer is held, and the cached
    inodes are those of the disk. *)
Record calm (h : option Z) x : Prop := {
  cm_ic : icache_ok x;
  cm_lock : locked (ic_lock x) = 0;
  cm_slots i : slot_of i -> h <> Some i -> locked (sl_lk (i_lock (ic x i))) = 0 /\ sl_locked (i_lock (ic x i)) = 0;
  cm_valid i : slot_of i -> 0 < i_ref (ic x i) -> i_dev (ic x i) = 1 -> i_valid (ic x i) <> 0 -> dinode_at x (i_inum (ic x i)) = Ok (i_d (ic x i));
  cm_held : holds x = []
}.

Lemma calm_free x i : calm None x -> slot_of i -> 1 <= i_ref (ic x i) -> inode_free i x.
Proof. intros H Hi Hr. split; [done|]. by apply (cm_slots _ _ H). Qed.

(** The reference counts, but for one more of [i]. *)
Definition refs_at (r : Z -> Z) (o : option Z) x : Prop := forall j, slot_of j -> i_ref (ic x j) = r j + (if bool_decide (o = Some j) then 1 else 0).

Lemma inode_but_ref (a b : inode) : i_dev a = i_dev b -> i_inum a = i_inum b -> i_lock a = i_lock b -> i_valid a = i_valid b -> i_d a = i_d b -> set_i_ref 0 a = set_i_ref 0 b.
Proof. destruct a, b. cbn. intros -> -> -> -> ->. done. Qed.

(** *** iget *)

Lemma iget_rest dev inum s x i s' x' : iget dev inum s x = Ok (i, s', x') ->
  (forall j, i_lock (ic x' j) = i_lock (ic x j)) /\ f_sb x' = f_sb x /\ exists m, s' = set_mach m s.
Proof.
  unfold iget, lock_icache, unlock_icache. intros H. apply res_bind_Ok in H as ([s1 x1] & E1 & H). apply res_bind_Ok in E1 as ([k1 m1] & _ & [= <- <-]).
  destruct (iget_scan _ _ _ _ _ _) as [k|[k|]]; [..|done]; apply res_bind_Ok in H as ([s2 x2] & E2 & [= <- <- <-]); apply res_bind_Ok in E2 as ([k2 m2] & _ & [= <- <-]);
    (split; [|split; [done|by exists m2]]); intros j; unfold upd_i; cbn; unfold fupd; by destruct (j =? k) eqn:E; [apply Z.eqb_eq in E as ->; rewrite ?Z.eqb_refl|].
Qed.

Lemma iget_calm p inum s x h : up p s -> calm h x -> (exists j, slot_of j /\ i_ref (ic x j) = 0) ->
  exists i s' x', iget 1 inum s x = Ok (i, s', x') /\ called p s s' /\ calm h x' /\ keeps x x' /\ slot_of i /\ caches x' i 1 inum /\
    (forall j, i_ref (ic x' j) = i_ref (ic x j) + (if bool_decide (j = i) then 1 else 0)) /\
    (forall j, 0 < i_ref (ic x j) -> set_i_ref 0 (ic x' j) = set_i_ref 0 (ic x j)).
Proof.
  intros U Hc (j0 & Hj0 & Hr0). destruct (up_cpu _ _ U) as (c & Ho). destruct (iget_ok c p 1 inum s x (cm_ic _ _ Hc) Ho (cm_lock _ _ Hc)) as
    [[_ Hall]|(i & s' & x' & E & Hi & Hca & Hic & Hr & Hhit & Hmiss & Hoth & Hlog & Hlk & Ho')]; [destruct (Hall j0 Hj0); lia|].
  destruct (iget_rest _ _ _ _ _ _ _ E) as (Hil & Hsb & m & ->). exists i, (set_mach m s), x'. assert (keeps x x') as Hk.
  { split; unfold cont, nblocks; by rewrite ?Hlog. }
  split; [done|]. split; [by eapply called_mach|]. split; [|split; [done|split; [done|split; [done|split]]]].
  - split; try done.
    + intros j Hj Hh. rewrite Hil. by apply (cm_slots _ _ Hc).
    + intros j Hj. rewrite (keeps_at _ _ _ Hk). destruct (decide (j = i)) as [->|Hne]; [|rewrite Hoth by done; by apply (cm_valid _ _ Hc)].
      intros Hrj Hdj Hv. destruct (Z.eq_dec (i_ref (ic x i)) 0) as [E0|E0].
      { destruct Hmiss as [_ Hv0]; [intros (H & _); lia|done]. }
      assert (caches x i 1 inum) as Hci. { destruct (Z.eq_dec (i_valid (ic x' i)) 0); [done|]. destruct (Z.eq_dec (i_dev (ic x i)) 1) as [E1|E1], (Z.eq_dec (i_inum (ic x i)) inum) as [E2|E2];
        [split; [pose proof (ic_refs _ (cm_ic _ _ Hc) i Hj); lia|done]|..]; (destruct Hmiss as [? _]; [intros (_ & ? & ?); done|done]). }
      destruct (Hhit Hci) as [Ev Ed]. rewrite Ed. destruct Hci as (H1 & H2 & H3), Hca as (H4 & H5 & H6). rewrite H6, <- H3. apply (cm_valid _ _ Hc); [done|done|done|congruence].
    + unfold holds. rewrite Hlog. apply (cm_held _ _ Hc).
  - intros j. destruct (bool_decide_reflect (j = i)) as [->|Hne]; [done|]. rewrite Hoth by done. lia.
  - intros j Hj. destruct (decide (j = i)) as [->|Hne]; [|by rewrite Hoth].
    assert (caches x i 1 inum) as Hci. { destruct (Z.eq_dec (i_dev (ic x i)) 1) as [E1|E1], (Z.eq_dec (i_inum (ic x i)) inum) as [E2|E2];
        [by split|..]; (destruct Hmiss as [? _]; [intros (_ & ? & ?); done|lia]). }
    destruct (Hhit Hci) as [Ev Ed]. specialize (Hil i). destruct Hci as (_ & H2 & H3), Hca as (_ & H5 & H6). apply inode_but_ref; congruence.
Qed.

(** *** Locks *)

Section Locks.
Context (resume : kst -> fsx -> kst * fsx) (rounds : nat) (lock_at : Z -> Z) (Hrounds : (0 < rounds)%nat).

Lemma lock_only_keeps i x x' : lock_only i x x' -> keeps x x' /\ (forall j k, set_i_lock k (ic x' j) = set_i_lock k (ic x j)) /\ holds x' = holds x.
Proof.
  intros [H1 H2 H3 H4 H5]. split; [|split].
  - split; unfold cont, nblocks; by rewrite ?H1.
  - intros j k. destruct (decide (j = i)) as [->|Hne]; [done|by rewrite H4].
  - unfold holds. by rewrite H1.
Qed.

Lemma lock_only_inode i x x' j : lock_only i x x' -> i_ref (ic x' j) = i_ref (ic x j) /\ i_valid (ic x' j) = i_valid (ic x j) /\ i_d (ic x' j) = i_d (ic x j) /\
  i_dev (ic x' j) = i_dev (ic x j) /\ i_inum (ic x' j) = i_inum (ic x j).
Proof. intros H. destruct (lock_only_keeps _ _ _ H) as (_ & E & _). specialize (E j (i_lock (ic x j))). by injection E. Qed.

(** Only the lock of [i] has changed, and it is as [h'] says. *)
Lemma calm_relock h h' i x x' : calm h x -> lock_only i x x' -> (forall j, j <> i -> h' <> Some j -> h <> Some j) ->
  (h' <> Some i -> locked (sl_lk (i_lock (ic x' i))) = 0 /\ sl_locked (i_lock (ic x' i)) = 0) -> calm h' x'.
Proof.
  intros [H1 H2 H3 H4 H5] Hlo Hh Hi. pose proof (lock_only_inode i x x') as Hf. destruct (lock_only_keeps _ _ _ Hlo) as (Hk & _ & Hh'). split.
  - destruct H1 as [A B]. split; unfold caches in *; intros j; destruct (Hf j Hlo) as (-> & _ & _ & Ed & En); [apply A|]. intros k dev inum. destruct (Hf k Hlo) as (-> & _ & _ & Ed' & En'). rewrite Ed, En, Ed', En'. apply B.
  - by rewrite (lo_ic _ _ _ Hlo).
  - intros j Hj Hne. destruct (decide (j = i)) as [->|Hji]; [by apply Hi|]. rewrite (lo_other _ _ _ Hlo) by done. apply H3; [done|by apply Hh].
  - intros j. destruct (Hf j Hlo) as (-> & -> & -> & -> & ->). rewrite (keeps_at _ _ _ Hk). apply H4.
  - by rewrite Hh'.
Qed.

(** *** ilock *)

(** Inode [i] of the cache is read from the disk. *)
Definition filled_in i d x : fsx := upd_i i (set_i_valid 1) (upd_i i (set_i_d d) x).

Lemma filled_inode i d x : ic (filled_in i d x) i = set_i_valid 1 (set_i_d d (ic x i)) /\ (forall j, j <> i -> ic (filled_in i d x) j = ic x j).
Proof. unfold filled_in, upd_i. cbn. split; [by rewrite !fupd_eq|intros j Hj; by rewrite !fupd_ne]. Qed.

(** The part of [ilock] after the lock was taken. *)
Lemma ilock_fill i x d : let b := IBLOCK (i_inum (ic x i)) (f_sb x) in buf_ok x (i_dev (ic x i)) b -> dinode_at x (i_inum (ic x i)) = Ok d ->
  exists x1 y x', bread (i_dev (ic x i)) b x = Ok (cont x b, x1) /\ ic x1 = ic x /\ get_dinode (cont x b) (dip_off (i_inum (ic x i))) = Ok d /\
     brelse b (upd_i i (set_i_d d) x1) = Ok y /\ upd_i i (set_i_valid 1) y = filled_in i d x' /\ same x x'.
Proof.
  intros b Hb Hd. destruct (fs_bread_ok x _ _ Hb) as (x1 & E & Hh & Hr & Hs). exists x1, (upd_i i (set_i_d d) (relsed x1)), (relsed x1). split; [done|].
  split; [by destruct Hs as [[_ S2 _ _ _] _ _]|]. split; [exact Hd|]. split; [|by split]. unfold brelse in *. cbn [f_log upd_i set_ic].
  apply res_bind_Ok in Hr as (dv & Er & [= Ex]). rewrite Er. cbn [res_bind]. by rewrite Ex.
Qed.

(** The fields of the cache that reading an inode keeps. *)
Definition fields_same x x' : Prop := forall j, i_ref (ic x' j) = i_ref (ic x j) /\ i_dev (ic x' j) = i_dev (ic x j) /\ i_inum (ic x' j) = i_inum (ic x j).

Lemma filled_fields i d x x' : ic x' = ic x -> fields_same x (filled_in i d x') /\ forall j, i_lock (ic (filled_in i d x') j) = i_lock (ic x j).
Proof.
  intros E. destruct (filled_inode i d x') as [F1 F2]. split; intros j; (destruct (decide (j = i)) as [->|Hne]; [rewrite F1|rewrite F2 by done]; by rewrite E).
Qed.

Lemma icache_ok_fields x x' : fields_same x x' -> icache_ok x -> icache_ok x'.
Proof.
  intros Hf [A B]. split; unfold caches in *.
  - intros j. destruct (Hf j) as (-> & _ & _). apply A.
  - intros j k dev inum. destruct (Hf j) as (-> & -> & ->), (Hf k) as (-> & -> & ->). apply B.
Qed.

Lemma calm_filled i d x x' : calm (Some i) x -> same x x' -> dinode_at x (i_inum (ic x i)) = Ok d -> calm (Some i) (filled_in i d x') /\ keeps x (filled_in i d x').
Proof.
  intros [A1 A2 A3 A4 A5] Hs Hd. pose proof Hs as [[S1 S2 S3 S4 S5] S6 S7]. assert (keeps x (filled_in i d x')) as K by by split.
  destruct (filled_fields i d x x' S2) as [Hf Hl]. split; [|done]. split.
  - by apply (icache_ok_fields x).
  - change (locked (ic_lock x') = 0). by rewrite S3.
  - intros j Hj Hne. rewrite Hl. by apply A3.
  - intros j Hj. rewrite (keeps_at _ _ _ K). destruct (Hf j) as (-> & -> & ->). destruct (filled_inode i d x') as [F1 F2].
    destruct (decide (j = i)) as [->|Hne]; [by rewrite F1|]. rewrite F2, S2 by done. by apply A4.
  - change (holds x' = []). by rewrite S5.
Qed.

Lemma ilock_calm p s x i inum d pr : up p s -> pt_proc s !! p = Some pr -> calm None x -> slot_of i -> caches x i 1 inum -> dinode_at x inum = Ok d -> d_type d <> 0 -> IBLOCK inum (f_sb x) < nblocks x ->
  exists s' x', ilock resume rounds lock_at (Some i) s x = Ok (s', x') /\ called p s s' /\ calm (Some i) x' /\ keeps x x' /\ inode_mine pr i x' /\
    i_d (ic x' i) = d /\ fields_same x x'.
Proof.
  intros U Hp Hc Hi (Hr & Hdev & Hin) Hd Ht Hib. destruct (up_cpu _ _ U) as (c & Ho). unfold ilock, acquiresleep. rewrite (proj2 (Z.ltb_ge _ _)) by lia.
  destruct (cm_slots _ _ Hc i Hi) as [Hlk Hsl]; [done|].
  destruct (acquiresleep_free (SX := inode_sl i) resume (lock_at i) (lock_only i) (lock_only_put i) c p rounds s x pr Ho Hlk Hsl Hp Hrounds) as (m & x1 & -> & R1 & Hl1 & Hpid1 & Hlk1 & Ho1).
  cbn [res_bind]. destruct (lock_only_inode _ _ _ i R1) as (E1 & E2 & E3 & E4 & E5). destruct (lock_only_keeps _ _ _ R1) as (K1 & _ & Hh1).
  assert (calm (Some i) x1) as Hc1. { eapply calm_relock; [exact Hc|exact R1|done|done]. }
  assert (fields_same x x1) as Hf1. { intros j. by destruct (lock_only_inode _ _ _ j R1) as (? & ? & ? & ? & ?). }
  assert (inode_mine pr i x1) as Hm1 by (split; [lia|]; split; [exact Hlk1|]; split; [cbn in Hl1; lia|exact Hpid1]).
  assert (dinode_at x1 (i_inum (ic x1 i)) = Ok d) as Hd1 by by rewrite E5, (keeps_at _ _ _ K1), Hin.
  exists (set_mach m s). destruct (Z.eqb_spec (i_valid (ic x1 i)) 0) as [Ev|Ev].
  2: { exists x1. split; [done|]. split; [by eapply called_mach|]. split_and!; try done.
       pose proof (cm_valid _ _ Hc1 i Hi ltac:(lia) ltac:(congruence) Ev) as Hv. rewrite Hd1 in Hv. by injection Hv. }
  destruct (ilock_fill i x1 d) as (x2 & y & x3 & -> & Eic & Eg & Ebr & Ey & Hs); [|done|].
  { rewrite E4, E5, Hdev, Hin. split; [done|]. rewrite (kp_sb _ _ K1), (kp_nblk _ _ K1). split; [done|]. rewrite (cm_held _ _ Hc1). apply not_elem_of_nil. }
  cbn [res_bind]. rewrite Eic, Eg. cbn [res_bind]. rewrite Ebr. cbn [res_bind]. rewrite Ey.
  destruct (filled_inode i d x3) as [F1 F2]. rewrite F1. cbn [i_d set_i_valid set_i_d]. rewrite (proj2 (Z.eqb_neq _ _) Ht).
  destruct (calm_filled i d x1 x3 Hc1 Hs Hd1) as [Hc2 K2]. destruct (filled_fields i d x1 x3 (fr_ic _ _ (sm_frame _ _ Hs))) as [Hf2 Hl2].
  exists (filled_in i d x3). split; [done|]. split; [by eapply called_mach|]. split; [done|]. split; [by etrans|]. split; [|split; [by rewrite F1|]].
  - unfold inode_mine in *. rewrite Hl2. by destruct (Hf2 i) as (-> & _).
  - intros j. destruct (Hf2 j) as (-> & -> & ->). apply Hf1.
Qed.

(** *** iunlock and iput *)

Lemma iunlock_calm p s x i pr : up p s -> pt_proc s !! p = Some pr -> calm (Some i) x -> inode_mine pr i x ->
  exists s' x', iunlock lock_at (Some i) s x = Ok (s', x') /\ called p s s' /\ calm None x' /\ keeps x x' /\ fields_same x x' /\ (forall j, i_d (ic x' j) = i_d (ic x j)).
Proof.
  intros U Hp Hc (Hr & Hlk & Hl & Hpid). destruct (up_cpu _ _ U) as (c & Ho). unfold iunlock, holdingsleep, releasesleep.
  destruct (holdingsleep_mine (SX := inode_sl i) (lock_only i) (lock_only_put i) c p s x pr Ho Hlk Hl Hp Hpid) as (m & x1 & -> & R1 & _ & _ & Hlk1 & Ho1). cbn [res_bind negb orb].
  destruct (lock_only_fields _ _ _ R1) as (E1 & _). rewrite (proj2 (Z.ltb_ge _ _)) by lia.
  destruct (releasesleep_ok (SX := inode_sl i) (lock_at i) (lock_only i) (lock_only_put i) c p (set_mach m s) x1 Ho1 Hlk1 (up_pt _ _ U)) as (s2 & x2 & E & R2 & Hl2 & Hlk2 & Ho2 & Hpt2 & Hp2).
  rewrite E. assert (lock_only i x x2) as R by by etrans. exists s2, x2. split; [done|]. split; [|split; [|split; [|split]]].
  - eapply called_trans; [by eapply called_mach|]. eapply (called_wake p c (set_mach m s) s2); [|exact (releasesleep_beyond (SX := inode_sl i) _ _ _ _ _ E)|done|done|exact Hp2].
    by eapply called_up, called_mach.
  - eapply calm_relock; [exact Hc|exact R|congruence|done].
  - by apply (lock_only_keeps i).
  - intros j. by destruct (lock_only_inode _ _ _ j R) as (? & ? & ? & ? & ?).
  - intros j. by destruct (lock_only_inode _ _ _ j R) as (? & ? & ? & ? & ?).
Qed.

(** One reference less. *)
Definition unref i x : fsx := upd_i i (fun ip => set_i_ref (i_ref ip - 1) ip) x.

Lemma unref_inode i k x j : ic (set_ic_lock k (unref i x)) j = set_i_ref (i_ref (ic x j) - if bool_decide (j = i) then 1 else 0) (ic x j).
Proof.
  unfold unref, upd_i. cbn. unfold fupd. destruct (Z.eqb_spec j i) as [->|Hne]; [by rewrite bool_decide_true|]. rewrite bool_decide_false, Z.sub_0_r by done. by destruct (ic x j).
Qed.

Lemma calm_unref i k x : calm None x -> slot_of i -> 0 < i_ref (ic x i) -> locked k = 0 -> calm None (set_ic_lock k (unref i x)).
Proof.
  intros [[A B] H2 H3 H4 H5] Hi Hr Hk. split; try done.
  - split.
    + intros j Hj. rewrite unref_inode. cbn. specialize (A j Hj). destruct (bool_decide_reflect (j = i)) as [->|]; lia.
    + intros j l dev inum Hj Hl (J1 & J2 & J3) (L1 & L2 & L3). rewrite unref_inode in *. cbn in *. apply (B j l dev inum); try done; (split; [|done]); repeat case_bool_decide; lia.
  - intros j Hj Hne. rewrite unref_inode. cbn. by apply H3.
  - intros j Hj. rewrite unref_inode. cbn. intros Hrj Hd Hv. apply H4; [done| |done|done]. case_bool_decide; lia.
Qed.

Lemma iput_calm p s x i inum d pr : up p s -> pt_proc s !! p = Some pr -> calm None x -> slot_of i -> caches x i 1 inum -> dinode_at x inum = Ok d -> d_nlink d <> 0 ->
  exists s' x', iput resume rounds lock_at i s x = Ok (s', x') /\ called p s s' /\ calm None x' /\ keeps x x' /\
    (forall j, i_ref (ic x' j) = i_ref (ic x j) - (if bool_decide (j = i) then 1 else 0) /\ i_dev (ic x' j) = i_dev (ic x j) /\ i_inum (ic x' j) = i_inum (ic x j)).
Proof.
  intros U Hp Hc Hi (Hr & Hdev & Hin) Hd Hnl. destruct (up_cpu _ _ U) as (c & Ho). unfold iput, acquiresleep, releasesleep. destruct (cm_slots _ _ Hc i Hi) as [Hlk Hsl]; [done|].
  destruct (acquiresleep_free (SX := inode_sl i) resume (lock_at i) (lock_only i) (lock_only_put i) c p rounds s x pr Ho Hlk Hsl Hp Hrounds) as (m & x1 & -> & R1 & Hl1 & Hpid1 & Hlk1 & Ho1).
  cbn [res_bind]. destruct (lock_only_inode _ _ _ i R1) as (E1 & E2 & E3 & E4 & E5).
  assert (negb (i_valid (ic x1 i) =? 0) && (d_nlink (i_d (ic x1 i)) =? 0) = false) as ->.
  { rewrite E2, E3. destruct (Z.eqb_spec (i_valid (ic x i)) 0) as [|Ev]; [done|]. pose proof (cm_valid _ _ Hc i Hi Hr Hdev Ev) as Hv. rewrite Hin, Hd in Hv. injection Hv as <-.
    by rewrite (proj2 (Z.eqb_neq _ _) Hnl). }
  cbn [res_bind]. destruct (releasesleep_ok (SX := inode_sl i) (lock_at i) (lock_only i) (lock_only_put i) c p (set_mach m s) x1 Ho1 Hlk1 (up_pt _ _ U)) as (s2 & x2 & E & R2 & Hl2 & Hlk2 & Ho2 & Hpt2 & Hp2).
  rewrite E. cbn [res_bind]. assert (lock_only i x x2) as R by by etrans. assert (called p s s2) as C2.
  { eapply called_trans; [by eapply called_mach|]. eapply (called_wake p c (set_mach m s) s2); [|exact (releasesleep_beyond (SX := inode_sl i) _ _ _ _ _ E)|done|done|exact Hp2]. by eapply called_up, called_mach. }
  assert (calm None x2) as Hc2 by (eapply calm_relock; [exact Hc|exact R|done|done]).
  destruct (lock_icache_ok c p s2 x2 Ho2 (cm_lock _ _ Hc2)) as (k3 & m3 & -> & Hh3 & Hin3). cbn [res_bind]. fold (unref i (set_ic_lock k3 x2)).
  destruct (unlock_icache_ok c p (set_mach m3 s2) (unref i (set_ic_lock k3 x2)) Hin3 Hh3) as (k4 & m4 & -> & Hk4 & Ho4).
  destruct (lock_only_inode _ _ _ i R) as (F1 & _). exists (set_mach m4 (set_mach m3 s2)), (set_ic_lock k4 (unref i (set_ic_lock k3 x2))). split; [done|].
  split; [eapply called_trans; [exact C2|]; exact (called_mach p c s2 m4 (called_up _ _ _ C2) Ho4)|]. split; [|split].
  - apply (calm_unref i k4 x2); [done|done|lia|done].
  - etrans; [apply (lock_only_keeps i), R|]. by split.
  - intros j. rewrite unref_inode. cbn [ic set_ic_lock]. destruct (lock_only_inode _ _ _ j R) as (-> & _ & _ & Ed & En). by split_and!.
Qed.
End Locks.

(** ** The tree of directories *)

(** The file system with the inode [d] in every place of the cache: the contents
    of a file do not depend on where its inode is cached. *)
Definition view d x : fsx :=
  mkFs (mkLst (mkLog (mkLock 0 "log" None []) 0 0 0 0 0 0 []) (bd (f_log x))) (f_sb x) (mkLock 0 "icache" None []) (fun _ => mkInode 1 0 1 (mkSleeplock 0 (mkLock 0 "sleep lock" None []) "inode" 0) 1 d).

Lemma view_same d x x' : unwritten x x' -> holds x' = holds x -> same (view d x) (view d x').
Proof. intros [H1 H2 H3] Hh. split; [by split|done|done]. Qed.

Lemma view_dent x i k : dent x i k = dent (view (i_d (ic x i)) x) 0 k.
Proof. done. Qed.

Lemma view_find x i n nm : forall k, dir_find n k nm x i = dir_find n k nm (view (i_d (ic x i)) x) 0.
Proof. induction n as [|n IH]; intros k; cbn [dir_find]; [done|]. rewrite <- IH. done. Qed.

Lemma view_dir x i n : i_dev (ic x i) = 1 -> dir_ok (view (i_d (ic x i)) x) 0 n -> dir_ok x i n.
Proof. intros Hd [H1 H2 H3 H4]. split; try done. intros pos Hpos. destruct (H4 pos Hpos) as [M1 M2 M3 M4 M5]. by split. Qed.

(** An inode that is on the disk and linked. *)
Record inode_on x inum d : Prop := {
  io_at : dinode_at x inum = Ok d;
  io_type : d_type d <> 0;
  io_link : d_nlink d <> 0;
  io_block : IBLOCK inum (f_sb x) < nblocks x
}.

Definition entries d : Z := d_size d / sizeof_dirent.

(** The inodes of [D] are on the disk, and the directories among them lead to
    inodes of [D]. *)
Record tree x (D : Z -> Prop) : Prop := {
  tr_inode inum : D inum -> exists d, inode_on x inum d;
  tr_dir inum d : D inum -> dinode_at x inum = Ok d -> d_type d = T_DIR ->
    dir_ok (view d x) 0 (entries d) /\ forall k, 0 <= k < entries d -> dent_inum (view d x) 0 k <> 0 -> D (dent_inum (view d x) 0 k)
}.

Lemma tree_unwritten x x' D : unwritten x x' -> holds x' = holds x -> tree x D -> tree x' D.
Proof.
  intros K Hh [T1 T2]. split.
  - intros inum Hin. destruct (T1 inum Hin) as (d & [H1 H2 H3 H4]). exists d. split; [by rewrite (unwritten_at _ _ _ K)|exact H2|exact H3|by rewrite (uw_sb _ _ K), (uw_nblk _ _ K)].
  - intros inum d Hin Hd Ht. rewrite (unwritten_at _ _ _ K) in Hd. destruct (T2 inum d Hin Hd Ht) as [H1 H2]. pose proof (view_same d x x' K Hh) as Hs. split; [by apply (dir_ok_same (view d x))|].
    intros k Hk. unfold dent_inum. rewrite (dent_same _ _ _ _ Hs). by apply H2.
Qed.

Lemma tree_keeps x x' D : keeps x x' -> holds x' = holds x -> tree x D -> tree x' D.
Proof. intros K. by apply tree_unwritten, keeps_unwritten. Qed.

(** Where the elements [es] lead to from the directory [inum]; for [nameiparent],
    the directory of the last one. *)
Fixpoint resolve (parent : bool) x (es : list (list Z)) inum : option Z :=
  match es with
  | [] => if parent then None else Some inum
  | e :: es' =>
      match dinode_at x inum with
      | Ok d =>
          if d_type d =? T_DIR then
            if parent && bool_decide (es' = []) then Some inum
            else
              match dir_find (Z.to_nat (entries d)) 0 (take DIRSIZ e) (view d x) 0 with
              | Some (_, i) => resolve parent x es' i
              | None => None
              end
          else None
      | _ => None
      end
  end.

Lemma resolve_unwritten parent x x' : unwritten x x' -> holds x' = holds x -> forall es inum, resolve parent x' es inum = resolve parent x es inum.
Proof.
  intros K Hh. induction es as [|e es IH]; intros inum; cbn [resolve]; [done|]. rewrite (unwritten_at _ _ _ K). destruct (dinode_at x inum) as [d| | | |]; try done.
  destruct (_ =? _); [|done]. destruct (_ && _); [done|]. rewrite (dir_find_same _ _ _ _ _ (view_same d x x' K Hh)). destruct (dir_find _ _ _ _ _) as [[k i]|]; [apply IH|done].
Qed.

Lemma resolve_keeps parent x x' : keeps x x' -> holds x' = holds x -> forall es inum, resolve parent x' es inum = resolve parent x es inum.
Proof. intros K. by apply resolve_unwritten, keeps_unwritten. Qed.

(** A path that starts in [D] ends there. *)
Lemma resolve_in x D : tree x D -> forall es inum i, D inum -> resolve false x es inum = Some i -> D i.
Proof.
  intros Ht. induction es as [|e es IH]; intros inum i HD H; cbn [resolve] in H; [by injection H as <-|]. destruct (dinode_at x inum) as [d| | | |] eqn:Ed; try done.
  destruct (Z.eqb_spec (d_type d) T_DIR) as [Et|]; [|done]. cbn [andb] in H. destruct (tr_dir _ _ Ht inum d HD Ed Et) as [_ Hent].
  pose proof (dir_find_spec (take DIRSIZ e) (view d x) 0 (Z.to_nat (entries d)) 0) as Hf. destruct (dir_find _ _ _ _ _) as [[k j]|]; [|done]. destruct Hf as (Hk & -> & (Hne & _) & _).
  eapply IH; [|exact H]. apply Hent; [lia|done].
Qed.

Lemma calm_same h x x' : calm h x -> same x x' -> calm h x'.
Proof.
  intros [[A B] H2 H3 H4 H5] Hs. pose proof (same_keeps _ _ Hs) as K. pose proof Hs as [[S1 S2 S3 S4 S5] S6 S7]. split.
  - split; unfold caches; rewrite S2; done.
  - by rewrite S3.
  - rewrite S2. exact H3.
  - intros i Hi. rewrite (keeps_at _ _ _ K), S2. by apply H4.
  - by rewrite S5.
Qed.

(** [elems] of the rest of a path. *)
Lemma skip_slashes_idem path : skip_slashes (skip_slashes path) = skip_slashes path.
Proof.
  induction path as [|c path IH]; cbn [skip_slashes]; [done|]. destruct (c =? SLASH) eqn:E; [done|]. cbn [skip_slashes]. by rewrite E.
Qed.

Lemma skipelem_rest path name rest name' : skipelem path name = Some (rest, name') -> skip_slashes rest = rest.
Proof. unfold skipelem. destruct (skip_slashes path) as [|c q]; [done|]. destruct (span_elem (c :: q)) as [e r]. intros [= <- _]. apply skip_slashes_idem. Qed.

Lemma elems_nil path : Forall (fun c : Z => c <> 0) path -> elems path = [] -> skip_slashes path = [].
Proof.
  intros H0 He. pose proof (skipelem_ok path (repeat 0 DIRSIZ) H0 eq_refl) as H. unfold skipelem in H. destruct (skip_slashes path) as [|c q]; [done|].
  destruct (span_elem (c :: q)) as [e r]. destruct H as (e' & E & _). rewrite He in E. done.
Qed.

(** ** The loop of namex *)

Section Walk.
Context (dr : Z -> option (Z -> Z -> kst -> fsx -> res (Z * list Z * kst * fsx))).
Context (resume : kst -> fsx -> kst * fsx) (rounds : nat) (lock_at : Z -> Z) (Hrounds : (0 < rounds)%nat).
Context (p : nat) (pr : proc) (Hrun : state pr = RUNNING) (D : Z -> Prop).

Lemma called_self s s' : called p s s' -> pt_proc s !! p = Some pr -> pt_proc s' !! p = Some pr.
Proof. intros [R _] Hp. by eapply ran_self. Qed.

(** At least two entries of the cache are free. *)
Definition two_free (r : Z -> Z) : Prop := exists f g, slot_of f /\ slot_of g /\ f <> g /\ r f = 0 /\ r g = 0.

Lemma free_other r x i : two_free r -> refs_at r (Some i) x -> exists j, slot_of j /\ i_ref (ic x j) = 0.
Proof.
  intros (f & g & Hf & Hg & Hne & Rf & Rg) H. destruct (decide (f = i)) as [->|Hfi].
  - exists g. split; [done|]. rewrite (H g Hg), bool_decide_false by congruence. lia.
  - exists f. split; [done|]. rewrite (H f Hf), bool_decide_false by congruence. lia.
Qed.

(** [iunlockput] of an inode on the disk. *)
Lemma iunlockput_calm s x i inum d : up p s -> pt_proc s !! p = Some pr -> calm (Some i) x -> inode_mine pr i x -> slot_of i -> caches x i 1 inum -> inode_on x inum d ->
  exists s' x', iunlockput resume rounds lock_at i s x = Ok (s', x') /\ called p s s' /\ calm None x' /\ keeps x x' /\
    (forall j, i_ref (ic x' j) = i_ref (ic x j) - (if bool_decide (j = i) then 1 else 0) /\ i_dev (ic x' j) = i_dev (ic x j) /\ i_inum (ic x' j) = i_inum (ic x j)).
Proof.
  intros U Hp Hc Hm Hi Hca Hon. unfold iunlockput. destruct (iunlock_calm rounds lock_at Hrounds p s x i pr U Hp Hc Hm) as (s1 & x1 & -> & C1 & Hc1 & K1 & Hf1 & _). cbn [res_bind].
  destruct (iput_calm resume rounds lock_at Hrounds p s1 x1 i inum d pr) as (s2 & x2 & -> & C2 & Hc2 & K2 & Hf2); try done.
  - by eapply called_up.
  - by eapply called_self.
  - unfold caches. destruct (Hf1 i) as (-> & -> & ->). exact Hca.
  - rewrite (keeps_at _ _ _ K1). apply Hon.
  - apply Hon.
  - exists s2, x2. split; [done|]. split; [by eapply called_trans|]. split; [done|]. split; [by etrans|]. intros j. destruct (Hf2 j) as (-> & -> & ->). by destruct (Hf1 j) as (-> & -> & ->).
Qed.

(** Looking up a name in the locked directory [i]. *)
Lemma dirlookup_calm s x i n nm r : up p s -> calm (Some i) x -> slot_of i -> i_dev (ic x i) = 1 -> inode_mine pr i x -> dir_ok x i n -> length nm = DIRSIZ ->
  two_free r -> refs_at r (Some i) x ->
  exists s' x', called p s s' /\ calm (Some i) x' /\ keeps x x' /\ inode_mine pr i x' /\ i_dev (ic x' i) = 1 /\ i_inum (ic x' i) = i_inum (ic x i) /\
    match dir_find (Z.to_nat n) 0 (buf_str nm) x i with
    | None => dirlookup dr i nm s x = Ok (None, s', x') /\ refs_at r (Some i) x'
    | Some (k, inum) => exists q, dirlookup dr i nm s x = Ok (Some (q, sizeof_dirent * k), s', x') /\ slot_of q /\ caches x' q 1 inum /\
        forall j, slot_of j -> i_ref (ic x' j) = r j + (if bool_decide (Some i = Some j) then 1 else 0) + (if bool_decide (j = q) then 1 else 0)
    end.
Proof.
  intros U Hc Hi Hdev Hm Hdir Hl Hfree Hr. destruct (dirlookup_ok dr i nm n s x Hdir Hl) as (x1 & Hs & ->). pose proof (calm_same _ _ _ Hc Hs) as Hc1. pose proof (same_keeps _ _ Hs) as K1.
  pose proof (fr_ic _ _ (sm_frame _ _ Hs)) as Eic. assert (inode_mine pr i x1) as Hm1 by (unfold inode_mine; rewrite Eic; exact Hm).
  assert (refs_at r (Some i) x1) as Hr1 by (unfold refs_at; rewrite Eic; exact Hr). destruct (dir_find _ _ _ _ _) as [[k inum]|].
  2: { exists s, x1. split; [by apply called_refl|]. rewrite Eic. by split_and!. }
  rewrite Hdev. destruct (iget_calm p inum s x1 (Some i) U Hc1 (free_other r x1 i Hfree Hr1)) as (q & s2 & x2 & -> & C2 & Hc2 & K2 & Hq & Hca & Hf2 & Hk2). cbn [res_bind].
  exists s2, x2. split; [done|]. split; [done|]. split; [by etrans|]. specialize (Hk2 i ltac:(destruct Hm1; lia)). specialize (Hf2 i) as Hfi. rewrite Eic in Hk2, Hfi.
  injection Hk2 as E1 E2 E3 E4 E5. split; [|split; [congruence|split; [done|]]].
  - unfold inode_mine. rewrite E3. destruct Hm as (M1 & M2 & M3 & M4). split_and!; try done. case_bool_decide; lia.
  - exists q. split; [done|]. split; [done|]. split; [done|]. intros j Hj. rewrite Hf2. by rewrite (Hr1 j Hj).
Qed.

(** The inode that [r] stands for is that of the path, with one more reference
    than [r0] says; for [nameiparent], [nm] is the last element. *)
Definition walked parent x es inum r0 (r : option Z) (nm : list Z) x' : Prop :=
  match resolve parent x es inum with
  | Some i => exists q, r = Some q /\ slot_of q /\ caches x' q 1 i /\ refs_at r0 (Some q) x' /\
      (parent = true -> exists e, last es = Some e /\ buf_str nm = take DIRSIZ e)
  | None => r = None /\ refs_at r0 None x'
  end.

Lemma refs_drop r i x x' : refs_at r (Some i) x -> (forall j, i_ref (ic x' j) = i_ref (ic x j) - (if bool_decide (j = i) then 1 else 0) /\ i_dev (ic x' j) = i_dev (ic x j) /\ i_inum (ic x' j) = i_inum (ic x j)) -> refs_at r None x'.
Proof.
  intros H Hf j Hj. destruct (Hf j) as (-> & _). rewrite (H j Hj). rewrite (bool_decide_false (None = Some j)) by done. repeat case_bool_decide; try lia; congruence.
Qed.

(** The last step: no directory, or the parent was asked for. *)
Lemma walk_locked s x i inum d : up p s -> pt_proc s !! p = Some pr -> calm None x -> slot_of i -> caches x i 1 inum -> inode_on x inum d ->
  exists s' x', ilock resume rounds lock_at (Some i) s x = Ok (s', x') /\ called p s s' /\ calm (Some i) x' /\ keeps x x' /\ inode_mine pr i x' /\
    i_d (ic x' i) = d /\ fields_same x x' /\ caches x' i 1 inum /\ inode_on x' inum d.
Proof.
  intros U Hp Hc Hi Hca [O1 O2 O3 O4]. destruct (ilock_calm resume rounds lock_at Hrounds p s x i inum d pr U Hp Hc Hi Hca O1 O2 O4) as (s' & x' & E & C & Hc' & K & Hm & Hd & Hf).
  exists s', x'. do 7 (split; [done|]). split.
  - unfold caches. destruct (Hf i) as (-> & -> & ->). exact Hca.
  - split; [by rewrite (keeps_at _ _ _ K)|exact O2|exact O3|by rewrite (kp_sb _ _ K), (kp_nblk _ _ K)].
Qed.

Lemma refs_fields r o x x' : fields_same x x' -> refs_at r o x -> refs_at r o x'.
Proof. intros Hf H j Hj. destruct (Hf j) as (-> & _). by apply H. Qed.

Lemma calm_holds h x x' h' : calm h x -> calm h' x' -> holds x' = holds x.
Proof. intros H1 H2. by rewrite (cm_held _ _ H1), (cm_held _ _ H2). Qed.

Lemma inode_on_keeps x x' inum d : keeps x x' -> inode_on x inum d -> inode_on x' inum d.
Proof. intros K [O1 O2 O3 O4]. split; [by rewrite (keeps_at _ _ _ K)|exact O2|exact O3|by rewrite (kp_sb _ _ K), (kp_nblk _ _ K)]. Qed.

(** The end of the path. *)
Lemma walk_end parent r0 name ip inum s x : up p s -> pt_proc s !! p = Some pr -> calm None x -> tree x D -> D inum -> slot_of ip -> caches x ip 1 inum -> refs_at r0 (Some ip) x ->
  exists r s' x', (if parent : bool then let? (s, x) := iput resume rounds lock_at ip s x in Ok (None, name, s, x) else Ok (Some ip, name, s, x)) = Ok (r, name, s', x') /\
    called p s s' /\ calm None x' /\ keeps x x' /\ walked parent x [] inum r0 r name x'.
Proof.
  intros U Hp Hc Ht HD Hi Hca Hr. unfold walked. cbn [resolve]. destruct parent.
  - destruct (tr_inode _ _ Ht inum HD) as (d & [O1 O2 O3 O4]). destruct (iput_calm resume rounds lock_at Hrounds p s x ip inum d pr U Hp Hc Hi Hca O1 O3) as (s2 & x2 & -> & C2 & Hc2 & K2 & Hf2).
    cbn [res_bind]. exists None, s2, x2. split; [done|]. split; [done|]. split; [done|]. split; [done|]. split; [done|]. by eapply refs_drop.
  - exists (Some ip), s, x. split; [done|]. split; [by apply called_refl|]. split; [done|]. split; [done|]. by exists ip.
Qed.

(** One directory: the name is looked up, the directory is put back. *)
Lemma walk_dir s x ip inum d nm r0 : up p s -> pt_proc s !! p = Some pr -> calm (Some ip) x -> tree x D -> D inum -> slot_of ip -> caches x ip 1 inum ->
  inode_mine pr ip x -> i_d (ic x ip) = d -> inode_on x inum d -> d_type d = T_DIR -> length nm = DIRSIZ -> two_free r0 -> refs_at r0 (Some ip) x ->
  exists r s' x', (let? (r, s, x) := dirlookup dr ip nm s x in
      let? (s, x) := iunlockput resume rounds lock_at ip s x in Ok (r, s, x)) = Ok (r, s', x') /\
    called p s s' /\ calm None x' /\ keeps x x' /\
    match dir_find (Z.to_nat (entries d)) 0 (buf_str nm) (view d x) 0 with
    | Some (_, i) => exists q off, r = Some (q, off) /\ D i /\ slot_of q /\ caches x' q 1 i /\ refs_at r0 (Some q) x'
    | None => r = None /\ refs_at r0 None x'
    end.
Proof.
  intros U Hp Hc Ht HD Hi Hca Hm Hd Hon Hty Hl Hfree Hr. destruct (tr_dir _ _ Ht inum d HD (io_at _ _ _ Hon) Hty) as [Hdir Hent].
  assert (dir_ok x ip (entries d)) as Hdir' by (apply view_dir; [apply Hca|by rewrite Hd]).
  destruct (dirlookup_calm s x ip (entries d) nm r0 U Hc Hi (proj1 (proj2 Hca)) Hm Hdir' Hl Hfree Hr) as (s1 & x1 & C1 & Hc1 & K1 & Hm1 & Ed1 & En1 & Hfind).
  rewrite view_find, Hd in Hfind. pose proof (dir_find_spec (buf_str nm) (view d x) 0 (Z.to_nat (entries d)) 0) as Hsp.
  assert (caches x1 ip 1 inum) as Hca1 by (destruct Hm1, Hca as (_ & _ & ?); split_and!; [lia|done|congruence]).
  pose proof (iunlockput_calm s1 x1 ip inum d (called_up _ _ _ C1) (called_self _ _ C1 Hp) Hc1 Hm1 Hi Hca1 (inode_on_keeps _ _ _ _ K1 Hon)) as (s2 & x2 & E2 & C2 & Hc2 & K2 & Hf2).
  destruct (dir_find _ _ _ _ _) as [[k i]|].
  - destruct Hfind as (q & -> & Hq & (Q1 & Q2 & Q3) & Hrq), Hsp as (Hk & -> & (Hin & _) & _). cbn [res_bind]. rewrite E2. cbn [res_bind]. exists (Some (q, sizeof_dirent * k)), s2, x2.
    split; [done|]. split; [by eapply called_trans|]. split; [done|]. split; [by etrans|]. exists q, (sizeof_dirent * k). split; [done|]. split; [apply Hent; [lia|done]|]. split; [done|].
    assert (refs_at r0 (Some q) x2) as Hr2.
    { intros j Hj. destruct (Hf2 j) as (-> & _). rewrite (Hrq j Hj). repeat case_bool_decide; try lia; congruence. }
    split; [|done]. destruct (Hf2 q) as (_ & Eq1 & Eq2). split; [|split; congruence]. rewrite (Hr2 q Hq), bool_decide_true by done.
    pose proof (ic_refs _ (cm_ic _ _ Hc) q Hq) as Hge. rewrite (Hr q Hq) in Hge. case_bool_decide as Hqi; [|lia]. injection Hqi as <-. destruct Hca as (Hpos & _). rewrite (Hr ip Hi), bool_decide_true in Hpos by done. lia.
  - destruct Hfind as [-> Hr1]. cbn [res_bind]. rewrite E2. cbn [res_bind]. exists None, s2, x2. split; [done|]. split; [by eapply called_trans|]. split; [done|]. split; [by etrans|].
    split; [done|]. by eapply refs_drop.
Qed.

Lemma namex_loop_ok parent r0 : two_free r0 -> forall n path name ip inum s x,
  (length path < n)%nat -> Forall (fun c : Z => c <> 0) path -> length name = DIRSIZ -> up p s -> pt_proc s !! p = Some pr ->
  calm None x -> tree x D -> D inum -> slot_of ip -> caches x ip 1 inum -> refs_at r0 (Some ip) x ->
  exists r nm s' x', namex_loop dr resume rounds lock_at n parent ip path name s x = Ok (r, nm, s', x') /\
    called p s s' /\ calm None x' /\ keeps x x' /\ walked parent x (elems path) inum r0 r nm x'.
Proof.
  intros Hfree. induction n as [|n IH]; intros path name ip inum s x Hn H0 Hl U Hp Hc Ht HD Hi Hca Hr; [lia|]. cbn [namex_loop].
  pose proof (skipelem_ok path name H0 Hl) as Hsk. destruct (skipelem path name) as [[rest nm]|] eqn:Esk.
  2: { rewrite Hsk. destruct (walk_end parent r0 name ip inum s x U Hp Hc Ht HD Hi Hca Hr) as (r & s' & x' & H). by exists r, name, s', x'. }
  destruct Hsk as (e & Ee & _ & Hln & Hnm & Hlen & H0r). rewrite Ee. unfold walked. cbn [resolve]. destruct (tr_inode _ _ Ht inum HD) as (d & Hon). rewrite (io_at _ _ _ Hon).
  destruct (walk_locked s x ip inum d U Hp Hc Hi Hca Hon) as (s1 & x1 & -> & C1 & Hc1 & K1 & Hm1 & Hd1 & Hf1 & Hca1 & Hon1). cbn [res_bind]. rewrite Hd1.
  pose proof (called_self _ _ C1 Hp) as Hp1. pose proof (called_up _ _ _ C1) as U1. pose proof (refs_fields _ _ _ _ Hf1 Hr) as Hr1. destruct (Z.eqb_spec (d_type d) T_DIR) as [Ed|Ed]; cbn [negb].
  2: { destruct (iunlockput_calm s1 x1 ip inum d U1 Hp1 Hc1 Hm1 Hi Hca1 Hon1) as (s2 & x2 & -> & C2 & Hc2 & K2 & Hf2). cbn [res_bind]. exists None, nm, s2, x2.
       split; [done|]. split; [by eapply called_trans|]. split; [done|]. split; [by etrans|]. split; [done|]. by eapply refs_drop. }
  assert (bool_decide (rest = []) = bool_decide (elems rest = [])) as Eb.
  { apply bool_decide_ext. split; [by intros ->|]. intros H. rewrite <- (skipelem_rest _ _ _ _ Esk). by apply elems_nil. }
  rewrite Eb. destruct (parent && bool_decide (elems rest = [])) eqn:Ep.
  { apply andb_true_iff in Ep as [-> Er%bool_decide_eq_true]. destruct (iunlock_calm rounds lock_at Hrounds p s1 x1 ip pr U1 Hp1 Hc1 Hm1) as (s2 & x2 & -> & C2 & Hc2 & K2 & Hf2 & _). cbn [res_bind].
    exists (Some ip), nm, s2, x2. split; [done|]. split; [by eapply called_trans|]. split; [done|]. split; [by etrans|]. exists ip. split; [done|]. split; [done|].
    split; [unfold caches; by destruct (Hf2 ip) as (-> & -> & ->)|]. split; [by eapply refs_fields|]. intros _. exists e. rewrite Er. done. }
  pose proof (calm_holds _ _ _ _ Hc Hc1) as Hh1. pose proof (tree_keeps _ _ _ K1 Hh1 Ht) as Ht1.
  destruct (walk_dir s1 x1 ip inum d nm r0 U1 Hp1 Hc1 Ht1 HD Hi Hca1 Hm1 Hd1 Hon1 Ed Hln Hfree Hr1) as (r & s2 & x2 & E2 & C2 & Hc2 & K2 & Hw).
  assert (called p s s2) as C by by eapply called_trans. assert (keeps x x2) as K by by etrans. pose proof (calm_holds _ _ _ _ Hc Hc2) as Hh2.
  rewrite <- (dir_find_same _ _ _ _ _ (view_same d x x1 (keeps_unwritten _ _ K1) Hh1)), <- Hnm. apply res_bind_Ok in E2 as ([[r' s1'] x1'] & -> & E2). cbn [res_bind]. apply res_bind_Ok in E2 as ([s2' x2'] & -> & E2). cbn [res_bind].
  injection E2 as -> -> ->. destruct (dir_find _ _ _ _ _) as [[k i]|].
  2: { destruct Hw as [-> Hr2]. by exists None, nm, s2, x2. }
  destruct Hw as (q & off & -> & HDi & Hq & Hcq & Hrq).
  destruct (IH rest nm q i s2 x2) as (r & nm' & s3 & x3 & -> & C3 & Hc3 & K3 & Hw); try done; [lia|by eapply called_up|by eapply called_self|by eapply tree_keeps|].
  exists r, nm', s3, x3. split; [done|]. split; [by eapply called_trans|]. split; [done|]. split; [by etrans|]. unfold walked in Hw. rewrite (resolve_keeps _ _ _ K Hh2) in Hw.
  destruct (resolve _ _ _ _) as [i'|]; [|exact Hw]. destruct Hw as (q' & Hq' & H1 & H2 & H3 & H4). exists q'. split_and!; try done. intros Hpar. destruct (H4 Hpar) as (e' & He' & Hb).
  exists e'. split; [|done]. by rewrite last_cons, He'.
Qed.

(** ** namex *)

(** Where a path starts: at the root, or at the directory of the process. *)
Definition starts x (path : list Z) inum : Prop :=
  match path with
  | c :: _ => if c =? SLASH then inum = ROOTINO else slot_of (cwd pr) /\ caches x (cwd pr) 1 inum
  | [] => slot_of (cwd pr) /\ caches x (cwd pr) 1 inum
  end.

Lemma idup_calm s x i inum : up p s -> calm None x -> slot_of i -> caches x i 1 inum ->
  exists s' x', idup i s x = Ok (i, s', x') /\ called p s s' /\ calm None x' /\ keeps x x' /\ caches x' i 1 inum /\ refs_at (fun j => i_ref (ic x j)) (Some i) x'.
Proof.
  intros U Hc Hi (R1 & R2 & R3). destruct (up_cpu _ _ U) as (c & Ho). unfold idup. destruct (lock_icache_ok c p s x Ho (cm_lock _ _ Hc)) as (k1 & m1 & -> & Hh1 & Hin1). cbn [res_bind].
  destruct (unlock_icache_ok c p (set_mach m1 s) (upd_i i (fun ip => set_i_ref (i_ref ip + 1) ip) (set_ic_lock k1 x)) Hin1 Hh1) as (k2 & m2 & -> & Hk2 & Ho2). cbn [res_bind].
  set (x' := set_ic_lock k2 _). assert (forall j, ic x' j = if j =? i then set_i_ref (i_ref (ic x i) + 1) (ic x i) else ic x j) as Hx by done.
  exists (set_mach m2 (set_mach m1 s)), x'. split; [done|]. split; [exact (called_mach p c s m2 U Ho2)|]. assert (keeps x x') as K by by split. destruct Hc as [H1 H2 H3 H4 H5]. split; [|split; [done|split]].
  - split; [| | | |exact H5].
    + apply (icache_ok_ref x x' i 1 inum H1 Hi); rewrite ?Hx, ?Z.eqb_refl; try done.
      * intros j Hj. by rewrite Hx, (proj2 (Z.eqb_neq _ _) Hj).
      * intros j Hj Hcj. by apply (ic_unique _ H1 j i 1 inum).
    + exact Hk2.
    + intros j Hj Hne. rewrite Hx. destruct (Z.eqb_spec j i) as [->|]; by apply H3.
    + intros j Hj. rewrite (keeps_at _ _ _ K), Hx. destruct (Z.eqb_spec j i) as [->|]; [|by apply H4]. cbn [i_ref i_dev i_valid i_inum i_d set_i_ref]. intros _. by apply H4.
  - unfold caches. rewrite Hx, Z.eqb_refl. cbn. split; [lia|done].
  - intros j Hj. rewrite Hx. destruct (Z.eqb_spec j i) as [->|Hne]; [by rewrite bool_decide_true|]. rewrite bool_decide_false by congruence. lia.
Qed.

(** The first inode of the walk. *)
Lemma namex_start path s x inum : up p s -> pt_proc s !! p = Some pr -> calm None x -> starts x path inum -> two_free (fun j => i_ref (ic x j)) ->
  exists ip s' x', (match path with
     | c :: _ => if c =? SLASH then iget Ptable.ROOTDEV ROOTINO s x
                 else let? (q, s) := curproc s in let? pr := getp q s in idup (cwd pr) s x
     | [] => let? (q, s) := curproc s in let? pr := getp q s in idup (cwd pr) s x
     end) = Ok (ip, s', x') /\ called p s s' /\ calm None x' /\ keeps x x' /\ slot_of ip /\ caches x' ip 1 inum /\ refs_at (fun j => i_ref (ic x j)) (Some ip) x'.
Proof.
  intros U Hp Hc Hst (f & g & Hf & Hg & Hne & Rf & Rg).
  assert (slot_of (cwd pr) -> caches x (cwd pr) 1 inum -> exists ip s' x', (let? (q, s) := curproc s in let? pr := getp q s in idup (cwd pr) s x) = Ok (ip, s', x') /\
    called p s s' /\ calm None x' /\ keeps x x' /\ slot_of ip /\ caches x' ip 1 inum /\ refs_at (fun j => i_ref (ic x j)) (Some ip) x') as Hcwd.
  { intros Hi Hca. destruct (up_cpu _ _ U) as (c & Ho). destruct (curproc_outside c p s Ho) as (m & -> & Ho1). cbn [res_bind]. pose proof (called_mach p c s m U Ho1) as C1.
    rewrite (getp_lookup p _ pr) by exact Hp. cbn [res_bind]. destruct (idup_calm (set_mach m s) x (cwd pr) inum (called_up _ _ _ C1) Hc Hi Hca) as (s' & x' & E & C2 & H).
    exists (cwd pr), s', x'. split; [done|]. split; [by eapply called_trans|]. by destruct H as (? & ? & ? & ?). }
  destruct path as [|c path]; [by apply Hcwd; apply Hst|]. cbn [starts] in Hst. destruct (c =? SLASH); [|by apply Hcwd; apply Hst]. subst inum.
  destruct (iget_calm p ROOTINO s x None U Hc) as (i & s' & x' & E & C & Hc' & K & Hi & Hca & Hr & _); [by exists f|]. exists i, s', x'. split; [exact E|]. split_and!; try done.
  intros j Hj. rewrite Hr. repeat case_bool_decide; try done; congruence.
Qed.

Lemma namex_ok path parent name s x inum : up p s -> pt_proc s !! p = Some pr -> calm None x -> tree x D -> D inum -> starts x path inum -> two_free (fun j => i_ref (ic x j)) ->
  Forall (fun c : Z => c <> 0) path -> length name = DIRSIZ ->
  exists r nm s' x', namex dr resume rounds lock_at path parent name s x = Ok (r, nm, s', x') /\ called p s s' /\ calm None x' /\ keeps x x' /\
    walked parent x (elems path) inum (fun j => i_ref (ic x j)) r nm x'.
Proof.
  intros U Hp Hc Ht HD Hst Hfree H0 Hl. unfold namex. destruct (namex_start path s x inum U Hp Hc Hst Hfree) as (ip & s1 & x1 & -> & C1 & Hc1 & K1 & Hi & Hca & Hr1). cbn [res_bind].
  pose proof (calm_holds _ _ _ _ Hc Hc1) as Hh1.
  destruct (namex_loop_ok parent _ Hfree (S (length path)) path name ip inum s1 x1) as (r & nm & s' & x' & -> & C & Hc' & K & Hw); try done; [lia|by eapply called_up|by eapply called_self|by eapply tree_keeps|].
  exists r, nm, s', x'. split; [done|]. split; [by eapply called_trans|]. split; [done|]. split; [by etrans|]. unfold walked in *. by rewrite (resolve_keeps _ _ _ K1 Hh1) in Hw.
Qed.

(** C7: [namex] resolves a path.  In a file system at rest, whose inodes of [D] are on
    the disk and whose directories lead from [D] to [D], it finds the inode
    that the elements of the path lead to from the root, or from the directory
    of the process, or null where an element is missing or not in a directory;
    for [nameiparent] it finds the directory of the last element, whose name it
    leaves in [name].  Nothing on the disk changes, every lock is free again, and
    only the inode returned has one more reference. *)
Theorem namex_spec path parent name s x inum : up p s -> pt_proc s !! p = Some pr -> calm None x -> tree x D -> D inum -> starts x path inum ->
  two_free (fun j => i_ref (ic x j)) -> Forall (fun c : Z => c <> 0) path -> length name = DIRSIZ ->
  exists r nm s' x', namex dr resume rounds lock_at path parent name s x = Ok (r, nm, s', x') /\ called p s s' /\ calm None x' /\ keeps x x' /\
    match resolve parent x (elems path) inum with
    | Some i => exists q, r = Some q /\ slot_of q /\ caches x' q 1 i /\ refs_at (fun j => i_ref (ic x j)) (Some q) x' /\
        (parent = true -> exists e, last (elems path) = Some e /\ buf_str nm = take DIRSIZ e)
    | None => r = None /\ refs_at (fun j => i_ref (ic x j)) None x'
    end.
Proof. apply namex_ok. Qed.
End Walk.
End Calm.

(** * The example *)

(** The disk of the example: a root directory with one file, [init]. *)
Definition demo_dirent (inum : Z) (name : list Z) : list Z := enc 2 inum ++ name ++ repeat 0 (14 - length name).
Definition demo_dnode (type size a : Z) : list Z :=
  flat_map (enc 2) [type; 0; 0; 1] ++ enc 4 size ++ enc 4 a ++ repeat 0 48.

(** A program file: the header, one segment, and its four bytes. *)
Definition demo_program : list Z :=
  flat_map (enc 4) [0x464C457F; 0; 0; 0; 0x00030002; 1; 0; 52; 0; 0] ++ flat_map (enc 2) [52; 32; 1; 0; 0; 0] ++
  flat_map (enc 4) [1; 84; 0; 0; 4; 8; 7; 4096] ++ [0xEB; 0xFE; 1; 2].

Definition demo_tree_blk (b : Z) : block :=
  if b =? 32 then repeat 0 64 ++ demo_dnode T_DIR 48 59 ++ demo_dnode T_FILE 88 60 ++ repeat 0 320
  else if b =? 59 then demo_dirent 1 [46] ++ demo_dirent 1 [46; 46] ++ demo_dirent 2 [105; 110; 105; 116] ++ repeat 0 464
  else if b =? 60 then demo_program ++ repeat 0 424
  else repeat 0 512.
Definition demo_tree : fsx :=
  mkFs (mkLst (set_outstanding 0 (demo_log 0 (repeat 0 30))) (Dev.boot demo_tree_blk 1000)) demo_sb demo_lock (fun _ => demo_free).
Definition demo_inums (i : Z) : Prop := i = 1 \/ i = 2.

Lemma demo_calm : calm None demo_tree.
Proof.
  split; try done. split; [done|]. intros i j dev inum _ _ [H _]. done.
Qed.

Definition demo_d1 : dinode := mkDinode T_DIR 0 0 1 48 (59 :: repeat 0 12).
Definition demo_d2 : dinode := mkDinode T_FILE 0 0 1 88 (60 :: repeat 0 12).

Lemma demo_at1 : dinode_at demo_tree 1 = Ok demo_d1.
Proof. by vm_compute. Qed.
Lemma demo_at2 : dinode_at demo_tree 2 = Ok demo_d2.
Proof. by vm_compute. Qed.

Lemma demo_tree_live b : 0 < b < 1000 -> live demo_tree b.
Proof.
  intros Hb. split; [lia|]. split; [cbn; lia|]. split; [apply not_elem_of_nil|]. change (cont demo_tree b) with (demo_tree_blk b). unfold demo_tree_blk.
  destruct (b =? 32); [by vm_compute|]. destruct (b =? 59); [by vm_compute|]. by destruct (b =? 60); vm_compute.
Qed.

Lemma demo_tree_ok : tree demo_tree demo_inums.
Proof.
  split.
  - intros inum [->| ->].
    + exists demo_d1. split; [apply demo_at1|done|done|by vm_compute].
    + exists demo_d2. split; [apply demo_at2|done|done|by vm_compute].
  - intros inum d [->| ->] Hd Ht.
    2: { rewrite demo_at2 in Hd. by injection Hd as <-. }
    rewrite demo_at1 in Hd. injection Hd as <-. split.
    + split; [done|done|done|]. intros pos Hpos. change (sizeof_dirent * entries demo_d1) with 48 in Hpos. replace (pos / BSIZE) with 0 by (symmetry; apply Z.div_small; unfold BSIZE; lia).
      split; [done|done|done| |done]. apply (demo_tree_live 59). lia.
    + intros k Hk Hne. change (entries demo_d1) with 3 in Hk. assert (k = 0 \/ k = 1 \/ k = 2) as [->|[->| ->]] by lia; vm_compute; auto.
Qed.

(** The first process runs. *)
Definition demo_running : kst := demo_kst (demo_machine 0 (Some 0%nat)) [demo_proc RUNNING 1 0; demo_proc SLEEPING 2 1] [0%nat] [1%nat] [].

Lemma demo_up : up 0 demo_running.
Proof. split; [exists 0%nat; by exists (demo_cpu 0 (Some 0%nat))|done|]. eexists. split; [reflexivity|done]. Qed.

(** "/init" leads to inode 2. *)
Lemma namex_spec_witness : exists q nm s' x',
  Fs.namex (fun _ => None) (fun s x => (s, x)) 1 (fun i => 1000 + i) [47; 105; 110; 105; 116] false (repeat 0 14) demo_running demo_tree = Ok (Some q, nm, s', x') /\
  caches x' q 1 2 /\ i_ref (ic x' q) = 1.
Proof.
  assert (exists pr, pt_proc demo_running !! 0%nat = Some pr /\ state pr = RUNNING) as (pr & Hp & Hst) by (eexists; split; [reflexivity|done]).
  destruct (namex_spec (fun _ => None) (fun s x => (s, x)) 1 (fun i => 1000 + i) ltac:(lia) 0 pr Hst demo_inums [47; 105; 110; 105; 116] false (repeat 0 14) demo_running demo_tree 1
    demo_up Hp demo_calm demo_tree_ok (or_introl eq_refl) eq_refl) as (r & nm & s' & x' & E & _ & _ & _ & H).
  { exists 0, 1. by vm_compute. }
  { apply (bool_decide_unpack _). by vm_compute. }
  { done. }
  assert (resolve false demo_tree (elems [47; 105; 110; 105; 116]) 1 = Some 2) as Er by by vm_compute.
  rewrite Er in H. destruct H as (q & -> & Hq & Hc & Hr & _). exists q, nm, s', x'. split; [exact E|]. split; [exact Hc|].
  rewrite (Hr q Hq), bool_decide_true by done. done.
Defined.
