(* ===== verification/Transact.v ===== *)
(** [begin_op] and [end_op] of [log.c] when the log has room: the bracket around
    a system call that uses the file system. *)

From S2P Require Import Prelude CString Spinlock Kalloc Proc Demo MlfqFacts ProcFacts Sleep Vm Steady Quiet Block Log LogFacts.

Section Bracket.
Import Log Ptable.
Context `{SV : Services} (resume : kst -> lst -> kst * lst) (a : Z).
Implicit Types (s : kst) (x : lst) (c p : nat).

(** [n] operations are under way, none is being committed, and the log is not
    locked. *)
Record log_open (n : Z) (l : log) : Prop := {
  lo_free : locked (lg_lock l) = 0;
  lo_quiet : committing l = 0;
  lo_count : outstanding l = n
}.

(** The log but for its lock and the number of operations. *)
Definition log_rest (l : log) : log := set_lg_lock (mkLock 0 "log" None []) (set_outstanding 0 (set_committing 0 l)).

Lemma lock_log c p s x : outside c p s -> locked (lg_lock (lg x)) = 0 ->
  exists k m, lock s x = Ok (set_mach m s, set_lg (set_lg_lock k (lg x)) x) /\ Sleep.held c k /\ inside_one c p (set_mach m s).
Proof. intros Ho Hl. unfold lock. destruct (lock_outside c p s _ Ho Hl) as (k & m & -> & H). by exists k, m. Qed.

Lemma unlock_log c p s x : inside_one c p s -> Sleep.held c (lg_lock (lg x)) ->
  exists k m, unlock s x = Ok (set_mach m s, set_lg (set_lg_lock k (lg x)) x) /\ locked k = 0 /\ outside c p (set_mach m s).
Proof. intros Hi Hh. unfold unlock. destruct (unlock_inside c p s _ Hi Hh) as (k & m & -> & H). by exists k, m. Qed.

Lemma begin_op_room n fuel p s x : up p s -> log_open n (lg x) -> lh_n (lg x) + (n + 1) * MAXOPBLOCKS <= LOGSIZE -> (0 < fuel)%nat ->
  exists s' x', begin_op resume a fuel s x = Ok (s', x') /\ called p s s' /\ log_open (n + 1) (lg x') /\ log_rest (lg x') = log_rest (lg x) /\ bd x' = bd x.
Proof.
  intros U [H1 H2 H3] Hroom Hf. destruct (up_cpu _ _ U) as (c & Ho). unfold begin_op. destruct (lock_log c p s x Ho H1) as (k1 & m1 & -> & Hh1 & Hi1). cbn [res_bind].
  destruct fuel as [|fuel]; [lia|]. cbn [begin_loop lg set_lg committing set_lg_lock lh_n outstanding]. rewrite H2, H3. cbn [negb Z.eqb]. rewrite (proj2 (Z.ltb_ge _ _)) by lia.
  match goal with |- context [unlock _ ?y] => destruct (unlock_log c p (set_mach m1 s) y Hi1 Hh1) as (k2 & m2 & -> & Hk2 & Ho2) end.
  do 2 eexists. split; [done|]. split; [exact (called_mach p c s m2 U Ho2)|]. split; [by split|]. split; [|done]. by destruct (lg x).
Qed.

(** [wakeup] between taking and giving back a lock. *)
Lemma called_woken p c s m1 s2 m3 : up p s -> inside_one c p (set_mach m1 s) -> wakeup (ChAddr a) (set_mach m1 s) = Ok s2 -> locked (pt_lock s2) = 0 ->
  pt_proc s2 = map (wake (ChAddr a)) (pt_proc s) -> outside c p (set_mach m3 s2) -> called p s (set_mach m3 s2).
Proof.
  intros U Hi E Hpt Hp Ho. eapply (called_wake p c s _ (ChAddr a)); [done| |done|done|done]. apply wakeup_beyond in E. etrans; [exact (beyond_mach s m1)|]. etrans; [exact E|apply beyond_mach].
Qed.

(** Other operations are still under way. *)
Lemma end_op_more n p s x : up p s -> log_open n (lg x) -> 1 < n ->
  exists s' x', end_op a s x = Ok (s', x') /\ called p s s' /\ log_open (n - 1) (lg x') /\ log_rest (lg x') = log_rest (lg x) /\ bd x' = bd x.
Proof.
  intros U [H1 H2 H3] Hn. destruct (up_cpu _ _ U) as (c & Ho). unfold end_op. destruct (lock_log c p s x Ho H1) as (k1 & m1 & -> & Hh1 & Hi1).
  cbn [res_bind lg set_lg committing set_lg_lock set_outstanding outstanding]. rewrite H2, H3. cbn [negb Z.eqb]. rewrite (proj2 (Z.eqb_neq (n - 1) 0)) by lia.
  destruct (wakeup_inside (ChAddr a) c p (set_mach m1 s) Hi1 (up_pt _ _ U)) as (s2 & E2 & Hi2 & Hpt2 & Hp2). rewrite E2. cbn [res_bind].
  match goal with |- context [unlock _ ?y] => destruct (unlock_log c p s2 y Hi2 Hh1) as (k3 & m3 & -> & Hk3 & Ho3) end. cbn [res_bind].
  do 2 eexists. split; [done|]. split; [by eapply called_woken|]. split; [by split|]. split; [|done]. by destruct (lg x).
Qed.

(** The last operation, and nothing was logged. *)
Lemma end_op_last p s x : up p s -> log_open 1 (lg x) -> lh_n (lg x) = 0 ->
  exists s' x', end_op a s x = Ok (s', x') /\ called p s s' /\ log_open 0 (lg x') /\ log_rest (lg x') = log_rest (lg x) /\ bd x' = bd x.
Proof.
  intros U [H1 H2 H3] Hn. destruct (up_cpu _ _ U) as (c & Ho). unfold end_op. destruct (lock_log c p s x Ho H1) as (k1 & m1 & -> & Hh1 & Hi1).
  cbn [res_bind lg set_lg committing set_lg_lock set_outstanding outstanding]. rewrite H2, H3. change (1 - 1) with 0. cbn [negb Z.eqb res_bind].
  match goal with |- context [unlock _ ?y] => destruct (unlock_log c p (set_mach m1 s) y Hi1 Hh1) as (k3 & m3 & -> & Hk3 & Ho3) end. cbn [res_bind].
  unfold commit. cbn [lg set_lg lh_n set_lg_lock set_committing set_outstanding]. rewrite Hn. cbn [Z.ltb Z.compare res_bind].
  match goal with |- context [lock _ ?y] => destruct (lock_log c p (set_mach m3 (set_mach m1 s)) y Ho3 Hk3) as (k4 & m4 & -> & Hh4 & Hi4) end. cbn [res_bind].
  destruct (wakeup_inside (ChAddr a) c p (set_mach m4 (set_mach m3 (set_mach m1 s))) Hi4 (up_pt _ _ U)) as (s5 & E5 & Hi5 & Hpt5 & Hp5). rewrite E5. cbn [res_bind].
  match goal with |- context [unlock _ ?y] => destruct (unlock_log c p s5 y Hi5 Hh4) as (k6 & m6 & -> & Hk6 & Ho6) end.
  do 2 eexists. split; [done|]. split; [exact (called_woken p c s m4 s5 m6 U Hi4 E5 Hpt5 Hp5 Ho6)|]. split; [by split|]. split; [|done]. by destruct (lg x).
Qed.

(** The end of an operation that has logged nothing. *)
Lemma end_op_reader n p s x : up p s -> log_open n (lg x) -> 1 <= n -> (n = 1 -> lh_n (lg x) = 0) ->
  exists s' x', end_op a s x = Ok (s', x') /\ called p s s' /\ log_open (n - 1) (lg x') /\ log_rest (lg x') = log_rest (lg x) /\ bd x' = bd x.
Proof.
  intros U H Hn Hz. destruct (decide (n = 1)) as [->|Hne]; [by apply end_op_last; [..|apply Hz]|]. apply end_op_more; [done|done|lia].
Qed.
End Bracket.
