(* ===== verification/File.v ===== *)
(** Open files: [file.c], and [pipealloc] of [pipe.c].

    The state [ftx] is the file table with the pipes and the file system behind
    it; a file pointer is an index into [ftable.file].  A call that sleeps lets
    the other processes change what it waits for: the pipe, the inode cache or
    the log ([resume_pipe], [resume_fs], [resume_log]). *)

From S2P Require Import Prelude CString Spinlock Kalloc Proc Demo MlfqFacts ProcFacts Sleep Pipe Block Log LogFacts Fs FsFacts.

Definition NFILE : nat := 100.

Inductive ftype := FD_NONE | FD_PIPE | FD_INODE.

Record file := mkFile {
  f_type : ftype;
  f_ref : Z;
  f_readable : Z;
  f_writable : Z;
  f_pipe : Z;
  f_ip : Z;
  f_off : Z
}.
#[export] Instance file_eta : Eta file := fun f =>
  mkFile (f_type f) (f_ref f) (f_readable f) (f_writable f) (f_pipe f) (f_ip f) (f_off f).
Definition set_f_type := ltac:(setter f_type).
Definition set_f_ref := ltac:(setter f_ref).
Definition set_f_readable := ltac:(setter f_readable).
Definition set_f_writable := ltac:(setter f_writable).
Definition set_f_pipe := ltac:(setter f_pipe).
Definition set_f_ip := ltac:(setter f_ip).
Definition set_f_off := ltac:(setter f_off).

(** [ftable], the pipes by their address, and the file system. *)
Record ftx := mkFt {
  ft_lock : spinlock;
  ft_file : Z -> file;
  ft_pipe : Z -> pipe;
  ft_fs : fsx
}.
#[export] Instance ftx_eta : Eta ftx := fun x =>
  mkFt (ft_lock x) (ft_file x) (ft_pipe x) (ft_fs x).
Definition set_ft_lock := ltac:(setter ft_lock).
Definition set_ft_file := ltac:(setter ft_file).
Definition set_ft_pipe := ltac:(setter ft_pipe).
Definition set_ft_fs := ltac:(setter ft_fs).

Definition upd_f (f : Z) (g : file -> file) (x : ftx) : ftx :=
  set_ft_file (fupd (ft_file x) f (g (ft_file x f))) x.

Module File.
Section File.
Context `{SV : Services}.
Implicit Types (s : kst) (x : ftx).

Definition lock_ft s x : res (kst * ftx) :=
  let? (k, m) := Spinlock.acquire (ft_lock x) (mach s) in Ok (set_mach m s, set_ft_lock k x).
Definition unlock_ft s x : res (kst * ftx) :=
  let? (k, m) := Spinlock.release (ft_lock x) (mach s) in Ok (set_mach m s, set_ft_lock k x).

Definition fileinit x : ftx := set_ft_lock (Spinlock.initlock "ftable" (ft_lock x)) x.

(** The loop of [filealloc]. *)
Fixpoint find_file (n : nat) (i : Z) (f : Z -> file) : option Z :=
  match n with
  | O => None
  | S n' => if f_ref (f i) =? 0 then Some i else find_file n' (i + 1) f
  end.

Definition filealloc s x : res (option Z * kst * ftx) :=
  let? (s, x) := lock_ft s x in
  match find_file NFILE 0 (ft_file x) with
  | Some f =>
      let x := upd_f f (set_f_ref 1) x in
      let? (s, x) := unlock_ft s x in
      Ok (Some f, s, x)
  | None =>
      let? (s, x) := unlock_ft s x in
      Ok (None, s, x)
  end.

Definition filedup (f : Z) s x : res (kst * ftx) :=
  let? (s, x) := lock_ft s x in
  if f_ref (ft_file x f) <? 1 then Panic "filedup"
  else
    let x := upd_f f (fun y => set_f_ref (f_ref y + 1) y) x in
    unlock_ft s x.

Section Ops.
Context (resume_pipe : kst -> pipe -> kst * pipe) (resume_fs : kst -> fsx -> kst * fsx)
        (resume_log : kst -> lst -> kst * lst).
(** The bound on the rounds of a wait, and the addresses of [log] and of the
    inodes' locks. *)
Context (rounds : nat) (log_at : Z) (lock_at : Z -> Z).
Context (dev_read : Z -> option (Z -> Z -> kst -> fsx -> res (Z * list Z * kst * fsx))).
Context (dev_write : Z -> option (Z -> list Z -> Z -> kst -> fsx -> res (Z * kst * fsx))).

Definition begin_op s x : res (kst * ftx) :=
  let? (s, l) := Log.begin_op resume_log log_at rounds s (f_log (ft_fs x)) in
  Ok (s, set_ft_fs (set_f_log l (ft_fs x)) x).
Definition end_op s x : res (kst * ftx) :=
  let? (s, l) := Log.end_op log_at s (f_log (ft_fs x)) in
  Ok (s, set_ft_fs (set_f_log l (ft_fs x)) x).
Definition ilock (i : Z) s x : res (kst * ftx) :=
  let? (s, y) := Fs.ilock resume_fs rounds lock_at (Some i) s (ft_fs x) in Ok (s, set_ft_fs y x).
Definition iunlock (i : Z) s x : res (kst * ftx) :=
  let? (s, y) := Fs.iunlock lock_at (Some i) s (ft_fs x) in Ok (s, set_ft_fs y x).
Definition iput (i : Z) s x : res (kst * ftx) :=
  let? (s, y) := Fs.iput resume_fs rounds lock_at i s (ft_fs x) in Ok (s, set_ft_fs y x).

(** [pipeclose]; the structure of a freed pipe is left as it was. *)
Definition pipeclose (a : Z) (writable : Z) s x : res (kst * ftx) :=
  let? (s, r) := Pipe.pipeclose a (negb (writable =? 0)) s (ft_pipe x a) in
  match r with
  | Some p => Ok (s, set_ft_pipe (fupd (ft_pipe x) a p) x)
  | None => Ok (s, x)
  end.

Definition fileclose (f : Z) s x : res (kst * ftx) :=
  let? (s, x) := lock_ft s x in
  if f_ref (ft_file x f) <? 1 then Panic "fileclose"
  else
    let x := upd_f f (fun y => set_f_ref (f_ref y - 1) y) x in
    if 0 <? f_ref (ft_file x f) then unlock_ft s x
    else
      let ff := ft_file x f in
      let x := upd_f f (set_f_ref 0) x in
      let x := upd_f f (set_f_type FD_NONE) x in
      let? (s, x) := unlock_ft s x in
      match f_type ff with
      | FD_PIPE => pipeclose (f_pipe ff) (f_writable ff) s x
      | FD_INODE =>
          let? (s, x) := begin_op s x in
          let? (s, x) := iput (f_ip ff) s x in
          end_op s x
      | FD_NONE => Ok (s, x)
      end.

(** [None] is the result -1. *)
Definition filestat (f : Z) s x : res (option Fs.stat * kst * ftx) :=
  match f_type (ft_file x f) with
  | FD_INODE =>
      let ip := f_ip (ft_file x f) in
      let? (s, x) := ilock ip s x in
      let st := Fs.stati ip (ft_fs x) in
      let? (s, x) := iunlock ip s x in
      Ok (Some st, s, x)
  | _ => Ok (None, s, x)
  end.

(** [fileread]: the result and the bytes stored at [addr]. *)
Definition fileread (f n : Z) s x : res (Z * list Z * kst * ftx) :=
  if f_readable (ft_file x f) =? 0 then Ok (-1, [], s, x)
  else
    match f_type (ft_file x f) with
    | FD_PIPE =>
        let a := f_pipe (ft_file x f) in
        let? (r, l, s, p) := Pipe.piperead resume_pipe a rounds (Z.to_nat n) s (ft_pipe x a) in
        Ok (r, l, s, set_ft_pipe (fupd (ft_pipe x) a p) x)
    | FD_INODE =>
        let ip := f_ip (ft_file x f) in
        let? (s, x) := ilock ip s x in
        let? (r, l, s, y) := Fs.readi dev_read ip (f_off (ft_file x f)) (u32 n) s (ft_fs x) in
        let x := set_ft_fs y x in
        let x := (if 0 <? r then upd_f f (fun y => set_f_off (u32 (f_off y + r)) y) x else x) in
        let? (s, x) := iunlock ip s x in
        Ok (r, l, s, x)
    | FD_NONE => Panic "fileread"
    end.

(** [((MAXOPBLOCKS-1-1-2) / 2) * 512]. *)
Definition write_max : Z := ((MAXOPBLOCKS - 1 - 1 - 2) / 2) * 512.

(** The loop of [filewrite]: how many bytes were written when it ended. *)
Fixpoint filewrite_loop (fuel : nat) (f i n : Z) (src : list Z) s x : res (Z * kst * ftx) :=
  match fuel with
  | O => OutOfFuel
  | S k =>
      if i <? n then
        let n1 := Z.min (n - i) write_max in
        let ip := f_ip (ft_file x f) in
        let? (s, x) := begin_op s x in
        let? (s, x) := ilock ip s x in
        let? (r, s, y) :=
          Fs.writei dev_write ip (drop (Z.to_nat i) src) (f_off (ft_file x f)) n1 s (ft_fs x) in
        let x := set_ft_fs y x in
        let x := (if 0 <? r then upd_f f (fun y => set_f_off (u32 (f_off y + r)) y) x else x) in
        let? (s, x) := iunlock ip s x in
        let? (s, x) := end_op s x in
        if r <? 0 then Ok (i, s, x)
        else if negb (r =? n1) then Panic "short filewrite"
        else filewrite_loop k f (i + r) n src s x
      else Ok (i, s, x)
  end.

Definition filewrite (f n : Z) (src : list Z) s x : res (Z * kst * ftx) :=
  if f_writable (ft_file x f) =? 0 then Ok (-1, s, x)
  else
    match f_type (ft_file x f) with
    | FD_PIPE =>
        let a := f_pipe (ft_file x f) in
        let? (r, s, p) := Pipe.pipewrite resume_pipe a rounds (take (Z.to_nat n) src) s (ft_pipe x a) in
        Ok (r, s, set_ft_pipe (fupd (ft_pipe x) a p) x)
    | FD_INODE =>
        let? (i, s, x) := filewrite_loop (S (Z.to_nat n)) f 0 n src s x in
        Ok (if i =? n then n else -1, s, x)
    | FD_NONE => Panic "filewrite"
    end.

(** The label [bad] of [pipealloc], where [p] is null. *)
Definition pipe_bad (f0 f1 : option Z) s x : res (option (Z * Z) * kst * ftx) :=
  let? (s, x) := (match f0 with Some f => fileclose f s x | None => Ok (s, x) end) in
  let? (s, x) := (match f1 with Some f => fileclose f s x | None => Ok (s, x) end) in
  Ok (None, s, x).

(** The two ends, or [None] for -1. *)
Definition pipealloc s x : res (option (Z * Z) * kst * ftx) :=
  let? (f0, s, x) := filealloc s x in
  match f0 with
  | None => pipe_bad None None s x
  | Some a =>
      let? (f1, s, x) := filealloc s x in
      match f1 with
      | None => pipe_bad (Some a) None s x
      | Some b =>
          let? (p, h, m) := Kalloc.kalloc (ph s) (mach s) in
          let s := set_mach m (set_ph h s) in
          if p =? 0 then pipe_bad (Some a) (Some b) s x
          else
            let q := ft_pipe x p in
            let q := set_nread 0 (set_nwrite 0 (set_writeopen 1 (set_readopen 1 q))) in
            let q := set_pi_lock (Spinlock.initlock "pipe" (pi_lock q)) q in
            let x := set_ft_pipe (fupd (ft_pipe x) p q) x in
            let x := upd_f a (fun y => set_f_pipe p (set_f_writable 0 (set_f_readable 1 (set_f_type FD_PIPE y)))) x in
            let x := upd_f b (fun y => set_f_pipe p (set_f_writable 1 (set_f_readable 0 (set_f_type FD_PIPE y)))) x in
            Ok (Some (a, b), s, x)
      end
  end.

End Ops.
End File.
End File.

(** * Properties *)

Section FileFacts.
Import File.
Context `{SV : Services}.
Implicit Types (s : kst) (x : ftx) (c p : nat) (f : Z).

Definition fslot f : Prop := 0 <= f < Z.of_nat NFILE.

Lemma find_file_spec n i (g : Z -> file) :
  match find_file n i g with
  | Some f => i <= f < i + Z.of_nat n /\ f_ref (g f) = 0 /\ forall j, i <= j < f -> f_ref (g j) <> 0
  | None => forall j, i <= j < i + Z.of_nat n -> f_ref (g j) <> 0
  end.
Proof.
  revert i. induction n as [|n IH]; intros i; cbn [find_file]; [lia|].
  destruct (Z.eqb_spec (f_ref (g i)) 0) as [E|E]; [split_and!; [lia|lia|done|lia]|].
  specialize (IH (i + 1)). destruct (find_file n (i + 1) g) as [f|].
  - destruct IH as (H1 & H2 & H3). split_and!; [lia|lia|done|].
    intros j Hj. destruct (decide (j = i)) as [->|]; [done|]. apply H3. lia.
  - intros j Hj. destruct (decide (j = i)) as [->|]; [done|]. apply IH. lia.
Qed.

Lemma lock_ft_ok c p s x :
  outside c p s -> locked (ft_lock x) = 0 ->
  exists k m, lock_ft s x = Ok (set_mach m s, set_ft_lock k x) /\ Sleep.held c k /\
    inside_one c p (set_mach m s).
Proof.
  intros Hout Hl. unfold lock_ft.
  destruct (lock_outside c p s (ft_lock x) Hout Hl) as (k & m & -> & Hh & Hin). by exists k, m.
Qed.

Lemma unlock_ft_ok c p s x :
  inside_one c p s -> Sleep.held c (ft_lock x) ->
  exists k m, unlock_ft s x = Ok (set_mach m s, set_ft_lock k x) /\ locked k = 0 /\
    outside c p (set_mach m s).
Proof.
  intros Hin Hh. unfold unlock_ft.
  destruct (unlock_inside c p s (ft_lock x) Hin Hh) as (k & m & -> & Hl & Hout). by exists k, m.
Qed.

(** The table after [f] got its first reference. *)
Definition taken_file (k : spinlock) f x : ftx := set_ft_lock k (upd_f f (set_f_ref 1) x).

Lemma filealloc_ok c p s x :
  outside c p s -> locked (ft_lock x) = 0 ->
  exists k m, locked k = 0 /\ outside c p (set_mach m s) /\
    match find_file NFILE 0 (ft_file x) with
    | Some f => filealloc s x = Ok (Some f, set_mach m s, taken_file k f x)
    | None => filealloc s x = Ok (None, set_mach m s, set_ft_lock k x)
    end.
Proof.
  intros Hout Hl. unfold filealloc.
  destruct (lock_ft_ok c p s x Hout Hl) as (k1 & m1 & -> & Hh & Hin). cbn [res_bind ft_file set_ft_lock].
  destruct (find_file NFILE 0 (ft_file x)) as [f|].
  - destruct (unlock_ft_ok c p (set_mach m1 s) (upd_f f (set_f_ref 1) (set_ft_lock k1 x)) Hin Hh)
      as (k2 & m2 & -> & Hk & Hout2). by exists k2, m2.
  - destruct (unlock_ft_ok c p (set_mach m1 s) (set_ft_lock k1 x) Hin Hh) as (k2 & m2 & -> & Hk & Hout2).
    by exists k2, m2.
Qed.

(** [filealloc] takes the first unused entry of the file table and gives it
    its first reference; it fails exactly if all 100 are in use; no other entry
    changes. *)
Theorem filealloc_spec c p s x :
  outside c p s -> locked (ft_lock x) = 0 ->
  exists r s' x', filealloc s x = Ok (r, s', x') /\ outside c p s' /\ locked (ft_lock x') = 0 /\
    match r with
    | Some f => fslot f /\ f_ref (ft_file x f) = 0 /\ ft_file x' f = set_f_ref 1 (ft_file x f) /\
        (forall g, g <> f -> ft_file x' g = ft_file x g) /\
        (forall g, 0 <= g < f -> f_ref (ft_file x g) <> 0)
    | None => ft_file x' = ft_file x /\ forall g, fslot g -> f_ref (ft_file x g) <> 0
    end.
Proof.
  intros Hout Hl. destruct (filealloc_ok c p s x Hout Hl) as (k & m & Hk & Hout' & H).
  pose proof (find_file_spec NFILE 0 (ft_file x)) as Hs.
  destruct (find_file NFILE 0 (ft_file x)) as [f|]; rewrite H.
  - do 3 eexists. split; [done|]. split; [done|]. split; [done|]. destruct Hs as (H1 & H2 & H3).
    split; [done|]. split; [done|]. cbn. rewrite fupd_eq. split; [done|]. split; [|done].
    intros g Hg. by rewrite fupd_ne.
  - do 3 eexists. split; [done|]. split; [done|]. split; [done|]. split; [done|]. intros g Hg. by apply Hs.
Qed.

(** An end of the pipe [a]. *)
Definition pipe_end (y : file) (a : Z) (writable : bool) : Prop :=
  f_type y = FD_PIPE /\ f_ref y = 1 /\ f_pipe y = a /\
  f_writable y = (if writable then 1 else 0) /\ f_readable y = (if writable then 0 else 1).

Lemma outside_mach_ok c p s : outside c p s -> mach_ok (mach s).
Proof. intros (cp & Hc & Hn & _). exists c, cp. split; [done|]. split; lia. Qed.

(** The page allocator gives the CPU back as it found it. *)
Lemma kmem_unlock_outside c p s k k1 m1 k2 m2 :
  outside c p s -> locked (kmem_lock k) = 0 -> Kalloc.lock_kmem k (mach s) = Ok (k1, m1) ->
  (exists v, k2 = set_freelist v k1) \/ k2 = k1 ->
  forall k3, Kalloc.unlock_kmem k2 m1 = Ok (k3, m2) -> outside c p (set_mach m2 s).
Proof.
  intros Hout Hl. unfold Kalloc.lock_kmem, Kalloc.unlock_kmem. destruct (use_lock k =? 0) eqn:Eu.
  - intros [= <- <-] Hk k3. assert (use_lock k2 = use_lock k) as -> by (destruct Hk as [[v ->]| ->]; done).
    rewrite Eu. by intros [= <- <-]; destruct s.
  - destruct (lock_outside c p s (kmem_lock k) Hout Hl) as (l & m & -> & Hh & Hin). cbn [res_bind].
    intros [= <- <-] Hk k3.
    assert (use_lock k2 = use_lock k /\ kmem_lock k2 = l) as [-> El] by (destruct Hk as [[v ->]| ->]; done).
    rewrite Eu, El. destruct (unlock_inside c p (set_mach m s) l Hin Hh) as (l' & m' & E & _ & Hout').
    cbn [mach set_mach] in E. rewrite E. cbn [res_bind]. by intros [= <- <-].
Qed.

Lemma kalloc_outside c p s r h m :
  outside c p s -> locked (kmem_lock (p_kmem (ph s))) = 0 -> Kalloc.kalloc (ph s) (mach s) = Ok (r, h, m) ->
  outside c p (set_mach m s).
Proof.
  intros Hout Hl. unfold Kalloc.kalloc.
  intros ([k1 m1] & E1 & ([k3 m3] & E3 & [= _ _ <-])%res_bind_Ok)%res_bind_Ok.
  apply (kmem_unlock_outside c p s _ _ _ _ m3 Hout Hl E1) in E3; [done|].
  destruct (_ =? 0); [by right|left; by eexists].
Qed.

Lemma kfree_outside c p s v h m :
  outside c p s -> locked (kmem_lock (p_kmem (ph s))) = 0 ->
  Kalloc.kfree kernel_end v (ph s) (mach s) = Ok (h, m) -> outside c p (set_mach m s).
Proof.
  intros Hout Hl. unfold Kalloc.kfree. destruct (_ || _); [done|].
  intros ([k1 m1] & E1 & ([k3 m3] & E3 & [= _ <-])%res_bind_Ok)%res_bind_Ok.
  apply (kmem_unlock_outside c p s _ _ _ _ m3 Hout Hl E1) in E3; [done|]. left. by eexists.
Qed.

(** What [pipealloc] leaves behind when it succeeds. *)
Record new_pipe c p L a s x (f0 f1 : Z) s' x' : Prop := {
  np_ne : f0 <> f1;
  np_slot : fslot f0 /\ fslot f1;
  np_old : f_ref (ft_file x f0) = 0 /\ f_ref (ft_file x f1) = 0;
  np_read : pipe_end (ft_file x' f0) a false;
  np_write : pipe_end (ft_file x' f1) a true;
  np_rep : pipe_rep (ft_pipe x' a) [];
  np_open : readopen (ft_pipe x' a) = 1 /\ writeopen (ft_pipe x' a) = 1 /\ locked (pi_lock (ft_pipe x' a)) = 0;
  np_rest g : g <> f0 -> g <> f1 -> ft_file x' g = ft_file x g;
  np_lock : locked (ft_lock x') = 0;
  np_page : page_ok kernel_end a /\ (a ∉ L);
  np_kmem : kmem_inv kernel_end (ph s') L;
  np_out : outside c p s'
}.

Lemma pipealloc_ok rf rl n la ka c p s x a L :
  KERNBASE <= kernel_end -> outside c p s -> locked (ft_lock x) = 0 -> kmem_inv kernel_end (ph s) (a :: L) ->
  length (data (ft_pipe x a)) = 512%nat ->
  (exists f g, fslot f /\ fslot g /\ f <> g /\ f_ref (ft_file x f) = 0 /\ f_ref (ft_file x g) = 0) ->
  exists f0 f1 h m x', pipealloc rf rl n la ka s x = Ok (Some (f0, f1), set_mach m (set_ph h s), x') /\
    new_pipe c p L a s x f0 f1 (set_mach m (set_ph h s)) x'.
Proof.
  intros Hend Hout Hl Hk Hd (f & g & Hf & Hg & Hne & Hrf & Hrg). unfold pipealloc.
  destruct (filealloc_ok c p s x Hout Hl) as (k1 & m1 & Hk1 & Hout1 & H1).
  pose proof (find_file_spec NFILE 0 (ft_file x)) as S1.
  destruct (find_file NFILE 0 (ft_file x)) as [f0|]; [|by destruct (S1 f Hf)].
  destruct S1 as (Hf0 & Hr0 & _). rewrite H1. cbn [res_bind].
  set (x1 := taken_file k1 f0 x) in *.
  destruct (filealloc_ok c p (set_mach m1 s) x1 Hout1 Hk1) as (k2 & m2 & Hk2 & Hout2 & H2).
  pose proof (find_file_spec NFILE 0 (ft_file x1)) as S2.
  assert (forall j, j <> f0 -> ft_file x1 j = ft_file x j) as Hx1 by (intros j Hj; cbn; by rewrite fupd_ne).
  assert (f_ref (ft_file x1 f0) = 1) as Hx1f by (cbn; by rewrite fupd_eq).
  destruct (find_file NFILE 0 (ft_file x1)) as [f1|].
  2: { destruct (decide (f = f0)) as [->|Hn]; [destruct (S2 g Hg)|destruct (S2 f Hf)]; by rewrite Hx1. }
  destruct S2 as (Hf1 & Hr1 & _). rewrite H2. cbn [res_bind].
  assert (f0 <> f1) as Hne01 by (intros <-; lia).
  destruct (kalloc_pop _ Hend (ph s) (a :: L) m2 Hk) as (r & h & m3 & E & _ & _ & _ & _ & -> & Hpg & Hnin & Hk').
  { apply (outside_mach_ok c p _ Hout2). }
  pose proof (kalloc_outside c p (set_mach m2 s) a h m3 Hout2 (ki_lock _ _ _ Hk) E) as Hout3.
  cbn [ph set_mach mach]. rewrite E. cbn [res_bind].
  assert (a <> 0) as Ha by (apply (page_ok_range _ Hend) in Hpg; unfold KERNBASE in Hpg; lia).
  rewrite (proj2 (Z.eqb_neq _ _) Ha). exists f0, f1. do 3 eexists. split; [done|].
  split; try done; cbn; rewrite ?fupd_eq, ?(fupd_ne _ f1 _ f0), ?fupd_eq, ?(fupd_ne _ f0 _ f1), ?fupd_eq by done.
  - split; [done|]. by rewrite Hx1 in Hr1.
  - by repeat split.
  - by repeat split.
  - constructor; [|done|done]. constructor; [cbn; by rewrite Hd|done|intros i b Hi; by rewrite lookup_nil in Hi].
  - done.
  - intros j Hj0 Hj1. by rewrite !fupd_ne.
Qed.

(** With two unused files and a free page, [pipealloc] makes a pipe: two
    different files, one to read and one to write, share a new, empty pipe that
    is open at both ends; no other file changes. *)
Theorem pipealloc_spec rf rl n la ka c p s x a L :
  KERNBASE <= kernel_end -> outside c p s -> locked (ft_lock x) = 0 -> kmem_inv kernel_end (ph s) (a :: L) ->
  length (data (ft_pipe x a)) = 512%nat ->
  (exists f g, fslot f /\ fslot g /\ f <> g /\ f_ref (ft_file x f) = 0 /\ f_ref (ft_file x g) = 0) ->
  exists f0 f1 s' x', pipealloc rf rl n la ka s x = Ok (Some (f0, f1), s', x') /\ f0 <> f1 /\
    pipe_end (ft_file x' f0) a false /\ pipe_end (ft_file x' f1) a true /\
    pipe_rep (ft_pipe x' a) [] /\ readopen (ft_pipe x' a) = 1 /\ writeopen (ft_pipe x' a) = 1 /\
    (forall g, g <> f0 -> g <> f1 -> ft_file x' g = ft_file x g) /\
    kmem_inv kernel_end (ph s') L.
Proof.
  intros. destruct (pipealloc_ok rf rl n la ka c p s x a L) as (f0 & f1 & h & m & x' & E & N); try done.
  destruct N as [? ? ? ? ? ? (? & ? & _) ? ? ? ? ?]. by exists f0, f1, (set_mach m (set_ph h s)), x'.
Qed.

(** ** Closing *)

Lemma wakeup_ph ch s s' : Ptable.wakeup ch s = Ok s' -> ph s' = ph s.
Proof.
  unfold Ptable.wakeup, acquire_pt, release_pt.
  intros (s1 & ([l1 m1] & _ & [= <-])%res_bind_Ok & ([l2 m2] & _ & [= <-])%res_bind_Ok)%res_bind_Ok. done.
Qed.

(** What closing an end leaves alone: only processes are woken. *)
Definition woken s s' : Prop := exists ch, pt_proc s' = map (Ptable.wake ch) (pt_proc s).

(** The pipe with one more end closed. *)
Definition closed_end (w : bool) (q : pipe) : pipe := if w then set_writeopen 0 q else set_readopen 0 q.

Lemma pipeclose_locked c p s (q : pipe) (a : Z) (w : bool) :
  outside c p s -> locked (pt_lock s) = 0 -> locked (pi_lock q) = 0 ->
  exists s' k m, outside c p s' /\ locked (pt_lock s') = 0 /\ ph s' = ph s /\ woken s s' /\ locked k = 0 /\
    Pipe.pipeclose a w s q =
      (if (readopen (closed_end w q) =? 0) && (writeopen (closed_end w q) =? 0) then
         let? (h, m) := Kalloc.kfree kernel_end a (ph s') (mach s') in Ok (set_mach m (set_ph h s'), None)
       else Ok (s', Some (set_pi_lock k (set_pi_lock m (closed_end w q))))).
Proof.
  intros Hout Hpt Hl. unfold Pipe.pipeclose, Pipe.lock.
  destruct (lock_outside c p s (pi_lock q) Hout Hl) as (l1 & m1 & -> & Hh & Hin). cbn [res_bind].
  set (ch := if w then Pipe.ch_nread a else Pipe.ch_nwrite a).
  destruct (wakeup_inside ch c p (set_mach m1 s) Hin Hpt) as (s2 & E2 & Hin2 & Hpt2 & Hps).
  pose proof (wakeup_ph _ _ _ E2) as Hph.
  destruct (unlock_inside c p s2 l1 Hin2 Hh) as (l3 & m3 & E3 & Hl3 & Hout3).
  exists (set_mach m3 s2), l3, l1. split; [done|]. split; [done|]. split; [exact Hph|]. split; [by exists ch|].
  split; [done|]. unfold ch in E2. destruct w; rewrite E2; cbn [res_bind]; unfold Pipe.unlock;
    cbn [pi_lock set_pi_lock set_writeopen set_readopen readopen writeopen closed_end];
    rewrite E3; destruct (_ && _); done.
Qed.

(** The entry of a file that is closed. *)
Definition closed_file (y : file) : file := set_f_type FD_NONE (set_f_ref 0 y).

(** [fileclose] of a file with other references. *)
Lemma fileclose_shared rf rl n la ka c p s x f :
  outside c p s -> locked (ft_lock x) = 0 -> 2 <= f_ref (ft_file x f) ->
  exists m x', fileclose rf rl n la ka f s x = Ok (set_mach m s, x') /\ outside c p (set_mach m s) /\
    locked (ft_lock x') = 0 /\ ft_pipe x' = ft_pipe x /\ ft_fs x' = ft_fs x /\
    ft_file x' = fupd (ft_file x) f (set_f_ref (f_ref (ft_file x f) - 1) (ft_file x f)).
Proof.
  intros Hout Hl Hr. unfold fileclose.
  destruct (lock_ft_ok c p s x Hout Hl) as (k1 & m1 & -> & Hh & Hin). cbn [res_bind].
  cbn [ft_file set_ft_lock]. rewrite (proj2 (Z.ltb_ge _ _)) by lia.
  set (x2 := upd_f f _ (set_ft_lock k1 x)).
  assert (ft_file x2 f = set_f_ref (f_ref (ft_file x f) - 1) (ft_file x f)) as E by (cbn; by rewrite fupd_eq).
  rewrite E. cbn [f_ref set_f_ref]. rewrite (proj2 (Z.ltb_lt 0 _)) by lia.
  destruct (unlock_ft_ok c p (set_mach m1 s) x2 Hin Hh) as (k2 & m2 & -> & Hk & Hout2).
  by exists m2, (set_ft_lock k2 x2).
Qed.

(** [fileclose] of the last reference to an end of a pipe. *)
Lemma fileclose_pipe rf rl n la ka c p s x f a (w : bool) :
  outside c p s -> locked (ft_lock x) = 0 -> pipe_end (ft_file x f) a w ->
  exists m x1, outside c p (set_mach m s) /\ locked (ft_lock x1) = 0 /\ ft_pipe x1 = ft_pipe x /\ ft_fs x1 = ft_fs x /\
    (forall g, g <> f -> ft_file x1 g = ft_file x g) /\ ft_file x1 f = closed_file (ft_file x f) /\
    fileclose rf rl n la ka f s x = pipeclose a (if w then 1 else 0) (set_mach m s) x1.
Proof.
  intros Hout Hl (H1 & H2 & H3 & H4 & H5). unfold fileclose.
  destruct (lock_ft_ok c p s x Hout Hl) as (k1 & m1 & -> & Hh & Hin). cbn [res_bind].
  cbn [ft_file set_ft_lock]. rewrite H2. cbn [Z.ltb Z.compare Pos.compare Pos.compare_cont].
  set (x2 := upd_f f _ (set_ft_lock k1 x)).
  assert (ft_file x2 f = set_f_ref 0 (ft_file x f)) as E by (cbn; rewrite fupd_eq; by rewrite H2).
  rewrite E. cbn [f_ref set_f_ref f_type f_pipe f_writable]. cbn [Z.ltb Z.compare].
  set (x3 := upd_f f (set_f_type FD_NONE) (upd_f f (set_f_ref 0) x2)).
  destruct (unlock_ft_ok c p (set_mach m1 s) x3 Hin Hh) as (k2 & m2 & -> & Hk & Hout2). cbn [res_bind].
  rewrite H1, H3, H4. exists m2, (set_ft_lock k2 x3). split_and!; try done.
  - intros g Hg. cbn. by rewrite !fupd_ne.
  - cbn. by rewrite !fupd_eq.
Qed.

(** One round of [filewrite] stays inside the reservation of a transaction:
    its data lies in at most 4 blocks. *)
Theorem filewrite_chunk off n : 0 <= off -> n <= write_max -> (blocks_touched off n <= 4)%nat.
Proof.
  intros Ho Hn. unfold blocks_touched. destruct (Z.leb_spec n 0) as [|Hpos]; [lia|].
  change write_max with 1536 in Hn.
  assert ((off + n - 1) / BSIZE <= off / BSIZE + 3); [|lia].
  rewrite <- (Z.div_add off 3 BSIZE) by done. apply Z.div_le_mono; [done|]. unfold BSIZE. lia.
Qed.

End FileFacts.

(** * An example *)

Section FileExamples.
Import File.

Definition demo_file : file := mkFile FD_NONE 0 0 0 0 0 0.
Definition demo_ft : ftx := mkFt demo_lock (fun _ => demo_file) (fun _ => demo_pipe) demo_fs.

Lemma filealloc_spec_witness : exists r s' x', filealloc (demo_in 0) demo_ft = Ok (r, s', x') /\
  locked (ft_lock x') = 0.
Proof.
  destruct (filealloc_spec 0 0 (demo_in 0) demo_ft demo_out eq_refl) as (r & s' & x' & H1 & _ & H2 & _).
  by exists r, s', x'.
Defined.

Lemma pipealloc_spec_witness : exists f0 f1 s' x',
  pipealloc demo_resume demo_resume 1 0 (fun i => i) (demo_in 0) demo_ft = Ok (Some (f0, f1), s', x') /\
  pipe_rep (ft_pipe x' demo_page1) [].
Proof.
  destruct (pipealloc_spec demo_resume demo_resume 1 0 (fun i => i) 0 0 (demo_in 0) demo_ft
    demo_page1 [demo_page2]) as (f0 & f1 & s' & x' & H1 & _ & _ & _ & H2 & _).
  - apply demo_kend.
  - apply demo_out.
  - reflexivity.
  - apply demo_kmem_inv.
  - reflexivity.
  - exists 0, 1. split; [done|]. split; [done|]. done.
  - exists f0, f1, s', x'. split; [exact H1|exact H2].
Defined.

Lemma filewrite_chunk_witness : (blocks_touched 511 1536 <= 4)%nat.
Proof. apply filewrite_chunk; [lia|reflexivity || (vm_compute; discriminate)]. Defined.

End FileExamples.
