(* ===== verification/Bio.v ===== *)
(** The buffer cache: [bio.c], on the disk in memory of [memide.c].

    A buffer pointer is an index; the buffers are linked in a circle through
    [prev] and [next], with [bcache.head] at index [HEAD].  The link [qnext], which
    only ide.c uses, is in Ide.v.  The theorems of BioFacts.v show
    that the circle is the list of buffers, most recently used first, and that
    the cache behaves as the block device [bdev] of Block.v. *)

From S2P Require Import Prelude CString Spinlock Kalloc Proc Demo MlfqFacts ProcFacts Sleep Block.

Definition NBUF : nat := 30.
Definition HEAD : Z := 30.
Definition B_VALID : Z := 2.
Definition B_DIRTY : Z := 4.

Record buf := mkBuf {
  b_flags : Z;
  b_dev : Z;
  b_blockno : Z;
  b_lock : sleeplock;
  b_refcnt : Z;
  b_prev : Z;
  b_next : Z;
  b_data : block
}.
#[export] Instance buf_eta : Eta buf := fun b =>
  mkBuf (b_flags b) (b_dev b) (b_blockno b) (b_lock b) (b_refcnt b) (b_prev b) (b_next b) (b_data b).
Definition set_b_flags := ltac:(setter b_flags).
Definition set_b_dev := ltac:(setter b_dev).
Definition set_b_blockno := ltac:(setter b_blockno).
Definition set_b_lock := ltac:(setter b_lock).
Definition set_b_refcnt := ltac:(setter b_refcnt).
Definition set_b_prev := ltac:(setter b_prev).
Definition set_b_next := ltac:(setter b_next).
Definition set_b_data := ltac:(setter b_data).

(** [bcache] ([bufs HEAD] is [bcache.head]) and the disk: [disksize] blocks at
    [memdisk]. *)
Record bio := mkBio { bc_lock : spinlock; bufs : Z -> buf; memdisk : Z -> block; disksize : Z }.
#[export] Instance bio_eta : Eta bio := fun x =>
  mkBio (bc_lock x) (bufs x) (memdisk x) (disksize x).
Definition set_bc_lock := ltac:(setter bc_lock).
Definition set_bufs := ltac:(setter bufs).
Definition set_memdisk := ltac:(setter memdisk).

Definition upd_b (i : Z) (f : buf -> buf) (x : bio) : bio :=
  set_bufs (fupd (bufs x) i (f (bufs x i))) x.

Lemma buf_sl_put i k x : b_lock (bufs (upd_b i (set_b_lock k) x) i) = k.
Proof. unfold upd_b. cbn. by rewrite fupd_eq. Qed.

(** The sleeping lock of buffer [i]. *)
Definition buf_sl (i : Z) : Sleepable bio :=
  {| the_sl x := b_lock (bufs x i); put_sl k x := upd_b i (set_b_lock k) x; sl_put := buf_sl_put i |}.

Module Bio.

(** [b->flags & f]. *)
Definition flag (f : Z) (b : buf) : bool := negb (Z.land (b_flags b) f =? 0).

(** Put [b] behind [bcache.head]: the four assignments at the end of [binit]'s
    loop and of [brelse]. *)
Definition link_head (b : Z) (x : bio) : bio :=
  let x := upd_b b (set_b_next (b_next (bufs x HEAD))) x in
  let x := upd_b b (set_b_prev HEAD) x in
  let x := upd_b (b_next (bufs x HEAD)) (set_b_prev b) x in
  upd_b HEAD (set_b_next b) x.

(** [b->next->prev = b->prev; b->prev->next = b->next]. *)
Definition unlink (b : Z) (x : bio) : bio :=
  let x := upd_b (b_next (bufs x b)) (set_b_prev (b_prev (bufs x b))) x in
  upd_b (b_prev (bufs x b)) (set_b_next (b_next (bufs x b))) x.

(** The loop of [binit] from buffer [b] on; here the lock is initialised
    before the buffer is linked. *)
Fixpoint binit_loop (n : nat) (b : Z) (x : bio) : bio :=
  match n with
  | O => x
  | S n' =>
      let x := upd_b b (fun y => set_b_lock (Sleeplock.initsleeplock "buffer" (b_lock y)) y) x in
      binit_loop n' (b + 1) (link_head b x)
  end.

Definition binit (x : bio) : bio :=
  let x := set_bc_lock (Spinlock.initlock "bcache" (bc_lock x)) x in
  let x := upd_b HEAD (set_b_prev HEAD) x in
  let x := upd_b HEAD (set_b_next HEAD) x in
  binit_loop NBUF 0 x.

Section Bio.
Context `{SV : Services} (resume : kst -> bio -> kst * bio) (rounds : nat).
(** The address of each buffer's lock. *)
Context (lock_at : Z -> Z).
Implicit Types (s : kst) (x : bio).

Definition acquiresleep (i : Z) s x : res (kst * bio) :=
  Sleeplock.acquiresleep (SX := buf_sl i) resume (lock_at i) rounds s x.
Definition releasesleep (i : Z) s x : res (kst * bio) :=
  Sleeplock.releasesleep (SX := buf_sl i) (lock_at i) s x.
Definition holdingsleep (i : Z) s x : res (bool * kst * bio) :=
  Sleeplock.holdingsleep (SX := buf_sl i) s x.

Definition lock_bc s x : res (kst * bio) :=
  let? (k, m) := Spinlock.acquire (bc_lock x) (mach s) in Ok (set_mach m s, set_bc_lock k x).
Definition unlock_bc s x : res (kst * bio) :=
  let? (k, m) := Spinlock.release (bc_lock x) (mach s) in Ok (set_mach m s, set_bc_lock k x).

(** The first loop of [bget], from [b] along [next]. *)
Fixpoint find_cached (n : nat) (b dev blockno : Z) x : res (option Z) :=
  match n with
  | O => OutOfFuel
  | S n' =>
      if b =? HEAD then Ok None
      else if (b_dev (bufs x b) =? dev) && (b_blockno (bufs x b) =? blockno) then Ok (Some b)
      else find_cached n' (b_next (bufs x b)) dev blockno x
  end.

(** The second loop, from [b] along [prev]. *)
Fixpoint find_victim (n : nat) (b : Z) x : res (option Z) :=
  match n with
  | O => OutOfFuel
  | S n' =>
      if b =? HEAD then Ok None
      else if (b_refcnt (bufs x b) =? 0) && negb (flag B_DIRTY (bufs x b)) then Ok (Some b)
      else find_victim n' (b_prev (bufs x b)) x
  end.

Definition bget (dev blockno : Z) s x : res (Z * kst * bio) :=
  let? (s, x) := lock_bc s x in
  let? r := find_cached (S NBUF) (b_next (bufs x HEAD)) dev blockno x in
  match r with
  | Some b =>
      let x := upd_b b (fun y => set_b_refcnt (u32 (b_refcnt y + 1)) y) x in
      let? (s, x) := unlock_bc s x in
      let? (s, x) := acquiresleep b s x in
      Ok (b, s, x)
  | None =>
      let? r := find_victim (S NBUF) (b_prev (bufs x HEAD)) x in
      match r with
      | Some b =>
          let x := upd_b b (set_b_dev dev) x in
          let x := upd_b b (set_b_blockno blockno) x in
          let x := upd_b b (set_b_flags 0) x in
          let x := upd_b b (set_b_refcnt 1) x in
          let? (s, x) := unlock_bc s x in
          let? (s, x) := acquiresleep b s x in
          Ok (b, s, x)
      | None => Panic "bget: no buffers"
      end
  end.

(** [iderw] of memide.c. *)
Definition iderw (b : Z) s x : res (kst * bio) :=
  let? (h, s, x) := holdingsleep b s x in
  let y := bufs x b in
  if negb h then Panic "iderw: buf not locked"
  else if Z.land (b_flags y) (Z.lor B_VALID B_DIRTY) =? B_VALID then Panic "iderw: nothing to do"
  else if negb (b_dev y =? 1) then Panic "iderw: request not for disk 1"
  else if disksize x <=? b_blockno y then Panic "iderw: block out of range"
  else
    let x := (if flag B_DIRTY y
              then set_memdisk (fupd (memdisk x) (b_blockno y) (b_data y))
                     (upd_b b (set_b_flags (Z.land (b_flags y) (Z.lnot B_DIRTY))) x)
              else upd_b b (set_b_data (memdisk x (b_blockno y))) x) in
    Ok (s, upd_b b (fun y => set_b_flags (Z.lor (b_flags y) B_VALID) y) x).

Definition bread (dev blockno : Z) s x : res (Z * kst * bio) :=
  let? (b, s, x) := bget dev blockno s x in
  let? (s, x) := (if negb (flag B_VALID (bufs x b)) then iderw b s x else Ok (s, x)) in
  Ok (b, s, x).

Definition bwrite (b : Z) s x : res (kst * bio) :=
  let? (h, s, x) := holdingsleep b s x in
  if negb h then Panic "bwrite"
  else
    let x := upd_b b (fun y => set_b_flags (Z.lor (b_flags y) B_DIRTY) y) x in
    iderw b s x.

Definition brelse (b : Z) s x : res (kst * bio) :=
  let? (h, s, x) := holdingsleep b s x in
  if negb h then Panic "brelse"
  else
    let? (s, x) := releasesleep b s x in
    let? (s, x) := lock_bc s x in
    let x := upd_b b (fun y => set_b_refcnt (u32 (b_refcnt y - 1)) y) x in
    let x := (if b_refcnt (bufs x b) =? 0 then link_head b (unlink b x) else x) in
    unlock_bc s x.

End Bio.
End Bio.

(** * The list of buffers *)

Section Ring.
Import Bio.
Implicit Types (f g : Z -> buf) (l : list Z) (a b : Z).

(** From [a] to [b], the buffers in between are [l], linked both ways. *)
Fixpoint seg f a l b : Prop :=
  match l with
  | [] => b_next (f a) = b /\ b_prev (f b) = a
  | c :: l' => b_next (f a) = c /\ b_prev (f c) = a /\ seg f c l' b
  end.

(** The circle through [bcache.head] is [l]. *)
Definition ring f l : Prop := seg f HEAD l HEAD /\ NoDup (HEAD :: l).

Lemma seg_app f a l1 c l2 b : seg f a (l1 ++ c :: l2) b <-> seg f a l1 c /\ seg f c l2 b.
Proof.
  revert a. induction l1 as [|d l1 IH]; intros a; cbn [app seg]; [tauto|]. rewrite IH. tauto.
Qed.

Lemma seg_agree f g a l b :
  (forall y, y ∈ a :: l -> b_next (g y) = b_next (f y)) ->
  (forall y, y ∈ l ++ [b] -> b_prev (g y) = b_prev (f y)) -> seg f a l b -> seg g a l b.
Proof.
  revert a. induction l as [|c l IH]; intros a Hn Hp; cbn [seg].
  - rewrite Hn, Hp by left. done.
  - intros (H1 & H2 & H3). rewrite Hn, Hp by left. split; [done|]. split; [done|].
    apply IH; [|..|done]; intros y Hy; [apply Hn|apply Hp]; by right.
Qed.

Lemma bufs_upd i (h : buf -> buf) x y :
  bufs (upd_b i h x) y = if decide (y = i) then h (bufs x i) else bufs x y.
Proof.
  unfold upd_b. cbn. case_decide as E; [subst; apply fupd_eq|by apply fupd_ne].
Qed.

(** What the pointer assignments of [brelse] do. *)
Lemma unlink_ptrs x b y : b_next (bufs x b) <> b ->
  b_next (bufs (unlink b x) y) =
    (if decide (y = b_prev (bufs x b)) then b_next (bufs x b) else b_next (bufs x y)) /\
  b_prev (bufs (unlink b x) y) =
    (if decide (y = b_next (bufs x b)) then b_prev (bufs x b) else b_prev (bufs x y)).
Proof.
  intros Hn. unfold unlink. set (x1 := upd_b (b_next (bufs x b)) _ x).
  assert (bufs x1 b = bufs x b) as E by (unfold x1; rewrite bufs_upd, decide_False; congruence).
  rewrite E, bufs_upd. unfold x1. rewrite !bufs_upd.
  split; repeat case_decide; cbn; congruence.
Qed.

Lemma link_ptrs x b y : b <> HEAD -> b_next (bufs x HEAD) <> b ->
  b_next (bufs (link_head b x) y) =
    (if decide (y = HEAD) then b else if decide (y = b) then b_next (bufs x HEAD) else b_next (bufs x y)) /\
  b_prev (bufs (link_head b x) y) =
    (if decide (y = b_next (bufs x HEAD)) then b else if decide (y = b) then HEAD else b_prev (bufs x y)).
Proof.
  intros Hb Hh. unfold link_head. set (x1 := upd_b b _ x). set (x2 := upd_b b _ x1).
  assert (bufs x1 HEAD = bufs x HEAD) as E1 by (unfold x1; rewrite bufs_upd, decide_False; congruence).
  assert (bufs x2 HEAD = bufs x HEAD) as E2 by (unfold x2; rewrite bufs_upd, decide_False; congruence).
  rewrite E2, !bufs_upd. unfold x2. rewrite !bufs_upd. unfold x1. rewrite !bufs_upd.
  split; repeat case_decide; cbn; congruence.
Qed.

Lemma NoDup_app_ne (l k : list Z) y z : NoDup (l ++ k) -> y ∈ l -> z ∈ k -> y <> z.
Proof. rewrite NoDup_app. intros (_ & H & _) Hy Hz ->. by apply (H z). Qed.

(** A segment that does not touch [p]'s next and [n]'s previous pointer. *)
Lemma seg_unlink x b a l c :
  b_next (bufs x b) <> b -> b_prev (bufs x b) ∉ a :: l -> b_next (bufs x b) ∉ l ++ [c] ->
  seg (bufs x) a l c -> seg (bufs (unlink b x)) a l c.
Proof.
  intros Hb Hp Hn. apply seg_agree; intros y Hy; destruct (unlink_ptrs x b y Hb) as [En Ep];
    rewrite ?En, ?Ep; (rewrite decide_False; [done|intros ->; done]).
Qed.

Lemma unlink_ring x l1 b l2 : ring (bufs x) (l1 ++ b :: l2) -> ring (bufs (unlink b x)) (l1 ++ l2).
Proof.
  intros [Hs Hnd]. split.
  2: { change (HEAD :: l1 ++ l2) with ((HEAD :: l1) ++ l2).
       change (HEAD :: l1 ++ b :: l2) with ((HEAD :: l1) ++ b :: l2) in Hnd.
       apply NoDup_app in Hnd as (A & B & [_ D]%NoDup_cons).
       apply NoDup_app. split_and!; [done| |done]. intros y Hy Hy2. apply (B y Hy). by right. }
  apply seg_app in Hs as [H1 H2].
  destruct l1 as [|p l1 _] using rev_ind; [|apply seg_app in H1 as [H1 H3]];
    (destruct l2 as [|n l2]; cbn [seg] in *; [|destruct H2 as (H4 & H5 & H2)]).
  - destruct H1 as [H1 H1'], H2 as [H2 H2']. cbn [app seg].
    assert (b <> HEAD) as Hbh by (clear -Hnd; apply NoDup_cons in Hnd as [Hnd _]; set_solver).
    assert (b_next (bufs x b) <> b) as Hb by congruence.
    destruct (unlink_ptrs x b HEAD Hb) as [-> ->]. rewrite !decide_True; done.
  - destruct H1 as [H1 H1']. cbn [app seg] in *.
    assert (HEAD <> n /\ b <> n /\ b <> HEAD /\ (n ∉ l2) /\ (HEAD ∉ l2)) as (E1 & E2 & E3 & E4 & E5).
    { clear -Hnd. rewrite !NoDup_cons in Hnd. set_solver. }
    assert (b_next (bufs x b) <> b) as Hb by congruence.
    destruct (unlink_ptrs x b HEAD Hb) as [-> _]. destruct (unlink_ptrs x b n Hb) as [_ ->].
    rewrite !decide_True by congruence. split; [done|]. split; [done|].
    apply seg_unlink; [done|rewrite H1'; clear -E1 E2 E3 E4 E5; set_solver|rewrite H4; clear -E1 E2 E3 E4 E5; set_solver|done].
  - destruct H2 as [H2 H2'], H3 as [H3 H3']. rewrite app_nil_r. apply seg_app.
    assert (HEAD <> p /\ b <> p /\ b <> HEAD /\ (p ∉ l1) /\ (HEAD ∉ l1)) as (E1 & E2 & E3 & E4 & E5).
    { clear -Hnd. rewrite <- app_assoc in Hnd. cbn [app] in Hnd.
      rewrite NoDup_cons, NoDup_app, !NoDup_cons in Hnd. set_solver. }
    assert (b_next (bufs x b) <> b) as Hb by congruence. split.
    + apply seg_unlink; [done|rewrite H3'; clear -E1 E2 E3 E4 E5; set_solver|
        rewrite H2; clear -E1 E2 E3 E4 E5; set_solver|done].
    + cbn [seg]. destruct (unlink_ptrs x b p Hb) as [-> _]. destruct (unlink_ptrs x b HEAD Hb) as [_ ->].
      rewrite !decide_True by congruence. done.
  - destruct H3 as [H3 H3']. rewrite <- app_assoc. apply seg_app.
    assert (HEAD <> p /\ HEAD <> n /\ p <> n /\ b <> p /\ b <> n /\ b <> HEAD /\ (p ∉ l1) /\ (n ∉ l1) /\
      (p ∉ l2) /\ (n ∉ l2) /\ (HEAD ∉ l1) /\ (HEAD ∉ l2)) as (E1 & E2 & E3 & E4 & E5 & E6 & E7 & E8 & E9 & E10 & E11 & E12).
    { clear -Hnd. rewrite <- app_assoc in Hnd. cbn [app] in Hnd.
      rewrite NoDup_cons, NoDup_app, !NoDup_cons in Hnd. set_solver. }
    assert (b_next (bufs x b) <> b) as Hb by congruence. split.
    + apply seg_unlink; [done|rewrite H3'; clear -E1 E2 E3 E4 E5 E6 E7 E8 E9 E10 E11 E12; set_solver|
        rewrite H4; clear -E1 E2 E3 E4 E5 E6 E7 E8 E9 E10 E11 E12; set_solver|done].
    + cbn [app seg]. destruct (unlink_ptrs x b p Hb) as [-> _]. destruct (unlink_ptrs x b n Hb) as [_ ->].
      rewrite !decide_True by congruence. split; [done|]. split; [done|].
      apply seg_unlink; [done|rewrite H3'; clear -E1 E2 E3 E4 E5 E6 E7 E8 E9 E10 E11 E12; set_solver|
        rewrite H4; clear -E1 E2 E3 E4 E5 E6 E7 E8 E9 E10 E11 E12; set_solver|done].
Qed.

Lemma link_ring x b l : ring (bufs x) l -> b ∉ HEAD :: l -> ring (bufs (link_head b x)) (b :: l).
Proof.
  intros [Hs Hnd] Hb. split.
  2: { revert Hnd Hb. rewrite !NoDup_cons. set_solver. }
  assert (b <> HEAD) as Hbh by set_solver.
  destruct l as [|n l]; cbn [seg] in *.
  - destruct Hs as [H1 H2]. assert (b_next (bufs x HEAD) <> b) as Hn by congruence.
    destruct (link_ptrs x b HEAD Hbh Hn) as [-> ->]. destruct (link_ptrs x b b Hbh Hn) as [-> ->].
    repeat case_decide; split_and!; congruence.
  - destruct Hs as (H1 & H2 & Hs). assert (n <> b) as Hnb by set_solver.
    assert (HEAD <> n /\ (HEAD ∉ l) /\ (n ∉ l) /\ (b ∉ l)) as (E1 & E2 & E3 & E4).
    { clear -Hnd Hb. rewrite !NoDup_cons in Hnd. set_solver. }
    assert (b_next (bufs x HEAD) <> b) as Hn by congruence.
    destruct (link_ptrs x b HEAD Hbh Hn) as [-> _]. destruct (link_ptrs x b b Hbh Hn) as [-> ->].
    destruct (link_ptrs x b n Hbh Hn) as [_ ->].
    repeat case_decide; try congruence. split_and!; try congruence.
    revert Hs. apply seg_agree; intros y Hy; destruct (link_ptrs x b y Hbh Hn) as [En Ep];
      rewrite ?En, ?Ep, ?H1; repeat case_decide; set_solver.
Qed.

End Ring.
