(* ===== verification/BioFacts.v ===== *)
(** The buffer cache of Bio.v implements the block device [bdev] of Block.v,
    for a process that holds no two buffers of one block and does not release a
    buffer it changed without writing or pinning it. *)

From S2P Require Import Prelude CString Spinlock Kalloc Proc Demo MlfqFacts ProcFacts Sleep Block Bio.

(** * The loops of bget over the list *)

Section Loops.
Import Bio.
Implicit Types (x : bio) (l : list Z) (a b : Z).

Definition is_block (dev bno : Z) x b : bool :=
  (b_dev (bufs x b) =? dev) && (b_blockno (bufs x b) =? bno).
Definition is_unused x b : bool := (b_refcnt (bufs x b) =? 0) && negb (flag B_DIRTY (bufs x b)).

Lemma find_cached_seg n x a l dev bno :
  seg (bufs x) a l HEAD -> HEAD ∉ l -> (length l < n)%nat ->
  find_cached n (b_next (bufs x a)) dev bno x = Ok (List.find (is_block dev bno x) l).
Proof.
  revert n a. induction l as [|c l IH]; intros n a Hs Hh Hn; destruct n as [|n]; cbn in Hn; try lia;
    cbn [seg] in Hs; cbn [find_cached List.find].
  - destruct Hs as [-> _]. by rewrite Z.eqb_refl.
  - destruct Hs as (-> & _ & Hs). apply not_elem_of_cons in Hh as [Hc Hh].
    rewrite (proj2 (Z.eqb_neq _ _)) by congruence. unfold is_block at 1.
    destruct (_ && _); [done|]. apply IH; [done|done|lia].
Qed.

Lemma find_victim_seg n x l b :
  seg (bufs x) HEAD l b -> HEAD ∉ l -> (length l < n)%nat ->
  find_victim n (b_prev (bufs x b)) x = Ok (List.find (is_unused x) (rev l)).
Proof.
  revert n b. induction l as [|c l IH] using rev_ind; intros n b Hs Hh Hn; destruct n as [|n];
    rewrite ?length_app in Hn; cbn in Hn; try lia.
  - destruct Hs as [_ ->]. cbn [find_victim]. by rewrite Z.eqb_refl.
  - apply seg_app in Hs as [Hs1 [_ ->]]. apply not_elem_of_app in Hh as [Hh Hc].
    rewrite not_elem_of_cons in Hc. rewrite rev_unit. cbn [find_victim List.find].
    rewrite (proj2 (Z.eqb_neq _ _)) by (destruct Hc; congruence). unfold is_unused at 1.
    destruct (_ && _); [done|]. apply IH; [done|done|lia].
Qed.
End Loops.

(** * The cache as a block device *)

(** Buffer [y] holds block [b] of the disk. *)
Definition holds_block (b : Z) (y : buf) : Prop := b_dev y = 1 /\ b_blockno y = b.

#[export] Instance holds_block_dec b y : Decision (holds_block b y).
Proof. apply and_dec; apply _. Defined.

(** One buffer, seen from process [id] on the device [d]. *)
Record buf_rep (id : Z) (d : bdev) (y : buf) : Prop := {
  br_spin : locked (sl_lk (b_lock y)) = 0;
  br_ref : b_refcnt y = sl_locked (b_lock y);
  br_one : sl_locked (b_lock y) = 0 \/ sl_locked (b_lock y) = 1;
  br_pid : sl_locked (b_lock y) <> 0 -> sl_pid (b_lock y) = id;
  br_none : b_dev y <> 1 -> b_flags y = 0 /\ sl_locked (b_lock y) = 0;
  br_flags : b_dev y = 1 -> b_flags y = if decide (b_blockno y ∈ pinned d) then 6 else 2;
  br_data : b_dev y = 1 -> b_data y = Dev.contents d (b_blockno y);
  br_held : b_dev y = 1 -> sl_locked (b_lock y) <> 0 <-> b_blockno y ∈ held d;
  br_range : b_dev y = 1 -> b_blockno y < nblk d
}.

(** The buffers [f] in the order [l] on the disk [dk] are the device [d]. *)
Record cache_rep (id : Z) (f : Z -> buf) (dk : Z -> block) (l : list Z) (d : bdev) : Prop := {
  cr_ring : ring f l;
  cr_len : length l = NBUF;
  cr_buf i : i ∈ l -> buf_rep id d (f i);
  cr_uniq i j b : i ∈ l -> j ∈ l -> holds_block b (f i) -> holds_block b (f j) -> i = j;
  cr_in b : b ∈ held d ++ pinned d -> exists i, i ∈ l /\ holds_block b (f i);
  cr_disk b : dk b = disk d b;
  cr_clean b : b ∉ held d ++ pinned d -> Dev.contents d b = disk d b
}.

(** [d'] differs from [d] in block [b] only. *)
Definition agree_off (b : Z) (d d' : bdev) : Prop :=
  nblk d' = nblk d /\
  forall a, a <> b -> (a ∈ held d' <-> a ∈ held d) /\ (a ∈ pinned d' <-> a ∈ pinned d) /\
    Dev.contents d' a = Dev.contents d a /\ disk d' a = disk d a.

Section Rep.
Implicit Types (f : Z -> buf) (dk : Z -> block) (l : list Z) (d : bdev) (y : buf).

Lemma ring_agree f g l :
  (forall i, b_next (g i) = b_next (f i) /\ b_prev (g i) = b_prev (f i)) -> ring f l -> ring g l.
Proof.
  intros H [Hs Hn]. split; [|done]. revert Hs. apply seg_agree; intros y _; apply H.
Qed.

Lemma buf_rep_off id b d d' y :
  agree_off b d d' -> ~ holds_block b y -> buf_rep id d y -> buf_rep id d' y.
Proof.
  intros [Hn Ha] Hb [H1 H2 Ho H3 H4 H5 H6 H7 H8]. split; try done; [..|by rewrite Hn].
  - intros E. rewrite H5 by done. destruct (Ha (b_blockno y)) as (_ & E2 & _); [by intros <-; apply Hb|].
    repeat case_decide; tauto.
  - intros E. rewrite H6 by done. symmetry. apply Ha. by intros <-; apply Hb.
  - intros E. rewrite H7 by done. symmetry. apply Ha. by intros <-; apply Hb.
Qed.

(** Only buffer [i] changes, and it holds [b] afterwards. *)
Lemma cache_rep_upd id f g dk dk' l d d' i b :
  cache_rep id f dk l d -> i ∈ l -> agree_off b d d' -> (forall j, j <> i -> g j = f j) ->
  holds_block b (g i) -> buf_rep id d' (g i) -> b_next (g i) = b_next (f i) -> b_prev (g i) = b_prev (f i) ->
  (forall j, j ∈ l -> j <> i -> ~ holds_block b (f j)) ->
  (forall a, a <> b -> a ∈ held d ++ pinned d -> ~ holds_block a (f i)) ->
  (forall a, dk' a = disk d' a) -> (b ∉ held d' ++ pinned d' -> Dev.contents d' b = disk d' b) ->
  cache_rep id g dk' l d'.
Proof.
  intros [R1 R2 R3 R4 R5 R6 R7] Hi Hag Hne Hy Hrep Hnx Hpv Hoth Hold Hdk Hcl.
  pose proof Hag as [_ Ha]. split; [|done|..|done|].
  - revert R1. apply ring_agree. intros j. destruct (decide (j = i)) as [->|Hj]; [done|by rewrite (Hne j Hj)].
  - intros j Hj. destruct (decide (j = i)) as [->|Hn]; [done|].
    rewrite Hne by done. apply (buf_rep_off _ b d); auto.
  - intros j k a Hj Hk. destruct (decide (j = i)) as [->|Hji], (decide (k = i)) as [->|Hki];
      rewrite ?(Hne j), ?(Hne k) by done; [done|..|apply R4; done].
    + intros [_ E1] H2. destruct Hy as [_ E2]. destruct (Hoth k Hk Hki). by rewrite E2 in E1; subst a.
    + intros H1 [_ E1]. destruct Hy as [_ E2]. destruct (Hoth j Hj Hji). by rewrite E2 in E1; subst a.
  - intros a Hin. destruct (decide (a = b)) as [->|Hab]; [by exists i|].
    assert (a ∈ held d ++ pinned d) as Hin'.
    { rewrite elem_of_app in *. destruct (Ha a Hab) as (E1 & E2 & _). tauto. }
    destruct (R5 a Hin') as (j & Hj & Hh). exists j. split; [done|]. rewrite Hne; [done|].
    intros ->. by apply (Hold a).
  - intros a Hn. destruct (decide (a = b)) as [->|Hab]; [by apply Hcl|].
    destruct (Ha a Hab) as (E1 & E2 & -> & ->). apply R7. rewrite elem_of_app in *. tauto.
Qed.

(** The buffer that already holds [b] changes. *)
Lemma cache_rep_same id f g dk dk' l d d' i b :
  cache_rep id f dk l d -> i ∈ l -> holds_block b (f i) -> agree_off b d d' -> (forall j, j <> i -> g j = f j) ->
  holds_block b (g i) -> buf_rep id d' (g i) -> b_next (g i) = b_next (f i) -> b_prev (g i) = b_prev (f i) ->
  (forall a, dk' a = disk d' a) -> (b ∉ held d' ++ pinned d' -> Dev.contents d' b = disk d' b) ->
  cache_rep id g dk' l d'.
Proof.
  intros R Hi Hb. intros. apply (cache_rep_upd id f g dk dk' l d d' i b); try done.
  - intros j Hj Hne Hh. by apply Hne, (cr_uniq _ _ _ _ _ R j i b).
  - intros a Hab _ [_ E]. destruct Hb as [_ E2]. congruence.
Qed.

(** A buffer that is in use or dirty holds a block that is held or pinned. *)
Lemma used_block id d y :
  buf_rep id d y -> (b_refcnt y =? 0) && negb (Bio.flag B_DIRTY y) = false ->
  b_dev y = 1 /\ (b_blockno y ∈ held d ++ pinned d).
Proof.
  intros [H1 H2 Ho H3 H4 H5 H6 H7 _] Hu. rewrite elem_of_app. unfold Bio.flag in Hu.
  destruct (decide (b_dev y = 1)) as [E|E].
  - split; [done|]. rewrite H5 in Hu by done. rewrite H2 in Hu.
    destruct Ho as [El|El]; rewrite El in Hu; [right|left; apply H7; [done|lia]].
    by destruct (decide (b_blockno y ∈ pinned d)).
  - destruct (H4 E) as [E1 E2]. rewrite E1, H2, E2 in Hu. done.
Qed.

(** Fewer blocks held and pinned than there are buffers: one can be recycled. *)
Lemma find_victim_some id x dk l d :
  cache_rep id (bufs x) dk l d -> (length (remove_dups (held d ++ pinned d)) < NBUF)%nat ->
  exists i, List.find (is_unused x) (rev l) = Some i.
Proof.
  intros R Hlen. destruct (List.find (is_unused x) (rev l)) as [i|] eqn:E; [by exists i|].
  assert (forall i, i ∈ l -> b_dev (bufs x i) = 1 /\ (b_blockno (bufs x i) ∈ held d ++ pinned d)) as H.
  { intros i Hi. apply (used_block id); [by apply (cr_buf _ _ _ _ _ R)|].
    apply (List.find_none _ _ E). apply -> List.in_rev. by apply list_elem_of_In. }
  assert (NoDup ((fun i => b_blockno (bufs x i)) <$> l)) as Hnd.
  { apply NoDup_fmap_2_strong.
    - intros i j Hi Hj Eq. by apply (cr_uniq _ _ _ _ _ R i j (b_blockno (bufs x j)));
        [..|split; [apply H|]|split; [apply H|]].
    - destruct (cr_ring _ _ _ _ _ R) as [_ Hn]. by apply NoDup_cons in Hn as [_ Hn]. }
  apply NoDup_submseteq with (k := remove_dups (held d ++ pinned d)) in Hnd.
  - apply submseteq_length in Hnd. rewrite length_fmap, (cr_len _ _ _ _ _ R) in Hnd. lia.
  - intros b (i & -> & Hi)%list_elem_of_fmap. apply elem_of_remove_dups. by apply H.
Qed.

End Rep.

(** The state of the cache is [d]. *)
Record bio_rep (id : Z) (x : bio) (l : list Z) (d : bdev) : Prop := {
  bp_lock : locked (bc_lock x) = 0;
  bp_size : disksize x = nblk d;
  bp_cache : cache_rep id (bufs x) (memdisk x) l d
}.

(** * The operations *)

(** Only the sleeping lock of buffer [i] differs. *)
Definition only_sl (i : Z) (x x' : bio) : Prop :=
  bc_lock x' = bc_lock x /\ memdisk x' = memdisk x /\ disksize x' = disksize x /\
  (forall j, j <> i -> bufs x' j = bufs x j) /\
  bufs x' i = set_b_lock (b_lock (bufs x' i)) (bufs x i).

#[export] Instance only_sl_preorder i : PreOrder (only_sl i).
Proof.
  split.
  - intros x. split_and!; try done. by destruct (bufs x i).
  - intros x y z (A1 & A2 & A3 & A4 & A5) (B1 & B2 & B3 & B4 & B5).
    split_and!; try congruence.
    + intros j Hj. rewrite B4, A4; done.
    + rewrite B5 at 1. rewrite A5. by destruct (bufs x i).
Qed.

Lemma only_sl_put i k y : only_sl i y (put_sl (Sleepable := buf_sl i) k y).
Proof.
  split_and!; try done; cbn; unfold upd_b; cbn.
  - intros j Hj. by rewrite fupd_ne.
  - by rewrite fupd_eq.
Qed.

Section Ops.
Import Bio.
Context `{SV : Services} (resume : kst -> bio -> kst * bio) (rounds : nat) (lock_at : Z -> Z).
Implicit Types (s : kst) (x : bio) (d : bdev) (l : list Z) (c p : nat) (id i b : Z).

(** Process [p] with identifier [id] runs on CPU [c] and holds no spin lock. *)
Definition caller c p id s : Prop :=
  outside c p s /\ locked (pt_lock s) = 0 /\ exists pr, pt_proc s !! p = Some pr /\ pid pr = id.

Lemma caller_mach c p id s m : caller c p id s -> outside c p (set_mach m s) -> caller c p id (set_mach m s).
Proof. intros (_ & H2 & H3) H. done. Qed.

Lemma lock_bc_ok c p s x :
  outside c p s -> locked (bc_lock x) = 0 ->
  exists k m, lock_bc s x = Ok (set_mach m s, set_bc_lock k x) /\ Sleep.held c k /\
    inside_one c p (set_mach m s).
Proof.
  intros Hout Hl. unfold lock_bc.
  destruct (lock_outside c p s (bc_lock x) Hout Hl) as (k & m & -> & Hh & Hin). by exists k, m.
Qed.

Lemma unlock_bc_ok c p s x :
  inside_one c p s -> Sleep.held c (bc_lock x) ->
  exists k m, unlock_bc s x = Ok (set_mach m s, set_bc_lock k x) /\ locked k = 0 /\
    outside c p (set_mach m s).
Proof.
  intros Hin Hh. unfold unlock_bc.
  destruct (unlock_inside c p s (bc_lock x) Hin Hh) as (k & m & -> & Hl & Hout). by exists k, m.
Qed.

(** The lock of a buffer that this process has taken. *)
Definition mine id (k : sleeplock) : Prop := sl_locked k = 1 /\ sl_pid k = id /\ locked (sl_lk k) = 0.

(** The end of both branches of [bget]: buffer [i] became [y] under the lock. *)
Lemma bget_tail c p id s x y k1 m1 i :
  caller c p id s -> Sleep.held c k1 -> inside_one c p (set_mach m1 s) -> (0 < rounds)%nat ->
  locked (sl_lk (b_lock y)) = 0 -> sl_locked (b_lock y) = 0 ->
  bufs x i = y -> bc_lock x = k1 ->
  exists m x',
    (let? (s, x) := unlock_bc (set_mach m1 s) x in
     let? (s, x) := acquiresleep resume rounds lock_at i s x in Ok (i, s, x)) = Ok (i, set_mach m s, x') /\
    caller c p id (set_mach m s) /\ locked (bc_lock x') = 0 /\ memdisk x' = memdisk x /\
    disksize x' = disksize x /\ (forall j, j <> i -> bufs x' j = bufs x j) /\
    exists K, mine id K /\ bufs x' i = set_b_lock K y.
Proof.
  intros Hc Hh Hin Hr Hsp Hsl Hy Hk. subst y k1.
  destruct (unlock_bc_ok c p (set_mach m1 s) x Hin Hh) as (k2 & m2 & -> & Hk2 & Hout2). cbn [res_bind].
  pose proof Hc as (_ & _ & pr & Hpr & Hid).
  destruct (acquiresleep_free (SX := buf_sl i) resume (lock_at i) (only_sl i) (only_sl_put i) c p rounds
    (set_mach m2 (set_mach m1 s)) (set_bc_lock k2 x) pr Hout2 Hsp Hsl Hpr Hr)
    as (m3 & x' & E & (R1 & R2 & R3 & R4 & R5) & H1 & H2 & H3 & Hout3).
  unfold acquiresleep. rewrite E. cbn [res_bind]. exists m3, x'. split; [done|].
  split; [by apply (caller_mach _ _ _ s)|]. rewrite R1. split; [done|]. split; [done|]. split; [done|].
  split; [exact R4|]. exists (b_lock (bufs x' i)). split; [|exact R5]. split; [exact H1|]. split; [|exact H3].
  etrans; [exact H2|done].
Qed.

(** A buffer that [bget] may recycle. *)
Definition is_free (y : buf) : Prop := b_refcnt y = 0 /\ flag B_DIRTY y = false.

(** Buffer [i] is locked for block [b]: it has the block, or it was recycled. *)
Definition got id b (y y' : buf) : Prop :=
  exists K, mine id K /\
    (holds_block b y /\ y' = set_b_lock K (set_b_refcnt 1 y) \/
     is_free y /\ y' = set_b_lock K (set_b_refcnt 1 (set_b_flags 0 (set_b_blockno b (set_b_dev 1 y))))).

Lemma find_rep id x l d (P : Z -> bool) i L :
  cache_rep id (bufs x) (memdisk x) l d -> (forall j, j ∈ L -> j ∈ l) -> List.find P L = Some i ->
  (i ∈ l) /\ P i = true /\ buf_rep id d (bufs x i).
Proof.
  intros R HL [Hi Hp]%List.find_some. apply list_elem_of_In, HL in Hi.
  split; [done|]. split; [done|]. by apply (cr_buf _ _ _ _ _ R).
Qed.

Lemma bget_ok c p id s x l d b :
  caller c p id s -> bio_rep id x l d -> (0 < rounds)%nat -> b ∉ held d ->
  (length (remove_dups (held d ++ pinned d)) < NBUF)%nat ->
  exists i m x', bget resume rounds lock_at 1 b s x = Ok (i, set_mach m s, x') /\
    (i ∈ l) /\ caller c p id (set_mach m s) /\ locked (bc_lock x') = 0 /\ memdisk x' = memdisk x /\
    disksize x' = disksize x /\ (forall j, j <> i -> bufs x' j = bufs x j) /\
    got id b (bufs x i) (bufs x' i) /\
    (~ holds_block b (bufs x i) ->
     (forall j, j ∈ l -> ~ holds_block b (bufs x j)) /\ List.find (is_unused x) (rev l) = Some i).
Proof.
  intros Hc [Hlk Hsz R] Hr Hb Hcap. pose proof Hc as (Hout & _ & _). unfold bget.
  destruct (lock_bc_ok c p s x Hout Hlk) as (k1 & m1 & -> & Hh & Hin). cbn [res_bind].
  set (x1 := set_bc_lock k1 x). change (bufs x1) with (bufs x).
  destruct (cr_ring _ _ _ _ _ R) as [Hseg Hnd]. apply NoDup_cons in Hnd as [Hhead Hnd].
  rewrite (find_cached_seg (S NBUF) x1 HEAD l) by (done || (rewrite (cr_len _ _ _ _ _ R); lia)). cbn [res_bind].
  destruct (List.find (is_block 1 b x1) l) as [i|] eqn:Ef.
  - destruct (find_rep id x l d (is_block 1 b x1) i l R) as (Hi & Hp & Hrep); [done|exact Ef|].
    apply andb_true_iff in Hp as [Hp1%Z.eqb_eq Hp2%Z.eqb_eq].
    assert (sl_locked (b_lock (bufs x i)) = 0) as Hfree.
    { destruct (decide (sl_locked (b_lock (bufs x i)) = 0)) as [|Hn]; [done|].
      apply (br_held _ _ _ Hrep Hp1) in Hn. cbn in Hp2. by rewrite Hp2 in Hn. }
    set (x2 := upd_b i _ x1).
    assert (bufs x2 i = set_b_refcnt 1 (bufs x i)) as E2.
    { unfold x2. rewrite bufs_upd, decide_True by done. cbn.
      rewrite (br_ref _ _ _ Hrep), Hfree. done. }
    destruct (bget_tail c p id s x2 (set_b_refcnt 1 (bufs x i)) k1 m1 i) as
      (m & x' & E & H1 & H2 & H3 & H4 & H5 & K & HK & H6); try done; [apply (br_spin _ _ _ Hrep)|].
    exists i, m, x'. split; [exact E|]. split_and!; try done.
    + intros j Hj. rewrite H5 by done. unfold x2. by rewrite bufs_upd, decide_False.
    + exists K. split; [done|]. left. done.
    + intros Hn. by destruct Hn.
  - change (bufs x HEAD) with (bufs x1 HEAD).
    rewrite (find_victim_seg (S NBUF) x1 l HEAD) by (done || (rewrite (cr_len _ _ _ _ _ R); lia)). cbn [res_bind].
    destruct (find_victim_some id x1 (memdisk x) l d R Hcap) as [i Ev]. rewrite Ev.
    destruct (find_rep id x l d (is_unused x1) i (rev l) R) as (Hi & Hp & Hrep);
      [intros j; rewrite !list_elem_of_In; apply List.in_rev|exact Ev|].
    apply andb_true_iff in Hp as [Hp1%Z.eqb_eq Hp2%negb_true_iff]. cbn in Hp1.
    assert (sl_locked (b_lock (bufs x i)) = 0) as Hfree.
    { by rewrite (br_ref _ _ _ Hrep) in Hp1. }
    set (y := set_b_refcnt 1 (set_b_flags 0 (set_b_blockno b (set_b_dev 1 (bufs x i))))).
    set (x2 := upd_b i (set_b_refcnt 1) _).
    assert (bufs x2 i = y) as E2 by (unfold x2; rewrite !bufs_upd, !decide_True by done; done).
    destruct (bget_tail c p id s x2 y k1 m1 i) as
      (m & x' & E & H1 & H2 & H3 & H4 & H5 & K & HK & H6); try done; [apply (br_spin _ _ _ Hrep)|].
    exists i, m, x'. split; [exact E|]. split_and!; try done.
    + intros j Hj. rewrite H5 by done. unfold x2. by rewrite !bufs_upd, !decide_False.
    + exists K. split; [done|]. right. done.
    + intros _. split; [|exact Ev]. intros j Hj [Hh1 Hh2]. apply list_elem_of_In in Hj.
      pose proof (List.find_none _ _ Ef j Hj) as Hf. unfold is_block in Hf. cbn in Hf.
      by rewrite Hh1, Hh2, !Z.eqb_refl in Hf.
Qed.

Lemma holdingsleep_ok c p id s x i :
  caller c p id s -> mine id (b_lock (bufs x i)) ->
  exists m x', holdingsleep i s x = Ok (true, set_mach m s, x') /\ caller c p id (set_mach m s) /\
    only_sl i x x' /\ mine id (b_lock (bufs x' i)).
Proof.
  intros Hc (H1 & H2 & H3). pose proof Hc as (Hout & _ & pr & Hpr & Hid).
  destruct (holdingsleep_mine (SX := buf_sl i) (only_sl i) (only_sl_put i) c p s x pr Hout H3)
    as (m & x' & E & R & E1 & E2 & E3 & Hout'); [cbn; lia|done|by rewrite Hid|].
  exists m, x'. split; [exact E|]. split; [by apply (caller_mach _ _ _ s)|]. split; [done|].
  split; [etrans; [exact E1|exact H1]|]. split; [etrans; [exact E2|exact Hid]|exact E3].
Qed.

(** [iderw] of a locked buffer: a dirty one goes to the disk, another one gets
    its data from there. *)
Lemma iderw_ok c p id s x i :
  caller c p id s -> mine id (b_lock (bufs x i)) -> b_dev (bufs x i) = 1 ->
  Z.land (b_flags (bufs x i)) (Z.lor B_VALID B_DIRTY) <> B_VALID -> b_blockno (bufs x i) < disksize x ->
  exists m x', iderw i s x = Ok (set_mach m s, x') /\ caller c p id (set_mach m s) /\
    bc_lock x' = bc_lock x /\ disksize x' = disksize x /\ (forall j, j <> i -> bufs x' j = bufs x j) /\
    exists K, mine id K /\
      if flag B_DIRTY (bufs x i) then
        memdisk x' = fupd (memdisk x) (b_blockno (bufs x i)) (b_data (bufs x i)) /\
        bufs x' i = set_b_lock K (set_b_flags
          (Z.lor (Z.land (b_flags (bufs x i)) (Z.lnot B_DIRTY)) B_VALID) (bufs x i))
      else memdisk x' = memdisk x /\
        bufs x' i = set_b_lock K (set_b_flags (Z.lor (b_flags (bufs x i)) B_VALID)
          (set_b_data (memdisk x (b_blockno (bufs x i))) (bufs x i))).
Proof.
  intros Hc Hm Hd Hf Hb. unfold iderw.
  destruct (holdingsleep_ok c p id s x i Hc Hm) as (m & x1 & -> & Hc1 & (R1 & R2 & R3 & R4 & R5) & Hm1).
  cbn [res_bind negb]. rewrite R5 in *. cbn [b_flags b_dev b_blockno b_data set_b_lock b_lock] in *.
  rewrite (proj2 (Z.eqb_neq _ _) Hf), Hd, R3, (proj2 (Z.leb_gt _ _) Hb). cbn [negb Z.eqb Pos.eqb].
  set (K := b_lock (bufs x1 i)) in *.
  assert (flag B_DIRTY (set_b_lock K (bufs x i)) = flag B_DIRTY (bufs x i)) as -> by done.
  destruct (flag B_DIRTY (bufs x i)).
  - do 2 eexists. split; [done|]. split; [done|]. split; [done|]. split; [done|]. split.
    { intros j Hj. rewrite bufs_upd, decide_False by done. cbn [bufs set_memdisk].
      rewrite bufs_upd, decide_False by done. by apply R4. }
    exists K. split; [done|]. split; [cbn; by rewrite R2|].
    rewrite bufs_upd, decide_True by done. cbn [bufs set_memdisk].
    rewrite bufs_upd, decide_True, R5 by done. done.
  - do 2 eexists. split; [done|]. split; [done|]. split; [done|]. split; [done|]. split.
    { intros j Hj. rewrite !bufs_upd, !decide_False by done. by apply R4. }
    exists K. split; [done|]. split; [done|].
    rewrite !bufs_upd, !decide_True, R5, R2 by done. done.
Qed.

(** [i] is the buffer of block [b]. *)
Definition buf_of x l i b : Prop := (i ∈ l) /\ holds_block b (bufs x i).

Lemma rep_mine id x l d i b :
  bio_rep id x l d -> buf_of x l i b -> b ∈ held d ->
  buf_rep id d (bufs x i) /\ sl_locked (b_lock (bufs x i)) <> 0.
Proof.
  intros [_ _ R] [Hi [H1 H2]] Hb. pose proof (cr_buf _ _ _ _ _ R i Hi) as Hrep.
  split; [done|]. apply (br_held _ _ _ Hrep H1). by rewrite H2.
Qed.

(** The device after [bread] of block [b]. *)
Definition dread b d : bdev :=
  set_held (b :: held d) (set_cached (fupd (cached d) b (Some (Dev.contents d b))) d).

Lemma contents_dread b d a : Dev.contents (dread b d) a = Dev.contents d a.
Proof. unfold dread, Dev.contents. cbn. unfold fupd. destruct (Z.eqb_spec a b) as [->|]; done. Qed.

Lemma agree_dread b d : agree_off b d (dread b d).
Proof. split; [done|]. intros a Hab. rewrite contents_dread. cbn. rewrite elem_of_cons. split_and!; [tauto|done..]. Qed.

(** The block was cached. *)
Lemma rep_hit id f g dk l d i b K :
  cache_rep id f dk l d -> i ∈ l -> (forall j, j <> i -> g j = f j) -> mine id K ->
  holds_block b (f i) -> g i = set_b_lock K (set_b_refcnt 1 (f i)) -> cache_rep id g dk l (dread b d).
Proof.
  intros R Hi Hoth (HK1 & HK2 & HK3) Hb Hy. pose proof (cr_buf _ _ _ _ _ R i Hi) as Hrep.
  apply (cache_rep_same id f _ dk _ l d _ i b); try done; rewrite ?Hy; try done.
  - apply agree_dread.
  - destruct Hrep as [H1 H2 Ho H3 H4 H5 H6 H7 H8], Hb as [Hb1 Hb2].
    split; cbn [b_lock b_refcnt b_dev b_flags b_blockno b_data set_b_lock set_b_refcnt];
      rewrite ?HK1, ?HK2, ?contents_dread; try done; try by right.
    intros _. rewrite Hb2. split; [intros _; left|done].
  - intros a. apply (cr_disk _ _ _ _ _ R).
  - intros []. left.
Qed.

(** A buffer that is neither held nor dirty was recycled. *)
Lemma free_clean id d y a : buf_rep id d y -> is_free y -> a ∈ held d ++ pinned d -> ~ holds_block a y.
Proof.
  intros Hrep [Hf1 Hf2] Hin [Ha1 Ha2]. apply elem_of_app in Hin as [Hin|Hin].
  - rewrite <- Ha2 in Hin. apply (br_held _ _ _ Hrep Ha1) in Hin.
    by rewrite (br_ref _ _ _ Hrep) in Hf1.
  - unfold flag in Hf2. rewrite (br_flags _ _ _ Hrep Ha1), Ha2, decide_True in Hf2; done.
Qed.

Lemma rep_miss id f g dk l d i b K :
  cache_rep id f dk l d -> i ∈ l -> (forall j, j <> i -> g j = f j) -> mine id K -> is_free (f i) -> b < nblk d ->
  (~ holds_block b (f i) -> forall j, j ∈ l -> ~ holds_block b (f j)) ->
  g i = set_b_lock K (set_b_flags 2 (set_b_data (dk b)
          (set_b_refcnt 1 (set_b_flags 0 (set_b_blockno b (set_b_dev 1 (f i))))))) ->
  dk b = Dev.contents d b /\ cache_rep id g dk l (dread b d).
Proof.
  intros R Hi Hoth (HK1 & HK2 & HK3) Hfree Hn Hnone Hy. pose proof (cr_buf _ _ _ _ _ R i Hi) as Hrep.
  assert (b ∉ held d ++ pinned d) as Hcl.
  { intros Hin. pose proof (cr_in _ _ _ _ _ R b Hin) as (j & Hj & Hh).
    apply (Hnone (free_clean id d (f i) b Hrep Hfree Hin) j Hj Hh). }
  assert (dk b = Dev.contents d b) as Hdata.
  { rewrite (cr_disk _ _ _ _ _ R). symmetry. by apply (cr_clean _ _ _ _ _ R). }
  split; [done|]. apply (cache_rep_upd id f _ dk _ l d _ i b); rewrite ?Hy; try done.
  - apply agree_dread.
  - split; cbn [b_lock b_refcnt b_dev b_flags b_blockno b_data set_b_lock set_b_refcnt set_b_flags
      set_b_data set_b_blockno set_b_dev]; rewrite ?HK1, ?HK2, ?contents_dread; try done; try by right.
    + intros _. rewrite decide_False; [done|]. intros Hp. apply Hcl, elem_of_app. by right.
    + intros _. split; [intros _; left|done].
  - intros j Hj Hji Hh. destruct (decide (holds_block b (f i))) as [Hbi|Hnb]; [|by apply (Hnone Hnb j)].
    by apply Hji, (cr_uniq _ _ _ _ _ R j i b).
  - intros a _ Hin. by apply (free_clean id d).
  - intros a. apply (cr_disk _ _ _ _ _ R).
  - intros []. left.
Qed.

Lemma bread_rep c p id s x l d b :
  caller c p id s -> bio_rep id x l d -> (0 < rounds)%nat -> b ∉ held d -> b < nblk d ->
  (length (remove_dups (held d ++ pinned d)) < NBUF)%nat ->
  exists i m x', bread resume rounds lock_at 1 b s x = Ok (i, set_mach m s, x') /\
    caller c p id (set_mach m s) /\ buf_of x' l i b /\ b_data (bufs x' i) = Dev.contents d b /\
    bio_rep id x' l (dread b d) /\ (forall j a, a ∈ held d -> buf_of x l j a -> buf_of x' l j a).
Proof.
  intros Hc HR Hr Hb Hn Hcap. pose proof HR as [Hlk Hsz R].
  destruct (bget_ok c p id s x l d b Hc HR Hr Hb Hcap)
    as (i & m & x1 & E & Hi & Hc1 & Hlk1 & Hdk1 & Hsz1 & Hoth & (K & HK & Hy) & Hnone).
  unfold bread. rewrite E. cbn [res_bind]. pose proof (cr_buf _ _ _ _ _ R i Hi) as Hrep.
  destruct Hy as [[[Hy1 Hy2] Hy]|[Hf Hy]].
  - assert (negb (flag B_VALID (bufs x1 i)) = false) as ->.
    { rewrite Hy. unfold flag. cbn. rewrite (br_flags _ _ _ Hrep Hy1). by destruct (decide _). }
    cbn [res_bind]. exists i, m, x1. split; [done|]. split; [done|]. split; [split; [done|]; by rewrite Hy|].
    split; [rewrite Hy; cbn; by rewrite (br_data _ _ _ Hrep Hy1), Hy2|].
    split; [split; [done|by rewrite Hsz1|]; rewrite Hdk1; by apply (rep_hit id (bufs x) _ _ _ _ i b K)|].
    intros j a _ [Hj Ha]. split; [done|]. destruct (decide (j = i)) as [->|Hji]; [by rewrite Hy|by rewrite Hoth].
  - assert (negb (flag B_VALID (bufs x1 i)) = true) as -> by by rewrite Hy.
    destruct (iderw_ok c p id (set_mach m s) x1 i Hc1)
      as (m2 & x2 & E2 & Hc2 & Hlk2 & Hsz2 & Hoth2 & K2 & HK2 & Hy2); try (by rewrite Hy).
    { rewrite Hy. cbn. by rewrite Hsz1, Hsz. }
    rewrite Hy in Hy2. change (flag B_DIRTY _) with false in Hy2. destruct Hy2 as [Hdk2 Hy2].
    rewrite E2. cbn [res_bind]. rewrite Hdk1 in *.
    destruct (rep_miss id (bufs x) (bufs x2) (memdisk x) l d i b K2) as [Hd Hrep2]; try done.
    { intros j Hj. by rewrite Hoth2, Hoth. }
    { intros Hnb. by destruct (Hnone Hnb). }
    exists i, m2, x2. split; [done|]. split; [done|]. split; [split; [done|]; by rewrite Hy2|].
    split; [rewrite Hy2; exact Hd|].
    split; [split; [by rewrite Hlk2|by rewrite Hsz2, Hsz1|by rewrite Hdk2]|].
    intros j a Hin [Hj Ha]. split; [done|]. destruct (decide (j = i)) as [->|Hji]; [|by rewrite Hoth2, Hoth].
    exfalso. revert Ha. apply (free_clean id d); [done|done|apply elem_of_app; by left].
Qed.

(** The caller changes the data of a buffer it holds. *)
Lemma bset_rep id x l d i b v :
  bio_rep id x l d -> buf_of x l i b -> b ∈ held d ->
  bio_rep id (upd_b i (set_b_data v) x) l (Dev.bset b v d).
Proof.
  intros HR Hb Hh. destruct (rep_mine id x l d i b HR Hb Hh) as [Hrep _].
  pose proof HR as [Hlk Hsz R]. destruct Hb as [Hi [Hb1 Hb2]]. split; [done|done|].
  apply (cache_rep_same id (bufs x) _ (memdisk x) _ l d _ i b); try done.
  all: rewrite ?bufs_upd, ?decide_True by done; try done.
  - split; [done|]. intros a Ha. unfold Dev.contents. cbn. by rewrite fupd_ne.
  - intros j Hj. by rewrite bufs_upd, decide_False.
  - destruct Hrep as [H1 H2 Ho H3 H4 H5 H6 H7 H8]. split; try done. intros _. cbn. rewrite Hb2.
    unfold Dev.contents. cbn. by rewrite fupd_eq.
  - intros a. apply (cr_disk _ _ _ _ _ R).
  - intros []. apply elem_of_app. by left.
Qed.

(** [b->flags |= B_DIRTY]. *)
Definition make_dirty (y : buf) : buf := set_b_flags (Z.lor (b_flags y) B_DIRTY) y.

Lemma dirty_flags id d y : buf_rep id d y -> b_dev y = 1 -> b_flags (make_dirty y) = 6.
Proof. intros Hrep H. cbn. rewrite (br_flags _ _ _ Hrep H). by destruct (decide _). Qed.

Lemma pin_rep id x l d i b :
  bio_rep id x l d -> buf_of x l i b -> b ∈ held d -> bio_rep id (upd_b i make_dirty x) l (Dev.pin b d).
Proof.
  intros HR Hb Hh. destruct (rep_mine id x l d i b HR Hb Hh) as [Hrep _].
  pose proof HR as [Hlk Hsz R]. destruct Hb as [Hi [Hb1 Hb2]]. split; [done|done|].
  apply (cache_rep_same id (bufs x) _ (memdisk x) _ l d _ i b); try done.
  all: rewrite ?bufs_upd, ?decide_True by done; try done.
  - split; [done|]. intros a Ha. cbn. rewrite elem_of_cons. split_and!; [done|tauto|done|done].
  - intros j Hj. by rewrite bufs_upd, decide_False.
  - pose proof (dirty_flags _ _ _ Hrep Hb1) as Hf. destruct Hrep as [H1 H2 Ho H3 H4 H5 H6 H7 H8]. split; try done.
    intros _. rewrite Hf. cbn. rewrite decide_True; [done|]. rewrite Hb2. left.
  - intros a. apply (cr_disk _ _ _ _ _ R).
  - intros []. apply elem_of_app. by left.
Qed.

Lemma held_mine id d y : buf_rep id d y -> sl_locked (b_lock y) <> 0 -> mine id (b_lock y) /\ b_refcnt y = 1.
Proof.
  intros H H1. rewrite (br_ref _ _ _ H). destruct (br_one _ _ _ H) as [|E]; [done|].
  split; [|done]. split; [done|]. split; [by apply (br_pid _ _ _ H)|apply (br_spin _ _ _ H)].
Qed.

Lemma elem_of_del a b (L : list Z) : a ∈ Dev.del_z b L <-> a <> b /\ (a ∈ L).
Proof. unfold Dev.del_z. by rewrite list_elem_of_filter. Qed.

(** The device after [bwrite] of block [b]. *)
Definition dwrite b d : bdev :=
  set_pinned (Dev.del_z b (pinned d)) (set_writes (writes d ++ [(b, Dev.contents d b)])
    (set_disk (fupd (disk d) b (Dev.contents d b)) d)).

Lemma rep_write id f g dk l d i b K :
  cache_rep id f dk l d -> i ∈ l -> holds_block b (f i) -> b ∈ held d ->
  (forall j, j <> i -> g j = f j) -> mine id K -> b_refcnt (f i) = 1 ->
  g i = set_b_lock K (set_b_flags 2 (f i)) ->
  cache_rep id g (fupd dk b (b_data (f i))) l (dwrite b d).
Proof.
  intros R Hi Hb Hh Hoth (HK1 & HK2 & HK3) Href Hy. pose proof (cr_buf _ _ _ _ _ R i Hi) as Hrep.
  pose proof (br_data _ _ _ Hrep) as Hdata. destruct Hb as [Hb1 Hb2]. rewrite Hb2 in Hdata.
  assert (forall a, Dev.contents (dwrite b d) a = Dev.contents d a) as Hcont.
  { intros a. unfold dwrite, Dev.contents. cbn. unfold fupd.
    destruct (Z.eqb_spec a b) as [->|]; [|done]. by destruct (cached d b). }
  apply (cache_rep_same id f _ dk _ l d _ i b); try done; rewrite ?Hy; try done.
  - split; [done|]. intros a Ha. rewrite Hcont. cbn. rewrite elem_of_del, fupd_ne by done.
    split_and!; [done|tauto|done|done].
  - destruct Hrep as [H1 H2 Ho H3 H4 H5 H6 H7 H8].
    split; cbn [b_lock b_refcnt b_dev b_flags b_blockno b_data set_b_lock set_b_flags];
      rewrite ?HK1, ?HK2, ?Hcont; try done; try by right.
    + intros _. rewrite decide_False; [done|]. cbn. rewrite elem_of_del. tauto.
    + intros _. rewrite Hb2. done.
  - intros a. cbn. unfold fupd. rewrite <- Hdata by done.
    destruct (a =? b); [done|apply (cr_disk _ _ _ _ _ R)].
  - intros []. apply elem_of_app. by left.
Qed.

Lemma bwrite_rep c p id s x l d i b :
  caller c p id s -> bio_rep id x l d -> buf_of x l i b -> b ∈ held d ->
  exists m x', bwrite i s x = Ok (set_mach m s, x') /\ caller c p id (set_mach m s) /\
    bio_rep id x' l (dwrite b d) /\ forall j a, buf_of x l j a -> buf_of x' l j a.
Proof.
  intros Hc HR Hb Hh. destruct (rep_mine id x l d i b HR Hb Hh) as [Hrep Hl].
  pose proof HR as [Hlk Hsz R]. pose proof Hb as [Hi [Hb1 Hb2]]. unfold bwrite.
  destruct (held_mine id d _ Hrep Hl) as [Hm Href]. pose proof (dirty_flags _ _ _ Hrep Hb1) as Hf.
  destruct (holdingsleep_ok c p id s x i Hc Hm) as (m & x1 & -> & Hc1 & (R1 & R2 & R3 & R4 & R5) & Hm1).
  cbn [res_bind negb]. fold make_dirty. set (x2 := upd_b i make_dirty x1). set (K1 := b_lock (bufs x1 i)) in *.
  assert (bufs x2 i = set_b_lock K1 (make_dirty (bufs x i))) as E2.
  { unfold x2. rewrite bufs_upd, decide_True, R5 by done. done. }
  destruct (iderw_ok c p id (set_mach m s) x2 i Hc1)
    as (m2 & x3 & E3 & Hc2 & Hlk2 & Hsz2 & Hoth2 & K2 & HK2 & Hy2).
  { by rewrite E2. }
  { by rewrite E2. }
  { rewrite E2. cbn [b_flags set_b_lock]. by rewrite Hf. }
  { rewrite E2. cbn. rewrite R3, Hsz, Hb2. rewrite <- Hb2. by apply (br_range _ _ _ Hrep). }
  assert (flag B_DIRTY (bufs x2 i) = true) as Hd by (rewrite E2; unfold flag; cbn [b_flags set_b_lock]; by rewrite Hf).
  rewrite Hd, E2 in Hy2. cbn [b_flags set_b_lock b_blockno b_data] in Hy2. rewrite Hf in Hy2.
  destruct Hy2 as [Hdk Hy2].
  assert (bufs x3 i = set_b_lock K2 (set_b_flags 2 (bufs x i))) as Hy3 by (rewrite Hy2; done).
  assert (forall j, j <> i -> bufs x3 j = bufs x j) as Hoth3.
  { intros j Hj. rewrite Hoth2 by done. unfold x2. rewrite bufs_upd, decide_False by done. by apply R4. }
  exists m2, x3. split; [exact E3|]. split; [exact Hc2|]. split.
  - split; [rewrite Hlk2; cbn; by rewrite R1|rewrite Hsz2; cbn; by rewrite R3|].
    rewrite Hdk. cbn. rewrite R2, Hb2. by apply (rep_write id (bufs x) _ (memdisk x) l d i b K2).
  - intros j a [Hj Ha]. split; [done|]. destruct (decide (j = i)) as [->|Hji]; [by rewrite Hy3|by rewrite Hoth3].
Qed.

(** Buffers that differ in their links only. *)
Definition same_buf (y y' : buf) : Prop := y' = set_b_prev (b_prev y') (set_b_next (b_next y') y).

#[local] Instance same_buf_preorder : PreOrder same_buf.
Proof.
  split; [by intros []|]. intros y1 y2 y3. unfold same_buf. intros E1 E2. rewrite E2, E1. by destruct y1.
Qed.

Lemma same_buf_upd i (h : buf -> buf) x j :
  (forall y, same_buf y (h y)) -> same_buf (bufs x j) (bufs (upd_b i h x) j).
Proof. intros H. rewrite bufs_upd. destruct (decide (j = i)) as [->|]; [apply H|reflexivity]. Qed.

Lemma same_buf_next v y : same_buf y (set_b_next v y).
Proof. done. Qed.
Lemma same_buf_prev v y : same_buf y (set_b_prev v y).
Proof. done. Qed.

(** Moving a buffer to the front changes links only. *)
Lemma same_buf_front i x j : same_buf (bufs x j) (bufs (link_head i (unlink i x)) j).
Proof.
  unfold link_head, unlink.
  repeat (etrans; [|apply same_buf_upd; intros y; apply same_buf_next || apply same_buf_prev]). reflexivity.
Qed.

(** The rest of the state. *)
Definition rest x : spinlock * (Z -> block) * Z := (bc_lock x, memdisk x, disksize x).

Lemma rest_upd i (h : buf -> buf) x : rest (upd_b i h x) = rest x.
Proof. done. Qed.

Lemma rest_front i x : rest (link_head i (unlink i x)) = rest x.
Proof. unfold link_head, unlink. by rewrite !rest_upd. Qed.

Lemma front_ring x l i :
  ring (bufs x) l -> i ∈ l ->
  exists l', l' ≡ₚ l /\ head l' = Some i /\ ring (bufs (link_head i (unlink i x))) l'.
Proof.
  intros HR Hi. apply list_elem_of_split in Hi as (l1 & l2 & ->).
  exists (i :: l1 ++ l2). split; [apply Permutation_middle|]. split; [done|].
  apply link_ring; [by apply unlink_ring|]. destruct HR as [_ Hnd].
  rewrite NoDup_cons, NoDup_app, NoDup_cons in Hnd. set_solver.
Qed.

Lemma buf_rep_same id d y y' : same_buf y y' -> buf_rep id d y -> buf_rep id d y'.
Proof. intros -> [H1 H2 Ho H3 H4 H5 H6 H7 H8]. by split. Qed.

Lemma cache_rep_order id f g dk l l' d :
  cache_rep id f dk l d -> ring g l' -> l' ≡ₚ l -> (forall j, same_buf (f j) (g j)) -> cache_rep id g dk l' d.
Proof.
  intros [R1 R2 R3 R4 R5 R6 R7] HR Hp Hs.
  assert (forall b j, holds_block b (g j) <-> holds_block b (f j)) as Hh.
  { intros b j. rewrite (Hs j). done. }
  split; try done.
  - by rewrite Hp.
  - intros i Hi. rewrite Hp in Hi. apply (buf_rep_same _ _ (f i)); auto.
  - intros i j b. rewrite !Hp, !Hh. apply R4.
  - intros b Hb. destruct (R5 b Hb) as (i & Hi & Hf). exists i. by rewrite Hp, Hh.
Qed.

Lemma rep_release id f g dk l d i b K :
  cache_rep id f dk l d -> i ∈ l -> holds_block b (f i) -> (b ∈ pinned d \/ Dev.contents d b = disk d b) ->
  (forall j, j <> i -> g j = f j) -> sl_locked K = 0 -> locked (sl_lk K) = 0 ->
  g i = set_b_refcnt 0 (set_b_lock K (f i)) ->
  cache_rep id g dk l (set_held (Dev.del_z b (held d)) d).
Proof.
  intros R Hi Hb Hcl Hoth HK1 HK2 Hy. pose proof (cr_buf _ _ _ _ _ R i Hi) as Hrep.
  apply (cache_rep_same id f _ dk _ l d _ i b); try done; rewrite ?Hy; try done.
  - split; [done|]. intros a Ha. cbn. rewrite elem_of_del. split_and!; [tauto|done..].
  - destruct Hrep as [H1 H2 Ho H3 H4 H5 H6 H7 H8], Hb as [Hb1 Hb2].
    split; cbn [b_lock b_refcnt b_dev b_flags b_blockno b_data set_b_lock set_b_refcnt];
      rewrite ?HK1; try done; try by left.
    intros _. cbn. rewrite Hb2, elem_of_del. tauto.
  - intros a. apply (cr_disk _ _ _ _ _ R).
  - cbn. rewrite not_elem_of_app. intros [_ Hp]. by destruct Hcl.
Qed.

Lemma releasesleep_mine c p id s x i :
  caller c p id s -> mine id (b_lock (bufs x i)) ->
  exists s' x', releasesleep lock_at i s x = Ok (s', x') /\ caller c p id s' /\ only_sl i x x' /\
    sl_locked (b_lock (bufs x' i)) = 0 /\ locked (sl_lk (b_lock (bufs x' i))) = 0.
Proof.
  intros (Hout & Hpt & pr & Hpr & Hid) (_ & _ & Hsp).
  destruct (releasesleep_ok (SX := buf_sl i) (lock_at i) (only_sl i) (only_sl_put i) c p s x Hout Hsp Hpt)
    as (s' & x' & E & R & H1 & H2 & Hout' & Hpt' & Hps).
  exists s', x'. split; [exact E|]. split; [|done]. split; [done|]. split; [done|].
  exists (Ptable.wake (ChAddr (lock_at i)) pr). rewrite Hps.
  split; [by rewrite list_lookup_fmap, Hpr|]. rewrite <- Hid. unfold Ptable.wake. by destruct (_ && _).
Qed.

(** The end of [brelse]: the last reference is gone, the buffer moves to the front. *)
Lemma brelse_tail c p id s x l d i :
  cache_rep id (bufs x) (memdisk x) l d -> i ∈ l -> b_refcnt (bufs x i) = 0 ->
  inside_one c p s -> Sleep.held c (bc_lock x) ->
  exists m x' l',
    unlock_bc s (if b_refcnt (bufs x i) =? 0 then link_head i (unlink i x) else x) = Ok (set_mach m s, x') /\
    outside c p (set_mach m s) /\ l' ≡ₚ l /\ head l' = Some i /\ locked (bc_lock x') = 0 /\
    disksize x' = disksize x /\ cache_rep id (bufs x') (memdisk x') l' d /\
    forall j, same_buf (bufs x j) (bufs x' j).
Proof.
  intros R Hi Href Hin Hh. rewrite Href. change (0 =? 0) with true. cbv iota.
  destruct (front_ring x l i (cr_ring _ _ _ _ _ R) Hi) as (l' & Hp & Hhd & HR').
  pose proof (same_buf_front i x) as Hs. pose proof (rest_front i x) as Er.
  revert HR' Hs Er. generalize (link_head i (unlink i x)). intros x4 HR' Hs [= Ek Em Es]. rewrite <- Ek in Hh.
  destruct (unlock_bc_ok c p s x4 Hin Hh) as (k5 & m5 & -> & Hk5 & Hout5).
  exists m5, (set_bc_lock k5 x4), l'. split_and!; try done. cbn [memdisk bufs set_bc_lock]. rewrite Em.
  by apply (cache_rep_order id (bufs x) (bufs x4) _ l).
Qed.

Lemma brelse_rep c p id s x l d i b :
  caller c p id s -> bio_rep id x l d -> buf_of x l i b -> b ∈ held d ->
  (b ∈ pinned d \/ Dev.contents d b = disk d b) ->
  exists s' x' l', brelse lock_at i s x = Ok (s', x') /\ caller c p id s' /\ l' ≡ₚ l /\ head l' = Some i /\
    bio_rep id x' l' (set_held (Dev.del_z b (held d)) d) /\ forall j a, buf_of x l j a -> buf_of x' l' j a.
Proof.
  intros Hc HR Hb Hh Hcl. destruct (rep_mine id x l d i b HR Hb Hh) as [Hrep Hl].
  pose proof HR as [Hlk Hsz R]. pose proof Hb as [Hi Hbi]. unfold brelse.
  destruct (held_mine id d _ Hrep Hl) as [Hm Href].
  destruct (holdingsleep_ok c p id s x i Hc Hm) as (m & x1 & -> & Hc1 & O1 & Hm1). cbn [res_bind negb].
  destruct (releasesleep_mine c p id _ x1 i Hc1 Hm1) as (s2 & x2 & -> & Hc2 & O2 & Hk1 & Hk2). cbn [res_bind].
  assert (only_sl i x x2) as (R1 & R2 & R3 & R4 & R5) by (by etrans). set (K := b_lock (bufs x2 i)) in *.
  destruct (lock_bc_ok c p s2 x2) as (k3 & m3 & -> & Hheld & Hin); [apply Hc2|by rewrite R1|]. cbn [res_bind].
  set (x3 := upd_b i _ (set_bc_lock k3 x2)).
  assert (bufs x3 i = set_b_refcnt 0 (set_b_lock K (bufs x i))) as E3.
  { unfold x3. rewrite bufs_upd, decide_True by done. change (bufs (set_bc_lock k3 x2) i) with (bufs x2 i).
    rewrite R5. cbn [b_refcnt set_b_lock]. by rewrite Href. }
  assert (forall j, j <> i -> bufs x3 j = bufs x j) as Hoth.
  { intros j Hj. unfold x3. rewrite bufs_upd, decide_False by done. by apply R4. }
  assert (bc_lock x3 = k3 /\ memdisk x3 = memdisk x /\ disksize x3 = disksize x) as (Ek & Em & Es) by done.
  clearbody x3. subst k3.
  destruct (brelse_tail c p id (set_mach m3 s2) x3 l (set_held (Dev.del_z b (held d)) d) i)
    as (m4 & x4 & l' & -> & Hout & Hp & Hhd & Hk4 & Hs4 & Hrep4 & Hsame); try done.
  { rewrite Em. by apply (rep_release id (bufs x) _ (memdisk x) l d i b K). }
  { by rewrite E3. }
  exists (set_mach m4 (set_mach m3 s2)), x4, l'. split; [done|]. split; [by apply (caller_mach _ _ _ s2)|].
  split; [done|]. split; [done|]. split; [split; [done|by rewrite Hs4, Es|done]|].
  intros j a [Hj Ha]. split; [by rewrite Hp|]. rewrite (Hsame j).
  destruct (decide (j = i)) as [->|Hji]; [by rewrite E3|by rewrite Hoth].
Qed.

(** * Sequences of operations *)

Inductive bop := BRead (b : Z) | BSet (b : Z) (v : block) | BPin (b : Z) | BWrite (b : Z) | BRelse (b : Z).

(** On the device: a read returns the contents. *)
Definition dev_step (o : bop) d : res (list block * bdev) :=
  match o with
  | BRead b => let? (v, d) := Dev.bread 1 b d in Ok ([v], d)
  | BSet b v => Ok ([], Dev.bset b v d)
  | BPin b => Ok ([], Dev.pin b d)
  | BWrite b => let? d := Dev.bwrite b d in Ok ([], d)
  | BRelse b => let? d := Dev.brelse b d in Ok ([], d)
  end.

(** On the cache, by a client that keeps the pointer [bread] gave it. *)
Definition bio_step (o : bop) (ptr : Z -> Z) s x : res (list block * (Z -> Z) * kst * bio) :=
  match o with
  | BRead b =>
      let? (i, s, x) := bread resume rounds lock_at 1 b s x in
      Ok ([b_data (bufs x i)], fupd ptr b i, s, x)
  | BSet b v => Ok ([], ptr, s, upd_b (ptr b) (set_b_data v) x)
  | BPin b => Ok ([], ptr, s, upd_b (ptr b) make_dirty x)
  | BWrite b => let? (s, x) := bwrite (ptr b) s x in Ok ([], ptr, s, x)
  | BRelse b => let? (s, x) := brelse lock_at (ptr b) s x in Ok ([], ptr, s, x)
  end.

Fixpoint dev_run (os : list bop) d : res (list block * bdev) :=
  match os with
  | [] => Ok ([], d)
  | o :: os =>
      let? (v, d) := dev_step o d in
      let? (w, d) := dev_run os d in Ok (v ++ w, d)
  end.

Fixpoint bio_run (os : list bop) (ptr : Z -> Z) s x : res (list block * (Z -> Z) * kst * bio) :=
  match os with
  | [] => Ok ([], ptr, s, x)
  | o :: os =>
      let? (v, ptr, s, x) := bio_step o ptr s x in
      let? (w, ptr, s, x) := bio_run os ptr s x in Ok (v ++ w, ptr, s, x)
  end.

(** The client's side: it reads while buffers are left, changes what it holds
    and does not release an unwritten change. *)
Definition allowed (o : bop) d : bool :=
  match o with
  | BRead b => (length (remove_dups (held d ++ pinned d)) <? NBUF)%nat
  | BSet b _ | BPin b => bool_decide (b ∈ held d)
  | BWrite b => true
  | BRelse b => bool_decide (b ∈ pinned d) || bool_decide (Dev.contents d b = disk d b)
  end.

Fixpoint all_allowed (os : list bop) d : bool :=
  match os with
  | [] => true
  | o :: os =>
      allowed o d && match dev_step o d with Ok (_, d) => all_allowed os d | _ => true end
  end.

Definition ptrs_ok (ptr : Z -> Z) x l d : Prop := forall b, b ∈ held d -> buf_of x l (ptr b) b.

Lemma bio_step_refines c p id o ptr s x l d v d' :
  (0 < rounds)%nat -> caller c p id s -> bio_rep id x l d -> ptrs_ok ptr x l d -> allowed o d = true ->
  dev_step o d = Ok (v, d') ->
  exists ptr' s' x' l', bio_step o ptr s x = Ok (v, ptr', s', x') /\ caller c p id s' /\
    bio_rep id x' l' d' /\ ptrs_ok ptr' x' l' d'.
Proof.
  intros Hr Hc HR Hp Ha. destruct o as [b|b w|b|b|b]; cbn [dev_step bio_step allowed] in *.
  - unfold Dev.bread. case_bool_decide as Hb; [done|]. cbn [negb Z.eqb Pos.eqb].
    destruct (Z.leb_spec (nblk d) b) as [|Hn]; [done|]. intros [= <- <-].
    destruct (bread_rep c p id s x l d b) as (i & m & x' & -> & Hc' & Hi & Hd & HR' & Hk); try done.
    { by apply Nat.ltb_lt. }
    cbn [res_bind]. rewrite Hd. do 4 eexists. split; [done|]. split; [done|]. split; [done|]. intros a Hin.
    unfold fupd. destruct (Z.eqb_spec a b) as [->|Hab]; [done|].
    apply elem_of_cons in Hin as [|Hin]; [done|]. auto.
  - apply bool_decide_eq_true in Ha. intros [= <- <-]. exists ptr, s. eexists. exists l. split; [done|]. split; [done|].
    split; [apply bset_rep; auto|]. intros a Hin. destruct (Hp a Hin) as [Hi Hh]. split; [done|].
    rewrite bufs_upd. destruct (decide (ptr a = ptr b)) as [E|]; [by rewrite <- E|done].
  - apply bool_decide_eq_true in Ha. intros [= <- <-]. exists ptr, s. eexists. exists l. split; [done|]. split; [done|].
    split; [apply pin_rep; auto|]. intros a Hin. destruct (Hp a Hin) as [Hi Hh]. split; [done|].
    rewrite bufs_upd. destruct (decide (ptr a = ptr b)) as [E|]; [by rewrite <- E|done].
  - unfold Dev.bwrite. case_bool_decide as Hb; [|done]. intros [= <- <-].
    destruct (bwrite_rep c p id s x l d (ptr b) b) as (m & x' & -> & Hc' & HR' & Hk); auto.
    do 4 eexists. split; [done|]. split; [done|]. split; [exact HR'|]. intros a Hin. auto.
  - apply orb_true_iff in Ha. rewrite !bool_decide_eq_true in Ha.
    unfold Dev.brelse. case_bool_decide as Hb; [|done]. intros [= <- <-].
    destruct (brelse_rep c p id s x l d (ptr b) b) as (s' & x' & l' & -> & Hc' & _ & _ & HR' & Hk); auto.
    do 4 eexists. split; [done|]. split; [done|]. split; [exact HR'|]. intros a Hin.
    apply elem_of_del in Hin as [_ Hin]. auto.
Qed.

Lemma bio_run_refines c p id os ptr s x l d v d' :
  (0 < rounds)%nat -> caller c p id s -> bio_rep id x l d -> ptrs_ok ptr x l d -> all_allowed os d = true ->
  dev_run os d = Ok (v, d') ->
  exists ptr' s' x' l', bio_run os ptr s x = Ok (v, ptr', s', x') /\ caller c p id s' /\
    bio_rep id x' l' d' /\ ptrs_ok ptr' x' l' d'.
Proof.
  intros Hr. revert ptr s x l d v. induction os as [|o os IH]; intros ptr s x l d v Hc HR Hp Ha; cbn [dev_run bio_run].
  { intros [= <- <-]. by exists ptr, s, x, l. }
  intros ([v1 d1] & E1 & ([v2 d2] & E2 & [= <- <-])%res_bind_Ok)%res_bind_Ok.
  cbn [all_allowed] in Ha. rewrite E1 in Ha. apply andb_true_iff in Ha as [Ha1 Ha2].
  destruct (bio_step_refines c p id o ptr s x l d v1 d1) as (ptr1 & s1 & x1 & l1 & -> & Hc1 & HR1 & Hp1); auto.
  destruct (IH ptr1 s1 x1 l1 d1 v2) as (ptr2 & s2 & x2 & l2 & E & H); auto.
  cbn [res_bind]. rewrite E. cbn [res_bind]. by exists ptr2, s2, x2, l2.
Qed.

(** * Initialisation *)

Lemma same_buf_link i x j : same_buf (bufs x j) (bufs (link_head i x) j).
Proof.
  unfold link_head.
  repeat (etrans; [|apply same_buf_upd; intros y; apply same_buf_next || apply same_buf_prev]). reflexivity.
Qed.

Lemma rest_link i x : rest (link_head i x) = rest x.
Proof. unfold link_head. by rewrite !rest_upd. Qed.

(** [initsleeplock(&b->lock, "buffer")]. *)
Definition init_buf (y : buf) : buf := set_b_lock (Sleeplock.initsleeplock "buffer" (b_lock y)) y.

Lemma binit_loop_ring n b x l :
  ring (bufs x) l -> (forall j, j ∈ l -> 0 <= j < b) -> 0 <= b -> b + Z.of_nat n <= HEAD ->
  ring (bufs (binit_loop n b x)) (rev (seqZ b (Z.of_nat n)) ++ l).
Proof.
  revert b x l. induction n as [|n IH]; intros b x l HR Hl Hb Hn; [done|].
  cbn [binit_loop]. rewrite Nat2Z.inj_succ, seqZ_cons by lia. cbn [rev]. rewrite <- app_assoc.
  rewrite Z.pred_succ. replace (Z.succ b) with (b + 1) by lia. apply IH; [|..|lia|lia].
  - apply link_ring.
    + revert HR. apply ring_agree. intros j. rewrite bufs_upd. by destruct (decide (j = b)) as [->|].
    + rewrite elem_of_cons. intros [->|Hj]; [lia|]. apply Hl in Hj. lia.
  - intros j [->|Hj]%elem_of_cons; [lia|]. apply Hl in Hj. lia.
Qed.

Lemma binit_loop_bufs n b x j :
  same_buf (if decide (b <= j < b + Z.of_nat n) then init_buf (bufs x j) else bufs x j)
    (bufs (binit_loop n b x) j).
Proof.
  revert b x. induction n as [|n IH]; intros b x; cbn [binit_loop].
  { rewrite decide_False by lia. reflexivity. }
  etrans; [|apply IH]. pose proof (same_buf_link b (upd_b b init_buf x) j) as H.
  rewrite bufs_upd in H. fold init_buf. set (x1 := link_head b (upd_b b init_buf x)) in *.
  destruct (decide (j = b)) as [->|Hj].
  - rewrite decide_True by lia. by rewrite (decide_False (P := b + 1 <= b < b + 1 + Z.of_nat n)) by lia.
  - destruct (decide (b + 1 <= j < b + 1 + Z.of_nat n)).
    + rewrite decide_True by lia. rewrite H. done.
    + rewrite decide_False by lia. done.
Qed.

Lemma binit_loop_rest n b x : rest (binit_loop n b x) = rest x.
Proof.
  revert b x. induction n as [|n IH]; intros b x; cbn [binit_loop]; [done|].
  by rewrite IH, rest_link, rest_upd.
Qed.

(** The zeroed memory [bcache] starts in. *)
Definition zeroed x : Prop := forall j, b_flags (bufs x j) = 0 /\ b_dev (bufs x j) = 0 /\ b_refcnt (bufs x j) = 0.

Lemma binit_rep id x : zeroed x -> bio_rep id (binit x) (rev (seqZ 0 30)) (Dev.boot (memdisk x) (disksize x)).
Proof.
  intros Hz. unfold binit. set (x1 := upd_b HEAD _ (upd_b HEAD _ _)).
  assert (forall j, same_buf (bufs x j) (bufs x1 j)) as Hx1.
  { intros j. unfold x1. repeat (etrans; [|apply same_buf_upd; intros y; apply same_buf_next || apply same_buf_prev]).
    reflexivity. }
  assert (ring (bufs x1) []) as Hr1.
  { split; [|apply NoDup_singleton]. unfold x1. cbn [seg]. rewrite !bufs_upd. done. }
  pose proof (binit_loop_rest NBUF 0 x1) as Hrest. unfold x1 in Hrest at 2. rewrite !rest_upd in Hrest.
  pose proof (binit_loop_ring NBUF 0 x1 [] Hr1) as HR. rewrite app_nil_r in HR.
  pose proof (binit_loop_bufs NBUF 0 x1) as HB. clearbody x1.
  revert Hrest HR HB. generalize (binit_loop NBUF 0 x1). intros x2 [= H1 H2 H3] HR HB.
  split; [by rewrite H1|done|]. split; try done.
  - apply HR; [|done|done]. intros j Hj. by apply elem_of_nil in Hj.
  - intros i Hi. specialize (HB i). apply list_elem_of_In, List.in_rev, list_elem_of_In, elem_of_seqZ in Hi.
    rewrite decide_True in HB by (unfold NBUF; lia). apply (buf_rep_same _ _ _ _ HB).
    rewrite (Hx1 i). destruct (Hz i) as (E1 & E2 & E3).
    split; cbn [init_buf b_lock b_flags b_dev b_refcnt set_b_lock set_b_prev set_b_next]; rewrite ?E1, ?E2, ?E3;
      try done; by left.
  - intros i j b Hi _ [Hd _]. exfalso. specialize (HB i).
    apply list_elem_of_In, List.in_rev, list_elem_of_In, elem_of_seqZ in Hi.
    rewrite decide_True in HB by (unfold NBUF; lia). rewrite HB, (Hx1 i) in Hd. cbn in Hd.
    destruct (Hz i) as (_ & E & _). by rewrite E in Hd.
  - intros b Hb. by apply elem_of_nil in Hb.
  - intros b. by rewrite H2.
Qed.

(** C9: the buffer cache implements the block device.  After [binit], whatever
    sequence of reads, changes, [log_write] pins, writes and releases a process
    makes under the client's rules, the code returns the data the device
    prescribes and leaves the disk in the state it prescribes, through hits,
    recycling of buffers and write-backs. *)
Theorem bcache_refines c p id os ptr s x v d' :
  (0 < rounds)%nat -> caller c p id s -> zeroed x ->
  all_allowed os (Dev.boot (memdisk x) (disksize x)) = true ->
  dev_run os (Dev.boot (memdisk x) (disksize x)) = Ok (v, d') ->
  exists ptr' s' x', bio_run os ptr s (binit x) = Ok (v, ptr', s', x') /\ caller c p id s' /\
    (forall b, memdisk x' b = disk d' b) /\
    exists l', bio_rep id x' l' d'.
Proof.
  intros Hr Hc Hz Ha Hd.
  destruct (bio_run_refines c p id os ptr s (binit x) _ _ v d' Hr Hc (binit_rep id x Hz))
    as (ptr' & s' & x' & l' & E & Hc' & HR & _); [|done|done|].
  - intros b Hb. by apply elem_of_nil in Hb.
  - exists ptr', s', x'. split; [done|]. split; [done|]. split; [apply (cr_disk _ _ _ _ _ (bp_cache _ _ _ _ HR))|].
    by exists l'.
Qed.

(** A block that is not cached goes into the least recently used buffer that
    is not in use and not dirty; the other buffers keep their blocks. *)
Theorem bget_recycles_lru c p id s x l d b :
  caller c p id s -> bio_rep id x l d -> (0 < rounds)%nat ->
  (length (remove_dups (held d ++ pinned d)) < NBUF)%nat ->
  b ∉ held d -> (forall i, i ∈ l -> ~ holds_block b (bufs x i)) ->
  exists i s' x', bget resume rounds lock_at 1 b s x = Ok (i, s', x') /\
    List.find (is_unused x) (rev l) = Some i /\ holds_block b (bufs x' i) /\
    forall j, j <> i -> bufs x' j = bufs x j.
Proof.
  intros Hc HR Hr Hcap Hb Hno.
  destruct (bget_ok c p id s x l d b Hc HR Hr Hb Hcap)
    as (i & m & x1 & E & Hi & _ & _ & _ & _ & Hoth & (K & _ & Hy) & Hnone).
  destruct (Hnone (Hno i Hi)) as [_ Hf]. exists i, (set_mach m s), x1. split; [done|]. split; [done|].
  split; [|done]. destruct Hy as [[Hh _]|[_ ->]]; [by destruct (Hno i Hi)|done].
Qed.

(** As many pinned blocks as buffers: every buffer holds one of them. *)
Lemma all_pinned id f dk l d :
  cache_rep id f dk l d -> (NBUF <= length (remove_dups (pinned d)))%nat ->
  forall i, i ∈ l -> b_dev (f i) = 1 /\ (b_blockno (f i) ∈ pinned d).
Proof.
  intros R Hfull. destruct (cr_ring _ _ _ _ _ R) as [_ [_ Hnd]%NoDup_cons].
  set (at_ := fun a => default 0 (List.find (fun i => bool_decide (holds_block a (f i))) l)).
  assert (forall a, a ∈ pinned d -> (at_ a ∈ l) /\ holds_block a (f (at_ a))) as Hat.
  { intros a Ha. unfold at_. destruct (List.find _ l) as [i|] eqn:E.
    - apply List.find_some in E as [Hi Hp]. by apply list_elem_of_In in Hi; apply bool_decide_eq_true in Hp.
    - destruct (cr_in _ _ _ _ _ R a) as (i & Hi & Hh); [apply elem_of_app; by right|].
      apply list_elem_of_In in Hi. pose proof (List.find_none _ _ E i Hi) as Hf. by apply bool_decide_eq_false in Hf. }
  assert ((at_ <$> remove_dups (pinned d)) ⊆+ l) as Hsub.
  { apply NoDup_submseteq; [apply NoDup_fmap_2_strong; [|apply NoDup_remove_dups]|].
    - intros a1 a2 H1 H2 E. rewrite elem_of_remove_dups in H1, H2.
      destruct (Hat a1 H1) as (_ & _ & <-), (Hat a2 H2) as (_ & _ & <-). by rewrite E.
    - intros i (a & -> & Ha)%list_elem_of_fmap. rewrite elem_of_remove_dups in Ha. by apply Hat. }
  apply submseteq_length_Permutation in Hsub; [|rewrite length_fmap, (cr_len _ _ _ _ _ R); done].
  intros i Hi. rewrite <- Hsub in Hi. apply list_elem_of_fmap in Hi as (a & -> & Ha).
  rewrite elem_of_remove_dups in Ha. destruct (Hat a Ha) as (_ & Hh1 & Hh2). by rewrite Hh2.
Qed.

(** With as many pinned blocks as there are buffers, [bget] of any other block
    panics. *)
Theorem bget_exhausted c p id s x l d b :
  caller c p id s -> bio_rep id x l d -> b ∉ held d ++ pinned d -> (NBUF <= length (remove_dups (pinned d)))%nat ->
  bget resume rounds lock_at 1 b s x = Panic "bget: no buffers".
Proof.
  intros Hc [Hlk Hsz R] Hb Hfull. unfold bget.
  destruct (lock_bc_ok c p s x) as (k1 & m1 & -> & _); [apply Hc|done|]. cbn [res_bind].
  set (x1 := set_bc_lock k1 x). change (bufs x) with (bufs x1) in R.
  pose proof (all_pinned _ _ _ _ _ R Hfull) as Hall.
  destruct (cr_ring _ _ _ _ _ R) as [Hseg Hnd]. apply NoDup_cons in Hnd as [Hhead Hnd].
  rewrite (find_cached_seg (S NBUF) x1 HEAD l) by (done || (rewrite (cr_len _ _ _ _ _ R); lia)). cbn [res_bind].
  destruct (List.find (is_block 1 b x1) l) as [i|] eqn:Ef.
  { apply List.find_some in Ef as [Hi Hp]. apply list_elem_of_In, Hall in Hi as [_ Hi].
    apply andb_true_iff in Hp as [_ Hp2%Z.eqb_eq]. rewrite Hp2 in Hi. destruct Hb. apply elem_of_app. by right. }
  rewrite (find_victim_seg (S NBUF) x1 l HEAD) by (done || (rewrite (cr_len _ _ _ _ _ R); lia)). cbn [res_bind].
  destruct (List.find (is_unused x1) (rev l)) as [i|] eqn:Ev; [|done].
  apply List.find_some in Ev as [Hi Hp]. apply List.in_rev, list_elem_of_In in Hi.
  destruct (Hall i Hi) as [H1 H2]. unfold is_unused, flag in Hp.
  rewrite (br_flags _ _ _ (cr_buf _ _ _ _ _ R i Hi) H1), decide_True, andb_false_r in Hp; done.
Qed.

End Ops.

(** * An example *)

Section BioExamples.
Import Bio.

Definition demo_sl : sleeplock := mkSleeplock 0 demo_lock "" 0.
Definition demo_bio : bio :=
  mkBio demo_lock (fun _ => mkBuf 0 0 0 demo_sl 0 0 0 []) (fun b => [b]) 100.

(** Process 0, whose pid is 1. *)
Lemma demo_caller : caller 0 0 1 (demo_in 0).
Proof. split; [by exists (demo_cpu 0 (Some 0%nat))|]. split; [done|]. by eexists. Qed.

(** Write block 7 through the cache, pin block 8, read both again. *)
Definition demo_ops : list bop :=
  [BRead 7; BSet 7 [77]; BWrite 7; BRelse 7; BRead 8; BSet 8 [88]; BPin 8; BRelse 8;
   BRead 7; BRead 8].

Lemma bcache_refines_witness : exists ptr' s' x',
  bio_run demo_resume 1 (fun i => i) demo_ops (fun _ => 0) (demo_in 0) (binit demo_bio) =
    Ok ([[7]; [8]; [77]; [88]], ptr', s', x') /\ memdisk x' 7 = [77] /\ memdisk x' 8 = [8].
Proof.
  destruct (bcache_refines demo_resume 1 (fun i => i) 0 0 1 demo_ops (fun _ => 0) (demo_in 0) demo_bio
    [[7]; [8]; [77]; [88]] (default (Dev.boot (fun _ => []) 0)
       match dev_run demo_ops (Dev.boot (memdisk demo_bio) 100) with Ok (_, d) => Some d | _ => None end))
    as (ptr' & s' & x' & H1 & _ & H2 & _).
  - lia.
  - apply demo_caller.
  - done.
  - vm_compute. reflexivity.
  - vm_compute. reflexivity.
  - exists ptr', s', x'. split; [exact H1|]. rewrite !H2. split; reflexivity.
Defined.

Lemma bget_recycles_lru_witness : exists i s' x',
  bget demo_resume 1 (fun i => i) 1 9 (demo_in 0) (binit demo_bio) = Ok (i, s', x') /\
  Some i = Some 0.
Proof.
  destruct (bget_recycles_lru demo_resume 1 (fun i => i) 0 0 1 (demo_in 0) (binit demo_bio) (rev (seqZ 0 30))
    (Dev.boot (memdisk demo_bio) 100) 9) as (i & s' & x' & H1 & H2 & _).
  - apply demo_caller.
  - by apply binit_rep.
  - lia.
  - cbn. unfold NBUF. lia.
  - apply not_elem_of_nil.
  - assert (forallb (fun i => negb (bool_decide (holds_block 9 (bufs (binit demo_bio) i)))) (rev (seqZ 0 30)) = true)
      as H by (vm_compute; reflexivity).
    intros i Hi Hh. apply list_elem_of_In in Hi. rewrite forallb_forall in H. specialize (H i Hi).
    by rewrite bool_decide_true in H.
  - exists i, s', x'. split; [exact H1|]. rewrite <- H2. vm_compute. reflexivity.
Defined.

(** Pin blocks 0 to 29, then ask for another one. *)
Definition demo_fill : list bop := flat_map (fun b => [BRead b; BPin b; BRelse b]) (seqZ 0 30).
Definition demo_full : bdev :=
  match dev_run demo_fill (Dev.boot (memdisk demo_bio) 100) with Ok (_, d) => d | _ => Dev.boot (fun _ => []) 0 end.

Lemma bget_exhausted_witness : exists s x,
  bget demo_resume 1 (fun i => i) 1 30 s x = Panic "bget: no buffers".
Proof.
  destruct (bio_run_refines demo_resume 1 (fun i => i) 0 0 1 demo_fill (fun _ => 0) (demo_in 0) (binit demo_bio)
    (rev (seqZ 0 30)) (Dev.boot (memdisk demo_bio) 100) (map (fun b => [b]) (seqZ 0 30)) demo_full)
    as (ptr & s & x & l & _ & Hc & HR & _).
  - lia.
  - apply demo_caller.
  - by apply binit_rep.
  - intros b Hb. by apply elem_of_nil in Hb.
  - vm_compute. reflexivity.
  - vm_compute. reflexivity.
  - exists s, x. apply (bget_exhausted demo_resume 1 (fun i => i) 0 0 1 s x l demo_full 30); [exact Hc|exact HR|..].
    + apply (bool_decide_unpack _). vm_compute. exact I.
    + vm_compute. reflexivity || lia.
Defined.

End BioExamples.
