(* ===== verification/Sysfile.v ===== *)
(** The system calls on files: [sysfile.c].

    [um] is the memory of the calling process as its page table shows it; a call
    that stores there returns the new memory.  The entries of [ofile] are file
    pointers: 0 is null, [fptr f] is the address of entry [f] of the file table.
    [cwd] and the results of the path functions are inode indices as in Fs.v.
    A name buffer on the stack is not initialised: [junk] is what it holds. *)

From S2P Require Import Prelude CString Spinlock Kalloc Proc Demo MlfqFacts ProcFacts Sleep Pipe Block Log LogFacts Syscall Fs FsFacts File.

Definition O_RDONLY : Z := 0x000.
Definition O_WRONLY : Z := 0x001.
Definition O_RDWR : Z := 0x002.
Definition O_CREATE : Z := 0x200.
Definition MAXARG : Z := 32.

(** The pointer to entry [f] of [ftable.file]. *)
Definition fptr (f : Z) : Z := f + 1.
Definition unptr (a : Z) : option Z := if a =? 0 then None else Some (a - 1).

(** A field in user memory. *)
Definition store16 (um : mem) (a v : Z) : mem := store_bytes um a (enc 2 v).

Module Sysfile.
Import Ptable Syscall.
Section Sysfile.
Context `{SV : Services}.
Implicit Types (s : kst) (x : ftx) (um : mem).

(** The descriptor and the file, or [None] for -1. *)
Definition argfd um (n : Z) s : res (option (Z * Z) * kst) :=
  let? (r, fd, s) := argint um n s in
  match fd with
  | None => Ok (None, s)
  | Some fd =>
      if r <? 0 then Ok (None, s)
      else if (fd <? 0) || (Z.of_nat NOFILE <=? fd) then Ok (None, s)
      else
        let? (c, s) := curproc s in
        let? pr := getp c s in
        let? a := zget "ofile" (ofile pr) fd in
        match unptr a with
        | None => Ok (None, s)
        | Some f => Ok (Some (fd, f), s)
        end
  end.

(** The loop of [fdalloc]. *)
Fixpoint find_fd (n : nat) (fd : Z) (l : list Z) : res (option Z) :=
  match n with
  | O => Ok None
  | S n' =>
      let? a := zget "ofile" l fd in
      if a =? 0 then Ok (Some fd) else find_fd n' (fd + 1) l
  end.

(** [curproc->ofile[fd] = a]. *)
Definition set_fd (c : nat) (fd a : Z) s : res kst :=
  let? pr := getp c s in
  let? l := zset "ofile" (ofile pr) fd a in
  modp c (set_ofile l) s.

Definition fdalloc (f : Z) s : res (Z * kst) :=
  let? (c, s) := curproc s in
  let? pr := getp c s in
  let? r := find_fd NOFILE 0 (ofile pr) in
  match r with
  | Some fd => let? s := set_fd c fd (fptr f) s in Ok (fd, s)
  | None => Ok (-1, s)
  end.

(** [myproc()->ofile[fd] = a]. *)
Definition put_fd (fd a : Z) s : res kst :=
  let? (c, s) := curproc s in set_fd c fd a s.

(** The string argument [n]: its bytes, or [None] when it is refused. *)
Definition arg_path um (n : Z) s : res (option (list Z) * kst) :=
  let? (r, a, s) := argstr um n s in
  match a with
  | Some a => if r <? 0 then Ok (None, s) else Ok (Some (load_bytes um a (Z.to_nat r)), s)
  | None => Ok (None, s)
  end.

(** An integer argument, or [None] when it is refused. *)
Definition arg_int um (n : Z) s : res (option Z * kst) :=
  let? (r, i, s) := argint um n s in
  match i with
  | Some i => if r <? 0 then Ok (None, s) else Ok (Some i, s)
  | None => Ok (None, s)
  end.

(** A pointer to [size] bytes, or [None] when it is refused. *)
Definition arg_ptr um (n size : Z) s : res (option Z * kst) :=
  let? (r, i, s) := argptr um n size s in
  match i with
  | Some i => if r <? 0 then Ok (None, s) else Ok (Some i, s)
  | None => Ok (None, s)
  end.

Definition sys_dup um s x : res (Z * kst * ftx) :=
  let? (a, s) := argfd um 0 s in
  match a with
  | None => Ok (-1, s, x)
  | Some (_, f) =>
      let? (fd, s) := fdalloc f s in
      if fd <? 0 then Ok (-1, s, x)
      else let? (s, x) := File.filedup f s x in Ok (fd, s, x)
  end.

Section Ops.
Context (resume_pipe : kst -> pipe -> kst * pipe) (resume_fs : kst -> fsx -> kst * fsx)
        (resume_log : kst -> lst -> kst * lst).
Context (rounds : nat) (log_at : Z) (lock_at : Z -> Z).
Context (dev_read : Z -> option (Z -> Z -> kst -> fsx -> res (Z * list Z * kst * fsx))).
Context (dev_write : Z -> option (Z -> list Z -> Z -> kst -> fsx -> res (Z * kst * fsx))).
Context (junk : list Z).

Definition fileclose := File.fileclose resume_fs resume_log rounds log_at lock_at.
Definition begin_op := File.begin_op resume_log rounds log_at.
Definition end_op := File.end_op log_at.
Definition ilock := File.ilock resume_fs rounds lock_at.
Definition iunlock := File.iunlock lock_at.
Definition iput := File.iput resume_fs rounds lock_at.

(** A function of fs.c on the whole state. *)
Definition on_fs {A : Type} (f : kst -> fsx -> res (A * kst * fsx)) s x : res (A * kst * ftx) :=
  let? (a, s, y) := f s (ft_fs x) in Ok (a, s, set_ft_fs y x).
Definition on_fs_ (f : kst -> fsx -> res (kst * fsx)) s x : res (kst * ftx) :=
  let? (s, y) := f s (ft_fs x) in Ok (s, set_ft_fs y x).

Definition iunlockput (i : Z) := on_fs_ (Fs.iunlockput resume_fs rounds lock_at i).
Definition iupdate (i : Z) := on_fs_ (Fs.iupdate i).
Definition namei (path : list Z) := on_fs (Fs.namei dev_read resume_fs rounds lock_at path).
Definition dirlookup (dp : Z) (name : list Z) := on_fs (Fs.dirlookup dev_read dp name).
Definition dirlink (dp : Z) (name : list Z) (inum : Z) :=
  on_fs (Fs.dirlink dev_read dev_write resume_fs rounds lock_at dp name inum).
Definition ialloc (dev type : Z) := on_fs (Fs.ialloc dev type).
Definition nameiparent (path : list Z) s x : res (option Z * list Z * kst * ftx) :=
  let? (r, nm, s, y) := Fs.nameiparent dev_read resume_fs rounds lock_at path junk s (ft_fs x) in
  Ok (r, nm, s, set_ft_fs y x).

(** Fields of inode [i]. *)
Definition ip_of (i : Z) x : inode := ic (ft_fs x) i.
Definition ip_d (i : Z) x : dinode := i_d (ip_of i x).
Definition set_nlink (i : Z) (f : Z -> Z) x : ftx :=
  set_ft_fs (upd_d i (fun d => set_d_nlink (s16 (f (d_nlink d))) d) (ft_fs x)) x.

(** [sys_read]: what is read goes to user memory. *)
Definition sys_read um s x : res (Z * mem * kst * ftx) :=
  let? (a, s) := argfd um 0 s in
  match a with
  | None => Ok (-1, um, s, x)
  | Some (_, f) =>
      let? (n, s) := arg_int um 2 s in
      match n with
      | None => Ok (-1, um, s, x)
      | Some n =>
          let? (p, s) := arg_ptr um 1 n s in
          match p with
          | None => Ok (-1, um, s, x)
          | Some p =>
              let? (r, l, s, x) := File.fileread resume_pipe resume_fs rounds lock_at dev_read f n s x in
              Ok (r, store_bytes um p l, s, x)
          end
      end
  end.

Definition sys_write um s x : res (Z * kst * ftx) :=
  let? (a, s) := argfd um 0 s in
  match a with
  | None => Ok (-1, s, x)
  | Some (_, f) =>
      let? (n, s) := arg_int um 2 s in
      match n with
      | None => Ok (-1, s, x)
      | Some n =>
          let? (p, s) := arg_ptr um 1 n s in
          match p with
          | None => Ok (-1, s, x)
          | Some p =>
              File.filewrite resume_pipe resume_fs resume_log rounds log_at lock_at dev_write
                f n (load_bytes um p (Z.to_nat n)) s x
          end
      end
  end.

Definition sys_close um s x : res (Z * kst * ftx) :=
  let? (a, s) := argfd um 0 s in
  match a with
  | None => Ok (-1, s, x)
  | Some (fd, f) =>
      let? s := put_fd fd 0 s in
      let? (s, x) := fileclose f s x in
      Ok (0, s, x)
  end.

(** [struct stat] has the fields at 0, 4, 8, 12 and 16. *)
Definition store_stat um (p : Z) (st : Fs.stat) : mem :=
  let um := store32 um (p + 4) (Fs.st_dev st) in
  let um := store32 um (p + 8) (Fs.st_ino st) in
  let um := store16 um p (Fs.st_type st) in
  let um := store16 um (p + 12) (Fs.st_nlink st) in
  store32 um (p + 16) (Fs.st_size st).

Definition sys_fstat um s x : res (Z * mem * kst * ftx) :=
  let? (a, s) := argfd um 0 s in
  match a with
  | None => Ok (-1, um, s, x)
  | Some (_, f) =>
      let? (p, s) := arg_ptr um 1 20 s in
      match p with
      | None => Ok (-1, um, s, x)
      | Some p =>
          let? (r, s, x) := File.filestat resume_fs rounds lock_at f s x in
          match r with
          | Some st => Ok (0, store_stat um p st, s, x)
          | None => Ok (-1, um, s, x)
          end
      end
  end.

(** [end_op(); return -1]. *)
Definition fail s x : res (Z * kst * ftx) := let? (s, x) := end_op s x in Ok (-1, s, x).

(** The label [bad] of [sys_link]. *)
Definition link_bad (ip : Z) s x : res (Z * kst * ftx) :=
  let? (s, x) := ilock ip s x in
  let x := set_nlink ip (fun n => n - 1) x in
  let? (s, x) := iupdate ip s x in
  let? (s, x) := iunlockput ip s x in
  fail s x.

Definition sys_link um s x : res (Z * kst * ftx) :=
  let? (old, s) := arg_path um 0 s in
  match old with
  | None => Ok (-1, s, x)
  | Some old =>
      let? (new, s) := arg_path um 1 s in
      match new with
      | None => Ok (-1, s, x)
      | Some new =>
          let? (s, x) := begin_op s x in
          let? (r, s, x) := namei old s x in
          match r with
          | None => fail s x
          | Some ip =>
              let? (s, x) := ilock ip s x in
              if d_type (ip_d ip x) =? T_DIR then
                let? (s, x) := iunlockput ip s x in fail s x
              else
                let x := set_nlink ip (fun n => n + 1) x in
                let? (s, x) := iupdate ip s x in
                let? (s, x) := iunlock ip s x in
                let? (r, name, s, x) := nameiparent new s x in
                match r with
                | None => link_bad ip s x
                | Some dp =>
                    let? (s, x) := ilock dp s x in
                    let? (bad, s, x) :=
                      (if negb (i_dev (ip_of dp x) =? i_dev (ip_of ip x)) then Ok (true, s, x)
                       else
                         let? (r, s, x) := dirlink dp name (i_inum (ip_of ip x)) s x in
                         Ok (r <? 0, s, x)) in
                    let? (s, x) := iunlockput dp s x in
                    if bad : bool then link_bad ip s x
                    else
                      let? (s, x) := iput ip s x in
                      let? (s, x) := end_op s x in
                      Ok (0, s, x)
                end
          end
      end
  end.

(** The loop of [isdirempty] from [off] on. *)
Fixpoint isdirempty_loop (n : nat) (off dp : Z) s x : res (bool * kst * ftx) :=
  match n with
  | O => OutOfFuel
  | S n' =>
      if off <? d_size (ip_d dp x) then
        let? (r, de, s, y) := Fs.readi dev_read dp off sizeof_dirent s (ft_fs x) in
        let x := set_ft_fs y x in
        if negb (r =? sizeof_dirent) then Panic "isdirempty: readi"
        else
          let? inum := get16 "de" de 0 in
          if negb (inum =? 0) then Ok (false, s, x)
          else isdirempty_loop n' (off + sizeof_dirent) dp s x
      else Ok (true, s, x)
  end.

Definition isdirempty (dp : Z) s x : res (bool * kst * ftx) :=
  isdirempty_loop (Fs.dir_fuel dp (ft_fs x)) (2 * sizeof_dirent) dp s x.

(** The strings "." and "..". *)
Definition dot : list Z := [46; 0].
Definition dotdot : list Z := [46; 46; 0].

(** The label [bad] of [sys_unlink]. *)
Definition unlink_bad (dp : Z) s x : res (Z * kst * ftx) :=
  let? (s, x) := iunlockput dp s x in fail s x.

(** [sys_unlink] once the entry of inode [ip] is found at [off] of [dp]. *)
Definition unlink_entry (dp ip off : Z) s x : res (Z * kst * ftx) :=
  let? (s, x) := ilock ip s x in
  if d_nlink (ip_d ip x) <? 1 then Panic "unlink: nlink < 1"
  else
    let? (busy, s, x) :=
      (if d_type (ip_d ip x) =? T_DIR then
         let? (e, s, x) := isdirempty ip s x in Ok (negb e, s, x)
       else Ok (false, s, x)) in
    if busy : bool then
      let? (s, x) := iunlockput ip s x in unlink_bad dp s x
    else
      let? (r, s, y) := Fs.writei dev_write dp (repeat 0 (Z.to_nat sizeof_dirent)) off sizeof_dirent s (ft_fs x) in
      let x := set_ft_fs y x in
      if negb (r =? sizeof_dirent) then Panic "unlink: writei"
      else
        let? (s, x) :=
          (if d_type (ip_d ip x) =? T_DIR then iupdate dp s (set_nlink dp (fun n => n - 1) x) else Ok (s, x)) in
        let? (s, x) := iunlockput dp s x in
        let x := set_nlink ip (fun n => n - 1) x in
        let? (s, x) := iupdate ip s x in
        let? (s, x) := iunlockput ip s x in
        let? (s, x) := end_op s x in
        Ok (0, s, x).

Definition sys_unlink um s x : res (Z * kst * ftx) :=
  let? (path, s) := arg_path um 0 s in
  match path with
  | None => Ok (-1, s, x)
  | Some path =>
      let? (s, x) := begin_op s x in
      let? (r, name, s, x) := nameiparent path s x in
      match r with
      | None => fail s x
      | Some dp =>
          let? (s, x) := ilock dp s x in
          let? c1 := Fs.namecmp name dot in
          let? c2 := (if c1 =? 0 then Ok 0 else Fs.namecmp name dotdot) in
          if c2 =? 0 then unlink_bad dp s x
          else
            let? (r, s, x) := dirlookup dp name s x in
            match r with
            | None => unlink_bad dp s x
            | Some (ip, off) => unlink_entry dp ip off s x
            end
      end
  end.

(** The new inode, locked, or [None] for null. *)
Definition create (path : list Z) (type major minor : Z) s x : res (option Z * kst * ftx) :=
  let? (r, name, s, x) := nameiparent path s x in
  match r with
  | None => Ok (None, s, x)
  | Some dp =>
      let? (s, x) := ilock dp s x in
      let? (r, s, x) := dirlookup dp name s x in
      match r with
      | Some (ip, _) =>
          let? (s, x) := iunlockput dp s x in
          let? (s, x) := ilock ip s x in
          if (type =? T_FILE) && (d_type (ip_d ip x) =? T_FILE) then Ok (Some ip, s, x)
          else let? (s, x) := iunlockput ip s x in Ok (None, s, x)
      | None =>
          let? (ip, s, x) := ialloc (i_dev (ip_of dp x)) type s x in
          let? (s, x) := ilock ip s x in
          let x := set_ft_fs (upd_d ip (fun d =>
                     set_d_nlink 1 (set_d_minor minor (set_d_major major d))) (ft_fs x)) x in
          let? (s, x) := iupdate ip s x in
          let? (s, x) :=
            (if type =? T_DIR then
               let x := set_nlink dp (fun n => n + 1) x in
               let? (s, x) := iupdate dp s x in
               let? (r, s, x) := dirlink ip dot (i_inum (ip_of ip x)) s x in
               if r <? 0 then Panic "create dots"
               else
                 let? (r, s, x) := dirlink ip dotdot (i_inum (ip_of dp x)) s x in
                 if r <? 0 then Panic "create dots" else Ok (s, x)
             else Ok (s, x)) in
          let? (r, s, x) := dirlink dp name (i_inum (ip_of ip x)) s x in
          if r <? 0 then Panic "create: dirlink"
          else
            let? (s, x) := iunlockput dp s x in
            Ok (Some ip, s, x)
      end
  end.

(** [sys_open] with the inode locked: the file and its descriptor. *)
Definition open_inode (ip omode : Z) s x : res (Z * kst * ftx) :=
  let? (f, s, x) := File.filealloc s x in
  let? (fd, s) := (match f with Some f => fdalloc f s | None => Ok (-1, s) end) in
  match f with
  | Some f =>
      if fd <? 0 then
        let? (s, x) := fileclose f s x in
        let? (s, x) := iunlockput ip s x in
        fail s x
      else
        let? (s, x) := iunlock ip s x in
        let? (s, x) := end_op s x in
        let w := negb (Z.land omode O_WRONLY =? 0) in
        let rw := negb (Z.land omode O_RDWR =? 0) in
        let x := upd_f f (fun y =>
                   set_f_writable (if w || rw then 1 else 0) (set_f_readable (if w then 0 else 1)
                     (set_f_off 0 (set_f_ip ip (set_f_type FD_INODE y))))) x in
        Ok (fd, s, x)
  | None =>
      let? (s, x) := iunlockput ip s x in
      fail s x
  end.

Definition sys_open um s x : res (Z * kst * ftx) :=
  let? (path, s) := arg_path um 0 s in
  match path with
  | None => Ok (-1, s, x)
  | Some path =>
      let? (omode, s) := arg_int um 1 s in
      match omode with
      | None => Ok (-1, s, x)
      | Some omode =>
          let? (s, x) := begin_op s x in
          if negb (Z.land omode O_CREATE =? 0) then
            let? (r, s, x) := create path T_FILE 0 0 s x in
            match r with
            | None => fail s x
            | Some ip => open_inode ip omode s x
            end
          else
            let? (r, s, x) := namei path s x in
            match r with
            | None => fail s x
            | Some ip =>
                let? (s, x) := ilock ip s x in
                if (d_type (ip_d ip x) =? T_DIR) && negb (omode =? O_RDONLY) then
                  let? (s, x) := iunlockput ip s x in fail s x
                else open_inode ip omode s x
            end
      end
  end.

(** The end of [sys_mkdir] and [sys_mknod]. *)
Definition made (r : option Z) s x : res (Z * kst * ftx) :=
  match r with
  | None => fail s x
  | Some ip =>
      let? (s, x) := iunlockput ip s x in
      let? (s, x) := end_op s x in
      Ok (0, s, x)
  end.

Definition sys_mkdir um s x : res (Z * kst * ftx) :=
  let? (s, x) := begin_op s x in
  let? (path, s) := arg_path um 0 s in
  match path with
  | None => fail s x
  | Some path => let? (r, s, x) := create path T_DIR 0 0 s x in made r s x
  end.

(** The numbers are converted to [short]. *)
Definition sys_mknod um s x : res (Z * kst * ftx) :=
  let? (s, x) := begin_op s x in
  let? (path, s) := arg_path um 0 s in
  match path with
  | None => fail s x
  | Some path =>
      let? (major, s) := arg_int um 1 s in
      match major with
      | None => fail s x
      | Some major =>
          let? (minor, s) := arg_int um 2 s in
          match minor with
          | None => fail s x
          | Some minor => let? (r, s, x) := create path T_DEV (s16 major) (s16 minor) s x in made r s x
          end
      end
  end.

Definition sys_chdir um s x : res (Z * kst * ftx) :=
  let? (c, s) := curproc s in
  let? (s, x) := begin_op s x in
  let? (path, s) := arg_path um 0 s in
  match path with
  | None => fail s x
  | Some path =>
      let? (r, s, x) := namei path s x in
      match r with
      | None => fail s x
      | Some ip =>
          let? (s, x) := ilock ip s x in
          if negb (d_type (ip_d ip x) =? T_DIR) then
            let? (s, x) := iunlockput ip s x in fail s x
          else
            let? (s, x) := iunlock ip s x in
            let? pr := getp c s in
            let? (s, x) := iput (cwd pr) s x in
            let? (s, x) := end_op s x in
            let? s := modp c (set_cwd ip) s in
            Ok (0, s, x)
      end
  end.

(** The loop of [sys_exec]: the argument strings, or [None] for -1. *)
Fixpoint fetch_args um (n : nat) (i uargv : Z) s : res (option (list (list Z)) * kst) :=
  match n with
  | O => Ok (None, s)
  | S n' =>
      let? (r, u, s) := fetchint um (u32 (uargv + 4 * i)) s in
      match u with
      | None => Ok (None, s)
      | Some u =>
          if r <? 0 then Ok (None, s)
          else if u =? 0 then Ok (Some [], s)
          else
            let? (r, a, s) := fetchstr um (u32 u) s in
            match a with
            | None => Ok (None, s)
            | Some a =>
                if r <? 0 then Ok (None, s)
                else
                  let? (l, s) := fetch_args um n' (i + 1) uargv s in
                  Ok (option_map (cons (load_bytes um a (Z.to_nat r))) l, s)
            end
      end
  end.

Definition sys_pipe um s x : res (Z * mem * kst * ftx) :=
  let? (fd, s) := arg_ptr um 0 8 s in
  match fd with
  | None => Ok (-1, um, s, x)
  | Some fd =>
      let? (r, s, x) := File.pipealloc resume_fs resume_log rounds log_at lock_at s x in
      match r with
      | None => Ok (-1, um, s, x)
      | Some (rf, wf) =>
          let? (fd0, s) := fdalloc rf s in
          let? (fd1, s) := (if fd0 <? 0 then Ok (-1, s) else fdalloc wf s) in
          if (fd0 <? 0) || (fd1 <? 0) then
            let? s := (if 0 <=? fd0 then put_fd fd0 0 s else Ok s) in
            let? (s, x) := fileclose rf s x in
            let? (s, x) := fileclose wf s x in
            Ok (-1, um, s, x)
          else Ok (0, store32 (store32 um fd fd0) (fd + 4) fd1, s, x)
      end
  end.

End Ops.
End Sysfile.
End Sysfile.
