(* ===== verification/SysfileFacts.v ===== *)
(** What the system calls on files do to the descriptors, the file table and
    its reference counts. *)

From S2P Require Import Prelude CString Spinlock Kalloc Proc Demo MlfqFacts ProcFacts Sleep Pipe Block Log LogFacts Syscall Fs FsFacts DirFacts File Sysfile.

(** * The calling process *)

Section Caller.
Import Spinlock Ptable Syscall.
Context `{SV : Services} (um : mem).
Implicit Types (s : kst) (c p : nat) (pr : proc).

(** A process in a system call: it holds no lock, and its memory and descriptor
    table are as they should be. *)
Record in_call c p s pr : Prop := {
  cl_out : outside c p s;
  cl_proc : pt_proc s !! p = Some pr;
  cl_sz : 0 <= sz pr <= KERNBASE;
  cl_fds : length (ofile pr) = NOFILE
}.

Lemma in_call_mach c p s pr m : in_call c p s pr -> outside c p (set_mach m s) -> in_call c p (set_mach m s) pr.
Proof. intros [H1 H2 H3 H4] H. by split. Qed.

Lemma argint_call c p s pr n :
  in_call c p s pr ->
  exists m r i, argint um n s = Ok (r, i, set_mach m s) /\ in_call c p (set_mach m s) pr /\
    ((r = 0 /\ exists v, i = Some v /\ - 2 ^ 31 <= v < 2 ^ 31) \/ (r = -1 /\ i = None)).
Proof.
  intros Hc. pose proof Hc as [Hout Hp Hsz _]. unfold argint. destruct (curproc_outside c p s Hout) as (m & -> & Hr').
  cbn [res_bind]. rewrite (getp_lookup p _ pr) by done. cbn [res_bind].
  unfold fetchint. destruct (curproc_outside c p _ Hr') as (m' & -> & Hr2).
  cbn [res_bind]. rewrite (getp_lookup p _ pr) by done. cbn [res_bind].
  set (a := u32 _). assert (0 <= a < 2 ^ 32) as Ha by apply u32_range.
  exists m'. destruct ((sz pr <=? a) || (sz pr <? u32 (a + 4))) eqn:E.
  - exists (-1), None. split; [done|]. split; [by apply (in_call_mach c p s)|by right].
  - apply orb_false_iff in E as [E1%Z.leb_gt E2%Z.ltb_ge]. unfold KERNBASE in Hsz. rewrite u32_small in E2 by lia.
    unfold uread32. rewrite (proj2 (Z.leb_le 0 a)), (proj2 (Z.leb_le (a + 4) _)) by lia. cbn [andb res_bind].
    do 2 eexists. split; [done|]. split; [by apply (in_call_mach c p s)|]. left. split; [done|].
    eexists. split; [done|apply s32_range].
Qed.

Lemma argptr_call c p s pr n size :
  in_call c p s pr ->
  exists m r, Sysfile.arg_ptr um n size s = Ok (r, set_mach m s) /\ in_call c p (set_mach m s) pr.
Proof.
  intros Hc. pose proof Hc as [Hout Hp Hsz _]. unfold Sysfile.arg_ptr, argptr.
  destruct (curproc_outside c p s Hout) as (m & -> & Hr'). cbn [res_bind].
  destruct (argint_call c p (set_mach m s) pr n) as (m' & r & i & -> & Hc' & Hcase); [by apply (in_call_mach c p s)|].
  cbn [res_bind]. destruct Hcase as [(-> & v & -> & Hv)|[-> ->]].
  2: { exists m', None. done. }
  cbn [Z.ltb Z.compare]. rewrite (getp_lookup p _ pr) by apply Hc'. cbn [res_bind].
  destruct (_ || _ || _); cbn [res_bind]; exists m'; by eexists.
Qed.

End Caller.

(** * Descriptors *)

Section Fds.
Import Ptable Syscall Sysfile.
Context `{SV : Services} (um : mem).
Implicit Types (s : kst) (x : ftx) (c p : nat) (pr : proc) (f fd : Z).

(** The descriptor [fd] of [pr] is [a]; 0 is a free one. *)
Definition fd_is pr fd (a : Z) : Prop := 0 <= fd /\ ofile pr !! Z.to_nat fd = Some a.

Lemma find_fd_ok n fd (l : list Z) :
  0 <= fd -> (Z.to_nat fd + n = length l)%nat ->
  exists r, find_fd n fd l = Ok r /\
    match r with
    | Some d => fd <= d < fd + Z.of_nat n /\ l !! Z.to_nat d = Some 0 /\
        forall j, fd <= j < d -> l !! Z.to_nat j <> Some 0
    | None => forall j, fd <= j < fd + Z.of_nat n -> l !! Z.to_nat j <> Some 0
    end.
Proof.
  revert fd. induction n as [|n IH]; intros fd H0 Hl; cbn [find_fd].
  { exists None. split; [done|]. lia. }
  destruct (lookup_lt_is_Some_2 l (Z.to_nat fd)) as [a Ha]; [lia|].
  rewrite (proj2 (zget_Ok _ _ _ _) (conj H0 Ha)). cbn [res_bind].
  destruct (Z.eqb_spec a 0) as [->|Hne].
  { exists (Some fd). split; [done|]. split; [lia|]. split; [done|]. lia. }
  destruct (IH (fd + 1)) as (r & -> & Hr); [lia|lia|]. exists r. split; [done|].
  assert (l !! Z.to_nat fd <> Some 0) as Hfd by congruence.
  destruct r as [d|].
  - destruct Hr as (H1 & H2 & H3). split; [lia|]. split; [done|]. intros j Hj.
    destruct (decide (j = fd)) as [->|]; [done|]. apply H3. lia.
  - intros j Hj. destruct (decide (j = fd)) as [->|]; [done|]. apply Hr. lia.
Qed.

(** [pr] with descriptor [fd] set to [a]. *)
Definition with_fd pr fd (a : Z) : proc := set_ofile (<[Z.to_nat fd := a]> (ofile pr)) pr.

Lemma in_call_fd c p s pr fd a : in_call c p s pr -> in_call c p (putp p (with_fd pr fd a) s) (with_fd pr fd a).
Proof.
  intros [H1 H2 H3 H4]. split; [done|..|done|].
  - unfold putp. cbn. apply list_lookup_insert_eq. by eapply lookup_lt_Some.
  - cbn. by rewrite length_insert.
Qed.

Lemma set_fd_ok c p s pr fd a :
  in_call c p s pr -> 0 <= fd < Z.of_nat NOFILE -> set_fd p fd a s = Ok (putp p (with_fd pr fd a) s).
Proof.
  intros [_ Hp _ Hl] Hfd. unfold set_fd. rewrite (getp_lookup _ _ _ Hp). cbn [res_bind].
  rewrite zset_in by (rewrite Hl; done). cbn [res_bind]. by rewrite (modp_lookup _ _ _ _ Hp).
Qed.

Lemma fdalloc_ok c p s pr f :
  in_call c p s pr ->
  exists r m, find_fd NOFILE 0 (ofile pr) = Ok r /\ in_call c p (set_mach m s) pr /\
    match r with
    | Some fd => fdalloc f s = Ok (fd, putp p (with_fd pr fd (fptr f)) (set_mach m s)) /\
        0 <= fd < Z.of_nat NOFILE /\ fd_is pr fd 0 /\ forall j, 0 <= j < fd -> ~ fd_is pr j 0
    | None => fdalloc f s = Ok (-1, set_mach m s) /\ forall j, 0 <= j < Z.of_nat NOFILE -> ~ fd_is pr j 0
    end.
Proof.
  intros Hc. pose proof Hc as [Hout Hp _ Hl]. unfold fdalloc.
  destruct (curproc_outside c p s Hout) as (m & -> & Hout'). cbn [res_bind].
  pose proof (in_call_mach c p s pr m Hc Hout') as Hc'.
  rewrite (getp_lookup p _ pr) by done. cbn [res_bind].
  destruct (find_fd_ok NOFILE 0 (ofile pr)) as (r & Er & Hr); [lia|by rewrite Hl|]. rewrite Er. cbn [res_bind].
  exists r, m. split; [done|]. split; [done|]. destruct r as [fd|].
  - destruct Hr as (H1 & H2 & H3). rewrite (set_fd_ok c p _ pr) by (done || lia). cbn [res_bind].
    split; [done|]. split; [lia|]. split; [by split; [lia|]|]. intros j Hj [_ H]. by apply (H3 j).
  - split; [done|]. intros j Hj [_ H]. apply (Hr j); [lia|done].
Qed.

(** [fdalloc] gives the lowest free descriptor to the file and changes no
    other one; it fails exactly if all 16 are in use, and then changes nothing. *)
Theorem fdalloc_spec c p s pr f :
  in_call c p s pr ->
  exists r s', fdalloc f s = Ok (r, s') /\
    ((0 <= r < Z.of_nat NOFILE /\ fd_is pr r 0 /\ (forall j, 0 <= j < r -> ~ fd_is pr j 0) /\
      pt_proc s' = <[p := with_fd pr r (fptr f)]> (pt_proc s)) \/
     (r = -1 /\ (forall j, 0 <= j < Z.of_nat NOFILE -> ~ fd_is pr j 0) /\ pt_proc s' = pt_proc s)).
Proof.
  intros Hc. destruct (fdalloc_ok c p s pr f Hc) as ([fd|] & m & _ & _ & H).
  - destruct H as (-> & H1 & H2 & H3). do 2 eexists. split; [done|]. left. done.
  - destruct H as (-> & H). do 2 eexists. split; [done|]. by right.
Qed.

Lemma argfd_call c p s pr n :
  in_call c p s pr ->
  exists m r, argfd um n s = Ok (r, set_mach m s) /\ in_call c p (set_mach m s) pr /\
    match r with
    | Some (fd, f) => 0 <= fd < Z.of_nat NOFILE /\ fd_is pr fd (fptr f) /\ fptr f <> 0
    | None => True
    end.
Proof.
  intros Hc. unfold argfd. destruct (argint_call um c p s pr n Hc) as (m & r & i & -> & Hc' & Hcase).
  cbn [res_bind]. destruct Hcase as [(-> & v & -> & Hv)|[-> ->]]; [|by exists m, None].
  cbn [Z.ltb Z.compare]. destruct ((v <? 0) || (Z.of_nat NOFILE <=? v)) eqn:E; [by exists m, None|].
  apply orb_false_iff in E as [E1%Z.ltb_ge E2%Z.leb_gt]. pose proof Hc' as [Hout Hp _ Hl].
  destruct (curproc_outside c p _ Hout) as (m2 & -> & Hout2). cbn [res_bind].
  rewrite (getp_lookup p _ pr) by done. cbn [res_bind].
  destruct (lookup_lt_is_Some_2 (ofile pr) (Z.to_nat v)) as [a Ha]; [lia|].
  rewrite (proj2 (zget_Ok _ _ _ _) (conj E1 Ha)). cbn [res_bind]. unfold unptr.
  pose proof (in_call_mach c p s pr m2 Hc Hout2) as Hc2.
  destruct (Z.eqb_spec a 0) as [->|Hne]; [by exists m2, None|].
  exists m2, (Some (v, a - 1)). split; [done|]. split; [done|]. unfold fd_is, fptr.
  replace (a - 1 + 1) with a by lia. done.
Qed.

End Fds.

(** * Reference counts *)

Section Refs.
Import Ptable Syscall Sysfile.
Context `{SV : Services} (um : mem).
Implicit Types (s : kst) (x : ftx) (c p : nat) (pr : proc) (f g fd a : Z).

Definition is_one a b : Z := if b =? a then 1 else 0.

(** How many descriptors point to file [f]. *)
Definition cnt a pr : Z := zsum (is_one a) (ofile pr).
Definition refs f s : Z := zsum (cnt (fptr f)) (pt_proc s).

(** Every file's count is the number of descriptors that point to it, and every
    descriptor that is not null points to a file. *)
Record counted s x : Prop := {
  ct_ref f : fslot f -> f_ref (ft_file x f) = refs f s;
  ct_fds (q : nat) pr fd a : pt_proc s !! q = Some pr -> fd_is pr fd a -> a = 0 \/ exists f, a = fptr f /\ fslot f
}.

Lemma is_one_nonneg a b : 0 <= is_one a b.
Proof. unfold is_one. destruct (b =? a); lia. Qed.

Lemma cnt_nonneg a pr : 0 <= cnt a pr.
Proof. apply zsum_nonneg, is_one_nonneg. Qed.

Lemma cnt_with pr fd a old b :
  fd_is pr fd old -> cnt b (with_fd pr fd a) = cnt b pr - is_one b old + is_one b a.
Proof. intros [_ H]. unfold cnt, with_fd. cbn. by rewrite (zsum_insert _ _ _ _ _ H). Qed.

Lemma refs_put s p pr pr' f :
  pt_proc s !! p = Some pr -> refs f (putp p pr' s) = refs f s - cnt (fptr f) pr + cnt (fptr f) pr'.
Proof. intros H. unfold refs, putp. cbn. by rewrite (zsum_insert _ _ _ _ _ H). Qed.

Lemma refs_with s p pr fd a old f :
  pt_proc s !! p = Some pr -> fd_is pr fd old ->
  refs f (putp p (with_fd pr fd a) s) = refs f s - is_one (fptr f) old + is_one (fptr f) a.
Proof. intros H Hf. rewrite (refs_put _ _ _ _ _ H), (cnt_with _ _ _ _ _ Hf). lia. Qed.

Lemma refs_pos s p pr fd f : pt_proc s !! p = Some pr -> fd_is pr fd (fptr f) -> 1 <= refs f s.
Proof.
  intros H [H0 Hf]. unfold refs. etrans; [|apply (zsum_ge _ _ _ _ (cnt_nonneg (fptr f)) H)].
  unfold cnt. etrans; [|apply (zsum_ge _ _ _ _ (is_one_nonneg (fptr f)) Hf)]. unfold is_one. by rewrite Z.eqb_refl.
Qed.

Lemma fptr_inj f g : fptr f = fptr g -> f = g.
Proof. unfold fptr. lia. Qed.

Lemma is_one_fptr f g : is_one (fptr f) (fptr g) = if decide (g = f) then 1 else 0.
Proof.
  unfold is_one. destruct (Z.eqb_spec (fptr g) (fptr f)) as [E|E].
  - apply fptr_inj in E. by rewrite decide_True.
  - rewrite decide_False; [done|]. by intros ->.
Qed.

Lemma is_one_null f : fslot f -> is_one (fptr f) 0 = 0.
Proof. intros [H _]. unfold is_one, fptr. by rewrite (proj2 (Z.eqb_neq _ _)) by lia. Qed.


(** The counts after descriptor [fd] of [p] changed from [old] to [a], and the
    files from [x] to [x']. *)
Lemma counted_put s x x' p pr fd old a m :
  counted s x -> pt_proc s !! p = Some pr -> 0 <= fd -> fd_is pr fd old -> (a = 0 \/ exists f, a = fptr f /\ fslot f) ->
  (forall f, fslot f -> f_ref (ft_file x' f) =
     f_ref (ft_file x f) - is_one (fptr f) old + is_one (fptr f) a) ->
  counted (putp p (with_fd pr fd a) (set_mach m s)) x'.
Proof.
  intros [Hr Hv] Hp Hfd Hold Ha Hx. split.
  - intros f Hf. rewrite (refs_with _ _ _ _ _ old) by done. rewrite Hx, Hr by done. done.
  - intros q pr2 fd2 a2 Hq [H0 H2]. unfold putp in Hq. cbn in Hq. rewrite list_lookup_insert_Some in Hq.
    destruct Hq as [(-> & <- & _)|[_ Hq]]; [|by apply (Hv q pr2 fd2)].
    unfold with_fd in H2. cbn in H2. rewrite list_lookup_insert_Some in H2.
    destruct H2 as [(_ & <- & _)|[_ H2]]; [done|]. by apply (Hv q pr fd2).
Qed.

Lemma counted_mach s x m : counted s x -> counted (set_mach m s) x.
Proof. intros [H1 H2]. by split. Qed.

(** [x] with another lock state and another count for [f]. *)
Lemma filedup_ok c p s x f :
  outside c p s -> locked (ft_lock x) = 0 -> 1 <= f_ref (ft_file x f) ->
  exists m x', File.filedup f s x = Ok (set_mach m s, x') /\ outside c p (set_mach m s) /\ locked (ft_lock x') = 0 /\
    ft_pipe x' = ft_pipe x /\ ft_fs x' = ft_fs x /\
    ft_file x' = fupd (ft_file x) f (set_f_ref (f_ref (ft_file x f) + 1) (ft_file x f)).
Proof.
  intros Hout Hl Hr. unfold File.filedup.
  destruct (lock_ft_ok c p s x Hout Hl) as (k1 & m1 & -> & Hh & Hin). cbn [res_bind].
  cbn [ft_file set_ft_lock]. rewrite (proj2 (Z.ltb_ge _ _)) by done.
  destruct (unlock_ft_ok c p (set_mach m1 s)
    (upd_f f (fun y => set_f_ref (f_ref y + 1) y) (set_ft_lock k1 x)) Hin Hh) as (k2 & m2 & -> & Hk & Hout2).
  by exists m2, (set_ft_lock k2 (upd_f f (fun y => set_f_ref (f_ref y + 1) y) (set_ft_lock k1 x))).
Qed.

(** [sys_dup] gives a second, lowest free descriptor to the same file and
    raises the file's count, or returns -1 and changes nothing; either way the
    counts stay equal to the number of descriptors. *)
Theorem sys_dup_spec c p s x pr :
  in_call c p s pr -> counted s x -> locked (ft_lock x) = 0 ->
  exists r s' x', sys_dup um s x = Ok (r, s', x') /\ counted s' x' /\ locked (ft_lock x') = 0 /\
    ((r = -1 /\ pt_proc s' = pt_proc s /\ x' = x) \/
     (exists fd f, fd_is pr fd (fptr f) /\ fd_is pr r 0 /\ (forall j, 0 <= j < r -> ~ fd_is pr j 0) /\
        pt_proc s' = <[p := with_fd pr r (fptr f)]> (pt_proc s))).
Proof.
  intros Hc Hct Hl. unfold sys_dup. destruct (argfd_call um c p s pr 0 Hc) as (m & r & -> & Hc1 & Hr). cbn [res_bind].
  destruct r as [[fd f]|].
  2: { do 3 eexists. split; [done|]. split; [by repeat apply counted_mach|]. split; [done|]. by left. }
  destruct Hr as (Hfd & Hf & Hf0). destruct (fdalloc_ok c p (set_mach m s) pr f Hc1) as (d & m2 & _ & Hc2 & Hd).
  destruct d as [d|].
  2: { destruct Hd as [-> Hd]. cbn [res_bind Z.ltb Z.compare]. do 3 eexists. split; [done|].
       split; [by repeat apply counted_mach|]. split; [done|]. by left. }
  destruct Hd as (-> & Hd1 & Hd2 & Hd3). cbn [res_bind]. rewrite (proj2 (Z.ltb_ge _ _)) by lia.
  pose proof (cl_proc _ _ _ _ Hc) as Hp. assert (fslot f) as Hs.
  { destruct (ct_fds _ _ Hct p pr fd _ Hp Hf) as [|(g & E & Hg)]; [done|]. by apply fptr_inj in E as ->. }
  pose proof (refs_pos s p pr fd f Hp Hf) as Hpos. rewrite <- (ct_ref _ _ Hct f Hs) in Hpos.
  pose proof (in_call_fd _ _ _ _ d (fptr f) Hc2) as Hc3.
  destruct (filedup_ok c p _ x f (cl_out _ _ _ _ Hc3) Hl Hpos) as (m3 & x' & -> & Hout & Hl' & _ & _ & Ex).
  cbn [res_bind]. do 3 eexists. split; [done|]. split.
  - apply counted_mach. change (set_mach m2 (set_mach m s)) with (set_mach m2 s).
    apply (counted_put s x x' p pr d 0 (fptr f) m2); try done; [lia|right; by exists f|].
    intros g Hg. rewrite Ex, is_one_fptr, is_one_null by done. case_decide as E.
    + subst. rewrite fupd_eq. cbn. lia.
    + rewrite fupd_ne by done. lia.
  - split; [done|]. right. exists fd, f. done.
Qed.

End Refs.

(** * Pipes *)

Section SysPipe.
Import Ptable Syscall Sysfile.
Context `{SV : Services} (kend_high : KERNBASE <= kernel_end) (um : mem).
Context (resume_fs : kst -> fsx -> kst * fsx) (resume_log : kst -> lst -> kst * lst).
Context (rounds : nat) (log_at : Z) (lock_at : Z -> Z).
Implicit Types (s : kst) (x : ftx) (c p : nat) (pr : proc) (f g fd a : Z) (L : list Z).

(** All descriptors of all processes. *)
Definition all_fds s : list (list Z) := map ofile (pt_proc s).

Lemma woken_fds s s' : woken s s' -> all_fds s' = all_fds s.
Proof.
  intros [ch E]. unfold all_fds. rewrite E, map_map. apply map_ext. intros pr.
  unfold wake. by destruct (_ && _).
Qed.

Lemma fds_put s p pr pr' : pt_proc s !! p = Some pr -> ofile pr' = ofile pr -> all_fds (putp p pr' s) = all_fds s.
Proof.
  intros Hp E. change (ofile <$> <[p := pr']> (pt_proc s) = ofile <$> pt_proc s). rewrite list_fmap_insert, E.
  apply list_insert_id. by rewrite list_lookup_fmap, Hp.
Qed.

(** Closing both ends of a pipe that no one else has gives the page back. *)
Lemma close_both c p s x L a f0 f1 :
  outside c p s -> locked (pt_lock s) = 0 -> locked (ft_lock x) = 0 -> kmem_inv kernel_end (ph s) L ->
  page_ok kernel_end a -> a ∉ L -> f0 <> f1 -> pipe_end (ft_file x f0) a false -> pipe_end (ft_file x f1) a true ->
  readopen (ft_pipe x a) = 1 -> writeopen (ft_pipe x a) = 1 -> locked (pi_lock (ft_pipe x a)) = 0 ->
  exists s' x',
    (let? (s, x) := fileclose resume_fs resume_log rounds log_at lock_at f0 s x in
     let? (s, x) := fileclose resume_fs resume_log rounds log_at lock_at f1 s x in Ok (-1, um, s, x)) =
      Ok (-1, um, s', x') /\
    all_fds s' = all_fds s /\ kmem_inv kernel_end (ph s') (a :: L) /\
    f_ref (ft_file x' f0) = 0 /\ f_ref (ft_file x' f1) = 0 /\
    forall g, g <> f0 -> g <> f1 -> ft_file x' g = ft_file x g.
Proof.
  intros Hout Hpt Hft Hk Hpg Hnin Hne He0 He1 Hro Hwo Hpl. unfold fileclose.
  destruct (fileclose_pipe resume_fs resume_log rounds log_at lock_at c p s x f0 a false Hout Hft He0)
    as (m1 & x1 & Hout1 & Hft1 & Hp1 & _ & Hg1 & Hf1 & ->).
  unfold File.pipeclose at 1. rewrite Hp1. cbn [negb Z.eqb].
  destruct (pipeclose_locked c p (set_mach m1 s) (ft_pipe x a) a false Hout1 Hpt Hpl)
    as (s2 & k2 & m2 & Hout2 & Hpt2 & Hph2 & Hw2 & Hk2 & ->).
  cbn [closed_end readopen writeopen set_readopen]. rewrite Hwo. cbn [Z.eqb andb res_bind].
  set (q := set_pi_lock _ _). set (x2 := set_ft_pipe _ x1).
  assert (ft_pipe x2 a = q) as Eq by (cbn; by rewrite fupd_eq).
  assert (pipe_end (ft_file x2 f1) a true) as He1'.
  { change (ft_file x2) with (ft_file x1). by rewrite Hg1. }
  destruct (fileclose_pipe resume_fs resume_log rounds log_at lock_at c p s2 x2 f1 a true Hout2 Hft1 He1')
    as (m3 & x3 & Hout3 & Hft3 & Hp3 & _ & Hg3 & Hf3 & ->).
  unfold File.pipeclose. rewrite Hp3, Eq. cbn [negb Z.eqb].
  destruct (pipeclose_locked c p (set_mach m3 s2) q a true Hout3 Hpt2 Hk2)
    as (s4 & k4 & m4 & Hout4 & Hpt4 & Hph4 & Hw4 & Hk4 & ->).
  cbn [closed_end readopen writeopen set_readopen set_writeopen set_pi_lock q Z.eqb andb].
  rewrite Hph4. cbn [ph set_mach]. rewrite Hph2. cbn [ph set_mach].
  destruct (kfree_push _ kend_high a (ph s) L (mach s4) Hk) as (h & m5 & -> & Hk' & _); [|done|done|].
  { by apply (outside_mach_ok c p s4). }
  cbn [res_bind]. do 2 eexists. split; [done|]. split.
  { change (all_fds (set_mach m5 (set_ph h s4))) with (all_fds s4). rewrite (woken_fds _ _ Hw4).
    change (all_fds (set_mach m3 s2)) with (all_fds s2). by rewrite (woken_fds _ _ Hw2). }
  split; [done|]. rewrite Hf3, Hg3 by done. change (ft_file x2) with (ft_file x1). rewrite Hf1.
  split; [done|]. split; [done|]. intros g Hg0 Hg1'. rewrite Hg3 by done. by apply Hg1.
Qed.

(** [d] is the first free descriptor from [lo] on. *)
Definition first_free pr (lo d : Z) : Prop :=
  lo <= d < Z.of_nat NOFILE /\ fd_is pr d 0 /\ forall j, lo <= j < d -> ~ fd_is pr j 0.

Lemma fdalloc_first c p s pr f d :
  in_call c p s pr -> first_free pr 0 d ->
  exists m, in_call c p (set_mach m s) pr /\ fdalloc f s = Ok (d, putp p (with_fd pr d (fptr f)) (set_mach m s)).
Proof.
  intros Hc (H1 & H2 & H3). destruct (fdalloc_ok c p s pr f Hc) as ([fd|] & m & _ & Hc' & H).
  - destruct H as (-> & Hr & Hf & Hn). assert (fd = d) as ->; [|by exists m].
    destruct (Z.lt_trichotomy fd d) as [Hl|[He|Hl]]; [|done|]; exfalso.
    + by apply (H3 fd); [lia|].
    + by apply (Hn d); [lia|].
  - destruct H as [_ H]. exfalso. by apply (H d).
Qed.

Lemma first_free_with pr d0 d1 a :
  fptr a <> 0 -> first_free pr 0 d0 -> first_free pr (d0 + 1) d1 -> first_free (with_fd pr d0 (fptr a)) 0 d1.
Proof.
  intros Ha (H1 & H2 & H3) (H4 & H5 & H6). split; [lia|].
  assert (forall j b, 0 <= j -> j <> d0 -> fd_is (with_fd pr d0 (fptr a)) j b <-> fd_is pr j b) as Hj.
  { intros j b Hj Hne. unfold fd_is, with_fd. cbn. rewrite list_lookup_insert_ne by lia. done. }
  split; [apply Hj; [lia|lia|done]|]. intros j Hj2. destruct (decide (j = d0)) as [->|Hne].
  - intros [_ H]. unfold with_fd in H. cbn in H. rewrite list_lookup_insert_Some in H. destruct H2 as [_ H2].
    destruct H as [(_ & E & _)|[? _]]; [done|done].
  - rewrite Hj by lia. destruct (decide (j < d0)); [apply H3; lia|apply H6; lia].
Qed.

(** C36: with a valid pointer, two free descriptors, two unused files and a free
    page, [sys_pipe] stores the two lowest free descriptors at the pointer; they
    are the read and the write end of a new, empty pipe, and the reference counts
    stay right. *)
Theorem sys_pipe_spec c p s x pr a L q s1 d0 d1 :
  in_call c p s pr -> counted s x -> locked (ft_lock x) = 0 -> kmem_inv kernel_end (ph s) (a :: L) ->
  length (data (ft_pipe x a)) = 512%nat ->
  (exists f g, fslot f /\ fslot g /\ f <> g /\ f_ref (ft_file x f) = 0 /\ f_ref (ft_file x g) = 0) ->
  arg_ptr um 0 8 s = Ok (Some q, s1) -> first_free pr 0 d0 -> first_free pr (d0 + 1) d1 ->
  exists f0 f1 um' s' x', sys_pipe resume_fs resume_log rounds log_at lock_at um s x = Ok (0, um', s', x') /\
    load32 um' q = d0 /\ load32 um' (q + 4) = d1 /\
    pt_proc s' = <[p := with_fd (with_fd pr d0 (fptr f0)) d1 (fptr f1)]> (pt_proc s) /\
    pipe_end (ft_file x' f0) a false /\ pipe_end (ft_file x' f1) a true /\ pipe_rep (ft_pipe x' a) [] /\
    counted s' x'.
Proof.
  intros Hc Hct Hl Hk Hd Hfree Harg Hd0 Hd1. unfold sys_pipe.
  destruct (argptr_call um c p s pr 0 8 Hc) as (m & r & Ea & Hc1). rewrite Ea in Harg. injection Harg as -> <-.
  rewrite Ea. cbn [res_bind].
  destruct (pipealloc_ok resume_fs resume_log rounds log_at lock_at c p (set_mach m s) x a L kend_high
    (cl_out _ _ _ _ Hc1) Hl Hk Hd Hfree) as (f0 & f1 & h & m2 & x1 & -> & N). cbn [res_bind].
  destruct N as [Hne [Hs0 Hs1] [Hr0 Hr1] He0 He1 Hrep _ Hrest _ _ _ Hout2].
  assert (in_call c p (set_mach m2 (set_ph h (set_mach m s))) pr) as Hc2 by (destruct Hc1; by split).
  destruct (fdalloc_first c p _ pr f0 d0 Hc2 Hd0) as (m3 & Hc3 & ->). cbn [res_bind].
  rewrite (proj2 (Z.ltb_ge d0 0)) by (destruct Hd0; lia).
  assert (fptr f0 <> 0) as Hf0 by (unfold fptr; destruct Hs0; lia).
  pose proof (in_call_fd _ _ _ _ d0 (fptr f0) Hc3) as Hc4.
  destruct (fdalloc_first c p _ _ f1 d1 Hc4 (first_free_with pr d0 d1 f0 Hf0 Hd0 Hd1)) as (m4 & Hc5 & ->).
  cbn [res_bind]. rewrite (proj2 (Z.ltb_ge d1 0)) by (destruct Hd0, Hd1; lia). cbn [orb].
  exists f0, f1. do 3 eexists. split; [done|].
  assert (NOFILE = 16%nat) as HN by done. destruct Hd0 as (Hb0 & Hz0 & _), Hd1 as (Hb1 & Hz1 & _).
  split.
  { rewrite (load32_agree (store32 um q d0)); [apply load32_store32; lia|].
    intros y Hy. rewrite store32_spec. by rewrite (proj2 (Z.leb_gt (q + 4) y)) by lia. }
  split; [apply load32_store32; lia|]. split.
  { cbn. by rewrite list_insert_insert_eq. }
  split; [done|]. split; [done|]. split; [done|]. split.
  - intros f Hf. pose proof (cl_proc _ _ _ _ Hc) as Hp.
    assert (fd_is (with_fd pr d0 (fptr f0)) d1 0) as Hz1'.
    { destruct Hz1 as [Hz1 Hz1']. split; [done|]. unfold with_fd. cbn. by rewrite list_lookup_insert_ne by lia. }
    rewrite (refs_with _ _ _ _ _ 0) by (apply Hc5 || done).
    change (refs f (set_mach m4 ?t)) with (refs f t).
    rewrite (refs_with _ _ _ _ _ 0) by (apply Hc3 || done).
    change (refs f (set_mach m3 _)) with (refs f s). rewrite !is_one_fptr, is_one_null by done.
    destruct He0 as (_ & Hx0 & _), He1 as (_ & Hx1 & _).
    repeat case_decide; subst; try done; rewrite ?Hx0, ?Hx1, ?Hrest, <- ?(ct_ref _ _ Hct) by done; lia.
  - intros q2 pr2 fd2 a2. cbn. rewrite list_insert_insert_eq, list_lookup_insert_Some.
    intros [(<- & <- & _)|[_ Hq]] [H0 H2]; [|by apply (ct_fds _ _ Hct q2 pr2 fd2)].
    unfold with_fd in H2. cbn in H2. rewrite !list_lookup_insert_Some in H2.
    destruct H2 as [(_ & <- & _)|[_ [(_ & <- & _)|[_ H2]]]]; [right; by exists f1|right; by exists f0|].
    by apply (ct_fds _ _ Hct p pr fd2); [apply Hc|split].
Qed.

Lemma with_fd_undo pr fd a : fd_is pr fd 0 -> ofile (with_fd (with_fd pr fd a) fd 0) = ofile pr.
Proof. intros [_ H]. unfold with_fd. cbn. rewrite list_insert_insert_eq. by apply list_insert_id. Qed.

(** C37: when no two descriptors are free, [sys_pipe] returns -1 and undoes what
    it did: user memory and all descriptors are as before, both files are unused
    again and the page of the pipe is free. *)
Theorem sys_pipe_undone c p s x pr a L q s1 :
  in_call c p s pr -> locked (pt_lock s) = 0 -> locked (ft_lock x) = 0 -> kmem_inv kernel_end (ph s) (a :: L) ->
  length (data (ft_pipe x a)) = 512%nat ->
  (exists f g, fslot f /\ fslot g /\ f <> g /\ f_ref (ft_file x f) = 0 /\ f_ref (ft_file x g) = 0) ->
  arg_ptr um 0 8 s = Ok (Some q, s1) ->
  (forall d d', 0 <= d < d' -> fd_is pr d 0 -> ~ fd_is pr d' 0) ->
  exists s' x', sys_pipe resume_fs resume_log rounds log_at lock_at um s x = Ok (-1, um, s', x') /\
    all_fds s' = all_fds s /\ (forall f, f_ref (ft_file x' f) = f_ref (ft_file x f)) /\
    kmem_inv kernel_end (ph s') (a :: L).
Proof.
  intros Hc Hpt Hl Hk Hd Hfree Harg Hone. unfold sys_pipe.
  destruct (argptr_call um c p s pr 0 8 Hc) as (m & r & Ea & Hc1). rewrite Ea in Harg. injection Harg as -> <-.
  rewrite Ea. cbn [res_bind].
  destruct (pipealloc_ok resume_fs resume_log rounds log_at lock_at c p (set_mach m s) x a L kend_high
    (cl_out _ _ _ _ Hc1) Hl Hk Hd Hfree) as (f0 & f1 & h & m2 & x1 & -> & N). cbn [res_bind].
  destruct N as [Hne [Hs0 Hs1] [Hr0 Hr1] He0 He1 Hrep (Hro & Hwo & Hpl) Hrest Hft [Hpg Hnin] Hk2 Hout2].
  set (s2 := set_mach m2 (set_ph h (set_mach m s))) in *.
  assert (in_call c p s2 pr) as Hc2 by (destruct Hc1; by split).
  assert (forall s3 x3, outside c p s3 -> pt_lock s3 = pt_lock s2 -> ph s3 = ph s2 -> all_fds s3 = all_fds s ->
    x3 = x1 -> exists s' x',
    (let? (s, x) := fileclose resume_fs resume_log rounds log_at lock_at f0 s3 x3 in
     let? (s, x) := fileclose resume_fs resume_log rounds log_at lock_at f1 s x in Ok (-1, um, s, x)) =
      Ok (-1, um, s', x') /\ all_fds s' = all_fds s /\ (forall f, f_ref (ft_file x' f) = f_ref (ft_file x f)) /\
      kmem_inv kernel_end (ph s') (a :: L)) as Hclose.
  { intros s3 x3 Ho Ep Eh Ef ->.
    destruct (close_both c p s3 x1 L a f0 f1) as (s' & x' & E & Hfd & Hk' & Hz0 & Hz1 & Hoth); try done.
    { by rewrite Ep. }
    { by rewrite Eh. }
    exists s', x'. split; [exact E|]. split; [by rewrite Hfd|]. split; [|done]. intros f.
    destruct (decide (f = f0)) as [->|]; [by rewrite Hz0|]. destruct (decide (f = f1)) as [->|]; [by rewrite Hz1|].
    by rewrite Hoth, Hrest. }
  destruct (fdalloc_ok c p s2 pr f0 Hc2) as ([d|] & m3 & _ & Hc3 & H3).
  2: { destruct H3 as [-> _]. cbn [res_bind Z.ltb Z.leb Z.compare orb]. by apply Hclose; [apply Hc3|..]. }
  destruct H3 as (-> & Hdr & Hdz & _). cbn [res_bind]. rewrite (proj2 (Z.ltb_ge d 0)) by lia.
  pose proof (in_call_fd _ _ _ _ d (fptr f0) Hc3) as Hc4.
  destruct (fdalloc_ok c p _ _ f1 Hc4) as ([d'|] & m4 & _ & Hc5 & H5).
  { exfalso. destruct H5 as (_ & Hdr' & [H0 Hdz'] & _). unfold with_fd in Hdz'. cbn in Hdz'.
    rewrite list_lookup_insert_Some in Hdz'. destruct Hdz' as [(_ & E & _)|[Hnn Hz]].
    - unfold fptr in E. destruct Hs0. lia.
    - assert (fd_is pr d' 0) as Hz' by by split.
      assert (d < d' \/ d' < d) as [Hlt|Hlt] by (destruct (decide (d = d')) as [->|]; [done|lia]).
      + by apply (Hone d d'); [lia|..].
      + by apply (Hone d' d); [lia|..]. }
  destruct H5 as [-> _]. cbn [res_bind Z.ltb Z.compare orb]. rewrite (proj2 (Z.leb_le 0 d)) by lia.
  unfold put_fd. destruct (curproc_outside c p _ (cl_out _ _ _ _ Hc5)) as (m6 & -> & Hout6). cbn [res_bind].
  pose proof (in_call_mach _ _ _ _ m6 Hc5 Hout6) as Hc6.
  rewrite (set_fd_ok c p _ _ d 0 Hc6 Hdr). cbn [res_bind]. apply Hclose; try done.
  etrans; [|apply (fds_put s p pr (with_fd (with_fd pr d (fptr f0)) d 0)); [apply Hc|by apply with_fd_undo]].
  unfold all_fds, putp. cbn. by rewrite list_insert_insert_eq.
Qed.

End SysPipe.

(** * Directories *)

Section SysDirs.
Import Fs Sysfile.
Context `{SV : Services}.
Implicit Types (s : kst) (x : ftx) (dp k : Z).

Lemma isdirempty_loop_ok dr dp n fuel : forall k s x,
  dir_ok (ft_fs x) dp n -> 0 <= k -> (Z.to_nat (n - k) < fuel)%nat ->
  exists (b : bool) x', isdirempty_loop dr fuel (sizeof_dirent * k) dp s x = Ok (b, s, x') /\ same (ft_fs x) (ft_fs x') /\
    ft_file x' = ft_file x /\
    if b then forall j, k <= j < n -> dent_inum (ft_fs x) dp j = 0
    else exists j, k <= j < n /\ dent_inum (ft_fs x) dp j <> 0.
Proof.
  induction fuel as [|f IH]; intros k s x Hd Hk Hf; [lia|]. cbn [isdirempty_loop]. unfold ip_d, ip_of.
  rewrite (dk_size _ _ _ Hd). destruct (Z.ltb_spec (sizeof_dirent * k) (sizeof_dirent * n)) as [Hlt|Hge].
  2: { exists true, x. split; [done|]. split; [done|]. split; [done|]. unfold sizeof_dirent in Hge. lia. }
  assert (k < n) as Hkn by (unfold sizeof_dirent in Hlt; lia).
  destruct (read_dent dr (ft_fs x) dp n k s Hd) as (x1 & -> & Hs1 & Hg); [lia|]. cbn [res_bind].
  rewrite Z.eqb_refl. cbn [negb]. rewrite Hg. cbn [res_bind].
  destruct (Z.eqb_spec (dent_inum (ft_fs x) dp k) 0) as [E0|E0]; cbn [negb].
  2: { exists false, (set_ft_fs x1 x). split; [done|]. split; [done|]. split; [done|]. exists k. split; [lia|done]. }
  replace (sizeof_dirent * k + sizeof_dirent) with (sizeof_dirent * (k + 1)) by (unfold sizeof_dirent; lia).
  destruct (IH (k + 1) s (set_ft_fs x1 x)) as (b & x2 & E & Hs2 & Hf2 & Hb); [by apply (dir_ok_same (ft_fs x))|lia|lia|].
  assert (forall j, dent_inum (ft_fs (set_ft_fs x1 x)) dp j = dent_inum (ft_fs x) dp j) as Hi.
  { intros j. unfold dent_inum. cbn. by rewrite (dent_same _ _ _ _ Hs1). }
  exists b, x2. split; [exact E|]. split; [etrans; [exact Hs1|exact Hs2]|]. split; [done|]. destruct b.
  - intros j Hj. destruct (decide (j = k)) as [->|]; [done|]. rewrite <- Hi. apply Hb. lia.
  - destruct Hb as (j & Hj & Hn). exists j. rewrite Hi in Hn. split; [lia|done].
Qed.

(** [isdirempty] says whether a directory has an entry in use after its
    first two, "." and "..": the test on which [sys_unlink] decides whether it may
    remove a directory. *)
Theorem isdirempty_spec dr dp n s x :
  dir_ok (ft_fs x) dp n ->
  exists (b : bool) x', isdirempty dr dp s x = Ok (b, s, x') /\ same (ft_fs x) (ft_fs x') /\
    (b = true <-> forall j, 2 <= j < n -> dent_inum (ft_fs x) dp j = 0).
Proof.
  intros Hd. unfold isdirempty. change (2 * sizeof_dirent) with (sizeof_dirent * 2).
  pose proof (dir_fuel_enough _ _ _ Hd) as Hfuel.
  destruct (isdirempty_loop_ok dr dp n (dir_fuel dp (ft_fs x)) 2 s x Hd) as (b & x' & -> & Hs & _ & Hb); [lia|lia|].
  exists b, x'. split; [done|]. split; [done|]. destruct b; [done|].
  destruct Hb as (j & Hj & Hn). split; [done|]. intros H. by destruct Hn; apply H.
Qed.

End SysDirs.

(** * Examples *)

Section SysfileExamples.
Import Sysfile.

(** Process 0 in a system call whose arguments are all 0; its descriptors are
    all free. *)
Definition demo_caller_proc : proc := demo_proc SLEEPING 1 0.

Lemma demo_in_call : in_call 0 0 (demo_in 0) demo_caller_proc.
Proof. split; [apply demo_out|done| |done]. cbn. unfold KERNBASE. lia. Qed.

Lemma demo_fd_free d a : fd_is demo_caller_proc d a -> a = 0.
Proof.
  intros [_ H]. apply list_elem_of_lookup_2, list_elem_of_In in H.
  by apply (repeat_spec NOFILE 0).
Qed.

Lemma demo_counted : counted (demo_in 0) demo_ft.
Proof.
  assert (forallb (fun f => refs f (demo_in 0) =? 0) (seqZ 0 100) = true) as H by (vm_compute; reflexivity).
  assert (forallb (fun pr => forallb (fun a => a =? 0) (ofile pr)) (pt_proc (demo_in 0)) = true) as H2
    by (vm_compute; reflexivity).
  rewrite forallb_forall in H, H2. split.
  - intros f Hf. assert (In f (seqZ 0 100)) as Hin.
    { apply list_elem_of_In, elem_of_seqZ. unfold fslot, NFILE in Hf. lia. }
    specialize (H f Hin). by apply Z.eqb_eq in H.
  - intros q pr fd a Hq [_ Ha]. left.
    apply list_elem_of_lookup_2, list_elem_of_In in Hq. specialize (H2 pr Hq). rewrite forallb_forall in H2.
    apply list_elem_of_lookup_2, list_elem_of_In in Ha. specialize (H2 a Ha). by apply Z.eqb_eq in H2.
Qed.

Lemma demo_first_free (d : Z) : 0 <= d < 16 -> forall lo, lo = d -> first_free demo_caller_proc lo d.
Proof.
  intros Hd lo ->. split; [unfold NOFILE; lia|]. split; [|lia]. split; [lia|].
  destruct (lookup_lt_is_Some_2 (ofile demo_caller_proc) (Z.to_nat d)) as [v Hv]; [cbn; lia|].
  rewrite Hv. f_equal. apply (demo_fd_free d). split; [lia|done].
Qed.

Lemma fdalloc_spec_witness : exists r s', fdalloc 5 (demo_in 0) = Ok (r, s') /\ r <> -1.
Proof.
  destruct (fdalloc_spec 0 0 (demo_in 0) demo_caller_proc 5 demo_in_call) as (r & s' & H & [H1|H1]).
  - exists r, s'. split; [exact H|]. destruct H1. lia.
  - exfalso. destruct H1 as (_ & H1 & _). apply (H1 0); [unfold NOFILE; lia|]. split; [lia|reflexivity].
Defined.

Lemma demo_counted_files : exists f g, fslot f /\ fslot g /\ f <> g /\
  f_ref (ft_file demo_ft f) = 0 /\ f_ref (ft_file demo_ft g) = 0.
Proof. exists 0, 1. split; [done|]. split; [done|]. done. Qed.

Lemma sys_dup_spec_witness : exists r s' x', sys_dup demo_mem (demo_in 0) demo_ft = Ok (r, s', x') /\ counted s' x'.
Proof.
  destruct (sys_dup_spec demo_mem 0 0 (demo_in 0) demo_ft demo_caller_proc demo_in_call demo_counted eq_refl)
    as (r & s' & x' & H1 & H2 & _).
  exists r, s', x'. split; [exact H1|exact H2].
Defined.

(** The pointer argument of the example is 0. *)
Definition demo_arg : res (option Z * kst) := arg_ptr demo_mem 0 8 (demo_in 0).

Lemma sys_pipe_spec_witness : exists f0 f1 um' s' x',
  sys_pipe demo_resume demo_resume 1 0 (fun i => i) demo_mem (demo_in 0) demo_ft = Ok (0, um', s', x') /\
  load32 um' 0 = 0 /\ load32 um' 4 = 1 /\ pipe_end (ft_file x' f0) demo_page1 false /\
  pipe_end (ft_file x' f1) demo_page1 true.
Proof.
  destruct (sys_pipe_spec demo_kend demo_mem demo_resume demo_resume 1 0 (fun i => i) 0 0 (demo_in 0) demo_ft
    demo_caller_proc demo_page1 [demo_page2] 0
    (match arg_ptr demo_mem 0 8 (demo_in 0) with Ok (_, s) => s | _ => demo_in 0 end) 0 1)
    as (f0 & f1 & um' & s' & x' & H1 & H2 & H3 & _ & H4 & H5 & _).
  - apply demo_in_call.
  - apply demo_counted.
  - reflexivity.
  - apply demo_kmem_inv.
  - reflexivity.
  - apply demo_counted_files.
  - reflexivity.
  - apply demo_first_free; [lia|reflexivity].
  - apply demo_first_free; [lia|reflexivity].
  - exists f0, f1, um', s', x'. split; [exact H1|]. split; [exact H2|]. split; [exact H3|]. split; [exact H4|exact H5].
Defined.

(** All descriptors in use. *)
Definition demo_full_proc : proc := set_ofile (repeat 1 16) demo_caller_proc.
Definition demo_full_kst : kst := putp 0 demo_full_proc (demo_in 0).

Lemma demo_full_call : in_call 0 0 demo_full_kst demo_full_proc.
Proof. split; [apply demo_out|done| |done]. cbn. unfold KERNBASE. lia. Qed.

Lemma sys_pipe_undone_witness : exists s' x',
  sys_pipe demo_resume demo_resume 1 0 (fun i => i) demo_mem demo_full_kst demo_ft = Ok (-1, demo_mem, s', x') /\
  kmem_inv kernel_end (ph s') [demo_page1; demo_page2].
Proof.
  destruct (sys_pipe_undone demo_kend demo_mem demo_resume demo_resume 1 0 (fun i => i) 0 0 demo_full_kst demo_ft
    demo_full_proc demo_page1 [demo_page2] 0
    (match arg_ptr demo_mem 0 8 demo_full_kst with Ok (_, s) => s | _ => demo_in 0 end))
    as (s' & x' & H1 & _ & _ & H2).
  - apply demo_full_call.
  - reflexivity.
  - reflexivity.
  - apply demo_kmem_inv.
  - reflexivity.
  - apply demo_counted_files.
  - reflexivity.
  - intros d d' _ [_ H]. exfalso. apply list_elem_of_lookup_2, list_elem_of_In in H.
    apply (repeat_spec 16 1) in H. discriminate H.
  - exists s', x'. split; [exact H1|exact H2].
Defined.

Definition demo_dirft : ftx := set_ft_fs demo_dirfs demo_ft.

Lemma isdirempty_spec_witness : exists b x',
  isdirempty (fun _ => None) 0 (demo_in 0) demo_dirft = Ok (b, demo_in 0, x') /\ b = false.
Proof.
  destruct (isdirempty_spec (fun _ => None) 0 3 (demo_in 0) demo_dirft demo_dir_ok) as (b & x' & H1 & _ & H2).
  exists b, x'. split; [exact H1|]. destruct b; [|reflexivity]. exfalso.
  assert (dent_inum demo_dirfs 0 2 = 0) as H by (apply H2; [reflexivity|lia]). vm_compute in H. discriminate H.
Defined.

End SysfileExamples.
