(* ===== verification/Umalloc.v ===== *)
(** The memory allocator of user programs: [umalloc.c].

    A header pointer is its address; [hd] gives the header at each address.  The
    headers in use never overlap, so that a store to one leaves the others alone;
    a program that writes outside of the blocks it was given is not modelled.
    [base_at] is the address of the static header [base], in the data below the
    heap.  [sbrk] asks the kernel for memory: [grow] says whether a new break is
    granted; the call returns the old break, as [sys_sbrk] does. *)

From S2P Require Import Prelude.

Definition sizeof_Header : Z := 8.

(** [union header]. *)
Record header := mkHeader { h_ptr : Z; h_size : Z }.
#[export] Instance header_eta : Eta header := fun x => mkHeader (h_ptr x) (h_size x).
Definition set_h_ptr := ltac:(setter h_ptr).
Definition set_h_size := ltac:(setter h_size).

(** The headers, [freep], and the program's break. *)
Record heap := mkHeap { hd : Z -> header; freep : Z; brk : Z }.
#[export] Instance heap_eta : Eta heap := fun x => mkHeap (hd x) (freep x) (brk x).
Definition set_hd := ltac:(setter hd).
Definition set_freep := ltac:(setter freep).
Definition set_brk := ltac:(setter brk).

Definition upd_h (a : Z) (g : header -> header) (h : heap) : heap :=
  set_hd (fun x => if x =? a then g (hd h a) else hd h x) h.

Module Umalloc.
Section Umalloc.
Context (base_at : Z) (grow : Z -> bool).
Implicit Types (h : heap) (p bp : Z).

(** [p + n] on header pointers. *)
Definition hplus (p n : Z) : Z := u32 (p + sizeof_Header * n).

(** The loop of [free]. *)
Fixpoint find_pos (fuel : nat) p bp h : res Z :=
  match fuel with
  | O => OutOfFuel
  | S n =>
      let q := h_ptr (hd h p) in
      if (p <? bp) && (bp <? q) then Ok p
      else if (q <=? p) && ((p <? bp) || (bp <? q)) then Ok p
      else find_pos n q bp h
  end.

Definition free (fuel : nat) (ap : Z) h : res heap :=
  let bp := ap - sizeof_Header in
  let? p := find_pos fuel (freep h) bp h in
  let q := h_ptr (hd h p) in
  let h :=
    (if hplus bp (h_size (hd h bp)) =? q then
       let h := upd_h bp (fun x => set_h_size (u32 (h_size x + h_size (hd h q))) x) h in
       upd_h bp (set_h_ptr (h_ptr (hd h q))) h
     else upd_h bp (set_h_ptr q) h) in
  let h :=
    (if hplus p (h_size (hd h p)) =? bp then
       let h := upd_h p (fun x => set_h_size (u32 (h_size x + h_size (hd h bp))) x) h in
       upd_h p (set_h_ptr (h_ptr (hd h bp))) h
     else upd_h p (set_h_ptr bp) h) in
  Ok (set_freep p h).

(** [sbrk(n)]: -1 when the kernel refuses. *)
Definition sbrk (n : Z) h : Z * heap :=
  if grow (u32 (brk h + n)) then (brk h, set_brk (u32 (brk h + n)) h) else (-1, h).

(** 0 when there is no memory. *)
Definition morecore (fuel : nat) (nu : Z) h : res (Z * heap) :=
  let nu := if nu <? 4096 then 4096 else nu in
  let (p, h) := sbrk (s32 (nu * sizeof_Header)) h in
  if p =? -1 then Ok (0, h)
  else
    let h := upd_h p (set_h_size nu) h in
    let? h := free fuel (p + sizeof_Header) h in
    Ok (freep h, h).

(** Block [p], behind [prevp], is big enough: the address to return. *)
Definition carve (nunits prevp p : Z) h : Z * heap :=
  if h_size (hd h p) =? nunits then
    let h := upd_h prevp (set_h_ptr (h_ptr (hd h p))) h in
    (p + sizeof_Header, set_freep prevp h)
  else
    let h := upd_h p (fun x => set_h_size (u32 (h_size x - nunits)) x) h in
    let p := hplus p (h_size (hd h p)) in
    let h := upd_h p (set_h_size nunits) h in
    (p + sizeof_Header, set_freep prevp h).

(** The loop of [malloc]. *)
Fixpoint malloc_loop (fuel : nat) (nunits prevp p : Z) h : res (Z * heap) :=
  match fuel with
  | O => OutOfFuel
  | S n =>
      if nunits <=? h_size (hd h p) then Ok (carve nunits prevp p h)
      else if p =? freep h then
        let? (p, h) := morecore n nunits h in
        if p =? 0 then Ok (0, h) else malloc_loop n nunits p (h_ptr (hd h p)) h
      else malloc_loop n nunits p (h_ptr (hd h p)) h
  end.

(** [(nbytes + sizeof(Header) - 1)/sizeof(Header) + 1], in unsigned arithmetic. *)
Definition units (nbytes : Z) : Z := u32 (u32 (nbytes + sizeof_Header - 1) / sizeof_Header + 1).

Definition malloc (fuel : nat) (nbytes : Z) h : res (Z * heap) :=
  let nunits := units nbytes in
  let (prevp, h) :=
    (if freep h =? 0 then
       (base_at, upd_h base_at (set_h_size 0) (upd_h base_at (set_h_ptr base_at) (set_freep base_at h)))
     else (freep h, h)) in
  malloc_loop fuel nunits prevp (h_ptr (hd h prevp)) h.

End Umalloc.
End Umalloc.

(** * Facts on the free list *)

Section Chains.
Implicit Types (f g : Z -> header) (l : list Z) (a b c e : Z).

(** Following the pointers from [a], the headers before [e] are [l]. *)
Fixpoint lseg f a l e : Prop :=
  match l with
  | [] => h_ptr (f a) = e
  | c :: l' => h_ptr (f a) = c /\ lseg f c l' e
  end.

Lemma lseg_app f a l1 c l2 e : lseg f a (l1 ++ c :: l2) e <-> lseg f a l1 c /\ lseg f c l2 e.
Proof. revert a. induction l1 as [|d l1 IH]; intros a; cbn [app lseg]; [tauto|]. rewrite IH. tauto. Qed.

Lemma lseg_agree f g a l e : (forall y, y ∈ a :: l -> h_ptr (g y) = h_ptr (f y)) -> lseg f a l e -> lseg g a l e.
Proof.
  revert a. induction l as [|c l IH]; intros a H; cbn [lseg]; [by rewrite H by left|].
  intros [H1 H2]. rewrite H by left. split; [done|]. apply IH; [|done]. intros y Hy. apply H. by right.
Qed.

(** The header after [k] steps. *)
Fixpoint nxt f (k : nat) a : Z := match k with O => a | S n => nxt f n (h_ptr (f a)) end.

Lemma nxt_add f j k a : nxt f (j + k) a = nxt f k (nxt f j a).
Proof. revert a. induction j as [|j IH]; intros a; cbn; [done|]. apply IH. Qed.

Lemma lseg_nxt f a l e : lseg f a l e -> nxt f (S (length l)) a = e /\
  forall k, (k <= length l)%nat -> (a :: l) !! k = Some (nxt f k a).
Proof.
  revert a. induction l as [|c l IH]; intros a; cbn [lseg].
  - intros <-. split; [done|]. intros k Hk. cbn in Hk. by replace k with 0%nat by lia.
  - intros [<- Hs]. destruct (IH _ Hs) as [H1 H2]. split; [done|]. intros [|k] Hk; [done|].
    change ((h_ptr (f a) :: l) !! k = Some (nxt f k (h_ptr (f a)))). apply H2. cbn in Hk. lia.
Qed.

(** In a circle, every header is reached from every other. *)
Lemma circle_reach f b l x y : lseg f b l b -> x ∈ b :: l -> y ∈ b :: l ->
  exists k, (k <= S (2 * length l))%nat /\ nxt f k x = y.
Proof.
  intros Hs Hx Hy. destruct (lseg_nxt _ _ _ _ Hs) as [Hc Hn].
  apply list_elem_of_lookup in Hx as [i Hi]. apply list_elem_of_lookup in Hy as [j Hj].
  pose proof (lookup_lt_Some _ _ _ Hi) as Hli. pose proof (lookup_lt_Some _ _ _ Hj) as Hlj. cbn in Hli, Hlj.
  rewrite Hn in Hi, Hj by lia. injection Hi as <-. injection Hj as <-.
  exists (S (length l) - i + j)%nat. split; [lia|]. rewrite <- nxt_add.
  replace (i + (S (length l) - i + j))%nat with (S (length l) + j)%nat by lia. by rewrite nxt_add, Hc.
Qed.

Lemma circle_next f b l x : lseg f b l b -> x ∈ b :: l -> h_ptr (f x) ∈ b :: l.
Proof.
  intros Hs Hx. destruct (lseg_nxt _ _ _ _ Hs) as [Hc Hn].
  apply list_elem_of_lookup in Hx as [i Hi]. pose proof (lookup_lt_Some _ _ _ Hi) as Hli. cbn in Hli.
  rewrite Hn in Hi by lia. injection Hi as <-.
  assert (h_ptr (f (nxt f i b)) = nxt f (S i) b) as E.
  { replace (S i) with (i + 1)%nat by lia. by rewrite nxt_add. }
  rewrite E. destruct (decide (S i <= length l)%nat) as [H|H].
  - apply (list_elem_of_lookup_2 _ (S i)). by apply Hn.
  - replace (S i) with (S (length l)) by lia. rewrite Hc. left.
Qed.

Lemma nxt_S f k a : nxt f (S k) a = h_ptr (f (nxt f k a)).
Proof. replace (S k) with (k + 1)%nat by lia. by rewrite nxt_add. Qed.

Lemma circle_nxt f b l k x : lseg f b l b -> x ∈ b :: l -> nxt f k x ∈ b :: l.
Proof. intros Hs Hx. induction k as [|k IH]; [done|]. rewrite nxt_S. by apply circle_next. Qed.

End Chains.

(** * Blocks *)

(** A block is its header's address and its size in units. *)
Abbreviation blk := (Z * Z)%type.
Definition bend (b : blk) : Z := b.1 + sizeof_Header * b.2.
Definition disj (b b' : blk) : Prop := bend b <= b'.1 \/ bend b' <= b.1.

(** Ascending blocks above [lo], with a gap before each: no two are adjacent. *)
Fixpoint spaced (lo : Z) (l : list blk) : Prop :=
  match l with [] => True | b :: l' => lo < b.1 /\ 0 < b.2 /\ spaced (bend b) l' end.

(** No two blocks overlap. *)
Fixpoint apart (l : list blk) : Prop :=
  match l with [] => True | b :: l' => Forall (disj b) l' /\ apart l' end.

(** The last header before the place behind [l1], and the first one of [l2], on
    a circle through [base]. *)
Definition p_of (base : Z) (l1 : list blk) : Z := match last l1 with Some b => b.1 | None => base end.
Definition q_of (base : Z) (l2 : list blk) : Z := match l2 with b :: _ => b.1 | [] => base end.
Definition end_of (lo : Z) (l1 : list blk) : Z := match last l1 with Some b => bend b | None => lo end.

Section Blocks.
Implicit Types (l : list blk) (b : blk) (base lo x : Z) (f g : Z -> header).

Lemma spaced_app lo l1 l2 : spaced lo (l1 ++ l2) <-> spaced lo l1 /\ spaced (end_of lo l1) l2.
Proof.
  revert lo. induction l1 as [|b l1 IH]; intros lo; cbn [app spaced]; [unfold end_of; cbn; tauto|].
  rewrite IH. assert (end_of (bend b) l1 = end_of lo (b :: l1)) as ->; [|tauto].
  unfold end_of. rewrite last_cons. by destruct (last l1).
Qed.

Lemma spaced_in lo l b : spaced lo l -> b ∈ l -> lo < b.1 /\ 0 < b.2.
Proof.
  revert lo. induction l as [|c l IH]; intros lo; cbn [spaced]; [by intros _ ?%elem_of_nil|].
  intros (H1 & H2 & H3) [->|Hb]%elem_of_cons; [done|]. destruct (IH _ H3 Hb) as [H4 H5].
  unfold bend, sizeof_Header in H4. lia.
Qed.

Lemma spaced_weaken lo lo' l : lo' <= lo -> spaced lo l -> spaced lo' l.
Proof. destruct l as [|b l]; [done|]. cbn. intros H (H1 & H2 & H3). split_and!; [lia|done|done]. Qed.

Lemma p_of_snoc base l b : p_of base (l ++ [b]) = b.1.
Proof. unfold p_of. by rewrite last_snoc. Qed.

Lemma end_of_snoc lo l b : end_of lo (l ++ [b]) = bend b.
Proof. unfold end_of. by rewrite last_snoc. Qed.

(** The blocks of [l1] end at or before [end_of], which is above their headers. *)
Lemma spaced_end lo l b : spaced lo l -> b ∈ l -> b.1 <= p_of lo l /\ bend b <= end_of lo l.
Proof.
  induction l as [|c l IH] using rev_ind; [by intros _ ?%elem_of_nil|].
  rewrite spaced_app, p_of_snoc, end_of_snoc. intros [H1 (H2 & H3 & _)] Hb.
  apply elem_of_app in Hb as [Hb|Hb%list_elem_of_singleton]; [|by subst].
  destruct (IH H1 Hb) as [H4 H5]. destruct (spaced_in _ _ _ H1 Hb) as [_ H6].
  unfold bend, sizeof_Header in *. lia.
Qed.

Lemma split_at base l x : x ∈ base :: map fst l -> exists l1 l2, l = l1 ++ l2 /\ x = p_of base l1.
Proof.
  intros [->|Hx]%elem_of_cons; [by exists [], l|].
  apply list_elem_of_fmap in Hx as (b & -> & Hb). apply list_elem_of_split in Hb as (l1 & l2 & ->).
  exists (l1 ++ [b]), l2. rewrite <- app_assoc, p_of_snoc. done.
Qed.

Lemma p_of_in base l1 l2 : p_of base l1 ∈ base :: map fst (l1 ++ l2).
Proof.
  destruct l1 as [|b l1 _] using rev_ind; [left|]. rewrite p_of_snoc, <- app_assoc. right.
  apply (list_elem_of_fmap_2 fst). apply elem_of_app. right. left.
Qed.

Lemma lseg_at f base e l1 l2 :
  lseg f base (map fst (l1 ++ l2)) e -> h_ptr (f (p_of base l1)) = match l2 with b :: _ => b.1 | [] => e end.
Proof.
  destruct l1 as [|b l1 _] using rev_ind.
  - destruct l2; cbn; tauto.
  - rewrite p_of_snoc, <- app_assoc, map_app. cbn [map app]. rewrite lseg_app. intros [_ H]. by destruct l2; cbn in H; [|destruct H].
Qed.

(** The predecessor of [x] among ascending blocks. *)
Lemma spaced_split lo l x :
  spaced lo l -> lo < x -> x ∉ map fst l -> exists l1 l2, l = l1 ++ l2 /\ p_of lo l1 < x /\ Forall (fun b => x < b.1) l2.
Proof.
  revert lo. induction l as [|b l IH]; intros lo Hs Hx Hn; [by exists [], []|]. cbn [spaced] in Hs.
  destruct Hs as (H1 & H2 & H3). cbn in Hn. apply not_elem_of_cons in Hn as [Hne Hn].
  destruct (decide (x < b.1)) as [Hlt|Hge].
  - exists [], (b :: l). split; [done|]. split; [done|]. constructor; [done|]. apply Forall_forall. intros c Hc.
    destruct (spaced_in _ _ _ H3 Hc). unfold bend, sizeof_Header in *. lia.
  - destruct (IH b.1) as (l1 & l2 & -> & Hp & Hf); [|lia|done|].
    { apply (spaced_weaken (bend b)); [|done]. unfold bend, sizeof_Header. lia. }
    exists (b :: l1), l2. split; [done|]. split; [|done]. unfold p_of in *. rewrite last_cons.
    by destruct (last l1).
Qed.

End Blocks.

(** * The invariant *)

Section Heap.
Import Umalloc.
Context (base : Z).
Implicit Types (h : heap) (l free alloc : list blk) (b : blk) (p bp x : Z).

(** The free blocks are [free], in a circle that starts and ends at [base]; the
    blocks handed out are [alloc]. *)
Record heap_ok h free alloc : Prop := {
  ho_ring : lseg (hd h) base (map fst free) base;
  ho_spaced : spaced base free;
  ho_freep : freep h ∈ base :: map fst free;
  ho_base : 0 < base /\ h_size (hd h base) = 0;
  ho_size : Forall (fun b => h_size (hd h b.1) = b.2 /\ bend b <= brk h) (free ++ alloc);
  ho_alloc : Forall (fun b => base < b.1 /\ 0 < b.2) alloc;
  ho_disj : Forall (fun b => Forall (disj b) free) alloc;
  ho_apart : apart alloc;
  ho_brk : base < brk h < 2 ^ 31
}.

(** The condition that ends the loop of [free]. *)
Definition stops h p bp : bool :=
  let q := h_ptr (hd h p) in
  ((p <? bp) && (bp <? q)) || ((q <=? p) && ((p <? bp) || (bp <? q))).

Lemma find_pos_steps h bp fuel : forall k p,
  (k < fuel)%nat -> stops h (nxt (hd h) k p) bp = true ->
  exists j, find_pos fuel p bp h = Ok (nxt (hd h) j p) /\ stops h (nxt (hd h) j p) bp = true.
Proof.
  induction fuel as [|n IH]; intros k p Hk Hs; [lia|]. cbn [find_pos].
  destruct ((p <? bp) && (bp <? h_ptr (hd h p))) eqn:E1.
  { exists 0%nat. split; [done|]. cbn. unfold stops. by rewrite E1. }
  destruct ((h_ptr (hd h p) <=? p) && ((p <? bp) || (bp <? h_ptr (hd h p)))) eqn:E2.
  { exists 0%nat. split; [done|]. cbn. unfold stops. by rewrite E1, E2. }
  destruct k as [|k]; [cbn in Hs; unfold stops in Hs; by rewrite E1, E2 in Hs|].
  destruct (IH k (h_ptr (hd h p))) as (j & Hj & Hs'); [lia|done|]. by exists (S j).
Qed.

(** Where it ends: between the blocks below and the blocks above [bp]. *)
Lemma stops_place h free p bp :
  lseg (hd h) base (map fst free) base -> spaced base free -> base < bp -> bp ∉ map fst free ->
  p ∈ base :: map fst free -> stops h p bp = true ->
  exists l1 l2, free = l1 ++ l2 /\ p = p_of base l1 /\ h_ptr (hd h p) = q_of base l2 /\ p < bp /\
    Forall (fun b => bp < b.1) l2.
Proof.
  intros Hr Hs Hb Hn Hp Hst. destruct (split_at _ _ _ Hp) as (l1 & l2 & -> & ->).
  pose proof (lseg_at _ _ _ _ _ Hr) as Hq. exists l1, l2. split; [done|]. split; [done|]. split; [done|].
  apply spaced_app in Hs as [Hs1 Hs2]. unfold stops in Hst. rewrite Hq in Hst.
  assert (p_of base l1 <= end_of base l1) as Hpe.
  { destruct l1 as [|b l1 _] using rev_ind; [unfold p_of, end_of; cbn; lia|]. rewrite p_of_snoc, end_of_snoc.
    destruct (spaced_in _ _ b Hs1) as [_ H]; [apply elem_of_app; right; left|]. unfold bend, sizeof_Header. lia. }
  destruct l2 as [|c l2].
  - split; [|constructor]. rewrite orb_true_iff, !andb_true_iff, orb_true_iff, !Z.ltb_lt, Z.leb_le in Hst. lia.
  - cbn [spaced] in Hs2. destruct Hs2 as (H1 & H2 & H3).
    rewrite orb_true_iff, !andb_true_iff, orb_true_iff, !Z.ltb_lt, Z.leb_le in Hst.
    split; [lia|]. constructor; [lia|]. apply Forall_forall. intros d Hd. destruct (spaced_in _ _ _ H3 Hd).
    unfold bend, sizeof_Header in *. lia.
Qed.

Lemma find_pos_ok h free bp fuel :
  lseg (hd h) base (map fst free) base -> spaced base free -> base < bp -> bp ∉ map fst free ->
  freep h ∈ base :: map fst free -> (S (2 * length free) < fuel)%nat ->
  exists l1 l2, find_pos fuel (freep h) bp h = Ok (p_of base l1) /\ free = l1 ++ l2 /\
    h_ptr (hd h (p_of base l1)) = q_of base l2 /\ p_of base l1 < bp /\ Forall (fun b => bp < b.1) l2.
Proof.
  intros Hr Hs Hb Hn Hf Hfuel.
  destruct (spaced_split _ _ _ Hs Hb Hn) as (l1 & l2 & El & Hp & Hf2).
  assert (p_of base l1 ∈ base :: map fst free) as Hin by (rewrite El; apply p_of_in).
  destruct (circle_reach _ _ _ _ _ Hr Hf Hin) as (k & Hk & Ek). rewrite length_map in Hk.
  destruct (find_pos_steps h bp fuel k (freep h)) as (j & Ej & Hst); [lia|..].
  { rewrite Ek. unfold stops. rewrite El in Hr. rewrite (lseg_at _ _ _ _ _ Hr).
    rewrite orb_true_iff, !andb_true_iff, orb_true_iff, !Z.ltb_lt, Z.leb_le.
    destruct l2 as [|c l2]; [|left; split; [lia|]; by inversion Hf2].
    right. split; [|lia]. destruct l1 as [|b l1 _] using rev_ind; [done|]. rewrite p_of_snoc.
    rewrite app_nil_r in El. subst. destruct (spaced_in _ _ b Hs); [apply elem_of_app; right; left|lia]. }
  destruct (stops_place h free _ bp Hr Hs Hb Hn (circle_nxt _ _ _ j _ Hr Hf) Hst) as (k1 & k2 & Ek2 & Ep & Eq & Hlt & Hfa).
  exists k1, k2. rewrite <- Ep. done.
Qed.

Lemma hd_upd a (g : header -> header) h x :
  hd (upd_h a g h) x = if decide (x = a) then g (hd h a) else hd h x.
Proof. unfold upd_h. cbn. destruct (Z.eqb_spec x a), (decide (x = a)); done. Qed.

Lemma hplus_in h a n : 0 < a -> 0 <= n -> bend (a, n) <= brk h -> brk h < 2 ^ 31 -> hplus a n = bend (a, n).
Proof. intros H0 H1 H2 H3. unfold hplus, bend, sizeof_Header in *. cbn in *. apply u32_small. lia. Qed.

(** A block joined with the free block right behind it. *)
Definition join_up b (l : list blk) : blk * list blk :=
  match l with
  | c :: r => if bend b =? c.1 then ((b.1, b.2 + c.2), r) else (b, l)
  | [] => (b, [])
  end.

(** The first half of [free]: the header of the block, after it is joined
    with its successor. *)
Lemma free_up h l2 b :
  0 < b.1 -> 0 < b.2 -> h_size (hd h b.1) = b.2 -> bend b <= brk h -> brk h < 2 ^ 31 -> base < b.1 ->
  lseg (hd h) (q_of base l2) (map fst (drop 1 l2)) base \/ l2 = [] ->
  spaced base l2 -> Forall (fun c => h_size (hd h c.1) = c.2 /\ bend c <= brk h) l2 ->
  Forall (fun c => b.1 < c.1) l2 -> Forall (disj b) l2 ->
  let q := q_of base l2 in
  let (b', r) := join_up b l2 in
  exists h', (if hplus b.1 (h_size (hd h b.1)) =? q then
       let h := upd_h b.1 (fun y => set_h_size (u32 (h_size y + h_size (hd h q))) y) h in
       upd_h b.1 (set_h_ptr (h_ptr (hd h q))) h
     else upd_h b.1 (set_h_ptr q) h) = h' /\
    hd h' b.1 = mkHeader (q_of base r) b'.2 /\ (forall x, x <> b.1 -> hd h' x = hd h x) /\
    brk h' = brk h /\ b'.1 = b.1 /\ 0 < b'.2 /\ bend b' <= brk h /\ spaced (bend b') r /\
    (exists k, l2 = k ++ r).
Proof.
  intros H0 Hn Hsz Hend Hbrk Hbase Hseg Hsp Hsizes Hgt Hdis q. unfold q.
  rewrite Hsz, (hplus_in h) by (done || lia). destruct b as [a n]. cbn [fst snd] in *.
  destruct l2 as [|c r]; cbn [join_up q_of].
  { rewrite (proj2 (Z.eqb_neq _ _)) by (unfold bend, sizeof_Header in *; cbn in *; lia).
    eexists. split; [done|]. rewrite hd_upd, decide_True by done. cbn [fst snd]. split; [by rewrite <- Hsz|].
    split; [intros x Hx; by rewrite hd_upd, decide_False|]. split_and!; try done. by exists []. }
  apply Forall_cons in Hsizes as [[Hcs Hce] Hsizes]. apply Forall_cons in Hgt as [Hca Hgt].
  apply Forall_cons in Hdis as [Hcd Hdis]. cbn [spaced] in Hsp. destruct Hsp as (_ & Hc2 & Hsp). cbn [fst snd] in *.
  assert (bend (a, n) <= c.1) as Hle by (destruct Hcd; [done|]; unfold bend, sizeof_Header in *; cbn in *; lia).
  destruct (Z.eqb_spec (bend (a, n)) c.1) as [E|E].
  - eexists. split; [done|]. cbv zeta. rewrite !hd_upd, !(decide_True (P := a = a)), (decide_False (P := c.1 = a)) by (done || lia).
    cbn [h_ptr h_size set_h_ptr set_h_size fst snd]. rewrite Hcs, Hsz. destruct Hseg as [Hseg|]; [|done]. change (lseg (hd h) c.1 (map fst r) base) in Hseg.
    change (set_h_ptr ?v (set_h_size ?w _)) with (mkHeader v w). split; [f_equal|].
    + destruct r as [|d r]; cbn in Hseg; [done|by destruct Hseg].
    + apply u32_small. unfold bend, sizeof_Header in *. cbn in *. lia.
    + split; [intros x Hx; by rewrite !hd_upd, !decide_False|].
      assert (bend (a, n + c.2) = bend c) as Eb by (unfold bend, sizeof_Header in *; cbn in *; lia).
      rewrite Eb. split_and!; try done; [lia|by exists [c]].
  - eexists. split; [done|]. rewrite hd_upd, decide_True by done. cbn [fst snd]. split; [by rewrite <- Hsz|].
    split; [intros x Hx; by rewrite hd_upd, decide_False|]. split_and!; try done; [|by exists []].
    cbn [spaced]. split_and!; [lia|done|done].
Qed.

(** Two adjacent blocks as one. *)
Lemma disj_join b a n m : 0 < b.2 -> 0 < n -> 0 < m ->
  disj b (a, n) -> disj b (bend (a, n), m) -> disj b (a, n + m).
Proof. unfold disj, bend, sizeof_Header. cbn. lia. Qed.

Lemma disj_ne b b' : 0 < b.2 -> 0 < b'.2 -> disj b b' -> b.1 <> b'.1.
Proof. unfold disj, bend, sizeof_Header. lia. Qed.

(** A chain whose last header gets another successor. *)
Lemma lseg_last (f g : Z -> header) l1 e e' :
  spaced base l1 -> lseg f base (map fst l1) e ->
  (forall y, y < p_of base l1 -> h_ptr (g y) = h_ptr (f y)) -> h_ptr (g (p_of base l1)) = e' ->
  lseg g base (map fst l1) e'.
Proof.
  destruct l1 as [|c l1 _] using rev_ind; [done|]. rewrite p_of_snoc, map_app. cbn [map].
  rewrite spaced_app, !lseg_app. intros [Hs (Hc & _)] [H1 H2] Ha Hp. split; [|done].
  revert H1. apply lseg_agree. intros y Hy. apply Ha. apply elem_of_cons in Hy as [->|Hy].
  - destruct l1 as [|d l1 _] using rev_ind; [done|]. rewrite end_of_snoc in Hc.
    destruct (spaced_in _ _ d Hs) as [H3 H4]; [apply elem_of_app; right; left|]. unfold bend, sizeof_Header in Hc. lia.
  - apply list_elem_of_fmap in Hy as (d & -> & Hd). destruct (spaced_end _ _ _ Hs Hd) as [_ H3].
    destruct (spaced_in _ _ _ Hs Hd). unfold bend, sizeof_Header in *. lia.
Qed.

(** The rest of a circle, entered from another header [x]. *)
Lemma lseg_enter (f g : Z -> header) l1 k r x :
  lseg f base (map fst (l1 ++ k ++ r)) base -> h_ptr (g x) = q_of base r ->
  (forall c, c ∈ r -> h_ptr (g c.1) = h_ptr (f c.1)) -> lseg g x (map fst r) base.
Proof.
  intros Hs Hx Ha. destruct r as [|d r]; [done|]. cbn [map lseg]. split; [done|].
  rewrite app_assoc, map_app in Hs. cbn [map] in Hs. apply lseg_app in Hs as [_ Hs]. revert Hs. apply lseg_agree.
  intros y Hy. change (d.1 :: map fst r) with (map fst (d :: r)) in Hy.
  apply list_elem_of_fmap in Hy as (c & -> & Hc). by apply Ha.
Qed.

(** What the second half of [free] is given: the circle [l1 ++ l2] of [h], and
    in [h1] the header of [b], joined with its successor to [b'], before [r]. *)
Record half h h1 l1 l2 b b' r : Prop := {
  hf_ring : lseg (hd h) base (map fst (l1 ++ l2)) base;
  hf_sp1 : spaced base l1;
  hf_sizes : Forall (fun c => h_size (hd h c.1) = c.2 /\ bend c <= brk h) (l1 ++ l2);
  hf_base : 0 < base /\ h_size (hd h base) = 0 /\ base < b.1;
  hf_brk : brk h < 2 ^ 31 /\ brk h1 = brk h;
  hf_p : p_of base l1 < b.1;
  hf_end : end_of base l1 <= b.1;
  hf_b : hd h1 b.1 = mkHeader (q_of base r) b'.2;
  hf_oth y : y <> b.1 -> hd h1 y = hd h y;
  hf_b' : b'.1 = b.1 /\ 0 < b'.2 /\ bend b' <= brk h;
  hf_sp2 : spaced (bend b') r;
  hf_suf : exists k, l2 = k ++ r;
  hf_gt : Forall (fun c => b.1 < c.1) l2
}.

(** The circle after the second half is [L], and only the headers of [b] and
    of its predecessor changed. *)
Record relinked h h' l1 b (L : list blk) : Prop := {
  rl_brk : brk h' = brk h;
  rl_ring : lseg (hd h') base (map fst L) base;
  rl_spaced : spaced base L;
  rl_p : p_of base l1 ∈ base :: map fst L;
  rl_sizes : Forall (fun c => h_size (hd h' c.1) = c.2 /\ bend c <= brk h) L;
  rl_base : h_size (hd h' base) = 0;
  rl_oth y : y <> b.1 -> y <> p_of base l1 -> hd h' y = hd h y
}.

Lemma half_suffix h h1 l1 l2 b b' r c :
  half h h1 l1 l2 b b' r -> c ∈ r -> b.1 < c.1 /\ h_size (hd h c.1) = c.2 /\ bend c <= brk h.
Proof.
  intros H Hc. destruct (hf_suf _ _ _ _ _ _ _ H) as [k Ek].
  assert (c ∈ l2) as Hin by (rewrite Ek; apply elem_of_app; by right).
  pose proof (hf_gt _ _ _ _ _ _ _ H) as Hg. rewrite Forall_forall in Hg.
  pose proof (hf_sizes _ _ _ _ _ _ _ H) as Hs. rewrite Forall_forall in Hs.
  split; [by apply Hg|]. apply Hs, elem_of_app. by right.
Qed.

(** Not adjacent to its predecessor: [b] goes in between. *)
Lemma free_apart h h1 l1 l2 b b' r :
  half h h1 l1 l2 b b' r -> end_of base l1 < b.1 ->
  relinked h (upd_h (p_of base l1) (set_h_ptr b.1) h1) l1 b (l1 ++ b' :: r).
Proof.
  intros H Hlt. pose proof (fun c => half_suffix _ _ _ _ _ _ _ c H) as Hsuf.
  pose proof H as [Hring Hs1 Hsz (H0 & Hb0 & Hbb) [Hbr Hbr1] Hp _ Hb Hoth (Eb & Hn & Hend) Hs2 (k & ->) Hgt].
  set (p := p_of base l1) in *. set (h' := upd_h p (set_h_ptr b.1) h1).
  assert (hd h' p = set_h_ptr b.1 (hd h p)) as Ep.
  { unfold h'. rewrite hd_upd, decide_True, Hoth by (done || lia). done. }
  assert (forall y, y <> p -> hd h' y = hd h1 y) as Hne by (intros y Hy; unfold h'; by rewrite hd_upd, decide_False).
  assert (hd h' b.1 = mkHeader (q_of base r) b'.2) as Ehb by (rewrite Hne by lia; done).
  assert (forall y, y <> p -> y <> b.1 -> hd h' y = hd h y) as Hold by (intros y H1 H2; rewrite Hne; auto).
  split.
  - done.
  - rewrite map_app. cbn [map]. rewrite Eb. apply lseg_app. split.
    + rewrite map_app in Hring. destruct (map fst (k ++ r)) as [|q qs]; [rewrite app_nil_r in Hring|apply lseg_app in Hring as [Hring _]].
      all: apply (lseg_last (hd h) _ _ _ _ Hs1 Hring); [|fold p; by rewrite Ep].
      all: intros y Hy; fold p in Hy; rewrite Hold; [done|lia|lia].
    + apply (lseg_enter (hd h) _ l1 k r); [done|by rewrite Ehb|]. intros c Hc. destruct (Hsuf c Hc) as [? _].
      rewrite Hold; [done|lia|lia].
  - apply spaced_app. split; [done|]. cbn [spaced]. rewrite Eb. done.
  - apply p_of_in.
  - apply Forall_forall. intros c [Hc|[->|Hc]%elem_of_cons]%elem_of_app.
    + rewrite Forall_forall in Hsz. destruct (Hsz c) as [H1 H2]; [apply elem_of_app; by left|]. split; [|done].
      destruct (spaced_end _ _ _ Hs1 Hc) as [H3 _]. fold p in H3.
      destruct (decide (c.1 = p)) as [E|E]; [rewrite E, Ep; cbn; by rewrite <- E|]. rewrite Hold; [done|done|lia].
    + rewrite Eb, Ehb. done.
    + destruct (Hsuf c Hc) as (H1 & H2 & H3). rewrite Hold; [done|lia|lia].
  - destruct (decide (base = p)) as [E|E]; [rewrite E, Ep; cbn; by rewrite <- E|]. rewrite Hold; [done|done|lia].
  - intros y Hy1 Hy2. by apply Hold.
Qed.

(** Adjacent to its predecessor [c]: the two become one block. *)
Lemma free_join h h1 l1 c l2 b b' r :
  half h h1 (l1 ++ [c]) l2 b b' r -> bend c = b.1 ->
  let h2 := upd_h c.1 (fun y => set_h_size (u32 (h_size y + h_size (hd h1 b.1))) y) h1 in
  relinked h (upd_h c.1 (set_h_ptr (h_ptr (hd h2 b.1))) h2) (l1 ++ [c]) b (l1 ++ (c.1, c.2 + b'.2) :: r).
Proof.
  intros H Hadj h2. pose proof (fun d => half_suffix _ _ _ _ _ _ _ d H) as Hsuf.
  pose proof H as [Hring Hs1 Hsz (H0 & Hb0 & Hbb) [Hbr Hbr1] Hp _ Hb Hoth (Eb & Hn & Hend) Hs2 (k & ->) Hgt].
  rewrite p_of_snoc in Hp. rewrite <- app_assoc in Hring, Hsz. cbn [app] in Hring, Hsz.
  apply spaced_app in Hs1 as [Hs1 (Hc1 & Hc2 & _)].
  apply Forall_app in Hsz as [Hsz1 [[Hcs Hce] _]%Forall_cons].
  set (h' := upd_h c.1 (set_h_ptr (h_ptr (hd h2 b.1))) h2).
  assert (bend (c.1, c.2 + b'.2) = bend b') as Ebend by (unfold bend, sizeof_Header in *; cbn in *; lia).
  assert (forall d, d ∈ l1 -> d.1 < c.1) as Hl1.
  { intros d Hd. destruct (spaced_end _ _ _ Hs1 Hd) as [_ ?]. destruct (spaced_in _ _ _ Hs1 Hd).
    unfold bend, sizeof_Header in *. lia. }
  assert (base < c.1) as Hbc.
  { destruct l1 as [|d l1 _] using rev_ind; [done|]. destruct (spaced_in _ _ d Hs1); [apply elem_of_app; right; left|].
    specialize (Hl1 d). assert (d ∈ l1 ++ [d]) by (apply elem_of_app; right; left). specialize (Hl1 ltac:(done)). lia. }
  assert (hd h' c.1 = mkHeader (q_of base r) (c.2 + b'.2)) as Ec.
  { unfold h', h2. rewrite !hd_upd, !(decide_True (P := c.1 = c.1)), (decide_False (P := b.1 = c.1)) by (done || lia).
    rewrite Hb, (Hoth c.1) by lia. cbn [h_ptr h_size]. rewrite Hcs, u32_small; [done|].
    unfold bend, sizeof_Header in *. cbn in *. lia. }
  assert (forall y, y <> c.1 -> y <> b.1 -> hd h' y = hd h y) as Hold.
  { intros y H1 H2. unfold h', h2. rewrite !hd_upd, !(decide_False (P := y = c.1)) by done. by apply Hoth. }
  split.
  - done.
  - rewrite map_app in *. cbn [map fst] in *. pose proof Hring as Hring2.
    apply lseg_app in Hring as [Hra Hrb]. apply lseg_app. split.
    + revert Hra. apply lseg_agree. intros y [->|Hy]%elem_of_cons; [rewrite Hold; [done|lia|lia]|].
      apply list_elem_of_fmap in Hy as (d & -> & Hd). specialize (Hl1 d Hd). rewrite Hold; [done|lia|lia].
    + apply (lseg_enter (hd h) _ (l1 ++ [c]) k r); [|by rewrite Ec|].
      * by rewrite <- app_assoc, map_app.
      * intros d Hd. destruct (Hsuf d Hd) as [? _]. rewrite Hold; [done|lia|lia].
  - apply spaced_app. split; [done|]. cbn [spaced fst snd]. rewrite Ebend. split_and!; [done|lia|done].
  - rewrite p_of_snoc. right. apply (list_elem_of_fmap_2 fst _ (c.1, c.2 + b'.2)). apply elem_of_app. right. left.
  - apply Forall_forall. intros d [Hd|[->|Hd]%elem_of_cons]%elem_of_app.
    + rewrite Forall_forall in Hsz1. destruct (Hsz1 d Hd) as [H1 H2]. specialize (Hl1 d Hd). rewrite Hold; [done|lia|lia].
    + cbn [fst snd]. by rewrite Ec, Ebend.
    + destruct (Hsuf d Hd) as (H1 & H2 & H3). rewrite Hold; [done|lia|lia].
  - rewrite Hold; [done|lia|lia].
  - rewrite p_of_snoc. intros y Hy1 Hy2. by apply Hold.
Qed.

(** An address inside one of the blocks. *)
Definition in_blocks x l : Prop := exists c, (c ∈ l) /\ c.1 <= x < bend c.

Lemma in_blocks_app x l1 l2 : in_blocks x (l1 ++ l2) <-> in_blocks x l1 \/ in_blocks x l2.
Proof.
  unfold in_blocks. split.
  - intros (c & [Hc|Hc]%elem_of_app & H); [left|right]; by exists c.
  - intros [(c & Hc & H)|(c & Hc & H)]; exists c; rewrite elem_of_app; tauto.
Qed.

Lemma in_blocks_cons x c l : in_blocks x (c :: l) <-> c.1 <= x < bend c \/ in_blocks x l.
Proof.
  unfold in_blocks. split.
  - intros (d & [->|Hd]%elem_of_cons & H); [by left|right; by exists d].
  - intros [H|(d & Hd & H)]; [exists c|exists d]; rewrite elem_of_cons; tauto.
Qed.

Lemma relinked_ok h h' l1 l2 b L alloc :
  heap_ok h (l1 ++ l2) (b :: alloc) -> relinked h h' l1 b L -> Forall (fun a => Forall (disj a) L) alloc ->
  heap_ok (set_freep (p_of base l1) h') L alloc.
Proof.
  intros [Hring Hspc Hfp [H0 Hb0] Hsize Hal Hdis Hap Hbr] [R1 R2 R3 R4 R5 R6 R7] Hd.
  apply Forall_cons in Hal as [[Hb1 Hb2] Hal]. cbn [apart] in Hap. destruct Hap as [Hbd Hap].
  apply Forall_cons in Hdis as [_ Hdis].
  split; try done; [|cbn; by rewrite R1].
  apply Forall_app. cbn [hd brk set_freep]. rewrite R1. split; [done|].
  apply Forall_app in Hsize as [_ Hsize]. apply Forall_cons in Hsize as [_ Hsize].
  rewrite !Forall_forall in *. intros a Ha. destruct (Hal a Ha) as [Ha1 Ha2].
  rewrite R7; [by apply Hsize|..].
  - apply not_eq_sym, disj_ne; auto.
  - destruct l1 as [|c l1 _] using rev_ind; [unfold p_of; cbn; lia|]. rewrite p_of_snoc.
    specialize (Hdis a Ha). rewrite Forall_forall in Hdis.
    assert (c ∈ (l1 ++ [c]) ++ l2) as Hc by (rewrite !elem_of_app; left; right; left).
    apply disj_ne; [done| |by apply Hdis]. by destruct (spaced_in _ _ _ Hspc Hc).
Qed.

Lemma disj_sym b b' : disj b b' -> disj b' b.
Proof. unfold disj. tauto. Qed.

(** The joined block covers [b] and what it was joined with. *)
Lemma join_up_spec b l2 b' r :
  join_up b l2 = (b', r) -> 0 < b.2 -> Forall (fun c => 0 < c.2) l2 ->
  (forall x, in_blocks x (b' :: r) <-> b.1 <= x < bend b \/ in_blocks x l2) /\ bend b <= bend b' /\
  (forall a, 0 < a.2 -> disj a b -> Forall (disj a) l2 -> Forall (disj a) (b' :: r)).
Proof.
  intros Hj Hn Hl2. destruct l2 as [|c l2]; cbn [join_up] in Hj.
  { injection Hj as <- <-. split; [|split; [done|by constructor]]. intros x. by rewrite in_blocks_cons. }
  apply Forall_cons in Hl2 as [Hc _]. destruct (Z.eqb_spec (bend b) c.1) as [E|E]; injection Hj as <- <-.
  - assert (bend (b.1, b.2 + c.2) = bend c) as Eb by (unfold bend, sizeof_Header in *; cbn in *; lia).
    split; [|split].
    + intros x. rewrite !in_blocks_cons, Eb. cbn [fst]. split.
      * intros [H|H]; [|by right; right]. destruct (decide (x < bend b)); [left|right; left]; lia.
      * intros [H|[H|H]]; [left|left|by right]; unfold bend, sizeof_Header in *; cbn in *; lia.
    + rewrite Eb. unfold bend, sizeof_Header in *. lia.
    + intros a Ha H1 [H2 H3]%Forall_cons. constructor; [|done]. destruct b as [ba bn], c as [ca cm].
      cbn [fst snd] in *. apply disj_join; [done..|]. by rewrite E.
  - split; [|split; [done|]].
    + intros x. by rewrite !in_blocks_cons.
    + intros a _ H1 H2. by constructor.
Qed.

Lemma free_half h l1 l2 b alloc b' r :
  heap_ok h (l1 ++ l2) (b :: alloc) -> join_up b l2 = (b', r) -> h_ptr (hd h (p_of base l1)) = q_of base l2 ->
  p_of base l1 < b.1 -> Forall (fun c => b.1 < c.1) l2 ->
  let q := q_of base l2 in
  exists h1, (if hplus b.1 (h_size (hd h b.1)) =? q then
       let h := upd_h b.1 (fun y => set_h_size (u32 (h_size y + h_size (hd h q))) y) h in
       upd_h b.1 (set_h_ptr (h_ptr (hd h q))) h
     else upd_h b.1 (set_h_ptr q) h) = h1 /\ half h h1 l1 l2 b b' r.
Proof.
  intros [Hring Hspc Hfp [H0 Hb0] Hsize Hal Hdis Hap [Hb Hbr]] Hj Hq Hp Hgt.
  apply Forall_cons in Hal as [[Hb1 Hb2] _]. apply Forall_cons in Hdis as [Hdb _].
  apply Forall_app in Hsize as [Hsz [[Hbs Hbe] _]%Forall_cons]. apply Forall_app in Hdb as [Hd1 Hd2].
  pose proof Hspc as Hspc'. apply spaced_app in Hspc' as [Hs1 Hs2]. apply Forall_app in Hsz as [Hsz1 Hsz2].
  assert (base <= end_of base l1) as Hbe1.
  { destruct l1 as [|c l1 _] using rev_ind; [done|]. rewrite end_of_snoc.
    destruct (spaced_in _ _ c Hs1); [apply elem_of_app; right; left|]. unfold bend, sizeof_Header. lia. }
  pose proof (free_up h l2 b) as H. rewrite Hj in H.
  destruct H as (h1 & E & Hh1 & Hoth & Hbrk & E1 & Hn & Hend & Hsp & Hk); try done; try lia.
  { destruct l2 as [|d l2]; [by right|left]. rewrite map_app in Hring. cbn [map] in Hring. by apply lseg_app in Hring as [_ ?]. }
  { by apply (spaced_weaken (end_of base l1)). }
  exists h1. split; [exact E|]. split; try done; [by apply Forall_app|].
  destruct l1 as [|c l1 _] using rev_ind; [unfold end_of; cbn; lia|]. rewrite p_of_snoc in Hp. rewrite end_of_snoc.
  apply Forall_app in Hd1 as [_ [Hd1 _]%Forall_cons]. destruct Hd1 as [Hd1|]; [|done].
  unfold bend, sizeof_Header in *. lia.
Qed.

(** The test of [free] on the predecessor: does it end where [b] starts? *)
Lemma touches h fl l1 l2 b :
  heap_ok h fl (b :: l2) -> (exists k, fl = l1 ++ k) ->
  (hplus (p_of base l1) (h_size (hd h (p_of base l1))) =? b.1) = (end_of base l1 =? b.1).
Proof.
  intros [_ Hspc _ [H0 Hb0] Hsize _ _ _ [Hb Hbr]] [k ->]. apply Forall_app in Hsize as [Hsize _]. f_equal.
  destruct l1 as [|c l1 _] using rev_ind.
  - unfold p_of, end_of. cbn [last]. rewrite Hb0. unfold hplus. rewrite Z.mul_0_r, Z.add_0_r. apply u32_small. lia.
  - rewrite p_of_snoc, end_of_snoc. assert (c ∈ (l1 ++ [c]) ++ k) as Hc by (rewrite !elem_of_app; left; right; left).
    rewrite Forall_forall in Hsize. destruct (Hsize c Hc) as [-> Hce]. destruct (spaced_in _ _ _ Hspc Hc).
    rewrite (hplus_in h) by (destruct c; done || lia). by destruct c.
Qed.

(** The blocks handed out stay clear of what [b] is joined to. *)
Lemma alloc_clear h l1 l2 b alloc b' r :
  heap_ok h (l1 ++ l2) (b :: alloc) -> join_up b l2 = (b', r) ->
  Forall (fun a => 0 < a.2 /\ Forall (disj a) l1 /\ Forall (disj a) (b' :: r)) alloc.
Proof.
  intros [_ Hspc _ _ _ Hal Hdis Hap _] Hj. apply Forall_cons in Hal as [[Hb1 Hb2] Hal].
  apply Forall_cons in Hdis as [_ Hdis]. cbn [apart] in Hap. destruct Hap as [Hap _].
  assert (Forall (fun c => 0 < c.2) l2) as Hpos.
  { apply Forall_forall. intros c Hc. destruct (spaced_in _ _ c Hspc); [apply elem_of_app; by right|done]. }
  destruct (join_up_spec b l2 b' r Hj Hb2 Hpos) as (_ & _ & Hjd).
  rewrite Forall_forall in *. intros a Ha. destruct (Hal a Ha) as [_ Ha2].
  pose proof (Hdis a Ha) as [H1 H2]%Forall_app. split; [done|]. split; [done|].
  apply Hjd; [done| |done]. by apply disj_sym, Hap.
Qed.

(** The outcome of [free]: the memory of [b] is free, and the header [freep]
    points to is the block that has it or the one before. *)
Record freed h fl b h' fl' alloc : Prop := {
  fr_ok : heap_ok h' fl' alloc;
  fr_brk : brk h' = brk h;
  fr_mem x : in_blocks x fl' <-> in_blocks x fl \/ b.1 <= x < bend b;
  fr_len : (length fl' <= S (length fl))%nat;
  fr_big : exists c, (c ∈ fl') /\ b.2 <= c.2 /\ (freep h' = c.1 \/ h_ptr (hd h' (freep h')) = c.1)
}.

Lemma freed_apart h h1 l1 l2 b b' r alloc :
  heap_ok h (l1 ++ l2) (b :: alloc) -> join_up b l2 = (b', r) -> half h h1 l1 l2 b b' r -> end_of base l1 < b.1 ->
  (forall x, in_blocks x (b' :: r) <-> b.1 <= x < bend b \/ in_blocks x l2) -> b.2 <= b'.2 ->
  (length r <= length l2)%nat ->
  freed h (l1 ++ l2) b (set_freep (p_of base l1) (upd_h (p_of base l1) (set_h_ptr b.1) h1)) (l1 ++ b' :: r) alloc.
Proof.
  intros Hok Hj Hhalf Hlt Hcov Hbig Hlr. pose proof (free_apart _ _ _ _ _ _ _ Hhalf Hlt) as Hrl.
  pose proof (alloc_clear _ _ _ _ _ _ _ Hok Hj) as Hall. split.
  - apply (relinked_ok h _ l1 l2 b _ alloc Hok Hrl). refine (Forall_impl _ _ _ Hall _). intros a (_ & H1 & H2).
    by apply Forall_app.
  - apply (rl_brk _ _ _ _ _ Hrl).
  - intros x. rewrite !in_blocks_app, Hcov. tauto.
  - rewrite !length_app. cbn. lia.
  - exists b'. split; [apply elem_of_app; right; left|]. split; [done|]. right. cbn [freep set_freep hd].
    rewrite hd_upd, decide_True by done. cbn. by destruct (hf_b' _ _ _ _ _ _ _ Hhalf) as [-> _].
Qed.

Lemma freed_join h h1 l1 c l2 b b' r alloc :
  heap_ok h ((l1 ++ [c]) ++ l2) (b :: alloc) -> join_up b l2 = (b', r) -> half h h1 (l1 ++ [c]) l2 b b' r ->
  bend c = b.1 -> (forall x, in_blocks x (b' :: r) <-> b.1 <= x < bend b \/ in_blocks x l2) -> b.2 <= b'.2 ->
  (length r <= length l2)%nat ->
  let h2 := upd_h c.1 (fun y => set_h_size (u32 (h_size y + h_size (hd h1 b.1))) y) h1 in
  freed h ((l1 ++ [c]) ++ l2) b (set_freep c.1 (upd_h c.1 (set_h_ptr (h_ptr (hd h2 b.1))) h2))
    (l1 ++ (c.1, c.2 + b'.2) :: r) alloc.
Proof.
  intros Hok Hj Hhalf Hadj Hcov Hbig Hlr h2. pose proof (free_join _ _ _ _ _ _ _ _ Hhalf Hadj) as Hrl.
  destruct (hf_b' _ _ _ _ _ _ _ Hhalf) as (Eb & Hn & _).
  assert (0 < c.2) as Hc2.
  { destruct (spaced_in _ _ c (ho_spaced _ _ _ Hok)); [rewrite !elem_of_app; left; right; left|done]. }
  assert (bend (c.1, c.2 + b'.2) = bend b') as Ebe by (unfold bend, sizeof_Header in *; cbn in *; lia).
  split.
  - pose proof (relinked_ok h _ (l1 ++ [c]) l2 b _ alloc Hok Hrl) as H. rewrite p_of_snoc in H. apply H.
    refine (Forall_impl _ _ _ (alloc_clear _ _ _ _ _ _ _ Hok Hj) _).
    intros a (Ha & [H1 [H2 _]%Forall_cons]%Forall_app & [H3 H4]%Forall_cons). apply Forall_app. split; [done|].
    constructor; [|done]. destruct c as [ca cn], b' as [ba bn]. cbn [fst snd] in *.
    apply disj_join; [done..|]. by rewrite Hadj, <- Eb.
  - apply (rl_brk _ _ _ _ _ Hrl).
  - intros x. specialize (Hcov x). rewrite !in_blocks_app, !in_blocks_cons in *. rewrite Ebe. cbn [fst].
    assert (~ in_blocks x []) by (by intros (? & ?%elem_of_nil & _)).
    assert (b'.1 < bend b' /\ c.1 < bend c) by (unfold bend, sizeof_Header; lia).
    assert (c.1 <= x < bend b' <-> c.1 <= x < bend c \/ b'.1 <= x < bend b') as -> by lia. tauto.
  - rewrite !length_app. cbn. lia.
  - exists (c.1, c.2 + b'.2). split; [apply elem_of_app; right; left|]. cbn. split; [lia|by left].
Qed.

Lemma free_ok fuel h fl alloc b :
  heap_ok h fl (b :: alloc) -> (S (2 * length fl) < fuel)%nat ->
  exists h' fl', Umalloc.free fuel (b.1 + sizeof_Header) h = Ok h' /\ freed h fl b h' fl' alloc.
Proof.
  intros Hok Hfuel. pose proof Hok as [Hring Hspc Hfp [H0 Hb0] Hsize Hal Hdis Hap [Hb Hbr]].
  apply Forall_cons in Hal as [[Hb1 Hb2] _]. apply Forall_cons in Hdis as [Hdb _].
  assert (b.1 ∉ map fst fl) as Hnin.
  { intros (c & Ec & Hc)%list_elem_of_fmap. rewrite Forall_forall in Hdb. specialize (Hdb c Hc).
    apply disj_ne in Hdb; [congruence|done|]. by destruct (spaced_in _ _ _ Hspc Hc). }
  destruct (find_pos_ok h fl b.1 fuel Hring Hspc Hb1 Hnin Hfp Hfuel) as (l1 & l2 & Efp & -> & Eq & Hp & Hgt).
  unfold Umalloc.free. rewrite Z.add_simpl_r, Efp. cbn [res_bind]. rewrite Eq.
  destruct (join_up b l2) as [b' r] eqn:Hj.
  destruct (free_half h l1 l2 b alloc b' r Hok Hj Eq Hp Hgt) as (h1 & E1 & Hhalf). cbv zeta in E1. cbv zeta. rewrite E1.
  assert (Forall (fun c => 0 < c.2) l2) as Hpos.
  { apply Forall_forall. intros c Hc. destruct (spaced_in _ _ c Hspc); [apply elem_of_app; by right|done]. }
  destruct (join_up_spec b l2 b' r Hj Hb2 Hpos) as (Hcov & Hbig & _).
  pose proof (hf_b' _ _ _ _ _ _ _ Hhalf) as (Eb & _).
  assert (b.2 <= b'.2) as Hb'2 by (unfold bend, sizeof_Header in Hbig; lia).
  assert (length r <= length l2)%nat as Hlr.
  { destruct l2 as [|c l2]; cbn in Hj; [by injection Hj as _ <-|]. destruct (_ =? _); injection Hj as _ <-; cbn; lia. }
  rewrite (hf_oth _ _ _ _ _ _ _ Hhalf) by lia. rewrite (touches _ _ l1 _ b Hok) by (by exists l2).
  pose proof (hf_end _ _ _ _ _ _ _ Hhalf) as Hend. destruct (Z.eqb_spec (end_of base l1) b.1) as [E|E].
  - destruct l1 as [|c l1 _] using rev_ind; [unfold end_of in E; cbn in E; lia|].
    rewrite p_of_snoc, end_of_snoc in *. do 2 eexists. split; [done|]. by eapply freed_join.
  - do 2 eexists. split; [done|]. eapply freed_apart; try done. lia.
Qed.

(** ** [malloc] *)

(** Where [n] units come from when block [c] is carved: its upper end. *)
Definition carved (n : Z) (c : blk) : blk := (c.1 + sizeof_Header * (c.2 - n), n).
Definition rest (n : Z) (c : blk) : list blk := if c.2 =? n then [] else [(c.1, c.2 - n)].

Lemma rest_len n c : (length (rest n c) <= 1)%nat.
Proof. unfold rest. destruct (_ =? _); cbn; lia. Qed.

Lemma carved_mem n c x : 0 < n <= c.2 ->
  (c.1 <= x < bend c <-> in_blocks x (rest n c) \/ (carved n c).1 <= x < bend (carved n c)).
Proof.
  intros Hn. unfold rest. destruct (Z.eqb_spec c.2 n) as [E|E].
  - assert (~ in_blocks x []) by (by intros (? & ?%elem_of_nil & _)).
    unfold carved, bend, sizeof_Header. cbn. split; [intros; right; lia|intros [?|?]; [done|lia]].
  - rewrite in_blocks_cons. assert (~ in_blocks x []) by (by intros (? & ?%elem_of_nil & _)).
    unfold carved, bend, sizeof_Header. cbn [fst snd]. split.
    + intros Hx. destruct (decide (x < c.1 + 8 * (c.2 - n))); [left; left; lia|right; lia].
    + intros [[?|?]|?]; [lia|done|lia].
Qed.

Lemma carved_disj n c d : 0 < n <= c.2 -> disj d c -> disj d (carved n c) /\ Forall (disj d) (rest n c).
Proof.
  intros Hn Hd. unfold rest, carved, disj, bend, sizeof_Header in *. cbn. split; [lia|].
  destruct (Z.eqb_spec c.2 n); constructor; [cbn; lia|done].
Qed.

Lemma spaced_clear lo l1 c l2 d : spaced lo (l1 ++ c :: l2) -> d ∈ l1 ++ l2 -> disj d c.
Proof.
  rewrite spaced_app. cbn [spaced]. intros [H1 (H2 & H3 & H4)] [Hd|Hd]%elem_of_app; unfold disj.
  - left. destruct (spaced_end _ _ _ H1 Hd). lia.
  - right. destruct (spaced_in _ _ _ H4 Hd). lia.
Qed.

(** The other blocks, free or not, are clear of [c] and of its parts. *)
Lemma carve_others h l1 c l2 alloc n d :
  heap_ok h (l1 ++ c :: l2) alloc -> 0 < n <= c.2 -> d ∈ (l1 ++ l2) ++ alloc ->
  disj d c /\ d.1 <> c.1 /\ d.1 <> (carved n c).1 /\ h_size (hd h d.1) = d.2 /\ bend d <= brk h.
Proof.
  intros [_ Hspc _ _ Hsize Hal Hdis _ _] Hn Hin.
  assert (disj d c /\ 0 < d.2 /\ h_size (hd h d.1) = d.2 /\ bend d <= brk h) as (H1 & H2 & H3 & H4).
  { rewrite Forall_forall in Hsize, Hdis, Hal. apply elem_of_app in Hin as [Hd|Hd].
    - assert (d ∈ l1 ++ c :: l2) as Hd' by (revert Hd; rewrite !elem_of_app, elem_of_cons; tauto).
      split; [by apply (spaced_clear base l1 c l2)|]. split; [by destruct (spaced_in _ _ _ Hspc Hd')|].
      apply Hsize, elem_of_app. by left.
    - split; [specialize (Hdis d Hd); rewrite Forall_forall in Hdis; apply Hdis, elem_of_app; right; left|].
      split; [by destruct (Hal d Hd)|]. apply Hsize, elem_of_app. by right. }
  destruct (carved_disj n c d Hn H1) as [H5 _]. split; [done|].
  split; [apply disj_ne; [done|lia|done]|]. split; [|done]. apply disj_ne; [done|cbn; lia|done].
Qed.

(** The blocks of the invariant when [c] is replaced by what is left of it. *)
Lemma carve_blocks h h' l1 c l2 alloc n :
  heap_ok h (l1 ++ c :: l2) alloc -> 0 < n <= c.2 ->
  lseg (hd h') base (map fst (l1 ++ rest n c ++ l2)) base -> freep h' = p_of base l1 -> brk h' = brk h ->
  h_size (hd h' (carved n c).1) = n -> (c.2 <> n -> h_size (hd h' c.1) = c.2 - n) ->
  (forall y, y <> c.1 -> y <> (carved n c).1 -> h_size (hd h' y) = h_size (hd h y)) ->
  heap_ok h' (l1 ++ rest n c ++ l2) (carved n c :: alloc).
Proof.
  intros Hok Hn R Ef Eb En Ec Eo. pose proof (fun d => carve_others h l1 c l2 alloc n d Hok Hn) as Hall.
  destruct Hok as [Hring Hspc _ [H0 Hb0] Hsize Hal Hdis Hap Hbr].
  assert (base < c.1) as Hbc by (destruct (spaced_in _ _ c Hspc); [apply elem_of_app; right; left|done]).
  assert (forall d, d ∈ (l1 ++ l2) ++ alloc -> h_size (hd h' d.1) = d.2 /\ bend d <= brk h') as Hkeep.
  { intros d Hd. destruct (Hall d Hd) as (_ & H1 & H2 & H3 & H4). by rewrite Eb, Eo. }
  assert (c.1 + sizeof_Header * c.2 <= brk h) as Hce.
  { rewrite Forall_forall in Hsize. destruct (Hsize c) as [_ H]; [rewrite !elem_of_app; left; right; left|done]. }
  split.
  - done.
  - rewrite spaced_app in Hspc |- *. cbn [spaced] in Hspc. destruct Hspc as [H1 (H2 & H3 & H4)]. split; [done|].
    unfold rest. destruct (Z.eqb_spec c.2 n) as [E|E]; cbn [app spaced fst snd].
    + apply (spaced_weaken (bend c)); [|done]. unfold bend, sizeof_Header. lia.
    + split; [done|]. split; [lia|]. apply (spaced_weaken (bend c)); [|done]. unfold bend, sizeof_Header. cbn. lia.
  - rewrite Ef. apply p_of_in.
  - split; [done|]. rewrite Eo; [done|lia|]. unfold carved, sizeof_Header. cbn. lia.
  - apply Forall_forall. intros d Hd. rewrite !elem_of_app, elem_of_cons in Hd.
    destruct Hd as [[Hd|[Hd|Hd]]|[->|Hd]]; try (apply Hkeep; rewrite !elem_of_app; tauto).
    + unfold rest in Hd. destruct (Z.eqb_spec c.2 n) as [E|E]; [by apply elem_of_nil in Hd|].
      apply list_elem_of_singleton in Hd as ->. cbn [fst snd]. rewrite Ec, Eb by done. split; [done|].
      unfold bend, sizeof_Header in *. cbn. lia.
    + rewrite En, Eb. split; [done|]. unfold carved, bend, sizeof_Header in *. cbn. lia.
  - constructor; [|done]. unfold carved, sizeof_Header. cbn. lia.
  - assert (forall d, d ∈ l1 ++ l2 -> disj (carved n c) d) as Hcd.
    { intros d Hd. apply disj_sym, (carved_disj n c d); [done|]. apply (Hall d), elem_of_app. by left. }
    constructor.
    + apply Forall_forall. intros d Hd. rewrite !elem_of_app in Hd.
      destruct Hd as [Hd|[Hd|Hd]]; try (apply Hcd; rewrite elem_of_app; tauto).
      unfold rest in Hd. destruct (Z.eqb_spec c.2 n) as [E|E]; [by apply elem_of_nil in Hd|].
      apply list_elem_of_singleton in Hd as ->. right. unfold carved, bend, sizeof_Header. cbn. lia.
    + rewrite Forall_forall in *. intros a Ha. specialize (Hdis a Ha).
      rewrite !Forall_app, Forall_cons in *. destruct Hdis as (H1 & H2 & H3).
      split; [done|]. split; [|done]. by apply carved_disj.
  - cbn [apart]. split; [|done]. apply Forall_forall. intros a Ha. apply disj_sym, (carved_disj n c a); [done|].
    apply (Hall a), elem_of_app. by right.
  - by rewrite Eb.
Qed.

(** The circle without [c]. *)
Lemma lseg_unlink h l1 c l2 :
  spaced base (l1 ++ c :: l2) -> lseg (hd h) base (map fst (l1 ++ c :: l2)) base ->
  lseg (hd (upd_h (p_of base l1) (set_h_ptr (h_ptr (hd h c.1))) h)) base (map fst (l1 ++ l2)) base.
Proof.
  intros Hs Hl. pose proof Hs as [Hs1 (Hc & Hc2 & Hs2)]%spaced_app.
  set (p := p_of base l1). set (g := hd _).
  assert (forall y, y <> p -> h_ptr (g y) = h_ptr (hd h y)) as Hne by (intros y Hy; unfold g; by rewrite hd_upd, decide_False).
  assert (h_ptr (g p) = h_ptr (hd h c.1)) as Hp by (unfold g; by rewrite hd_upd, decide_True).
  rewrite map_app in Hl |- *. cbn [map] in Hl. apply lseg_app in Hl as [Hl1 Hl2].
  assert (p < c.1) as Hpc.
  { unfold p, p_of, end_of in *. destruct (last l1) as [d|] eqn:E; [|done].
    destruct (spaced_in _ _ d Hs1); [by apply last_Some_elem_of|]. unfold bend, sizeof_Header in *. lia. }
  destruct l2 as [|d l2]; cbn [map] in *.
  - rewrite app_nil_r. apply (lseg_last (hd h) g l1 c.1); [done|done|intros y Hy; apply Hne; fold p in Hy; lia|].
    fold p. by rewrite Hp.
  - cbn [lseg] in Hl2. destruct Hl2 as [Ed Hl2]. apply lseg_app. split.
    + apply (lseg_last (hd h) g l1 c.1); [done|done|intros y Hy; apply Hne; fold p in Hy; lia|]. fold p. by rewrite Hp.
    + revert Hl2. apply lseg_agree. intros y Hy. apply Hne.
      change (d.1 :: map fst l2) with (map fst (d :: l2)) in Hy. apply list_elem_of_fmap in Hy as (e & -> & He).
      destruct (spaced_in _ _ _ Hs2 He). unfold bend, sizeof_Header in *. lia.
Qed.

Lemma carve_ok h l1 c l2 alloc n :
  heap_ok h (l1 ++ c :: l2) alloc -> 0 < n <= c.2 ->
  exists h', carve n (p_of base l1) c.1 h = ((carved n c).1 + sizeof_Header, h') /\ brk h' = brk h /\
    heap_ok h' (l1 ++ rest n c ++ l2) (carved n c :: alloc).
Proof.
  intros Hok Hn. pose proof Hok as [Hring Hspc _ [H0 Hb0] Hsize Hal Hdis Hap [Hbb Hbr]].
  assert (c ∈ l1 ++ c :: l2) as Hc by (apply elem_of_app; right; left).
  destruct (spaced_in _ _ _ Hspc Hc) as [Hbc _].
  apply Forall_app in Hsize as [Hsize _]. rewrite Forall_forall in Hsize. destruct (Hsize c Hc) as [Ec Hce].
  unfold bend, sizeof_Header in Hce. unfold carve. rewrite Ec.
  destruct (Z.eqb_spec c.2 n) as [E|E].
  - assert ((carved n c).1 = c.1) as Ecc by (unfold carved; cbn; lia).
    eexists. rewrite Ecc. split; [done|]. split; [done|].
    eapply carve_blocks; [done|done|..]; try done.
    + unfold rest. rewrite (proj2 (Z.eqb_eq _ _) E). by apply lseg_unlink.
    + rewrite Ecc. cbn [hd set_freep]. rewrite hd_upd. destruct (decide _) as [E'|E']; [|lia].
      cbn. rewrite <- E'. lia.
    + intros y _ _. cbn [hd set_freep]. rewrite hd_upd. by destruct (decide _) as [->|].
  - cbv zeta. assert (u32 (c.2 - n) = c.2 - n) as Eu by (apply u32_small; lia).
    assert (hplus c.1 (h_size (hd (upd_h c.1 (fun y => set_h_size (u32 (h_size y - n)) y) h) c.1)) = (carved n c).1) as ->.
    { rewrite hd_upd, decide_True by done. cbn. rewrite Ec, Eu. unfold hplus, carved, sizeof_Header. cbn.
      apply u32_small. lia. }
    assert (c.1 <> (carved n c).1) as Hcc by (unfold carved, sizeof_Header; cbn; lia).
    eexists. split; [done|]. split; [done|].
    eapply carve_blocks; [done|done|..]; try done.
    + unfold rest. rewrite (proj2 (Z.eqb_neq _ _) E). revert Hring. rewrite !map_app. apply lseg_agree.
      intros y _. cbn [hd set_freep]. rewrite !hd_upd. destruct (decide _) as [->|]; [cbn|]; (destruct (decide _) as [->|]; done).
    + cbn [hd set_freep]. by rewrite hd_upd, decide_True.
    + intros _. cbn [hd set_freep]. rewrite !hd_upd, decide_False, decide_True by done. cbn. by rewrite Ec.
    + intros y H1 H2. cbn [hd set_freep]. by rewrite !hd_upd, !decide_False.
Qed.

Section Malloc.
Context (grow : Z -> bool) (grow_user : forall x, grow x = true -> x < 2 ^ 31).

(** The break after [morecore] of [nu] units. *)
Definition more_units (nu : Z) : Z := Z.max 4096 nu.
Definition more_brk (nu : Z) h : Z := brk h + sizeof_Header * more_units nu.

(** The new memory is a block of its own, above all the others. *)
Lemma fresh_block h fl alloc nu :
  heap_ok h fl alloc -> 0 < nu -> more_brk nu h < 2 ^ 31 ->
  heap_ok (upd_h (brk h) (set_h_size (more_units nu)) (set_brk (more_brk nu h) h)) fl
    ((brk h, more_units nu) :: alloc).
Proof.
  intros [Hring Hspc Hfp [H0 Hb0] Hsize Hal Hdis Hap [Hbb Hbr]] Hnu Hm.
  assert (4096 <= more_units nu) as Hu by (unfold more_units; lia).
  assert (forall d, d ∈ fl ++ alloc -> d.1 < brk h /\ h_size (hd h d.1) = d.2 /\ bend d <= brk h) as Hall.
  { intros d Hd. rewrite Forall_forall in Hsize. destruct (Hsize d Hd) as [H1 H2]. split; [|done].
    assert (0 < d.2); [|unfold bend, sizeof_Header in *; lia]. apply elem_of_app in Hd as [Hd|Hd].
    - by destruct (spaced_in _ _ _ Hspc Hd).
    - rewrite Forall_forall in Hal. by destruct (Hal d Hd). }
  assert (Forall (disj (brk h, more_units nu)) (fl ++ alloc)) as Hd.
  { apply Forall_forall. intros d Hd. right. by apply Hall. }
  apply Forall_app in Hd as [Hd1 Hd2].
  split; cbn [freep brk upd_h set_hd set_brk]; try done.
  - revert Hring. apply lseg_agree. intros y _. rewrite hd_upd. by destruct (decide _) as [->|].
  - split; [done|]. rewrite hd_upd, decide_False by lia. done.
  - apply Forall_forall. intros d Hd. rewrite elem_of_app, elem_of_cons in Hd. rewrite hd_upd.
    destruct Hd as [Hd|[->|Hd]].
    2: { rewrite decide_True by done. done. }
    all: destruct (Hall d) as (H1 & H2 & H3); [apply elem_of_app; tauto|].
    all: rewrite decide_False by lia; unfold more_brk, sizeof_Header; split; [done|lia].
  - constructor; [|done]. cbn. lia.
  - constructor; done.
  - unfold more_brk, sizeof_Header in *. lia.
Qed.

Lemma morecore_ok fuel nu h fl alloc :
  heap_ok h fl alloc -> 0 < nu -> sizeof_Header * more_units nu < 2 ^ 31 -> (S (2 * length fl) < fuel)%nat ->
  if grow (more_brk nu h) then
    exists h' fl', morecore grow fuel nu h = Ok (freep h', h') /\ brk h' = more_brk nu h /\
      freed (set_brk (more_brk nu h) h) fl (brk h, more_units nu) h' fl' alloc
  else morecore grow fuel nu h = Ok (0, h).
Proof.
  intros Hok Hnu Hsz Hfuel. pose proof (ho_brk _ _ _ Hok) as [Hbb Hbr]. pose proof (ho_base _ _ _ Hok) as [H0 _].
  unfold morecore. assert ((if nu <? 4096 then 4096 else nu) = more_units nu) as ->.
  { unfold more_units. destruct (Z.ltb_spec nu 4096); lia. }
  assert (4096 <= more_units nu) as Hu by (unfold more_units; lia).
  assert (s32 (more_units nu * sizeof_Header) = sizeof_Header * more_units nu) as ->.
  { rewrite Z.mul_comm. apply s32_small. unfold sizeof_Header in *. lia. }
  unfold sbrk. fold (more_brk nu h).
  assert (u32 (more_brk nu h) = more_brk nu h) as -> by (apply u32_small; unfold more_brk, sizeof_Header in *; lia).
  destruct (grow (more_brk nu h)) eqn:Eg; [|done]. pose proof (grow_user _ Eg) as Hlt.
  rewrite (proj2 (Z.eqb_neq _ _)) by lia. cbv zeta.
  destruct (free_ok fuel _ fl alloc _ (fresh_block h fl alloc nu Hok Hnu Hlt) Hfuel) as (h' & fl' & E & Hf).
  exists h', fl'. cbn [fst] in E. rewrite E. cbn [res_bind]. split; [done|].
  destruct Hf as [F1 F2 F3 F4 F5]. split; [done|]. split; done.
Qed.

(** The walk of [malloc] up to the first header that fits or is [freep]. *)
Lemma malloc_walk n h : forall k fuel prevp, (k < fuel)%nat ->
  (n <= h_size (hd h (nxt (hd h) (S k) prevp)) \/ nxt (hd h) (S k) prevp = freep h) ->
  exists j, (j <= k)%nat /\
    malloc_loop grow fuel n prevp (h_ptr (hd h prevp)) h =
      malloc_loop grow (fuel - j) n (nxt (hd h) j prevp) (nxt (hd h) (S j) prevp) h /\
    (n <= h_size (hd h (nxt (hd h) (S j) prevp)) \/ nxt (hd h) (S j) prevp = freep h).
Proof.
  induction k as [|k IH]; intros fuel prevp Hk Hst.
  { exists 0%nat. rewrite Nat.sub_0_r. done. }
  destruct (decide (n <= h_size (hd h (h_ptr (hd h prevp))) \/ h_ptr (hd h prevp) = freep h)) as [Hd|Hd].
  { exists 0%nat. split; [lia|]. rewrite Nat.sub_0_r. done. }
  destruct fuel as [|m]; [lia|]. destruct (IH m (h_ptr (hd h prevp))) as (j & Hj & E & Hs); [lia|done|].
  exists (S j). split; [lia|]. split; [|done]. cbn [malloc_loop].
  rewrite (proj2 (Z.leb_gt _ _)), (proj2 (Z.eqb_neq _ _)) by (apply Decidable.not_or in Hd; lia). exact E.
Qed.

(** A header of the circle whose block is big enough is not [base]. *)
Lemma fitting h fl alloc prevp n :
  heap_ok h fl alloc -> 0 < n -> prevp ∈ base :: map fst fl -> n <= h_size (hd h (h_ptr (hd h prevp))) ->
  exists l1 c l2, fl = l1 ++ c :: l2 /\ prevp = p_of base l1 /\ h_ptr (hd h prevp) = c.1 /\ n <= c.2.
Proof.
  intros [Hring _ _ [_ Hb0] Hsize _ _ _ _] Hn Hp Hfit. destruct (split_at _ _ _ Hp) as (l1 & l2 & -> & ->).
  rewrite (lseg_at _ _ _ _ _ Hring) in *. destruct l2 as [|c l2]; [lia|].
  exists l1, c, l2. split_and!; try done. rewrite Forall_forall in Hsize.
  destruct (Hsize c) as [H1 _]; [rewrite !elem_of_app; left; right; left|lia].
Qed.

(** Block [b] of [n] units was handed out; the memory is that of before, with
    what the break moved over. *)
Record got n h fl alloc h' fl' b : Prop := {
  got_size : b.2 = n;
  got_ok : heap_ok h' fl' (b :: alloc);
  got_mem x : in_blocks x fl' \/ b.1 <= x < bend b <-> in_blocks x fl \/ brk h <= x < brk h';
  got_len : (length fl' <= S (length fl))%nat
}.

Lemma take_ok fuel n prevp h fl alloc :
  heap_ok h fl alloc -> 0 < n -> prevp ∈ base :: map fst fl -> n <= h_size (hd h (h_ptr (hd h prevp))) ->
  exists h' fl' b, malloc_loop grow (S fuel) n prevp (h_ptr (hd h prevp)) h = Ok (b.1 + sizeof_Header, h') /\
    brk h' = brk h /\ (length fl' <= length fl)%nat /\ got n h fl alloc h' fl' b.
Proof.
  intros Hok Hn Hp Hfit. cbn [malloc_loop]. rewrite (proj2 (Z.leb_le _ _)) by done.
  destruct (fitting _ _ _ _ _ Hok Hn Hp Hfit) as (l1 & c & l2 & -> & -> & -> & Hc).
  destruct (carve_ok h l1 c l2 alloc n Hok) as (h' & -> & Hb & Hok'); [done|].
  do 3 eexists. split; [done|]. split; [done|].
  assert (length (l1 ++ rest n c ++ l2) <= length (l1 ++ c :: l2))%nat as Hlen.
  { rewrite !length_app. cbn. pose proof (rest_len n c). lia. }
  split; [exact Hlen|]. split; [done|done| |lia]. intros x. pose proof (carved_mem n c x ltac:(done)) as Hm. rewrite Hb, !in_blocks_app, in_blocks_cons.
  assert (~ brk h <= x < brk h) by lia. tauto.
Qed.

(** The second walk, after [morecore]: the new block is found. *)
Lemma retry_ok fuel n h fl h' fl' alloc b :
  freed h fl b h' fl' alloc -> 0 < n <= b.2 -> (S (2 * length fl') < fuel)%nat ->
  exists h'' fl'' d, malloc_loop grow fuel n (freep h') (h_ptr (hd h' (freep h'))) h' = Ok (d.1 + sizeof_Header, h'') /\
    brk h'' = brk h' /\ (length fl'' <= length fl')%nat /\ got n h' fl' alloc h'' fl'' d.
Proof.
  intros [Hok _ _ _ (c & Hc & Hbc & Hfp)] Hn Hfuel. pose proof Hok as [Hring _ Hin _ Hsize _ _ _ _].
  assert (n <= h_size (hd h' c.1)) as Hfit.
  { rewrite Forall_forall in Hsize. destruct (Hsize c) as [-> _]; [apply elem_of_app; by left|lia]. }
  assert (exists k, (k < fuel)%nat /\ n <= h_size (hd h' (nxt (hd h') (S k) (freep h'))) /\
    (k = 0%nat \/ freep h' = c.1)) as (k & Hk & Hkf & Hk0).
  { destruct Hfp as [Hfp|Hfp]; [|exists 0%nat; split; [lia|]; cbn; rewrite Hfp; auto].
    destruct (circle_reach _ _ _ (h_ptr (hd h' (freep h'))) c.1 Hring) as (k & Hk & Ek).
    - by apply circle_next.
    - rewrite <- Hfp. done.
    - exists k. cbn [nxt]. rewrite Ek. rewrite length_map in Hk. split; [lia|]. auto. }
  destruct (malloc_walk n h' k fuel (freep h') Hk) as (j & Hj & -> & Hst); [by left|].
  replace (fuel - j)%nat with (S (fuel - j - 1))%nat by lia.
  rewrite nxt_S in *. apply (take_ok _ n); [done|lia|by apply circle_nxt|].
  destruct Hst as [Hst|Hst]; [done|]. destruct Hk0 as [->|Hk0].
  - replace j with 0%nat in * by lia. done.
  - by rewrite Hst, Hk0.
Qed.

Lemma malloc_loop_ok fuel n h fl alloc :
  heap_ok h fl alloc -> 0 < n -> sizeof_Header * more_units n < 2 ^ 31 -> (4 * length fl + 8 < fuel)%nat ->
  malloc_loop grow fuel n (freep h) (h_ptr (hd h (freep h))) h = Ok (0, h) /\ grow (more_brk n h) = false \/
  exists h' fl' b, malloc_loop grow fuel n (freep h) (h_ptr (hd h (freep h))) h = Ok (b.1 + sizeof_Header, h') /\
    got n h fl alloc h' fl' b.
Proof.
  intros Hok Hn Hsz Hfuel. pose proof Hok as [Hring _ Hin [H0 _] _ _ _ _ _].
  destruct (circle_reach _ _ _ (h_ptr (hd h (freep h))) (freep h) Hring) as (k & Hk & Ek); [by apply circle_next|done|].
  rewrite length_map in Hk.
  destruct (malloc_walk n h k fuel (freep h)) as (j & Hj & -> & Hst); [lia|by right|].
  replace (fuel - j)%nat with (S (fuel - j - 1))%nat by lia. set (m := (fuel - j - 1)%nat).
  rewrite nxt_S in *. set (q := nxt (hd h) j (freep h)) in *.
  assert (q ∈ base :: map fst fl) as Hq by (by apply circle_nxt).
  destruct (decide (n <= h_size (hd h (h_ptr (hd h q))))) as [Hfit|Hfit].
  { right. destruct (take_ok m n q h fl alloc Hok Hn Hq Hfit) as (h' & fl' & b & E & _ & _ & Hg). by exists h', fl', b. }
  destruct Hst as [Hst|Hst]; [done|]. cbn [malloc_loop].
  rewrite (proj2 (Z.leb_gt _ _)), (proj2 (Z.eqb_eq _ _)) by (done || lia).
  pose proof (morecore_ok m n h fl alloc Hok Hn Hsz ltac:(lia)) as Hmc.
  destruct (grow (more_brk n h)) eqn:Eg; [right|left; by rewrite Hmc].
  destruct Hmc as (h' & fl' & -> & Hb & Hf). cbn [res_bind].
  pose proof Hf as [Hok' _ Hmem Hlen _]. pose proof Hok' as [_ Hs' Hin' _ _ _ _ _ _].
  assert (freep h' <> 0).
  { apply elem_of_cons in Hin' as [->|(d & -> & Hd)%list_elem_of_fmap]; [lia|]. destruct (spaced_in _ _ _ Hs' Hd). lia. }
  rewrite (proj2 (Z.eqb_neq _ _)) by done.
  destruct (retry_ok m n _ fl h' fl' alloc _ Hf) as (h'' & fl'' & d & -> & Hb' & Hl' & [G1 G2 G3 _]).
  { unfold more_units. cbn. lia. }
  { lia. }
  exists h'', fl'', d. split; [done|]. split; [done|done| |lia]. intros x. rewrite G3, Hmem, Hb', Hb. unfold bend, more_brk. cbn [fst snd].
  assert (~ brk h + sizeof_Header * more_units n <= x < brk h + sizeof_Header * more_units n) by lia. tauto.
Qed.

(** ** Programs *)

(** The heap of a program: not used yet, or as the invariant says. *)
Definition heap_at h fl alloc : Prop :=
  heap_ok h fl alloc \/ freep h = 0 /\ 0 < base < brk h /\ brk h < 2 ^ 31 /\ fl = [] /\ alloc = [].

Lemma first_heap h : freep h = 0 -> 0 < base < brk h -> brk h < 2 ^ 31 ->
  heap_ok (upd_h base (set_h_size 0) (upd_h base (set_h_ptr base) (set_freep base h))) [] [].
Proof.
  intros Hf H0 Hb. split; cbn [freep brk upd_h set_hd set_freep]; try done; try constructor; try lia.
  - cbn. by rewrite !Z.eqb_refl.
  - cbn. by rewrite Z.eqb_refl.
Qed.

Lemma units_ok nbytes : 0 <= nbytes <= 2 ^ 31 - 16 ->
  0 < units nbytes /\ nbytes <= sizeof_Header * (units nbytes - 1) /\ sizeof_Header * more_units (units nbytes) < 2 ^ 31.
Proof.
  intros Hn. unfold units, more_units, sizeof_Header. rewrite (u32_small (nbytes + 8 - 1)) by lia.
  pose proof (Z.div_mod (nbytes + 8 - 1) 8 ltac:(done)). pose proof (Z.mod_pos_bound (nbytes + 8 - 1) 8 ltac:(lia)).
  rewrite u32_small; lia.
Qed.

Lemma malloc_ok fuel nbytes h fl alloc :
  heap_at h fl alloc -> 0 <= nbytes <= 2 ^ 31 - 16 -> (4 * length fl + 8 < fuel)%nat ->
  (exists h', malloc base grow fuel nbytes h = Ok (0, h') /\ grow (more_brk (units nbytes) h) = false /\
     heap_ok h' fl alloc) \/
  exists h' fl' b, malloc base grow fuel nbytes h = Ok (b.1 + sizeof_Header, h') /\
    nbytes <= sizeof_Header * (b.2 - 1) /\ got (units nbytes) h fl alloc h' fl' b.
Proof.
  intros Hat Hn Hfuel. destruct (units_ok nbytes Hn) as (Hu & Hu2 & Hu3). unfold malloc. cbv zeta.
  destruct Hat as [Hok|(Hf & H0 & Hb & -> & ->)].
  - pose proof Hok as [_ Hs Hin [H0 _] _ _ _ _ _].
    assert (freep h <> 0).
    { apply elem_of_cons in Hin as [->|(d & -> & Hd)%list_elem_of_fmap]; [lia|]. destruct (spaced_in _ _ _ Hs Hd). lia. }
    rewrite (proj2 (Z.eqb_neq _ _)) by done.
    destruct (malloc_loop_ok fuel _ h fl alloc Hok Hu Hu3 Hfuel) as [[E Eg]|(h' & fl' & b & E & Hg)].
    + left. by exists h.
    + right. exists h', fl', b. split; [done|]. by rewrite (got_size _ _ _ _ _ _ _ Hg).
  - rewrite (proj2 (Z.eqb_eq _ _)) by done. pose proof (first_heap h Hf H0 Hb) as Hok.
    set (h1 := upd_h base _ _) in *. change base with (freep h1) at 1 2.
    destruct (malloc_loop_ok fuel _ h1 [] [] Hok Hu Hu3 Hfuel) as [[E Eg]|(h' & fl' & b & E & Hg)].
    + left. by exists h1.
    + right. exists h', fl', b. split; [done|]. rewrite (got_size _ _ _ _ _ _ _ Hg). split; [done|].
      destruct Hg as [G1 G2 G3 G4]. by split.
Qed.

Lemma apart_perm l l' : l ≡ₚ l' -> apart l -> apart l'.
Proof.
  induction 1 as [|b l l' Hp IH|b c l|l1 l2 l3 _ IH1 _ IH2]; cbn [apart]; auto.
  - intros [H1 H2]. split; [by rewrite <- Hp|auto].
  - rewrite !Forall_cons. intros ((H1 & H2) & H3 & H4). split_and!; try done; by apply disj_sym.
Qed.

Lemma heap_ok_perm h fl a1 a2 : a1 ≡ₚ a2 -> heap_ok h fl a1 -> heap_ok h fl a2.
Proof.
  intros Hp [H1 H2 H3 H4 H5 H6 H7 H8 H9]. split; try done.
  - by rewrite <- Hp.
  - by rewrite <- Hp.
  - by rewrite <- Hp.
  - by apply (apart_perm a1).
Qed.

(** A program asks for bytes, or gives back the [i]-th block it has. *)
Inductive request := UMalloc (nbytes : Z) | UFree (i : nat).

(** The run of a program; [live] are the pointers it has, with their sizes. *)
Fixpoint prog_run (fuel : nat) (rs : list request) h (live : list (Z * Z)) : res (heap * list (Z * Z)) :=
  match rs with
  | [] => Ok (h, live)
  | UMalloc nbytes :: rs' =>
      let? (p, h) := malloc base grow fuel nbytes h in
      prog_run fuel rs' h (if p =? 0 then live else (p, nbytes) :: live)
  | UFree i :: rs' =>
      match live !! i with
      | Some (p, _) => let? h := Umalloc.free fuel p h in prog_run fuel rs' h (delete i live)
      | None => prog_run fuel rs' h live
      end
  end.

Definition size_ok (r : request) : Prop :=
  match r with UMalloc nbytes => 0 <= nbytes <= 2 ^ 31 - 16 | UFree _ => True end.

(** Pointer and size [a] lie in block [b], behind its header. *)
Definition inside_blk (a : Z * Z) (b : blk) : Prop :=
  a.1 = b.1 + sizeof_Header /\ 0 <= a.2 /\ a.2 <= sizeof_Header * (b.2 - 1).

Lemma prog_run_ok fuel rs : forall h fl alloc live,
  heap_at h fl alloc -> Forall size_ok rs -> Forall2 inside_blk live alloc ->
  (4 * (length fl + length rs) + 8 < fuel)%nat ->
  exists h' fl' alloc' live', prog_run fuel rs h live = Ok (h', live') /\ heap_at h' fl' alloc' /\
    Forall2 inside_blk live' alloc'.
Proof.
  induction rs as [|[nbytes|i] rs IH]; intros h fl alloc live Hat Hrs Hl Hfuel; cbn [prog_run].
  - by exists h, fl, alloc, live.
  - apply Forall_cons in Hrs as [Hn Hrs]. cbn [length] in Hfuel.
    destruct (malloc_ok fuel nbytes h fl alloc Hat Hn) as [(h' & -> & _ & Hok)|(h' & fl' & b & -> & Hb & Hg)]; [lia|..];
      cbn [res_bind].
    + rewrite Z.eqb_refl. apply (IH h' fl alloc); [by left|done|done|lia].
    + destruct Hg as [Hs Hok _ Hlen]. pose proof (ho_alloc _ _ _ Hok) as [[Hb1 _] _]%Forall_cons.
      pose proof (ho_base _ _ _ Hok) as [H0 _].
      rewrite (proj2 (Z.eqb_neq _ _)) by (unfold sizeof_Header; lia).
      apply (IH h' fl' (b :: alloc)); [by left|done| |lia]. constructor; [|done]. by destruct Hn.
  - apply Forall_cons in Hrs as [_ Hrs]. cbn [length] in Hfuel.
    destruct (live !! i) as [[p n]|] eqn:Ei; [|by apply (IH h fl alloc); [..|lia]].
    destruct (Forall2_lookup_l _ _ _ _ _ Hl Ei) as (b & Eb & Hp & _). cbn [fst] in Hp. subst p.
    destruct Hat as [Hok|(_ & _ & _ & _ & ->)]; [|done].
    apply (heap_ok_perm _ _ _ (b :: delete i alloc)) in Hok; [|by apply delete_Permutation].
    destruct (free_ok fuel h fl _ b Hok) as (h' & fl' & -> & [Hok' _ _ Hlen _]); [lia|]. cbn [res_bind].
    apply (IH h' fl' (delete i alloc)); [by left|done|by apply Forall2_delete|lia].
Qed.

(** Two blocks of a list that is apart. *)
Lemma apart_lookup l i j b c : apart l -> i <> j -> l !! i = Some b -> l !! j = Some c -> disj b c.
Proof.
  revert i j. induction l as [|d l IH]; intros i j Ha Hij Hi Hj; [by rewrite lookup_nil in Hi|].
  cbn [apart] in Ha. destruct Ha as [H1 H2]. destruct i as [|i], j as [|j]; [done|..].
  - injection Hi as ->. rewrite Forall_forall in H1. apply H1. by apply (list_elem_of_lookup_2 _ j).
  - injection Hj as ->. rewrite Forall_forall in H1. apply disj_sym, H1. by apply (list_elem_of_lookup_2 _ i).
  - apply (IH i j); auto.
Qed.

End Malloc.
End Heap.

(** * Theorems *)

Section Theorems.
Import Umalloc.
Context (base : Z) (grow : Z -> bool).
Implicit Types (h : heap) (fl alloc : list blk).

(** C13: every sequence of [malloc]s of at most 2^31 - 16 bytes and of [free]s of
    blocks that the program holds runs to its end, from a heap not used yet and with
    the break below 2^31: the pointers it holds then are to memory below the
    break, and the bytes asked for do not overlap.  Without the limit on the sizes
    this does not hold ([malloc_wraps]). *)
Theorem malloc_free_disjoint fuel rs h :
  (forall x, grow x = true -> x < 2 ^ 31) -> freep h = 0 -> 0 < base < brk h -> brk h < 2 ^ 31 ->
  Forall size_ok rs -> (4 * length rs + 8 < fuel)%nat ->
  exists h' live, prog_run base grow fuel rs h [] = Ok (h', live) /\
    Forall (fun a => base < a.1 /\ a.1 + a.2 <= brk h') live /\
    forall i j a b, i <> j -> live !! i = Some a -> live !! j = Some b -> a.1 + a.2 <= b.1 \/ b.1 + b.2 <= a.1.
Proof.
  intros Hg Hf H0 Hb Hrs Hfuel.
  destruct (prog_run_ok base grow Hg fuel rs h [] [] []) as (h' & fl & alloc & live & E & Hat & Hl); [by right|done|done|done|].
  exists h', live. split; [done|]. destruct Hat as [Hok|(_ & _ & _ & _ & ->)]; cycle 1.
  { apply Forall2_nil_inv_r in Hl as ->. split; [done|]. intros i j a b _ Ha. by rewrite lookup_nil in Ha. }
  destruct Hok as [_ _ _ _ Hsize Hal _ Hap _]. apply Forall_app in Hsize as [_ Hsize]. split.
  - apply Forall_lookup. intros i a Ha. destruct (Forall2_lookup_l _ _ _ _ _ Hl Ha) as (b & Eb & H1 & H2 & H3).
    rewrite Forall_lookup in Hsize, Hal. destruct (Hsize i b Eb) as [_ H4]. destruct (Hal i b Eb).
    unfold bend, sizeof_Header in *. lia.
  - intros i j a b Hij Ha Hb'. destruct (Forall2_lookup_l _ _ _ _ _ Hl Ha) as (c & Ec & H1 & H2 & H3).
    destruct (Forall2_lookup_l _ _ _ _ _ Hl Hb') as (d & Ed & H4 & H5 & H6).
    pose proof (apart_lookup _ i j c d Hap Hij Ec Ed) as [H|H]; unfold bend, sizeof_Header in *; [left|right]; lia.
Qed.

(** [malloc] hands out a block of enough units, apart from all the blocks
    handed out before and off the free list, whose memory was free or is new; it
    returns 0 only when the kernel refuses to move the break, and then the heap
    is as it was. *)
Theorem malloc_spec fuel nbytes h fl alloc :
  (forall x, grow x = true -> x < 2 ^ 31) -> heap_at base h fl alloc -> 0 <= nbytes <= 2 ^ 31 - 16 ->
  (4 * length fl + 8 < fuel)%nat ->
  exists h', malloc base grow fuel nbytes h = Ok (0, h') /\ grow (more_brk (units nbytes) h) = false /\
    heap_ok base h' fl alloc \/
  exists fl' b, malloc base grow fuel nbytes h = Ok (b.1 + sizeof_Header, h') /\
    nbytes <= sizeof_Header * (b.2 - 1) /\ heap_ok base h' fl' (b :: alloc) /\
    forall x, in_blocks x fl' \/ b.1 <= x < bend b <-> in_blocks x fl \/ brk h <= x < brk h'.
Proof.
  intros Hg Hat Hn Hfuel.
  destruct (malloc_ok base grow Hg fuel nbytes h fl alloc Hat Hn Hfuel) as [(h' & H)|(h' & fl' & b & E & Hb & [G1 G2 G3 _])].
  - exists h'. by left.
  - exists h'. right. by exists fl', b.
Qed.

(** [free] of a block handed out puts exactly its memory back on the free
    list, whose blocks stay ascending and never adjacent: what touches is
    coalesced. *)
Theorem free_spec fuel h fl alloc b :
  heap_ok base h fl (b :: alloc) -> (S (2 * length fl) < fuel)%nat ->
  exists h' fl', Umalloc.free fuel (b.1 + sizeof_Header) h = Ok h' /\ heap_ok base h' fl' alloc /\ brk h' = brk h /\
    forall x, in_blocks x fl' <-> in_blocks x fl \/ b.1 <= x < bend b.
Proof.
  intros Hok Hfuel. destruct (free_ok base fuel h fl alloc b Hok Hfuel) as (h' & fl' & E & [F1 F2 F3 _ _]).
  by exists h', fl'.
Qed.

(** Sizes are not checked for overflow.  The last seven sizes wrap around
    to a block with no room at all, and a request from 2 GB to 4 GB moves the
    break down. *)
Theorem malloc_wraps fuel nbytes nu h :
  2 ^ 32 - 7 <= nbytes < 2 ^ 32 -> 2 ^ 28 <= nu < 2 ^ 29 -> 8 * (2 ^ 29 - nu) <= brk h < 2 ^ 32 ->
  grow (brk h - 8 * (2 ^ 29 - nu)) = true ->
  malloc base grow fuel nbytes h = malloc base grow fuel 0 h /\ units nbytes = 1 /\
  brk (sbrk grow (s32 (nu * sizeof_Header)) h).2 = brk h - 8 * (2 ^ 29 - nu).
Proof.
  intros Hn Hnu Hb Hg. assert (units nbytes = 1) as Eu.
  { unfold units, sizeof_Header. replace (nbytes + 8 - 1) with (nbytes + 7 - 2 ^ 32 + 1 * 2 ^ 32) by lia.
    assert (u32 (nbytes + 7 - 2 ^ 32 + 1 * 2 ^ 32) = nbytes + 7 - 2 ^ 32) as ->.
    { unfold u32. rewrite Z.mod_add by done. apply Z.mod_small. lia. }
    rewrite (Z.div_small _ 8) by lia. done. }
  split; [unfold malloc; by rewrite Eu|]. split; [done|].
  assert (s32 (nu * sizeof_Header) = - (8 * (2 ^ 29 - nu))) as ->.
  { unfold sizeof_Header, s32. rewrite <- (Z.mod_unique (nu * 8 + 2 ^ 31) (2 ^ 32) 1 (nu * 8 - 2 ^ 31)); lia. }
  unfold sbrk. assert (u32 (brk h + - (8 * (2 ^ 29 - nu))) = brk h - 8 * (2 ^ 29 - nu)) as -> by (rewrite u32_small; lia).
  by rewrite Hg.
Qed.

End Theorems.

(** ** Instances *)

Definition demo_heap : heap := mkHeap (fun _ => mkHeader 0 0) 0 4096.
Definition demo_grow (x : Z) : bool := x <? 2 ^ 31.

Lemma demo_grow_user x : demo_grow x = true -> x < 2 ^ 31.
Proof. apply Z.ltb_lt. Qed.

Definition demo_requests : list request := [UMalloc 10; UMalloc 100; UFree 1; UMalloc 5; UFree 0].

Lemma malloc_free_disjoint_witness :
  exists h' live, prog_run 1000 demo_grow 50 demo_requests demo_heap [] = Ok (h', live) /\
    Forall (fun a => 1000 < a.1 /\ a.1 + a.2 <= brk h') live /\
    forall i j a b, i <> j -> live !! i = Some a -> live !! j = Some b -> a.1 + a.2 <= b.1 \/ b.1 + b.2 <= a.1.
Proof.
  apply (malloc_free_disjoint 1000 demo_grow 50 demo_requests demo_heap demo_grow_user); cbn; try done; try lia.
  repeat constructor; cbn; lia.
Defined.

Lemma malloc_spec_witness :
  exists h', Umalloc.malloc 1000 demo_grow 50 10 demo_heap = Ok (0, h') /\ demo_grow (more_brk (Umalloc.units 10) demo_heap) = false /\
    heap_ok 1000 h' [] [] \/
  exists fl' b, Umalloc.malloc 1000 demo_grow 50 10 demo_heap = Ok (b.1 + sizeof_Header, h') /\
    10 <= sizeof_Header * (b.2 - 1) /\ heap_ok 1000 h' fl' [b] /\
    forall x, in_blocks x fl' \/ b.1 <= x < bend b <-> in_blocks x [] \/ brk demo_heap <= x < brk h'.
Proof.
  apply (malloc_spec 1000 demo_grow 50 10 demo_heap [] [] demo_grow_user); [right; cbn; lia || done|lia|cbn; lia].
Defined.

(** A heap with one block handed out and none free. *)
Definition demo_used : heap := mkHeap (fun a => if a =? 1000 then mkHeader 1000 0 else mkHeader 0 3) 1000 8192.

Lemma demo_used_ok : heap_ok 1000 demo_used [] [(4096, 3)].
Proof. split; try done; cbn [app freep demo_used map]; try left; rewrite ?Forall_singleton; cbn; lia || done. Qed.

Lemma free_spec_witness :
  exists h' fl', Umalloc.free 5 (4096 + sizeof_Header) demo_used = Ok h' /\ heap_ok 1000 h' fl' [] /\
    brk h' = brk demo_used /\ forall x, in_blocks x fl' <-> in_blocks x [] \/ 4096 <= x < bend (4096, 3).
Proof. apply (free_spec 1000 5 demo_used [] [] (4096, 3) demo_used_ok). cbn. lia. Defined.

Lemma malloc_wraps_witness :
  let h := mkHeap (fun _ => mkHeader 0 0) 0 (2 ^ 20) in
  Umalloc.malloc 1000 demo_grow 50 (2 ^ 32 - 1) h = Umalloc.malloc 1000 demo_grow 50 0 h /\ Umalloc.units (2 ^ 32 - 1) = 1 /\
  brk (Umalloc.sbrk demo_grow (s32 ((2 ^ 29 - 1) * sizeof_Header)) h).2 = 2 ^ 20 - 8 * (2 ^ 29 - (2 ^ 29 - 1)).
Proof. apply (malloc_wraps 1000 demo_grow 50 (2 ^ 32 - 1) (2 ^ 29 - 1)); cbn; try lia; done. Defined.
