(* ===== verification/Sh.v ===== *)
(** The shell, [sh.c]: the parser, [nulterminate], [runcmd], [getcmd] and [main].

    The parser reads the line buffer, a part of the byte memory [m], through
    pointers; a [struct cmd *] is an index into the list of the objects made so
    far, so that the [execcmd] that [parseexec] fills in after wrapping it in
    redirections is one shared object, as in the code.  [malloc] of an object is
    taken to succeed.

    What runs is a tree of system calls: each node is a call and what the program
    does with each result.  [fork] appears once, with 0 as the result in the child. *)

From S2P Require Import Prelude CString.

Definition MAXARGS : nat := 10.
Definition O_RDONLY : Z := 0x000.
Definition O_WRONLY : Z := 0x001.
Definition O_RDWR : Z := 0x002.
Definition O_CREATE : Z := 0x200.

(** [struct execcmd], [redircmd], [pipecmd], [listcmd] and [backcmd]; a null
    pointer in [argv] is 0. *)
Inductive cmdobj :=
| EXEC (argv eargv : list Z)
| REDIR (cmd : nat) (file efile mode fd : Z)
| PIPE (left right : nat)
| LIST (left right : nat)
| BACK (cmd : nat).

(** The position in the buffer, [*ps], and the objects. *)
Record pst := mkPst { ps : Z; objs : list cmdobj }.
#[export] Instance pst_eta : Eta pst := fun x => mkPst (ps x) (objs x).
Definition set_ps := ltac:(setter ps).
Definition set_objs := ltac:(setter objs).

(** The system calls of the shell.  Strings are pointers; a call that takes one
    has the memory of the process at that time, which the kernel reads it from.
    [Printf] has the format, spelled as in the source, and the string it prints. *)
Inductive call :=
| Fork | Wait | Close (fd : Z) | Dup (fd : Z) | Open (m : mem) (path mode : Z) | Exec (m : mem) (path : Z) (argv : list Z)
| Chdir (m : mem) (path : Z) | Printf (fmt : string) (arg : option (mem * Z)) | ReadByte.

Inductive prog :=
| Exit
| Call (c : call) (k : Z -> prog)
| Pipe (k : Z -> Z -> Z -> prog)
| Stuck.

Module Sh.
Section Sh.
Implicit Types (m : mem) (es s : Z) (st : pst) (c : nat).

(** [" \t\r\n\v"] and ["<|>&;()"]. *)
Definition whitespace : list Z := [32; 9; 13; 10; 11].
Definition symbols : list Z := [60; 124; 62; 38; 59; 40; 41].

(** [strchr] in a constant string: it does not find the NUL. *)
Definition strchr (s : list Z) (x : Z) : bool := existsb (Z.eqb x) s.

(** [while(s < es && p( *s )) s++]; at most [n] rounds are left. *)
Fixpoint while_in m es (p : Z -> bool) (n : nat) s : Z :=
  match n with
  | O => s
  | S n => if (s <? es) && p (m s) then while_in m es p n (s + 1) else s
  end.

Definition skip m es (p : Z -> bool) s : Z := while_in m es p (Z.to_nat (es - s)) s.

Definition in_word (x : Z) : bool := negb (strchr whitespace x) && negb (strchr symbols x).

(** The token, [*q], [*eq] and the new position. *)
Definition gettoken m es s : Z * Z * Z * Z :=
  let s := skip m es (strchr whitespace) s in
  let q := s in
  let ret := m s in
  let (ret, s) :=
    (if ret =? 0 then (ret, s)
     else if strchr [124; 40; 41; 59; 38; 60] ret then (ret, s + 1)
     else if ret =? 62 then (if m (s + 1) =? 62 then (43, s + 2) else (ret, s + 1))
     else (97, skip m es in_word s)) in
  let eq := s in
  (ret, q, eq, skip m es (strchr whitespace) s).

Definition peek m es (toks : list Z) s : bool * Z :=
  let s := skip m es (strchr whitespace) s in
  (negb (m s =? 0) && strchr toks (m s), s).

(** ** Constructors *)

Definition new_obj (o : cmdobj) st : nat * pst := (length (objs st), set_objs (objs st ++ [o]) st).

Definition execcmd st : nat * pst := new_obj (EXEC (replicate MAXARGS 0) (replicate MAXARGS 0)) st.
Definition redircmd c (file efile mode fd : Z) st : nat * pst := new_obj (REDIR c file efile mode fd) st.
Definition pipecmd (l r : nat) st : nat * pst := new_obj (PIPE l r) st.
Definition listcmd (l r : nat) st : nat * pst := new_obj (LIST l r) st.
Definition backcmd c st : nat * pst := new_obj (BACK c) st.

(** ** Parsing *)

Section Parse.
Context (m : mem) (es : Z).

Definition peek_ (toks : list Z) st : bool * pst :=
  let (b, s) := peek m es toks (ps st) in (b, set_ps s st).

Definition gettoken_ st : Z * Z * Z * pst :=
  let '(t, q, eq, s) := gettoken m es (ps st) in (t, q, eq, set_ps s st).

Fixpoint parseredirs (fuel : nat) c st : res (nat * pst) :=
  match fuel with
  | O => OutOfFuel
  | S n =>
      let (b, st) := peek_ [60; 62] st in
      if b then
        let '(tok, _, _, st) := gettoken_ st in
        let '(t, q, eq, st) := gettoken_ st in
        if negb (t =? 97) then Panic "missing file for redirection"
        else
          let (c, st) :=
            (if tok =? 60 then redircmd c q eq O_RDONLY 0 st
             else if tok =? 62 then redircmd c q eq (Z.lor O_WRONLY O_CREATE) 1 st
             else if tok =? 43 then redircmd c q eq (Z.lor O_WRONLY O_CREATE) 1 st
             else (c, st)) in
          parseredirs n c st
      else Ok (c, st)
  end.

(** [cmd->argv[argc] = q; cmd->eargv[argc] = eq;] on the object [c]. *)
Definition set_arg c (argc : Z) (q eq : Z) st : res pst :=
  match objs st !! c with
  | Some (EXEC argv eargv) =>
      let? argv := zset "argv" argv argc q in
      let? eargv := zset "eargv" eargv argc eq in
      Ok (set_objs (<[c := EXEC argv eargv]> (objs st)) st)
  | _ => OOB "execcmd"
  end.

(** The loop of [parseexec]: the command, [argc] and the state. *)
Fixpoint parse_args (fuel : nat) c (ret : nat) (argc : Z) st : res (nat * Z * pst) :=
  match fuel with
  | O => OutOfFuel
  | S n =>
      let (b, st) := peek_ [124; 41; 38; 59] st in
      if b then Ok (ret, argc, st)
      else
        let '(tok, q, eq, st) := gettoken_ st in
        if tok =? 0 then Ok (ret, argc, st)
        else if negb (tok =? 97) then Panic "syntax"
        else
          let? st := set_arg c argc q eq st in
          let argc := argc + 1 in
          if Z.of_nat MAXARGS <=? argc then Panic "too many args"
          else
            let? (ret, st) := parseredirs n ret st in
            parse_args n c ret argc st
  end.

(** The loop of [parseline]. *)
Fixpoint parse_back (fuel : nat) c st : res (nat * pst) :=
  match fuel with
  | O => OutOfFuel
  | S n =>
      let (b, st) := peek_ [38] st in
      if b then
        let '(_, _, _, st) := gettoken_ st in
        let (c, st) := backcmd c st in parse_back n c st
      else Ok (c, st)
  end.

Fixpoint parseline (fuel : nat) st : res (nat * pst) :=
  match fuel with
  | O => OutOfFuel
  | S n =>
      let? (c, st) := parsepipe n st in
      let? (c, st) := parse_back n c st in
      let (b, st) := peek_ [59] st in
      if b then
        let '(_, _, _, st) := gettoken_ st in
        let? (r, st) := parseline n st in
        Ok (listcmd c r st)
      else Ok (c, st)
  end
with parsepipe (fuel : nat) st : res (nat * pst) :=
  match fuel with
  | O => OutOfFuel
  | S n =>
      let? (c, st) := parseexec n st in
      let (b, st) := peek_ [124] st in
      if b then
        let '(_, _, _, st) := gettoken_ st in
        let? (r, st) := parsepipe n st in
        Ok (pipecmd c r st)
      else Ok (c, st)
  end
with parseexec (fuel : nat) st : res (nat * pst) :=
  match fuel with
  | O => OutOfFuel
  | S n =>
      let (b, st) := peek_ [40] st in
      if b then parseblock n st
      else
        let (c, st) := execcmd st in
        let? (ret, st) := parseredirs n c st in
        let? (ret, argc, st) := parse_args n c ret 0 st in
        let? st := set_arg c argc 0 0 st in
        Ok (ret, st)
  end
with parseblock (fuel : nat) st : res (nat * pst) :=
  match fuel with
  | O => OutOfFuel
  | S n =>
      let (b, st) := peek_ [40] st in
      if negb b then Panic "parseblock"
      else
        let '(_, _, _, st) := gettoken_ st in
        let? (c, st) := parseline n st in
        let (b, st) := peek_ [41] st in
        if negb b then Panic "syntax - missing )"
        else
          let '(_, _, _, st) := gettoken_ st in
          parseredirs n c st
  end.
End Parse.

(** The loop of [nulterminate] on an [execcmd]. *)
Fixpoint nul_args (argv eargv : list Z) m : mem :=
  match argv, eargv with
  | q :: argv, eq :: eargv => if q =? 0 then m else nul_args argv eargv (store8 m eq 0)
  | _, _ => m
  end.

Fixpoint nulterminate (fuel : nat) (os : list cmdobj) c m : res mem :=
  match fuel with
  | O => OutOfFuel
  | S n =>
      match os !! c with
      | Some (EXEC argv eargv) => Ok (nul_args argv eargv m)
      | Some (REDIR c _ efile _ _) => let? m := nulterminate n os c m in Ok (store8 m efile 0)
      | Some (PIPE l r) | Some (LIST l r) => let? m := nulterminate n os l m in nulterminate n os r m
      | Some (BACK c) => nulterminate n os c m
      | None => OOB "cmd"
      end
  end.

(** The command, the objects, and the memory with the strings terminated; or what
    is left of the line, which is printed before [panic("syntax")]. *)
Inductive parsed := Parsed (c : nat) (os : list cmdobj) (m : mem) | Leftovers (s : Z).

Definition parsecmd (fuel : nat) m s : res parsed :=
  let? n := Kstring.strlen fuel m s in
  let es := s + n in
  let? (c, st) := parseline m es fuel (mkPst s []) in
  let (_, st) := peek_ m es [] st in
  if negb (ps st =? es) then Ok (Leftovers (ps st))
  else
    let? m := nulterminate fuel (objs st) c m in
    Ok (Parsed c (objs st) m).

(** ** Running *)

(** [printf(2, "%s\n", s); exit();] with a constant [s]. *)
Definition panic (msg : string) : prog := Call (Printf msg None) (fun _ => Exit).

(** [fork1], with what the child and the parent do. *)
Definition fork1 (child parent : prog) : prog :=
  Call Fork (fun pid => if pid =? -1 then panic "fork" else if pid =? 0 then child else parent).

(** [runcmd] does not return: what would run after it in a child is not
    reached.  It does not write to the memory [m]. *)
Fixpoint runcmd (fuel : nat) m (os : list cmdobj) c : prog :=
  match fuel with
  | O => Stuck
  | S n =>
      match os !! c with
      | Some (EXEC argv _) =>
          match argv with
          | [] => Stuck
          | a0 :: _ =>
              if a0 =? 0 then Exit
              else Call (Exec m a0 argv) (fun _ => Call (Printf "exec %s failed\n" (Some (m, a0))) (fun _ => Exit))
          end
      | Some (REDIR c file _ mode fd) =>
          Call (Close fd) (fun _ =>
          Call (Open m file mode) (fun r =>
          if r <? 0 then Call (Printf "open %s failed\n" (Some (m, file))) (fun _ => Exit)
          else runcmd n m os c))
      | Some (LIST l r) =>
          fork1 (runcmd n m os l) (Call Wait (fun _ => runcmd n m os r))
      | Some (PIPE l r) =>
          Pipe (fun res p0 p1 =>
          if res <? 0 then panic "pipe"
          else
            fork1 (Call (Close 1) (fun _ => Call (Dup p1) (fun _ => Call (Close p0) (fun _ =>
                   Call (Close p1) (fun _ => runcmd n m os l)))))
            (fork1 (Call (Close 0) (fun _ => Call (Dup p0) (fun _ => Call (Close p0) (fun _ =>
                    Call (Close p1) (fun _ => runcmd n m os r)))))
             (Call (Close p0) (fun _ => Call (Close p1) (fun _ =>
              Call Wait (fun _ => Call Wait (fun _ => Exit)))))))
      | Some (BACK c) => fork1 (runcmd n m os c) Exit
      | None => Stuck
      end
  end.

(** The loop of [gets], at index [i]; [k] is what follows.  A read gives a byte,
    or a number below 0 at the end of the input or on an error. *)
Fixpoint gets_loop (n : nat) m (buf : Z) (i : Z) (k : mem -> prog) : prog :=
  match n with
  | O => k (store8 m (buf + i) 0)
  | S n =>
      Call ReadByte (fun r =>
      if r <? 0 then k (store8 m (buf + i) 0)
      else
        let m := store8 m (buf + i) r in
        if (r =? 10) || (r =? 13) then k (store8 m (buf + (i + 1)) 0)
        else gets_loop n m buf (i + 1) k)
  end.

Definition gets m (buf max : Z) (k : mem -> prog) : prog := gets_loop (Z.to_nat (max - 1)) m buf 0 k.

(** [k] is told whether there is a line. *)
Definition getcmd m (buf nbuf : Z) (k : bool -> mem -> prog) : prog :=
  Call (Printf "$ " None) (fun _ =>
  let (m, _) := Ulib.u_memset m buf 0 nbuf in
  gets m buf nbuf (fun m => k (negb (m buf =? 0)) m)).

(** [runcmd(parsecmd(buf))]. *)
Definition run_line (fuel : nat) m (buf : Z) : prog :=
  match parsecmd fuel m buf with
  | Ok (Parsed c os m) => runcmd fuel m os c
  | Ok (Leftovers p) => Call (Printf "leftovers: %s\n" (Some (m, p))) (fun _ => panic "syntax")
  | Panic msg => panic msg
  | _ => Stuck
  end.

Section Main.
Context (buf : Z).

(** Make sure that three descriptors are open. *)
Fixpoint open_console (fuel : nat) m (console : Z) (k : prog) : prog :=
  match fuel with
  | O => Stuck
  | S n =>
      Call (Open m console O_RDWR) (fun fd =>
      if 0 <=? fd then if 3 <=? fd then Call (Close fd) (fun _ => k) else open_console n m console k
      else k)
  end.

(** At most [rounds] lines are read. *)
Fixpoint main_loop (rounds fuel : nat) m : prog :=
  match rounds with
  | O => Stuck
  | S n =>
      getcmd m buf 100 (fun more m =>
      if negb more then Exit
      else if (m buf =? 99) && (m (buf + 1) =? 100) && (m (buf + 2) =? 32) then
        match Kstring.strlen fuel m buf with
        | Ok len =>
            let m := store8 m (buf + (len - 1)) 0 in
            Call (Chdir m (buf + 3)) (fun r =>
            if r <? 0 then Call (Printf "cannot cd %s\n" (Some (m, buf + 3))) (fun _ => main_loop n fuel m)
            else main_loop n fuel m)
        | _ => Stuck
        end
      else fork1 (run_line fuel m buf) (Call Wait (fun _ => main_loop n fuel m)))
  end.

Definition main (rounds fuel : nat) (console : Z) m : prog :=
  open_console fuel m console (main_loop rounds fuel m).
End Main.
End Sh.
End Sh.
