(* ===== verification/ShFacts.v ===== *)
(** Theorems on the shell: the parser stops on every line, and builds for every
    line of the grammar the command it spells; a pipeline runs each of its
    commands with the descriptors of the pipes next to it. *)

From S2P Require Import Prelude CString Sh.

(** * Outcomes *)

(** A call that returns a value with [Q], or ends in [panic]. *)
Definition ends {A} (Q : A -> Prop) (r : res A) : Prop :=
  match r with Ok a => Q a | Panic _ => True | _ => False end.

Lemma ends_bind {A B} (Q : A -> Prop) (R : B -> Prop) (r : res A) (k : A -> res B) :
  ends Q r -> (forall a, Q a -> ends R (k a)) -> ends R (res_bind r k).
Proof. destruct r; cbn; auto. Qed.

(** * Scanning *)

Section Scan.
Import Sh.
Context (m : mem) (es : Z).
Implicit Types (s q e : Z) (p : Z -> bool).

Lemma while_in_spec p : forall n s, (Z.to_nat (es - s) <= n)%nat -> s <= es ->
  let s' := while_in m es p n s in
  s <= s' <= es /\ (forall x, s <= x < s' -> p (m x) = true) /\ (s' = es \/ p (m s') = false).
Proof.
  induction n as [|n IH]; intros s Hn Hs; cbn [while_in].
  { split; [lia|]. split; [lia|left; lia]. }
  destruct (Z.ltb_spec s es) as [Hlt|Hge]; cbn [andb].
  2: { split; [lia|]. split; [lia|left; lia]. }
  destruct (p (m s)) eqn:Ep.
  2: { split; [lia|]. split; [lia|by right]. }
  destruct (IH (s + 1)) as (H1 & H2 & H3); [lia|lia|]. split; [lia|]. split; [|done].
  intros x Hx. destruct (decide (x = s)) as [->|]; [done|]. apply H2. lia.
Qed.

Lemma skip_spec p s : s <= es ->
  s <= skip m es p s <= es /\ (forall x, s <= x < skip m es p s -> p (m x) = true) /\
  (skip m es p s = es \/ p (m (skip m es p s)) = false).
Proof. intros Hs. by apply while_in_spec. Qed.

Lemma skip_to p s s' : s <= s' <= es -> (forall x, s <= x < s' -> p (m x) = true) ->
  (s' = es \/ p (m s') = false) -> skip m es p s = s'.
Proof.
  intros Hs Hin Hend. destruct (skip_spec p s) as (H1 & H2 & H3); [lia|].
  destruct (Z.lt_trichotomy (skip m es p s) s') as [H|[H|H]]; [|done|].
  - destruct H3 as [H3|H3]; [lia|]. rewrite Hin in H3 by lia. done.
  - destruct Hend as [Hend|Hend]; [lia|]. rewrite H2 in Hend by lia. done.
Qed.

(** A NUL ends the buffer, and there is none before. *)
Context (Hend : m es = 0).

Lemma gettoken_range s t q e s' : s <= es -> gettoken m es s = (t, q, e, s') ->
  s <= q <= e /\ e <= s' <= es /\ (t <> 0 -> q < e).
Proof.
  intros Hs. unfold gettoken. destruct (skip_spec (strchr whitespace) s Hs) as (H1 & _ & H3).
  set (s1 := skip m es (strchr whitespace) s) in *.
  destruct (Z.eqb_spec (m s1) 0) as [E0|E0].
  { intros [= <- <- <- <-]. pose proof (skip_spec (strchr whitespace) s1 ltac:(lia)). lia. }
  assert (s1 < es) as Hlt by (destruct (decide (s1 = es)); [congruence|lia]).
  assert (forall a, s1 < a <= es -> s <= s1 <= a /\ a <= skip m es (strchr whitespace) a <= es /\ (t <> 0 -> s1 < a)) as Hgo.
  { intros a Ha. pose proof (skip_spec (strchr whitespace) a ltac:(lia)). lia. }
  destruct (strchr [124; 40; 41; 59; 38; 60] (m s1)) eqn:E1; [intros [= _ <- <- <-]; apply Hgo; lia|].
  destruct (Z.eqb_spec (m s1) 62) as [E2|E2].
  - destruct (Z.eqb_spec (m (s1 + 1)) 62) as [E3|E3]; intros [= _ <- <- <-]; apply Hgo; [|lia].
    destruct (decide (s1 + 1 = es)) as [Ee|Ee]; [rewrite Ee in E3; congruence|lia].
  - intros [= _ <- <- <-]. apply Hgo. destruct (skip_spec in_word s1) as (H4 & H5 & H6); [lia|].
    assert (in_word (m s1) = true) as Hw.
    { destruct H3 as [H3|H3]; [lia|]. unfold in_word. rewrite H3. cbn [negb andb].
      unfold strchr, symbols in *. cbn in *. rewrite !orb_false_iff in E1. rewrite (proj2 (Z.eqb_neq _ _) E2).
      destruct E1 as (-> & -> & -> & -> & -> & -> & _). done. }
    destruct (decide (skip m es in_word s1 = s1)) as [E|E]; [|lia]. rewrite E in H6.
    destruct H6 as [H6|H6]; [lia|congruence].
Qed.

Lemma peek_range toks s b s' : s <= es -> peek m es toks s = (b, s') ->
  s <= s' <= es /\ (b = true -> m s' <> 0 /\ strchr toks (m s') = true).
Proof.
  intros Hs. unfold peek. intros [= <- <-]. destruct (skip_spec (strchr whitespace) s Hs) as (H1 & _ & _).
  split; [lia|]. rewrite andb_true_iff, negb_true_iff, Z.eqb_neq. done.
Qed.

(** What was peeked at is a token. *)
Lemma peeked_token toks s s' t q e s'' : s <= es -> peek m es toks s = (true, s') ->
  gettoken m es s' = (t, q, e, s'') -> s' < s'' <= es.
Proof.
  intros Hs Hp Hg. destruct (peek_range _ _ _ _ Hs Hp) as [H1 H2]. destruct H2 as [H2 _]; [done|].
  assert (s' <= es) as Hs' by lia. destruct (gettoken_range _ _ _ _ _ Hs' Hg) as (H3 & H4 & H5).
  assert (t <> 0) as Ht; [|specialize (H5 Ht); lia]. revert Hg. unfold gettoken.
  assert (skip m es (strchr whitespace) s' = s') as ->.
  { unfold peek in Hp. injection Hp as _ <-. destruct (skip_spec (strchr whitespace) s Hs) as (H6 & _ & H8).
    apply skip_to; [lia|intros x Hx; lia|done]. }
  rewrite (proj2 (Z.eqb_neq _ _) H2). destruct (strchr _ (m s')); [by intros [= <- _ _ _]|].
  destruct (m s' =? 62); [|by intros [= <- _ _ _]]. by destruct (m (s' + 1) =? 62); intros [= <- _ _ _].
Qed.
End Scan.

(** * The parser stops *)

(** The members of an object come before it, and its arrays have their size. *)
Definition obj_ok (i : nat) (o : cmdobj) : Prop :=
  match o with
  | EXEC argv eargv => length argv = MAXARGS /\ length eargv = MAXARGS
  | REDIR c _ _ _ _ | BACK c => (c < i)%nat
  | PIPE l r | LIST l r => (l < i)%nat /\ (r < i)%nat
  end.
Definition objs_ok (os : list cmdobj) : Prop := forall i o, os !! i = Some o -> obj_ok i o.

Definition is_exec (os : list cmdobj) (c : nat) : Prop := exists argv eargv, os !! c = Some (EXEC argv eargv).

(** Every object but [e] is as before. *)
Definition ext_but (e : option nat) (os os' : list cmdobj) : Prop :=
  (length os <= length os')%nat /\ forall i o, Some i <> e -> os !! i = Some o -> os' !! i = Some o.

Section Objs.
Import Sh.
Implicit Types (os : list cmdobj) (c : nat) (st : pst) (e : option nat).

Lemma ext_refl e os : ext_but e os os.
Proof. by split. Qed.

Lemma ext_trans e os1 os2 os3 : ext_but e os1 os2 -> ext_but e os2 os3 -> ext_but e os1 os3.
Proof. intros [H1 H2] [H3 H4]. split; [lia|]. intros i o Hi Ho. auto. Qed.

Lemma ext_weaken e os1 os2 : ext_but None os1 os2 -> ext_but e os1 os2.
Proof. intros [H1 H2]. split; [done|]. intros i o _. by apply H2. Qed.

(** What was there before [e] was made. *)
Lemma ext_before os1 os2 : ext_but (Some (length os1)) os1 os2 -> ext_but None os1 os2.
Proof.
  intros [H1 H2]. split; [done|]. intros i o _ Ho. apply H2; [|done]. intros [= ->].
  apply lookup_lt_Some in Ho. lia.
Qed.

Lemma ext_app os l : ext_but None os (os ++ l).
Proof. split; [rewrite length_app; lia|]. intros i o _ Ho. by apply lookup_app_l_Some. Qed.

Lemma objs_ok_app os o : objs_ok os -> obj_ok (length os) o -> objs_ok (os ++ [o]).
Proof.
  intros Hos Ho i o' [H|[H1 H2]]%lookup_app_Some; [by apply Hos|].
  apply list_lookup_singleton_Some in H2 as [H2 <-]. by replace i with (length os) by lia.
Qed.

Lemma ext_exec os os' c : ext_but None os os' -> is_exec os c -> is_exec os' c.
Proof. intros [_ H] (a & b & E). exists a, b. by apply H. Qed.

(** The position moved on, and the objects made are few. *)
Record moved (es : Z) (e : option nat) (k : Z) st st' : Prop := {
  mv_ps : ps st <= ps st' <= es;
  mv_ext : ext_but e (objs st) (objs st');
  mv_ok : objs_ok (objs st');
  mv_len : Z.of_nat (length (objs st')) <= Z.of_nat (length (objs st)) + 2 * (ps st' - ps st) + k
}.

Lemma moved_trans es e k1 k2 st1 st2 st3 :
  moved es e k1 st1 st2 -> moved es e k2 st2 st3 -> moved es e (k1 + k2) st1 st3.
Proof. intros [A1 A2 A3 A4] [B1 B2 B3 B4]. split; [lia|by eapply ext_trans|done|lia]. Qed.

Lemma moved_weaken es e e' k k' st1 st2 :
  moved es e k st1 st2 -> k <= k' -> (e = None \/ e = e') -> moved es e' k' st1 st2.
Proof. intros [A1 A2 A3 A4] Hk [->| ->]; (split; [done| |done|lia]); [by apply ext_weaken|done]. Qed.

(** Skipping ahead pays for two objects per byte. *)
Lemma moved_skip es e k st s : objs_ok (objs st) -> ps st <= s <= es -> - 2 * (s - ps st) <= k ->
  moved es e k st (set_ps s st).
Proof. intros H1 H2 H3. split; [done|apply ext_refl|done|cbn; lia]. Qed.

Lemma moved_new es e o st : objs_ok (objs st) -> ps st <= es -> obj_ok (length (objs st)) o ->
  moved es e 1 st (new_obj o st).2 /\ ((new_obj o st).1 < length (objs (new_obj o st).2))%nat.
Proof.
  intros H1 H2 H3. cbn. rewrite length_app. cbn. split; [|lia].
  split; cbn; [lia|apply ext_weaken, ext_app|by apply objs_ok_app|rewrite length_app; cbn; lia].
Qed.

Lemma set_arg_ok es st c argc q eq :
  objs_ok (objs st) -> ps st <= es -> is_exec (objs st) c -> 0 <= argc < Z.of_nat MAXARGS ->
  exists st', set_arg c argc q eq st = Ok st' /\ moved es (Some c) 0 st st' /\ ps st' = ps st /\ is_exec (objs st') c.
Proof.
  intros Hos Hs (a & b & E) Hc. destruct (Hos _ _ E) as [Ha Hb]. unfold set_arg. rewrite E.
  rewrite !zset_in by lia. cbn [res_bind]. eexists. split; [done|].
  pose proof (lookup_lt_Some _ _ _ E) as Hlt. split; [|split; [done|]].
  - split; cbn; [lia| | |rewrite length_insert; lia].
    + split; [by rewrite length_insert|]. intros i o Hi Ho. rewrite list_lookup_insert_ne; [done|congruence].
    + intros i o. rewrite list_lookup_insert_Some. intros [(<- & <- & _)|[_ Hi]]; [|by apply Hos].
      cbn. by rewrite !length_insert.
  - cbn. do 2 eexists. by apply list_lookup_insert_eq.
Qed.
End Objs.

Section Total.
Import Sh.
Context (m : mem) (es : Z) (Hend : m es = 0).
Implicit Types (st : pst) (c : nat) (fuel : nat).

Lemma peek_go toks st : ps st <= es -> exists b s, peek_ m es toks st = (b, set_ps s st) /\ ps st <= s <= es /\
  (b = true -> exists t q e s2, gettoken_ m es (set_ps s st) = (t, q, e, set_ps s2 st) /\ s < s2 <= es).
Proof.
  intros Hs. unfold peek_, gettoken_. destruct (peek m es toks (ps st)) as [b s] eqn:E. exists b, s. split; [done|].
  destruct (peek_range _ _ _ _ _ _ Hs E) as [H1 H2]. split; [done|]. intros ->. cbn [ps set_ps].
  destruct (gettoken m es s) as [[[t q] e] s2] eqn:Eg. exists t, q, e, s2. split; [done|].
  by apply (peeked_token m es Hend toks (ps st) s t q e s2).
Qed.

Lemma gettoken_go st : ps st <= es -> exists t q e s, gettoken_ m es st = (t, q, e, set_ps s st) /\ ps st <= s <= es /\
  (t <> 0 -> ps st < s).
Proof.
  intros Hs. unfold gettoken_. destruct (gettoken m es (ps st)) as [[[t q] e] s] eqn:E. exists t, q, e, s.
  split; [done|]. destruct (gettoken_range m es Hend _ _ _ _ _ Hs E) as (H1 & H2 & H3).
  split; [lia|]. intros Ht. specialize (H3 Ht). lia.
Qed.

(** A command [r.1] was parsed. *)
Definition made (k : Z) st (r : nat * pst) : Prop := moved es None k st r.2 /\ (r.1 < length (objs r.2))%nat.

Lemma made_after k k1 k2 st st1 r : moved es None k1 st st1 -> k1 + k2 <= k -> made k2 st1 r -> made k st r.
Proof.
  intros H1 Hk [H2 H3]. split; [|done]. eapply moved_weaken; [by eapply moved_trans|done|by left].
Qed.

Lemma ends_after k k1 k2 st st1 (r : res (nat * pst)) :
  moved es None k1 st st1 -> k1 + k2 <= k -> ends (made k2 st1) r -> ends (made k st) r.
Proof. intros H1 Hk. destruct r; cbn; auto. by apply (made_after k k1 k2 st st1). Qed.

Lemma parseredirs_total fuel : forall c st, objs_ok (objs st) -> (c < length (objs st))%nat -> ps st <= es ->
  es - ps st < Z.of_nat fuel -> ends (made 0 st) (parseredirs m es fuel c st).
Proof.
  induction fuel as [|n IH]; intros c st Hos Hc Hs Hf; [lia|]. cbn [parseredirs].
  destruct (peek_go [60; 62] st Hs) as (b & s & -> & Hsr & Hb).
  destruct b.
  2: { split; [|done]. apply moved_skip; [done|done|lia]. }
  destruct (Hb eq_refl) as (t & q & e & s2 & -> & Hs2).
  destruct (gettoken_go (set_ps s2 st)) as (t' & q' & e' & s3 & -> & Hs3 & _); [cbn; lia|]. cbn [ps set_ps] in Hs3.
  destruct (negb (t' =? 97)); [done|].
  set (st1 := set_ps s3 (set_ps s2 st)).
  assert (moved es None (-2) st st1) as M1 by (apply (moved_skip es None (-2) st s3); [done|lia|lia]).
  assert (forall o, obj_ok (length (objs st)) o -> ends (made 0 st) (let (c, st) := new_obj o st1 in parseredirs m es n c st)) as Hgo.
  { intros o Ho. destruct (moved_new es None o st1 Hos) as [M2 Hc2]; [cbn; lia|done|].
    destruct (new_obj o st1) as [c' st2] eqn:E. cbn [fst snd] in *.
    assert (ps st2 = s3) as Ep by (unfold new_obj in E; by injection E as _ <-).
    eapply (ends_after 0 (-1) 0); [by apply (moved_trans _ _ (-2) 1 _ _ _ M1 M2)|done|].
    apply IH; [apply (mv_ok _ _ _ _ _ M2)|done|lia|lia]. }
  unfold redircmd. destruct (t =? 60); [by apply Hgo|]. destruct (t =? 62); [by apply Hgo|].
  destruct (t =? 43); [by apply Hgo|].
  eapply (ends_after 0 (-2) 0); [done|done|]. apply IH; [done|done|cbn; lia|cbn; lia].
Qed.

Lemma parse_back_total fuel : forall c st, objs_ok (objs st) -> (c < length (objs st))%nat -> ps st <= es ->
  es - ps st < Z.of_nat fuel -> ends (made 0 st) (parse_back m es fuel c st).
Proof.
  induction fuel as [|n IH]; intros c st Hos Hc Hs Hf; [lia|]. cbn [parse_back].
  destruct (peek_go [38] st Hs) as (b & s & -> & Hsr & Hb). destruct b.
  2: { split; [|done]. apply moved_skip; [done|done|lia]. }
  destruct (Hb eq_refl) as (t & q & e & s2 & -> & Hs2). unfold backcmd.
  assert (moved es None (-2) st (set_ps s2 st)) as M1 by (apply moved_skip; [done|lia|lia]).
  destruct (moved_new es None (BACK c) (set_ps s2 st) Hos) as [M2 Hc2]; [cbn; lia|done|].
  destruct (new_obj (BACK c) (set_ps s2 st)) as [c' st2] eqn:E. cbn [fst snd] in *.
  assert (ps st2 = s2) as Ep by (unfold new_obj in E; by injection E as _ <-).
  eapply (ends_after 0 (-1) 0); [by apply (moved_trans _ _ (-2) 1 _ _ _ M1 M2)|done|].
  apply IH; [apply (mv_ok _ _ _ _ _ M2)|done|lia|lia].
Qed.

(** The object [e] that is being filled stays an [execcmd]. *)
Lemma parse_args_total fuel : forall e ret argc st, objs_ok (objs st) -> is_exec (objs st) e ->
  (ret < length (objs st))%nat -> ps st <= es -> 0 <= argc < Z.of_nat MAXARGS -> es - ps st < Z.of_nat fuel ->
  ends (fun r => moved es (Some e) 0 st r.2 /\ is_exec (objs r.2) e /\ (r.1.1 < length (objs r.2))%nat /\
    0 <= r.1.2 < Z.of_nat MAXARGS) (parse_args m es fuel e ret argc st).
Proof.
  induction fuel as [|n IH]; intros e ret argc st Hos He Hr Hs Ha Hf; [lia|]. cbn [parse_args].
  destruct (peek_go [124; 41; 38; 59] st Hs) as (b & s & -> & Hsr & _).
  destruct b; [split; [apply moved_skip; [done|done|lia]|done]|].
  destruct (gettoken_go (set_ps s st)) as (t & q & eq & s2 & -> & Hs2 & Ht); [cbn; lia|]. cbn [ps set_ps] in Hs2, Ht.
  destruct (Z.eqb_spec t 0) as [E0|E0]; [split; [apply (moved_skip es _ 0 st s2); [done|lia|lia]|done]|].
  specialize (Ht E0). destruct (negb (t =? 97)); [done|].
  set (st1 := set_ps s2 (set_ps s st)).
  assert (moved es (Some e) (-2) st st1) as M1 by (apply (moved_skip es _ (-2) st s2); [done|lia|lia]).
  destruct (set_arg_ok es st1 e argc q eq) as (st2 & -> & M2 & Ep2 & He2); [done|cbn; lia|done|done|].
  cbn [res_bind]. cbn [ps st1 set_ps] in Ep2.
  destruct (Z.leb_spec (Z.of_nat MAXARGS) (argc + 1)); [done|].
  eapply ends_bind.
  { apply (parseredirs_total n ret st2); [apply (mv_ok _ _ _ _ _ M2)| |lia|lia].
    pose proof (mv_ext _ _ _ _ _ M2) as [H1 _]. cbn in H1. lia. }
  intros [ret' st3] [M3 Hr3]. cbn [fst snd] in *.
  pose proof (mv_ps _ _ _ _ _ M3) as Hp3. pose proof (mv_ext _ _ _ _ _ M3) as Hx3.
  assert (moved es (Some e) (-2) st st3) as M4.
  { eapply (moved_weaken _ _ _ (-2 + 0 + 0)); [|lia|by right]. eapply moved_trans; [by eapply moved_trans|].
    eapply moved_weaken; [done|lia|by left]. }
  specialize (IH e ret' (argc + 1) st3 (mv_ok _ _ _ _ _ M3) (ext_exec _ _ _ Hx3 He2) Hr3 ltac:(lia) ltac:(lia) ltac:(lia)).
  destruct (parse_args m es n e ret' (argc + 1) st3); try done. destruct IH as [M5 IH]. split; [|done].
  eapply moved_weaken; [by eapply moved_trans|lia|by right].
Qed.
(** [f] parses from every position that its fuel allows. *)
Definition total_at (need : Z) (f : pst -> res (nat * pst)) (n : nat) : Prop :=
  forall st, objs_ok (objs st) -> ps st <= es -> 4 * (es - ps st) + need <= Z.of_nat n -> ends (made 1 st) (f st).

(** The right operand of [;] and of [|], after the left one and [toks]. *)
Lemma operand_total toks (mk : nat -> nat -> cmdobj) (f : pst -> res (nat * pst)) need n st0 st c :
  (forall l r i, (l < i)%nat -> (r < i)%nat -> obj_ok i (mk l r)) -> total_at need f n -> need <= 4 ->
  made 1 st0 (c, st) -> ps st0 <= es -> 4 * (es - ps st0) <= Z.of_nat n ->
  ends (made 1 st0)
    (let (b, st) := peek_ m es toks st in
     if b then let '(_, _, _, st) := gettoken_ m es st in let? (r, st) := f st in Ok (new_obj (mk c r) st)
     else Ok (c, st)).
Proof.
  intros Hmk Hf Hneed [M0 Hc] Hs0 Hn. cbn [fst snd] in *. pose proof (mv_ps _ _ _ _ _ M0) as Hp0.
  pose proof (mv_ok _ _ _ _ _ M0) as Hos.
  destruct (peek_go toks st) as (b & s & -> & Hsr & Hb); [lia|]. destruct b.
  2: { split; [|done]. eapply (moved_weaken _ _ _ (1 + 0)); [eapply moved_trans; [done|]|lia|by left].
       apply (moved_skip es _ 0 st s); [done|lia|lia]. }
  destruct (Hb eq_refl) as (t & q & e & s2 & -> & Hs2).
  assert (moved es None (-1) st0 (set_ps s2 st)) as M1.
  { eapply (moved_weaken _ _ _ (1 + -2)); [eapply moved_trans; [done|]|lia|by left].
    apply (moved_skip es _ (-2) st s2); [done|lia|lia]. }
  eapply ends_bind; [apply (Hf (set_ps s2 st)); [done|cbn; lia|cbn; lia]|].
  intros [r st2] [M2 Hr]. cbn [fst snd ends] in *. pose proof (mv_ps _ _ _ _ _ M2) as Hp2.
  destruct (moved_new es None (mk c r) st2) as [M3 Hr3]; [apply (mv_ok _ _ _ _ _ M2)|lia| |].
  { apply Hmk; [|done]. pose proof (mv_ext _ _ _ _ _ M2) as [H _]. cbn in H. lia. }
  split; [|done]. eapply (moved_weaken _ _ _ (-1 + (1 + 1))); [|lia|by left].
  eapply moved_trans; [done|]. by eapply moved_trans.
Qed.

Lemma exec_total n : total_at 1 (parseblock m es n) n -> total_at 2 (parseexec m es (S n)) (S n).
Proof.
  intros IHb st Hos Hs Hn.
  cbn [parseexec]. destruct (peek_go [40] st Hs) as (b & s & -> & Hsr & _).
  assert (moved es None 0 st (set_ps s st)) as M0 by (apply moved_skip; [done|lia|lia]).
  destruct b; [apply (ends_after 1 0 1 st (set_ps s st)); [done|lia|]; apply IHb; [done|cbn; lia|cbn; lia]|].
  unfold execcmd. set (o := EXEC _ _).
  destruct (moved_new es (Some (length (objs st))) o (set_ps s st) Hos) as [M1 Hc1]; [cbn; lia|done|].
  assert (is_exec (objs (new_obj o (set_ps s st)).2) (length (objs st))) as He1.
  { do 2 eexists. cbn. apply list_lookup_middle. done. }
  change (new_obj o (set_ps s st)) with (length (objs st), (new_obj o (set_ps s st)).2).
  set (st1 := (new_obj o (set_ps s st)).2) in *. change (new_obj o (set_ps s st)).1 with (length (objs st)) in Hc1.
  assert (ps st1 = s) as Ep1 by done. clearbody st1. set (e := length (objs st)) in *.
  eapply ends_bind; [apply (parseredirs_total n e st1); [apply (mv_ok _ _ _ _ _ M1)|done|lia|lia]|].
  intros [ret st2] [M2 Hr2]. cbn [fst snd] in *. pose proof (mv_ps _ _ _ _ _ M2) as Hp2.
  eapply ends_bind.
  { apply (parse_args_total n e ret 0 st2); [apply (mv_ok _ _ _ _ _ M2)| |done|lia|done|lia].
    by apply (ext_exec (objs st1)), He1; apply (mv_ext _ _ _ _ _ M2). }
  intros [[ret3 argc] st3] (M3 & He3 & Hr3 & Ha3). cbn [fst snd] in *. pose proof (mv_ps _ _ _ _ _ M3) as Hp3.
  destruct (set_arg_ok es st3 e argc 0 0) as (st4 & -> & M4 & Ep4 & _); [apply (mv_ok _ _ _ _ _ M3)|lia|done|done|].
  cbn [res_bind ends]. assert (moved es (Some e) 1 st st4) as M.
  { eapply (moved_weaken _ _ _ (0 + (1 + (0 + (0 + 0))))); [|lia|by right].
    eapply moved_trans; [by eapply moved_weaken; [..|left]|]. eapply moved_trans; [done|].
    eapply moved_trans; [eapply moved_weaken; [done|reflexivity|by left]|]. by eapply moved_trans. }
  split; [|cbn [fst snd]; pose proof (mv_ext _ _ _ _ _ M4) as [H _]; lia].
  destruct M as [A1 A2 A3 A4]. split; [done| |done|done]. by apply ext_before.
Qed.

Lemma block_total n : total_at 4 (parseline m es n) n -> total_at 1 (parseblock m es (S n)) (S n).
Proof.
  intros IHl st Hos Hs Hn.
  cbn [parseblock]. destruct (peek_go [40] st Hs) as (b & s & -> & Hsr & Hb). destruct b; [|done]. cbn [negb].
  destruct (Hb eq_refl) as (t & q & e & s2 & -> & Hs2).
  assert (moved es None (-2) st (set_ps s2 st)) as M0 by (apply moved_skip; [done|lia|lia]).
  eapply ends_bind; [apply (IHl (set_ps s2 st)); [done|cbn; lia|cbn; lia]|].
  intros [c st1] [M1 Hc1]. cbn [fst snd] in *. pose proof (mv_ps _ _ _ _ _ M1) as Hp1. cbn [ps set_ps] in Hp1.
  destruct (peek_go [41] st1) as (b2 & s3 & -> & Hsr3 & Hb3); [lia|]. destruct b2; [|done]. cbn [negb].
  destruct (Hb3 eq_refl) as (t3 & q3 & e3 & s4 & -> & Hs4).
  apply (ends_after 1 (-2 + (1 + 0)) 0 st (set_ps s4 st1)); [|lia|].
  + eapply moved_trans; [done|]. eapply moved_trans; [done|].
    apply moved_skip; [apply (mv_ok _ _ _ _ _ M1)|lia|lia].
  + apply parseredirs_total; [apply (mv_ok _ _ _ _ _ M1)|done|cbn; lia|cbn; lia].
Qed.

Lemma parse_total n :
  total_at 4 (parseline m es n) n /\ total_at 3 (parsepipe m es n) n /\ total_at 2 (parseexec m es n) n /\
  total_at 1 (parseblock m es n) n.
Proof.
  induction n as [|n (IHl & IHp & IHe & IHb)].
  { split_and!; intros st _ Hs Hn; lia. }
  split_and!; intros st Hos Hs Hn.
  - cbn [parseline]. eapply ends_bind; [apply IHp; [done|done|lia]|]. intros [c st1] [M1 Hc1]. cbn [fst snd] in *.
    pose proof (mv_ps _ _ _ _ _ M1) as Hp1.
    eapply ends_bind; [apply (parse_back_total n c st1); [apply (mv_ok _ _ _ _ _ M1)|done|lia|lia]|].
    intros [c2 st2] H2. apply (operand_total [59] LIST _ 4 n); [done|done|lia| |done|lia].
    by apply (made_after 1 1 0 st st1).
  - cbn [parsepipe]. eapply ends_bind; [apply IHe; [done|done|lia]|]. intros [c st1] M1.
    apply (operand_total [124] PIPE _ 3 n); [done|done|lia|done|done|lia].
  - by apply exec_total.
  - by apply block_total.
Qed.

End Total.

(** ** The whole line *)

(** No branch of the program ends where the model has no behaviour. *)
Fixpoint never_stuck (p : prog) : Prop :=
  match p with
  | Exit => True
  | Call _ k => forall r, never_stuck (k r)
  | Pipe k => forall r p0 p1, never_stuck (k r p0 p1)
  | Stuck => False
  end.

Section Line.
Import Sh.
Implicit Types (m : mem) (os : list cmdobj) (c : nat).

Lemma nulterminate_total fuel os : forall c m, objs_ok os -> (c < length os)%nat -> (c < fuel)%nat ->
  exists m', nulterminate fuel os c m = Ok m'.
Proof.
  induction fuel as [|n IH]; intros c m Hos Hc Hf; [lia|]. cbn [nulterminate].
  destruct (lookup_lt_is_Some_2 os c Hc) as [o Eo]. rewrite Eo. pose proof (Hos _ _ Eo) as Ho.
  destruct o as [a b|c' f ef md fd|l r|l r|c']; cbn [obj_ok] in Ho.
  - by eexists.
  - destruct (IH c' m) as [m' ->]; [done|lia|lia|]. by eexists.
  - destruct (IH l m) as [m' ->]; [done|lia|lia|]. cbn [res_bind]. apply IH; [done|lia|lia].
  - destruct (IH l m) as [m' ->]; [done|lia|lia|]. cbn [res_bind]. apply IH; [done|lia|lia].
  - apply IH; [done|lia|lia].
Qed.

Lemma fork1_total child parent : never_stuck child -> never_stuck parent -> never_stuck (fork1 child parent).
Proof. intros H1 H2 r. destruct (r =? -1); [done|]. by destruct (r =? 0). Qed.

Lemma runcmd_total fuel m os : forall c, objs_ok os -> (c < length os)%nat -> (c < fuel)%nat ->
  never_stuck (runcmd fuel m os c).
Proof.
  induction fuel as [|n IH]; intros c Hos Hc Hf; [lia|]. cbn [runcmd].
  destruct (lookup_lt_is_Some_2 os c Hc) as [o Eo]. rewrite Eo. pose proof (Hos _ _ Eo) as Ho.
  destruct o as [a b|c' f ef md fd|l r|l r|c']; cbn [obj_ok] in Ho.
  - destruct Ho as [Ha _]. destruct a as [|a0 a]; [done|]. by destruct (a0 =? 0).
  - cbn [never_stuck]. intros _ r. destruct (r <? 0); [done|]. apply IH; [done|lia|lia].
  - cbn [never_stuck]. intros res p0 p1. destruct (res <? 0); [done|].
    apply fork1_total; [intros _ _ _ _; apply IH; [done|lia|lia]|].
    apply fork1_total; [intros _ _ _ _; apply IH; [done|lia|lia]|]. by intros _ _ _ _.
  - apply fork1_total; [apply IH; [done|lia|lia]|]. intros _. apply IH; [done|lia|lia].
  - apply fork1_total; [apply IH; [done|lia|lia]|done].
Qed.

(** What [parsecmd] returns: a command built of well-formed objects, or leftovers. *)
Definition parsed_ok (r : parsed) : Prop :=
  match r with Parsed c os _ => objs_ok os /\ (c < length os)%nat | Leftovers _ => True end.

Lemma parsecmd_ends fuel m s l : cstr m s l -> (4 * length l + 4 <= fuel)%nat ->
  ends (fun r => parsed_ok r /\ match r with Parsed _ os _ => (length os <= fuel)%nat | Leftovers _ => True end) (parsecmd fuel m s).
Proof.
  intros Hl Hf. unfold parsecmd, Kstring.strlen.
  rewrite (strlen_from_spec l) by (rewrite ?Z.add_0_r; done || lia). cbn [res_bind].
  set (es := s + (0 + Z.of_nat (length l))). assert (es = s + Z.of_nat (length l)) as Ees by (unfold es; lia).
  assert (m es = 0) as Hend by (rewrite Ees; by apply cstr_end).
  destruct (parse_total m es Hend fuel) as (Hline & _).
  eapply ends_bind; [apply (Hline (mkPst s [])); [by intros i o Hi|cbn; lia|cbn; lia]|].
  intros [c st] [M Hc]. cbn [fst snd] in *. destruct M as [Hp _ Hos Hlen]. cbn in Hp, Hlen.
  destruct (peek_ m es [] st) as [b st2] eqn:E.
  assert (objs st2 = objs st) as Eo by (unfold peek_ in E; destruct (peek _ _ _ _); by injection E as _ <-).
  destruct (negb (ps st2 =? es)); [done|]. rewrite Eo.
  destruct (nulterminate_total fuel (objs st) c m Hos Hc) as [m' ->]; [lia|]. cbn. split; [done|]. lia.
Qed.

(** C34: the shell stops on every input line.  Parsing ends, with a command, with
    what is left of the line or with a syntax message, both followed by [exit]; the command that is run is built of
    well-formed objects, whatever the system calls return. *)
Theorem sh_line_total fuel m s l : cstr m s l -> (4 * length l + 4 <= fuel)%nat ->
  ends parsed_ok (parsecmd fuel m s) /\ never_stuck (run_line fuel m s).
Proof.
  intros Hl Hf. pose proof (parsecmd_ends fuel m s l Hl Hf) as H. unfold run_line.
  destruct (parsecmd fuel m s) as [[c os m'|p]| | | |]; cbn in H; try done.
  destruct H as ((H1 & H2) & H3). split; [done|]. apply runcmd_total; [done|done|lia].
Qed.
End Line.

(** ** Instances *)

(** [ls>f | wc] at address 100. *)
Definition demo_text : list Z := [108; 115; 62; 102; 32; 124; 32; 119; 99].
Definition demo_buf : mem := fun a => if a <? 100 then 0 else nth (Z.to_nat (a - 100)) demo_text 0.

Lemma demo_cstr : cstr demo_buf 100 demo_text.
Proof. cbn. done. Qed.

Lemma sh_line_total_witness :
  ends parsed_ok (Sh.parsecmd 40 demo_buf 100) /\
  never_stuck (Sh.run_line 40 demo_buf 100).
Proof. apply (sh_line_total 40 demo_buf 100 demo_text demo_cstr). cbn. lia. Defined.
