(* ===== verification/ShGrammar.v ===== *)
(** The language of the shell's parser: a grammar of command lines, the command
    each line stands for, and the theorem that [parsecmd] builds exactly that
    command from any spelling of the line.

    Lines are trees over words and redirections; [line_tokens] lists the tokens of
    a line, and [lex] says that a part of the buffer spells a list of tokens, with
    any white space between them.  [rep] reads a command off the objects of the
    parser. *)

From S2P Require Import Prelude CString Sh ShFacts.

(** * The grammar *)

Abbreviation word := (list Z).

Inductive rop := RIn | ROut | RAppend.
Abbreviation redir := (rop * word)%type.

(** [l & & ; l'], [e | p], and simple commands or blocks with redirections. *)
Inductive line :=
| LEnd (p : pipe) (back : nat)
| LSeq (p : pipe) (back : nat) (l : line)
with pipe :=
| PEnd (e : ex)
| PCons (e : ex) (p : pipe)
with ex :=
| Simple (rs : list redir) (args : list (word * list redir))
| Block (l : line) (rs : list redir).

Scheme line_mut := Induction for line Sort Prop
with pipe_mut := Induction for pipe Sort Prop
with ex_mut := Induction for ex Sort Prop.
Combined Scheme line_pipe_ex_ind from line_mut, pipe_mut, ex_mut.

(** ** Tokens *)

Inductive token := TWord (w : word) | TSym (c : Z) | TAppend.

Definition redir_tokens (r : redir) : list token :=
  [match r.1 with RIn => TSym 60 | ROut => TSym 62 | RAppend => TAppend end; TWord r.2].
Definition redirs_tokens (rs : list redir) : list token := concat (map redir_tokens rs).
Definition arg_tokens (a : word * list redir) : list token := TWord a.1 :: redirs_tokens a.2.

Fixpoint line_tokens (l : line) : list token :=
  match l with
  | LEnd p n => pipe_tokens p ++ replicate n (TSym 38)
  | LSeq p n l => pipe_tokens p ++ replicate n (TSym 38) ++ TSym 59 :: line_tokens l
  end
with pipe_tokens (p : pipe) : list token :=
  match p with
  | PEnd e => ex_tokens e
  | PCons e p => ex_tokens e ++ TSym 124 :: pipe_tokens p
  end
with ex_tokens (e : ex) : list token :=
  match e with
  | Simple rs args => redirs_tokens rs ++ concat (map arg_tokens args)
  | Block l rs => TSym 40 :: line_tokens l ++ TSym 41 :: redirs_tokens rs
  end.

(** A simple command has room for nine words. *)
Fixpoint line_fits (l : line) : Prop :=
  match l with LEnd p _ => pipe_fits p | LSeq p _ l => pipe_fits p /\ line_fits l end
with pipe_fits (p : pipe) : Prop :=
  match p with PEnd e => ex_fits e | PCons e p => ex_fits e /\ pipe_fits p end
with ex_fits (e : ex) : Prop :=
  match e with Simple _ args => (length args < MAXARGS)%nat | Block l _ => line_fits l end.

(** ** Commands *)

Inductive cmd :=
| CExec (ws : list word)
| CRedir (c : cmd) (file : word) (mode fd : Z)
| CPipe (l r : cmd)
| CList (l r : cmd)
| CBack (c : cmd).

Definition r_mode (r : redir) : Z := match r.1 with RIn => O_RDONLY | _ => Z.lor O_WRONLY O_CREATE end.
Definition r_fd (r : redir) : Z := match r.1 with RIn => 0 | _ => 1 end.

(** Redirections around a command, the outermost first. *)
Fixpoint wrap (c : cmd) (rs : list redir) : cmd :=
  match rs with [] => c | r :: rs => CRedir (wrap c rs) r.2 (r_mode r) (r_fd r) end.

Fixpoint backs (n : nat) (c : cmd) : cmd := match n with O => c | S n => CBack (backs n c) end.

(** The redirection written last is the outermost. *)
Fixpoint line_cmd (l : line) : cmd :=
  match l with
  | LEnd p n => backs n (pipe_cmd p)
  | LSeq p n l => CList (backs n (pipe_cmd p)) (line_cmd l)
  end
with pipe_cmd (p : pipe) : cmd :=
  match p with PEnd e => ex_cmd e | PCons e p => CPipe (ex_cmd e) (pipe_cmd p) end
with ex_cmd (e : ex) : cmd :=
  match e with
  | Simple rs args => wrap (CExec (map fst args)) (rev (rs ++ concat (map snd args)))
  | Block l rs => wrap (line_cmd l) (rev rs)
  end.

(** * Commands in memory *)

Section Rep.
Context (str : Z -> Z -> word -> Prop).
Implicit Types (os : list cmdobj) (rs : list redir) (p e : nat) (qs : list (Z * Z)).

Definition fill (l : list Z) : list Z := l ++ replicate (MAXARGS - length l) 0.

Fixpoint rep os p (c : cmd) : Prop :=
  match c with
  | CExec ws => exists qs, os !! p = Some (EXEC (fill (map fst qs)) (fill (map snd qs))) /\
      (length qs < MAXARGS)%nat /\ Forall2 (fun a w => str a.1 a.2 w) qs ws
  | CRedir c w mode fd => exists p' q eq, os !! p = Some (REDIR p' q eq mode fd) /\ str q eq w /\ rep os p' c
  | CPipe l r => exists p1 p2, os !! p = Some (PIPE p1 p2) /\ rep os p1 l /\ rep os p2 r
  | CList l r => exists p1 p2, os !! p = Some (LIST p1 p2) /\ rep os p1 l /\ rep os p2 r
  | CBack c => exists p', os !! p = Some (BACK p') /\ rep os p' c
  end.

Lemma rep_ext os os' c : forall p, ext_but None os os' -> rep os p c -> rep os' p c.
Proof.
  intros p [_ Hx]. revert p.
  induction c as [ws|c IH w mode fd|l IHl r IHr|l IHl r IHr|c IH]; intros p; cbn [rep].
  - intros (qs & H & Hq). exists qs. by rewrite (Hx _ _ ltac:(done) H).
  - intros (p' & q & eq & H & Hs & Hc). exists p', q, eq. rewrite (Hx _ _ ltac:(done) H). auto.
  - intros (p1 & p2 & H & H1 & H2). exists p1, p2. rewrite (Hx _ _ ltac:(done) H). auto.
  - intros (p1 & p2 & H & H1 & H2). exists p1, p2. rewrite (Hx _ _ ltac:(done) H). auto.
  - intros (p' & H & Hc). exists p'. rewrite (Hx _ _ ltac:(done) H). auto.
Qed.

(** Redirections [rs] from [p] down to the object [e]. *)
Fixpoint chain os p e rs : Prop :=
  match rs with
  | [] => p = e
  | r :: rs => exists p' q eq, os !! p = Some (REDIR p' q eq (r_mode r) (r_fd r)) /\ str q eq r.2 /\ chain os p' e rs
  end.

Lemma chain_app os p e rs1 rs2 : chain os p e (rs1 ++ rs2) <-> exists p', chain os p p' rs1 /\ chain os p' e rs2.
Proof.
  revert p. induction rs1 as [|r rs1 IH]; intros p; cbn [app chain].
  - split; [intros H; by exists p|by intros (p' & -> & H)].
  - split.
    + intros (p' & q & eq & H & Hs & (p2 & H1 & H2)%IH). exists p2. split; [|done]. by exists p', q, eq.
    + intros (p2 & (p' & q & eq & H & Hs & H1) & H2). exists p', q, eq. split; [done|]. split; [done|].
      apply IH. by exists p2.
Qed.

Lemma chain_ext os os' p e rs : is_exec os e -> ext_but (Some e) os os' -> chain os p e rs -> chain os' p e rs.
Proof.
  intros (a & b & He) [_ Hx]. revert p. induction rs as [|r rs IH]; intros p; cbn [chain]; [done|].
  intros (p' & q & eq & H & Hs & Hc). exists p', q, eq. split; [|auto]. apply Hx; [|done]. intros [= ->]. congruence.
Qed.

Lemma chain_ext_all os os' p e rs : ext_but None os os' -> chain os p e rs -> chain os' p e rs.
Proof.
  intros [_ Hx]. revert p. induction rs as [|r rs IH]; intros p; cbn [chain]; [done|].
  intros (p' & q & eq & H & Hs & Hc). exists p', q, eq. split; [by apply Hx|auto].
Qed.

Lemma rep_wrap os p e c rs : chain os p e rs -> rep os e c -> rep os p (wrap c rs).
Proof.
  revert p. induction rs as [|r rs IH]; intros p; cbn [chain wrap rep]; [by intros ->|].
  intros (p' & q & eq & H & Hs & Hc) He. exists p', q, eq. auto.
Qed.

Lemma fill_insert l x : (length l < MAXARGS)%nat -> <[length l := x]> (fill l) = fill (l ++ [x]).
Proof.
  intros H. unfold fill. rewrite insert_app_r_alt, Nat.sub_diag by done. rewrite length_app, <- app_assoc. cbn [length].
  destruct (MAXARGS - length l)%nat as [|k] eqn:E; [lia|]. cbn [replicate app].
  by replace (MAXARGS - (length l + 1))%nat with k by lia.
Qed.

Lemma fill_insert_0 l : (length l < MAXARGS)%nat -> <[length l := 0]> (fill l) = fill l.
Proof.
  intros H. apply list_insert_id. unfold fill. rewrite lookup_app_r, Nat.sub_diag by done.
  by destruct (MAXARGS - length l)%nat as [|k] eqn:E; [lia|].
Qed.

Lemma fill_length l : (length l <= MAXARGS)%nat -> length (fill l) = MAXARGS.
Proof. intros H. unfold fill. rewrite length_app, length_replicate. lia. Qed.
End Rep.

Lemma rep_mono (str str' : Z -> Z -> word -> Prop) os c : (forall q eq w, str q eq w -> str' q eq w) ->
  forall p, rep str os p c -> rep str' os p c.
Proof.
  intros Hs. induction c as [ws|c IH w mode fd|l IHl r IHr|l IHl r IHr|c IH]; intros p; cbn [rep].
  - intros (qs & H & Hl & Hq). exists qs. split; [done|]. split; [done|]. eapply Forall2_impl; [done|]. auto.
  - intros (p' & q & eq & H & Hw & Hc). exists p', q, eq. auto.
  - intros (p1 & p2 & H & H1 & H2). exists p1, p2. auto.
  - intros (p1 & p2 & H & H1 & H2). exists p1, p2. auto.
  - intros (p' & H & Hc). exists p'. auto.
Qed.

(** * Spelling *)

Definition wordch (x : Z) : bool := Sh.in_word x && negb (x =? 0).
Definition white : Z -> bool := Sh.strchr Sh.whitespace.

Section Lex.
Import Sh.
Context (m : mem) (lo es : Z).
Implicit Types (s b e : Z) (t : token) (ts : list token).

(** The bytes from [b] to [e] are the token [t], and it does not go on. *)
Definition text t b e : Prop :=
  match t with
  | TWord w => w <> [] /\ forallb wordch w = true /\ bstr m b w /\ e = b + Z.of_nat (length w) /\ e <= es /\ wordch (m e) = false
  | TSym c => m b = c /\ strchr symbols c = true /\ e = b + 1 /\ e <= es /\ (c = 62 -> m e <> 62)
  | TAppend => m b = 62 /\ m (b + 1) = 62 /\ e = b + 2 /\ e <= es
  end.

Inductive lex : Z -> list token -> Prop :=
| lex_nil s : lo <= s <= es -> (forall x, s <= x < es -> white (m x) = true) -> lex s []
| lex_cons s b e t ts :
    lo <= s <= b -> (forall x, s <= x < b -> white (m x) = true) -> text t b e -> lex e ts -> lex s (t :: ts).

Context (Hend : m es = 0) (Hin : forall x, lo <= x < es -> m x <> 0).

Lemma wordch_spec x : wordch x = true <-> in_word x = true /\ x <> 0.
Proof. unfold wordch. rewrite andb_true_iff, negb_true_iff, Z.eqb_neq. done. Qed.

Lemma wordch_not_white x : wordch x = true -> white x = false /\ strchr symbols x = false.
Proof.
  intros [H _]%wordch_spec. unfold in_word in H. rewrite andb_true_iff, !negb_true_iff in H. done.
Qed.

Lemma symbol_cases c : strchr symbols c = true -> white c = false /\ wordch c = false /\ c <> 0 /\
  (c = 62 \/ c <> 62 /\ strchr [124; 40; 41; 59; 38; 60] c = true).
Proof.
  intros H. unfold strchr, symbols in H. cbn in H. rewrite !orb_true_iff, !Z.eqb_eq in H.
  destruct_or! H; try done; subst c; (split_and!; [done|done|done|]); first [by left|by right].
Qed.

Lemma bstr_lookup b w x : bstr m b w -> b <= x < b + Z.of_nat (length w) -> w !! Z.to_nat (x - b) = Some (m x).
Proof.
  revert b. induction w as [|c w IH]; intros b; cbn [bstr length]; [lia|].
  intros [Hc Hw] Hx. destruct (decide (x = b)) as [->|Hne].
  - rewrite Z.sub_diag. cbn. by rewrite Hc.
  - replace (Z.to_nat (x - b)) with (S (Z.to_nat (x - (b + 1)))) by lia. cbn. apply IH; [done|lia].
Qed.

Lemma text_start t b e : text t b e -> b < e <= es /\ white (m b) = false /\ m b <> 0.
Proof.
  destruct t as [w|c|]; cbn [text].
  - intros (Hne & Hw & Hb & -> & He & _). destruct w as [|c w]; [done|]. cbn in Hw. apply andb_true_iff in Hw as [Hc _].
    cbn [bstr length] in *. destruct Hb as [-> _]. split; [lia|]. pose proof (wordch_not_white _ Hc) as [? _].
    apply wordch_spec in Hc as [_ Hc]. done.
  - intros (-> & Hc & -> & He & _). destruct (symbol_cases c Hc) as (H1 & _ & H2 & _). split; [lia|]. done.
  - intros (-> & H & -> & He). split; [lia|]. done.
Qed.

Lemma lex_range s ts : lex s ts -> lo <= s <= es.
Proof. destruct 1 as [s H|s b e t ts H _ Ht _]; [done|]. destruct (text_start _ _ _ Ht). lia. Qed.

(** Skipping white space. *)
Lemma lex_skip s ts : lex s ts -> lex (skip m es white s) ts /\
  match ts with [] => skip m es white s = es | t :: ts' => exists e, text t (skip m es white s) e /\ lex e ts' end.
Proof.
  destruct 1 as [s Hs Hw|s b e t ts Hs Hw Ht Hl].
  - rewrite (skip_to m es white s es); [|lia|done|by left]. split; [|done]. apply lex_nil; [lia|]. intros x Hx. lia.
  - pose proof (text_start _ _ _ Ht) as (H1 & H2 & _).
    rewrite (skip_to m es white s b); [|lia|done|by right]. split; [|by exists e].
    apply (lex_cons b b e); [lia| |done|done]. intros x Hx. lia.
Qed.

Definition code t : Z := match t with TWord _ => 97 | TSym c => c | TAppend => 43 end.

Lemma gettoken_lex s t ts : lex s (t :: ts) ->
  exists b e s', gettoken m es s = (code t, b, e, s') /\ text t b e /\ lo <= b /\ lex s' ts.
Proof.
  intros H. destruct (lex_skip _ _ H) as [Hl (e & Ht & He)]. unfold gettoken. fold white.
  pose proof (lex_range _ _ Hl) as Hr. set (b := skip m es white s) in *. pose proof (text_start _ _ _ Ht) as (H1 & H2 & H3).
  exists b, e, (skip m es white e). destruct (lex_skip _ _ He) as [He' _].
  split; [|split; [done|split; [lia|done]]].
  rewrite (proj2 (Z.eqb_neq _ _) H3). destruct t as [w|c|]; cbn [text code] in *.
  - destruct Ht as (Hne & Hw & Hb & Ee & Hle & Hstop). destruct w as [|c w]; [done|].
    assert (wordch (m b) = true) as Hc by (cbn in Hw, Hb; destruct Hb as [-> _]; by apply andb_true_iff in Hw as [? _]).
    apply wordch_not_white in Hc as [_ Hc].
    assert (strchr [124; 40; 41; 59; 38; 60] (m b) = false /\ m b <> 62) as [-> Hne2].
    { revert Hc. unfold strchr, symbols. cbn. rewrite !orb_false_iff, !Z.eqb_neq. tauto. }
    rewrite (proj2 (Z.eqb_neq _ _) Hne2).
    assert (skip m es in_word b = e) as ->; [|done]. apply skip_to; [lia| |].
    + intros x Hx. pose proof (bstr_lookup b (c :: w) x Hb ltac:(lia)) as Hlk.
      rewrite forallb_forall in Hw. apply wordch_spec, Hw. apply list_elem_of_In. by apply (list_elem_of_lookup_2 _ _ _ Hlk).
    + destruct (decide (e = es)) as [->|Hn]; [by left|right]. unfold wordch in Hstop.
      apply andb_false_iff in Hstop as [?|Hz]; [done|]. rewrite negb_false_iff, Z.eqb_eq in Hz. exfalso. apply (Hin e); [lia|done].
  - destruct Ht as (Hc & Hs & -> & Hle & Hnot). rewrite Hc. destruct (symbol_cases c Hs) as (_ & _ & _ & [E|[E ->]]); [|done].
    rewrite E. cbn. rewrite (proj2 (Z.eqb_neq _ _)) by (apply Hnot; done). done.
  - destruct Ht as (-> & -> & -> & _). done.
Qed.

Lemma gettoken_end s : lex s [] -> exists q e, gettoken m es s = (0, q, e, es) /\ lex es [].
Proof.
  intros H. destruct (lex_skip _ _ H) as [Hl E]. rewrite E in Hl. unfold gettoken. fold white. rewrite E, Hend. cbn.
  exists es, es. split; [|done]. do 2 f_equal. destruct (lex_skip _ _ Hl) as [_ E2]. done.
Qed.

Definition starts (toks : list Z) ts : bool :=
  match ts with
  | TSym c :: _ => strchr toks c
  | TAppend :: _ => strchr toks 62
  | _ => false
  end.

Lemma peek_lex toks s ts : lex s ts -> forallb (strchr symbols) toks = true ->
  exists s', peek m es toks s = (starts toks ts, s') /\ lex s' ts.
Proof.
  intros H Htoks. destruct (lex_skip _ _ H) as [Hl Hh]. exists (skip m es white s). split; [|done].
  unfold peek. fold white. f_equal. destruct ts as [|t ts].
  { by rewrite Hh, Hend. }
  destruct Hh as (e & Ht & _). pose proof (text_start _ _ _ Ht) as (_ & _ & H3). rewrite (proj2 (Z.eqb_neq _ _) H3).
  destruct t as [w|c|]; cbn [text starts negb andb] in *.
  - destruct Ht as (Hne & Hw & Hb & _). destruct w as [|c w]; [done|]. cbn in Hw, Hb. destruct Hb as [-> _].
    apply andb_true_iff in Hw as [Hc _]. apply wordch_not_white in Hc as [_ Hc].
    destruct (strchr toks c) eqn:E; [|done]. unfold strchr in E. apply existsb_exists in E as (x & Hx & <-%Z.eqb_eq).
    rewrite forallb_forall in Htoks. by rewrite Htoks in Hc.
  - by destruct Ht as [-> _].
  - by destruct Ht as [-> _].
Qed.
End Lex.

(** * Parsing a spelled line *)

Section Parse.
Import Sh.
Context (m : mem) (lo es : Z) (Hend : m es = 0) (Hin : forall x, lo <= x < es -> m x <> 0).
Implicit Types (st : pst) (ts : list token) (rs : list redir) (c : nat).

Definition spelled (q eq : Z) (w : word) : Prop := lo <= q /\ text m es (TWord w) q eq.
Abbreviation lex := (lex m lo es).

Lemma peek_l toks st ts : lex (ps st) ts -> forallb (strchr symbols) toks = true ->
  exists s, peek_ m es toks st = (starts toks ts, set_ps s st) /\ lex s ts.
Proof.
  intros H Ht. destruct (peek_lex m lo es Hend toks (ps st) ts H Ht) as (s & E & Hs). exists s.
  unfold peek_. by rewrite E.
Qed.

Lemma gettoken_l st t ts : lex (ps st) (t :: ts) ->
  exists b e s, gettoken_ m es st = (code t, b, e, set_ps s st) /\ text m es t b e /\ lo <= b /\ lex s ts.
Proof.
  intros H. destruct (gettoken_lex m lo es Hin (ps st) t ts H) as (b & e & s & E & Hs). exists b, e, s.
  unfold gettoken_. by rewrite E.
Qed.

(** The state after something was parsed before [ts]; only object [e] may have
    changed. *)
Definition upto (e : option nat) st ts st' : Prop := lex (ps st') ts /\ ext_but e (objs st) (objs st').

Lemma parseredirs_ok rs : forall fuel c st ts,
  lex (ps st) (redirs_tokens rs ++ ts) -> starts [60; 62] ts = false -> (length rs < fuel)%nat ->
  exists c' st', parseredirs m es fuel c st = Ok (c', st') /\ upto None st ts st' /\
    chain spelled (objs st') c' c (rev rs).
Proof.
  induction rs as [|r rs IH]; intros [|fuel] c st ts Hl Hts Hf; cbn [length] in Hf; try lia; cbn [parseredirs].
  { destruct (peek_l [60; 62] st _ Hl) as (s & -> & Hs); [done|]. cbn [redirs_tokens map concat app]. rewrite Hts.
    exists c, (set_ps s st). split; [done|]. split; [split; [done|apply ext_refl]|done]. }
  destruct (peek_l [60; 62] st _ Hl) as (s & -> & Hs); [done|].
  assert (starts [60; 62] (redirs_tokens (r :: rs) ++ ts) = true) as -> by (by destruct r as [[] w]).
  destruct (gettoken_l (set_ps s st) _ _ Hs) as (b & e & s1 & -> & _ & _ & Hs1).
  destruct (gettoken_l (set_ps s1 (set_ps s st)) _ _ Hs1) as (q & eq & s2 & -> & Hw & Hq & Hs2).
  cbn [code Z.eqb negb Pos.eqb]. set (st1 := set_ps s2 _).
  set (o := REDIR c q eq (r_mode r) (r_fd r)).
  destruct (IH fuel (length (objs st)) (new_obj o st1).2 ts) as (c' & st' & E & [Hl' Hx] & Hc); [done|done|lia|].
  exists c', st'. split.
  { rewrite <- E. by destruct r as [[] w]. }
  split; [split; [done|]|].
  - eapply ext_trans; [|done]. apply (ext_app (objs st)).
  - cbn [rev]. apply chain_app. exists (length (objs st)). split; [done|]. cbn [chain]. exists c, q, eq.
    split; [|split; [by split|done]]. apply Hx; [done|]. cbn. by apply list_lookup_middle.
Qed.

Lemma parse_back_ok n : forall fuel c st ts cm,
  lex (ps st) (replicate n (TSym 38) ++ ts) -> starts [38] ts = false -> (n < fuel)%nat ->
  rep spelled (objs st) c cm ->
  exists c' st', parse_back m es fuel c st = Ok (c', st') /\ upto None st ts st' /\
    rep spelled (objs st') c' (backs n cm).
Proof.
  induction n as [|n IH]; intros [|fuel] c st ts cm Hl Hts Hf Hc; try lia; cbn [parse_back].
  { destruct (peek_l [38] st _ Hl) as (s & -> & Hs); [done|]. cbn [replicate app]. rewrite Hts.
    exists c, (set_ps s st). split; [done|]. split; [split; [done|apply ext_refl]|done]. }
  destruct (peek_l [38] st _ Hl) as (s & -> & Hs); [done|]. cbn [replicate app starts strchr existsb Z.eqb Pos.eqb orb].
  destruct (gettoken_l (set_ps s st) _ _ Hs) as (b & e & s1 & -> & _ & _ & Hs1).
  assert (ext_but None (objs st) (objs st ++ [BACK c])) as Hx0 by apply ext_app.
  destruct (IH fuel (length (objs st)) (new_obj (BACK c) (set_ps s1 (set_ps s st))).2 ts (CBack cm))
    as (c' & st' & E & [Hl' Hx] & Hr); [done|done|lia| |].
  { cbn [rep]. exists c. split; [cbn; by apply list_lookup_middle|]. by apply (rep_ext _ (objs st)). }
  exists c', st'. split; [done|]. split; [split; [done|by eapply ext_trans]|].
  cbn [backs]. assert (forall k x, backs k (CBack x) = CBack (backs k x)) as Hb.
  { induction k as [|k IHk]; intros x; cbn; [done|]. by rewrite IHk. }
  by rewrite <- Hb.
Qed.
(** The line ends, or a symbol out of [toks] comes next. *)
Definition ends_with (toks : list Z) ts : Prop := ts = [] \/ starts toks ts = true.

Lemma starts_in toks ts : starts toks ts = true -> exists x, In x toks /\ forall toks', starts toks' ts = strchr toks' x.
Proof.
  destruct ts as [|[w|x|] ts]; cbn [starts]; try done; unfold strchr; intros (y & Hy & <-%Z.eqb_eq)%existsb_exists; by eexists.
Qed.

Lemma ends_sub toks toks' ts : forallb (strchr toks') toks = true -> ends_with toks ts -> ends_with toks' ts.
Proof.
  intros Hs [->|H]; [by left|right]. destruct (starts_in _ _ H) as (x & Hx & ->). rewrite forallb_forall in Hs. auto.
Qed.

Lemma ends_not toks toks' ts : forallb (fun x => negb (strchr toks' x)) toks = true -> ends_with toks ts ->
  starts toks' ts = false.
Proof.
  intros Hs [->|H]; [done|]. destruct (starts_in _ _ H) as (x & Hx & ->). rewrite forallb_forall in Hs.
  by apply negb_true_iff, Hs.
Qed.

(** What follows a simple command or a block. *)
Abbreviation follow := (ends_with [124; 41; 38; 59]).

Lemma follow_redirs ts : follow ts -> starts [60; 62] ts = false.
Proof. by apply ends_not. Qed.

(** The [execcmd] with the arguments [qs]. *)
Definition exec_obj (qs : list (Z * Z)) : cmdobj := EXEC (fill (map fst qs)) (fill (map snd qs)).

Lemma set_arg_next e st qs q eq :
  objs st !! e = Some (exec_obj qs) -> (length qs < MAXARGS)%nat ->
  set_arg e (Z.of_nat (length qs)) q eq st = Ok (set_objs (<[e := exec_obj (qs ++ [(q, eq)])]> (objs st)) st).
Proof.
  intros E Hq. unfold set_arg. rewrite E. unfold exec_obj at 1.
  rewrite !zset_in by (rewrite fill_length; rewrite ?length_map; lia). cbn [res_bind]. rewrite Nat2Z.id.
  unfold exec_obj. rewrite !map_app. cbn [map fst snd]. rewrite <- !fill_insert by (rewrite length_map; lia). by rewrite !length_map.
Qed.

Lemma set_arg_last e st qs :
  objs st !! e = Some (exec_obj qs) -> (length qs < MAXARGS)%nat ->
  set_arg e (Z.of_nat (length qs)) 0 0 st = Ok st.
Proof.
  intros E Hq. unfold set_arg. rewrite E. unfold exec_obj.
  rewrite !zset_in by (rewrite fill_length; rewrite ?length_map; lia). cbn [res_bind]. rewrite Nat2Z.id.
  pose proof (fill_insert_0 (map fst qs)) as H1. pose proof (fill_insert_0 (map snd qs)) as H2.
  rewrite length_map in H1, H2. rewrite H1, H2 by done. rewrite list_insert_id by done. by destruct st.
Qed.

Lemma ext_insert e os o : ext_but (Some e) os (<[e := o]> os).
Proof.
  split; [by rewrite length_insert|]. intros i x Hi Hx. rewrite list_lookup_insert_ne; [done|congruence].
Qed.

Lemma parse_args_ok e args : forall fuel ret st qs rrs ts,
  lex (ps st) (concat (map arg_tokens args) ++ ts) -> follow ts ->
  (length (concat (map arg_tokens args)) < fuel)%nat -> (length qs + length args < MAXARGS)%nat ->
  objs st !! e = Some (exec_obj qs) -> chain spelled (objs st) ret e rrs ->
  exists ret' st' qs', parse_args m es fuel e ret (Z.of_nat (length qs)) st =
      Ok (ret', Z.of_nat (length (qs ++ qs')), st') /\
    upto (Some e) st ts st' /\ objs st' !! e = Some (exec_obj (qs ++ qs')) /\
    Forall2 (fun a w => spelled a.1 a.2 w) qs' (map fst args) /\
    chain spelled (objs st') ret' e (rev (concat (map snd args)) ++ rrs).
Proof.
  induction args as [|[w rs] args IH]; intros [|fuel] ret st qs rrs ts Hl Hts Hf Hlen He Hc; cbn [map concat app length] in *;
    try lia; cbn [parse_args].
  { exists ret. destruct (peek_l [124; 41; 38; 59] st _ Hl) as (s & -> & Hs); [done|].
    destruct Hts as [-> | ->].
    - destruct (gettoken_end m lo es Hend s Hs) as (q & eq & E & Hes). exists (set_ps es (set_ps s st)), [].
      unfold gettoken_. cbn [starts ps set_ps]. rewrite E. cbn [Z.eqb]. rewrite app_nil_r.
      split; [done|]. split; [split; [done|apply ext_refl]|done].
    - exists (set_ps s st), []. rewrite app_nil_r. split; [done|]. split; [split; [done|apply ext_refl]|done]. }
  destruct (peek_l [124; 41; 38; 59] st _ Hl) as (s & -> & Hs); [done|].
  change (starts _ ((arg_tokens (w, rs) ++ concat (map arg_tokens args)) ++ ts)) with false. cbv iota.
  unfold arg_tokens in Hs at 1. cbn [fst snd app] in Hs.
  destruct (gettoken_l (set_ps s st) _ _ Hs) as (q & eq & s1 & -> & Hw & Hq & Hs1). cbn [code Z.eqb Pos.eqb negb].
  rewrite (set_arg_next e _ qs q eq) by (done || lia). cbn [res_bind]. set (st1 := set_objs _ _).
  rewrite (proj2 (Z.leb_gt _ _)) by lia.
  assert (is_exec (objs st) e) as Hex by (do 2 eexists; exact He).
  assert (ext_but (Some e) (objs st) (objs st1)) as Hx1 by apply ext_insert.
  assert (objs st1 !! e = Some (exec_obj (qs ++ [(q, eq)]))) as He1.
  { apply list_lookup_insert_eq. by apply lookup_lt_Some in He. }
  rewrite <- app_assoc in Hs1. unfold arg_tokens in Hf at 1. cbn [fst snd app length] in Hf. rewrite length_app in Hf.
  assert (length rs <= length (redirs_tokens rs))%nat as Hrs.
  { clear. unfold redirs_tokens. induction rs as [|r rs IH]; cbn; lia. }
  destruct (parseredirs_ok rs fuel ret st1 (concat (map arg_tokens args) ++ ts)) as (ret2 & st2 & -> & [Hl2 Hx2] & Hc2);
    [done| |lia|].
  { destruct args; [by apply follow_redirs|done]. }
  cbn [res_bind]. assert (objs st2 !! e = Some (exec_obj (qs ++ [(q, eq)]))) as He2 by (by apply Hx2).
  replace (Z.of_nat (length qs) + 1) with (Z.of_nat (length (qs ++ [(q, eq)]))) by (rewrite length_app; cbn; lia).
  destruct (IH fuel ret2 st2 (qs ++ [(q, eq)]) (rev rs ++ rrs) ts) as (ret' & st' & qs' & -> & [Hl' Hx'] & He' & Hqs & Hc');
    [done|done|lia|rewrite length_app; cbn; lia|done| |].
  { apply chain_app. exists ret. split; [done|]. apply (chain_ext_all _ (objs st1)); [done|]. by apply (chain_ext _ (objs st)). }
  exists ret', st', ((q, eq) :: qs'). rewrite <- app_assoc in *. cbn [app] in *. split; [done|].
  split; [split; [done|]|].
  - eapply ext_trans; [done|]. eapply ext_trans; [by apply ext_weaken|done].
  - split; [done|]. split; [constructor; [by split|done]|]. by rewrite rev_app_distr, <- app_assoc.
Qed.

(** [f] parses [toks] to the command [cm], before any [ts] allowed by [fol]. *)
Definition parses (f : nat -> pst -> res (nat * pst)) (need : nat) (fol : list token -> Prop)
    (toks : list token) (cm : cmd) : Prop :=
  forall fuel st ts, lex (ps st) (toks ++ ts) -> fol ts -> (4 * length toks + need <= fuel)%nat ->
    exists c st', f fuel st = Ok (c, st') /\ upto None st ts st' /\ rep spelled (objs st') c cm.

Lemma simple_ok rs args : (length args < MAXARGS)%nat ->
  parses (parseexec m es) 2 follow (ex_tokens (Simple rs args)) (ex_cmd (Simple rs args)).
Proof.
  intros Hfit [|fuel] st ts Hl Hts Hf; [lia|]. cbn [ex_tokens] in Hl, Hf. rewrite <- app_assoc in Hl. rewrite length_app in Hf.
  assert (length rs <= length (redirs_tokens rs))%nat as Hrs.
  { clear. unfold redirs_tokens. induction rs as [|r rs IH]; cbn; lia. }
  cbn [parseexec]. destruct (peek_l [40] st _ Hl) as (s & -> & Hs); [done|].
  assert (starts [40] (redirs_tokens rs ++ concat (map arg_tokens args) ++ ts) = false) as ->.
  { destruct rs as [|[[] w] rs]; try done. destruct args; [|done]. cbn [redirs_tokens map concat app].
    by apply (ends_not [124; 41; 38; 59]). }
  unfold execcmd. set (o := EXEC _ _). set (e := length (objs st)). set (st1 := (new_obj o (set_ps s st)).2).
  change (new_obj o (set_ps s st)) with (e, st1).
  assert (objs st1 !! e = Some (exec_obj [])) as He1 by (by apply list_lookup_middle).
  destruct (parseredirs_ok rs fuel e st1 (concat (map arg_tokens args) ++ ts)) as (ret & st2 & -> & [Hl2 Hx2] & Hc2);
    [done|destruct args; [by apply follow_redirs|done]|lia|]. cbn [res_bind].
  destruct (parse_args_ok e args fuel ret st2 [] (rev rs) ts) as (ret' & st3 & qs & E3 & [Hl3 Hx3] & He3 & Hqs & Hc3);
    [done|done|lia|done|by apply Hx2|done|]. cbn [length app] in *. change (Z.of_nat 0) with 0 in E3. rewrite E3. cbn [res_bind].
  pose proof (Forall2_length _ _ _ Hqs) as Hlen. rewrite length_map in Hlen.
  rewrite (set_arg_last e st3 qs) by (done || lia). exists ret', st3. split; [done|]. split; [split; [done|]|].
  - apply ext_before. eapply ext_trans; [apply ext_weaken, (ext_app (objs st) [o])|].
    eapply ext_trans; [by apply ext_weaken|done].
  - cbn [ex_cmd]. rewrite rev_app_distr. apply (rep_wrap _ _ _ e); [done|]. cbn [rep]. exists qs. split; [done|].
    split; [lia|done].
Qed.

Lemma parseline_eq n st : parseline m es (S n) st =
  let? (c, st) := parsepipe m es n st in
  let? (c, st) := parse_back m es n c st in
  let (b, st) := peek_ m es [59] st in
  if b then
    let '(_, _, _, st) := gettoken_ m es st in
    let? (r, st) := parseline m es n st in
    Ok (listcmd c r st)
  else Ok (c, st).
Proof. done. Qed.

Lemma parsepipe_eq n st : parsepipe m es (S n) st =
  let? (c, st) := parseexec m es n st in
  let (b, st) := peek_ m es [124] st in
  if b then
    let '(_, _, _, st) := gettoken_ m es st in
    let? (r, st) := parsepipe m es n st in
    Ok (pipecmd c r st)
  else Ok (c, st).
Proof. done. Qed.

Lemma parseexec_eq n st : parseexec m es (S n) st =
  let (b, st) := peek_ m es [40] st in
  if b then parseblock m es n st
  else
    let (c, st) := execcmd st in
    let? (ret, st) := parseredirs m es n c st in
    let? (ret, argc, st) := parse_args m es n c ret 0 st in
    let? st := set_arg c argc 0 0 st in
    Ok (ret, st).
Proof. done. Qed.

Lemma parseblock_eq n st : parseblock m es (S n) st =
  let (b, st) := peek_ m es [40] st in
  if negb b then Panic "parseblock"
  else
    let '(_, _, _, st) := gettoken_ m es st in
    let? (c, st) := parseline m es n st in
    let (b, st) := peek_ m es [41] st in
    if negb b then Panic "syntax - missing )"
    else let '(_, _, _, st) := gettoken_ m es st in parseredirs m es n c st.
Proof. done. Qed.

Lemma block_ok l rs :
  parses (parseline m es) 4 (ends_with [41]) (line_tokens l) (line_cmd l) ->
  parses (parseexec m es) 2 follow (ex_tokens (Block l rs)) (ex_cmd (Block l rs)).
Proof.
  intros IH [|[|fuel]] st ts Hl Hts Hf; cbn [ex_tokens length app] in *; [lia|lia|].
  rewrite length_app in Hf. cbn [length] in Hf. rewrite <- app_assoc in Hl. cbn [app] in Hl.
  assert (length rs <= length (redirs_tokens rs))%nat as Hrs.
  { clear. unfold redirs_tokens. induction rs as [|r rs IH]; cbn; lia. }
  rewrite parseexec_eq. destruct (peek_l [40] st _ Hl) as (s & -> & Hs); [done|].
  cbn [starts app strchr existsb Z.eqb Pos.eqb orb]. rewrite parseblock_eq.
  destruct (peek_l [40] (set_ps s st) _ Hs) as (s1 & -> & Hs1); [done|].
  cbn [starts app strchr existsb Z.eqb Pos.eqb orb negb].
  destruct (gettoken_l (set_ps s1 (set_ps s st)) _ _ Hs1) as (b & e & s2 & -> & _ & _ & Hs2).
  set (st2 := set_ps s2 _).
  destruct (IH fuel st2 (TSym 41 :: redirs_tokens rs ++ ts)) as (c & st3 & -> & [Hl3 Hx3] & Hr3); [done|by right|lia|].
  cbn [res_bind]. destruct (peek_l [41] st3 _ Hl3) as (s4 & -> & Hs4); [done|].
  cbn [starts app strchr existsb Z.eqb Pos.eqb orb negb].
  destruct (gettoken_l (set_ps s4 st3) _ _ Hs4) as (b5 & e5 & s5 & -> & _ & _ & Hs5).
  destruct (parseredirs_ok rs fuel c (set_ps s5 (set_ps s4 st3)) ts) as (c' & st6 & -> & [Hl6 Hx6] & Hc6);
    [done|by apply follow_redirs|lia|].
  exists c', st6. split; [done|]. split; [split; [done|]|].
  - by eapply (ext_trans _ _ (objs st3)).
  - cbn [ex_cmd]. apply (rep_wrap _ _ _ c); [done|]. by apply (rep_ext _ (objs st3)).
Qed.

(** The operator [sym] and its right operand, after the left one. *)
Lemma operand_ok sym (mk : nat -> nat -> cmdobj) (cmk : cmd -> cmd -> cmd) f need fol toks fuel st0 c st ts cl cr :
  strchr symbols sym = true ->
  (forall os p p1 p2, os !! p = Some (mk p1 p2) -> rep spelled os p1 cl -> rep spelled os p2 cr -> rep spelled os p (cmk cl cr)) ->
  parses f need fol toks cr -> fol ts -> (4 * length toks + need <= fuel)%nat ->
  upto None st0 (TSym sym :: toks ++ ts) st -> rep spelled (objs st) c cl ->
  exists c' st', (let (b, st) := peek_ m es [sym] st in
     if b then let '(_, _, _, st) := gettoken_ m es st in let? (r, st) := f fuel st in Ok (new_obj (mk c r) st)
     else Ok (c, st)) = Ok (c', st') /\ upto None st0 ts st' /\ rep spelled (objs st') c' (cmk cl cr).
Proof.
  intros Hsym Hmk Hf Hts Hfuel [Hl Hx] Hc.
  destruct (peek_l [sym] st _ Hl) as (s & -> & Hs); [cbn [forallb]; by rewrite Hsym|]. cbn [starts strchr existsb]. rewrite Z.eqb_refl. cbn [orb].
  destruct (gettoken_l (set_ps s st) _ _ Hs) as (b & e & s1 & -> & _ & _ & Hs1).
  destruct (Hf fuel (set_ps s1 (set_ps s st)) ts) as (r & st2 & -> & [Hl2 Hx2] & Hr2); [done|done|done|]. cbn [res_bind].
  do 2 eexists. split; [done|]. assert (ext_but None (objs st2) (objs st2 ++ [mk c r])) as Hx3 by apply ext_app.
  split; [split; [done|]|].
  - eapply ext_trans; [done|]. by eapply (ext_trans _ _ (objs st2)).
  - cbn [objs new_obj snd set_objs]. apply (Hmk _ _ c r); [by apply list_lookup_middle| |by apply (rep_ext _ (objs st2))].
    apply (rep_ext _ (objs st2)); [done|]. by apply (rep_ext _ (objs st)).
Qed.

Lemma line_pipe_ex_ok :
  (forall l, line_fits l -> parses (parseline m es) 4 (ends_with [41]) (line_tokens l) (line_cmd l)) /\
  (forall p, pipe_fits p -> parses (parsepipe m es) 3 (ends_with [41; 38; 59]) (pipe_tokens p) (pipe_cmd p)) /\
  (forall e, ex_fits e -> parses (parseexec m es) 2 follow (ex_tokens e) (ex_cmd e)).
Proof.
  apply line_pipe_ex_ind.
  - intros p IHp n Hfit fuel st ts. cbn [line_tokens line_cmd]. rewrite <- app_assoc, length_app, length_replicate.
    intros Hl Hts Hf. destruct fuel as [|fuel]; [lia|]. rewrite parseline_eq.
    destruct (IHp Hfit fuel st (replicate n (TSym 38) ++ ts)) as (c & st1 & -> & [Hl1 Hx1] & Hr1); [done| |lia|].
    { destruct n; [|by right]. by apply (ends_sub [41]). }
    cbn [res_bind].
    destruct (parse_back_ok n fuel c st1 ts (pipe_cmd p)) as (c2 & st2 & -> & [Hl2 Hx2] & Hr2); [done| |lia|done|].
    { by apply (ends_not [41]). }
    cbn [res_bind]. destruct (peek_l [59] st2 ts Hl2) as (s & -> & Hs); [done|].
    rewrite (ends_not [41] [59] ts) by done.
    do 2 eexists. split; [done|]. split; [split; [done|by eapply ext_trans]|done].
  - intros p IHp n l IHl [Hfp Hfl] fuel st ts. cbn [line_tokens line_cmd]. rewrite <- app_assoc, !length_app, length_replicate. cbn [length].
    intros Hl Hts Hf. destruct fuel as [|fuel]; [lia|]. rewrite parseline_eq. rewrite <- app_assoc in Hl. cbn [app] in Hl.
    destruct (IHp Hfp fuel st (replicate n (TSym 38) ++ TSym 59 :: line_tokens l ++ ts)) as (c & st1 & -> & [Hl1 Hx1] & Hr1); [done| |lia|].
    { by destruct n; right. }
    cbn [res_bind].
    destruct (parse_back_ok n fuel c st1 (TSym 59 :: line_tokens l ++ ts) (pipe_cmd p)) as (c2 & st2 & -> & [Hl2 Hx2] & Hr2); [done|done|lia|done|].
    cbn [res_bind].
    apply (operand_ok 59 LIST CList (parseline m es) 4 (ends_with [41]) (line_tokens l) fuel st c2 st2); try done.
    + intros os q p1 p2 H H1 H2. by exists p1, p2.
    + by apply IHl.
    + lia.
    + split; [done|]. by eapply ext_trans.
  - intros e IHe Hfit [|fuel] st ts Hl Hts Hf; cbn [pipe_tokens pipe_cmd] in *; [lia|]. rewrite parsepipe_eq.
    destruct (IHe Hfit fuel st ts) as (c & st1 & -> & [Hl1 Hx1] & Hr1); [done|by apply (ends_sub [41; 38; 59])|lia|]. cbn [res_bind].
    destruct (peek_l [124] st1 ts Hl1) as (s & -> & Hs); [done|].
    rewrite (ends_not [41; 38; 59] [124] ts) by done.
    do 2 eexists. split; [done|]. split; [by split|done].
  - intros e IHe p IHp [Hfe Hfp] [|fuel] st ts Hl Hts Hf; cbn [pipe_tokens pipe_cmd] in *; [lia|]. rewrite parsepipe_eq.
    rewrite length_app in Hf. cbn [length] in Hf. rewrite <- app_assoc in Hl. cbn [app] in Hl.
    destruct (IHe Hfe fuel st (TSym 124 :: pipe_tokens p ++ ts)) as (c & st1 & -> & [Hl1 Hx1] & Hr1); [done|by right|lia|]. cbn [res_bind].
    apply (operand_ok 124 PIPE CPipe (parsepipe m es) 3 (ends_with [41; 38; 59]) (pipe_tokens p) fuel st c st1); try done.
    + intros os q p1 p2 H H1 H2. by exists p1, p2.
    + by apply IHp.
    + lia.
  - intros rs args Hfit. by apply simple_ok.
  - intros l IHl rs Hfit. by apply block_ok, IHl.
Qed.

(** ** Terminating the strings *)

Lemma lex_length s ts : lex s ts -> Z.of_nat (length ts) <= es - s.
Proof.
  induction 1 as [s Hs _|s b e t ts Hs _ Ht _ IH]; cbn [length]; [lia|].
  destruct (text_start _ _ _ _ _ Ht). lia.
Qed.

(** [m'] differs from the line only by NULs behind words. *)
Definition kept m' : Prop := forall x, m' x = m x \/ m' x = 0 /\ wordch (m x) = false.
Definition ended m' (q eq : Z) (w : word) : Prop := spelled q eq w /\ m' eq = 0.

Lemma kept_nul m' q eq w : kept m' -> spelled q eq w -> kept (store8 m' eq 0) /\ ended (store8 m' eq 0) q eq w.
Proof.
  intros Hk Hs. pose proof Hs as (_ & _ & _ & _ & _ & _ & Hw). split; [|split; [done|apply store8_eq]].
  intros x. destruct (decide (x = eq)) as [->|Hx]; [right; by rewrite store8_eq|]. by rewrite store8_ne.
Qed.

Lemma ended_store m' z q eq w : ended m' q eq w -> ended (store8 m' z 0) q eq w.
Proof.
  intros [H1 H2]. split; [done|]. destruct (decide (eq = z)) as [->|Hz]; [apply store8_eq|by rewrite store8_ne].
Qed.

Lemma ended_cstr m' q eq w : kept m' -> ended m' q eq w -> cstr m' q w.
Proof.
  intros Hk [(_ & _ & Hw & Hb & -> & _ & _) H0]. revert q Hb H0.
  induction w as [|c w IH]; intros q Hb H0; cbn [cstr bstr forallb length] in *; [by rewrite Z.add_0_r in H0|].
  apply andb_true_iff in Hw as [Hc Hw]. destruct Hb as [Hq Hb].
  destruct (Hk q) as [E|[_ E]]; [|congruence]. split; [congruence|]. split; [by apply wordch_spec in Hc as [_ ?]|].
  apply (IH Hw (q + 1) Hb). rewrite <- H0. f_equal. lia.
Qed.

(** What [nulterminate] did to the strings of a command. *)
Definition nulled m1 m2 : Prop := kept m2 /\ forall q eq w, ended m1 q eq w -> ended m2 q eq w.

Lemma nul_args_ok qs : forall ws m1 k, kept m1 -> Forall2 (fun a w => spelled a.1 a.2 w) qs ws -> 0 < lo ->
  let m2 := nul_args (map fst qs ++ replicate k 0) (map snd qs ++ replicate k 0) m1 in
  nulled m1 m2 /\ Forall2 (fun a w => ended m2 a.1 a.2 w) qs ws.
Proof.
  induction qs as [|[q eq] qs IH]; intros ws m1 k Hk Hq Hlo; cbn [map app nul_args fst snd].
  - apply Forall2_nil_inv_l in Hq as ->. assert (nul_args (replicate k 0) (replicate k 0) m1 = m1) as -> by (by destruct k).
    by split.
  - apply Forall2_cons_inv_l in Hq as (w & ws' & Hs & Hq & ->). cbn [fst snd] in Hs.
    rewrite (proj2 (Z.eqb_neq _ _)) by (destruct Hs; lia).
    destruct (kept_nul m1 q eq w Hk Hs) as [Hk' Hw]. destruct (IH ws' (store8 m1 eq 0) k Hk' Hq Hlo) as [[H1 H2] H3].
    split; [split; [done|]|constructor; [by apply H2|done]]. intros q' eq' w' H. apply H2. by apply ended_store.
Qed.

Fixpoint depth (c : cmd) : nat :=
  match c with
  | CExec _ => 0
  | CRedir c _ _ _ | CBack c => S (depth c)
  | CPipe l r | CList l r => S (Nat.max (depth l) (depth r))
  end.

Lemma nulterminate_ok os cm : 0 < lo -> forall fuel p m1, kept m1 -> rep spelled os p cm -> (depth cm < fuel)%nat ->
  exists m2, nulterminate fuel os p m1 = Ok m2 /\ nulled m1 m2 /\ rep (ended m2) os p cm.
Proof.
  intros Hlo. induction cm as [ws|c IH w mode fd|l IHl r IHr|l IHl r IHr|c IH]; intros [|fuel] p m1 Hk Hr Hf;
    cbn [depth] in Hf; try lia; cbn [rep] in Hr; cbn [nulterminate].
  - destruct Hr as (qs & E & Hl & Hq). rewrite E. eexists. split; [done|]. unfold fill. rewrite !length_map.
    destruct (nul_args_ok qs ws m1 (MAXARGS - length qs) Hk Hq Hlo) as [H1 H2]. split; [done|].
    by exists qs.
  - destruct Hr as (p' & q & eq & E & Hw & Hc). rewrite E.
    destruct (IH fuel p' m1 Hk Hc ltac:(lia)) as (m2 & -> & [Hk2 Hn2] & Hr2). cbn [res_bind]. eexists. split; [done|].
    destruct (kept_nul m2 q eq w Hk2 Hw) as [Hk3 Hw3]. split; [split; [done|]|].
    + intros q' eq' w' H. apply ended_store. auto.
    + cbn [rep]. exists p', q, eq. split; [done|]. split; [done|]. revert Hr2. apply rep_mono. intros; by apply ended_store.
  - destruct Hr as (p1 & p2 & E & H1 & H2). rewrite E.
    destruct (IHl fuel p1 m1 Hk H1 ltac:(lia)) as (m2 & -> & [Hk2 Hn2] & Hr2). cbn [res_bind].
    destruct (IHr fuel p2 m2 Hk2 H2 ltac:(lia)) as (m3 & -> & [Hk3 Hn3] & Hr3). exists m3. split; [done|].
    split; [split; auto|]. cbn [rep]. exists p1, p2. split; [done|]. split; [|done]. by apply (rep_mono (ended m2)).
  - destruct Hr as (p1 & p2 & E & H1 & H2). rewrite E.
    destruct (IHl fuel p1 m1 Hk H1 ltac:(lia)) as (m2 & -> & [Hk2 Hn2] & Hr2). cbn [res_bind].
    destruct (IHr fuel p2 m2 Hk2 H2 ltac:(lia)) as (m3 & -> & [Hk3 Hn3] & Hr3). exists m3. split; [done|].
    split; [split; auto|]. cbn [rep]. exists p1, p2. split; [done|]. split; [|done]. by apply (rep_mono (ended m2)).
  - destruct Hr as (p' & E & Hc). rewrite E. destruct (IH fuel p' m1 Hk Hc ltac:(lia)) as (m2 & -> & Hn & Hr2).
    exists m2. split; [done|]. split; [done|]. by exists p'.
Qed.

End Parse.

(** * Theorems *)

Lemma wrap_depth c rs : depth (wrap c rs) = (depth c + length rs)%nat.
Proof. induction rs as [|r rs IH]; cbn; lia. Qed.

Lemma redirs_length rs : length (redirs_tokens rs) = (2 * length rs)%nat.
Proof. unfold redirs_tokens. induction rs as [|r rs IH]; cbn in *; lia. Qed.

Lemma args_length (args : list (word * list redir)) :
  (length (concat (map snd args)) <= length (concat (map arg_tokens args)))%nat.
Proof.
  induction args as [|[w rs] args IH]; cbn [map concat snd arg_tokens fst app length]; [done|].
  rewrite !length_app, redirs_length. lia.
Qed.

Lemma backs_depth n c : depth (backs n c) = (depth c + n)%nat.
Proof. induction n as [|n IH]; cbn; lia. Qed.

Lemma cmd_depth :
  (forall l, (depth (line_cmd l) <= length (line_tokens l))%nat) /\
  (forall p, (depth (pipe_cmd p) <= length (pipe_tokens p))%nat) /\
  (forall e, (depth (ex_cmd e) <= length (ex_tokens e))%nat).
Proof.
  apply line_pipe_ex_ind; intros; cbn [line_cmd line_tokens pipe_cmd pipe_tokens ex_cmd ex_tokens depth].
  - rewrite backs_depth, length_app, length_replicate. lia.
  - rewrite backs_depth, !length_app, length_replicate. cbn. lia.
  - done.
  - rewrite length_app. cbn. lia.
  - pose proof (wrap_depth (CExec (map fst args)) (rev (rs ++ concat (map snd args)))) as H.
    rewrite length_rev, length_app in H. cbn in H. pose proof (args_length args). rewrite length_app, redirs_length. lia.
  - pose proof (wrap_depth (line_cmd l) (rev rs)) as Hw. rewrite length_rev in Hw. cbn. rewrite length_app. cbn.
    rewrite redirs_length. lia.
Qed.

Lemma cstr_inner m s l : cstr m s l -> forall x, s <= x < s + Z.of_nat (length l) -> m x <> 0.
Proof.
  revert s. induction l as [|c l IH]; intros s; cbn [cstr length]; [lia|]. intros (H1 & H2 & H3) x Hx.
  destruct (decide (x = s)) as [->|]; [congruence|]. apply (IH _ H3). lia.
Qed.

(** A pointer to the string [w]. *)
Definition string_at (m : mem) (q eq : Z) (w : word) : Prop := q <> 0 /\ cstr m q w.

Lemma parsecmd_ok fuel m s str l :
  0 < s -> cstr m s str -> lex m s (s + Z.of_nat (length str)) s (line_tokens l) -> line_fits l ->
  (4 * length str + 4 <= fuel)%nat ->
  exists c os m', Sh.parsecmd fuel m s = Ok (Sh.Parsed c os m') /\ rep (string_at m') os c (line_cmd l).
Proof.
  intros Hs Hstr Hlex Hfit Hf. unfold Sh.parsecmd, Kstring.strlen.
  rewrite (strlen_from_spec str) by (rewrite ?Z.add_0_r; done || lia). cbn [res_bind]. rewrite Z.add_0_l.
  set (es := s + Z.of_nat (length str)) in *.
  assert (m es = 0) as Hend by (by apply cstr_end).
  pose proof (cstr_inner _ _ _ Hstr) as Hin. fold es in Hin. pose proof (lex_length _ _ _ _ _ Hlex) as Hlen.
  destruct (line_pipe_ex_ok m s es Hend Hin) as (Hline & _ & _).
  destruct (Hline l Hfit fuel (mkPst s []) []) as (c & st & -> & [Hl Hx] & Hr); [by rewrite app_nil_r|by left|lia|].
  cbn [res_bind]. destruct (peek_l m s es Hend [] st [] Hl) as (e & Ep & He); [done|]. rewrite Ep. cbn [ps set_ps objs].
  assert (e = es) as ->.
  { apply (f_equal (fun r => ps r.2)) in Ep. change (Sh.skip m es white (ps st) = e) in Ep. rewrite <- Ep.
    by destruct (lex_skip _ _ _ _ _ Hl) as [_ ?]. }
  rewrite Z.eqb_refl. cbn [negb]. destruct cmd_depth as (Hd & _ & _). specialize (Hd l).
  destruct (nulterminate_ok m s es (objs st) (line_cmd l) Hs fuel c m) as (m' & -> & [Hk _] & Hr'); [by left|done|lia|].
  exists c, (objs st), m'. split; [done|]. revert Hr'. apply rep_mono. intros q eq w H. split; [destruct H as [[? _] _]; lia|].
  by apply (ended_cstr m s es _ q eq).
Qed.

(** C12: [parsecmd] understands the grammar: from a buffer that spells a line, with
    any white space between its tokens, it builds the objects of the command the
    line stands for - [;], [&], [|], blocks and redirections as the line nests
    them - and every word and file name is left as a NUL-terminated string. *)
Theorem parsecmd_spec fuel m s str l :
  0 < s -> cstr m s str -> lex m s (s + Z.of_nat (length str)) s (line_tokens l) -> line_fits l ->
  (4 * length str + 4 <= fuel)%nat ->
  exists c os m', Sh.parsecmd fuel m s = Ok (Sh.Parsed c os m') /\ rep (string_at m') os c (line_cmd l).
Proof. apply parsecmd_ok. Qed.

(** ** Instances *)

(** The tree of the line of [demo_buf]. *)
Definition demo_line : line :=
  LEnd (PCons (Simple [] [([108; 115], [(ROut, [102])])]) (PEnd (Simple [] [([119; 99], [])]))) 0.

Local Ltac next b e := apply (lex_cons _ _ _ _ b e);
  [lia|intros x Hx; first [exfalso; lia|replace x with (b - 1) by lia; done]|cbn; split_and!; try done; try lia; by vm_compute|].

Lemma demo_lex : lex demo_buf 100 (100 + Z.of_nat (length demo_text)) 100 (line_tokens demo_line).
Proof.
  cbn [demo_line line_tokens pipe_tokens ex_tokens redirs_tokens redir_tokens arg_tokens map concat app fst snd replicate].
  next 100 102. next 102 103. next 103 104. next 105 106. next 107 109.
  apply lex_nil; [cbn; lia|]. intros x Hx. cbn in Hx. lia.
Qed.

Lemma parsecmd_spec_witness :
  exists c os m', Sh.parsecmd 40 demo_buf 100 = Ok (Sh.Parsed c os m') /\
    rep (string_at m') os c
      (CPipe (CRedir (CExec [[108; 115]]) [102] (Z.lor O_WRONLY O_CREATE) 1) (CExec [[119; 99]])).
Proof.
  apply (parsecmd_spec 40 demo_buf 100 demo_text demo_line); [lia|apply demo_cstr|apply demo_lex|cbn; unfold MAXARGS; lia|cbn; lia].
Defined.
