(* ===== verification/ShRun.v ===== *)
(** What the shell starts: the commands that [runcmd] executes, each with the
    descriptors it finds open.

    [launch] runs a program of the shell with calls that succeed.  Descriptors
    are given out lowest first, as [fdalloc] does; [fork] copies the table, and
    both processes are followed, the child first.  A pipe is a number; the parts of
    the table are the console, files by name, and the two ends of pipes. *)

From S2P Require Import Prelude CString Sh ShFacts ShGrammar.

(** What a descriptor refers to; [F] is how a file is named. *)
Inductive desc (F : Type) := Console | File (name : F) (mode : Z) | PipeR (n : nat) | PipeW (n : nat).
Arguments Console {F}.
Arguments File {F} name mode.
Arguments PipeR {F} n.
Arguments PipeW {F} n.

Abbreviation fds F := (list (option (desc F))).

(** A string the kernel is given: a pointer into the memory of the process. *)
Abbreviation ustr := (mem * Z)%type.

(** A command that was started: the memory its [argv] is read from, [argv] and its
    descriptors. *)
Record started := mkStarted { s_mem : mem; s_argv : list Z; s_fds : fds ustr }.

Section Launch.
Implicit Types (t : fds ustr) (np : nat).

Fixpoint lowest {F} (t : fds F) : nat :=
  match t with Some _ :: t => S (lowest t) | _ => 0 end.

Definition give {F} (d : desc F) (t : fds F) : fds F := <[lowest t := Some d]> t.
Definition shut {F} (fd : Z) (t : fds F) : fds F := <[Z.to_nat fd := None]> t.

(** [np] numbers the next pipe. *)
Fixpoint launch (p : prog) t np : list started * nat :=
  match p with
  | Exit | Stuck => ([], np)
  | Pipe k =>
      let r := lowest t in
      let t := give (PipeR np) t in
      let w := lowest t in
      let t := give (PipeW np) t in
      launch (k 0 (Z.of_nat r) (Z.of_nat w)) t (S np)
  | Call Fork k =>
      let (l1, np) := launch (k 0) t np in
      let (l2, np) := launch (k 1) t np in
      (l1 ++ l2, np)
  | Call (Close fd) k => launch (k 0) (shut fd t) np
  | Call (Dup fd) k =>
      match t !! Z.to_nat fd with
      | Some (Some d) => launch (k (Z.of_nat (lowest t))) (give d t) np
      | _ => launch (k (-1)) t np
      end
  | Call (Open m path mode) k => launch (k (Z.of_nat (lowest t))) (give (File (m, path) mode) t) np
  | Call (Exec m _ argv) k => ([mkStarted m argv t], np)
  | Call _ k => launch (k 0) t np
  end.
End Launch.

(** * Pipelines *)

(** A stage of a pipeline: redirections, the outermost first, around words. *)
Abbreviation stage := (list redir * list word)%type.

Definition stage_cmd (s : stage) : cmd := wrap (CExec s.2) s.1.

Fixpoint pipeline (s : stage) (ss : list stage) : cmd :=
  match ss with [] => stage_cmd s | s' :: ss => CPipe (stage_cmd s) (pipeline s' ss) end.

Section Wiring.
Context {F : Type}.

(** Standard input and output, and nothing else above the diagnostics. *)
Definition stdio (i o : desc F) : fds F := [Some i; Some o; Some Console] ++ replicate 13 None.

End Wiring.

(** The redirections of a stage replace descriptors, the outermost first. *)
Fixpoint redirected (rs : list redir) (t : fds word) : fds word :=
  match rs with
  | [] => t
  | r :: rs => redirected rs (<[Z.to_nat (r_fd r) := Some (File r.2 (r_mode r))]> t)
  end.

(** What each stage is started with: its words, and the pipe before it as input
    and the pipe behind it as output. *)
Fixpoint wiring (i : desc word) (np : nat) (s : stage) (ss : list stage) : list (list word * fds word) :=
  match ss with
  | [] => [(s.2, redirected s.1 (stdio i Console))]
  | s' :: ss => (s.2, redirected s.1 (stdio i (PipeW np))) :: wiring (PipeR np) (S np) s' ss
  end.

(** A started command, against the words and the table of the specification. *)
Definition same_desc (d : desc ustr) (d' : desc word) : Prop :=
  match d, d' with
  | Console, Console => True
  | File (m, q) mode, File w mode' => cstr m q w /\ mode = mode'
  | PipeR n, PipeR n' | PipeW n, PipeW n' => n = n'
  | _, _ => False
  end.
Definition same_fds (t : fds ustr) (t' : fds word) : Prop := Forall2 (option_Forall2 same_desc) t t'.

Definition starts_as (x : started) (y : list word * fds word) : Prop :=
  (exists qs, s_argv x = fill qs /\ Forall2 (cstr (s_mem x)) qs y.1) /\ same_fds (s_fds x) y.2.

Section Run.
Import Sh.
Context (m : mem) (os : list cmdobj).
Implicit Types (t : fds ustr) (c np fuel : nat) (rs : list redir).

Lemma r_fd_cases (r : redir) : r_fd r = 0 \/ r_fd r = 1.
Proof. destruct r as [[] w]; auto. Qed.

(** Closing 0 or 1 and opening gives the same descriptor. *)
Lemma reopen fd (d : desc ustr) i o t : fd = 0 \/ fd = 1 ->
  give d (shut fd (Some i :: Some o :: t)) = <[Z.to_nat fd := Some d]> (Some i :: Some o :: t) /\
  0 <= Z.of_nat (lowest (shut fd (Some i :: Some o :: t))).
Proof. intros [-> | ->]; split; try done; lia. Qed.

Lemma stage_run rs ws : forall fuel c i o t (t' : fds word) np,
  rep (string_at m) os c (wrap (CExec ws) rs) -> ws <> [] -> (length rs < fuel)%nat ->
  same_fds (Some i :: Some o :: t) t' ->
  exists x, launch (runcmd fuel m os c) (Some i :: Some o :: t) np = ([x], np) /\ starts_as x (ws, redirected rs t').
Proof.
  induction rs as [|r rs IH]; intros [|fuel] c i o t t' np Hr Hws Hf Ht; cbn [length] in Hf; try lia;
    cbn [wrap rep] in Hr; cbn [runcmd].
  - destruct Hr as (qs & -> & Hl & Hq). destruct ws as [|w ws]; [done|].
    apply Forall2_cons_inv_r in Hq as ([q eq] & qs' & [Hq0 Hq1] & Hqs & ->). cbn [fst snd map fill app] in *.
    rewrite (proj2 (Z.eqb_neq _ _) Hq0). cbn [launch]. eexists. split; [done|]. split; [|done].
    exists (q :: map fst qs'). split; [done|]. constructor; [done|].
    cbn [s_mem]. clear -Hqs. induction Hqs as [|[q eq] w qs ws [_ H] _ IH]; constructor; done.
  - destruct Hr as (p' & q & eq & -> & [Hq0 Hq] & Hc). cbn [launch].
    destruct (reopen (r_fd r) (File (m, q) (r_mode r)) i o t (r_fd_cases r)) as [E H0]. rewrite (proj2 (Z.ltb_ge _ _) H0), E.
    assert (same_fds (<[Z.to_nat (r_fd r) := Some (File (m, q) (r_mode r))]> (Some i :: Some o :: t))
      (<[Z.to_nat (r_fd r) := Some (File r.2 (r_mode r))]> t')) as Hs.
    { apply Forall2_insert; [done|]. by constructor. }
    assert (exists i' o', <[Z.to_nat (r_fd r) := Some (File (m, q) (r_mode r))]> (Some i :: Some o :: t) = Some i' :: Some o' :: t)
      as (i' & o' & E2).
    { destruct (r_fd_cases r) as [-> | ->]; by do 2 eexists. }
    rewrite E2 in *. by apply IH; [..|lia|].
Qed.

(** The table of the child that runs the left side, and of the right side. *)
Lemma left_table (i : desc ustr) np :
  shut 4 (shut 3 (give (PipeW np) (shut 1 (give (PipeW np) (give (PipeR np) (stdio i Console)))))) = stdio i (PipeW np).
Proof. done. Qed.

Lemma right_table (i : desc ustr) np :
  shut 4 (shut 3 (give (PipeR np) (shut 0 (give (PipeW np) (give (PipeR np) (stdio i Console)))))) = stdio (PipeR np) Console.
Proof. done. Qed.

Lemma stdio_same i i' o o' : same_desc i i' -> same_desc o o' -> same_fds (stdio i o) (stdio i' o').
Proof.
  intros Hi Ho. unfold stdio. apply Forall2_app; [repeat constructor; done|]. apply Forall2_replicate. constructor.
Qed.

Lemma launch_pipe l r (i : desc ustr) np fuel c : os !! c = Some (PIPE l r) ->
  launch (runcmd (S fuel) m os c) (stdio i Console) np =
    let (x1, np1) := launch (runcmd fuel m os l) (stdio i (PipeW np)) (S np) in
    let (x2, np2) := launch (runcmd fuel m os r) (stdio (PipeR np) Console) np1 in
    (x1 ++ x2, np2).
Proof.
  intros E. cbn [runcmd]. rewrite E. rewrite <- (left_table i np), <- (right_table i np).
  cbn -[runcmd shut give stdio]. unfold fork1. cbn -[runcmd shut give stdio].
  change (Z.of_nat (lowest (give (PipeR np) (stdio i Console)))) with 4.
  change (Z.of_nat (lowest (stdio i Console))) with 3.
  change (shut 1 (give (PipeW np) (give (PipeR np) (stdio i Console))) !! Z.to_nat 4) with (Some (Some (@PipeW ustr np))).
  change (shut 0 (give (PipeW np) (give (PipeR np) (stdio i Console))) !! Z.to_nat 3) with (Some (Some (@PipeR ustr np))).
  cbv iota. destruct (launch (runcmd fuel m os l) _ _) as [x1 np1]. destruct (launch (runcmd fuel m os r) _ _) as [x2 np2].
  by rewrite app_nil_r.
Qed.

Lemma pipeline_run ss : forall s fuel c i i' np,
  rep (string_at m) os c (pipeline s ss) -> Forall (fun s => s.2 <> []) (s :: ss) ->
  (depth (pipeline s ss) < fuel)%nat -> same_desc i i' ->
  exists xs, launch (runcmd fuel m os c) (stdio i Console) np = (xs, (np + length ss)%nat) /\
    Forall2 starts_as xs (wiring i' np s ss).
Proof.
  induction ss as [|s' ss IH]; intros [rs ws] fuel c i i' np Hr Hne Hf Hi; apply Forall_cons in Hne as [Hne Hss];
    cbn [pipeline stage_cmd fst snd depth] in *; unfold stage_cmd in *; cbn [fst snd] in *.
  - rewrite wrap_depth in Hf. cbn [depth] in Hf.
    destruct (stage_run rs ws fuel c i Console (Some Console :: replicate 13 None) (stdio i' Console) np) as (x & E & Hx);
      [done|done|lia|by apply stdio_same|].
    exists [x]. split; [|by apply Forall2_cons; split; [|constructor]]. rewrite Nat.add_0_r. exact E.
  - destruct fuel as [|fuel]; [lia|]. cbn [rep] in Hr. destruct Hr as (p1 & p2 & E & H1 & H2).
    rewrite (launch_pipe p1 p2) by done. rewrite wrap_depth in Hf. cbn [depth] in Hf.
    destruct (stage_run rs ws fuel p1 i (PipeW np) (Some Console :: replicate 13 None) (stdio i' (PipeW np)) (S np))
      as (x & E1 & Hx); [done|done|lia|by apply stdio_same|].
    change (Some i :: Some (PipeW np) :: Some Console :: replicate 13 None) with (stdio i (PipeW np)) in E1. rewrite E1.
    destruct (IH s' fuel p2 (PipeR np) (PipeR np) (S np)) as (xs & -> & Hxs); [done|done|lia|done|].
    exists (x :: xs). split; [cbn; f_equal; lia|]. by constructor.
Qed.
End Run.

(** ** From the line to the running commands *)

(** A stage as it is written: redirections, then words each with redirections. *)
Abbreviation simple := (list redir * list (word * list redir))%type.

Fixpoint pipe_line (s : simple) (ss : list simple) : pipe :=
  match ss with
  | [] => PEnd (Simple s.1 s.2)
  | s' :: ss => PCons (Simple s.1 s.2) (pipe_line s' ss)
  end.

(** The words, and the redirections the last one written first. *)
Definition to_stage (s : simple) : stage := (rev (s.1 ++ concat (map snd s.2)), map fst s.2).

Lemma pipe_line_cmd ss : forall s, pipe_cmd (pipe_line s ss) = pipeline (to_stage s) (map to_stage ss).
Proof. induction ss as [|s' ss IH]; intros s; cbn [pipe_line pipe_cmd map pipeline]; [done|]. by rewrite IH. Qed.

Lemma pipe_line_fits ss : forall s, Forall (fun s => (length s.2 < MAXARGS)%nat) (s :: ss) -> pipe_fits (pipe_line s ss).
Proof.
  induction ss as [|s' ss IH]; intros s [H1 H2]%Forall_cons; cbn [pipe_line pipe_fits ex_fits]; [done|]. auto.
Qed.


(** ** Instances *)

Definition demo_stages : simple * list simple := (([], [([108; 115], [(ROut, [102])])]), [([], [([119; 99], [])])]).

