(* ===== verification/Kbd.v ===== *)
(** The keyboard: [kbd.c] and the tables of [kbd.h].

    The controller is the list of scan codes it has ready; [shift] is the static
    variable of [kbdgetc]. *)

From S2P Require Import Prelude.

Definition SHIFT : Z := 1.
Definition CTL : Z := 2.
Definition ALT : Z := 4.
Definition CAPSLOCK : Z := 8.
Definition NUMLOCK : Z := 16.
Definition SCROLLLOCK : Z := 32.
Definition E0ESC : Z := 64.

(** The codes ready at the data port, and [shift]. *)
Record kbd := mkKbd { codes : list Z; shift : Z }.
#[export] Instance kbd_eta : Eta kbd := fun x => mkKbd (codes x) (shift x).
Definition set_codes := ltac:(setter codes).
Definition set_shift := ltac:(setter shift).

Module Kbd.

(** A table of 256 bytes: the first entries, and entries by index. *)
Definition table (l : list Z) (by_index : list (Z * Z)) : list Z :=
  foldl (fun t e => <[Z.to_nat e.1 := e.2]> t) (l ++ replicate (256 - length l) 0) by_index.

Definition shiftcode : list Z :=
  table [] [(0x1D, CTL); (0x2A, SHIFT); (0x36, SHIFT); (0x38, ALT); (0x9D, CTL); (0xB8, ALT)].
Definition togglecode : list Z := table [] [(0x3A, CAPSLOCK); (0x45, NUMLOCK); (0x46, SCROLLLOCK)].

Definition normalmap : list Z := table
  [0; 27; 49; 50; 51; 52; 53; 54; 55; 56; 57; 48; 45; 61; 8; 9;
   113; 119; 101; 114; 116; 121; 117; 105; 111; 112; 91; 93; 10; 0; 97; 115;
   100; 102; 103; 104; 106; 107; 108; 59; 39; 96; 0; 92; 122; 120; 99; 118;
   98; 110; 109; 44; 46; 47; 0; 42; 0; 32; 0; 0; 0; 0; 0; 0;
   0; 0; 0; 0; 0; 0; 0; 55; 56; 57; 45; 52; 53; 54; 43; 49;
   50; 51; 48; 46; 0; 0; 0; 0]
  [(0x9C, 10); (0xB5, 47); (0xC8, 0xE2); (0xD0, 0xE3); (0xC9, 0xE6); (0xD1, 0xE7);
   (0xCB, 0xE4); (0xCD, 0xE5); (0x97, 0xE0); (0xCF, 0xE1); (0xD2, 0xE8); (0xD3, 0xE9)].

Definition shiftmap : list Z := table
  [0; 27; 33; 64; 35; 36; 37; 94; 38; 42; 40; 41; 95; 43; 8; 9;
   81; 87; 69; 82; 84; 89; 85; 73; 79; 80; 123; 125; 10; 0; 65; 83;
   68; 70; 71; 72; 74; 75; 76; 58; 34; 126; 0; 124; 90; 88; 67; 86;
   66; 78; 77; 60; 62; 63; 0; 42; 0; 32; 0; 0; 0; 0; 0; 0;
   0; 0; 0; 0; 0; 0; 0; 55; 56; 57; 45; 52; 53; 54; 43; 49;
   50; 51; 48; 46; 0; 0; 0; 0]
  [(0x9C, 10); (0xB5, 47); (0xC8, 0xE2); (0xD0, 0xE3); (0xC9, 0xE6); (0xD1, 0xE7);
   (0xCB, 0xE4); (0xCD, 0xE5); (0x97, 0xE0); (0xCF, 0xE1); (0xD2, 0xE8); (0xD3, 0xE9)].

Definition ctlmap : list Z := table
  [0; 0; 0; 0; 0; 0; 0; 0; 0; 0; 0; 0; 0; 0; 0; 0;
   17; 23; 5; 18; 20; 25; 21; 9; 15; 16; 0; 0; 13; 0; 1; 19;
   4; 6; 7; 8; 10; 11; 12; 0; 0; 0; 0; 28; 26; 24; 3; 22;
   2; 14; 13; 0; 0; 239; 0; 0]
  [(0x9C, 13); (0xB5, 0xEF); (0xC8, 0xE2); (0xD0, 0xE3); (0xC9, 0xE6); (0xD1, 0xE7);
   (0xCB, 0xE4); (0xCD, 0xE5); (0x97, 0xE0); (0xCF, 0xE1); (0xD2, 0xE8); (0xD3, 0xE9)].

Definition charcode : list (list Z) := [normalmap; shiftmap; ctlmap; ctlmap].

(** -1 when there is no code, 0 when the code is no character. *)
Definition kbdgetc (k : kbd) : res (Z * kbd) :=
  match codes k with
  | [] => Ok (-1, k)
  | data :: rest =>
      let k := set_codes rest k in
      if data =? 0xE0 then Ok (0, set_shift (Z.lor (shift k) E0ESC) k)
      else if negb (Z.land data 0x80 =? 0) then
        let data := if negb (Z.land (shift k) E0ESC =? 0) then data else Z.land data 0x7F in
        let? sc := zget "shiftcode" shiftcode data in
        Ok (0, set_shift (Z.land (shift k) (Z.lnot (Z.lor sc E0ESC))) k)
      else
        let (data, sh) :=
          (if negb (Z.land (shift k) E0ESC =? 0) then (Z.lor data 0x80, Z.land (shift k) (Z.lnot E0ESC))
           else (data, shift k)) in
        let? sc := zget "shiftcode" shiftcode data in
        let sh := Z.lor sh sc in
        let? tc := zget "togglecode" togglecode data in
        let sh := Z.lxor sh tc in
        let? map := zget "charcode" charcode (Z.land sh (Z.lor CTL SHIFT)) in
        let? c := zget "charcode" map data in
        let c :=
          (if negb (Z.land sh CAPSLOCK =? 0) then
             if (97 <=? c) && (c <=? 122) then c + (65 - 97)
             else if (65 <=? c) && (c <=? 90) then c + (97 - 65)
             else c
           else c) in
        Ok (c, set_shift sh k)
  end.

End Kbd.

(** * Theorems *)

Section KbdFacts.
Import Kbd.
Implicit Types (k : kbd) (sh d c : Z).

Definition kbd_ok k : Prop := 0 <= shift k < 128 /\ Forall (fun d => 0 <= d < 256) (codes k).

(** The codes behind the first one are only passed on. *)
Definition pass (rest : list Z) (r : res (Z * kbd)) : res (Z * kbd) :=
  let? (c, k) := r in Ok (c, set_codes rest k).

Lemma kbdgetc_pass sh d rest : kbdgetc (mkKbd (d :: rest) sh) = pass rest (kbdgetc (mkKbd [d] sh)).
Proof.
  unfold kbdgetc, pass. cbn [codes shift set_codes]. destruct (d =? 0xE0); [done|].
  destruct (negb (Z.land d 0x80 =? 0)); [by destruct (zget _ _ _)|].
  destruct (negb (Z.land sh E0ESC =? 0)); repeat (destruct (zget _ _ _); [cbn [res_bind]|done..]); done.
Qed.

(** All the states and codes there are, for checks by evaluation. *)
Lemma each_code (P : Z -> Z -> bool) sh d :
  forallb (fun sh => forallb (P sh) (map Z.of_nat (seq 0 256))) (map Z.of_nat (seq 0 128)) = true ->
  0 <= sh < 128 -> 0 <= d < 256 -> P sh d = true.
Proof.
  intros H Hsh Hd. rewrite forallb_forall in H. assert (In sh (map Z.of_nat (seq 0 128))) as H1.
  { apply in_map_iff. exists (Z.to_nat sh). split; [lia|]. apply in_seq. lia. }
  specialize (H sh H1). rewrite forallb_forall in H. apply H.
  apply in_map_iff. exists (Z.to_nat d). split; [lia|]. apply in_seq. lia.
Qed.

Definition one_ok sh d : bool :=
  match kbdgetc (mkKbd [d] sh) with
  | Ok (c, k) => (0 <=? c) && (c <? 256) && (0 <=? shift k) && (shift k <? 128) && bool_decide (codes k = [])
  | _ => false
  end.

Lemma one_ok_all : forallb (fun sh => forallb (one_ok sh) (map Z.of_nat (seq 0 256))) (map Z.of_nat (seq 0 128)) = true.
Proof. vm_compute. reflexivity. Qed.

Lemma kbdgetc_ok k : kbd_ok k -> exists c k', kbdgetc k = Ok (c, k') /\ -1 <= c < 256 /\ kbd_ok k' /\
  (codes k = [] -> c = -1 /\ k' = k) /\ (codes k <> [] -> 0 <= c /\ codes k' = tail (codes k)).
Proof.
  destruct k as [[|d rest] sh]; intros [Hsh Hd]; cbn [codes shift tail] in *.
  { eexists _, _. split; [done|]. split; [lia|]. split; [done|]. done. }
  apply Forall_cons in Hd as [Hd Hrest]. rewrite kbdgetc_pass.
  pose proof (each_code one_ok sh d one_ok_all Hsh Hd) as H. unfold one_ok in H.
  destruct (kbdgetc (mkKbd [d] sh)) as [[c k]| | | |]; try done.
  rewrite !andb_true_iff, !Z.leb_le, !Z.ltb_lt in H. destruct H as ((((H1 & H2) & H3) & H4) & _).
  exists c, (set_codes rest k). split; [done|]. split; [lia|]. split; [split; [cbn; lia|done]|]. done.
Qed.

(** C38: [kbdgetc] stays inside its tables whatever the keyboard sends: it returns a
    byte, or -1 only when no code is ready, takes one code, and keeps [shift]
    within its seven bits. *)
Theorem kbdgetc_type k : kbd_ok k ->
  exists c k', kbdgetc k = Ok (c, k') /\ -1 <= c < 256 /\ kbd_ok k' /\
    (codes k = [] -> c = -1 /\ k' = k) /\ (codes k <> [] -> 0 <= c /\ codes k' = tail (codes k)).
Proof. apply kbdgetc_ok. Qed.

(** The letter on key [d], when there is one. *)
Definition letter d : option Z :=
  match normalmap !! Z.to_nat d with
  | Some c => if (d <? 128) && (97 <=? c) && (c <=? 122) then Some c else None
  | None => None
  end.

Definition letter_case sh (c : Z) : Z :=
  if xorb (Z.testbit sh 0) (Z.testbit sh 3) then c - 32 else c.

Definition stroke_ok sh d : bool :=
  match letter d with
  | Some c =>
      if Z.testbit sh 1 || Z.testbit sh 6 then true
      else match kbdgetc (mkKbd [d; d + 128] sh) with
        | Ok (r, k) => (r =? letter_case sh c) && (shift k =? sh) &&
            match kbdgetc k with
            | Ok (r', k') => (r' =? 0) && (shift k' =? sh) && bool_decide (codes k' = [])
            | _ => false
            end
        | _ => false
        end
  | None => true
  end.

Lemma stroke_ok_all : forallb (fun sh => forallb (stroke_ok sh) (map Z.of_nat (seq 0 256))) (map Z.of_nat (seq 0 128)) = true.
Proof. vm_compute. reflexivity. Qed.

(** A letter key pressed and let go gives the letter once, in upper case
    exactly when one of shift and caps lock is on, and leaves [shift] as it was. *)
Theorem letter_stroke sh d c : 0 <= sh < 128 -> 0 <= d < 256 -> letter d = Some c ->
  Z.testbit sh 1 = false -> Z.testbit sh 6 = false ->
  kbdgetc (mkKbd [d; d + 128] sh) = Ok (letter_case sh c, mkKbd [d + 128] sh) /\
  kbdgetc (mkKbd [d + 128] sh) = Ok (0, mkKbd [] sh).
Proof.
  intros Hsh Hd Hl H1 H6. pose proof (each_code stroke_ok sh d stroke_ok_all Hsh Hd) as H. unfold stroke_ok in H.
  rewrite Hl, H1, H6 in H. cbn [orb] in H.
  destruct (kbdgetc_ok (mkKbd [d] sh)) as (r0 & k0 & E0 & _); [split; [done|by apply Forall_singleton]|].
  rewrite kbdgetc_pass, E0 in H |- *. cbn [pass res_bind] in H |- *.
  rewrite !andb_true_iff, !Z.eqb_eq in H. destruct H as ((-> & Hs) & H).
  assert (set_codes [d + 128] k0 = mkKbd [d + 128] sh) as E by (destruct k0; cbn in *; by subst). rewrite E in *.
  split; [done|]. destruct (kbdgetc (mkKbd [d + 128] sh)) as [[r' k']| | | |]; try done.
  rewrite !andb_true_iff, !Z.eqb_eq, bool_decide_eq_true in H. destruct H as ((-> & H) & Hc). destruct k'. cbn in *. by subst.
Qed.
End KbdFacts.

Lemma kbdgetc_type_witness : exists c k',
  Kbd.kbdgetc (mkKbd [0xE0; 0x48] 0) = Ok (c, k') /\ -1 <= c < 256 /\ kbd_ok k' /\
  (codes (mkKbd [0xE0; 0x48] 0) = [] -> c = -1 /\ k' = mkKbd [0xE0; 0x48] 0) /\
  (codes (mkKbd [0xE0; 0x48] 0) <> [] -> 0 <= c /\ codes k' = [0x48]).
Proof. apply (kbdgetc_type (mkKbd [0xE0; 0x48] 0)). split; [cbn; lia|]. cbn [codes]. rewrite !Forall_cons, Forall_nil. lia. Defined.

Lemma letter_stroke_witness :
  Kbd.kbdgetc (mkKbd [0x1E; 0x1E + 128] 1) = Ok (65, mkKbd [0x1E + 128] 1) /\
  Kbd.kbdgetc (mkKbd [0x1E + 128] 1) = Ok (0, mkKbd [] 1).
Proof. apply (letter_stroke 1 0x1E 97); try lia; reflexivity. Defined.
