(* ===== verification/Console.v ===== *)
(** The console: [console.c], and the serial port of [uart.c] it writes to.

    The screen is the CGA memory, 16-bit cells, with the cursor registers of the
    controller; [serial] is what was sent to the port.  A device that consoleintr
    reads from is a function [getc] on its state.  The interrupt is taken while a
    process runs; a process that waits for input sleeps on [&input.r], and [resume]
    is what the others, interrupts included, do to the console meanwhile. *)

From S2P Require Import Prelude CString Spinlock Kalloc Proc Demo MlfqFacts ProcFacts Sleep Ring Block Log Fs Kbd.

Definition INPUT_BUF : Z := 128.
Definition BACKSPACE : Z := 0x100.
Definition CONSOLE : Z := 1.

Record console := mkConsole {
  cons_lock : spinlock;
  locking : Z;
  panicked : Z;
  crt : list Z;
  cur_hi : Z;
  cur_lo : Z;
  uart : bool;
  serial : list Z;
  in_buf : list Z;
  in_r : Z;
  in_w : Z;
  in_e : Z
}.
#[export] Instance console_eta : Eta console := fun x =>
  mkConsole (cons_lock x) (locking x) (panicked x) (crt x) (cur_hi x) (cur_lo x) (uart x) (serial x)
    (in_buf x) (in_r x) (in_w x) (in_e x).
Definition set_cons_lock := ltac:(setter cons_lock).
Definition set_locking := ltac:(setter locking).
Definition set_crt := ltac:(setter crt).
Definition set_cur_hi := ltac:(setter cur_hi).
Definition set_cur_lo := ltac:(setter cur_lo).
Definition set_serial := ltac:(setter serial).
Definition set_in_buf := ltac:(setter in_buf).
Definition set_in_r := ltac:(setter in_r).
Definition set_in_w := ltac:(setter in_w).
Definition set_in_e := ltac:(setter in_e).

#[export] Instance guarded_console : Guarded console :=
  {| the_lock := cons_lock; put_lock := set_cons_lock; the_put _ _ := eq_refl |}.

(** An argument of [cprintf]. *)
Inductive karg := KNum (z : Z) | KStr (s : option (list Z)).

Module Console.
Import Ptable.

(** ** Output *)

Section Output.
Implicit Types (x : console) (c : Z).

Definition uartputc c x : console :=
  if uart x then set_serial (serial x ++ [u8 c]) x else x.

(** [memmove(crt, crt+80, 2*23*80)], then [memset(crt+pos, 0, 2*(24*80 - pos))]. *)
Definition scroll (l : list Z) (pos : Z) : list Z :=
  let l := take (23 * 80) (drop 80 l) ++ drop (23 * 80) l in
  take (Z.to_nat pos) l ++ replicate (Z.to_nat (24 * 80 - pos)) 0 ++ drop (24 * 80) l.

Definition cgaputc c x : res console :=
  let pos := Z.lor (Z.shiftl (cur_hi x) 8) (cur_lo x) in
  let? (pos, x) :=
    (if c =? 10 then Ok (pos + (80 - pos mod 80), x)
     else if c =? BACKSPACE then Ok (if 0 <? pos then pos - 1 else pos, x)
     else
       let? l := zset "crt" (crt x) pos (Z.lor (Z.land c 0xff) 0x0700) in
       Ok (pos + 1, set_crt l x)) in
  if (pos <? 0) || (25 * 80 <? pos) then Panic "pos under/overflow"
  else
    let (pos, x) :=
      (if 24 <=? pos / 80 then
         let pos := pos - 80 in (pos, set_crt (scroll (crt x) pos) x)
       else (pos, x)) in
    let x := set_cur_lo (u8 pos) (set_cur_hi (u8 (Z.shiftr pos 8)) x) in
    let? l := zset "crt" (crt x) pos (Z.lor 32 0x0700) in
    Ok (set_crt l x).

Definition consputc c x : res console :=
  if negb (panicked x =? 0) then Spin
  else
    let x := (if c =? BACKSPACE then uartputc 8 (uartputc 32 (uartputc 8 x)) else uartputc c x) in
    cgaputc c x.

Fixpoint puts (l : list Z) x : res console :=
  match l with [] => Ok x | c :: l' => let? x := consputc c x in puts l' x end.

(** ["0123456789abcdef"]. *)
Definition digits : list Z := [48; 49; 50; 51; 52; 53; 54; 55; 56; 57; 97; 98; 99; 100; 101; 102].

(** [do buf[i++] = digits[x % base]; while((x /= base) != 0)]. *)
Fixpoint put_digits (fuel : nat) (n base : Z) (buf : list Z) : res (list Z) :=
  match fuel with
  | O => OutOfFuel
  | S k =>
      let? d := zget "digits" digits (n mod base) in
      let buf := buf ++ [d] in
      let n := n / base in
      if negb (n =? 0) then put_digits k n base buf else Ok buf
  end.

(** [buf] has 16 entries. *)
Definition printint (xx base : Z) (sign : bool) x : res console :=
  let neg := sign && (xx <? 0) in
  let n := if neg then u32 (- xx) else u32 xx in
  let? buf := put_digits 33 n base [] in
  let buf := if neg then buf ++ [45] else buf in
  if (16 <? length buf)%nat then OOB "buf" else puts (rev buf) x.

Definition next_num (ap : list karg) : res (Z * list karg) :=
  match ap with KNum z :: ap' => Ok (z, ap') | _ => OOB "argument" end.

(** The loop over the format, a string without its NUL. *)
Fixpoint format (fmt : list Z) (ap : list karg) x : res console :=
  match fmt with
  | [] => Ok x
  | c :: fmt' =>
      if negb (c =? 37) then let? x := consputc c x in format fmt' ap x
      else
        match fmt' with
        | [] => Ok x
        | c :: fmt'' =>
            if c =? 100 then
              let? (z, ap) := next_num ap in
              let? x := printint (s32 z) 10 true x in format fmt'' ap x
            else if (c =? 120) || (c =? 112) then
              let? (z, ap) := next_num ap in
              let? x := printint (s32 z) 16 false x in format fmt'' ap x
            else if c =? 115 then
              match ap with
              | KStr s :: ap =>
                  let l := match s with Some l => l | None => [40; 110; 117; 108; 108; 41] end in
                  let? x := puts l x in format fmt'' ap x
              | _ => OOB "argument"
              end
            else if c =? 37 then let? x := consputc 37 x in format fmt'' ap x
            else
              let? x := consputc 37 x in
              let? x := consputc c x in format fmt'' ap x
        end
  end.
End Output.

(** ** The lock *)

Section Console.
Context `{SV : Services}.
Implicit Types (s : kst) (x : console) (c : Z).

Definition lock s x : res (kst * console) :=
  let? (l, m) := Spinlock.acquire (cons_lock x) (mach s) in Ok (set_mach m s, set_cons_lock l x).
Definition unlock s x : res (kst * console) :=
  let? (l, m) := Spinlock.release (cons_lock x) (mach s) in Ok (set_mach m s, set_cons_lock l x).

Definition cprintf (fmt : option (list Z)) (ap : list karg) s x : res (kst * console) :=
  let locking := negb (locking x =? 0) in
  let? (s, x) := (if locking then lock s x else Ok (s, x)) in
  match fmt with
  | None => Panic "null fmt"
  | Some fmt =>
      let? x := format fmt ap x in
      if locking then unlock s x else Ok (s, x)
  end.

(** ** Input *)

Section Input.
(** The address of [input.r], the channel of the readers. *)
Context (a : Z).

(** The loop of control-U. *)
Fixpoint kill_line (fuel : nat) x : res console :=
  match fuel with
  | O => OutOfFuel
  | S n =>
      if in_e x =? in_w x then Ok x
      else
        let? b := zget "input.buf" (in_buf x) (u32 (in_e x - 1) mod INPUT_BUF) in
        if b =? 10 then Ok x
        else
          let x := set_in_e (u32 (in_e x - 1)) x in
          let? x := consputc BACKSPACE x in
          kill_line n x
  end.

(** The [switch] of [consoleintr] on one character; the flag asks for a process
    listing. *)
Definition typed (fuel : nat) c s x : res (bool * kst * console) :=
  if c =? 16 then Ok (true, s, x)
  else if c =? 21 then let? x := kill_line fuel x in Ok (false, s, x)
  else if (c =? 8) || (c =? 0x7f) then
    if negb (in_e x =? in_w x) then
      let x := set_in_e (u32 (in_e x - 1)) x in
      let? x := consputc BACKSPACE x in
      Ok (false, s, x)
    else Ok (false, s, x)
  else if negb (c =? 0) && (u32 (in_e x - in_r x) <? INPUT_BUF) then
    let c := if c =? 13 then 10 else c in
    let? l := zset "input.buf" (in_buf x) (in_e x mod INPUT_BUF) (u8 c) in
    let x := set_in_e (u32 (in_e x + 1)) (set_in_buf l x) in
    let? x := consputc c x in
    if (c =? 10) || (c =? 4) || (in_e x =? u32 (in_r x + INPUT_BUF)) then
      let x := set_in_w (in_e x) x in
      let? s := wakeup (ChAddr a) s in
      Ok (false, s, x)
    else Ok (false, s, x)
  else Ok (false, s, x).

Section Intr.
Context {D : Type} (getc : D -> res (Z * D)).

Fixpoint intr_loop (fuel : nat) (dump : bool) (d : D) s x : res (bool * D * kst * console) :=
  match fuel with
  | O => OutOfFuel
  | S n =>
      let? (c, d) := getc d in
      if c <? 0 then Ok (dump, d, s, x)
      else
        let? (b, s, x) := typed (S (Z.to_nat INPUT_BUF)) c s x in
        intr_loop n (b || dump) d s x
  end.

Definition consoleintr (fuel : nat) (d : D) s x : res (D * kst * console) :=
  let? (s, x) := lock s x in
  let? (dump, d, s, x) := intr_loop fuel false d s x in
  let? (s, x) := unlock s x in
  let s := if dump then procdump s else s in
  Ok (d, s, x).
End Intr.

(** [getc] of the serial port: the bytes it has ready. *)
Definition uartgetc (there : bool) (d : list Z) : res (Z * list Z) :=
  if there then match d with [] => Ok (-1, []) | b :: d' => Ok (b, d') end else Ok (-1, d).

(** [kbdintr] of [kbd.c] and [uartintr] of [uart.c]. *)
Definition kbdintr (fuel : nat) (k : kbd) s x : res (kbd * kst * console) := consoleintr Kbd.kbdgetc fuel k s x.
Definition uartintr (fuel : nat) (there : bool) (d : list Z) s x : res (list Z * kst * console) :=
  consoleintr (uartgetc there) fuel d s x.

(** ** Reading and writing *)

Section Dev.
Context (resume : kst -> console -> kst * console).
Context (resume_fs : kst -> fsx -> kst * fsx) (rounds : nat) (lock_at : Z -> Z).

(** The inner loop of [consoleread]; [false] when the process was killed. *)
Fixpoint wait_line (fuel : nat) s x : res (bool * kst * console) :=
  match fuel with
  | O => OutOfFuel
  | S n =>
      if in_r x =? in_w x then
        let? (p, s) := curproc s in
        let? pr := getp p s in
        if negb (killed pr =? 0) then Ok (false, s, x)
        else
          let? (s, x) := sleep resume (ChAddr a) LkOther s x in
          wait_line n s x
      else Ok (true, s, x)
  end.

(** The outer loop with [n] bytes left: what is left at its end, and the bytes
    stored; [None] when the process was killed. *)
Fixpoint read_loop (fuel : nat) (target : Z) (n : nat) s x : res (option (nat * list Z) * kst * console) :=
  match n with
  | O => Ok (Some (O, []), s, x)
  | S n' =>
      let? (go, s, x) := wait_line fuel s x in
      if negb go then Ok (None, s, x)
      else
        let? c := zget "input.buf" (in_buf x) (in_r x mod INPUT_BUF) in
        let x := set_in_r (u32 (in_r x + 1)) x in
        if c =? 4 then
          let x := (if Z.of_nat n <? target then set_in_r (u32 (in_r x - 1)) x else x) in
          Ok (Some (n, []), s, x)
        else if c =? 10 then Ok (Some (n', [c]), s, x)
        else
          let? (r, s, x) := read_loop fuel target n' s x in
          match r with
          | Some (k, l) => Ok (Some (k, c :: l), s, x)
          | None => Ok (None, s, x)
          end
  end.

(** The result, and the bytes stored at [dst]. *)
Definition consoleread (fuel : nat) (ip : Z) (n : Z) s (y : fsx) x : res (Z * list Z * kst * fsx * console) :=
  let? (s, y) := Fs.iunlock lock_at (Some ip) s y in
  let target := u32 n in
  let? (s, x) := lock s x in
  let? (r, s, x) := read_loop fuel target (Z.to_nat n) s x in
  let? (s, x) := unlock s x in
  let? (s, y) := Fs.ilock resume_fs rounds lock_at (Some ip) s y in
  match r with
  | None => Ok (-1, [], s, y, x)
  | Some (k, l) => Ok (s32 (target - (if 0 <? n then Z.of_nat k else n)), l, s, y, x)
  end.

Definition consolewrite (ip : Z) (buf : list Z) s (y : fsx) x : res (Z * kst * fsx * console) :=
  let? (s, y) := Fs.iunlock lock_at (Some ip) s y in
  let? (s, x) := lock s x in
  let? x := puts (map (fun b => Z.land b 0xff) buf) x in
  let? (s, x) := unlock s x in
  let? (s, y) := Fs.ilock resume_fs rounds lock_at (Some ip) s y in
  Ok (Z.of_nat (length buf), s, y, x).
End Dev.
End Input.

(** [devsw] holds a pair of functions for each device; [ioapicenable] acts on the
    interrupt controller [y]. *)
Definition consoleinit {F Y : Type} (read write : F) (ioapicenable : Z -> Z -> Y -> Y)
    (devsw : Z -> F * F) (y : Y) x : (Z -> F * F) * Y * console :=
  let x := set_cons_lock (Spinlock.initlock "console" (cons_lock x)) x in
  let devsw := fupd devsw CONSOLE ((devsw CONSOLE).1, write) in
  let devsw := fupd devsw CONSOLE (read, (devsw CONSOLE).2) in
  let x := set_locking 1 x in
  (devsw, ioapicenable IRQ_KBD 0 y, x).

End Console.
End Console.
