(* ===== verification/ConsoleFacts.v ===== *)
(** Theorems on the console: the screen and its cursor, the line discipline of
    [consoleintr], and [consoleread]. *)

From S2P Require Import Prelude CString Spinlock Kalloc Proc Demo MlfqFacts ProcFacts Sleep Ring Pipe Block Log LogFacts Fs FsFacts InodeFacts Kbd Console.

(** * The screen *)

Local Ltac lens :=
  repeat first [rewrite length_app|rewrite length_take|rewrite length_drop|rewrite length_replicate|rewrite length_insert].

Section Screen.
Import Console.
Implicit Types (x : console) (c pos : Z) (l : list Z).

Lemma lor_byte a b : 0 <= a -> 0 <= b < 256 -> Z.lor (Z.shiftl a 8) b = 256 * a + b.
Proof.
  intros Ha Hb. rewrite Z.shiftl_mul_pow2 by lia. change (2 ^ 8) with 256.
  assert (Z.land (a * 256) b = 0) as E.
  { apply Z.bits_inj'. intros n Hn. rewrite Z.land_spec, Z.bits_0. change 256 with (2 ^ 8).
    destruct (Z.lt_ge_cases n 8) as [H|H].
    - by rewrite Z.mul_pow2_bits_low by lia.
    - rewrite (Z.bits_above_log2 b n), andb_false_r; [done|lia|].
      destruct (Z.eq_dec b 0) as [->|]; [cbn; lia|]. apply Z.log2_lt_pow2; [lia|].
      apply Z.lt_le_trans with (2 ^ 8); [lia|]. apply Z.pow_le_mono_r; lia. }
  rewrite <- Z.lxor_lor by done. rewrite <- Z.add_nocarry_lxor by done. lia.
Qed.

(** Where the controller has the cursor. *)
Definition cursor x : Z := 256 * cur_hi x + cur_lo x.

Record screen_ok x : Prop := {
  so_run : panicked x = 0;
  so_size : length (crt x) = 2000%nat;
  so_regs : 0 <= cur_hi x /\ 0 <= cur_lo x < 256;
  so_cur : 0 <= cursor x < 24 * 80
}.

Lemma scroll_length l pos : length l = 2000%nat -> 1840 <= pos <= 1920 -> length (scroll l pos) = 2000%nat.
Proof.
  intros Hl Hp. unfold scroll. lens. lia.
Qed.

(** The rows but the first move up by one. *)
Lemma scroll_up l pos i : length l = 2000%nat -> 1840 <= pos <= 1920 -> (i < 1840)%nat ->
  scroll l pos !! i = l !! (i + 80)%nat.
Proof.
  intros Hl Hp Hi. unfold scroll.
  rewrite lookup_app_l by (lens; lia).
  rewrite lookup_take_lt by lia. rewrite lookup_app_l by (lens; lia).
  rewrite lookup_take_lt by lia. rewrite lookup_drop. f_equal. lia.
Qed.

Lemma scroll_clear l pos i : length l = 2000%nat -> 1840 <= pos <= 1920 -> pos <= Z.of_nat i < 1920 ->
  scroll l pos !! i = Some 0.
Proof.
  intros Hl Hp Hi. unfold scroll.
  assert (length (take (Z.to_nat pos) (take (23 * 80) (drop 80 l) ++ drop (23 * 80) l)) = Z.to_nat pos) as E
    by (lens; lia).
  rewrite lookup_app_r by lia. rewrite E. rewrite lookup_app_l by (lens; lia).
  apply lookup_replicate_2. lia.
Qed.

(** Only the screen may differ. *)
Definition screen_only x x' : Prop :=
  exists l h lo, x' = set_cur_lo lo (set_cur_hi h (set_crt l x)).

(** The end of [cgaputc]: the cursor moves to [pos], under a blank. *)
Definition at_cursor pos l x : console :=
  set_crt (<[Z.to_nat pos := 0x720]> l) (set_cur_lo (u8 pos) (set_cur_hi (u8 (Z.shiftr pos 8)) x)).

Lemma at_cursor_ok pos l x : panicked x = 0 -> length l = 2000%nat -> 0 <= pos < 1920 ->
  screen_ok (at_cursor pos l x) /\ cursor (at_cursor pos l x) = pos.
Proof.
  intros Hp Hl Hpos. assert (cursor (at_cursor pos l x) = pos) as E.
  { unfold cursor, at_cursor. cbn. rewrite Z.shiftr_div_pow2 by lia. change (2 ^ 8) with 256. unfold u8.
    rewrite (Z.mod_small (pos / 256)) by (split; [apply Z.div_pos; lia|apply Z.div_lt_upper_bound; lia]).
    change (2 ^ 8) with 256. rewrite <- Z.div_mod; lia. }
  split; [|done]. split; [done|cbn; by rewrite length_insert| |rewrite E; lia].
  cbn. unfold u8. pose proof (Z.mod_pos_bound (Z.shiftr pos 8) (2 ^ 8)). pose proof (Z.mod_pos_bound pos (2 ^ 8)). lia.
Qed.

(** The cell a character is drawn in. *)
Definition cell c : Z := Z.lor (Z.land c 0xff) 0x0700.

(** What [cgaputc] does: the cells, and the cursor before scrolling. *)
Definition drawn c x : list Z * Z :=
  if c =? 10 then (crt x, cursor x + (80 - cursor x mod 80))
  else if c =? BACKSPACE then (crt x, Z.max 0 (cursor x - 1))
  else (<[Z.to_nat (cursor x) := cell c]> (crt x), cursor x + 1).

Lemma drawn_range c x : screen_ok x -> 0 <= (drawn c x).2 <= 1920 /\ length (drawn c x).1 = 2000%nat.
Proof.
  intros [_ Hl _ Hc]. unfold drawn. destruct (c =? 10); [|destruct (c =? BACKSPACE)]; cbn [fst snd]; rewrite ?length_insert.
  - split; [|done]. pose proof (Z.div_mod (cursor x) 80 ltac:(done)). pose proof (Z.mod_pos_bound (cursor x) 80 ltac:(lia)).
    assert (cursor x / 80 < 24) by (apply Z.div_lt_upper_bound; lia). lia.
  - split; [lia|done].
  - split; [lia|done].
Qed.

Lemma cgaputc_ok c x : screen_ok x ->
  cgaputc c x = Ok (let (l, pos) := drawn c x in
    if 1920 <=? pos then at_cursor (pos - 80) (scroll l (pos - 80)) x else at_cursor pos l x).
Proof.
  intros Hx. pose proof (drawn_range c x Hx) as [Hr Hlen]. destruct Hx as [Hp Hl [Hh Hlo] Hc].
  unfold cgaputc. rewrite lor_byte by lia. fold (cursor x).
  assert ((if c =? 10 then Ok (cursor x + (80 - cursor x mod 80), x)
     else if c =? BACKSPACE then Ok (if 0 <? cursor x then cursor x - 1 else cursor x, x)
     else let? l := zset "crt" (crt x) (cursor x) (Z.lor (Z.land c 0xff) 0x0700) in Ok (cursor x + 1, set_crt l x)) =
     Ok ((drawn c x).2, set_crt (drawn c x).1 x)) as ->.
  { unfold drawn. destruct (c =? 10); [by destruct x|]. destruct (c =? BACKSPACE).
    - f_equal. cbn [fst snd]. f_equal; [|by destruct x]. destruct (Z.ltb_spec 0 (cursor x)); lia.
    - rewrite zset_in by lia. done. }
  cbn [res_bind]. destruct (drawn c x) as [l pos]. cbn [fst snd] in *.
  rewrite (proj2 (Z.ltb_ge pos 0)), (proj2 (Z.ltb_ge (25 * 80) pos)) by lia. cbn [orb].
  assert ((24 <=? pos / 80) = (1920 <=? pos)) as ->.
  { destruct (Z.leb_spec 1920 pos) as [H|H].
    - apply Z.leb_le. apply Z.div_le_lower_bound; lia.
    - apply Z.leb_gt. apply Z.div_lt_upper_bound; lia. }
  destruct (Z.leb_spec 1920 pos) as [H|H]; cbv zeta; cbn [crt set_crt set_cur_lo set_cur_hi].
  - rewrite zset_in by (rewrite scroll_length; lia). done.
  - rewrite zset_in by lia. done.
Qed.

Lemma cgaputc_screen c x : screen_ok x -> exists x', cgaputc c x = Ok x' /\ screen_ok x' /\ screen_only x x'.
Proof.
  intros Hx. rewrite (cgaputc_ok c x Hx). pose proof (drawn_range c x Hx) as [Hr Hlen]. pose proof (so_run _ Hx) as Hp.
  destruct (drawn c x) as [l pos]. cbn [fst snd] in *. eexists. split; [done|].
  destruct (Z.leb_spec 1920 pos) as [H|H].
  - split; [apply at_cursor_ok; [done|apply scroll_length; lia|lia]|by do 3 eexists].
  - split; [apply at_cursor_ok; [done|done|lia]|by do 3 eexists].
Qed.

(** The screen.  [cgaputc] never leaves the 24 rows it uses and never
    panics; a newline in the last row moves every row up by one, clears the last
    row and puts the cursor at its start. *)
Theorem cgaputc_spec c x : screen_ok x ->
  exists x', cgaputc c x = Ok x' /\ screen_ok x' /\ screen_only x x' /\
    (c = 10 -> 23 * 80 <= cursor x ->
     cursor x' = 23 * 80 /\
     (forall i, (i < 23 * 80)%nat -> crt x' !! i = crt x !! (i + 80)%nat) /\
     (forall i, (23 * 80 < i < 24 * 80)%nat -> crt x' !! i = Some 0)).
Proof.
  intros Hx. destruct (cgaputc_screen c x Hx) as (x' & E & H1 & H2). exists x'. split_and!; try done.
  intros -> Hrow. rewrite (cgaputc_ok 10 x Hx) in E. destruct Hx as [Hp Hl _ Hc]. unfold drawn in E.
  cbn [Z.eqb Pos.eqb] in E. assert (cursor x + (80 - cursor x mod 80) = 1920) as Epos.
  { rewrite (Z.mod_eq (cursor x) 80) by done. rewrite <- (Z.div_unique (cursor x) 80 23 (cursor x - 1840)); lia. }
  rewrite Epos in E. cbn [Z.leb Z.compare Pos.compare Pos.compare_cont] in E. injection E as <-.
  change (1920 - 80) with 1840. split; [|split].
  - apply at_cursor_ok; [done|apply scroll_length; lia|lia].
  - intros i Hi. cbn [crt at_cursor set_crt set_cur_lo set_cur_hi]. rewrite list_lookup_insert_ne by lia. apply scroll_up; lia.
  - intros i Hi. cbn [crt at_cursor set_crt set_cur_lo set_cur_hi]. rewrite list_lookup_insert_ne by lia. apply scroll_clear; lia.
Qed.
End Screen.

(** * The line discipline *)

(** The lines that can be read, and the line being edited. *)
Record lines := mkLines { com : list Z; ed : list Z }.

Section Discipline.
Implicit Types (ls : lines) (c : Z).

(** One character typed. *)
Definition type1 c ls : lines :=
  if c =? 16 then ls
  else if c =? 21 then mkLines (com ls) []
  else if (c =? 8) || (c =? 127) then mkLines (com ls) (removelast (ed ls))
  else if negb (c =? 0) && (Z.of_nat (length (com ls ++ ed ls)) <? INPUT_BUF) then
    let c := if c =? 13 then 10 else c in
    let e := ed ls ++ [c] in
    if (c =? 10) || (c =? 4) || (Z.of_nat (length (com ls ++ e)) =? INPUT_BUF) then mkLines (com ls ++ e) []
    else mkLines (com ls) e
  else ls.

Definition type_all (cs : list Z) ls : lines := fold_left (fun ls c => type1 c ls) cs ls.
End Discipline.

Section Input.
Import Ptable Console.
Context `{SV : Services} (a : Z).
Implicit Types (s : kst) (x : console) (ls : lines) (c p : nat) (ch : Z).

(** The buffer of [x] holds [ls]; a newline ends the line that is edited. *)
Record input_rep x ls : Prop := {
  ir_ring : ring_at INPUT_BUF (in_buf x) (in_r x) (com ls ++ ed ls);
  ir_r : 0 <= in_r x < 2 ^ 32;
  ir_w : in_w x = u32 (in_r x + Z.of_nat (length (com ls)));
  ir_e : in_e x = u32 (in_r x + Z.of_nat (length (com ls ++ ed ls)));
  ir_ed : Forall (fun b => b <> 10) (ed ls)
}.

Lemma INPUT_pos : 0 < INPUT_BUF.
Proof. done. Qed.

Lemma INPUT_div : (INPUT_BUF | 2 ^ 32).
Proof. by exists (2 ^ 25). Qed.

(** The counters stay in order and no more than a buffer apart. *)
Lemma input_bounds x ls : input_rep x ls ->
  length (in_buf x) = 128%nat /\ u32 (in_w x - in_r x) <= u32 (in_e x - in_r x) <= INPUT_BUF.
Proof.
  intros [[H1 H2 _] Hr Hw He _]. unfold INPUT_BUF in *. split; [lia|].
  assert (forall n, 0 <= n <= 128 -> u32 (u32 (in_r x + n) - in_r x) = n) as Hu.
  { intros n Hn. rewrite u32_sub_l. replace (in_r x + n - in_r x) with n by lia. apply u32_small. lia. }
  rewrite length_app in *. rewrite Hw, He, !Hu by lia. lia.
Qed.

(** Printing leaves the input and the lock alone. *)
Record printed x x' : Prop := {
  pt_lk : cons_lock x' = cons_lock x;
  pt_buf : in_buf x' = in_buf x;
  pt_r : in_r x' = in_r x;
  pt_w : in_w x' = in_w x;
  pt_e : in_e x' = in_e x
}.

Lemma printed_rep x x' ls : printed x x' -> input_rep x ls -> input_rep x' ls.
Proof. intros [P1 P2 P3 P4 P5] [H1 H2 H3 H4 H5]. split; rewrite ?P2, ?P3, ?P4, ?P5; done. Qed.

Lemma printed_trans x1 x2 x3 : printed x1 x2 -> printed x2 x3 -> printed x1 x3.
Proof. intros [A1 A2 A3 A4 A5] [B1 B2 B3 B4 B5]. split; congruence. Qed.

Lemma uartputc_serial ch x : exists l, uartputc ch x = set_serial l x.
Proof. unfold uartputc. destruct (uart x); [by eexists|]. exists (serial x). by destruct x. Qed.

Lemma consputc_screen ch x : screen_ok x -> exists x', consputc ch x = Ok x' /\ screen_ok x' /\ printed x x'.
Proof.
  intros Hx. unfold consputc. rewrite (so_run _ Hx). cbn [Z.eqb negb].
  set (x1 := if ch =? BACKSPACE then _ else _).
  assert (exists l, x1 = set_serial l x) as [l E].
  { unfold x1. destruct (ch =? BACKSPACE); [|apply uartputc_serial].
    destruct (uartputc_serial 8 x) as [l1 ->]. destruct (uartputc_serial 32 (set_serial l1 x)) as [l2 ->].
    destruct (uartputc_serial 8 (set_serial l2 (set_serial l1 x))) as [l3 ->]. by exists l3. }
  assert (screen_ok x1) as H1 by (rewrite E; destruct Hx; by split).
  destruct (cgaputc_screen ch x1 H1) as (x' & -> & Hx' & l1 & h & lo & ->). eexists. split; [done|]. split; [done|].
  rewrite E. by split.
Qed.

(** Inside the console's lock. *)
Definition in_cons c p s x : Prop := inside_one c p s /\ Sleep.held c (cons_lock x) /\ locked (pt_lock s) = 0.

Lemma in_cons_printed c p s x x' : printed x x' -> in_cons c p s x -> in_cons c p s x'.
Proof. intros [E _ _ _ _] (H1 & H2 & H3). split_and!; [done|by rewrite E|done]. Qed.

(** The processes are the same, up to waking. *)
Definition alive s s' : Prop :=
  forall q pr, pt_proc s !! q = Some pr -> exists pr', pt_proc s' !! q = Some pr' /\ killed pr' = killed pr /\ pid pr' = pid pr.

#[local] Instance alive_pre : PreOrder alive.
Proof.
  split; [intros s q pr H; by exists pr|]. intros s1 s2 s3 H1 H2 q pr Hq.
  destruct (H1 q pr Hq) as (pr2 & Hq2 & E1 & E2). destruct (H2 q pr2 Hq2) as (pr3 & Hq3 & E3 & E4). exists pr3. split; [done|]. split; congruence.
Qed.

Lemma alive_wake s s' chn : pt_proc s' = map (wake chn) (pt_proc s) -> alive s s'.
Proof.
  intros E q pr Hq. exists (wake chn pr). rewrite E. pose proof (list_lookup_fmap (wake chn) (pt_proc s) q) as H.
  rewrite Hq in H. split; [done|]. unfold wake. by destruct (_ && _).
Qed.

(** Whether a line is being edited. *)
Lemma edit_empty x ls : input_rep x ls -> (in_e x =? in_w x) = bool_decide (ed ls = []).
Proof.
  intros H. pose proof (rg_fit _ _ _ _ (ir_ring _ _ H)) as Hf. unfold INPUT_BUF in Hf. rewrite length_app in Hf.
  rewrite (ir_e _ _ H), (ir_w _ _ H), length_app. rewrite u32_eqb by lia.
  destruct (ed ls); [rewrite bool_decide_true by done; apply Z.eqb_eq; cbn; lia|].
  rewrite bool_decide_false by done. apply Z.eqb_neq. cbn. lia.
Qed.

(** One step back in the line. *)
Lemma erase_rep x cm e b : input_rep x (mkLines cm (e ++ [b])) ->
  zget "input.buf" (in_buf x) (u32 (in_e x - 1) mod INPUT_BUF) = Ok b /\
  input_rep (set_in_e (u32 (in_e x - 1)) x) (mkLines cm e).
Proof.
  intros [H1 H2 H3 H4 H5]. cbn [com ed] in *. rewrite app_assoc in *. rewrite length_app in H4. cbn [length] in H4.
  assert (u32 (in_e x - 1) = u32 (in_r x + Z.of_nat (length (cm ++ e)))) as E.
  { rewrite H4, u32_sub_l. f_equal. lia. }
  split.
  - destruct (ring_lookup INPUT_BUF INPUT_pos _ _ _ (length (cm ++ e)) b (u32 (in_e x - 1)) H1) as [Hm Hl].
    + by apply list_lookup_middle.
    + rewrite E. by apply u32_mod_ring; [apply INPUT_pos|apply INPUT_div].
    + apply zget_Ok. done.
  - split; cbn [com ed in_buf in_r in_w in_e set_in_e]; [by apply (ring_prefix _ _ _ _ [b])|done|done|done|].
    by apply Forall_app in H5 as [H5 _].
Qed.

Lemma kill_line_ok e : forall fuel x cm, input_rep x (mkLines cm e) -> screen_ok x -> (length e < fuel)%nat ->
  exists x', kill_line fuel x = Ok x' /\ input_rep x' (mkLines cm []) /\ screen_ok x' /\ cons_lock x' = cons_lock x.
Proof.
  induction e as [|b e IH] using rev_ind; intros [|fuel] x cm Hx Hs Hf; rewrite ?length_app in Hf; cbn [length] in Hf; try lia;
    cbn [kill_line]; rewrite (edit_empty _ _ Hx); cbn [ed].
  - rewrite bool_decide_true by done. by exists x.
  - rewrite bool_decide_false by (by destruct e). destruct (erase_rep x cm e b Hx) as [-> Hx1]. cbn [res_bind].
    pose proof (ir_ed _ _ Hx) as He. cbn [ed] in He. apply Forall_app in He as [_ [Hb _]%Forall_cons].
    rewrite (proj2 (Z.eqb_neq _ _) Hb). set (x1 := set_in_e _ x) in *.
    assert (screen_ok x1) as Hs1 by (destruct Hs; by split).
    destruct (consputc_screen BACKSPACE x1 Hs1) as (x2 & -> & Hs2 & Hp). cbn [res_bind].
    destruct (IH fuel x2 cm) as (x' & E & H1 & H2 & H3); [by apply (printed_rep x1)|done|lia|].
    exists x'. split_and!; try done. rewrite H3. apply (pt_lk _ _ Hp).
Qed.

(** A character goes into the buffer. *)
Lemma store_rep x ls ch : input_rep x ls -> Z.of_nat (length (com ls ++ ed ls)) < INPUT_BUF ->
  exists l, zset "input.buf" (in_buf x) (in_e x mod INPUT_BUF) ch = Ok l /\
    let x' := set_in_e (u32 (in_e x + 1)) (set_in_buf l x) in
    ring_at INPUT_BUF (in_buf x') (in_r x') (com ls ++ ed ls ++ [ch]) /\
    in_e x' = u32 (in_r x + Z.of_nat (length (com ls ++ ed ls ++ [ch]))).
Proof.
  intros [H1 H2 H3 H4 H5] Hlt.
  destruct (ring_push INPUT_BUF INPUT_pos _ _ _ (in_e x) ch H1 Hlt) as [Hm Hr].
  { rewrite H4. by apply u32_mod_ring; [apply INPUT_pos|apply INPUT_div]. }
  rewrite zset_in by done. eexists. split; [done|]. cbv zeta. cbn [in_buf in_r in_e set_in_e set_in_buf].
  rewrite app_assoc. split; [done|]. rewrite H4, u32_add_l, !length_app. f_equal. cbn. lia.
Qed.

Lemma input_room x ls : input_rep x ls ->
  (u32 (in_e x - in_r x) <? INPUT_BUF) = (Z.of_nat (length (com ls ++ ed ls)) <? INPUT_BUF).
Proof.
  intros H. pose proof (rg_fit _ _ _ _ (ir_ring _ _ H)) as Hf. unfold INPUT_BUF in *. f_equal.
  rewrite (ir_e _ _ H), u32_sub_l. replace (_ + _ - _) with (Z.of_nat (length (com ls ++ ed ls))) by lia. apply u32_small. lia.
Qed.

Lemma typed_ok c p ch s x ls :
  in_cons c p s x -> input_rep x ls -> screen_ok x -> 0 <= ch < 256 ->
  exists b s' x', typed a (S (Z.to_nat INPUT_BUF)) ch s x = Ok (b, s', x') /\ in_cons c p s' x' /\
    input_rep x' (type1 ch ls) /\ screen_ok x' /\ alive s s'.
Proof.
  intros Hin Hx Hs Hch. unfold typed, type1. destruct (ch =? 16); [by exists true, s, x|].
  pose proof (rg_fit _ _ _ _ (ir_ring _ _ Hx)) as Hf. destruct (ch =? 21).
  { destruct ls as [cm e]. cbn [com ed] in *. rewrite length_app in Hf.
    destruct (kill_line_ok e (S (Z.to_nat INPUT_BUF)) x cm Hx Hs) as (x' & -> & H1 & H2 & H3); [lia|]. cbn [res_bind].
    exists false, s, x'. destruct Hin as (I1 & I2 & I3). split; [done|]. split; [split_and!; [done|by rewrite H3|done]|]. done. }
  destruct ((ch =? 8) || (ch =? 127)) eqn:Ebs.
  { rewrite (edit_empty _ _ Hx). destruct ls as [cm e]. cbn [com ed] in *.
    destruct e as [|b e _] using rev_ind.
    - rewrite bool_decide_true by done. by exists false, s, x.
    - rewrite bool_decide_false by (by destruct e). cbn [negb]. rewrite removelast_last.
      destruct (erase_rep x cm e b Hx) as [_ Hx1]. set (x1 := set_in_e _ x) in *.
      assert (screen_ok x1) as Hs1 by (destruct Hs; by split).
      destruct (consputc_screen BACKSPACE x1 Hs1) as (x2 & -> & Hs2 & Hp). cbn [res_bind].
      exists false, s, x2. split; [done|]. split; [by apply (in_cons_printed _ _ _ x1)|]. split; [by apply (printed_rep x1)|done]. }
  rewrite (input_room x ls Hx).
  destruct (negb (ch =? 0) && (Z.of_nat (length (com ls ++ ed ls)) <? INPUT_BUF)) eqn:Eroom; [|by exists false, s, x].
  apply andb_true_iff in Eroom as [_ Hlt%Z.ltb_lt]. set (k := if ch =? 13 then 10 else ch).
  assert (0 <= k < 256) as Hk by (unfold k; destruct (ch =? 13); lia). rewrite (u8_small k) by lia.
  destruct (store_rep x ls k Hx Hlt) as (l & -> & Hring & He). cbn [res_bind]. cbv zeta in Hring, He.
  set (x1 := set_in_e _ (set_in_buf l x)) in *.
  assert (screen_ok x1) as Hs1 by (destruct Hs; by split).
  destruct (consputc_screen k x1 Hs1) as (x2 & -> & Hs2 & Hp). cbn [res_bind].
  assert (in_cons c p s x2) as Hin2 by (by apply (in_cons_printed _ _ _ x1)).
  pose proof Hp as [_ P2 P3 P4 P5]. destruct Hx as [H1 H2 H3 H4 H5].
  assert ((in_e x2 =? u32 (in_r x2 + INPUT_BUF)) = (Z.of_nat (length (com ls ++ ed ls ++ [k])) =? INPUT_BUF)) as ->.
  { rewrite P5, P3, He. apply u32_eqb; [|unfold INPUT_BUF; lia]. unfold INPUT_BUF in *. rewrite !length_app in *. cbn. lia. }
  destruct ((k =? 10) || (k =? 4) || (Z.of_nat (length (com ls ++ ed ls ++ [k])) =? INPUT_BUF)) eqn:Ecom.
  - destruct Hin2 as (I1 & I2 & I3).
    destruct (wakeup_inside (ChAddr a) c p s I1 I3) as (s' & -> & J1 & J2 & J3). cbn [res_bind].
    exists false, s', (set_in_w (in_e x2) x2). split; [done|]. split; [done|].
    split; [|split; [destruct Hs2; by split|by apply (alive_wake _ _ (ChAddr a))]].
    split; cbn [com ed in_buf in_r in_w in_e set_in_w]; rewrite ?P2, ?P3, ?P5, ?app_nil_r; done.
  - exists false, s, x2. split; [done|]. split; [done|]. split; [|done].
    split; cbn [com ed]; rewrite ?P2, ?P3, ?P4, ?P5; try done.
    apply orb_false_iff in Ecom as [[E10%Z.eqb_neq _]%orb_false_iff _]. apply Forall_app. split; [done|]. by apply Forall_singleton.
Qed.

(** ** The interrupt *)

(** [getc] gives the characters [cs] and then a negative number. *)
Inductive delivers {D : Type} (getc : D -> res (Z * D)) : D -> list Z -> D -> Prop :=
| delivers_end d d' ch : getc d = Ok (ch, d') -> ch < 0 -> delivers getc d [] d'
| delivers_more d d1 d' ch cs :
    getc d = Ok (ch, d1) -> 0 <= ch < 256 -> delivers getc d1 cs d' -> delivers getc d (ch :: cs) d'.

Lemma intr_loop_ok {D : Type} (getc : D -> res (Z * D)) d cs d' :
  delivers getc d cs d' -> forall fuel c p dump s x ls,
  in_cons c p s x -> input_rep x ls -> screen_ok x -> (length cs < fuel)%nat ->
  exists b s' x', intr_loop a getc fuel dump d s x = Ok (b, d', s', x') /\ in_cons c p s' x' /\
    input_rep x' (type_all cs ls) /\ screen_ok x' /\ alive s s'.
Proof.
  induction 1 as [d d' ch Eg Hn|d d1 d' ch cs Eg Hn _ IH]; intros [|fuel] c p dump s x ls Hin Hx Hs Hf; cbn [length] in Hf; try lia;
    cbn [intr_loop]; rewrite Eg; cbn [res_bind].
  - rewrite (proj2 (Z.ltb_lt _ _) Hn). by exists dump, s, x.
  - rewrite (proj2 (Z.ltb_ge _ _)) by lia.
    destruct (typed_ok c p ch s x ls Hin Hx Hs Hn) as (b & s1 & x1 & -> & Hin1 & Hx1 & Hs1 & Ha1). cbn [res_bind].
    destruct (IH fuel c p (b || dump) s1 x1 (type1 ch ls) Hin1 Hx1 Hs1) as (b' & s' & x' & E & H1 & H2 & H3 & H4); [lia|].
    exists b', s', x'. split_and!; try done; try apply H1. by etrans.
Qed.

Lemma procdump_out s : exists o, procdump s = set_out o s.
Proof.
  assert (forall l s, exists o, print_pcs l s = set_out o s) as Hp.
  { induction l as [|v l IH]; intros s0; cbn [print_pcs]; [exists (out s0); by destruct s0|].
    destruct (v =? 0); [exists (out s0); by destruct s0|]. destruct (IH (printk " %p" [AInt v] s0)) as [o ->]. by exists o. }
  unfold procdump. generalize (pt_proc s) as l. intros l. revert s.
  induction l as [|q l IH]; intros s; cbn [procdump_entries]; [exists (out s); by destruct s|]. case_bool_decide; [apply IH|].
  set (s0 := printk "%d %s %s" _ s). set (s1 := if bool_decide _ then _ else _).
  assert (exists o, s1 = set_out o s0) as [o1 E].
  { unfold s1. case_bool_decide; [apply Hp|]. exists (out s0). by destruct s0. }
  rewrite E. destruct (IH (printk "\n" [] (set_out o1 s0))) as [o ->]. by exists o.
Qed.

Lemma lock_cons c p s x : outside c p s -> locked (cons_lock x) = 0 -> locked (pt_lock s) = 0 ->
  exists m k, lock s x = Ok (set_mach m s, set_cons_lock k x) /\ in_cons c p (set_mach m s) (set_cons_lock k x).
Proof.
  intros Hout Hk Hpt. unfold lock. destruct (lock_outside c p s (cons_lock x) Hout Hk) as (k & m & -> & Hheld & Hin).
  exists m, k. split; [done|]. by split_and!.
Qed.

Lemma unlock_cons c p s x : in_cons c p s x ->
  exists m k, unlock s x = Ok (set_mach m s, set_cons_lock k x) /\ outside c p (set_mach m s) /\ locked k = 0.
Proof.
  intros (Hin & Hheld & _). unfold unlock.
  destruct (unlock_inside c p s (cons_lock x) Hin Hheld) as (k & m & -> & Hk & Hout). by exists m, k.
Qed.

Lemma input_rep_lock x ls k : input_rep (set_cons_lock k x) ls <-> input_rep x ls.
Proof. split; intros [H1 H2 H3 H4 H5]; by split. Qed.

Lemma screen_lock x k : screen_ok (set_cons_lock k x) <-> screen_ok x.
Proof. split; intros [H1 H2 H3 H4]; by split. Qed.

Lemma consoleintr_ok {D : Type} (getc : D -> res (Z * D)) d cs d' fuel c p s x ls :
  delivers getc d cs d' -> outside c p s -> locked (cons_lock x) = 0 -> locked (pt_lock s) = 0 ->
  input_rep x ls -> screen_ok x -> (length cs < fuel)%nat ->
  exists s' x', consoleintr a getc fuel d s x = Ok (d', s', x') /\ input_rep x' (type_all cs ls) /\
    screen_ok x' /\ locked (cons_lock x') = 0 /\ outside c p s' /\ locked (pt_lock s') = 0 /\ alive s s'.
Proof.
  intros Hd Hout Hk Hpt Hx Hs Hf. unfold consoleintr.
  destruct (lock_cons c p s x Hout Hk Hpt) as (m & k & -> & Hin). cbn [res_bind].
  destruct (intr_loop_ok getc d cs d' Hd fuel c p false _ _ ls Hin) as (b & s1 & x1 & -> & Hin1 & Hx1 & Hs1 & Ha1);
    [by apply input_rep_lock|by apply screen_lock|done|]. cbn [res_bind].
  destruct (unlock_cons c p s1 x1 Hin1) as (m2 & k2 & -> & Hout2 & Hk2). cbn [res_bind].
  assert (exists o, (if b then procdump (set_mach m2 s1) else set_mach m2 s1) = set_out o (set_mach m2 s1)) as [o ->].
  { destruct b; [apply procdump_out|]. exists (out s1). by destruct s1. }
  eexists _, _. split; [done|]. split; [by apply input_rep_lock|]. split; [by apply screen_lock|]. split; [done|].
  split; [exact Hout2|]. split; [apply Hin1|exact Ha1].
Qed.

(** The line discipline.  What [consoleintr] does to the input buffer is typing
    the characters of the device one by one: control-U and backspace edit the
    line, a newline, control-D or a full buffer hands it over to the readers, and
    nothing typed is lost while there is room.  The counters may wrap around. *)
Theorem consoleintr_spec {D : Type} (getc : D -> res (Z * D)) d cs d' fuel c p s x ls :
  delivers getc d cs d' -> outside c p s -> locked (cons_lock x) = 0 -> locked (pt_lock s) = 0 ->
  input_rep x ls -> screen_ok x -> (length cs < fuel)%nat ->
  exists s' x', consoleintr a getc fuel d s x = Ok (d', s', x') /\ input_rep x' (type_all cs ls) /\
    screen_ok x' /\ locked (cons_lock x') = 0 /\ outside c p s'.
Proof.
  intros Hd Hout Hk Hpt Hx Hs Hf.
  destruct (consoleintr_ok getc d cs d' fuel c p s x ls Hd Hout Hk Hpt Hx Hs Hf) as (s' & x' & E & H1 & H2 & H3 & H4 & _).
  by exists s', x'.
Qed.

Lemma kbd_delivers l : forall sh, kbd_ok (mkKbd l sh) ->
  exists cs k', delivers Kbd.kbdgetc (mkKbd l sh) cs k' /\ length cs = length l /\ kbd_ok k'.
Proof.
  induction l as [|b l IH]; intros sh Hk; destruct (kbdgetc_ok _ Hk) as (r & k1 & E & Hr & Hk1 & H0 & H1); cbn [codes] in *.
  - destruct (H0 eq_refl) as [-> ->]. exists [], (mkKbd [] sh). split_and!; [|done|done]. by apply (delivers_end _ _ _ (-1)).
  - destruct H1 as [Hr0 Hc]; [done|]. cbn [tail] in Hc. destruct k1 as [l1 sh1]. cbn [codes] in Hc. subst l1.
    destruct (IH sh1 Hk1) as (cs & k' & Hd & Hl & Hk'). exists (r :: cs), k'. split_and!; [|cbn; lia|done].
    apply (delivers_more _ _ (mkKbd l sh1)); [done|lia|done].
Qed.

(** A keyboard interrupt is handled whatever codes arrive: [kbdintr] takes them
    all and returns with the buffer, the screen and the shift state in order and
    the lock free. *)
Theorem kbdintr_safe fuel k c p s x ls :
  kbd_ok k -> outside c p s -> locked (cons_lock x) = 0 -> locked (pt_lock s) = 0 ->
  input_rep x ls -> screen_ok x -> (length (codes k) < fuel)%nat ->
  exists k' s' x' cs, kbdintr a fuel k s x = Ok (k', s', x') /\ kbd_ok k' /\ length cs = length (codes k) /\
    input_rep x' (type_all cs ls) /\ screen_ok x' /\ locked (cons_lock x') = 0 /\ outside c p s' /\
    length (in_buf x') = 128%nat /\ u32 (in_w x' - in_r x') <= u32 (in_e x' - in_r x') <= INPUT_BUF.
Proof.
  intros Hk Hout Hlk Hpt Hx Hs Hf. destruct k as [l sh]. cbn [codes] in Hf.
  destruct (kbd_delivers l sh Hk) as (cs & k' & Hd & Hl & Hk').
  destruct (consoleintr_ok Kbd.kbdgetc _ cs k' fuel c p s x ls Hd Hout Hlk Hpt Hx Hs) as (s' & x' & E & Hx' & Hs' & Hlk' & Hout' & _); [lia|].
  exists k', s', x', cs. split_and!; try done; by apply (input_bounds x' _ Hx').
Qed.

(** ** Reading *)

(** What a read of at most [n] bytes gets from the lines [l], and what it leaves:
    it ends behind a newline; a control-D ends it, and stays for the next read
    unless it comes first.  [None] when the lines are used up before. *)
Fixpoint take_line (n : nat) (first : bool) (l : list Z) : option (list Z * list Z) :=
  match n with
  | O => Some ([], l)
  | S n' =>
      match l with
      | [] => None
      | b :: l' =>
          if b =? 4 then Some ([], if first then l' else l)
          else if b =? 10 then Some ([b], l')
          else match take_line n' false l' with
            | Some (got, l'') => Some (b :: got, l'')
            | None => None
            end
      end
  end.

Lemma take_line_app n : forall first l r got l', take_line n first l = Some (got, l') ->
  take_line n first (l ++ r) = Some (got, l' ++ r) /\ (length got <= n)%nat.
Proof.
  induction n as [|n IH]; intros first l r got l'; cbn [take_line]; [intros [= <- <-]; cbn; split; [done|lia]|].
  destruct l as [|b l]; [done|]. cbn [app]. destruct (b =? 4); [intros [= <- <-]; cbn; split; [by destruct first|lia]|].
  destruct (b =? 10); [intros [= <- <-]; cbn; split; [done|lia]|].
  destruct (take_line n false l) as [[g l1]|] eqn:E; [|done]. intros [= <- <-].
  destruct (IH false l r g l1 E) as [-> Hl]. cbn. split; [done|lia].
Qed.

Section Read.
Context (resume : kst -> console -> kst * console).

(** What others do while the reader sleeps: lines come in, and no one kills it. *)
Definition typists p : Prop :=
  forall s x s' x' ls, resume s x = (s', x') -> input_rep x ls -> com ls = [] ->
  (exists ls', input_rep x' ls' /\ com ls' <> []) /\ forall pr, pt_proc s' !! p = Some pr -> killed pr = 0.

Definition in_read c p s x : Prop := in_cons c p s x /\ exists pr, pt_proc s !! p = Some pr /\ killed pr = 0.

Lemma lines_empty x ls : input_rep x ls -> (in_r x =? in_w x) = bool_decide (com ls = []).
Proof.
  intros H. pose proof (rg_fit _ _ _ _ (ir_ring _ _ H)) as Hf. unfold INPUT_BUF in Hf. rewrite length_app in Hf.
  rewrite (ir_w _ _ H). rewrite <- (u32_small (in_r x) (ir_r _ _ H)) at 1. rewrite <- (Z.add_0_r (in_r x)) at 1.
  rewrite u32_eqb by lia. destruct (com ls); [done|]. by rewrite bool_decide_false.
Qed.

Lemma pop_rep x b cm e : input_rep x (mkLines (b :: cm) e) ->
  zget "input.buf" (in_buf x) (in_r x mod INPUT_BUF) = Ok b /\
  input_rep (set_in_r (u32 (in_r x + 1)) x) (mkLines cm e) /\ u32 (u32 (in_r x + 1) - 1) = in_r x.
Proof.
  intros [H1 H2 H3 H4 H5]. cbn [com ed app] in *.
  destruct (ring_pop INPUT_BUF INPUT_pos INPUT_div _ _ _ _ H1) as [Hb Hr]. split_and!.
  - apply zget_Ok. split; [apply Z.mod_pos_bound; done|done].
  - split; cbn [com ed in_buf in_r in_w in_e set_in_r]; [done|apply u32_range| | |done].
    + rewrite H3, u32_add_l. cbn [length]. f_equal. lia.
    + rewrite H4, u32_add_l. cbn [length]. f_equal. lia.
  - rewrite u32_sub_l. replace (in_r x + 1 - 1) with (in_r x) by lia. by apply u32_small.
Qed.

Lemma wait_line_ok c p fuel s x ls :
  resume_ok p resume -> typists p -> in_read c p s x -> input_rep x ls -> (2 <= fuel)%nat ->
  exists c' s' x' ls', wait_line a resume fuel s x = Ok (true, s', x') /\ in_read c' p s' x' /\ input_rep x' ls' /\
    com ls' <> [] /\ (com ls <> [] -> ls' = ls).
Proof.
  intros Hres Hty [Hin (pr & Hp & Hk)] Hx Hf. destruct fuel as [|[|fuel]]; try lia.
  cbn [wait_line]. rewrite (lines_empty x ls Hx). case_bool_decide as Hne.
  2: { exists c, s, x, ls. split; [done|]. split; [split; [done|by exists pr]|done]. }
  pose proof Hin as (Hone & Hheld & Hpt). unfold curproc. rewrite (myproc_inside c p s Hone). cbn [res_bind].
  rewrite (getp_lookup _ _ _ Hp). cbn [res_bind]. rewrite Hk. cbn [Z.eqb negb].
  destruct (sleep_inside resume (ChAddr a) c p s x Hres Hone Hheld Hpt) as
    (c' & s0 & lk0 & s1 & x1 & s' & lk' & pr0 & _ & _ & _ & _ & _ & Hr & -> & Hone' & Hheld' & Hpt' & pr1 & Hp1 & Hps);
    [by eapply lookup_lt_Some|]. cbn [res_bind].
  destruct (Hty s0 (set_cons_lock lk0 x) s1 x1 ls Hr) as [(ls' & Hx' & Hne') Hkill]; [by apply input_rep_lock|done|].
  change (put_lock lk' x1) with (set_cons_lock lk' x1).
  rewrite (lines_empty (set_cons_lock lk' x1) ls') by (by apply input_rep_lock). rewrite bool_decide_false by done.
  exists c', s', (set_cons_lock lk' x1), ls'. split; [done|]. split; [split; [done|]|split; [by apply input_rep_lock|done]].
  exists (set_chan ChNull pr1). split; [|exact (Hkill pr1 Hp1)]. rewrite Hps. apply list_lookup_insert_eq. by eapply lookup_lt_Some.
Qed.

(** The outcome of the loop: what was read, out of the lines there and [fed]. *)
Definition read_as p n first ls (r : res (option (nat * list Z) * kst * console)) : Prop :=
  exists c' s' x' fed got cm e, r = Ok (Some ((n - length got)%nat, got), s', x') /\
    in_read c' p s' x' /\ input_rep x' (mkLines cm e) /\ (length got <= n)%nat /\
    take_line n first (com ls ++ fed) = Some (got, cm) /\
    (take_line n first (com ls) <> None -> fed = [] /\ e = ed ls).

Lemma console_read_loop_ok fuel target n : forall c p s x ls,
  resume_ok p resume -> typists p -> in_read c p s x -> input_rep x ls -> (2 <= fuel)%nat -> Z.of_nat n <= target ->
  read_as p n (Z.of_nat n =? target) ls (read_loop a resume fuel target n s x).
Proof.
  induction n as [|n IH]; intros c p s x ls Hres Hty Hin Hx Hf Hn; cbn [read_loop].
  { exists c, s, x, [], [], (com ls), (ed ls). rewrite app_nil_r. split; [done|]. split; [done|]. split; [by destruct ls|]. done. }
  destruct (wait_line_ok c p fuel s x ls Hres Hty Hin Hx Hf) as (c1 & s1 & x1 & ls1 & -> & Hin1 & Hx1 & Hne & Hsame).
  cbn [res_bind negb]. destruct ls1 as [[|b cm] e]; [done|]. cbn [com] in Hne.
  destruct (pop_rep x1 b cm e Hx1) as (-> & Hx2 & Hback). cbn [res_bind].
  set (x2 := set_in_r _ x1) in *. set (first := Z.of_nat (S n) =? target).
  assert (exists f1, com ls ++ f1 = b :: cm /\ (com ls <> [] -> f1 = [] /\ e = ed ls)) as (f1 & Ef & Hf1).
  { destruct ls as [[|b0 cm0] e0]; [by exists (b :: cm)|]. specialize (Hsame ltac:(done)). injection Hsame as <- <- <-.
    exists []. by rewrite app_nil_r. }
  assert (take_line (S n) first (com ls) <> None -> com ls <> []) as Hcom by (by destruct (com ls)).
  destruct (Z.eqb_spec b 4) as [E4|E4].
  { assert ((if Z.of_nat (S n) <? target then set_in_r (u32 (in_r x2 - 1)) x2 else x2) = (if first then x2 else x1)) as ->.
    { unfold first. destruct (Z.ltb_spec (Z.of_nat (S n)) target), (Z.eqb_spec (Z.of_nat (S n)) target); try lia; [|done].
      cbn. rewrite Hback. by destruct x1. }
    exists c1, s1, (if first then x2 else x1), f1, [], (if first then cm else b :: cm), e. rewrite Ef.
    split; [done|]. split; [by destruct first|]. split; [by destruct first|]. split; [cbn; lia|].
    split; [|auto]. cbn [take_line]. by rewrite (proj2 (Z.eqb_eq _ _) E4). }
  destruct (Z.eqb_spec b 10) as [E10|E10].
  { exists c1, s1, x2, f1, [b], cm, e. rewrite Ef. split; [cbn; by rewrite Nat.sub_0_r|]. split; [exact Hin1|]. split; [done|].
    split; [cbn; lia|]. split; [|auto]. cbn [take_line]. by rewrite (proj2 (Z.eqb_neq _ _) E4), (proj2 (Z.eqb_eq _ _) E10). }
  destruct (IH c1 p s1 x2 (mkLines cm e) Hres Hty Hin1 Hx2 Hf) as (c3 & s3 & x3 & f3 & got & cm3 & e3 & -> & Hin3 & Hx3 & Hl3 & Ht3 & Hs3);
    [lia|]. cbn [res_bind com ed] in *. rewrite (proj2 (Z.eqb_neq (Z.of_nat n) target)) in Ht3, Hs3 by lia.
  assert (forall l, take_line (S n) first (b :: l) =
    match take_line n false l with Some (g, l') => Some (b :: g, l') | None => None end) as Htl.
  { intros l. cbn [take_line]. by rewrite (proj2 (Z.eqb_neq _ _) E4), (proj2 (Z.eqb_neq _ _) E10). }
  exists c3, s3, x3, (f1 ++ f3), (b :: got), cm3, e3. split; [done|]. split; [done|]. split; [done|]. split; [cbn; lia|].
  rewrite app_assoc, Ef. cbn [app]. rewrite Htl, Ht3. split; [done|]. intros Hnn. destruct (Hf1 (Hcom Hnn)) as [-> ->].
  rewrite app_nil_r in Ef. rewrite Ef, Htl in Hnn. destruct Hs3 as [-> ->]; [|done]. by destruct (take_line n false cm).
Qed.

Lemma consoleread_ok resume_fs rounds lock_at fuel ip n c p s y x ls pr :
  resume_ok p resume -> typists p -> outside c p s -> locked (cons_lock x) = 0 -> locked (pt_lock s) = 0 ->
  pt_proc s !! p = Some pr -> killed pr = 0 -> inode_mine pr ip y -> i_valid (ic y ip) <> 0 ->
  input_rep x ls -> 0 <= n < 2 ^ 31 -> (2 <= fuel)%nat -> (0 < rounds)%nat ->
  exists c' s' y' x' fed got cm e,
    consoleread a resume resume_fs rounds lock_at fuel ip n s y x = Ok (Z.of_nat (length got), got, s', y', x') /\
    take_line (Z.to_nat n) true (com ls ++ fed) = Some (got, cm) /\
    (take_line (Z.to_nat n) true (com ls) <> None -> fed = [] /\ e = ed ls) /\
    input_rep x' (mkLines cm e) /\ lock_only ip y y' /\ locked (cons_lock x') = 0 /\ outside c' p s'.
Proof.
  intros Hres Hty Hout Hlk Hpt Hp Hk Hmine Hv Hx Hn Hf Hr. unfold consoleread.
  destruct (iunlock_ok lock_at c p s y ip pr Hout Hpt Hp Hmine) as (s1 & y1 & -> & R1 & Hfree & Hout1 & Hpt1 & Hp1).
  cbn [res_bind]. destruct (lock_cons c p s1 x Hout1 Hlk Hpt1) as (m & k & -> & Hin). cbn [res_bind].
  assert (in_read c p (set_mach m s1) (set_cons_lock k x)) as Hin1.
  { split; [done|]. exists (wake (ChAddr (lock_at ip)) pr). split; [|unfold wake; by destruct (_ && _)].
    cbn [pt_proc set_mach]. rewrite Hp1. pose proof (list_lookup_fmap (wake (ChAddr (lock_at ip))) (pt_proc s) p) as H.
    by rewrite Hp in H. }
  rewrite (u32_small n) by lia.
  destruct (console_read_loop_ok fuel n (Z.to_nat n) c p (set_mach m s1) (set_cons_lock k x) ls Hres Hty Hin1) as
    (c2 & s2 & x2 & fed & got & cm & e & -> & [Hin2 (pr2 & Hp2 & _)] & Hx2 & Hl2 & Ht & Hsame); [by apply input_rep_lock|done|lia|].
  cbn [res_bind]. rewrite (proj2 (Z.eqb_eq _ _)) in Ht, Hsame by lia.
  destruct (unlock_cons c2 p s2 x2 Hin2) as (m3 & k3 & -> & Hout3 & Hk3). cbn [res_bind].
  destruct (lock_only_fields _ _ _ R1) as (_ & Ev & _).
  destruct (ilock_ok resume_fs rounds lock_at c2 p (set_mach m3 s2) y1 ip pr2 Hout3 Hp2 Hfree) as (m4 & y4 & -> & R4 & _ & Hout4);
    [congruence|done|]. cbn [res_bind].
  assert (s32 (n - (if 0 <? n then Z.of_nat (Z.to_nat n - length got) else n)) = Z.of_nat (length got)) as ->.
  { destruct (Z.ltb_spec 0 n); [|replace (length got) with 0%nat by lia; by replace (n - n) with 0 by lia].
    rewrite s32_small; lia. }
  exists c2, (set_mach m4 (set_mach m3 s2)), y4, (set_cons_lock k3 x2), fed, got, cm, e. split; [done|]. split; [done|].
  split; [done|]. split; [by apply input_rep_lock|]. split; [by etrans|]. done.
Qed.

(** [consoleread] returns at most one line.  It gets the bytes that [take_line]
    says of the lines in the buffer, followed by what is typed while it waits,
    which is nothing when the buffer has enough; the rest stays for the next
    reader.  The inode is unlocked while it waits and locked again at the end. *)
Theorem consoleread_spec resume_fs rounds lock_at fuel ip n c p s y x ls pr :
  resume_ok p resume -> typists p -> outside c p s -> locked (cons_lock x) = 0 -> locked (pt_lock s) = 0 ->
  pt_proc s !! p = Some pr -> killed pr = 0 -> inode_mine pr ip y -> i_valid (ic y ip) <> 0 ->
  input_rep x ls -> 0 <= n < 2 ^ 31 -> (2 <= fuel)%nat -> (0 < rounds)%nat ->
  exists c' s' y' x' fed got cm e,
    consoleread a resume resume_fs rounds lock_at fuel ip n s y x = Ok (Z.of_nat (length got), got, s', y', x') /\
    take_line (Z.to_nat n) true (com ls ++ fed) = Some (got, cm) /\
    (take_line (Z.to_nat n) true (com ls) <> None -> fed = [] /\ e = ed ls) /\
    input_rep x' (mkLines cm e) /\ lock_only ip y y' /\ locked (cons_lock x') = 0 /\ outside c' p s'.
Proof. apply consoleread_ok. Qed.

(** A line that is typed is the line that is read: a line of ordinary characters,
    short enough for the buffer, with its newline. *)
Definition plain ch : bool :=
  (0 <? ch) && (ch <? 256) && negb (existsb (Z.eqb ch) [16; 21; 8; 127; 13; 10; 4]).

Lemma plain_type1 ch cm e : plain ch = true -> Z.of_nat (length (cm ++ e)) < INPUT_BUF - 1 ->
  type1 ch (mkLines cm e) = mkLines cm (e ++ [ch]).
Proof.
  unfold plain. cbn [existsb]. rewrite !andb_true_iff, negb_true_iff, !orb_false_iff, !Z.eqb_neq, !Z.ltb_lt.
  intros ((H0 & H1) & H2 & H3 & H4 & H5 & H6 & H7 & H8 & _) Hl. unfold type1. cbn [com ed].
  rewrite !(proj2 (Z.eqb_neq ch _)) by (done || lia). cbn [orb negb andb].
  rewrite (proj2 (Z.ltb_lt _ _)) by lia. rewrite !(proj2 (Z.eqb_neq _ _)) by (done || lia || (rewrite !length_app in *; cbn; lia)).
  done.
Qed.

Lemma plain_line l : forall cm e, forallb plain l = true -> Z.of_nat (length (cm ++ e ++ l)) < INPUT_BUF ->
  type_all (l ++ [10]) (mkLines cm e) = mkLines (cm ++ e ++ l ++ [10]) [].
Proof.
  induction l as [|ch l IH]; intros cm e Hl Hlen.
  - cbn. unfold type1. cbn [com ed Z.eqb Pos.eqb orb negb andb]. rewrite app_nil_r in Hlen.
    rewrite (proj2 (Z.ltb_lt _ _)) by done. done.
  - cbn [forallb] in Hl. apply andb_true_iff in Hl as [Hc Hl]. cbn [app type_all fold_left].
    rewrite plain_type1 by (done || (rewrite !length_app in *; cbn in Hlen; lia)).
    change (fold_left _ (l ++ [10]) ?z) with (type_all (l ++ [10]) z). rewrite IH; [|done|].
    + by rewrite <- !app_assoc.
    + rewrite <- !app_assoc. done.
Qed.

Lemma plain_take l n first r : forallb plain l = true -> (length l < n)%nat ->
  take_line n first (l ++ 10 :: r) = Some (l ++ [10], r).
Proof.
  revert n first. induction l as [|ch l IH]; intros [|n] first Hl Hn; cbn [length] in Hn; try lia; [done|].
  cbn [forallb] in Hl. apply andb_true_iff in Hl as [Hc Hl]. cbn [app take_line].
  assert (ch <> 4 /\ ch <> 10) as [H4 H10].
  { unfold plain in Hc. cbn [existsb] in Hc. rewrite !andb_true_iff, negb_true_iff, !orb_false_iff, !Z.eqb_neq in Hc. tauto. }
  rewrite (proj2 (Z.eqb_neq _ _) H4), (proj2 (Z.eqb_neq _ _) H10), (IH n false) by (done || lia). done.
Qed.

(** C20: what is typed is what is read: a line of ordinary characters that the
    device delivers, with its newline, into an empty buffer is returned whole by
    the next [consoleread] that asks for enough. *)
Theorem console_roundtrip {D : Type} (getc : D -> res (Z * D)) d d' l resume_fs rounds lock_at fuel ip n c p s y x pr :
  delivers getc d (l ++ [10]) d' -> forallb plain l = true -> Z.of_nat (length l) < n < 128 ->
  resume_ok p resume -> typists p -> outside c p s -> locked (cons_lock x) = 0 -> locked (pt_lock s) = 0 ->
  pt_proc s !! p = Some pr -> killed pr = 0 -> inode_mine pr ip y -> i_valid (ic y ip) <> 0 ->
  input_rep x (mkLines [] []) -> screen_ok x -> (length l + 2 <= fuel)%nat -> (0 < rounds)%nat ->
  exists s1 x1 s2 y2 x2, consoleintr a getc fuel d s x = Ok (d', s1, x1) /\
    consoleread a resume resume_fs rounds lock_at fuel ip n s1 y x1 = Ok (Z.of_nat (length l) + 1, l ++ [10], s2, y2, x2) /\
    input_rep x2 (mkLines [] []).
Proof.
  intros Hd Hl Hn Hres Hty Hout Hlk Hpt Hp Hk Hmine Hv Hx Hs Hf Hr. unfold INPUT_BUF in *.
  destruct (consoleintr_ok getc d (l ++ [10]) d' fuel c p s x (mkLines [] []) Hd Hout Hlk Hpt Hx Hs) as
    (s1 & x1 & E1 & Hx1 & _ & Hlk1 & Hout1 & Hpt1 & Ha); [rewrite length_app; cbn; lia|].
  rewrite plain_line in Hx1 by (done || (cbn; unfold INPUT_BUF; lia)). cbn [app] in Hx1.
  destruct (Ha p pr Hp) as (pr1 & Hp1 & Ek & Epid).
  destruct (consoleread_ok resume_fs rounds lock_at fuel ip n c p s1 y x1 (mkLines (l ++ [10]) []) pr1 Hres Hty Hout1 Hlk1 Hpt1 Hp1)
    as (c' & s2 & y2 & x2 & fed & got & cm & e & E2 & Ht & Hsame & Hx2 & _); [congruence| |done|done|lia|lia|done|].
  { destruct Hmine as (M1 & M2 & M3 & M4). split_and!; [done|done|done|congruence]. }
  cbn [com ed] in *. pose proof (plain_take l (Z.to_nat n) true [] Hl ltac:(lia)) as Htl. rewrite Htl in Hsame.
  destruct Hsame as [-> ->]; [done|]. rewrite app_nil_r, Htl in Ht. injection Ht as <- <-.
  exists s1, x1, s2, y2, x2. split; [done|]. split; [|done]. rewrite E2, length_app. do 6 f_equal. cbn. lia.
Qed.
End Read.
End Input.

(** * The example machine *)

(** The cursor in the last row, and the counters about to wrap. *)
Definition demo_console : console :=
  mkConsole demo_lock 1 0 (replicate 2000 0) 7 50 true [] (replicate 128 0) (2 ^ 32 - 2) (2 ^ 32 - 2) (2 ^ 32 - 2).

Lemma demo_screen : screen_ok demo_console.
Proof. split; [done|done|cbn; lia|unfold cursor; cbn; lia]. Qed.

Lemma demo_input : input_rep demo_console (mkLines [] []).
Proof. split; [|cbn; lia|done|done|constructor]. by split. Qed.

Lemma demo_outside : outside 0 0 (demo_in 0).
Proof. by exists (demo_cpu 0 (Some 0%nat)). Qed.

Lemma cgaputc_spec_witness :
  exists x', Console.cgaputc 10 demo_console = Ok x' /\ screen_ok x' /\ screen_only demo_console x' /\
    (10 = 10 -> 23 * 80 <= cursor demo_console ->
     cursor x' = 23 * 80 /\
     (forall i, (i < 23 * 80)%nat -> crt x' !! i = crt demo_console !! (i + 80)%nat) /\
     (forall i, (23 * 80 < i < 24 * 80)%nat -> crt x' !! i = Some 0)).
Proof. apply (cgaputc_spec 10 demo_console demo_screen). Defined.

(** The serial port has [hx], backspace, [i] and a newline. *)
Lemma demo_delivers : delivers (Console.uartgetc true) [104; 120; 8; 105; 13] [104; 120; 8; 105; 13] [].
Proof.
  repeat (eapply delivers_more; [reflexivity|lia|]). eapply delivers_end; [reflexivity|lia].
Qed.

Lemma consoleintr_spec_witness :
  exists s' x', Console.consoleintr 0x80110000 (Console.uartgetc true) 9 [104; 120; 8; 105; 13] (demo_in 0) demo_console = Ok ([], s', x') /\
    input_rep x' (mkLines [104; 105; 10] []) /\ screen_ok x' /\ locked (cons_lock x') = 0 /\ outside 0 0 s'.
Proof.
  apply (consoleintr_spec 0x80110000 (Console.uartgetc true) _ _ _ 9 0 0 (demo_in 0) demo_console (mkLines [] []) demo_delivers
    demo_outside eq_refl eq_refl demo_input demo_screen). cbn. lia.
Defined.

Lemma demo_kbd_ok : kbd_ok (mkKbd [0x23; 0xA3] 0).
Proof. split; [cbn; lia|]. cbn [codes]. rewrite !Forall_cons, Forall_nil. lia. Qed.

Lemma kbdintr_safe_witness :
  exists k' s' x' cs, Console.kbdintr 0x80110000 9 (mkKbd [0x23; 0xA3] 0) (demo_in 0) demo_console = Ok (k', s', x') /\ kbd_ok k' /\
    length cs = 2%nat /\ input_rep x' (type_all cs (mkLines [] [])) /\ screen_ok x' /\ locked (cons_lock x') = 0 /\ outside 0 0 s' /\
    length (in_buf x') = 128%nat /\ u32 (in_w x' - in_r x') <= u32 (in_e x' - in_r x') <= INPUT_BUF.
Proof.
  apply (kbdintr_safe 0x80110000 9 (mkKbd [0x23; 0xA3] 0) 0 0 (demo_in 0) demo_console (mkLines [] []) demo_kbd_ok
    demo_outside eq_refl eq_refl demo_input demo_screen). cbn. lia.
Defined.

(** While the reader sleeps someone types an empty line. *)
Definition demo_typist (s : kst) (x : console) : kst * console :=
  (set_pt_proc (map (set_killed 0) (pt_proc s)) s,
   set_in_e 1 (set_in_w 1 (set_in_r 0 (set_in_buf (replicate 128 10) x)))).

Lemma demo_typist_ok p : resume_ok p demo_typist.
Proof.
  intros c s x H1 H2 H3 H4. eexists c, _, _. split; [done|]. split_and!; try done; try apply H2. cbn. by rewrite length_map.
Qed.

Lemma demo_typists p : typists demo_typist p.
Proof.
  intros s x s' x' ls [= <- <-] _ _. split; [|intros pr; apply set_killed_map]. exists (mkLines [10] []). split; [|done].
  split; [|cbn; lia|done|done|constructor]. split; [done|done|]. intros [|i] b H; [|done]. cbn in H. injection H as <-. done.
Qed.

(** Inode 0, locked by process 0. *)
Definition demo_locked_fs : fsx := upd_i 0 (set_i_lock (mkSleeplock 1 demo_lock "inode" 1)) demo_fs.

Lemma demo_inode_mine : inode_mine (demo_proc SLEEPING 1 0) 0 demo_locked_fs.
Proof. split; [cbn; lia|]. done. Qed.

Lemma consoleread_spec_witness :
  exists c' s' y' x' fed got cm e,
    Console.consoleread 0x80110000 demo_typist demo_resume 3 (fun _ => 0x80120000) 2 0 10 (demo_in 0) demo_locked_fs demo_console =
      Ok (Z.of_nat (length got), got, s', y', x') /\
    take_line 10 true ([] ++ fed) = Some (got, cm) /\ (take_line 10 true [] <> None -> fed = [] /\ e = []) /\
    input_rep x' (mkLines cm e) /\ lock_only 0 demo_locked_fs y' /\ locked (cons_lock x') = 0 /\ outside c' 0 s'.
Proof.
  apply (consoleread_spec 0x80110000 demo_typist demo_resume 3 (fun _ => 0x80120000) 2 0 10 0 0 (demo_in 0) demo_locked_fs demo_console
    (mkLines [] []) (demo_proc SLEEPING 1 0) (demo_typist_ok 0) (demo_typists 0) demo_outside eq_refl eq_refl eq_refl eq_refl
    demo_inode_mine); [done|apply demo_input|lia|lia|lia].
Defined.

Lemma demo_plain_delivers : delivers (Console.uartgetc true) [104; 105; 10] ([104; 105] ++ [10]) [].
Proof.
  repeat (eapply delivers_more; [reflexivity|lia|]). eapply delivers_end; [reflexivity|lia].
Qed.

Lemma console_roundtrip_witness :
  exists s1 x1 s2 y2 x2, Console.consoleintr 0x80110000 (Console.uartgetc true) 9 [104; 105; 10] (demo_in 0) demo_console = Ok ([], s1, x1) /\
    Console.consoleread 0x80110000 demo_typist demo_resume 3 (fun _ => 0x80120000) 9 0 10 s1 demo_locked_fs x1 = Ok (3, [104; 105; 10], s2, y2, x2) /\
    input_rep x2 (mkLines [] []).
Proof.
  apply (console_roundtrip 0x80110000 demo_typist (Console.uartgetc true) _ _ [104; 105] demo_resume 3 (fun _ => 0x80120000) 9 0 10 0 0
    (demo_in 0) demo_locked_fs demo_console (demo_proc SLEEPING 1 0) demo_plain_delivers eq_refl
    (conj eq_refl eq_refl) (demo_typist_ok 0) (demo_typists 0) demo_outside eq_refl eq_refl eq_refl eq_refl demo_inode_mine);
    [done|apply demo_input|apply demo_screen|cbn; lia|lia].
Defined.
