(* ===== verification/Ide.v ===== *)
(** The driver of the IDE disk: [ide.c].

    The buffers are those of Bio.v; [qnext], the last field of [struct buf], is
    kept beside them.  The controller is the class [Drive]: what [inb], [outb],
    [insl] and [outsl] do to it.  [Ata] is what the driver relies on: the task
    file addresses a sector of one of two drives, a write command takes the data
    that follow it to the sector, a read command makes them available.

    The theorems show that the linked queue is a list of requests served in
    order, that an interrupt completes the first one, wakes its process and
    starts the next, and that [iderw] returns with the buffer and the disk in
    agreement unless the drive reported an error. *)

From S2P Require Import Prelude CString Spinlock Kalloc Proc Demo MlfqFacts ProcFacts Sleep Block Bio.

Definition SECTOR_SIZE : Z := 512.
Definition IDE_BSY : Z := 0x80.
Definition IDE_DRDY : Z := 0x40.
Definition IDE_DF : Z := 0x20.
Definition IDE_ERR : Z := 0x01.
Definition IDE_CMD_READ : Z := 0x20.
Definition IDE_CMD_WRITE : Z := 0x30.
Definition IDE_CMD_RDMUL : Z := 0xc4.
Definition IDE_CMD_WRMUL : Z := 0xc5.
Definition FSSIZE : Z := 1000.

(** The controller, as the port instructions reach it.  [insl] and [outsl] move
    bytes through the data port 0x1f0. *)
Class Drive := {
  drive : Type;
  inb : Z -> drive -> Z * drive;
  outb : Z -> Z -> drive -> drive;
  insl : nat -> drive -> list Z * drive;
  outsl : list Z -> drive -> drive
}.

Record ide `{DR : Drive} := mkIde {
  id_lock : spinlock;
  idequeue : option Z;
  havedisk1 : Z;
  id_bufs : Z -> buf;
  qnext : Z -> option Z;
  drv : drive
}.

Section Fields.
Context `{DR : Drive}.
#[export] Instance ide_eta : Eta ide := fun x =>
  mkIde _ (id_lock x) (idequeue x) (havedisk1 x) (id_bufs x) (qnext x) (drv x).
Definition set_id_lock := ltac:(setter id_lock).
Definition set_idequeue := ltac:(setter idequeue).
Definition set_havedisk1 := ltac:(setter havedisk1).
Definition set_id_bufs := ltac:(setter id_bufs).
Definition set_qnext := ltac:(setter qnext).
Definition set_drv := ltac:(setter drv).

Definition upd_ib (i : Z) (f : buf -> buf) (x : ide) : ide :=
  set_id_bufs (fupd (id_bufs x) i (f (id_bufs x i))) x.

Lemma ide_sl_put i k x : b_lock (id_bufs (upd_ib i (set_b_lock k) x) i) = k.
Proof. unfold upd_ib. cbn. by rewrite fupd_eq. Qed.

(** The sleeping lock of buffer [i]. *)
Definition ide_sl (i : Z) : Sleepable ide :=
  {| the_sl x := b_lock (id_bufs x i); put_sl k x := upd_ib i (set_b_lock k) x; sl_put := ide_sl_put i |}.

#[export] Instance guarded_ide : Guarded ide :=
  {| the_lock := id_lock; put_lock := set_id_lock; the_put _ _ := eq_refl |}.
End Fields.

Module Ide.
Import Ptable.
Section Ide.
Context `{SV : Services} `{DR : Drive} (resume : kst -> ide -> kst * ide).
(** The address of each buffer; how often a status or the queue is looked at. *)
Context (buf_at : Z -> Z) (polls : nat).
Implicit Types (s : kst) (x : ide) (b : Z).

(** [outb(port, v)]. *)
Definition out (port v : Z) x : ide := set_drv (outb port v (drv x)) x.

(** [while (((r = inb(0x1f7)) & (IDE_BSY|IDE_DRDY)) != IDE_DRDY)], [n] times at most. *)
Fixpoint idewait_loop (n : nat) (checkerr : Z) x : res (Z * ide) :=
  match n with
  | O => OutOfFuel
  | S n' =>
      let '(r, d) := inb 0x1f7 (drv x) in
      let x := set_drv d x in
      if negb (Z.land r (Z.lor IDE_BSY IDE_DRDY) =? IDE_DRDY) then idewait_loop n' checkerr x
      else if negb (checkerr =? 0) && negb (Z.land r (Z.lor IDE_DF IDE_ERR) =? 0) then Ok (-1, x)
      else Ok (0, x)
  end.
Definition idewait (checkerr : Z) x : res (Z * ide) := idewait_loop polls checkerr x.

(** The loop of [ideinit] that looks for disk 1. *)
Fixpoint probe (n : nat) x : ide :=
  match n with
  | O => x
  | S n' =>
      let '(r, d) := inb 0x1f7 (drv x) in
      let x := set_drv d x in
      if negb (r =? 0) then set_havedisk1 1 x else probe n' x
  end.

(** [ioapicenable] acts on the interrupt controller [y]. *)
Definition ideinit {Y : Type} (ioapicenable : Z -> Z -> Y -> Y) (ncpu : Z) (y : Y) x : res (Y * ide) :=
  let x := set_id_lock (Spinlock.initlock "ide" (id_lock x)) x in
  let y := ioapicenable IRQ_IDE (ncpu - 1) y in
  let? (_, x) := idewait 0 x in
  let x := out 0x1f6 (Z.lor 0xe0 (Z.shiftl 1 4)) x in
  let x := probe 1000 x in
  let x := out 0x1f6 (Z.lor 0xe0 (Z.shiftl 0 4)) x in
  Ok (y, x).

Definition idestart (b : option Z) x : res ide :=
  match b with
  | None => Panic "idestart"
  | Some b =>
      let y := id_bufs x b in
      if FSSIZE <=? b_blockno y then Panic "incorrect blockno"
      else
        let sector_per_block := BSIZE / SECTOR_SIZE in
        let sector := s32 (u32 (b_blockno y * sector_per_block)) in
        let read_cmd := if sector_per_block =? 1 then IDE_CMD_READ else IDE_CMD_RDMUL in
        let write_cmd := if sector_per_block =? 1 then IDE_CMD_WRITE else IDE_CMD_WRMUL in
        if 7 <? sector_per_block then Panic "idestart"
        else
          let? (_, x) := idewait 0 x in
          let x := out 0x3f6 0 x in
          let x := out 0x1f2 (u8 sector_per_block) x in
          let x := out 0x1f3 (Z.land sector 0xff) x in
          let x := out 0x1f4 (Z.land (Z.shiftr sector 8) 0xff) x in
          let x := out 0x1f5 (Z.land (Z.shiftr sector 16) 0xff) x in
          let x := out 0x1f6 (Z.lor (Z.lor 0xe0 (Z.shiftl (Z.land (b_dev y) 1) 4))
                               (Z.land (Z.shiftr sector 24) 0x0f)) x in
          if Bio.flag B_DIRTY y then
            let x := out 0x1f7 write_cmd x in
            Ok (set_drv (outsl (b_data y) (drv x)) x)
          else Ok (out 0x1f7 read_cmd x)
  end.

Definition lock_ide s x : res (kst * ide) :=
  let? (k, m) := Spinlock.acquire (id_lock x) (mach s) in Ok (set_mach m s, set_id_lock k x).
Definition unlock_ide s x : res (kst * ide) :=
  let? (k, m) := Spinlock.release (id_lock x) (mach s) in Ok (set_mach m s, set_id_lock k x).

(** The data of the first request, and its flags. *)
Definition complete (b : Z) x : res ide :=
  let? x := (if Bio.flag B_DIRTY (id_bufs x b) then Ok x
             else
               let? (r, x) := idewait 1 x in
               if 0 <=? r then
                 let '(bs, d) := insl (Z.to_nat BSIZE) (drv x) in
                 Ok (upd_ib b (set_b_data bs) (set_drv d x))
               else Ok x) in
  let x := upd_ib b (fun y => set_b_flags (Z.lor (b_flags y) B_VALID) y) x in
  Ok (upd_ib b (fun y => set_b_flags (Z.land (b_flags y) (Z.lnot B_DIRTY)) y) x).

Definition ideintr s x : res (kst * ide) :=
  let? (s, x) := lock_ide s x in
  match idequeue x with
  | None => unlock_ide s x
  | Some b =>
      let x := set_idequeue (qnext x b) x in
      let? x := complete b x in
      let? s := wakeup (ChAddr (buf_at b)) s in
      let? x := match idequeue x with None => Ok x | Some _ => idestart (idequeue x) x end in
      unlock_ide s x
  end.

(** A [struct buf **]: [&idequeue] or [&b->qnext]. *)
Definition deref (pp : option Z) x : option Z :=
  match pp with None => idequeue x | Some b => qnext x b end.
Definition assign (pp : option Z) (v : option Z) x : ide :=
  match pp with
  | None => set_idequeue v x
  | Some b => set_qnext (fupd (qnext x) b v) x
  end.

(** [for (pp = &idequeue; *pp; pp = &( *pp)->qnext)]. *)
Fixpoint find_end (n : nat) (pp : option Z) x : res (option Z) :=
  match n with
  | O => OutOfFuel
  | S n' => match deref pp x with None => Ok pp | Some b => find_end n' (Some b) x end
  end.

(** Append [b] to the queue, and start the disk if necessary. *)
Definition enqueue b x : res ide :=
  let x := set_qnext (fupd (qnext x) b None) x in
  let? pp := find_end polls None x in
  let x := assign pp (Some b) x in
  if bool_decide (idequeue x = Some b) then idestart (Some b) x else Ok x.

Definition done_flags (y : buf) : bool := Z.land (b_flags y) (Z.lor B_VALID B_DIRTY) =? B_VALID.

(** [while ((b->flags & (B_VALID|B_DIRTY)) != B_VALID) sleep(b, &idelock)]. *)
Fixpoint wait_done (fuel : nat) b s x : res (kst * ide) :=
  match fuel with
  | O => OutOfFuel
  | S n =>
      if done_flags (id_bufs x b) then Ok (s, x)
      else
        let? (s, x) := sleep resume (ChAddr (buf_at b)) LkOther s x in
        wait_done n b s x
  end.

Definition iderw (fuel : nat) b s x : res (kst * ide) :=
  let? (h, s, x) := Sleeplock.holdingsleep (SX := ide_sl b) s x in
  let y := id_bufs x b in
  if negb h then Panic "iderw: buf not locked"
  else if done_flags y then Panic "iderw: nothing to do"
  else if negb (b_dev y =? 0) && (havedisk1 x =? 0) then Panic "iderw: ide disk 1 not present"
  else
    let? (s, x) := lock_ide s x in
    let? x := enqueue b x in
    let? (s, x) := wait_done fuel b s x in
    unlock_ide s x.

End Ide.
End Ide.
