(* ===== verification/IdeFacts.v ===== *)
(** Theorems on the IDE driver of Ide.v: the controller's laws, the queue of
    requests, the interrupt, and [iderw]. *)

From S2P Require Import Prelude CString Spinlock Kalloc Proc Demo MlfqFacts ProcFacts Sleep Block Bio BioFacts Ide.

(** * The controller *)

Inductive ata_op := AIdle | AReading (u l : Z) | AWriting (u l : Z).

(** The task file, the sectors of the two drives, the command being carried out
    and whether it failed. *)
Record ata := mkAta { a_reg : Z -> Z; a_sect : Z -> Z -> list Z; a_op : ata_op; a_err : bool }.

(** The drive and the sector that the task file addresses. *)
Definition a_unit (r : Z -> Z) : Z := Z.land (Z.shiftr (r 0x1f6) 4) 1.
Definition a_lba (r : Z -> Z) : Z :=
  r 0x1f3 + 2 ^ 8 * r 0x1f4 + 2 ^ 16 * r 0x1f5 + 2 ^ 24 * Z.land (r 0x1f6) 0x0f.

Definition upd2 {A : Type} (f : Z -> Z -> A) (u l : Z) (v : A) : Z -> Z -> A := fupd f u (fupd (f u) l v).

Lemma upd2_eq {A : Type} (f : Z -> Z -> A) u l v : upd2 f u l v u l = v.
Proof. unfold upd2. by rewrite !fupd_eq. Qed.

Lemma upd2_ne {A : Type} (f : Z -> Z -> A) u l v u' l' : (u, l) <> (u', l') -> upd2 f u l v u' l' = f u' l'.
Proof.
  intros H. unfold upd2. destruct (decide (u' = u)) as [->|Hu]; [|by rewrite fupd_ne].
  rewrite fupd_eq, fupd_ne; [done|congruence].
Qed.

(** What the driver relies on. *)
Class Ata `{DR : Drive} := {
  view : drive -> ata;
  busy : drive -> nat;
  ata_status d : view (inb 0x1f7 d).2 = view d /\
    (Z.land (inb 0x1f7 d).1 (Z.lor IDE_BSY IDE_DRDY) = IDE_DRDY ->
     (Z.land (inb 0x1f7 d).1 (Z.lor IDE_DF IDE_ERR) =? 0) = negb (a_err (view d)));
  ata_ready d : Z.land (inb 0x1f7 d).1 (Z.lor IDE_BSY IDE_DRDY) = IDE_DRDY \/ (busy (inb 0x1f7 d).2 < busy d)%nat;
  ata_control d : a_reg (view (outb 0x3f6 0 d)) = a_reg (view d) /\ a_sect (view (outb 0x3f6 0 d)) = a_sect (view d);
  ata_file p v d : 0x1f2 <= p <= 0x1f6 ->
    a_reg (view (outb p v d)) = fupd (a_reg (view d)) p v /\ a_sect (view (outb p v d)) = a_sect (view d);
  ata_read d : a_sect (view (outb 0x1f7 IDE_CMD_READ d)) = a_sect (view d) /\
    a_op (view (outb 0x1f7 IDE_CMD_READ d)) = AReading (a_unit (a_reg (view d))) (a_lba (a_reg (view d)));
  ata_write d : a_sect (view (outb 0x1f7 IDE_CMD_WRITE d)) = a_sect (view d) /\
    a_op (view (outb 0x1f7 IDE_CMD_WRITE d)) = AWriting (a_unit (a_reg (view d))) (a_lba (a_reg (view d)));
  ata_out d bs u l : a_op (view d) = AWriting u l -> length bs = 512%nat ->
    exists v, a_sect (view (outsl bs d)) = upd2 (a_sect (view d)) u l v /\ (a_err (view d) = false -> v = bs);
  ata_in d u l : a_op (view d) = AReading u l -> a_err (view d) = false ->
    (insl 512 d).1 = a_sect (view d) u l /\ a_sect (view (insl 512 d).2) = a_sect (view d)
}.

(** A controller that is always ready, and whose commands for the sectors [e] fail. *)
Definition failing (e : Z -> Z -> bool) (d : ata) : bool :=
  match a_op d with AReading u l | AWriting u l => e u l | AIdle => false end.
Definition no_bad (u l : Z) : bool := false.
Definition demo_outb (p v : Z) (d : ata) : ata :=
  if p =? 0x3f6 then d
  else if p =? 0x1f7 then
    let u := a_unit (a_reg d) in
    let l := a_lba (a_reg d) in
    mkAta (a_reg d) (a_sect d) (if v =? IDE_CMD_READ then AReading u l else AWriting u l) false
  else mkAta (fupd (a_reg d) p v) (a_sect d) (a_op d) false.
Definition demo_drive (e : Z -> Z -> bool) : Drive := {|
  drive := ata;
  inb p d := (if failing e d then 0x41 else 0x40, d);
  outb := demo_outb;
  insl n d := match a_op d with AReading u l => (a_sect d u l, d) | _ => (replicate n 0, d) end;
  outsl bs d := match a_op d with
    | AWriting u l => mkAta (a_reg d) (upd2 (a_sect d) u l bs) AIdle false
    | _ => d
    end
|}.
Definition demo_ata (e : Z -> Z -> bool) : @Ata (demo_drive e).
Proof.
  refine (@Build_Ata (demo_drive e) (fun d => mkAta (a_reg d) (a_sect d) (a_op d) (failing e d)) (fun _ => 0%nat) _ _ _ _ _ _ _ _); cbn.
  - intros d. split; [done|]. by destruct (failing e d).
  - intros d. left. by destruct (failing e d).
  - done.
  - intros p v d H. unfold demo_outb. rewrite (proj2 (Z.eqb_neq _ _)), (proj2 (Z.eqb_neq _ _)) by lia. done.
  - done.
  - done.
  - intros d bs u l -> _. by exists bs.
  - by intros d u l ->.
Defined.

Lemma lba_split n : 0 <= n < 2 ^ 28 ->
  Z.land n 0xff + 2 ^ 8 * Z.land (Z.shiftr n 8) 0xff + 2 ^ 16 * Z.land (Z.shiftr n 16) 0xff +
  2 ^ 24 * Z.land (Z.shiftr n 24) 0x0f = n.
Proof.
  intros H. change 0xff with (Z.ones 8). change 0x0f with (Z.ones 4).
  rewrite !Z.land_ones, !Z.shiftr_div_pow2 by lia. Z.to_euclidean_division_equations. lia.
Qed.

Lemma device_reg u h : 0 <= u <= 1 -> 0 <= h < 16 ->
  let r := Z.lor (Z.lor 0xe0 (Z.shiftl u 4)) h in Z.land (Z.shiftr r 4) 1 = u /\ Z.land r 0x0f = h.
Proof.
  intros Hu Hh. assert (forallb (fun u => forallb (fun h =>
    let r := Z.lor (Z.lor 0xe0 (Z.shiftl u 4)) h in (Z.land (Z.shiftr r 4) 1 =? u) && (Z.land r 0x0f =? h))
    (seqZ 0 16)) (seqZ 0 2) = true) as H by by vm_compute.
  rewrite forallb_forall in H. specialize (H u). rewrite forallb_forall in H.
  cbn zeta. assert (In h (seqZ 0 16)) as H1 by (apply list_elem_of_In, elem_of_seqZ; lia).
  specialize (H ltac:(apply list_elem_of_In, elem_of_seqZ; lia) h H1). rewrite andb_true_iff, !Z.eqb_eq in H. done.
Qed.

Section Ide.
Import Spinlock Ptable Ide.
Context `{SV : Services} `{DR : Drive} {AT : Ata} (buf_at : Z -> Z) (polls : nat).
Implicit Types (s : kst) (c p : nat) (x : ide) (b i : Z) (q : list Z) (y : buf).

Definition dirty y : bool := Bio.flag B_DIRTY y.
Definition sect x : Z -> Z -> list Z := a_sect (view (drv x)).
(** Drive and sector of a buffer. *)
Definition addr y : Z * Z := (Z.land (b_dev y) 1, b_blockno y).
Definition at_disk x y : list Z := sect x (addr y).1 (addr y).2.

(** ** Waiting for the drive, and starting it *)

Lemma idewait_ok n ck x : (busy (drv x) < n)%nat ->
  exists d, idewait_loop n ck x = Ok (if negb (ck =? 0) && a_err (view (drv x)) then -1 else 0, set_drv d x) /\
    view d = view (drv x).
Proof.
  revert x. induction n as [|n IH]; intros x Hn; [lia|]. cbn [idewait_loop].
  destruct (ata_status (drv x)) as [Hv He]. pose proof (ata_ready (drv x)) as Hr.
  destruct (inb 0x1f7 (drv x)) as [r d]. cbn [fst snd] in *.
  destruct (Z.eqb_spec (Z.land r (Z.lor IDE_BSY IDE_DRDY)) IDE_DRDY) as [E|E]; cbn [negb].
  - rewrite (He E), negb_involutive. exists d. split; [|done]. by destruct (_ && _).
  - destruct Hr as [Hr|Hr]; [done|]. destruct (IH (set_drv d x)) as (d' & -> & Hd'); [cbn; lia|].
    exists d'. cbn [drv set_drv] in *. rewrite Hv in *. done.
Qed.

(** A request the driver can serve. *)
Definition request x b : Prop :=
  0 <= b < Z.of_nat NBUF /\ 0 <= b_blockno (id_bufs x b) < FSSIZE /\ length (b_data (id_bufs x b)) = 512%nat /\
  done_flags (id_bufs x b) = false.

(** The sectors whose commands fail. *)
Context (bad : Z -> Z -> bool).
Definition bad_block y : bool := bad (addr y).1 (addr y).2.

(** The drive works on the request of [b]: what is to be written was handed over. *)
Definition started x b : Prop :=
  if dirty (id_bufs x b) then bad_block (id_bufs x b) = false -> at_disk x (id_bufs x b) = b_data (id_bufs x b)
  else a_op (view (drv x)) = AReading (addr (id_bufs x b)).1 (addr (id_bufs x b)).2.

(** The drive is never busy for long, and reports an error for a command if and
    only if its sector is bad. *)
Definition prompt : Prop := forall d, (busy d < polls)%nat.
Definition reports : Prop := forall d u l,
  a_op (view d) = AReading u l \/ a_op (view d) = AWriting u l -> a_err (view d) = bad u l.

(** The task file for sector [n] of drive [u]. *)
Definition task_file n u (d : drive) : drive :=
  outb 0x1f6 (Z.lor (Z.lor 0xe0 (Z.shiftl u 4)) (Z.land (Z.shiftr n 24) 0x0f))
    (outb 0x1f5 (Z.land (Z.shiftr n 16) 0xff) (outb 0x1f4 (Z.land (Z.shiftr n 8) 0xff)
      (outb 0x1f3 (Z.land n 0xff) (outb 0x1f2 1 (outb 0x3f6 0 d))))).

Lemma file_reg r v d : 0x1f2 <= r <= 0x1f6 -> a_reg (view (outb r v d)) = fupd (a_reg (view d)) r v.
Proof. intros H. by apply ata_file. Qed.

Lemma file_sect r v d : 0x1f2 <= r <= 0x1f6 -> a_sect (view (outb r v d)) = a_sect (view d).
Proof. intros H. by apply ata_file. Qed.

Lemma task_file_ok n u d : 0 <= n < FSSIZE -> 0 <= u <= 1 ->
  let r := view (task_file n u d) in
  a_unit (a_reg r) = u /\ a_lba (a_reg r) = n /\ a_sect r = a_sect (view d).
Proof.
  intros Hn Hu. cbn zeta. unfold task_file, FSSIZE in *.
  assert (0 <= Z.land (Z.shiftr n 24) 0x0f < 16) as Hh
    by (change 0x0f with (Z.ones 4); rewrite Z.land_ones by lia; apply Z.mod_pos_bound; lia).
  destruct (device_reg u _ Hu Hh) as [E1 E2]. pose proof (lba_split n ltac:(lia)) as E3.
  split; [|split].
  - unfold a_unit. rewrite file_reg, fupd_eq by lia. exact E1.
  - unfold a_lba. rewrite !file_reg by lia.
    rewrite ?fupd_eq, E2. repeat rewrite fupd_ne by lia. rewrite !fupd_eq. repeat rewrite fupd_ne by lia. rewrite !fupd_eq.
    repeat rewrite fupd_ne by lia. by rewrite fupd_eq.
  - rewrite !file_sect by lia. apply ata_control.
Qed.

(** [idestart] of a request: a write reaches the disk, a read is under way. *)
Lemma idestart_ok x b : prompt -> reports -> request x b ->
  exists d, idestart polls (Some b) x = Ok (set_drv d x) /\ started (set_drv d x) b /\
    forall u l, (dirty (id_bufs x b) = true -> addr (id_bufs x b) <> (u, l)) -> a_sect (view d) u l = sect x u l.
Proof.
  intros Hp Hh (_ & Hn & Hlen & _). unfold idestart, FSSIZE in *. rewrite (proj2 (Z.leb_gt _ _)) by lia.
  change (BSIZE / SECTOR_SIZE) with 1. cbn [Z.eqb Pos.eqb Z.ltb Z.compare Pos.compare].
  rewrite Z.mul_1_r, (u32_small (b_blockno _)) by lia.
  unfold idewait. destruct (idewait_ok polls 0 x (Hp _)) as (d & -> & Hd). cbn [res_bind].
  rewrite s32_small by lia. unfold out. cbn [drv set_drv id_bufs].
  set (y := id_bufs x b) in *. set (u := Z.land (b_dev y) 1).
  assert (0 <= u <= 1) as Hu.
  { pose proof (Z.land_ones (b_dev y) 1 ltac:(lia)) as E. change (Z.ones 1) with 1 in E. fold u in E.
    pose proof (Z.mod_pos_bound (b_dev y) (2 ^ 1)). lia. }
  destruct (task_file_ok (b_blockno y) u d Hn Hu) as (E1 & E2 & E3). unfold task_file in *.
  change (u8 1) with 1. set (d1 := outb 0x1f6 _ _) in *. fold (dirty y). unfold started.
  change (id_bufs (set_drv _ x) b) with y. fold (dirty y). unfold sect. rewrite <- Hd.
  destruct (dirty y) eqn:Ed.
  - destruct (ata_write d1) as [W1 W2]. rewrite E1, E2 in W2.
    destruct (ata_out _ (b_data y) _ _ W2 Hlen) as (v & W3 & Hv). rewrite W1, E3 in W3.
    eexists. split; [reflexivity|]. split.
    + intros Hb. unfold at_disk, sect. cbn [drv set_drv addr fst snd] in *. rewrite W3, upd2_eq. apply Hv.
      rewrite (Hh _ _ _ (or_intror W2)). exact Hb.
    + intros u' l' H. rewrite W3. apply upd2_ne. by apply H.
  - destruct (ata_read d1) as [W1 W2]. rewrite E1, E2 in W2. eexists. split; [reflexivity|].
    split; [exact W2|]. intros u' l' _. by rewrite W1, E3.
Qed.

(** ** The queue *)

Fixpoint chain (nx : Z -> option Z) (h : option Z) q : Prop :=
  match q with [] => h = None | b :: q' => h = Some b /\ chain nx (nx b) q' end.

(** The queue is the list [q] of requests, and the drive works on the first. *)
Record ide_rep x q : Prop := {
  ir_chain : chain (qnext x) (idequeue x) q;
  ir_nodup : NoDup q;
  ir_req : Forall (request x) q;
  ir_active : match q with [] => True | b :: _ => started x b end
}.

Lemma queue_ext nx nx' h q : (forall b, b ∈ q -> nx' b = nx b) -> chain nx h q -> chain nx' h q.
Proof.
  revert h. induction q as [|b q IH]; intros h H; [done|]. cbn. intros [-> Hc]. split; [done|].
  rewrite H by apply list_elem_of_here. apply IH; [|done]. intros b' Hb. apply H. by apply list_elem_of_further.
Qed.

Lemma chain_snoc nx h q a b : a ∉ q -> b ∉ q -> a <> b -> nx b = None -> chain nx h (q ++ [a]) ->
  chain (fupd nx a (Some b)) h (q ++ [a; b]).
Proof.
  revert h. induction q as [|e q IH]; intros h Ha Hb Hab Hn; cbn.
  - intros [-> _]. split; [done|]. rewrite fupd_eq. split; [done|]. by rewrite fupd_ne.
  - intros [-> Hc]. rewrite not_elem_of_cons in Ha, Hb. split; [done|]. rewrite fupd_ne by naive_solver. apply IH; naive_solver.
Qed.

Lemma find_end_ok n x q : forall pp, chain (qnext x) (deref pp x) q -> (length q < n)%nat ->
  find_end n pp x = Ok (match last q with Some b => Some b | None => pp end).
Proof.
  revert n. induction q as [|b q IH]; intros [|n] pp; cbn [chain length find_end]; try lia.
  - by intros ->.
  - intros [-> Hc] Hn. rewrite (IH n (Some b) Hc) by lia. rewrite last_cons. by destruct (last q).
Qed.

Lemma rep_length x q : ide_rep x q -> (length q <= NBUF)%nat.
Proof.
  intros [_ Hn Hr _]. transitivity (length (seqZ 0 (Z.of_nat NBUF))); [|by rewrite length_seqZ, Nat2Z.id].
  apply submseteq_length, NoDup_submseteq; [done|]. intros b Hb. rewrite Forall_forall in Hr.
  destruct (Hr b Hb) as [? _]. apply elem_of_seqZ. lia.
Qed.

(** Only the buffers of the queue, the links and the drive matter. *)
Lemma rep_frame x x' q : ide_rep x q -> (forall b, b ∈ q -> id_bufs x' b = id_bufs x b /\ qnext x' b = qnext x b) ->
  idequeue x' = idequeue x -> drv x' = drv x -> ide_rep x' q.
Proof.
  intros [H1 H2 H3 H4] Hq Hi Hd. split; [|done| |].
  - rewrite Hi. apply (queue_ext (qnext x)); [|done]. intros b Hb. by apply Hq.
  - rewrite Forall_forall in *. intros b Hb. unfold request. rewrite (proj1 (Hq b Hb)). by apply H3.
  - destruct q as [|b q]; [done|]. unfold started, at_disk, sect. rewrite (proj1 (Hq b ltac:(apply list_elem_of_here))), Hd. exact H4.
Qed.

(** ** Appending a request *)

Lemma enqueue_ok x q b : prompt -> reports -> (NBUF < polls)%nat -> ide_rep x q -> b ∉ q -> request x b ->
  exists x', enqueue polls b x = Ok x' /\ ide_rep x' (q ++ [b]) /\
    id_lock x' = id_lock x /\ havedisk1 x' = havedisk1 x /\ id_bufs x' = id_bufs x /\
    (forall u l, (q = [] -> dirty (id_bufs x b) = true -> addr (id_bufs x b) <> (u, l)) -> sect x' u l = sect x u l).
Proof.
  intros Hp Hh Hpolls Hx Hb Hreq. unfold enqueue. pose proof (rep_length x q Hx) as Hlen.
  set (x1 := set_qnext (fupd (qnext x) b None) x).
  assert (ide_rep x1 q) as Hx1.
  { apply (rep_frame x); try done. intros b' Hb'. split; [done|]. cbn. rewrite fupd_ne; [done|by intros ->]. }
  rewrite (find_end_ok polls x1 q None) by (apply (ir_chain _ _ Hx1) || lia). cbn [res_bind].
  destruct q as [|e q _] using rev_ind.
  - cbn [last assign]. rewrite bool_decide_true by done.
    assert (request (set_idequeue (Some b) x1) b) as Hr by exact Hreq.
    destruct (idestart_ok _ b Hp Hh Hr) as (d & -> & Hs & Hd). eexists. split; [done|]. split; [|split_and!; try done].
    + split; cbn; [split; [done|by rewrite fupd_eq]|by apply NoDup_singleton| |done]. by rewrite Forall_singleton.
    + intros u l H. unfold sect in *. cbn [drv set_drv]. rewrite Hd; [done|]. by apply H.
  - rewrite last_snoc. cbn [assign]. rewrite not_elem_of_app, list_elem_of_singleton in Hb. destruct Hb as [Hb Hbe].
    rewrite bool_decide_false.
    2: { cbn. intros E. pose proof (ir_chain _ _ Hx) as Hc. rewrite E in Hc. destruct q; cbn in Hc; destruct Hc as [[=] _]; [congruence|].
         subst. apply Hb, list_elem_of_here. }
    eexists. split; [done|]. split; [|done]. destruct Hx1 as [C1 C2 C3 C4]. rewrite NoDup_app in C2. destruct C2 as (N1 & N2 & N3).
    split.
    + cbn [qnext idequeue set_qnext]. rewrite <- app_assoc. apply chain_snoc; try done; [|by cbn; rewrite fupd_eq].
      intros He. by apply (N2 e He), list_elem_of_singleton.
    + rewrite <- app_assoc. cbn [app]. apply NoDup_app. split; [done|]. split.
      * intros a Ha. rewrite !not_elem_of_cons. specialize (N2 a Ha). rewrite list_elem_of_singleton in N2.
        split; [done|]. split; [by intros ->|by apply not_elem_of_nil].
      * apply NoDup_cons. split; [|by apply NoDup_singleton]. rewrite list_elem_of_singleton. congruence.
    + rewrite Forall_app, Forall_singleton. done.
    + by destruct q.
Qed.

(** ** The interrupt *)

(** A buffer whose request is done, with the data [D]. *)
Definition finished y (D : list Z) : buf :=
  set_b_flags (Z.land (Z.lor (b_flags y) B_VALID) (Z.lnot B_DIRTY)) (set_b_data D y).

Lemma finished_flags y D : done_flags (finished y D) = true /\ dirty (finished y D) = false.
Proof.
  unfold done_flags, dirty, Bio.flag, finished, B_VALID, B_DIRTY. cbn [b_flags set_b_flags set_b_data].
  rewrite Z.eqb_eq, negb_false_iff, Z.eqb_eq. change (Z.lor 2 4) with 6. set (f := b_flags y).
  split; apply Z.bits_inj'; intros n Hn; rewrite !Z.land_spec, Z.lor_spec, Z.lnot_spec by done;
    (destruct (decide (n < 3)) as [H|H];
     [assert (n = 0 \/ n = 1 \/ n = 2) as [-> | [-> | ->]] by lia; cbn; by rewrite ?orb_true_r, ?andb_false_r|]).
  - rewrite (Z.bits_above_log2 6 n), (Z.bits_above_log2 2 n) by (cbn; lia). by rewrite andb_false_r.
  - rewrite (Z.bits_above_log2 4 n), Z.bits_0 by (cbn; lia). by rewrite andb_false_r.
Qed.

(** What the buffer [y] of a request holds when it is done: what was to be
    written, what the sector holds, or what it held before if the read failed. *)
Definition outcome x y : list Z := if dirty y || bad_block y then b_data y else at_disk x y.

Lemma complete_ok x b : prompt -> reports -> started x b ->
  exists x', complete polls b x = Ok x' /\ id_bufs x' b = finished (id_bufs x b) (outcome x (id_bufs x b)) /\
    (forall i, i <> b -> id_bufs x' i = id_bufs x i) /\ id_lock x' = id_lock x /\ idequeue x' = idequeue x /\
    havedisk1 x' = havedisk1 x /\ qnext x' = qnext x /\ sect x' = sect x.
Proof.
  intros Hp Hh Hs. unfold complete, started, outcome in *. fold (dirty (id_bufs x b)). destruct (dirty (id_bufs x b)); cbn [orb].
  - cbn [res_bind]. eexists. split; [done|]. cbn. rewrite !fupd_eq. split; [by destruct (id_bufs x b)|].
    split; [|done]. intros i Hi. by rewrite !fupd_ne.
  - unfold idewait. destruct (idewait_ok polls 1 x (Hp _)) as (d & -> & Hd).
    rewrite <- Hd in Hs |- *. pose proof (Hh d _ _ (or_introl Hs)) as He. fold (bad_block (id_bufs x b)) in He. rewrite He.
    cbn [res_bind Z.eqb negb andb]. destruct (bad_block (id_bufs x b)); cbn [Z.leb Z.compare drv set_drv res_bind].
    { eexists. split; [done|]. cbn. rewrite !fupd_eq. split; [by destruct (id_bufs x b)|].
      split; [intros i Hi; by rewrite !fupd_ne|]. split_and!; try done. unfold sect. cbn. by rewrite Hd. }
    change (Z.to_nat BSIZE) with 512%nat. destruct (ata_in d _ _ Hs He) as [E1 E2]. destruct (insl 512 d) as [bs d'].
    cbn [fst snd] in E1, E2. cbn [res_bind]. eexists. split; [done|]. cbn. rewrite !fupd_eq. split.
    { unfold at_disk, sect. rewrite <- Hd, <- E1. by destruct (id_bufs x b). }
    split; [intros i Hi; by rewrite !fupd_ne|]. split_and!; try done. unfold sect. cbn. by rewrite E2, Hd.
Qed.

(** What an interrupt does to the driver's state: the first request is done, the
    next one is the drive's. *)
Record served x b q x' : Prop := {
  sv_rep : ide_rep x' q;
  sv_done : id_bufs x' b = finished (id_bufs x b) (outcome x (id_bufs x b));
  sv_other i : i <> b -> id_bufs x' i = id_bufs x i;
  sv_disk1 : havedisk1 x' = havedisk1 x;
  sv_sect u l : (forall i, i ∈ q -> dirty (id_bufs x i) = true -> addr (id_bufs x i) <> (u, l)) -> sect x' u l = sect x u l
}.

Definition start_next x : res ide :=
  match idequeue x with None => Ok x | Some _ => idestart polls (idequeue x) x end.

Lemma serve_ok x b q : prompt -> reports -> ide_rep x (b :: q) ->
  exists x1 x2, complete polls b (set_idequeue (qnext x b) x) = Ok x1 /\ start_next x1 = Ok x2 /\ served x b q x2 /\
    id_lock x2 = id_lock x.
Proof.
  intros Hp Hh [[C1 C2] N R A]. apply NoDup_cons in N as [Nb N]. apply Forall_cons in R as [_ R].
  destruct (complete_ok (set_idequeue (qnext x b) x) b Hp Hh A) as (x1 & -> & Eb & Ei & El & Eq & Ed & En & Es).
  cbn [id_bufs id_lock idequeue havedisk1 qnext set_idequeue] in *.
  assert (forall i, i ∈ q -> id_bufs x1 i = id_bufs x i) as Eiq by (intros i Hi; apply Ei; by intros ->).
  assert (Forall (request x1) q) as R1.
  { rewrite Forall_forall in *. intros i Hi. unfold request. rewrite (Eiq i Hi). by apply R. }
  exists x1. unfold start_next. rewrite Eq. destruct q as [|e q].
  - cbn in C2. rewrite C2 in *. exists x1. split; [done|]. split; [done|]. split; [|done]. split; try done.
    intros u l _. by rewrite Es.
  - destruct C2 as [C2 C3]. rewrite C2 in *. apply Forall_cons in R1 as [R1 R2].
    destruct (idestart_ok x1 e Hp Hh R1) as (d & -> & Hs & Hd). rewrite (Eiq e) in Hd by apply list_elem_of_here.
    eexists. split; [done|]. split; [done|]. split; [|done]. split; try done.
    + split; cbn; [|done|by apply Forall_cons|done]. rewrite Eq, En. done.
    + intros u l H. unfold sect at 1. cbn [drv set_drv]. rewrite Hd, Es; [done|]. intros E. apply H; [apply list_elem_of_here|done].
Qed.

Lemma rep_lock x q k : ide_rep x q -> ide_rep (set_id_lock k x) q.
Proof. intros H. by apply (rep_frame x). Qed.

Lemma served_lock x b q x' k k' : served (set_id_lock k x) b q x' -> served x b q (set_id_lock k' x').
Proof. intros [H1 H2 H3 H4 H5]. split; [by apply rep_lock|done..]. Qed.

(** With the locks free the interrupt returns, and wakes who waits for the buffer. *)
Lemma ideintr_ok c p s x b q : prompt -> reports -> outside c p s -> locked (id_lock x) = 0 -> locked (pt_lock s) = 0 ->
  ide_rep x (b :: q) ->
  exists s' x', ideintr buf_at polls s x = Ok (s', x') /\ served x b q x' /\ locked (id_lock x') = 0 /\
    outside c p s' /\ locked (pt_lock s') = 0 /\ pt_proc s' = map (wake (ChAddr (buf_at b))) (pt_proc s).
Proof.
  intros Hp Hh Hout Hl Hpt Hx. unfold ideintr, lock_ide.
  destruct (lock_outside c p s (id_lock x) Hout Hl) as (k & m & -> & Hheld & Hin). cbn [res_bind].
  destruct (serve_ok (set_id_lock k x) b q Hp Hh (rep_lock x _ k Hx)) as (x1 & x2 & E1 & E2 & Hs & Hk).
  pose proof (ir_chain _ _ Hx) as [Hq _]. cbn [id_lock idequeue qnext set_id_lock] in *. rewrite Hq, E1. cbn [res_bind].
  destruct (wakeup_inside (ChAddr (buf_at b)) c p (set_mach m s) Hin Hpt) as (s' & -> & Hin' & Hpt' & Hps). cbn [res_bind].
  unfold start_next in E2. rewrite E2. cbn [res_bind]. unfold unlock_ide. rewrite Hk.
  destruct (unlock_inside c p s' k Hin' Hheld) as (k' & m' & -> & Hk' & Hout'). cbn [res_bind].
  exists (set_mach m' s'), (set_id_lock k' x2). split; [done|]. split; [by apply (served_lock x b q x2 k)|done].
Qed.

(** ** What others do while a process waits for its buffer *)

(** [i] is not in the queue. *)
Definition unqueued x i : Prop := forall q, ide_rep x q -> i ∉ q.
(** No request of the queue is for the block of [b]. *)
Definition apart x b q : Prop := forall i, i ∈ q -> i <> b -> addr (id_bufs x i) <> addr (id_bufs x b).

(** [n] interrupts; requests of other processes, for other blocks; other uses of
    buffers that are not queued; the lock. *)
Inductive ran b : nat -> ide -> ide -> Prop :=
| ran_end x : ran b 0 x x
| ran_intr n s s' x x1 x2 : ideintr buf_at polls s x = Ok (s', x1) -> ran b n x1 x2 -> ran b (S n) x x2
| ran_rw n i x x1 x2 : i <> b -> unqueued x i -> request x i -> addr (id_bufs x i) <> addr (id_bufs x b) ->
    enqueue polls i x = Ok x1 -> ran b n x1 x2 -> ran b n x x2
| ran_use n i f x x2 : i <> b -> unqueued x i -> ran b n (upd_ib i f x) x2 -> ran b n x x2
| ran_lock n k x x2 : ran b n (set_id_lock k x) x2 -> ran b n x x2.

(** The request of [b], with buffer [y], is behind [pre]; [D] is what its block
    holds or is to hold, or what [y] holds if the block is bad. *)
Definition waiting b y (D : list Z) pre x : Prop :=
  exists post, ide_rep x (pre ++ b :: post) /\ apart x b (pre ++ b :: post) /\ id_bufs x b = y /\
    outcome x y = D.

(** It is done, and buffer and disk agree unless the block is bad. *)
Definition settled b y (D : list Z) x : Prop :=
  exists q, ide_rep x q /\ (b ∉ q) /\ apart x b q /\ id_bufs x b = finished y D /\ (bad_block y = false -> at_disk x y = D).

(** The outcome depends on the sector only. *)
Lemma outcome_same x x' y : (dirty y = false -> at_disk x' y = at_disk x y) -> outcome x' y = outcome x y.
Proof. intros H. unfold outcome. destruct (dirty y); [done|]. cbn [orb]. destruct (bad_block y); [done|]. by apply H. Qed.

Lemma addr_finished y D : addr (finished y D) = addr y.
Proof. by destruct y. Qed.

Lemma apart_same x x' b q q' : apart x b q -> q' ⊆ q ->
  (forall i, i ∈ q' -> id_bufs x' i = id_bufs x i) -> addr (id_bufs x' b) = addr (id_bufs x b) -> apart x' b q'.
Proof. intros H Hs Hi Hb i Hq Hne. rewrite Hi, Hb by done. apply H; [by apply Hs|done]. Qed.

(** An interrupt that comes back has served the first request. *)
Lemma ideintr_inv s x s' x' q : prompt -> reports -> ide_rep x q -> ideintr buf_at polls s x = Ok (s', x') ->
  match q with [] => exists k, x' = set_id_lock k x | b :: q => served x b q x' end.
Proof.
  intros Hp Hh Hx. unfold ideintr, lock_ide. destruct (acquire (id_lock x) (mach s)) as [[k m]| | | |]; try done.
  cbn [res_bind]. pose proof (ir_chain _ _ Hx) as Hc. destruct q as [|b q].
  - cbn in Hc. cbn [idequeue set_id_lock]. rewrite Hc. unfold unlock_ide.
    destruct (release _ _) as [[k' m']| | | |]; try done. cbn [res_bind]. intros [= _ <-]. by exists k'.
  - destruct Hc as [Hc _]. destruct (serve_ok (set_id_lock k x) b q Hp Hh (rep_lock x _ k Hx)) as (x1 & x2 & E1 & E2 & Hs & _).
    cbn [idequeue qnext set_id_lock] in *. rewrite Hc, E1. cbn [res_bind]. destruct (wakeup _ _) as [s2| | | |]; try done.
    cbn [res_bind]. unfold start_next in E2. rewrite E2. cbn [res_bind]. unfold unlock_ide.
    destruct (release _ _) as [[k' m']| | | |]; try done. cbn [res_bind]. intros [= _ <-]. by apply (served_lock x b q x2 k).
Qed.

Lemma waiting_intr b y D pre x s s' x' : prompt -> reports -> waiting b y D pre x ->
  ideintr buf_at polls s x = Ok (s', x') ->
  match pre with [] => settled b y D x' | _ :: pre => waiting b y D pre x' end.
Proof.
  intros Hp Hh (post & Hx & Ha & Hb & Hd) E. pose proof (ideintr_inv s x s' x' _ Hp Hh Hx E) as H.
  pose proof (ir_nodup _ _ Hx) as Hn. destruct pre as [|e pre]; cbn [app] in *.
  - destruct H as [H1 H2 H3 H4 H5]. apply NoDup_cons in Hn as [Hn _].
    pose proof (ir_active _ _ Hx) as Hact. cbn in Hact. unfold started in Hact. rewrite Hb in *.
    rewrite Hd in H2.
    assert (bad_block y = false -> at_disk x y = D) as ED.
    { intros Hy. unfold outcome in Hd. rewrite Hy in Hd. destruct (dirty y); cbn [orb] in Hd; [rewrite Hact by done|]; exact Hd. }
    assert (forall i, i ∈ post -> i <> b) as Hne by (intros i Hi ->; done).
    exists post. split; [done|]. split; [done|]. split; [|split; [done|]].
    + apply (apart_same x _ b (b :: post)); [done|set_solver|auto|]. by rewrite H2, Hb, addr_finished.
    + unfold at_disk. rewrite H5; [exact ED|]. intros i Hi _. rewrite <- surjective_pairing, <- Hb. apply Ha; [by apply list_elem_of_further|auto].
  - destruct H as [H1 H2 H3 H4 H5]. apply NoDup_cons in Hn as [Hn _].
    assert (forall i, i ∈ pre ++ b :: post -> i <> e) as Hne by (intros i Hi ->; done).
    assert (b <> e) as Hbe by (apply Hne; set_solver).
    exists post. split; [done|]. split; [|split; [by rewrite H3|]].
    + apply (apart_same x _ b (e :: pre ++ b :: post)); [done|set_solver|auto|by rewrite H3].
    + rewrite <- Hd. apply outcome_same. intros Ed. unfold at_disk. rewrite H5; [done|]. intros i Hi Hdi.
      rewrite <- surjective_pairing, <- Hb. apply Ha; [by apply list_elem_of_further|]. intros ->. congruence.
Qed.

Lemma settled_intr b y D x s s' x' : prompt -> reports -> settled b y D x ->
  ideintr buf_at polls s x = Ok (s', x') -> settled b y D x'.
Proof.
  intros Hp Hh (q & Hx & Hq & Ha & Hb & Hd) E. pose proof (ideintr_inv s x s' x' _ Hp Hh Hx E) as H.
  destruct q as [|e q].
  - destruct H as [k ->]. exists []. split; [by apply rep_lock|]. done.
  - destruct H as [H1 H2 H3 H4 H5]. apply not_elem_of_cons in Hq as [Hbe Hq].
    pose proof (ir_nodup _ _ Hx) as Hn. apply NoDup_cons in Hn as [Hn _].
    assert (forall i, i ∈ q -> i <> e /\ i <> b) as Hne by (intros i Hi; split; by intros ->).
    exists q. split; [done|]. split; [done|]. split; [|split; [by rewrite H3|]].
    + apply (apart_same x _ b (e :: q)); [done|set_solver| |by rewrite H3]. intros i Hi. apply H3. by apply Hne.
    + unfold at_disk. rewrite H5; [exact Hd|]. intros i Hi _. rewrite <- surjective_pairing, <- (addr_finished y D), <- Hb.
      apply Ha; [by apply list_elem_of_further|by apply Hne].
Qed.

(** How many interrupts the request of [b] still needs. *)
Definition stage b y D (k : nat) x : Prop :=
  match k with
  | O => settled b y D x
  | S k => exists pre, length pre = k /\ waiting b y D pre x
  end.

Lemma stage_rep b y D k x : stage b y D k x -> exists q, ide_rep x q.
Proof. destruct k; [intros (q & H & _); by exists q|]. intros (pre & _ & post & H & _). by exists (pre ++ b :: post). Qed.

(** Changes of buffers that are neither [b] nor queued leave the stage. *)
Lemma stage_frame b y D k x x' : stage b y D k x -> idequeue x' = idequeue x -> drv x' = drv x -> qnext x' = qnext x ->
  (forall i, i = b \/ ~ unqueued x i -> id_bufs x' i = id_bufs x i) -> stage b y D k x'.
Proof.
  intros H Hi Hd Hn Hu. destruct k as [|k].
  - destruct H as (q & Hx & Hq & Ha & Hb & HD).
    assert (forall i, i ∈ q -> id_bufs x' i = id_bufs x i) as Hiq by (intros i Hiq; apply Hu; right; intros HU; by apply (HU q)).
    exists q. split; [apply (rep_frame x); try done; intros i Hi'; by rewrite Hn, Hiq|]. split; [done|].
    split; [apply (apart_same x _ b q); [done|done|done|]; rewrite Hu; auto|]. split; [rewrite Hu; auto|].
    unfold at_disk, sect. by rewrite Hd.
  - destruct H as (pre & Hl & post & Hx & Ha & Hb & HD). set (q := pre ++ b :: post) in *.
    assert (forall i, i ∈ q -> id_bufs x' i = id_bufs x i) as Hiq by (intros i Hiq; apply Hu; right; intros HU; by apply (HU q)).
    exists pre. split; [done|]. exists post. split; [apply (rep_frame x); try done; intros i Hi'; by rewrite Hn, Hiq|].
    split; [apply (apart_same x _ b q); [done|done|done|]; rewrite Hu; auto|]. split; [rewrite Hu; auto|].
    rewrite <- HD. apply outcome_same. intros _. unfold at_disk, sect. by rewrite Hd.
Qed.

Lemma stage_rw b y D k x i x' : prompt -> reports -> (NBUF < polls)%nat -> stage b y D k x -> i <> b -> unqueued x i ->
  request x i -> addr (id_bufs x i) <> addr (id_bufs x b) -> enqueue polls i x = Ok x' -> stage b y D k x'.
Proof.
  intros Hp Hh Hpolls H Hib Hu Hreq Hap E. destruct k as [|k].
  - destruct H as (q & Hx & Hq & Ha & Hb & HD).
    destruct (enqueue_ok x q i Hp Hh Hpolls Hx (Hu q Hx) Hreq) as (x1 & E1 & Hx1 & _ & _ & Ei & Hs).
    rewrite E in E1. injection E1 as <-. exists (q ++ [i]). split; [done|]. split; [set_solver|]. rewrite Ei. split; [|split; [done|]].
    + intros j Hj Hjb. rewrite Ei. apply elem_of_app in Hj as [Hj|Hj]; [by apply Ha|]. by apply list_elem_of_singleton in Hj as ->.
    + unfold at_disk. rewrite Hs; [exact HD|]. intros _ _. by rewrite <- surjective_pairing, <- (addr_finished y D), <- Hb.
  - destruct H as (pre & Hl & post & Hx & Ha & Hb & HD).
    destruct (enqueue_ok x _ i Hp Hh Hpolls Hx (Hu _ Hx) Hreq) as (x1 & E1 & Hx1 & _ & _ & Ei & Hs).
    rewrite E in E1. injection E1 as <-. exists pre. split; [done|]. exists (post ++ [i]). rewrite <- app_assoc in Hx1.
    split; [exact Hx1|]. rewrite Ei. split; [|split; [done|]].
    + intros j Hj Hjb. rewrite Ei. destruct (decide (j = i)) as [->|Hji]; [done|]. apply Ha; [|done]. set_solver.
    + rewrite <- HD. apply outcome_same. intros _. unfold at_disk. rewrite Hs; [done|]. intros Hnil. by destruct pre.
Qed.

Lemma ran_stage b y D n x x' : prompt -> reports -> (NBUF < polls)%nat -> ran b n x x' ->
  forall k, stage b y D k x -> stage b y D (k - n) x'.
Proof.
  intros Hp Hh Hpolls. induction 1 as [x|n s s' x x1 x2 E _ IH|n i x x1 x2 Hi Hu Hr Ha E _ IH|n i f x x2 Hi Hu _ IH|n k0 x x2 _ IH];
    intros k Hk.
  - by rewrite Nat.sub_0_r.
  - replace (k - S n)%nat with ((k - 1) - n)%nat by lia. apply IH. destruct k as [|k].
    + by apply (settled_intr b y D x s s' x1).
    + cbn [Nat.sub]. rewrite Nat.sub_0_r. destruct Hk as (pre & <- & Hw).
      pose proof (waiting_intr b y D pre x s s' x1 Hp Hh Hw E) as Hw1. destruct pre as [|e pre]; [done|]. by exists pre.
  - apply IH. by apply (stage_rw b y D k x i).
  - apply IH. apply (stage_frame b y D k x); try done. intros j [->|Hj]; cbn; rewrite fupd_ne; [done|done|done|by intros ->].
  - apply IH. by apply (stage_frame b y D k x).
Qed.

(** ** Waiting *)

Section Wait.
Context (resume : kst -> ide -> kst * ide).

(** While a process waits for its request, the drive interrupts at least once. *)
Definition interrupts b : Prop :=
  forall s x s' x', resume s x = (s', x') -> (exists q, ide_rep x q /\ b ∈ q) -> exists n, ran b (S n) x x'.

Definition in_ide c p s x : Prop :=
  inside_one c p s /\ Sleep.held c (id_lock x) /\ locked (pt_lock s) = 0 /\ (p < length (pt_proc s))%nat.

Lemma wait_done_ok b y D k : forall fuel c p s x, prompt -> reports -> (NBUF < polls)%nat -> resume_ok p resume -> interrupts b ->
  in_ide c p s x -> stage b y D k x -> (k < fuel)%nat ->
  exists c' s' x', wait_done resume buf_at fuel b s x = Ok (s', x') /\ in_ide c' p s' x' /\ settled b y D x'.
Proof.
  induction k as [k IH] using lt_wf_ind. intros [|fuel] c p s x Hp Hh Hpolls Hres Hint Hin Hst Hf; [lia|]. cbn [wait_done].
  destruct k as [|k].
  { exists c, s, x. destruct Hst as (q & H1 & H2 & H3 & H4 & H5). rewrite H4, (proj1 (finished_flags y D)).
    split; [done|]. split; [done|]. by exists q. }
  assert (exists q, ide_rep x q /\ b ∈ q) as Hq by (destruct Hst as (pre & _ & post & H & _); eexists; split; [exact H|set_solver]).
  destruct Hq as (q & Hx & Hb). pose proof (ir_req _ _ Hx) as Hr. rewrite Forall_forall in Hr.
  destruct (Hr b Hb) as (_ & _ & _ & ->). destruct Hin as (Hone & Hheld & Hpt & Hlen).
  destruct (sleep_inside resume (ChAddr (buf_at b)) c p s x Hres Hone Hheld Hpt Hlen) as
    (c' & s0 & lk0 & s1 & x1 & s' & lk' & pr0 & _ & _ & _ & _ & _ & Hrs & -> & Hone' & Hheld' & Hpt' & pr1 & Hp1 & Hps).
  cbn [res_bind]. destruct (Hint s0 (set_id_lock lk0 x) s1 x1 Hrs) as (n & Hran); [exists q; split; [by apply rep_lock|done]|].
  change (put_lock lk' x1) with (set_id_lock lk' x1).
  assert (stage b y D (S k - S n) (set_id_lock lk' x1)) as Hst'.
  { apply (stage_frame b y D _ x1); try done. apply (ran_stage b y D (S n) (set_id_lock lk0 x)); try done.
    by apply (stage_frame b y D _ x). }
  apply (IH (S k - S n)%nat ltac:(lia) fuel c' p s'); try done; [|lia]. split; [done|]. split; [exact Hheld'|]. split; [done|].
  rewrite Hps, length_insert. by eapply lookup_lt_Some.
Qed.

(** Only the sleeping lock of [b] differs. *)
Definition only_lock b x x' : Prop :=
  id_lock x' = id_lock x /\ idequeue x' = idequeue x /\ havedisk1 x' = havedisk1 x /\ qnext x' = qnext x /\ drv x' = drv x /\
  (forall i, i <> b -> id_bufs x' i = id_bufs x i) /\
  id_bufs x' b = set_b_lock (b_lock (id_bufs x' b)) (id_bufs x b).

#[local] Instance only_lock_preorder b : PreOrder (only_lock b).
Proof.
  split.
  - intros x. split_and!; try done. by destruct (id_bufs x b).
  - intros x x1 x2 (A1 & A2 & A3 & A4 & A5 & A6 & A7) (B1 & B2 & B3 & B4 & B5 & B6 & B7). split_and!; try congruence.
    + intros i Hi. rewrite B6, A6; done.
    + rewrite B7 at 1. by rewrite A7.
Qed.

Lemma only_lock_put b k x : only_lock b x (put_sl (Sleepable := ide_sl b) k x).
Proof.
  split_and!; try done; cbn; unfold upd_ib; cbn.
  - intros i Hi. by rewrite fupd_ne.
  - by rewrite fupd_eq.
Qed.

Lemma ide_rw_ok b c p id s x q fuel : prompt -> reports -> (NBUF < polls)%nat -> resume_ok p resume -> interrupts b ->
  caller c p id s -> mine id (b_lock (id_bufs x b)) -> locked (id_lock x) = 0 ->
  ide_rep x q -> b ∉ q -> apart x b q -> request x b -> b_dev (id_bufs x b) = 0 \/ havedisk1 x <> 0 ->
  (length q + 1 < fuel)%nat ->
  exists c' s' x' K, iderw resume buf_at polls fuel b s x = Ok (s', x') /\ outside c' p s' /\ locked (id_lock x') = 0 /\
    mine id K /\ settled b (set_b_lock K (id_bufs x b)) (outcome x (id_bufs x b)) x'.
Proof.
  intros Hp Hh Hpolls Hres Hint (Hout & Hpt & pr & Hpr & Hid) (M1 & M2 & M3) Hl Hx Hb Ha Hreq Hdev Hf. unfold iderw.
  destruct (holdingsleep_mine (SX := ide_sl b) (only_lock b) (only_lock_put b) c p s x pr Hout M3) as
    (m & x1 & -> & (R1 & R2 & R3 & R4 & R5 & R6 & R7) & E1 & E2 & E3 & Hout1); [cbn; lia|done|cbn; congruence|].
  cbn [res_bind negb the_sl ide_sl] in *. set (y := id_bufs x b) in *. set (K := b_lock (id_bufs x1 b)) in *. rewrite R7.
  pose proof Hreq as (Q1 & Q2 & Q3 & Q4). fold y in Q2, Q3, Q4. unfold done_flags in *.
  cbn [b_flags b_dev set_b_lock]. rewrite Q4, R3.
  replace (negb (b_dev y =? 0) && (havedisk1 x =? 0)) with false.
  2: { destruct Hdev as [-> | Hdev]; [done|]. rewrite (proj2 (Z.eqb_neq _ _) Hdev). by destruct (_ =? 0). }
  rewrite <- R1 in Hl. unfold lock_ide. destruct (lock_outside c p _ _ Hout1 Hl) as (k & m1 & -> & Hheld & Hin). cbn [res_bind].
  set (x2 := set_id_lock k x1). assert (forall i, i ∈ q -> i <> b) as Hne by (intros i Hi ->; done).
  assert (ide_rep x2 q) as Hx2 by (apply (rep_frame x); try done; intros i Hi; cbn; rewrite R4, R6; [done|by apply Hne]).
  assert (request x2 b) as Hr2 by (unfold request; cbn [id_bufs x2 set_id_lock]; rewrite R7; done).
  destruct (enqueue_ok x2 q b Hp Hh Hpolls Hx2 Hb Hr2) as (x3 & -> & Hx3 & L3 & _ & B3 & S3). cbn [res_bind].
  destruct (wait_done_ok b (set_b_lock K y) (outcome x y) (S (length q)) fuel c p
    (set_mach m1 (set_mach m s)) x3 Hp Hh Hpolls Hres Hint) as (c' & s' & x' & -> & (Hone & Hheld' & _) & Hset).
  - split; [done|]. rewrite L3. split; [exact Hheld|]. split; [done|]. by eapply lookup_lt_Some.
  - exists q. split; [done|]. exists []. split; [done|]. rewrite B3. cbn [id_bufs x2 set_id_lock]. split; [|split; [done|]].
    + intros i Hi Hib. rewrite B3. cbn [id_bufs x2 set_id_lock]. rewrite R6, R7 by done. apply Ha; [set_solver|done].
    + transitivity (outcome x3 y); [done|]. apply outcome_same. intros Ed. unfold at_disk. rewrite S3.
      * unfold sect. cbn. by rewrite R5.
      * cbn [id_bufs x2 set_id_lock]. rewrite R7. change (dirty (set_b_lock K y)) with (dirty y). congruence.
  - lia.
  - cbn [res_bind]. unfold unlock_ide. destruct (unlock_inside c' p s' _ Hone Hheld') as (k' & m' & -> & Hk' & Hout').
    cbn [res_bind]. exists c', (set_mach m' s'), (set_id_lock k' x'), K. split; [done|]. split; [done|]. split; [done|].
    split; [split; [congruence|]; split; [congruence|done]|]. destruct Hset as (q' & H1 & H2). exists q'. split; [by apply rep_lock|done].
Qed.

(** C14: [iderw] of a locked buffer, behind whatever requests are queued, returns
    once the interrupts have come, for every interleaving with the interrupt
    handler and with other processes' requests for other blocks.  The drive may
    fail on any set [bad] of sectors.  Then the buffer is marked valid and not
    dirty.  If the drive reported no error for its block the buffer agrees with the
    disk: a dirty buffer was written to its block, another one holds what the block
    held.  If it did, the buffer has the data it had before the request. *)
Theorem iderw_spec b c p id s x q fuel : prompt -> reports -> (NBUF < polls)%nat -> resume_ok p resume -> interrupts b ->
  caller c p id s -> mine id (b_lock (id_bufs x b)) -> locked (id_lock x) = 0 ->
  ide_rep x q -> b ∉ q -> apart x b q -> request x b -> b_dev (id_bufs x b) = 0 \/ havedisk1 x <> 0 ->
  (length q + 1 < fuel)%nat ->
  exists c' s' x' q', iderw resume buf_at polls fuel b s x = Ok (s', x') /\ outside c' p s' /\ locked (id_lock x') = 0 /\
    ide_rep x' q' /\ (b ∉ q') /\ mine id (b_lock (id_bufs x' b)) /\
    done_flags (id_bufs x' b) = true /\ addr (id_bufs x' b) = addr (id_bufs x b) /\
    (bad_block (id_bufs x b) = false -> at_disk x' (id_bufs x b) = b_data (id_bufs x' b)) /\
    b_data (id_bufs x' b) = if dirty (id_bufs x b) || bad_block (id_bufs x b) then b_data (id_bufs x b) else at_disk x (id_bufs x b).
Proof.
  intros H1 H2 H3 H4 H5 H6 H7 H8 H9 H10 H11 H12 H13 H14.
  destruct (ide_rw_ok b c p id s x q fuel H1 H2 H3 H4 H5 H6 H7 H8 H9 H10 H11 H12 H13 H14)
    as (c' & s' & x' & K & E & Hout & Hl & HK & q' & Hx & Hb & _ & Ey & Ed).
  set (D := outcome _ _) in *. exists c', s', x', q'. rewrite Ey, addr_finished, (proj1 (finished_flags _ D)).
  split_and!; try done; apply HK.
Qed.
End Wait.

(** A read that the drive reports as failed: the interrupt marks the buffer valid
    all the same, and wakes the process, with the data it had before. *)
Theorem ide_error_ignored c p s x b : prompt -> outside c p s -> locked (id_lock x) = 0 -> locked (pt_lock s) = 0 ->
  ide_rep x [b] -> dirty (id_bufs x b) = false -> a_err (view (drv x)) = true ->
  exists s' x', ideintr buf_at polls s x = Ok (s', x') /\ done_flags (id_bufs x' b) = true /\
    b_data (id_bufs x' b) = b_data (id_bufs x b).
Proof.
  intros Hp Hout Hl Hpt Hx Hd He. unfold ideintr, lock_ide, complete.
  destruct (lock_outside c p s (id_lock x) Hout Hl) as (k & m & -> & Hheld & Hin). cbn [res_bind].
  destruct (ir_chain _ _ Hx) as [Hq Hn]. cbn in Hn. cbn [idequeue qnext set_id_lock]. rewrite Hq, Hn.
  cbn [id_bufs set_idequeue set_id_lock]. fold (dirty (id_bufs x b)). rewrite Hd. unfold idewait.
  match goal with |- context [idewait_loop polls 1 ?z] => destruct (idewait_ok polls 1 z (Hp _)) as (d & -> & _) end.
  cbn [drv set_idequeue set_id_lock]. rewrite He. cbn [res_bind negb andb Z.eqb Z.leb Z.compare idequeue set_drv upd_ib set_id_bufs set_idequeue].
  destruct (wakeup_inside (ChAddr (buf_at b)) c p (set_mach m s) Hin Hpt) as (s' & -> & Hin' & _). cbn [res_bind].
  unfold unlock_ide. cbn [id_lock upd_ib set_id_bufs set_drv set_idequeue set_id_lock].
  destruct (unlock_inside c p s' k Hin' Hheld) as (k' & m' & -> & _). cbn [res_bind]. eexists _, _. split; [done|].
  cbn. rewrite !fupd_eq. split; [|done]. rewrite <- (proj1 (finished_flags (id_bufs x b) [])). done.
Qed.
End Ide.

(** * The example machine *)

(** Buffer 1 is being written to block 9; buffer 2 is to be read from block 8. *)
Definition demo_ib (i : Z) : buf :=
  mkBuf (if i =? 1 then B_DIRTY else 0) 0 (10 - i) (mkSleeplock 1 demo_lock "buffer" 1) 1 0 0 (replicate 512 i).
Definition demo_atastate : ata := mkAta (fun _ => 0) (fun u l => replicate 512 (if l =? 9 then 1 else l)) AIdle false.
Definition demo_ide (e : Z -> Z -> bool) (d : ata) (h : Z) : @ide (demo_drive e) :=
  mkIde (demo_drive e) demo_lock (Some h) 1 demo_ib (fun _ => None) d.

(** While a process sleeps the drive interrupts once. *)
Definition demo_irq (s : kst) (x : @ide (demo_drive no_bad)) : kst * @ide (demo_drive no_bad) :=
  match Ide.ideintr (DR := demo_drive no_bad) (fun i => i) 31 (demo_in 0) (set_id_lock (DR := demo_drive no_bad) demo_lock x) with
  | Ok (_, x') => (s, set_id_lock (DR := demo_drive no_bad) demo_lock x')
  | _ => (s, x)
  end.

Lemma demo_irq_ok p : resume_ok p demo_irq.
Proof.
  intros c s x H1 H2 H3 H4. unfold demo_irq. destruct (Ide.ideintr _ _ _ _) as [[s' x']| | | |]; eexists c, s, _; done.
Qed.

Lemma demo_reports e : reports (AT := demo_ata e) e.
Proof. intros d u l H. cbn in *. unfold failing. by destruct H as [-> | ->]. Qed.

Lemma demo_prompt e : prompt (AT := demo_ata e) 31.
Proof. intros d. cbn. lia. Qed.

Lemma demo_interrupts b : interrupts (AT := demo_ata no_bad) (fun i => i) 31 no_bad demo_irq b.
Proof.
  intros s x s' x' E (q & Hx & Hb). destruct q as [|h q]; [by apply not_elem_of_nil in Hb|].
  destruct (ideintr_ok (AT := demo_ata no_bad) (fun i => i) 31 no_bad 0 0 (demo_in 0) (set_id_lock (DR := demo_drive no_bad) demo_lock x) h q
    (demo_prompt no_bad) (demo_reports no_bad)) as (s1 & x1 & E1 & _); [by exists (demo_cpu 0 (Some 0%nat))|done|done|by apply rep_lock|].
  unfold demo_irq in E. rewrite E1 in E. injection E as <- <-. exists 0%nat.
  eapply ran_lock, ran_intr; [exact E1|]. eapply ran_lock, ran_end.
Qed.

Lemma demo_ide_rep : ide_rep (AT := demo_ata no_bad) no_bad (demo_ide no_bad demo_atastate 1) [1].
Proof.
  split; [done|by apply NoDup_singleton| |]; [|vm_compute; reflexivity].
  rewrite Forall_singleton. split; [unfold NBUF; lia|]. split; [cbn; unfold FSSIZE; lia|done].
Qed.

Lemma iderw_spec_witness :
  exists c' s' x' q', Ide.iderw (DR := demo_drive no_bad) demo_irq (fun i => i) 31 3 2 (demo_in 0) (demo_ide no_bad demo_atastate 1) = Ok (s', x') /\
    outside c' 0 s' /\ locked (id_lock x') = 0 /\ ide_rep (AT := demo_ata no_bad) no_bad x' q' /\ (2 ∉ q') /\
    mine 1 (b_lock (id_bufs x' 2)) /\ Ide.done_flags (id_bufs x' 2) = true /\ addr (id_bufs x' 2) = (0, 8) /\
    (bad_block no_bad (demo_ib 2) = false -> at_disk (AT := demo_ata no_bad) x' (demo_ib 2) = b_data (id_bufs x' 2)) /\ b_data (id_bufs x' 2) = replicate 512 8.
Proof.
  apply (iderw_spec (AT := demo_ata no_bad) (fun i => i) 31 no_bad demo_irq 2 0 0 1 (demo_in 0) (demo_ide no_bad demo_atastate 1) [1] 3
    (demo_prompt no_bad) (demo_reports no_bad) ltac:(unfold NBUF; lia) (demo_irq_ok 0) (demo_interrupts 2) demo_caller).
  - done.
  - done.
  - apply demo_ide_rep.
  - by rewrite list_elem_of_singleton.
  - intros i ->%list_elem_of_singleton _. done.
  - split; [unfold NBUF; lia|]. split; [cbn; unfold FSSIZE; lia|done].
  - by left.
  - cbn. lia.
Defined.

(** A failing read of block 8 into buffer 2. *)
Definition demo_failing : @ide (demo_drive (fun _ _ => true)) :=
  demo_ide (fun _ _ => true) (mkAta (fun _ => 0) (fun _ _ => replicate 512 7) (AReading 0 8) false) 2.
Lemma demo_failing_rep : ide_rep (AT := demo_ata (fun _ _ => true)) (fun _ _ => true) demo_failing [2].
Proof.
  split; [done|by apply NoDup_singleton| |done].
  rewrite Forall_singleton. split; [unfold NBUF; lia|]. split; [cbn; unfold FSSIZE; lia|done].
Qed.

Lemma ide_error_ignored_witness :
  exists s' x', Ide.ideintr (DR := demo_drive (fun _ _ => true)) (fun i => i) 31 (demo_in 0) demo_failing = Ok (s', x') /\
    Ide.done_flags (id_bufs x' 2) = true /\ b_data (id_bufs x' 2) = replicate 512 2.
Proof.
  apply (ide_error_ignored (AT := demo_ata (fun _ _ => true)) (fun i => i) 31 (fun _ _ => true) 0 0 (demo_in 0) demo_failing 2 (demo_prompt (fun _ _ => true))
    (ex_intro _ (demo_cpu 0 (Some 0%nat)) (conj (conj eq_refl eq_refl) (conj eq_refl eq_refl))) eq_refl eq_refl demo_failing_rep); done.
Defined.
