(* ===== verification/Boot.v ===== *)
(** The boot loader: [bootmain.c].

    [m] is physical memory and the disk is the controller of Ide.v.  The header
    of the kernel is read into memory at 0x10000 and looked at there, also while
    the segments are being loaded.

    The theorem is that the kernel's segments are in memory, with zeroes behind
    the part that is in the file, when the loader jumps to the kernel's entry. *)

From S2P Require Import Prelude CString Spinlock Kalloc Proc Demo MlfqFacts ProcFacts Sleep Block Elf Bio BioFacts Ide IdeFacts.

Module Boot.
Definition SECTSIZE : Z := 512.
Definition scratch : Z := 0x10000.

Section Boot.
Context `{DR : Drive} (polls : nat).
Implicit Types (m : mem) (d : drive).

(** [while ((inb(0x1F7) & 0xC0) != 0x40)], [n] times at most. *)
Fixpoint wait_loop (n : nat) d : res drive :=
  match n with
  | O => OutOfFuel
  | S n => let '(r, d) := inb 0x1F7 d in if negb (Z.land r 0xC0 =? 0x40) then wait_loop n d else Ok d
  end.
Definition waitdisk d : res drive := wait_loop polls d.

Definition readsect (dst offset : Z) m d : res (mem * drive) :=
  let? d := waitdisk d in
  let d := outb 0x1F2 1 d in
  let d := outb 0x1F3 (u8 offset) d in
  let d := outb 0x1F4 (u8 (Z.shiftr offset 8)) d in
  let d := outb 0x1F5 (u8 (Z.shiftr offset 16)) d in
  let d := outb 0x1F6 (u8 (Z.lor (Z.shiftr offset 24) 0xE0)) d in
  let d := outb 0x1F7 0x20 d in
  let? d := waitdisk d in
  let '(bs, d) := insl 512 d in
  Ok (store_bytes m dst bs, d).

(** [for (; pa < epa; pa += SECTSIZE, offset++)]: [n] is above the number of
    turns left. *)
Fixpoint seg_loop (n : nat) (pa epa offset : Z) m d : res (mem * drive) :=
  match n with
  | O => OutOfFuel
  | S n =>
      if pa <? epa then
        let? (m, d) := readsect pa offset m d in
        seg_loop n (u32 (pa + SECTSIZE)) epa (u32 (offset + 1)) m d
      else Ok (m, d)
  end.

Definition readseg (pa count offset : Z) m d : res (mem * drive) :=
  let epa := u32 (pa + count) in
  let pa := u32 (pa - offset mod SECTSIZE) in
  let offset := offset / SECTSIZE + 1 in
  seg_loop (S (Z.to_nat (u32 (epa - pa) / SECTSIZE + 1))) pa epa offset m d.

(** The headers in memory. *)
Definition elf_at m (a : Z) : res elfhdr := get_elf (load_bytes m a 52).
Definition ph_at m (a : Z) : res proghdr := get_proghdr (load_bytes m a 32).

(** [for (; ph < eph; ph++)]: [n] headers are left. *)
Fixpoint load_segments (n : nat) (ph : Z) m d : res (mem * drive) :=
  match n with
  | O => Ok (m, d)
  | S n =>
      let? p := ph_at m ph in
      let pa := ph_paddr p in
      let? (m, d) := readseg pa (ph_filesz p) (ph_off p) m d in
      let m :=
        (if ph_filesz p <? ph_memsz p then
           Kstring.stosb m (u32 (pa + ph_filesz p)) 0 (Z.to_nat (ph_memsz p - ph_filesz p))
         else m) in
      load_segments n (ph + sizeof_ph) m d
  end.

(** The address jumped to; [None] when [bootmain] returns. *)
Definition bootmain m d : res (option Z * mem * drive) :=
  let elf := scratch in
  let? (m, d) := readseg elf 4096 0 m d in
  let? e := elf_at m elf in
  if negb (e_magic e =? ELF_MAGIC) then Ok (None, m, d)
  else
    let ph := elf + e_phoff e in
    let? (m, d) := load_segments (Z.to_nat (e_phnum e)) ph m d in
    let? e := elf_at m elf in
    Ok (Some (e_entry e), m, d).
End Boot.
End Boot.

(** * What is read *)

Section Facts.
Import Boot.
Context `{DR : Drive} {AT : Ata} (polls : nat).
Implicit Types (m : mem) (d : drive).

(** The sectors of the first drive. *)
Definition sectors d : Z -> list Z := a_sect (view d) 0.

(** Byte [pos] of the kernel, which starts at sector 1. *)
Definition kbyte (S : Z -> list Z) (pos : Z) : Z := default 0 (S (pos / 512 + 1) !! Z.to_nat (pos mod 512)).

(** Sectors have 512 bytes each. *)
Definition sectored (S : Z -> list Z) : Prop := forall i, length (S i) = 512%nat /\ Forall (fun b => 0 <= b < 2 ^ 8) (S i).

(** The drive is never busy for long, and reports no errors. *)
Definition works : Prop := forall d, (busy d < polls)%nat /\ a_err (view d) = false.

Lemma waitdisk_ok d : works -> exists d', waitdisk polls d = Ok d' /\ view d' = view d.
Proof.
  intros Hw. unfold waitdisk. assert (busy d < polls)%nat as Hb by apply Hw. revert d Hb. induction polls as [|n IH]; intros d Hb; [lia|]. cbn [wait_loop].
  destruct (ata_status d) as [Hv _]. pose proof (ata_ready d) as Hr. destruct (inb 0x1f7 d) as [r d1]. cbn [fst snd] in *.
  change (Z.lor IDE_BSY IDE_DRDY) with 0xC0 in Hr. change IDE_DRDY with 0x40 in Hr.
  destruct (Z.eqb_spec (Z.land r 0xC0) 0x40) as [E|E]; cbn [negb]; [by exists d1|]. destruct Hr as [Hr|Hr]; [done|].
  destruct (IH d1) as (d2 & -> & Hd); [lia|]. exists d2. by rewrite Hd.
Qed.

(** The task file addresses sector [s] of the first drive. *)
Lemma address_ok s d : 0 <= s < 2 ^ 28 ->
  let d1 := outb 0x1F6 (u8 (Z.lor (Z.shiftr s 24) 0xE0)) (outb 0x1F5 (u8 (Z.shiftr s 16)) (outb 0x1F4 (u8 (Z.shiftr s 8)) (outb 0x1F3 (u8 s) (outb 0x1F2 1 d)))) in
  a_unit (a_reg (view d1)) = 0 /\ a_lba (a_reg (view d1)) = s /\ a_sect (view d1) = a_sect (view d).
Proof.
  intros Hs. cbn zeta. pose proof (lba_split s Hs) as Hl.
  destruct (ata_file 0x1F2 1 d ltac:(lia)) as [R1 S1]. set (d1 := outb 0x1F2 _ _) in *.
  destruct (ata_file 0x1F3 (u8 s) d1 ltac:(lia)) as [R2 S2]. set (d2 := outb 0x1F3 _ _) in *.
  destruct (ata_file 0x1F4 (u8 (Z.shiftr s 8)) d2 ltac:(lia)) as [R3 S3]. set (d3 := outb 0x1F4 _ _) in *.
  destruct (ata_file 0x1F5 (u8 (Z.shiftr s 16)) d3 ltac:(lia)) as [R4 S4]. set (d4 := outb 0x1F5 _ _) in *.
  destruct (ata_file 0x1F6 (u8 (Z.lor (Z.shiftr s 24) 0xE0)) d4 ltac:(lia)) as [R5 S5]. set (d5 := outb 0x1F6 _ _) in *.
  assert (0 <= Z.shiftr s 24 < 16) as Hh by (rewrite Z.shiftr_div_pow2 by lia; split; [apply Z.div_pos; lia|apply Z.div_lt_upper_bound; lia]).
  destruct (device_reg 0 (Z.shiftr s 24) ltac:(lia) Hh) as [D1 D2]. change (Z.lor 224 (Z.shiftl 0 4)) with 0xE0 in D1, D2. rewrite Z.lor_comm in D1, D2.
  assert (u8 (Z.lor (Z.shiftr s 24) 0xE0) = Z.lor (Z.shiftr s 24) 0xE0) as Eu.
  { apply u8_small. pose proof (Z.add_lor_land (Z.shiftr s 24) 0xE0) as E. assert (0 <= Z.land (Z.shiftr s 24) 0xE0) by (apply Z.land_nonneg; lia).
    assert (0 <= Z.lor (Z.shiftr s 24) 0xE0) by (apply Z.lor_nonneg; lia). lia. }
  split; [|split; [|congruence]].
  - unfold a_unit. by rewrite R5, fupd_eq, Eu.
  - unfold a_lba. rewrite R5, R4, R3, R2. rewrite fupd_eq. rewrite !(fupd_ne _ 0x1f6), fupd_eq, !(fupd_ne _ 0x1f5), fupd_eq, !(fupd_ne _ 0x1f4), fupd_eq by lia.
    rewrite Eu, D2. unfold u8. rewrite <- !Z.land_ones by lia. change (Z.ones 8) with 0xff. change 0x0f with (Z.ones 4) in Hl. rewrite Z.land_ones in Hl by lia.
    rewrite (Z.mod_small (Z.shiftr s 24)) in Hl by lia. exact Hl.
Qed.

(** A sector in memory. *)
Lemma readsect_ok dst s m d : works -> 0 <= s < 2 ^ 28 ->
  exists d', readsect polls dst s m d = Ok (store_bytes m dst (sectors d s), d') /\ sectors d' = sectors d.
Proof.
  intros Hw Hs. unfold readsect. destruct (waitdisk_ok d Hw) as (d0 & -> & E0). cbn [res_bind].
  destruct (address_ok s d0 Hs) as (A1 & A2 & A3). set (d1 := outb 0x1F6 _ _) in *. destruct (ata_read d1) as [R1 R2]. change IDE_CMD_READ with 0x20 in R1, R2.
  set (d2 := outb 0x1F7 0x20 d1) in *. destruct (waitdisk_ok d2 Hw) as (d3 & -> & E3). cbn [res_bind]. rewrite A1, A2, <- E3 in R2.
  destruct (ata_in d3 0 s R2) as [I1 I2]; [apply Hw|]. destruct (insl 512 d3) as [bs d4]. cbn [fst snd] in *.
  exists d4. unfold sectors. rewrite I2, I1, E3, R1, A3, E0. done.
Qed.

(** The sectors [readseg] reads for the bytes up to [epa]. *)
Definition turns (pa epa : Z) : Z := if pa <? epa then (epa - pa + 511) / 512 else 0.

Lemma turns_step pa epa : pa < epa -> turns pa epa = 1 + turns (pa + 512) epa.
Proof.
  intros H. unfold turns. rewrite (proj2 (Z.ltb_lt pa epa)) by done. destruct (Z.ltb_spec (pa + 512) epa) as [Hlt|Hge].
  - replace (epa - pa + 511) with (epa - (pa + 512) + 511 + 1 * 512) by lia. rewrite Z.div_add by lia. lia.
  - symmetry. apply (Z.div_unique_pos _ 512 _ (epa - pa - 1)); lia.
Qed.

Lemma turns_pos pa epa : 0 <= turns pa epa.
Proof. unfold turns. destruct (Z.ltb_spec pa epa); [apply Z.div_pos; lia|lia]. Qed.

Lemma kbyte_sector S s j : sectored S -> 0 <= j < 512 -> S s !! Z.to_nat j = Some (kbyte S (512 * (s - 1) + j)).
Proof.
  intros HS Hj. unfold kbyte. rewrite (Z.mul_comm 512), Z.div_add_l, (Z.div_small j), (Z.add_comm (_ * 512)), Z.mod_add, (Z.mod_small j) by lia.
  replace (s - 1 + 0 + 1) with s by lia. destruct (HS s) as [Hl _]. destruct (lookup_lt_is_Some_2 (S s) (Z.to_nat j)) as [b Hb]; [lia|]. by rewrite Hb.
Qed.

(** [m'] is [m] with the bytes of the kernel from [pos] on at [lo]. *)
Definition loaded_at (S : Z -> list Z) m (lo hi pos : Z) m' : Prop :=
  forall x, m' x = if (lo <=? x) && (x <? hi) then kbyte S (pos + (x - lo)) else m x.

Lemma seg_loop_ok n : works -> forall pa epa s m d, sectored (sectors d) -> 0 <= pa -> pa + 512 * turns pa epa < 2 ^ 32 ->
  1 <= s -> s + turns pa epa < 2 ^ 28 -> turns pa epa < Z.of_nat n ->
  exists m' d', seg_loop polls n pa epa s m d = Ok (m', d') /\ sectors d' = sectors d /\
    loaded_at (sectors d) m pa (pa + 512 * turns pa epa) (512 * (s - 1)) m'.
Proof.
  intros Hw. induction n as [|n IH]; intros pa epa s m d HS Hp Hpa Hs Hs' Hn; [pose proof (turns_pos pa epa); lia|]. cbn [seg_loop].
  destruct (Z.ltb_spec pa epa) as [Hlt|Hge].
  - rewrite (turns_step pa epa Hlt) in *. pose proof (turns_pos (pa + 512) epa) as Ht.
    destruct (readsect_ok pa s m d Hw) as (d1 & -> & E1); [lia|]. cbn [res_bind]. unfold SECTSIZE. rewrite !u32_small by lia.
    destruct (IH (pa + 512) epa (s + 1) (store_bytes m pa (sectors d s)) d1) as (m' & d' & -> & E' & Hm); [by rewrite E1|lia..|].
    exists m', d'. split; [done|]. split; [congruence|]. intros x. rewrite Hm, E1. destruct (HS s) as [Hl Hb].
    destruct (Z.leb_spec (pa + 512) x) as [H1|H1], (Z.leb_spec pa x) as [H2|H2]; cbn [andb]; try lia.
    + replace (pa + 512 + 512 * turns (pa + 512) epa) with (pa + 512 * (1 + turns (pa + 512) epa)) by lia.
      destruct (x <? _); [f_equal; lia|]. apply store_bytes_out. rewrite Hl. lia.
    + rewrite (proj2 (Z.ltb_lt x _)) by lia. pose proof (store_bytes_in (sectors d s) m pa x Hb ltac:(lia)) as E.
      rewrite kbyte_sector in E by (done || lia). injection E as <-. f_equal; lia.
    + apply store_bytes_out. lia.
  - unfold turns. rewrite (proj2 (Z.ltb_ge pa epa)) by done. exists m, d. split; [done|]. split; [done|]. intros x.
    destruct (Z.leb_spec pa x), (Z.ltb_spec x (pa + 512 * 0)); cbn [andb]; (done || lia).
Qed.

(** * Segments *)

(** Where the reading of [count] bytes at [off] to [pa] starts and ends. *)
Definition seg_lo (pa off : Z) : Z := pa - off mod 512.
Definition seg_hi (pa count off : Z) : Z := seg_lo pa off + 512 * turns (seg_lo pa off) (pa + count).

Lemma seg_hi_ge pa count off : 0 <= count -> pa + count <= Z.max pa (seg_hi pa count off).
Proof.
  intros Hc. unfold seg_hi, turns, seg_lo. pose proof (Z.mod_pos_bound off 512 ltac:(lia)). destruct (Z.ltb_spec (pa - off mod 512) (pa + count)) as [H1|H1]; [|lia].
  set (w := pa + count - (pa - off mod 512) + 511). pose proof (Z.div_mod w 512 ltac:(lia)). pose proof (Z.mod_pos_bound w 512 ltac:(lia)). lia.
Qed.

Lemma readseg_ok pa count off m d : works -> sectored (sectors d) -> 0 <= off < 2 ^ 32 -> 0 <= count -> 0 <= seg_lo pa off ->
  pa + count < 2 ^ 32 -> seg_hi pa count off < 2 ^ 32 ->
  exists m' d', readseg polls pa count off m d = Ok (m', d') /\ sectors d' = sectors d /\
    forall x, m' x = if (seg_lo pa off <=? x) && (x <? seg_hi pa count off) then kbyte (sectors d) (off + (x - pa)) else m x.
Proof.
  intros Hw HS Ho Hc Hlo He Hhi. unfold readseg. unfold SECTSIZE. fold (seg_lo pa off). pose proof (Z.mod_pos_bound off 512 ltac:(lia)) as Hmb. pose proof (Z.div_mod off 512 ltac:(lia)) as Hdm.
  assert (seg_lo pa off <= pa) as Hle by (unfold seg_lo; lia). rewrite (u32_small (pa + count)), (u32_small (seg_lo pa off)) by lia. rewrite u32_small by lia.
  pose proof (turns_pos (seg_lo pa off) (pa + count)) as Ht. unfold seg_hi in *.
  assert (turns (seg_lo pa off) (pa + count) <= (pa + count - seg_lo pa off) / 512 + 1) as Htn.
  { unfold turns. destruct (_ <? _); [|assert (0 <= (pa + count - seg_lo pa off) / 512) by (apply Z.div_pos; lia); lia].
    set (w := pa + count - seg_lo pa off). pose proof (Z.div_mod w 512 ltac:(lia)). pose proof (Z.mod_pos_bound w 512 ltac:(lia)). pose proof (Z.div_mod (w + 511) 512 ltac:(lia)). pose proof (Z.mod_pos_bound (w + 511) 512 ltac:(lia)). lia. }
  destruct (seg_loop_ok (S (Z.to_nat ((pa + count - seg_lo pa off) / 512 + 1))) Hw (seg_lo pa off) (pa + count) (off / 512 + 1) m d HS) as (m' & d' & -> & E & Hm); [lia..|].
  exists m', d'. split; [done|]. split; [done|]. intros x. rewrite Hm. destruct (_ && _); [|done]. f_equal. unfold seg_lo in *. lia.
Qed.

(** A program header whose segment can be loaded: it stays below 4 GB and away
    from the page of the headers. *)
Definition ph_top (p : proghdr) : Z := Z.max (seg_hi (ph_paddr p) (ph_filesz p) (ph_off p)) (ph_paddr p + ph_memsz p).
Definition ph_lo (p : proghdr) : Z := seg_lo (ph_paddr p) (ph_off p).
Record loadable (p : proghdr) : Prop := {
  lp_off : 0 <= ph_off p < 2 ^ 32;
  lp_size : 0 <= ph_filesz p <= ph_memsz p;
  lp_lo : 0 <= ph_lo p;
  lp_top : ph_top p < 2 ^ 32;
  lp_clear : ph_top p <= scratch \/ scratch + 4096 <= ph_lo p
}.

(** The segment is in memory: the bytes of the file, then zeroes. *)
Definition placed (S : Z -> list Z) m (p : proghdr) : Prop :=
  forall k, 0 <= k < ph_memsz p -> m (ph_paddr p + k) = if k <? ph_filesz p then kbyte S (ph_off p + k) else 0.

(** One turn of the loop over the headers. *)
Definition load_one (p : proghdr) m d : res (mem * drive) :=
  let? (m, d) := readseg polls (ph_paddr p) (ph_filesz p) (ph_off p) m d in
  Ok (if ph_filesz p <? ph_memsz p then Kstring.stosb m (u32 (ph_paddr p + ph_filesz p)) 0 (Z.to_nat (ph_memsz p - ph_filesz p)) else m, d).

Lemma load_one_ok p m d : works -> sectored (sectors d) -> loadable p ->
  exists m' d', load_one p m d = Ok (m', d') /\ sectors d' = sectors d /\ placed (sectors d) m' p /\ forall x, ~ ph_lo p <= x < ph_top p -> m' x = m x.
Proof.
  intros Hw HS [Ho Hs Hl Ht Hc]. unfold load_one, ph_top, ph_lo in *.
  pose proof (Z.mod_pos_bound (ph_off p) 512 ltac:(lia)) as Hmb.
  destruct (readseg_ok (ph_paddr p) (ph_filesz p) (ph_off p) m d Hw HS) as (m1 & d1 & -> & E & Hm); [lia..|]. cbn [res_bind].
  pose proof (seg_hi_ge (ph_paddr p) (ph_filesz p) (ph_off p) ltac:(lia)) as Hge.
  assert (seg_lo (ph_paddr p) (ph_off p) <= ph_paddr p) as Hle by (unfold seg_lo; lia).
  rewrite u32_small by lia. eexists _, d1. split; [reflexivity|]. split; [done|].
  set (m2 := if _ <? _ then _ else _). assert (forall x, m2 x = if (ph_paddr p + ph_filesz p <=? x) && (x <? ph_paddr p + ph_memsz p) then 0 else m1 x) as H2.
  { intros x. subst m2. destruct (Z.ltb_spec (ph_filesz p) (ph_memsz p)) as [Hlt|Hnl].
    - rewrite stosb_spec. by replace (ph_paddr p + ph_filesz p + Z.of_nat (Z.to_nat (ph_memsz p - ph_filesz p))) with (ph_paddr p + ph_memsz p) by lia.
    - destruct (Z.leb_spec (ph_paddr p + ph_filesz p) x), (Z.ltb_spec x (ph_paddr p + ph_memsz p)); cbn [andb]; (done || lia). }
  split.
  - intros k Hk. rewrite H2, Hm. destruct (Z.ltb_spec k (ph_filesz p)) as [Hf|Hf].
    + rewrite (proj2 (Z.leb_gt (ph_paddr p + ph_filesz p) _)) by lia. cbn [andb]. rewrite (proj2 (Z.leb_le _ (ph_paddr p + k))), (proj2 (Z.ltb_lt (ph_paddr p + k) _)) by lia.
      cbn [andb]. f_equal. lia.
    + rewrite (proj2 (Z.leb_le _ (ph_paddr p + k))), (proj2 (Z.ltb_lt (ph_paddr p + k) _)) by lia. done.
  - intros x Hx. rewrite H2, Hm. unfold seg_lo in *.
    destruct (Z.leb_spec (ph_paddr p + ph_filesz p) x), (Z.ltb_spec x (ph_paddr p + ph_memsz p)); cbn [andb]; try lia.
    all: destruct (Z.leb_spec (ph_paddr p - ph_off p mod 512) x), (Z.ltb_spec x (seg_hi (ph_paddr p) (ph_filesz p) (ph_off p))); cbn [andb]; (done || lia).
Qed.

Lemma load_bytes_agree n : forall m m' a, (forall x, a <= x < a + Z.of_nat n -> m' x = m x) -> load_bytes m' a n = load_bytes m a n.
Proof.
  induction n as [|n IH]; intros m m' a H; cbn [load_bytes]; [done|]. rewrite H by lia. f_equal. apply IH. intros x Hx. apply H. lia.
Qed.

Lemma load_bytes_map n : forall m a, load_bytes m a n = map m (seqZ a (Z.of_nat n)).
Proof.
  induction n as [|n IH]; intros m a; cbn [load_bytes]; [done|]. rewrite seqZ_cons by lia. cbn [map]. f_equal. rewrite IH. do 2 f_equal; lia.
Qed.

Lemma load_segments_turn n ph m d : load_segments polls (S n) ph m d =
  let? p := ph_at m ph in let? (m, d) := load_one p m d in load_segments polls n (ph + sizeof_ph) m d.
Proof.
  cbn [load_segments]. destruct (ph_at m ph) as [p| | | |]; cbn [res_bind]; try done. unfold load_one.
  by destruct (readseg polls (ph_paddr p) (ph_filesz p) (ph_off p) m d) as [[m1 d1]| | | |].
Qed.

(** A segment is loaded above those before it. *)
Fixpoint increasing (ps : list proghdr) : Prop :=
  match ps with
  | [] => True
  | p :: ps' => Forall (fun q => ph_paddr p + ph_memsz p <= ph_lo q) ps' /\ increasing ps'
  end.

(** The headers [ps] are in memory from [ph] on. *)
Definition headers m ph (ps : list proghdr) : Prop := forall (i : nat) p, ps !! i = Some p -> ph_at m (ph + sizeof_ph * Z.of_nat i) = Ok p.

(** What is loaded over [m] does not reach [x]. *)
Definition untouched (ps : list proghdr) x : Prop := Forall (fun p => ~ ph_lo p <= x < ph_top p) ps.

Lemma load_segments_ok : works -> forall ps ph m d, sectored (sectors d) -> Forall loadable ps -> increasing ps -> headers m ph ps ->
  scratch <= ph -> ph + sizeof_ph * Z.of_nat (length ps) <= scratch + 4096 ->
  exists m' d', load_segments polls (length ps) ph m d = Ok (m', d') /\ sectors d' = sectors d /\
    Forall (placed (sectors d) m') ps /\ forall x, untouched ps x -> m' x = m x.
Proof.
  intros Hw. induction ps as [|p ps IH]; intros ph m d HS Hl Hi Hh Hp Hp'; [by exists m, d|]. cbn [length] in *.
  rewrite load_segments_turn. pose proof (Hh 0%nat p eq_refl) as E. rewrite Z.mul_0_r, Z.add_0_r in E. rewrite E. cbn [res_bind]. unfold sizeof_ph in *.
  apply Forall_cons in Hl as [Hlp Hl]. destruct Hi as [Hab Hi]. destruct (load_one_ok p m d Hw HS Hlp) as (m1 & d1 & -> & E1 & Hpl & Hout). cbn [res_bind].
  assert (forall x, scratch <= x < scratch + 4096 -> m1 x = m x) as Hsc by (intros x Hx; apply Hout; destruct (lp_clear p Hlp); lia).
  destruct (IH (ph + 32) m1 d1) as (m' & d' & -> & E' & Hall & Hrest); [by rewrite E1|done|done| |lia|lia|].
  { intros i q Hq. specialize (Hh (S i) q Hq). unfold sizeof_ph in *. replace (ph + 32 + 32 * Z.of_nat i) with (ph + 32 * Z.of_nat (S i)) by lia. rewrite <- Hh.
    apply lookup_lt_Some in Hq. unfold ph_at. rewrite (load_bytes_agree 32 m m1); [done|]. intros x Hx. apply Hsc. lia. }
  rewrite E1 in *. exists m', d'. split; [done|]. split; [congruence|]. split.
  - apply Forall_cons. split; [|done]. intros k Hk. rewrite Hrest; [by apply Hpl|]. apply Forall_forall. intros q Hq. rewrite Forall_forall in Hab.
    specialize (Hab q Hq). lia.
  - intros x Hx. apply Forall_cons in Hx as [Hx Hxs]. rewrite Hrest by done. by apply Hout.
Qed.

(** * The loader *)

(** The kernel on the disk: its header, and its program headers in the first
    page. *)
Record kernel (S : Z -> list Z) (e : elfhdr) (ps : list proghdr) : Prop := {
  kn_sect : sectored S;
  kn_elf : get_elf (map (kbyte S) (seqZ 0 52)) = Ok e;
  kn_num : e_phnum e = Z.of_nat (length ps);
  kn_off : 0 <= e_phoff e /\ e_phoff e + sizeof_ph * Z.of_nat (length ps) <= 4096;
  kn_ph (i : nat) p : ps !! i = Some p -> get_proghdr (map (kbyte S) (seqZ (e_phoff e + sizeof_ph * Z.of_nat i) 32)) = Ok p
}.

Lemma read_page m d : works -> sectored (sectors d) ->
  exists m' d', readseg polls scratch 4096 0 m d = Ok (m', d') /\ sectors d' = sectors d /\
    forall x, m' x = if (scratch <=? x) && (x <? scratch + 4096) then kbyte (sectors d) (x - scratch) else m x.
Proof. intros Hw HS. by apply (readseg_ok scratch 4096 0 m d). Qed.

Lemma page_bytes S m n : forall a, (forall x, scratch <= x < scratch + 4096 -> m x = kbyte S (x - scratch)) ->
  0 <= a -> a + Z.of_nat n <= 4096 -> load_bytes m (scratch + a) n = map (kbyte S) (seqZ a (Z.of_nat n)).
Proof.
  induction n as [|n IH]; intros a H Ha Hn; cbn [load_bytes]; [done|]. rewrite seqZ_cons by lia. cbn [map]. rewrite H by lia. f_equal; [f_equal; lia|].
  replace (scratch + a + 1) with (scratch + Z.succ a) by lia. rewrite IH by (done || lia). do 2 f_equal; lia.
Qed.

(** C25: when the disk holds an ELF kernel whose segments can be loaded in
    increasing order, the loader jumps to the kernel's entry with every segment
    in memory: the bytes of the file, and zeroes up to the size in memory.  It
    touches nothing but the page it reads the headers into and the sectors of the
    segments. *)
Theorem bootmain_spec m d e ps :
  works -> kernel (sectors d) e ps -> e_magic e = ELF_MAGIC -> Forall loadable ps -> increasing ps ->
  exists m' d', bootmain polls m d = Ok (Some (e_entry e), m', d') /\ sectors d' = sectors d /\
    Forall (placed (sectors d) m') ps /\
    forall x, ~ scratch <= x < scratch + 4096 -> untouched ps x -> m' x = m x.
Proof.
  intros Hw [HS He Hnum Hoff Hph] Hmag Hl Hi. unfold bootmain. destruct (read_page m d Hw HS) as (m1 & d1 & -> & E1 & Hm1). cbn [res_bind].
  assert (forall x, scratch <= x < scratch + 4096 -> m1 x = kbyte (sectors d) (x - scratch)) as Hpg.
  { intros x Hx. rewrite Hm1. by rewrite (proj2 (Z.leb_le scratch x)), (proj2 (Z.ltb_lt x _)) by lia. }
  assert (elf_at m1 scratch = Ok e) as Ee.
  { unfold elf_at. rewrite <- (Z.add_0_r scratch), (page_bytes (sectors d)) by (done || lia). exact He. }
  rewrite Ee. cbn [res_bind]. rewrite Hmag, Z.eqb_refl. cbn [negb]. rewrite Hnum, Nat2Z.id.
  destruct (load_segments_ok Hw ps (scratch + e_phoff e) m1 d1) as (m2 & d2 & -> & E2 & Hpl & Hrest); [by rewrite E1|done|done| |lia|unfold sizeof_ph in *; lia|].
  { intros i p Hp. pose proof (lookup_lt_Some _ _ _ Hp) as Hlt. unfold ph_at, sizeof_ph in *. rewrite <- Z.add_assoc, (page_bytes (sectors d)) by (done || lia). by apply Hph. }
  rewrite E1 in *. cbn [res_bind]. assert (forall x, scratch <= x < scratch + 4096 -> untouched ps x) as Hun.
  { intros x Hx. apply Forall_forall. intros p Hp. rewrite Forall_forall in Hl. destruct (lp_clear p (Hl p Hp)); lia. }
  assert (elf_at m2 scratch = Ok e) as Ee2.
  { rewrite <- Ee. unfold elf_at. rewrite (load_bytes_agree 52 m1 m2); [done|]. intros x Hx. apply Hrest, Hun. lia. }
  rewrite Ee2. cbn [res_bind]. exists m2, d2. split; [done|]. split; [done|]. split; [done|]. intros x Hx Hu. rewrite Hrest, Hm1 by done.
  destruct (Z.leb_spec scratch x), (Z.ltb_spec x (scratch + 4096)); cbn [andb]; (done || lia).
Qed.

(** Without the magic number the loader gives up. *)
Lemma bootmain_not_elf m d e : works -> sectored (sectors d) -> get_elf (map (kbyte (sectors d)) (seqZ 0 52)) = Ok e -> e_magic e <> ELF_MAGIC ->
  exists m' d', bootmain polls m d = Ok (None, m', d').
Proof.
  intros Hw HS He Hmag. unfold bootmain. destruct (read_page m d Hw HS) as (m1 & d1 & -> & E1 & Hm1). cbn [res_bind].
  assert (elf_at m1 scratch = Ok e) as ->.
  { unfold elf_at. rewrite <- (Z.add_0_r scratch), (page_bytes (sectors d)); [exact He| |lia..]. intros x Hx. rewrite Hm1. by rewrite (proj2 (Z.leb_le scratch x)), (proj2 (Z.ltb_lt x _)) by lia. }
  cbn [res_bind]. rewrite (proj2 (Z.eqb_neq _ _) Hmag). by exists m1, d1.
Qed.
End Facts.

(** * A disk with a kernel *)

(** Two segments: 600 bytes at 0x100200 from offset 0x1200, and 16 bytes, 4 of
    them in the file, at 0x101000 from offset 0x2000. *)
Definition demo_ph (off pa fsz msz : Z) : list Z := enc 4 1 ++ enc 4 off ++ enc 4 0 ++ enc 4 pa ++ enc 4 fsz ++ enc 4 msz ++ enc 4 0 ++ enc 4 0.
Definition demo_header : list Z :=
  enc 4 ELF_MAGIC ++ repeat 0 12 ++ enc 4 0 ++ enc 4 0 ++ enc 4 0x10000c ++ enc 4 52 ++ enc 4 0 ++ enc 4 0 ++ enc 2 52 ++ enc 2 32 ++ enc 2 2 ++ enc 2 0 ++ enc 2 0 ++ enc 2 0 ++
  demo_ph 0x1200 0x100200 600 600 ++ demo_ph 0x2000 0x101000 4 16.
Definition demo_sector (i : Z) : list Z := if i =? 1 then demo_header ++ repeat 0 396 else repeat (Z.land i 0xFF) 512.
Definition demo_kernel_disk : ata := mkAta (fun _ => 0) (fun u i => if u =? 0 then demo_sector i else []) AIdle false.
Definition demo_elf : elfhdr := mkElf ELF_MAGIC (repeat 0 12) 0 0 0 0x10000c 52 0 0 52 32 2 0 0 0.
Definition demo_phs : list proghdr := [mkProghdr 1 0x1200 0 0x100200 600 600 0 0; mkProghdr 1 0x2000 0 0x101000 4 16 0 0].

Lemma demo_sectored : sectored demo_sector.
Proof.
  intros i. unfold demo_sector. destruct (i =? 1); [split; [reflexivity|apply (bool_decide_unpack _); vm_compute; exact I]|].
  split; [apply repeat_length|]. apply Forall_forall. intros b Hb. apply list_elem_of_In, repeat_spec in Hb. subst b.
  change 0xFF with (Z.ones 8). rewrite Z.land_ones by lia. apply Z.mod_pos_bound. lia.
Qed.

Lemma demo_kernel : kernel demo_sector demo_elf demo_phs.
Proof.
  split; [apply demo_sectored|vm_compute; reflexivity|reflexivity|vm_compute; split; discriminate|].
  intros [|[|i]] p; [intros [= <-]; vm_compute; reflexivity..|done].
Qed.

Lemma demo_loadable : Forall loadable demo_phs.
Proof.
  repeat (apply Forall_cons; split); [..|done].
  all: split; [cbn; lia|cbn; lia|vm_compute; discriminate|vm_compute; reflexivity|right; vm_compute; discriminate].
Qed.

Lemma bootmain_spec_witness : exists m' d', Boot.bootmain (DR := demo_drive no_bad) 1 (fun _ => 7) demo_kernel_disk = Ok (Some 0x10000c, m', d') /\
  placed demo_sector m' (mkProghdr 1 0x2000 0 0x101000 4 16 0 0) /\ m' 0x200000 = 7.
Proof.
  destruct (bootmain_spec (DR := demo_drive no_bad) (AT := demo_ata no_bad) 1 (fun _ => 7) demo_kernel_disk demo_elf demo_phs) as (m' & d' & H1 & _ & H2 & H3).
  - intros d. split; [cbn; lia|]. cbn. unfold failing. by destruct (a_op d).
  - apply demo_kernel.
  - reflexivity.
  - apply demo_loadable.
  - split; [repeat constructor; vm_compute; discriminate|]. split; [constructor|exact I].
  - exists m', d'. split; [exact H1|]. split.
    + rewrite Forall_forall in H2. apply H2. right. left.
    + apply H3; [unfold Boot.scratch; lia|]. repeat constructor; vm_compute; intros [_ H]; discriminate H.
Defined.
