(* ===== verification/Exec.v ===== *)
(** Loading a program: [exec] of [exec.c] and [sys_exec] of [sysfile.c].

    The new page table is built with the functions of Vm.v, the file is read with
    those of Fs.v under the log.  [argv] is the list of the argument strings and
    [path] a string, without their NULs.  [kend] and [kdata] are the linker's
    symbols [end] and [data]. *)

From S2P Require Import Prelude CString Spinlock Kalloc Proc Demo MlfqFacts ProcFacts Sleep Pipe Block Log LogFacts Vm Syscall Fs FsFacts File Sysfile Elf.

Module Exec.
Import Ptable.

(** ** The user stack *)

Section Stack.
Implicit Types (h : phys) (m : machine).

(** Enough rounds of [copyout] for [n] bytes. *)
Definition rounds_of (n : nat) : nat := (n / 4096 + 3)%nat.

(** The loop that pushes the argument strings: [argc], [sp] and the pointers
    [ustack[3..]], or [None] for [goto bad]. *)
Fixpoint push_args (pgdir : Z) (argv : list (list Z)) (argc sp : Z) (ustack : list Z) h m
  : res (option (Z * Z * list Z) * phys * machine) :=
  match argv with
  | [] => Ok (Some (argc, sp, ustack), h, m)
  | a :: argv' =>
      if MAXARG <=? argc then Ok (None, h, m)
      else
        let sp := Z.land (u32 (sp - (Z.of_nat (length a) + 1))) (u32 (Z.lnot 3)) in
        let? (r, h, m) := Vm.copyout (rounds_of (length a + 1)) pgdir sp (a ++ [0]) h m in
        if r <? 0 then Ok (None, h, m)
        else push_args pgdir argv' (argc + 1) sp (ustack ++ [sp]) h m
  end.

(** Lines 69 to 88: the stack pointer the program starts with. *)
Definition build_stack (pgdir sz : Z) (argv : list (list Z)) h m : res (option Z * phys * machine) :=
  let? (r, h, m) := push_args pgdir argv 0 sz [] h m in
  match r with
  | None => Ok (None, h, m)
  | Some (argc, sp, ptrs) =>
      let ustack := [0xffffffff; argc; u32 (sp - (argc + 1) * 4)] ++ ptrs ++ [0] in
      let sp := u32 (sp - (3 + argc + 1) * 4) in
      let? (r, h, m) := Vm.copyout (rounds_of (4 * length ustack)) pgdir sp (flat_map (enc 4) ustack) h m in
      if r <? 0 then Ok (None, h, m) else Ok (Some sp, h, m)
  end.
End Stack.

(** [for (last = s = path; *s; s++) if ( *s == '/') last = s + 1]. *)
Fixpoint last_elem (last s : list Z) : list Z :=
  match s with
  | [] => last
  | c :: s' => last_elem (if c =? 47 then s' else last) s'
  end.

Section Exec.
Context `{SV : Services} (kend kdata : Z).
Context (resume_fs : kst -> fsx -> kst * fsx) (resume_log : kst -> lst -> kst * lst).
Context (rounds : nat) (log_at : Z) (lock_at : Z -> Z).
Context (dev_read : Z -> option (Z -> Z -> kst -> fsx -> res (Z * list Z * kst * fsx))).
Implicit Types (s : kst) (x : ftx).

Definition begin_op := File.begin_op resume_log rounds log_at.
Definition end_op := File.end_op log_at.
Definition ilock := File.ilock resume_fs rounds lock_at.
Definition iunlockput := Sysfile.iunlockput resume_fs rounds lock_at.
Definition namei := Sysfile.namei resume_fs rounds lock_at dev_read.
Definition readi (ip off n : Z) := Sysfile.on_fs (Fs.readi dev_read ip off n).

(** A function of vm.c on the whole state. *)
Definition on_vm {A : Type} (f : phys -> machine -> res (A * phys * machine)) s : res (A * kst) :=
  let? (a, h, m) := f (ph s) (mach s) in Ok (a, set_mach m (set_ph h s)).
Definition on_vm_ (f : phys -> machine -> res (phys * machine)) s : res kst :=
  let? (h, m) := f (ph s) (mach s) in Ok (set_mach m (set_ph h s)).

Definition loaduvm (pgdir addr ip off sz : Z) s x : res (Z * kst * ftx) :=
  let? (r, h, m, (s, x)) := Vm.loaduvm
    (fun ip off n h m (y : kst * ftx) =>
       let? (r, bs, s, x) := readi ip off n (set_mach m (set_ph h y.1)) y.2 in
       Ok (r, bs, ph s, mach s, (s, x)))
    pgdir addr ip off sz (ph s) (mach s) (s, x) in
  Ok (r, set_mach m (set_ph h s), x).

(** The loop over the program headers, [n] of them left: [sz], or [None] for
    [goto bad]. *)
Fixpoint load_segments (n : nat) (off sz pgdir ip : Z) s x : res (option Z * kst * ftx) :=
  match n with
  | O => Ok (Some sz, s, x)
  | S n' =>
      let? (r, bs, s, x) := readi ip (u32 off) sizeof_ph s x in
      if negb (r =? sizeof_ph) then Ok (None, s, x)
      else
        let? p := get_proghdr bs in
        if negb (ph_type p =? ELF_PROG_LOAD) then load_segments n' (s32 (off + sizeof_ph)) sz pgdir ip s x
        else if ph_memsz p <? ph_filesz p then Ok (None, s, x)
        else if u32 (ph_vaddr p + ph_memsz p) <? ph_vaddr p then Ok (None, s, x)
        else
          let? (sz, s) := on_vm (Vm.allocuvm kend pgdir sz (u32 (ph_vaddr p + ph_memsz p))) s in
          if sz =? 0 then Ok (None, s, x)
          else if negb (ph_vaddr p mod PGSIZE =? 0) then Ok (None, s, x)
          else
            let? (r, s, x) := loaduvm pgdir (ph_vaddr p) ip (ph_off p) (ph_filesz p) s x in
            if r <? 0 then Ok (None, s, x)
            else load_segments n' (s32 (off + sizeof_ph)) sz pgdir ip s x
  end.

(** [bad]: [pgdir] is 0 before it is set up, [ip] is [None] after the file was
    put away. *)
Definition bad (pgdir : Z) (ip : option Z) s x : res (Z * kst * ftx) :=
  let? s := (if pgdir =? 0 then Ok s else on_vm_ (Vm.freevm kend pgdir) s) in
  match ip with
  | None => Ok (-1, s, x)
  | Some ip =>
      let? (s, x) := iunlockput ip s x in
      let? (s, x) := end_op s x in
      Ok (-1, s, x)
  end.

(** Lines 90 to 104: the process takes the new image. *)
Definition commit_image (c : nat) (path : list Z) (pgdir sz entry sp : Z) s : res kst :=
  let? s := modp c (set_name (name_cut (last_elem path path))) s in
  let? cp := getp c s in
  let oldpgdir := Proc.pgdir cp in
  let? s := modp c (set_pgdir pgdir) s in
  let? s := modp c (set_sz sz) s in
  let f := frames s (tf cp) in
  let s := set_frames (upd (frames s) (tf cp) (set_tf_esp sp (set_tf_eip entry f))) s in
  let? s := switchuvm c s in
  on_vm_ (Vm.freevm kend oldpgdir) s.

Definition exec (path : list Z) (argv : list (list Z)) s x : res (Z * kst * ftx) :=
  let? (c, s) := curproc s in
  let? (s, x) := begin_op s x in
  let? (ip, s, x) := namei path s x in
  match ip with
  | None =>
      let? (s, x) := end_op s x in
      Ok (-1, printk "exec: fail\n" [] s, x)
  | Some ip =>
      let? (s, x) := ilock ip s x in
      let? (r, bs, s, x) := readi ip 0 sizeof_elf s x in
      if negb (r =? sizeof_elf) then bad 0 (Some ip) s x
      else
        let? elf := get_elf bs in
        if negb (e_magic elf =? ELF_MAGIC) then bad 0 (Some ip) s x
        else
          let? (pgdir, s) := on_vm (Vm.setupkvm kend kdata) s in
          if pgdir =? 0 then bad 0 (Some ip) s x
          else
            let? (sz, s, x) := load_segments (Z.to_nat (e_phnum elf)) (s32 (e_phoff elf)) 0 pgdir ip s x in
            match sz with
            | None => bad pgdir (Some ip) s x
            | Some sz =>
                let? (s, x) := iunlockput ip s x in
                let? (s, x) := end_op s x in
                let sz := PGROUNDUP sz in
                let? (sz, s) := on_vm (Vm.allocuvm kend pgdir sz (u32 (sz + 2 * PGSIZE))) s in
                if sz =? 0 then bad pgdir None s x
                else
                  let? s := on_vm_ (Vm.clearpteu pgdir (u32 (sz - 2 * PGSIZE))) s in
                  let? (sp, s) := on_vm (build_stack pgdir sz argv) s in
                  match sp with
                  | None => bad pgdir None s x
                  | Some sp =>
                      let? s := commit_image c path pgdir sz (e_entry elf) sp s in
                      Ok (0, s, x)
                  end
            end
  end.

Definition sys_exec um s x : res (Z * kst * ftx) :=
  let? (path, s) := Sysfile.arg_path um 0 s in
  match path with
  | None => Ok (-1, s, x)
  | Some path =>
      let? (uargv, s) := Sysfile.arg_int um 1 s in
      match uargv with
      | None => Ok (-1, s, x)
      | Some uargv =>
          let? (argv, s) := Sysfile.fetch_args um (Z.to_nat MAXARG) 0 uargv s in
          match argv with
          | None => Ok (-1, s, x)
          | Some argv => exec path argv s x
          end
      end
  end.

End Exec.
End Exec.
