(* ===== verification/ExecFacts.v ===== *)
(** Theorems on [exec]: the stack it builds for the program, through [copyout]
    and the page table, and the guard page below it. *)

From S2P Require Import Prelude CString Spinlock Kalloc Proc Demo Block Vm VmFacts Sysfile Exec.

(** * Ranges of bytes *)

Definition is_byte (b : Z) : Prop := 0 <= b < 256.

Lemma store_bytes_bstr m a l : Forall is_byte l -> bstr (store_bytes m a l) a l.
Proof.
  revert m a. induction l as [|b l IH]; intros m a H; [done|]. apply Forall_cons in H as [Hb Hl]. cbn. split; [|by apply IH].
  rewrite store_bytes_out, store8_eq by lia. apply u8_small, Hb.
Qed.

Lemma bstr_agree m m' a l : (forall x, a <= x < a + Z.of_nat (length l) -> m' x = m x) -> bstr m a l -> bstr m' a l.
Proof.
  revert a. induction l as [|b l IH]; intros a H; [done|]. cbn [bstr length] in *. intros [<- Hl].
  split; [apply H; lia|]. apply IH; [|done]. intros x Hx. apply H. lia.
Qed.

(** The words from [p] on are [l]. *)
Fixpoint wstr (m : mem) (p : Z) (l : list Z) : Prop :=
  match l with [] => True | w :: l' => load32 m p = w /\ wstr m (p + 4) l' end.

Lemma bstr_word m p w : 0 <= w < 2 ^ 32 -> bstr m p (enc 4 w) -> load32 m p = w.
Proof.
  intros Hw. unfold load32. intros (E0 & E1 & E2 & E3 & _). rewrite <- (dec_enc_small 4 w) at 1 by done.
  replace (p + 2) with (p + 1 + 1) by lia. replace (p + 3) with (p + 1 + 1 + 1) by lia. rewrite E0, E1, E2, E3. cbn. lia.
Qed.

Lemma bstr_words m p l : Forall (fun w => 0 <= w < 2 ^ 32) l -> bstr m p (flat_map (enc 4) l) -> wstr m p l.
Proof.
  revert p. induction l as [|w l IH]; intros p H; [done|]. apply Forall_cons in H as [Hw Hl]. cbn [flat_map].
  intros [H1 H2]%bstr_app. rewrite enc_length in H2. split; [by apply bstr_word|by apply IH].
Qed.

Lemma words_length l : length (flat_map (enc 4) l) = (4 * length l)%nat.
Proof. induction l as [|w l IH]; [done|]. cbn [flat_map length]. rewrite length_app, enc_length, IH. lia. Qed.

Lemma words_bytes l : Forall is_byte (flat_map (enc 4) l).
Proof.
  induction l as [|w l IH]; [constructor|]. cbn [flat_map]. apply Forall_app. split; [|done]. unfold is_byte. cbn.
  repeat (apply Forall_cons; split; [apply Z.mod_pos_bound; lia|]). constructor.
Qed.

(** * Where the arguments go *)

Definition down4 (z : Z) : Z := z - z mod 4.

Lemma land_down4 z : 0 <= z < 2 ^ 32 -> Z.land z (u32 (Z.lnot 3)) = down4 z.
Proof.
  intros H. assert (u32 (Z.lnot 3) = Z.ldiff (Z.ones 32) (Z.ones 2)) as -> by done.
  assert (Z.land z (Z.ldiff (Z.ones 32) (Z.ones 2)) = Z.ldiff (Z.land z (Z.ones 32)) (Z.ones 2)) as ->.
  { apply Z.bits_inj'. intros n Hn. rewrite Z.ldiff_spec, !Z.land_spec, Z.ldiff_spec. by rewrite andb_assoc. }
  rewrite Z.land_ones, Z.mod_small by lia. rewrite Z.ldiff_ones_r, Z.shiftl_mul_pow2, Z.shiftr_div_pow2 by lia.
  unfold down4. change (2 ^ 2) with 4. pose proof (Z.div_mod z 4 ltac:(lia)). lia.
Qed.

(** The address of a string pushed below [sp]; of all of them; and the last. *)
Definition below (sp : Z) (a : list Z) : Z := down4 (sp - (Z.of_nat (length a) + 1)).
Fixpoint place (sp : Z) (argv : list (list Z)) : list Z :=
  match argv with [] => [] | a :: r => below sp a :: place (below sp a) r end.
Fixpoint bottom (sp : Z) (argv : list (list Z)) : Z :=
  match argv with [] => sp | a :: r => bottom (below sp a) r end.

Lemma below_room sp a : below sp a + Z.of_nat (length a) + 1 <= sp /\ below sp a mod 4 = 0.
Proof.
  unfold below, down4. pose proof (Z.mod_pos_bound (sp - (Z.of_nat (length a) + 1)) 4 ltac:(lia)). split; [lia|].
  set (z := sp - _) in *. rewrite <- (Z.mod_0_l 4) by lia. rewrite Zminus_mod_idemp_r. by rewrite Z.sub_diag.
Qed.

Lemma bottom_le sp argv : bottom sp argv <= sp.
Proof.
  revert sp. induction argv as [|a r IH]; intros sp; cbn; [lia|]. pose proof (IH (below sp a)). pose proof (below_room sp a). lia.
Qed.

Lemma place_length sp argv : length (place sp argv) = length argv.
Proof. revert sp. induction argv as [|a r IH]; intros sp; cbn; [done|]. by rewrite IH. Qed.

Lemma place_range sp argv : Forall (fun p => bottom sp argv <= p < sp) (place sp argv).
Proof.
  revert sp. induction argv as [|a r IH]; intros sp; cbn; [constructor|]. pose proof (below_room sp a) as [H _].
  apply Forall_cons. split; [pose proof (bottom_le (below sp a) r); lia|].
  refine (Forall_impl _ _ _ (IH (below sp a)) _). intros p Hp. lia.
Qed.

Lemma bottom_aligned sp argv : sp mod 4 = 0 -> bottom sp argv mod 4 = 0.
Proof. revert sp. induction argv as [|a r IH]; intros sp; cbn; [done|]. intros _. apply IH, below_room. Qed.

(** * The stack page *)

Section Stack.
Import Kalloc Vm Exec.
Context (kend : Z) (kend_high : KERNBASE <= kend).
Implicit Types (h : phys) (m : machine) (L : list Z) (T : Z -> option Z) (argv : list (list Z)).

(** User code may reach the page of this entry. *)
Definition reachable (e : Z) : bool := present e && negb (Z.land e PTE_U =? 0).

(** The page of user address [base] is [t], which holds no page table and is not
    free; the page below is mapped, but not for the user. *)
Record stack_page h pgdir T L base t : Prop := {
  sk_rep : pt_rep kend h pgdir T L;
  sk_page : page_ok kend t;
  sk_used : t ∉ L;
  sk_table i : T i <> Some t;
  sk_dir : t <> pgdir;
  sk_base : base mod PGSIZE = 0 /\ PGSIZE <= base /\ base + PGSIZE <= KERNBASE;
  sk_top : reachable (pte_of h T base) = true /\ P2V (PTE_ADDR (pte_of h T base)) = t;
  sk_guard : T (PDX (base - PGSIZE)) <> None /\ reachable (pte_of h T (base - PGSIZE)) = false
}.

(** The user's view of the page. *)
Definition user h base t : mem := fun va => p_mem h (t + (va - base)).

Lemma page_bound t : page_ok kend t -> KERNBASE <= t /\ t + PGSIZE <= 2 ^ 32 /\ t mod PGSIZE = 0.
Proof.
  intros H. pose proof (page_ok_range kend kend_high t H). destruct H as (_ & H & _). unfold KERNBASE, PHYSTOP, PGSIZE in *. lia.
Qed.

(** Memory that changes only inside the page. *)
Lemma stack_page_agree h mm pgdir T L base t : stack_page h pgdir T L base t -> bytes mm ->
  (forall y, y < t \/ t + PGSIZE <= y -> mm y = p_mem h y) -> stack_page (mkPhys mm (p_kmem h)) pgdir T L base t.
Proof.
  intros [H1 H2 H3 H4 H5 H6 H7 H8] Hb Ha. pose proof H1 as [R1 R2 R3 R4 R5 R6].
  assert (forall u j, page_ok kend u -> u <> t -> 0 <= j < 1024 -> load32 mm (u + 4 * j) = load32 (p_mem h) (u + 4 * j)) as Hld.
  { intros u j Hu Hne Hj. apply load32_agree. intros y Hy. apply Ha. destruct (pages_apart kend u t Hu H2 Hne); unfold PGSIZE in *; lia. }
  assert (forall va, pte_of (mkPhys mm (p_kmem h)) T va = pte_of h T va) as Hpte.
  { intros va. unfold pte_of. destruct (T (PDX va)) as [u|] eqn:E; [|done]. apply Hld; [by apply (R5 _ _ E)| |apply PTX_range].
    intros ->. by apply (H4 _ E). }
  split; try done; rewrite ?Hpte; try done. split; try done.
  - destruct R1 as [K1 K2 K3 K4 K5]. split; try done. cbn. apply (chain_agree (p_mem h)); [|done].
    intros a y Ha' Hy. apply Ha. rewrite Forall_forall in K4.
    destruct (pages_apart kend a t (K4 a Ha') H2); [by intros ->| |]; unfold PGSIZE in *; lia.
  - intros i Hi. cbn. rewrite Hld by done. by apply R4.
Qed.

(** ** copyout *)

Lemma uva2ka_ok h m pgdir T L va : pt_rep kend h pgdir T L -> T (PDX va) <> None ->
  uva2ka pgdir va h m = Ok (if reachable (pte_of h T va) then P2V (PTE_ADDR (pte_of h T va)) else 0, h, m).
Proof.
  intros Hrep HT. unfold uva2ka, walkpgdir, pte_of, reachable. destruct (T (PDX va)) as [u|] eqn:E; [|done].
  pose proof (pt_entry _ _ _ _ _ Hrep _ (PDX_range va)) as He. cbn zeta in He. rewrite E in He. destruct He as [-> ->].
  destruct (page_bound u) as [Hu _]; [by apply (pt_table _ _ _ _ _ Hrep _ _ E)|]. unfold KERNBASE in Hu. pose proof (PTX_range va).
  cbn [res_bind]. rewrite (proj2 (Z.eqb_neq _ 0)) by lia.
  destruct (present _); cbn [negb andb]; [|done]. by destruct (_ =? 0).
Qed.

Lemma round_in base va : base mod PGSIZE = 0 -> base <= va < base + PGSIZE -> PGROUNDDOWN va = base.
Proof.
  intros Hb Hva. rewrite PGROUNDDOWN_sub. unfold PGSIZE in *. apply Z.mod_divide in Hb as [k ->]; [|lia].
  replace va with (va - k * 4096 + k * 4096) at 2 by lia. rewrite Z.mod_add, Z.mod_small by lia. lia.
Qed.

(** Bytes that fit in the page are stored there. *)
Lemma copyout_in n h m pgdir T L base t va buf : stack_page h pgdir T L base t -> buf <> [] ->
  base <= va -> va + Z.of_nat (length buf) <= base + PGSIZE ->
  copyout (S (S n)) pgdir va buf h m = Ok (0, mkPhys (store_bytes (p_mem h) (t + (va - base)) buf) (p_kmem h), m).
Proof.
  intros H Hne Hva Hlen. destruct buf as [|b0 buf0]; [done|]. set (buf := b0 :: buf0) in *.
  assert (0 < Z.of_nat (length buf)) as Hpos by (cbn; lia). cbn [copyout]. rewrite (proj2 (Z.ltb_lt _ _) Hpos).
  destruct (sk_base _ _ _ _ _ _ H) as (Hb & Hlo & Hhi). rewrite (round_in base va) by (done || lia).
  destruct (sk_top _ _ _ _ _ _ H) as [Hr Ht]. rewrite (uva2ka_ok h m pgdir T L base (sk_rep _ _ _ _ _ _ H)).
  2: { intros E. unfold pte_of in Hr. by rewrite E in Hr. }
  rewrite Hr, Ht. cbn [res_bind]. destruct (page_bound t (sk_page _ _ _ _ _ _ H)) as (Ht1 & Ht2 & _). unfold KERNBASE, PGSIZE in *.
  rewrite (proj2 (Z.eqb_neq t 0)), (u32_small (4096 - _)), (u32_small (t + _)) by lia.
  replace (if Z.of_nat (length buf) <? 4096 - (va - base) then Z.of_nat (length buf) else 4096 - (va - base))
    with (Z.of_nat (length buf)) by (destruct (Z.ltb_spec (Z.of_nat (length buf)) (4096 - (va - base))); lia).
  rewrite Nat2Z.id, take_ge, drop_ge by lia. done.
Qed.

(** Bytes that start in the guard page are refused. *)
Lemma copyout_guard n h m pgdir T L base t va buf : stack_page h pgdir T L base t -> buf <> [] ->
  base - PGSIZE <= va < base -> copyout (S n) pgdir va buf h m = Ok (-1, h, m).
Proof.
  intros H Hne Hva. destruct buf as [|b0 buf0]; [done|]. cbn [copyout]. rewrite (proj2 (Z.ltb_lt _ _)) by (cbn; lia).
  destruct (sk_base _ _ _ _ _ _ H) as (Hb & Hlo & Hhi).
  rewrite (round_in (base - PGSIZE) va).
  - destruct (sk_guard _ _ _ _ _ _ H) as [HT Hr]. rewrite (uva2ka_ok h m pgdir T L _ (sk_rep _ _ _ _ _ _ H) HT), Hr. done.
  - unfold PGSIZE in *. apply Z.mod_divide in Hb as [k ->]; [|lia]. replace (k * 4096 - 4096) with ((k - 1) * 4096) by lia. apply Z_mod_mult.
  - lia.
Qed.

(** ** Pushing the arguments *)

(** The strings are where the pointers say. *)
Definition strings_at (um : mem) : list Z -> list (list Z) -> Prop :=
  Forall2 (fun p a => bstr um p (a ++ [0])).

Lemma rounds_two n : exists k, rounds_of n = S (S k).
Proof. unfold rounds_of. exists (n / 4096 + 1)%nat. lia. Qed.

Lemma sp_below sp a : 0 <= below sp a -> sp < 2 ^ 32 ->
  Z.land (u32 (sp - (Z.of_nat (length a) + 1))) (u32 (Z.lnot 3)) = below sp a.
Proof.
  intros H1 H2. pose proof (below_room sp a) as [H _]. rewrite (u32_small (sp - _)) by lia. by rewrite land_down4 by lia.
Qed.

Lemma bstr_user h base t va l : bstr (user h base t) va l <-> bstr (p_mem h) (t + (va - base)) l.
Proof.
  revert va. induction l as [|b l IH]; intros va; cbn; [done|]. rewrite IH. unfold user.
  replace (t + (va + 1 - base)) with (t + (va - base) + 1) by lia. done.
Qed.

(** What a copy into the page leaves. *)
Lemma copied h pgdir T L base t va l : stack_page h pgdir T L base t -> Forall is_byte l ->
  base <= va -> va + Z.of_nat (length l) <= base + PGSIZE ->
  let h' := mkPhys (store_bytes (p_mem h) (t + (va - base)) l) (p_kmem h) in
  stack_page h' pgdir T L base t /\ bstr (user h' base t) va l /\
  forall v, v < va \/ va + Z.of_nat (length l) <= v -> user h' base t v = user h base t v.
Proof.
  intros H Hl H1 H2 h'. split; [|split].
  - apply stack_page_agree; [done| |].
    + apply store_bytes_bytes, (ki_bytes _ _ _ (pt_kmem _ _ _ _ _ (sk_rep _ _ _ _ _ _ H))).
    + intros y Hy. apply store_bytes_out. lia.
  - rewrite bstr_user. by apply store_bytes_bstr.
  - intros v Hv. unfold user. cbn. apply store_bytes_out. lia.
Qed.

Lemma push_args_ok pgdir T L base t argv : forall argc sp us h m, stack_page h pgdir T L base t ->
  Forall (Forall is_byte) argv -> base <= bottom sp argv -> sp <= base + PGSIZE -> 0 <= argc ->
  argc + Z.of_nat (length argv) <= MAXARG ->
  exists h', push_args pgdir argv argc sp us h m =
      Ok (Some (argc + Z.of_nat (length argv), bottom sp argv, us ++ place sp argv), h', m) /\
    stack_page h' pgdir T L base t /\ strings_at (user h' base t) (place sp argv) argv /\
    (forall v, v < bottom sp argv \/ sp <= v -> user h' base t v = user h base t v).
Proof.
  induction argv as [|a r IH]; intros argc sp us h m H Hb Hbot Hsp Hc Hn.
  { exists h. rewrite app_nil_r, Z.add_0_r. split_and!; try done. constructor. }
  cbn [push_args bottom place length] in *. apply Forall_cons in Hb as [Ha Hb]. rewrite (proj2 (Z.leb_gt _ _)) by lia.
  pose proof (bottom_le (below sp a) r) as Hle. pose proof (below_room sp a) as [Hroom _].
  destruct (sk_base _ _ _ _ _ _ H) as (_ & Hlo & Hhi). unfold KERNBASE, PGSIZE in Hlo, Hhi, Hsp.
  rewrite sp_below by lia. destruct (rounds_two (length a + 1)) as [k ->].
  assert (Z.of_nat (length (a ++ [0])) = Z.of_nat (length a) + 1) as Hlen by (rewrite length_app; cbn; lia).
  rewrite (copyout_in k h m pgdir T L base t) by (done || (unfold PGSIZE; lia) || by destruct a). cbn [res_bind Z.ltb Z.compare].
  assert (Forall is_byte (a ++ [0])) as Ha0 by (apply Forall_app; split; [done|]; rewrite Forall_singleton; unfold is_byte; lia).
  destruct (copied h pgdir T L base t (below sp a) (a ++ [0]) H Ha0) as (H1 & S1 & F1); [lia|unfold PGSIZE; lia|].
  set (h1 := mkPhys _ _) in *.
  destruct (IH (argc + 1) (below sp a) (us ++ [below sp a]) h1 m H1 Hb) as (h' & -> & H' & S' & F'); [lia|unfold PGSIZE; lia|lia|lia|].
  exists h'. split.
  { rewrite <- app_assoc. replace (argc + 1 + Z.of_nat (length r)) with (argc + Z.of_nat (S (length r))) by lia. done. }
  split; [done|]. split.
  - constructor; [|done]. apply (bstr_agree (user h1 base t)); [|done]. intros v Hv. apply F'. lia.
  - intros v Hv. rewrite F', F1 by lia. done.
Qed.

(** With not enough room in the page the push stops at the guard page. *)
Lemma push_args_guard pgdir T L base t argv : forall argc sp us h m, stack_page h pgdir T L base t ->
  Forall (Forall is_byte) argv -> base - PGSIZE <= bottom sp argv < base -> base <= sp <= base + PGSIZE -> 0 <= argc ->
  argc + Z.of_nat (length argv) <= MAXARG ->
  exists h', push_args pgdir argv argc sp us h m = Ok (None, h', m) /\ stack_page h' pgdir T L base t /\
    (forall y, y < t \/ t + PGSIZE <= y -> p_mem h' y = p_mem h y).
Proof.
  induction argv as [|a r IH]; intros argc sp us h m H Hb Hbot Hsp Hc Hn; [cbn in Hbot; lia|].
  cbn [push_args bottom length] in *. apply Forall_cons in Hb as [Ha Hb]. rewrite (proj2 (Z.leb_gt _ _)) by lia.
  pose proof (bottom_le (below sp a) r) as Hle. pose proof (below_room sp a) as [Hroom _].
  destruct (sk_base _ _ _ _ _ _ H) as (_ & Hlo & Hhi). unfold KERNBASE, PGSIZE in Hlo, Hhi, Hsp, Hbot.
  rewrite sp_below by lia. destruct (rounds_two (length a + 1)) as [k ->].
  assert (Z.of_nat (length (a ++ [0])) = Z.of_nat (length a) + 1) as Hlen by (rewrite length_app; cbn; lia).
  destruct (Z.ltb_spec (below sp a) base) as [Hg|Hg].
  { rewrite (copyout_guard _ h m pgdir T L base t) by (done || (unfold PGSIZE; lia) || by destruct a). by exists h. }
  rewrite (copyout_in k h m pgdir T L base t) by (done || (unfold PGSIZE; lia) || by destruct a). cbn [res_bind Z.ltb Z.compare].
  assert (Forall is_byte (a ++ [0])) as Ha0 by (apply Forall_app; split; [done|]; rewrite Forall_singleton; unfold is_byte; lia).
  destruct (copied h pgdir T L base t (below sp a) (a ++ [0]) H Ha0) as (H1 & _); [lia|unfold PGSIZE; lia|].
  set (h1 := mkPhys _ _) in *.
  destruct (IH (argc + 1) (below sp a) (us ++ [below sp a]) h1 m H1 Hb) as (h' & -> & H' & F');
    [unfold PGSIZE; lia|unfold PGSIZE; lia|lia|lia|].
  exists h'. split; [done|]. split; [done|]. intros y Hy. rewrite F' by done. cbn. apply store_bytes_out. unfold PGSIZE in Hy. lia.
Qed.

(** The words below the strings. *)
Definition frame_of (sp : Z) argv (ptrs : list Z) : list Z :=
  [0xffffffff; Z.of_nat (length argv); sp + 12] ++ ptrs ++ [0].

Lemma frame_words base argv sp : PGSIZE <= base -> base + PGSIZE <= KERNBASE -> base <= bottom (base + PGSIZE) argv ->
  Z.of_nat (length argv) <= MAXARG -> 0 <= sp <= base + PGSIZE ->
  Forall (fun w => 0 <= w < 2 ^ 32) (frame_of sp argv (place (base + PGSIZE) argv)).
Proof.
  unfold PGSIZE, KERNBASE, MAXARG. intros H1 H2 H3 H4 H5. unfold frame_of. cbn [app].
  rewrite !Forall_cons, Forall_app, Forall_singleton. split_and!; try lia.
  refine (Forall_impl _ _ _ (place_range _ argv) _). intros p Hp. lia.
Qed.

Lemma strings_agree um um' lo ps argv : strings_at um ps argv -> Forall (fun p => lo <= p) ps ->
  (forall v, lo <= v -> um' v = um v) -> strings_at um' ps argv.
Proof.
  intros H Hp Hv. induction H as [|p a ps argv Hpa _ IH]; [constructor|]. apply Forall_cons in Hp as [Hp Hps].
  constructor; [|by apply IH]. apply (bstr_agree um); [|done]. intros v Hin. apply Hv. lia.
Qed.

(** The words [fr] pushed below [bot], in the page or in the guard page. *)
Lemma push_words h m pgdir T L base t bot fr : stack_page h pgdir T L base t -> fr <> [] ->
  let sp := bot - 4 * Z.of_nat (length fr) in
  bot <= base + PGSIZE -> base - PGSIZE <= sp -> Forall (fun w => 0 <= w < 2 ^ 32) fr ->
  exists h', copyout (rounds_of (4 * length fr)) pgdir sp (flat_map (enc 4) fr) h m = Ok (if base <=? sp then 0 else -1, h', m) /\
    (forall v, v < base \/ bot <= v -> user h' base t v = user h base t v) /\
    (base <= sp -> wstr (user h' base t) sp fr).
Proof.
  intros H Hne sp Hbot Hsp Hw. destruct (rounds_two (4 * length fr)) as [k ->]. pose proof (words_length fr) as Hwl.
  assert (flat_map (enc 4) fr <> []) as Hne' by (by destruct fr). destruct (Z.leb_spec base sp) as [Hf|Hf].
  - rewrite (copyout_in k h m pgdir T L base t) by (done || lia).
    destruct (copied h pgdir T L base t sp _ H (words_bytes fr)) as (_ & S2 & F2); [done|lia|].
    eexists. split; [done|]. split; [|intros _; by apply bstr_words]. intros v Hv. apply F2. lia.
  - rewrite (copyout_guard _ h m pgdir T L base t) by (done || lia). exists h. split; [done|]. split; [done|lia].
Qed.

(** [user] sees all of memory. *)
Lemma user_frame h h' base t lo hi : base <= lo -> hi <= base + PGSIZE ->
  (forall v, v < lo \/ hi <= v -> user h' base t v = user h base t v) ->
  forall y, y < t \/ t + PGSIZE <= y -> p_mem h' y = p_mem h y.
Proof.
  intros H1 H2 F y Hy. pose proof (F (y - t + base) ltac:(lia)) as E. unfold user in E.
  by replace (t + (y - t + base - base)) with y in E by lia.
Qed.

Lemma frame_aligned base argv : base mod PGSIZE = 0 ->
  (bottom (base + PGSIZE) argv - 4 * (Z.of_nat (length argv) + 4)) mod 4 = 0.
Proof.
  intros Hal. rewrite (Z.mul_comm 4), <- Zminus_mod_idemp_r, Z_mod_mult, Z.sub_0_r. apply bottom_aligned.
  unfold PGSIZE in *. apply Z.mod_divide in Hal as [q ->]; [|lia].
  replace (q * 4096 + 4096) with ((q * 1024 + 1024) * 4) by lia. apply Z_mod_mult.
Qed.

(** The stack of a program. *)
Lemma build_stack_ok h m pgdir T L base t argv :
  stack_page h pgdir T L base t -> Forall (Forall is_byte) argv -> Z.of_nat (length argv) <= MAXARG ->
  let sp := bottom (base + PGSIZE) argv - 4 * (Z.of_nat (length argv) + 4) in
  base - PGSIZE <= sp ->
  exists r h', build_stack pgdir (base + PGSIZE) argv h m = Ok (r, h', m) /\
    (forall y, y < t \/ t + PGSIZE <= y -> p_mem h' y = p_mem h y) /\
    if base <=? sp then
      r = Some sp /\ sp mod 4 = 0 /\ strings_at (user h' base t) (place (base + PGSIZE) argv) argv /\
      wstr (user h' base t) sp (frame_of sp argv (place (base + PGSIZE) argv))
    else r = None.
Proof.
  intros H Hb Hn sp Hsp. destruct (sk_base _ _ _ _ _ _ H) as (Hal & Hlo & Hhi). unfold build_stack.
  pose proof (bottom_le (base + PGSIZE) argv) as Hle. pose proof (frame_aligned base argv Hal) as Hmod. fold sp in Hmod.
  pose proof (place_range (base + PGSIZE) argv) as Hpl. set (bot := bottom _ argv) in *. unfold MAXARG in Hn.
  destruct (Z.ltb_spec bot base) as [Hg|Hg].
  { destruct (push_args_guard pgdir T L base t argv 0 (base + PGSIZE) [] h m H Hb) as (h' & -> & _ & F);
      [fold bot; lia|unfold PGSIZE; lia|lia|unfold MAXARG; lia|]. exists None, h'. rewrite (proj2 (Z.leb_gt _ _)) by lia. done. }
  destruct (push_args_ok pgdir T L base t argv 0 (base + PGSIZE) [] h m H Hb) as (h1 & -> & H1 & S1 & F1);
    [done|lia|lia|unfold MAXARG; lia|]. fold bot in F1 |- *. cbn [res_bind app]. rewrite Z.add_0_l.
  pose proof (frame_words base argv sp Hlo Hhi Hg ltac:(unfold MAXARG; lia)) as Hfw.
  unfold PGSIZE, KERNBASE in Hlo, Hhi, Hle, Hsp. rewrite (u32_small (bot - (_ + 1) * 4)), (u32_small (bot - (3 + _ + 1) * 4)) by lia.
  replace (bot - (3 + Z.of_nat (length argv) + 1) * 4) with sp by lia.
  replace (bot - (Z.of_nat (length argv) + 1) * 4) with (sp + 12) by lia.
  change (0xffffffff :: _) with (frame_of sp argv (place (base + PGSIZE) argv)). set (fr := frame_of _ _ _) in *.
  assert (length fr = length argv + 4)%nat as Hfr by (unfold fr, frame_of; rewrite !length_app, place_length; cbn; lia).
  assert (fr <> []) as Hne by done. clearbody fr. assert (sp = bot - 4 * Z.of_nat (length fr)) as Esp by lia.
  destruct (push_words h1 m pgdir T L base t bot fr H1 Hne) as (h2 & E & F2 & W);
    [unfold PGSIZE; lia|unfold PGSIZE; lia|apply Hfw; unfold PGSIZE; lia|].
  rewrite <- Esp in E, W. rewrite E. cbn [res_bind]. exists (if base <=? sp then Some sp else None), h2.
  split; [by destruct (base <=? sp)|]. split.
  - apply (user_frame h h2 base t base (base + PGSIZE)); [lia|lia|]. intros v Hv.
    rewrite F2, F1 by (unfold PGSIZE in *; lia). done.
  - destruct (Z.leb_spec base sp) as [Hf|Hf]; [|done]. split; [done|]. split; [done|]. split; [|by apply W].
    apply (strings_agree (user h1 base t) _ bot); [done|refine (Forall_impl _ _ _ Hpl _); lia|]. intros v Hv. apply F2. lia.
Qed.

(** The stack [exec] builds.  When the argument strings and the words fit in
    the stack page, the program starts with a stack pointer, a multiple of 4, at
    which user memory has the false return address, [argc], the address of the
    next word, which is [argv[0]], the pointers and a null; each pointer leads to
    its NUL-terminated string.  When they do not fit, the copy stops at the guard
    page and [exec] gives up.  Memory outside the page does not change. *)
Theorem build_stack_spec h m pgdir T L base t argv :
  stack_page h pgdir T L base t -> Forall (Forall is_byte) argv -> Z.of_nat (length argv) <= MAXARG ->
  let sp := bottom (base + PGSIZE) argv - 4 * (Z.of_nat (length argv) + 4) in
  base - PGSIZE <= sp ->
  exists r h', build_stack pgdir (base + PGSIZE) argv h m = Ok (r, h', m) /\
    (forall y, y < t \/ t + PGSIZE <= y -> p_mem h' y = p_mem h y) /\
    if base <=? sp then
      r = Some sp /\ sp mod 4 = 0 /\ strings_at (user h' base t) (place (base + PGSIZE) argv) argv /\
      wstr (user h' base t) sp (frame_of sp argv (place (base + PGSIZE) argv))
    else r = None.
Proof. apply build_stack_ok. Qed.
End Stack.

(** * The example machine *)

(** A page table with the guard page at 0x1000 and the stack page at 0x2000. *)
Definition demo_table : Z := 0x80203000.
Definition demo_stack : Z := 0x80204000.
Definition demo_T : Z -> option Z := fun i => if i =? 0 then Some demo_table else None.
Definition demo_exec1 : phys := mkPhys (store32 (p_mem demo_phys) (demo_pgdir + 4 * 0) 0x203007) (p_kmem demo_phys).
Definition demo_exec2 : phys := mkPhys (store32 (p_mem demo_exec1) (demo_table + 4 * PTX 0x1000) 0x205003) (p_kmem demo_exec1).
Definition demo_exec : phys := mkPhys (store32 (p_mem demo_exec2) (demo_table + 4 * PTX 0x2000) 0x204007) (p_kmem demo_exec2).

Lemma demo_exec_rep : pt_rep kernel_end demo_exec demo_pgdir demo_T [demo_page1; demo_page2].
Proof.
  pose proof demo_pt_rep as [R1 R2 R3 R4 R5 R6].
  assert (pt_rep kernel_end demo_exec1 demo_pgdir demo_T [demo_page1; demo_page2]) as H1.
  { split; try done.
    - by apply kmem_inv_store.
    - intros i Hi. unfold demo_T. destruct (Z.eqb_spec i 0) as [->|Hne]; cbn zeta; cbn [p_mem demo_exec1].
      + rewrite load32_store32 by lia. done.
      + rewrite load_same_page by done. apply R4, Hi.
    - intros i t. unfold demo_T. destruct (i =? 0); [|done]. intros [= <-]. split; [|split; [|done]].
      + by apply (bool_decide_unpack _), I.
      + rewrite !not_elem_of_cons. split_and!; try done. by apply not_elem_of_nil.
    - intros i j t. unfold demo_T. destruct (Z.eqb_spec i 0), (Z.eqb_spec j 0); try done. congruence. }
  destruct (set_pte kernel_end demo_exec1 demo_pgdir demo_T _ demo_table 0x1000 0x205003 H1) as (H2 & _); [done|lia|].
  destruct (set_pte kernel_end demo_exec2 demo_pgdir demo_T _ demo_table 0x2000 0x204007 H2) as (H3 & _); done.
Qed.

Lemma demo_stack_page : stack_page kernel_end demo_exec demo_pgdir demo_T [demo_page1; demo_page2] 0x2000 demo_stack.
Proof.
  pose proof demo_exec_rep as H. split; try done.
  - by apply (bool_decide_unpack _), I.
  - intros i. unfold demo_T. by destruct (i =? 0).
Qed.

(** The arguments [echo] and [hi]. *)
Lemma build_stack_spec_witness :
  exists r h', Exec.build_stack demo_pgdir 0x3000 [[101; 99; 104; 111]; [104; 105]] demo_exec (demo_machine 0 None) =
      Ok (r, h', demo_machine 0 None) /\
    (forall y, y < demo_stack \/ demo_stack + PGSIZE <= y -> p_mem h' y = p_mem demo_exec y) /\
    (r = Some 0x2FDC /\ 0x2FDC mod 4 = 0 /\
     strings_at (user h' 0x2000 demo_stack) [0x2FF8; 0x2FF4] [[101; 99; 104; 111]; [104; 105]] /\
     wstr (user h' 0x2000 demo_stack) 0x2FDC [0xffffffff; 2; 0x2FE8; 0x2FF8; 0x2FF4; 0]).
Proof.
  apply (build_stack_spec kernel_end demo_kend demo_exec (demo_machine 0 None) demo_pgdir demo_T [demo_page1; demo_page2]
    0x2000 demo_stack [[101; 99; 104; 111]; [104; 105]] demo_stack_page).
  - rewrite !Forall_cons, !Forall_nil. unfold is_byte. lia.
  - done.
  - done.
Defined.
