(* ===== verification/ExecSpec.v ===== *)
(** [exec] of [exec.c] on address spaces: the image of a program file that the
    headers describe, and that [exec] loads exactly this image, builds its stack
    and exchanges it for the old address space, or leaves everything as it was. *)

From stdpp Require Import gmap.
From S2P Require Import Prelude CString Spinlock Kalloc Proc Demo MlfqFacts ProcFacts Sleep Pipe Block Log LogFacts Vm Steady VmFacts AddrSpace SpaceOps SpaceSpec Syscall Fork Wait Quiet UserMem Fs FsFacts InodeFacts DirFacts Path Transact File Sysfile Elf Exec ExecFacts.

(** * The image of a program *)

(** The size and the bytes of a process's memory; [None] where no page is. *)
Record image := mkImage { im_sz : Z; im_byte : Z -> option Z }.

Definition no_image : image := mkImage 0 (fun _ => None).

Section Image.
Import Vm Kalloc.
Context (data : list Z).
Implicit Types (p : proghdr) (im : image) (off va : Z).

(** A segment, laid over what is there: the pages up to its end that are new are
    zero, and its bytes come from the file.  [None] for a segment that [exec]
    refuses. *)
Definition load_seg p im : option image :=
  let stop := ph_vaddr p + ph_memsz p in
  let sz := Z.max (im_sz im) stop in
  if (ph_memsz p <? ph_filesz p) || (KERNBASE <=? stop) || (sz =? 0) || negb (ph_vaddr p mod PGSIZE =? 0)
     || negb (there data (ph_off p) (ph_filesz p)) then None
  else Some (mkImage sz (fun va =>
    if (ph_vaddr p <=? va) && (va <? ph_vaddr p + ph_filesz p) then data !! Z.to_nat (ph_off p + (va - ph_vaddr p))
    else if va <? PGSIZE * npages (im_sz im) then im_byte im va
    else if va <? PGSIZE * npages sz then Some 0 else None)).

(** The headers one after the other from [off] on, [n] of them. *)
Fixpoint segments (n : nat) off im : option image :=
  match n with
  | O => Some im
  | S n =>
      let '(r, bs) := file_read data (u32 off) sizeof_ph in
      if negb (r =? sizeof_ph) then None
      else
        match get_proghdr bs with
        | Ok p => if negb (ph_type p =? ELF_PROG_LOAD) then segments n (s32 (off + sizeof_ph)) im
                  else match load_seg p im with Some im => segments n (s32 (off + sizeof_ph)) im | None => None end
        | _ => None
        end
  end.

Lemma load_seg_grows p im im' : load_seg p im = Some im' -> im_sz im <= im_sz im'.
Proof. unfold load_seg. destruct (_ || _); [done|]. intros [= <-]. cbn. lia. Qed.

Lemma segments_grow n : forall off im im', segments n off im = Some im' -> im_sz im <= im_sz im'.
Proof.
  induction n as [|n IH]; intros off im im' H; cbn [segments] in H; [by injection H as <-|]. destruct (file_read _ _ _) as [r bs]. destruct (negb _); [done|].
  destruct (get_proghdr bs) as [p| | | |]; try done. destruct (negb _); [by eapply IH|]. destruct (load_seg p im) as [im1|] eqn:E; [|done].
  apply load_seg_grows in E. apply IH in H. lia.
Qed.

(** What the file asks for: its header, and the image of its segments. *)
Definition program : option (elfhdr * image) :=
  let '(r, bs) := file_read data 0 sizeof_elf in
  if negb (r =? sizeof_elf) then None
  else
    match get_elf bs with
    | Ok e =>
        if negb (e_magic e =? ELF_MAGIC) then None
        else match segments (Z.to_nat (e_phnum e)) (s32 (e_phoff e)) no_image with Some im => Some (e, im) | None => None end
    | _ => None
    end.

(** The end of the process: the image, the guard page and the stack. *)
Definition top im : Z := PGSIZE * (npages (im_sz im) + 2).
End Image.

(** * Headers *)

Definition is_u32 (z : Z) : Prop := 0 <= z < 2 ^ 32.

Lemma dec_range l : Forall (fun b => 0 <= b < 256) l -> 0 <= dec l < 256 ^ Z.of_nat (length l).
Proof.
  induction l as [|b l IH]; intros H; cbn [dec length]; [done|]. apply Forall_cons in H as [Hb H]. specialize (IH H). rewrite Nat2Z.inj_succ, Z.pow_succ_r by lia. nia.
Qed.

Lemma get32_ok w bs off : Forall (fun b => 0 <= b < 256) bs -> 0 <= off -> off + 4 <= Z.of_nat (length bs) -> exists v, get32 w bs off = Ok v /\ is_u32 v.
Proof.
  intros Hb H0 H. unfold get32. rewrite get_bytes_in by lia. eexists. split; [done|]. pose proof (dec_range (take 4 (drop (Z.to_nat off) bs))) as Hd.
  rewrite length_take, length_drop, Nat.min_l in Hd by lia. apply Hd. by apply Forall_take, Forall_drop.
Qed.

Lemma get16_ok w bs off : 0 <= off -> off + 2 <= Z.of_nat (length bs) -> exists v, get16 w bs off = Ok v.
Proof. intros H0 H. unfold get16. rewrite get_bytes_in by lia. by eexists. Qed.

Lemma get_proghdr_ok bs : Forall (fun b => 0 <= b < 256) bs -> Z.of_nat (length bs) = sizeof_ph ->
  exists p, get_proghdr bs = Ok p /\ is_u32 (ph_off p) /\ is_u32 (ph_vaddr p) /\ is_u32 (ph_filesz p) /\ is_u32 (ph_memsz p).
Proof.
  unfold sizeof_ph. intros Hb Hl. unfold get_proghdr.
  destruct (get32_ok "ph" bs 0 Hb) as (v0 & -> & H0); [lia..|]. destruct (get32_ok "ph" bs 4 Hb) as (v1 & -> & H1); [lia..|].
  destruct (get32_ok "ph" bs 8 Hb) as (v2 & -> & H2); [lia..|]. destruct (get32_ok "ph" bs 12 Hb) as (v3 & -> & H3); [lia..|].
  destruct (get32_ok "ph" bs 16 Hb) as (v4 & -> & H4); [lia..|]. destruct (get32_ok "ph" bs 20 Hb) as (v5 & -> & H5); [lia..|].
  destruct (get32_ok "ph" bs 24 Hb) as (v6 & -> & H6); [lia..|]. destruct (get32_ok "ph" bs 28 Hb) as (v7 & -> & H7); [lia..|].
  cbn [res_bind]. eexists. split; [done|]. done.
Qed.

Lemma get_elf_ok bs : Forall (fun b => 0 <= b < 256) bs -> Z.of_nat (length bs) = sizeof_elf -> exists e, get_elf bs = Ok e.
Proof.
  unfold sizeof_elf. intros Hb Hl. unfold get_elf.
  destruct (get32_ok "elf" bs 0 Hb) as (v0 & -> & _); [lia..|]. rewrite get_bytes_in by lia.
  destruct (get16_ok "elf" bs 16) as (v1 & ->); [lia..|]. destruct (get16_ok "elf" bs 18) as (v2 & ->); [lia..|].
  destruct (get32_ok "elf" bs 20 Hb) as (v3 & -> & _); [lia..|]. destruct (get32_ok "elf" bs 24 Hb) as (v4 & -> & _); [lia..|].
  destruct (get32_ok "elf" bs 28 Hb) as (v5 & -> & _); [lia..|]. destruct (get32_ok "elf" bs 32 Hb) as (v6 & -> & _); [lia..|].
  destruct (get32_ok "elf" bs 36 Hb) as (v7 & -> & _); [lia..|].
  destruct (get16_ok "elf" bs 40) as (w1 & ->); [lia..|]. destruct (get16_ok "elf" bs 42) as (w2 & ->); [lia..|]. destruct (get16_ok "elf" bs 44) as (w3 & ->); [lia..|].
  destruct (get16_ok "elf" bs 46) as (w4 & ->); [lia..|]. destruct (get16_ok "elf" bs 48) as (w5 & ->); [lia..|]. destruct (get16_ok "elf" bs 50) as (w6 & ->); [lia..|].
  cbn [res_bind]. by eexists.
Qed.

(** * Loading the segments *)

Section Segments.
Import Kalloc Vm Exec Ptable.
Context `{SV : Services} {kend : Z} {Hkend : kend_above kend}.
Context (dev_read : Z -> option (Z -> Z -> kst -> fsx -> res (Z * list Z * kst * fsx))).
Context (ip : Z) (data : list Z) (J : ftx -> Prop).
Implicit Types (s : kst) (x : ftx) (L F : list Z) (A : aspace) (im : image).

(** The file [ip] has the contents [data]; [J] is what reading needs of the file
    system, and keeps. *)
Record contains : Prop := {
  ct_bytes : Forall (fun b => 0 <= b < 256) data;
  ct_len : Z.of_nat (length data) < 2 ^ 31;
  ct_read s x off n : J x -> 0 <= off < 2 ^ 32 -> 0 <= n < 2 ^ 31 ->
    exists x', Exec.readi dev_read ip off n s x = Ok ((file_read data off n).1, (file_read data off n).2, s, x') /\ J x'
}.
Hypothesis Hfile : contains.

(** Only the memory and the locks of [s] have changed. *)
Definition but_memory s s' : Prop := s' = set_mach (mach s') (set_ph (ph s') s) /\ steady (mach s) (mach s') /\ mach_ok (mach s').

Lemma but_memory_to s h m : steady (mach s) m -> mach_ok m -> but_memory s (set_mach m (set_ph h s)).
Proof. by split. Qed.

Lemma but_memory_trans s1 s2 s3 : but_memory s1 s2 -> but_memory s2 s3 -> but_memory s1 s3.
Proof. intros (E1 & S1 & M1) (E2 & S2 & M2). split; [|split; [by etrans|done]]. rewrite E2, E1. done. Qed.

(** The address space holds the image, every page present and for the user to
    read and write. *)
Record carries (mm : mem) A im : Prop := {
  ca_sz : 0 <= im_sz im < KERNBASE;
  ca_pages n : is_Some (a_ups A !! n) <-> 0 <= n < npages (im_sz im);
  ca_bytes va : 0 <= va -> user_byte mm A va = im_byte im va;
  ca_flags n : 0 <= n < npages (im_sz im) -> PTE_FLAGS (pte mm A n) = 7
}.

Lemma carries_top mm A im va : carries mm A im -> PGSIZE * npages (im_sz im) <= va -> user_byte mm A va = None.
Proof.
  intros H Hva. pose proof (ca_sz _ _ _ H) as Hsz. assert (0 <= npages (im_sz im)) as H0 by (apply Z.div_pos; unfold PGSIZE; lia).
  assert (0 <= va) by (unfold PGSIZE in *; lia). apply user_byte_None; [done|]. rewrite (ca_pages _ _ _ H), npages_index by done. lia.
Qed.

(** Which pages there are, by what can be read. *)
Lemma pages_by_bytes mm A z : as_rep mm A -> (forall va, 0 <= va -> is_Some (user_byte mm A va) <-> va < PGSIZE * npages z) ->
  forall n, is_Some (a_ups A !! n) <-> 0 <= n < npages z.
Proof.
  intros Hr Hb n. assert (forall n, 0 <= n -> is_Some (a_ups A !! n) <-> n < npages z) as H.
  { clear n. intros n Hn. specialize (Hb (PGSIZE * n) ltac:(unfold PGSIZE; lia)). unfold user_byte in Hb.
    replace (PGSIZE * n / PGSIZE) with n in Hb by (rewrite Z.mul_comm, Z.div_mul by (unfold PGSIZE; lia); done).
    rewrite (Z.mul_lt_mono_pos_l PGSIZE) by (unfold PGSIZE; lia). rewrite <- Hb. destruct (a_ups A !! n); cbn; split; intros [v Hv]; try done; by eexists. }
  split.
  - intros [p Hp]. pose proof (ar_ups _ _ Hr n p Hp). split; [lia|]. apply H; [lia|]. by eexists.
  - intros [H0 Hn]. by apply H.
Qed.

(** [loaduvm] as [exec] calls it. *)
Lemma exec_loaduvm a off sz s x L A F : owns kend (ph s) L A F -> mach_ok (mach s) -> J x -> 0 <= a -> 0 <= sz -> PGSIZE * a + sz < KERNBASE -> 0 <= off < 2 ^ 32 ->
  (forall k, 0 <= k < npages sz -> is_Some (a_ups A !! (a + k))) ->
  exists h' x', loaduvm dev_read (a_dir A) (PGSIZE * a) ip off sz s x = Ok (if there data off sz then 0 else -1, set_ph h' s, x') /\ J x' /\
    loaded_part (kend:=kend) (PGSIZE * a) (PGSIZE * a + sz) (ph s) L A F h' /\
    (there data off sz = true -> forall va, PGSIZE * a <= va < PGSIZE * a + sz -> user_byte (p_mem h') A va = data !! Z.to_nat (off + (va - PGSIZE * a))).
Proof.
  intros O Hm Hx Ha Hsz Hend Hoff Hup. unfold loaduvm.
  set (rd := fun ip off n h m (y : kst * ftx) => _).
  set (I := fun y : kst * ftx => J y.2 /\ y.1 = set_mach (mach y.1) (set_ph (ph y.1) s)).
  assert (reads rd ip data I) as Hrd.
  { split; [apply Hfile|apply Hfile|]. intros off' n' h m [s1 x1] [Hx1 Hs1] Ho Hn. cbn [fst snd] in Hs1, Hx1.
    destruct (ct_read Hfile (set_mach m (set_ph h s1)) x1 off' n' Hx1 Ho Hn) as (x2 & E & Hx2). exists (set_mach m (set_ph h s1), x2).
    unfold rd. cbn [fst snd]. rewrite E. cbn [res_bind]. split; [done|]. split; [done|]. cbn [fst]. rewrite Hs1. done. }
  destruct (loaduvm_ok rd ip data I Hrd (mach s) A L F a off sz Ha Hsz Hend Hoff Hup (ph s) (s, x) O) as (h' & [s1 x1] & -> & [Hx1 Hs1] & Hp & Hb).
  { split; [done|]. cbn. by destruct s. }
  cbn [res_bind fst snd] in *. exists h', x1. rewrite Hs1. split; [|by split_and!]. do 3 f_equal.
Qed.

(** The image with zeroes up to [stop]. *)
Definition grow im (stop : Z) : image := mkImage stop (fun va =>
  if va <? PGSIZE * npages (im_sz im) then im_byte im va else if va <? PGSIZE * npages stop then Some 0 else None).

(** What a step of [exec] leaves of the memory. *)
Record moved s L A F s' L' A' : Prop := {
  mv_s : but_memory s s';
  mv_owns : owns kend (ph s') L' A' F;
  mv_dir : a_dir A' = a_dir A;
  mv_perm : L' ++ pages A' ≡ₚ L ++ pages A;
  mv_same : same_on F (p_mem (ph s)) (p_mem (ph s'))
}.

Lemma moved_then s1 L1 A1 F s2 L2 A2 s3 L3 A3 : moved s1 L1 A1 F s2 L2 A2 -> moved s2 L2 A2 F s3 L3 A3 -> moved s1 L1 A1 F s3 L3 A3.
Proof.
  intros [B1 O1 D1 P1 S1] [B2 O2 D2 P2 S2]. split; [by eapply but_memory_trans|done|congruence|by rewrite P2|by etrans].
Qed.

Lemma moved_refl s L A F : owns kend (ph s) L A F -> mach_ok (mach s) -> moved s L A F s L A.
Proof. intros O Hm. split; try done. split; [by destruct s|]. split; [reflexivity|done]. Qed.

(** The pages of a space that carries an image. *)
Lemma carried_pages s L A F im : owns kend (ph s) L A F -> carries (p_mem (ph s)) A im -> Z.of_nat (length (pages A)) <= 1025 + npages (im_sz im).
Proof.
  intros O H. rewrite pages_length. pose proof (tabs_size _ _ (ow_rep _ _ _ _ O)) as Ht.
  assert (0 <= npages (im_sz im)) as H0 by (apply Z.div_pos; pose proof (ca_sz _ _ _ H); unfold PGSIZE; lia).
  pose proof (range_size (a_ups A) 0 (npages (im_sz im)) H0) as Hs. rewrite Z.sub_0_r in Hs. specialize (Hs (fun n p Hp => proj1 (ca_pages _ _ _ H n) (ex_intro _ p Hp))). lia.
Qed.

Lemma exec_alloc s L A F im stop : owns kend (ph s) L A F -> mach_ok (mach s) -> carries (p_mem (ph s)) A im -> im_sz im <= stop < KERNBASE ->
  exists r s' L' A', on_vm (Vm.allocuvm kend (a_dir A) (im_sz im) stop) s = Ok (r, s') /\ moved s L A F s' L' A' /\
    (r = stop /\ carries (p_mem (ph s')) A' (grow im stop) \/
     r = 0 /\ stop <> 0 /\ Z.of_nat (length (L ++ pages A)) <= 2050 + npages stop).
Proof.
  intros O Hm Hc Hst. pose proof (ca_sz _ _ _ Hc) as Hsz. unfold on_vm.
  assert (0 <= npages (im_sz im)) as H0 by (apply Z.div_pos; unfold PGSIZE; lia).
  destruct (allocuvm_holds kend Hkend F (ph s) (mach s) L A (im_sz im) stop O Hm) as (r & h' & m' & L' & A' & E & Hm' & O' & D' & P' & S' & Hr & Hb & Hold); [lia|lia|..].
  { intros n Hn. apply eq_None_not_Some. rewrite (ca_pages _ _ _ Hc). lia. }
  rewrite E. cbn [res_bind]. exists r, (set_mach m' (set_ph h' s)), L', A'. split; [done|]. split.
  { split; try done. apply but_memory_to; [|done]. by eapply allocuvm_steady. }
  destruct (Z.eq_dec r stop) as [->|Hne].
  - left. split; [done|]. cbn [ph set_mach set_ph]. assert (forall va, 0 <= va -> user_byte (p_mem h') A' va = im_byte (grow im stop) va) as Hby.
    { intros va Hva. rewrite (grow_up_bytes (p_mem (ph s)) (p_mem h') A A' (im_sz im) stop va); [|lia|intros va'; by apply carries_top|by apply Hb].
      cbn [grow im_byte]. rewrite (ca_bytes _ _ _ Hc) by done. pose proof (npages_mono _ _ (proj1 Hst)).
      destruct (Z.ltb_spec va (PGSIZE * npages stop)), (Z.ltb_spec va (PGSIZE * npages (im_sz im))); try done. unfold PGSIZE in *. lia. }
    split; [cbn; lia| |done|].
    + apply (pages_by_bytes (p_mem h')); [apply (ow_rep _ _ _ _ O')|]. intros va Hva. rewrite Hby by done. cbn [grow im_byte im_sz].
      destruct (Z.ltb_spec va (PGSIZE * npages (im_sz im))) as [Hlt|Hge].
      * rewrite <- (ca_bytes _ _ _ Hc) by done. pose proof (npages_mono _ _ (proj1 Hst)). split; [intros _; unfold PGSIZE in *; lia|]. intros _.
        destruct (user_byte (p_mem (ph s)) A va) eqn:Eu; [by eexists|]. apply user_byte_None in Eu; [|done]. rewrite (ca_pages _ _ _ Hc), npages_index in Eu by done.
        exfalso. apply Eu. split; [apply Z.div_pos; unfold PGSIZE; lia|done].
      * destruct (Z.ltb_spec va (PGSIZE * npages stop)); [split; [done|intros _; by eexists]|split; [by intros [? ?]|lia]].
    + cbn [grow im_sz]. intros n Hn. destruct (Z.lt_ge_cases n (npages (im_sz im))) as [Hlt|Hge].
      * rewrite Hold; [apply (ca_flags _ _ _ Hc); lia|done|]. by rewrite (proj2 (Z.leb_gt _ _)) by lia.
      * specialize (Hb (PGSIZE * n) ltac:(unfold PGSIZE; lia)). rewrite Z.eqb_refl, (proj2 (Z.leb_le _ _)), (proj2 (Z.ltb_lt _ _)) in Hb by (unfold PGSIZE; lia).
        destruct Hb as [_ Hb]. unfold user_flags in Hb. rewrite Z.mul_comm, Z.div_mul in Hb by (unfold PGSIZE; lia). exact Hb.
  - right. destruct Hr as [?|[-> Hl]]; [done|]. split; [done|]. split; [congruence|]. rewrite length_app. pose proof (carried_pages s L A F im O Hc). lia.
Qed.

(** The part of the loop for one segment: the new size, or [None]. *)
Definition seg_step (p : proghdr) (sz d : Z) s x : res (option Z * kst * ftx) :=
  if ph_memsz p <? ph_filesz p then Ok (None, s, x)
  else if u32 (ph_vaddr p + ph_memsz p) <? ph_vaddr p then Ok (None, s, x)
  else
    let? (sz, s) := on_vm (Vm.allocuvm kend d sz (u32 (ph_vaddr p + ph_memsz p))) s in
    if sz =? 0 then Ok (None, s, x)
    else if negb (ph_vaddr p mod PGSIZE =? 0) then Ok (None, s, x)
    else
      let? (r, s, x) := loaduvm dev_read d (ph_vaddr p) ip (ph_off p) (ph_filesz p) s x in
      if r <? 0 then Ok (None, s, x) else Ok (Some sz, s, x).

Lemma load_segments_S n off sz d s x : load_segments kend dev_read (S n) off sz d ip s x =
  (let? (r, bs, s, x) := Exec.readi dev_read ip (u32 off) sizeof_ph s x in
   if negb (r =? sizeof_ph) then Ok (None, s, x)
   else
     let? p := get_proghdr bs in
     if negb (ph_type p =? ELF_PROG_LOAD) then load_segments kend dev_read n (s32 (off + sizeof_ph)) sz d ip s x
     else
       let? (r, s, x) := seg_step p sz d s x in
       match r with Some sz => load_segments kend dev_read n (s32 (off + sizeof_ph)) sz d ip s x | None => Ok (None, s, x) end).
Proof.
  cbn [load_segments]. destruct (Exec.readi _ _ _ _ s x) as [[[[r bs] s1] x1]| | | |]; cbn [res_bind]; try done. destruct (negb _); [done|].
  destruct (get_proghdr bs) as [p| | | |]; cbn [res_bind]; try done. destruct (negb _); [done|]. unfold seg_step.
  destruct (_ <? _); [done|]. destruct (_ <? _); [done|]. destruct (on_vm _ s1) as [[sz1 s2]| | | |]; cbn [res_bind]; try done.
  destruct (sz1 =? 0); [done|]. destruct (negb _); [done|]. destruct (loaduvm _ _ _ _ _ _ s2 x1) as [[[r2 s3] x2]| | | |]; cbn [res_bind]; try done. by destruct (r2 <? 0).
Qed.

(** What a refused or successful part leaves: on refusal, the headers ask for
    what cannot be, or memory is short. *)
Definition outcome (want : option image) N (r : option Z) (mm : mem) A : Prop :=
  match r with
  | Some sz => exists im, want = Some im /\ sz = im_sz im /\ carries mm A im
  | None => want = None \/ exists im, want = Some im /\ N <= 2050 + npages (im_sz im)
  end.

(** The bytes after a segment was read into the grown image. *)
Lemma seg_bytes p im mm A mm' : carries mm A (grow im (Z.max (im_sz im) (ph_vaddr p + ph_memsz p))) -> 0 <= ph_vaddr p -> 0 <= ph_filesz p <= ph_memsz p ->
  (forall n, pte mm' A n = pte mm A n) -> (forall va, va < ph_vaddr p \/ ph_vaddr p + ph_filesz p <= va -> user_byte mm' A va = user_byte mm A va) ->
  (forall va, ph_vaddr p <= va < ph_vaddr p + ph_filesz p -> user_byte mm' A va = data !! Z.to_nat (ph_off p + (va - ph_vaddr p))) ->
  carries mm' A (mkImage (Z.max (im_sz im) (ph_vaddr p + ph_memsz p)) (fun va =>
    if (ph_vaddr p <=? va) && (va <? ph_vaddr p + ph_filesz p) then data !! Z.to_nat (ph_off p + (va - ph_vaddr p))
    else if va <? PGSIZE * npages (im_sz im) then im_byte im va
    else if va <? PGSIZE * npages (Z.max (im_sz im) (ph_vaddr p + ph_memsz p)) then Some 0 else None)).
Proof.
  intros [C1 C2 C3 C4] Hv Hf Hpte Hout Hin. split; [exact C1|exact C2| |intros n Hn; rewrite Hpte; by apply C4]. intros va Hva. cbn [im_byte].
  destruct (Z.leb_spec (ph_vaddr p) va), (Z.ltb_spec va (ph_vaddr p + ph_filesz p)); cbn [andb]; [apply Hin; lia|rewrite Hout by lia; by apply C3..].
Qed.

Lemma carries_same mm A im : carries mm A im -> carries mm A (grow im (im_sz im)).
Proof.
  intros H. pose proof H as [C1 C2 C3 C4]. split; [done|done| |done]. intros va Hva. cbn [grow im_byte im_sz].
  destruct (Z.ltb_spec va (PGSIZE * npages (im_sz im))); [by apply C3|by eapply carries_top].
Qed.

Lemma exec_grow s L A F im stop : owns kend (ph s) L A F -> mach_ok (mach s) -> carries (p_mem (ph s)) A im -> 0 <= stop ->
  exists r s' L' A', on_vm (Vm.allocuvm kend (a_dir A) (im_sz im) stop) s = Ok (r, s') /\ moved s L A F s' L' A' /\
    (stop < KERNBASE /\ r = Z.max (im_sz im) stop /\ carries (p_mem (ph s')) A' (grow im (Z.max (im_sz im) stop)) \/
     r = 0 /\ (KERNBASE <= stop \/ Z.of_nat (length (L ++ pages A)) <= 2050 + npages (Z.max (im_sz im) stop))).
Proof.
  intros O Hm Hc Hst. assert (on_vm (fun h m => Ok (im_sz im, h, m)) s = Ok (im_sz im, s)) as Es by (unfold on_vm; cbn; by destruct s).
  destruct (Z.lt_ge_cases stop KERNBASE) as [Hk|Hk].
  2: { exists 0, s, L, A. split; [unfold on_vm, Vm.allocuvm; rewrite (proj2 (Z.leb_le _ _) Hk); cbn; by destruct s|]. split; [by apply moved_refl|]. right. split; [done|by left]. }
  destruct (Z.lt_ge_cases stop (im_sz im)) as [Hlt|Hge].
  - exists (im_sz im), s, L, A. split; [unfold on_vm, Vm.allocuvm; rewrite (proj2 (Z.leb_gt _ _) Hk), (proj2 (Z.ltb_lt _ _) Hlt); exact Es|]. split; [by apply moved_refl|].
    left. rewrite Z.max_l by lia. split_and!; try done. by apply carries_same.
  - rewrite Z.max_r by lia. destruct (exec_alloc s L A F im stop O Hm Hc ltac:(lia)) as (r & s' & L' & A' & E & Hmv & Hr). exists r, s', L', A'. split; [done|]. split; [done|].
    destruct Hr as [(-> & Hc')|(-> & _ & Hl)]; [by left|right; split; [done|by right]].
Qed.

Lemma grow_pages im z n mm A : carries mm A (grow im z) -> 0 <= n < npages z -> is_Some (a_ups A !! n).
Proof. intros H Hn. by apply (ca_pages _ _ _ H). Qed.

Lemma seg_step_ok p s x L A F im : owns kend (ph s) L A F -> mach_ok (mach s) -> J x -> carries (p_mem (ph s)) A im ->
  is_u32 (ph_off p) -> is_u32 (ph_vaddr p) -> is_u32 (ph_filesz p) -> is_u32 (ph_memsz p) ->
  exists r s' x' L' A', seg_step p (im_sz im) (a_dir A) s x = Ok (r, s', x') /\ J x' /\ moved s L A F s' L' A' /\
    outcome (load_seg data p im) (Z.of_nat (length (L ++ pages A))) r (p_mem (ph s')) A'.
Proof.
  unfold is_u32. intros O Hm Hx Hc Ho Hv Hf Hmz. pose proof (ca_sz _ _ _ Hc) as Hsz. unfold seg_step, load_seg. set (stop := ph_vaddr p + ph_memsz p).
  destruct (Z.ltb_spec (ph_memsz p) (ph_filesz p)) as [H1|H1]; [exists None, s, x, L, A; split_and!; try done; [by apply moved_refl|by left]|].
  cbn [orb]. destruct (Z.ltb_spec (u32 stop) (ph_vaddr p)) as [H2|H2].
  { exists None, s, x, L, A. split_and!; try done; [by apply moved_refl|]. left. rewrite (proj2 (Z.leb_le KERNBASE stop)); [done|].
    destruct (Z.lt_ge_cases stop (2 ^ 32)) as [Hs|Hs]; [|unfold KERNBASE; lia]. rewrite u32_small in H2 by lia. lia. }
  assert (stop < 2 ^ 32) as Hs32. { destruct (Z.lt_ge_cases stop (2 ^ 32)) as [Hs|Hs]; [done|]. unfold u32 in H2. rewrite <- (Z.mod_unique_pos stop (2 ^ 32) 1 (stop - 2 ^ 32)) in H2 by lia. lia. }
  rewrite (u32_small stop) by lia. destruct (exec_grow s L A F im stop O Hm Hc ltac:(lia)) as (r & s1 & L1 & A1 & -> & Hmv & Hr). cbn [res_bind].
  destruct Hr as [(Hk & -> & Hc1)|(-> & Hbad)].
  2: { cbn [Z.eqb]. exists None, s1, x, L1, A1. split_and!; try done. destruct Hbad as [Hk|Hl]; [left; by rewrite (proj2 (Z.leb_le _ _) Hk)|].
       destruct (_ || _); [by left|]. right. eexists. split; [done|exact Hl]. }
  rewrite (proj2 (Z.leb_gt _ _) Hk). cbn [orb]. set (sz := Z.max (im_sz im) stop) in *. destruct (Z.eqb_spec sz 0) as [E0|E0]; [exists None, s1, x, L1, A1; split_and!; try done; by left|].
  cbn [orb]. destruct (Z.eqb_spec (ph_vaddr p mod PGSIZE) 0) as [Ea|Ea]; cbn [negb orb]; [|exists None, s1, x, L1, A1; split_and!; try done; by left].
  assert (ph_vaddr p = PGSIZE * (ph_vaddr p / PGSIZE)) as Ev by (pose proof (Z.div_mod (ph_vaddr p) PGSIZE ltac:(unfold PGSIZE; lia)); lia).
  set (a := ph_vaddr p / PGSIZE) in *. assert (0 <= a) as Ha by (apply Z.div_pos; unfold PGSIZE; lia).
  destruct (exec_loaduvm a (ph_off p) (ph_filesz p) s1 x L1 A1 F (mv_owns _ _ _ _ _ _ _ Hmv)) as (h2 & x2 & E & Hx2 & Hp & Hb); try done; try lia.
  { apply (mv_s _ _ _ _ _ _ _ Hmv). }
  { intros k Hk'. apply (grow_pages im sz _ (p_mem (ph s1)) A1 Hc1). split; [lia|]. destruct (npages_bound (ph_filesz p) ltac:(lia)) as [Hn|Hn]; [|lia].
    destruct (npages_bound sz ltac:(lia)) as [Hn2|Hn2]; unfold PGSIZE in *; lia. }
  rewrite <- Ev, (mv_dir _ _ _ _ _ _ _ Hmv) in E. rewrite E. cbn [res_bind]. rewrite <- Ev in Hp, Hb.
  assert (moved s L A F (set_ph h2 s1) L1 A1) as Hmv2.
  { eapply moved_then; [exact Hmv|]. destruct Hp as [P1 P2 P3 P4]. split; try done. destruct Hmv as [(B1 & B2 & B3) _ _ _ _]. split; [by destruct s1|]. split; [reflexivity|done]. }
  destruct (there data (ph_off p) (ph_filesz p)) eqn:Et; cbn [negb].
  - cbn [Z.ltb Z.compare]. exists (Some sz), (set_ph h2 s1), x2, L1, A1. split_and!; try done. eexists. split; [done|]. split; [done|].
    apply (seg_bytes p im (p_mem (ph s1))); [exact Hc1|lia|lia|apply Hp|apply Hp|by apply Hb].
  - exists None, (set_ph h2 s1), x2, L1, A1. split_and!; try done. by left.
Qed.

Lemma file_read_ph off : 0 <= off -> (file_read data off sizeof_ph).1 = sizeof_ph ->
  exists p, get_proghdr (file_read data off sizeof_ph).2 = Ok p /\ is_u32 (ph_off p) /\ is_u32 (ph_vaddr p) /\ is_u32 (ph_filesz p) /\ is_u32 (ph_memsz p).
Proof.
  intros H0 Hr. destruct (file_read_len data off sizeof_ph H0) as [Hl _]; [done|]. apply get_proghdr_ok; [|rewrite Hl, Hr; done].
  unfold file_read. destruct (_ <=? _); [|constructor]. apply Forall_take, Forall_drop, Hfile.
Qed.

(** [load_segments] builds the image of the headers, or gives up because they
    ask for what cannot be or because memory is short. *)
Lemma load_image_ok : forall n off s x L A F im, owns kend (ph s) L A F -> mach_ok (mach s) -> J x -> carries (p_mem (ph s)) A im ->
  exists r s' x' L' A', load_segments kend dev_read n off (im_sz im) (a_dir A) ip s x = Ok (r, s', x') /\ J x' /\ moved s L A F s' L' A' /\
    outcome (segments data n off im) (Z.of_nat (length (L ++ pages A))) r (p_mem (ph s')) A'.
Proof.
  induction n as [|n IH]; intros off s x L A F im O Hm Hx Hc.
  { exists (Some (im_sz im)), s, x, L, A. split_and!; try done; [by apply moved_refl|]. by exists im. }
  rewrite load_segments_S. cbn [segments]. destruct (ct_read Hfile s x (u32 off) sizeof_ph Hx (u32_range off)) as (x1 & -> & Hx1); [done|]. cbn [res_bind].
  pose proof (file_read_ph (u32 off) (proj1 (u32_range off))) as Hph.
  destruct (file_read data (u32 off) sizeof_ph) as [r bs]. cbn [fst snd] in *. destruct (Z.eqb_spec r sizeof_ph) as [->|Hr]; cbn [negb].
  2: { exists None, s, x1, L, A. split_and!; try done; [by apply moved_refl|by left]. }
  destruct (Hph eq_refl) as (p & -> & R1 & R2 & R3 & R4). cbn [res_bind]. destruct (negb _); [by apply IH|].
  destruct (seg_step_ok p s x1 L A F im O Hm Hx1 Hc R1 R2 R3 R4) as (r1 & s1 & x2 & L1 & A1 & -> & Hx2 & Hmv & Hr1). cbn [res_bind]. destruct r1 as [sz|].
  - destruct Hr1 as (im1 & Eim & -> & Hc1). rewrite Eim. destruct (IH (s32 (off + sizeof_ph)) s1 x2 L1 A1 F im1) as (r & s' & x' & L' & A' & E & Hx' & Hmv' & Hr); try done; [apply Hmv|apply Hmv|].
    rewrite (mv_dir _ _ _ _ _ _ _ Hmv) in E. exists r, s', x', L', A'. split_and!; try done; [by eapply moved_then|]. by rewrite <- (mv_perm _ _ _ _ _ _ _ Hmv).
  - exists None, s1, x2, L1, A1. split_and!; try done. destruct Hr1 as [->|(im1 & -> & Hl)]; [by left|]. destruct (segments data n _ im1) as [im2|] eqn:Es; [|by left].
    right. exists im2. split; [done|]. apply segments_grow in Es. pose proof (npages_mono _ _ Es). lia.
Qed.
End Segments.

(** * The stack *)

Section Stack.
Import Kalloc Vm Exec.
Context {kend : Z} {Hkend : kend_above kend}.
Implicit Types (h : phys) (m : machine) (L F : list Z) (A : aspace).

(** [copyout] changes neither the allocator nor the CPU. *)
Lemma copyout_frame n : forall d va buf h m r h' m', copyout n d va buf h m = Ok (r, h', m') -> p_kmem h' = p_kmem h /\ m' = m /\ (bytes (p_mem h) -> bytes (p_mem h')).
Proof.
  induction n as [|n IH]; intros d va buf h m r h' m' H; cbn [copyout] in H; [done|]. destruct (0 <? _); [|by injection H as <- <- <-].
  apply res_bind_Ok in H as ([[pa h1] m1] & E & H). assert (h1 = h /\ m1 = m) as [-> ->].
  { unfold uva2ka in E. apply res_bind_Ok in E as ([[e h2] m2] & E & H'). unfold walkpgdir in E. cbn [negb] in E. destruct (present _); injection E as _ <- <-; open_run; done. }
  destruct (pa =? 0); [by injection H as <- <- <-|]. destruct (IH _ _ _ _ _ _ _ _ H) as (H1 & H2 & H3). split; [done|]. split; [done|]. intros Hb. apply H3. cbn. by apply store_bytes_bytes.
Qed.

Lemma push_args_frame d argv : forall argc sp us h m r h' m', push_args d argv argc sp us h m = Ok (r, h', m') -> p_kmem h' = p_kmem h /\ m' = m /\ (bytes (p_mem h) -> bytes (p_mem h')).
Proof.
  induction argv as [|a argv IH]; intros argc sp us h m r h' m' H; cbn [push_args] in H; [by injection H as <- <- <-|]. destruct (_ <=? _); [by injection H as <- <- <-|].
  apply res_bind_Ok in H as ([[r1 h1] m1] & E & H). destruct (copyout_frame _ _ _ _ _ _ _ _ _ E) as (K1 & -> & B1). destruct (r1 <? 0); [by injection H as <- <- <-|].
  destruct (IH _ _ _ _ _ _ _ _ H) as (K2 & -> & B2). split; [congruence|]. split; [done|]. intros Hb. by apply B2, B1.
Qed.

Lemma build_stack_frame d sz argv h m r h' m' : build_stack d sz argv h m = Ok (r, h', m') -> p_kmem h' = p_kmem h /\ (bytes (p_mem h) -> bytes (p_mem h')).
Proof.
  unfold build_stack. intros H. apply res_bind_Ok in H as ([[r1 h1] m1] & E & H). destruct (push_args_frame _ _ _ _ _ _ _ _ _ _ E) as (K1 & -> & B1).
  destruct r1 as [[[argc sp] ptrs]|]; [|by injection H as <- <- <-]. apply res_bind_Ok in H as ([[r2 h2] m2] & E2 & H). destruct (copyout_frame _ _ _ _ _ _ _ _ _ E2) as (K2 & -> & B2).
  destruct (r2 <? 0); injection H as <- <- <-; (split; [congruence|]; intros Hb; by apply B2, B1).
Qed.

(** The entry of a user page changes in its flags only. *)
Lemma flags_user h L A F n p v t : owns kend h L A F -> a_ups A !! n = Some p -> a_tabs A !! (n / 1024) = Some t -> 0 <= v < 2 ^ 32 -> present v = true -> P2V (PTE_ADDR v) = p ->
  let h' := mkPhys (store32 (p_mem h) (t + 4 * (n mod 1024)) v) (p_kmem h) in
  owns kend h' L A F /\ pte (p_mem h') A n = v /\ (forall k, k <> n -> pte (p_mem h') A k = pte (p_mem h) A k) /\ same_on (vals (a_ups A) ++ F) (p_mem h) (p_mem h').
Proof.
  intros H Hp Ht Hv Hpr Ha h'. destruct (owns_parts _ _ _ _ H) as [Hnd Hok]. pose proof (ow_rep _ _ _ _ H) as Hrep. pose proof (ar_ups _ _ Hrep n p Hp) as Hn.
  destruct (set_entry (p_mem h) A n t v Hrep Ht Hv Hnd Hok) as (E1 & E2 & _ & E4). split; [|split; [done|split; [done|]]].
  - split; [by eapply kmem_store| |apply H|apply H]. destruct A as [d tb up]. apply (rep_set (kend:=kend) (p_mem h) (mkAs d tb up)); try done; [|lia|lia].
    intros _. cbn [a_ups] in Hp. by rewrite Hp.
  - apply E4. intros q Hq. by eapply tab_apart.
Qed.

Lemma land_not_user e : 0 <= e < 2 ^ 32 -> let v := Z.land e (Z.lnot PTE_U) in 0 <= v < 2 ^ 32 /\ present v = present e /\ PTE_ADDR v = PTE_ADDR e /\ Z.land v PTE_U = 0.
Proof.
  intros He v. assert (Z.land e (Z.lnot PTE_U) = Z.ldiff e 4) as Ev by (unfold PTE_U; by rewrite <- Z.ldiff_land). unfold v. rewrite Ev. split_and!.
  - apply Z.ldiff_nonneg. lia.
  - assert (e - Z.land e 4 = Z.ldiff e (Z.land e 4)) as E.
    { apply Z.sub_nocarry_ldiff, Z.bits_inj'. intros i Hi. rewrite Z.ldiff_spec, Z.land_spec, Z.bits_0. by destruct (Z.testbit e i), (Z.testbit 4 i). }
    assert (Z.ldiff e (Z.land e 4) = Z.ldiff e 4) as E'.
    { apply Z.bits_inj'. intros i Hi. rewrite !Z.ldiff_spec, Z.land_spec. by destruct (Z.testbit e i), (Z.testbit 4 i). }
    assert (0 <= Z.land e 4) by (apply Z.land_nonneg; lia). lia.
  - unfold present, PTE_P. do 2 f_equal. apply Z.bits_inj'. intros i Hi. rewrite !Z.land_spec, Z.ldiff_spec.
    destruct (Z.eq_dec i 0) as [->|Hne]; [by rewrite andb_true_r|]. replace (Z.testbit 1 i) with false; [by rewrite !andb_false_r|]. symmetry. apply Z.bits_above_log2; cbn; lia.
  - unfold PTE_ADDR. apply Z.bits_inj'. intros i Hi. rewrite !Z.land_spec, Z.ldiff_spec. destruct (Z.eq_dec i 2) as [->|Hne].
    + by rewrite !andb_false_r.
    + replace (Z.testbit 4 i) with false; [by rewrite andb_true_r|]. symmetry. change 4 with (2 ^ 2). apply Z.pow2_bits_false. lia.
  - unfold PTE_U. apply Z.bits_inj'. intros i Hi. rewrite Z.land_spec, Z.ldiff_spec, Z.bits_0. by destruct (Z.testbit e i), (Z.testbit 4 i).
Qed.

Lemma load32_range mm a : bytes mm -> 0 <= load32 mm a < 2 ^ 32.
Proof. intros H. unfold load32. pose proof (H a). pose proof (H (a + 1)). pose proof (H (a + 2)). pose proof (H (a + 3)). lia. Qed.

Lemma clearpteu_ok h m L A F n p : owns kend h L A F -> a_ups A !! n = Some p ->
  exists h', clearpteu (a_dir A) (PGSIZE * n) h m = Ok (h', m) /\ owns kend h' L A F /\ same_on (vals (a_ups A) ++ F) (p_mem h) (p_mem h') /\
    reachable (pte (p_mem h') A n) = false /\ (forall k, k <> n -> pte (p_mem h') A k = pte (p_mem h) A k).
Proof.
  intros O Hp. pose proof (ow_rep _ _ _ _ O) as Hrep. pose proof (ar_ups _ _ Hrep n p Hp) as Hn. destruct (user_table _ _ _ _ Hrep Hp) as (t & Ht & Hpr & Ha).
  assert (PGSIZE * n / PGSIZE = n) as En by (rewrite Z.mul_comm, Z.div_mul by (unfold PGSIZE; lia); done).
  unfold clearpteu. rewrite (walk_find h m A (PGSIZE * n) t false Hrep) by (rewrite ?En; done || (unfold UPN, PGSIZE in *; lia)). cbn [res_bind].
  rewrite (proj2 (Z.eqb_neq _ _)) by (eapply slot_pos; [exact O|exact Ht]). rewrite (load_slot _ A) by by rewrite En. rewrite En.
  assert (0 <= pte (p_mem h) A n < 2 ^ 32) as Hr by (unfold pte; rewrite Ht; apply load32_range, (ki_bytes _ _ _ (ow_kmem _ _ _ _ O))).
  destruct (land_not_user _ Hr) as (V1 & V2 & V3 & V4). set (v := Z.land _ _) in *. unfold slot. rewrite En.
  destruct (flags_user h L A F n p v t O Hp Ht V1) as (O' & E1 & E2 & S'); [congruence|congruence|]. eexists. split; [done|]. split; [done|]. split; [done|]. split; [|done].
  rewrite E1. unfold reachable. rewrite V4. apply andb_false_r.
Qed.

(** The flags decide whether user code reaches a page. *)
Lemma flags_reach e : PTE_FLAGS e = 7 -> reachable e = true.
Proof.
  unfold PTE_FLAGS, reachable, present, PTE_P, PTE_U. intros H. assert (forall b, 0 <= b < 12 -> Z.testbit e b = Z.testbit 7 b) as Hb.
  { intros b Hb. rewrite <- H, Z.land_spec. change 0xFFF with (Z.ones 12). rewrite Z.ones_spec_low by lia. by rewrite andb_true_r. }
  apply andb_true_iff. split; apply negb_true_iff, Z.eqb_neq; intros E.
  - assert (Z.testbit (Z.land e 1) 0 = false) as Hf by by rewrite E. rewrite Z.land_spec, Hb in Hf by lia. done.
  - assert (Z.testbit (Z.land e 4) 2 = false) as Hf by by rewrite E. rewrite Z.land_spec, Hb in Hf by lia. done.
Qed.

(** The space as [build_stack_ok] sees it. *)
Definition tables A : Z -> option Z := fun i => a_tabs A !! i.

Lemma owns_pt_rep h L A F : owns kend h L A F -> pt_rep kend h (a_dir A) (tables A) L.
Proof.
  intros O. pose proof (ow_rep _ _ _ _ O) as Hrep. destruct (owns_parts _ _ _ _ O) as [Hnd Hok]. unfold tables. split.
  - apply O.
  - rewrite Forall_forall in Hok. apply Hok, dir_in.
  - destruct (owns_page _ _ _ _ (a_dir A) O) as [_ ?]; [apply elem_of_app; left; apply dir_in|done].
  - intros i Hi. apply (ar_dir _ _ Hrep i Hi).
  - intros i t Ht. destruct (owns_page _ _ _ _ t O) as [H1 H2]; [apply elem_of_app; left; by eapply tab_in|]. split; [done|]. split; [done|]. intros ->.
    unfold pages in Hnd. apply NoDup_cons in Hnd as [Hnd _]. apply Hnd, elem_of_app. left. by eapply vals_in.
  - intros i j t Hi Hj. unfold pages in Hnd. apply NoDup_cons in Hnd as [_ Hnd]. apply NoDup_app in Hnd as [Hnd _]. destruct (decide (i = j)) as [|Hne]; [done|].
    exfalso. rewrite (vals_delete _ _ _ Hi) in Hnd. apply NoDup_cons in Hnd as [Hnd _]. apply Hnd, (vals_in _ j). by rewrite lookup_delete_ne.
Qed.

Lemma pte_of_pte h A va : 0 <= va < 2 ^ 32 -> pte_of h (tables A) va = pte (p_mem h) A (va / PGSIZE).
Proof. intros Hva. destruct (va_index va Hva) as [E1 E2]. unfold pte_of, tables, pte. by rewrite E1, E2. Qed.

Lemma owns_stack_page h L A F n g t : owns kend h L A F -> 0 <= n -> PGSIZE * (n + 2) <= KERNBASE -> a_ups A !! n = Some g -> a_ups A !! (n + 1) = Some t ->
  reachable (pte (p_mem h) A n) = false -> reachable (pte (p_mem h) A (n + 1)) = true -> stack_page kend h (a_dir A) (tables A) L (PGSIZE * (n + 1)) t.
Proof.
  intros O Hn Hk Hg Ht Rg Rt. destruct (user_apart _ _ _ _ _ _ O Ht) as (Hok & Hl & Hother). pose proof (ow_rep _ _ _ _ O) as Hrep.
  assert (forall k, PGSIZE * k / PGSIZE = k) as Ed by (intros k; rewrite Z.mul_comm; apply Z.div_mul; unfold PGSIZE; lia).
  unfold PGSIZE, KERNBASE in Hk. split; try done.
  - by apply owns_pt_rep in O.
  - intros i Hi. unfold tables in Hi. destruct (Hother t) as [_ ?]; [|done]. apply list_elem_of_further, elem_of_app. left. by eapply vals_in.
  - intros ->. destruct (Hother (a_dir A)) as [_ ?]; [apply list_elem_of_here|done].
  - split; [rewrite Z.mul_comm; apply Z_mod_mult|]. unfold PGSIZE, KERNBASE. lia.
  - rewrite pte_of_pte, Ed by (unfold PGSIZE; lia). split; [done|]. by destruct (user_table _ _ _ _ Hrep Ht) as (u & _ & _ & ?).
  - replace (PGSIZE * (n + 1) - PGSIZE) with (PGSIZE * n) by lia. rewrite pte_of_pte, Ed by (unfold PGSIZE; lia). split; [|done].
    unfold tables. destruct (va_index (PGSIZE * n)) as [-> _]; [unfold PGSIZE; lia|]. rewrite Ed. destruct (user_table _ _ _ _ Hrep Hg) as (u & -> & _). done.
Qed.

(** The arguments at the top of a process of [z] bytes: the strings, and below
    them, at [sp], the return address, [argc], [argv] and the pointers. *)
Definition sp_of (z : Z) (argv : list (list Z)) : Z := bottom z argv - 4 * (Z.of_nat (length argv) + 4).
Definition user_view (mm : mem) A : mem := fun va => default 0 (user_byte mm A va).
Definition args_at (mm : mem) A (z : Z) (argv : list (list Z)) : Prop :=
  sp_of z argv mod 4 = 0 /\ strings_at (user_view mm A) (place z argv) argv /\
  wstr (user_view mm A) (sp_of z argv) (frame_of (sp_of z argv) argv (place z argv)).

Lemma strings_in um um' lo argv : forall z, strings_at um (place z argv) argv -> lo <= bottom z argv -> (forall v, lo <= v < z -> um' v = um v) ->
  strings_at um' (place z argv) argv.
Proof.
  induction argv as [|a r IH]; intros z H Hlo Hv; [constructor|]. cbn [place bottom] in *. apply Forall2_cons in H as [Ha H]. pose proof (below_room z a) as [Hr _].
  pose proof (bottom_le (below z a) r). constructor.
  - apply (bstr_agree um); [|done]. intros v Hin. rewrite length_app in Hin. cbn [length] in Hin. apply Hv. lia.
  - apply IH; [done|done|]. intros v Hin. apply Hv. lia.
Qed.

Lemma wstr_agree (um um' : mem) l : forall a, (forall v, a <= v < a + 4 * Z.of_nat (length l) -> um' v = um v) -> wstr um a l -> wstr um' a l.
Proof.
  induction l as [|w l IH]; intros a Hv H; [done|]. cbn [wstr length] in *. destruct H as [H1 H2]. split.
  - rewrite (load32_agree um) by (intros v Hin; apply Hv; lia). done.
  - apply (IH (a + 4)); [|done]. intros v Hin. apply Hv. lia.
Qed.

Lemma args_agree (um um' : mem) z argv : strings_at um (place z argv) argv -> wstr um (sp_of z argv) (frame_of (sp_of z argv) argv (place z argv)) ->
  (forall v, sp_of z argv <= v < z -> um' v = um v) -> strings_at um' (place z argv) argv /\ wstr um' (sp_of z argv) (frame_of (sp_of z argv) argv (place z argv)).
Proof.
  intros H1 H2 Hv. split.
  - apply (strings_in um _ (sp_of z argv)); [done|unfold sp_of; lia|done].
  - apply (wstr_agree um); [|done]. intros v Hin. apply Hv. split; [lia|]. pose proof (bottom_le z argv).
    unfold frame_of in Hin. rewrite !length_app, place_length in Hin. cbn [length] in Hin. unfold sp_of in *. lia.
Qed.

Lemma args_same mm mm' A z argv : (forall va, user_byte mm' A va = user_byte mm A va) -> args_at mm A z argv -> args_at mm' A z argv.
Proof. intros H (H1 & H2 & H3). split; [done|]. apply (args_agree (user_view mm A)); [done|done|]. intros v _. unfold user_view. by rewrite H. Qed.

Lemma exec_stack h m L A F n g t argv : owns kend h L A F -> 0 <= n -> PGSIZE * (n + 2) <= KERNBASE -> a_ups A !! n = Some g -> a_ups A !! (n + 1) = Some t ->
  PTE_FLAGS (pte (p_mem h) A (n + 1)) = 7 -> Forall (Forall is_byte) argv -> Z.of_nat (length argv) <= MAXARG ->
  let z := PGSIZE * (n + 2) in PGSIZE * n <= sp_of z argv ->
  exists h1 r h2, clearpteu (a_dir A) (PGSIZE * n) h m = Ok (h1, m) /\ build_stack (a_dir A) z argv h1 m = Ok (r, h2, m) /\
    owns kend h2 L A F /\ same_on F (p_mem h) (p_mem h2) /\ (forall va, va / PGSIZE <> n + 1 -> user_byte (p_mem h2) A va = user_byte (p_mem h) A va) /\
    reachable (pte (p_mem h2) A n) = false /\ (forall k, k <> n -> pte (p_mem h2) A k = pte (p_mem h) A k) /\
    if PGSIZE * (n + 1) <=? sp_of z argv then r = Some (sp_of z argv) /\ args_at (p_mem h2) A z argv else r = None.
Proof.
  intros O Hn Hk Hg Ht Hf Hb Hl z Hsp. destruct (clearpteu_ok h m L A F n g O Hg) as (h1 & E1 & O1 & S1 & R1 & P1). exists h1.
  assert (z = PGSIZE * (n + 1) + PGSIZE) as Ez by (unfold z; lia). assert (PGSIZE * (n + 1) = z - PGSIZE) as Eb by lia.
  pose proof (owns_stack_page h1 L A F n g t O1 Hn Hk Hg Ht R1 ltac:(rewrite P1 by lia; by apply flags_reach)) as Hsk.
  destruct (build_stack_ok kend kend_le h1 m (a_dir A) (tables A) L (PGSIZE * (n + 1)) t argv Hsk Hb Hl) as (r & h2 & E2 & Hout & Hr).
  { rewrite <- Ez. fold (sp_of z argv). lia. }
  rewrite <- Ez in E2, Hr. fold (sp_of z argv) in Hr. destruct (build_stack_frame _ _ _ _ _ _ _ _ E2) as [K2 B2].
  destruct (user_write h1 L A F (n + 1) t (p_mem h2) O1 Ht) as (O2 & P2 & S2 & U2 & V2); [apply B2, (ki_bytes _ _ _ (ow_kmem _ _ _ _ O1))|done|].
  rewrite <- K2 in O2. exists r, h2. split; [done|]. split; [done|]. split; [by destruct h2|]. split; [etrans; [|exact S2]; eapply same_on_sub, S1; set_solver|]. split; [|split; [|split; [intros k Hk'; by rewrite P2, P1|]]].
  - intros va Hva. rewrite U2 by done. by eapply user_byte_eq.
  - by rewrite P2.
  - destruct (Z.leb_spec (PGSIZE * (n + 1)) (sp_of z argv)) as [Hge|]; [|done]. destruct Hr as (-> & Hm & Hs & Hw). split; [done|]. split; [done|].
    apply (args_agree (user h2 (PGSIZE * (n + 1)) t)); [done|done|]. intros v Hv. assert (v / PGSIZE = n + 1) as Ev.
    { symmetry. apply (Z.div_unique_pos v PGSIZE (n + 1) (v - PGSIZE * (n + 1))); unfold PGSIZE in *; lia. }
    unfold user_view, user. rewrite (V2 v Ev). cbn. f_equal. pose proof (Z.div_mod v PGSIZE ltac:(unfold PGSIZE; lia)). rewrite Ev in *. lia.
Qed.
End Stack.

(** * exec *)

Section Whole.
Import Kalloc Vm Exec Ptable.
Context `{SV : Services} {kend : Z} {Hkend : kend_above kend} (kdata : Z) (kdata_mod : kdata mod PGSIZE = 0) (kdata_range : KERNLINK < kdata < P2V PHYSTOP).
Context (resume_fs : kst -> fsx -> kst * fsx) (resume_log : kst -> lst -> kst * lst) (rounds : nat) (log_at : Z) (lock_at : Z -> Z).
Context (dev_read : Z -> option (Z -> Z -> kst -> fsx -> res (Z * list Z * kst * fsx))).
Context (p : nat) (path : list Z) (data : list Z) (st : kst).
Implicit Types (s : kst) (x : ftx) (L F : list Z) (A B : aspace) (im : image) (cp : proc) (ip : Z).

(** What [exec] asks of the file system, with the state of the files after each
    call: the path leads to the file, and each call returns.  [st] is the state
    that [exec] starts in. *)
Class FileCalls (J0 J1 : ftx -> Prop) (J2 J : Z -> ftx -> Prop) (J3 J4 : ftx -> Prop) : Prop := {
  fc_begin s x : ran p st s -> J0 x -> exists s' x', begin_op resume_log rounds log_at s x = Ok (s', x') /\ called p s s' /\ J1 x';
  fc_namei s x : ran p st s -> J1 x -> exists ip s' x', namei resume_fs rounds lock_at dev_read path s x = Ok (Some ip, s', x') /\ called p s s' /\ J2 ip x';
  fc_ilock ip s x : ran p st s -> J2 ip x -> exists s' x', ilock resume_fs rounds lock_at ip s x = Ok (s', x') /\ called p s s' /\ J ip x';
  fc_file ip : contains dev_read ip data (J ip);
  fc_iunlockput ip s x : ran p st s -> J ip x -> exists s' x', iunlockput resume_fs rounds lock_at ip s x = Ok (s', x') /\ called p s s' /\ J3 x';
  fc_end s x : ran p st s -> J3 x -> exists s' x', end_op log_at s x = Ok (s', x') /\ called p s s' /\ J4 x'
}.
Context `{FC : FileCalls J0 J1 J2 J J3 J4}.

Lemma but_memory_ran s s' : up p s -> but_memory s s' -> ran p s s'.
Proof. intros H (E & S & M). rewrite E. by apply ran_memory. Qed.

(** The old address space, while the new one is built beside it. *)
Record beside s L A B F : Prop := {
  bs_owns : owns kend (ph s) L A (pages B ++ F);
  bs_old : as_rep (p_mem (ph s)) B
}.

Lemma beside_moved s L A B F s' L' A' : beside s L A B F -> moved (kend:=kend) s L A (pages B ++ F) s' L' A' -> beside s' L' A' B F.
Proof.
  intros [H1 H2] [M1 M2 M3 M4 M5]. split; [done|]. apply (rep_agree (p_mem (ph s))); [done|]. eapply same_on_sub, M5. unfold pages. set_solver.
Qed.

Lemma beside_same s s' L A B F : beside s L A B F -> ph s' = ph s -> beside s' L A B F.
Proof. intros [H1 H2] E. split; by rewrite E. Qed.

(** The new space is given up: the old one is as it was. *)
Lemma drop_new s L A B F : beside s L A B F -> up p s ->
  exists s' L', on_vm_ (Vm.freevm kend (a_dir A)) s = Ok s' /\ ran p s s' /\ owns kend (ph s') L' B F /\ L' ≡ₚ L ++ pages A /\ same_on (pages B ++ F) (p_mem (ph s)) (p_mem (ph s')).
Proof.
  intros [O R] U. unfold on_vm_. destruct (freevm_holds (pages B ++ F) (ph s) (mach s) L A O (up_mach_ok _ _ U)) as (h & m & L' & E & Hm & Hh & HL & Hs).
  rewrite E. cbn [res_bind]. exists (set_mach m (set_ph h s)), L'. split; [done|]. split; [apply ran_memory; [done|by eapply freevm_steady]|]. split; [|done].
  destruct Hh as [K1 K2 K3]. split; [done| |done|done]. apply (rep_agree (p_mem (ph s))); [done|]. eapply same_on_sub, Hs. unfold pages. set_solver.
Qed.

(** [bad] with the file still open, and without. *)
Lemma bad_open ip s x L A B F : beside s L A B F -> ran p st s -> J ip x ->
  exists s' x' L', bad kend resume_fs rounds log_at lock_at (a_dir A) (Some ip) s x = Ok (-1, s', x') /\ ran p s s' /\ J4 x' /\
    owns kend (ph s') L' B F /\ L' ≡ₚ L ++ pages A /\ same_on (pages B ++ F) (p_mem (ph s)) (p_mem (ph s')).
Proof.
  intros Hb U Hx. unfold bad. assert (a_dir A <> 0) as Hd.
  { destruct (owns_page _ _ _ _ (a_dir A) (bs_owns _ _ _ _ _ Hb)) as [Hok _]; [apply elem_of_app; left; apply dir_in|]. pose proof (page_ok_range kend kend_le _ Hok). unfold KERNBASE in *. lia. }
  rewrite (proj2 (Z.eqb_neq _ _) Hd). destruct (drop_new s L A B F Hb (rn_up _ _ _ U)) as (s1 & L1 & -> & R1 & O1 & P1 & S1). cbn [res_bind].
  destruct (fc_iunlockput ip s1 x (ran_trans _ _ _ _ U R1) Hx) as (s2 & x2 & -> & [R2 E2] & H2). cbn [res_bind].
  destruct (fc_end s2 x2 (ran_trans _ _ _ _ U (ran_trans _ _ _ _ R1 R2)) H2) as (s3 & x3 & -> & [R3 E3] & H3). cbn [res_bind]. exists s3, x3, L1.
  split; [done|]. split; [eapply ran_trans; [exact R1|eapply ran_trans; [exact R2|exact R3]]|]. split; [done|]. by rewrite E3, E2.
Qed.

Lemma bad_early ip s x : ran p st s -> J ip x -> exists s' x', bad kend resume_fs rounds log_at lock_at 0 (Some ip) s x = Ok (-1, s', x') /\ ran p s s' /\ J4 x' /\ ph s' = ph s.
Proof.
  intros U Hx. unfold bad. cbn [Z.eqb res_bind]. destruct (fc_iunlockput ip s x U Hx) as (s2 & x2 & -> & [R2 E2] & H2). cbn [res_bind].
  destruct (fc_end s2 x2 (ran_trans _ _ _ _ U R2) H2) as (s3 & x3 & -> & [R3 E3] & H3). cbn [res_bind]. exists s3, x3. split; [done|]. split; [by eapply ran_trans|]. split; [done|congruence].
Qed.

Lemma bad_late s x L A B F : beside s L A B F -> up p s ->
  exists s' L', bad kend resume_fs rounds log_at lock_at (a_dir A) None s x = Ok (-1, s', x) /\ ran p s s' /\
    owns kend (ph s') L' B F /\ L' ≡ₚ L ++ pages A /\ same_on (pages B ++ F) (p_mem (ph s)) (p_mem (ph s')).
Proof.
  intros Hb U. unfold bad. assert (a_dir A <> 0) as Hd.
  { destruct (owns_page _ _ _ _ (a_dir A) (bs_owns _ _ _ _ _ Hb)) as [Hok _]; [apply elem_of_app; left; apply dir_in|]. pose proof (page_ok_range kend kend_le _ Hok). unfold KERNBASE in *. lia. }
  rewrite (proj2 (Z.eqb_neq _ _) Hd). destruct (drop_new s L A B F Hb U) as (s1 & L1 & -> & R1 & O1 & P1 & S1). cbn [res_bind]. by exists s1, L1.
Qed.

(** The new space takes the place of the old one. *)
Lemma swap_old s L A B F : beside s L A B F -> owns kend (ph s) L B (pages A ++ F).
Proof.
  intros [[K1 K2 K3 K4] R]. split; [done|done| |].
  - by rewrite (Permutation_app_swap_app (pages B)).
  - by rewrite (Permutation_app_swap_app (pages B)).
Qed.

Lemma switchuvm_steady q s s' : switchuvm q s = Ok s' -> steady (mach s) (mach s').
Proof.
  unfold switchuvm. intros H. apply res_bind_Ok in H as (pr & _ & H). destruct (_ =? 0); [done|]. destruct (_ =? 0); [done|].
  apply res_bind_Ok in H as (m1 & E1 & H). apply res_bind_Ok in H as (i1 & _ & H). apply res_bind_Ok in H as (m2 & E2 & [= <-]). cbn [mach set_mach].
  intros i c Hc Hok. destruct (Spinlock.push_pop (mach s) i c Hc Hok) as (m' & E1' & _ & _ & E2'). rewrite E1 in E1'. injection E1' as <-. rewrite E2 in E2'. injection E2' as ->.
  by apply steady_touched.
Qed.

Lemma commit_image_ok z entry sp s L A B F cp : beside s L A B F -> up p s -> pt_proc s !! p = Some cp -> kstack cp <> 0 -> a_dir B = pgdir cp ->
  exists s' L', commit_image kend p path (a_dir A) z entry sp s = Ok s' /\ up p s' /\ owns kend (ph s') L' A F /\ L' ≡ₚ L ++ pages B /\
    same_on (pages A ++ F) (p_mem (ph s)) (p_mem (ph s')) /\ cr3 s' = V2P (a_dir A) /\
    frames s' = upd (frames s) (tf cp) (set_tf_esp sp (set_tf_eip entry (frames s (tf cp)))) /\
    pt_proc s' = <[p := set_sz z (set_pgdir (a_dir A) (set_name (name_cut (last_elem path path)) cp))]> (pt_proc s).
Proof.
  intros Hb U Hp Hk Hd. unfold commit_image. assert (p < length (pt_proc s))%nat as Hl by by eapply lookup_lt_Some.
  rewrite (modp_lookup p _ s cp Hp). cbn [res_bind]. set (cp1 := set_name _ cp). rewrite (getp_lookup p _ cp1) by by apply lookup_putp. cbn [res_bind].
  rewrite (modp_lookup p _ _ cp1) by by apply lookup_putp. cbn [res_bind]. rewrite putp_putp. rewrite (modp_lookup p _ _ (set_pgdir (a_dir A) cp1)) by by apply lookup_putp. cbn [res_bind]. rewrite putp_putp.
  set (cp2 := set_sz z _). set (s2 := set_frames _ (putp p cp2 s)).
  assert (a_dir A <> 0) as Hd0.
  { destruct (owns_page _ _ _ _ (a_dir A) (bs_owns _ _ _ _ _ Hb)) as [Hok _]; [apply elem_of_app; left; apply dir_in|]. pose proof (page_ok_range kend kend_le _ Hok). unfold KERNBASE in *. lia. }
  destruct (switchuvm_ok p cp2 s2) as (m & E & Hm); [by apply (up_mach_ok p s)|by apply lookup_putp|done|done|]. pose proof (switchuvm_steady _ _ _ E) as Hst. rewrite E. cbn [res_bind].
  set (s3 := set_mach m _) in *. assert (beside s3 L A B F) as Hb3 by by apply (beside_same s).
  unfold on_vm_. change (pgdir cp1) with (pgdir cp). rewrite <- Hd. destruct (freevm_ok (pages A ++ F) (ph s3) (mach s3) L B (swap_old _ _ _ _ _ Hb3) Hm) as (h4 & m4 & L4 & E4 & Hm4 & K4 & P4 & S4).
  rewrite E4. cbn [res_bind]. exists (set_mach m4 (set_ph h4 s3)), L4. split; [done|]. split_and!; try done.
  - destruct U as [(c & Ho) Hpt (pr & Hpr & Hrun)]. split; [exists c|done|exists cp2; split; [by apply lookup_putp|]].
    + eapply (outside_steady c p s3); [|by eapply freevm_steady]. by eapply (outside_steady c p s).
    + rewrite Hp in Hpr. injection Hpr as <-. exact Hrun.
  - pose proof (bs_owns _ _ _ _ _ Hb3) as [Q1 Q2 Q3 Q4]. split; [done| | |].
    + apply (rep_agree (p_mem (ph s3))); [done|]. eapply same_on_sub, S4. unfold pages. set_solver.
    + rewrite P4. rewrite <- app_assoc. by rewrite (Permutation_app_swap_app (pages B)).
    + rewrite !Forall_app in *. tauto.
Qed.

(** * The whole of exec *)

(** The pages below the end of the image, as [exec] rounds it up. *)
Definition rounded im : image := mkImage (PGSIZE * npages (im_sz im)) (im_byte im).

Lemma npages_mul k : npages (PGSIZE * k) = k.
Proof. unfold npages. replace (PGSIZE * k + PGSIZE - 1) with ((PGSIZE - 1) + k * PGSIZE) by lia. rewrite Z.div_add by (unfold PGSIZE; lia). done. Qed.

Lemma carries_rounded mm A im : carries mm A im -> PGSIZE * npages (im_sz im) < KERNBASE -> carries mm A (rounded im).
Proof.
  intros [C1 C2 C3 C4] H. assert (0 <= npages (im_sz im)) by (apply Z.div_pos; unfold PGSIZE; lia).
  split; cbn [rounded im_sz im_byte]; rewrite ?npages_mul; try done. unfold PGSIZE in *. lia.
Qed.

(** The two pages of the stack. *)
Lemma exec_two_pages s L A G im : owns kend (ph s) L A G -> mach_ok (mach s) -> carries (p_mem (ph s)) A im ->
  exists r s' L' A', on_vm (Vm.allocuvm kend (a_dir A) (PGROUNDUP (im_sz im)) (u32 (PGROUNDUP (im_sz im) + 2 * PGSIZE))) s = Ok (r, s') /\
    moved (kend:=kend) s L A G s' L' A' /\
    (r = top im /\ top im < KERNBASE /\ carries (p_mem (ph s')) A' (grow (rounded im) (top im)) \/
     r = 0 /\ (KERNBASE <= top im \/ Z.of_nat (length (L ++ pages A)) <= 2052 + npages (im_sz im))).
Proof.
  intros O Hm Hc. pose proof (ca_sz _ _ _ Hc) as Hsz. unfold KERNBASE in Hsz. destruct (roundup_pages (im_sz im)) as (-> & _ & _ & Hn & _); [lia|].
  assert (PGSIZE * npages (im_sz im) + 2 * PGSIZE = top im) as -> by (unfold top; lia). rewrite u32_small by (unfold top, UPN, PGSIZE in *; lia).
  destruct (Z.lt_ge_cases (top im) KERNBASE) as [Hk|Hk].
  - assert (PGSIZE * npages (im_sz im) < top im) as Hlt by (unfold top, PGSIZE; lia).
    destruct (exec_alloc s L A G (rounded im) (top im) O Hm) as (r & s' & L' & A' & E & Hmv & Hr); [apply carries_rounded; [done|lia]|cbn [rounded im_sz]; lia|].
    exists r, s', L', A'. split; [exact E|]. split; [done|]. destruct Hr as [(-> & Hc')|(-> & _ & Hl)]; [by left|right]. split; [done|]. right. unfold top in Hl. rewrite npages_mul in Hl. lia.
  - exists 0, s, L, A. split; [unfold on_vm, Vm.allocuvm; rewrite (proj2 (Z.leb_le _ _) Hk); cbn; by destruct s|]. split; [by apply moved_refl|]. right. split; [done|by left].
Qed.

(** The end of [exec], from the allocation of the stack on. *)
Definition exec_tail (c : nat) argv (entry sz d : Z) s x : res (Z * kst * ftx) :=
  let? (sz, s) := on_vm (Vm.allocuvm kend d sz (u32 (sz + 2 * PGSIZE))) s in
  if sz =? 0 then bad kend resume_fs rounds log_at lock_at d None s x
  else
    let? s := on_vm_ (Vm.clearpteu d (u32 (sz - 2 * PGSIZE))) s in
    let? (sp, s) := on_vm (build_stack d sz argv) s in
    match sp with
    | None => bad kend resume_fs rounds log_at lock_at d None s x
    | Some sp =>
        let? s := commit_image kend c path d sz entry sp s in
        Ok (0, s, x)
    end.

(** The process [cp] runs the image [im] of the program with header [e]. *)
Record runs argv e im s L B F cp s' A L' : Prop := {
  ru_up : up p s';
  ru_procs : exists s1, ran p s s1 /\
    pt_proc s' = <[p := set_sz (top im) (set_pgdir (a_dir A) (set_name (name_cut (last_elem path path)) cp))]> (pt_proc s1);
  ru_frame : frames s' = upd (frames s) (tf cp) (set_tf_esp (sp_of (top im) argv) (set_tf_eip (e_entry e) (frames s (tf cp))));
  ru_cr3 : cr3 s' = V2P (a_dir A);
  ru_owns : owns kend (ph s') L' A F;
  ru_perm : L' ++ pages A ≡ₚ L ++ pages B;
  ru_same : same_on F (p_mem (ph s)) (p_mem (ph s'));
  ru_pages n : is_Some (a_ups A !! n) <-> 0 <= n < npages (im_sz im) + 2;
  ru_bytes va : 0 <= va < PGSIZE * npages (im_sz im) -> user_byte (p_mem (ph s')) A va = im_byte im va;
  ru_flags n : 0 <= n < npages (im_sz im) + 2 -> n <> npages (im_sz im) -> PTE_FLAGS (pte (p_mem (ph s')) A n) = 7;
  ru_guard : reachable (pte (p_mem (ph s')) A (npages (im_sz im))) = false;
  ru_args : args_at (p_mem (ph s')) A (top im) argv
}.

(** Nothing has changed. *)
Record undone s L B F s' L' : Prop := {
  ud_ran : ran p s s';
  ud_owns : owns kend (ph s') L' B F;
  ud_perm : L' ≡ₚ L;
  ud_same : same_on (pages B ++ F) (p_mem (ph s)) (p_mem (ph s'))
}.

(** What the stack and the memory must do for the image not to be refused. *)
Definition no_room argv im (N : Z) : Prop := KERNBASE <= top im \/ sp_of (top im) argv < top im - PGSIZE \/ N <= 2052 + npages (im_sz im).

(** The space [A] is being built beside the old one since the state [s0]. *)
Record building s0 L0 B F s L A : Prop := {
  bu_beside : beside s L A B F;
  bu_ran : ran p s0 s;
  bu_same : same_on (pages B ++ F) (p_mem (ph s0)) (p_mem (ph s));
  bu_perm : L ++ pages A ≡ₚ L0
}.

Lemma building_up s0 L0 B F s L A : building s0 L0 B F s L A -> up p s.
Proof. intros H. apply (rn_up _ _ _ (bu_ran _ _ _ _ _ _ _ H)). Qed.

Lemma building_moved s0 L0 B F s L A s' L' A' : building s0 L0 B F s L A -> moved (kend:=kend) s L A (pages B ++ F) s' L' A' -> building s0 L0 B F s' L' A'.
Proof.
  intros H Hm. pose proof H as [H1 H2 H3 H4]. split; [by eapply beside_moved| | |].
  - eapply ran_trans; [exact H2|]. apply but_memory_ran; [by eapply building_up|apply Hm].
  - etrans; [exact H3|apply Hm].
  - by rewrite (mv_perm _ _ _ _ _ _ _ Hm).
Qed.

Lemma building_same s0 L0 B F s L A s' : building s0 L0 B F s L A -> ran p s s' -> ph s' = ph s -> building s0 L0 B F s' L A.
Proof. intros [H1 H2 H3 H4] R E. split; [by apply (beside_same s)|by eapply ran_trans|by rewrite E|done]. Qed.

Lemma building_bad_open ip L0 B F s L A x : building st L0 B F s L A -> J ip x ->
  exists s' x' L', bad kend resume_fs rounds log_at lock_at (a_dir A) (Some ip) s x = Ok (-1, s', x') /\ J4 x' /\ undone st L0 B F s' L'.
Proof.
  intros H Hx. destruct (bad_open ip s x L A B F (bu_beside _ _ _ _ _ _ _ H) (bu_ran _ _ _ _ _ _ _ H) Hx) as (s' & x' & L' & E & R & Hx' & O & P & S).
  destruct H as [H1 H2 H3 H4]. exists s', x', L'. split; [done|]. split; [done|]. split; [by eapply ran_trans|done|by rewrite P|by etrans].
Qed.

Lemma building_bad_late s0 L0 B F s L A x : building s0 L0 B F s L A ->
  exists s' L', bad kend resume_fs rounds log_at lock_at (a_dir A) None s x = Ok (-1, s', x) /\ undone s0 L0 B F s' L'.
Proof.
  intros H. destruct (bad_late s x L A B F (bu_beside _ _ _ _ _ _ _ H) (building_up _ _ _ _ _ _ _ H)) as (s' & L' & E & R & O & P & S).
  destruct H as [H1 H2 H3 H4]. exists s', L'. split; [done|]. split; [by eapply ran_trans|done|by rewrite P|by etrans].
Qed.

Section Tail.
Context (argv : list (list Z)) (Hbytes : Forall (Forall is_byte) argv) (Hargs : Z.of_nat (length argv) <= MAXARG) (Hsmall : 0 <= sp_of (2 * PGSIZE) argv).

Lemma bottom_shift k l : forall z, bottom (PGSIZE * k + z) l = PGSIZE * k + bottom z l.
Proof.
  induction l as [|a l IH]; intros z; cbn [bottom]; [done|]. rewrite <- IH. f_equal. unfold below, down4.
  replace (PGSIZE * k + z - (Z.of_nat (length a) + 1)) with (z - (Z.of_nat (length a) + 1) + (1024 * k) * 4) by (unfold PGSIZE; lia). rewrite Z.mod_add by lia. unfold PGSIZE. lia.
Qed.

Lemma sp_fits im : PGSIZE * npages (im_sz im) <= sp_of (top im) argv.
Proof. unfold sp_of, top in *. replace (PGSIZE * (npages (im_sz im) + 2)) with (PGSIZE * npages (im_sz im) + 2 * PGSIZE) by lia. rewrite bottom_shift. lia. Qed.

(** The stack of a process with the two pages. *)
Lemma stack_ok s L A F im : owns kend (ph s) L A F -> carries (p_mem (ph s)) A (grow (rounded im) (top im)) -> 0 <= npages (im_sz im) -> top im < KERNBASE ->
  exists h1 r h2, on_vm_ (Vm.clearpteu (a_dir A) (u32 (top im - 2 * PGSIZE))) s = Ok (set_ph h1 s) /\
    on_vm (build_stack (a_dir A) (top im) argv) (set_ph h1 s) = Ok (r, set_ph h2 s) /\
    owns kend h2 L A F /\ same_on F (p_mem (ph s)) (p_mem h2) /\
    (forall va, 0 <= va < PGSIZE * npages (im_sz im) -> user_byte (p_mem h2) A va = im_byte im va) /\
    (forall n, 0 <= n < npages (im_sz im) + 2 -> n <> npages (im_sz im) -> PTE_FLAGS (pte (p_mem h2) A n) = 7) /\
    reachable (pte (p_mem h2) A (npages (im_sz im))) = false /\
    if top im - PGSIZE <=? sp_of (top im) argv then r = Some (sp_of (top im) argv) /\ args_at (p_mem h2) A (top im) argv else r = None.
Proof.
  intros O Hc Hn Hk. set (n := npages (im_sz im)) in *. assert (forall k, is_Some (a_ups A !! k) <-> 0 <= k < n + 2) as Hpg.
  { intros k. rewrite (ca_pages _ _ _ Hc). cbn [grow im_sz]. unfold top. by rewrite npages_mul. }
  destruct (proj2 (Hpg n) ltac:(lia)) as [g Hg]. destruct (proj2 (Hpg (n + 1)) ltac:(lia)) as [t Ht]. unfold top in Hk. fold n in Hk.
  destruct (exec_stack (ph s) (mach s) L A F n g t argv O Hn ltac:(lia) Hg Ht) as (h1 & r & h2 & E1 & E2 & O2 & S2 & U2 & R2 & P2 & Hr); [| | |apply (sp_fits im)|].
  { apply (ca_flags _ _ _ Hc). cbn [grow im_sz]. unfold top. rewrite npages_mul. fold n. lia. } { done. } { done. }
  exists h1, r, h2. unfold on_vm_, on_vm. assert (top im - 2 * PGSIZE = PGSIZE * n) as -> by (unfold top; fold n; lia).
  rewrite u32_small by (unfold KERNBASE, PGSIZE in *; lia). rewrite E1. cbn [res_bind ph mach set_mach set_ph]. split; [by destruct s|]. change (top im) with (PGSIZE * (n + 2)). rewrite E2. cbn [res_bind].
  split; [by destruct s|]. split_and!; try done.
  - intros va Hva. rewrite U2.
    + rewrite (ca_bytes _ _ _ Hc) by lia. cbn [grow im_byte rounded im_sz]. rewrite npages_mul. fold n. by rewrite (proj2 (Z.ltb_lt _ _)) by lia.
    + intros E. pose proof (Z.div_mod va PGSIZE ltac:(unfold PGSIZE; lia)). pose proof (Z.mod_pos_bound va PGSIZE ltac:(unfold PGSIZE; lia)). unfold PGSIZE in *. lia.
  - intros k Hk1 Hk2. rewrite P2 by done. apply (ca_flags _ _ _ Hc). cbn [grow im_sz]. unfold top. rewrite npages_mul. done.
  - replace (PGSIZE * (n + 2) - PGSIZE) with (PGSIZE * (n + 1)) by lia. exact Hr.
Qed.

Lemma same_reads mm mm' A G : same_on (pages A ++ G) mm mm' -> as_rep mm A ->
  (forall va, user_byte mm' A va = user_byte mm A va) /\ (forall n, pte mm' A n = pte mm A n).
Proof.
  intros S R. split.
  - intros va. apply (user_byte_eq mm mm' A A [] va eq_refl). eapply same_on_sub, S. unfold pages. set_solver.
  - intros n. apply pte_agree; [done|]. intros i u Hu. eapply same_on_sub, S. intros q ->%list_elem_of_singleton. apply elem_of_app. left. by eapply tab_in.
Qed.

(** The stack is there: the new image replaces the old one. *)
Lemma commit_runs s0 L0 B F s L A cp e im : building s0 L0 B F s L A -> pt_proc s0 !! p = Some cp -> state cp = RUNNING -> kstack cp <> 0 -> a_dir B = pgdir cp ->
  (forall n, is_Some (a_ups A !! n) <-> 0 <= n < npages (im_sz im) + 2) ->
  (forall va, 0 <= va < PGSIZE * npages (im_sz im) -> user_byte (p_mem (ph s)) A va = im_byte im va) ->
  (forall n, 0 <= n < npages (im_sz im) + 2 -> n <> npages (im_sz im) -> PTE_FLAGS (pte (p_mem (ph s)) A n) = 7) ->
  reachable (pte (p_mem (ph s)) A (npages (im_sz im))) = false -> args_at (p_mem (ph s)) A (top im) argv ->
  exists s' L', commit_image kend p path (a_dir A) (top im) (e_entry e) (sp_of (top im) argv) s = Ok s' /\ runs argv e im s0 L0 B F cp s' A L'.
Proof.
  intros H Hp Hst Hk Hd Hpg Hby Hfl Hgd Har. pose proof H as [H1 H2 H3 H4]. pose proof (ran_self _ _ _ _ H2 Hp Hst) as Hp'. destruct (ran_fields _ _ _ H2) as (Ef & _).
  destruct (commit_image_ok (top im) (e_entry e) (sp_of (top im) argv) s L A B F cp H1 (building_up _ _ _ _ _ _ _ H) Hp' Hk Hd) as (s' & L' & E & U' & O' & P' & S' & Ec & Efr & Ept).
  destruct (same_reads _ _ _ _ S' (ow_rep _ _ _ _ (bs_owns _ _ _ _ _ H1))) as [Rb Rp]. exists s', L'. split; [done|]. split; try done.
  - exists s. by split.
  - by rewrite Efr, Ef.
  - rewrite P', <- H4. rewrite <- !app_assoc. apply Permutation_app_head, Permutation_app_comm.
  - etrans; [eapply same_on_sub, H3; set_solver|eapply same_on_sub, S'; set_solver].
  - intros va Hva. rewrite Rb. by apply Hby.
  - intros n Hn Hne. rewrite Rp. by apply Hfl.
  - by rewrite Rp.
  - by apply (args_same (p_mem (ph s))).
Qed.

Lemma tail_ok s0 L0 B F s L A x cp e im : building s0 L0 B F s L A -> carries (p_mem (ph s)) A im ->
  pt_proc s0 !! p = Some cp -> state cp = RUNNING -> kstack cp <> 0 -> a_dir B = pgdir cp ->
  exists r s', exec_tail p argv (e_entry e) (PGROUNDUP (im_sz im)) (a_dir A) s x = Ok (r, s', x) /\
    (r = 0 /\ (exists A L', runs argv e im s0 L0 B F cp s' A L') \/ r = -1 /\ (exists L', undone s0 L0 B F s' L') /\ no_room argv im (Z.of_nat (length L0))).
Proof.
  intros H Hc Hp Hst Hk Hd. pose proof (bs_owns _ _ _ _ _ (bu_beside _ _ _ _ _ _ _ H)) as O. pose proof (building_up _ _ _ _ _ _ _ H) as U. unfold exec_tail.
  destruct (exec_two_pages s L A _ im O (up_mach_ok _ _ U) Hc) as (r & s1 & L1 & A1 & -> & Hmv & Hr). cbn [res_bind]. pose proof (building_moved _ _ _ _ _ _ _ _ _ _ H Hmv) as Hb1.
  pose proof (mv_dir _ _ _ _ _ _ _ Hmv) as Ed. rewrite <- Ed. destruct Hr as [(-> & Htop & Hc1)|(-> & Hno)].
  2: { cbn [Z.eqb]. destruct (building_bad_late _ _ _ _ _ _ _ x Hb1) as (s' & L' & -> & Hu). exists (-1), s'. split; [done|]. right. split; [done|]. split; [by exists L'|].
       rewrite (bu_perm _ _ _ _ _ _ _ H) in Hno. destruct Hno as [?|?]; [by left|right; by right]. }
  assert (0 <= npages (im_sz im)) as Hn by (apply Z.div_pos; pose proof (ca_sz _ _ _ Hc); unfold PGSIZE; lia).
  rewrite (proj2 (Z.eqb_neq _ _)) by (unfold top, PGSIZE; lia). pose proof (bs_owns _ _ _ _ _ (bu_beside _ _ _ _ _ _ _ Hb1)) as O1.
  destruct (stack_ok s1 L1 A1 _ im O1 Hc1 Hn Htop) as (h1 & r & h2 & -> & E & O2 & S2 & Hby & Hfl & Hgd & Hr). cbn [res_bind]. rewrite E. cbn [res_bind].
  pose proof (building_moved _ _ _ _ _ _ _ (set_ph h2 s1) L1 A1 Hb1) as Hb2. specialize (Hb2 ltac:(split; try done; split; [by destruct s1|split; [reflexivity|apply (mv_s _ _ _ _ _ _ _ Hmv)]])).
  destruct (Z.leb_spec (top im - PGSIZE) (sp_of (top im) argv)) as [Hle|Hgt].
  - destruct Hr as [-> Har]. destruct (commit_runs s0 L0 B F (set_ph h2 s1) L1 A1 cp e im Hb2 Hp Hst Hk Hd) as (s' & L' & -> & Hru); try done.
    { intros n. rewrite (ca_pages _ _ _ Hc1). cbn [grow im_sz]. unfold top. by rewrite npages_mul. }
    cbn [res_bind]. exists 0, s'. split; [done|]. left. split; [done|]. by exists A1, L'.
  - subst r. destruct (building_bad_late _ _ _ _ _ _ _ x Hb2) as (s' & L' & -> & Hu). exists (-1), s'. split; [done|]. right. split; [done|]. split; [by exists L'|]. right. by left.
Qed.

(** A new space beside the old one. *)
Lemma setup_beside s L B F : owns kend (ph s) L B F -> up p s ->
  exists d s' L', on_vm (Vm.setupkvm kend kdata) s = Ok (d, s') /\ ran p s s' /\ same_on (pages B ++ F) (p_mem (ph s)) (p_mem (ph s')) /\
    (d = 0 /\ owns kend (ph s') L' B F /\ L' ≡ₚ L /\ Z.of_nat (length L) <= 1025 \/
     exists A, d = a_dir A /\ d <> 0 /\ building s L B F s' L' A /\ carries (p_mem (ph s')) A no_image).
Proof.
  intros O U. unfold on_vm. destruct (setupkvm_ok kdata kdata_mod kdata_range (pages B ++ F) (ph s) (mach s) L (owns_holds _ _ _ _ O) (up_mach_ok _ _ U)) as (d & h & m & L' & E & Hm & S & Hc).
  rewrite E. cbn [res_bind]. exists d, (set_mach m (set_ph h s)), L'. split; [done|]. assert (ran p s (set_mach m (set_ph h s))) as R by (apply ran_memory; [done|by eapply setupkvm_steady]).
  assert (as_rep (p_mem h) B) as HB. { apply (rep_agree (p_mem (ph s))); [apply O|]. eapply same_on_sub, S. unfold pages; set_solver. }
  split; [done|]. split; [done|]. destruct Hc as [(-> & [K1 K2 K3] & P & Hl)|(A & -> & Hd & OA & P & Hu & _)].
  - left. split; [done|]. split; [by split|done].
  - right. exists A. split; [done|]. split; [done|]. split; [by split|]. split; cbn [no_image im_sz im_byte]; change (npages 0) with 0.
    + done.
    + intros n. rewrite Hu, lookup_empty. split; [by intros [? ?]|lia].
    + intros va Hva. apply user_byte_None; [done|]. rewrite Hu, lookup_empty. by intros [? ?].
    + intros n Hn. lia.
Qed.

(** [exec] in three parts. *)
Lemma exec_parts s x : exec kend kdata resume_fs resume_log rounds log_at lock_at dev_read path argv s x =
  (let? (c, s) := curproc s in
   let? (s, x) := begin_op resume_log rounds log_at s x in
   let? (i, s, x) := namei resume_fs rounds lock_at dev_read path s x in
   match i with
   | None => let? (s, x) := end_op log_at s x in Ok (-1, printk "exec: fail\n" [] s, x)
   | Some i =>
       let? (s, x) := ilock resume_fs rounds lock_at i s x in
       let? (r, bs, s, x) := Exec.readi dev_read i 0 sizeof_elf s x in
       if negb (r =? sizeof_elf) then bad kend resume_fs rounds log_at lock_at 0 (Some i) s x
       else
         let? elf := get_elf bs in
         if negb (e_magic elf =? ELF_MAGIC) then bad kend resume_fs rounds log_at lock_at 0 (Some i) s x
         else
           let? (d, s) := on_vm (Vm.setupkvm kend kdata) s in
           if d =? 0 then bad kend resume_fs rounds log_at lock_at 0 (Some i) s x
           else
             let? (sz, s, x) := load_segments kend dev_read (Z.to_nat (e_phnum elf)) (s32 (e_phoff elf)) 0 d i s x in
             match sz with
             | None => bad kend resume_fs rounds log_at lock_at d (Some i) s x
             | Some sz =>
                 let? (s, x) := iunlockput resume_fs rounds lock_at i s x in
                 let? (s, x) := end_op log_at s x in
                 exec_tail c argv (e_entry elf) (PGROUNDUP sz) d s x
             end
   end).
Proof. reflexivity. Qed.

(** What [exec] gives up for. *)
Definition refused (N : Z) : Prop := match program data with Some (_, im) => no_room argv im N | None => True end.

(** From the image on. *)
Lemma load_and_run ip L B F s x cp e : owns kend (ph s) L B F -> ran p st s -> ph s = ph st -> J ip x ->
  pt_proc st !! p = Some cp -> state cp = RUNNING -> kstack cp <> 0 -> a_dir B = pgdir cp ->
  match segments data (Z.to_nat (e_phnum e)) (s32 (e_phoff e)) no_image with Some im => program data = Some (e, im) | None => program data = None end ->
  exists r s' x',
    (let? (d, s) := on_vm (Vm.setupkvm kend kdata) s in
     if d =? 0 then bad kend resume_fs rounds log_at lock_at 0 (Some ip) s x
     else
       let? (sz, s, x) := load_segments kend dev_read (Z.to_nat (e_phnum e)) (s32 (e_phoff e)) 0 d ip s x in
       match sz with
       | None => bad kend resume_fs rounds log_at lock_at d (Some ip) s x
       | Some sz =>
           let? (s, x) := iunlockput resume_fs rounds lock_at ip s x in
           let? (s, x) := end_op log_at s x in
           exec_tail p argv (e_entry e) (PGROUNDUP sz) d s x
       end) = Ok (r, s', x') /\ J4 x' /\
    (r = 0 /\ (exists im A L', program data = Some (e, im) /\ runs argv e im st L B F cp s' A L') \/
     r = -1 /\ (exists L', undone st L B F s' L') /\ refused (Z.of_nat (length L))).
Proof.
  intros O R0 E0 Hx Hp Hst Hk Hd Hprog. destruct (setup_beside s L B F O (rn_up _ _ _ R0)) as (d & s1 & L1 & -> & R1 & S1 & Hc). cbn [res_bind]. rewrite E0 in S1.
  destruct Hc as [(-> & O1 & P1 & Hl)|(A & -> & Hd0 & Hb & Hc)].
  { cbn [Z.eqb]. destruct (bad_early ip s1 x (ran_trans _ _ _ _ R0 R1) Hx) as (s' & x' & -> & R' & Hx' & E'). exists (-1), s', x'. split; [done|]. split; [done|]. right. split; [done|]. split.
    - exists L1. split; [eapply ran_trans; [exact R0|eapply ran_trans; [exact R1|exact R']]|by rewrite E'|done|by rewrite E'].
    - unfold refused. destruct (segments _ _ _ _) as [im|] eqn:Es; rewrite Hprog; [|done]. right. right. apply segments_grow in Es. cbn [no_image im_sz] in Es.
      assert (0 <= npages (im_sz im)) by (apply Z.div_pos; unfold PGSIZE; lia). lia. }
  rewrite (proj2 (Z.eqb_neq _ _) Hd0). assert (building st L B F s1 L1 A) as Hb0. { destruct Hb as [B1 B2 B3 B4]. split; [done|by eapply ran_trans|done|done]. }
  destruct (load_image_ok dev_read ip data (J ip) (fc_file ip) (Z.to_nat (e_phnum e)) (s32 (e_phoff e)) s1 x L1 A (pages B ++ F) no_image) as (r & s2 & x2 & L2 & A2 & E & Hx2 & Hmv & Hr);
    [apply Hb|apply (up_mach_ok p), (rn_up _ _ _ R1)|done|done|].
  cbn [no_image im_sz] in E. rewrite E. cbn [res_bind]. pose proof (building_moved _ _ _ _ _ _ _ _ _ _ Hb0 Hmv) as Hb2. rewrite <- (mv_dir _ _ _ _ _ _ _ Hmv). destruct r as [sz|].
  - destruct Hr as (im & Es & -> & Hc2). rewrite Es in Hprog. destruct (fc_iunlockput ip s2 x2 (bu_ran _ _ _ _ _ _ _ Hb2) Hx2) as (s3 & x3 & -> & [R3 E3] & Hx3). cbn [res_bind].
    destruct (fc_end s3 x3 (ran_trans _ _ _ _ (bu_ran _ _ _ _ _ _ _ Hb2) R3) Hx3) as (s4 & x4 & -> & [R4 E4] & Hx4). cbn [res_bind].
    pose proof (building_same _ _ _ _ _ _ _ s4 Hb2 (ran_trans _ _ _ _ R3 R4) ltac:(congruence)) as Hb4.
    destruct (tail_ok st L B F s4 L2 A2 x4 cp e im Hb4 ltac:(by rewrite E4, E3) Hp Hst Hk Hd) as (r & s' & -> & Hr). exists r, s', x4. split; [done|]. split; [done|].
    destruct Hr as [(-> & A' & L' & Hru)|(-> & Hu & Hno)]; [left; split; [done|]; by exists im, A', L'|right]. split; [done|]. split; [done|]. unfold refused. by rewrite Hprog.
  - destruct (building_bad_open ip _ _ _ _ _ _ x2 Hb2 Hx2) as (s' & x' & L' & -> & Hx' & Hu). exists (-1), s', x'. split; [done|]. split; [done|]. right. split; [done|]. split; [by exists L'|].
    unfold refused. destruct Hr as [Hn|(im & Es & Hl)]; [rewrite Hn in Hprog; by rewrite Hprog|]. rewrite Es in Hprog. rewrite Hprog. right. right.
    rewrite (bu_perm _ _ _ _ _ _ _ Hb0) in Hl. lia.
Qed.

(** The header of the file, as [exec] sees it. *)
Lemma header_cases : let fr := file_read data 0 sizeof_elf in
  fr.1 <> sizeof_elf /\ program data = None \/
  exists e, fr.1 = sizeof_elf /\ get_elf fr.2 = Ok e /\
    if e_magic e =? ELF_MAGIC
    then match segments data (Z.to_nat (e_phnum e)) (s32 (e_phoff e)) no_image with Some im => program data = Some (e, im) | None => program data = None end
    else program data = None.
Proof.
  intros fr. pose proof (get_elf_ok fr.2) as Helf. destruct (file_read_len data 0 sizeof_elf) as [Hlen _]; [lia|done|].
  assert (Forall (fun b => 0 <= b < 256) fr.2) as Hfb.
  { unfold fr, file_read. destruct (_ <=? _); [|constructor]. apply Forall_take, Forall_drop, (ct_bytes _ _ _ _ (fc_file 0)). }
  specialize (Helf Hfb). unfold program. fold fr in Hlen |- *. clearbody fr. destruct fr as [r bs]. cbn [fst snd] in *.
  destruct (Z.eqb_spec r sizeof_elf) as [->|Hne]; cbn [negb]; [right|by left]. destruct Helf as (e & Ee); [by rewrite Hlen|].
  exists e. split; [done|]. split; [done|]. rewrite Ee. destruct (e_magic e =? ELF_MAGIC); cbn [negb]; [|done]. by destruct (segments _ _ _ _).
Qed.

Lemma bad_header ip L B F s x : owns kend (ph s) L B F -> ran p st s -> ph s = ph st -> J ip x -> program data = None ->
  exists s' x', bad kend resume_fs rounds log_at lock_at 0 (Some ip) s x = Ok (-1, s', x') /\ J4 x' /\ (exists L', undone st L B F s' L') /\ refused (Z.of_nat (length L)).
Proof.
  intros O R E Hx Hn. destruct (bad_early ip s x R Hx) as (s' & x' & Eb & R' & Hx' & E'). exists s', x'. split; [done|]. split; [done|].
  split; [|unfold refused; by rewrite Hn]. exists L. split; [by eapply ran_trans|by rewrite E'|done|by rewrite E', E].
Qed.

Lemma exec_ok x L B F cp : up p st -> J0 x -> owns kend (ph st) L B F -> pt_proc st !! p = Some cp -> kstack cp <> 0 -> a_dir B = pgdir cp ->
  exists r s' x', exec kend kdata resume_fs resume_log rounds log_at lock_at dev_read path argv st x = Ok (r, s', x') /\ J4 x' /\
    (r = 0 /\ (exists e im A L', program data = Some (e, im) /\ runs argv e im st L B F cp s' A L') \/
     r = -1 /\ (exists L', undone st L B F s' L') /\ refused (Z.of_nat (length L))).
Proof.
  intros U Hx O Hp Hk Hd. assert (state cp = RUNNING) as Hst. { destruct (up_self _ _ U) as (pr & Hpr & Hr). congruence. }
  rewrite exec_parts. destruct (up_cpu _ _ U) as (c & Ho). destruct (curproc_outside c p st Ho) as (m & -> & Ho1). cbn [res_bind].
  pose proof (ran_mach p c st m U Ho1) as R1. destruct (fc_begin _ x R1 Hx) as (s2 & x2 & -> & [R2 E2] & Hx2). cbn [res_bind].
  destruct (fc_namei _ x2 (ran_trans _ _ _ _ R1 R2) Hx2) as (ip & s3 & x3 & -> & [R3 E3] & Hx3). cbn [res_bind].
  destruct (fc_ilock ip _ x3 (ran_trans _ _ _ _ R1 (ran_trans _ _ _ _ R2 R3)) Hx3) as (s4 & x4 & -> & [R4 E4] & Hx4). cbn [res_bind].
  assert (ran p st s4) as R by (eapply ran_trans; [exact R1|eapply ran_trans; [exact R2|eapply ran_trans; [exact R3|exact R4]]]).
  assert (ph s4 = ph st) as E by (rewrite E4, E3, E2; done). assert (owns kend (ph s4) L B F) as O4 by by rewrite E.
  destruct (ct_read _ _ _ _ (fc_file ip) s4 x4 0 sizeof_elf Hx4) as (x5 & -> & Hx5); [lia|done|]. cbn [res_bind].
  pose proof (bad_header ip L B F s4 x5 O4 R E Hx5) as Hbad.
  assert (program data = None -> exists r s' x', bad kend resume_fs rounds log_at lock_at 0 (Some ip) s4 x5 = Ok (r, s', x') /\ J4 x' /\
    (r = 0 /\ (exists e im A L', program data = Some (e, im) /\ runs argv e im st L B F cp s' A L') \/ r = -1 /\ (exists L', undone st L B F s' L') /\ refused (Z.of_nat (length L)))) as Hbad'.
  { intros Hn. destruct (Hbad Hn) as (s' & x' & H1 & H2 & H3). exists (-1), s', x'. split_and!; try done. by right. }
  clear Hbad. destruct header_cases as [[Hne Hn]|(e & -> & -> & Hpr)]; [rewrite (proj2 (Z.eqb_neq _ _) Hne); by apply Hbad'|].
  cbn [res_bind]. rewrite Z.eqb_refl. cbn [negb]. destruct (e_magic e =? ELF_MAGIC); cbn [negb]; [|by apply Hbad'].
  destruct (load_and_run ip L B F s4 x5 cp e) as (r & s' & x' & Er & Hx' & Hr); try done. exists r, s', x'. split; [exact Er|]. split; [done|].
  destruct Hr as [(-> & im & A & L' & Hi & Hru)|Hr]; [left; split; [done|]; by exists e, im, A, L'|by right].
Qed.
End Tail.
End Whole.

(** * The file *)

Section Files.
Import Exec Ptable Fs.
Context `{SV : Services} (resume_fs : kst -> fsx -> kst * fsx) (resume_log : kst -> lst -> kst * lst) (rounds : nat) (Hrounds : (0 < rounds)%nat) (log_at : Z) (lock_at : Z -> Z).
Context (dev_read : Z -> option (Z -> Z -> kst -> fsx -> res (Z * list Z * kst * fsx))).
Implicit Types (s : kst) (x : ftx) (y : fsx) (ip : Z) (d : dinode).

(** Inode [d] is a file with the contents [data]. *)
Record file_on y d (data : list Z) : Prop := {
  fl_type : d_type d <> T_DEV;
  fl_size : 0 <= d_size d < 2 ^ 31;
  fl_map pos : 0 <= pos < d_size d -> mapped (view d y) 0 (pos / BSIZE);
  fl_data : data = map (fbyte (view d y) 0) (seqZ 0 (d_size d));
  fl_bytes : Forall (fun b => 0 <= b < 256) data
}.

Lemma file_on_len y d data : file_on y d data -> Z.of_nat (length data) = d_size d.
Proof. intros [_ H _ -> _]. rewrite length_map, length_seqZ. lia. Qed.

Lemma file_on_unwritten y y' d data : unwritten y y' -> holds y' = holds y -> file_on y d data -> file_on y' d data.
Proof.
  intros Hu Hh [H1 H2 H3 H4 H5]. pose proof (view_same d y y' Hu Hh) as Hs. split; try done.
  - intros pos Hpos. by apply (mapped_same (view d y)), H3.
  - rewrite H4. apply map_ext. intros pos. symmetry. by apply fbyte_same.
Qed.

Lemma view_mapped y i k : i_dev (ic y i) = 1 -> mapped (view (i_d (ic y i)) y) 0 k -> mapped y i k.
Proof. intros Hd [M1 M2 M3 M4 M5]. by split. Qed.

Lemma seqZ_part (f : Z -> Z) off m sz : 0 <= off -> 0 <= m -> off + m <= sz -> map f (seqZ off m) = take (Z.to_nat m) (drop (Z.to_nat off) (map f (seqZ 0 sz))).
Proof.
  intros H0 Hm Hs. replace sz with (off + (m + (sz - off - m))) by lia. rewrite seqZ_app, seqZ_app, !map_app by lia. rewrite Z.add_0_l.
  rewrite drop_app_length' by (rewrite length_map, length_seqZ; done). by rewrite take_app_length' by (rewrite length_map, length_seqZ; done).
Qed.

(** Reading it. *)
Lemma readi_file y i d data off n s : file_on y d data -> i_d (ic y i) = d -> i_dev (ic y i) = 1 -> 0 <= off < 2 ^ 32 -> 0 <= n < 2 ^ 31 ->
  exists y', Fs.readi dev_read i off n s y = Ok ((file_read data off n).1, (file_read data off n).2, s, y') /\ same y y'.
Proof.
  intros Hf Hd Hdev Hoff Hn. pose proof (file_on_len _ _ _ Hf) as Hlen. destruct Hf as [H1 H2 H3 H4 H5]. pose proof (readi_ok dev_read i off n s y) as Hr. rewrite Hd in Hr. cbv zeta in Hr.
  specialize (Hr H1 Hoff Hn H2). unfold file_read. rewrite Hlen. assert (forall pos, 0 <= pos < d_size d -> mapped y i (pos / BSIZE)) as Hmp.
  { intros pos Hpos. apply view_mapped; [done|]. rewrite Hd. by apply H3. }
  specialize (Hr Hmp). destruct (Z.leb_spec off (d_size d)) as [Hle|Hgt].
  - rewrite decide_True in Hr by done. destruct Hr as (y' & E & Hs). exists y'. split; [|done]. rewrite E. cbn [fst snd]. rewrite H4, <- seqZ_part by lia. rewrite <- Hd. done.
  - rewrite decide_False in Hr by lia. exists y. by split.
Qed.

(** ** The states of the file system during exec *)

Context (p : nat) (pr : proc) (Hrun : state pr = RUNNING) (D : Z -> Prop) (x0 : ftx) (n : Z).
Definition refs0 (j : Z) : Z := i_ref (ic (ft_fs x0) j).

(** [k] operations are under way, inode [h] is locked and there is one more
    reference to [r]; the disk is as it was in [x0]. *)
Record rests (k : Z) (h r : option Z) x : Prop := {
  rs_calm : calm h (ft_fs x);
  rs_disk : unwritten (ft_fs x0) (ft_fs x);
  rs_log : log_open k (lg (f_log (ft_fs x)));
  rs_lrest : log_rest (lg (f_log (ft_fs x))) = log_rest (lg (f_log (ft_fs x0)));
  rs_refs : refs_at refs0 r (ft_fs x);
  rs_files y : set_ft_fs y x = set_ft_fs y x0
}.

Context (Hcalm : calm None (ft_fs x0)) (Htree : tree (ft_fs x0) D) (Hfree : two_free refs0).

Lemma rests_holds k h r x : rests k h r x -> holds (ft_fs x) = holds (ft_fs x0).
Proof. intros H. by rewrite (cm_held _ _ (rs_calm _ _ _ _ H)), (cm_held _ _ Hcalm). Qed.

Lemma rests_tree k h r x : rests k h r x -> tree (ft_fs x) D.
Proof. intros H. apply (tree_unwritten (ft_fs x0)); [apply H|by eapply rests_holds|done]. Qed.

(** A call of fs.c. *)
Lemma rests_fs k h r x h' r' y : rests k h r x -> calm h' y -> keeps (ft_fs x) y -> refs_at refs0 r' y -> rests k h' r' (set_ft_fs y x).
Proof.
  intros [R1 R2 R3 R4 R5 R6] Hc K Hr. pose proof (kp_lg _ _ K) as El. split; cbn [ft_fs set_ft_fs].
  - exact Hc.
  - etrans; [exact R2|by apply keeps_unwritten].
  - by rewrite El.
  - by rewrite El.
  - exact Hr.
  - intros y'. rewrite <- (R6 y'). done.
Qed.

(** The inode [i] of the file, found and not locked, and locked. *)
Context (path : list Z) (start inum : Z) (d : dinode) (data : list Z).
Context (Hstart : D start) (Hstarts : starts pr (ft_fs x0) path start) (Hpath : Forall (fun c : Z => c <> 0) path).
Context (Hres : resolve false (ft_fs x0) (elems path) start = Some inum) (Hon : inode_on (ft_fs x0) inum d) (Hfile : file_on (ft_fs x0) d data).

Record found_at k ip x : Prop := {
  fd_rests : rests k None (Some ip) x;
  fd_slot : slot_of ip;
  fd_caches : caches (ft_fs x) ip 1 inum
}.

Record open_at k ip x : Prop := {
  oa_rests : rests k (Some ip) (Some ip) x;
  oa_slot : slot_of ip;
  oa_caches : caches (ft_fs x) ip 1 inum;
  oa_mine : inode_mine pr ip (ft_fs x);
  oa_inode : i_d (ic (ft_fs x) ip) = d
}.

Lemma rests_on k h r x : rests k h r x -> inode_on (ft_fs x) inum d.
Proof.
  intros H. pose proof (rs_disk _ _ _ _ H) as U. destruct Hon as [O1 O2 O3 O4]. split; [by rewrite (unwritten_at _ _ _ U)|exact O2|exact O3|by rewrite (uw_sb _ _ U), (uw_nblk _ _ U)].
Qed.

Lemma open_contains k ip : contains dev_read ip data (open_at k ip).
Proof.
  split.
  - apply Hfile.
  - rewrite (file_on_len _ _ _ Hfile). pose proof (fl_size _ _ _ Hfile). lia.
  - intros s x off m [Hr Hi Hc Hm Hd] Hoff Hm'. unfold Exec.readi, Sysfile.on_fs.
    destruct (readi_file (ft_fs x) ip d data off m s) as (y & -> & Hs); [|done|apply Hc|done|done|].
    { apply (file_on_unwritten (ft_fs x0)); [apply Hr|by eapply rests_holds|done]. }
    cbn [res_bind]. exists (set_ft_fs y x). split; [done|]. pose proof (fr_ic _ _ (sm_frame _ _ Hs)) as Eic.
    split; cbn [ft_fs set_ft_fs]; [|done|unfold caches; by rewrite Eic|unfold inode_mine; by rewrite Eic|by rewrite Eic].
    eapply rests_fs; [exact Hr|eapply calm_same; [apply Hr|done]|by apply same_keeps|]. unfold refs_at. rewrite Eic. apply Hr.
Qed.

Lemma open_ilock k ip s x : up p s -> pt_proc s !! p = Some pr -> found_at k ip x ->
  exists s' x', Exec.ilock resume_fs rounds lock_at ip s x = Ok (s', x') /\ called p s s' /\ open_at k ip x'.
Proof.
  intros U Hp [Hr Hi Hc]. unfold Exec.ilock, File.ilock. destruct (walk_locked resume_fs rounds lock_at Hrounds p pr s (ft_fs x) ip inum d U Hp (rs_calm _ _ _ _ Hr) Hi Hc (rests_on _ _ _ _ Hr))
    as (s' & y & -> & C & Hc' & K & Hm & Hd & Hf & Hca & _). cbn [res_bind]. exists s', (set_ft_fs y x). split; [done|]. split; [done|]. split; try done.
  eapply rests_fs; [exact Hr|done|done|]. eapply refs_fields; [exact Hf|apply Hr].
Qed.

Lemma open_put k ip s x : up p s -> pt_proc s !! p = Some pr -> open_at k ip x ->
  exists s' x', Exec.iunlockput resume_fs rounds lock_at ip s x = Ok (s', x') /\ called p s s' /\ rests k None None x'.
Proof.
  intros U Hp [Hr Hi Hc Hm Hd]. unfold Exec.iunlockput, Sysfile.iunlockput, Sysfile.on_fs_.
  destruct (iunlockput_calm resume_fs rounds lock_at Hrounds p pr Hrun s (ft_fs x) ip inum d U Hp (rs_calm _ _ _ _ Hr) Hm Hi Hc (rests_on _ _ _ _ Hr)) as (s' & y & -> & C & Hc' & K & Hf).
  cbn [res_bind]. exists s', (set_ft_fs y x). split; [done|]. split; [done|]. eapply rests_fs; [exact Hr|done|done|]. eapply refs_drop; [exact Hrounds|apply Hr|exact Hf].
Qed.

(** What [begin_op] and [end_op] do to it. *)
Lemma rests_op k h r x k' l : rests k h r x -> log_open k' (lg l) -> log_rest (lg l) = log_rest (lg (f_log (ft_fs x))) -> bd l = bd (f_log (ft_fs x)) ->
  rests k' h r (set_ft_fs (set_f_log l (ft_fs x)) x).
Proof.
  intros [R1 R2 R3 R4 R5 R6] Ho Hl Hb. assert (unwritten (ft_fs x) (set_f_log l (ft_fs x))) as Hu by (split; unfold cont, nblocks; cbn [f_log set_f_log f_sb]; by rewrite ?Hb).
  split; cbn [ft_fs set_ft_fs f_log set_f_log].
  - destruct R1 as [C1 C2 C3 C4 C5]. split; [destruct C1 as [A1 A2]; by split|exact C2|exact C3| |].
    + intros i. rewrite (unwritten_at _ _ _ Hu). apply C4.
    + unfold holds. cbn [f_log set_f_log]. rewrite Hb. exact C5.
  - by etrans.
  - exact Ho.
  - by rewrite Hl.
  - exact R5.
  - intros y. rewrite <- (R6 y). done.
Qed.

Lemma open_begin k h r s x : up p s -> rests k h r x -> lh_n (lg (f_log (ft_fs x0))) + (k + 1) * MAXOPBLOCKS <= LOGSIZE ->
  exists s' x', Exec.begin_op resume_log rounds log_at s x = Ok (s', x') /\ called p s s' /\ rests (k + 1) h r x' /\ ic (ft_fs x') = ic (ft_fs x).
Proof.
  intros U Hr Hroom. unfold Exec.begin_op, File.begin_op. assert (lh_n (lg (f_log (ft_fs x))) = lh_n (lg (f_log (ft_fs x0)))) as En by apply (f_equal lh_n (rs_lrest _ _ _ _ Hr)).
  destruct (begin_op_room resume_log log_at k rounds p s (f_log (ft_fs x)) U (rs_log _ _ _ _ Hr)) as (s' & l & -> & C & Ho & Hl & Hb); [lia|done|].
  cbn [res_bind]. do 2 eexists. split; [done|]. split; [done|]. split; [|done]. by eapply rests_op.
Qed.

Lemma open_end k h r s x : up p s -> rests k h r x -> 1 <= k -> (k = 1 -> lh_n (lg (f_log (ft_fs x0))) = 0) ->
  exists s' x', Exec.end_op log_at s x = Ok (s', x') /\ called p s s' /\ rests (k - 1) h r x'.
Proof.
  intros U Hr Hk Hz. unfold Exec.end_op, File.end_op. assert (lh_n (lg (f_log (ft_fs x))) = lh_n (lg (f_log (ft_fs x0)))) as En by apply (f_equal lh_n (rs_lrest _ _ _ _ Hr)).
  destruct (end_op_reader log_at k p s (f_log (ft_fs x)) U (rs_log _ _ _ _ Hr) Hk) as (s' & l & -> & C & Ho & Hl & Hb); [intros E; rewrite En; by apply Hz|].
  cbn [res_bind]. do 2 eexists. split; [done|]. split; [done|]. by eapply rests_op.
Qed.

(** [namei] of the path. *)
Lemma open_namei k s x : up p s -> pt_proc s !! p = Some pr -> rests k None None x -> ic (ft_fs x) = ic (ft_fs x0) ->
  exists r s' x', Exec.namei resume_fs rounds lock_at dev_read path s x = Ok (r, s', x') /\ called p s s' /\
    match resolve false (ft_fs x0) (elems path) start with
    | Some i => exists ip, r = Some ip /\ rests k None (Some ip) x' /\ slot_of ip /\ caches (ft_fs x') ip 1 i
    | None => r = None /\ rests k None None x'
    end.
Proof.
  clear Hres. intros U Hp Hr Eic. unfold Exec.namei, Sysfile.namei, Sysfile.on_fs, Fs.namei.
  destruct (namex_ok dev_read resume_fs rounds lock_at Hrounds p pr Hrun D path false (repeat 0 DIRSIZ) s (ft_fs x) start U Hp (rs_calm _ _ _ _ Hr) (rests_tree _ _ _ _ Hr) Hstart)
    as (r & nm & s' & y & -> & C & Hc & K & Hw); [..|done|done|].
  - unfold starts, caches in *. rewrite Eic. exact Hstarts.
  - unfold two_free, refs0 in *. by rewrite Eic.
  - cbn [res_bind]. exists r, s', (set_ft_fs y x). split; [done|]. split; [done|]. unfold walked in Hw. rewrite (resolve_unwritten false (ft_fs x0) (ft_fs x) (rs_disk _ _ _ _ Hr) (rests_holds _ _ _ _ Hr)) in Hw.
    rewrite Eic in Hw. destruct (resolve _ _ _ _) as [i|].
    + destruct Hw as (q & -> & Hq & Hca & Hrf & _). exists q. split; [done|]. split; [by eapply rests_fs|done].
    + destruct Hw as [-> Hrf]. split; [done|]. by eapply rests_fs.
Qed.

(** *** The calls of exec *)

Context (st : kst) (Hproc : pt_proc st !! p = Some pr) (Hn : 0 <= n) (Hroom : lh_n (lg (f_log (ft_fs x0))) + (n + 1) * MAXOPBLOCKS <= LOGSIZE)
  (Hlogged : n = 0 -> lh_n (lg (f_log (ft_fs x0))) = 0).

Lemma ran_proc s : ran p st s -> up p s /\ pt_proc s !! p = Some pr.
Proof. intros R. split; [apply R|by eapply ran_self]. Qed.

Definition resting k x : Prop := rests k None None x /\ ic (ft_fs x) = ic (ft_fs x0).

Lemma exec_calls : FileCalls resume_fs resume_log rounds log_at lock_at dev_read p path data st (resting n) (resting (n + 1)) (found_at (n + 1)) (open_at (n + 1))
  (rests (n + 1) None None) (rests n None None).
Proof.
  split.
  - intros s x R [Hr Hi]. destruct (ran_proc s R) as [U Hp]. destruct (open_begin n None None s x U Hr Hroom) as (s' & x' & E & C & Hr' & Ei). exists s', x'. split; [exact E|]. split; [exact C|]. split; [exact Hr'|]. by rewrite Ei.
  - intros s x R [Hr Hi]. destruct (ran_proc s R) as [U Hp]. destruct (open_namei (n + 1) s x U Hp Hr Hi) as (r & s' & x' & E & C & Hm). rewrite Hres in Hm. destruct Hm as (ip & -> & Hr' & Hs & Hc).
    exists ip, s', x'. by split_and!.
  - intros ip s x R H. destruct (ran_proc s R) as [U Hp]. by apply open_ilock.
  - intros ip. apply open_contains.
  - intros ip s x R H. destruct (ran_proc s R) as [U Hp]. by apply (open_put _ ip).
  - intros s x R H. destruct (ran_proc s R) as [U Hp]. destruct (open_end (n + 1) None None s x U H) as (s' & x' & E & C & Hr'); [lia|intros E; apply Hlogged; lia|].
    exists s', x'. split; [exact E|]. split; [exact C|]. by replace (n + 1 - 1) with n in Hr' by lia.
Qed.
End Files.

(** * The theorem *)

(** A process that can call [exec]: it runs in the address space [B]. *)
Record caller `{SV : Services} kend (p : nat) (cp : proc) (s : kst) (L F : list Z) (B : aspace) : Prop := {
  cr_up : up p s;
  cr_proc : pt_proc s !! p = Some cp;
  cr_stack : kstack cp <> 0;
  cr_space : owns kend (ph s) L B F;
  cr_dir : a_dir B = pgdir cp
}.

(** A file system at rest in which the path starts at [start]: [n] operations
    are under way, and one more fits into the log. *)
Record fs_ready (cp : proc) (x : ftx) (n : Z) (D : Z -> Prop) (path : list Z) (start : Z) : Prop := {
  fr_calm : calm None (ft_fs x);
  fr_log : log_open n (lg (f_log (ft_fs x)));
  fr_count : 0 <= n;
  fr_room : lh_n (lg (f_log (ft_fs x))) + (n + 1) * MAXOPBLOCKS <= LOGSIZE;
  fr_logged : n = 0 -> lh_n (lg (f_log (ft_fs x))) = 0;
  fr_tree : tree (ft_fs x) D;
  fr_start : D start;
  fr_starts : starts cp (ft_fs x) path start;
  fr_path : Forall (fun c : Z => c <> 0) path;
  fr_free : two_free (fun j => i_ref (ic (ft_fs x) j))
}.

(** Arguments that take at most two pages with their pointers. *)
Record args_ok (argv : list (list Z)) : Prop := {
  ak_bytes : Forall (Forall is_byte) argv;
  ak_count : Z.of_nat (length argv) <= MAXARG;
  ak_size : 0 <= sp_of (2 * PGSIZE) argv
}.

Section Spec.
Import Exec Ptable.
Context `{SV : Services} (kend : Z) (Hkend : kend_above kend) (kdata : Z) (kdata_mod : kdata mod PGSIZE = 0) (kdata_range : Vm.KERNLINK < kdata < P2V PHYSTOP).
Context (resume_fs : kst -> fsx -> kst * fsx) (resume_log : kst -> lst -> kst * lst) (rounds : nat) (Hrounds : (0 < rounds)%nat) (log_at : Z) (lock_at : Z -> Z).
Context (dev_read : Z -> option (Z -> Z -> kst -> fsx -> res (Z * list Z * kst * fsx))).

Lemma ready_rests cp x n D path start : fs_ready cp x n D path start -> rests x n None None x.
Proof.
  intros H. split; try apply H; try done. intros j Hj. rewrite bool_decide_false by done. unfold refs0. lia.
Qed.

(** The path leads nowhere. *)
Lemma exec_missing p cp path argv s x n D start L F B : caller kend p cp s L F B -> fs_ready cp x n D path start -> resolve false (ft_fs x) (elems path) start = None ->
  exists s1 x', exec kend kdata resume_fs resume_log rounds log_at lock_at dev_read path argv s x = Ok (-1, printk "exec: fail\n" [] s1, x') /\ called p s s1 /\ rests x n None None x'.
Proof.
  intros [U Hp Hk O Hd] Hf Hres. assert (state cp = RUNNING) as Hst. { destruct (up_self _ _ U) as (pr & Hpr & Hr). congruence. }
  pose proof (ready_rests _ _ _ _ _ _ Hf) as Hr0. destruct Hf as [F1 F2 F3 F4 F5 F6 F7 F8 F9 F10]. unfold exec.
  destruct (up_cpu _ _ U) as (c & Ho). destruct (curproc_outside c p s Ho) as (m & -> & Ho1). cbn [res_bind]. pose proof (called_mach p c s m U Ho1) as C1.
  destruct (open_begin resume_log rounds Hrounds log_at p x n None None _ x (called_up _ _ _ C1) Hr0 F4) as (s2 & x2 & -> & C2 & Hr2 & Ei2). cbn [res_bind].
  destruct (open_namei resume_fs rounds Hrounds lock_at dev_read p cp Hst D x F1 F6 F10 path start F7 F8 F9 (n + 1) s2 x2 (called_up _ _ _ C2)) as (r & s3 & x3 & -> & C3 & Hm); [|done|done|].
  { eapply called_self; [exact Hst|exact C2|]. by eapply called_self. }
  rewrite Hres in Hm. destruct Hm as [-> Hr3]. cbn [res_bind]. destruct (open_end log_at p x (n + 1) None None s3 x3 (called_up _ _ _ C3) Hr3) as (s4 & x4 & -> & C4 & Hr4); [lia|intros E; apply F5; lia|].
  cbn [res_bind]. exists s4, x4. split; [done|]. split; [eapply called_trans; [exact C1|]; eapply called_trans; [exact C2|]; by eapply called_trans|]. by replace (n + 1 - 1) with n in Hr4 by lia.
Qed.

(** C2: [exec] of a path.  When the path leads to a file with the contents [data], it
    returns 0 and the process runs the program that the headers in [data]
    describe: its memory holds the segments and zeroes, byte for byte, below
    the guard page that user code cannot reach, and the stack page with the
    arguments; its entry in the process table, its trap frame and the page table
    in use are the new ones, and every page of the old space is free.  Or it
    returns -1, the process has its old space with the same contents and every
    page that was free is free again; this happens only when the headers
    describe no program, or the image with its stack does not fit below the
    kernel, the arguments not into the stack page, or memory is short.  If the
    path leads nowhere it prints a message and returns -1.  In each case the
    disk, the reference counts and the locks are as before. *)
Theorem exec_spec p cp path argv s x n D start L F B : caller kend p cp s L F B -> fs_ready cp x n D path start -> args_ok argv ->
  match resolve false (ft_fs x) (elems path) start with
  | None => exists s1 x', exec kend kdata resume_fs resume_log rounds log_at lock_at dev_read path argv s x = Ok (-1, printk "exec: fail\n" [] s1, x') /\
      called p s s1 /\ rests x n None None x'
  | Some inum => forall d data, dinode_at (ft_fs x) inum = Ok d -> file_on (ft_fs x) d data ->
      exists r s' x', exec kend kdata resume_fs resume_log rounds log_at lock_at dev_read path argv s x = Ok (r, s', x') /\ rests x n None None x' /\
        (r = 0 /\ (exists e im A L', program data = Some (e, im) /\ runs (kend:=kend) p path argv e im s L B F cp s' A L') \/
         r = -1 /\ (exists L', undone (kend:=kend) p s L B F s' L') /\
           match program data with
           | Some (_, im) => KERNBASE <= top im \/ sp_of (top im) argv < top im - PGSIZE \/ Z.of_nat (length L) <= 2052 + npages (im_sz im)
           | None => True
           end)
  end.
Proof.
  intros Hc Hf [A1 A2 A3]. destruct (resolve _ _ _ _) as [inum|] eqn:Hres; [|by eapply exec_missing]. intros d data Hd0 Hfile. pose proof (ready_rests _ _ _ _ _ _ Hf) as Hr0.
  destruct Hf as [F1 F2 F3 F4 F5 F6 F7 F8 F9 F10], Hc as [U Hp Hk O Hd]. assert (state cp = RUNNING) as Hst. { destruct (up_self _ _ U) as (pr & Hpr & Hr). congruence. }
  assert (inode_on (ft_fs x) inum d) as Hon. { destruct (tr_inode _ _ F6 inum (resolve_in _ _ F6 _ _ _ F7 Hres)) as (d' & Hon'). pose proof (io_at _ _ _ Hon') as E. rewrite Hd0 in E. by injection E as ->. }
  pose proof (exec_calls resume_fs resume_log rounds Hrounds log_at lock_at dev_read p cp Hst D x n F1 F6 F10 path start inum d data F7 F8 F9 Hres Hon Hfile s Hp F3 F4 F5) as FC.
  destruct (exec_ok kdata kdata_mod kdata_range resume_fs resume_log rounds log_at lock_at dev_read p path data s (FC := FC) argv A1 A2 A3 x L B F cp U ltac:(by split) O Hp Hk Hd)
    as (r & s' & x' & E & Hx & Hr). by exists r, s', x'.
Qed.
End Spec.

(** * The example *)

#[local] Instance exec_demo_above : kend_above kernel_end.
Proof. done. Qed.

(** An address space without user pages, and more than 3000 free pages. *)
Lemma demo_rich : exists h L A, owns kernel_end h L A [] /\ 3000 <= Z.of_nat (length L).
Proof.
  destruct (demo_pool_of 5000 ltac:(lia)) as (h & m & L & H & Hm & Hl).
  destruct (setupkvm_ok demo_kdata eq_refl demo_kdata_range [] h m L H Hm) as (r & h' & m' & L' & _ & _ & _ & [(_ & _ & _ & Hs)|(A & _ & _ & O & P & U & _)]); [lia|].
  exists h', L', A. split; [done|]. apply Permutation_length in P. rewrite length_app, pages_length, U in P. change (length (vals ∅)) with 0%nat in P. pose proof (tabs_size _ _ (ow_rep _ _ _ _ O)). lia.
Qed.

Definition exec_kst (h : phys) (d : Z) : kst :=
  set_ph h (set_pt_proc [set_pgdir d (set_sz 0 (demo_proc RUNNING 1 0)); demo_proc SLEEPING 2 1] demo_running).
Definition exec_ftx : ftx := set_ft_fs demo_tree demo_ft.

Lemma exec_demo_caller h L A : owns kernel_end h L A [] -> caller kernel_end 0 (set_pgdir (a_dir A) (set_sz 0 (demo_proc RUNNING 1 0))) (exec_kst h (a_dir A)) L [] A.
Proof.
  intros O. split; [|done|done|exact O|done]. split; [exists 0%nat; by exists (demo_cpu 0 (Some 0%nat))|done|]. eexists. split; [reflexivity|done].
Qed.

Lemma exec_demo_ready cp : fs_ready cp exec_ftx 0 demo_inums [47; 105; 110; 105; 116] 1.
Proof.
  split; try done.
  - apply demo_calm.
  - apply demo_tree_ok.
  - by left.
  - apply (bool_decide_unpack _). by vm_compute.
  - exists 0, 1. by vm_compute.
Qed.

Lemma exec_demo_file : file_on demo_tree demo_d2 demo_program.
Proof.
  split; [done|done| | |].
  - intros pos Hpos. change (d_size demo_d2) with 88 in Hpos. replace (pos / BSIZE) with 0 by (symmetry; apply Z.div_small; unfold BSIZE; lia).
    split; [done|done|done| |done]. apply (demo_tree_live 60). lia.
  - by vm_compute.
  - apply (bool_decide_unpack _). by vm_compute.
Qed.

Lemma demo_image : match program demo_program with Some (e, im) => im_sz im = 8 /\ im_byte im 0 = Some 0xEB /\ im_byte im 3 = Some 2 /\ im_byte im 4 = Some 0 | None => False end.
Proof. by vm_compute. Qed.

(** "/init" with the argument "init": the process gets the four bytes of the
    program's segment. *)
Lemma exec_spec_witness : exists h d s' x',
  Exec.exec kernel_end demo_kdata (fun s x => (s, x)) (fun s x => (s, x)) 1 500 (fun i => 1000 + i) (fun _ => None) [47; 105; 110; 105; 116] [[105; 110; 105; 116]] (exec_kst h d) exec_ftx = Ok (0, s', x') /\
  exists A, cr3 s' = V2P (a_dir A) /\ user_byte (p_mem (ph s')) A 0 = Some 0xEB /\ user_byte (p_mem (ph s')) A 3 = Some 2 /\ user_byte (p_mem (ph s')) A 4 = Some 0.
Proof.
  destruct demo_rich as (h & L & A & O & Hl). exists h, (a_dir A).
  pose proof (exec_spec kernel_end exec_demo_above demo_kdata eq_refl demo_kdata_range (fun s x => (s, x)) (fun s x => (s, x)) 1 ltac:(lia) 500 (fun i => 1000 + i) (fun _ => None)
    0 _ [47; 105; 110; 105; 116] [[105; 110; 105; 116]] (exec_kst h (a_dir A)) exec_ftx 0 demo_inums 1 L [] A (exec_demo_caller h L A O) (exec_demo_ready _)) as H.
  assert (args_ok [[105; 110; 105; 116]]) as Ha. { split; [apply (bool_decide_unpack _); by vm_compute|done|done]. }
  specialize (H Ha). assert (resolve false (ft_fs exec_ftx) (elems [47; 105; 110; 105; 116]) 1 = Some 2) as Er by by vm_compute. rewrite Er in H.
  destruct (H demo_d2 demo_program demo_at2 exec_demo_file) as (r & s' & x' & E & _ & Hr). clear H. exists s', x'.
  pose proof demo_image as Hp.
  destruct (program demo_program) as [[e im]|]; [|destruct Hp]. destruct Hp as (P1 & P2 & P3 & P4). destruct Hr as [(-> & e' & im' & A' & L' & [= <- <-] & Hru)|(_ & _ & Hno)].
  - split; [exact E|]. exists A'. split; [apply Hru|]. rewrite <- P2, <- P3, <- P4. split_and!; apply Hru; rewrite P1; change (PGSIZE * npages 8) with 4096; lia.
  - exfalso. unfold top in Hno. rewrite P1 in Hno. change (npages 8) with 1 in Hno. destruct Hno as [Hno|[Hno|Hno]]; [by apply Hno|by vm_compute in Hno|lia].
Defined.
