(* ===== verification/Mkfs.v ===== *)
(** The builder of the file system image: [mkfs.c], a program of the host.

    The image is the list of its sectors, as [lseek], [read] and [write] of the
    host reach them.  The host is little-endian, and its calls on the image
    succeed; [Panic] is [exit(1)] or a failed [assert].  The arguments are the
    names of the files with what [open] and each [read] of a file return. *)

From S2P Require Import Prelude CString Spinlock Kalloc Proc Demo MlfqFacts ProcFacts Sleep Block Log Fs Ide.

Definition NINODES : Z := 200.
Definition nbitmap : Z := FSSIZE / (BSIZE * 8) + 1.
Definition ninodeblocks : Z := NINODES / IPB + 1.
Definition nlog : Z := LOGSIZE.
Definition nmeta : Z := 2 + nlog + ninodeblocks + nbitmap.
Definition nblocks : Z := FSSIZE - nmeta.

(** [xshort] and [xint]: the bytes in intel order, read back as a number. *)
Definition xshort (x : Z) : Z := dec (enc 2 x).
Definition xint (x : Z) : Z := dec (enc 4 x).

Definition zeroes : block := repeat 0 (Z.to_nat BSIZE).

(** The globals [freeinode], [freeblock] and [sb], and the image. *)
Record mk := mkMk { img : list block; freeinode : Z; freeblock : Z; mk_sb : superblock }.
#[export] Instance mk_eta : Eta mk := fun m => mkMk (img m) (freeinode m) (freeblock m) (mk_sb m).
Definition set_img := ltac:(setter img).
Definition set_freeinode := ltac:(setter freeinode).
Definition set_freeblock := ltac:(setter freeblock).
Definition set_mk_sb := ltac:(setter mk_sb).

(** A file of the host: its name, and what each [read] returns; [None] when
    [open] fails. *)
Record hostfile := mkHost { h_name : list Z; h_reads : option (list (list Z)) }.

Module Mkfs.
Implicit Types (m : mk) (buf : block).

(** The sector at the offset [sec * BSIZE], a [uint]. *)
Definition sector (sec : Z) : Z := u32 (sec * BSIZE) / BSIZE.

(** Writing behind the end leaves a hole of zeroes. *)
Definition wsect (sec : Z) buf m : mk :=
  let k := Z.to_nat (sector sec) in
  set_img (if decide (k < length (img m))%nat then <[k := buf]> (img m)
           else img m ++ repeat zeroes (k - length (img m)) ++ [buf]) m.

Definition rsect (sec : Z) m : res block :=
  match img m !! Z.to_nat (sector sec) with
  | Some buf => Ok buf
  | None => Panic "read"
  end.

Definition winode (inum : Z) (ip : dinode) m : res mk :=
  let bn := IBLOCK inum (mk_sb m) in
  let? buf := rsect bn m in
  let? buf := Fs.put_dinode ip buf (Fs.dip_off inum) in
  Ok (wsect bn buf m).

Definition rinode (inum : Z) m : res dinode :=
  let bn := IBLOCK inum (mk_sb m) in
  let? buf := rsect bn m in
  Fs.get_dinode buf (Fs.dip_off inum).

Definition ialloc (type : Z) m : res (Z * mk) :=
  let inum := freeinode m in
  let m := set_freeinode (u32 (freeinode m + 1)) m in
  let din := mkDinode (s16 (xshort type)) 0 0 (s16 (xshort 1)) (xint 0) (repeat 0 13) in
  let? m := winode inum din m in
  Ok (inum, m).

(** The loop of [balloc]. *)
Fixpoint mark (n : nat) (i used : Z) buf : res block :=
  match n with
  | O => Ok buf
  | S n' =>
      if i <? used then
        let? b := zget "buf" buf (i / 8) in
        let? buf := zset "buf" buf (i / 8) (Z.lor b (Z.shiftl 1 (i mod 8))) in
        mark n' (i + 1) used buf
      else Ok buf
  end.

Definition balloc (used : Z) m : res mk :=
  if used <? BSIZE * 8 then
    let? buf := mark (Z.to_nat used) 0 used zeroes in
    Ok (wsect (sb_bmapstart (mk_sb m)) buf m)
  else Panic "assert used < BSIZE*8".

(** The block for block [fbn] of the file, allocated if there is none. *)
Definition iappend_block (fbn : Z) (din : dinode) m : res (Z * dinode * mk) :=
  if fbn <? NDIRECT then
    let? a := zget "din.addrs" (d_addrs din) fbn in
    let? (din, m) :=
      (if xint a =? 0 then
         let? l := zset "din.addrs" (d_addrs din) fbn (xint (freeblock m)) in
         Ok (set_d_addrs l din, set_freeblock (u32 (freeblock m + 1)) m)
       else Ok (din, m)) in
    let? a := zget "din.addrs" (d_addrs din) fbn in
    Ok (xint a, din, m)
  else
    let? a := zget "din.addrs" (d_addrs din) NDIRECT in
    let? (din, m) :=
      (if xint a =? 0 then
         let? l := zset "din.addrs" (d_addrs din) NDIRECT (xint (freeblock m)) in
         Ok (set_d_addrs l din, set_freeblock (u32 (freeblock m + 1)) m)
       else Ok (din, m)) in
    let? a := zget "din.addrs" (d_addrs din) NDIRECT in
    let? indirect := rsect (xint a) m in
    let? e := get32 "indirect" indirect (4 * (fbn - NDIRECT)) in
    let? (indirect, m) :=
      (if e =? 0 then
         let? indirect := put32 "indirect" indirect (4 * (fbn - NDIRECT)) (xint (freeblock m)) in
         let m := set_freeblock (u32 (freeblock m + 1)) m in
         Ok (indirect, wsect (xint a) indirect m)
       else Ok (indirect, m)) in
    let? e := get32 "indirect" indirect (4 * (fbn - NDIRECT)) in
    Ok (xint e, din, m).

(** The loop of [iappend]: [p] is what is left to append.  Every turn appends
    a byte at least. *)
Fixpoint iappend_loop (fuel : nat) (p : list Z) (off : Z) (din : dinode) m : res (Z * dinode * mk) :=
  match fuel with
  | O => OutOfFuel
  | S fuel =>
      let n := Z.of_nat (length p) in
      if 0 <? n then
        let fbn := off / BSIZE in
        if fbn <? MAXFILE then
          let? (x, din, m) := iappend_block fbn din m in
          let room := u32 ((fbn + 1) * BSIZE - off) in
          let n1 := if n <? room then n else room in
          let? buf := rsect x m in
          let? buf := put_bytes "buf" buf (off - fbn * BSIZE) (take (Z.to_nat n1) p) in
          let m := wsect x buf m in
          iappend_loop fuel (drop (Z.to_nat n1) p) (u32 (off + n1)) din m
        else Panic "assert fbn < MAXFILE"
      else Ok (off, din, m)
  end.

Definition iappend (inum : Z) (p : list Z) m : res mk :=
  let? din := rinode inum m in
  let off := xint (d_size din) in
  let? (off, din, m) := iappend_loop (S (length p)) p off din m in
  let din := set_d_size (xint off) din in
  winode inum din m.

(** [struct superblock] as it lies in the first bytes of [buf]. *)
Definition sb_bytes (sb : superblock) : list Z :=
  enc 4 (sb_size sb) ++ enc 4 (sb_nblocks sb) ++ enc 4 (sb_ninodes sb) ++ enc 4 (sb_nlog sb) ++
  enc 4 (sb_logstart sb) ++ enc 4 (sb_inodestart sb) ++ enc 4 (sb_bmapstart sb).

(** [struct dirent]: the name is cut or padded to [DIRSIZ] by [strncpy]; what
    [strcpy] leaves of "." and ".." in a cleared entry is the same. *)
Definition dirent (inum : Z) (name : list Z) : res (list Z) :=
  let? nm := strncpy_buf DIRSIZ (name ++ [0]) in Ok (enc 2 (xshort inum) ++ nm).

(** [for (i = 0; i < FSSIZE; i++) wsect(i, zeroes)]. *)
Fixpoint zero_image (n : nat) (i : Z) m : mk :=
  match n with
  | O => m
  | S n' => zero_image n' (i + 1) (wsect i zeroes m)
  end.

(** [while ((cc = read(fd, buf, sizeof(buf))) > 0) iappend(inum, buf, cc)]. *)
Fixpoint copy_in (inum : Z) (reads : list (list Z)) m : res mk :=
  match reads with
  | [] => Ok m
  | r :: reads' =>
      if 0 <? Z.of_nat (length r) then
        let? m := iappend inum r m in copy_in inum reads' m
      else Ok m
  end.

(** Leading [_] of the name of a binary. *)
Definition skip_us (name : list Z) : list Z :=
  match name with
  | c :: r => if c =? 95 then r else name
  | [] => []
  end.

Definition add_file (rootino : Z) (f : hostfile) m : res mk :=
  if existsb (fun c => c =? 47) (h_name f) then Panic "assert index(argv[i], '/') == 0"
  else
    match h_reads f with
    | None => Panic "open"
    | Some reads =>
        let name := skip_us (h_name f) in
        let? (inum, m) := ialloc T_FILE m in
        let? de := dirent inum name in
        let? m := iappend rootino de m in
        copy_in inum reads m
    end.

Fixpoint add_files (rootino : Z) (files : list hostfile) m : res mk :=
  match files with
  | [] => Ok m
  | f :: files' => let? m := add_file rootino f m in add_files rootino files' m
  end.

(** The end of [main]: the size of the root directory is rounded up. *)
Definition fix_root (rootino : Z) m : res mk :=
  let? din := rinode rootino m in
  let off := xint (d_size din) in
  let off := u32 ((off / BSIZE + 1) * BSIZE) in
  winode rootino (set_d_size (xint off) din) m.

Definition the_sb : superblock :=
  mkSb (xint FSSIZE) (xint nblocks) (xint NINODES) (xint nlog) (xint 2) (xint (2 + nlog)) (xint (2 + nlog + ninodeblocks)).

(** The new image, once every sector is written. *)
Definition blank_image : mk := zero_image (Z.to_nat FSSIZE) 0 (mkMk [] 1 nmeta the_sb).

Definition main (files : list hostfile) : res mk :=
  let m := blank_image in
  let? buf := put_bytes "buf" zeroes 0 (sb_bytes (mk_sb m)) in
  let m := wsect 1 buf m in
  let? (rootino, m) := ialloc T_DIR m in
  if rootino =? ROOTINO then
    let? de := dirent rootino [46] in
    let? m := iappend rootino de m in
    let? de := dirent rootino [46; 46] in
    let? m := iappend rootino de m in
    let? m := add_files rootino files m in
    let? m := fix_root rootino m in
    balloc (freeblock m) m
  else Panic "assert rootino == ROOTINO".
End Mkfs.
