(* ===== verification/MkfsFacts.v ===== *)
(** The image [mkfs] builds: which block holds which byte of which file.

    [Lc] is the map from block [k] of file [i] to its sector, with [-1] for the
    indirect block: it is injective, the sectors lie between the meta blocks and
    [freeblock], and the inodes and indirect blocks hold exactly this map.  The
    theorems say what the image holds at the end and that [fs.c] reads it. *)

From stdpp Require Import gmap.
From S2P Require Import Prelude CString Spinlock Kalloc Proc Demo MlfqFacts ProcFacts Sleep Block Log Fs FsFacts DirFacts Ide Mkfs.

Section Sectors.
Import Mkfs.
Implicit Types (m : mk) (b : Z) (buf : block).

(** What sector [b] holds. *)
Definition at_sec m b : block := default [] (img m !! Z.to_nat b).

(** The image has all its sectors and the super block is known. *)
Record shape m : Prop := {
  sh_len : length (img m) = Z.to_nat FSSIZE;
  sh_blk b : 0 <= b < FSSIZE -> length (at_sec m b) = 512%nat;
  sh_sb : mk_sb m = the_sb
}.

Lemma sector_id b : 0 <= b < FSSIZE -> sector b = b.
Proof. intros H. unfold sector, BSIZE, FSSIZE in *. rewrite u32_small by lia. apply Z.div_mul. lia. Qed.

Lemma rsect_ok m b : shape m -> 0 <= b < FSSIZE -> rsect b m = Ok (at_sec m b).
Proof.
  intros Hs Hb. unfold rsect, at_sec. rewrite sector_id by done.
  destruct (lookup_lt_is_Some_2 (img m) (Z.to_nat b)) as [x ->]; [rewrite (sh_len _ Hs); lia|done].
Qed.

Lemma wsect_at m b buf b' : shape m -> 0 <= b < FSSIZE -> 0 <= b' ->
  at_sec (wsect b buf m) b' = if b' =? b then buf else at_sec m b'.
Proof.
  intros Hs Hb Hb'. unfold wsect, at_sec. rewrite sector_id by done. rewrite decide_True by (rewrite (sh_len _ Hs); lia). cbn.
  destruct (Z.eqb_spec b' b) as [->|Hne]; [rewrite list_lookup_insert_eq; [done|rewrite (sh_len _ Hs); lia]|].
  by rewrite list_lookup_insert_ne by lia.
Qed.

Lemma wsect_shape m b buf : shape m -> 0 <= b < FSSIZE -> length buf = 512%nat -> shape (wsect b buf m).
Proof.
  intros Hs Hb Hl. split.
  - unfold wsect. rewrite sector_id by done. rewrite decide_True by (rewrite (sh_len _ Hs); lia). cbn. rewrite length_insert. apply Hs.
  - intros b' Hb'. rewrite wsect_at by (done || lia). destruct (b' =? b); [done|by apply Hs].
  - unfold wsect. apply Hs.
Qed.

Lemma wsect_free m b buf : freeblock (wsect b buf m) = freeblock m /\ freeinode (wsect b buf m) = freeinode m.
Proof. done. Qed.

Lemma shape_free m f : shape m -> shape (set_freeblock f m).
Proof. intros []. by split. Qed.

Lemma xint_small x : 0 <= x < 2 ^ 32 -> xint x = x.
Proof. intros H. unfold xint. by rewrite dec_enc_small. Qed.
End Sectors.

Section Files.
Import Mkfs.
Implicit Types (m : mk) (b k pos : Z) (d : dinode) (c : list Z) (D : list dinode) (G : list (list Z)) (Lc : gmap (nat * Z) Z) (i : nat).

(** Entry [k] of [addrs] stands for block [k] of the file, the last one for the
    indirect block. *)
Definition akey k : Z := if k =? 12 then -1 else k.

Record files m D G Lc : Prop := {
  fl_addrs i d : D !! i = Some d -> length (d_addrs d) = 13%nat;
  fl_dir i d k : D !! i = Some d -> 0 <= k <= 12 -> d_addrs d !! Z.to_nat k = Some (default 0 (Lc !! (i, akey k)));
  fl_ind i b k w : Lc !! (i, -1) = Some b -> 12 <= k < MAXFILE ->
    get32 w (at_sec m b) (4 * (k - 12)) = Ok (default 0 (Lc !! (i, k)));
  fl_need i k b : Lc !! (i, k) = Some b -> 12 <= k -> is_Some (Lc !! (i, -1));
  fl_key i k b : Lc !! (i, k) = Some b -> (i < length D)%nat /\ -1 <= k < MAXFILE;
  fl_rng p b : Lc !! p = Some b -> nmeta <= b < freeblock m;
  fl_inj p q b : Lc !! p = Some b -> Lc !! q = Some b -> p = q;
  fl_byte i c pos : G !! i = Some c -> 0 <= pos < Z.of_nat (length c) ->
    exists b, Lc !! (i, pos / BSIZE) = Some b /\ at_sec m b !! Z.to_nat (pos mod BSIZE) = c !! Z.to_nat pos;
  fl_zero b : freeblock m <= b < FSSIZE -> at_sec m b = zeroes;
  fl_fb : nmeta <= freeblock m <= FSSIZE;
  fl_tail i c k b j : G !! i = Some c -> Lc !! (i, k) = Some b -> 0 <= k -> 0 <= j < BSIZE -> Z.of_nat (length c) <= BSIZE * k + j ->
    at_sec m b !! Z.to_nat j = Some 0
}.

Lemma nmeta_val : nmeta = 59.
Proof. done. Qed.

Lemma zero_entry w j : 0 <= j < 128 -> get32 w zeroes (4 * j) = Ok 0.
Proof.
  intros Hj. unfold get32. change zeroes with (replicate 512 0). rewrite get_bytes_in; [|lia|rewrite length_replicate; lia]. cbn [res_bind]. f_equal.
  rewrite drop_replicate, take_replicate, Nat.min_l by lia. done.
Qed.

Lemma zero_byte j : 0 <= j < BSIZE -> zeroes !! Z.to_nat j = Some 0.
Proof. intros Hj. change zeroes with (replicate 512 0). apply lookup_replicate_2. unfold BSIZE in Hj. lia. Qed.

(** A new direct block, or the indirect block of the file. *)
Lemma alloc_addr m D G Lc i d k : files m D G Lc -> D !! i = Some d -> 0 <= k <= 12 -> Lc !! (i, akey k) = None -> freeblock m < FSSIZE ->
  files (set_freeblock (freeblock m + 1) m) (<[i := set_d_addrs (<[Z.to_nat k := freeblock m]> (d_addrs d)) d]> D) G (<[(i, akey k) := freeblock m]> Lc).
Proof.
  intros H Hd Hk Hn Hf. pose proof (fl_fb _ _ _ _ H) as Hfb. pose proof (lookup_lt_Some _ _ _ Hd) as Hil.
  assert (forall p b, Lc !! p = Some b -> b <> freeblock m) as Hnew by (intros p b Hp; apply (fl_rng _ _ _ _ H) in Hp; lia).
  assert (forall j k', is_Some (Lc !! (j, k')) -> (i, akey k) <> (j, k')) as Hne by (intros j k' [b Hb] [= <- <-]; congruence). split.
  - intros j d'. rewrite list_lookup_insert_Some. intros [(-> & <- & _)|[_ Hj]]; [cbn; rewrite length_insert|]; by eapply fl_addrs.
  - intros j d' k'. rewrite list_lookup_insert_Some. intros [(<- & <- & _)|[Hj Hj']] Hk'.
    + cbn. destruct (Z.eq_dec k' k) as [->|Hkk].
      * rewrite lookup_insert_eq, list_lookup_insert_eq; [done|]. rewrite (fl_addrs _ _ _ _ H _ _ Hd). lia.
      * rewrite list_lookup_insert_ne by lia. rewrite lookup_insert_ne; [by apply (fl_dir _ _ _ _ H)|].
        intros [=]. unfold akey in *. destruct (Z.eqb_spec k 12), (Z.eqb_spec k' 12); lia.
    + rewrite lookup_insert_ne by (intros [=]; done). by apply (fl_dir _ _ _ _ H).
  - intros j b k' w. rewrite lookup_insert_Some. intros [[[= <- Hk12] <-]|[_ Hj]] Hk'.
    + change (at_sec (set_freeblock _ m)) with (at_sec m). rewrite (fl_zero _ _ _ _ H) by lia.
      assert (Lc !! (i, k') = None) as Hnone.
      { apply eq_None_not_Some. intros [b Hb]. destruct (fl_need _ _ _ _ H _ _ _ Hb) as [b' Hb']; [lia|]. rewrite <- Hk12 in Hb'. congruence. }
      rewrite lookup_insert_ne, Hnone by (intros [=]; unfold akey in *; destruct (k =? 12); lia). apply zero_entry.
      change MAXFILE with 140 in Hk'. lia.
    + change (at_sec (set_freeblock _ m)) with (at_sec m). rewrite lookup_insert_ne; [by apply (fl_ind _ _ _ _ H)|].
      intros [= <- Hkk]. unfold akey in Hkk. destruct (Z.eqb_spec k 12); lia.
  - intros j k' b. rewrite lookup_insert_Some. intros [[[= <- <-] _]|[_ Hj]] Hk'; [unfold akey in Hk'; destruct (Z.eqb_spec k 12); lia|].
    destruct (fl_need _ _ _ _ H _ _ _ Hj Hk') as [b' Hb']. rewrite lookup_insert_ne; [by eexists|]. apply Hne. by eexists.
  - intros j k' b. rewrite length_insert, lookup_insert_Some. intros [[[= <- <-] _]|[_ Hj]]; [|by eapply fl_key].
    split; [done|]. unfold akey, MAXFILE, NDIRECT, NINDIRECT. change (BSIZE / 4) with 128. destruct (Z.eqb_spec k 12); lia.
  - intros p b. rewrite lookup_insert_Some. cbn. intros [[_ <-]|[_ Hp]]; [lia|]. apply (fl_rng _ _ _ _ H) in Hp. lia.
  - intros p q b. rewrite !lookup_insert_Some. intros [[<- <-]|[Hp1 Hp2]] [[<- Hq]|[Hq1 Hq2]]; try done.
    + by apply Hnew in Hq2.
    + rewrite <- Hq in Hp2. by apply Hnew in Hp2.
    + by eapply fl_inj.
  - intros j c pos Hj Hpos. destruct (fl_byte _ _ _ _ H j c pos Hj Hpos) as (b & Hb & Hc). exists b. split; [|done].
    rewrite lookup_insert_ne; [done|]. apply Hne. by eexists.
  - intros b Hb. apply (fl_zero _ _ _ _ H). cbn in Hb. lia.
  - cbn. lia.
  - intros j c k' b o Hj. change (at_sec (set_freeblock _ m)) with (at_sec m). rewrite lookup_insert_Some. intros [[_ <-]|[_ Hb]] Hk' Ho Hlen; [|by eapply fl_tail].
    rewrite (fl_zero _ _ _ _ H) by lia. by apply zero_byte.
Qed.

(** A new block entered in the indirect block. *)
Lemma alloc_entry m D G Lc i k b buf w : files m D G Lc -> shape m -> Lc !! (i, -1) = Some b -> Lc !! (i, k) = None -> 12 <= k < MAXFILE ->
  freeblock m < FSSIZE -> put32 w (at_sec m b) (4 * (k - 12)) (freeblock m) = Ok buf ->
  files (wsect b buf (set_freeblock (freeblock m + 1) m)) D G (<[(i, k) := freeblock m]> Lc).
Proof.
  intros H Hs Hb Hn Hk Hf Hput. pose proof (fl_fb _ _ _ _ H) as Hfb. pose proof (fl_rng _ _ _ _ H _ _ Hb) as Hbr. rewrite nmeta_val in *.
  assert (shape (set_freeblock (freeblock m + 1) m)) as Hs1 by (by apply shape_free).
  assert (forall x, 0 <= x -> at_sec (wsect b buf (set_freeblock (freeblock m + 1) m)) x = if x =? b then buf else at_sec m x) as Hat.
  { intros x Hx. rewrite wsect_at by (done || lia). done. }
  assert (forall p x, Lc !! p = Some x -> x <> freeblock m /\ 0 <= x /\ (p <> (i, -1) -> x <> b)) as Hnew.
  { intros p x Hp. pose proof (fl_rng _ _ _ _ H _ _ Hp) as Hr. rewrite nmeta_val in Hr. split; [lia|]. split; [lia|]. intros Hne ->. apply Hne. by eapply fl_inj. }
  split; rewrite ?nmeta_val; try apply H.
  - intros j d k' Hj Hk'. rewrite lookup_insert_ne; [by apply (fl_dir _ _ _ _ H)|]. intros [=]. unfold akey in *. destruct (Z.eqb_spec k' 12); lia.
  - intros j x k' w'. rewrite lookup_insert_ne by (intros [=]; lia). intros Hx Hk'. destruct (Hnew _ _ Hx) as (_ & Hx0 & Hxb). rewrite Hat by done.
    destruct (decide (j = i)) as [->|Hji].
    + assert (x = b) as -> by congruence. rewrite Z.eqb_refl. destruct (Z.eq_dec k' k) as [->|Hkk].
      * rewrite lookup_insert_eq. rewrite (get32_put32_same _ _ _ _ _ _ Hput). cbn. f_equal. apply u32_small. unfold FSSIZE in *. lia.
      * rewrite lookup_insert_ne by (intros [=]; lia). rewrite (get32_put32_other _ _ _ _ _ _ _ Hput) by lia. by apply (fl_ind _ _ _ _ H).
    + rewrite (proj2 (Z.eqb_neq _ _)) by (apply Hxb; congruence). rewrite lookup_insert_ne by congruence. by apply (fl_ind _ _ _ _ H).
  - intros j k' x. rewrite lookup_insert_Some. intros [[[= <- <-] _]|[_ Hj]] Hk'; rewrite lookup_insert_ne by (intros [=]; lia); [by eexists|].
    by eapply fl_need.
  - intros j k' x. rewrite lookup_insert_Some. intros [[[= <- <-] _]|[_ Hj]]; [|by eapply fl_key]. destruct (fl_key _ _ _ _ H _ _ _ Hb). split; [done|lia].
  - intros p x. rewrite lookup_insert_Some. cbn. intros [[_ <-]|[_ Hp]]; [lia|]. apply (fl_rng _ _ _ _ H) in Hp. rewrite nmeta_val in Hp. lia.
  - intros p q x. rewrite !lookup_insert_Some. intros [[<- <-]|[Hp1 Hp2]] [[<- Hq]|[Hq1 Hq2]]; try done.
    + by apply Hnew in Hq2 as [? _].
    + rewrite <- Hq in Hp2. by apply Hnew in Hp2 as [? _].
    + by eapply fl_inj.
  - intros j c pos Hj Hpos. destruct (fl_byte _ _ _ _ H j c pos Hj Hpos) as (x & Hx & Hc). exists x. destruct (Hnew _ _ Hx) as (_ & Hx0 & Hxb).
    rewrite lookup_insert_ne by (intros [=]; congruence). split; [done|]. rewrite Hat by done. rewrite (proj2 (Z.eqb_neq _ _)); [done|].
    apply Hxb. intros [= _ E]. assert (0 <= pos / BSIZE) by (apply Z.div_pos; unfold BSIZE; lia). lia.
  - intros x Hx. cbn in Hx. rewrite Hat by lia. rewrite (proj2 (Z.eqb_neq _ _)) by lia. apply (fl_zero _ _ _ _ H). lia.
  - cbn. lia.
  - intros j c k' x o Hj. rewrite lookup_insert_Some. intros [[_ <-]|[_ Hx]] Hk' Ho Hlen.
    + rewrite Hat, (proj2 (Z.eqb_neq _ _)), (fl_zero _ _ _ _ H) by lia. by apply zero_byte.
    + destruct (Hnew _ _ Hx) as (_ & Hx0 & Hxb). rewrite Hat, (proj2 (Z.eqb_neq _ _)); [by eapply fl_tail| |done]. apply Hxb. intros [= _ E]. lia.
Qed.

Lemma put_bytes_at w l off q l' j : put_bytes w l off q = Ok l' -> 0 <= j ->
  l' !! Z.to_nat j = if (off <=? j) && (j <? off + Z.of_nat (length q)) then q !! Z.to_nat (j - off) else l !! Z.to_nat j.
Proof.
  intros (H1 & H2 & ->)%put_bytes_inv Hj. destruct (Z.leb_spec off j), (Z.ltb_spec j (off + Z.of_nat (length q))); cbn [andb].
  - rewrite lookup_app_r by (rewrite length_take; lia). rewrite length_take, lookup_app_l by lia. f_equal. lia.
  - rewrite lookup_app_r by (rewrite length_take; lia). rewrite length_take, lookup_app_r, lookup_drop by lia. f_equal. lia.
  - rewrite lookup_app_l by (rewrite length_take; lia). apply lookup_take_lt. lia.
  - rewrite lookup_app_l by (rewrite length_take; lia). apply lookup_take_lt. lia.
Qed.

Lemma byte_after m Lc i c q b buf w pos : shape m -> 0 <= b < FSSIZE ->
  let len := Z.of_nat (length c) in
  (forall y, 0 <= y < len -> exists x, Lc !! (i, y / BSIZE) = Some x /\ at_sec m x !! Z.to_nat (y mod BSIZE) = c !! Z.to_nat y) ->
  (forall p x, Lc !! p = Some x -> 0 <= x /\ (p <> (i, len / BSIZE) -> x <> b)) ->
  Lc !! (i, len / BSIZE) = Some b -> len mod BSIZE + Z.of_nat (length q) <= BSIZE ->
  put_bytes w (at_sec m b) (len mod BSIZE) q = Ok buf -> 0 <= pos < Z.of_nat (length (c ++ q)) ->
  exists x, Lc !! (i, pos / BSIZE) = Some x /\ at_sec (wsect b buf m) x !! Z.to_nat (pos mod BSIZE) = (c ++ q) !! Z.to_nat pos.
Proof.
  intros Hs Hb len Hold Hnew Hlc Hq Hput Hpos. rewrite length_app in Hpos. unfold BSIZE in *.
  pose proof (Z.div_mod pos 512 ltac:(lia)). pose proof (Z.mod_pos_bound pos 512 ltac:(lia)).
  pose proof (Z.div_mod len 512 ltac:(lia)). pose proof (Z.mod_pos_bound len 512 ltac:(lia)).
  destruct (Z.lt_ge_cases pos len) as [Hlt|Hge].
  - destruct (Hold pos ltac:(lia)) as (x & Hx & Hc). exists x. split; [done|]. destruct (Hnew _ _ Hx) as [Hx0 Hxb].
    rewrite wsect_at by (done || lia). rewrite lookup_app_l by lia. destruct (Z.eqb_spec x b) as [->|]; [|done].
    rewrite (put_bytes_at _ _ _ _ _ _ Hput) by lia. rewrite (proj2 (Z.leb_gt _ _)); [done|].
    destruct (Z.eq_dec (pos / 512) (len / 512)) as [E|E]; [lia|]. exfalso. apply Hxb; [|done]. congruence.
  - assert (pos / 512 = len / 512) as E by (symmetry; apply (Z.div_unique_pos pos 512 _ (pos - 512 * (len / 512))); lia).
    exists b. rewrite E. split; [done|]. rewrite wsect_at by (done || lia). rewrite Z.eqb_refl, (put_bytes_at _ _ _ _ _ _ Hput) by lia.
    rewrite (proj2 (Z.leb_le _ _)), (proj2 (Z.ltb_lt _ _)) by lia. cbn [andb]. rewrite lookup_app_r by lia. f_equal. lia.
Qed.

(** Bytes put behind the end of the file, in its last block. *)
Lemma append_bytes m D G Lc i c q b buf w : files m D G Lc -> shape m -> G !! i = Some c ->
  let len := Z.of_nat (length c) in
  Lc !! (i, len / BSIZE) = Some b -> len mod BSIZE + Z.of_nat (length q) <= BSIZE ->
  put_bytes w (at_sec m b) (len mod BSIZE) q = Ok buf -> files (wsect b buf m) D (<[i := c ++ q]> G) Lc.
Proof.
  intros H Hs Hc len Hb Hq Hput. pose proof (fl_fb _ _ _ _ H) as Hfb. pose proof (fl_rng _ _ _ _ H _ _ Hb) as Hbr. rewrite nmeta_val in *.
  assert (forall x, 0 <= x -> at_sec (wsect b buf m) x = if x =? b then buf else at_sec m x) as Hat by (intros x Hx; apply wsect_at; (done || lia)).
  assert (forall p x, Lc !! p = Some x -> 0 <= x /\ (p <> (i, len / BSIZE) -> x <> b)) as Hnew.
  { intros p x Hp. pose proof (fl_rng _ _ _ _ H _ _ Hp) as Hr. rewrite nmeta_val in Hr. split; [lia|]. intros Hne ->. apply Hne. by eapply fl_inj. }
  assert (0 <= len / BSIZE) as Hl0 by (apply Z.div_pos; unfold BSIZE; lia).
  split; rewrite ?nmeta_val; try apply H; try done.
  - intros j x k' w' Hx Hk'. destruct (Hnew _ _ Hx) as (Hx0 & Hxb). rewrite Hat by done. rewrite (proj2 (Z.eqb_neq _ _)); [by apply (fl_ind _ _ _ _ H)|].
    apply Hxb. intros [=]. lia.
  - intros j c' pos. rewrite list_lookup_insert_Some. intros [(<- & <- & Hjl)|[Hne Hj]] Hpos.
    + apply (byte_after m Lc i c q b buf w pos); try done; [lia|]. intros y Hy. by apply (fl_byte _ _ _ _ H).
    + destruct (fl_byte _ _ _ _ H j c' pos Hj Hpos) as (x & Hx & Hc'). exists x. split; [done|]. destruct (Hnew _ _ Hx) as (Hx0 & Hxb). rewrite Hat by done.
      rewrite (proj2 (Z.eqb_neq _ _)); [done|]. apply Hxb. congruence.
  - intros x Hx. cbn in Hx. rewrite Hat by lia. rewrite (proj2 (Z.eqb_neq _ _)) by lia. by apply (fl_zero _ _ _ _ H).
  - intros j c' k x o. rewrite list_lookup_insert_Some. intros Hj Hx Hk Ho Hlen. destruct (Hnew _ _ Hx) as (Hx0 & Hxb). rewrite Hat by done.
    destruct (Z.eqb_spec x b) as [->|Hxne].
    + assert (j = i /\ k = len / BSIZE) as [-> ->] by (pose proof (fl_inj _ _ _ _ H _ _ _ Hx Hb) as [= -> ->]; done).
      destruct Hj as [(_ & <- & _)|[? _]]; [|done]. rewrite length_app, Nat2Z.inj_add in Hlen. fold len in Hlen.
      pose proof (Z.div_mod len BSIZE ltac:(unfold BSIZE; lia)). rewrite (put_bytes_at _ _ _ _ _ _ Hput), (proj2 (Z.ltb_ge o _)), andb_false_r by lia.
      apply (fl_tail _ _ _ _ H i c (len / BSIZE)); try done. fold len. lia.
    + destruct Hj as [(<- & <- & _)|[_ Hj]]; [|by eapply fl_tail]. rewrite length_app in Hlen. apply (fl_tail _ _ _ _ H i c k); try done. lia.
Qed.

(** ** Blocks of a file *)

(** How many blocks [len] bytes take, and with the indirect block. *)
Definition nb (len : Z) : Z := (len + 511) / 512.
Definition cost (len : Z) : Z := nb len + (if 12 <? nb len then 1 else 0).
Definition uses (len k : Z) : Prop := 0 <= k < nb len \/ k = -1 /\ 12 < nb len.

Lemma nb_bounds len : 512 * nb len - 511 <= len + 0 <= 512 * nb len.
Proof. unfold nb. pose proof (Z.div_mod (len + 511) 512 ltac:(lia)). pose proof (Z.mod_pos_bound (len + 511) 512 ltac:(lia)). lia. Qed.

Lemma fresh_nonzero m D G Lc p b : files m D G Lc -> Lc !! p = Some b -> xint b = b /\ b <> 0 /\ 0 <= b < FSSIZE.
Proof.
  intros H Hp. pose proof (fl_rng _ _ _ _ H _ _ Hp). pose proof (fl_fb _ _ _ _ H). rewrite nmeta_val in *. unfold FSSIZE in *.
  split; [apply xint_small; lia|lia].
Qed.

(** The address at [k], allocated if there is none. *)
Lemma addr_step m D G Lc i d k : files m D G Lc -> shape m -> D !! i = Some d -> 0 <= k <= 12 ->
  (Lc !! (i, akey k) = None -> freeblock m < FSSIZE) ->
  exists a b d' m', zget "din.addrs" (d_addrs d) k = Ok a /\
    (if xint a =? 0 then
       let? l := zset "din.addrs" (d_addrs d) k (xint (freeblock m)) in
       Ok (set_d_addrs l d, set_freeblock (u32 (freeblock m + 1)) m)
     else Ok (d, m)) = Ok (d', m') /\
    zget "din.addrs" (d_addrs d') k = Ok b /\ xint b = b /\ shape m' /\ files m' (<[i := d']> D) G (<[(i, akey k) := b]> Lc) /\
    freeblock m' = freeblock m + (match Lc !! (i, akey k) with Some _ => 0 | None => 1 end) /\ img m' = img m /\ freeinode m' = freeinode m /\
    exists l, d' = set_d_addrs l d.
Proof.
  intros H Hs Hd Hk Hf. pose proof (fl_dir _ _ _ _ H i d k Hd Hk) as Ha. pose proof (fl_addrs _ _ _ _ H i d Hd) as Hl.
  exists (default 0 (Lc !! (i, akey k))). destruct (Lc !! (i, akey k)) as [b|] eqn:E; cbn [default from_option id] in *.
  - exists b, d, m. destruct (fresh_nonzero _ _ _ _ _ _ H E) as (Hx & Hb & _). rewrite Hx, (proj2 (Z.eqb_neq _ _) Hb).
    rewrite list_insert_id, insert_id by done. assert (zget "din.addrs" (d_addrs d) k = Ok b) as Hz by (apply zget_Ok; split; [lia|done]).
    split_and!; try done; [lia|]. exists (d_addrs d). by destruct d.
  - pose proof (fl_fb _ _ _ _ H) as Hfb. rewrite nmeta_val in Hfb. specialize (Hf eq_refl). unfold FSSIZE in Hf, Hfb.
    exists (freeblock m). change (xint 0 =? 0) with true. cbn iota. rewrite xint_small by lia. rewrite zset_in by lia. cbn [res_bind].
    rewrite u32_small by lia. eexists _, _. split; [apply zget_Ok; split; [lia|done]|]. split; [done|]. split_and!; try done.
    + apply zget_Ok. split; [lia|]. cbn. apply list_lookup_insert_eq. lia.
    + by apply shape_free.
    + by apply alloc_addr.
    + by eexists.
Qed.

(** The entry of the indirect block, allocated if there is none. *)
Lemma entry_step m D G Lc i k b : files m D G Lc -> shape m -> Lc !! (i, -1) = Some b -> 12 <= k < MAXFILE ->
  (Lc !! (i, k) = None -> freeblock m < FSSIZE) ->
  exists e x ind m', get32 "indirect" (at_sec m b) (4 * (k - NDIRECT)) = Ok e /\
    (if e =? 0 then
       let? indirect := put32 "indirect" (at_sec m b) (4 * (k - NDIRECT)) (xint (freeblock m)) in
       Ok (indirect, wsect b indirect (set_freeblock (u32 (freeblock m + 1)) m))
     else Ok (at_sec m b, m)) = Ok (ind, m') /\
    get32 "indirect" ind (4 * (k - NDIRECT)) = Ok x /\ xint x = x /\ shape m' /\ files m' D G (<[(i, k) := x]> Lc) /\
    freeblock m' = freeblock m + (match Lc !! (i, k) with Some _ => 0 | None => 1 end) /\ freeinode m' = freeinode m /\
    (forall s, 0 <= s < nmeta -> at_sec m' s = at_sec m s).
Proof.
  intros H Hs Hb Hk Hf. change NDIRECT with 12. pose proof (fl_ind _ _ _ _ H i b k "indirect" Hb Hk) as He.
  destruct (fresh_nonzero _ _ _ _ _ _ H Hb) as (_ & _ & Hbr). pose proof (fl_rng _ _ _ _ H _ _ Hb) as Hbm.
  exists (default 0 (Lc !! (i, k))). destruct (Lc !! (i, k)) as [x|] eqn:E; cbn [default from_option id] in *.
  - exists x, (at_sec m b), m. destruct (fresh_nonzero _ _ _ _ _ _ H E) as (Hx & Hx0 & _). rewrite (proj2 (Z.eqb_neq _ _) Hx0), insert_id by done.
    split_and!; try done. lia.
  - pose proof (fl_fb _ _ _ _ H) as Hfb. specialize (Hf eq_refl). rewrite nmeta_val in *. unfold FSSIZE in Hfb, Hf. change MAXFILE with 140 in Hk.
    cbn [Z.eqb]. rewrite xint_small by lia. destruct (put32_in "indirect" (at_sec m b) (4 * (k - 12)) (freeblock m)) as (buf & Ep & Hl);
      [lia|rewrite (sh_blk _ Hs) by done; lia|]. rewrite Ep. cbn [res_bind]. rewrite u32_small by lia.
    exists (freeblock m). eexists _, _. split; [done|]. split; [done|]. split; [rewrite (get32_put32_same _ _ _ _ _ _ Ep), u32_small by lia; done|].
    split_and!; try done.
    + by apply xint_small; lia.
    + apply wsect_shape; [by apply shape_free|done|]. rewrite Hl. by apply (sh_blk _ Hs).
    + by eapply alloc_entry.
    + intros s Hsr. rewrite wsect_at by (by apply shape_free || done || lia). rewrite (proj2 (Z.eqb_neq _ _)) by lia. done.
Qed.

(** Which blocks the file has after a block is there. *)
Lemma uses_next len k : 0 <= len -> uses (512 * (len / 512 + 1)) k <-> uses len k \/ k = len / 512 \/ (k = -1 /\ 12 <= len / 512).
Proof.
  intros Hl. unfold uses. assert (nb (512 * (len / 512 + 1)) = len / 512 + 1) as ->.
  { unfold nb. symmetry. apply (Z.div_unique_pos _ 512 _ 511); lia. }
  pose proof (nb_bounds len). pose proof (Z.div_mod len 512 ltac:(lia)). pose proof (Z.mod_pos_bound len 512 ltac:(lia)).
  assert (0 <= len / 512) by (apply Z.div_pos; lia). lia.
Qed.

(** One block more where the file had none. *)
Lemma missing Lc i len k : (forall k, is_Some (Lc !! (i, k)) <-> uses len k) -> -1 <= k -> 0 <= len ->
  (match Lc !! (i, k) with Some _ => 0 | None => 1 end) = if k <? 0 then (if 12 <? nb len then 0 else 1) else (if k <? nb len then 0 else 1).
Proof.
  intros Hu Hk Hlen. specialize (Hu k). unfold uses in Hu. destruct (Lc !! (i, k)) as [z|].
  - assert (0 <= k < nb len \/ k = -1 /\ 12 < nb len) as Hc by (apply Hu; by eexists).
    destruct (Z.ltb_spec k 0), (Z.ltb_spec 12 (nb len)), (Z.ltb_spec k (nb len)); lia.
  - assert (~ (0 <= k < nb len \/ k = -1 /\ 12 < nb len)) as Hc by (intros Hc; destruct (proj2 Hu Hc); done).
    destruct (Z.ltb_spec k 0), (Z.ltb_spec 12 (nb len)), (Z.ltb_spec k (nb len)); lia.
Qed.

Lemma iappend_block_ok m D G Lc i d len : files m D G Lc -> shape m -> D !! i = Some d -> 0 <= len ->
  (forall k, is_Some (Lc !! (i, k)) <-> uses len k) -> len / BSIZE < MAXFILE ->
  freeblock m + (cost (512 * (len / 512 + 1)) - cost len) <= FSSIZE ->
  exists x d' m' Lc', iappend_block (len / BSIZE) d m = Ok (x, d', m') /\ shape m' /\ files m' (<[i := d']> D) G Lc' /\
    Lc' !! (i, len / BSIZE) = Some x /\ freeblock m' = freeblock m + (cost (512 * (len / 512 + 1)) - cost len) /\
    (forall j k, j <> i -> Lc' !! (j, k) = Lc !! (j, k)) /\ (forall k, is_Some (Lc' !! (i, k)) <-> uses (512 * (len / 512 + 1)) k) /\
    freeinode m' = freeinode m /\ (forall s, 0 <= s < nmeta -> at_sec m' s = at_sec m s) /\ exists l, d' = set_d_addrs l d.
Proof.
  intros H Hs Hd Hlen Huse Hmax Hcap. unfold BSIZE in *. change MAXFILE with 140 in *.
  assert (nb (512 * (len / 512 + 1)) = len / 512 + 1) as Hnb by (unfold nb; symmetry; apply (Z.div_unique_pos _ 512 _ 511); lia).
  pose proof (nb_bounds len) as Hnl. pose proof (Z.div_mod len 512 ltac:(lia)) as Hdm. pose proof (Z.mod_pos_bound len 512 ltac:(lia)) as Hmb.
  assert (0 <= len / 512) as Hf0 by (apply Z.div_pos; lia). pose proof (fun k => uses_next len k Hlen) as Hun.
  unfold cost in Hcap |- *. rewrite Hnb in Hcap |- *. set (f := len / 512) in *. unfold iappend_block. change NDIRECT with 12.
  pose proof (missing Lc i len f Huse ltac:(lia) Hlen) as Hmf. pose proof (missing Lc i len (-1) Huse ltac:(lia) Hlen) as Hm1.
  rewrite (proj2 (Z.ltb_ge f 0)) in Hmf by lia. cbn [Z.ltb Z.compare] in Hm1.
  destruct (Z.ltb_spec f 12) as [Hdir|Hin].
  - assert (akey f = f) as Ek by (unfold akey; rewrite (proj2 (Z.eqb_neq _ _)) by lia; done). rewrite (proj2 (Z.ltb_ge 12 (f + 1))) in * by lia.
    destruct (addr_step m D G Lc i d f H Hs Hd) as (a & b & d' & m' & -> & E & Hz & Hx & Hs' & H' & Hfb & Hi & Hino & Hl); [lia| |].
    { rewrite Ek. intros Hn. rewrite Hn in Hmf. destruct (Z.ltb_spec 12 (nb len)), (Z.ltb_spec f (nb len)); lia. }
    cbn [res_bind]. rewrite E. cbn [res_bind]. rewrite Hz. cbn [res_bind]. rewrite Hx. exists b, d', m', (<[(i, f) := b]> Lc). rewrite Ek in *.
    split_and!; try done.
    + by rewrite lookup_insert_eq.
    + rewrite Hfb, Hmf. destruct (Z.ltb_spec 12 (nb len)), (Z.ltb_spec f (nb len)); lia.
    + intros j k Hj. by rewrite lookup_insert_ne by congruence.
    + intros k. rewrite Hun, lookup_insert_is_Some', Huse. split; [intros [[= <-]|]; [lia|tauto]|]. intros [?|[->|[-> ?]]]; [tauto|tauto|lia].
    + intros s _. unfold at_sec. by rewrite Hi.
  - rewrite (proj2 (Z.ltb_lt 12 (f + 1))) in * by lia.
    destruct (addr_step m D G Lc i d 12 H Hs Hd) as (a & b & d' & m1 & -> & E & Hz & Hx & Hs1 & H1 & Hfb1 & Hi & Hino & Hl); [lia| |].
    { change (akey 12) with (-1). intros Hn. rewrite Hn in Hm1. destruct (Z.ltb_spec 12 (nb len)); lia. }
    change (akey 12) with (-1) in *. cbn [res_bind]. rewrite E. cbn [res_bind]. rewrite Hz. cbn [res_bind]. rewrite Hx.
    assert ((<[(i, -1) := b]> Lc) !! (i, -1) = Some b) as Hb1 by apply lookup_insert_eq.
    assert ((<[(i, -1) := b]> Lc) !! (i, f) = Lc !! (i, f)) as Hbf by (apply lookup_insert_ne; intros [=]; lia).
    destruct (fresh_nonzero _ _ _ _ _ _ H1 Hb1) as (_ & _ & Hbr). rewrite (rsect_ok m1 b Hs1 Hbr). cbn [res_bind].
    destruct (entry_step m1 _ G _ i f b H1 Hs1 Hb1) as (e & x & ind & m' & He & E2 & Hg & Hxx & Hs' & H' & Hfb' & Hino' & Hmeta); [by change MAXFILE with 140| |].
    { rewrite Hbf, Hfb1, Hm1. intros Hn. rewrite Hn in Hmf. destruct (Z.ltb_spec 12 (nb len)), (Z.ltb_spec f (nb len)); lia. }
    change NDIRECT with 12 in *. rewrite He. cbn [res_bind]. rewrite E2. cbn [res_bind]. rewrite Hg. cbn [res_bind]. rewrite Hxx.
    exists x, d', m', (<[(i, f) := x]> (<[(i, -1) := b]> Lc)). split_and!; try done.
    + by rewrite lookup_insert_eq.
    + rewrite Hfb', Hbf, Hfb1, Hm1, Hmf. destruct (Z.ltb_spec 12 (nb len)), (Z.ltb_spec f (nb len)); lia.
    + intros j k Hj. by rewrite !lookup_insert_ne by congruence.
    + intros k. rewrite Hun, !lookup_insert_is_Some', Huse. split; [intros [[= <-]|[[= <-]|]]; try tauto; lia|].
      intros [?|[->|[-> ?]]]; tauto.
    + congruence.
    + intros s Hsr. rewrite Hmeta by done. unfold at_sec. by rewrite Hi.
Qed.

(** ** Appending *)

(** The image: inodes [D], contents [G]. *)
Record image m D G Lc : Prop := {
  im_shape : shape m;
  im_files : files m D G Lc;
  im_uses i c : G !! i = Some c -> forall k, is_Some (Lc !! (i, k)) <-> uses (Z.of_nat (length c)) k;
  im_len : length D = length G
}.

Lemma nb_mono a b : a <= b -> nb a <= nb b.
Proof. intros H. apply Z.div_le_mono; lia. Qed.

Lemma cost_mono a b : a <= b -> cost a <= cost b.
Proof. intros H%nb_mono. unfold cost. destruct (Z.ltb_spec 12 (nb a)), (Z.ltb_spec 12 (nb b)); lia. Qed.

(** The end of a chunk is in the block it was put into. *)
Lemma nb_chunk len n : 0 <= len -> 0 < n -> len mod 512 + n <= 512 -> nb (len + n) = len / 512 + 1.
Proof.
  intros Hl Hn Hb. pose proof (Z.div_mod len 512 ltac:(lia)). pose proof (Z.mod_pos_bound len 512 ltac:(lia)). unfold nb.
  symmetry. apply (Z.div_unique_pos _ 512 _ (len mod 512 + n - 1)); lia.
Qed.

(** A turn of the loop of [iappend]: the chunk [q]. *)
Lemma append_turn m D G Lc i d c q : image m D G Lc -> D !! i = Some d -> G !! i = Some c -> q <> [] ->
  let len := Z.of_nat (length c) in let n := Z.of_nat (length q) in
  len mod 512 + n <= 512 -> len / BSIZE < MAXFILE -> freeblock m + (cost (len + n) - cost len) <= FSSIZE ->
  exists x d' m1 buf Lc', iappend_block (len / BSIZE) d m = Ok (x, d', m1) /\ rsect x m1 = Ok (at_sec m1 x) /\
    put_bytes "buf" (at_sec m1 x) (len - len / BSIZE * BSIZE) q = Ok buf /\
    let m' := wsect x buf m1 in
    image m' (<[i := d']> D) (<[i := c ++ q]> G) Lc' /\ freeblock m' = freeblock m + (cost (len + n) - cost len) /\
    freeinode m' = freeinode m /\ (forall s, 0 <= s < nmeta -> at_sec m' s = at_sec m s) /\ exists l, d' = set_d_addrs l d.
Proof.
  intros [Hs H Hu Hl] Hd Hc Hq len n Hfit Hmax Hcap. assert (0 < n) as Hn by (unfold n; destruct q; [done|cbn; lia]).
  assert (0 <= len) as Hlen by (unfold len; lia). pose proof (nb_chunk len n Hlen Hn Hfit) as Hnb.
  assert (nb (512 * (len / 512 + 1)) = len / 512 + 1) as Hnb' by (unfold nb; symmetry; apply (Z.div_unique_pos _ 512 _ 511); lia).
  assert (cost (len + n) = cost (512 * (len / 512 + 1))) as Ec by (unfold cost; by rewrite Hnb, Hnb').
  destruct (iappend_block_ok m D G Lc i d len H Hs Hd Hlen (Hu i c Hc) Hmax) as (x & d' & m1 & Lc' & E & Hs1 & H1 & Hx & Hfb & Ho & Hu1 & Hino & Hmeta & Hdl); [by rewrite <- Ec|].
  destruct (fresh_nonzero _ _ _ _ _ _ H1 Hx) as (_ & _ & Hxr). pose proof (fl_rng _ _ _ _ H1 _ _ Hx) as Hxm.
  assert (len - len / BSIZE * BSIZE = len mod BSIZE) as Em by (unfold BSIZE; pose proof (Z.div_mod len 512 ltac:(lia)); lia).
  destruct (put_bytes "buf" (at_sec m1 x) (len mod BSIZE) q) as [buf| | | |] eqn:Ep;
    try (rewrite put_bytes_in in Ep; [done|apply Z.mod_pos_bound; unfold BSIZE; lia|rewrite (sh_blk _ Hs1) by done; unfold BSIZE, n in *; lia]).
  exists x, d', m1, buf, Lc'. split; [done|]. split; [by apply rsect_ok|]. split; [by rewrite Em|]. intros m'. split_and!; try done.
  - split.
    + apply wsect_shape; [done|done|]. rewrite (put_bytes_length _ _ _ _ _ Ep). by apply (sh_blk _ Hs1).
    + by eapply append_bytes.
    + intros j c'. rewrite list_lookup_insert_Some. intros [(<- & <- & _)|[Hne Hj]] k.
      * rewrite length_app, Nat2Z.inj_add. fold len n. rewrite Hu1. unfold uses. by rewrite Hnb, Hnb'.
      * rewrite Ho by done. by apply Hu.
    + by rewrite !length_insert.
  - unfold m'. destruct (wsect_free m1 x buf) as [-> _]. by rewrite Hfb, Ec.
  - intros s Hsr. unfold m'. rewrite wsect_at by (done || lia). rewrite (proj2 (Z.eqb_neq _ _)) by lia. by apply Hmeta.
Qed.

Lemma iappend_loop_ok fuel : forall p m D G Lc i d c, image m D G Lc -> D !! i = Some d -> G !! i = Some c -> (length p < fuel)%nat ->
  let len := Z.of_nat (length c) in let n := Z.of_nat (length p) in
  len + n <= BSIZE * MAXFILE -> freeblock m + (cost (len + n) - cost len) <= FSSIZE ->
  exists d' m' Lc', iappend_loop fuel p len d m = Ok (len + n, d', m') /\ image m' (<[i := d']> D) (<[i := c ++ p]> G) Lc' /\
    freeblock m' = freeblock m + (cost (len + n) - cost len) /\ freeinode m' = freeinode m /\
    (forall s, 0 <= s < nmeta -> at_sec m' s = at_sec m s) /\ exists l, d' = set_d_addrs l d.
Proof.
  induction fuel as [|fuel IH]; intros p m D G Lc i d c H Hd Hc Hf len n Hmax Hcap; [lia|]. cbn [iappend_loop]. fold n.
  destruct (Z.ltb_spec 0 n) as [Hn|Hn].
  2: { exists d, m, Lc. destruct p; [|cbn in n; lia]. replace (len + n) with len by (cbn in n; lia). rewrite app_nil_r, !list_insert_id by done.
       split_and!; try done; [lia|]. exists (d_addrs d). by destruct d. }
  unfold BSIZE in *. change MAXFILE with 140 in *.
  pose proof (Z.div_mod len 512 ltac:(lia)) as Hdm. pose proof (Z.mod_pos_bound len 512 ltac:(lia)) as Hmb. assert (0 <= len) as Hlen by (unfold len; lia).
  rewrite (proj2 (Z.ltb_lt _ _)) by lia. rewrite (u32_small (_ - len)) by lia. set (n1 := if _ <? _ then n else _).
  assert (0 < n1 <= n /\ len mod 512 + n1 <= 512) as [Hn1 Hfit] by (unfold n1; destruct (Z.ltb_spec n ((len / 512 + 1) * 512 - len)); lia).
  set (q := take (Z.to_nat n1) p). assert (Z.of_nat (length q) = n1) as Hq by (unfold q; rewrite length_take; unfold n in *; lia).
  pose proof (cost_mono (len + n1) (len + n) ltac:(lia)) as Hcm.
  destruct (append_turn m D G Lc i d c q H Hd Hc) as (x & d1 & m1 & buf & Lc1 & E1 & E2 & E3 & H1 & Hfb & Hino & Hmeta & l & Hl); try (rewrite Hq; fold len; lia).
  { intros Hnil. rewrite Hnil in Hq. cbn in Hq. lia. } { unfold BSIZE. change MAXFILE with 140. fold len. lia. }
  unfold BSIZE in *. fold len in E1, E3, Hfb. rewrite Hq in Hfb. rewrite E1. cbn [res_bind]. rewrite E2. cbn [res_bind]. rewrite E3. cbn [res_bind].
  rewrite u32_small by lia. set (m2 := wsect x buf m1) in *. set (r := drop (Z.to_nat n1) p). assert (Z.of_nat (length r) = n - n1) as Hr by (unfold r; rewrite length_drop; unfold n in *; lia).
  assert (q ++ r = p) as Eqr by (unfold q, r; apply take_drop).
  assert (Z.of_nat (length (c ++ q)) = len + n1) as Hcq by (rewrite length_app, Nat2Z.inj_add, Hq; done).
  destruct (IH r m2 (<[i := d1]> D) (<[i := c ++ q]> G) Lc1 i d1 (c ++ q) H1) as (d' & m' & Lc' & E & H' & Hfb' & Hino' & Hmeta' & l' & Hl').
  { apply list_lookup_insert_eq. by eapply lookup_lt_Some. } { apply list_lookup_insert_eq. by eapply lookup_lt_Some. }
  { unfold r. rewrite length_drop. lia. } { rewrite Hcq, Hr. lia. } { rewrite Hcq, Hr, Hfb. replace (len + n1 + (n - n1)) with (len + n) by lia. lia. }
  rewrite Hcq, Hr in E, Hfb'. replace (len + n1 + (n - n1)) with (len + n) in E, Hfb' by lia. rewrite E. exists d', m', Lc'.
  rewrite !list_insert_insert_eq, <- app_assoc, Eqr in H'. split_and!; try done; [lia|congruence|intros s Hs; by rewrite Hmeta', Hmeta|].
  exists l'. by rewrite Hl', Hl.
Qed.
End Files.

(** * Inodes *)

Section Inodes.
Import Mkfs.
Implicit Types (m : mk) (d : dinode) (c : list Z) (D : list dinode) (G : list (list Z)) (Lc : gmap (nat * Z) Z) (i : nat).

(** Inode [inum] of the image. *)
Definition inode_at m inum : res dinode := Fs.get_dinode (at_sec m (IBLOCK inum the_sb)) (Fs.dip_off inum).

Lemma IBLOCK_val inum : 0 <= inum -> inum < 208 -> IBLOCK inum the_sb = inum / 8 + 32 /\ 32 <= inum / 8 + 32 < 58.
Proof.
  intros H1 H2. unfold IBLOCK. change IPB with 8. change (sb_inodestart the_sb) with 32. assert (0 <= inum / 8 < 26) by (split; [apply Z.div_pos; lia|apply Z.div_lt_upper_bound; lia]).
  rewrite u32_small by lia. lia.
Qed.

Lemma winode_ok m inum d : shape m -> 0 <= inum < 208 -> dinode_ok d ->
  exists m', winode inum d m = Ok m' /\ shape m' /\ freeblock m' = freeblock m /\ freeinode m' = freeinode m /\
    (forall b, 0 <= b -> b < 32 \/ 58 <= b -> at_sec m' b = at_sec m b) /\ inode_at m' inum = Ok d /\
    (forall j, 0 <= j < 208 -> j <> inum -> inode_at m' j = inode_at m j).
Proof.
  intros Hs Hi Hd. destruct (IBLOCK_val inum) as [EI HI]; [lia..|]. unfold winode. rewrite (sh_sb _ Hs), EI.
  assert (0 <= inum / 8 + 32 < FSSIZE) as HF by (unfold FSSIZE; lia). rewrite (rsect_ok m _ Hs HF). cbn [res_bind].
  pose proof (dip_off_range inum) as Hr. destruct (put_dinode_in d (at_sec m (inum / 8 + 32)) (Fs.dip_off inum)) as (v & Ev); try lia; [apply Hd|rewrite (sh_blk _ Hs) by done; unfold BSIZE in Hr; lia|].
  rewrite Ev. cbn [res_bind]. destruct (get_put_dinode d _ _ _ Hd Ev) as [Eg Ek]. pose proof (proj1 Ek) as Hv. eexists. split; [done|].
  assert (forall b, 0 <= b -> at_sec (wsect (inum / 8 + 32) v m) b = if b =? inum / 8 + 32 then v else at_sec m b) as Hat by (intros b Hb; by apply wsect_at).
  split; [apply wsect_shape; [done|done|rewrite Hv; by apply (sh_blk _ Hs)]|]. split; [done|]. split; [done|]. split; [|split].
  - intros b Hb Hb'. rewrite Hat by done. by rewrite (proj2 (Z.eqb_neq _ _)) by lia.
  - unfold inode_at. rewrite EI, Hat by lia. by rewrite Z.eqb_refl.
  - intros j Hj Hne. unfold inode_at. destruct (IBLOCK_val j) as [EJ HJ]; [lia..|]. rewrite EJ, Hat by lia.
    destruct (Z.eqb_spec (j / 8 + 32) (inum / 8 + 32)) as [E|]; [|done]. rewrite E. apply (get_dinode_keeps (Fs.dip_off inum) (Fs.dip_off inum + sizeof_dinode)); [done|].
    destruct (dip_off_disjoint inum j); [|lia|lia]. change IPB with 8. intros Em. apply Hne.
    rewrite (Z.div_mod j 8), (Z.div_mod inum 8) by lia. lia.
Qed.

Lemma rinode_ok m inum : shape m -> 0 <= inum < 208 -> rinode inum m = inode_at m inum.
Proof.
  intros Hs Hi. destruct (IBLOCK_val inum) as [EI HI]; [lia..|]. unfold rinode, inode_at. rewrite (sh_sb _ Hs), EI.
  rewrite (rsect_ok m _ Hs) by (unfold FSSIZE; lia). done.
Qed.

(** The sectors all files of [G] take. *)
Definition total G : Z := foldr (fun c a => cost (Z.of_nat (length c)) + a) 0 G.

Lemma total_insert G i c c' : G !! i = Some c -> total (<[i := c']> G) = total G + (cost (Z.of_nat (length c')) - cost (Z.of_nat (length c))).
Proof.
  revert i. induction G as [|x G IH]; intros [|i] H; try done.
  - injection H as ->. cbn. lia.
  - specialize (IH i H). change (<[S i := c']> (x :: G)) with (x :: <[i := c']> G). unfold total in *. cbn [foldr]. lia.
Qed.

Lemma total_app G c : total (G ++ [c]) = total G + cost (Z.of_nat (length c)).
Proof. unfold total. induction G as [|x G IH]; cbn in *; lia. Qed.

(** The image with its inodes on the disk. *)
Record built m D G Lc : Prop := {
  bu_image : image m D G Lc;
  bu_ok i d : D !! i = Some d -> dinode_ok d /\ inode_at m (Z.of_nat i + 1) = Ok d;
  bu_size i d c : D !! i = Some d -> G !! i = Some c -> d_size d = Z.of_nat (length c);
  bu_few : (length D < 208)%nat;
  bu_ino : freeinode m = Z.of_nat (length D) + 1;
  bu_fb : freeblock m = nmeta + total G
}.

(** Only data blocks matter to the contents. *)
Lemma image_meta m m' D G Lc : image m D G Lc -> shape m' -> freeblock m' = freeblock m ->
  (forall b, nmeta <= b -> at_sec m' b = at_sec m b) -> image m' D G Lc.
Proof.
  intros [Hs H Hu Hl] Hs' Hf Hb. split; try done. destruct H as [F1 F2 F3 F4 F5 F6 F7 F8 F9 F10 F11]. split; rewrite ?Hf; try done.
  - intros j b k w Hj Hk. rewrite Hb; [by apply F3|]. apply F6 in Hj. lia.
  - intros j c pos Hj Hpos. destruct (F8 j c pos Hj Hpos) as (b & Hb' & Hc). exists b. split; [done|]. rewrite Hb; [done|]. apply F6 in Hb'. lia.
  - intros b Hbb. rewrite ?Hf in Hbb. rewrite Hb by lia. by apply F9.
  - intros j c k b o Hj Hx. rewrite Hb; [by eapply F11|]. apply F6 in Hx. lia.
Qed.

Lemma image_addrs m D D' G Lc : image m D G Lc -> length D' = length D ->
  (forall i d', D' !! i = Some d' -> exists d, D !! i = Some d /\ d_addrs d' = d_addrs d) -> image m D' G Lc.
Proof.
  intros [Hs H Hu Hl] Hl' HD. split; try done; [|congruence]. destruct H as [F1 F2 F3 F4 F5 F6 F7 F8 F9 F10 F11]. split; try done.
  - intros j d' Hj. destruct (HD j d' Hj) as (d & Hd & ->). by eapply F1.
  - intros j d' k Hj. destruct (HD j d' Hj) as (d & Hd & ->). by apply F2.
  - intros j k b Hj. destruct (F5 j k b Hj). split; [lia|done].
Qed.

Lemma addr_range m D G Lc i d : files m D G Lc -> D !! i = Some d -> Forall (fun a => 0 <= a < 2 ^ 32) (d_addrs d).
Proof.
  intros H Hd. apply Forall_lookup. intros k a Ha. pose proof (fl_addrs _ _ _ _ H i d Hd) as Hl. pose proof (lookup_lt_Some _ _ _ Ha) as Hk.
  pose proof (fl_dir _ _ _ _ H i d (Z.of_nat k) Hd) as Hf. rewrite Nat2Z.id in Hf. rewrite Hf in Ha by lia. injection Ha as <-.
  destruct (Lc !! (i, akey (Z.of_nat k))) as [b|] eqn:E; cbn; [|lia]. destruct (fresh_nonzero _ _ _ _ _ _ H E) as (_ & _ & Hr). unfold FSSIZE in Hr. lia.
Qed.

(** The sectors of the meta data that are neither inodes nor data. *)
Definition keeps_meta m m' : Prop := forall b, 0 <= b < 32 \/ b = 58 -> at_sec m' b = at_sec m b.

#[global] Instance keeps_meta_pre : PreOrder keeps_meta.
Proof. split; [done|]. intros m1 m2 m3 H1 H2 b Hb. by rewrite H2, H1. Qed.

(** Writing inode [i] back after its size or its addresses changed. *)
Lemma write_back m m0 D G Lc i d' : image m (<[i := d']> D) G Lc -> (i < length D)%nat -> (length D < 208)%nat -> dinode_ok d' ->
  (forall j e, D !! j = Some e -> dinode_ok e /\ inode_at m0 (Z.of_nat j + 1) = Ok e) -> (forall s, 0 <= s < nmeta -> at_sec m s = at_sec m0 s) ->
  exists m', winode (Z.of_nat i + 1) d' m = Ok m' /\ image m' (<[i := d']> D) G Lc /\ keeps_meta m0 m' /\ freeblock m' = freeblock m /\ freeinode m' = freeinode m /\
    (forall j e, <[i := d']> D !! j = Some e -> dinode_ok e /\ inode_at m' (Z.of_nat j + 1) = Ok e).
Proof.
  intros Him Hi Hfew Hd' Hst Hmeta. destruct (winode_ok m (Z.of_nat i + 1) d') as (m' & E & Hs' & Hfb & Hino & Hk & Hw & Hwo); [apply Him|lia|done|].
  exists m'. split; [done|]. rewrite nmeta_val in Hmeta. split_and!; try done.
  - apply (image_meta m); try done. rewrite nmeta_val. intros b Hb. apply Hk; lia.
  - intros b Hb. rewrite Hk by lia. apply Hmeta. lia.
  - intros j e. rewrite list_lookup_insert_Some. intros [(<- & <- & _)|[Hne Hj]]; [done|]. destruct (Hst j e Hj) as [He Hg]. split; [done|].
    pose proof (lookup_lt_Some _ _ _ Hj). rewrite Hwo by lia. rewrite <- Hg. unfold inode_at. destruct (IBLOCK_val (Z.of_nat j + 1)) as [-> Hr]; [lia..|].
    by rewrite Hmeta by lia.
Qed.

(** [iappend] appends to the contents and takes the sectors it needs. *)
Lemma iappend_ok m D G Lc i d c p : built m D G Lc -> D !! i = Some d -> G !! i = Some c ->
  let len := Z.of_nat (length c) in let n := Z.of_nat (length p) in
  len + n <= BSIZE * MAXFILE -> nmeta + total (<[i := c ++ p]> G) <= FSSIZE ->
  exists m' Lc' l, iappend (Z.of_nat i + 1) p m = Ok m' /\ keeps_meta m m' /\
    built m' (<[i := set_d_size (len + n) (set_d_addrs l d)]> D) (<[i := c ++ p]> G) Lc'.
Proof.
  intros [Him Hst Hsz Hfew Hino Hfb] Hd Hc len n Hmax Hcap. pose proof (lookup_lt_Some _ _ _ Hd) as Hi. destruct (Hst i d Hd) as [Hok Hat].
  rewrite (total_insert _ _ _ _ Hc), length_app, Nat2Z.inj_add in Hcap. fold len n in Hcap.
  unfold iappend. rewrite rinode_ok by (apply Him || lia). rewrite Hat. cbn [res_bind]. rewrite (Hsz i d c Hd Hc).
  assert (0 <= len + n < 2 ^ 32) as Hr by (unfold BSIZE in Hmax; change MAXFILE with 140 in Hmax; lia). rewrite xint_small by (fold len; lia).
  destruct (iappend_loop_ok (S (length p)) p m D G Lc i d c Him Hd Hc) as (d1 & m1 & Lc' & E & Him1 & Hfb1 & Hino1 & Hmeta & l & ->); [lia|done|fold len n; lia|].
  fold len n in E, Hfb1. fold len. rewrite E. cbn [res_bind]. rewrite xint_small by done. set (d2 := set_d_size (len + n) (set_d_addrs l d)).
  assert (image m1 (<[i := d2]> D) (<[i := c ++ p]> G) Lc') as Him2.
  { apply (image_addrs m1 (<[i := set_d_addrs l d]> D)); [done|by rewrite !length_insert|]. intros j e. rewrite list_lookup_insert_Some.
    intros [(<- & <- & _)|[Hne Hj]]; [exists (set_d_addrs l d); by rewrite list_lookup_insert_eq|]. exists e. by rewrite list_lookup_insert_ne. }
  assert (dinode_ok d2) as Hok2.
  { assert ((<[i := d2]> D) !! i = Some d2) as Hl2 by (by apply list_lookup_insert_eq). destruct Hok. split; try done.
    - by apply (addr_range _ _ _ _ i d2 (im_files _ _ _ _ Him2)).
    - by apply (fl_addrs _ _ _ _ (im_files _ _ _ _ Him2) i d2). }
  destruct (write_back m1 m D _ Lc' i d2 Him2) as (m2 & -> & Him' & Hkm & Hfb2 & Hino2 & Hst2); try done.
  exists m2, Lc', l. split; [done|]. split; [done|]. split; try done; rewrite ?length_insert; try done.
  - intros j e c'. rewrite !list_lookup_insert_Some. intros [(<- & <- & _)|[Hne Hj]] [(? & <- & _)|[? Hj']]; try done; [|by eapply Hsz].
    rewrite length_app, Nat2Z.inj_add. done.
  - lia.
  - rewrite (total_insert _ _ _ _ Hc), length_app, Nat2Z.inj_add. fold len n. lia.
Qed.

(** A new inode. *)
Definition fresh_inode (type : Z) : dinode := mkDinode type 0 0 1 0 (repeat 0 13).

Lemma fresh_ok type : 0 <= type < 2 ^ 15 -> dinode_ok (fresh_inode type).
Proof. intros H. split; cbn; try lia; try done. repeat (constructor; [lia|]). constructor. Qed.

Lemma image_fresh m D G Lc type : image m D G Lc -> image m (D ++ [fresh_inode type]) (G ++ [[]]) Lc.
Proof.
  intros [Hs H Hu Hl]. assert (forall k, Lc !! (length D, k) = None) as Hno.
  { intros k. apply eq_None_not_Some. intros [b Hb]. apply (fl_key _ _ _ _ H) in Hb. lia. }
  assert (forall i (P : dinode -> Prop), (forall d, D !! i = Some d -> P d) -> P (fresh_inode type) -> forall d, (D ++ [fresh_inode type]) !! i = Some d -> P d) as Happ.
  { intros i P H1 H2 d. rewrite lookup_app_Some. intros [Hd|[_ Hd]]; [by apply H1|]. apply list_lookup_singleton_Some in Hd as [_ <-]. done. }
  split; try done; [| |rewrite !length_app; cbn; lia].
  - destruct H as [F1 F2 F3 F4 F5 F6 F7 F8 F9 F10 F11]. split; try done.
    + intros i. apply Happ; [apply F1|done].
    + intros i d k Hd. rewrite lookup_app_Some in Hd. destruct Hd as [Hd|[Hi Hd]]; [by apply F2|]. apply list_lookup_singleton_Some in Hd as [Hi' <-].
      intros Hk. replace i with (length D) by lia. rewrite Hno. cbn [fresh_inode d_addrs]. rewrite <- (Nat2Z.id (Z.to_nat k)). change (repeat 0 13) with (replicate 13 0).
      apply lookup_replicate_2. lia.
    + intros i k b Hb. destruct (F5 i k b Hb). rewrite length_app. split; [lia|done].
    + intros i c pos Hc Hpos. rewrite lookup_app_Some in Hc. destruct Hc as [Hc|[_ Hc]]; [by apply F8|]. apply list_lookup_singleton_Some in Hc as [_ <-]. cbn in Hpos. lia.
    + intros i c k b o Hc Hx. rewrite lookup_app_Some in Hc. destruct Hc as [Hc|[Hi Hc]]; [by eapply F11|]. apply list_lookup_singleton_Some in Hc as [Hi' _].
      replace i with (length D) in Hx by lia. by rewrite Hno in Hx.
  - intros i c. rewrite lookup_app_Some. intros [Hc|[Hi Hc]] k; [by apply Hu|]. apply list_lookup_singleton_Some in Hc as [Hi' <-]. replace i with (length D) by lia.
    rewrite Hno. split; [intros []; done|]. intros Hx. exfalso. unfold uses in Hx. change (nb (Z.of_nat (length []))) with 0 in Hx. lia.
Qed.

Lemma ialloc_ok m D G Lc type : built m D G Lc -> 0 <= type < 2 ^ 15 -> (S (length D) < 208)%nat ->
  exists m', ialloc type m = Ok (Z.of_nat (length D) + 1, m') /\ keeps_meta m m' /\ built m' (D ++ [fresh_inode type]) (G ++ [[]]) Lc.
Proof.
  intros [Him Hst Hsz Hfew Hino Hfb] Ht Hlen. unfold ialloc. set (m0 := set_freeinode _ m).
  assert (s16 (xshort type) = type) as Est by (unfold xshort; rewrite dec_enc_small by (cbn; lia); apply s16_small; lia). rewrite Est. change (s16 (xshort 1)) with 1. change (xint 0) with 0.
  assert (shape m0) as Hs0 by (destruct (im_shape _ _ _ _ Him); by split).
  destruct (winode_ok m0 (freeinode m) (fresh_inode type) Hs0) as (m' & E & Hs' & Hf' & Hi' & Hk & Hw & Hwo); [lia|by apply fresh_ok|].
  fold (fresh_inode type). rewrite E. cbn [res_bind]. exists m'. split; [by rewrite Hino|]. split; [intros b Hb; apply Hk; lia|]. split.
  - apply (image_meta m); try done; [by apply image_fresh|]. rewrite nmeta_val. intros b Hb. apply Hk; lia.
  - intros i d. rewrite lookup_app_Some. intros [Hd|[Hi Hd]].
    + destruct (Hst i d Hd). pose proof (lookup_lt_Some _ _ _ Hd). split; [done|]. by rewrite Hwo by lia.
    + apply list_lookup_singleton_Some in Hd as [Hz <-]. split; [by apply fresh_ok|]. replace (Z.of_nat i + 1) with (freeinode m) by lia. done.
  - intros i d c. rewrite !lookup_app_Some. pose proof (im_len _ _ _ _ Him) as Hl. intros [Hd|[Hi Hd]] [Hc|[Hj Hc]].
    + by eapply Hsz.
    + pose proof (lookup_lt_Some _ _ _ Hd). lia.
    + pose proof (lookup_lt_Some _ _ _ Hc). lia.
    + apply list_lookup_singleton_Some in Hd as [_ <-]. by apply list_lookup_singleton_Some in Hc as [_ <-].
  - rewrite length_app. cbn. lia.
  - rewrite length_app, Hi'. change (freeinode m0) with (u32 (freeinode m + 1)). rewrite Hino, u32_small by lia. cbn [length]. lia.
  - rewrite Hf', total_app. change (cost (Z.of_nat (length []))) with 0. change (freeblock m0) with (freeblock m). lia.
Qed.
End Inodes.
