(* ===== verification/MkfsSpec.v ===== *)
(** What [mkfs] leaves on the image, and that the file system of the kernel
    reads it: the contents of the files, the root directory, the bitmap and the
    super block. *)

From stdpp Require Import gmap.
From S2P Require Import Prelude CString Spinlock Kalloc Proc Demo MlfqFacts ProcFacts Sleep Block Log LogFacts Fs FsFacts DirFacts Ide Mkfs MkfsFacts.

Section Run.
Import Mkfs.
Implicit Types (m : mk) (d : dinode) (c : list Z) (D : list dinode) (G : list (list Z)) (Lc : gmap (nat * Z) Z) (i : nat) (f : hostfile).

(** What the reads of a file return, up to the end of the file. *)
Fixpoint host_bytes (reads : list (list Z)) : list Z :=
  match reads with
  | [] => []
  | [] :: _ => []
  | r :: reads' => r ++ host_bytes reads'
  end.
Definition file_bytes f : list Z := host_bytes (default [] (h_reads f)).

(** A directory entry: the name is cut to 14 bytes or padded with zeroes. *)
Definition entry (inum : Z) (name : list Z) : list Z := enc 2 inum ++ take DIRSIZ (name ++ replicate DIRSIZ 0).

(** The entries of the files from inode [k] on. *)
Fixpoint entries (k : Z) (fs : list hostfile) : list Z :=
  match fs with
  | [] => []
  | f :: fs' => entry k (skip_us (h_name f)) ++ entries (k + 1) fs'
  end.
Definition root_bytes (fs : list hostfile) : list Z := entry 1 [46] ++ entry 1 [46; 46] ++ entries 2 fs.

(** An argument [mkfs] accepts. *)
Record good_file f : Prop := {
  gf_open : is_Some (h_reads f);
  gf_name : Forall (fun x => x <> 0) (h_name f);
  gf_slash : existsb (fun x => x =? 47) (h_name f) = false;
  gf_size : Z.of_nat (length (file_bytes f)) <= BSIZE * MAXFILE
}.

(** The fields [iappend] leaves alone. *)
Definition kind (t : Z) d : Prop := d_type d = t /\ d_major d = 0 /\ d_minor d = 0 /\ d_nlink d = 1.
Definition kinds D : Prop := forall i d, D !! i = Some d -> kind (if (i =? 0)%nat then T_DIR else T_FILE) d.

Lemma kinds_insert D i d d' : kinds D -> D !! i = Some d -> (forall t, kind t d -> kind t d') -> kinds (<[i := d']> D).
Proof.
  intros H Hd Hk j e. rewrite list_lookup_insert_Some. intros [(<- & <- & _)|[_ Hj]]; [|by apply H]. apply Hk. by apply H.
Qed.

Lemma strncpy_pad n : forall l, Forall (fun x => x <> 0) l -> strncpy_buf n (l ++ [0]) = Ok (take n (l ++ replicate n 0)).
Proof.
  induction n as [|n IH]; intros l Hl; [done|]. destruct l as [|x l]; cbn [strncpy_buf].
  - change (zget "name" ([] ++ [0]) 0) with (Ok 0). cbn [res_bind Z.eqb]. f_equal. cbn [app]. rewrite take_ge by (rewrite length_replicate; lia).
    clear. induction (S n) as [|k IH]; cbn; [done|]. by rewrite IH.
  - apply Forall_cons in Hl as [Hc Hl]. change (zget "name" ((x :: l) ++ [0]) 0) with (Ok x). cbn [res_bind]. rewrite (proj2 (Z.eqb_neq _ _) Hc).
    change (drop 1 ((x :: l) ++ [0])) with (l ++ [0]). rewrite (IH l Hl). cbn [res_bind]. f_equal. cbn [app take]. f_equal.
    destruct (Nat.le_gt_cases n (length l)) as [Hle|Hgt]; [by rewrite !take_app_le by lia|].
    rewrite !take_app_ge by lia. f_equal. rewrite !take_replicate. f_equal. lia.
Qed.

Lemma dirent_ok inum name : 0 <= inum < 2 ^ 16 -> Forall (fun x => x <> 0) name -> dirent inum name = Ok (entry inum name).
Proof.
  intros Hi Hn. unfold dirent, entry. rewrite (strncpy_pad DIRSIZ) by done. cbn [res_bind]. unfold xshort. by rewrite dec_enc_small by (cbn; lia).
Qed.

Lemma entry_length inum name : length (entry inum name) = 16%nat.
Proof. unfold entry. rewrite length_app, enc_length, length_take, length_app, length_replicate. unfold DIRSIZ. lia. Qed.

Lemma skip_us_nul name : Forall (fun x => x <> 0) name -> Forall (fun x => x <> 0) (skip_us name).
Proof. intros H. destruct name as [|x r]; [done|]. cbn. apply Forall_cons in H as [? ?]. destruct (x =? 95); [done|by apply Forall_cons]. Qed.

Lemma total_split A G : total (A ++ G) = total A + total G.
Proof. unfold total. induction A as [|x A IH]; cbn in *; lia. Qed.

Lemma cost_pos len : 0 <= len -> 0 <= cost len.
Proof. intros H. pose proof (cost_mono 0 len H). change (cost 0) with 0 in *. lia. Qed.

Lemma total_pos G : 0 <= total G.
Proof. induction G as [|x G IH]; [done|]. cbn. pose proof (cost_pos (Z.of_nat (length x)) ltac:(lia)). unfold total in IH. lia. Qed.

Lemma copy_in_ok reads : forall m D G Lc i d c, built m D G Lc -> kinds D -> D !! i = Some d -> G !! i = Some c ->
  Z.of_nat (length c) + Z.of_nat (length (host_bytes reads)) <= BSIZE * MAXFILE -> nmeta + total (<[i := c ++ host_bytes reads]> G) <= FSSIZE ->
  exists m' D' Lc', copy_in (Z.of_nat i + 1) reads m = Ok m' /\ keeps_meta m m' /\ built m' D' (<[i := c ++ host_bytes reads]> G) Lc' /\ kinds D' /\
    length D' = length D.
Proof.
  induction reads as [|r reads IH]; intros m D G Lc i d c H Hk Hd Hc Hmax Hcap; cbn [copy_in host_bytes] in *.
  { exists m, D, Lc. rewrite app_nil_r, list_insert_id by done. by split_and!. }
  destruct r as [|x r]; [exists m, D, Lc; rewrite app_nil_r, list_insert_id by done; by split_and!|].
  rewrite (proj2 (Z.ltb_lt 0 _)) by (cbn; lia). set (q := x :: r) in *. set (hb := host_bytes reads) in *.
  rewrite length_app, Nat2Z.inj_add in Hmax. rewrite (total_insert _ _ _ _ Hc), !length_app, !Nat2Z.inj_add in Hcap.
  pose proof (cost_mono (Z.of_nat (length c) + Z.of_nat (length q)) (Z.of_nat (length c) + (Z.of_nat (length q) + Z.of_nat (length hb))) ltac:(lia)) as Hcm.
  destruct (iappend_ok m D G Lc i d c q H Hd Hc) as (m1 & Lc1 & l & -> & Hkm & H1); [lia|rewrite (total_insert _ _ _ _ Hc), length_app, Nat2Z.inj_add; lia|].
  cbn [res_bind]. set (d1 := set_d_size _ _) in *.
  destruct (IH m1 (<[i := d1]> D) (<[i := c ++ q]> G) Lc1 i d1 (c ++ q) H1) as (m' & D' & Lc' & -> & Hkm' & H' & Hk' & Hl').
  { by apply (kinds_insert D i d). } { apply list_lookup_insert_eq. by eapply lookup_lt_Some. } { apply list_lookup_insert_eq. by eapply lookup_lt_Some. }
  { rewrite length_app, Nat2Z.inj_add. lia. }
  { rewrite list_insert_insert_eq, (total_insert _ _ _ _ Hc), !length_app, !Nat2Z.inj_add. rewrite <- Z.add_assoc. lia. }
  exists m', D', Lc'. rewrite list_insert_insert_eq, <- app_assoc in H'. split_and!; try done; [by etrans|by rewrite Hl', length_insert].
Qed.

Lemma add_file_ok m D R B Lc f : built m D (R :: B) Lc -> kinds D -> good_file f -> (S (length D) < 208)%nat ->
  let de := entry (Z.of_nat (length D) + 1) (skip_us (h_name f)) in
  Z.of_nat (length R) + 16 <= BSIZE * MAXFILE -> nmeta + total ((R ++ de) :: B ++ [file_bytes f]) <= FSSIZE ->
  exists m' D' Lc', add_file 1 f m = Ok m' /\ keeps_meta m m' /\ built m' D' ((R ++ de) :: B ++ [file_bytes f]) Lc' /\ kinds D' /\ length D' = S (length D).
Proof.
  intros H Hk [[rds Hop] Hnm Hsl Hsz] Hfew de HR Hcap. unfold add_file. rewrite Hsl, Hop. unfold file_bytes in *. rewrite Hop in *. cbn [default from_option id] in *.
  pose proof (im_len _ _ _ _ (bu_image _ _ _ _ H)) as Hl. cbn [length] in Hl.
  destruct (ialloc_ok m D (R :: B) Lc T_FILE H) as (m1 & -> & Hkm1 & H1); [done|done|]. cbn [res_bind].
  assert (kinds (D ++ [fresh_inode T_FILE])) as Hk1.
  { intros j e. rewrite lookup_app_Some. intros [Hj|[Hj Hj']]; [by apply Hk|]. apply list_lookup_singleton_Some in Hj' as [Hj0 <-].
    rewrite (proj2 (Nat.eqb_neq _ _)) by lia. done. }
  rewrite dirent_ok by (lia || by apply skip_us_nul). cbn [res_bind]. fold de. destruct D as [|d0 D]; [cbn in Hl; lia|].
  change (total ((R ++ de) :: B ++ [host_bytes rds])) with (total ([R ++ de] ++ B ++ [host_bytes rds])) in Hcap.
  rewrite !total_split in Hcap. pose proof (total_pos B) as HtB. pose proof (total_pos [host_bytes rds]) as Hth.
  destruct (iappend_ok m1 ((d0 :: D) ++ [fresh_inode T_FILE]) ((R :: B) ++ [[]]) Lc 0 d0 R de H1) as (m2 & Lc2 & l & E2 & Hkm2 & H2); [done|done| | |].
  { unfold de. rewrite entry_length. lia. }
  { change (<[0%nat := R ++ de]> ((R :: B) ++ [[]])) with ([R ++ de] ++ B ++ [[]]). rewrite !total_split. change (total [[]]) with 0. lia. }
  change (Z.of_nat 0 + 1) with 1 in E2. rewrite E2. cbn [res_bind]. set (d1 := set_d_size _ _) in *.
  change (<[0%nat := R ++ de]> ((R :: B) ++ [[]])) with (((R ++ de) :: B) ++ [[]]) in H2. change (<[0%nat := d1]> ((d0 :: D) ++ [fresh_inode T_FILE])) with ((d1 :: D) ++ [fresh_inode T_FILE]) in H2.
  destruct (copy_in_ok rds m2 _ _ Lc2 (length (d0 :: D)) (fresh_inode T_FILE) [] H2) as (m' & D' & Lc' & E' & Hkm' & H' & Hk' & Hl').
  { by apply (kinds_insert _ 0%nat d0) with (d' := d1) in Hk1. }
  { rewrite lookup_app_r by (cbn; lia). cbn [length]. by rewrite Nat.sub_diag. }
  { rewrite Hl, lookup_app_r by (cbn; lia). cbn [length]. by rewrite Nat.sub_diag. }
  { done. }
  { rewrite Hl. rewrite insert_app_r_alt by (cbn; lia). cbn [length]. rewrite Nat.sub_diag. cbn [app]. change (<[0%nat := host_bytes rds]> [[]]) with [host_bytes rds].
    change ((R ++ de) :: B ++ [host_bytes rds]) with ([R ++ de] ++ B ++ [host_bytes rds]). rewrite !total_split. lia. }
  rewrite E'. exists m', D', Lc'. split; [done|]. split; [by etrans; [exact Hkm1|etrans; [exact Hkm2|exact Hkm']]|]. split; [|split; [done|rewrite Hl', length_app; cbn; lia]].
  rewrite Hl in H'. rewrite insert_app_r_alt in H' by (cbn; lia). cbn [length] in H'. rewrite Nat.sub_diag in H'. exact H'.
Qed.

Lemma entries_length k fs : Z.of_nat (length (entries k fs)) = 16 * Z.of_nat (length fs).
Proof. revert k. induction fs as [|f fs IH]; intros k; cbn [entries]; [done|]. rewrite length_app, entry_length, Nat2Z.inj_add, IH. cbn [length]. lia. Qed.

Lemma add_files_ok fs : forall m D R B Lc, built m D (R :: B) Lc -> kinds D -> Forall good_file fs -> (length D + length fs < 208)%nat ->
  let R' := R ++ entries (Z.of_nat (length D) + 1) fs in let B' := B ++ map file_bytes fs in
  Z.of_nat (length R) + 16 * Z.of_nat (length fs) <= BSIZE * MAXFILE -> nmeta + total (R' :: B') <= FSSIZE ->
  exists m' D' Lc', add_files 1 fs m = Ok m' /\ keeps_meta m m' /\ built m' D' (R' :: B') Lc' /\ kinds D' /\ length D' = (length D + length fs)%nat.
Proof.
  induction fs as [|f fs IH]; intros m D R B Lc H Hk Hg Hfew R' B' HR Hcap; cbn [add_files].
  { exists m, D, Lc. unfold R', B'. cbn [entries map]. rewrite !app_nil_r. by split_and!. }
  apply Forall_cons in Hg as [Hf Hg]. cbn [length] in *. unfold R', B' in Hcap. cbn [entries map] in Hcap.
  set (de := entry (Z.of_nat (length D) + 1) (skip_us (h_name f))) in *. assert (length de = 16%nat) as Hde by apply entry_length.
  change (nmeta + total ([R ++ de ++ entries (Z.of_nat (length D) + 1 + 1) fs] ++ B ++ ([file_bytes f] ++ map file_bytes fs)) <= FSSIZE) in Hcap.
  assert (total [R ++ de] <= total [R ++ de ++ entries (Z.of_nat (length D) + 1 + 1) fs]) as Hmono.
  { unfold total. cbn [foldr]. rewrite !Z.add_0_r. apply cost_mono. rewrite !length_app, !Nat2Z.inj_add. lia. }
  rewrite !total_split in Hcap. pose proof (total_pos (map file_bytes fs)) as Htf.
  destruct (add_file_ok m D R B Lc f H Hk Hf) as (m1 & D1 & Lc1 & -> & Hkm1 & H1 & Hk1 & Hl1); [lia|lia| |].
  { fold de. change ((R ++ de) :: B ++ [file_bytes f]) with ([R ++ de] ++ B ++ [file_bytes f]). rewrite !total_split. lia. }
  cbn [res_bind]. fold de in H1.
  assert (Z.of_nat (length D1) + 1 = Z.of_nat (length D) + 1 + 1) as El by lia.
  destruct (IH m1 D1 (R ++ de) (B ++ [file_bytes f]) Lc1 H1 Hk1 Hg) as (m' & D' & Lc' & -> & Hkm' & H' & Hk' & Hl'); [lia|rewrite length_app; lia| |].
  { rewrite El, <- !app_assoc. cbn [app]. change (?a :: B ++ ?b) with ([a] ++ B ++ b). rewrite !total_split.
    change (file_bytes f :: map file_bytes fs) with ([file_bytes f] ++ map file_bytes fs). rewrite total_split. lia. }
  exists m', D', Lc'. split; [done|]. split; [by etrans|]. rewrite El, <- !app_assoc in H'. split; [exact H'|]. split; [done|lia].
Qed.

(** ** The start *)

Lemma zero_image_img n : forall (i : nat) m, img m = replicate i zeroes -> (i + n <= Z.to_nat FSSIZE)%nat ->
  img (zero_image n (Z.of_nat i) m) = replicate (i + n) zeroes /\ freeinode (zero_image n (Z.of_nat i) m) = freeinode m /\
  freeblock (zero_image n (Z.of_nat i) m) = freeblock m /\ mk_sb (zero_image n (Z.of_nat i) m) = mk_sb m.
Proof.
  induction n as [|n IH]; intros i m Hi Hle; cbn [zero_image]; [by rewrite Nat.add_0_r|].
  replace (Z.of_nat i + 1) with (Z.of_nat (S i)) by lia.
  destruct (IH (S i) (wsect (Z.of_nat i) zeroes m)) as (E1 & E2 & E3 & E4); [|lia|].
  { unfold wsect. rewrite sector_id by (unfold FSSIZE in *; lia). rewrite Nat2Z.id, decide_False by (rewrite Hi, length_replicate; lia). cbn [img set_img].
    rewrite Hi, length_replicate, Nat.sub_diag. cbn [repeat app]. by rewrite replicate_S_end. }
  rewrite E1, E2, E3, E4. split_and!; try done. f_equal. lia.
Qed.

Lemma empty_image m : shape m -> (forall b, nmeta <= b < FSSIZE -> at_sec m b = zeroes) -> freeblock m = nmeta -> freeinode m = 1 -> built m [] [] ∅.
Proof.
  intros Hs Hz Hf Hi. split; try done; [|cbn; lia]. split; try done.
  split; try done; rewrite ?Hf; try done.
Qed.

Lemma blank_ok : shape blank_image /\ (forall b, 0 <= b < FSSIZE -> at_sec blank_image b = zeroes) /\ freeblock blank_image = nmeta /\ freeinode blank_image = 1.
Proof.
  assert (img blank_image = replicate (Z.to_nat FSSIZE) zeroes /\ freeinode blank_image = 1 /\ freeblock blank_image = nmeta /\ mk_sb blank_image = the_sb)
    as (E1 & E2 & E3 & E4) by (apply (zero_image_img (Z.to_nat FSSIZE) 0 (mkMk [] 1 nmeta the_sb)); [reflexivity|apply Nat.le_refl]).
  assert (forall b, 0 <= b < FSSIZE -> at_sec blank_image b = zeroes) as Hz.
  { intros b Hb. unfold at_sec. rewrite E1, lookup_replicate_2 by lia. done. }
  split; [|split; [exact Hz|split; [exact E3|exact E2]]].
  split; [rewrite E1; apply length_replicate|intros b Hb; rewrite Hz by exact Hb; reflexivity|exact E4].
Qed.

(** ** The end *)

Lemma mark_ok n : forall (i : Z) (buf : block), 0 <= i -> i + Z.of_nat n <= BPB -> length buf = 512%nat ->
  exists buf', mark n i (i + Z.of_nat n) buf = Ok buf' /\ length buf' = 512%nat /\
    forall b, 0 <= b < BPB -> bit_of buf' b = (i <=? b) && (b <? i + Z.of_nat n) || bit_of buf b.
Proof.
  induction n as [|n IH]; intros i buf Hi Hle Hl; cbn [mark].
  { exists buf. split_and!; try done. intros b Hb. destruct (Z.leb_spec i b), (Z.ltb_spec b (i + Z.of_nat 0)); try done. lia. }
  rewrite (proj2 (Z.ltb_lt _ _)) by lia. assert (Z.of_nat (length buf) = BSIZE) as Hl' by (by rewrite Hl).
  pose proof (bi_byte i buf ltac:(lia) Hl') as Hby. rewrite zget_default by done. cbn [res_bind].
  destruct (set_byte_bit buf i "buf" (fun v => Z.lor v (Z.shiftl 1 (i mod 8))) true ltac:(lia) Hl') as (b1 & -> & Hl1 & Hb1).
  { intros v k j Hk Hj ->. apply testbit_set; lia. }
  cbn [res_bind]. replace (i + Z.of_nat (S n)) with (i + 1 + Z.of_nat n) in * by lia.
  destruct (IH (i + 1) b1) as (b2 & -> & Hl2 & Hb2); [lia|lia|congruence|]. exists b2. split_and!; try done.
  intros b Hb. rewrite Hb2, Hb1 by done. destruct (decide (b = i)) as [->|Hne].
  - rewrite (proj2 (Z.leb_le i i)), (proj2 (Z.ltb_lt _ _)) by lia. cbn. by rewrite orb_true_r.
  - f_equal. f_equal. destruct (Z.leb_spec (i + 1) b), (Z.leb_spec i b); try done; lia.
Qed.

Lemma zero_bits b : 0 <= b < BPB -> bit_of zeroes b = false.
Proof.
  intros Hb. unfold bit_of. pose proof (bi_byte b zeroes Hb eq_refl) as Hby. change zeroes with (replicate 512 0). rewrite lookup_replicate_2; [apply Z.bits_0|].
  change (Z.of_nat (length zeroes)) with 512 in Hby. lia.
Qed.

Lemma balloc_img_ok used m : shape m -> 0 <= used < BSIZE * 8 ->
  exists m', balloc used m = Ok m' /\ shape m' /\ freeblock m' = freeblock m /\ (forall b, 0 <= b -> b <> 58 -> at_sec m' b = at_sec m b) /\
    forall b, 0 <= b < BPB -> bit_of (at_sec m' 58) b = (b <? used).
Proof.
  intros Hs Hu. unfold balloc. rewrite (proj2 (Z.ltb_lt _ _)) by lia. rewrite (sh_sb _ Hs). change (sb_bmapstart the_sb) with 58.
  destruct (mark_ok (Z.to_nat used) 0 zeroes) as (buf & E & Hl & Hb); [lia|unfold BPB; lia|done|]. rewrite Z2Nat.id in E, Hb by lia. rewrite Z.add_0_l in E.
  rewrite E. cbn [res_bind]. eexists. split; [done|]. split; [by apply wsect_shape|]. split; [done|].
  assert (forall b, 0 <= b -> at_sec (wsect 58 buf m) b = if b =? 58 then buf else at_sec m b) as Hat by (intros b Hb'; by apply wsect_at).
  split; [intros b H0 Hne; rewrite Hat by done; by rewrite (proj2 (Z.eqb_neq _ _))|]. intros b Hbb. rewrite Hat by lia. rewrite Z.eqb_refl, Hb by done.
  rewrite zero_bits, orb_false_r, Z.add_0_l by done. by rewrite (proj2 (Z.leb_le 0 b)) by lia.
Qed.

(** ** The image *)

Definition contents (fs : list hostfile) : list (list Z) := root_bytes fs :: map file_bytes fs.

(** What [main] leaves: inode [i + 1] is [D !! i] and [Lc] says where its
    blocks are. *)
Record made fs m D Lc : Prop := {
  md_image : image m D (contents fs) Lc;
  md_inode i d : D !! i = Some d -> dinode_ok d /\ inode_at m (Z.of_nat i + 1) = Ok d;
  md_kind : kinds D;
  md_len : length D = S (length fs) /\ (length D < 208)%nat;
  md_size i d c : D !! S i = Some d -> contents fs !! S i = Some c -> d_size d = Z.of_nat (length c);
  md_root d : D !! 0%nat = Some d -> d_size d = (Z.of_nat (length (root_bytes fs)) / BSIZE + 1) * BSIZE;
  md_fb : freeblock m = nmeta + total (contents fs);
  md_sb : exists buf, put_bytes "buf" zeroes 0 (sb_bytes the_sb) = Ok buf /\ at_sec m 1 = buf;
  md_map b : 0 <= b < FSSIZE -> bit_of (at_sec m 58) b = (b <? freeblock m)
}.

(** The arguments fit on the image. *)
Record fits fs : Prop := {
  ft_good : Forall good_file fs;
  ft_few : (length fs <= 206)%nat;
  ft_room : nmeta + total (contents fs) <= FSSIZE
}.

(** Rounding the size of the root directory and writing the bitmap. *)
Lemma build_finish_ok m D Lc fs : built m D (contents fs) Lc -> kinds D -> length D = S (length fs) -> Z.of_nat (length (root_bytes fs)) <= 2 ^ 16 ->
  (exists buf, put_bytes "buf" zeroes 0 (sb_bytes the_sb) = Ok buf /\ at_sec m 1 = buf) ->
  exists m' D' Lc', (let? m := fix_root 1 m in balloc (freeblock m) m) = Ok m' /\ made fs m' D' Lc'.
Proof.
  intros [Him Hst Hsz Hfew Hino Hfb] Hk Hl Hrl Hsb. destruct D as [|d0 D]; [done|].
  destruct (Hst 0%nat d0 eq_refl) as [Hok Hat]. change (Z.of_nat 0 + 1) with 1 in Hat. unfold fix_root. rewrite rinode_ok by (apply Him || lia). rewrite Hat. cbn [res_bind].
  rewrite (Hsz 0%nat d0 (root_bytes fs)) by done. set (len := Z.of_nat (length (root_bytes fs))) in *. assert (0 <= len) by lia.
  assert (0 <= len / BSIZE /\ BSIZE * (len / BSIZE) <= len) as [Hq1 Hq2] by (split; [apply Z.div_pos|apply Z.mul_div_le]; unfold BSIZE; lia).
  rewrite (xint_small len), u32_small, xint_small by (unfold BSIZE in *; lia). set (d1 := set_d_size ((len / BSIZE + 1) * BSIZE) d0).
  assert (image m (<[0%nat := d1]> (d0 :: D)) (contents fs) Lc) as Him1.
  { apply (image_addrs m (d0 :: D)); [done|done|]. intros j e. rewrite list_lookup_insert_Some. intros [(<- & <- & _)|[_ Hj]]; [by exists d0|by exists e]. }
  assert (dinode_ok d1) as Hok1 by (destruct Hok; split; try done; cbn; unfold BSIZE in *; lia).
  destruct (write_back m m (d0 :: D) (contents fs) Lc 0 d1 Him1) as (m1 & E1 & Him2 & Hkm & Hfb1 & _ & Hst1); try done; [cbn; lia|].
  change (Z.of_nat 0 + 1) with 1 in E1. rewrite E1. cbn [res_bind]. pose proof (fl_fb _ _ _ _ (im_files _ _ _ _ Him2)) as Hfr.
  destruct (balloc_img_ok (freeblock m1) m1) as (m' & E' & Hs' & Hfb' & Ho & Hbit); [apply Him2|rewrite nmeta_val in Hfr; unfold FSSIZE, BSIZE in *; lia|].
  exists m', (<[0%nat := d1]> (d0 :: D)), Lc. split; [exact E'|]. split.
  - apply (image_meta m1); try done. rewrite nmeta_val. intros b Hb. apply Ho; lia.
  - intros j e Hj. destruct (Hst1 j e Hj) as [? <-]. split; [done|]. pose proof (lookup_lt_Some _ _ _ Hj) as Hjl. rewrite length_insert in Hjl.
    unfold inode_at. destruct (IBLOCK_val (Z.of_nat j + 1)) as [-> Hr]; [lia..|]. by rewrite Ho by lia.
  - by apply (kinds_insert _ _ d0).
  - by rewrite length_insert.
  - intros j e c Hj Hc. eapply (Hsz (S j)); [exact Hj|exact Hc].
  - intros e [= <-]. done.
  - by rewrite Hfb', Hfb1.
  - destruct Hsb as (buf & Eb & <-). exists (at_sec m 1). split; [done|]. rewrite Ho by lia. apply Hkm. lia.
  - intros b Hb. rewrite Hfb'. apply Hbit. unfold FSSIZE in Hb. unfold BPB, BSIZE. lia.
Qed.

Lemma root_length fs : Z.of_nat (length (root_bytes fs)) = 16 * (Z.of_nat (length fs) + 2).
Proof. unfold root_bytes. rewrite !length_app, !entry_length, !Nat2Z.inj_add, entries_length. lia. Qed.

(** The part of [main] that makes the root directory. *)
Definition make_root m : res (Z * mk) :=
  let? (rootino, m) := ialloc T_DIR m in
  if rootino =? ROOTINO then
    let? de := dirent rootino [46] in
    let? m := iappend rootino de m in
    let? de := dirent rootino [46; 46] in
    let? m := iappend rootino de m in
    Ok (rootino, m)
  else Panic "assert rootino == ROOTINO".

Lemma main_split fs : main fs =
  let? buf := put_bytes "buf" zeroes 0 (sb_bytes (mk_sb blank_image)) in
  let? (rootino, m) := make_root (wsect 1 buf blank_image) in
  let? m := add_files rootino fs m in
  let? m := fix_root rootino m in
  balloc (freeblock m) m.
Proof.
  unfold main, make_root.
  generalize blank_image. intros m0. destruct (put_bytes "buf" zeroes 0 _) as [buf| | | |]; cbn [res_bind]; try done.
  destruct (ialloc T_DIR _) as [[r m1]| | | |]; cbn [res_bind]; try done. destruct (r =? ROOTINO); [|done].
  destruct (dirent r [46]) as [de| | | |]; cbn [res_bind]; try done. destruct (iappend r de m1) as [m2| | | |]; cbn [res_bind]; try done.
  destruct (dirent r [46; 46]) as [de'| | | |]; cbn [res_bind]; try done. by destruct (iappend r de' m2) as [m3| | | |].
Qed.

Lemma root_ok : exists buf m D Lc, put_bytes "buf" zeroes 0 (sb_bytes the_sb) = Ok buf /\ make_root (wsect 1 buf blank_image) = Ok (1, m) /\
  built m D [entry 1 [46] ++ entry 1 [46; 46]] Lc /\ kinds D /\ length D = 1%nat /\ at_sec m 1 = buf.
Proof.
  pose proof blank_ok as Hbl. revert Hbl. generalize blank_image. intros m0 (Hs & Hz & Hf & Hi).
  assert (exists buf, put_bytes "buf" zeroes 0 (sb_bytes the_sb) = Ok buf) as [buf Eb] by (eexists; vm_compute; reflexivity). exists buf.
  assert (length buf = 512%nat) as Hlb by (rewrite (put_bytes_length _ _ _ _ _ Eb); reflexivity).
  assert (forall b, 0 <= b -> at_sec (wsect 1 buf m0) b = if b =? 1 then buf else at_sec m0 b) as Hat by (intros b Hb; apply wsect_at; (exact Hs || unfold FSSIZE; lia)).
  assert (built (wsect 1 buf m0) [] [] ∅) as H0.
  { apply empty_image; [apply wsect_shape; [exact Hs|unfold FSSIZE; lia|exact Hlb]| |exact Hf|exact Hi].
    rewrite nmeta_val. intros b Hb. rewrite Hat, (proj2 (Z.eqb_neq _ _)) by lia. apply Hz. lia. }
  destruct (ialloc_ok _ [] [] ∅ T_DIR H0) as (m1 & E1 & Hk1 & H1); [unfold T_DIR; lia|cbn; lia|]. change (Z.of_nat (length []) + 1) with 1 in E1.
  destruct (iappend_ok m1 [fresh_inode T_DIR] [[]] ∅ 0 (fresh_inode T_DIR) [] (entry 1 [46]) H1) as (m2 & Lc2 & l2 & E2 & Hk2 & H2); [done|done|by vm_compute|by vm_compute|].
  destruct (iappend_ok m2 _ _ Lc2 0 _ _ (entry 1 [46; 46]) H2 eq_refl eq_refl) as (m3 & Lc3 & l3 & E3 & Hk3 & H3); [by vm_compute|by vm_compute|].
  change (Z.of_nat 0 + 1) with 1 in *. eexists m3, _, Lc3. split; [done|]. unfold make_root. rewrite E1. cbn [res_bind]. change (1 =? ROOTINO) with true. cbn iota.
  rewrite (dirent_ok 1 [46]), (dirent_ok 1 [46; 46]) by (lia || (repeat constructor; lia)). cbn [res_bind]. rewrite E2. cbn [res_bind]. rewrite E3.
  split; [done|]. split; [exact H3|]. split; [|split; [done|]].
  2: { rewrite (Hk3 1), (Hk2 1), (Hk1 1), Hat by lia. reflexivity. }
  intros [|j] e; [intros [= <-]; done|done].
Qed.

Lemma main_ok fs : fits fs -> exists m D Lc, main fs = Ok m /\ made fs m D Lc.
Proof.
  intros [Hg Hfew Hroom]. destruct root_ok as (buf & m & D & Lc & Eb & E & H & Hk & Hl & Hsb).
  destruct (add_files_ok fs m D (entry 1 [46] ++ entry 1 [46; 46]) [] Lc H Hk Hg) as (m1 & D1 & Lc1 & E1 & Hkm & H1 & Hk1 & Hl1).
  { lia. } { rewrite length_app, !entry_length. unfold BSIZE. change MAXFILE with 140. lia. } { rewrite Hl, <- app_assoc. exact Hroom. }
  rewrite Hl, <- app_assoc in H1. change (Z.of_nat 1 + 1) with 2 in H1. rewrite main_split, (sh_sb _ (proj1 blank_ok)), Eb. cbn [res_bind].
  rewrite E. cbn [res_bind]. rewrite E1. cbn [res_bind]. apply (build_finish_ok m1 D1 Lc1 fs H1 Hk1); [lia|rewrite root_length; lia|].
  exists buf. split; [exact Eb|]. rewrite <- Hsb. apply Hkm. lia.
Qed.
End Run.

(** * The kernel on the image *)

Section Kernel.
Context `{SV : Services}.
Implicit Types (m : mk) (x : fsx) (d : dinode) (c : list Z) (D : list dinode) (Lc : gmap (nat * Z) Z) (i : nat) (ip k pos : Z).

(** The disk of the file system [x] is the image. *)
Record mounted m x : Prop := {
  mt_cont b : 0 <= b < FSSIZE -> cont x b = at_sec m b;
  mt_size : FsFacts.nblocks x = FSSIZE;
  mt_held : FsFacts.holds x = [];
  mt_sb : f_sb x = Mkfs.the_sb
}.

(** Entry [ip] of the inode cache is inode [inum] as [ilock] reads it. *)
Definition loaded x ip inum : Prop :=
  i_dev (ic x ip) = 1 /\ Fs.get_dinode (cont x (IBLOCK inum (f_sb x))) (Fs.dip_off inum) = Ok (i_d (ic x ip)).

Lemma loaded_inode fs m D Lc x ip i d : made fs m D Lc -> mounted m x -> D !! i = Some d -> loaded x ip (Z.of_nat i + 1) ->
  i_d (ic x ip) = d.
Proof.
  intros H Hm Hd [_ Hl]. destruct (md_inode _ _ _ _ H i d Hd) as [_ Hi]. unfold inode_at in Hi. rewrite (mt_sb _ _ Hm) in Hl.
  pose proof (lookup_lt_Some _ _ _ Hd) as Hil. destruct (md_len _ _ _ _ H) as [_ Hfew].
  destruct (IBLOCK_val (Z.of_nat i + 1)) as [E Hr]; [lia..|]. rewrite E in Hi, Hl. rewrite (mt_cont _ _ Hm) in Hl by (unfold FSSIZE; lia). congruence.
Qed.

Lemma live_block m D G Lc x p b : image m D G Lc -> mounted m x -> Lc !! p = Some b -> live x b.
Proof.
  intros H Hm Hp. destruct (fresh_nonzero _ _ _ _ _ _ (im_files _ _ _ _ H) Hp) as (_ & Hb0 & Hb). split; [done|]. rewrite (mt_size _ _ Hm), (mt_held _ _ Hm).
  split; [lia|]. split; [apply not_elem_of_nil|]. rewrite (mt_cont _ _ Hm) by done. rewrite (sh_blk _ (im_shape _ _ _ _ H)) by done. done.
Qed.

(** A block of a file, as [bmap] finds it. *)
Lemma block_of m D G Lc x ip i d k b : image m D G Lc -> mounted m x -> D !! i = Some d -> d_addrs (i_d (ic x ip)) = d_addrs d -> i_dev (ic x ip) = 1 ->
  0 <= k -> Lc !! (i, k) = Some b -> mapped x ip k /\ addr_of x ip k = b.
Proof.
  intros H Hm Hd Ha Hdev Hk Hb. pose proof (im_files _ _ _ _ H) as Hf. destruct (fl_key _ _ _ _ Hf _ _ _ Hb) as [_ Hkr].
  assert (NDIRECT <= k -> live x (indirect x ip) /\ addr_of x ip k = b) as Hind.
  { intros Hge. change NDIRECT with 12 in Hge. destruct (fl_need _ _ _ _ Hf _ _ _ Hb Hge) as [b' Hb'].
    assert (indirect x ip = b') as Ei.
    { unfold indirect, addrs_of. rewrite Ha. pose proof (fl_dir _ _ _ _ Hf i d 12 Hd ltac:(lia)) as E. change (Z.to_nat 12) with 12%nat in E. rewrite E.
      change (akey 12) with (-1). by rewrite Hb'. }
    split; [rewrite Ei; by eapply live_block|]. unfold addr_of. rewrite (proj2 (Z.ltb_ge k NDIRECT)) by (change NDIRECT with 12; lia). rewrite Ei.
    destruct (fresh_nonzero _ _ _ _ _ _ Hf Hb') as (_ & _ & Hr). rewrite (mt_cont _ _ Hm) by done. change NDIRECT with 12.
    pose proof (fl_ind _ _ _ _ Hf i b' k "a" Hb' ltac:(lia)) as Eg. rewrite Hb in Eg. unfold get32 in Eg. rewrite get_bytes_in in Eg;
      [by injection Eg as ->|lia|rewrite (sh_blk _ (im_shape _ _ _ _ H)) by done; change MAXFILE with 140 in Hkr; lia]. }
  assert (addr_of x ip k = b) as Eb.
  { destruct (Z.lt_ge_cases k NDIRECT) as [Hlt|Hge]; [|by apply Hind]. unfold addr_of. rewrite (proj2 (Z.ltb_lt _ _) Hlt). unfold addrs_of. rewrite Ha.
    change NDIRECT with 12 in Hlt. rewrite (fl_dir _ _ _ _ Hf i d k Hd) by lia. unfold akey. rewrite (proj2 (Z.eqb_neq _ _)), Hb by lia. done. }
  split; [|done]. split; [lia|done|unfold addrs_of; rewrite Ha; by eapply fl_addrs|rewrite Eb; by eapply live_block|]. intros Hge. by apply Hind.
Qed.

(** What the kernel reads of a file, and behind its end in its last block. *)
Lemma kernel_byte m D G Lc x ip i d c pos : image m D G Lc -> mounted m x -> D !! i = Some d -> d_addrs (i_d (ic x ip)) = d_addrs d ->
  i_dev (ic x ip) = 1 -> G !! i = Some c -> 0 <= pos < Z.of_nat (length c) -> mapped x ip (pos / BSIZE) /\ Some (fbyte x ip pos) = c !! Z.to_nat pos.
Proof.
  intros H Hm Hd Ha Hdev Hc Hpos. pose proof (im_files _ _ _ _ H) as Hf. destruct (fl_byte _ _ _ _ Hf i c pos Hc Hpos) as (b & Hb & Hv).
  destruct (block_of m D G Lc x ip i d (pos / BSIZE) b H Hm Hd Ha Hdev) as [Hmap Ea]; [apply Z.div_pos; unfold BSIZE; lia|done|]. split; [done|].
  unfold fbyte. rewrite Ea. destruct (fresh_nonzero _ _ _ _ _ _ Hf Hb) as (_ & _ & Hr). rewrite (mt_cont _ _ Hm) by done. rewrite Hv.
  destruct (lookup_lt_is_Some_2 c (Z.to_nat pos)) as [v ->]; [lia|done].
Qed.

Lemma kernel_tail m D G Lc x ip i d c pos : image m D G Lc -> mounted m x -> D !! i = Some d -> d_addrs (i_d (ic x ip)) = d_addrs d ->
  i_dev (ic x ip) = 1 -> G !! i = Some c -> Z.of_nat (length c) <= pos < BSIZE * nb (Z.of_nat (length c)) -> mapped x ip (pos / BSIZE) /\ fbyte x ip pos = 0.
Proof.
  intros H Hm Hd Ha Hdev Hc Hpos. pose proof (im_files _ _ _ _ H) as Hf. assert (0 <= pos / BSIZE) as Hk by (apply Z.div_pos; unfold BSIZE; lia).
  pose proof (Z.div_mod pos BSIZE ltac:(unfold BSIZE; lia)) as Hdm. pose proof (Z.mod_pos_bound pos BSIZE ltac:(unfold BSIZE; lia)) as Hmb.
  destruct (proj2 (im_uses _ _ _ _ H i c Hc (pos / BSIZE))) as [b Hb]; [left; unfold BSIZE in *; lia|].
  destruct (block_of m D G Lc x ip i d (pos / BSIZE) b H Hm Hd Ha Hdev Hk Hb) as [Hmap Ea]. split; [done|].
  unfold fbyte. rewrite Ea. destruct (fresh_nonzero _ _ _ _ _ _ Hf Hb) as (_ & _ & Hr). rewrite (mt_cont _ _ Hm) by done.
  rewrite (fl_tail _ _ _ _ Hf i c (pos / BSIZE) b (pos mod BSIZE)) by (done || lia). done.
Qed.

Lemma map_slice (f : Z -> Z) (l : list Z) off n : 0 <= off -> 0 <= n -> off + n <= Z.of_nat (length l) ->
  (forall pos, 0 <= pos < Z.of_nat (length l) -> Some (f pos) = l !! Z.to_nat pos) -> map f (seqZ off n) = take (Z.to_nat n) (drop (Z.to_nat off) l).
Proof.
  intros Ho Hn Hle Hf. apply list_eq. intros j. change (map f (seqZ off n)) with (f <$> seqZ off n). rewrite list_lookup_fmap. destruct (Nat.lt_ge_cases j (Z.to_nat n)) as [Hj|Hj].
  - rewrite lookup_take_lt, lookup_drop by done. rewrite (proj2 (lookup_seqZ off n j (off + Z.of_nat j))) by lia. cbn. rewrite Hf by lia. f_equal. lia.
  - rewrite lookup_take_ge by lia. by rewrite lookup_seqZ_ge by lia.
Qed.

Lemma mounted_same m x x' : same x x' -> mounted m x -> mounted m x'.
Proof.
  intros [[E1 E2 E3 E4 E5] E6 E7] [H1 H2 H3 H4]. split; [|congruence..]. intros b Hb. rewrite E7. by apply H1.
Qed.

(** C15: [mkfs] makes an image from which [readi] of [fs.c] reads
    every file back: whatever range is asked for, it returns the bytes of the
    file of the host in that range, up to its end. *)
Theorem mkfs_readi fs : fits fs -> exists m, Mkfs.main fs = Ok m /\
  forall x (i : nat) f ip off n s dr, mounted m x -> fs !! i = Some f -> loaded x ip (Z.of_nat i + 2) ->
    0 <= off <= Z.of_nat (length (file_bytes f)) -> 0 <= n < 2 ^ 31 ->
    let r := Z.min n (Z.of_nat (length (file_bytes f)) - off) in
    exists x', Fs.readi dr ip off n s x = Ok (r, take (Z.to_nat r) (drop (Z.to_nat off) (file_bytes f)), s, x') /\ mounted m x'.
Proof.
  intros Hfit. destruct (main_ok fs Hfit) as (m & D & Lc & E & H). exists m. split; [done|]. intros x i f ip off n s dr Hm Hf Hl Hoff Hn r.
  set (c := file_bytes f) in *. assert (contents fs !! S i = Some c) as Hc by (change (contents fs !! S i) with ((file_bytes <$> fs) !! i); by rewrite list_lookup_fmap, Hf).
  destruct (md_len _ _ _ _ H) as [HlD _]. pose proof (lookup_lt_Some _ _ _ Hf) as Hil.
  destruct (lookup_lt_is_Some_2 D (S i)) as [d Hd]; [lia|]. replace (Z.of_nat i + 2) with (Z.of_nat (S i) + 1) in Hl by lia.
  pose proof (loaded_inode _ _ _ _ _ _ _ _ H Hm Hd Hl) as Ed. pose proof (md_size _ _ _ _ H i d c Hd Hc) as Esz. destruct (md_kind _ _ _ _ H _ _ Hd) as [Ety _].
  assert (Z.of_nat (length c) <= BSIZE * MAXFILE) as Hmax by (destruct Hfit as [Hg _ _]; rewrite Forall_lookup in Hg; apply (gf_size f); by eapply Hg).
  unfold BSIZE in Hmax. change MAXFILE with 140 in Hmax.
  assert (forall pos, 0 <= pos < Z.of_nat (length c) -> mapped x ip (pos / BSIZE) /\ Some (fbyte x ip pos) = c !! Z.to_nat pos) as Hb.
  { intros pos Hpos. apply (kernel_byte m D (contents fs) Lc x ip (S i) d c pos (md_image _ _ _ _ H) Hm Hd); [by rewrite Ed|apply Hl|exact Hc|exact Hpos]. }
  pose proof (readi_ok dr ip off n s x) as Hr. rewrite Ed, Esz, Ety in Hr. cbn [Nat.eqb] in Hr. rewrite decide_True in Hr by lia.
  destruct Hr as (x' & Hr & Hs); [done|lia|lia|lia|intros pos Hpos; by apply Hb|]. exists x'. split.
  - rewrite Hr. do 4 f_equal. apply (map_slice (fbyte x ip)); [lia|lia|lia|]. intros pos Hpos. by apply Hb.
  - by eapply mounted_same.
Qed.

(** ** The root directory *)

(** Its entries, in order. *)
Fixpoint numbered (k : Z) (fs : list hostfile) : list (Z * list Z) :=
  match fs with
  | [] => []
  | f :: fs' => (k, Mkfs.skip_us (h_name f)) :: numbered (k + 1) fs'
  end.
Definition root_entries (fs : list hostfile) : list (Z * list Z) := (1, [46]) :: (1, [46; 46]) :: numbered 2 fs.

Lemma numbered_lookup fs : forall k (i : nat), numbered k fs !! i = (fun f => (k + Z.of_nat i, Mkfs.skip_us (h_name f))) <$> fs !! i.
Proof.
  induction fs as [|f fs IH]; intros k [|i]; cbn; try done; [by rewrite Z.add_0_r|]. rewrite IH. destruct (fs !! i); cbn; [|done]. f_equal. f_equal. lia.
Qed.

Lemma numbered_length k fs : length (numbered k fs) = length fs.
Proof. revert k. induction fs as [|f fs IH]; intros k; cbn; [done|]. by rewrite IH. Qed.

Lemma root_concat fs : root_bytes fs = concat (map (fun e => entry e.1 e.2) (root_entries fs)).
Proof.
  unfold root_bytes, root_entries. cbn [map concat fst snd]. do 2 f_equal. generalize 2. induction fs as [|f fs IH]; intros k; cbn; [done|]. by rewrite IH.
Qed.

Lemma concat_16 (l : list (list Z)) (k : nat) e : Forall (fun u : list Z => length u = 16%nat) l -> l !! k = Some e -> take 16 (drop (16 * k) (concat l)) = e.
Proof.
  intros H. revert k. induction H as [|x l Hx H IH]; intros [|k]; try done; cbn [concat lookup list_lookup].
  - intros [= <-]. rewrite Nat.mul_0_r, drop_0, take_app_le by lia. apply take_ge. lia.
  - intros Hk. rewrite drop_app_ge by lia. rewrite Hx. replace (16 * S k - 16)%nat with (16 * k)%nat by lia. by apply IH.
Qed.

(** The name an entry is found under. *)
Lemma entry_name inum name : Forall (fun z : Z => z <> 0) name -> buf_str (drop 2 (entry inum name)) = take DIRSIZ name.
Proof.
  intros Hn. unfold entry. rewrite drop_app_ge by (rewrite enc_length; lia). rewrite enc_length. change (2 - 2)%nat with 0%nat. rewrite drop_0.
  destruct (Nat.le_gt_cases DIRSIZ (length name)) as [Hle|Hgt].
  - rewrite take_app_le by done. apply buf_str_full. by apply Forall_take.
  - rewrite take_app_ge by lia. rewrite take_replicate, (take_ge name) by lia. destruct (DIRSIZ - length name)%nat as [|j] eqn:E; [lia|].
    rewrite Nat.min_l by lia. cbn [replicate]. by apply buf_str_all.
Qed.

Lemma entry_inum inum name : 0 <= inum < 2 ^ 16 -> dec (take 2 (entry inum name)) = inum.
Proof. intros H. unfold entry. rewrite take_app_le by (rewrite enc_length; lia). rewrite take_ge by (rewrite enc_length; lia). by apply dec_enc_small. Qed.

Lemma root_entries_ok fs (k : nat) inum name : fits fs -> root_entries fs !! k = Some (inum, name) ->
  0 < inum < 2 ^ 16 /\ Forall (fun z : Z => z <> 0) name /\ (k < length fs + 2)%nat.
Proof.
  intros [Hg Hfew _] Hk. unfold root_entries in Hk. destruct k as [|[|k]]; cbn in Hk; [injection Hk as <- <-|injection Hk as <- <-|].
  1,2: split_and!; try lia; repeat (constructor; [lia|]); constructor.
  rewrite numbered_lookup in Hk. destruct (fs !! k) as [f|] eqn:Ef; [|done]. injection Hk as <- <-. pose proof (lookup_lt_Some _ _ _ Ef).
  split; [lia|]. split; [|lia]. apply skip_us_nul. rewrite Forall_lookup in Hg. apply (gf_name f). by eapply Hg.
Qed.

(** The number of entries the root directory has room for. *)
Definition root_slots (fs : list hostfile) : Z := 32 * (16 * (Z.of_nat (length fs) + 2) / BSIZE + 1).

Lemma root_dir fs m D Lc x dp : fits fs -> made fs m D Lc -> mounted m x -> loaded x dp 1 -> (Z.of_nat (length fs) + 2) mod 32 <> 0 ->
  dir_ok x dp (root_slots fs) /\ i_dev (ic x dp) = 1 /\
  (forall (k : nat) inum name, root_entries fs !! k = Some (inum, name) -> dent_inum x dp (Z.of_nat k) = inum /\ dent_name x dp (Z.of_nat k) = take DIRSIZ name) /\
  (forall k, Z.of_nat (length fs) + 2 <= k < root_slots fs -> dent_inum x dp k = 0).
Proof.
  intros Hfit H Hm Hl Hpart. set (n := Z.of_nat (length fs) + 2) in *. destruct (md_len _ _ _ _ H) as [HlD _].
  destruct D as [|d D]; [done|]. pose proof (loaded_inode _ _ _ _ _ dp 0 d H Hm eq_refl Hl) as Ed. pose proof (root_length fs) as Hrl. fold n in Hrl.
  pose proof (ft_few _ Hfit) as Hfew. assert (contents fs !! 0%nat = Some (root_bytes fs)) as Hc by done.
  assert (d_addrs (i_d (ic x dp)) = d_addrs d) as Ha by (by rewrite Ed). destruct Hl as [Hdev _].
  pose proof (Z.div_mod (16 * n) 512 ltac:(lia)) as Hdm. pose proof (Z.mod_pos_bound (16 * n) 512 ltac:(lia)) as Hmb.
  assert ((16 * n) mod 512 <> 0) as Hnz.
  { change 512 with (16 * 32). rewrite Z.mul_mod_distr_l by lia. lia. }
  assert (nb (16 * n) = 16 * n / 512 + 1) as Hnb by (unfold nb; symmetry; apply (Z.div_unique_pos _ 512 _ ((16 * n) mod 512 - 1)); lia).
  assert (16 * root_slots fs = BSIZE * nb (16 * n)) as Eslots by (unfold root_slots, BSIZE; fold n; lia).
  assert (forall pos, 0 <= pos < 16 * root_slots fs -> mapped x dp (pos / BSIZE) /\ (16 * n <= pos -> fbyte x dp pos = 0)) as Hpos.
  { intros pos Hp. destruct (Z.lt_ge_cases pos (16 * n)) as [Hlt|Hge].
    - destruct (kernel_byte m (d :: D) (contents fs) Lc x dp 0 d (root_bytes fs) pos (md_image _ _ _ _ H) Hm eq_refl Ha Hdev Hc) as [Hmp _]; [lia|]. split; [done|lia].
    - destruct (kernel_tail m (d :: D) (contents fs) Lc x dp 0 d (root_bytes fs) pos (md_image _ _ _ _ H) Hm eq_refl Ha Hdev Hc) as [Hmp Hz]; [rewrite Hrl; lia|done]. }
  split; [|split; [done|split]].
  - split.
    + rewrite Ed. by destruct (md_kind _ _ _ _ H 0%nat d eq_refl) as [-> _].
    + rewrite Ed, (md_root _ _ _ _ H d eq_refl), Hrl. unfold root_slots, sizeof_dirent, BSIZE. fold n. lia.
    + unfold root_slots, sizeof_dirent, BSIZE. fold n. assert (0 <= 16 * n / 512 <= 16 * n) by lia. lia.
    + intros pos Hp. unfold sizeof_dirent in Hp. apply Hpos. lia.
  - intros k inum name Hk. destruct (root_entries_ok fs k inum name Hfit Hk) as (Hi & Hnm & Hkl).
    assert (dent x dp (Z.of_nat k) = entry inum name) as E.
    { unfold dent, sizeof_dirent. rewrite (map_slice (fbyte x dp) (root_bytes fs)); [|lia|lia|lia|].
      - replace (Z.to_nat (16 * Z.of_nat k)) with (16 * k)%nat by lia. change (Z.to_nat 16) with 16%nat. rewrite root_concat. apply concat_16.
        + apply Forall_map, Forall_forall. intros e _. apply entry_length.
        + change (map ?g ?l) with (g <$> l). by rewrite list_lookup_fmap, Hk.
      - intros pos Hp. by apply (kernel_byte m (d :: D) (contents fs) Lc x dp 0 d (root_bytes fs) pos (md_image _ _ _ _ H) Hm eq_refl Ha Hdev Hc). }
    unfold dent_inum, dent_name. rewrite E. split; [apply entry_inum; lia|by apply entry_name].
  - intros k Hk. unfold dent_inum, dent, sizeof_dirent. assert (map (fbyte x dp) (seqZ (16 * k) 16) = replicate 16 0) as ->; [|done].
    apply list_eq. intros j. change (map ?g ?l) with (g <$> l). rewrite list_lookup_fmap. destruct (Nat.lt_ge_cases j 16) as [Hj|Hj].
    + rewrite (proj2 (lookup_seqZ (16 * k) 16 j (16 * k + Z.of_nat j))), lookup_replicate_2 by lia. cbn. f_equal. apply (Hpos (16 * k + Z.of_nat j)); lia.
    + rewrite lookup_seqZ_ge by lia. symmetry. apply lookup_ge_None_2. rewrite length_replicate. lia.
Qed.

(** The names of the directory entries, as the kernel compares them. *)
Definition root_names (fs : list hostfile) : list (list Z) := map (fun e => take DIRSIZ e.2) (root_entries fs).

(** [mkfs] makes a root directory in which [dirlookup] of [fs.c] finds every
    file, under its name cut to [DIRSIZ] bytes and at the inode that holds its
    contents, if no two names are the same once they are cut and the entries
    do not end with a block. *)
Theorem mkfs_dirlookup fs : fits fs -> NoDup (root_names fs) -> (Z.of_nat (length fs) + 2) mod 32 <> 0 ->
  exists m, Mkfs.main fs = Ok m /\
  forall x (i : nat) f dp name p q s dr, mounted m x -> loaded x dp 1 -> fs !! i = Some f ->
    length name = DIRSIZ -> buf_str name = take DIRSIZ (Mkfs.skip_us (h_name f)) ->
    icache_ok x -> outside p q s -> locked (ic_lock x) = 0 -> has_free x ->
    exists ip s' x', Fs.dirlookup dr dp name s x = Ok (Some (ip, 16 * (Z.of_nat i + 2)), s', x') /\
      caches x' ip 1 (Z.of_nat i + 2) /\ i_ref (ic x' ip) = i_ref (ic x ip) + 1 /\ forall b, cont x' b = cont x b.
Proof.
  intros Hfit Hnd Hpart. destruct (main_ok fs Hfit) as (m & D & Lc & E & H). exists m. split; [done|].
  intros x i f dp name p q s dr Hm Hl Hf Hnl Hnm Hic Hout Hlk Hfree.
  destruct (root_dir fs m D Lc x dp Hfit H Hm Hl Hpart) as (Hd & Hdev & Hent & Hrest).
  assert (root_entries fs !! S (S i) = Some (Z.of_nat i + 2, Mkfs.skip_us (h_name f))) as Hi.
  { unfold root_entries. cbn. rewrite numbered_lookup, Hf. cbn. by rewrite Z.add_comm. }
  pose proof (Hent _ _ _ Hi) as [Ei En]. replace (Z.of_nat (S (S i))) with (Z.of_nat i + 2) in Ei, En by lia.
  pose proof (lookup_lt_Some _ _ _ Hi) as Hil. assert (length (root_entries fs) = (length fs + 2)%nat) as Hrl by (unfold root_entries; cbn; rewrite numbered_length; lia).
  assert (dent_is x dp (Z.of_nat i + 2) (buf_str name)) as His by (split; [lia|by rewrite En]).
  destruct (dirlookup_result p q dr dp name _ s x Hd Hnl Hic Hout Hlk Hfree) as (r & s' & x' & Er & Hc & Hr).
  destruct r as [[ip off]|].
  2: { destruct (Hr (Z.of_nat i + 2)); [|done]. split; [lia|]. destruct (Z.lt_ge_cases (Z.of_nat i + 2) (root_slots fs)) as [Hlt|Hge]; [done|].
       exfalso. unfold root_slots, BSIZE in Hge. pose proof (Z.div_mod (16 * (Z.of_nat (length fs) + 2)) 512). pose proof (Z.mod_pos_bound (16 * (Z.of_nat (length fs) + 2)) 512). lia. }
  destruct Hr as (k & Hk & -> & [Hk0 Hkn] & Hfirst & Hca & Href). assert (k = Z.of_nat i + 2) as ->.
  { destruct (Z.lt_ge_cases k (Z.of_nat (length fs) + 2)) as [Hlt|Hge]; [|exfalso; apply Hk0, Hrest; lia].
    destruct (lookup_lt_is_Some_2 (root_entries fs) (Z.to_nat k)) as [[inum nm] Hk']; [lia|]. destruct (Hent _ _ _ Hk') as [_ Ek].
    rewrite Z2Nat.id in Ek by lia. enough (Z.to_nat k = S (S i)) by lia. apply (NoDup_lookup _ _ _ (take DIRSIZ nm) Hnd); unfold root_names; change (map ?g ?l) with (g <$> l);
      rewrite list_lookup_fmap; [by rewrite Hk'|]. rewrite Hi. cbn [fmap option_fmap option_map snd]. congruence. }
  exists ip, s', x'. rewrite Hdev, Ei in Hca. exact (conj Er (conj Hca (conj Href Hc))).
Qed.

(** When the entries of the root directory end with a block, the size [main]
    rounds up takes in a block no address is written for: [bmap] of [fs.c]
    allocates a block of the disk when the kernel reads there. *)
Theorem mkfs_root_hole fs : fits fs -> (Z.of_nat (length fs) + 2) mod 32 = 0 ->
  exists m, Mkfs.main fs = Ok m /\
  forall x dp s, mounted m x -> loaded x dp 1 ->
    let bn := (Z.of_nat (length fs) + 2) / 32 in
    d_size (i_d (ic x dp)) = BSIZE * (bn + 1) /\
    Fs.bmap dp bn s x = (let? (addr, s, x) := Fs.balloc 1 s x in
                         let? ad := zset "ip->addrs" (d_addrs (i_d (ic x dp))) bn addr in
                         Ok (addr, s, Fs.upd_d dp (set_d_addrs ad) x)).
Proof.
  intros Hfit Hmod. destruct (main_ok fs Hfit) as (m & D & Lc & E & H). exists m. split; [done|]. intros x dp s Hm Hl bn.
  set (n := Z.of_nat (length fs) + 2) in *. destruct (md_len _ _ _ _ H) as [HlD _]. destruct D as [|d D]; [done|].
  pose proof (loaded_inode _ _ _ _ _ dp 0 d H Hm eq_refl Hl) as Ed. pose proof (root_length fs) as Hrl. fold n in Hrl. pose proof (ft_few _ Hfit) as Hfew.
  assert (n = 32 * bn) as Hn by (pose proof (Z.div_mod n 32); subst bn; lia). assert (bn <= 6) as Hb6 by lia.
  rewrite Ed. split.
  - rewrite (md_root _ _ _ _ H d eq_refl), Hrl, Hn. unfold BSIZE. replace (16 * (32 * bn)) with (bn * 512) by lia. rewrite Z.div_mul by lia. lia.
  - unfold Fs.bmap. rewrite (proj2 (Z.ltb_lt bn NDIRECT)) by (change NDIRECT with 12; lia). rewrite Ed.
    assert (Lc !! (0%nat, bn) = None) as HN.
    { apply eq_None_not_Some. rewrite (im_uses _ _ _ _ (md_image _ _ _ _ H) 0%nat (root_bytes fs) eq_refl), Hrl, Hn. unfold uses, nb.
      replace (16 * (32 * bn) + 511) with (511 + bn * 512) by lia. rewrite Z.div_add by lia. change (511 / 512) with 0. lia. }
    pose proof (fl_dir _ _ _ _ (im_files _ _ _ _ (md_image _ _ _ _ H)) 0%nat d bn eq_refl ltac:(lia)) as Ea.
    unfold akey in Ea. destruct (Z.eqb_spec bn 12) as [|_] in Ea; [lia|]. rewrite HN in Ea. cbn [default] in Ea.
    assert (0 <= bn) as Hb0 by lia. rewrite (proj2 (zget_Ok _ _ _ 0) (conj Hb0 Ea)). cbn [res_bind]. rewrite Z.eqb_refl. destruct Hl as [-> _]. reflexivity.
Qed.
End Kernel.

(** * Witnesses *)

Definition demo_files : list hostfile :=
  [mkHost [95; 99; 97; 116] (Some [[97; 98; 99]; [100; 101]; []]); mkHost [82; 69; 65; 68] (Some [])].
Definition demo_many : list hostfile := repeat (mkHost [97] (Some [])) 30.

Lemma demo_fits : fits demo_files.
Proof.
  split; [|cbn; lia|vm_compute; discriminate]. repeat (apply Forall_cons; split); [| |done]; (split; [by eexists|repeat (constructor; [lia|]); constructor|done|vm_compute; discriminate]).
Qed.

Lemma demo_many_fits : fits demo_many.
Proof.
  split; [|cbn; lia|vm_compute; discriminate]. apply Forall_forall. intros f Hf. apply list_elem_of_In, repeat_spec in Hf. subst f.
  split; [by eexists|repeat (constructor; [lia|]); constructor|done|vm_compute; discriminate].
Qed.

(** The image as the disk of a kernel that has inode [inum] in entry 0. *)
Definition mount (m : mk) (inum : Z) : fsx :=
  let read := Fs.get_dinode (at_sec m (IBLOCK inum Mkfs.the_sb)) (Fs.dip_off inum) in
  mkFs (mkLst (demo_log 0 (repeat 0 30)) (Dev.boot (at_sec m) FSSIZE)) Mkfs.the_sb demo_lock
    (fun i => if i =? 0 then mkInode 1 inum 1 (mkSleeplock 0 demo_lock "inode" 0) 1 (match read with Ok d => d | _ => i_d demo_free end) else demo_free).

Lemma mount_ok m inum : mounted m (mount m inum).
Proof. split; [intros b _|..]; reflexivity. Qed.

Lemma mount_loaded m inum : is_ok (Fs.get_dinode (at_sec m (IBLOCK inum Mkfs.the_sb)) (Fs.dip_off inum)) = true -> loaded (mount m inum) 0 inum.
Proof.
  intros H. split; [reflexivity|]. unfold cont, mount. cbn [f_log bd f_sb Dev.boot ic Z.eqb i_d]. unfold Dev.contents. cbn [cached disk].
  by destruct (Fs.get_dinode _ _).
Qed.

Lemma mount_icache m inum : icache_ok (mount m inum).
Proof.
  assert (forall i, i <> 0 -> i_ref (ic (mount m inum) i) = 0) as H by (intros i Hi; cbn; by rewrite (proj2 (Z.eqb_neq _ _))).
  constructor.
  - intros i _. destruct (decide (i = 0)) as [->|]; [cbn; lia|rewrite H; done].
  - intros i j dev n _ _ [H1 _] [H2 _].
    destruct (decide (i = 0)) as [->|]; [|rewrite H in H1; done].
    destruct (decide (j = 0)) as [->|]; [done|rewrite H in H2; done].
Qed.

Lemma demo_inodes fs m inum : Mkfs.main fs = Ok m ->
  is_ok (let? m := Mkfs.main fs in Fs.get_dinode (at_sec m (IBLOCK inum Mkfs.the_sb)) (Fs.dip_off inum)) = true -> loaded (mount m inum) 0 inum.
Proof. intros -> H. apply mount_loaded, H. Qed.

Lemma mkfs_readi_witness : exists m x', Mkfs.main demo_files = Ok m /\
  Fs.readi (fun _ => None) 0 1 100 (demo_in 0) (mount m 2) = Ok (4, [98; 99; 100; 101], demo_in 0, x').
Proof.
  destruct (mkfs_readi demo_files demo_fits) as (m & E & H). exists m.
  destruct (H (mount m 2) 0%nat (mkHost [95; 99; 97; 116] (Some [[97; 98; 99]; [100; 101]; []])) 0 1 100 (demo_in 0) (fun _ => None)) as (x' & Hr & _).
  - apply mount_ok.
  - reflexivity.
  - apply (demo_inodes demo_files); [exact E|]. vm_compute. reflexivity.
  - vm_compute. split; discriminate.
  - lia.
  - exists x'. split; [exact E|]. exact Hr.
Defined.

Lemma mkfs_dirlookup_witness : exists m ip s' x', Mkfs.main demo_files = Ok m /\
  Fs.dirlookup (fun _ => None) 0 (demo_name [99; 97; 116]) (demo_in 0) (mount m 1) = Ok (Some (ip, 32), s', x') /\ caches x' ip 1 2.
Proof.
  destruct (mkfs_dirlookup demo_files demo_fits) as (m & E & H); [apply (bool_decide_unpack _); vm_compute; reflexivity|discriminate|]. exists m.
  destruct (H (mount m 1) 0%nat (mkHost [95; 99; 97; 116] (Some [[97; 98; 99]; [100; 101]; []])) 0 (demo_name [99; 97; 116]) 0%nat 0%nat (demo_in 0) (fun _ => None))
    as (ip & s' & x' & Hr & Hc & _).
  - apply mount_ok.
  - apply (demo_inodes demo_files); [exact E|]. vm_compute. reflexivity.
  - reflexivity.
  - reflexivity.
  - reflexivity.
  - apply mount_icache.
  - apply demo_out.
  - reflexivity.
  - exists 1. split; [split; [discriminate|reflexivity]|reflexivity].
  - exists ip, s', x'. split; [exact E|]. split; [exact Hr|exact Hc].
Defined.

Lemma mkfs_root_hole_witness : exists m, Mkfs.main demo_many = Ok m /\ d_size (i_d (ic (mount m 1) 0)) = 1024.
Proof.
  destruct (mkfs_root_hole demo_many demo_many_fits) as (m & E & H); [reflexivity|]. exists m. split; [exact E|].
  destruct (H (mount m 1) 0 (demo_in 0)) as [Hs _].
  - apply mount_ok.
  - apply (demo_inodes demo_many); [exact E|]. vm_compute. reflexivity.
  - exact Hs.
Defined.
