(* ===== verification/Programs.v ===== *)
(** The small user programs: cat.c, echo.c, kill.c, ln.c, mkdir.c, rm.c, zombie.c,
    init.c, ls.c, forktest.c, stressfs.c, test1.c, test2.c and test3.c, the main functions of wc.c and
    grep.c, [stat] of ulib.c and [putc] of printf.c.

    A program is an interaction tree: its events are the system calls, a loop
    that may run forever is [ITree.iter].  Strings are lists of bytes without
    their NUL; [argv] has no null at its end. *)

From Stdlib Require Import SpecFloat.
From ITree Require Import ITree.
From S2P Require Import Prelude CString Spinlock Kalloc Proc Demo MlfqFacts ProcFacts Sleep Block Log Fs Userland.

(** * System calls *)

(** A read gives what it returns and the bytes it put into the buffer, [fstat]
    the structure it filled in, [pipe] the two descriptors.  [Exit] does not return; [Undefined] is not a
    call but behaviour that C leaves undefined. *)
Variant sysE : Type -> Type :=
| SFork : sysE Z
| SExit : sysE void
| SWait : sysE Z
| SPipe : sysE (Z * (Z * Z))
| SRead (fd n : Z) : sysE (Z * list Z)
| SWrite (fd : Z) (bs : list Z) : sysE Z
| SClose (fd : Z) : sysE Z
| SKill (pid : Z) : sysE Z
| SExec (path : list Z) (argv : list (list Z)) : sysE Z
| SOpen (path : list Z) (mode : Z) : sysE Z
| SMknod (path : list Z) (major minor : Z) : sysE Z
| SUnlink (path : list Z) : sysE Z
| SFstat (fd : Z) : sysE (Z * Fs.stat)
| SLink (old new : list Z) : sysE Z
| SMkdir (path : list Z) : sysE Z
| SChdir (path : list Z) : sysE Z
| SDup (fd : Z) : sysE Z
| SGetpid : sysE Z
| SSbrk (n : Z) : sysE Z
| SSleep (n : Z) : sysE Z
| SUptime : sysE Z
| SGetpinfo (pid : Z) : sysE Z
| Undefined : sysE void.

Declare Scope prog_scope.
Notation "'let*' x ':=' m 'in' k" := (ITree.bind m (fun x => k))
  (at level 10, x pattern, m at level 150, k at level 200) : prog_scope.
#[local] Open Scope prog_scope.

Abbreviation program := (itree sysE).

Definition call {A : Type} (e : sysE A) : program A := ITree.trigger e.
Definition exit {A : Type} : program A := let* v := call SExit in match v : void with end.
Definition undefined {A : Type} : program A := let* v := call Undefined in match v : void with end.

Definition O_RDONLY : Z := 0x000.
Definition O_WRONLY : Z := 0x001.
Definition O_RDWR : Z := 0x002.
Definition O_CREATE : Z := 0x200.

(** A result of code that can go wrong. *)
Definition lift {A : Type} (m : res A) : program A :=
  match m with Ok a => Ret a | _ => undefined end.

(** * printf.c and ulib.c *)

Definition putc (fd c : Z) : program unit := let* _ := call (SWrite fd [c]) in Ret tt.

Fixpoint put_all (fd : Z) (bs : list Z) : program unit :=
  match bs with
  | [] => Ret tt
  | c :: bs => let* _ := putc fd c in put_all fd bs
  end.

Definition printf (fd : Z) (fmt : string) (ap : list Printf.arg) : program unit :=
  let* bs := lift (Printf.printf (bytes_of fmt) ap) in put_all fd bs.

Definition no_stat : Fs.stat := Fs.mkStat 0 0 0 0 0.

Definition stat_path (n : list Z) : program (Z * Fs.stat) :=
  let* fd := call (SOpen n O_RDONLY) in
  if fd <? 0 then Ret (-1, no_stat)
  else
    let* (r, st) := call (SFstat fd) in
    let* _ := call (SClose fd) in
    Ret (r, st).

Definition atoi (s : list Z) : res Z := Ulib.u_atoi (S (length s)) (store_bytes (fun _ => 0) 0 s) 0.

(** A newline, as a string. *)
Definition nl : string := String (Ascii.ascii_of_nat 10) EmptyString.
#[local] Notation "s +n" := (String.append s nl) (at level 1).

Definition arg_str (s : list Z) : Printf.arg := Printf.Str (Some s).

(** * cat.c *)

Module Cat.
Definition cat (fd : Z) : program unit :=
  let* n := ITree.iter (fun _ : unit =>
    let* (n, bs) := call (SRead fd 512) in
    if 0 <? n then
      let* w := call (SWrite 1 (take (Z.to_nat n) bs)) in
      if negb (w =? n) then let* _ := printf 1 ("cat: write error" +n) [] in exit
      else Ret (inl tt)
    else Ret (inr n)) tt in
  if n <? 0 then let* _ := printf 1 ("cat: read error" +n) [] in exit
  else Ret tt.

Fixpoint cat_files (args : list (list Z)) : program unit :=
  match args with
  | [] => exit
  | a :: args =>
      let* fd := call (SOpen a 0) in
      if fd <? 0 then let* _ := printf 1 ("cat: cannot open %s" +n) [arg_str a] in exit
      else
        let* _ := cat fd in
        let* _ := call (SClose fd) in
        cat_files args
  end.

Definition cat_main (argv : list (list Z)) : program unit :=
  if (length argv <=? 1)%nat then let* _ := cat 0 in exit
  else cat_files (drop 1 argv).
End Cat.

(** * echo.c, kill.c, ln.c, mkdir.c, rm.c and zombie.c *)

Module Echo.
Fixpoint echo_words (args : list (list Z)) : program unit :=
  match args with
  | [] => exit
  | a :: args =>
      let* _ := printf 1 "%s%s" [arg_str a; arg_str (bytes_of (match args with [] => nl | _ => " " end))] in
      echo_words args
  end.
Definition echo_main (argv : list (list Z)) : program unit := echo_words (drop 1 argv).
End Echo.

Module Kill.
Fixpoint kill_pids (args : list (list Z)) : program unit :=
  match args with
  | [] => exit
  | a :: args => let* pid := lift (atoi a) in let* _ := call (SKill pid) in kill_pids args
  end.
Definition kill_main (argv : list (list Z)) : program unit :=
  if (length argv <? 2)%nat then let* _ := printf 2 ("usage: kill pid..." +n) [] in exit
  else kill_pids (drop 1 argv).
End Kill.

Module Ln.
Definition ln_main (argv : list (list Z)) : program unit :=
  match argv with
  | [_; old; new] =>
      let* r := call (SLink old new) in
      let* _ := (if r <? 0 then printf 2 ("link %s %s: failed" +n) [arg_str old; arg_str new] else Ret tt) in
      exit
  | _ => let* _ := printf 2 ("Usage: ln old new" +n) [] in exit
  end.
End Ln.

Module Mkdir.
Fixpoint mkdir_dirs (args : list (list Z)) : program unit :=
  match args with
  | [] => exit
  | a :: args =>
      let* r := call (SMkdir a) in
      if r <? 0 then let* _ := printf 2 ("mkdir: %s failed to create" +n) [arg_str a] in exit
      else mkdir_dirs args
  end.
Definition mkdir_main (argv : list (list Z)) : program unit :=
  if (length argv <? 2)%nat then let* _ := printf 2 ("Usage: mkdir files..." +n) [] in exit
  else mkdir_dirs (drop 1 argv).
End Mkdir.

Module Rm.
Fixpoint rm_files (args : list (list Z)) : program unit :=
  match args with
  | [] => exit
  | a :: args =>
      let* r := call (SUnlink a) in
      if r <? 0 then let* _ := printf 2 ("rm: %s failed to delete" +n) [arg_str a] in exit
      else rm_files args
  end.
Definition rm_main (argv : list (list Z)) : program unit :=
  if (length argv <? 2)%nat then let* _ := printf 2 ("Usage: rm files..." +n) [] in exit
  else rm_files (drop 1 argv).
End Rm.

Module Zombie.
Definition zombie_main : program unit :=
  let* pid := call SFork in
  if 0 <? pid then let* _ := call (SSleep 5) in exit else exit.
End Zombie.

(** * init.c *)

Module Init.
(** [while ((wpid = wait()) >= 0 && wpid != pid)]. *)
Definition init_reap (pid : Z) : program unit :=
  ITree.iter (fun _ : unit =>
    let* wpid := call SWait in
    if (0 <=? wpid) && negb (wpid =? pid) then let* _ := printf 1 ("zombie!" +n) [] in Ret (inl tt)
    else Ret (inr tt)) tt.

(** The body of [for (;;)]. *)
Definition init_round : program unit :=
  let* _ := printf 1 ("init: starting sh" +n) [] in
  let* pid := call SFork in
  if pid <? 0 then let* _ := printf 1 ("init: fork failed" +n) [] in exit
  else if pid =? 0 then
    let* _ := call (SExec (bytes_of "sh") [bytes_of "sh"]) in
    let* _ := printf 1 ("init: exec sh failed" +n) [] in
    exit
  else init_reap pid.

Definition init_forever : program void := ITree.iter (fun _ : unit => let* _ := init_round in Ret (inl tt)) tt.

Definition init_main : program void :=
  let* r := call (SOpen (bytes_of "console") O_RDWR) in
  let* _ :=
    (if r <? 0 then
       let* _ := call (SMknod (bytes_of "console") 1 1) in
       let* _ := call (SOpen (bytes_of "console") O_RDWR) in
       Ret tt
     else Ret tt) in
  let* _ := call (SDup 0) in
  let* _ := call (SDup 0) in
  init_forever.
End Init.

(** * ls.c *)

Module Ls.
(** The loop of [fmtname] from position [k] down, and the [p++] after it. *)
Fixpoint back (k : nat) (path : list Z) : nat :=
  if default 0 (path !! k) =? 47 then S k
  else match k with O => O | S k => back k path end.

Definition fmtname (path : list Z) : list Z :=
  let p := drop (back (length path) path) path in
  if (DIRSIZ <=? length p)%nat then p else p ++ repeat 32 (DIRSIZ - length p).

Definition ls_show (path : list Z) (st : Fs.stat) : program unit :=
  printf 1 ("%s %d %d %d" +n) [arg_str (fmtname path); Printf.Num (Fs.st_type st); Printf.Num (Fs.st_ino st); Printf.Num (Fs.st_size st)].

(** The loop over the entries of a directory. *)
Definition ls_entries (fd : Z) (path : list Z) : program unit :=
  ITree.iter (fun _ : unit =>
    let* (n, de) := call (SRead fd 16) in
    if n =? 16 then
      if dec (take 2 de) =? 0 then Ret (inl tt)
      else
        let buf := path ++ [47] ++ Grep.cstring (take DIRSIZ (drop 2 de)) in
        let* (r, st) := stat_path buf in
        let* _ := (if r <? 0 then printf 1 ("ls: cannot stat %s" +n) [arg_str buf] else ls_show buf st) in
        Ret (inl tt)
    else Ret (inr tt)) tt.

Definition ls (path : list Z) : program unit :=
  let* fd := call (SOpen path 0) in
  if fd <? 0 then printf 2 ("ls: cannot open %s" +n) [arg_str path]
  else
    let* (r, st) := call (SFstat fd) in
    if r <? 0 then
      let* _ := printf 2 ("ls: cannot stat %s" +n) [arg_str path] in
      let* _ := call (SClose fd) in Ret tt
    else
      let* _ :=
        (if Fs.st_type st =? T_FILE then ls_show path st
         else if Fs.st_type st =? T_DIR then
           if (512 <? length path + 1 + DIRSIZ + 1)%nat then printf 1 ("ls: path too long" +n) []
           else ls_entries fd path
         else Ret tt) in
      let* _ := call (SClose fd) in Ret tt.

Fixpoint ls_paths (args : list (list Z)) : program unit :=
  match args with
  | [] => exit
  | a :: args => let* _ := ls a in ls_paths args
  end.

Definition ls_main (argv : list (list Z)) : program unit :=
  if (length argv <? 2)%nat then let* _ := ls (bytes_of ".") in exit
  else ls_paths (drop 1 argv).
End Ls.

(** * The main functions of wc.c and grep.c *)

Module WcProg.
Import Wc.
Definition wc (fd : Z) (name : list Z) : program unit :=
  let* (n, s) := ITree.iter (fun s : counts =>
    let* (n, bs) := call (SRead fd 512) in
    if 0 <? n then Ret (inl (fold_left count1 (take (Z.to_nat n) bs) s))
    else Ret (inr (n, s))) (mkCounts 0 0 0 false) in
  if n <? 0 then let* _ := printf 1 ("wc: read error" +n) [] in exit
  else printf 1 ("%d %d %d %s" +n) [Printf.Num (c_l s); Printf.Num (c_w s); Printf.Num (c_c s); arg_str name].

Fixpoint wc_files (args : list (list Z)) : program unit :=
  match args with
  | [] => exit
  | a :: args =>
      let* fd := call (SOpen a 0) in
      if fd <? 0 then let* _ := printf 1 ("wc: cannot open %s" +n) [arg_str a] in exit
      else
        let* _ := wc fd a in
        let* _ := call (SClose fd) in
        wc_files args
  end.

Definition wc_main (argv : list (list Z)) : program unit :=
  if (length argv <=? 1)%nat then let* _ := wc 0 [] in exit
  else wc_files (drop 1 argv).
End WcProg.

Module GrepProg.
Import Grep.
Fixpoint write_lines (out : list (list Z)) : program unit :=
  match out with
  | [] => Ret tt
  | l :: out => let* _ := call (SWrite 1 l) in write_lines out
  end.

(** The global buffer [buf] and [m] go from one read to the next.  The matching lines of the
    inner loop are written in its order; the loop reads nothing in between. *)
Definition grep (pattern : list Z) (fd : Z) (buf : list Z) : program (list Z) :=
  ITree.iter (fun '(buf, m) =>
    let* (n, bs) := call (SRead fd (Z.of_nat (BUFSIZE - m - 1))) in
    if 0 <? n then
      let* buf := lift (store_at buf m (take (Z.to_nat n) bs)) in
      let m := (m + Z.to_nat n)%nat in
      let* buf := lift (zset "buf" buf (Z.of_nat m) 0) in
      let* (buf, p, out) := lift (lines (S m) pattern buf 0 []) in
      let* _ := write_lines out in
      let m := (if (p =? 0)%nat then O else m) in
      if (0 <? m)%nat then
        let m := (m - p)%nat in
        let* buf := lift (store_at buf 0 (take m (drop p buf))) in
        Ret (inl (buf, m))
      else Ret (inl (buf, m))
    else Ret (inr buf)) (buf, O).

Fixpoint grep_files (pattern : list Z) (args : list (list Z)) (buf : list Z) : program unit :=
  match args with
  | [] => exit
  | a :: args =>
      let* fd := call (SOpen a 0) in
      if fd <? 0 then let* _ := printf 1 ("grep: cannot open %s" +n) [arg_str a] in exit
      else
        let* buf := grep pattern fd buf in
        let* _ := call (SClose fd) in
        grep_files pattern args buf
  end.

Definition grep_main (argv : list (list Z)) : program unit :=
  match drop 1 argv with
  | [] => let* _ := printf 2 ("usage: grep pattern [file ...]" +n) [] in exit
  | [pattern] => let* _ := grep pattern 0 (repeat 0 BUFSIZE) in exit
  | pattern :: args => grep_files pattern args (repeat 0 BUFSIZE)
  end.
End GrepProg.

(** * forktest.c, stressfs.c, test1.c, test2.c and test3.c *)

Module Forktest.
Definition N : nat := 1000.

(** This file has its own [printf]. *)
Definition forktest_printf (fd : Z) (s : string) : program unit := let* _ := call (SWrite fd (bytes_of s)) in Ret tt.

(** [for (n = 0; n < N; n++)]: [k] turns are left; the result is [n]. *)
Fixpoint forktest_forks (k n : nat) : program nat :=
  match k with
  | O => Ret n
  | S k =>
      let* pid := call SFork in
      if pid <? 0 then Ret n
      else if pid =? 0 then exit
      else forktest_forks k (S n)
  end.

Fixpoint forktest_waits (n : nat) : program unit :=
  match n with
  | O => Ret tt
  | S n =>
      let* r := call SWait in
      if r <? 0 then let* _ := forktest_printf 1 ("wait stopped early" +n) in exit else forktest_waits n
  end.

Definition forktest : program unit :=
  let* _ := forktest_printf 1 ("fork test" +n) in
  let* n := forktest_forks N 0 in
  if (n =? N)%nat then let* _ := forktest_printf 1 ("fork claimed to work N times!" +n) in exit
  else
    let* _ := forktest_waits n in
    let* r := call SWait in
    if negb (r =? -1) then let* _ := forktest_printf 1 ("wait got too many" +n) in exit
    else forktest_printf 1 ("fork test OK" +n).

Definition forktest_main : program unit := let* _ := forktest in exit.
End Forktest.

Module Stressfs.
(** [for (i = 0; i < 4; i++) if (fork() > 0) break]. *)
Fixpoint stressfs_forks (k : nat) (i : Z) : program Z :=
  match k with
  | O => Ret i
  | S k => let* pid := call SFork in if 0 <? pid then Ret i else stressfs_forks k (i + 1)
  end.

Fixpoint repeat_call {A : Type} (k : nat) (e : sysE A) : program unit :=
  match k with
  | O => Ret tt
  | S k => let* _ := call e in repeat_call k e
  end.

Definition stressfs_main : program unit :=
  let* _ := printf 1 ("stressfs starting" +n) [] in
  let data := repeat 97 512 in
  let* i := stressfs_forks 4 0 in
  let* _ := printf 1 ("write %d" +n) [Printf.Num i] in
  let path := bytes_of "stressfs" ++ [48 + i] in
  let* fd := call (SOpen path (Z.lor O_CREATE O_RDWR)) in
  let* _ := repeat_call 20 (SWrite fd data) in
  let* _ := call (SClose fd) in
  let* _ := printf 1 ("read" +n) [] in
  let* fd := call (SOpen path O_RDONLY) in
  let* _ := repeat_call 20 (SRead fd 512) in
  let* _ := call (SClose fd) in
  let* _ := call SWait in
  exit.
End Stressfs.

Module Test3.
Definition test3_main : program unit :=
  let* _ := Stressfs.repeat_call 1000 (SSleep 1) in
  let* pid := call SGetpid in
  let* _ := call (SGetpinfo pid) in
  exit.
End Test3.

(** The floating point of test1.c and test2.c: IEEE numbers with [prec] bits.  The
    type double has 53 bits, but C allows the machine to compute with more, as
    the x87 unit does with 64. *)
Module Work.
Section Work.
Context (prec emax : Z).

Definition of_int (p e x : Z) : spec_float := binary_normalize p e x 0 false.
Definition to_int (f : spec_float) : Z :=
  match f with S754_finite s m e => let z := Z.shiftl (Z.pos m) e in if s then - z else z | _ => 0 end.

(** The constant 1.2, and [x = x / 1.2]. *)
Definition c1_2 : spec_float := SFdiv 53 1024 (of_int 53 1024 12) (of_int 53 1024 10).
Definition quot (x : Z) : Z := to_int (SFdiv prec emax (of_int prec emax x) c1_2).

(** [for (double z = 0; z < 20000000; z += 1)]: the values of [z] are exact. *)
Definition burn (x : Z) : Z := Nat.iter (Z.to_nat 20000000) quot x.

(** [Ret] is the [return -1] of [main]. *)
Definition test1_parent : program Z :=
  let* fd := call (SOpen (bytes_of "testIO.txt") (Z.lor O_CREATE O_WRONLY)) in
  if fd =? -1 then let* _ := printf 1 ("Could not open file" +n) [] in Ret (-1)
  else
    let* _ := Stressfs.repeat_call 9 (SWrite fd (bytes_of "A")) in
    let* j := call (SWrite fd (bytes_of "A")) in
    let* _ := (if negb (j =? 1) then printf 1 ("cannot write to file" +n) [] else Ret tt) in
    let* _ := printf 1 ("Parent completed" +n) [] in
    let* _ := call (SClose fd) in
    let* _ := call SWait in
    let* pid := call SGetpid in
    let* _ := call (SGetpinfo pid) in
    exit.

Definition created (x : Z) : program Z :=
  let* pid := call SGetpid in
  let* _ := printf 1 ("Child %d created" +n) [Printf.Num pid] in
  let* _ := printf 1 ("Child completed with result: %d" +n) [Printf.Num (burn x)] in
  let* pid := call SGetpid in
  let* _ := call (SGetpinfo pid) in
  exit.

Definition fork_failed : program Z :=
  let* pid := call SGetpid in
  let* _ := printf 1 ("%d failed in fork!" +n) [Printf.Num pid] in
  exit.

Definition test1_main : program Z :=
  let* _ := printf 1 ("~~~~~~~~~~~~~~~~~~ Test 1 ~~~~~~~~~~~~~~~~~~" +n) [] in
  let* id := call SFork in
  if id <? 0 then fork_failed
  else if 0 <? id then test1_parent
  else created 999999999.

(** The processes forked by the parent all go on with the parent's work. *)
Definition test2_parent : program Z :=
  let* _ := Stressfs.repeat_call 3 SFork in
  let* _ := printf 1 ("Parent completed with result: %d" +n) [Printf.Num (burn 9999999)] in
  let* _ := Stressfs.repeat_call 3 SWait in
  let* pid := call SGetpid in
  let* _ := call (SGetpinfo pid) in
  exit.

Definition test2_main : program Z :=
  let* id := call SFork in
  if id <? 0 then fork_failed
  else if 0 <? id then test2_parent
  else created 99999999.
End Work.
End Work.
