(* ===== verification/ProgramsFacts.v ===== *)
(** Theorems on the user programs of Programs.v: what [cat], [echo] and [wc] write,
    how [ls] formats names, and that [init] runs one shell at a time.

    [kernel] interprets the system calls on a small world: files by path, the
    bytes left to read of each open descriptor, and what was written to each
    descriptor.  A read delivers as many bytes as [chunk] says, a new descriptor
    is what [pick] says; the theorems hold for every choice that the calls
    promise. *)

From ITree Require Import ITree ITreeFacts Events.State Events.StateFacts.
From stdpp Require Import gmap.
From S2P Require Import Prelude CString Spinlock Kalloc Proc Demo MlfqFacts ProcFacts Sleep Block Log Fs Userland Programs.

#[local] Open Scope prog_scope.

Record world := mkWorld { w_files : gmap (list Z) (list Z); w_open : gmap Z (list Z); w_out : gmap Z (list Z) }.
#[export] Instance world_eta : Eta world := fun w => mkWorld (w_files w) (w_open w) (w_out w).
Definition set_w_open := ltac:(setter w_open).
Definition set_w_out := ltac:(setter w_out).

(** The end of a process, and the world it leaves. *)
Variant endE : Type -> Type :=
| Exited (w : world) : endE void
| Broken : endE void.

Section Kernel.
Context (chunk : list Z -> Z -> nat) (pick : gmap Z (list Z) -> Z).
Implicit Types (w : world).

(** A read of a file that is not at its end gives at least a byte and no more
    than asked for; a new descriptor is not in use. *)
Definition chunk_ok : Prop := forall rest n, 0 < n -> rest <> [] -> (1 <= chunk rest n <= length rest)%nat /\ Z.of_nat (chunk rest n) <= n.
Definition pick_ok : Prop := forall o, 0 <= pick o /\ o !! pick o = None.

Definition written w (fd : Z) : list Z := default [] (w_out w !! fd).
Definition write_to (fd : Z) (bs : list Z) w : world :=
  match bs with [] => w | _ => set_w_out (<[fd := written w fd ++ bs]> (w_out w)) w end.

(** What the calls do; those the programs here do not use fail. *)
Definition kernel : sysE ~> Monads.stateT world (itree endE) := fun _ e w =>
  match e with
  | SExit => let* v := ITree.trigger (Exited w) in Ret (w, v)
  | Undefined => let* v := ITree.trigger Broken in Ret (w, v)
  | SRead fd n =>
      match w_open w !! fd with
      | Some [] => Ret (w, (0, []))
      | Some rest =>
          let k := chunk rest n in
          Ret (set_w_open (<[fd := drop k rest]> (w_open w)) w, (Z.of_nat k, take k rest))
      | None => Ret (w, (-1, []))
      end
  | SWrite fd bs => Ret (write_to fd bs w, Z.of_nat (length bs))
  | SClose fd => Ret (set_w_open (delete fd (w_open w)) w, 0)
  | SOpen path mode =>
      match w_files w !! path with
      | Some c => let fd := pick (w_open w) in Ret (set_w_open (<[fd := c]> (w_open w)) w, fd)
      | None => Ret (w, -1)
      end
  | SFstat fd => Ret (w, (-1, no_stat))
  | SPipe => Ret (w, (-1, (0, 0)))
  | SFork | SWait | SGetpid | SUptime | SSbrk _ | SChdir _ => Ret (w, -1)
  | SKill _ | SExec _ _ | SMknod _ _ _ | SUnlink _ | SLink _ _ | SMkdir _ | SDup _ | SSleep _ | SGetpinfo _ => Ret (w, -1)
  end.

Definition run {A : Type} (p : program A) w : itree endE (world * A) := interp_state kernel p w.

(** The process ends in the world [w]. *)
Definition ends_in {A : Type} (w : world) : itree endE (world * A) := let* v := ITree.trigger (Exited w) in match v : void with end.

Lemma run_bind {A B : Type} (p : program A) (k : A -> program B) w : run (ITree.bind p k) w ≈ ITree.bind (run p w) (fun '(w, a) => run (k a) w).
Proof. unfold run. rewrite interp_state_bind. apply eutt_eq_bind. intros [w' a]. reflexivity. Qed.

Lemma run_ret {A : Type} (a : A) w : run (Ret a) w ≈ Ret (w, a).
Proof. unfold run. rewrite interp_state_ret. reflexivity. Qed.

Lemma run_call {A : Type} (e : sysE A) w : run (call e) w ≈ kernel A e w.
Proof. unfold run, call. apply interp_state_trigger. Qed.

(** A call that returns. *)
Lemma run_step {A B : Type} (e : sysE A) (k : A -> program B) w w' a : kernel A e w = Ret (w', a) -> run (let* x := call e in k x) w ≈ run (k a) w'.
Proof. intros E. rewrite run_bind, run_call, E, bind_ret_l. reflexivity. Qed.

Lemma run_exit {A : Type} w : run (exit : program A) w ≈ ends_in w.
Proof.
  unfold exit, ends_in. rewrite run_bind, run_call. cbn [kernel]. rewrite bind_bind. apply eutt_eq_bind. intros [].
Qed.

(** A part that returns in the world [w'], in front of the rest. *)
Lemma run_seq {A B : Type} (p : program A) (k : A -> program B) w w' a : run p w ≈ Ret (w', a) -> run (let* x := p in k x) w ≈ run (k a) w'.
Proof. intros E. rewrite run_bind, E, bind_ret_l. reflexivity. Qed.

#[export] Instance run_eutt {A : Type} : Proper (eutt eq ==> eq ==> eutt eq) (@run A).
Proof. intros p p' Hp w w' <-. unfold run. by rewrite Hp. Qed.

(** One turn of a loop. *)
Lemma run_iter {I A : Type} (f : I -> program (I + A)) (i : I) w :
  run (ITree.iter f i) w ≈ run (let* r := f i in match r with inl i => ITree.iter f i | inr a => Ret a end) w.
Proof.
  apply run_eutt; [|done]. rewrite unfold_iter. apply eutt_eq_bind. intros [i'|a]; [apply tau_eutt|reflexivity].
Qed.

Lemma write_to_app fd b1 b2 w : write_to fd b2 (write_to fd b1 w) = write_to fd (b1 ++ b2) w.
Proof.
  destruct b1 as [|x b1]; [done|]. destruct b2 as [|y b2]; [by rewrite app_nil_r|].
  unfold write_to, written. cbn [app w_out set_w_out]. rewrite lookup_insert_eq. cbn [default]. unfold set_w_out. cbn. rewrite insert_insert_eq. by rewrite <- app_assoc.
Qed.

Lemma write_to_open fd bs w : w_open (write_to fd bs w) = w_open w.
Proof. by destruct bs. Qed.
Lemma write_to_files fd bs w : w_files (write_to fd bs w) = w_files w.
Proof. by destruct bs. Qed.

Lemma run_put_all fd bs : forall w, run (put_all fd bs) w ≈ Ret (write_to fd bs w, tt).
Proof.
  induction bs as [|c bs IH]; intros w; cbn [put_all]; [apply run_ret|].
  rewrite (run_seq _ _ w (write_to fd [c] w) tt).
  - rewrite IH, write_to_app. reflexivity.
  - unfold putc. rewrite (run_step _ _ w (write_to fd [c] w) 1) by done. apply run_ret.
Qed.

Lemma run_printf fd fmt ap bs w : Printf.printf (bytes_of fmt) ap = Ok bs -> run (printf fd fmt ap) w ≈ Ret (write_to fd bs w, tt).
Proof.
  intros E. unfold printf. rewrite E. cbn [lift]. rewrite (run_seq _ _ w w bs); [apply run_put_all|apply run_ret].
Qed.

Hypothesis Hchunk : chunk_ok.
Hypothesis Hpick : pick_ok.

(** What is left to read of [fd]. *)
Definition left (fd : Z) (rest : list Z) w : world := set_w_open (<[fd := rest]> (w_open w)) w.

Lemma left_left fd r1 r2 w : left fd r2 (left fd r1 w) = left fd r2 w.
Proof. unfold left, set_w_open. cbn. by rewrite insert_insert_eq. Qed.
Lemma left_write fd rest fd' bs w : left fd rest (write_to fd' bs w) = write_to fd' bs (left fd rest w).
Proof. by destruct bs. Qed.
Lemma left_same fd rest w : w_open w !! fd = Some rest -> left fd rest w = w.
Proof. intros E. unfold left, set_w_open. rewrite insert_id by done. by destruct w. Qed.

(** A read, while there is something to read. *)
Lemma read_some fd n rest w : w_open w !! fd = Some rest -> rest <> [] -> 0 < n ->
  exists k, (1 <= k <= length rest)%nat /\ kernel _ (SRead fd n) w = Ret (left fd (drop k rest) w, (Z.of_nat k, take k rest)).
Proof.
  intros E Hne Hn. destruct (Hchunk rest n Hn Hne) as [Hk _]. exists (chunk rest n). split; [done|]. cbn [kernel]. rewrite E. by destruct rest.
Qed.

Lemma read_end fd n w : w_open w !! fd = Some [] -> kernel _ (SRead fd n) w = Ret (w, (0, [])).
Proof. intros E. cbn [kernel]. by rewrite E. Qed.

Lemma run_cat fd rest w : w_open w !! fd = Some rest -> run (Cat.cat fd) w ≈ Ret (left fd [] (write_to 1 rest w), tt).
Proof.
  intros E. unfold Cat.cat. rewrite (run_seq _ _ w (left fd [] (write_to 1 rest w)) 0); [apply run_ret|].
  remember (length rest) as m eqn:Hm. revert rest w E Hm. induction (lt_wf m) as [m _ IH]. intros rest w E ->.
  rewrite run_iter, bind_bind. destruct (decide (rest = [])) as [->|Hne].
  - rewrite (run_step _ _ w w (0, [])) by by apply read_end. cbn [Z.ltb Z.compare]. rewrite bind_ret_l, run_ret. rewrite left_same by done. reflexivity.
  - destruct (read_some fd 512 rest w E Hne ltac:(lia)) as (k & Hk & Er). rewrite (run_step _ _ w _ _ Er). rewrite (proj2 (Z.ltb_lt 0 (Z.of_nat k))) by lia.
    rewrite Nat2Z.id, take_take, Nat.min_id, bind_bind. rewrite (run_step _ _ _ (write_to 1 (take k rest) (left fd (drop k rest) w)) (Z.of_nat k)).
    2: { cbn [kernel]. by rewrite length_take, Nat.min_l by lia. }
    rewrite Z.eqb_refl. cbn [negb]. rewrite bind_ret_l. rewrite (IH (length (drop k rest))) with (rest := drop k rest); [|rewrite length_drop; lia| |done].
    + rewrite write_to_app, take_drop, !left_write, left_left. reflexivity.
    + rewrite write_to_open. apply lookup_insert_eq.
Qed.

(** Opening a file and closing it again. *)
Lemma open_file path c mode w : w_files w !! path = Some c ->
  exists fd, 0 <= fd /\ w_open w !! fd = None /\ kernel _ (SOpen path mode) w = Ret (left fd c w, fd).
Proof. intros E. exists (pick (w_open w)). destruct (Hpick (w_open w)) as [H1 H2]. split; [done|]. split; [done|]. cbn [kernel]. by rewrite E. Qed.

Lemma close_left fd rest bs w : w_open w !! fd = None -> kernel _ (SClose fd) (left fd rest (write_to 1 bs w)) = Ret (write_to 1 bs w, 0).
Proof.
  intros E. cbn [kernel]. unfold left. cbn [w_open set_w_open]. rewrite delete_insert_id by by rewrite write_to_open. unfold set_w_open. by destruct (write_to 1 bs w).
Qed.

(** What [cat] writes for its arguments: the files, up to the first that cannot
    be opened. *)
Fixpoint cat_out (F : gmap (list Z) (list Z)) (args : list (list Z)) : list Z :=
  match args with
  | [] => []
  | a :: args => match F !! a with Some c => c ++ cat_out F args | None => bytes_of "cat: cannot open " ++ a ++ [10] end
  end.

Lemma run_cat_files args : forall w, run (Cat.cat_files args) w ≈ ends_in (write_to 1 (cat_out (w_files w) args) w).
Proof.
  induction args as [|a args IH]; intros w; cbn [Cat.cat_files cat_out]; [apply run_exit|]. destruct (w_files w !! a) as [c|] eqn:E.
  - destruct (open_file a c 0 w E) as (fd & H0 & Hn & Eo). rewrite (run_step _ _ w _ _ Eo), (proj2 (Z.ltb_ge fd 0)) by done.
    rewrite (run_seq _ _ _ _ _ (run_cat fd c (left fd c w) (lookup_insert_eq _ _ _))). rewrite <- left_write, left_left.
    rewrite (run_step _ _ _ _ _ (close_left fd [] c w Hn)), IH, write_to_files, write_to_app. reflexivity.
  - rewrite (run_step _ _ w w (-1)) by (cbn [kernel]; by rewrite E). cbn [Z.ltb Z.compare].
    rewrite (run_seq _ _ w (write_to 1 (bytes_of "cat: cannot open " ++ a ++ [10]) w) tt) by by apply run_printf. apply run_exit.
Qed.

(** [cat] writes the contents of the files it is given to standard
    output, in order and whatever the sizes of the reads, up to the first that
    cannot be opened; without arguments it copies its standard input.  It leaves
    no descriptor open. *)
Theorem cat_spec argv w rest : ((length argv <= 1)%nat -> w_open w !! 0 = Some rest) ->
  run (Cat.cat_main argv) w ≈
  ends_in (if (length argv <=? 1)%nat then left 0 [] (write_to 1 rest w) else write_to 1 (cat_out (w_files w) (drop 1 argv)) w).
Proof.
  intros H. unfold Cat.cat_main. destruct (Nat.leb_spec (length argv) 1) as [Hl|Hl]; [|apply run_cat_files].
  rewrite (run_seq _ _ _ _ _ (run_cat 0 rest w (H Hl))). apply run_exit.
Qed.

(** What [echo] writes: the words with blanks between them. *)
Fixpoint echo_out (args : list (list Z)) : list Z :=
  match args with
  | [] => []
  | [a] => a ++ [10]
  | a :: args => a ++ [32] ++ echo_out args
  end.

Lemma run_echo args : forall w, run (Echo.echo_words args) w ≈ ends_in (write_to 1 (echo_out args) w).
Proof.
  induction args as [|a args IH]; intros w; cbn [Echo.echo_words]; [apply run_exit|].
  assert (Printf.printf (bytes_of "%s%s") [arg_str a; arg_str (bytes_of match args with [] => nl | _ => " " end)] =
    Ok (a ++ match args with [] => [10] | _ => [32] end)) as E by (destruct args; cbn; by rewrite app_nil_r).
  rewrite (run_seq _ _ _ _ _ (run_printf 1 _ _ _ w E)), IH, write_to_app. destruct args as [|b args]; cbn [echo_out]; [by rewrite app_nil_r|].
  by rewrite <- app_assoc.
Qed.

(** [echo] writes its arguments to standard output with one blank
    between them and a newline at the end, or nothing when there are none. *)
Theorem echo_spec argv w : run (Echo.echo_main argv) w ≈ ends_in (write_to 1 (echo_out (drop 1 argv)) w).
Proof. apply run_echo. Qed.

(** A number in decimal, and the line [wc] writes for a file. *)
Definition decimal (z : Z) : list Z := match Printf.printint (s32 z) 10 true with Ok l => l | _ => [] end.

Lemma decimal_ok z : Printf.printint (s32 z) 10 true = Ok (decimal z).
Proof. unfold decimal. destruct (printint_spec (s32 z) 10 true (or_introl eq_refl) (s32_range z)) as (ds & -> & _). done. Qed.

Definition wc_line (name c : list Z) : list Z :=
  decimal (count (fun i => bool_decide (c !! i = Some NL)) (length c)) ++ [32] ++ decimal (count (word_start c) (length c)) ++ [32] ++
  decimal (Z.of_nat (length c)) ++ [32] ++ name ++ [10].

Lemma wc_format l m n name : Printf.printf (bytes_of ("%d %d %d %s" ++ nl)) [Printf.Num l; Printf.Num m; Printf.Num n; arg_str name] =
  Ok (decimal l ++ [32] ++ decimal m ++ [32] ++ decimal n ++ [32] ++ name ++ [10]).
Proof.
  change (bytes_of _) with [37; 100; 32; 37; 100; 32; 37; 100; 32; 37; 115; 10]. unfold Printf.printf.
  cbn -[Printf.printint s32 decimal]. rewrite decimal_ok. cbn [res_bind]. rewrite decimal_ok. cbn [res_bind]. rewrite decimal_ok. reflexivity.
Qed.

Lemma run_wc fd name rest w : w_open w !! fd = Some rest -> run (WcProg.wc fd name) w ≈ Ret (write_to 1 (wc_line name rest) (left fd [] w), tt).
Proof.
  intros E. unfold WcProg.wc. rewrite (run_seq _ _ w (left fd [] w) (0, counted rest)); [apply run_printf, wc_format|].
  change (Wc.mkCounts 0 0 0 false) with (counted []). change (counted rest) with (counted ([] ++ rest)). generalize (@nil Z) at 1 3 as pre.
  remember (length rest) as m eqn:Hm. revert rest w E Hm. induction (lt_wf m) as [m _ IH]. intros rest w E -> pre.
  rewrite run_iter, bind_bind. destruct (decide (rest = [])) as [->|Hne].
  - rewrite (run_step _ _ w w (0, [])) by by apply read_end. cbn [Z.ltb Z.compare]. rewrite bind_ret_l, run_ret, left_same, app_nil_r by done. reflexivity.
  - destruct (read_some fd 512 rest w E Hne ltac:(lia)) as (k & Hk & Er). rewrite (run_step _ _ w _ _ Er). rewrite (proj2 (Z.ltb_lt 0 (Z.of_nat k))) by lia.
    rewrite Nat2Z.id, take_take, Nat.min_id, bind_ret_l, fold_counted.
    rewrite (IH (length (drop k rest))) with (rest := drop k rest); [|rewrite length_drop; lia|apply lookup_insert_eq|done].
    by rewrite left_left, <- app_assoc, take_drop.
Qed.

(** What [wc] writes for its arguments. *)
Fixpoint wc_out (F : gmap (list Z) (list Z)) (args : list (list Z)) : list Z :=
  match args with
  | [] => []
  | a :: args => match F !! a with Some c => wc_line a c ++ wc_out F args | None => bytes_of "wc: cannot open " ++ a ++ [10] end
  end.

(** [wc] writes a line for each file it is given, with the numbers of its
    newlines, words and bytes in decimal, whatever the sizes of the reads, up
    to the first file that cannot be opened. *)
Theorem wc_prog_spec argv w : (2 <= length argv)%nat -> run (WcProg.wc_main argv) w ≈ ends_in (write_to 1 (wc_out (w_files w) (drop 1 argv)) w).
Proof.
  intros H. unfold WcProg.wc_main. rewrite (proj2 (Nat.leb_gt _ _)) by lia. generalize (drop 1 argv) as args. clear H argv. intros args. revert w.
  induction args as [|a args IH]; intros w; cbn [WcProg.wc_files wc_out]; [apply run_exit|]. destruct (w_files w !! a) as [c|] eqn:E.
  - destruct (open_file a c 0 w E) as (fd & H0 & Hn & Eo). rewrite (run_step _ _ w _ _ Eo), (proj2 (Z.ltb_ge fd 0)) by done.
    rewrite (run_seq _ _ _ _ _ (run_wc fd a c (left fd c w) (lookup_insert_eq _ _ _))). rewrite left_left, <- left_write.
    rewrite (run_step _ _ _ _ _ (close_left fd [] _ w Hn)), IH, write_to_files, write_to_app. reflexivity.
  - rewrite (run_step _ _ w w (-1)) by (cbn [kernel]; by rewrite E). cbn [Z.ltb Z.compare].
    rewrite (run_seq _ _ w (write_to 1 (bytes_of "wc: cannot open " ++ a ++ [10]) w) tt) by by apply run_printf. apply run_exit.
Qed.
End Kernel.

(** A kernel that reads what is asked for and gives the descriptor above all in
    use. *)
Definition demo_chunk (rest : list Z) (n : Z) : nat := Z.to_nat (Z.min n (Z.of_nat (length rest))).
Definition demo_pick (o : gmap Z (list Z)) : Z := map_fold (fun k _ m => Z.max m (k + 1)) 3 o.

Lemma demo_chunk_ok : chunk_ok demo_chunk.
Proof. intros rest n Hn Hne. unfold demo_chunk. destruct rest as [|x rest]; [done|]. cbn [length]. lia. Qed.

Lemma demo_pick_ok : pick_ok demo_pick.
Proof.
  intros o. assert (3 <= demo_pick o /\ forall k, is_Some (o !! k) -> k < demo_pick o) as [H H'].
  { unfold demo_pick. apply (map_fold_weak_ind (fun m (o : gmap Z (list Z)) => 3 <= m /\ forall k, is_Some (o !! k) -> k < m)).
    - split; [lia|]. intros k [x Hx]. by rewrite lookup_empty in Hx.
    - intros k x o' m Ho' [H1 H2]. split; [lia|]. intros k' Hk'. destruct (decide (k' = k)) as [->|Hne]; [lia|].
      rewrite lookup_insert_ne in Hk' by done. specialize (H2 _ Hk'). lia. }
  split; [lia|]. apply eq_None_not_Some. intros Hs. specialize (H' _ Hs). lia.
Qed.

Definition demo_world : world := mkWorld {[ bytes_of "a" := bytes_of "one two"; bytes_of "b" := bytes_of "three" ]} ∅ ∅.

Lemma cat_spec_witness : run demo_chunk demo_pick (Cat.cat_main [bytes_of "cat"; bytes_of "a"; bytes_of "b"; bytes_of "c"]) demo_world ≈
  ends_in (write_to 1 (bytes_of "one twothreecat: cannot open c" ++ [10]) demo_world).
Proof.
  assert (cat_out (w_files demo_world) [bytes_of "a"; bytes_of "b"; bytes_of "c"] = bytes_of "one twothreecat: cannot open c" ++ [10]) as <- by (vm_compute; reflexivity).
  refine (cat_spec demo_chunk demo_pick demo_chunk_ok demo_pick_ok [bytes_of "cat"; bytes_of "a"; bytes_of "b"; bytes_of "c"] demo_world [] _). cbn [length]. lia.
Defined.

Lemma wc_prog_spec_witness : run demo_chunk demo_pick (WcProg.wc_main [bytes_of "wc"; bytes_of "a"]) demo_world ≈
  ends_in (write_to 1 (bytes_of "0 2 7 a" ++ [10]) demo_world).
Proof.
  assert (wc_out (w_files demo_world) [bytes_of "a"] = bytes_of "0 2 7 a" ++ [10]) as <- by (vm_compute; reflexivity).
  refine (wc_prog_spec demo_chunk demo_pick demo_chunk_ok demo_pick_ok [bytes_of "wc"; bytes_of "a"] demo_world _). cbn [length]. lia.
Defined.

(** * ls *)

Lemma back_slash pre nm k : (k <= length nm)%nat -> 47 ∉ nm -> pre = [] \/ last pre = Some 47 -> Ls.back (length pre + k) (pre ++ nm) = length pre.
Proof.
  intros Hk Hnm Hpre. induction k as [|k IH].
  - rewrite Nat.add_0_r. destruct nm as [|c nm].
    + rewrite app_nil_r. destruct Hpre as [->|Hl]; [done|]. apply last_Some in Hl as [l ->]. rewrite length_app. cbn [length]. rewrite Nat.add_1_r. cbn [Ls.back].
      rewrite lookup_ge_None_2 by (rewrite length_app; cbn; lia). cbn [default Z.eqb]. destruct (length l) eqn:El.
      all: cbn [Ls.back]; rewrite lookup_app_r by lia; rewrite El, ?Nat.sub_diag; done.
    + apply not_elem_of_cons in Hnm as [Hc _]. destruct Hpre as [->|Hl].
      * cbn. by rewrite (proj2 (Z.eqb_neq c 47)) by done.
      * apply last_Some in Hl as [l ->]. rewrite length_app. cbn [length]. rewrite Nat.add_1_r. cbn [Ls.back].
        rewrite <- app_assoc, lookup_app_r by lia. replace (S (length l) - length l)%nat with 1%nat by lia. cbn. rewrite (proj2 (Z.eqb_neq c 47)) by done.
        destruct (length l) eqn:El; cbn [Ls.back]; rewrite lookup_app_r by lia; rewrite El, ?Nat.sub_diag; done.
  - rewrite Nat.add_succ_r. cbn [Ls.back]. destruct (default 0 _ =? 47) eqn:E; [|apply IH; lia]. exfalso. apply Z.eqb_eq in E.
    rewrite lookup_app_r in E by lia. destruct (nm !! _) as [c|] eqn:Ec; [|done]. cbn in E. subst. apply Hnm. by eapply list_elem_of_lookup_2.
Qed.

(** [fmtname] gives the part of the path after its last slash, padded
    with blanks to the width of a directory entry's name. *)
Theorem fmtname_spec pre nm : 47 ∉ nm -> pre = [] \/ last pre = Some 47 -> Ls.fmtname (pre ++ nm) = nm ++ repeat 32 (DIRSIZ - length nm).
Proof.
  intros Hnm Hpre. unfold Ls.fmtname. rewrite length_app, back_slash, drop_app_length by done.
  destruct (Nat.leb_spec DIRSIZ (length nm)) as [H|H]; [|done]. by rewrite (proj2 (Nat.sub_0_le _ _) H), app_nil_r.
Qed.

Lemma fmtname_spec_witness : Ls.fmtname (bytes_of "/usr/cat") = bytes_of "cat           ".
Proof. apply (fmtname_spec (bytes_of "/usr/") (bytes_of "cat")); [apply (bool_decide_unpack _); vm_compute; exact I|by right]. Defined.

(** * init *)

(** What [init] is about to do: open the console, or make the device and open it
    again; make it the standard output and error; write the rest of a message and
    go on; start a shell; wait for the shell [pid]; become the shell, as the child;
    leave. *)
Inductive phase :=
| Opening | Making | Reopening | Stdout | Stderr
| Saying (c : Z) (rest : list Z) (then_ : phase)
| Forking | Waiting (pid : Z) | Child | Leaving.

(** Write the message [l], then [st]. *)
Definition say (l : list Z) (st : phase) : phase := match l with [] => st | c :: l => Saying c l st end.
Definition message (m : string) : list Z := bytes_of m ++ [10].

(** The one call that each phase demands, with its arguments, and where its result
    leads. *)
Definition demanded (st : phase) {X : Type} (e : sysE X) : option (X -> phase) :=
  match e, st with
  | SOpen path mode, Opening =>
      if bool_decide (path = bytes_of "console") && (mode =? O_RDWR)
      then Some (fun fd => if fd <? 0 then Making else Stdout) else None
  | SMknod path major minor, Making =>
      if bool_decide (path = bytes_of "console") && (major =? 1) && (minor =? 1) then Some (fun _ => Reopening) else None
  | SOpen path mode, Reopening =>
      if bool_decide (path = bytes_of "console") && (mode =? O_RDWR) then Some (fun _ => Stdout) else None
  | SDup fd, Stdout => if fd =? 0 then Some (fun _ => Stderr) else None
  | SDup fd, Stderr => if fd =? 0 then Some (fun _ => say (message "init: starting sh") Forking) else None
  | SWrite fd bs, Saying c rest st =>
      if (fd =? 1) && bool_decide (bs = [c]) then Some (fun _ => say rest st) else None
  | SFork, Forking =>
      Some (fun pid => if pid <? 0 then say (message "init: fork failed") Leaving
                       else if pid =? 0 then Child else Waiting pid)
  | SWait, Waiting pid =>
      Some (fun r => if (r <? 0) || (r =? pid) then say (message "init: starting sh") Forking
                     else say (message "zombie!") (Waiting pid))
  | SExec path argv, Child =>
      if bool_decide (path = bytes_of "sh") && bool_decide (argv = [bytes_of "sh"])
      then Some (fun _ => say (message "init: exec sh failed") Leaving) else None
  | SExit, Leaving => Some (fun _ => Leaving)
  | _, _ => None
  end.

Section Init.
Implicit Types (st : phase) (p : program void).

(** Whatever the results of the calls, each of the next [n] calls is the one that
    its phase demands. *)
Fixpoint supervises (n : nat) st p : Prop :=
  match n with
  | O => True
  | S n => exists (X : Type) (e : sysE X) (k : X -> program void) (f : X -> phase),
      p ≈ Vis e k /\ demanded st e = Some f /\ forall x, supervises n (f x) (k x)
  end.
#[local] Abbreviation acc := supervises.

Lemma acc_eutt n st p p' : p ≈ p' -> acc n st p' -> acc n st p.
Proof. destruct n as [|n]; [done|]. intros H (X & e & k & f & E & Hf). exists X, e, k, f. split; [|done]. rewrite H. exact E. Qed.

Lemma acc_call {X : Type} n st (e : sysE X) f (k : X -> program void) :
  demanded st e = Some f -> (forall x m, (m < n)%nat -> acc m (f x) (k x)) -> acc n st (let* x := call e in k x).
Proof.
  intros Ha Hk. destruct n as [|n]; [done|]. exists X, e, k, f. split; [unfold call; rewrite bind_trigger; reflexivity|]. split; [done|]. intros x. apply Hk. lia.
Qed.

Lemma acc_exit n {X : Type} (k : X -> program void) : acc n Leaving (let* x := exit in k x).
Proof.
  unfold exit. eapply acc_eutt; [rewrite bind_bind; reflexivity|].
  apply (acc_call n Leaving SExit (fun _ => Leaving)); [done|intros []].
Qed.

Lemma acc_put_all bs : forall n st (k : unit -> program void), (forall m, (m <= n)%nat -> acc m st (k tt)) ->
  acc n (say bs st) (let* x := put_all 1 bs in k x).
Proof.
  induction bs as [|c bs IH]; intros n st k H; cbn [put_all say].
  - eapply acc_eutt; [rewrite bind_ret_l; reflexivity|]. by apply H.
  - unfold putc. eapply acc_eutt; [rewrite !bind_bind; reflexivity|].
    apply (acc_call n (Saying c bs st) (SWrite 1 [c]) (fun _ => say bs st)); [cbn; by rewrite bool_decide_true|]. intros x m Hm.
    eapply acc_eutt; [rewrite bind_ret_l; reflexivity|]. apply IH. intros m' Hm'. apply H. lia.
Qed.

Lemma acc_printf fmt bs n st (k : unit -> program void) : Printf.printf (bytes_of fmt) [] = Ok bs -> (forall m, (m <= n)%nat -> acc m st (k tt)) ->
  acc n (say bs st) (let* x := printf 1 fmt [] in k x).
Proof.
  intros E H. unfold printf. rewrite E. cbn [lift]. eapply acc_eutt; [rewrite bind_ret_l; reflexivity|]. by apply acc_put_all.
Qed.

Lemma bind_iter {I A B : Type} (f : I -> program (I + A)) (i : I) (k : A -> program B) :
  (let* x := ITree.iter f i in k x) ≈ (let* r := f i in match r with inl i => let* x := ITree.iter f i in k x | inr a => k a end).
Proof.
  rewrite unfold_iter, bind_bind. apply eutt_eq_bind. intros [i'|a]; [rewrite tau_eutt; reflexivity|rewrite bind_ret_l; reflexivity].
Qed.

Definition next_round : phase := say (message "init: starting sh") Forking.

(** The children are waited for until the shell or none is left. *)
Lemma acc_reap pid n : forall (k : unit -> program void), (forall m, (m < n)%nat -> acc m next_round (k tt)) -> acc n (Waiting pid) (let* x := Init.init_reap pid in k x).
Proof.
  induction (lt_wf n) as [n _ IH]. intros k Hk. unfold Init.init_reap. eapply acc_eutt; [apply bind_iter|]. eapply acc_eutt; [rewrite bind_bind; reflexivity|].
  eapply acc_call; [reflexivity|]. intros r m Hm. cbv beta. destruct (Z.leb_spec 0 r) as [H0|H0]; cbn [andb].
  - rewrite (proj2 (Z.ltb_ge r 0)) by done. cbn [orb]. destruct (Z.eqb_spec r pid) as [->|Hne]; cbn [negb].
    + eapply acc_eutt; [rewrite bind_ret_l; reflexivity|]. by apply Hk.
    + eapply acc_eutt; [rewrite bind_bind; reflexivity|]. eapply acc_printf; [reflexivity|]. intros m' Hm'.
      eapply acc_eutt; [rewrite bind_ret_l; reflexivity|]. apply IH; [lia|]. intros m2 Hm2. apply Hk. lia.
  - rewrite (proj2 (Z.ltb_lt r 0)) by done. cbn [orb]. eapply acc_eutt; [rewrite bind_ret_l; reflexivity|]. by apply Hk.
Qed.

Ltac assoc := eapply acc_eutt; [rewrite ?bind_bind; reflexivity|].

Lemma acc_forever n : acc n next_round Init.init_forever.
Proof.
  induction (lt_wf n) as [n _ IH]. unfold Init.init_forever. eapply acc_eutt; [rewrite <- (bind_ret_r (ITree.iter _ _)); apply bind_iter|].
  fold Init.init_forever. unfold Init.init_round. assoc.
  eapply acc_printf; [reflexivity|]. intros m1 H1. assoc.
  eapply acc_call; [reflexivity|]. intros pid m2 H2. cbv beta. destruct (pid <? 0).
  - assoc. eapply acc_printf; [reflexivity|]. intros m3 H3. assoc. apply acc_exit.
  - destruct (pid =? 0).
    + assoc.
      apply (acc_call _ Child _ (fun _ => say (message "init: exec sh failed") Leaving)); [reflexivity|]. intros r m3 H3. assoc.
      eapply acc_printf; [reflexivity|]. intros m4 H4. assoc. apply acc_exit.
    + assoc. apply acc_reap. intros m3 H3.
      eapply acc_eutt; [rewrite !bind_ret_l; reflexivity|]. eapply acc_eutt; [rewrite bind_ret_r; reflexivity|]. apply IH. lia.
Qed.

(** C26: init never stops supervising, and makes exactly the calls it should,
    whatever their results.  It opens the console, making the device first if that
    fails, and duplicates the descriptor twice.  Then for ever it announces and
    forks a shell, in the child executes sh and nothing else, and in the parent
    waits until that shell (or every child) is gone before it forks the next one.
    Only the child whose [exec] failed, or init when [fork] failed, exits.  The
    writes are the characters of its messages, to descriptor 1. *)
Theorem init_supervises n : supervises n Opening Init.init_main.
Proof.
  unfold Init.init_main. eapply acc_call; [reflexivity|]. intros r m _. cbv beta.
  assert (forall m, acc m Stdout (let* _ := call (SDup 0) in let* _ := call (SDup 0) in Init.init_forever)) as Hd.
  { intros m'. eapply acc_call; [reflexivity|]. intros ? ? _. eapply acc_call; [reflexivity|]. intros ? ? _. apply acc_forever. }
  destruct (r <? 0); [|eapply acc_eutt; [rewrite bind_ret_l; reflexivity|apply Hd]].
  assoc. eapply acc_call; [reflexivity|]. intros ? ? _. cbv beta. assoc. eapply acc_call; [reflexivity|]. intros ? ? _. cbv beta.
  eapply acc_eutt; [rewrite bind_ret_l; reflexivity|apply Hd].
Qed.
End Init.
