(* ===== verification/Usertests.v ===== *)
(** usertests.c: the tests of the kernel, as interaction trees.

    Besides system calls with strings in place of pointers, the tests use memory
    they got from the kernel, pass bad pointers and touch memory and ports they
    must not; these steps are events of their own, [userE].  The global array
    [buf] is passed from one test to the next. *)

From ITree Require Import ITree.
From S2P Require Import Prelude CString Spinlock Kalloc Proc Demo MlfqFacts ProcFacts Sleep Block Log Fs Userland Programs.

Module Usertests.

(** A byte or a word of the process's memory; [malloc] and [free] of umalloc.c;
    [link] whose second string lies at an address; [read] into an address; the
    system call sleep with the stack pointer set to an address; ports. *)
Variant userE : Type -> Type :=
| ULoad (a : Z) : userE Z
| UStore (a v : Z) : userE unit
| ULoad32 (a : Z) : userE Z
| UStore32 (a v : Z) : userE unit
| UMalloc (n : Z) : userE Z
| UFree (a : Z) : userE unit
| ULinkAt (old : list Z) (a : Z) : userE Z
| UReadAt (fd a n : Z) : userE Z
| USleepAt (esp : Z) : userE Z
| UOutb (port v : Z) : userE unit
| UInb (port : Z) : userE Z.

#[local] Open Scope prog_scope.
Abbreviation testp := (itree (sysE +' userE)).
#[local] Notation "s +n" := (String.append s nl) (at level 1).
#[local] Abbreviation b := bytes_of.

Definition sys {A : Type} (e : sysE A) : testp A := ITree.trigger (inl1 e).
Definition usr {A : Type} (e : userE A) : testp A := ITree.trigger (inr1 e).
Definition exit {A : Type} : testp A := translate inl1 Programs.exit.
Definition printf (fd : Z) (fmt : string) (ap : list Printf.arg) : testp unit := translate inl1 (Programs.printf fd fmt ap).
Definition get {A : Type} (m : res A) : testp A := translate inl1 (lift m).
Definition num (z : Z) : Printf.arg := Printf.Num z.

(** A message, then [exit]. *)
Definition die {A : Type} (fmt : string) (ap : list Printf.arg) : testp A := let* _ := printf 1 fmt ap in exit.
(** A call whose result must be as [good] says. *)
Definition want (e : sysE Z) (good : Z -> bool) (fmt : string) : testp Z :=
  let* r := sys e in if good r then Ret r else die fmt [].
Definition nonneg (r : Z) : bool := 0 <=? r.
Definition neg (r : Z) : bool := r <? 0.
Definition is0 (r : Z) : bool := r =? 0.
Definition not0 (r : Z) : bool := negb (r =? 0).

(** [for] loops over [i], [k] turns long: with a state, and with a [break]. *)
Fixpoint loop {S : Type} (k : nat) (i : Z) (f : Z -> S -> testp S) (s : S) : testp S :=
  match k with O => Ret s | S k => let* s := f i s in loop k (i + 1) f s end.
Definition times (k : nat) (f : Z -> testp unit) : testp unit := loop k 0 (fun i _ => f i) tt.
Fixpoint times_ok (k : nat) (i : Z) (f : Z -> testp bool) : testp bool :=
  match k with O => Ret true | S k => let* more := f i in if more : bool then times_ok k (i + 1) f else Ret false end.

(** The array [buf], and a [char] as a number. *)
Definition BUF : Z := 8192.
Definition put (bs buf : list Z) : list Z := bs ++ drop (length bs) buf.
Definition schar (c : Z) : Z := if c <? 128 then c else c - 256.

Definition iputtest : testp unit :=
  let* _ := printf 1 ("iput test" +n) [] in
  let* _ := want (SMkdir (b "iputdir")) nonneg ("mkdir failed" +n) in
  let* _ := want (SChdir (b "iputdir")) nonneg ("chdir iputdir failed" +n) in
  let* _ := want (SUnlink (b "../iputdir")) nonneg ("unlink ../iputdir failed" +n) in
  let* _ := want (SChdir (b "/")) nonneg ("chdir / failed" +n) in
  printf 1 ("iput test ok" +n) [].

Definition exitiputtest : testp unit :=
  let* _ := printf 1 ("exitiput test" +n) [] in
  let* pid := want SFork nonneg ("fork failed" +n) in
  if pid =? 0 then
    let* _ := want (SMkdir (b "iputdir")) nonneg ("mkdir failed" +n) in
    let* _ := want (SChdir (b "iputdir")) nonneg ("child chdir failed" +n) in
    let* _ := want (SUnlink (b "../iputdir")) nonneg ("unlink ../iputdir failed" +n) in
    exit
  else
    let* _ := sys SWait in
    printf 1 ("exitiput test ok" +n) [].

Definition openiputtest : testp unit :=
  let* _ := printf 1 ("openiput test" +n) [] in
  let* _ := want (SMkdir (b "oidir")) nonneg ("mkdir oidir failed" +n) in
  let* pid := want SFork nonneg ("fork failed" +n) in
  if pid =? 0 then
    let* _ := want (SOpen (b "oidir") O_RDWR) neg ("open directory for write succeeded" +n) in
    exit
  else
    let* _ := sys (SSleep 1) in
    let* _ := want (SUnlink (b "oidir")) is0 ("unlink failed" +n) in
    let* _ := sys SWait in
    printf 1 ("openiput test ok" +n) [].

Definition opentest : testp unit :=
  let* _ := printf 1 ("open test" +n) [] in
  let* fd := want (SOpen (b "echo") 0) nonneg ("open echo failed!" +n) in
  let* _ := sys (SClose fd) in
  let* _ := want (SOpen (b "doesnotexist") 0) neg ("open doesnotexist succeeded!" +n) in
  printf 1 ("open test ok" +n) [].

Definition rw : Z := Z.lor O_CREATE O_RDWR.

Definition writetest (buf : list Z) : testp (list Z) :=
  let* _ := printf 1 ("small file test" +n) [] in
  let* fd := sys (SOpen (b "small") rw) in
  let* _ := (if 0 <=? fd then printf 1 ("creat small succeeded; ok" +n) [] else die ("error: creat small failed!" +n) []) in
  let* _ := times 100 (fun i =>
    let* r := sys (SWrite fd (b "aaaaaaaaaa")) in
    if negb (r =? 10) then die ("error: write aa %d new file failed" +n) [num i]
    else
      let* r := sys (SWrite fd (b "bbbbbbbbbb")) in
      if negb (r =? 10) then die ("error: write bb %d new file failed" +n) [num i] else Ret tt) in
  let* _ := printf 1 ("writes ok" +n) [] in
  let* _ := sys (SClose fd) in
  let* fd := sys (SOpen (b "small") O_RDONLY) in
  let* _ := (if 0 <=? fd then printf 1 ("open small succeeded ok" +n) [] else die ("error: open small failed!" +n) []) in
  let* (i, bs) := sys (SRead fd 2000) in
  let* _ := (if i =? 2000 then printf 1 ("read succeeded ok" +n) [] else die ("read failed" +n) []) in
  let* _ := sys (SClose fd) in
  let* _ := want (SUnlink (b "small")) nonneg ("unlink small failed" +n) in
  let* _ := printf 1 ("small file test ok" +n) [] in
  Ret (put bs buf).

(** [((int* )buf)[0]]. *)
Definition int0 (buf : list Z) : testp Z := let* v := get (get32 "buf" buf 0) in Ret (s32 v).

(** The reading loop of [writetest1]. *)
Definition writetest1_read (fd : Z) (buf : list Z) : testp (list Z) :=
  ITree.iter (fun '(n, buf) =>
    let* (i, bs) := sys (SRead fd 512) in
    let buf := put bs buf in
    if i =? 0 then
      if n =? MAXFILE - 1 then die "read only %d blocks from big" [num n] else Ret (inr buf)
    else if negb (i =? 512) then die ("read failed %d" +n) [num i]
    else
      let* v := int0 buf in
      if negb (v =? n) then die ("read content of block %d is %d" +n) [num n; num v]
      else Ret (inl (n + 1, buf))) (0, buf).

Definition writetest1 (buf : list Z) : testp (list Z) :=
  let* _ := printf 1 ("big files test" +n) [] in
  let* fd := want (SOpen (b "big") rw) nonneg ("error: creat big failed!" +n) in
  let* buf := loop (Z.to_nat MAXFILE) 0 (fun i buf =>
    let buf := put (enc 4 i) buf in
    let* r := sys (SWrite fd (take 512 buf)) in
    if negb (r =? 512) then die ("error: write big file failed" +n) [num i] else Ret buf) buf in
  let* _ := sys (SClose fd) in
  let* fd := want (SOpen (b "big") O_RDONLY) nonneg ("error: open big failed!" +n) in
  let* buf := writetest1_read fd buf in
  let* _ := sys (SClose fd) in
  let* _ := want (SUnlink (b "big")) nonneg ("unlink big failed" +n) in
  let* _ := printf 1 ("big files ok" +n) [] in
  Ret buf.

Definition createtest : testp unit :=
  let* _ := printf 1 ("many creates, followed by unlink test" +n) [] in
  let* _ := times 52 (fun i => let* fd := sys (SOpen [97; 48 + i] rw) in let* _ := sys (SClose fd) in Ret tt) in
  let* _ := times 52 (fun i => let* _ := sys (SUnlink [97; 48 + i]) in Ret tt) in
  printf 1 ("many creates, followed by unlink; ok" +n) [].

Definition dirtest : testp unit :=
  let* _ := printf 1 ("mkdir test" +n) [] in
  let* _ := want (SMkdir (b "dir0")) nonneg ("mkdir failed" +n) in
  let* _ := want (SChdir (b "dir0")) nonneg ("chdir dir0 failed" +n) in
  let* _ := want (SChdir (b "..")) nonneg ("chdir .. failed" +n) in
  let* _ := want (SUnlink (b "dir0")) nonneg ("unlink dir0 failed" +n) in
  printf 1 ("mkdir test ok" +n) [].

Definition echoargv : list (list Z) := [b "echo"; b "ALL"; b "TESTS"; b "PASSED"].

Definition exectest : testp unit :=
  let* _ := printf 1 ("exec test" +n) [] in
  let* _ := want (SExec (b "echo") echoargv) nonneg ("exec echo failed" +n) in
  Ret tt.
(** Each byte is one more than the last, [& 0xff]. *)
Fixpoint in_sequence (seq : Z) (bs : list Z) : bool :=
  match bs with
  | [] => true
  | c :: bs => (Z.land c 0xff =? Z.land seq 0xff) && in_sequence (seq + 1) bs
  end.

(** The child of [pipe1]: turn [n], and all of it. *)
Definition pipe1_turn (fd n : Z) (buf : list Z) : testp (list Z) :=
  let buf := put (map (fun i => u8 (n * 1033 + Z.of_nat i)) (seq 0 1033)) buf in
  let* r := sys (SWrite fd (take 1033 buf)) in
  if negb (r =? 1033) then die ("pipe1 oops 1" +n) [] else Ret buf.

Definition pipe1_write (fd : Z) (buf : list Z) : testp unit := let* _ := loop 5 0 (pipe1_turn fd) buf in exit.

(** The parent's loop: [total], or [None] after a wrong byte. *)
Definition pipe1_reading (fd : Z) : Z * Z * Z * list Z -> testp (option Z * list Z) :=
  ITree.iter (fun '(seq, cc, total, buf) =>
    let* (n, bs) := sys (SRead fd cc) in
    let buf := put bs buf in
    if 0 <? n then
      let* got := get (get_bytes "buf" buf 0 (Z.to_nat n)) in
      if in_sequence seq got
      then
        let cc := cc * 2 in
        Ret (inl (seq + n, if BUF <? cc then BUF else cc, total + n, buf))
      else let* _ := printf 1 ("pipe1 oops 2" +n) [] in Ret (inr (None, buf))
    else Ret (inr (Some total, buf))).
Definition pipe1_read (fd : Z) (buf : list Z) : testp (option Z * list Z) := pipe1_reading fd (0, 1, 0, buf).

Definition pipe1 (buf : list Z) : testp (list Z) :=
  let* (r, (rfd, wfd)) := sys SPipe in
  if negb (r =? 0) then die ("pipe() failed" +n) []
  else
    let* pid := sys SFork in
    if pid =? 0 then
      let* _ := sys (SClose rfd) in
      let* _ := pipe1_write wfd buf in
      Ret buf
    else if 0 <? pid then
      let* _ := sys (SClose wfd) in
      let* (total, buf) := pipe1_read rfd buf in
      match total with
      | None => Ret buf
      | Some total =>
          if negb (total =? 5 * 1033) then die ("pipe1 oops 3 total %d" +n) [num total]
          else
            let* _ := sys (SClose rfd) in
            let* _ := sys SWait in
            let* _ := printf 1 ("pipe1 ok" +n) [] in
            Ret buf
      end
    else die ("fork() failed" +n) [].

(** [if (fork() == 0) for (;;) ;] after [before]. *)
Definition fork_spinner (before : testp unit) : testp Z :=
  let* pid := sys SFork in
  if pid =? 0 then let* _ := before in ITree.spin else Ret pid.

Definition preempt (buf : list Z) : testp (list Z) :=
  let* _ := printf 1 "preempt: " [] in
  let* pid1 := fork_spinner (Ret tt) in
  let* pid2 := fork_spinner (Ret tt) in
  let* (_, (rfd, wfd)) := sys SPipe in
  let* pid3 := fork_spinner (
    let* _ := sys (SClose rfd) in
    let* r := sys (SWrite wfd (b "x")) in
    let* _ := (if negb (r =? 1) then printf 1 "preempt write error" [] else Ret tt) in
    let* _ := sys (SClose wfd) in
    Ret tt) in
  let* _ := sys (SClose wfd) in
  let* (r, bs) := sys (SRead rfd BUF) in
  let buf := put bs buf in
  if negb (r =? 1) then let* _ := printf 1 "preempt read error" [] in Ret buf
  else
    let* _ := sys (SClose rfd) in
    let* _ := printf 1 "kill... " [] in
    let* _ := sys (SKill pid1) in
    let* _ := sys (SKill pid2) in
    let* _ := sys (SKill pid3) in
    let* _ := printf 1 "wait... " [] in
    let* _ := sys SWait in
    let* _ := sys SWait in
    let* _ := sys SWait in
    let* _ := printf 1 ("preempt ok" +n) [] in
    Ret buf.

Definition exitwait : testp unit :=
  let* all := times_ok 100 0 (fun _ =>
    let* pid := sys SFork in
    if pid <? 0 then let* _ := printf 1 ("fork failed" +n) [] in Ret false
    else if negb (pid =? 0) then
      let* r := sys SWait in
      if negb (r =? pid) then let* _ := printf 1 ("wait wrong pid" +n) [] in Ret false else Ret true
    else exit) in
  if all : bool then printf 1 ("exitwait ok" +n) [] else Ret tt.

(** The two [while] loops of [mem]: a chain of blocks, and back. *)
Definition mem_fill : testp Z :=
  ITree.iter (fun m1 =>
    let* m2 := usr (UMalloc 10001) in
    if negb (m2 =? 0) then let* _ := usr (UStore32 m2 m1) in Ret (inl m2) else Ret (inr m1)) 0.

Definition mem_drain (m1 : Z) : testp unit :=
  ITree.iter (fun m1 =>
    if negb (m1 =? 0) then
      let* m2 := usr (ULoad32 m1) in
      let* _ := usr (UFree m1) in
      Ret (inl m2)
    else Ret (inr tt)) m1.

Definition mem : testp unit :=
  let* _ := printf 1 ("mem test" +n) [] in
  let* ppid := sys SGetpid in
  let* pid := sys SFork in
  if pid =? 0 then
    let* m1 := mem_fill in
    let* _ := mem_drain m1 in
    let* m1 := usr (UMalloc (1024 * 20)) in
    if m1 =? 0 then
      let* _ := printf 1 ("couldn't allocate mem?!!" +n) [] in
      let* _ := sys (SKill ppid) in
      exit
    else
      let* _ := usr (UFree m1) in
      let* _ := printf 1 ("mem ok" +n) [] in
      exit
  else let* _ := sys SWait in Ret tt.

(** [sharedfd] counts the ['c']s and ['p']s of all ten bytes of its own [buf]. *)
Definition count (c : Z) (buf : list Z) : Z := Z.of_nat (length (filter (fun x => x = c) buf)).

Definition sharedfd_count (fd : Z) (buf : list Z) : testp (Z * Z) :=
  ITree.iter (fun '(nc, np, buf) =>
    let* (n, bs) := sys (SRead fd 10) in
    let buf := put bs buf in
    if 0 <? n then Ret (inl (nc + count 99 buf, np + count 112 buf, buf)) else Ret (inr (nc, np))) (0, 0, buf).

Definition sharedfd : testp unit :=
  let* _ := printf 1 ("sharedfd test" +n) [] in
  let* _ := sys (SUnlink (b "sharedfd")) in
  let* fd := sys (SOpen (b "sharedfd") rw) in
  if fd <? 0 then printf 1 "fstests: cannot open sharedfd for writing" []
  else
    let* pid := sys SFork in
    let buf := repeat (if pid =? 0 then 99 else 112) 10 in
    let* _ := times_ok 1000 0 (fun _ =>
      let* r := sys (SWrite fd buf) in
      if negb (r =? 10) then let* _ := printf 1 ("fstests: write sharedfd failed" +n) [] in Ret false else Ret true) in
    if pid =? 0 then exit
    else
      let* _ := sys SWait in
      let* _ := sys (SClose fd) in
      let* fd := sys (SOpen (b "sharedfd") 0) in
      if fd <? 0 then printf 1 ("fstests: cannot open sharedfd for reading" +n) []
      else
        let* (nc, np) := sharedfd_count fd buf in
        let* _ := sys (SClose fd) in
        let* _ := sys (SUnlink (b "sharedfd")) in
        if (nc =? 10000) && (np =? 10000) then printf 1 ("sharedfd ok" +n) []
        else die ("sharedfd oops %d %d" +n) [num nc; num np].
(** [if (fork() == 0) child], and a failed fork ends the test. *)
Definition fork_child (child : testp unit) : testp unit :=
  let* pid := want SFork nonneg ("fork failed" +n) in
  if pid =? 0 then let* _ := child in exit else Ret tt.

Definition names : list (list Z) := [b "f0"; b "f1"; b "f2"; b "f3"].

Definition fourfiles_write (pi : Z) (fname buf : list Z) : testp unit :=
  let* fd := want (SOpen fname rw) nonneg ("create failed" +n) in
  let buf := put (repeat (48 + pi) 512) buf in
  times 12 (fun _ =>
    let* n := sys (SWrite fd (take 500 buf)) in
    if negb (n =? 500) then die ("write failed %d" +n) [num n] else Ret tt).

(** The loop that reads file [i]: [total]. *)
Definition fourfiles_read (fd i : Z) (buf : list Z) : testp (Z * list Z) :=
  ITree.iter (fun '(total, buf) =>
    let* (n, bs) := sys (SRead fd BUF) in
    let buf := put bs buf in
    if 0 <? n then
      let* got := get (get_bytes "buf" buf 0 (Z.to_nat n)) in
      if forallb (fun c => schar c =? 48 + i) got then Ret (inl (total + n, buf))
      else die ("wrong char" +n) []
    else Ret (inr (total, buf))) (0, buf).

Definition fourfiles (buf : list Z) : testp (list Z) :=
  let* _ := printf 1 ("fourfiles test" +n) [] in
  let* _ := times 4 (fun pi =>
    let* fname := get (zget "names" names pi) in
    let* _ := sys (SUnlink fname) in
    fork_child (fourfiles_write pi fname buf)) in
  let* _ := times 4 (fun _ => let* _ := sys SWait in Ret tt) in
  let* buf := loop 2 0 (fun i buf =>
    let* fname := get (zget "names" names i) in
    let* fd := sys (SOpen fname 0) in
    let* (total, buf) := fourfiles_read fd i buf in
    let* _ := sys (SClose fd) in
    if negb (total =? 12 * 500) then die ("wrong length %d" +n) [num total]
    else let* _ := sys (SUnlink fname) in Ret buf) buf in
  let* _ := printf 1 ("fourfiles ok" +n) [] in
  Ret buf.

(** [createdelete]: the files of child [pi] are ['p' + pi], ['0' + i]. *)
Definition createdelete_child (pi : Z) : testp unit :=
  times 20 (fun i =>
    let* fd := want (SOpen [112 + pi; 48 + i] rw) nonneg ("create failed" +n) in
    let* _ := sys (SClose fd) in
    if (0 <? i) && (i mod 2 =? 0) then
      let* _ := want (SUnlink [112 + pi; 48 + i / 2]) nonneg ("unlink failed" +n) in Ret tt
    else Ret tt).

Definition createdelete_look (i pi : Z) : testp unit :=
  let name := [112 + pi; 48 + i] in
  let* fd := sys (SOpen name 0) in
  if ((i =? 0) || (10 <=? i)) && (fd <? 0) then die ("oops createdelete %s didn't exist" +n) [arg_str name]
  else if ((1 <=? i) && (i <? 10)) && (0 <=? fd) then die ("oops createdelete %s did exist" +n) [arg_str name]
  else if 0 <=? fd then let* _ := sys (SClose fd) in Ret tt
  else Ret tt.

Definition createdelete : testp unit :=
  let* _ := printf 1 ("createdelete test" +n) [] in
  let* _ := times 4 (fun pi => fork_child (createdelete_child pi)) in
  let* _ := times 4 (fun _ => let* _ := sys SWait in Ret tt) in
  let* _ := times 20 (fun i => times 4 (createdelete_look i)) in
  let* _ := times 20 (fun i => times 4 (fun _ => let* _ := sys (SUnlink [u8 (112 + i); 48 + i]) in Ret tt)) in
  printf 1 ("createdelete ok" +n) [].

Definition unlinkread (buf : list Z) : testp (list Z) :=
  let* _ := printf 1 ("unlinkread test" +n) [] in
  let* fd := want (SOpen (b "unlinkread") rw) nonneg ("create unlinkread failed" +n) in
  let* _ := sys (SWrite fd (b "hello")) in
  let* _ := sys (SClose fd) in
  let* fd := want (SOpen (b "unlinkread") O_RDWR) nonneg ("open unlinkread failed" +n) in
  let* _ := want (SUnlink (b "unlinkread")) is0 ("unlink unlinkread failed" +n) in
  let* fd1 := sys (SOpen (b "unlinkread") rw) in
  let* _ := sys (SWrite fd1 (b "yyy")) in
  let* _ := sys (SClose fd1) in
  let* (r, bs) := sys (SRead fd BUF) in
  let buf := put bs buf in
  if negb (r =? 5) then die "unlinkread read failed" []
  else
    let* c := get (zget "buf" buf 0) in
    if negb (schar c =? 104) then die ("unlinkread wrong data" +n) []
    else
      let* _ := want (SWrite fd (take 10 buf)) (Z.eqb 10) ("unlinkread write failed" +n) in
      let* _ := sys (SClose fd) in
      let* _ := sys (SUnlink (b "unlinkread")) in
      let* _ := printf 1 ("unlinkread ok" +n) [] in
      Ret buf.

Definition linktest (buf : list Z) : testp (list Z) :=
  let* _ := printf 1 ("linktest" +n) [] in
  let* _ := sys (SUnlink (b "lf1")) in
  let* _ := sys (SUnlink (b "lf2")) in
  let* fd := want (SOpen (b "lf1") rw) nonneg ("create lf1 failed" +n) in
  let* _ := want (SWrite fd (b "hello")) (Z.eqb 5) ("write lf1 failed" +n) in
  let* _ := sys (SClose fd) in
  let* _ := want (SLink (b "lf1") (b "lf2")) nonneg ("link lf1 lf2 failed" +n) in
  let* _ := sys (SUnlink (b "lf1")) in
  let* _ := want (SOpen (b "lf1") 0) neg ("unlinked lf1 but it is still there!" +n) in
  let* fd := want (SOpen (b "lf2") 0) nonneg ("open lf2 failed" +n) in
  let* (r, bs) := sys (SRead fd BUF) in
  let* _ := (if negb (r =? 5) then die ("read lf2 failed" +n) [] else Ret tt) in
  let* _ := sys (SClose fd) in
  let* _ := want (SLink (b "lf2") (b "lf2")) neg ("link lf2 lf2 succeeded! oops" +n) in
  let* _ := sys (SUnlink (b "lf2")) in
  let* _ := want (SLink (b "lf2") (b "lf1")) neg ("link non-existant succeeded! oops" +n) in
  let* _ := want (SLink (b ".") (b "lf1")) neg ("link . lf1 succeeded! oops" +n) in
  let* _ := printf 1 ("linktest ok" +n) [] in
  Ret (put bs buf).

(** [concreate]: file [i] is ['C'], ['0' + i]. *)
Definition Cfile (i : Z) : list Z := [67; 48 + i].

Definition concreate_make (i : Z) : testp unit :=
  let file := Cfile i in
  let* _ := sys (SUnlink file) in
  let* pid := sys SFork in
  let* _ := (
    if negb (pid =? 0) && (i mod 3 =? 1) then let* _ := sys (SLink (b "C0") file) in Ret tt
    else if (pid =? 0) && (i mod 5 =? 1) then let* _ := sys (SLink (b "C0") file) in Ret tt
    else
      let* fd := sys (SOpen file rw) in
      if fd <? 0 then die ("concreate create %s failed" +n) [arg_str file]
      else let* _ := sys (SClose fd) in Ret tt) in
  if pid =? 0 then exit else let* _ := sys SWait in Ret tt.

(** The directory is read one entry at a time; [de] is the entry last read, and
    [fa] marks the files seen. *)
Definition concreate_list (fd : Z) (de : list Z) : testp Z :=
  ITree.iter (fun '(n, fa, de) =>
    let* (r, bs) := sys (SRead fd 16) in
    let de := put bs de in
    if 0 <? r then
      let* inum := get (get16 "de" de 0) in
      if inum =? 0 then Ret (inl (n, fa, de))
      else
        let* c0 := get (zget "name" de 2) in
        let* c2 := get (zget "name" de 4) in
        if (c0 =? 67) && (c2 =? 0) then
          let* c1 := get (zget "name" de 3) in
          let i := schar c1 - 48 in
          let name := if c1 =? 0 then [c0] else [c0; c1] in
          if (i <? 0) || (40 <=? i) then die ("concreate weird file %s" +n) [arg_str name]
          else
            let* seen := get (zget "fa" fa i) in
            if negb (seen =? 0) then die ("concreate duplicate file %s" +n) [arg_str name]
            else let* fa := get (zset "fa" fa i 1) in Ret (inl (n + 1, fa, de))
        else Ret (inl (n, fa, de))
    else Ret (inr n)) (0, repeat 0 40, de).
(** Turn [i] of the last loop: one of the two processes opens, the other unlinks. *)
Definition concreate_race (i : Z) : testp unit :=
  let file := Cfile i in
  let* pid := want SFork nonneg ("fork failed" +n) in
  let* _ := times 4 (fun _ =>
    if ((i mod 3 =? 0) && (pid =? 0)) || ((i mod 3 =? 1) && negb (pid =? 0)) then
      let* fd := sys (SOpen file 0) in
      let* _ := sys (SClose fd) in
      Ret tt
    else let* _ := sys (SUnlink file) in Ret tt) in
  if pid =? 0 then exit else let* _ := sys SWait in Ret tt.

(** [de0]: what the local [de] holds at first. *)
Definition concreate (de0 : list Z) : testp unit :=
  let* _ := printf 1 ("concreate test" +n) [] in
  let* _ := times 40 concreate_make in
  let* fd := sys (SOpen (b ".") 0) in
  let* n := concreate_list fd de0 in
  let* _ := sys (SClose fd) in
  if negb (n =? 40) then die ("concreate not enough files in directory listing" +n) []
  else
    let* _ := times 40 concreate_race in
    printf 1 ("concreate ok" +n) [].

Definition linkunlink : testp unit :=
  let* _ := printf 1 ("linkunlink test" +n) [] in
  let* _ := sys (SUnlink (b "x")) in
  let* pid := want SFork nonneg ("fork failed" +n) in
  let* _ := loop 100 0 (fun _ x =>
    let x := u32 (x * 1103515245 + 12345) in
    let* _ := (
      if x mod 3 =? 0 then let* fd := sys (SOpen (b "x") rw) in sys (SClose fd)
      else if x mod 3 =? 1 then sys (SLink (b "cat") (b "x"))
      else sys (SUnlink (b "x"))) in
    Ret x) (if negb (pid =? 0) then 1 else 97) in
  if negb (pid =? 0) then
    let* _ := sys SWait in
    printf 1 ("linkunlink ok" +n) []
  else exit.

Definition xfile (i : Z) : list Z := [120; 48 + i / 64; 48 + i mod 64].

Definition bigdir : testp unit :=
  let* _ := printf 1 ("bigdir test" +n) [] in
  let* _ := sys (SUnlink (b "bd")) in
  let* fd := want (SOpen (b "bd") O_CREATE) nonneg ("bigdir create failed" +n) in
  let* _ := sys (SClose fd) in
  let* _ := times 500 (fun i => let* _ := want (SLink (b "bd") (xfile i)) is0 ("bigdir link failed" +n) in Ret tt) in
  let* _ := sys (SUnlink (b "bd")) in
  let* _ := times 500 (fun i => let* _ := want (SUnlink (xfile i)) is0 "bigdir unlink failed" in Ret tt) in
  printf 1 ("bigdir ok" +n) [].

(** [subdir] up to the first read, then its links and [chdir]s, then the calls
    that must fail, then the end. *)
Definition subdir_make (buf : list Z) : testp (list Z) :=
  let* _ := printf 1 ("subdir test" +n) [] in
  let* _ := sys (SUnlink (b "ff")) in
  let* _ := want (SMkdir (b "dd")) is0 ("subdir mkdir dd failed" +n) in
  let* fd := want (SOpen (b "dd/ff") rw) nonneg ("create dd/ff failed" +n) in
  let* _ := sys (SWrite fd (b "ff")) in
  let* _ := sys (SClose fd) in
  let* _ := want (SUnlink (b "dd")) neg ("unlink dd (non-empty dir) succeeded!" +n) in
  let* _ := want (SMkdir (b "/dd/dd")) is0 ("subdir mkdir dd/dd failed" +n) in
  let* fd := want (SOpen (b "dd/dd/ff") rw) nonneg ("create dd/dd/ff failed" +n) in
  let* _ := sys (SWrite fd (b "FF")) in
  let* _ := sys (SClose fd) in
  let* fd := want (SOpen (b "dd/dd/../ff") 0) nonneg ("open dd/dd/../ff failed" +n) in
  let* (cc, bs) := sys (SRead fd BUF) in
  let buf := put bs buf in
  let* c := get (zget "buf" buf 0) in
  if negb (cc =? 2) || negb (schar c =? 102) then die ("dd/dd/../ff wrong content" +n) []
  else let* _ := sys (SClose fd) in Ret buf.

Definition subdir_walk (buf : list Z) : testp (list Z) :=
  let* _ := want (SLink (b "dd/dd/ff") (b "dd/dd/ffff")) is0 ("link dd/dd/ff dd/dd/ffff failed" +n) in
  let* _ := want (SUnlink (b "dd/dd/ff")) is0 ("unlink dd/dd/ff failed" +n) in
  let* _ := want (SOpen (b "dd/dd/ff") O_RDONLY) neg ("open (unlinked) dd/dd/ff succeeded" +n) in
  let* _ := want (SChdir (b "dd")) is0 ("chdir dd failed" +n) in
  let* _ := want (SChdir (b "dd/../../dd")) is0 ("chdir dd/../../dd failed" +n) in
  let* _ := want (SChdir (b "dd/../../../dd")) is0 ("chdir dd/../../dd failed" +n) in
  let* _ := want (SChdir (b "./..")) is0 ("chdir ./.. failed" +n) in
  let* fd := want (SOpen (b "dd/dd/ffff") 0) nonneg ("open dd/dd/ffff failed" +n) in
  let* (r, bs) := sys (SRead fd BUF) in
  if negb (r =? 2) then die ("read dd/dd/ffff wrong len" +n) []
  else let* _ := sys (SClose fd) in Ret (put bs buf).

Definition subdir_refused : testp unit :=
  let* _ := want (SOpen (b "dd/dd/ff") O_RDONLY) neg ("open (unlinked) dd/dd/ff succeeded!" +n) in
  let* _ := want (SOpen (b "dd/ff/ff") rw) neg ("create dd/ff/ff succeeded!" +n) in
  let* _ := want (SOpen (b "dd/xx/ff") rw) neg ("create dd/xx/ff succeeded!" +n) in
  let* _ := want (SOpen (b "dd") O_CREATE) neg ("create dd succeeded!" +n) in
  let* _ := want (SOpen (b "dd") O_RDWR) neg ("open dd rdwr succeeded!" +n) in
  let* _ := want (SOpen (b "dd") O_WRONLY) neg ("open dd wronly succeeded!" +n) in
  let* _ := want (SLink (b "dd/ff/ff") (b "dd/dd/xx")) not0 ("link dd/ff/ff dd/dd/xx succeeded!" +n) in
  let* _ := want (SLink (b "dd/xx/ff") (b "dd/dd/xx")) not0 ("link dd/xx/ff dd/dd/xx succeeded!" +n) in
  let* _ := want (SLink (b "dd/ff") (b "dd/dd/ffff")) not0 ("link dd/ff dd/dd/ffff succeeded!" +n) in
  let* _ := want (SMkdir (b "dd/ff/ff")) not0 ("mkdir dd/ff/ff succeeded!" +n) in
  let* _ := want (SMkdir (b "dd/xx/ff")) not0 ("mkdir dd/xx/ff succeeded!" +n) in
  let* _ := want (SMkdir (b "dd/dd/ffff")) not0 ("mkdir dd/dd/ffff succeeded!" +n) in
  let* _ := want (SUnlink (b "dd/xx/ff")) not0 ("unlink dd/xx/ff succeeded!" +n) in
  let* _ := want (SUnlink (b "dd/ff/ff")) not0 ("unlink dd/ff/ff succeeded!" +n) in
  let* _ := want (SChdir (b "dd/ff")) not0 ("chdir dd/ff succeeded!" +n) in
  let* _ := want (SChdir (b "dd/xx")) not0 ("chdir dd/xx succeeded!" +n) in
  Ret tt.

Definition subdir (buf : list Z) : testp (list Z) :=
  let* buf := subdir_make buf in
  let* buf := subdir_walk buf in
  let* _ := subdir_refused in
  let* _ := want (SUnlink (b "dd/dd/ffff")) is0 ("unlink dd/dd/ff failed" +n) in
  let* _ := want (SUnlink (b "dd/ff")) is0 ("unlink dd/ff failed" +n) in
  let* _ := want (SUnlink (b "dd")) not0 ("unlink non-empty dd succeeded!" +n) in
  let* _ := want (SUnlink (b "dd/dd")) nonneg ("unlink dd/dd failed" +n) in
  let* _ := want (SUnlink (b "dd")) nonneg ("unlink dd failed" +n) in
  let* _ := printf 1 ("subdir ok" +n) [] in
  Ret buf.

(** [sz = 499; sz < 12*512; sz += 471]: 12 turns. *)
Definition bigwrite (buf : list Z) : testp unit :=
  let* _ := printf 1 ("bigwrite test" +n) [] in
  let* _ := sys (SUnlink (b "bigwrite")) in
  let* _ := times 12 (fun k =>
    let sz := 499 + 471 * k in
    let* fd := want (SOpen (b "bigwrite") rw) nonneg ("cannot create bigwrite" +n) in
    let* _ := times 2 (fun _ =>
      let* cc := sys (SWrite fd (take (Z.to_nat sz) buf)) in
      if negb (cc =? sz) then die ("write(%d) ret %d" +n) [num sz; num cc] else Ret tt) in
    let* _ := sys (SClose fd) in
    let* _ := sys (SUnlink (b "bigwrite")) in
    Ret tt) in
  printf 1 ("bigwrite ok" +n) [].

(** The reading loop of [bigfile]: [total]. *)
Definition bigfile_read (fd : Z) (buf : list Z) : testp (Z * list Z) :=
  ITree.iter (fun '(i, total, buf) =>
    let* (cc, bs) := sys (SRead fd 300) in
    let buf := put bs buf in
    if cc <? 0 then die ("read bigfile failed" +n) []
    else if cc =? 0 then Ret (inr (total, buf))
    else if negb (cc =? 300) then die ("short read bigfile" +n) []
    else
      let* c := get (zget "buf" buf 0) in
      let* d := get (zget "buf" buf 299) in
      if negb (schar c =? i / 2) || negb (schar d =? i / 2) then die ("read bigfile wrong data" +n) []
      else Ret (inl (i + 1, total + cc, buf))) (0, 0, buf).

Definition bigfile (buf : list Z) : testp (list Z) :=
  let* _ := printf 1 ("bigfile test" +n) [] in
  let* _ := sys (SUnlink (b "bigfile")) in
  let* fd := want (SOpen (b "bigfile") rw) nonneg "cannot create bigfile" in
  let* buf := loop 20 0 (fun i buf =>
    let buf := put (repeat i 600) buf in
    let* _ := want (SWrite fd (take 600 buf)) (Z.eqb 600) ("write bigfile failed" +n) in
    Ret buf) buf in
  let* _ := sys (SClose fd) in
  let* fd := want (SOpen (b "bigfile") 0) nonneg ("cannot open bigfile" +n) in
  let* (total, buf) := bigfile_read fd buf in
  let* _ := sys (SClose fd) in
  if negb (total =? 20 * 600) then die ("read bigfile wrong total" +n) []
  else
    let* _ := sys (SUnlink (b "bigfile")) in
    let* _ := printf 1 ("bigfile test ok" +n) [] in
    Ret buf.
Definition fourteen : testp unit :=
  let* _ := printf 1 ("fourteen test" +n) [] in
  let* _ := want (SMkdir (b "12345678901234")) is0 ("mkdir 12345678901234 failed" +n) in
  let* _ := want (SMkdir (b "12345678901234/123456789012345")) is0 ("mkdir 12345678901234/123456789012345 failed" +n) in
  let* fd := want (SOpen (b "123456789012345/123456789012345/123456789012345") O_CREATE) nonneg
    ("create 123456789012345/123456789012345/123456789012345 failed" +n) in
  let* _ := sys (SClose fd) in
  let* fd := want (SOpen (b "12345678901234/12345678901234/12345678901234") 0) nonneg
    ("open 12345678901234/12345678901234/12345678901234 failed" +n) in
  let* _ := sys (SClose fd) in
  let* _ := want (SMkdir (b "12345678901234/12345678901234")) not0 ("mkdir 12345678901234/12345678901234 succeeded!" +n) in
  let* _ := want (SMkdir (b "123456789012345/12345678901234")) not0 ("mkdir 12345678901234/123456789012345 succeeded!" +n) in
  printf 1 ("fourteen ok" +n) [].

Definition rmdot : testp unit :=
  let* _ := printf 1 ("rmdot test" +n) [] in
  let* _ := want (SMkdir (b "dots")) is0 ("mkdir dots failed" +n) in
  let* _ := want (SChdir (b "dots")) is0 ("chdir dots failed" +n) in
  let* _ := want (SUnlink (b ".")) not0 ("rm . worked!" +n) in
  let* _ := want (SUnlink (b "..")) not0 ("rm .. worked!" +n) in
  let* _ := want (SChdir (b "/")) is0 ("chdir / failed" +n) in
  let* _ := want (SUnlink (b "dots/.")) not0 ("unlink dots/. worked!" +n) in
  let* _ := want (SUnlink (b "dots/..")) not0 ("unlink dots/.. worked!" +n) in
  let* _ := want (SUnlink (b "dots")) is0 ("unlink dots failed!" +n) in
  printf 1 ("rmdot ok" +n) [].

Definition dirfile : testp unit :=
  let* _ := printf 1 ("dir vs file" +n) [] in
  let* fd := want (SOpen (b "dirfile") O_CREATE) nonneg ("create dirfile failed" +n) in
  let* _ := sys (SClose fd) in
  let* _ := want (SChdir (b "dirfile")) not0 ("chdir dirfile succeeded!" +n) in
  let* _ := want (SOpen (b "dirfile/xx") 0) neg ("create dirfile/xx succeeded!" +n) in
  let* _ := want (SOpen (b "dirfile/xx") O_CREATE) neg ("create dirfile/xx succeeded!" +n) in
  let* _ := want (SMkdir (b "dirfile/xx")) not0 ("mkdir dirfile/xx succeeded!" +n) in
  let* _ := want (SUnlink (b "dirfile/xx")) not0 ("unlink dirfile/xx succeeded!" +n) in
  let* _ := want (SLink (b "README") (b "dirfile/xx")) not0 ("link to dirfile/xx succeeded!" +n) in
  let* _ := want (SUnlink (b "dirfile")) is0 ("unlink dirfile failed!" +n) in
  let* _ := want (SOpen (b ".") O_RDWR) neg ("open . for writing succeeded!" +n) in
  let* fd := sys (SOpen (b ".") 0) in
  let* _ := want (SWrite fd (b "x")) (fun r => r <=? 0) ("write . succeeded!" +n) in
  let* _ := sys (SClose fd) in
  printf 1 ("dir vs file OK" +n) [].

(** [if (fd >= 0) close(fd)] after an [open] that creates. *)
Definition touch (path : list Z) : testp unit :=
  let* fd := sys (SOpen path O_CREATE) in
  if 0 <=? fd then let* _ := sys (SClose fd) in Ret tt else Ret tt.

Definition iref : testp unit :=
  let* _ := printf 1 ("empty file name" +n) [] in
  let* _ := times (50 + 1) (fun _ =>
    let* _ := want (SMkdir (b "irefd")) is0 ("mkdir irefd failed" +n) in
    let* _ := want (SChdir (b "irefd")) is0 ("chdir irefd failed" +n) in
    let* _ := sys (SMkdir []) in
    let* _ := sys (SLink (b "README") []) in
    let* _ := touch [] in
    let* _ := touch (b "xx") in
    let* _ := sys (SUnlink (b "xx")) in
    Ret tt) in
  let* _ := sys (SChdir (b "/")) in
  printf 1 ("empty file name OK" +n) [].

(** [for (n = 0; n < 1000; n++)]: [k] turns are left; the result is [n]. *)
Fixpoint forks (k n : nat) : testp nat :=
  match k with
  | O => Ret n
  | S k =>
      let* pid := sys SFork in
      if pid <? 0 then Ret n else if pid =? 0 then exit else forks k (S n)
  end.

Definition forktest : testp unit :=
  let* _ := printf 1 ("fork test" +n) [] in
  let* n := forks 1000 0 in
  if (n =? 1000)%nat then die ("fork claimed to work 1000 times!" +n) []
  else
    let* _ := times n (fun _ => let* _ := want SWait nonneg ("wait stopped early" +n) in Ret tt) in
    let* _ := want SWait (Z.eqb (-1)) ("wait got too many" +n) in
    printf 1 ("fork test OK" +n) [].

(** [sbrk], whose result is a pointer. *)
Definition sbrk (n : Z) : testp Z := let* r := sys (SSbrk n) in Ret (u32 r).
Definition BIG : Z := 100 * 1024 * 1024.
(** [sbrk(-(sbrk(0) - oldbrk))]. *)
Definition sbrk_back (oldbrk : Z) : testp Z := let* r := sbrk 0 in sbrk (s32 (- s32 (r - oldbrk))).

(** [sbrktest] byte by byte, [a] the end of the memory; then in a child. *)
Definition sbrk_bytes (a : Z) : testp Z :=
  loop 5000 0 (fun i a =>
    let* p := sbrk 1 in
    if negb (p =? a) then die ("sbrk test failed %d %x %x" +n) [num i; num a; num p]
    else let* _ := usr (UStore p 1) in Ret (u32 (p + 1))) a.

Definition sbrk_fork (a : Z) : testp unit :=
  let* pid := want SFork nonneg ("sbrk test fork failed" +n) in
  let* _ := sbrk 1 in
  let* c := sbrk 1 in
  if negb (c =? u32 (a + 1)) then die ("sbrk test failed post-fork" +n) []
  else if pid =? 0 then exit
  else let* _ := sys SWait in Ret tt.

(** Growing to [BIG], giving back a page and taking it again. *)
Definition sbrk_big : testp unit :=
  let* a := sbrk 0 in
  let amt := u32 (BIG - a) in
  let* p := sbrk (s32 amt) in
  let* _ := (if negb (p =? a) then die ("sbrk test failed to grow big address space; enough phys mem?" +n) [] else Ret tt) in
  let lastaddr := BIG - 1 in
  let* _ := usr (UStore lastaddr 99) in
  let* a := sbrk 0 in
  let* c := sbrk (-4096) in
  let* _ := (if c =? 0xffffffff then die ("sbrk could not deallocate" +n) [] else Ret tt) in
  let* c := sbrk 0 in
  let* _ := (if negb (c =? u32 (a - 4096))
             then die ("sbrk deallocation produced wrong address, a %x c %x" +n) [num a; num c] else Ret tt) in
  let* a := sbrk 0 in
  let* c := sbrk 4096 in
  let* bad := (if negb (c =? a) then Ret true else let* r := sbrk 0 in Ret (negb (r =? u32 (a + 4096)))) in
  let* _ := (if bad : bool then die ("sbrk re-allocation failed, a %x c %x" +n) [num a; num c] else Ret tt) in
  let* v := usr (ULoad lastaddr) in
  if schar v =? 99 then die ("sbrk de-allocation didn't really deallocate" +n) [] else Ret tt.

(** A child reads the kernel's memory at [a], and should be killed. *)
Definition sbrk_kernel (a : Z) : testp unit :=
  let* ppid := sys SGetpid in
  let* pid := want SFork nonneg ("fork failed" +n) in
  if pid =? 0 then
    let* v := usr (ULoad a) in
    let* _ := printf 1 ("oops could read %x = %x" +n) [num a; num (schar v)] in
    let* _ := sys (SKill ppid) in
    exit
  else let* _ := sys SWait in Ret tt.

(** Ten children take memory until there is none: their pids. *)
Definition sbrk_hog (rfd wfd : Z) : testp Z :=
  let* pid := sys SFork in
  if pid =? 0 then
    let* r := sbrk 0 in
    let* _ := sbrk (s32 (BIG - r)) in
    let* _ := sys (SWrite wfd (b "x")) in
    ITree.iter (fun _ : unit => let* _ := sys (SSleep 1000) in Ret (inl tt)) tt
  else
    let* _ := (if negb (pid =? -1) then let* _ := sys (SRead rfd 1) in Ret tt else Ret tt) in
    Ret pid.

Definition sbrk_hogs (rfd wfd : Z) : testp (list Z) :=
  loop 10 0 (fun _ pids => let* pid := sbrk_hog rfd wfd in Ret (pids ++ [pid])) [].

Fixpoint kill_all (pids : list Z) : testp unit :=
  match pids with
  | [] => Ret tt
  | pid :: pids =>
      let* _ := (if pid =? -1 then Ret tt else let* _ := sys (SKill pid) in let* _ := sys SWait in Ret tt) in
      kill_all pids
  end.

(** The kernel's memory is probed every 50000 bytes, below [KERNBASE + 2000000]. *)
Definition sbrktest : testp unit :=
  let* _ := printf 1 ("sbrk test" +n) [] in
  let* oldbrk := sbrk 0 in
  let* a := sbrk 0 in
  let* a := sbrk_bytes a in
  let* _ := sbrk_fork a in
  let* _ := sbrk_big in
  let* a := sbrk 0 in
  let* c := sbrk_back oldbrk in
  let* _ := (if negb (c =? a) then die ("sbrk downsize failed, a %x c %x" +n) [num a; num c] else Ret tt) in
  let* _ := times 40 (fun k => sbrk_kernel (KERNBASE + 50000 * k)) in
  let* (r, (rfd, wfd)) := sys SPipe in
  if negb (r =? 0) then die ("pipe() failed" +n) []
  else
    let* pids := sbrk_hogs rfd wfd in
    let* c := sbrk 4096 in
    let* _ := kill_all pids in
    if c =? 0xffffffff then die ("failed sbrk leaked memory" +n) []
    else
      let* r := sbrk 0 in
      let* _ := (if oldbrk <? r then sbrk_back oldbrk else Ret 0) in
      printf 1 ("sbrk test OK" +n) [].
(** The system call with its stack pointer at [p]; its result is not used. *)
Definition validateint (p : Z) : testp unit := let* _ := usr (USleepAt p) in Ret tt.

(** [p = 0; p <= 1100*1024; p += 4096]: 276 turns. *)
Definition validatetest : testp unit :=
  let* _ := printf 1 ("validate test" +n) [] in
  let* _ := times 276 (fun k =>
    let p := 4096 * k in
    let* pid := sys SFork in
    if pid =? 0 then let* _ := validateint p in exit
    else
      let* _ := sys (SSleep 0) in
      let* _ := sys (SSleep 0) in
      let* _ := sys (SKill pid) in
      let* _ := sys SWait in
      let* r := usr (ULinkAt (b "nosuchfile") p) in
      if negb (r =? -1) then die ("link should not succeed" +n) [] else Ret tt) in
  printf 1 ("validate ok" +n) [].

(** [uninit]: what the array of that name holds at the start. *)
Definition bsstest (uninit : list Z) : testp unit :=
  let* _ := printf 1 ("bss test" +n) [] in
  let* _ := times (Z.to_nat 10000) (fun i =>
    let* c := get (zget "uninit" uninit i) in
    if negb (c =? 0) then die ("bss test failed" +n) [] else Ret tt) in
  printf 1 ("bss test ok" +n) [].

(** [MAXARG-1] arguments of a line and 199 blanks. *)
Definition bigargs : list (list Z) := repeat (b ("bigargs test: failed" +n) ++ repeat 32 199) 31.

Definition bigargtest : testp unit :=
  let* _ := sys (SUnlink (b "bigarg-ok")) in
  let* pid := sys SFork in
  if pid =? 0 then
    let* _ := printf 1 ("bigarg test" +n) [] in
    let* _ := sys (SExec (b "echo") bigargs) in
    let* _ := printf 1 ("bigarg test ok" +n) [] in
    let* fd := sys (SOpen (b "bigarg-ok") O_CREATE) in
    let* _ := sys (SClose fd) in
    exit
  else if pid <? 0 then die ("bigargtest: fork failed" +n) []
  else
    let* _ := sys SWait in
    let* fd := want (SOpen (b "bigarg-ok") 0) nonneg ("bigarg test failed!" +n) in
    let* _ := sys (SClose fd) in
    let* _ := sys (SUnlink (b "bigarg-ok")) in
    Ret tt.

Definition fname (nfiles : Z) : list Z :=
  [102; u8 (48 + nfiles / 1000); 48 + nfiles mod 1000 / 100; 48 + nfiles mod 100 / 10; 48 + nfiles mod 10].

(** Writing until a write is short: [total]. *)
Definition fsfull_fill (fd : Z) (buf : list Z) : testp Z :=
  ITree.iter (fun total =>
    let* cc := sys (SWrite fd (take 512 buf)) in
    if cc <? 512 then Ret (inr total) else Ret (inl (total + cc))) 0.

(** The first loop: [nfiles] at its end. *)
Definition fsfull_files (buf : list Z) : testp Z :=
  ITree.iter (fun nfiles =>
    let name := fname nfiles in
    let* _ := printf 1 ("writing %s" +n) [arg_str name] in
    let* fd := sys (SOpen name rw) in
    if fd <? 0 then let* _ := printf 1 ("open %s failed" +n) [arg_str name] in Ret (inr nfiles)
    else
      let* total := fsfull_fill fd buf in
      let* _ := printf 1 ("wrote %d bytes" +n) [num total] in
      let* _ := sys (SClose fd) in
      if total =? 0 then Ret (inr nfiles) else Ret (inl (nfiles + 1))) 0.

Definition fsfull (buf : list Z) : testp unit :=
  let* _ := printf 1 ("fsfull test" +n) [] in
  let* nfiles := fsfull_files buf in
  let* _ := times (Z.to_nat (nfiles + 1)) (fun k => let* _ := sys (SUnlink (fname (nfiles - k))) in Ret tt) in
  printf 1 ("fsfull test finished" +n) [].

Definition RTC_ADDR : Z := 0x70.
Definition RTC_DATA : Z := 0x71.

Definition uio : testp unit :=
  let* _ := printf 1 ("uio test" +n) [] in
  let* pid := sys SFork in
  if pid =? 0 then
    let* _ := usr (UOutb RTC_ADDR 0x09) in
    let* _ := usr (UInb RTC_DATA) in
    let* _ := printf 1 ("uio: uio succeeded; test FAILED" +n) [] in
    exit
  else if pid <? 0 then die ("fork failed" +n) []
  else
    let* _ := sys SWait in
    printf 1 ("uio test done" +n) [].

Definition argptest : testp unit :=
  let* fd := sys (SOpen (b "init") O_RDONLY) in
  if fd <? 0 then let* _ := printf 2 ("open failed" +n) [] in exit
  else
    let* a := sbrk 0 in
    let* _ := usr (UReadAt fd (u32 (a - 1)) (-1)) in
    let* _ := sys (SClose fd) in
    printf 1 ("arg test passed" +n) [].

(** The result and the new [randstate]. *)
Definition rand (randstate : Z) : Z * Z :=
  let randstate := u32 (randstate * 1664525 + 1013904223) in (randstate, randstate).

(** [main] from the start to [bsstest], and the rest. *)
Definition main_first (uninit de0 buf : list Z) : testp (list Z) :=
  let* _ := printf 1 ("usertests starting" +n) [] in
  let* _ := want (SOpen (b "usertests.ran") 0) neg ("already ran user tests -- rebuild fs.img" +n) in
  let* fd := sys (SOpen (b "usertests.ran") O_CREATE) in
  let* _ := sys (SClose fd) in
  let* _ := argptest in
  let* _ := createdelete in
  let* _ := linkunlink in
  let* _ := concreate de0 in
  let* buf := fourfiles buf in
  let* _ := sharedfd in
  let* _ := bigargtest in
  let* _ := bigwrite buf in
  let* _ := bigargtest in
  let* _ := bsstest uninit in
  Ret buf.

Definition main (uninit de0 buf : list Z) : testp unit :=
  let* buf := main_first uninit de0 buf in
  let* _ := sbrktest in
  let* _ := validatetest in
  let* _ := opentest in
  let* buf := writetest buf in
  let* buf := writetest1 buf in
  let* _ := createtest in
  let* _ := openiputtest in
  let* _ := exitiputtest in
  let* _ := iputtest in
  let* _ := mem in
  let* buf := pipe1 buf in
  let* buf := preempt buf in
  let* _ := exitwait in
  let* _ := rmdot in
  let* _ := fourteen in
  let* buf := bigfile buf in
  let* buf := subdir buf in
  let* buf := linktest buf in
  let* _ := unlinkread buf in
  let* _ := dirfile in
  let* _ := iref in
  let* _ := forktest in
  let* _ := bigdir in
  let* _ := uio in
  let* _ := exectest in
  exit.
End Usertests.
