(* ===== verification/UsertestsFacts.v ===== *)
(** Theorems on the test programs: the tests of usertests.c run on the small
    kernel of ProgramsFacts.v, which delivers data in pieces of any size, and the
    work of test1.c and test2.c ends with the result 0. *)

From Stdlib Require Import SpecFloat.
From ITree Require Import ITree ITreeFacts Events.State Events.StateFacts.
From stdpp Require Import gmap.
From S2P Require Import Prelude CString Spinlock Kalloc Proc Demo MlfqFacts ProcFacts Sleep Block Log Fs Vm VmFacts Userland Exec ExecFacts Programs ProgramsFacts Usertests.

#[local] Open Scope prog_scope.

(** * test1.c and test2.c *)

Lemma iter_fixed {A : Type} (f : A -> A) (x : A) n : f x = x -> Nat.iter n f x = x.
Proof. intros E. induction n as [|n IH]; [done|]. rewrite Nat.iter_succ, IH. exact E. Qed.

(** Once the number is 0 it stays 0; 120 turns are enough. *)
Lemma burn_zero prec emax x : Nat.iter 120 (Work.quot prec emax) x = 0 -> Work.quot prec emax 0 = 0 -> Work.burn prec emax x = 0.
Proof.
  intros E E0. unfold Work.burn. replace (Z.to_nat 20000000) with (Z.to_nat 19999880 + 120)%nat by lia.
  rewrite Nat.iter_add, E. by apply iter_fixed.
Qed.

(** The work of test1 and test2 has the result 0, in double precision and in the
    extended precision of the x87 unit. *)
Theorem work_result :
  map (Work.burn 53 1024) [999999999; 99999999; 9999999] = [0; 0; 0] /\ map (Work.burn 64 16384) [999999999; 99999999; 9999999] = [0; 0; 0].
Proof.
  cbn [map]. rewrite (burn_zero 53 1024 999999999), (burn_zero 53 1024 99999999), (burn_zero 53 1024 9999999) by (vm_compute; reflexivity).
  rewrite (burn_zero 64 16384 999999999), (burn_zero 64 16384 99999999), (burn_zero 64 16384 9999999) by (vm_compute; reflexivity). split; reflexivity.
Qed.

(** * usertests.c *)

Section Run.
Context (chunk : list Z -> Z -> nat) (pick : gmap Z (list Z) -> Z).
Implicit Types (w : world) (buf rest : list Z).

(** The events of the tests' own end the run. *)
Definition user_end : Usertests.userE ~> Monads.stateT world (itree endE) :=
  fun _ _ w => let* v := ITree.trigger Broken in match v : void with end.

Definition handler : sysE +' Usertests.userE ~> Monads.stateT world (itree endE) := fun _ e =>
  match e with inl1 e => kernel chunk pick _ e | inr1 e => user_end _ e end.

Definition run_test {A : Type} (t : Usertests.testp A) w : itree endE (world * A) := interp_state handler t w.

#[export] Instance run_test_eutt {A : Type} : Proper (eutt eq ==> eq ==> eutt eq) (@run_test A).
Proof. intros p p' Hp w w' <-. unfold run_test. by rewrite Hp. Qed.

Lemma test_bind {A B : Type} (p : Usertests.testp A) (k : A -> Usertests.testp B) w :
  run_test (ITree.bind p k) w ≈ ITree.bind (run_test p w) (fun '(w, a) => run_test (k a) w).
Proof. unfold run_test. rewrite interp_state_bind. apply eutt_eq_bind. intros [w' a]. reflexivity. Qed.

Lemma test_ret {A : Type} (a : A) w : run_test (Ret a) w ≈ Ret (w, a).
Proof. unfold run_test. rewrite interp_state_ret. reflexivity. Qed.

Lemma test_call {A : Type} (e : sysE A) w : run_test (Usertests.sys e) w ≈ kernel chunk pick A e w.
Proof. unfold run_test, Usertests.sys. rewrite interp_state_trigger. reflexivity. Qed.

Lemma test_seq {A B : Type} (p : Usertests.testp A) (k : A -> Usertests.testp B) w w' a :
  run_test p w ≈ Ret (w', a) -> run_test (let* x := p in k x) w ≈ run_test (k a) w'.
Proof. intros E. rewrite test_bind, E, bind_ret_l. reflexivity. Qed.

Lemma test_step {A B : Type} (e : sysE A) (k : A -> Usertests.testp B) w w' a :
  kernel chunk pick A e w = Ret (w', a) -> run_test (let* x := Usertests.sys e in k x) w ≈ run_test (k a) w'.
Proof. intros E. apply test_seq. rewrite test_call, E. reflexivity. Qed.

Lemma test_iter {I A : Type} (f : I -> Usertests.testp (I + A)) (i : I) w :
  run_test (ITree.iter f i) w ≈ run_test (let* r := f i in match r with inl i => ITree.iter f i | inr a => Ret a end) w.
Proof.
  apply run_test_eutt; [|done]. rewrite unfold_iter. apply eutt_eq_bind. intros [i'|a]; [apply tau_eutt|reflexivity].
Qed.

Lemma test_get {A : Type} (m : res A) a w : m = Ok a -> run_test (Usertests.get m) w ≈ Ret (w, a).
Proof. intros ->. unfold Usertests.get. cbn [lift]. rewrite translate_ret. apply test_ret. Qed.

(** A call of the programs as a call of the tests. *)
Lemma translate_call {A : Type} (e : sysE A) : translate inl1 (call e) ≈ Usertests.sys e.
Proof. apply (translate_trigger (H := fun _ x => x)). Qed.

Lemma test_put_all fd bs : forall w, run_test (translate inl1 (put_all fd bs)) w ≈ Ret (write_to fd bs w, tt).
Proof.
  induction bs as [|c bs IH]; intros w; cbn [put_all]; [rewrite translate_ret; apply test_ret|].
  rewrite translate_bind. rewrite (test_seq _ _ w (write_to fd [c] w) tt); [rewrite IH, write_to_app; reflexivity|].
  unfold putc. rewrite translate_bind, translate_call.
  rewrite (test_step (SWrite fd [c]) _ w (write_to fd [c] w) 1) by done. rewrite translate_ret. apply test_ret.
Qed.

Lemma test_printf fd fmt ap bs w : Printf.printf (bytes_of fmt) ap = Ok bs -> run_test (Usertests.printf fd fmt ap) w ≈ Ret (write_to fd bs w, tt).
Proof.
  intros E. unfold Usertests.printf, printf. rewrite E. cbn [lift]. rewrite translate_bind, translate_ret, bind_ret_l. apply test_put_all.
Qed.

Lemma test_exit {A : Type} w : run_test (Usertests.exit : Usertests.testp A) w ≈ ends_in w.
Proof.
  unfold Usertests.exit, exit, ends_in. rewrite translate_bind, translate_call, test_bind, test_call. cbn [kernel]. rewrite bind_bind. apply eutt_eq_bind. intros [].
Qed.

(** ** pipe1 *)

(** The bytes the child sends: 0, 1, 2, ..., modulo 256. *)
Definition sequence (q : Z) (n : nat) : list Z := map (fun i => u8 (q + Z.of_nat i)) (seq 0 n).
Definition pipe1_sent : list Z := sequence 0 (Z.to_nat 5165).

Lemma sequence_cons q n : sequence q (S n) = u8 q :: sequence (q + 1) n.
Proof.
  unfold sequence. cbn [seq map]. rewrite Z.add_0_r. f_equal. rewrite <- seq_shift, map_map. apply map_ext. intros i. f_equal. lia.
Qed.

Lemma in_sequence_spec bs : forall q, Forall (fun c => 0 <= c < 256) bs -> Usertests.in_sequence q bs = true <-> bs = sequence q (length bs).
Proof.
  induction bs as [|c bs IH]; intros q H; [done|]. apply Forall_cons in H as [Hc H]. cbn [Usertests.in_sequence length].
  rewrite sequence_cons, andb_true_iff, (IH _ H), Z.eqb_eq. change 0xff with (Z.ones 8). rewrite !Z.land_ones by lia. unfold u8.
  rewrite (Z.mod_small c) by done. change (2 ^ 8) with 256. split; [intros [-> H2]; by f_equal|by intros [= -> H2]].
Qed.

Lemma in_sequence_app b1 : forall q b2,
  Usertests.in_sequence q (b1 ++ b2) = Usertests.in_sequence q b1 && Usertests.in_sequence (q + Z.of_nat (length b1)) b2.
Proof.
  induction b1 as [|c b1 IH]; intros q b2; cbn [app Usertests.in_sequence length]; [by rewrite Z.add_0_r|].
  rewrite IH, andb_assoc. do 2 f_equal. lia.
Qed.

Lemma put_length bs buf : (length bs <= length buf)%nat -> length (Usertests.put bs buf) = length buf.
Proof. intros H. unfold Usertests.put. rewrite length_app, length_drop. lia. Qed.

Lemma put_read bs buf what : (length bs <= length buf)%nat -> get_bytes what (Usertests.put bs buf) 0 (length bs) = Ok bs.
Proof.
  intros H. unfold get_bytes. rewrite (put_length _ _ H), (proj2 (Z.leb_le (0 + _) _)) by lia. cbn [Z.leb andb Z.to_nat Z.compare].
  unfold Usertests.put. by rewrite drop_0, take_app_length.
Qed.

Hypothesis Hchunk : chunk_ok chunk.

Lemma pipe1_reads fd rest : forall q cc total buf w,
  w_open w !! fd = Some rest -> 1 <= cc <= 8192 -> length buf = Z.to_nat 8192 ->
  exists w' buf', run_test (Usertests.pipe1_reading fd (q, cc, total, buf)) w ≈
    Ret (w', (if Usertests.in_sequence q rest then Some (total + Z.of_nat (length rest)) else None, buf')).
Proof.
  remember (length rest) as m eqn:Hm. revert rest Hm. induction (lt_wf m) as [m _ IH]. intros rest -> q cc total buf w E Hcc Hbuf.
  unfold Usertests.pipe1_reading. setoid_rewrite test_iter. setoid_rewrite bind_bind. destruct (decide (rest = [])) as [->|Hne].
  - exists w, (Usertests.put [] buf). rewrite (test_step _ _ w w (0, [])) by (by apply read_end). cbn [Z.ltb Z.compare].
    rewrite bind_ret_l, test_ret, Z.add_0_r. reflexivity.
  - destruct (Hchunk rest cc ltac:(lia) Hne) as [Hk Hkc]. set (k := chunk rest cc) in *.
    assert (kernel chunk pick _ (SRead fd cc) w = Ret (left fd (drop k rest) w, (Z.of_nat k, take k rest))) as Er.
    { cbn [kernel]. rewrite E. by destruct rest. }
    assert (length (take k rest) = k) as Hl by (rewrite length_take; lia).
    assert (get_bytes "buf" (Usertests.put (take k rest) buf) 0 (Z.to_nat (Z.of_nat k)) = Ok (take k rest)) as Eg.
    { rewrite Nat2Z.id. rewrite <- Hl at 2. apply put_read. lia. }
    assert (Usertests.in_sequence q rest = Usertests.in_sequence q (take k rest) && Usertests.in_sequence (q + Z.of_nat k) (drop k rest)) as ->.
    { rewrite <- Hl at 2. by rewrite <- in_sequence_app, take_drop. }
    setoid_rewrite (test_step _ _ w _ _ Er). rewrite (proj2 (Z.ltb_lt 0 (Z.of_nat k))) by lia.
    setoid_rewrite bind_bind. setoid_rewrite (test_seq _ _ _ _ _ (test_get _ _ _ Eg)).
    destruct (Usertests.in_sequence q (take k rest)) eqn:Eq; cbn [andb].
    + setoid_rewrite bind_ret_l.
      destruct (IH (length (drop k rest)) ltac:(rewrite length_drop; lia) (drop k rest) eq_refl (q + Z.of_nat k)
        (if Usertests.BUF <? cc * 2 then Usertests.BUF else cc * 2) (total + Z.of_nat k) (Usertests.put (take k rest) buf) (left fd (drop k rest) w))
        as (w' & buf' & Hr); [apply lookup_insert_eq|unfold Usertests.BUF; destruct (Z.ltb_spec 8192 (cc * 2)); lia|rewrite put_length; lia|].
      exists w', buf'. rewrite length_drop in Hr. replace (total + Z.of_nat (length rest)) with (total + Z.of_nat k + Z.of_nat (length rest - k)) by lia.
      exact Hr.
    + exists (write_to 1 (bytes_of "pipe1 oops 2" ++ [10]) (left fd (drop k rest) w)), (Usertests.put (take k rest) buf). rewrite bind_bind.
      rewrite (test_seq _ _ _ (write_to 1 (bytes_of "pipe1 oops 2" ++ [10]) (left fd (drop k rest) w)) tt) by by apply test_printf.
      rewrite bind_ret_l. apply test_ret.
Qed.

(** What [k] turns of the child send, from turn [n] on. *)
Fixpoint turns (k : nat) (n : Z) : list Z :=
  match k with O => [] | S k => sequence (n * 1033) 1033 ++ turns k (n + 1) end.

Lemma turns_sent : turns 5 0 = pipe1_sent.
Proof. vm_compute. reflexivity. Qed.

Lemma pipe1_writes fd k : forall n buf w,
  exists buf', run_test (Usertests.loop k n (Usertests.pipe1_turn fd) buf) w ≈ Ret (write_to fd (turns k n) w, buf').
Proof.
  induction k as [|k IH]; intros n buf w; cbn [Usertests.loop turns]; [exists buf; apply test_ret|].
  set (bs := sequence (n * 1033) 1033). destruct (IH (n + 1) (Usertests.put bs buf) (write_to fd bs w)) as [buf' Hr]. exists buf'.
  rewrite write_to_app in Hr. rewrite <- Hr. apply test_seq. unfold Usertests.pipe1_turn. fold (sequence (n * 1033) 1033). fold bs.
  assert (length bs = 1033%nat) as Hl by (unfold bs, sequence; by rewrite length_map, length_seq).
  assert (take 1033 (Usertests.put bs buf) = bs) as -> by (unfold Usertests.put; rewrite <- Hl; apply take_app_length).
  rewrite (test_step _ _ w (write_to fd bs w) 1033); [apply test_ret|]. cbn [kernel]. by rewrite Hl.
Qed.

(** C27: pipe1 accepts a pipe exactly when it is right: the child sends the 5165
    bytes of [pipe1_sent], and whatever the sizes of the pieces in which the
    pipe delivers its bytes, the parent's loop ends and its total is 5165
    without a wrong byte if and only if the bytes are those sent. *)
Theorem pipe1_exact rfd wfd rest buf w :
  w_open w !! rfd = Some rest -> Forall (fun c => 0 <= c < 256) rest -> length buf = Z.to_nat Usertests.BUF ->
  run_test (Usertests.pipe1_write wfd buf) w ≈ ends_in (write_to wfd pipe1_sent w) /\
  exists w' total buf', run_test (Usertests.pipe1_read rfd buf) w ≈ Ret (w', (total, buf')) /\ (total = Some (5 * 1033) <-> rest = pipe1_sent).
Proof.
  intros E Hb Hbuf. split.
  - destruct (pipe1_writes wfd 5 0 buf w) as [buf' Hr]. unfold Usertests.pipe1_write.
    rewrite (test_seq _ _ _ _ _ Hr), turns_sent. apply test_exit.
  - destruct (pipe1_reads rfd rest 0 1 0 buf w E ltac:(lia) Hbuf) as (w' & buf' & Hr). exists w', (if Usertests.in_sequence 0 rest then Some (0 + Z.of_nat (length rest)) else None), buf'.
    split; [exact Hr|]. pose proof (in_sequence_spec rest 0 Hb) as Hs. destruct (Usertests.in_sequence 0 rest) eqn:Eq.
    + destruct Hs as [Hs _]. split; [intros [= Hl]|intros ->; reflexivity].
      rewrite Hs by done. unfold pipe1_sent. f_equal. lia.
    + split; [done|]. intros ->. enough (false = true) by done. by apply Hs.
Qed.

(** ** writetest1 *)

(** The loop that reads the big file back ends without a complaint also when the
    file is empty: only the length of 139 blocks is refused. *)
Theorem writetest1_short fd buf w : w_open w !! fd = Some [] -> run_test (Usertests.writetest1_read fd buf) w ≈ Ret (w, buf).
Proof.
  intros E. unfold Usertests.writetest1_read. rewrite test_iter, bind_bind. rewrite (test_step _ _ w w (0, [])) by (by apply read_end).
  change (0 =? 0) with true. cbv iota. change (0 =? MAXFILE - 1) with false. cbv iota. rewrite bind_ret_l. apply test_ret.
Qed.
End Run.

(** A world in which the descriptor 3 delivers what the child sends. *)
Definition pipe_world : world := mkWorld ∅ {[ 3 := pipe1_sent ]} ∅.

Lemma pipe1_exact_witness : exists w' buf',
  run_test demo_chunk demo_pick (Usertests.pipe1_read 3 (repeat 0 (Z.to_nat Usertests.BUF))) pipe_world ≈ Ret (w', (Some 5165, buf')).
Proof.
  destruct (pipe1_exact demo_chunk demo_pick demo_chunk_ok 3 4 pipe1_sent (repeat 0 (Z.to_nat Usertests.BUF)) pipe_world) as (_ & w' & total & buf' & Hr & Ht).
  - apply lookup_insert_eq.
  - apply Forall_map, Forall_forall. intros i _. apply Z.mod_pos_bound. reflexivity.
  - apply repeat_length.
  - exists w', buf'. rewrite (proj2 Ht eq_refl) in Hr. exact Hr.
Defined.

Lemma writetest1_short_witness :
  run_test demo_chunk demo_pick (Usertests.writetest1_read 3 (repeat 0 (Z.to_nat Usertests.BUF))) (mkWorld ∅ {[ 3 := [] ]} ∅) ≈
  Ret (mkWorld ∅ {[ 3 := [] ]} ∅, repeat 0 (Z.to_nat Usertests.BUF)).
Proof. apply (writetest1_short demo_chunk demo_pick 3). apply lookup_insert_eq. Defined.

(** ** bigargtest *)

Lemma below_bigarg sp a : sp mod 4 = 0 -> length a = 220%nat -> below sp a = sp - 224.
Proof. intros Hs Hl. unfold below, down4. rewrite Hl. cbn [Z.of_nat]. Z.div_mod_to_equations. lia. Qed.

Lemma bottom_bigargs a k : forall sp, sp mod 4 = 0 -> length a = 220%nat -> bottom sp (repeat a k) = sp - 224 * Z.of_nat k.
Proof.
  induction k as [|k IH]; intros sp Hs Hl; cbn [repeat bottom]; [lia|]. rewrite (below_bigarg sp a Hs Hl), IH; [lia| |done].
  Z.div_mod_to_equations. lia.
Qed.

(** The arguments of bigargtest do not fit on the stack: [exec], whatever
    program it loads, stops at the guard page and gives up, with no memory
    changed outside of the stack page.  So the test passes its [exec]. *)
Theorem bigargs_refused kend h m pgdir T L base t : KERNBASE <= kend -> stack_page kend h pgdir T L base t ->
  exists h', Exec.build_stack pgdir (base + PGSIZE) Usertests.bigargs h m = Ok (None, h', m) /\
    (forall y, y < t \/ t + PGSIZE <= y -> p_mem h' y = p_mem h y).
Proof.
  intros Hk H. pose proof (sk_base _ _ _ _ _ _ _ H) as (Hal & Hlo & Hhi).
  assert (bottom (base + PGSIZE) Usertests.bigargs = base + PGSIZE - 224 * 31) as Eb.
  { apply bottom_bigargs; [|vm_compute; reflexivity]. unfold PGSIZE in *. Z.div_mod_to_equations. lia. }
  destruct (build_stack_ok kend Hk h m pgdir T L base t Usertests.bigargs H) as (r & h' & E & F & R).
  - apply (bool_decide_unpack _). vm_compute. exact I.
  - vm_compute. discriminate.
  - rewrite Eb. cbn [length Usertests.bigargs repeat]. unfold PGSIZE. lia.
  - exists h'. rewrite Eb in R. cbn [length Usertests.bigargs repeat] in R. rewrite (proj2 (Z.leb_gt _ _)) in R by (unfold PGSIZE; lia). rewrite R in E. done.
Qed.

Lemma bigargs_refused_witness :
  exists h', Exec.build_stack demo_pgdir 0x3000 Usertests.bigargs demo_exec (demo_machine 0 None) = Ok (None, h', demo_machine 0 None) /\
    (forall y, y < demo_stack \/ demo_stack + PGSIZE <= y -> p_mem h' y = p_mem demo_exec y).
Proof. apply (bigargs_refused kernel_end demo_exec (demo_machine 0 None) demo_pgdir demo_T _ 0x2000 demo_stack demo_kend demo_stack_page). Defined.
